(* ===== verification/_CoqProject ===== *)
-Q . S2P
Prelude.v
Prog.v
Net.v
Sha256.v
Api.v
Ipam.v
Message.v
Json.v
ControllerUtils.v
PolicyEvaluator.v
Provision.v
PeerResolver.v
Generator.v
Infra.v
PeerController.v
ResourceControllers.v
PeeringController.v
ClusterPeering.v
Relay.v
Transport.v
Agent.v
Device.v
Dialers.v
IceDialer.v
Bind.v
Store.v
Access.v
Invitations.v
Workflow.v
Workspaces.v
Ai.v
Mgmt.v
Policies.v
Peers.v
Tokens.v
Push.v
Relays.v
Alerts.v
AuditTrail.v
Signal.v
Llm.v
Dashboard.v
Telemetry.v
Notifiers.v
RelayLink.v
Routes.v
Config.v
Boot.v
Server.v
Accounts.v
Cli.v
AuditQuery.v
Turn.v
TaskLoop.v
Setup.v
Status.v
Manager.v
Windows.v
