(* ===== verification/Prelude.v ===== *)
(** * Lattice: a verification of the control plane, the agent, the relay and the
      management server's services

    Lattice builds WireGuard networks.  Its control plane is a set of Kubernetes
    reconcilers: peers, networks, policies, enrollment tokens, relays and network
    peerings are custom resources, and each reconciler brings the cluster closer
    to what its resource asks for.  From a peer's network and policies the control
    plane computes the peers it connects to and its firewall rules, and writes
    them as a message to a config map.  The agent on the peer applies the message:
    it starts a probe per remote peer, which finds a direct (ICE) or relayed
    (WRRP) transport and configures WireGuard, and it rebuilds the host firewall.
    Relays forward frames between clients that cannot reach each other.  A
    management server lets users of workspaces (one Kubernetes namespace each)
    administer networks: accounts, roles, invitations, requests that need an
    approval, and an assistant that calls tools on a user's behalf.

    ** How the program is modelled

    - Go code that only computes is a Gallina function; [range] over a map is
      taken in every order ([MapRange], below), one order per run; where two runs
      matter they may have two orders ([Reconcile_up_to_date], [order_changes_hash]).
    - Code that calls out (the Kubernetes client, the operating system, WireGuard,
      a clock) is a [prog] of file Prog: a tree of calls, each answered by the
      environment.  What the environment answers is not fixed: theorems hold for
      every answer ([wp]), for every world that satisfies a class of documented
      laws ([runs]), or for every interleaving with other callers ([pstep]).  Worlds
      that write down the calls, and with what they were answered, tell which were made
      ([logged_world], [ai_log], [answered_mgmt], [boot_world], [send_world]).
    - [(value, error)] is the sum [gresult]; an early return on an error is
      [x ←? p; k]; a Go panic is [Panic], and [wp] excludes it.
    - Machine integers are [Z] with the wrap-around written out ([u32], [u64]).

    ** Files

    - Prelude: errors, integers, byte lists, strings, map ranges, sorting.
    - Prog: programs with calls, [wp], runs in a world, interleaving and
      rely-guarantee reasoning, functional worlds for evaluation.
    - Net: [net.IP], masks, [ParseIP], [ParseCIDR].  Sha256: [crypto/sha256].
    - Api: the resource types of api/v1alpha1 and the client calls [apiE].
    - Ipam: internal/agent/ipam/ipam.go ([FindFirstFree], [AllocateSubnet],
      [AllocateIP], [ReleaseIP]).
    - Message, Json: internal/agent/infra/message.go and its JSON encoding.
    - ControllerUtils, PolicyEvaluator, PeerResolver, Generator: utils.go,
      policy_evaluator.go, peer_resolver.go and detector.go of
      internal/agent/controller.
    - Provision: internal/agent/provision (iptables, pf, Windows firewall).
    - Infra: internal/agent/infra/peer.go and wrrp.go.
    - PeerController: internal/agent/controller/peer_controller.go, the whole
      [Reconcile] with its phase handlers.
    - ResourceControllers: network_controller.go, networkpolicy_controller.go,
      token_controller.go, relay_controller.go.  PeeringController:
      peering_controller.go.  ClusterPeering: cluster_peering_controller.go and the
      gateway handler of internal/server/server/peering.go that it asks.
    - Relay: internal/relay (frames, session manager, servers, clients).
    - Transport: internal/server/transport (state machine, configurator, probe,
      the probe factory's callbacks).  Agent: message_handler.go and the peer
      methods of node.go in internal/agent, with the factory's table.
    - Device: the texts of internal/agent/infra/device_conf.go and
      internal/agent/provision/provisioner.go, and [Start], [Stop] and [SetConfig]
      of node.go.  Bind: conn.go, mux_filter.go and chan_conn.go of
      internal/agent/infra, the sockets under WireGuard.
    - Dialers: wrrp_dialer.go and the probe's use of it.  IceDialer:
      ice_dialer.go ([Prepare], [Dial], [Handle], the offer, answer and candidate
      handling, the agent's callbacks), both in internal/server/transport.
    - Store: the models, the repositories and the gorm store of the management
      server, each method as queries of a table, and the class [GormDB] of what
      the database does with them.
    - Access: internal/server/server/middleware (authentication, workspace roles,
      platform admin), the token revocation list, permissions and pkg/utils/jwt.go.
    - Invitations, Workflow, Workspaces, Ai: invitation.go, workflow.go, workspace.go
      with user.go, and ai.go of internal/server/service, and their handlers.
    - Mgmt: what the services below share (Kubernetes objects as the management
      server uses them, pages, answers).  Policies, Peers, Tokens, Relays: policy.go,
      peer.go, token.go with network.go, relay.go with peering.go of
      internal/server/service, the resource clients they call and their HTTP and NATS
      handlers.  Push: the watcher of internal/server/resource/client.go that sends
      configurations to agents.
    - Alerts: internal/monitor (engine, gateway, adapters, templates), alertService.go
      and the handlers of server/alert.go.  Notifiers: the channels of
      internal/monitor/alert/notifier and how an alert's text reaches them.  Dashboard:
      service/monitor.go, the queries of the metrics database and the pages made of
      the answers.  AuditTrail: the audit middleware and the queue of
      service/audit.go.
    - Signal: internal/server/nats, internal/server/client/client.go (requests with their
      retries, enrolling), internal/agent/heartbeat.go, [Handle] of the probe factory and
      the reconnection of node.go.  Agents and the server meet here: what a client asks
      over the bus is answered by the handlers of Peers and of server.go.
    - RelayLink: the dialing, handshake and queues of the clients of internal/relay.
      Telemetry: internal/telemetry (what is collected, the remote-write encoding, the
      pushes).
    - Llm: the model clients of internal/server/llm, as the conversations of Ai see
      them.  Routes: the HTTP handlers of
      requests that need an approval, of invitations, the assistant and the dashboards.
    - Config: internal/agent/config and the preparation of cmd/lattice/cmd/up.go.
      Boot: internal/agent/run.go, [NewNode] of node.go and internal/dns.  Windows:
      run_windows.go.  Manager: internal/agent/controller/run.go and its command.
    - Server: internal/server/server (server.go, api.go and the routers), run.go, the
      opening of the database, middleware/cors.go and the pages of the dashboard: what a
      request passes on its way to a handler.
    - Accounts: the list of users, profiles and custom metrics of
      internal/server/service with their handlers, and signing in with Dex.  AuditQuery:
      reading the audit log, internal/db/gormstore/audit.go and its handler.
    - Cli: the commands of cmd/lattice, the client of internal/agent/client and the
      handlers of the server that answer it; Module Init is the command that writes the
      first configuration.  Status: wireguard/status.go and the texts of message.go.
    - Turn: the TURN client and server of internal/relay.  TaskLoop:
      pkg/utils/taskloop.go.  Setup: the connection to the bus, the device on macOS, the
      ICE agent and the indexes of the server's Kubernetes client.

    ** What the theorems show

    - Addresses (C1 to C4, C6): concurrent allocations never hand out an address or a
      subnet twice, the first-free search returns the first free subnet, only
      usable addresses are given, and exhaustion is reported only when it is real.
    - Policies (C7, C8): [Evaluate] emits exactly the flows the policies name; of the
      iptables chains made of them, a packet that no rule names is dropped, and any other
      is decided by a flow that names it, where ALLOW wins within the flow.
    - Configuration of a peer (C10): the generated message is the one the snapshot
      calls for, rules of policies included, when the selectors of the policies parse;
      one that does not is a panic ([bad_selector_panics]).
    - Reconcilers (C13 to C15): no panic, when selectors parse, writes only to their own
      objects, nothing to do when the recorded hash is that of the configuration, in the
      order of maps it was made with or where the order cannot show, and why a cluster
      peering never becomes ready; their process does what its settings ask for, in
      order ([controllers_Start_spec]).
    - Relay (C17, C22 to C24): framing under truncation, the session manager as a
      routing table, the queues of a link, and the relays a client refuses.
    - Agent (C16, C21, C25 to C27, C29, C38): the text that configures WireGuard read
      back, settings that are saved and loaded, the order in which a node is made,
      enrolling included, an invariant of every interleaving of a probe's goroutines,
      which calls a message makes and what it leaves in the node, the WRRP handshake of
      two dialers with the [Dial]s that wait for it ([only_initiator_dials]: they may
      end differently), and that enrolling over the bus is the server's enrolling. The
      plain theorems next to them ([unreachable_probe_stuck],
      [restart_when_ready_ignored], [late_syn_restarts], [offer_without_agent_panics],
      [Parse_rejects_String], [readLoop_spins], [stop_finds_agent],
      [registered_relay_unused], [hidden_variable], [win_Start_errors],
      [GetRelayInfo_once]) show where the code departs from its intent.
    - Management server (C9, C12, C18 to C20, C28, C31 to C37, C39, C40): what the start
      needs and leaves, what a caller must be for a handler to run (some handlers ask
      only for a token), who gets a page by signing in with Dex, that a command of the
      command line is done once, that a request passes the role check only with a valid
      token of an active member of at least that role or a platform admin, that a
      revoked token is refused where the list of revoked tokens is asked, and only
      there, what accepting an invitation does on every branch, that an invitation is
      used once, whichever way and whatever is done later, that a submitted policy is
      applied once as if it were applied directly and its row says what became of it,
      that a workflow request is executed at most once when it is approved by one caller
      at a time, that a configuration is pushed once, what enrolling a peer writes, that
      its token is one that was listed and its use is counted, and which token checks it
      lacks ([Register_any_token]), the shape of generated slugs, that the providers of
      models agree on a conversation, and that the chat loop ends and what it sends.
    - Monitoring (C5, C11, C30): samples survive their encoding, alerts fire and
      resolve in turn, and that the audit queue neither loses, repeats nor
      reorders what it took, and has written it all when it stops.

    ** Bounds

    Recursion that is not structural has fuel, and no theorem depends on a fuel
    running out: the subnet scan runs for one more than the listed subnets, after
    which a free one must have come ([FindFirstFree_correct]); address claiming
    for the size of the address range; a relay session for the length of its
    input, as each turn consumes a header ([session_loop_fuel]).  [run_alone]
    takes any fuel.  The chat loop of Ai has the code's own bound, the configured
    number of tool rounds; so have the requests of an agent (five attempts), the pushes
    of samples (the configured retries), and the retry loops of the controllers and of
    [RetryOnConflict] (five attempts).  A varint takes at most the ten bytes of a 64-bit
    integer, and a number of bytes needs one of six units ([status_formatBytes_spec]).  A
    batch of packets is written in at most one call per message
    ([write_batches], whose fuel is one more; [Send_goes] shows that it does not run
    out).

    ** Not modelled

    Logging; methods that only pass a call on (the controllers of internal/server),
    constructors that only fill in fields, and generated code (deep copies, protobuf and
    gRPC stubs); HTTP, NATS, gRPC and database plumbing, and the redirects of gin; the
    eBPF enforcer, whose filter is loaded into the kernel; the parsing of arguments and
    the layout of printed tables; the device on Windows; the tools under hack and types
    that nothing uses (internal/agent/tunnel); code of the Kubernetes client, gorm, the
    JWT library, viper, the DNS and QUIC libraries, encoding/json on foreign shapes
    (nulls in the lists of a message among them), pion/ice and WireGuard (parameters,
    with the laws relied on as classes); IPv6 text ([IPv6Text]); the web front end. A
    watch's delivery order is not modelled: each reconcile starts from an arbitrary
    cluster. A state machine's transition runs with its callbacks as one step. Removing
    a peer from WireGuard is taken to succeed ([WGDevice]). Operations on the database
    follow one another: how it isolates those that overlap is not modelled.
    [strings.TrimSpace] trims ASCII white space.

    ** Where it could grow

    The alerts' repositories over the laws of the database, the resolution of gin's
    redirects, and the delivery order of watches. *)

From Stdlib Require Export ZArith Lia Ascii.
From stdpp Require Export base gmap strings list sorting pretty.

#[global] Open Scope Z_scope.
#[global] Open Scope list_scope.
#[global] Arguments String.append : simpl nomatch.

(** Notations of the development. *)
Declare Scope lattice_scope.
Delimit Scope lattice_scope with lattice.
#[global] Open Scope lattice_scope.

(** Ranges of machine integers, byte lists and their lengths. *)
Create HintDb lattice.
Create Rewrite HintDb lattice.

(** ** Errors and results *)

(** The reasons of a Kubernetes API status error that the code tests with
    [errors.IsNotFound], [errors.IsAlreadyExists] and [errors.IsConflict]. *)
Inductive StatusReason := NotFound | AlreadyExists | Conflict | OtherReason.

#[global] Instance StatusReason_eq_dec : EqDecision StatusReason.
Proof. solve_decision. Defined.

(** A Go [error] value: an API status error, an [errors.New]/[fmt.Errorf]
    text, or a text wrapped around another error with [%w].  [ErrFuel] is not
    an error of the program: it is the answer of a bounded unrolling of a Go
    loop that ran past its bound, and the theorems show it is never given. *)
Inductive gerror :=
| ErrStatus (r : StatusReason) (msg : string)
| ErrText (msg : string)
| ErrWrap (msg : string) (e : gerror)
| ErrFuel.

#[global] Instance gerror_eq_dec : EqDecision gerror.
Proof. solve_decision. Defined.

Fixpoint reason_of (e : gerror) : option StatusReason :=
  match e with
  | ErrStatus r _ => Some r
  | ErrWrap _ e => reason_of e
  | _ => None
  end.

Definition IsNotFound (e : gerror) : bool := bool_decide (reason_of e = Some NotFound).
Definition IsAlreadyExists (e : gerror) : bool :=
  bool_decide (reason_of e = Some AlreadyExists).
Definition IsConflict (e : gerror) : bool := bool_decide (reason_of e = Some Conflict).

(** [err.Error()]. *)
Fixpoint error_text (e : gerror) : string :=
  match e with
  | ErrStatus _ m => m
  | ErrText m => m
  | ErrWrap m e => m +:+ ": " +:+ error_text e
  | ErrFuel => ""
  end.

(** The pair [(value, error)] of a Go call, as a sum. *)
Abbreviation gresult A := (gerror + A)%type.

(** ** Machine integers *)

Definition u8 (z : Z) : Z := z mod 2 ^ 8.
Definition u16 (z : Z) : Z := z mod 2 ^ 16.
Definition u32 (z : Z) : Z := z mod 2 ^ 32.
Definition u64 (z : Z) : Z := z mod 2 ^ 64.

(** [x << n] on a [uint32]: a shift count of 32 or more gives 0. *)
Definition shl32 (x n : Z) : Z := if n <? 32 then u32 (Z.shiftl x n) else 0.

Lemma pow2_pos n : 0 <= n -> 0 < 2 ^ n.
Proof. intros. apply Z.pow_pos_nonneg; lia. Qed.

Lemma u32_small z : 0 <= z < 2 ^ 32 -> u32 z = z.
Proof. apply Z.mod_small. Qed.

Lemma u32_range z : 0 <= u32 z < 2 ^ 32.
Proof. apply Z.mod_pos_bound. lia. Qed.

Lemma u64_range z : 0 <= u64 z < 2 ^ 64.
Proof. apply Z.mod_pos_bound. lia. Qed.

Lemma u64_small z : 0 <= z < 2 ^ 64 -> u64 z = z.
Proof. apply Z.mod_small. Qed.

Lemma u16_small z : 0 <= z < 2 ^ 16 -> u16 z = z.
Proof. apply Z.mod_small. Qed.

Lemma shl32_1 n : 0 <= n < 32 -> shl32 1 n = 2 ^ n.
Proof.
  intros Hn. unfold shl32. destruct (Z.ltb_spec n 32); [|lia].
  rewrite Z.shiftl_1_l. apply u32_small. split; [lia|].
  apply Z.pow_lt_mono_r; lia.
Qed.

(** ** Big- and little-endian byte lists ([encoding/binary]) *)

Fixpoint le_bytes (n : nat) (z : Z) : list Z :=
  match n with
  | O => []
  | S n => z mod 256 :: le_bytes n (z / 256)
  end.

Fixpoint le_value (l : list Z) : Z :=
  match l with
  | [] => 0
  | b :: l => b + 256 * le_value l
  end.

Definition be_bytes (n : nat) (z : Z) : list Z := reverse (le_bytes n z).
Definition be_value (l : list Z) : Z := le_value (reverse l).

Definition is_byte (b : Z) : Prop := 0 <= b < 256.

Lemma length_le_bytes n z : length (le_bytes n z) = n.
Proof. revert z; induction n; simpl; auto. Qed.

Lemma le_bytes_byte n z : Forall is_byte (le_bytes n z).
Proof.
  revert z; induction n; simpl; constructor; auto.
  apply Z.mod_pos_bound. lia.
Qed.

Lemma le_value_bytes n z : le_value (le_bytes n z) = z mod 256 ^ Z.of_nat n.
Proof.
  revert z; induction n as [|n IH]; intros z; simpl le_value.
  - by rewrite Z.mod_1_r.
  - rewrite IH, Nat2Z.inj_succ, Z.pow_succ_r by lia.
    rewrite Z.rem_mul_r by (try apply Z.pow_nonzero; lia). lia.
Qed.

Lemma le_bytes_value l : Forall is_byte l -> le_bytes (length l) (le_value l) = l.
Proof.
  induction 1 as [|b l Hb Hl IH]; simpl; [done|]. unfold is_byte in Hb.
  replace (b + 256 * le_value l) with (b + le_value l * 256) by lia.
  rewrite Z.mod_add, Z.div_add, Z.mod_small, Z.div_small, Z.add_0_l by lia.
  by rewrite IH.
Qed.

Lemma length_be_bytes n z : length (be_bytes n z) = n.
Proof. unfold be_bytes. by rewrite length_reverse, length_le_bytes. Qed.

Lemma be_value_bytes n z : be_value (be_bytes n z) = z mod 256 ^ Z.of_nat n.
Proof. unfold be_value, be_bytes. by rewrite reverse_involutive, le_value_bytes. Qed.

Lemma be_bytes_value l : Forall is_byte l -> be_bytes (length l) (be_value l) = l.
Proof.
  intros H. unfold be_value, be_bytes. rewrite <- (length_reverse l).
  rewrite le_bytes_value by (by apply Forall_reverse).
  apply reverse_involutive.
Qed.

Lemma le_bytes_inj n x y :
  0 <= x < 256 ^ Z.of_nat n -> 0 <= y < 256 ^ Z.of_nat n ->
  le_bytes n x = le_bytes n y -> x = y.
Proof.
  intros Hx Hy H. apply (f_equal le_value) in H.
  by rewrite !le_value_bytes, !Z.mod_small in H.
Qed.

Lemma be_bytes_byte n z : Forall is_byte (be_bytes n z).
Proof. apply Forall_reverse, le_bytes_byte. Qed.

#[export] Hint Resolve u32_range u64_range le_bytes_byte be_bytes_byte pow2_pos : lattice.
#[export] Hint Rewrite length_le_bytes length_be_bytes @length_app @length_replicate : lattice.

(** Closes [Forall is_byte] of a list of known bytes. *)
Ltac byte_list := repeat (apply Forall_cons; split; [assumption|]); by apply Forall_nil.
(** Decides a boolean comparison of naturals from the arithmetic in the context. *)
Ltac decide_len :=
  repeat first [rewrite bool_decide_true by (autorewrite with lattice in *; lia)
               |rewrite bool_decide_false by (autorewrite with lattice in *; lia)].

(** ** Strings

    Go strings are byte strings; [String.string] is the same data. *)

Fixpoint str_drop (n : nat) (s : string) : string :=
  match n, s with
  | S n, String _ s => str_drop n s
  | _, _ => s
  end.

Fixpoint str_take (n : nat) (s : string) : string :=
  match n, s with
  | S n, String c s => String c (str_take n s)
  | _, _ => ""
  end.

Definition has_prefix (p s : string) : bool := String.prefix p s.

(** [strings.TrimPrefix(s, p)]. *)
Definition trim_prefix (s p : string) : string :=
  if has_prefix p s then str_drop (String.length p) s else s.

Definition has_suffix (x s : string) : bool :=
  bool_decide (String.length x <= String.length s)%nat &&
  bool_decide (str_drop (String.length s - String.length x) s = x).

(** [strings.TrimSuffix(s, x)]. *)
Definition trim_suffix (s x : string) : string :=
  if has_suffix x s then str_take (String.length s - String.length x) s else s.

(** [strings.Contains(s, string(c))] for a one-byte needle. *)
Fixpoint contains_char (c : ascii) (s : string) : bool :=
  match s with
  | EmptyString => false
  | String d s => bool_decide (c = d) || contains_char c s
  end.

(** [strings.Contains(s, n)]. *)
Fixpoint str_contains (n s : string) : bool :=
  has_prefix n s || match s with EmptyString => false | String _ s => str_contains n s end.

(** [strings.Split(s, string(c))[0]]: everything before the first [c]. *)
Fixpoint before_char (c : ascii) (s : string) : string :=
  match s with
  | EmptyString => ""
  | String d s => if bool_decide (c = d) then "" else String d (before_char c s)
  end.

(** Everything after the first [c], if there is one. *)
Fixpoint after_char (c : ascii) (s : string) : option string :=
  match s with
  | EmptyString => None
  | String d s => if bool_decide (c = d) then Some s else after_char c s
  end.

(** [strings.TrimSpace(s) == ""] on ASCII white space. *)
Fixpoint is_blank (s : string) : bool :=
  match s with
  | EmptyString => true
  | String c s => Ascii.is_space c && is_blank s
  end.

Definition lower_ascii (c : ascii) : ascii :=
  let n := nat_of_ascii c in
  if bool_decide (65 <= n <= 90)%nat then ascii_of_nat (n + 32) else c.

Fixpoint str_lower (s : string) : string :=
  match s with
  | EmptyString => ""
  | String c s => String (lower_ascii c) (str_lower s)
  end.

(** [strings.ToUpper] on ASCII. *)
Definition upper_ascii (c : ascii) : ascii :=
  let n := nat_of_ascii c in
  if bool_decide (97 <= n <= 122)%nat then ascii_of_nat (n - 32) else c.

Fixpoint str_upper (s : string) : string :=
  match s with
  | EmptyString => ""
  | String c s => String (upper_ascii c) (str_upper s)
  end.

(** [strings.EqualFold] against an ASCII word whose letters have no
    non-ASCII case variants. *)
Definition equal_fold (s t : string) : bool := bool_decide (str_lower s = str_lower t).

(** [strings.Join]. *)
Fixpoint str_join (sep : string) (l : list string) : string :=
  match l with
  | [] => ""
  | [s] => s
  | s :: l => s +:+ sep +:+ str_join sep l
  end.

(** [fmt]'s [%q] for a string without characters that need escaping. *)
Definition go_quote (s : string) : string :=
  let q := String (ascii_of_nat 34) "" in q +:+ s +:+ q.

Definition hex_digit (d : Z) : ascii :=
  ascii_of_nat (Z.to_nat (if d <? 10 then 48 + d else 87 + d)).

Fixpoint hex_encode (l : list Z) : string :=
  match l with
  | [] => ""
  | b :: l => String (hex_digit (b / 16)) (String (hex_digit (b mod 16)) (hex_encode l))
  end.

Lemma str_drop_app p s : str_drop (String.length p) (p +:+ s) = s.
Proof. induction p as [|c p IH]; simpl; [by destruct s|done]. Qed.

Lemma prefix_app p s : String.prefix p (p +:+ s) = true.
Proof. induction p as [|c p IH]; simpl; [by destruct s|]. destruct (ascii_dec c c); congruence. Qed.

Lemma prefix_true p s : String.prefix p s = true <-> exists t, s = p +:+ t.
Proof.
  split.
  - revert s; induction p as [|c p IH]; intros s; simpl; [by exists s|].
    destruct s as [|d s]; [done|]. simpl. destruct (ascii_dec c d) as [->|]; [|done].
    intros [t ->]%IH. by exists t.
  - intros [t ->]. apply prefix_app.
Qed.

Lemma trim_prefix_app p s : trim_prefix (p +:+ s) p = s.
Proof. unfold trim_prefix, has_prefix. by rewrite prefix_app, str_drop_app. Qed.

Lemma length_app_string s t :
  String.length (s +:+ t) = (String.length s + String.length t)%nat.
Proof. induction s; simpl; auto. Qed.

Lemma length_str_take n s : String.length (str_take n s) = Nat.min n (String.length s).
Proof. revert s; induction n; intros [|c s]; simpl; auto. Qed.

Lemma app_string_assoc (s t u : string) : (s +:+ t) +:+ u = s +:+ (t +:+ u).
Proof. induction s as [|c s IH]; simpl; [done|]. by rewrite IH. Qed.

Lemma hex_digit_inj x y :
  0 <= x < 16 -> 0 <= y < 16 -> hex_digit x = hex_digit y -> x = y.
Proof.
  intros Hx Hy H. apply (f_equal nat_of_ascii) in H. unfold hex_digit in H.
  destruct (Z.ltb_spec x 10), (Z.ltb_spec y 10);
    rewrite !nat_ascii_embedding in H by lia; lia.
Qed.

Lemma hex_encode_inj l1 l2 :
  Forall is_byte l1 -> Forall is_byte l2 -> hex_encode l1 = hex_encode l2 -> l1 = l2.
Proof.
  unfold is_byte. intros H1; revert l2; induction H1 as [|b l1 Hb H1 IH];
    intros l2 H2; destruct H2 as [|c l2 Hc H2]; simpl; intros E; try done.
  injection E as E1 E2 E3.
  apply hex_digit_inj in E1; [|by Z.div_mod_to_equations; lia..].
  apply hex_digit_inj in E2; [|by Z.div_mod_to_equations; lia..].
  f_equal; [|by apply IH].
  rewrite (Z.div_mod b 16), (Z.div_mod c 16) by lia. lia.
Qed.

Lemma length_hex_encode l : String.length (hex_encode l) = (2 * length l)%nat.
Proof. induction l; simpl; lia. Qed.

#[export] Hint Rewrite length_app_string length_str_take : lattice.

Lemma contains_char_app c s t :
  contains_char c (s +:+ t) = contains_char c s || contains_char c t.
Proof. induction s as [|d s IH]; simpl; [done|]. by rewrite IH, orb_assoc. Qed.

Lemma before_char_app c s t :
  contains_char c s = false -> before_char c (s +:+ String c t) = s.
Proof.
  induction s as [|d s IH]; simpl.
  - by rewrite bool_decide_true.
  - intros [H1 H2]%orb_false_iff. rewrite H1. by rewrite IH.
Qed.

Lemma after_char_app c s t :
  contains_char c s = false -> after_char c (s +:+ String c t) = Some t.
Proof.
  induction s as [|d s IH]; simpl.
  - by rewrite bool_decide_true.
  - intros [H1 H2]%orb_false_iff. rewrite H1. by rewrite IH.
Qed.

Lemma size_list_to_set_le `{Countable A} (l : list A) :
  (size (list_to_set l : gset A) <= length l)%nat.
Proof.
  induction l as [|x l IH]; simpl; [done|].
  destruct (decide (x ∈ (list_to_set l : gset A))) as [Hx|Hx].
  - replace ({[x]} ∪ list_to_set l : gset A) with (list_to_set l : gset A) by set_solver. lia.
  - rewrite size_union by set_solver. rewrite size_singleton. lia.
Qed.

(** ** Map iteration

    A Go [range] over a map visits every entry once, in an order the language
    leaves open.  Code that iterates is modelled for every order. *)
Class MapRange := {
  go_range : forall {K} `{Countable K} {V}, gmap K V -> list (K * V);
  go_range_perm : forall {K} `{Countable K} {V} (m : gmap K V), go_range m ≡ₚ map_to_list m;
}.

#[global] Instance range_in_order : MapRange.
Proof. by refine {| go_range := λ K _ _ V m, map_to_list m |}. Defined.

Definition range_reversed : MapRange.
Proof.
  refine {| go_range := λ K _ _ V m, reverse (map_to_list m) |}.
  intros. apply reverse_Permutation.
Defined.

Lemma elem_of_go_range `{MapRange, Countable K} {V} (m : gmap K V) k v :
  (k, v) ∈ go_range m <-> m !! k = Some v.
Proof. by rewrite go_range_perm, elem_of_map_to_list. Qed.

(** ** Sorting by a string key ([sort.Slice], [sort.Strings]) *)

Definition key_le {A} (f : A -> string) : relation A := λ x y, String.le (f x) (f y).
#[global] Instance key_le_dec {A} (f : A -> string) : RelDecision (key_le f).
Proof. intros x y. unfold key_le. apply _. Defined.
#[global] Instance key_le_total {A} (f : A -> string) : Total (key_le f).
Proof. intros x y. unfold key_le. apply (total String.le). Qed.
#[global] Instance key_le_trans {A} (f : A -> string) : Transitive (key_le f).
Proof. intros x y z. unfold key_le. apply (transitivity (R := String.le)). Qed.

Definition sort_by {A} (f : A -> string) (l : list A) : list A := merge_sort (key_le f) l.

Lemma sort_by_perm {A} (f : A -> string) l : sort_by f l ≡ₚ l.
Proof. apply merge_sort_Permutation. Qed.

Lemma sort_by_sorted {A} (f : A -> string) l : StronglySorted (key_le f) (sort_by f l).
Proof. by apply StronglySorted_merge_sort; apply _. Qed.

(** A list sorted by distinct keys is determined by its elements. *)
Lemma sort_by_unique {A} (f : A -> string) l1 l2 :
  NoDup (f <$> l1) -> l1 ≡ₚ l2 -> sort_by f l1 = sort_by f l2.
Proof.
  intros Hnd Hp. apply (StronglySorted_unique_strong (key_le f)); [|apply sort_by_sorted..|].
  - intros x y Hx Hy H1 H2. rewrite sort_by_perm in Hx, Hy. rewrite <- Hp in Hy.
    assert (f x = f y) as E by (by apply (anti_symm String.le)).
    apply list_elem_of_lookup in Hx as [i Hi]. apply list_elem_of_lookup in Hy as [j Hj].
    assert (i = j) as ->; [|congruence].
    eapply (NoDup_lookup _ _ _ (f x) Hnd); rewrite list_lookup_fmap.
    + by rewrite Hi.
    + by rewrite Hj, E.
  - by rewrite !sort_by_perm.
Qed.
