(* ===== verification/Prog.v ===== *)
(** * Prog: programs that call an environment

    The controllers only touch the world through calls on interfaces (the
    Kubernetes client, a clock, a key generator).  A [prog E A] is a program
    whose calls are the constructors of [E]: [E T] is a call answered by a
    [T]; [Panic] is a Go panic (a nil dereference).  The environment is not
    part of the program; a theorem quantifies over it, as the answers it may give ([wp]), as a relation on a world state
    ([runs]), or as a function ([run]) when a concrete world is wanted.  [pstep]
    interleaves several programs call by call. *)

From S2P Require Import Prelude.

Inductive prog (E : Type -> Type) (A : Type) : Type :=
| Ret (a : A)
| Panic
| Vis (T : Type) (e : E T) (k : T -> prog E A).
Arguments Ret {E A} a.
Arguments Panic {E A}.
Arguments Vis {E A T} e k.

Definition call {E T} (e : E T) : prog E T := Vis e Ret.

Fixpoint prog_bind {E A B} (f : A -> prog E B) (p : prog E A) : prog E B :=
  match p with
  | Ret a => f a
  | Panic => Panic
  | Vis e k => Vis e (λ r, prog_bind f (k r))
  end.

#[global] Instance prog_ret E : MRet (prog E) := λ A a, Ret a.
#[global] Instance prog_mbind E : MBind (prog E) := λ A B f p, prog_bind f p.

Lemma bind_ret {E A B} (a : A) (f : A -> prog E B) : (Ret a ≫= f) = f a.
Proof. done. Qed.

Lemma bind_call {E T B} (e : E T) (f : T -> prog E B) : (call e ≫= f) = Vis e f.
Proof. done. Qed.

(** The Go idiom [x, err := p; if err != nil { return err }]. *)
Definition try_bind {E A B} (p : prog E (gresult A)) (f : A -> prog E (gresult B)) :
    prog E (gresult B) :=
  p ≫= λ r, match r with inl e => Ret (inl e) | inr a => f a end.
Notation "x ←? p ; k" := (try_bind p (λ x, k))
  (at level 20, p at level 100, k at level 200, right associativity) : lattice_scope.

(** [for _, x := range l { if err := f(x); err != nil { return err } }]. *)
Fixpoint for_each {E A} (l : list A) (f : A -> prog E (gresult unit)) : prog E (gresult unit) :=
  match l with
  | [] => Ret (inr tt)
  | x :: l => _ ←? f x; for_each l f
  end.

(** [for _, x := range l { f(x) }]. *)
Fixpoint for_all {E A} (l : list A) (f : A -> prog E unit) : prog E unit :=
  match l with
  | [] => Ret tt
  | x :: l => _ ← f x; for_all l f
  end.

(** A program whose calls are part of a larger interface. *)
Fixpoint translate {E F : Type -> Type} (f : forall T, E T -> F T) {A} (p : prog E A) : prog F A :=
  match p with
  | Ret a => Ret a
  | Panic => Panic
  | Vis e k => Vis (f _ e) (λ r, translate f (k r))
  end.

(** What a program may return, whatever its environment is. *)
Fixpoint may_return {E A} (p : prog E A) (a : A) : Prop :=
  match p with
  | Ret b => a = b
  | Panic => False
  | Vis e k => exists r, may_return (k r) a
  end.

Lemma may_return_bind {E A B} (p : prog E A) (f : A -> prog E B) b :
  may_return (p ≫= f) b <-> exists a, may_return p a /\ may_return (f a) b.
Proof.
  induction p as [a| |T e k IH]; simpl.
  - split; [by exists a|by intros (? & -> & ?)].
  - split; [done|by intros (? & ? & ?)].
  - setoid_rewrite IH. split; [intros (r & a & H1 & H2)|intros (a & (r & H1) & H2)]; eauto.
Qed.

(** ** Every answer of the environment *)

Section wp.
Context {E : Type -> Type}.
(** What the environment may answer to a call, and what the program must
    establish before it makes one. *)
Context (R : forall T, E T -> T -> Prop) (G : forall T, E T -> Prop).

(** [wp p Q]: whatever the environment answers within [R], every call made by
    [p] satisfies [G], it does not panic, and the result satisfies [Q]. *)
Fixpoint wp {A} (p : prog E A) (Q : A -> Prop) : Prop :=
  match p with
  | Ret a => Q a
  | Panic => False
  | Vis e k => G _ e /\ forall r, R _ e r -> wp (k r) Q
  end.

Lemma wp_mono {A} (p : prog E A) (Q Q' : A -> Prop) :
  wp p Q -> (forall a, Q a -> Q' a) -> wp p Q'.
Proof.
  induction p as [a| |T e k IH]; simpl; [auto|done|].
  intros [HG Hk] HQ. split; [done|]. intros r Hr. by eapply IH; [apply Hk|].
Qed.

Lemma wp_bind {A B} (p : prog E A) (f : A -> prog E B) (Q : B -> Prop) :
  wp p (λ a, wp (f a) Q) -> wp (p ≫= f) Q.
Proof.
  induction p as [a| |T e k IH]; simpl; [done|done|].
  intros [HG Hk]. split; [done|]. intros r Hr. by apply IH, Hk.
Qed.

Lemma wp_try {A B} (p : prog E (gresult A)) (f : A -> prog E (gresult B)) (Q : gresult B -> Prop) :
  wp p (λ r, match r with inl e => Q (inl e) | inr a => wp (f a) Q end) -> wp (try_bind p f) Q.
Proof. intros H. apply wp_bind. eapply wp_mono; [exact H|]. by intros [e|a]. Qed.

Lemma wp_call {T} (e : E T) (Q : T -> Prop) :
  G _ e -> (forall r, R _ e r -> Q r) -> wp (call e) Q.
Proof. by split. Qed.
End wp.

(** The next call of the program, whose guarantee is immediate. *)
Ltac wp_ask := repeat first [apply wp_try | apply wp_bind]; apply wp_call; [done|].
(** The program starts with an operation that lemma [lem] is about. *)
Tactic Notation "wp_use" uconstr(lem) :=
  first [eapply wp_mono; [apply lem|]
        |first [apply wp_try | apply wp_bind]; first [eapply wp_mono; [apply lem|]
        |first [apply wp_try | apply wp_bind]; eapply wp_mono; [apply lem|]]].

(** A program is as safe among fewer answers and with more calls allowed. *)
Lemma wp_weaken {E A} (R R' : forall T, E T -> T -> Prop) (G G' : forall T, E T -> Prop)
    (p : prog E A) (Q : A -> Prop) :
  (forall T e r, R' T e r -> R T e r) -> (forall T e, G T e -> G' T e) ->
  wp R G p Q -> wp R' G' p Q.
Proof.
  intros HR HG. induction p as [a| |T e k IH]; simpl; [done|done|].
  intros [Ge Hk]. split; [by apply HG|]. intros r Hr. by apply IH, Hk, HR.
Qed.

(** Safety of a program gives that of its translation. *)
Lemma wp_translate {E F A} (f : forall T, E T -> F T) (R : forall T, F T -> T -> Prop) (G : forall T, F T -> Prop)
    (p : prog E A) (Q : A -> Prop) :
  wp (λ T e r, R T (f T e) r) (λ T e, G T (f T e)) p Q -> wp R G (translate f p) Q.
Proof.
  induction p as [a| |T e k IH]; simpl; [done|done|].
  intros [HG Hk]. split; [done|]. intros r Hr. by apply IH, Hk.
Qed.

(** ** A world the calls act on *)

Section world.
Context {E : Type -> Type} {S : Type}.
(** [h T e s r s']: in world [s] the call [e] may be answered [r], leaving [s']. *)
Context (h : forall T, E T -> S -> T -> S -> Prop).

Inductive runs {A} : prog E A -> S -> A -> S -> Prop :=
| runs_ret a s : runs (Ret a) s a s
| runs_vis T (e : E T) k s r s1 a s2 :
    h T e s r s1 -> runs (k r) s1 a s2 -> runs (Vis e k) s a s2.

Lemma runs_ret_inv {A} (a b : A) s s' : runs (Ret a) s b s' -> b = a /\ s' = s.
Proof. by inversion 1. Qed.

Lemma runs_vis_inv {A T} (e : E T) (k : T -> prog E A) s a s2 :
  runs (Vis e k) s a s2 -> exists r s1, h T e s r s1 /\ runs (k r) s1 a s2.
Proof.
  intros H. remember (Vis e k) as p eqn:Ep. revert Ep.
  destruct H as [|T' e' k' s r s1 a s2 H1 H2]; [done|]. intros Ep.
  set (call_of := λ p : prog E A,
    match p with
    | Ret _ | Panic => False
    | Vis e k => exists r s1, h _ e s r s1 /\ runs (k r) s1 a s2
    end).
  change (call_of (Vis e k)). rewrite <- Ep. simpl. eauto.
Qed.

Lemma runs_bind_inv {A B} (p : prog E A) (f : A -> prog E B) s b s2 :
  runs (p ≫= f) s b s2 -> exists a s1, runs p s a s1 /\ runs (f a) s1 b s2.
Proof.
  revert s. induction p as [a| |T e k IH]; intros s H.
  - exists a, s. split; [constructor|done].
  - inversion H.
  - apply runs_vis_inv in H as (r & s1 & Hh & H).
    apply IH in H as (a & s3 & H1 & H2). exists a, s3. split; [|done].
    by econstructor.
Qed.

(** A call chain that succeeded: its first step did, then the rest. *)
Lemma runs_try_inv {A B} (p : prog E (gresult A)) (f : A -> prog E (gresult B)) s b s2 :
  runs (try_bind p f) s (inr b) s2 -> exists a s1, runs p s (inr a) s1 /\ runs (f a) s1 (inr b) s2.
Proof.
  intros H. apply runs_bind_inv in H as ([e|a] & s1 & H1 & H2).
  - by apply runs_ret_inv in H2 as [? _].
  - by exists a, s1.
Qed.

Lemma runs_call_inv {T} (e : E T) s r s' : runs (call e) s r s' -> h T e s r s'.
Proof. intros (x & s1 & Hh & [-> ->]%runs_ret_inv)%runs_vis_inv. done. Qed.

(** A program that satisfies [wp] behaves so in every world whose answers are
    within [R]; a state predicate every guaranteed call preserves is kept. *)
Lemma wp_runs {A} (R : forall T, E T -> T -> Prop) (G : forall T, E T -> Prop) (I : S -> Prop)
    (p : prog E A) (Q : A -> Prop) s a s' :
  (forall T e s r s', I s -> G T e -> h T e s r s' -> R T e r /\ I s') ->
  wp R G p Q -> I s -> runs p s a s' -> Q a /\ I s'.
Proof.
  intros Hh Hwp HI Hr. induction Hr as [b s|T e k s r s1 b s2 He Hr IH]; simpl in *; [done|].
  destruct Hwp as [HG Hk]. destruct (Hh _ _ _ _ _ HI HG He) as [HR HI1]. auto.
Qed.

  (** *** Interleaving *)

Inductive pstep {A} : list (prog E A) * S -> list (prog E A) * S -> Prop :=
| pstep_call i T (e : E T) k r s s' ts :
    ts !! i = Some (Vis e k) -> h T e s r s' ->
    pstep (ts, s) (<[i := k r]> ts, s').

(** Rely-guarantee: [ok s p] says what thread [p] may assume of the world and
    [rely s s'] how a step of any thread may change the world.  If every step
    taken from an [ok] thread in an [I] world re-establishes both and stays in
    the rely, and the rely keeps [ok], then a reachable pool satisfies them. *)
Lemma pool_invariant {A} (I : S -> Prop) (ok : S -> prog E A -> Prop) (rely : S -> S -> Prop) :
  (forall s T (e : E T) k r s', I s -> ok s (Vis e k) -> h T e s r s' ->
    I s' /\ ok s' (k r) /\ rely s s') ->
  (forall s s' p, I s -> rely s s' -> ok s p -> ok s' p) ->
  forall c c', rtc pstep c c' ->
    I c.2 -> Forall (ok c.2) c.1 -> I c'.2 /\ Forall (ok c'.2) c'.1.
Proof.
  intros Hstep Hstable c c' Hr. induction Hr as [|c1 c2 c3 Hs Hr IH]; [done|].
  intros HI Hok. destruct Hs as [i T e k r s s' ts Hi He]; simpl in *.
  assert (Hoki : ok s (Vis e k)) by (by eapply Forall_lookup_1).
  destruct (Hstep _ _ _ _ _ _ HI Hoki He) as (HI' & Hok' & Hrely).
  apply IH; [done|]. apply Forall_insert; [|done].
  eapply Forall_impl; [done|]. intros p Hp. eauto.
Qed.

  (** *** Rely-guarantee reasoning about one thread *)

Section rely.
Context (I : S -> Prop) (rely : S -> S -> Prop) `{!PreOrder rely}.

(** Whenever it is scheduled, in any invariant world the others may have
    produced, the thread's next call keeps the invariant and the rely; when
    it is done, [Q] holds of the world and its result. *)
Fixpoint rgwp {A} (p : prog E A) (s : S) (Q : S -> A -> Prop) : Prop :=
  match p with
  | Ret a => Q s a
  | Panic => True
  | Vis e k => forall s1 r s2, rely s s1 -> I s1 -> h _ e s1 r s2 ->
               I s2 /\ rely s1 s2 /\ rgwp (k r) s2 Q
  end.

Definition stable {A} (Q : S -> A -> Prop) : Prop :=
  forall s s' a, rely s s' -> Q s a -> Q s' a.

Lemma rgwp_stable {A} (p : prog E A) (Q : S -> A -> Prop) s s' :
  stable Q -> rely s s' -> rgwp p s Q -> rgwp p s' Q.
Proof using All.
  intros HQ Hs. destruct p as [a| |T e k]; simpl; [eauto|done|].
  intros Hp s1 r s2 Hs1. apply Hp. by etrans.
Qed.

Lemma rgwp_bind {A B} (p : prog E A) (f : A -> prog E B) Q s :
  rgwp p s (λ s' a, rgwp (f a) s' Q) -> rgwp (p ≫= f) s Q.
Proof.
  revert s. induction p as [a| |T e k IH]; simpl; [done|done|].
  intros s Hp s1 r s2 H1 H2 H3. destruct (Hp _ _ _ H1 H2 H3) as (?&?&?).
  split_and!; [done..|by apply IH].
Qed.

Lemma rgwp_mono {A} (p : prog E A) (Q Q' : S -> A -> Prop) s :
  (forall s' a, Q s' a -> Q' s' a) -> rgwp p s Q -> rgwp p s Q'.
Proof.
  intros HQ. revert s. induction p as [a| |T e k IH]; simpl; [auto|done|].
  intros s Hp s1 r s2 H1 H2 H3. destruct (Hp _ _ _ H1 H2 H3) as (?&?&?).
  split_and!; [done..|by apply IH].
Qed.

Theorem rgwp_pool {A} (Q : S -> A -> Prop) ts s ts' s' :
stable Q -> rtc pstep (ts, s) (ts', s') -> I s ->
Forall (λ p, rgwp p s Q) ts ->
I s' /\ forall i a, ts' !! i = Some (Ret a) -> Q s' a.
Proof using All.
intros HQ Hr HI Hts.
destruct (pool_invariant I (λ s p, rgwp p s Q) rely) with (c := (ts, s)) (c' := (ts', s'))
  as [HI' Hok]; simpl in *; try done.
- intros s1 T e k r s2 HI1 Hp He. destruct (Hp s1 r s2) as (?&?&?); done.
- intros. by eapply rgwp_stable.
- split; [done|]. intros i a Hi.
  by apply (Forall_lookup_1 (λ p, rgwp p s' Q) _ _ _ Hok Hi).
Qed.
End rely.
End world.

(** ** A functional world *)

(** The result is [None] when the program panics. *)
Fixpoint run {E S A} (h : forall T, E T -> S -> T * S) (p : prog E A) (s : S) : option A * S :=
  match p with
  | Ret a => (Some a, s)
  | Panic => (None, s)
  | Vis e k => let '(r, s') := h _ e s in run h (k r) s'
  end.

Definition fun_world {E : Type -> Type} {S} (h : forall T, E T -> S -> T * S) :
    forall T, E T -> S -> T -> S -> Prop :=
  λ T e s r s', h T e s = (r, s').

Lemma run_runs {E S A} (h : forall T, E T -> S -> T * S) (p : prog E A) s a :
  (run h p s).1 = Some a -> runs (fun_world h) p s a (run h p s).2.
Proof.
  revert s; induction p as [b| |T e k IH]; intros s; simpl; [|done|].
  - intros [= ->]. constructor.
  - destruct (h T e s) as [r s'] eqn:He. intros Hr. econstructor; [exact He|by apply IH].
Qed.

(** A run in a functional world is the one that evaluating the program gives. *)
Lemma runs_fun {E S A} (h : forall T, E T -> S -> T * S) (p : prog E A) s a s' :
  runs (fun_world h) p s a s' -> run h p s = (Some a, s').
Proof.
  induction 1 as [a s|T e k s r s1 a s2 He Hr IH]; [done|]. unfold fun_world in He. cbn. by rewrite He.
Qed.

(** Runs in a row. *)
Lemma runs_bind {E S A B} (h : forall T, E T -> S -> T -> S -> Prop) (p : prog E A) (f : A -> prog E B) s a s1 b s2 :
  runs h p s a s1 -> runs h (f a) s1 b s2 -> runs h (p ≫= f) s b s2.
Proof. intros Hp Hf. induction Hp as [|T e k s r s' a s1 He Hp IH]; [exact Hf|]. econstructor; [exact He|by apply IH]. Qed.

(** A world that answers less has fewer runs. *)
Lemma runs_weaken {E S A} (h h' : forall T, E T -> S -> T -> S -> Prop) (p : prog E A) s a s' :
  (forall T e s r s', h T e s r s' -> h' T e s r s') -> runs h p s a s' -> runs h' p s a s'.
Proof. intros Hh. induction 1 as [|T e k s r s1 a s2 He Hr IH]; [constructor|]. econstructor; [by apply Hh|exact IH]. Qed.

(** A schedule, as the list of threads to run next, executed on a functional
    world; a finished thread is skipped. *)
Fixpoint sched {E S A} (h : forall T, E T -> S -> T * S) (order : list nat)
    (ts : list (prog E A)) (s : S) : list (prog E A) * S :=
  match order with
  | [] => (ts, s)
  | i :: order =>
      match ts !! i with
      | Some (Vis e k) => let '(r, s') := h _ e s in sched h order (<[i := k r]> ts) s'
      | _ => sched h order ts s
      end
  end.

Lemma sched_rtc {E S A} (h : forall T, E T -> S -> T * S) order :
  forall (ts : list (prog E A)) s, rtc (pstep (fun_world h)) (ts, s) (sched h order ts s).
Proof.
  induction order as [|i order IH]; intros ts s; simpl; [done|].
  destruct (ts !! i) as [[a| |T e k]|] eqn:Hi; [done|done| |done].
  destruct (h T e s) as [r s'] eqn:He.
  eapply rtc_l; [|apply IH]. by econstructor.
Qed.
