(* ===== verification/Net.v ===== *)
(** * Net: the parts of Go's package [net] the IPAM uses

    [net.IP] with its two lengths, masks, [ParseIP], [ParseCIDR], [IP.String]
    and [IPNet.Contains].  The text form of IPv6 addresses is left to the class
    [IPv6Text]: nothing proved depends on it. *)

From S2P Require Import Prelude.

Class IPv6Text := {
  parse_ipv6 : string -> option Z;
  show_ipv6 : Z -> string;
}.

(** [net.IP] is a byte slice of length 4 or 16, in network byte order. *)
Inductive IP := IP4 (a : Z) | IP16 (a : Z).

#[global] Instance IP_eq_dec : EqDecision IP.
Proof. solve_decision. Defined.

(** The 12 bytes [0,...,0,0xff,0xff] in front of an IPv4-in-IPv6 address. *)
Definition v4InV6Prefix : Z := 0xffff.

Definition v4_in_v6 (a : Z) : IP := IP16 (v4InV6Prefix * 2 ^ 32 + a).

(** [ip.To4()]. *)
Definition To4 (ip : IP) : option Z :=
  match ip with
  | IP4 a => Some a
  | IP16 a => if a / 2 ^ 32 =? v4InV6Prefix then Some (a mod 2 ^ 32) else None
  end.

(** [net.CIDRMask(ones, bits)]. *)
Record IPMask := { mask_ones : Z; mask_bits : Z }.
Record IPNet := { net_IP : IP; net_Mask : IPMask }.

(** [a & mask] for a mask of [ones] leading one bits out of [bits]: the low
    [bits - ones] bits are cleared. *)
Definition and_mask (a ones bits : Z) : Z := Z.ldiff a (Z.ones (bits - ones)).

(** The last four bytes of a 16-byte mask, as a number of leading ones. *)
Definition mask_tail (m : IPMask) : Z := Z.max 0 (mask_ones m - 96).

(** [ip.Mask(m)]; [None] is the nil slice. *)
Definition ip_Mask (ip : IP) (m : IPMask) : option IP :=
  if mask_bits m =? 32 then
    a ← To4 ip; Some (IP4 (and_mask a (mask_ones m) 32))
  else
    match ip with
    | IP4 a => if 96 <=? mask_ones m then Some (IP4 (and_mask a (mask_tail m) 32)) else None
    | IP16 a => Some (IP16 (and_mask a (mask_ones m) 128))
    end.

(** [n.Contains(ip)]. *)
Definition ipnet_Contains (n : IPNet) (ip : IP) : bool :=
  match To4 (net_IP n), To4 ip with
  | Some b, Some a =>
      let ones := if mask_bits (net_Mask n) =? 32 then mask_ones (net_Mask n)
                  else mask_tail (net_Mask n) in
      and_mask b ones 32 =? and_mask a ones 32
  | None, None =>
      match net_IP n, ip with
      | IP16 b, IP16 a =>
          if mask_bits (net_Mask n) =? 32 then false
          else and_mask b (mask_ones (net_Mask n)) 128 =? and_mask a (mask_ones (net_Mask n)) 128
      | _, _ => false
      end
  | _, _ => false
  end.

(** ** Text *)

Definition digit_val (c : ascii) : option Z :=
  let n := Z.of_nat (nat_of_ascii c) in
  if (48 <=? n) && (n <=? 57) then Some (n - 48) else None.

Definition dot : ascii := ascii_of_nat 46.
Definition slash : ascii := ascii_of_nat 47.
Definition colon : ascii := ascii_of_nat 58.
Definition percent : ascii := ascii_of_nat 37.

(** [netip.parseIPv4Fields]: [val] and [dig] are the value and digit count of
    the current octet, [acc] the octets finished so far, last one first. *)
Fixpoint parse_ipv4_fields (s : string) (val : Z) (dig : nat) (acc : list Z) :
    option (list Z) :=
  match s with
  | EmptyString => if (length acc =? 3)%nat then Some (reverse (val :: acc)) else None
  | String c s' =>
      match digit_val c with
      | Some d =>
          if (dig =? 1)%nat && (val =? 0) then None
          else if 255 <? val * 10 + d then None
          else parse_ipv4_fields s' (val * 10 + d) (S dig) acc
      | None =>
          if bool_decide (c = dot) then
            if (dig =? 0)%nat || bool_decide (s' = "") || (length acc =? 3)%nat then None
            else parse_ipv4_fields s' 0 0 (val :: acc)
          else None
      end
  end.

Definition parse_ipv4 (s : string) : option Z :=
  be_value <$> parse_ipv4_fields s 0 0 [].

(** Which of ['.'], [':'] and ['%'] comes first decides the parser. *)
Fixpoint addr_family (s : string) : option ascii :=
  match s with
  | EmptyString => None
  | String c s =>
      if bool_decide (c = dot) || bool_decide (c = colon) || bool_decide (c = percent)
      then Some c else addr_family s
  end.

(** A parsed [netip.Addr]: IPv4, or IPv6 without a zone. *)
Inductive netip := Is4 (a : Z) | Is6 (a : Z).

Definition ParseAddr `{IPv6Text} (s : string) : option netip :=
  match addr_family s with
  | Some c =>
      if bool_decide (c = dot) then Is4 <$> parse_ipv4 s
      else if bool_decide (c = colon) then Is6 <$> parse_ipv6 s
      else None
  | None => None
  end.

(** [As16]. *)
Definition As16 (a : netip) : IP :=
  match a with Is4 a => v4_in_v6 a | Is6 a => IP16 a end.

Definition BitLen (a : netip) : Z := match a with Is4 _ => 32 | Is6 _ => 128 end.

Definition net_ParseIP `{IPv6Text} (s : string) : option IP := As16 <$> ParseAddr s.

(** [dtoi] run over the whole of [s]: [None] unless every character is a digit
    and the number stays below [0xFFFFFF]. *)
Fixpoint dtoi_go (s : string) (n : Z) : option Z :=
  match s with
  | EmptyString => Some n
  | String c s =>
      d ← digit_val c;
      if 0xFFFFFF <=? n * 10 + d then None else dtoi_go s (n * 10 + d)
  end.

Definition dtoi (s : string) : option Z :=
  if bool_decide (s = "") then None else dtoi_go s 0.

(** [net.ParseCIDR]: the address as written and the network it lies in. *)
Definition net_ParseCIDR `{IPv6Text} (s : string) : option (IP * IPNet) :=
  rest ← after_char slash s;
  addr ← ParseAddr (before_char slash s);
  n ← dtoi rest;
  if BitLen addr <? n then None
  else
    let m := {| mask_ones := n; mask_bits := BitLen addr |} in
    let ip := As16 addr in
    nip ← ip_Mask ip m;
    Some (ip, {| net_IP := nip; net_Mask := m |}).

Definition ipv4_string (a : Z) : string := str_join "." (pretty <$> be_bytes 4 a).

(** [ip.String()]. *)
Definition ip_String `{IPv6Text} (ip : IP) : string :=
  match To4 ip, ip with
  | Some a, _ => ipv4_string a
  | None, IP16 a => show_ipv6 a
  | None, IP4 a => ipv4_string a
  end.

(** ** Masks and containment *)

Lemma and_mask_spec a ones bits :
  ones <= bits -> and_mask a ones bits = a - a mod 2 ^ (bits - ones).
Proof.
  intros H. unfold and_mask. rewrite Z.ldiff_ones_r, Z.shiftl_mul_pow2, Z.shiftr_div_pow2 by lia.
  pose proof (Z.div_mod a (2 ^ (bits - ones))). lia.
Qed.

Lemma and_mask_range a ones bits :
  ones <= bits -> 0 <= a < 2 ^ bits -> 0 <= and_mask a ones bits < 2 ^ bits.
Proof.
  intros H Ha. rewrite and_mask_spec by lia.
  pose proof (pow2_pos (bits - ones) ltac:(lia)) as Hp.
  pose proof (Z.mod_pos_bound a _ Hp).
  pose proof (Z.mod_le a _ (proj1 Ha) Hp). lia.
Qed.

Lemma and_mask_aligned a ones bits :
  ones <= bits -> and_mask a ones bits mod 2 ^ (bits - ones) = 0.
Proof.
  intros H. rewrite and_mask_spec by lia.
  rewrite Zminus_mod_idemp_r, Z.sub_diag. apply Z.mod_0_l.
  pose proof (pow2_pos (bits - ones) ltac:(lia)). lia.
Qed.

(** Two addresses agree under a mask iff the second one lies in the block of
    [2 ^ (bits - ones)] addresses that starts at the first one's network. *)
Lemma and_mask_eq base a ones bits :
  ones <= bits -> base mod 2 ^ (bits - ones) = 0 ->
  and_mask base ones bits = and_mask a ones bits <->
  base <= a < base + 2 ^ (bits - ones).
Proof.
  intros H Hb. rewrite !and_mask_spec, Hb by lia.
  set (s := 2 ^ (bits - ones)) in *.
  assert (Hs : 0 < s) by (apply Z.pow_pos_nonneg; lia).
  pose proof (Z.mod_pos_bound a s Hs). split; [lia|]. intros Ha.
  assert (Hq : a = base + (a - base)) by lia.
  rewrite Hq, Z.add_mod, Hb, Z.add_0_l, Z.mod_mod by lia.
  rewrite Z.mod_small by lia. lia.
Qed.

Lemma and_mask_block_top base ones bits :
  0 <= ones <= bits -> base mod 2 ^ (bits - ones) = 0 -> 0 <= base < 2 ^ bits ->
  base + 2 ^ (bits - ones) <= 2 ^ bits.
Proof.
  intros H Hb Hr.
  assert (Hs : 0 < 2 ^ (bits - ones)) by (apply Z.pow_pos_nonneg; lia).
  assert (Hp : 2 ^ bits = 2 ^ ones * 2 ^ (bits - ones))
    by (rewrite <- Z.pow_add_r by lia; f_equal; lia).
  apply Z.mod_divide in Hb as [q ->]; [|lia]. rewrite Hp in *.
  assert (q < 2 ^ ones) by (apply (Z.mul_lt_mono_pos_r (2 ^ (bits - ones))); lia).
  replace (q * 2 ^ (bits - ones) + 2 ^ (bits - ones)) with ((q + 1) * 2 ^ (bits - ones)) by lia.
  apply Z.mul_le_mono_nonneg_r; lia.
Qed.

Lemma To4_v4_in_v6 a : 0 <= a < 2 ^ 32 -> To4 (v4_in_v6 a) = Some a.
Proof.
  intros H. unfold To4, v4_in_v6, v4InV6Prefix.
  rewrite Z.div_add_l, Z.div_small, Z.add_0_r by lia. simpl Z.eqb.
  rewrite Z.add_comm, Z.mod_add, Z.mod_small by lia. done.
Qed.

Definition net4 (base ones : Z) : IPNet :=
  {| net_IP := IP4 base; net_Mask := {| mask_ones := ones; mask_bits := 32 |} |}.

Lemma contains_net4 base ones ip a :
  ones <= 32 -> base mod 2 ^ (32 - ones) = 0 -> To4 ip = Some a ->
  ipnet_Contains (net4 base ones) ip = bool_decide (base <= a < base + 2 ^ (32 - ones)).
Proof.
  intros H Hb Hip. unfold ipnet_Contains. simpl. rewrite Hip.
  apply eq_true_iff_eq. rewrite Z.eqb_eq, bool_decide_eq_true.
  by apply and_mask_eq.
Qed.

(** ** IPv4 text round trips *)

Lemma octet_dot :
  Forall (λ b, forall rest acc,
    parse_ipv4_fields (pretty (Z.of_nat b) +:+ String dot rest) 0 0 acc =
    if bool_decide (rest = "") || (length acc =? 3)%nat then None
    else parse_ipv4_fields rest 0 0 (Z.of_nat b :: acc)) (seq 0 256).
Proof. repeat (constructor; [intros; reflexivity|]). constructor. Qed.

Lemma octet_end :
  Forall (λ b, forall acc,
    parse_ipv4_fields (pretty (Z.of_nat b)) 0 0 acc =
    if (length acc =? 3)%nat then Some (reverse (Z.of_nat b :: acc)) else None) (seq 0 256).
Proof. repeat (constructor; [intros; reflexivity|]). constructor. Qed.

Lemma byte_of_nat b : is_byte b -> exists n, b = Z.of_nat n /\ n ∈ seq 0 256.
Proof.
  unfold is_byte. intros H. exists (Z.to_nat b). split; [lia|]. apply elem_of_seq. lia.
Qed.

Lemma parse_octet_dot b rest acc :
  is_byte b -> rest <> "" -> (length acc < 3)%nat ->
  parse_ipv4_fields (pretty b +:+ String dot rest) 0 0 acc =
  parse_ipv4_fields rest 0 0 (b :: acc).
Proof.
  intros (n & -> & Hn)%byte_of_nat Hr Ha.
  pose proof (proj1 (Forall_forall _ _) octet_dot n Hn rest acc) as ->.
  rewrite bool_decide_false by done.
  destruct (Nat.eqb_spec (length acc) 3); [lia|done].
Qed.

Lemma parse_octet_end b acc :
  is_byte b -> (length acc = 3)%nat ->
  parse_ipv4_fields (pretty b) 0 0 acc = Some (reverse (b :: acc)).
Proof.
  intros (n & -> & Hn)%byte_of_nat Ha.
  pose proof (proj1 (Forall_forall _ _) octet_end n Hn acc) as ->.
  by rewrite Ha.
Qed.

Lemma pretty_Z_ne (b : Z) : pretty b <> "".
Proof.
  assert (HN : forall n : N, pretty n <> "").
  { intros n. destruct (decide (n = 0%N)) as [->|]; [done|].
    unfold pretty, pretty_N. rewrite decide_False by done.
    rewrite pretty_N_go_step by lia. intros E.
    assert (Hl : forall x s, (String.length s <= String.length (pretty_N_go x s))%nat).
    { intros x. induction (N.lt_wf_0 x) as [x _ IH]. intros s.
      destruct (decide (x = 0%N)) as [->|]; [by rewrite pretty_N_go_0|].
      rewrite pretty_N_go_step by lia.
      etrans; [|apply IH, N.div_lt; lia]. simpl. lia. }
    pose proof (Hl (n `div` 10)%N (String (pretty_N_char (n `mod` 10)) "")) as Hl'.
    rewrite E in Hl'. simpl in Hl'. lia. }
  unfold pretty, pretty_Z. destruct b; [done|apply HN|done].
Qed.

Definition byte_ok (b : nat) : bool :=
  negb (contains_char slash (pretty (Z.of_nat b))) &&
  bool_decide (dtoi (pretty (Z.of_nat b)) = Some (Z.of_nat b)).

Lemma bytes_ok : Forall (λ b, byte_ok b = true) (seq 0 256).
Proof. apply Forall_forall. intros b Hb. apply list_elem_of_In in Hb.
  revert b Hb. apply List.forallb_forall. vm_compute. reflexivity. Qed.

Lemma octet_family :
  Forall (λ b, forall rest, addr_family (pretty (Z.of_nat b) +:+ String dot rest) = Some dot)
    (seq 0 256).
Proof. repeat (constructor; [intros; reflexivity|]). constructor. Qed.

Lemma byte_text b :
  is_byte b -> contains_char slash (pretty b) = false /\ dtoi (pretty b) = Some b.
Proof.
  intros (n & -> & Hn)%byte_of_nat.
  pose proof (proj1 (Forall_forall _ _) bytes_ok n Hn) as [H1 H2]%andb_true_iff.
  split; [by destruct (contains_char _ _)|by apply bool_decide_eq_true in H2].
Qed.

Lemma family_octet b rest :
  is_byte b -> addr_family (pretty b +:+ String dot rest) = Some dot.
Proof.
  intros (n & -> & Hn)%byte_of_nat.
  apply (proj1 (Forall_forall _ _) octet_family n Hn).
Qed.

Lemma be_bytes4 a :
  exists b0 b1 b2 b3, be_bytes 4 a = [b0; b1; b2; b3] /\ Forall is_byte [b0; b1; b2; b3].
Proof.
  pose proof (length_be_bytes 4 a) as Hl.
  assert (Hf : Forall is_byte (be_bytes 4 a)) by auto with lattice.
  destruct (be_bytes 4 a) as [|b0 [|b1 [|b2 [|b3 [|? ?]]]]]; try done. eauto 10.
Qed.

Lemma ipv4_string_shape a :
  exists b0 b1 b2 b3, be_bytes 4 a = [b0; b1; b2; b3] /\ Forall is_byte [b0; b1; b2; b3] /\
    ipv4_string a = pretty b0 +:+ String dot (pretty b1 +:+ String dot
                    (pretty b2 +:+ String dot (pretty b3))).
Proof.
  destruct (be_bytes4 a) as (b0 & b1 & b2 & b3 & E & Hf).
  exists b0, b1, b2, b3. split; [done|]. split; [done|].
  unfold ipv4_string. by rewrite E.
Qed.

Lemma str_app_ne s t : t <> "" -> s +:+ t <> "".
Proof. by destruct s. Qed.

Lemma parse_ipv4_string a :
  0 <= a < 2 ^ 32 -> parse_ipv4 (ipv4_string a) = Some a.
Proof.
  intros Ha. destruct (ipv4_string_shape a) as (b0 & b1 & b2 & b3 & E & Hf & ->).
  unfold parse_ipv4. rewrite !Forall_cons in Hf. destruct Hf as (H0 & H1 & H2 & H3 & _).
  rewrite !parse_octet_dot by (simpl; auto using str_app_ne, pretty_Z_ne; lia).
  rewrite parse_octet_end by done. simpl fmap. f_equal.
  change (reverse [b3; b2; b1; b0]) with [b0; b1; b2; b3]. rewrite <- E, be_value_bytes.
  by apply Z.mod_small.
Qed.

Lemma ParseAddr_string `{IPv6Text} a :
  0 <= a < 2 ^ 32 -> ParseAddr (ipv4_string a) = Some (Is4 a).
Proof.
  intros Ha. unfold ParseAddr.
  assert (addr_family (ipv4_string a) = Some dot) as ->.
  { destruct (ipv4_string_shape a) as (b0 & b1 & b2 & b3 & E & Hf & ->).
    apply family_octet. by inversion Hf. }
  simpl. by rewrite parse_ipv4_string.
Qed.

(** [net.ParseIP] undoes [IP.String] on IPv4 addresses. *)
Lemma ParseIP_String `{IPv6Text} a :
  0 <= a < 2 ^ 32 -> net_ParseIP (ipv4_string a) = Some (v4_in_v6 a).
Proof. intros Ha. unfold net_ParseIP. by rewrite ParseAddr_string. Qed.

Lemma ipv4_string_no_slash a : contains_char slash (ipv4_string a) = false.
Proof.
  destruct (ipv4_string_shape a) as (b0 & b1 & b2 & b3 & E & Hf & ->).
  rewrite !Forall_cons in Hf. destruct Hf as (H0 & H1 & H2 & H3 & _).
  repeat (rewrite contains_char_app; simpl).
  by rewrite (proj1 (byte_text b0 H0)), (proj1 (byte_text b1 H1)),
    (proj1 (byte_text b2 H2)), (proj1 (byte_text b3 H3)).
Qed.

(** [net.ParseCIDR] of a printed IPv4 prefix. *)
Lemma ParseCIDR_String `{IPv6Text} a n :
  0 <= a < 2 ^ 32 -> 0 <= n <= 32 ->
  net_ParseCIDR (ipv4_string a +:+ "/" +:+ pretty n) =
  Some (v4_in_v6 a, net4 (and_mask a n 32) n).
Proof.
  intros Ha Hn. unfold net_ParseCIDR. change ("/" +:+ pretty n) with (String slash (pretty n)).
  rewrite after_char_app, before_char_app by apply ipv4_string_no_slash. simpl.
  rewrite ParseAddr_string by done. simpl.
  rewrite (proj2 (byte_text n ltac:(unfold is_byte; lia))). simpl.
  destruct (Z.ltb_spec 32 n); [lia|].
  unfold ip_Mask. simpl mask_bits. rewrite Z.eqb_refl. rewrite To4_v4_in_v6 by done. done.
Qed.

Lemma ipv4_string_inj a b :
  0 <= a < 2 ^ 32 -> 0 <= b < 2 ^ 32 -> ipv4_string a = ipv4_string b -> a = b.
Proof.
  intros Ha Hb E. apply (f_equal parse_ipv4) in E.
  rewrite !parse_ipv4_string in E by done. by inversion E.
Qed.
