(* ===== verification/Sha256.v ===== *)
(** * Sha256: the digest of [crypto/sha256]

    The hash used for shortened label keys and configuration hashes, as FIPS
    180-4 defines it, on byte strings. *)

From S2P Require Import Prelude.

Definition sha_rotr (n x : Z) : Z := Z.lor (Z.shiftr x n) (u32 (Z.shiftl x (32 - n))).
Definition sha_big0 (x : Z) : Z := Z.lxor (Z.lxor (sha_rotr 2 x) (sha_rotr 13 x)) (sha_rotr 22 x).
Definition sha_big1 (x : Z) : Z := Z.lxor (Z.lxor (sha_rotr 6 x) (sha_rotr 11 x)) (sha_rotr 25 x).
Definition sha_small0 (x : Z) : Z := Z.lxor (Z.lxor (sha_rotr 7 x) (sha_rotr 18 x)) (Z.shiftr x 3).
Definition sha_small1 (x : Z) : Z := Z.lxor (Z.lxor (sha_rotr 17 x) (sha_rotr 19 x)) (Z.shiftr x 10).
Definition sha_ch (x y z : Z) : Z := Z.lxor (Z.land x y) (Z.ldiff z x).
Definition sha_maj (x y z : Z) : Z := Z.lxor (Z.lxor (Z.land x y) (Z.land x z)) (Z.land y z).

(** The constants are the first 32 bits of the fractional parts of cube and
    square roots of the first primes. *)
Definition is_prime (n : Z) : bool :=
  forallb (λ d, negb (n mod Z.of_nat d =? 0)) (seq 2 (Z.to_nat (Z.sqrt n) - 1)).
Definition sha_primes : list Z :=
  Eval vm_compute in filter (λ n, is_prime n = true) (Z.of_nat <$> seq 2 310).

(** The greatest [r] below [2 ^ 40] with [r ^ 3 <= n], bit by bit. *)
Definition cube_root (n : Z) : Z :=
  foldl (λ r b, let r' := r + 2 ^ Z.of_nat b in if r' * r' * r' <=? n then r' else r) 0 (reverse (seq 0 40)).

Definition sha_k : list Z := Eval vm_compute in (λ p, u32 (cube_root (p * 2 ^ 96))) <$> sha_primes.
Definition sha_init : list Z := Eval vm_compute in (λ p, u32 (Z.sqrt (p * 2 ^ 64))) <$> take 8 sha_primes.

(** The message, a one bit, zeros and the bit length, in 64-byte blocks. *)
Definition sha_pad (msg : list Z) : list Z :=
  let len := Z.of_nat (length msg) in
  let zeros := (55 - len) mod 64 in
  msg ++ [0x80] ++ replicate (Z.to_nat zeros) 0 ++ be_bytes 8 (8 * len).

Fixpoint sha_words (l : list Z) : list Z :=
  match l with
  | a :: b :: c :: d :: l => be_value [a; b; c; d] :: sha_words l
  | _ => []
  end.

(** The message schedule, newest word first. *)
Fixpoint sha_extend (n : nat) (w : list Z) : list Z :=
  match n with
  | O => w
  | S n =>
      sha_extend n (u32 (sha_small1 (nth 1 w 0) + nth 6 w 0 + sha_small0 (nth 14 w 0) + nth 15 w 0) :: w)
  end.

Definition sha_round (st : list Z) (kw : Z * Z) : list Z :=
  match st with
  | [a; b; c; d; e; f; g; h] =>
      let t1 := h + sha_big1 e + sha_ch e f g + kw.1 + kw.2 in
      let t2 := sha_big0 a + sha_maj a b c in
      [u32 (t1 + t2); a; b; c; u32 (d + t1); e; f; g]
  | _ => st
  end.

Definition sha_block (st w : list Z) : list Z :=
  let sched := reverse (sha_extend 48 (reverse w)) in
  zip_with (λ x y, u32 (x + y)) st (foldl sha_round st (zip sha_k sched)).

Fixpoint sha_blocks (fuel : nat) (st w : list Z) : list Z :=
  match fuel with
  | O => st
  | S fuel => match w with [] => st | _ => sha_blocks fuel (sha_block st (take 16 w)) (drop 16 w) end
  end.

Definition string_bytes (s : string) : list Z :=
  (λ c, Z.of_nat (nat_of_ascii c)) <$> String.list_ascii_of_string s.

(** [sha256.Sum256]. *)
Definition sha_sum (msg : list Z) : list Z :=
  let w := sha_words (sha_pad msg) in
  mjoin (be_bytes 4 <$> sha_blocks (length w) sha_init w).
Definition Sum256 (s : string) : list Z := sha_sum (string_bytes s).

(** [hmac.New(sha256.New, key)] and [Sum(nil)] of a message. *)
Definition hmac_key (key : list Z) : list Z :=
  let key := if bool_decide (64 < length key)%nat then sha_sum key else key in
  key ++ replicate (64 - length key) 0.
Definition hmac_sha256 (key msg : list Z) : list Z :=
  let k := hmac_key key in
  sha_sum ((Z.lxor 0x5c <$> k) ++ sha_sum ((Z.lxor 0x36 <$> k) ++ msg)).

Example hmac_sha256_fox :
  hex_encode (hmac_sha256 (string_bytes "key") (string_bytes "The quick brown fox jumps over the lazy dog")) =
  "f7bc83f430538424b13298e6aa6fb143ef4d59a14946175997479dbc2d1a3cd8".
Proof. vm_compute. reflexivity. Qed.

Example sha256_abc :
  hex_encode (Sum256 "abc") = "ba7816bf8f01cfea414140de5dae2223b00361a396177a9cb410ff61f20015ad".
Proof. vm_compute. reflexivity. Qed.

Example sha256_two_blocks :
  hex_encode (Sum256 "abcdbcdecdefdefgefghfghighijhijkijkljklmklmnlmnomnopnopq") =
  "248d6a61d20638b8e5c026930c3e6039a33ce45964ff2167f6ecedd419db06c1".
Proof. vm_compute. reflexivity. Qed.

Lemma length_sha_block st w : length st = 8%nat -> length w = 16%nat -> length (sha_block st w) = 8%nat.
Proof.
  intros Hst _. unfold sha_block. rewrite length_zip_with, Hst.
  set (l := zip _ _). assert (length (foldl sha_round st l) = 8%nat) as ->; [|done].
  clearbody l. revert st Hst. induction l as [|kw l IH]; intros st Hst; simpl; [done|].
  apply IH. by do 9 (destruct st as [|? st]; try done).
Qed.

Lemma length_sha_blocks : forall fuel st w, length st = 8%nat -> (16 | length w)%nat ->
  length (sha_blocks fuel st w) = 8%nat.
Proof.
  induction fuel as [|fuel IH]; intros st w Hst [k Hk]; simpl; [done|].
  destruct w as [|x w]; [done|]. destruct k as [|k]; [done|].
  apply IH.
  - apply length_sha_block; [done|]. rewrite length_take. lia.
  - exists k. rewrite length_drop. lia.
Qed.

Lemma length_sha_words l : forall k, length l = (4 * k)%nat -> length (sha_words l) = k.
Proof.
  intros k. revert l. induction k as [|k IH]; intros l Hl; [by destruct l|].
  do 4 (destruct l as [|? l]; [simpl in Hl; lia|]). simpl in *. rewrite IH; lia.
Qed.

Lemma length_Sum256 s : length (Sum256 s) = 32%nat.
Proof.
  unfold Sum256, sha_sum. set (w := sha_words _).
  assert (Hw : (16 | length w)%nat).
  { set (m := string_bytes s) in *. set (n := Z.of_nat (length m)).
    assert (Hl : exists k, length (sha_pad m) = (64 * k)%nat).
    { exists (Z.to_nat ((n + 9 + (55 - n) mod 64) / 64)). unfold sha_pad. fold n.
      rewrite !length_app, length_replicate, length_be_bytes. simpl.
      assert (n + 9 + (55 - n) mod 64 = 64 * ((n + 9 + (55 - n) mod 64) / 64)) as E
        by (Z.div_mod_to_equations; lia).
      pose proof (Z.mod_pos_bound (55 - n) 64). lia. }
    destruct Hl as [k Hl]. exists k. unfold w. rewrite (length_sha_words _ (16 * k)%nat); lia. }
  assert (H8 : length (sha_blocks (length w) sha_init w) = 8%nat) by (by apply length_sha_blocks).
  destruct (sha_blocks _ _ _) as [|x1 [|x2 [|x3 [|x4 [|x5 [|x6 [|x7 [|x8 [|]]]]]]]]]; try done.
Qed.
