(* ===== verification/Api.v ===== *)
(** * Api: the custom resources and the calls on the Kubernetes client

    The record types are those of [api/v1alpha1]; pointers to strings are
    options, [metav1.Time] is a number, an optional one an option, and
    [map[string]string] a finite map.  [apiE] is the interface the controllers
    use: the methods of controller-runtime's [client.Client], the owner
    reference helper, the clock, the WireGuard key generator and the event
    recorder.  What answers them is not part of the program. *)

From S2P Require Import Prelude Prog.

Abbreviation labels := (gmap string string).

(** [m[k]] on a [map[string]string]: the zero value when absent. *)
Definition str_get (m : labels) (k : string) : string := default "" (m !! k).

Record NamespacedName := { key_Namespace : string; key_Name : string }.
#[global] Instance NamespacedName_eq_dec : EqDecision NamespacedName.
Proof. solve_decision. Defined.
#[global] Instance NamespacedName_countable : Countable NamespacedName.
Proof.
  apply (inj_countable' (λ k, (key_Namespace k, key_Name k))
    (λ k, {| key_Namespace := k.1; key_Name := k.2 |})). by intros [].
Defined.

Record OwnerReference := { owner_Name : string; owner_UID : string; owner_Controller : bool }.
#[global] Instance OwnerReference_eq_dec : EqDecision OwnerReference.
Proof. solve_decision. Defined.

Record ObjectMeta := {
  Name : string;
  Namespace : string;
  UID : string;
  ResourceVersion : string;
  Generation : Z;
  DeletionTimestamp : option Z;
  Finalizers : list string;
  Labels : labels;
  Annotations : labels;
  OwnerReferences : list OwnerReference;
}.
#[global] Instance ObjectMeta_eq_dec : EqDecision ObjectMeta.
Proof. solve_decision. Defined.

Definition meta_key (m : ObjectMeta) : NamespacedName :=
  {| key_Namespace := Namespace m; key_Name := Name m |}.

(** A fresh [ObjectMeta{Name: n, Namespace: ns}]. *)
Definition new_meta (ns n : string) : ObjectMeta := {|
  Name := n; Namespace := ns; UID := ""; ResourceVersion := ""; Generation := 0;
  DeletionTimestamp := None; Finalizers := []; Labels := ∅; Annotations := ∅;
  OwnerReferences := [] |}.

Definition meta_with_labels (m : ObjectMeta) (l : labels) : ObjectMeta := {|
  Name := Name m; Namespace := Namespace m; UID := UID m;
  ResourceVersion := ResourceVersion m; Generation := Generation m;
  DeletionTimestamp := DeletionTimestamp m; Finalizers := Finalizers m;
  Labels := l; Annotations := Annotations m; OwnerReferences := OwnerReferences m |}.

Definition meta_with_annotations (m : ObjectMeta) (a : labels) : ObjectMeta := {|
  Name := Name m; Namespace := Namespace m; UID := UID m;
  ResourceVersion := ResourceVersion m; Generation := Generation m;
  DeletionTimestamp := DeletionTimestamp m; Finalizers := Finalizers m;
  Labels := Labels m; Annotations := a; OwnerReferences := OwnerReferences m |}.

Definition meta_with_finalizers (m : ObjectMeta) (f : list string) : ObjectMeta := {|
  Name := Name m; Namespace := Namespace m; UID := UID m;
  ResourceVersion := ResourceVersion m; Generation := Generation m;
  DeletionTimestamp := DeletionTimestamp m; Finalizers := f;
  Labels := Labels m; Annotations := Annotations m; OwnerReferences := OwnerReferences m |}.

Definition meta_with_version (m : ObjectMeta) (v : string) : ObjectMeta := {|
  Name := Name m; Namespace := Namespace m; UID := UID m;
  ResourceVersion := v; Generation := Generation m;
  DeletionTimestamp := DeletionTimestamp m; Finalizers := Finalizers m;
  Labels := Labels m; Annotations := Annotations m; OwnerReferences := OwnerReferences m |}.

(** controllerutil.ContainsFinalizer / AddFinalizer / RemoveFinalizer. *)
Definition ContainsFinalizer (m : ObjectMeta) (f : string) : bool := bool_decide (f ∈ Finalizers m).
Definition AddFinalizer (m : ObjectMeta) (f : string) : ObjectMeta :=
  if ContainsFinalizer m f then m else meta_with_finalizers m (Finalizers m ++ [f]).
Definition RemoveFinalizer (m : ObjectMeta) (f : string) : ObjectMeta :=
  meta_with_finalizers m (filter (λ x, x <> f) (Finalizers m)).

(** [metav1.Condition]. *)
Record Condition := {
  cond_Type : string;
  cond_Status : string;
  cond_Reason : string;
  cond_Message : string;
  cond_LastTransitionTime : Z;
}.
#[global] Instance Condition_eq_dec : EqDecision Condition.
Proof. solve_decision. Defined.
Definition ConditionTrue : string := "True".
Definition ConditionFalse : string := "False".

(** [metav1.LabelSelector]. *)
Record LabelSelectorRequirement := {
  req_Key : string; req_Operator : string; req_Values : list string }.
#[global] Instance LabelSelectorRequirement_eq_dec : EqDecision LabelSelectorRequirement.
Proof. solve_decision. Defined.
Record LabelSelector := {
  MatchLabels : labels;
  MatchExpressions : list LabelSelectorRequirement;
}.
#[global] Instance LabelSelector_eq_dec : EqDecision LabelSelector.
Proof. solve_decision. Defined.

(** [metav1.LabelSelectorAsSelector]: an error for an invalid selector, else the
    label sets it matches; [None] is a nil pointer.  The laws are its
    documented behaviour: nil matches nothing, and a selector made of
    [MatchLabels] alone is valid and matches the label sets that contain them. *)
Class LabelSelectors := {
  LabelSelectorAsSelector : option LabelSelector -> gresult (labels -> bool);
  selector_nil : exists f, LabelSelectorAsSelector None = inr f /\ forall l, f l = false;
  selector_match_labels m :
    exists f, LabelSelectorAsSelector (Some {| MatchLabels := m; MatchExpressions := [] |}) = inr f /\
      forall l, f l = bool_decide (m ⊆ l);
}.

(** Selectors without expressions. *)
Definition plain_selectors : LabelSelectors.
Proof.
  refine {| LabelSelectorAsSelector := λ s,
    match s with
    | None => inr (λ _, false)
    | Some s =>
        match MatchExpressions s with
        | [] => inr (λ l, bool_decide (MatchLabels s ⊆ l))
        | _ => inl (ErrText "expressions are not supported")
        end
    end |}; [by eexists|by eexists].
Defined.

(** ** Custom resources *)

Record ConnectionSummary := { cs_Total : Z; cs_Connected : Z; cs_Disconnected : Z }.
#[global] Instance ConnectionSummary_eq_dec : EqDecision ConnectionSummary.
Proof. solve_decision. Defined.

Record LatticePeerSpec := {
  AppId : string;
  InterfaceName : string;
  Platform : string;
  PrivateKey : string;
  PublicKey : string;
  AllowedIPs : list string;
  DNSServers : list string;
  MTU : Z;
  PeerId : string;
  Network : option string;
  NetworkPolicies : list string;
  WrrpUrl : string;
  WrrpQuicUrl : string;
}.
#[global] Instance LatticePeerSpec_eq_dec : EqDecision LatticePeerSpec.
Proof. solve_decision. Defined.

Record LatticePeerStatus := {
  Conditions : list Condition;
  PeerStatus : string;
  Phase : string;
  ActiveKey : string;
  ActiveNetwork : option string;
  ActiveNetworkPolicies : list string;
  AllocatedAddress : option string;
  ConnSummary : ConnectionSummary;
  LastSyncTime : option Z;
  CurrentHash : string;
  ObservedGeneration : Z;
}.
#[global] Instance LatticePeerStatus_eq_dec : EqDecision LatticePeerStatus.
Proof. solve_decision. Defined.

Record LatticePeer := {
  peer_meta : ObjectMeta;
  peer_Spec : LatticePeerSpec;
  peer_Status : LatticePeerStatus;
}.

Definition peer_with_meta (p : LatticePeer) (m : ObjectMeta) : LatticePeer :=
  {| peer_meta := m; peer_Spec := peer_Spec p; peer_Status := peer_Status p |}.
Definition peer_with_spec (p : LatticePeer) (s : LatticePeerSpec) : LatticePeer :=
  {| peer_meta := peer_meta p; peer_Spec := s; peer_Status := peer_Status p |}.
Definition peer_with_status (p : LatticePeer) (s : LatticePeerStatus) : LatticePeer :=
  {| peer_meta := peer_meta p; peer_Spec := peer_Spec p; peer_Status := s |}.

(** The fields of the status the controllers write. *)
Definition status_with_phase (s : LatticePeerStatus) (ph : string) : LatticePeerStatus := {|
  Conditions := Conditions s; PeerStatus := PeerStatus s; Phase := ph; ActiveKey := ActiveKey s;
  ActiveNetwork := ActiveNetwork s; ActiveNetworkPolicies := ActiveNetworkPolicies s;
  AllocatedAddress := AllocatedAddress s; ConnSummary := ConnSummary s; LastSyncTime := LastSyncTime s;
  CurrentHash := CurrentHash s; ObservedGeneration := ObservedGeneration s |}.
Definition status_with_conditions (s : LatticePeerStatus) (c : list Condition) : LatticePeerStatus := {|
  Conditions := c; PeerStatus := PeerStatus s; Phase := Phase s; ActiveKey := ActiveKey s;
  ActiveNetwork := ActiveNetwork s; ActiveNetworkPolicies := ActiveNetworkPolicies s;
  AllocatedAddress := AllocatedAddress s; ConnSummary := ConnSummary s; LastSyncTime := LastSyncTime s;
  CurrentHash := CurrentHash s; ObservedGeneration := ObservedGeneration s |}.
Definition status_with_network (s : LatticePeerStatus) (net addr : option string) : LatticePeerStatus := {|
  Conditions := Conditions s; PeerStatus := PeerStatus s; Phase := Phase s; ActiveKey := ActiveKey s;
  ActiveNetwork := net; ActiveNetworkPolicies := ActiveNetworkPolicies s;
  AllocatedAddress := addr; ConnSummary := ConnSummary s; LastSyncTime := LastSyncTime s;
  CurrentHash := CurrentHash s; ObservedGeneration := ObservedGeneration s |}.
Definition status_with_hash (s : LatticePeerStatus) (h : string) : LatticePeerStatus := {|
  Conditions := Conditions s; PeerStatus := PeerStatus s; Phase := Phase s; ActiveKey := ActiveKey s;
  ActiveNetwork := ActiveNetwork s; ActiveNetworkPolicies := ActiveNetworkPolicies s;
  AllocatedAddress := AllocatedAddress s; ConnSummary := ConnSummary s; LastSyncTime := LastSyncTime s;
  CurrentHash := h; ObservedGeneration := ObservedGeneration s |}.

Definition NodePhasePending : string := "Pending".
Definition NodePhaseProvisioning : string := "Provisioning".
Definition NodePhaseFailed : string := "Failed".
Definition NodePhaseReady : string := "Ready".

Definition NodeConditionInitialized : string := "Initialized".
Definition NodeConditionProvisioned : string := "Provisioned".
Definition NodeConditionJoiningNetwork : string := "JoiningNetwork".
Definition NodeConditionNetworkConfigured : string := "NetworkConfigured".
Definition NodeConditionIPAllocated : string := "IPAllocated".

Definition ReasonConfiguring : string := "Configuring".
Definition ReasonReady : string := "Ready".
Definition ReasonNotReady : string := "NotReady".
Definition ReasonLeaving : string := "Leaving".
Definition ReasonAllocationFailed : string := "AllocationFailed".
Definition ReasonConfigFailed : string := "ConfigurationFailed".

Record DNSConfig := { dns_Enabled : bool; dns_Servers : list string }.
Record LatticeNetworkSpec := {
  netspec_Name : string;
  netspec_NetworkId : string;
  netspec_Owner : string;
  netspec_CIDR : string;
  netspec_Mtu : Z;
  netspec_Dns : DNSConfig;
  netspec_PeerSelector : labels;
  netspec_Policies : list string;
}.
Record LatticeNetworkStatus := {
  net_Phase : string;
  net_Conditions : list Condition;
  net_ActiveCIDR : string;
  net_AllocatedCount : Z;
  net_AvailableIPs : Z;
  net_ObservedGeneration : Z;
}.
#[global] Instance LatticeNetworkStatus_eq_dec : EqDecision LatticeNetworkStatus.
Proof. solve_decision. Defined.
Record LatticeNetwork := {
  net_meta : ObjectMeta;
  net_Spec : LatticeNetworkSpec;
  net_Status : LatticeNetworkStatus;
}.
Definition NetworkPhaseCreating : string := "Pending".
Definition NetworkPhaseReady : string := "Ready".
Definition NetworkPhaseFailed : string := "Failed".

Record IPBlock := { ipb_CIDR : string }.
Record PeerSelection := { sel_PeerSelector : option LabelSelector; sel_IPBlock : option IPBlock }.
Record NetworkPolicyPort := { npp_Port : Z; npp_Protocol : string }.
Record IngressRule := { ing_From : list PeerSelection; ing_Ports : list NetworkPolicyPort }.
Record EgressRule := { eg_To : list PeerSelection; eg_Ports : list NetworkPolicyPort }.
Record LatticePolicySpec := {
  pol_Network : string;
  pol_PeerSelector : LabelSelector;
  pol_Ingress : list IngressRule;
  pol_Egress : list EgressRule;
  pol_Action : string;
}.
Record NetworkPolicyStatus := { pol_TargetNodes : Z; pol_RuleCount : Z }.
Record LatticePolicy := {
  pol_meta : ObjectMeta;
  pol_Spec : LatticePolicySpec;
  pol_Status : NetworkPolicyStatus;
}.

Record LatticeEndpointSpec := { ep_Address : string; ep_PeerRef : string; ep_NetworkRef : string }.
Record LatticeEndpoint := { ep_meta : ObjectMeta; ep_Spec : LatticeEndpointSpec }.

Record LatticeGlobalIPPoolSpec := { pool_CIDR : string; pool_SubnetMask : Z }.
Record LatticeGlobalIPPoolStatus := {
  pool_TotalSubnets : Z; pool_AllocatedSubnets : Z; pool_AvailableSubnets : Z;
  pool_UsagePercentage : string; pool_Conditions : list Condition }.
Record LatticeGlobalIPPool := {
  pool_meta : ObjectMeta; pool_Spec : LatticeGlobalIPPoolSpec; pool_Status : LatticeGlobalIPPoolStatus }.
Record LatticeSubnetAllocationSpec := { sa_NetworkName : string; sa_CIDR : string }.
Record LatticeSubnetAllocation := { sa_meta : ObjectMeta; sa_Spec : LatticeSubnetAllocationSpec }.

Record LatticeNetworkPeeringSpec := {
  np_NamespaceA : string; np_NetworkA : string;
  np_NamespaceB : string; np_NetworkB : string;
  np_PeeringMode : string;
}.
Record LatticeNetworkPeeringStatus := {
  np_Phase : string; np_CIDRA : string; np_CIDRB : string; np_Conditions : list Condition }.
Record LatticeNetworkPeering := {
  np_meta : ObjectMeta; np_Spec : LatticeNetworkPeeringSpec; np_Status : LatticeNetworkPeeringStatus }.

Record LatticeRelayServerSpec := {
  relay_DisplayName : string; relay_Description : string;
  relay_TcpUrl : string; relay_QuicUrl : string;
  relay_Enabled : bool; relay_Namespaces : list string }.
Record LatticeRelayServerStatus := {
  relay_Phase : string; relay_Health : string; relay_LatencyMs : option Z;
  relay_ConnectedPeers : Z; relay_LastProbeTime : option Z; relay_Conditions : list Condition }.
Record LatticeRelayServer := {
  relay_meta : ObjectMeta; relay_Spec : LatticeRelayServerSpec; relay_Status : LatticeRelayServerStatus }.
Definition RelayPhaseActive : string := "Active".
Definition RelayPhaseDisabled : string := "Disabled".
Definition RelayHealthUnknown : string := "Unknown".
Definition RelayFinalizer : string := "relay.alattice.io/finalizer".
Definition RelayPeerLabel : string := "relay.alattice.io/name".

Record LatticeEnrollmentTokenSpec := {
  tok_Token : string; tok_Namespace : string; tok_UsageLimit : Z;
  tok_Expiry : Z; tok_BoundPeers : list string }.
Record LatticeEnrollmentTokenStatus := {
  tokst_Token : string; tokst_BoundPeers : list string; tokst_Phase : string;
  tokst_UsedCount : Z; tokst_IsExpired : bool }.
#[global] Instance LatticeEnrollmentTokenStatus_eq_dec : EqDecision LatticeEnrollmentTokenStatus.
Proof. solve_decision. Defined.
Record LatticeEnrollmentToken := {
  tok_meta : ObjectMeta; tok_Spec : LatticeEnrollmentTokenSpec; tok_Status : LatticeEnrollmentTokenStatus }.

(** The ConfigMap the peer controller writes ([corev1.ConfigMap]). *)
Record ConfigMap := { cm_meta : ObjectMeta; cm_Data : labels }.

(** Clusters that run Lattice, and the peerings with their networks
    ([lattice_cluster.go]). *)
Record LatticeClusterSpec := { clu_ManagementEndpoint : string; clu_CredentialRef : string }.
Record LatticeClusterStatus := {
  clu_Phase : string; clu_LastProbeTime : option Z; clu_Conditions : list Condition }.
Record LatticeCluster := {
  clu_meta : ObjectMeta; clu_Spec : LatticeClusterSpec; clu_Status : LatticeClusterStatus }.
Record LatticeClusterPeeringSpec := {
  cp_LocalNamespace : string; cp_LocalNetwork : string;
  cp_RemoteCluster : string; cp_RemoteNamespace : string; cp_RemoteNetwork : string }.
Record LatticeClusterPeeringStatus := {
  cp_Phase : string; cp_LocalCIDR : string; cp_RemoteCIDR : string; cp_Conditions : list Condition }.
Record LatticeClusterPeering := {
  cp_meta : ObjectMeta; cp_Spec : LatticeClusterPeeringSpec; cp_Status : LatticeClusterPeeringStatus }.
Definition ClusterPeeringPhaseReady : string := "Ready".
Definition ClusterPeeringPhaseError : string := "Error".

(** [corev1.Secret], as far as it is used. *)
Record Secret := { secret_meta : ObjectMeta; secret_Data : labels }.

(** ** The client *)

Inductive kind :=
| KPeer | KNetwork | KPolicy | KEndpoint | KPool | KSubnet | KPeering | KRelay | KToken | KConfigMap
| KCluster | KClusterPeering | KSecret.

Definition obj (k : kind) : Type :=
  match k with
  | KPeer => LatticePeer
  | KNetwork => LatticeNetwork
  | KPolicy => LatticePolicy
  | KEndpoint => LatticeEndpoint
  | KPool => LatticeGlobalIPPool
  | KSubnet => LatticeSubnetAllocation
  | KPeering => LatticeNetworkPeering
  | KRelay => LatticeRelayServer
  | KToken => LatticeEnrollmentToken
  | KConfigMap => ConfigMap
  | KCluster => LatticeCluster
  | KClusterPeering => LatticeClusterPeering
  | KSecret => Secret
  end.

Definition obj_meta (k : kind) : obj k -> ObjectMeta :=
  match k with
  | KPeer => peer_meta
  | KNetwork => net_meta
  | KPolicy => pol_meta
  | KEndpoint => ep_meta
  | KPool => pool_meta
  | KSubnet => sa_meta
  | KPeering => np_meta
  | KRelay => relay_meta
  | KToken => tok_meta
  | KConfigMap => cm_meta
  | KCluster => clu_meta
  | KClusterPeering => cp_meta
  | KSecret => secret_meta
  end.

Definition obj_key (k : kind) (o : obj k) : NamespacedName := meta_key (obj_meta k o).

(** The list options in use: [client.InNamespace], [client.MatchingLabelsSelector]
    (as the label selector it was made from) and [client.MatchingLabels]; all of
    them restrict the answer. *)
Record ListOptions := {
  list_Namespace : option string;
  list_Selector : option LabelSelector;
  list_Labels : labels;
}.

Definition InNamespace (ns : string) : ListOptions :=
  {| list_Namespace := Some ns; list_Selector := None; list_Labels := ∅ |}.
Definition list_all : ListOptions :=
  {| list_Namespace := None; list_Selector := None; list_Labels := ∅ |}.

(** A generated key pair: the private key, the public key and the public key's
    32 bytes. *)
Record KeyPair := { kp_Private : string; kp_Public : string; kp_PublicBytes : list Z }.

(** Writes are answered with the object as the server stored it, which
    controller-runtime copies back into the object passed in. *)
Inductive apiE : Type -> Type :=
| AGet (k : kind) (key : NamespacedName) : apiE (gresult (obj k))
| AList (k : kind) (opts : ListOptions) : apiE (gresult (list (obj k)))
| ACreate (k : kind) (o : obj k) : apiE (gresult (obj k))
| AUpdate (k : kind) (o : obj k) : apiE (gresult (obj k))
| APatch (k : kind) (base new : obj k) : apiE (gresult (obj k))
| AStatusPatch (k : kind) (base new : obj k) : apiE (gresult (obj k))
| AStatusUpdate (k : kind) (o : obj k) : apiE (gresult (obj k))
| AApply (k : kind) (o : obj k) : apiE (gresult (obj k))
| ADelete (k : kind) (key : NamespacedName) : apiE (gresult unit)
| ASetControllerReference (owner controlled : ObjectMeta) : apiE (gresult ObjectMeta)
| ANow : apiE Z
| AGenerateKey : apiE (gresult KeyPair)
| AEvent (about : NamespacedName) (reason message : string) : apiE unit.

Abbreviation kprog := (prog apiE).

(** The errors the environment answers are [ErrStatus] values, with
    [OtherReason] for every error the code does not tell apart. *)
Definition real_error {A} (r : gresult A) : Prop :=
  forall e, r = inl e -> exists reason msg, e = ErrStatus reason msg.

(** What any environment answers: a real error or a value; the owner-reference
    helper does not rename the object. *)
Definition api_answers T (e : apiE T) : T -> Prop :=
  match e in apiE T return T -> Prop with
  | AGet _ _ => real_error
  | AList _ _ => real_error
  | ACreate _ _ => real_error
  | AUpdate _ _ => real_error
  | APatch _ _ _ => real_error
  | AStatusPatch _ _ _ => real_error
  | AStatusUpdate _ _ => real_error
  | AApply _ _ => real_error
  | ADelete _ _ => real_error
  | ASetControllerReference _ m => λ r, real_error r /\ forall m', r = inr m' -> meta_key m' = meta_key m
  | ANow => λ _, True
  | AGenerateKey => real_error
  | AEvent _ _ _ => λ _, True
  end.

Lemma real_error_inl {A} (e : gerror) :
  real_error (inl e : gresult A) -> exists reason msg, e = ErrStatus reason msg.
Proof. intros H. by apply H. Qed.

(** The calls that change nothing. *)
Definition read_call T (e : apiE T) : Prop :=
  match e with AGet _ _ | AList _ _ | ANow => True | _ => False end.
