(* ===== verification/Ipam.v ===== *)
(** * Ipam: address management ([internal/agent/ipam/ipam.go])

    The allocator keeps no state of its own: a subnet is taken by creating the
    cluster-wide object [subnet-<hex>], an address by creating [ip-<hex>] in the
    peer's namespace.  The definitions follow the methods of [IPAM]; the
    theorems give the first-free search its reference meaning, bound both loops,
    and show that concurrent allocations never hand out an address or a subnet
    twice. *)

From S2P Require Import Prelude Prog Net Api.

Section ipam.
Context `{IPv6Text}.

(** ** Helpers *)

Definition ipToHex (ip : IP) : string :=
  match To4 ip with
  | None => ""
  | Some a => hex_encode (be_bytes 4 a)
  end.

Definition ipToUint32 (ip : IP) : Z :=
  match To4 ip with
  | None => 0
  | Some a => a
  end.

Definition uint32ToIP (nn : Z) : IP := IP4 (u32 nn).

Definition nextSubnet (ip : IP) (maskBits : Z) : IP :=
  uint32ToIP (u32 (ipToUint32 ip + shl32 1 (u32 (32 - u32 maskBits)))).

(** ** Subnets *)

Definition errNoSubnet : gerror := ErrText "no available subnet in pool".

(** The scan of [FindFirstFree], unrolled [fuel] times. *)
Fixpoint scan_subnets (fuel : nat) (ipnet : IPNet) (maskBits : Z) (used : gset string)
    (curr : IP) : gresult IP :=
  match fuel with
  | O => inl ErrFuel
  | S fuel =>
      if ipnet_Contains ipnet curr then
        if bool_decide (ipToHex curr ∈ used)
        then scan_subnets fuel ipnet maskBits used (nextSubnet curr maskBits)
        else inr curr
      else inl errNoSubnet
  end.

Definition used_subnets (items : list LatticeSubnetAllocation) : gset string :=
  list_to_set ((λ a, trim_prefix (Name (sa_meta a)) "subnet-") <$> items).

Definition FindFirstFree (pool : LatticeGlobalIPPool) : kprog (gresult IP) :=
  match net_ParseCIDR (pool_CIDR (pool_Spec pool)) with
  | None => Ret (inl (ErrText ("invalid pool CIDR: invalid CIDR address: " +:+
                               pool_CIDR (pool_Spec pool))))
  | Some (ip, ipnet) =>
      all ← call (AList KSubnet list_all);
      match all with
      | inl err => Ret (inl err)
      | inr items =>
          match ip_Mask ip (net_Mask ipnet) with
          | None => Ret (inl errNoSubnet)
          | Some startIP =>
              Ret (scan_subnets (S (length items)) ipnet (pool_SubnetMask (pool_Spec pool))
                     (used_subnets items) startIP)
          end
      end
  end.

Definition subnet_name (ip : IP) : string := "subnet-" +:+ ipToHex ip.

Definition subnet_cidr (ip : IP) (mask : Z) : string := ip_String ip +:+ "/" +:+ pretty mask.

(** The retry loop of [AllocateSubnet], [attempts] of them left. *)
Fixpoint allocate_subnet (attempts : nat) (networkName : string) (pool : LatticeGlobalIPPool) :
    kprog (gresult string) :=
  match attempts with
  | O => Ret (inl errNoSubnet)
  | S attempts =>
      found ← FindFirstFree pool;
      match found with
      | inl err => Ret (inl err)
      | inr ip =>
          let subnetCIDR := subnet_cidr ip (pool_SubnetMask (pool_Spec pool)) in
          owned ← call (ASetControllerReference (pool_meta pool) (new_meta "" (subnet_name ip)));
          match owned with
          | inl err => Ret (inl err)
          | inr m =>
              let alloc := {| sa_meta := m;
                              sa_Spec := {| sa_NetworkName := networkName; sa_CIDR := subnetCIDR |} |} in
              created ← call (ACreate KSubnet alloc);
              match created with
              | inr _ => Ret (inr subnetCIDR)
              | inl err => if IsAlreadyExists err then allocate_subnet attempts networkName pool
                           else Ret (inl err)
              end
          end
      end
  end.

Definition maxRetries : nat := 10.

Definition AllocateSubnet (networkName : string) (pool : LatticeGlobalIPPool) :
    kprog (gresult string) :=
  allocate_subnet maxRetries networkName pool.

(** ** Addresses *)

Definition endpoint_name (i : Z) : string := "ip-" +:+ ipToHex (uint32ToIP i).

Definition new_endpoint (m : ObjectMeta) (i : Z) (peerName : string) : LatticeEndpoint :=
  {| ep_meta := m;
     ep_Spec := {| ep_Address := ip_String (uint32ToIP i); ep_PeerRef := peerName;
                   ep_NetworkRef := "" |} |}.

Definition errNoAddress (network : LatticeNetwork) : gerror :=
  ErrText ("no available IP addresses in network " +:+ Name (net_meta network)).

(** [for i := startInt; i <= endInt; i++] of [AllocateIP]. *)
Fixpoint claim_address (fuel : nat) (i endInt : Z) (used : gset string)
    (network : LatticeNetwork) (peer : LatticePeer) : kprog (gresult string) :=
  match fuel with
  | O => Ret (inl ErrFuel)
  | S fuel =>
      if i <=? endInt then
        if bool_decide (endpoint_name i ∈ used)
        then claim_address fuel (u32 (i + 1)) endInt used network peer
        else
          owned ← call (ASetControllerReference (peer_meta peer)
                          (new_meta (Namespace (peer_meta peer)) (endpoint_name i)));
          match owned with
          | inl err => Ret (inl err)
          | inr m =>
              created ← call (ACreate KEndpoint (new_endpoint m i (Name (peer_meta peer))));
              match created with
              | inr _ => Ret (inr (ip_String (uint32ToIP i)))
              | inl err =>
                  if IsAlreadyExists err
                  then claim_address fuel (u32 (i + 1)) endInt used network peer
                  else Ret (inl err)
              end
          end
      else Ret (inl (errNoAddress network))
  end.

(** The endpoint the peer already owns, if the listing has one. *)
Definition owned_endpoint (peer : LatticePeer) (items : list LatticeEndpoint) :
    option LatticeEndpoint :=
  snd <$> list_find (λ a, ep_PeerRef (ep_Spec a) = Name (peer_meta peer)) items.

Definition used_endpoints (items : list LatticeEndpoint) : gset string :=
  list_to_set ((λ a, Name (ep_meta a)) <$> items).

(** First and last address of the scan, on [uint32]. *)
Definition startInt (ip : IP) (ipnet : IPNet) : Z :=
  u32 (match ip_Mask ip (net_Mask ipnet) with None => 0 | Some b => ipToUint32 b end + 2).

Definition totalIPs (ipnet : IPNet) : Z :=
  shl32 1 (mask_bits (net_Mask ipnet) - mask_ones (net_Mask ipnet)).

Definition endInt (ip : IP) (ipnet : IPNet) : Z :=
  u32 (match ip_Mask ip (net_Mask ipnet) with None => 0 | Some b => ipToUint32 b end
       + totalIPs ipnet - 2).

Definition AllocateIP (network : LatticeNetwork) (peer : LatticePeer) : kprog (gresult string) :=
  match net_ParseCIDR (net_ActiveCIDR (net_Status network)) with
  | None => Ret (inl (ErrText ("invalid network CIDR: invalid CIDR address: " +:+
                               net_ActiveCIDR (net_Status network))))
  | Some (ip, ipnet) =>
      existing ← call (AList KEndpoint (InNamespace (Namespace (peer_meta peer))));
      match existing with
      | inl err => Ret (inl err)
      | inr items =>
          match owned_endpoint peer items with
          | Some a => Ret (inr (ep_Address (ep_Spec a)))
          | None =>
              claim_address (S (Z.to_nat (endInt ip ipnet - startInt ip ipnet + 1)))
                (startInt ip ipnet) (endInt ip ipnet) (used_endpoints items) network peer
          end
      end
  end.

Definition ReleaseIP (namespace allocatedAddress : string) : kprog (gresult unit) :=
  if bool_decide (allocatedAddress = "") then Ret (inr tt)
  else
    match net_ParseIP allocatedAddress with
    | None => Ret (inr tt)
    | Some ip =>
        let hexName := "ip-" +:+ ipToHex ip in
        r ← call (ADelete KEndpoint {| key_Namespace := namespace; key_Name := hexName |});
        match r with
        | inl err => if IsNotFound err then Ret (inr tt) else Ret (inl err)
        | inr _ => Ret (inr tt)
        end
    end.

(** ** Names *)

Lemma ipToHex_v4 a : ipToHex (IP4 a) = hex_encode (be_bytes 4 a).
Proof. done. Qed.

Lemma ipToHex_inj a b :
  0 <= a < 2 ^ 32 -> 0 <= b < 2 ^ 32 -> ipToHex (IP4 a) = ipToHex (IP4 b) -> a = b.
Proof.
  intros Ha Hb E. rewrite !ipToHex_v4 in E.
  apply hex_encode_inj in E; [|apply be_bytes_byte..].
  apply (f_equal be_value) in E. by rewrite !be_value_bytes, !Z.mod_small in E.
Qed.

Lemma endpoint_name_inj i j :
  0 <= i < 2 ^ 32 -> 0 <= j < 2 ^ 32 -> endpoint_name i = endpoint_name j -> i = j.
Proof.
  unfold endpoint_name, uint32ToIP. intros Hi Hj E%(inj (String.append "ip-")).
  rewrite !u32_small in E by done. by apply ipToHex_inj.
Qed.

Lemma subnet_name_inj a b :
  0 <= a < 2 ^ 32 -> 0 <= b < 2 ^ 32 -> subnet_name (IP4 a) = subnet_name (IP4 b) -> a = b.
Proof.
  unfold subnet_name. intros Ha Hb E%(inj (String.append "subnet-")). by apply ipToHex_inj.
Qed.

Lemma nextSubnet_v4 a m :
  0 < m <= 32 -> nextSubnet (IP4 a) m = IP4 (u32 (a + 2 ^ (32 - m))).
Proof.
  intros Hm. unfold nextSubnet, uint32ToIP. simpl ipToUint32.
  rewrite (u32_small m) by lia. rewrite (u32_small (32 - m)) by lia.
  rewrite shl32_1 by lia. f_equal. apply u32_small, u32_range.
Qed.

(** ** The scan of a pool

    A pool [base/p] cut into subnets of [m] bits; [cand k] is the base address
    of its [k]-th subnet. *)

Section pool.
Context (base p m : Z).
Context (Hp : 1 <= p <= m) (Hm : m <= 32).
Context (Hbase : 0 <= base < 2 ^ 32) (Halign : base mod 2 ^ (32 - p) = 0).

Let cand (k : Z) : Z := base + k * 2 ^ (32 - m).
Let top : Z := base + 2 ^ (32 - p).
Let count : Z := 2 ^ (m - p).

Lemma pool_top : top <= 2 ^ 32.
Proof using Hp Hm Hbase Halign. apply and_mask_block_top; try done; lia. Qed.

Lemma cand_count : cand count = top.
Proof using Hp Hm.
  unfold cand, top, count. rewrite <- Z.pow_add_r by lia. do 2 f_equal. lia.
Qed.

Lemma pool_cand_top k : cand k < top <-> k < count.
Proof using Hp Hm.
  unfold cand, top, count.
  replace (2 ^ (32 - p)) with (2 ^ (m - p) * 2 ^ (32 - m))
    by (rewrite <- Z.pow_add_r by lia; f_equal; lia).
  pose proof (pow2_pos (32 - m) ltac:(lia)). nia.
Qed.

Lemma pool_cand_range k : 0 <= k < count -> base <= cand k < top /\ 0 <= cand k < 2 ^ 32.
Proof using Hp Hm Hbase Halign.
  intros Hk. pose proof pool_top. pose proof (proj2 (pool_cand_top k)).
  assert (0 <= k * 2 ^ (32 - m)) by (apply Z.mul_nonneg_nonneg; lia).
  unfold cand in *. lia.
Qed.

Lemma cand_hex_inj j k :
  0 <= j < count -> 0 <= k < count -> ipToHex (IP4 (cand j)) = ipToHex (IP4 (cand k)) -> j = k.
Proof using Hp Hm Hbase Halign.
  intros Hj Hk E. apply ipToHex_inj in E; [|by apply pool_cand_range..].
  unfold cand in E. pose proof (pow2_pos (32 - m) ltac:(lia)).
  apply Z.add_cancel_l, Z.mul_cancel_r in E; lia.
Qed.

(** One step of the scan from the [k]-th subnet. *)
Lemma scan_step fuel used k :
  0 <= k < count ->
  scan_subnets (S fuel) (net4 base p) m used (IP4 (cand k)) =
  if bool_decide (ipToHex (IP4 (cand k)) ∈ used) then
    if k + 1 <? count then scan_subnets fuel (net4 base p) m used (IP4 (cand (k + 1)))
    else match fuel with O => inl ErrFuel | S _ => inl errNoSubnet end
  else inr (IP4 (cand k)).
Proof using Hp Hm Hbase Halign.
  intros Hk. pose proof (pool_cand_range k Hk) as [Hin Hr]. simpl scan_subnets at 1.
  rewrite (contains_net4 _ _ _ (cand k)) by (done || lia).
  rewrite bool_decide_true by done. case_bool_decide; [|done].
  rewrite nextSubnet_v4 by lia.
  assert (E : cand k + 2 ^ (32 - m) = cand (k + 1)) by (unfold cand; lia).
  rewrite E. destruct (Z.ltb_spec (k + 1) count) as [Hlt|Hge].
  - rewrite u32_small by (apply pool_cand_range; lia). done.
  - destruct fuel as [|fuel]; [done|]. simpl.
    rewrite (contains_net4 _ _ _ (u32 (cand (k + 1)))) by (done || lia).
    rewrite bool_decide_false; [done|]. intros [Hlo Hhi].
    assert (k + 1 = count) as Hc by lia. rewrite Hc, cand_count in Hlo, Hhi.
    pose proof pool_top. pose proof (pow2_pos (32 - p) ltac:(lia)).
    assert (2 ^ (32 - p) < 2 ^ 32) by (apply Z.pow_lt_mono_r; lia).
    destruct (decide (top = 2 ^ 32)) as [Ht|].
    + rewrite Ht in Hlo. change (u32 (2 ^ 32)) with 0 in Hlo. unfold top in Ht. lia.
    + rewrite u32_small in Hhi by (unfold top in *; lia). unfold top in *. lia.
Qed.

(** The reference: the first of the [n] subnets from the [k]-th on whose name
    is not in use. *)
Definition first_free (used : gset string) (k : Z) (n : nat) : option Z :=
  snd <$> list_find (λ j, ipToHex (IP4 (cand j)) ∉ used) (seqZ k (Z.of_nat n)).

Definition scan_result (o : option Z) : gresult IP :=
  match o with
  | Some j => inr (IP4 (cand j))
  | None => inl errNoSubnet
  end.

Lemma first_free_S used k n :
  first_free used k (S n) =
  if bool_decide (ipToHex (IP4 (cand k)) ∈ used) then first_free used (k + 1) n else Some k.
Proof.
  unfold first_free. rewrite seqZ_cons by lia.
  replace (Z.pred (Z.of_nat (S n))) with (Z.of_nat n) by lia.
  rewrite <- Z.add_1_r. simpl. case_bool_decide.
  - rewrite decide_False by tauto. by destruct (list_find _ _) as [[]|].
  - by rewrite decide_True.
Qed.

(** The loop computes the reference once the fuel covers what is left. *)
Lemma scan_first_free used : forall n k fuel,
  0 <= k -> k + Z.of_nat n = count -> (n < fuel)%nat -> (0 < n)%nat ->
  scan_subnets fuel (net4 base p) m used (IP4 (cand k)) = scan_result (first_free used k n).
Proof using Hp Hm Hbase Halign.
  induction n as [|n IH]; intros k fuel Hk Hn Hf Hpos; [lia|].
  destruct fuel as [|fuel]; [lia|]. rewrite scan_step, first_free_S by lia.
  case_bool_decide; [|done]. destruct (Z.ltb_spec (k + 1) count) as [Hlt|Hge].
  - apply IH; lia.
  - assert (n = O) as -> by lia. by destruct fuel; [lia|].
Qed.

(** A scan that runs out of fuel has seen only names in use. *)
Lemma scan_fuel_used used : forall fuel k,
  0 <= k < count ->
  scan_subnets fuel (net4 base p) m used (IP4 (cand k)) = inl ErrFuel ->
  forall j, k <= j < k + Z.of_nat fuel -> j < count /\ ipToHex (IP4 (cand j)) ∈ used.
Proof using Hp Hm Hbase Halign.
  induction fuel as [|fuel IH]; intros k Hk Hs j Hj; [lia|].
  rewrite scan_step in Hs by done. case_bool_decide as Hd; [|done].
  destruct (decide (j = k)) as [->|]; [by split; [lia|]|].
  destruct (Z.ltb_spec (k + 1) count) as [Hlt|Hge].
  - apply (IH (k + 1)); [lia|done|lia].
  - destruct fuel; [lia|done].
Qed.

(** Pigeonhole: the scan stops after at most one step per name in use. *)
Lemma scan_fuel used fuel :
  (size used < fuel)%nat -> scan_subnets fuel (net4 base p) m used (IP4 base) <> inl ErrFuel.
Proof using Hp Hm Hbase Halign.
  intros Hf Hs. assert (Hc : 0 < count) by (apply pow2_pos; lia).
  replace (IP4 base) with (IP4 (cand 0)) in Hs by (unfold cand; f_equal; lia).
  pose proof (scan_fuel_used used fuel 0 ltac:(lia) Hs) as Hall.
  set (l := (λ j, ipToHex (IP4 (cand j))) <$> seqZ 0 (Z.of_nat fuel)).
  assert (Hnd : NoDup l).
  { apply NoDup_fmap_2_strong; [|apply NoDup_seqZ].
    intros x y Hx%elem_of_seqZ Hy%elem_of_seqZ E.
    apply cand_hex_inj in E; [done|..];
      [destruct (Hall x ltac:(lia))|destruct (Hall y ltac:(lia))]; lia. }
  assert (Hsub : list_to_set l ⊆ used).
  { intros x Hx%elem_of_list_to_set. apply list_elem_of_fmap in Hx as (j & -> & Hj%elem_of_seqZ).
    apply Hall. lia. }
  apply subseteq_size in Hsub. rewrite size_list_to_set in Hsub by done.
  unfold l in Hsub. rewrite length_fmap, length_seqZ in Hsub. lia.
Qed.

Lemma scan_more used : forall fuel ip extra,
  scan_subnets fuel (net4 base p) m used ip <> inl ErrFuel ->
  scan_subnets (fuel + extra) (net4 base p) m used ip = scan_subnets fuel (net4 base p) m used ip.
Proof.
  induction fuel as [|fuel IH]; intros ip extra Hs; [done|]. simpl in *.
  destruct (ipnet_Contains _ _); [|done]. case_bool_decide; [|done]. by apply IH.
Qed.

Lemma size_used_subnets items : (size (used_subnets items) <= length items)%nat.
Proof.
  unfold used_subnets. etrans; [apply size_list_to_set_le|]. by rewrite length_fmap.
Qed.

Lemma scan_items items :
  scan_subnets (S (length items)) (net4 base p) m (used_subnets items) (IP4 base) =
  scan_result (first_free (used_subnets items) 0 (Z.to_nat count)).
Proof using Hp Hm Hbase Halign.
  assert (Hc : 0 < count) by (apply pow2_pos; lia).
  pose proof (size_used_subnets items) as Hs.
  rewrite <- (scan_more _ _ _ (S (Z.to_nat count))) by (apply scan_fuel; lia).
  replace (IP4 base) with (IP4 (cand 0)) by (unfold cand; f_equal; lia).
  apply scan_first_free; lia.
Qed.
End pool.

(** ** What the API server promises the allocator

    The class lists the documented behaviour of the API server that the
    allocator relies on, for the two object kinds it creates: object names are
    unique, a refused create changes nothing, a listing (possibly from a stale
    informer cache) shows only objects that exist while none is deleted, and the
    owner-reference helper does not rename.  [h] may fail any call at any time. *)

Class AllocationServer {W} (h : forall T, apiE T -> W -> T -> W -> Prop) := {
  endpoints : W -> gmap NamespacedName LatticeEndpoint;
  subnets : W -> gmap NamespacedName LatticeSubnetAllocation;
  server_answers T e s r s' : h T e s r s' -> api_answers T e r;
  ep_list s s' opts l : h _ (AList KEndpoint opts) s (inr l) s' ->
    endpoints s' = endpoints s /\
    forall o, o ∈ l -> endpoints s !! obj_key KEndpoint o = Some o /\
      forall ns, list_Namespace opts = Some ns -> Namespace (ep_meta o) = ns;
  ep_list_err s s' opts e : h _ (AList KEndpoint opts) s (inl e) s' ->
    endpoints s' = endpoints s;
  ep_create s s' o o' : h _ (ACreate KEndpoint o) s (inr o') s' ->
    endpoints s !! obj_key KEndpoint o = None /\
    endpoints s' = <[obj_key KEndpoint o := o']> (endpoints s) /\
    ep_Spec o' = ep_Spec o /\ obj_key KEndpoint o' = obj_key KEndpoint o;
  ep_create_err s s' o e : h _ (ACreate KEndpoint o) s (inl e) s' ->
    endpoints s' = endpoints s /\
    (IsAlreadyExists e = true -> is_Some (endpoints s !! obj_key KEndpoint o));
  sa_list s s' opts r : h _ (AList KSubnet opts) s r s' -> subnets s' = subnets s;
  sa_create s s' o o' : h _ (ACreate KSubnet o) s (inr o') s' ->
    subnets s !! obj_key KSubnet o = None /\
    subnets s' = <[obj_key KSubnet o := o']> (subnets s) /\
    sa_Spec o' = sa_Spec o /\ obj_key KSubnet o' = obj_key KSubnet o;
  sa_create_err s s' o e : h _ (ACreate KSubnet o) s (inl e) s' -> subnets s' = subnets s;
  owner_ref s s' ow m r : h _ (ASetControllerReference ow m) s r s' ->
    endpoints s' = endpoints s /\ subnets s' = subnets s /\
    forall m', r = inr m' -> meta_key m' = meta_key m;
}.

Section concurrent.
Context {W} (h : forall T, apiE T -> W -> T -> W -> Prop) `{!AllocationServer h}.

  (** *** Addresses *)

(** Every endpoint is stored under the name of the address it carries. *)
Definition endpoints_wf (s : W) : Prop :=
  forall k o, endpoints s !! k = Some o -> exists i, 0 <= i < 2 ^ 32 /\
    key_Name k = endpoint_name i /\ ep_Address (ep_Spec o) = ipv4_string i.

Definition endpoints_grow (s s' : W) : Prop := endpoints s ⊆ endpoints s'.

#[export] Instance endpoints_grow_preorder : PreOrder endpoints_grow.
Proof. unfold endpoints_grow. split; [by intros x; apply reflexivity|]. intros x y z. apply transitivity. Qed.

(** The peer owns an endpoint with address [a] in its namespace. *)
Definition holds_address (s : W) (peer : LatticePeer) (a : string) : Prop :=
  exists k o, endpoints s !! k = Some o /\ key_Namespace k = Namespace (peer_meta peer) /\
    ep_PeerRef (ep_Spec o) = Name (peer_meta peer) /\ ep_Address (ep_Spec o) = a.

Definition allocated (s : W) (r : LatticePeer * gresult string) : Prop :=
  match r.2 with inr a => holds_address s r.1 a | inl _ => True end.

Definition alloc_thread (job : LatticeNetwork * LatticePeer) :
    kprog (LatticePeer * gresult string) :=
  r ← AllocateIP job.1 job.2; Ret (job.2, r).

Lemma allocated_stable : stable endpoints_grow allocated.
Proof.
  intros s s' [peer [e|a]]; [done|]. unfold allocated; simpl.
  intros Hs (k & o & Hk & Hrest). exists k, o. split; [|done]. by eapply lookup_weaken.
Qed.

Lemma endpoints_unchanged s s' :
  endpoints s' = endpoints s -> endpoints_wf s -> endpoints_wf s' /\ endpoints_grow s s'.
Proof. intros E HI. unfold endpoints_wf, endpoints_grow. rewrite E. by split. Qed.

Lemma endpoints_created s s' m i peer o' :
  0 <= i < 2 ^ 32 ->
  meta_key m = meta_key (new_meta (Namespace (peer_meta peer)) (endpoint_name i)) ->
  h _ (ACreate KEndpoint (new_endpoint m i (Name (peer_meta peer)))) s (inr o') s' ->
  endpoints_wf s ->
  endpoints_wf s' /\ endpoints_grow s s' /\ holds_address s' peer (ip_String (uint32ToIP i)).
Proof.
  intros Hi Hm Hc HI. destruct (ep_create _ _ _ _ Hc) as (Hfree & E & Hspec & Hkey).
  assert (Hk : obj_key KEndpoint (new_endpoint m i (Name (peer_meta peer))) =
               meta_key (new_meta (Namespace (peer_meta peer)) (endpoint_name i))) by done.
  assert (Ha : ip_String (uint32ToIP i) = ipv4_string i).
  { unfold uint32ToIP. by rewrite u32_small. }
  rewrite Hk in *. split_and!.
  - intros k o. rewrite E, lookup_insert. case_decide as Hd; [|by apply HI].
    intros [= <-]. subst k. exists i. by rewrite Hspec.
  - unfold endpoints_grow. rewrite E. by apply insert_subseteq.
  - eexists _, o'. rewrite E, lookup_insert_eq. split; [done|]. by rewrite Hspec.
Qed.

Lemma claim_address_rg fuel : forall i e used network peer s,
  0 <= i < 2 ^ 32 ->
  rgwp h endpoints_wf endpoints_grow (claim_address fuel i e used network peer) s
    (λ s' r, allocated s' (peer, r)).
Proof.
  induction fuel as [|fuel IH]; intros i e used network peer s Hi; simpl; [done|].
  destruct (i <=? e); [|done]. case_bool_decide; [apply IH, u32_range|].
  intros s1 r s2 Hs HI Ho. destruct (owner_ref _ _ _ _ _ Ho) as (E & _ & Hm).
  destruct (endpoints_unchanged _ _ E HI) as [HI2 Hg]. split_and!; [done..|].
  destruct r as [err|m]; [done|]. simpl.
  intros s3 r s4 _ HI3 Hc. destruct r as [err|o'].
  - destruct (endpoints_unchanged _ _ (proj1 (ep_create_err _ _ _ _ Hc)) HI3).
    split_and!; [done..|]. destruct (IsAlreadyExists err); [apply IH, u32_range|done].
  - destruct (endpoints_created s3 s4 m i peer o' Hi (Hm m eq_refl) Hc HI3) as (?&?&?).
    by split_and!.
Qed.

Lemma AllocateIP_rg network peer s :
  rgwp h endpoints_wf endpoints_grow (AllocateIP network peer) s
    (λ s' r, allocated s' (peer, r)).
Proof.
  unfold AllocateIP. destruct (net_ParseCIDR _) as [[ip ipnet]|]; [|done]. rewrite bind_call.
  intros s1 r s2 Hs HI Hl. destruct r as [err|items].
  { destruct (endpoints_unchanged _ _ (ep_list_err _ _ _ _ Hl) HI). by split_and!. }
  destruct (ep_list _ _ _ _ Hl) as [E Hitems].
  destruct (endpoints_unchanged _ _ E HI). split_and!; [done..|]. cbv beta iota.
  destruct (owned_endpoint peer items) as [o|] eqn:Ho; [|apply claim_address_rg, u32_range].
  unfold owned_endpoint in Ho. apply fmap_Some in Ho as ([j o'] & Ho & ->).
  apply list_find_Some in Ho as (Hj & Href & _).
  destruct (Hitems o') as [Hs' Hns]; [by eapply list_elem_of_lookup_2|].
  eexists _, o'. rewrite E. split; [done|]. split; [by apply Hns|]. done.
Qed.

Lemma alloc_thread_rg job s :
  rgwp h endpoints_wf endpoints_grow (alloc_thread job) s allocated.
Proof.
  unfold alloc_thread. apply rgwp_bind.
  eapply rgwp_mono; [|apply AllocateIP_rg]. done.
Qed.

  (** *** Subnets of one pool [base/p] cut with mask [m] *)

Section subnets.
Context (pool : LatticeGlobalIPPool) (a p : Z).
Let m := pool_SubnetMask (pool_Spec pool).
Let base := and_mask a p 32.
Context (Hcidr : pool_CIDR (pool_Spec pool) = ipv4_string a +:+ "/" +:+ pretty p).
Context (Ha : 0 <= a < 2 ^ 32) (Hp : 1 <= p <= m) (Hm : m <= 32).

Definition subnets_grow (s s' : W) : Prop := subnets s ⊆ subnets s'.

#[export] Instance subnets_grow_preorder : PreOrder subnets_grow.
Proof.
  unfold subnets_grow. split; [by intros x; apply reflexivity|]. intros x y z. apply transitivity.
Qed.

Lemma subnets_unchanged s s' : subnets s' = subnets s -> subnets_grow s s'.
Proof. unfold subnets_grow. intros ->. apply reflexivity. Qed.

(** The network holds the [k]-th subnet of the pool, whose text is [cidr]. *)
Definition holds_subnet (s : W) (networkName cidr : string) : Prop :=
  exists k o, 0 <= k < 2 ^ (m - p) /\
    subnets s !! meta_key (new_meta "" (subnet_name (IP4 (base + k * 2 ^ (32 - m))))) = Some o /\
    sa_NetworkName (sa_Spec o) = networkName /\
    cidr = subnet_cidr (IP4 (base + k * 2 ^ (32 - m))) m.

Definition subnet_allocated (s : W) (r : string * gresult string) : Prop :=
  match r.2 with inr c => holds_subnet s r.1 c | inl _ => True end.

Definition subnet_thread (networkName : string) : kprog (string * gresult string) :=
  r ← AllocateSubnet networkName pool; Ret (networkName, r).

Lemma subnet_allocated_stable : stable subnets_grow subnet_allocated.
Proof.
  intros s s' [n [e|c]]; [done|]. unfold subnet_allocated; simpl.
  intros Hs (k & o & Hk & Hl & Hrest). exists k, o. split; [done|].
  split; [by eapply lookup_weaken|done].
Qed.

Lemma base_facts : 0 <= base < 2 ^ 32 /\ base mod 2 ^ (32 - p) = 0.
Proof using Ha Hp Hm. split; [by apply and_mask_range; lia|by apply and_mask_aligned; lia]. Qed.

(** Whatever is listed, the search answers a subnet of the pool or an error
    other than running out of fuel. *)
Lemma found_subnet items :
  match scan_subnets (S (length items)) (net4 base p) m (used_subnets items) (IP4 base) with
  | inr ip => exists k, 0 <= k < 2 ^ (m - p) /\ ip = IP4 (base + k * 2 ^ (32 - m))
  | inl e => e = errNoSubnet
  end.
Proof using Ha Hp Hm.
  destruct base_facts. rewrite scan_items by done. unfold scan_result, first_free.
  destruct (list_find _ _) as [[j k]|] eqn:E; [|done]. simpl.
  apply list_find_Some in E as (Hj%list_elem_of_lookup_2 & _).
  apply elem_of_seqZ in Hj. pose proof (pow2_pos (m - p) ltac:(lia)).
  exists k. split; [lia|done].
Qed.

Lemma AllocateSubnet_rg n : forall networkName s,
  rgwp h (λ _, True) subnets_grow (allocate_subnet n networkName pool) s
    (λ s' r, subnet_allocated s' (networkName, r)).
Proof using Hcidr Ha Hp Hm AllocationServer0.
  induction n as [|n IH]; intros networkName s; simpl; [done|].
  apply rgwp_bind. unfold FindFirstFree. rewrite Hcidr, ParseCIDR_String by lia.
  rewrite bind_call.
  intros s1 r s2 _ _ Hl. split; [done|].
  split; [by eapply subnets_unchanged, sa_list|].
  destruct r as [err|items]; [done|]. unfold ip_Mask. simpl net_Mask. simpl mask_bits.
  rewrite Z.eqb_refl, To4_v4_in_v6 by done. simpl mbind. simpl mask_ones. fold base.
  pose proof (found_subnet items) as Hf. cbv beta iota. cbn [rgwp]. fold m.
  destruct (scan_subnets _ _ _ _ _) as [err|ip]; [done|].
  destruct Hf as (k & Hk & ->). intros s3 r s4 _ _ Ho.
  destruct (owner_ref _ _ _ _ _ Ho) as (_ & E & Hmk).
  split; [done|]. split; [by apply subnets_unchanged|].
  destruct r as [err|mt]; [done|]. intros s5 r s6 _ _ Hc. split; [done|].
  destruct r as [err|o'].
  - split; [by eapply subnets_unchanged, sa_create_err|].
    destruct (IsAlreadyExists err); [apply IH|done].
  - destruct (sa_create _ _ _ _ Hc) as (Hfree & E' & Hspec & _).
    unfold obj_key in *. simpl obj_meta in *. simpl sa_meta in *. rewrite (Hmk mt eq_refl) in *.
    split; [unfold subnets_grow; rewrite E'; by apply insert_subseteq|].
    exists k, o'. rewrite E', lookup_insert_eq, Hspec. done.
Qed.

Lemma subnet_thread_rg networkName s :
rgwp h (λ _, True) subnets_grow (subnet_thread networkName) s subnet_allocated.
Proof using Hcidr Ha Hp Hm AllocationServer0.
unfold subnet_thread. apply rgwp_bind.
eapply rgwp_mono; [|apply AllocateSubnet_rg]. done.
Qed.
End subnets.
End concurrent.

(** ** Properties *)

(** C3. Functional correctness of the subnet search.  For an IPv4 pool [a/p]
    with [1 <= p <= m <= 32], where [m] is the configured subnet mask, whatever
    the listing answers, [FindFirstFree] either passes the listing's error on or
    returns exactly the lowest subnet of the pool whose name is not listed, and
    reports an exhausted pool only when every subnet's name is listed; in
    particular the scan always terminates. *)
Theorem FindFirstFree_correct {W} (h : forall T, apiE T -> W -> T -> W -> Prop)
    (pool : LatticeGlobalIPPool) (a p : Z) s r s' :
  let m := pool_SubnetMask (pool_Spec pool) in
  pool_CIDR (pool_Spec pool) = ipv4_string a +:+ "/" +:+ pretty p ->
  0 <= a < 2 ^ 32 -> 1 <= p <= m -> m <= 32 ->
  runs h (FindFirstFree pool) s r s' ->
  exists all, h _ (AList KSubnet list_all) s all s' /\
    r = match all with
        | inl err => inl err
        | inr items =>
            match first_free (and_mask a p 32) m (used_subnets items) 0 (Z.to_nat (2 ^ (m - p))) with
            | Some k => inr (IP4 (and_mask a p 32 + k * 2 ^ (32 - m)))
            | None => inl errNoSubnet
            end
        end.
Proof.
  intros m Hcidr Ha Hp Hm. unfold FindFirstFree.
  rewrite Hcidr, ParseCIDR_String by lia. rewrite bind_call.
  intros (all & s1 & Hl & Hr)%runs_vis_inv. exists all.
  destruct all as [err|items]; [by apply runs_ret_inv in Hr as [-> ->]|].
  unfold ip_Mask in Hr. simpl net_Mask in Hr. simpl mask_bits in Hr.
  rewrite Z.eqb_refl, To4_v4_in_v6 in Hr by done. simpl mbind in Hr. cbv beta iota in Hr.
  apply runs_ret_inv in Hr as [-> ->]. split; [done|]. simpl mask_ones. fold m.
  rewrite scan_items; [done|lia|lia|by apply and_mask_range; lia|by apply and_mask_aligned; lia].
Qed.

(** C1. No double allocation.  Any number of [AllocateIP] calls for any peers
    and networks, interleaved call by call against an API server that may
    refuse any of their requests and answer listings from a stale cache: two
    calls that have returned the same address for peers of one namespace were
    made for the same peer. *)
Theorem AllocateIP_unique {W} (h : forall T, apiE T -> W -> T -> W -> Prop) `{!AllocationServer h}
    (jobs : list (LatticeNetwork * LatticePeer)) s ts s' i j p1 p2 a :
  endpoints_wf h s ->
  rtc (pstep h) (alloc_thread <$> jobs, s) (ts, s') ->
  ts !! i = Some (Ret (p1, inr a)) -> ts !! j = Some (Ret (p2, inr a)) ->
  Namespace (peer_meta p1) = Namespace (peer_meta p2) ->
  Name (peer_meta p1) = Name (peer_meta p2).
Proof.
  intros HI Hr Hi Hj Hns.
  destruct (rgwp_pool h (endpoints_wf h) (endpoints_grow h) (allocated h) _ _ _ _
              (allocated_stable h) Hr HI) as [HI' Hdone].
  { apply Forall_forall. intros t (job & -> & _)%list_elem_of_fmap. by apply alloc_thread_rg. }
  destruct (Hdone _ _ Hi) as (k1 & o1 & Hk1 & Hn1 & Hr1 & Ha1).
  destruct (Hdone _ _ Hj) as (k2 & o2 & Hk2 & Hn2 & Hr2 & Ha2). simpl in *.
  destruct (HI' _ _ Hk1) as (x1 & Hx1 & Hm1 & Hs1), (HI' _ _ Hk2) as (x2 & Hx2 & Hm2 & Hs2).
  assert (x1 = x2) as -> by (apply ipv4_string_inj; congruence).
  assert (k1 = k2) as -> by (destruct k1, k2; simpl in *; congruence).
  congruence.
Qed.

(** C2. Disjoint subnets.  Any number of [AllocateSubnet] calls against one
    IPv4 pool, interleaved call by call: every call that succeeds returns the
    text of an [m]-bit subnet inside the pool, and the subnets returned to two
    differently named networks share no address. *)
Theorem AllocateSubnet_disjoint {W} (h : forall T, apiE T -> W -> T -> W -> Prop)
    `{!AllocationServer h} (pool : LatticeGlobalIPPool) (a p : Z) (names : list string)
    s ts s' i j n1 n2 c1 c2 :
  let m := pool_SubnetMask (pool_Spec pool) in
  let base := and_mask a p 32 in
  pool_CIDR (pool_Spec pool) = ipv4_string a +:+ "/" +:+ pretty p ->
  0 <= a < 2 ^ 32 -> 1 <= p <= m -> m <= 32 ->
  rtc (pstep h) (subnet_thread pool <$> names, s) (ts, s') ->
  ts !! i = Some (Ret (n1, inr c1)) -> ts !! j = Some (Ret (n2, inr c2)) -> n1 <> n2 ->
  exists b1 b2, c1 = subnet_cidr (IP4 b1) m /\ c2 = subnet_cidr (IP4 b2) m /\
    (base <= b1 /\ b1 + 2 ^ (32 - m) <= base + 2 ^ (32 - p)) /\
    (base <= b2 /\ b2 + 2 ^ (32 - m) <= base + 2 ^ (32 - p)) /\
    forall x, ~ (b1 <= x < b1 + 2 ^ (32 - m) /\ b2 <= x < b2 + 2 ^ (32 - m)).
Proof.
  intros m base Hcidr Ha Hp Hm Hr Hi Hj Hne.
  destruct (rgwp_pool h (λ _, True) (subnets_grow h) (subnet_allocated h pool a p) _ _ _ _
              (subnet_allocated_stable h pool a p) Hr I) as [_ Hdone].
  { apply Forall_forall. intros t (n & -> & _)%list_elem_of_fmap. by apply subnet_thread_rg. }
  destruct (Hdone _ _ Hi) as (k1 & o1 & Hk1 & Hl1 & Hn1 & ->).
  destruct (Hdone _ _ Hj) as (k2 & o2 & Hk2 & Hl2 & Hn2 & ->).
  fold m base in Hk1, Hl1, Hk2, Hl2 |- *. simpl in Hn1, Hn2.
  assert (k1 <> k2) by (intros ->; rewrite Hl1 in Hl2; congruence).
  assert (Hs : 2 ^ (32 - p) = 2 ^ (m - p) * 2 ^ (32 - m))
    by (rewrite <- Z.pow_add_r by lia; f_equal; lia).
  pose proof (pow2_pos (32 - m) ltac:(lia)).
  eexists _, _. split; [done|]. split; [done|]. rewrite Hs. repeat split; nia.
Qed.

(** The calls [AllocateIP] may make for peer [peer] in a network whose usable
    addresses are [lo..hi]: list endpoints, set an owner, and create endpoints
    named after a usable address that carry it and the peer's name. *)
Definition allocate_calls (peer : LatticePeer) (lo hi : Z) T (e : apiE T) : Prop :=
  match e with
  | AList KEndpoint _ => True
  | ASetControllerReference _ _ => True
  | ACreate k o =>
      match k return obj k -> Prop with
      | KEndpoint => λ o, exists i, lo <= i <= hi /\
          meta_key (ep_meta o) = {| key_Namespace := Namespace (peer_meta peer);
                                    key_Name := endpoint_name i |} /\
          ep_Address (ep_Spec o) = ipv4_string i /\ ep_PeerRef (ep_Spec o) = Name (peer_meta peer)
      | _ => λ _, False
      end o
  | _ => False
  end.

Lemma claim_address_calls network peer lo hi used : forall fuel i,
  lo <= i -> 0 <= i < 2 ^ 32 -> 0 <= hi < 2 ^ 32 - 1 -> hi + 1 - i < Z.of_nat fuel -> (0 < fuel)%nat ->
  wp api_answers (allocate_calls peer lo hi)
    (claim_address fuel i hi used network peer) (λ r, r <> inl ErrFuel).
Proof.
  induction fuel as [|fuel IH]; intros i Hlo Hi Hhi Hf Hpos; [lia|].
  simpl. destruct (Z.leb_spec i hi) as [Hle|]; [|done].
  assert (0 < fuel)%nat by lia.
  assert (Hnext : wp api_answers (allocate_calls peer lo hi)
            (claim_address fuel (u32 (i + 1)) hi used network peer) (λ r, r <> inl ErrFuel)).
  { rewrite u32_small by lia. apply IH; lia. }
  case_bool_decide; [done|]. split; [done|]. intros r [Hr Hkey].
  destruct r as [err|m]; [by destruct (real_error_inl _ Hr) as (?&?&->)|]. simpl. split.
  - exists i. split; [lia|]. split; [by apply Hkey|]. split; [|done].
    unfold uint32ToIP. by rewrite u32_small.
  - intros [err|o] Herr; [|done]. destruct (IsAlreadyExists err); [done|].
    by destruct (real_error_inl _ Herr) as (?&?&->).
Qed.

(** The scan gives up only when every address it passed is taken. *)
Lemma claim_address_exhausted {W} (h : forall T, apiE T -> W -> T -> W -> Prop)
    `{!AllocationServer h} network peer items : forall fuel i hi s s',
  0 <= i < 2 ^ 32 -> 0 <= hi < 2 ^ 32 - 1 ->
  (forall o, o ∈ items -> Namespace (ep_meta o) = Namespace (peer_meta peer) /\
     endpoints s !! obj_key KEndpoint o = Some o) ->
  runs h (claim_address fuel i hi (used_endpoints items) network peer) s
    (inl (errNoAddress network)) s' ->
  endpoints s ⊆ endpoints s' /\
  forall j, i <= j <= hi -> is_Some (endpoints s' !!
    {| key_Namespace := Namespace (peer_meta peer); key_Name := endpoint_name j |}).
Proof.
  induction fuel as [|fuel IH]; intros i hi s s' Hi Hhi Hitems Hr; simpl in Hr.
  { by apply runs_ret_inv in Hr as [? _]. }
  destruct (Z.leb_spec i hi) as [Hle|].
  2:{ apply runs_ret_inv in Hr as [_ ->]. split; [done|lia]. }
  rewrite u32_small in Hr by lia.
  (* one more address is known to be taken in [s1], and the scan goes on *)
  assert (Hnext : forall s1, endpoints s1 = endpoints s ->
    is_Some (endpoints s1 !! {| key_Namespace := Namespace (peer_meta peer);
                                key_Name := endpoint_name i |}) ->
    runs h (claim_address fuel (i + 1) hi (used_endpoints items) network peer) s1
      (inl (errNoAddress network)) s' ->
    endpoints s ⊆ endpoints s' /\
    forall j, i <= j <= hi -> is_Some (endpoints s' !!
      {| key_Namespace := Namespace (peer_meta peer); key_Name := endpoint_name j |})).
  { intros s1 E [o Ho] Hs1. apply IH in Hs1 as [Hsub Hrest]; [|lia|lia|by rewrite E].
    rewrite <- E. split; [done|]. intros j Hj. destruct (decide (j = i)) as [->|]; [|apply Hrest; lia].
    exists o. by eapply lookup_weaken. }
  case_bool_decide as Hu.
  - apply Hnext in Hr; [done|done|].
    unfold used_endpoints in Hu. apply elem_of_list_to_set, list_elem_of_fmap in Hu as (o & Hn & Ho).
    destruct (Hitems o Ho) as [Hns Hl]. exists o. rewrite Hn, <- Hns. exact Hl.
  - apply runs_vis_inv in Hr as (r & s1 & Ho & Hr).
    pose proof (server_answers _ _ _ _ _ Ho) as [Hreal _].
    apply owner_ref in Ho as (E & _ & Hm). destruct r as [err|m].
    { apply runs_ret_inv in Hr as [[= <-] _]. by destruct (real_error_inl _ Hreal) as (?&?&?). }
    apply runs_vis_inv in Hr as (r & s2 & Hc & Hr).
    destruct r as [err|o]; [|by apply runs_ret_inv in Hr as [? _]].
    pose proof (server_answers _ _ _ _ _ Hc) as Hreal2. apply ep_create_err in Hc as [E2 Hex].
    destruct (IsAlreadyExists err).
    + apply (Hnext s2) in Hr; [done|congruence|]. rewrite E2.
      destruct (Hex eq_refl) as [x Hx]. unfold obj_key in Hx. simpl in Hx.
      rewrite (Hm m eq_refl) in Hx. by exists x.
    + apply runs_ret_inv in Hr as [[= <-] _]. by destruct (real_error_inl _ Hreal2) as (?&?&?).
Qed.

Lemma scan_bounds a p :
  0 <= a < 2 ^ 32 -> 0 <= p <= 30 ->
  let base := and_mask a p 32 in
  let ipnet := net4 base p in
  startInt (v4_in_v6 a) ipnet = base + 2 /\
  endInt (v4_in_v6 a) ipnet = base + 2 ^ (32 - p) - 2 /\
  0 <= base /\ base + 2 ^ (32 - p) <= 2 ^ 32 /\ 4 <= 2 ^ (32 - p).
Proof.
  intros Ha Hp base ipnet. unfold startInt, endInt, totalIPs, ip_Mask. simpl net_Mask.
  simpl mask_bits. simpl mask_ones. rewrite Z.eqb_refl, To4_v4_in_v6 by done. simpl mbind.
  cbv beta iota. unfold ipToUint32. simpl To4. cbv beta iota. fold base.
  pose proof (and_mask_range a p 32 ltac:(lia) Ha) as Hr. fold base in Hr.
  pose proof (and_mask_aligned a p 32 ltac:(lia)) as Hal. fold base in Hal.
  pose proof (and_mask_block_top base p 32 ltac:(lia) Hal Hr) as Ht.
  assert (2 ^ 2 <= 2 ^ (32 - p)) as H4 by (apply Z.pow_le_mono_r; lia). simpl in H4.
  split_and!; [apply u32_small; lia| |lia..].
  destruct (decide (p = 0)) as [->|].
  - unfold shl32, u32. simpl Z.ltb. change (2 ^ (32 - 0)) with (2 ^ 32) in *. cbv iota.
    assert (base = 0) as -> by lia. done.
  - rewrite shl32_1 by lia. apply u32_small. lia.
Qed.

(** C4. Usable addresses.  In a network with an IPv4 CIDR [a/p], [p <= 30], and
    whatever the API server answers, [AllocateIP] only lists endpoints and
    creates endpoints, each named after and carrying an address strictly between
    the gateway (base + 1) and the broadcast address, in the peer's namespace
    and bound to the peer, and it always terminates. *)
Theorem AllocateIP_usable network peer a p :
  net_ActiveCIDR (net_Status network) = ipv4_string a +:+ "/" +:+ pretty p ->
  0 <= a < 2 ^ 32 -> 0 <= p <= 30 ->
  let base := and_mask a p 32 in
  wp api_answers (allocate_calls peer (base + 2) (base + 2 ^ (32 - p) - 2))
    (AllocateIP network peer) (λ r, r <> inl ErrFuel).
Proof.
  intros Hc Ha Hp base. unfold AllocateIP. rewrite Hc, ParseCIDR_String by lia.
  destruct (scan_bounds a p Ha Hp) as (-> & -> & ? & ? & ?). fold base.
  rewrite bind_call. split; [done|]. intros [err|items] Hr.
  { by destruct (real_error_inl _ Hr) as (?&?&->). }
  destruct (owned_endpoint peer items); [done|]. apply claim_address_calls; lia.
Qed.

(** C6. Completeness of the search.  If [AllocateIP] reports that the network
    has no free address, then every usable address of the network has an
    endpoint in the peer's namespace. *)
Theorem AllocateIP_exhausted {W} (h : forall T, apiE T -> W -> T -> W -> Prop)
    `{!AllocationServer h} network peer a p s s' :
  net_ActiveCIDR (net_Status network) = ipv4_string a +:+ "/" +:+ pretty p ->
  0 <= a < 2 ^ 32 -> 0 <= p <= 30 ->
  let base := and_mask a p 32 in
  runs h (AllocateIP network peer) s (inl (errNoAddress network)) s' ->
  forall j, base + 2 <= j <= base + 2 ^ (32 - p) - 2 -> is_Some (endpoints s' !!
    {| key_Namespace := Namespace (peer_meta peer); key_Name := endpoint_name j |}).
Proof.
  intros Hc Ha Hp base Hr. unfold AllocateIP in Hr. rewrite Hc, ParseCIDR_String in Hr by lia.
  destruct (scan_bounds a p Ha Hp) as (Hstart & Hend & ? & ? & ?).
  rewrite bind_call in Hr. apply runs_vis_inv in Hr as (r & s1 & Hl & Hr).
  pose proof (server_answers _ _ _ _ _ Hl) as Hreal. destruct r as [err|items].
  { apply runs_ret_inv in Hr as [[= <-] _]. by destruct (real_error_inl _ Hreal) as (?&?&?). }
  apply ep_list in Hl as [E Hitems]. cbv beta iota in Hr. fold base in Hr, Hstart, Hend.
  destruct (owned_endpoint peer items); [by apply runs_ret_inv in Hr as [? _]|].
  rewrite Hstart, Hend in Hr. fold base in H0, H1.
  apply (claim_address_exhausted h) in Hr as [_ Hall]; [done|lia|lia|].
  intros o Ho. destruct (Hitems o Ho) as [Hl Hns]. rewrite E. auto.
Qed.

(** Release undoes allocation.  For an address the allocator handed out,
    [ReleaseIP] with the address text deletes exactly the endpoint [AllocateIP]
    created for it, and treats an endpoint that is already gone as success. *)
Theorem ReleaseIP_roundtrip m i peerName ns r :
  0 <= i < 2 ^ 32 ->
  exists k,
    ReleaseIP ns (ep_Address (ep_Spec (new_endpoint m i peerName))) =
      Vis (ADelete KEndpoint {| key_Namespace := ns; key_Name := endpoint_name i |}) k /\
    k r = Ret (match r with
               | inl e => if IsNotFound e then inr tt else inl e
               | inr _ => inr tt
               end).
Proof.
  intros Hi. unfold new_endpoint. simpl. unfold uint32ToIP, ReleaseIP.
  rewrite u32_small by done. change (ip_String (IP4 i)) with (ipv4_string i).
  rewrite bool_decide_false.
  2:{ destruct (ipv4_string_shape i) as (b0 & b1 & b2 & b3 & _ & _ & ->). apply str_app_ne. done. }
  rewrite ParseIP_String by done. rewrite bind_call.
  assert (ipToHex (v4_in_v6 i) = ipToHex (IP4 i)) as ->
    by (unfold ipToHex; by rewrite To4_v4_in_v6).
  assert (endpoint_name i = "ip-" +:+ ipToHex (IP4 i)) as ->
    by (unfold endpoint_name, uint32ToIP; by rewrite u32_small).
  eexists. split; [reflexivity|]. destruct r as [e|]; [|done]. simpl. by destruct (IsNotFound e).
Qed.
End ipam.

(** ** A concrete API server

    An in-memory instance of the promises above, on which the theorems are
    exercised. *)

#[local] Instance no_ipv6 : IPv6Text := {| parse_ipv6 := λ _, None; show_ipv6 := λ _, "" |}.

Record alloc_world := {
  w_endpoints : gmap NamespacedName LatticeEndpoint;
  w_subnets : gmap NamespacedName LatticeSubnetAllocation;
}.

Definition empty_world : alloc_world := {| w_endpoints := ∅; w_subnets := ∅ |}.

Definition w_refused : gerror := ErrStatus OtherReason "not served".

Definition in_namespace (opts : ListOptions) (ns : string) : bool :=
  match list_Namespace opts with None => true | Some n => bool_decide (ns = n) end.

Definition alloc_server T (e : apiE T) (s : alloc_world) : T * alloc_world :=
  match e in apiE T return T * alloc_world with
  | AList k opts =>
      (match k return gresult (list (obj k)) with
       | KEndpoint => inr (snd <$> filter (λ x, obj_key KEndpoint x.2 = x.1 /\
                            in_namespace opts (Namespace (ep_meta x.2)) = true)
                            (map_to_list (w_endpoints s)))
       | KSubnet => inr (snd <$> map_to_list (w_subnets s))
       | _ => inl w_refused
       end, s)
  | ACreate k o =>
      match k return obj k -> gresult (obj k) * alloc_world with
      | KEndpoint => λ o,
          match w_endpoints s !! obj_key KEndpoint o with
          | Some _ => (inl (ErrStatus AlreadyExists ""), s)
          | None => (inr o, {| w_endpoints := <[obj_key KEndpoint o := o]> (w_endpoints s);
                               w_subnets := w_subnets s |})
          end
      | KSubnet => λ o,
          match w_subnets s !! obj_key KSubnet o with
          | Some _ => (inl (ErrStatus AlreadyExists ""), s)
          | None => (inr o, {| w_endpoints := w_endpoints s;
                               w_subnets := <[obj_key KSubnet o := o]> (w_subnets s) |})
          end
      | _ => λ _, (inl w_refused, s)
      end o
  | ASetControllerReference _ m => (inr m, s)
  | ANow => (0, s)
  | AGet k _ => (inl w_refused, s)
  | AUpdate k _ => (inl w_refused, s)
  | APatch k _ _ => (inl w_refused, s)
  | AStatusPatch k _ _ => (inl w_refused, s)
  | AStatusUpdate k _ => (inl w_refused, s)
  | AApply k _ => (inl w_refused, s)
  | ADelete k _ => (inl w_refused, s)
  | AGenerateKey => (inl w_refused, s)
  | AEvent _ _ _ => (tt, s)
  end.

Lemma alloc_server_answers T e s : api_answers T e (alloc_server T e s).1.
Proof.
  destruct e; simpl; unfold real_error; try (intros err [= <-]; by eexists _, _); try done.
  - destruct k; simpl; intros err; try done; intros [= <-]; by eexists _, _.
  - destruct k; simpl; repeat case_match; simpl; intros err; try done; intros [= <-]; by eexists _, _.
  - split; [done|]. by intros m' [= ->].
Qed.

#[local] Instance alloc_server_ok : AllocationServer (fun_world alloc_server).
Proof.
  refine {| endpoints := w_endpoints; subnets := w_subnets |}; unfold fun_world.
  - intros T e s r s' E. pose proof (alloc_server_answers T e s). by rewrite E in *.
  - intros s s' opts l [= <- <-]. split; [done|].
    intros o (x & -> & Hx)%list_elem_of_fmap. apply list_elem_of_filter in Hx as [[Hk Hn] Hx].
    destruct x as [k o]. apply elem_of_map_to_list in Hx. simpl in *. rewrite Hk.
    split; [done|]. intros ns Hns. unfold in_namespace in Hn. rewrite Hns in Hn.
    by apply bool_decide_eq_true in Hn.
  - intros s s' opts e [= ].
  - intros s s' o o'. simpl. destruct (w_endpoints s !! obj_key KEndpoint o) eqn:Ho; [done|].
    intros [= <- <-]. done.
  - intros s s' o e. simpl. destruct (w_endpoints s !! obj_key KEndpoint o) eqn:Ho; [|done].
    intros [= <- <-]. by split.
  - intros s s' opts r [= <- <-]. done.
  - intros s s' o o'. simpl. destruct (w_subnets s !! obj_key KSubnet o) eqn:Ho; [done|].
    intros [= <- <-]. done.
  - intros s s' o e. simpl. destruct (w_subnets s !! obj_key KSubnet o) eqn:Ho; [|done].
    by intros [= <- <-].
  - intros s s' ow m r [= <- <-]. split; [done|]. split; [done|]. by intros m' [= ->].
Defined.

(** *** Sample objects *)

Definition sample_spec (net : option string) : LatticePeerSpec := {|
  AppId := "app"; InterfaceName := "wg0"; Platform := "linux"; PrivateKey := "priv";
  PublicKey := "pub"; AllowedIPs := []; DNSServers := []; MTU := 1420; PeerId := "7";
  Network := net; NetworkPolicies := []; WrrpUrl := ""; WrrpQuicUrl := "" |}.
Definition sample_status : LatticePeerStatus := {|
  Conditions := []; PeerStatus := ""; Phase := ""; ActiveKey := ""; ActiveNetwork := None;
  ActiveNetworkPolicies := []; AllocatedAddress := None;
  ConnSummary := {| cs_Total := 0; cs_Connected := 0; cs_Disconnected := 0 |};
  LastSyncTime := None; CurrentHash := ""; ObservedGeneration := 0 |}.
Definition sample_peer (ns n : string) : LatticePeer :=
  {| peer_meta := new_meta ns n; peer_Spec := sample_spec (Some "net"); peer_Status := sample_status |}.
Definition sample_network (cidr : string) : LatticeNetwork := {|
  net_meta := new_meta "ws" "net";
  net_Spec := {| netspec_Name := "net"; netspec_NetworkId := ""; netspec_Owner := "";
                 netspec_CIDR := ""; netspec_Mtu := 1420;
                 netspec_Dns := {| dns_Enabled := false; dns_Servers := [] |};
                 netspec_PeerSelector := ∅; netspec_Policies := [] |};
  net_Status := {| net_Phase := NetworkPhaseReady; net_Conditions := []; net_ActiveCIDR := cidr;
                   net_AllocatedCount := 0; net_AvailableIPs := 0; net_ObservedGeneration := 0 |} |}.
Definition sample_pool (cidr : string) (mask : Z) : LatticeGlobalIPPool := {|
  pool_meta := new_meta "" "lattice-ip-pool";
  pool_Spec := {| pool_CIDR := cidr; pool_SubnetMask := mask |};
  pool_Status := {| pool_TotalSubnets := 0; pool_AllocatedSubnets := 0; pool_AvailableSubnets := 0;
                    pool_UsagePercentage := ""; pool_Conditions := [] |} |}.

Definition net29 : LatticeNetwork := sample_network "10.10.1.0/29".
Definition peer_a : LatticePeer := sample_peer "ws" "a".
Definition peer_b : LatticePeer := sample_peer "ws" "b".

(** Three allocations, two of them for the same peer, interleaved. *)
Definition sample_jobs : list (LatticeNetwork * LatticePeer) :=
  [(net29, peer_a); (net29, peer_b); (net29, peer_a)].
Definition sample_pool_run :=
  sched alloc_server [0;1;1;0;0;1;1;1;0;0;2;1;1]%nat (alloc_thread <$> sample_jobs) empty_world.

(** [a] and [b] race for 10.10.1.2; the loser takes 10.10.1.3 and a second
    allocation for [a] finds the first one. *)
Lemma AllocateIP_unique_witness :
  (exists a, sample_pool_run.1 !! 0%nat = Some (Ret (peer_a, inr a)) /\
             sample_pool_run.1 !! 2%nat = Some (Ret (peer_a, inr a))) /\
  sample_pool_run.1 !! 1%nat = Some (Ret (peer_b, inr "10.10.1.3")) /\
  Name (peer_meta peer_a) = Name (peer_meta peer_a).
Proof.
  split; [exists "10.10.1.2"; by split; vm_compute|]. split; [by vm_compute|].
  refine (AllocateIP_unique (fun_world alloc_server) sample_jobs empty_world
    sample_pool_run.1 sample_pool_run.2 0%nat 2%nat peer_a peer_a "10.10.1.2" _ _ _ _ eq_refl).
  - intros k o Ho. by vm_compute in Ho.
  - rewrite <- surjective_pairing. apply sched_rtc.
  - by vm_compute.
  - by vm_compute.
Defined.

Definition sample_base : Z := 168427776.  (* 10.10.1.0 *)
Definition pool16 : LatticeGlobalIPPool := sample_pool "10.10.0.0/16" 24.
Definition sample_subnet_run :=
  sched alloc_server [0;1;1;0;0;1;1;1;1;1;1]%nat (subnet_thread pool16 <$> ["n1"; "n2"]) empty_world.

Lemma AllocateSubnet_disjoint_witness :
  sample_subnet_run.1 !! 0%nat = Some (Ret ("n1", inr "10.10.0.0/24")) /\
  sample_subnet_run.1 !! 1%nat = Some (Ret ("n2", inr "10.10.1.0/24")) /\
  exists b1 b2, "10.10.0.0/24" = subnet_cidr (IP4 b1) 24 /\ "10.10.1.0/24" = subnet_cidr (IP4 b2) 24 /\
    (and_mask 168427520 16 32 <= b1 /\
     b1 + 2 ^ (32 - 24) <= and_mask 168427520 16 32 + 2 ^ (32 - 16)) /\
    (and_mask 168427520 16 32 <= b2 /\
     b2 + 2 ^ (32 - 24) <= and_mask 168427520 16 32 + 2 ^ (32 - 16)) /\
    forall x, ~ (b1 <= x < b1 + 2 ^ (32 - 24) /\ b2 <= x < b2 + 2 ^ (32 - 24)).
Proof.
  assert (H1 : sample_subnet_run.1 !! 0%nat = Some (Ret ("n1", inr "10.10.0.0/24"))) by (by vm_compute).
  assert (H2 : sample_subnet_run.1 !! 1%nat = Some (Ret ("n2", inr "10.10.1.0/24"))) by (by vm_compute).
  split; [exact H1|]. split; [exact H2|].
  apply (AllocateSubnet_disjoint (fun_world alloc_server) pool16 168427520 16 ["n1"; "n2"]
    empty_world sample_subnet_run.1 sample_subnet_run.2 0%nat 1%nat "n1" "n2").
  - vm_compute. reflexivity.
  - lia.
  - split; vm_compute; discriminate.
  - vm_compute; discriminate.
  - rewrite <- surjective_pairing. apply sched_rtc.
  - exact H1.
  - exact H2.
  - discriminate.
Defined.

(** A pool whose first subnet is taken: the search answers the second one. *)
Definition world_one_subnet : alloc_world := (run alloc_server (AllocateSubnet "n0" pool16) empty_world).2.

Lemma FindFirstFree_correct_witness :
  (run alloc_server (FindFirstFree pool16) world_one_subnet).1 = Some (inr (IP4 sample_base)) /\
  exists all, fun_world alloc_server _ (AList KSubnet list_all) world_one_subnet all
      (run alloc_server (FindFirstFree pool16) world_one_subnet).2 /\
    inr (IP4 sample_base) =
      match all with
      | inl err => inl err
      | inr items =>
          match first_free (and_mask 168427520 16 32) 24 (used_subnets items) 0
                  (Z.to_nat (2 ^ (24 - 16))) with
          | Some k => inr (IP4 (and_mask 168427520 16 32 + k * 2 ^ (32 - 24)))
          | None => inl errNoSubnet
          end
      end.
Proof.
  assert (E : (run alloc_server (FindFirstFree pool16) world_one_subnet).1 =
              Some (inr (IP4 sample_base))) by (vm_compute; reflexivity).
  split; [exact E|].
  pose proof (run_runs alloc_server (FindFirstFree pool16) world_one_subnet _ E) as Hr. clear E.
  refine (FindFirstFree_correct (fun_world alloc_server) pool16 168427520 16 world_one_subnet _ _
    _ _ _ _ Hr); clear Hr; [by vm_compute|lia|by vm_compute|by vm_compute].
Defined.

Lemma AllocateIP_usable_witness :
  (run alloc_server (AllocateIP net29 peer_a) empty_world).1 = Some (inr "10.10.1.2") /\
  wp api_answers (allocate_calls peer_a (and_mask sample_base 29 32 + 2)
                    (and_mask sample_base 29 32 + 2 ^ (32 - 29) - 2))
    (AllocateIP net29 peer_a) (λ r, r <> inl ErrFuel).
Proof.
  split; [by vm_compute|].
  apply (AllocateIP_usable net29 peer_a sample_base 29); [by vm_compute|unfold sample_base; lia|lia].
Defined.

(** A /30 network has one usable address; with two peers it is exhausted. *)
Definition net_tiny : LatticeNetwork := sample_network "10.10.1.0/30".
Definition world_tiny : alloc_world := (run alloc_server (AllocateIP net_tiny peer_a) empty_world).2.

Lemma AllocateIP_exhausted_witness :
  (run alloc_server (AllocateIP net_tiny peer_b) world_tiny).1 = Some (inl (errNoAddress net_tiny)) /\
  is_Some (endpoints (run alloc_server (AllocateIP net_tiny peer_b) world_tiny).2 !!
    {| key_Namespace := "ws"; key_Name := endpoint_name (sample_base + 2) |}).
Proof.
  assert (E : (run alloc_server (AllocateIP net_tiny peer_b) world_tiny).1 =
              Some (inl (errNoAddress net_tiny))) by (vm_compute; reflexivity).
  split; [exact E|].
  pose proof (run_runs alloc_server (AllocateIP net_tiny peer_b) world_tiny _ E) as Hr. clear E.
  apply (AllocateIP_exhausted (fun_world alloc_server) net_tiny peer_b sample_base 30 world_tiny
    (run alloc_server (AllocateIP net_tiny peer_b) world_tiny).2); [| | |exact Hr|].
  - vm_compute. reflexivity.
  - unfold sample_base. lia.
  - lia.
  - split; vm_compute; congruence.
Defined.

Lemma ReleaseIP_roundtrip_witness :
  exists k,
    ReleaseIP "ws" "10.10.1.0" =
      Vis (ADelete KEndpoint {| key_Namespace := "ws"; key_Name := "ip-0a0a0100" |}) k /\
    k (inl (ErrStatus NotFound "")) = Ret (inr tt).
Proof.
  refine (ReleaseIP_roundtrip (new_meta "ws" "ip-0a0a0100") sample_base "a" "ws"
    (inl (ErrStatus NotFound "")) _).
  unfold sample_base. lia.
Defined.
