(* ===== verification/Message.v ===== *)
(** * Message: the configuration pushed to agents
    ([internal/agent/infra/message.go]) *)

From S2P Require Import Prelude Api.

Inductive EventType :=
| EventTypeJoinNetwork | EventTypeLeaveNetwork | EventTypeNodeUpdate | EventTypeNodeAdd
| EventTypeNodeRemove | EventTypeIPChange | EventTypeKeyChanged | EventTypeNetworkChanged
| EventTypePolicyChanged | EventTypeNone.
#[global] Instance EventType_eq_dec : EqDecision EventType.
Proof. solve_decision. Defined.

Definition EventType_String (e : EventType) : string :=
  match e with
  | EventTypeJoinNetwork => "joinNetwork"
  | EventTypeLeaveNetwork => "leaveNetwork"
  | EventTypeNodeUpdate => "nodeUpdate"
  | EventTypeNodeAdd => "nodeAdd"
  | EventTypeIPChange => "ipChange"
  | _ => "unknown"
  end.

(** [infra.Peer]. *)
Record InfraPeer := {
  ip_Name : string;
  ip_InterfaceName : string;
  ip_Platform : string;
  ip_Description : string;
  ip_NetworkId : string;
  ip_CreatedBy : string;
  ip_UserId : Z;
  ip_Hostname : string;
  ip_AppID : string;
  ip_Address : option string;
  ip_Endpoint : string;
  ip_Remove : bool;
  ip_PresharedKey : string;
  ip_PersistentKeepalive : Z;
  ip_PrivateKey : string;
  ip_PublicKey : string;
  ip_PeerID : Z;
  ip_AllowedIPs : string;
  ip_ReplacePeers : bool;
  ip_Port : Z;
  ip_GroupName : string;
  ip_Version : Z;
  ip_LastUpdatedAt : string;
  ip_Token : string;
  ip_WrrpUrl : string;
  ip_Labels : labels;
}.
#[global] Instance InfraPeer_eq_dec : EqDecision InfraPeer.
Proof. solve_decision. Defined.

(** [infra.Network]. *)
Record InfraNetwork := {
  in_Address : string;
  in_AllowedIps : list string;
  in_Port : Z;
  in_NetworkId : string;
  in_NetworkName : string;
  in_Peers : list InfraPeer;
}.
#[global] Instance InfraNetwork_eq_dec : EqDecision InfraNetwork.
Proof. solve_decision. Defined.

(** [infra.Rule], [infra.Policy]; the rule slices hold pointers. *)
Record InfraRule := {
  r_PeerNames : list string;
  r_CIDRs : list string;
  r_Protocol : string;
  r_Port : Z;
  r_Action : string;
}.
#[global] Instance InfraRule_eq_dec : EqDecision InfraRule.
Proof. solve_decision. Defined.

Record InfraPolicy := {
  ipol_PolicyName : string;
  ipol_Action : string;
  ipol_Ingress : list (option InfraRule);
  ipol_Egress : list (option InfraRule);
}.
#[global] Instance InfraPolicy_eq_dec : EqDecision InfraPolicy.
Proof. solve_decision. Defined.

Record TrafficRule := {
  tr_ChainName : string;
  tr_Peers : list string;
  tr_Protocol : string;
  tr_Port : Z;
  tr_Action : string;
}.
#[global] Instance TrafficRule_eq_dec : EqDecision TrafficRule.
Proof. solve_decision. Defined.

Record FirewallRule := {
  fw_Platform : string;
  fw_PolicyName : string;
  fw_Ingress : list TrafficRule;
  fw_Egress : list TrafficRule;
}.
#[global] Instance FirewallRule_eq_dec : EqDecision FirewallRule.
Proof. solve_decision. Defined.

Record Entry := { entry_Type : string; entry_Action : string; entry_Message : string }.
#[global] Instance Entry_eq_dec : EqDecision Entry.
Proof. solve_decision. Defined.

(** [infra.DetailsInfo]: an incremental change. *)
Record DetailsInfo := {
  ch_AddressChanged : bool;
  ch_KeyChanged : bool;
  ch_EndpointChanged : bool;
  ch_PeersAdded : list InfraPeer;
  ch_PeersRemoved : list InfraPeer;
  ch_PeersUpdated : list string;
  ch_PoliciesAdded : list InfraPolicy;
  ch_PoliciesRemoved : list InfraPolicy;
  ch_PoliciesUpdated : list InfraPolicy;
  ch_NetworkJoined : list string;
  ch_NetworkLeft : list string;
  ch_NetworkConfigChanged : bool;
  ch_Reason : list Entry;
  ch_TotalChanges : Z;
}.

Definition HasChanges (c : DetailsInfo) : bool := ch_TotalChanges c >? 0.

(** [infra.Message]; its pointers are options.  A nil slice and an empty one
    are the same list here: both are omitted from the encoded message. *)
Record Message := {
  m_EventType : EventType;
  m_ConfigVersion : string;
  m_Timestamp : Z;
  m_Changes : option DetailsInfo;
  m_Current : option InfraPeer;
  m_Network : option InfraNetwork;
  m_Policies : list (option InfraPolicy);
  m_ComputedPeers : list InfraPeer;
  m_ComputedRules : option FirewallRule;
  m_Labels : labels;
}.

(** [m.Equal(b)]: the fields that make two configurations the same; [None] is
    the nil dereference of a missing [Current]. *)
Definition Message_Equal (m b : Message) : option bool :=
  if negb (bool_decide (m_EventType m = m_EventType b)) then Some false
  else if negb (bool_decide (m_Network m = m_Network b)) then Some false
  else if negb (bool_decide (m_Policies m = m_Policies b)) then Some false
  else if negb (bool_decide (m_ComputedPeers m = m_ComputedPeers b)) then Some false
  else if negb (bool_decide (m_ComputedRules m = m_ComputedRules b)) then Some false
  else
    mcur ← m_Current m; bcur ← m_Current b;
    if negb (bool_decide (ip_Name mcur = ip_Name bcur)) then Some false else Some true.

Lemma Message_Equal_spec m b mc bc :
  m_Current m = Some mc -> m_Current b = Some bc ->
  Message_Equal m b = Some true <->
  m_EventType m = m_EventType b /\ m_Network m = m_Network b /\ m_Policies m = m_Policies b /\
  m_ComputedPeers m = m_ComputedPeers b /\ m_ComputedRules m = m_ComputedRules b /\
  ip_Name mc = ip_Name bc.
Proof.
  intros Hm Hb. unfold Message_Equal. rewrite Hm, Hb. simpl.
  repeat case_bool_decide; simpl; (split; [|tauto]); intros; by split_and!.
Qed.
