(* ===== verification/Json.v ===== *)
(** * Json: the encoding of an agent message ([encoding/json])

    What [json.Marshal] writes for the types of [internal/agent/infra/message.go]:
    fields in declaration order, [omitempty] fields left out when empty, maps by
    sorted keys, strings escaped.  Strings are taken to be valid UTF-8, which
    passes through unescaped.  Slices that the controller leaves nil when empty
    ([allowedIps] and the rules of a policy) are written as null then; the other
    ones as an empty array. *)

From S2P Require Import Prelude Api Message.

Definition quote_char : ascii := ascii_of_nat 34.
Definition backslash : string := String (ascii_of_nat 92) "".

Definition json_escape (c : ascii) : string :=
  let n := Z.of_nat (nat_of_ascii c) in
  if n =? 34 then backslash +:+ String quote_char ""
  else if n =? 92 then backslash +:+ backslash
  else if n =? 8 then backslash +:+ "b"
  else if n =? 12 then backslash +:+ "f"
  else if n =? 10 then backslash +:+ "n"
  else if n =? 13 then backslash +:+ "r"
  else if n =? 9 then backslash +:+ "t"
  else if (n <? 32) || (n =? 60) || (n =? 62) || (n =? 38)
    then backslash +:+ "u00" +:+ hex_encode [n]
  else String c "".

Fixpoint json_chars (s : string) : string :=
  match s with
  | EmptyString => ""
  | String c s => json_escape c +:+ json_chars s
  end.

Definition json_string (s : string) : string :=
  String quote_char (json_chars s +:+ String quote_char "").
Definition json_int (z : Z) : string := pretty z.
Definition json_bool (b : bool) : string := if b then "true" else "false".
Definition json_null : string := "null".

Definition json_array {A} (f : A -> string) (l : list A) : string :=
  "[" +:+ str_join "," (f <$> l) +:+ "]".
(** A slice that is nil when it has no elements. *)
Definition json_nil_array {A} (f : A -> string) (l : list A) : string :=
  match l with [] => json_null | _ => json_array f l end.
Definition json_pointer {A} (f : A -> string) (o : option A) : string :=
  match o with None => json_null | Some a => f a end.

Definition json_field (name value : string) : option string :=
  Some (json_string name +:+ ":" +:+ value).
(** A field with [omitempty]. *)
Definition omit_if (empty : bool) (name value : string) : option string :=
  if empty then None else json_field name value.
Definition json_object (fields : list (option string)) : string :=
  "{" +:+ str_join "," (omap id fields) +:+ "}".

Definition json_map (m : labels) : string :=
  json_object ((λ kv, json_field kv.1 (json_string kv.2)) <$> sort_by fst (map_to_list m)).

Definition omit_string (name s : string) : option string := omit_if (bool_decide (s = "")) name (json_string s).
Definition omit_int (name : string) (z : Z) : option string := omit_if (z =? 0) name (json_int z).
Definition omit_bool (name : string) (b : bool) : option string := omit_if (negb b) name (json_bool b).
Definition omit_array {A} (f : A -> string) (name : string) (l : list A) : option string :=
  match l with [] => None | _ => json_field name (json_array f l) end.
Definition omit_pointer {A} (f : A -> string) (name : string) (o : option A) : option string :=
  match o with None => None | Some a => json_field name (f a) end.
Definition omit_map (name : string) (m : labels) : option string :=
  omit_if (bool_decide (m = ∅)) name (json_map m).

Definition json_peer (p : InfraPeer) : string := json_object [
  omit_string "name" (ip_Name p);
  omit_string "interfaceName" (ip_InterfaceName p);
  omit_string "platform" (ip_Platform p);
  omit_string "description" (ip_Description p);
  omit_string "NetworkId" (ip_NetworkId p);
  omit_string "createdBy" (ip_CreatedBy p);
  omit_int "userId" (ip_UserId p);
  omit_string "hostname" (ip_Hostname p);
  omit_string "appId" (ip_AppID p);
  omit_pointer json_string "address" (ip_Address p);
  omit_string "endpoint" (ip_Endpoint p);
  omit_bool "remove" (ip_Remove p);
  omit_string "presharedKey" (ip_PresharedKey p);
  omit_int "persistentKeepalive" (ip_PersistentKeepalive p);
  omit_string "privateKey" (ip_PrivateKey p);
  omit_string "publicKey" (ip_PublicKey p);
  omit_int "peerId" (ip_PeerID p);
  omit_string "allowedIps" (ip_AllowedIPs p);
  omit_bool "replacePeers" (ip_ReplacePeers p);
  json_field "port" (json_int (ip_Port p));
  json_field "groupName" (json_string (ip_GroupName p));
  json_field "version" (json_int (ip_Version p));
  json_field "lastUpdatedAt" (json_string (ip_LastUpdatedAt p));
  omit_string "token" (ip_Token p);
  omit_string "wrrpUrl" (ip_WrrpUrl p);
  omit_map "labels" (ip_Labels p) ].

Definition json_network (n : InfraNetwork) : string := json_object [
  json_field "address" (json_string (in_Address n));
  json_field "allowedIps" (json_nil_array json_string (in_AllowedIps n));
  json_field "port" (json_int (in_Port n));
  json_field "NetworkId" (json_string (in_NetworkId n));
  json_field "networkName" (json_string (in_NetworkName n));
  json_field "peers" (json_array json_peer (in_Peers n)) ].

Definition json_rule (r : InfraRule) : string := json_object [
  json_field "peerNames" (json_array json_string (r_PeerNames r));
  omit_array json_string "cidrs" (r_CIDRs r);
  json_field "protocol" (json_string (r_Protocol r));
  json_field "port" (json_int (r_Port r));
  omit_string "action" (r_Action r) ].

Definition json_policy (p : InfraPolicy) : string := json_object [
  json_field "policyName" (json_string (ipol_PolicyName p));
  omit_string "action" (ipol_Action p);
  json_field "ingress" (json_nil_array (json_pointer json_rule) (ipol_Ingress p));
  json_field "egress" (json_nil_array (json_pointer json_rule) (ipol_Egress p)) ].

Definition json_traffic_rule (t : TrafficRule) : string := json_object [
  json_field "chainName" (json_string (tr_ChainName t));
  omit_array json_string "peers" (tr_Peers t);
  omit_string "protocol" (tr_Protocol t);
  omit_int "port" (tr_Port t);
  omit_string "action" (tr_Action t) ].

Definition json_firewall (f : FirewallRule) : string := json_object [
  json_field "platform" (json_string (fw_Platform f));
  json_field "policyName" (json_string (fw_PolicyName f));
  omit_array json_traffic_rule "ingress" (fw_Ingress f);
  omit_array json_traffic_rule "egress" (fw_Egress f) ].

Definition json_entry (e : Entry) : string := json_object [
  json_field "type" (json_string (entry_Type e));
  json_field "action" (json_string (entry_Action e));
  json_field "message" (json_string (entry_Message e)) ].

Definition json_changes (c : DetailsInfo) : string := json_object [
  omit_bool "addressChanged" (ch_AddressChanged c);
  omit_bool "keyChanged" (ch_KeyChanged c);
  omit_bool "endpointChanged" (ch_EndpointChanged c);
  omit_array json_peer "peersAdded" (ch_PeersAdded c);
  omit_array json_peer "peersRemoved" (ch_PeersRemoved c);
  omit_array json_string "peersUpdated" (ch_PeersUpdated c);
  omit_array json_policy "policiesAdded" (ch_PoliciesAdded c);
  omit_array json_policy "policiesRemoved" (ch_PoliciesRemoved c);
  omit_array json_policy "policiesUpdated" (ch_PoliciesUpdated c);
  omit_array json_string "networkJoined" (ch_NetworkJoined c);
  omit_array json_string "networkLeft" (ch_NetworkLeft c);
  omit_bool "networkConfigChanged" (ch_NetworkConfigChanged c);
  omit_array json_entry "reason" (ch_Reason c);
  omit_int "totalChanges" (ch_TotalChanges c) ].

Definition event_code (e : EventType) : Z :=
  match e with
  | EventTypeJoinNetwork => 0 | EventTypeLeaveNetwork => 1 | EventTypeNodeUpdate => 2
  | EventTypeNodeAdd => 3 | EventTypeNodeRemove => 4 | EventTypeIPChange => 5
  | EventTypeKeyChanged => 6 | EventTypeNetworkChanged => 7 | EventTypePolicyChanged => 8
  | EventTypeNone => 9
  end.

(** The fields after the version and the timestamp. *)
Definition message_body (m : Message) : list (option string) := [
  json_field "changes" (json_pointer json_changes (m_Changes m));
  json_field "peer" (json_pointer json_peer (m_Current m));
  json_field "network" (json_pointer json_network (m_Network m));
  omit_array (json_pointer json_policy) "policies" (m_Policies m);
  omit_array json_peer "computedpeers" (m_ComputedPeers m);
  omit_pointer json_firewall "computedrules" (m_ComputedRules m);
  omit_map "labels" (m_Labels m) ].

(** [msg.String()]. *)
Definition Message_String (m : Message) : string := json_object (
  [json_field "eventType" (json_int (event_code (m_EventType m)));
   json_field "configVersion" (json_string (m_ConfigVersion m));
   json_field "timestamp" (json_int (m_Timestamp m))] ++ message_body m).

(** The struct of [computeMessageHash]: the message with both fields shadowed by
    nil ones that [omitempty] drops. *)
Definition hashed_message (m : Message) : string := json_object (
  [json_field "eventType" (json_int (event_code (m_EventType m)))] ++ message_body m).

Example json_rule_example :
  json_rule {| r_PeerNames := ["a"]; r_CIDRs := []; r_Protocol := "TCP"; r_Port := 80; r_Action := "" |} =
  let q := String quote_char "" in
  "{" +:+ q +:+ "peerNames" +:+ q +:+ ":[" +:+ q +:+ "a" +:+ q +:+ "]," +:+
  q +:+ "protocol" +:+ q +:+ ":" +:+ q +:+ "TCP" +:+ q +:+ "," +:+ q +:+ "port" +:+ q +:+ ":80}".
Proof. vm_compute. reflexivity. Qed.
