(* ===== verification/ControllerUtils.v ===== *)
(** * ControllerUtils: helpers of the controllers
    ([internal/agent/controller/utils.go])

    Label keys and values that fit the 63 characters Kubernetes allows, and the
    translation of a peer resource into the peer of an agent message. *)

From S2P Require Import Prelude Sha256 Api Message.

Definition LabelGateway : string := "alattice.io/gateway".
Definition LabelShadow : string := "alattice.io/shadow".
Definition AnnotationShadowAllowedIPs : string := "alattice.io/shadow-allowed-ips".
Definition AnnotationPeeringRoutePrefix : string := "alattice.io/peering-route-".
Definition PeeringFinalizer : string := "alattice.io/peering-finalizer".

(** ** String sets ([map[string]struct{}]) *)

Definition stringSet (list : list string) : gset string :=
  foldl (λ set item, {[item]} ∪ set) ∅ list.

Definition setsEqual (a b : gset string) : bool :=
  if negb (bool_decide (size a = size b)) then false
  else forallb (λ k, bool_decide (k ∈ b)) (elements a).

Definition setsDifference (a b : gset string) : gset string :=
  if bool_decide (size a = 0%nat) then b
  else if bool_decide (size b = 0%nat) then a
  else filter (λ k, k ∉ b) a.

(** [range] over a set. *)
Definition setsToSlice `{MapRange} (set : gset string) : list string :=
  (go_range (gset_to_gmap tt set)).*1.

Fixpoint stringSliceEqual (a b : list string) : bool :=
  if negb (bool_decide (length a = length b)) then false
  else match a, b with
       | x :: a, y :: b => if negb (bool_decide (x = y)) then false else stringSliceEqual a b
       | _, _ => true
       end.

(** ** Keys of at most 63 characters *)

Definition safeKeyName (prefix name : string) : string :=
  let full := prefix +:+ name in
  if bool_decide (String.length full <= 63)%nat then full
  else
    let h := Sum256 name in
    let hash := hex_encode (take 4 h) in
    let keep := 63 - Z.of_nat (String.length prefix) - 9 in
    let keep := if keep <? 0 then 0 else keep in
    let keep := if keep >? Z.of_nat (String.length name) then Z.of_nat (String.length name) else keep in
    prefix +:+ str_take (Z.to_nat keep) name +:+ "-" +:+ hash.

Definition networkLabelKey (networkName : string) : string :=
  "alattice.io/" +:+ safeKeyName "network-" networkName.

Definition peeringRouteAnnotationKey (peeringName : string) : string :=
  "alattice.io/" +:+ safeKeyName "peering-route-" peeringName.

Definition safeLabelValue (name : string) : string :=
  if bool_decide (String.length name <= 63)%nat then name
  else
    let h := Sum256 name in
    let hash := hex_encode (take 4 h) in
    str_take (63 - 9) name +:+ "-" +:+ hash.

(** ** Peers *)

Definition cleanIP (ip : option string) : string :=
  match ip with
  | None => ""
  | Some ip => if contains_char (ascii_of_nat 47) ip then before_char (ascii_of_nat 47) ip else ip
  end.

Definition max_uint64 : Z := 2 ^ 64 - 1.

(** The value [strconv.ParseUint(s, 10, 64)] returns beside its error: 0 on a
    syntax error, the greatest [uint64] when out of range. *)
Fixpoint parse_uint_go (s : string) (n : Z) : Z :=
  match s with
  | EmptyString => n
  | String c s =>
      let d := Z.of_nat (nat_of_ascii c) - 48 in
      if (d <? 0) || (9 <? d) then 0
      else if n >=? max_uint64 / 10 + 1 then max_uint64
      else let n1 := n * 10 + d in
           if n1 >? max_uint64 then max_uint64 else parse_uint_go s n1
  end.
Definition ParseUint10 (s : string) : Z := if bool_decide (s = "") then 0 else parse_uint_go s 0.

(** [infra.Peer{}]. *)
Definition zero_peer : InfraPeer := {|
  ip_Name := ""; ip_InterfaceName := ""; ip_Platform := ""; ip_Description := "";
  ip_NetworkId := ""; ip_CreatedBy := ""; ip_UserId := 0; ip_Hostname := ""; ip_AppID := "";
  ip_Address := None; ip_Endpoint := ""; ip_Remove := false; ip_PresharedKey := "";
  ip_PersistentKeepalive := 0; ip_PrivateKey := ""; ip_PublicKey := ""; ip_PeerID := 0;
  ip_AllowedIPs := ""; ip_ReplacePeers := false; ip_Port := 0; ip_GroupName := "";
  ip_Version := 0; ip_LastUpdatedAt := ""; ip_Token := ""; ip_WrrpUrl := ""; ip_Labels := ∅ |}.

(** [s += "," + x], or [s = x] when [s] is empty. *)
Definition append_route (s x : string) : string :=
  if bool_decide (s = "") then x else s +:+ "," +:+ x.

Definition extra_routes `{MapRange} (annotations : labels) : list string :=
  omap (λ kv : string * string,
    if has_prefix AnnotationPeeringRoutePrefix kv.1 && negb (bool_decide (kv.2 = ""))
    then Some kv.2 else None) (go_range annotations).

Definition peer_allowed_ips `{MapRange} (peer : LatticePeer) : string :=
  let a := Annotations (peer_meta peer) in
  let s := match AllocatedAddress (peer_Status peer) with
           | Some addr => addr +:+ "/32"
           | None => ""
           end in
  let shadowCIDR := str_get a AnnotationShadowAllowedIPs in
  let s := if bool_decide (shadowCIDR = "") then s else append_route s shadowCIDR in
  match extra_routes a with
  | [] => s
  | extra => append_route s (str_join "," extra)
  end.

Definition transferToPeer `{MapRange} (peer : LatticePeer) : InfraPeer := {|
  ip_Name := Name (peer_meta peer);
  ip_InterfaceName := InterfaceName (peer_Spec peer);
  ip_Platform := Platform (peer_Spec peer);
  ip_Description := ""; ip_NetworkId := ""; ip_CreatedBy := ""; ip_UserId := 0; ip_Hostname := "";
  ip_AppID := AppId (peer_Spec peer);
  ip_Address := AllocatedAddress (peer_Status peer);
  ip_Endpoint := ""; ip_Remove := false; ip_PresharedKey := ""; ip_PersistentKeepalive := 0;
  ip_PrivateKey := "";
  ip_PublicKey := PublicKey (peer_Spec peer);
  ip_PeerID := ParseUint10 (PeerId (peer_Spec peer));
  ip_AllowedIPs := peer_allowed_ips peer;
  ip_ReplacePeers := false; ip_Port := 0; ip_GroupName := ""; ip_Version := 0;
  ip_LastUpdatedAt := ""; ip_Token := ""; ip_WrrpUrl := "";
  ip_Labels := Labels (peer_meta peer) |}.

(** ** Facts *)

Lemma elem_of_stringSet list x : x ∈ stringSet list <-> x ∈ list.
Proof.
  unfold stringSet. assert (forall acc : gset string, x ∈ foldl (λ set item, {[item]} ∪ set) acc list <->
    x ∈ acc \/ x ∈ list) as H; [|rewrite H; set_solver].
  induction list as [|y list IH]; intros acc; simpl; [set_solver|]. rewrite IH. set_solver.
Qed.

Lemma setsEqual_spec a b : setsEqual a b = true <-> a = b.
Proof.
  unfold setsEqual. case_bool_decide as Hs; simpl.
  - rewrite forallb_forall. split.
    + intros H. apply leibniz_equiv. apply set_subseteq_size_equiv; [|lia].
      intros x Hx. assert (Hin : In x (elements a)) by (by apply list_elem_of_In, elem_of_elements).
      by apply H, bool_decide_eq_true in Hin.
    + intros -> x Hx. apply bool_decide_eq_true. by apply list_elem_of_In, elem_of_elements in Hx.
  - split; [done|]. by intros ->.
Qed.

Lemma setsToSlice_perm `{MapRange} set : setsToSlice set ≡ₚ elements set.
Proof.
  unfold setsToSlice. rewrite go_range_perm. apply NoDup_Permutation.
  - apply NoDup_fst_map_to_list.
  - apply NoDup_elements.
  - intros x. rewrite elem_of_elements, list_elem_of_fmap. split.
    + intros ([y []] & -> & Hy). apply elem_of_map_to_list in Hy. simpl.
      by apply lookup_gset_to_gmap_Some in Hy as [Hy _].
    + intros Hx. exists (x, tt). split; [done|]. apply elem_of_map_to_list.
      by apply lookup_gset_to_gmap_Some.
Qed.

Lemma stringSliceEqual_spec a b : stringSliceEqual a b = true <-> a = b.
Proof.
  revert b. induction a as [|x a IH]; intros [|y b]; simpl; try done.
  case_bool_decide as Hl; simpl.
  - case_bool_decide as Hxy; simpl.
    + rewrite IH, Hxy. split; [by intros ->|by intros [= ->]].
    + split; [done|]. by intros [= ? ?].
  - split; [done|]. intros [= _ ->]. by destruct Hl.
Qed.

Lemma hash_length name : String.length (hex_encode (take 4 (Sum256 name))) = 8%nat.
Proof. rewrite length_hex_encode, length_take, length_Sum256. done. Qed.

(** A key made with a prefix of at most 54 characters keeps the prefix and has
    at most 63 characters. *)
Lemma safeKeyName_bound prefix name :
  (String.length prefix <= 54)%nat ->
  (String.length (safeKeyName prefix name) <= 63)%nat /\ has_prefix prefix (safeKeyName prefix name) = true.
Proof.
  intros Hp. unfold safeKeyName. case_bool_decide as Hf.
  - split; [done|]. apply prefix_app.
  - cbv zeta. split; [|apply prefix_app]. autorewrite with lattice. rewrite hash_length.
    change (String.length "-") with 1%nat.
    destruct (Z.ltb_spec (63 - Z.of_nat (String.length prefix) - 9) 0);
    match goal with |- context [?x >? ?y] => destruct (Z.gtb_spec x y) end; lia.
Qed.

Lemma safeLabelValue_bound name : (String.length (safeLabelValue name) <= 63)%nat.
Proof.
  unfold safeLabelValue. case_bool_decide; [done|]. cbv zeta.
  autorewrite with lattice. rewrite hash_length.
  change (String.length "-") with 1%nat. lia.
Qed.

(** ** Conditions ([setCondition] of [peering_controller.go])

    The condition of the same type is replaced in place, keeping its transition
    time when status and reason are unchanged; a new one is appended. *)
Fixpoint setCondition (conditions : list Condition) (c : Condition) : list Condition :=
  match conditions with
  | [] => [c]
  | existing :: conditions =>
      if bool_decide (cond_Type existing = cond_Type c) then
        (if bool_decide (cond_Status existing = cond_Status c) && bool_decide (cond_Reason existing = cond_Reason c)
         then {| cond_Type := cond_Type c; cond_Status := cond_Status c; cond_Reason := cond_Reason c;
                 cond_Message := cond_Message c;
                 cond_LastTransitionTime := cond_LastTransitionTime existing |}
         else c) :: conditions
      else existing :: setCondition conditions c
  end.

(** The status of a condition type. *)
Definition condition_of (t : string) (conditions : list Condition) : option Condition :=
  snd <$> list_find (λ c, cond_Type c = t) conditions.

Lemma setCondition_types conditions c :
  NoDup (cond_Type <$> conditions) -> NoDup (cond_Type <$> setCondition conditions c).
Proof.
  induction conditions as [|e l IH]; simpl; [constructor; [apply not_elem_of_nil|constructor]|].
  intros [Hn Hd]%NoDup_cons. case_bool_decide as He; simpl.
  - constructor; [|done]. case_bool_decide; simpl; [case_bool_decide; simpl|]; congruence.
  - constructor; [|by apply IH]. intros Hin. apply Hn.
    assert (cond_Type e ∈ cond_Type <$> l \/ cond_Type e = cond_Type c) as [?|?]; [|done|done].
    clear -Hin. induction l as [|x l IH]; simpl in *; [apply list_elem_of_singleton in Hin; by right|].
    case_bool_decide as Hx; simpl in *; apply elem_of_cons in Hin as [Hin|Hin].
    + right. rewrite Hin. by case_bool_decide; simpl; [case_bool_decide|].
    + left. by right.
    + left. rewrite Hin. left.
    + destruct (IH Hin) as [?|?]; [left; by right|by right].
Qed.

Lemma setCondition_get conditions c :
  exists t, condition_of (cond_Type c) (setCondition conditions c) =
    Some {| cond_Type := cond_Type c; cond_Status := cond_Status c; cond_Reason := cond_Reason c;
            cond_Message := cond_Message c; cond_LastTransitionTime := t |}.
Proof.
  unfold condition_of. induction conditions as [|e l [t IH]]; simpl.
  - rewrite decide_True by done. exists (cond_LastTransitionTime c). by destruct c.
  - case_bool_decide as He; simpl.
    + destruct (bool_decide _ && bool_decide _); simpl; rewrite decide_True by done; simpl.
      * by eexists.
      * exists (cond_LastTransitionTime c). by destruct c.
    + rewrite decide_False by done. exists t. rewrite <- IH. by destruct (list_find _ _) as [[? ?]|].
Qed.

(** ** Results

    [ctrl.Result]: [Requeue] and [RequeueAfter] in nanoseconds. *)
Record ctrl_Result := { res_Requeue : bool; res_RequeueAfter : Z }.
Definition no_requeue : ctrl_Result := {| res_Requeue := false; res_RequeueAfter := 0 |}.
Definition requeue_now : ctrl_Result := {| res_Requeue := true; res_RequeueAfter := 0 |}.
Definition requeue_after (d : Z) : ctrl_Result := {| res_Requeue := false; res_RequeueAfter := d |}.
Definition seconds (n : Z) : Z := n * 10 ^ 9.
