(* ===== verification/PolicyEvaluator.v ===== *)
(** * PolicyEvaluator: from policies to a firewall chain
    ([internal/agent/controller/policy_evaluator.go])

    Every rule of the policies decides the flows (peer address, port, protocol)
    it names.  The decisions of one direction are kept in a map in which an
    ["ALLOW"] is never overwritten, then emitted as traffic rules in the order
    of a map iteration, followed by a rule that drops everything else. *)

From S2P Require Import Prelude Api Message ControllerUtils.

Record ruleDecisionKey := { k_peer : string; k_port : Z; k_protocol : string }.
#[global] Instance ruleDecisionKey_eq_dec : EqDecision ruleDecisionKey.
Proof. solve_decision. Defined.
#[global] Instance ruleDecisionKey_countable : Countable ruleDecisionKey.
Proof.
  apply (inj_countable' (λ k, (k_peer k, k_port k, k_protocol k))
    (λ t, {| k_peer := t.1.1; k_port := t.1.2; k_protocol := t.2 |})). by intros [].
Defined.

Abbreviation decision_map := (gmap ruleDecisionKey string).

Definition toIPTAction (action : string) : string :=
  if equal_fold action "ALLOW" then "ACCEPT" else "DROP".

Definition resolveRulePeers (rule : InfraRule) (peerIPByName : labels) (currentPeerName : string) :
    list string :=
  omap (λ name,
    if bool_decide (name = currentPeerName) then None
    else let ip := str_get peerIPByName name in
         if bool_decide (ip = "") then None else Some ip) (r_PeerNames rule) ++
  filter (λ cidr, is_blank cidr = false) (r_CIDRs rule).

(** The name to address table; a later peer of the same name wins. *)
Definition peer_ip_table (peers : list InfraPeer) : labels :=
  foldl (λ m p, match ip_Address p with
                | Some _ => <[ip_Name p := cleanIP (ip_Address p)]> m
                | None => m
                end) ∅ peers.

Definition rule_key (rule : InfraRule) (peer : string) : ruleDecisionKey :=
  {| k_peer := peer; k_port := r_Port rule; k_protocol := r_Protocol rule |}.

Definition decide_key (decisions : decision_map) (k : ruleDecisionKey) (action : string) : decision_map :=
  if bool_decide (default "" (decisions !! k) = "ALLOW") then decisions
  else <[k := action]> decisions.

Definition applyDecision (peerIPByName : labels) (currentPeerName : string)
    (decisions : decision_map) (rule : InfraRule) : decision_map :=
  foldl (λ d peer, decide_key d (rule_key rule peer) (r_Action rule)) decisions
    (resolveRulePeers rule peerIPByName currentPeerName).

(** The non-nil rules of the non-nil policies, in order. *)
Definition policy_rules (side : InfraPolicy -> list (option InfraRule))
    (policies : list (option InfraPolicy)) : list InfraRule :=
  omap id (mjoin (side <$> omap id policies)).

Definition traffic_rule (chain : string) (k : ruleDecisionKey) (action : string) : TrafficRule := {|
  tr_ChainName := chain; tr_Peers := [k_peer k]; tr_Protocol := k_protocol k; tr_Port := k_port k;
  tr_Action := toIPTAction action |}.

Definition default_deny (chain : string) : TrafficRule := {|
  tr_ChainName := chain; tr_Peers := []; tr_Protocol := ""; tr_Port := 0; tr_Action := "DROP" |}.

Definition emit_chain `{MapRange} (chain : string) (decisions : decision_map) : list TrafficRule :=
  ((λ kv, traffic_rule chain kv.1 kv.2) <$> go_range decisions) ++ [default_deny chain].

Definition chain_decisions (byName : labels) (current : string) (rules : list InfraRule) : decision_map :=
  foldl (applyDecision byName current) ∅ rules.

Definition Evaluate `{MapRange} (currentPeer : option InfraPeer) (network : option InfraNetwork)
    (policies : list (option InfraPolicy)) : gresult FirewallRule :=
  match currentPeer, network with
  | Some currentPeer, Some network =>
      let byName := peer_ip_table (in_Peers network) in
      let ingress := chain_decisions byName (ip_Name currentPeer) (policy_rules ipol_Ingress policies) in
      let egress := chain_decisions byName (ip_Name currentPeer) (policy_rules ipol_Egress policies) in
      inr {| fw_Platform := ip_Platform currentPeer; fw_PolicyName := "";
             fw_Ingress := emit_chain "LATTICE-INGRESS" ingress;
             fw_Egress := emit_chain "LATTICE-EGRESS" egress |}
  | _, _ => inl (ErrText "currentPeer and network must not be nil")
  end.

(** ** What a flow's decision should be *)

Section decisions.
Context (byName : labels) (current : string).

(** The rule decides the flow [k]. *)
Definition rule_targets (rule : InfraRule) (k : ruleDecisionKey) : Prop :=
  k_port k = r_Port rule /\ k_protocol k = r_Protocol rule /\
  k_peer k ∈ resolveRulePeers rule byName current.

#[global] Instance rule_targets_dec rule k : Decision (rule_targets rule k).
Proof. unfold rule_targets. apply _. Defined.

(** The actions of the rules that decide [k], in order. *)
Definition flow_actions (rules : list InfraRule) (k : ruleDecisionKey) : list string :=
  r_Action <$> filter (λ r, rule_targets r k) rules.

(** One ["ALLOW"] is enough; without one the last rule decides. *)
Definition flow_decision (actions : list string) : option string :=
  if decide ("ALLOW" ∈ actions) then Some "ALLOW" else last actions.

Lemma decide_key_lookup d k k' a :
  decide_key d k a !! k' =
  if decide (k' = k) then
    (if decide (d !! k = Some "ALLOW") then Some "ALLOW" else Some a)
  else d !! k'.
Proof.
  unfold decide_key. case_bool_decide as Ha; destruct (decide (k' = k)) as [->|Hk]; try done.
  - destruct (d !! k) as [x|]; simpl in *; [|done]. subst x. by rewrite decide_True.
  - rewrite lookup_insert_eq. destruct (decide _) as [E|]; [|done]. by rewrite E in Ha.
  - by rewrite lookup_insert_ne.
Qed.

Lemma apply_peers_lookup rule k peers : forall d,
  foldl (λ d peer, decide_key d (rule_key rule peer) (r_Action rule)) d peers !! k =
  if decide (k_port k = r_Port rule /\ k_protocol k = r_Protocol rule /\ k_peer k ∈ peers) then
    (if decide (d !! k = Some "ALLOW") then Some "ALLOW" else Some (r_Action rule))
  else d !! k.
Proof.
  induction peers as [|p peers IH]; intros d; simpl.
  - rewrite decide_False; [done|]. set_solver.
  - rewrite IH, !decide_key_lookup.
    assert (Hkey : k = rule_key rule p <->
      k_port k = r_Port rule /\ k_protocol k = r_Protocol rule /\ k_peer k = p).
    { split; [by intros ->|]. destruct k; unfold rule_key; simpl. intros (-> & -> & ->). done. }
    destruct (decide (k = rule_key rule p)) as [Hk|Hk].
    + destruct (proj1 Hkey Hk) as (H1 & H2 & H3). subst k.
      rewrite (decide_True (P := _ /\ _ /\ _ ∈ p :: peers)) by (split_and!; [done..|]; set_solver).
      repeat case_decide; congruence.
    + assert (~ (k_port k = r_Port rule /\ k_protocol k = r_Protocol rule /\ k_peer k = p)) by tauto.
      destruct (decide (_ /\ _ /\ _ ∈ peers)) as [D|D]; destruct (decide (_ /\ _ /\ _ ∈ p :: peers)) as [D'|D'];
        try done; exfalso; set_solver.
Qed.

Lemma applyDecision_lookup d rule k :
  applyDecision byName current d rule !! k =
  if decide (rule_targets rule k) then
    (if decide (d !! k = Some "ALLOW") then Some "ALLOW" else Some (r_Action rule))
  else d !! k.
Proof. apply apply_peers_lookup. Qed.

(** The decision map holds the decision of every flow. *)
Lemma chain_decisions_lookup rules k :
  chain_decisions byName current rules !! k = flow_decision (flow_actions rules k).
Proof.
  unfold chain_decisions. induction rules as [|r rules IH] using rev_ind; [done|].
  rewrite foldl_snoc, applyDecision_lookup. unfold flow_actions. rewrite filter_app, fmap_app.
  fold (flow_actions rules k). rewrite filter_cons, filter_nil.
  destruct (decide (rule_targets r k)); simpl; [|by rewrite app_nil_r].
  rewrite IH. unfold flow_decision. rewrite last_snoc.
  destruct (decide ("ALLOW" ∈ flow_actions rules k)) as [Ha|Ha].
  - rewrite !decide_True; set_solver.
  - destruct (decide (last _ = Some _)) as [E|E].
    { destruct Ha. by apply last_Some_elem_of. }
    destruct (decide (_ ∈ _ ++ _)) as [Hr|Hr]; [|done].
    apply elem_of_app in Hr as [?|Hr]; [done|]. apply list_elem_of_singleton in Hr. congruence.
Qed.
End decisions.

(** The traffic rules [l] carry the decision of every flow some rule names, one
    traffic rule per flow. *)
Definition chain_decides (byName : labels) (current chain : string) (rules : list InfraRule)
    (l : list TrafficRule) : Prop :=
  exists flows : list (ruleDecisionKey * string),
    l = (λ kv, traffic_rule chain kv.1 kv.2) <$> flows /\ NoDup flows.*1 /\
    forall k a, (k, a) ∈ flows <-> flow_decision (flow_actions byName current rules k) = Some a.

Lemma emit_chain_decides `{MapRange} byName current chain rules :
  exists l, emit_chain chain (chain_decisions byName current rules) = l ++ [default_deny chain] /\
    chain_decides byName current chain rules l.
Proof.
  eexists. split; [done|]. eexists. split_and!; [done| |].
  - rewrite go_range_perm. apply NoDup_fst_map_to_list.
  - intros k a. by rewrite elem_of_go_range, chain_decisions_lookup.
Qed.

(** C7. Whatever order Go iterates maps in, [Evaluate] emits for each direction
    one traffic rule per flow that some rule of some policy names (a peer's
    address or a CIDR, with the rule's port and protocol, the current peer and
    peers without an address left out), accepting it as soon as one of those
    rules says ["ALLOW"] and following the last of them otherwise, and ends the
    chain with the rule that drops everything else. *)
Theorem Evaluate_flows `{MapRange} current network policies :
  let byName := peer_ip_table (in_Peers network) in
  exists fw ingress egress,
    Evaluate (Some current) (Some network) policies = inr fw /\
    fw_Platform fw = ip_Platform current /\
    fw_Ingress fw = ingress ++ [default_deny "LATTICE-INGRESS"] /\
    chain_decides byName (ip_Name current) "LATTICE-INGRESS" (policy_rules ipol_Ingress policies) ingress /\
    fw_Egress fw = egress ++ [default_deny "LATTICE-EGRESS"] /\
    chain_decides byName (ip_Name current) "LATTICE-EGRESS" (policy_rules ipol_Egress policies) egress.
Proof.
  intros byName. subst byName.
  destruct (emit_chain_decides (peer_ip_table (in_Peers network)) (ip_Name current)
    "LATTICE-INGRESS" (policy_rules ipol_Ingress policies)) as (lin & Hin & Din).
  destruct (emit_chain_decides (peer_ip_table (in_Peers network)) (ip_Name current)
    "LATTICE-EGRESS" (policy_rules ipol_Egress policies)) as (lout & Hout & Dout).
  do 3 eexists. split; [done|]. split_and!; done.
Qed.
