(* ===== verification/Provision.v ===== *)
(** * Provision: enforcing a firewall rule on a host
    ([internal/agent/provision/provision_linux.go], [provision_darwin.go],
    [provision_windows.go])

    The provisioners run system commands; [execE] is what they ask of the
    operating system.  The Linux provisioner rebuilds two iptables chains; the
    theorem at the end follows a policy through [Evaluate] and [Provision] to
    the verdict on a packet. *)

From S2P Require Import Prelude Prog Net Api Message ControllerUtils PolicyEvaluator.

(** [ExecRun]: [exec.Command(name, args...).Run()]; [ExecStderr]: the same with
    its standard error read back; [ExecOutput]: its standard output, the error
    ignored; [ExecInput]: [CombinedOutput] with a standard input. *)
Inductive execE : Type -> Type :=
| ExecRun (name : string) (args : list string) : execE (gresult unit)
| ExecStderr (name : string) (args : list string) : execE (gresult unit * string)
| ExecOutput (name : string) (args : list string) : execE string
| ExecInput (name : string) (args : list string) (stdin : string) : execE (gresult unit * string)
| WriteFile (path data : string) : execE (gresult unit)
| OsStat (path : string) : execE (gresult unit)
| ReadFile (path : string) : execE (gresult string).

Abbreviation xprog := (prog execE).

Definition newline : string := String (ascii_of_nat 10) "".

(** [infra.ExecCommand("/bin/sh", "-c", script)]. *)
Definition ExecCommand (script : string) : xprog (gresult unit) :=
  call (ExecRun "/bin/sh" ["-c"; script]).

Definition DefaultMTU : Z := 1280.

(** [net.IPNet.String] of an IPv4 network. *)
Definition GetCidrFromIP `{IPv6Text} (address : string) : string :=
  match net_ParseCIDR (address +:+ "/24") with
  | None => ""
  | Some (_, ipnet) => ip_String (net_IP ipnet) +:+ "/" +:+ pretty (mask_ones (net_Mask ipnet))
  end.

Definition GetGatewayFromIP `{IPv6Text} (str : string) : string :=
  match net_ParseCIDR (str +:+ "/24") with
  | None => ""
  | Some (_, ipnet) => ip_String (net_IP ipnet)
  end.

(** An index of 0 is not greater than 0: an address that starts with a slash is
    returned as it is. *)
Definition TrimCIDR (addr : string) : string :=
  if contains_char slash addr && negb (bool_decide (before_char slash addr = ""))
  then before_char slash addr else addr.

(** ** Linux *)

Module Linux.

Definition inChain : string := "LATTICE-INGRESS".
Definition outChain : string := "LATTICE-EGRESS".

Definition ApplyRoute `{IPv6Text} (action address name : string) : xprog (gresult unit) :=
  let cidr := GetCidrFromIP address in
  if bool_decide (action = "add") then
    let q := String (ascii_of_nat 34) "" in
    _ ←? ExecCommand (
      "iptables -w 5 -C FORWARD -i " +:+ name +:+ " -j ACCEPT 2>/dev/null || iptables -w 5 -A FORWARD -i " +:+ name +:+ " -j ACCEPT; " +:+
      "iptables -w 5 -C FORWARD -o " +:+ name +:+ " -j ACCEPT 2>/dev/null || iptables -w 5 -A FORWARD -o " +:+ name +:+ " -j ACCEPT; " +:+
      "DEV=$(ip route show default | awk 'NR==1{print $5}'); " +:+
      "iptables -w 5 -t nat -C POSTROUTING -o " +:+ q +:+ "$DEV" +:+ q +:+ " -j MASQUERADE 2>/dev/null || iptables -w 5 -t nat -A POSTROUTING -o " +:+ q +:+ "$DEV" +:+ q +:+ " -j MASQUERADE");
    _ ←? ExecCommand ("ip route replace " +:+ cidr +:+ " dev " +:+ name);
    mret (inr tt)
  else if bool_decide (action = "delete") then
    _ ← ExecCommand ("ip route del " +:+ cidr +:+ " dev " +:+ name +:+ " 2>/dev/null || true");
    mret (inr tt)
  else mret (inr tt).

Definition ApplyIP (action address name : string) : xprog (gresult unit) :=
  if bool_decide (action = "add") then
    let address := if contains_char slash address then address else address +:+ "/32" in
    _ ←? ExecCommand ("ip address replace " +:+ address +:+ " dev " +:+ name);
    _ ←? ExecCommand ("ip link set dev " +:+ name +:+ " mtu " +:+ pretty DefaultMTU +:+ " up");
    mret (inr tt)
  else mret (inr tt).

Definition bind_chain (interfaceName chain parent flag : string) : xprog unit :=
  check ← call (ExecRun "iptables" ["-w"; "5"; "-C"; parent; flag; interfaceName; "-j"; chain]);
  match check with
  | inr _ => mret tt
  | inl _ =>
      _ ← call (ExecRun "iptables" ["-w"; "5"; "-I"; parent; "1"; flag; interfaceName; "-j"; chain]);
      mret tt
  end.

Definition initChain (interfaceName chain parent flag : string) : xprog unit :=
  '(r, stderr) ← call (ExecStderr "iptables" ["-w"; "5"; "-N"; chain]);
  match r with
  | inl _ =>
      if str_contains "already exists" stderr then bind_chain interfaceName chain parent flag
      else mret tt
  | inr _ => bind_chain interfaceName chain parent flag
  end.

Definition rule_spec (dir ip : string) (tr : TrafficRule) : list string :=
  let target := if bool_decide (tr_Action tr = "") then "ACCEPT" else tr_Action tr in
  if negb (bool_decide (tr_Protocol tr = "")) && negb (bool_decide (tr_Port tr = 0)) then
    [dir; ip; "-p"; str_lower (tr_Protocol tr); "--dport"; pretty (tr_Port tr); "-j"; target]
  else [dir; ip; "-j"; target].

Definition addRule (chain dir ip : string) (tr : TrafficRule) : xprog (gresult unit) :=
  call (ExecRun "iptables" ("-A" :: chain :: rule_spec dir ip tr)).

Definition established_spec : list string :=
  ["-m"; "conntrack"; "--ctstate"; "ESTABLISHED,RELATED"; "-j"; "ACCEPT"].
Definition drop_spec : list string := ["-j"; "DROP"].

Definition Provision (interfaceName : string) (rule : FirewallRule) : xprog (gresult unit) :=
  _ ← initChain interfaceName inChain "INPUT" "-i";
  _ ← initChain interfaceName outChain "OUTPUT" "-o";
  _ ←? call (ExecRun "iptables" ["-F"; inChain]);
  _ ←? call (ExecRun "iptables" ["-F"; outChain]);
  _ ←? call (ExecRun "iptables" ("-A" :: inChain :: established_spec));
  _ ←? call (ExecRun "iptables" ("-A" :: outChain :: established_spec));
  _ ←? for_each (fw_Ingress rule) (λ tr, for_each (tr_Peers tr) (λ ip, addRule inChain "-s" ip tr));
  _ ←? for_each (fw_Egress rule) (λ tr, for_each (tr_Peers tr) (λ ip, addRule outChain "-d" ip tr));
  _ ←? call (ExecRun "iptables" ("-A" :: inChain :: drop_spec));
  _ ←? call (ExecRun "iptables" ("-A" :: outChain :: drop_spec));
  mret (inr tt).

Definition cgroup_keywords : list string := ["docker"; "kubepods"; "containerd"; "crio"].

Fixpoint any_marker (markers : list string) : xprog bool :=
  match markers with
  | [] => mret false
  | m :: markers =>
      r ← call (OsStat m);
      match r with inr _ => mret true | inl _ => any_marker markers end
  end.

Definition isRunningInContainer : xprog bool :=
  marked ← any_marker ["/.dockerenv"; "/run/.containerenv"];
  if (marked : bool) then mret true
  else
    data ← call (ReadFile "/proc/1/cgroup");
    match data with
    | inr content => mret (existsb (λ kw, str_contains kw content) cgroup_keywords)
    | inl _ => mret false
    end.

(** The (check, add) commands. *)
Definition nat_rules (interfaceName : string) : list (string * string) := [
  ("iptables -w 5 -t nat -C POSTROUTING -o " +:+ interfaceName +:+ " -j MASQUERADE",
   "iptables -w 5 -t nat -A POSTROUTING -o " +:+ interfaceName +:+ " -j MASQUERADE");
  ("iptables -w 5 -C FORWARD -j ACCEPT", "iptables -w 5 -A FORWARD -j ACCEPT");
  ("iptables -w 5 -C FORWARD -i " +:+ interfaceName +:+ " -o eth0 -m state --state RELATED,ESTABLISHED -j ACCEPT",
   "iptables -w 5 -A FORWARD -i " +:+ interfaceName +:+ " -o eth0 -m state --state RELATED,ESTABLISHED -j ACCEPT") ].

Definition SetupNAT (interfaceName : string) : xprog (gresult unit) :=
  inside ← isRunningInContainer;
  if negb inside then mret (inr tt)
  else
    _ ←? for_each (nat_rules interfaceName) (λ r,
      check ← ExecCommand r.1;
      match check with
      | inr _ => mret (inr tt)
      | inl _ => _ ←? ExecCommand r.2; mret (inr tt)
      end);
    mret (inr tt).

End Linux.

(** ** macOS *)

Module Darwin.

Definition Darwin_ApplyRoute (action address interfaceName : string) : xprog (gresult unit) :=
  let rule := "route -nv " +:+ action +:+ " -net " +:+ address +:+
    " -netmask 255.255.255.0 -interface " +:+ interfaceName in
  if bool_decide (action = "add") then _ ←? ExecCommand rule; mret (inr tt)
  else if bool_decide (action = "delete") then _ ←? ExecCommand rule; mret (inr tt)
  else mret (inr tt).

Definition Darwin_ApplyIP (action address name : string) : xprog (gresult unit) :=
  if bool_decide (action = "add") then
    _ ←? ExecCommand ("ifconfig " +:+ name +:+ " " +:+ address +:+ " " +:+ address);
    _ ←? ExecCommand ("ifconfig " +:+ name +:+ " mtu " +:+ pretty DefaultMTU);
    mret (inr tt)
  else mret (inr tt).

(** [strings.TrimRight] of newlines. *)
Fixpoint trim_newlines (s : string) : string :=
  match s with
  | EmptyString => ""
  | String c s =>
      let t := trim_newlines s in
      if bool_decide (t = "") && bool_decide (c = ascii_of_nat 10) then "" else String c t
  end.

(** The command's output, which ends the error text, is left out here and in
    [Darwin_Provision]. *)
Definition ensurePFReady (anchor : string) : xprog (gresult unit) :=
  let q := String (ascii_of_nat 34) "" in
  _ ← call (ExecRun "sudo" ["pfctl"; "-e"]);
  out ← call (ExecOutput "sudo" ["pfctl"; "-sr"]);
  if str_contains ("anchor " +:+ q +:+ anchor +:+ q) out then mret (inr tt)
  else
    let merged := trim_newlines out +:+ newline +:+ "anchor " +:+ q +:+ anchor +:+ q +:+ newline in
    '(r, output) ← call (ExecInput "sudo" ["pfctl"; "-f"; "-"] merged);
    match r with
    | inl err => mret (inl (ErrWrap "failed to register pf anchor" err))
    | inr _ => mret (inr tt)
    end.

Definition peer_set (tr : TrafficRule) : string := "{" +:+ str_join ", " (tr_Peers tr) +:+ "}".

Definition ingress_line (tr : TrafficRule) : string :=
  if negb (bool_decide (tr_Protocol tr = "")) && negb (bool_decide (tr_Port tr = 0)) then
    "pass in proto " +:+ str_lower (tr_Protocol tr) +:+ " from " +:+ peer_set tr +:+
    " to any port " +:+ pretty (tr_Port tr) +:+ newline
  else "pass in from " +:+ peer_set tr +:+ newline.

Definition egress_line (tr : TrafficRule) : string :=
  if negb (bool_decide (tr_Protocol tr = "")) && negb (bool_decide (tr_Port tr = 0)) then
    "pass out proto " +:+ str_lower (tr_Protocol tr) +:+ " from any to " +:+ peer_set tr +:+
    " port " +:+ pretty (tr_Port tr) +:+ newline
  else "pass out to " +:+ peer_set tr +:+ newline.

Definition pf_rules (iface : string) (rule : FirewallRule) : list string :=
  ["block in on " +:+ iface +:+ " all" +:+ newline; "block out on " +:+ iface +:+ " all" +:+ newline] ++
  (ingress_line <$> fw_Ingress rule) ++ (egress_line <$> fw_Egress rule).

Definition Darwin_Provision (interfaceName : string) (rule : FirewallRule) : xprog (gresult unit) :=
  let anchor := "lattice" in
  _ ←? ensurePFReady anchor;
  let tmpFile := "/tmp/lattice.pf" in
  _ ←? call (WriteFile tmpFile (str_join "" (pf_rules interfaceName rule)));
  '(r, output) ← call (ExecInput "sudo" ["pfctl"; "-a"; anchor; "-f"; tmpFile] "");
  match r with
  | inl err => mret (inl (ErrWrap "pfctl command failed" err))
  | inr _ => mret (inr tt)
  end.

End Darwin.

(** ** Windows *)

Module Windows.

Definition Windows_ApplyRoute `{IPv6Text} (action address interfaceName : string) : xprog (gresult unit) :=
  let ip := TrimCIDR address in
  let gateway := GetGatewayFromIP ip in
  _ ← call (ExecRun "cmd" ["/C"; "route " +:+ action +:+ " " +:+ ip +:+ " mask 255.255.255.0 " +:+ gateway]);
  mret (inr tt).

Definition Windows_ApplyIP (action address name : string) : xprog (gresult unit) :=
  if bool_decide (action = "add") then
    let ip := TrimCIDR address in
    let q := String (ascii_of_nat 34) "" in
    _ ← call (ExecRun "cmd" ["/C"; "netsh interface ipv4 set address name=" +:+ q +:+ name +:+ q +:+
      " static " +:+ ip +:+ " 255.255.255.0"]);
    _ ← call (ExecRun "cmd" ["/C"; "netsh interface set interface name=" +:+ q +:+ name +:+ q +:+
      " admin=ENABLED"]);
    mret (inr tt)
  else mret (inr tt).

Definition execPS (command : string) : xprog (gresult unit) :=
  call (ExecRun "powershell" ["-Command"; command]).

Definition inbound_command (i : nat) (tr : TrafficRule) : string :=
  "New-NetFirewallRule -DisplayName 'Lattice-In-" +:+ pretty i +:+
  "' -Direction Inbound -Action Allow -Protocol " +:+ str_upper (tr_Protocol tr) +:+
  " -LocalPort " +:+ pretty (tr_Port tr) +:+ " -RemoteAddress " +:+ str_join "," (tr_Peers tr).

Definition outbound_command (i : nat) (tr : TrafficRule) : string :=
  "New-NetFirewallRule -DisplayName 'Lattice-Out-" +:+ pretty i +:+
  "' -Direction Outbound -Action Allow -Protocol " +:+ str_upper (tr_Protocol tr) +:+
  " -RemotePort " +:+ pretty (tr_Port tr) +:+ " -RemoteAddress " +:+ str_join "," (tr_Peers tr).

Definition Windows_Provision (rule : FirewallRule) : xprog (gresult unit) :=
  _ ← execPS "Remove-NetFirewallRule -DisplayName 'Lattice-*'";
  _ ←? for_each (zip (seq 0 (length (fw_Ingress rule))) (fw_Ingress rule)) (λ '(i, tr),
    execPS (inbound_command i tr));
  _ ←? for_each (zip (seq 0 (length (fw_Egress rule))) (fw_Egress rule)) (λ '(i, tr),
    execPS (outbound_command i tr));
  mret (inr tt).

Definition Windows_SetupNAT (interfaceName : string) : xprog (gresult unit) :=
  execPS ("netsh routing ip nat add interface " +:+ interfaceName).

End Windows.

(** ** What the host promises

    [iptables -F] empties a chain and [iptables -A] appends to it; a command
    that succeeds touches no other chain. *)
Class IptablesHost {W} (h : forall T, execE T -> W -> T -> W -> Prop) := {
  chain_of : W -> string -> list (list string);
  iptables_flush s c s' :
    h _ (ExecRun "iptables" ["-F"; c]) s (inr tt) s' ->
    forall c', chain_of s' c' = if decide (c' = c) then [] else chain_of s c';
  iptables_append s c spec s' :
    h _ (ExecRun "iptables" ("-A" :: c :: spec)) s (inr tt) s' ->
    forall c', chain_of s' c' = if decide (c' = c) then chain_of s c ++ [spec] else chain_of s c';
}.

(** How iptables matches a packet against the rule specifications in use: by
    connection state, by source ([-s]) or destination ([-d]) address, by
    protocol and destination port, or always. *)
Class PacketFilter := {
  packet : Type;
  conn_established : packet -> bool;
  addr_match : string -> string -> packet -> bool;
  port_match : string -> string -> packet -> bool;
  spec_match : list string -> packet -> bool;
  spec_match_state pk : spec_match Linux.established_spec pk = conn_established pk;
  spec_match_addr dir ip target pk : spec_match [dir; ip; "-j"; target] pk = addr_match dir ip pk;
  spec_match_port dir ip proto port target pk :
    spec_match [dir; ip; "-p"; proto; "--dport"; port; "-j"; target] pk =
    addr_match dir ip pk && port_match proto port pk;
  spec_match_all target pk : spec_match ["-j"; target] pk = true;
}.

(** A chain's verdict: the target of the first rule that matches. *)
Fixpoint chain_verdict `{PacketFilter} (specs : list (list string)) (pk : packet) : option string :=
  match specs with
  | [] => None
  | spec :: specs => if spec_match spec pk then last spec else chain_verdict specs pk
  end.

Lemma chain_verdict_cons `{PacketFilter} spec specs pk :
  chain_verdict (spec :: specs) pk = if spec_match spec pk then last spec else chain_verdict specs pk.
Proof. done. Qed.

Inductive direction := Inbound | Outbound.
Definition dir_chain (d : direction) : string :=
  match d with Inbound => Linux.inChain | Outbound => Linux.outChain end.
Definition dir_flag (d : direction) : string := match d with Inbound => "-s" | Outbound => "-d" end.
Definition dir_traffic (d : direction) : FirewallRule -> list TrafficRule :=
  match d with Inbound => fw_Ingress | Outbound => fw_Egress end.
Definition dir_policy (d : direction) : InfraPolicy -> list (option InfraRule) :=
  match d with Inbound => ipol_Ingress | Outbound => ipol_Egress end.

Definition chain_specs (flag : string) (trs : list TrafficRule) : list (list string) :=
  mjoin ((λ tr, (λ ip, Linux.rule_spec flag ip tr) <$> tr_Peers tr) <$> trs).

(** The chain a successful [Provision] leaves. *)
Definition provisioned_chain (d : direction) (fw : FirewallRule) : list (list string) :=
  Linux.established_spec :: chain_specs (dir_flag d) (dir_traffic d fw) ++ [Linux.drop_spec].

Section provision.
Context {W : Type} (h : forall T, execE T -> W -> T -> W -> Prop) `{!IptablesHost h}.

Lemma runs_append c spec s s' :
  runs h (call (ExecRun "iptables" ("-A" :: c :: spec))) s (inr tt) s' ->
  forall c', chain_of s' c' = if decide (c' = c) then chain_of s c ++ [spec] else chain_of s c'.
Proof. intros H%runs_call_inv. by apply iptables_append. Qed.

Lemma runs_peers c flag tr ips : forall s s',
  runs h (for_each ips (λ ip, Linux.addRule c flag ip tr)) s (inr tt) s' ->
  forall c', chain_of s' c' =
    if decide (c' = c) then chain_of s c ++ ((λ ip, Linux.rule_spec flag ip tr) <$> ips)
    else chain_of s c'.
Proof.
  induction ips as [|ip ips IH]; intros s s' H c'.
  - apply runs_ret_inv in H as [_ ->]. simpl. rewrite app_nil_r. by destruct (decide _) as [->|].
  - apply runs_try_inv in H as ([] & s1 & H1 & H2).
    rewrite (IH _ _ H2 c'), !(runs_append _ _ _ _ H1). simpl.
    repeat case_decide; try done. by rewrite <- app_assoc.
Qed.

Lemma runs_traffic c flag trs : forall s s',
  runs h (for_each trs (λ tr, for_each (tr_Peers tr) (λ ip, Linux.addRule c flag ip tr))) s (inr tt) s' ->
  forall c', chain_of s' c' =
    if decide (c' = c) then chain_of s c ++ chain_specs flag trs else chain_of s c'.
Proof.
  induction trs as [|tr trs IH]; intros s s' H c'.
  - apply runs_ret_inv in H as [_ ->]. unfold chain_specs. simpl. rewrite app_nil_r.
    by destruct (decide _) as [->|].
  - apply runs_try_inv in H as ([] & s1 & H1 & H2).
    rewrite (IH _ _ H2 c'), !(runs_peers _ _ _ _ _ _ H1). unfold chain_specs. simpl.
    repeat case_decide; try done. by rewrite <- app_assoc.
Qed.

Lemma Provision_chains iface fw s s' :
  runs h (Linux.Provision iface fw) s (inr tt) s' ->
  forall d, chain_of s' (dir_chain d) = provisioned_chain d fw.
Proof.
  intros H d. unfold Linux.Provision in H.
  apply runs_bind_inv in H as ([] & s1 & _ & H).
  apply runs_bind_inv in H as ([] & s2 & _ & H).
  apply runs_try_inv in H as ([] & s3 & F1%runs_call_inv & H).
  apply runs_try_inv in H as ([] & s4 & F2%runs_call_inv & H).
  apply runs_try_inv in H as ([] & s5 & E1 & H).
  apply runs_try_inv in H as ([] & s6 & E2 & H).
  apply runs_try_inv in H as ([] & s7 & T1 & H).
  apply runs_try_inv in H as ([] & s8 & T2 & H).
  apply runs_try_inv in H as ([] & s9 & D1 & H).
  apply runs_try_inv in H as ([] & s10 & D2 & H).
  apply runs_ret_inv in H as [_ ->].
  rewrite (runs_append _ _ _ _ D2), !(runs_append _ _ _ _ D1), !(runs_traffic _ _ _ _ _ T2),
    !(runs_traffic _ _ _ _ _ T1), !(runs_append _ _ _ _ E2), !(runs_append _ _ _ _ E1),
    !(iptables_flush _ _ _ F2), !(iptables_flush _ _ _ F1).
  by destruct d.
Qed.
End provision.

(** ** The verdict of a policy *)

Section verdict.
Context `{MapRange, PacketFilter}.
Context (byName : labels) (current : string) (d : direction).

Definition flow_matches (k : ruleDecisionKey) (pk : packet) : bool :=
  addr_match (dir_flag d) (k_peer k) pk &&
  (if negb (bool_decide (k_protocol k = "")) && negb (bool_decide (k_port k = 0))
   then port_match (str_lower (k_protocol k)) (pretty (k_port k)) pk else true).

(** The packet belongs to a flow the rule names. *)
Definition rule_matches (r : InfraRule) (pk : packet) : Prop :=
  exists peer, peer ∈ resolveRulePeers r byName current /\ flow_matches (rule_key r peer) pk = true.

Lemma spec_match_flow chain k a pk :
  spec_match (Linux.rule_spec (dir_flag d) (k_peer k) (traffic_rule chain k a)) pk = flow_matches k pk /\
  last (Linux.rule_spec (dir_flag d) (k_peer k) (traffic_rule chain k a)) = Some (toIPTAction a).
Proof.
  unfold Linux.rule_spec, traffic_rule, flow_matches. simpl.
  rewrite (bool_decide_false (toIPTAction a = "")) by (unfold toIPTAction; by destruct (equal_fold _ _)).
  destruct (negb _ && negb _); [by rewrite spec_match_port|].
  by rewrite spec_match_addr, andb_true_r.
Qed.

(** The flows' part of the chain: the first flow that matches decides. *)
Lemma flows_verdict chain flows rest pk :
  chain_verdict (chain_specs (dir_flag d) ((λ kv, traffic_rule chain kv.1 kv.2) <$> flows) ++ rest) pk =
  match list_find (λ kv, flow_matches kv.1 pk = true) flows with
  | Some (_, kv) => Some (toIPTAction kv.2)
  | None => chain_verdict rest pk
  end.
Proof.
  induction flows as [|[k a] flows IH]; [done|]. rewrite fmap_cons.
  set (l := _ <$> flows) in *. simpl list_find.
  change (chain_specs (dir_flag d) (traffic_rule chain (k, a).1 (k, a).2 :: l) ++ rest)
    with (Linux.rule_spec (dir_flag d) (k_peer k) (traffic_rule chain k a) ::
          (chain_specs (dir_flag d) l ++ rest)).
  destruct (spec_match_flow chain k a pk) as [E1 E2].
  rewrite chain_verdict_cons, E1, E2, IH.
  destruct (flow_matches k pk); simpl; [done|].
  by destruct (list_find _ flows) as [[? ?]|].
Qed.

Lemma flow_action_rule rules k a :
  flow_decision (flow_actions byName current rules k) = Some a ->
  exists r, r ∈ rules /\ rule_targets byName current r k /\ r_Action r = a.
Proof.
  intros Hd. assert (Ha : a ∈ flow_actions byName current rules k).
  { unfold flow_decision in Hd. destruct (decide _) as [Hin|Hin]; [by injection Hd as <-|].
    by apply last_Some_elem_of. }
  unfold flow_actions in Ha. apply list_elem_of_fmap in Ha as (r & -> & Hr).
  apply list_elem_of_filter in Hr as [? ?]. eauto.
Qed.

Lemma rule_targets_matches r k pk :
  rule_targets byName current r k -> flow_matches k pk = true -> rule_matches r pk.
Proof.
  intros (Hp & Hq & Hin) Hm. exists (k_peer k). split; [done|].
  replace (rule_key r (k_peer k)) with k; [done|]. unfold rule_key. destruct k; simpl in *. congruence.
Qed.

Lemma flow_decided rules r peer :
  r ∈ rules -> peer ∈ resolveRulePeers r byName current ->
  exists a, flow_decision (flow_actions byName current rules (rule_key r peer)) = Some a.
Proof.
  intros Hr Hp. unfold flow_decision. destruct (decide _) as [?|_]; [eauto|].
  destruct (last _) as [a|] eqn:Hl; [eauto|]. apply last_None in Hl.
  assert (r_Action r ∈ flow_actions byName current rules (rule_key r peer)) as Hin.
  { unfold flow_actions. apply list_elem_of_fmap_2, list_elem_of_filter. by split. }
  rewrite Hl in Hin. by apply not_elem_of_nil in Hin.
Qed.

(** One rule that says ALLOW decides its flow. *)
Lemma allowed_flow rules r k :
  r ∈ rules -> rule_targets byName current r k -> r_Action r = "ALLOW" ->
  flow_decision (flow_actions byName current rules k) = Some "ALLOW".
Proof.
  intros Hr Ht Ha. unfold flow_decision. rewrite decide_True; [done|].
  rewrite <- Ha. unfold flow_actions. by apply list_elem_of_fmap_2, list_elem_of_filter.
Qed.

(** A flow of the packet decides: of flows that overlap the one that the map gave first. *)
Lemma decided_verdict chain rules l pk :
  chain_decides byName current chain rules l ->
  let verdict := chain_verdict (chain_specs (dir_flag d) (l ++ [default_deny chain]) ++ [Linux.drop_spec]) pk in
  (~ (exists r, r ∈ rules /\ rule_matches r pk) /\ verdict = Some "DROP") \/
  (exists k r a, flow_matches k pk = true /\ r ∈ rules /\ rule_targets byName current r k /\ r_Action r = a /\
    flow_decision (flow_actions byName current rules k) = Some a /\ verdict = Some (toIPTAction a)).
Proof.
  intros (flows & -> & _ & Hflows). cbv zeta.
  assert (E : forall l', chain_specs (dir_flag d) (l' ++ [default_deny chain]) = chain_specs (dir_flag d) l').
  { intros l'. unfold chain_specs. rewrite fmap_app, join_app. simpl. by rewrite app_nil_r. }
  rewrite E, flows_verdict. destruct (list_find _ flows) as [[i [k a]]|] eqn:Hf.
  - apply list_find_Some in Hf as (Hi & Hm & _). apply list_elem_of_lookup_2, Hflows in Hi.
    destruct (flow_action_rule _ _ _ Hi) as (r & Hr & Ht & Ha). right. by exists k, r, a.
  - left. rewrite chain_verdict_cons. unfold Linux.drop_spec. rewrite spec_match_all. split; [|done].
    intros (r & Hr & peer & Hp & Hm).
    destruct (flow_decided _ _ _ Hr Hp) as [a Ha]. apply Hflows in Ha.
    apply list_find_None in Hf. rewrite Forall_forall in Hf. by apply (Hf _ Ha).
Qed.
End verdict.

(** C8. A policy, from the controller to the packet. If the Linux provisioner succeeds in
    applying what [Evaluate] made of the policies, a packet of an established connection is
    accepted. Any other packet is dropped when no rule names it; otherwise a flow that names it
    decides: ALLOW when one of the flow's rules says so, else as its last rule says. Hence it is
    accepted when every flow that names it has a rule that says ALLOW, whatever the other rules
    say, and dropped when no rule that names it accepts. Of flows that overlap and differ any
    one may decide. This holds in both directions and for every order of map iteration. *)
Theorem policy_verdict `{MapRange, PacketFilter} {W} (h : forall T, execE T -> W -> T -> W -> Prop)
    `{!IptablesHost h} iface current network policies fw s s' d pk :
  let byName := peer_ip_table (in_Peers network) in
  let rules := policy_rules (dir_policy d) policies in
  let targets := rule_targets byName (ip_Name current) in
  let named := exists r, r ∈ rules /\ rule_matches byName (ip_Name current) d r pk in
  let verdict := chain_verdict (chain_of s' (dir_chain d)) pk in
  Evaluate (Some current) (Some network) policies = inr fw ->
  runs h (Linux.Provision iface fw) s (inr tt) s' ->
  (conn_established pk = true -> verdict = Some "ACCEPT") /\
  (conn_established pk = false ->
    (~ named -> verdict = Some "DROP") /\
    (named -> exists k a, flow_matches d k pk = true /\
       flow_decision (flow_actions byName (ip_Name current) rules k) = Some a /\ verdict = Some (toIPTAction a)) /\
    (named ->
     (forall k r, flow_matches d k pk = true -> r ∈ rules -> targets r k ->
        exists r', r' ∈ rules /\ targets r' k /\ r_Action r' = "ALLOW") ->
     verdict = Some "ACCEPT") /\
    ((forall r, r ∈ rules -> rule_matches byName (ip_Name current) d r pk -> toIPTAction (r_Action r) = "DROP") ->
     verdict = Some "DROP")).
Proof.
  intros byName rules targets named verdict He Hr. injection He as <-.
  subst verdict. rewrite (Provision_chains _ _ _ _ _ Hr d). unfold provisioned_chain.
  rewrite chain_verdict_cons, spec_match_state.
  split; [by intros ->|]. intros ->.
  destruct (emit_chain_decides byName (ip_Name current) (dir_chain d) rules) as (l & El & Dl).
  pose proof (decided_verdict byName (ip_Name current) d (dir_chain d) rules l pk Dl) as Hv.
  rewrite <- El in Hv. cbv zeta in Hv. set (verdict := chain_verdict _ pk) in Hv.
  match goal with |- context [chain_verdict ?c pk] => replace (chain_verdict c pk) with verdict by (subst verdict; by destruct d) end.
  clearbody verdict. destruct Hv as [[Hno ->]|(k & r & a & Hm & Hin & Ht & Ha & Hk & ->)].
  { split_and!; try done; intros Hn; by destruct (Hno Hn). }
  assert (Hrm : rule_matches byName (ip_Name current) d r pk) by (by eapply rule_targets_matches).
  split_and!.
  - intros Hn. destruct Hn. by exists r.
  - intros _. by exists k, a.
  - intros _ Hall. destruct (Hall k r Hm Hin Ht) as (r' & Hr' & Ht' & Hal).
    rewrite (allowed_flow _ _ _ _ _ Hr' Ht' Hal) in Hk. by injection Hk as <-.
  - intros Hall. by rewrite <- Ha, (Hall r).
Qed.

(** ** A concrete host *)

(** Chains as lists of specifications; every command but [-F] and [-A]
    succeeds without effect. *)
Definition sample_host T (e : execE T) (s : gmap string (list (list string))) :
    T * gmap string (list (list string)) :=
  match e in execE T return T * gmap string (list (list string)) with
  | ExecRun _ (flag :: c :: spec) =>
      if bool_decide (flag = "-F") then (inr tt, <[c := []]> s)
      else if bool_decide (flag = "-A") then (inr tt, <[c := default [] (s !! c) ++ [spec]]> s)
      else (inr tt, s)
  | ExecRun _ _ => (inr tt, s)
  | ExecStderr _ _ => ((inr tt, ""), s)
  | ExecOutput _ _ => ("", s)
  | ExecInput _ _ _ => ((inr tt, ""), s)
  | WriteFile _ _ => (inr tt, s)
  | OsStat _ => (inr tt, s)
  | ReadFile _ => (inr "", s)
  end.

#[local] Instance sample_host_ok : IptablesHost (fun_world sample_host).
Proof.
  refine {| chain_of := λ s c, default [] (s !! c) |}; unfold fun_world; simpl.
  - intros s c s' [= <-] c'. destruct (decide (c' = c)) as [->|]; [by rewrite lookup_insert_eq|].
    by rewrite lookup_insert_ne.
  - intros s c spec s' [= <-] c'. destruct (decide (c' = c)) as [->|]; [by rewrite lookup_insert_eq|].
    by rewrite lookup_insert_ne.
Defined.

(** Packets as (address, protocol, port), all of them new connections. *)
#[local] Instance sample_filter : PacketFilter.
Proof.
  refine {| packet := string * string * Z;
    conn_established := λ _, false;
    addr_match := λ _ ip pk, bool_decide (ip = pk.1.1);
    port_match := λ proto port pk, bool_decide (proto = pk.1.2) && bool_decide (port = pretty pk.2);
    spec_match := λ spec pk,
      match spec with
      | [_; ip; _; proto; _; port; _; _] =>
          bool_decide (ip = pk.1.1) && (bool_decide (proto = pk.1.2) && bool_decide (port = pretty pk.2))
      | [_; ip; _; _] => bool_decide (ip = pk.1.1)
      | [_; _] => true
      | _ => false
      end |}; done.
Defined.

Definition sample_infra_peer (n a : string) : InfraPeer := {|
  ip_Name := n; ip_InterfaceName := ""; ip_Platform := "linux"; ip_Description := "";
  ip_NetworkId := ""; ip_CreatedBy := ""; ip_UserId := 0; ip_Hostname := ""; ip_AppID := n;
  ip_Address := Some a; ip_Endpoint := ""; ip_Remove := false; ip_PresharedKey := "";
  ip_PersistentKeepalive := 0; ip_PrivateKey := ""; ip_PublicKey := ""; ip_PeerID := 0;
  ip_AllowedIPs := a +:+ "/32"; ip_ReplacePeers := false; ip_Port := 0; ip_GroupName := "";
  ip_Version := 0; ip_LastUpdatedAt := ""; ip_Token := ""; ip_WrrpUrl := ""; ip_Labels := ∅ |}.
Definition sample_infra_network : InfraNetwork := {|
  in_Address := ""; in_AllowedIps := []; in_Port := 0; in_NetworkId := "net"; in_NetworkName := "net";
  in_Peers := [sample_infra_peer "a" "10.0.0.1"; sample_infra_peer "b" "10.0.0.2"] |}.
Definition sample_rule (names : list string) (port : Z) (action : string) : InfraRule := {|
  r_PeerNames := names; r_CIDRs := []; r_Protocol := "TCP"; r_Port := port; r_Action := action |}.
Definition sample_policies : list (option InfraPolicy) :=
  [Some {| ipol_PolicyName := "p"; ipol_Action := "ALLOW";
           ipol_Ingress := [Some (sample_rule ["b"] 80 "ALLOW"); Some (sample_rule ["b"] 80 "DENY")]; ipol_Egress := [] |}].
Definition sample_fw : FirewallRule :=
  match Evaluate (Some (sample_infra_peer "a" "10.0.0.1")) (Some sample_infra_network) sample_policies with
  | inr fw => fw
  | inl _ => {| fw_Platform := ""; fw_PolicyName := ""; fw_Ingress := []; fw_Egress := [] |}
  end.

Lemma policy_verdict_witness :
  chain_verdict (chain_of (run sample_host (Linux.Provision "wg0" sample_fw) ∅).2 (dir_chain Inbound))
    ("10.0.0.2", "tcp", 80) = Some "ACCEPT".
Proof.
  apply (@policy_verdict range_in_order sample_filter _ (fun_world sample_host) _ "wg0" (sample_infra_peer "a" "10.0.0.1")
    sample_infra_network sample_policies sample_fw ∅
    (run sample_host (Linux.Provision "wg0" sample_fw) ∅).2 Inbound ("10.0.0.2", "tcp", 80)).
  - vm_compute. reflexivity.
  - apply run_runs. vm_compute. reflexivity.
  - reflexivity.
  - exists (sample_rule ["b"] 80 "ALLOW"). split; [by left|].
    exists "10.0.0.2". split; [|vm_compute; reflexivity].
    apply (bool_decide_unpack _). vm_compute. exact I.
  - intros k r _ Hr Ht. apply elem_of_cons in Hr as [->|Hr].
    + exists (sample_rule ["b"] 80 "ALLOW"). split; [by left|done].
    + apply list_elem_of_singleton in Hr as ->. exists (sample_rule ["b"] 80 "ALLOW"). split; [by left|done].
Defined.
