(* ===== verification/PeerResolver.v ===== *)
(** * PeerResolver: the peers a node connects to
    ([internal/agent/controller/peer_resolver.go])

    A node connects to the peers its policies select, in either direction.  A
    selector that does not parse leaves a nil selector that the code calls: that
    panic is [None] here. *)

From S2P Require Import Prelude Api Message.

Section resolver.
Context `{LabelSelectors}.

Definition matchLabels (current : InfraPeer) (peerSelector : LabelSelector) : option bool :=
  match LabelSelectorAsSelector (Some peerSelector) with
  | inl _ => None
  | inr selector => if negb (selector (ip_Labels current)) then Some false else Some true
  end.

Fixpoint resolveSelectionToPeers (selection : PeerSelection) (allPeers : list InfraPeer) :
    option (list InfraPeer) :=
  match allPeers with
  | [] => Some []
  | p :: allPeers =>
      match LabelSelectorAsSelector (sel_PeerSelector selection) with
      | inl _ => None
      | inr selector =>
          result ← resolveSelectionToPeers selection allPeers;
          Some (if selector (ip_Labels p) then p :: result else result)
      end
  end.

Abbreviation peer_map := (gmap string InfraPeer).

(** The loop over the matched peers of one selection. *)
Definition add_matched (current : InfraPeer) (m : peer_map) (matched : list InfraPeer) : peer_map :=
  foldl (λ m p, if bool_decide (ip_Name p = ip_Name current) then m else <[ip_Name p := p]> m) m matched.

Fixpoint add_selections (current : InfraPeer) (allPeers : list InfraPeer)
    (selections : list PeerSelection) (m : peer_map) : option peer_map :=
  match selections with
  | [] => Some m
  | sel :: selections =>
      matched ← resolveSelectionToPeers sel allPeers;
      add_selections current allPeers selections (add_matched current m matched)
  end.

(** The selections of a policy in the order they are visited: egress, then
    ingress. *)
Definition policy_selections (policy : LatticePolicy) : list PeerSelection :=
  mjoin (eg_To <$> pol_Egress (pol_Spec policy)) ++ mjoin (ing_From <$> pol_Ingress (pol_Spec policy)).

Fixpoint add_policies (current : InfraPeer) (allPeers : list InfraPeer)
    (policies : list LatticePolicy) (m : peer_map) : option peer_map :=
  match policies with
  | [] => Some m
  | policy :: policies =>
      applies ← matchLabels current (pol_PeerSelector (pol_Spec policy));
      if negb applies then add_policies current allPeers policies m
      else
        m ← add_selections current allPeers (policy_selections policy) m;
        add_policies current allPeers policies m
  end.

Definition GetComputedPeers `{MapRange} (current : InfraPeer) (network : InfraNetwork)
    (policies : list LatticePolicy) : option (list InfraPeer) :=
  finalPeersMap ← add_policies current (in_Peers network) policies ∅;
  let result := (go_range finalPeersMap).*2 in
  Some (sort_by ip_Name result).

Definition ResolvePeers `{MapRange} (current : InfraPeer) (network : InfraNetwork)
    (policies : list LatticePolicy) : option (gresult (list InfraPeer)) :=
  peers ← GetComputedPeers current network policies; Some (inr peers).

(** ** The peers that should be selected *)

Definition selector_accepts (s : option LabelSelector) (l : labels) : Prop :=
  exists f, LabelSelectorAsSelector s = inr f /\ f l = true.

Definition valid_selector (s : option LabelSelector) : Prop :=
  exists f, LabelSelectorAsSelector s = inr f.

Definition valid_policy (policy : LatticePolicy) : Prop :=
  valid_selector (Some (pol_PeerSelector (pol_Spec policy))) /\
  Forall (λ sel, valid_selector (sel_PeerSelector sel)) (policy_selections policy).

(** A policy of the list that applies to the current peer selects [p]. *)
Definition selected (current : InfraPeer) (allPeers : list InfraPeer) (policies : list LatticePolicy)
    (p : InfraPeer) : Prop :=
  p ∈ allPeers /\ ip_Name p <> ip_Name current /\
  exists policy sel, policy ∈ policies /\ sel ∈ policy_selections policy /\
    selector_accepts (Some (pol_PeerSelector (pol_Spec policy))) (ip_Labels current) /\
    selector_accepts (sel_PeerSelector sel) (ip_Labels p).

Lemma resolveSelectionToPeers_spec sel allPeers :
  valid_selector (sel_PeerSelector sel) ->
  exists l, resolveSelectionToPeers sel allPeers = Some l /\
    forall p, p ∈ l <-> p ∈ allPeers /\ selector_accepts (sel_PeerSelector sel) (ip_Labels p).
Proof.
  intros [f Hf]. induction allPeers as [|q allPeers (l & IH & Hl)]; simpl.
  - exists []. split; [done|]. set_solver.
  - rewrite Hf, IH. simpl. eexists. split; [done|]. intros p.
    assert (Hacc : selector_accepts (sel_PeerSelector sel) (ip_Labels q) <-> f (ip_Labels q) = true).
    { unfold selector_accepts. rewrite Hf. split; [by intros (? & [= <-] & ?)|eauto]. }
    destruct (f (ip_Labels q)) eqn:Hq.
    + rewrite !elem_of_cons, Hl. split; [|tauto]. intros [->|[? ?]]; [|tauto]. split; [by left|]. by apply Hacc.
    + rewrite elem_of_cons, Hl. split; [tauto|]. intros [[->|?] ?]; [|done]. by apply Hacc in H0.
Qed.

(** The peers reached from [m] by adding the peers of [P]: every entry is an old
    one or a peer of [P], under its own name, and every such peer's name is there. *)
Definition extends (m m' : peer_map) (P : InfraPeer -> Prop) : Prop :=
  (forall n p, m' !! n = Some p -> m !! n = Some p \/ (P p /\ n = ip_Name p)) /\
  (forall n, is_Some (m !! n) -> is_Some (m' !! n)) /\
  (forall p, P p -> is_Some (m' !! ip_Name p)).

Lemma extends_refl m P : (forall p, ~ P p) -> extends m m P.
Proof. intros HP. split_and!; [by left|done|]. intros p Hp. by destruct (HP p). Qed.

Lemma extends_trans m m1 m2 (P Q R : InfraPeer -> Prop) :
  (forall p, R p <-> P p \/ Q p) -> extends m m1 P -> extends m1 m2 Q -> extends m m2 R.
Proof.
  intros HR (A1 & A2 & A3) (B1 & B2 & B3). split_and!.
  - intros n p Hn. apply B1 in Hn as [[?|[? ?]]%A1|[? ?]]; [by left|right..]; (split; [|done]); apply HR; auto.
  - auto.
  - intros p [Hp|Hp]%HR; auto.
Qed.

Lemma add_matched_extends current matched : forall m,
  extends m (add_matched current m matched) (λ p, p ∈ matched /\ ip_Name p <> ip_Name current).
Proof.
  induction matched as [|q matched IH]; intros m; simpl.
  - apply extends_refl. set_solver.
  - eapply extends_trans; [|clear IH|apply IH].
    { intros p. instantiate (1 := λ p, p = q /\ ip_Name q <> ip_Name current). rewrite elem_of_cons.
      split; [intros [[->|?] ?]; tauto|]. intros [[-> ?]|[? ?]]; tauto. }
    case_bool_decide as Hq; simpl.
    + apply extends_refl. intros p [_ ?]. done.
    + split_and!.
      * intros n p. destruct (decide (n = ip_Name q)) as [->|Hn].
        { rewrite lookup_insert_eq. intros [= ->]. by right. }
        rewrite lookup_insert_ne by done. by left.
      * intros n Hn. destruct (decide (n = ip_Name q)) as [->|]; [by rewrite lookup_insert_eq|].
        by rewrite lookup_insert_ne.
      * intros p [-> _]. by rewrite lookup_insert_eq.
Qed.

Lemma add_selections_extends current allPeers selections : forall m,
  Forall (λ sel, valid_selector (sel_PeerSelector sel)) selections ->
  exists m', add_selections current allPeers selections m = Some m' /\
    extends m m' (λ p, p ∈ allPeers /\ ip_Name p <> ip_Name current /\
      exists sel, sel ∈ selections /\ selector_accepts (sel_PeerSelector sel) (ip_Labels p)).
Proof.
  induction selections as [|sel selections IH]; intros m Hv; simpl.
  - exists m. split; [done|]. apply extends_refl. set_solver.
  - apply Forall_cons in Hv as [Hs Hv].
    destruct (resolveSelectionToPeers_spec sel allPeers Hs) as (l & -> & Hl). simpl.
    destruct (IH (add_matched current m l) Hv) as (m' & -> & Hm'). exists m'. split; [done|].
    eapply extends_trans; [|apply add_matched_extends|exact Hm'].
    intros p. simpl. rewrite Hl. setoid_rewrite elem_of_cons. split.
    + intros (? & ? & s & [->|?] & ?); [left|right]; eauto 6.
    + intros [[[? ?] ?]|(? & ? & s & ? & ?)]; eauto 7.
Qed.

Lemma add_policies_extends current allPeers policies : forall m,
  Forall valid_policy policies ->
  exists m', add_policies current allPeers policies m = Some m' /\
    extends m m' (selected current allPeers policies).
Proof.
  induction policies as [|policy policies IH]; intros m Hv; simpl.
  - exists m. split; [done|]. apply extends_refl. unfold selected. set_solver.
  - apply Forall_cons in Hv as [[[f Hf] Hs] Hv]. unfold matchLabels. rewrite Hf.
    destruct (f (ip_Labels current)) eqn:Hc; simpl.
    + destruct (add_selections_extends current allPeers (policy_selections policy) m Hs) as (m1 & -> & H1).
      simpl. destruct (IH m1 Hv) as (m' & -> & H2). exists m'. split; [done|].
      eapply extends_trans; [|exact H1|exact H2]. intros p. unfold selected. setoid_rewrite elem_of_cons.
      split.
      * intros (? & ? & pol & s & [->|?] & ? & ? & ?); [left|right]; eauto 10.
      * intros [(? & ? & s & ? & ?)|(? & ? & pol & s & ? & ? & ? & ?)]; split_and!; try done.
        -- exists policy, s. split_and!; [by left|done| |done]. by exists f.
        -- exists pol, s. auto.
    + destruct (IH m Hv) as (m' & -> & H2). exists m'. split; [done|].
      eapply (extends_trans _ m); [|apply (extends_refl _ (λ _, False)); by intros p []|exact H2].
      intros p. unfold selected. setoid_rewrite elem_of_cons. split.
      * intros (? & ? & pol & s & [->|?] & ? & [g [Hg Hg']] & ?); [|right; unfold selector_accepts; eauto 10].
        congruence.
      * intros [[]|(? & ? & pol & s & ? & ? & ? & ?)]. eauto 10.
Qed.

Lemma keyed_names `{MapRange} (m : peer_map) :
  (forall n p, m !! n = Some p -> n = ip_Name p) ->
  ip_Name <$> (go_range m).*2 = (go_range m).*1.
Proof.
  intros Hm. rewrite <- list_fmap_compose. apply list_fmap_ext.
  intros i [n p] Hi. simpl. apply list_elem_of_lookup_2 in Hi.
  rewrite elem_of_go_range in Hi. symmetry. by apply Hm.
Qed.
End resolver.

(** Sorted by name, without two peers of the same name. *)
Definition sorted_by_name (l : list InfraPeer) : Prop :=
  StronglySorted (key_le ip_Name) l /\ NoDup (ip_Name <$> l).

(** With selectors that parse, [GetComputedPeers] returns, sorted by name and
    once per name, peers of the network other than the current one that some
    policy applying to the current peer selects in its ingress or egress rules,
    and every such peer's name; the list does not depend on the order of map
    iteration, so neither does its hash. *)
Theorem GetComputedPeers_selects `{LabelSelectors} current network policies :
  Forall valid_policy policies ->
  exists l, (forall r : MapRange, GetComputedPeers current network policies = Some l) /\
    sorted_by_name l /\
    (forall p, p ∈ l -> selected current (in_Peers network) policies p) /\
    (forall p, selected current (in_Peers network) policies p -> ip_Name p ∈ ip_Name <$> l).
Proof.
  intros Hv. destruct (add_policies_extends current (in_Peers network) policies ∅ Hv)
    as (m & Hm & H1 & _ & H3).
  assert (Hkey : forall n p, m !! n = Some p -> n = ip_Name p).
  { intros n p [Hn|[_ ?]]%H1; [|done]. by rewrite lookup_empty in Hn. }
  assert (Hnd : forall r : MapRange, NoDup (ip_Name <$> (go_range m).*2)).
  { intros r. rewrite (keyed_names m Hkey), go_range_perm. apply NoDup_fst_map_to_list. }
  exists (sort_by ip_Name (map_to_list m).*2). split_and!.
  - intros r. unfold GetComputedPeers. rewrite Hm. simpl. f_equal.
    apply sort_by_unique; [apply Hnd|]. by rewrite go_range_perm.
  - split; [apply sort_by_sorted|]. rewrite sort_by_perm. apply (Hnd range_in_order).
  - intros p Hp. rewrite sort_by_perm in Hp. apply list_elem_of_fmap in Hp as ([n q] & -> & Hq).
    apply elem_of_map_to_list in Hq. destruct (H1 _ _ Hq) as [Hq'|[? _]]; [|done].
    by rewrite lookup_empty in Hq'.
  - intros p Hp. destruct (H3 p Hp) as [q Hq]. rewrite sort_by_perm.
    rewrite (Hkey _ _ Hq). apply list_elem_of_fmap_2, list_elem_of_fmap.
    exists (ip_Name p, q). split; [done|]. by apply elem_of_map_to_list.
Qed.

(** ** A concrete network *)

#[local] Existing Instance plain_selectors.

Definition resolver_peer (n app : string) : InfraPeer := {|
  ip_Name := n; ip_InterfaceName := ""; ip_Platform := "linux"; ip_Description := "";
  ip_NetworkId := ""; ip_CreatedBy := ""; ip_UserId := 0; ip_Hostname := ""; ip_AppID := n;
  ip_Address := Some n; ip_Endpoint := ""; ip_Remove := false; ip_PresharedKey := "";
  ip_PersistentKeepalive := 0; ip_PrivateKey := ""; ip_PublicKey := ""; ip_PeerID := 0;
  ip_AllowedIPs := ""; ip_ReplacePeers := false; ip_Port := 0; ip_GroupName := "";
  ip_Version := 0; ip_LastUpdatedAt := ""; ip_Token := ""; ip_WrrpUrl := "";
  ip_Labels := {[ "app" := app ]} |}.
Definition resolver_network : InfraNetwork := {|
  in_Address := ""; in_AllowedIps := []; in_Port := 0; in_NetworkId := "net"; in_NetworkName := "net";
  in_Peers := [resolver_peer "a" "web"; resolver_peer "c" "db"; resolver_peer "b" "db"] |}.
Definition app_selector (app : string) : LabelSelector :=
  {| MatchLabels := {[ "app" := app ]}; MatchExpressions := [] |}.
Definition resolver_policy : LatticePolicy := {|
  pol_meta := new_meta "ws" "p";
  pol_Spec := {| pol_Network := "net"; pol_PeerSelector := app_selector "web"; pol_Ingress := [];
    pol_Egress := [{| eg_To := [{| sel_PeerSelector := Some (app_selector "db"); sel_IPBlock := None |}];
                      eg_Ports := [] |}]; pol_Action := "ALLOW" |};
  pol_Status := {| pol_TargetNodes := 0; pol_RuleCount := 0 |} |}.

Lemma GetComputedPeers_selects_witness :
  option_map (map ip_Name) (GetComputedPeers (resolver_peer "a" "web") resolver_network [resolver_policy]) =
    Some ["b"; "c"] /\
  exists l, (forall r : MapRange,
      GetComputedPeers (resolver_peer "a" "web") resolver_network [resolver_policy] = Some l) /\
    sorted_by_name l.
Proof.
  split; [vm_compute; reflexivity|].
  destruct (GetComputedPeers_selects (resolver_peer "a" "web") resolver_network [resolver_policy])
    as (l & H1 & H2 & _).
  - constructor; [|constructor]. split; [by eexists|]. constructor; [by eexists|constructor].
  - by exists l.
Defined.
