(* ===== verification/Generator.v ===== *)
(** * Generator: an agent's configuration message
    ([internal/agent/controller/detector.go], [Generator])

    The policies of a snapshot are resolved against the peers of the cluster,
    and the message carries the network's peers, the peers to connect to and the
    firewall rules. *)

From S2P Require Import Prelude Prog Api Message ControllerUtils PolicyEvaluator PeerResolver.

Record PeerStateSnapshot := {
  snap_Peer : LatticePeer;
  snap_Network : option LatticeNetwork;
  snap_Policies : list LatticePolicy;
  snap_Peers : list LatticePeer;
  snap_Labels : labels;
}.

(** An [int64]. *)
Definition i64 (z : Z) : Z := (z + 2 ^ 63) mod 2 ^ 64 - 2 ^ 63.

(** The version counter, under its mutex: the version and the new counter. *)
Definition generateConfigVersion (versionCounter : Z) : string * Z :=
  let c := i64 (versionCounter + 1) in ("v" +:+ pretty c, c).

Definition extractCIDRs (rules : list PeerSelection) : list string :=
  omap (λ r, match sel_IPBlock r with
             | Some b => if bool_decide (ipb_CIDR b = "") then None else Some (ipb_CIDR b)
             | None => None
             end) rules.

Section generator.
Context `{LabelSelectors, MapRange}.

Definition network_list_options (namespace networkName : string) (selector : LabelSelector) : ListOptions := {|
  list_Namespace := Some namespace;
  list_Selector := Some selector;
  list_Labels := if bool_decide (networkName = "") then ∅ else {[ networkLabelKey networkName := "true" ]} |}.

(** The loop over the selections; [found] maps UIDs to names.  The selector
    printed in the error texts is left out. *)
Fixpoint find_peer_names (namespace networkName : string) (rules : list PeerSelection) (found : labels) :
    kprog (gresult labels) :=
  match rules with
  | [] => mret (inr found)
  | rule :: rules =>
      match sel_PeerSelector rule with
      | None => find_peer_names namespace networkName rules found
      | Some sel =>
          match LabelSelectorAsSelector (Some sel) with
          | inl err => mret (inl (ErrWrap "failed to parse label selector" err))
          | inr _ =>
              nodeList ← call (AList KPeer (network_list_options namespace networkName sel));
              match nodeList with
              | inl err => mret (inl (ErrWrap "failed to list nodes with selector" err))
              | inr nodes =>
                  find_peer_names namespace networkName rules
                    (foldl (λ m node, <[UID (peer_meta node) := Name (peer_meta node)]> m) found nodes)
              end
          end
      end
  end.

Definition getPeerNamesByLabels (namespace networkName : string) (rules : list PeerSelection) :
    kprog (gresult (list string)) :=
  found ←? find_peer_names namespace networkName rules ∅;
  mret (inr (sort_by id (go_range found).*2)).

(** The rules of one policy rule: one per port, or one for all ports. *)
Definition expand_rule (names cidrs : list string) (ports : list NetworkPolicyPort) (action : string) :
    list InfraRule :=
  match ports with
  | [] => [{| r_PeerNames := names; r_CIDRs := cidrs; r_Protocol := ""; r_Port := 0; r_Action := action |}]
  | _ => (λ port, {| r_PeerNames := names; r_CIDRs := cidrs; r_Protocol := npp_Protocol port;
                     r_Port := npp_Port port; r_Action := action |}) <$> ports
  end.

(** The loop over the ingress (or egress) rules: a rule whose peers cannot be
    listed is skipped. *)
Fixpoint build_rules (src : LatticePolicy) (action : string)
    (rules : list (list PeerSelection * list NetworkPolicyPort)) : kprog (list (option InfraRule)) :=
  match rules with
  | [] => mret []
  | (selections, ports) :: rules =>
      names ← getPeerNamesByLabels (Namespace (pol_meta src)) (pol_Network (pol_Spec src)) selections;
      match names with
      | inl _ => build_rules src action rules
      | inr names =>
          rest ← build_rules src action rules;
          mret ((Some <$> expand_rule names (extractCIDRs selections) ports action) ++ rest)
      end
  end.

Definition policy_action (src : LatticePolicy) : string :=
  let action := pol_Action (pol_Spec src) in
  if bool_decide (action = "") then "ALLOW" else action.

Definition buildPolicy (src : LatticePolicy) : kprog InfraPolicy :=
  let action := policy_action src in
  ingresses ← build_rules src action ((λ i, (ing_From i, ing_Ports i)) <$> pol_Ingress (pol_Spec src));
  egresses ← build_rules src action ((λ e, (eg_To e, eg_Ports e)) <$> pol_Egress (pol_Spec src));
  mret {| ipol_PolicyName := Name (pol_meta src); ipol_Action := action;
          ipol_Ingress := ingresses; ipol_Egress := egresses |}.

Fixpoint build_policies (policies : list LatticePolicy) : kprog (list (option InfraPolicy)) :=
  match policies with
  | [] => mret []
  | p :: policies =>
      q ← buildPolicy p;
      rest ← build_policies policies;
      mret (Some q :: rest)
  end.

Definition peer_with_labels (p : InfraPeer) (l : labels) : InfraPeer := {|
  ip_Name := ip_Name p; ip_InterfaceName := ip_InterfaceName p; ip_Platform := ip_Platform p;
  ip_Description := ip_Description p; ip_NetworkId := ip_NetworkId p; ip_CreatedBy := ip_CreatedBy p;
  ip_UserId := ip_UserId p; ip_Hostname := ip_Hostname p; ip_AppID := ip_AppID p;
  ip_Address := ip_Address p; ip_Endpoint := ip_Endpoint p; ip_Remove := ip_Remove p;
  ip_PresharedKey := ip_PresharedKey p; ip_PersistentKeepalive := ip_PersistentKeepalive p;
  ip_PrivateKey := ip_PrivateKey p; ip_PublicKey := ip_PublicKey p; ip_PeerID := ip_PeerID p;
  ip_AllowedIPs := ip_AllowedIPs p; ip_ReplacePeers := ip_ReplacePeers p; ip_Port := ip_Port p;
  ip_GroupName := ip_GroupName p; ip_Version := ip_Version p; ip_LastUpdatedAt := ip_LastUpdatedAt p;
  ip_Token := ip_Token p; ip_WrrpUrl := ip_WrrpUrl p; ip_Labels := l |}.

(** The network section: the peers that have an address, sorted by name. *)
Definition snapshot_network (snapshot : PeerStateSnapshot) : InfraNetwork :=
  match snap_Network snapshot with
  | None =>
      {| in_Address := ""; in_AllowedIps := []; in_Port := 0; in_NetworkId := ""; in_NetworkName := "";
         in_Peers := [] |}
  | Some net =>
      {| in_Address := ""; in_AllowedIps := []; in_Port := 0;
         in_NetworkId := Name (net_meta net); in_NetworkName := netspec_Name (net_Spec net);
         in_Peers := sort_by ip_Name (transferToPeer <$>
           filter (λ p, AllocatedAddress (peer_Status p) <> None) (snap_Peers snapshot)) |}
  end.

Definition generate (current : LatticePeer) (snapshot : PeerStateSnapshot) (version : string) :
    kprog (gresult Message) :=
  now ← call ANow;
  let cur := peer_with_labels (transferToPeer current) (snap_Labels snapshot) in
  let network := snapshot_network snapshot in
  match ResolvePeers cur network (snap_Policies snapshot) with
  | None => Panic
  | Some (inl err) => mret (inl err)
  | Some (inr computed) =>
      policies ← build_policies (snap_Policies snapshot);
      match Evaluate (Some cur) (Some network) policies with
      | inl err => mret (inl err)
      | inr rules =>
          mret (inr {| m_EventType := EventTypeNodeUpdate; m_ConfigVersion := version;
            m_Timestamp := now; m_Changes := None; m_Current := Some cur; m_Network := Some network;
            m_Policies := policies; m_ComputedPeers := computed; m_ComputedRules := Some rules;
            m_Labels := ∅ |})
      end
  end.
End generator.

(** ** Correctness *)

(** *** What a message should say

    [ask]: what the cluster answers when peers are listed. *)
Section promised.
Context `{LabelSelectors} (ask : ListOptions -> gresult (list LatticePeer)).

(** The node is listed by a selector of the selections. *)
Definition listed (ns net : string) (sels : list PeerSelection) (node : LatticePeer) : Prop :=
  exists sel s nodes, sel ∈ sels /\ sel_PeerSelector sel = Some s /\
    ask (network_list_options ns net s) = inr nodes /\ node ∈ nodes.

(** Every selector parses and can be listed. *)
Definition readable (ns net : string) (sels : list PeerSelection) : Prop :=
  forall sel s, sel ∈ sels -> sel_PeerSelector sel = Some s ->
    valid_selector (Some s) /\ exists nodes, ask (network_list_options ns net s) = inr nodes.

(** Sorted, the name of one listed node per identifier. *)
Definition names_of (ns net : string) (sels : list PeerSelection) (names : list string) : Prop :=
  StronglySorted String.le names /\
  exists found : list (string * string), names ≡ₚ found.*2 /\ NoDup found.*1 /\
    (forall u n, (u, n) ∈ found -> exists node, listed ns net sels node /\ UID (peer_meta node) = u /\ Name (peer_meta node) = n) /\
    (forall node, listed ns net sels node -> UID (peer_meta node) ∈ found.*1).

(** One rule per port, or one for every port, with the names, the CIDRs and the action. *)
Definition rules_for_ports (names : list string) (sels : list PeerSelection) (ports : list NetworkPolicyPort)
    (action : string) (rules : list (option InfraRule)) : Prop :=
  length rules = Nat.max 1 (length ports) /\
  forall i, (i < length rules)%nat -> exists r, rules !! i = Some (Some r) /\ r_PeerNames r = names /\ r_Action r = action /\
    (forall c, c ∈ r_CIDRs r <-> c <> "" /\ exists sel b, sel ∈ sels /\ sel_IPBlock sel = Some b /\ ipb_CIDR b = c) /\
    r_Protocol r = default "" (npp_Protocol <$> ports !! i) /\ r_Port r = default 0 (npp_Port <$> ports !! i).

(** The rules of a policy's rules in their order; one whose peers cannot be listed has none. *)
Inductive rules_of (src : LatticePolicy) (action : string) :
    list (list PeerSelection * list NetworkPolicyPort) -> list (option InfraRule) -> Prop :=
| rules_of_nil : rules_of src action [] []
| rules_of_skip sels ports rest out :
    ~ readable (Namespace (pol_meta src)) (pol_Network (pol_Spec src)) sels ->
    rules_of src action rest out -> rules_of src action ((sels, ports) :: rest) out
| rules_of_take sels ports rest out names rules :
    readable (Namespace (pol_meta src)) (pol_Network (pol_Spec src)) sels ->
    names_of (Namespace (pol_meta src)) (pol_Network (pol_Spec src)) sels names ->
    rules_for_ports names sels ports action rules ->
    rules_of src action rest out -> rules_of src action ((sels, ports) :: rest) (rules ++ out).

Definition policy_built (p : LatticePolicy) (q : option InfraPolicy) : Prop :=
  exists q' action, q = Some q' /\ ipol_PolicyName q' = Name (pol_meta p) /\ ipol_Action q' = action /\
    (pol_Action (pol_Spec p) = "" -> action = "ALLOW") /\ (pol_Action (pol_Spec p) <> "" -> action = pol_Action (pol_Spec p)) /\
    rules_of p action ((λ i, (ing_From i, ing_Ports i)) <$> pol_Ingress (pol_Spec p)) (ipol_Ingress q') /\
    rules_of p action ((λ e, (eg_To e, eg_Ports e)) <$> pol_Egress (pol_Spec p)) (ipol_Egress q').
End promised.

(** The cluster answers anything, and the listing of peers by [ask]. *)
Definition peer_lists (ask : ListOptions -> gresult (list LatticePeer)) T (e : apiE T) (r : T) : Prop :=
  api_answers T e r /\
  match e in apiE T return T -> Prop with
  | AList k opts => match k return gresult (list (obj k)) -> Prop with KPeer => λ r, r = ask opts | _ => λ _, True end
  | _ => λ _, True
  end r.

Definition add_nodes (found : labels) (nodes : list LatticePeer) : labels :=
  foldl (λ m node, <[UID (peer_meta node) := Name (peer_meta node)]> m) found nodes.
Lemma add_nodes_lookup nodes : forall found u,
  (forall n, add_nodes found nodes !! u = Some n ->
     found !! u = Some n \/ exists node, node ∈ nodes /\ UID (peer_meta node) = u /\ Name (peer_meta node) = n) /\
  (is_Some (add_nodes found nodes !! u) <-> is_Some (found !! u) \/ exists node, node ∈ nodes /\ UID (peer_meta node) = u).
Proof.
  induction nodes as [|x nodes IH]; intros found u; simpl.
  - split; [by left|]. set_solver.
  - destruct (IH (<[UID (peer_meta x) := Name (peer_meta x)]> found) u) as [H1 H2]. split.
    + intros n [[[E1 E2]|[_ E]]%lookup_insert_Some|(y & Hy & E)]%H1; [right; exists x; set_solver|by left|right; exists y; set_solver].
    + rewrite H2, lookup_insert_is_Some. setoid_rewrite elem_of_cons. split.
      * intros [[E|[_ E]]|(y & ? & ?)]; [right; eauto|by left|right; eauto].
      * intros [E|(y & [->|?] & E)]; [|by left; left|right; eauto].
        left. destruct (decide (UID (peer_meta x) = u)); [by left|by right].
Qed.

Lemma elem_of_extractCIDRs sels c :
  c ∈ extractCIDRs sels <-> c <> "" /\ exists sel b, sel ∈ sels /\ sel_IPBlock sel = Some b /\ ipb_CIDR b = c.
Proof.
  unfold extractCIDRs. rewrite list_elem_of_omap. split.
  - intros (sel & Hs & E). destruct (sel_IPBlock sel) as [b|] eqn:Eb; [|done].
    case_bool_decide; [done|]. injection E as <-. eauto 6.
  - intros (Hc & sel & b & Hs & Eb & <-). exists sel. by rewrite Eb, bool_decide_false.
Qed.

Lemma expand_rule_spec names sels ports action :
  rules_for_ports names sels ports action (Some <$> expand_rule names (extractCIDRs sels) ports action).
Proof.
  unfold rules_for_ports, expand_rule. destruct ports as [|p ports].
  - split; [done|]. intros [|i]; [|simpl; lia]. intros _. eexists. split_and!; try reflexivity. apply elem_of_extractCIDRs.
  - set (l := p :: ports). rewrite !length_fmap. split; [simpl; lia|]. intros i Hi.
    rewrite !list_lookup_fmap. destruct (lookup_lt_is_Some_2 l i Hi) as [q Eq]. rewrite Eq. simpl.
    eexists. split_and!; try reflexivity. apply elem_of_extractCIDRs.
Qed.

Section facts.
Context `{LabelSelectors, MapRange} (ask : ListOptions -> gresult (list LatticePeer)) (R : forall T, apiE T -> T -> Prop).
(** Listing is the only call. *)
Context (G : forall T, apiE T -> Prop) (HG : forall k opts, G _ (AList k opts)).
Context (HR : forall opts r, R _ (AList KPeer opts) r -> r = ask opts).

(** What the loop adds to [found]. *)
Lemma find_peer_names_spec ns net rules : forall found,
  wp R G (find_peer_names ns net rules found) (λ r,
    match r with
    | inl _ => ~ readable ask ns net rules
    | inr m => readable ask ns net rules /\ forall u,
        (forall n, m !! u = Some n -> found !! u = Some n \/
           exists node, listed ask ns net rules node /\ UID (peer_meta node) = u /\ Name (peer_meta node) = n) /\
        (is_Some (m !! u) <-> is_Some (found !! u) \/ exists node, listed ask ns net rules node /\ UID (peer_meta node) = u)
    end).
Proof using All.
  induction rules as [|rule rules IH]; intros found; simpl.
  { split; [intros sel s Hs; set_solver|]. intros u. split; [by left|].
    split; [by left|]. intros [?|(node & (sel & s & l & Hs & _) & _)]; [done|set_solver]. }
  destruct (sel_PeerSelector rule) as [sel|] eqn:Es.
  2: { eapply wp_mono; [apply IH|].
    assert (Hl : forall node, listed ask ns net (rule :: rules) node <-> listed ask ns net rules node).
    { intros node. unfold listed. split; intros (x & s & l & Hx & E & ?); exists x, s, l; [|set_solver].
      apply elem_of_cons in Hx as [->|Hx]; [congruence|done]. }
    assert (Hr : readable ask ns net (rule :: rules) <-> readable ask ns net rules).
    { unfold readable. split; intros Hr x s Hx E; [apply (Hr x); set_solver|].
      apply elem_of_cons in Hx as [->|Hx]; [congruence|by apply (Hr x)]. }
    intros [err|m]; [by rewrite Hr|]. intros [H1 H2]. split; [by apply Hr|]. intros u. setoid_rewrite Hl. apply H2. }
  destruct (LabelSelectorAsSelector (Some sel)) as [err|f] eqn:Ef.
  { intros Hr. destruct (Hr rule sel) as [[g Hg] _]; [by left|done|congruence]. }
  split; [exact (HG KPeer _)|]. intros r ->%HR.
  destruct (ask (network_list_options ns net sel)) as [err|nodes] eqn:Ea.
  { intros Hr. destruct (Hr rule sel) as [_ [nodes Hn]]; [by left|done|congruence]. }
  eapply wp_mono; [apply IH|].
  assert (Hl : forall node, listed ask ns net (rule :: rules) node <-> node ∈ nodes \/ listed ask ns net rules node).
  { intros node. unfold listed. split.
    - intros (x & s & l & Hx & E & El & Hn). apply elem_of_cons in Hx as [->|Hx]; [|right; eauto 8].
      left. rewrite Es in E. injection E as <-. rewrite Ea in El. by injection El as <-.
    - intros [Hn|(x & s & l & Hx & E)]; [|exists x, s, l; set_solver].
      exists rule, sel, nodes. split_and!; [by left|done..]. }
  assert (Hr : readable ask ns net (rule :: rules) <-> readable ask ns net rules).
  { unfold readable. split; intros Hr x s Hx E; [apply (Hr x); set_solver|].
    apply elem_of_cons in Hx as [->|Hx]; [|by apply (Hr x)]. rewrite Es in E. injection E as <-. split; [by eexists|eauto]. }
  intros [err|m]; [by rewrite Hr|]. intros [H1 H2]. split; [by apply Hr|]. intros u.
  fold (add_nodes found nodes) in H2. destruct (H2 u) as [A1 A2], (add_nodes_lookup nodes found u) as [B1 B2]. split.
  - intros n [[?|(y & Hy & E)]%B1|(y & Hy & E)]%A1; [by left|right; exists y; rewrite Hl; tauto..].
  - rewrite A2, B2. setoid_rewrite Hl. split.
    + intros [[?|(y & ? & ?)]|(y & ? & ?)]; [by left|right; eauto..].
    + intros [?|(y & [?|?] & ?)]; [by left; left|left; right; eauto|right; eauto].
Qed.

Lemma getPeerNamesByLabels_spec ns net rules :
  wp R G (getPeerNamesByLabels ns net rules) (λ r,
    match r with inl _ => ~ readable ask ns net rules | inr names => readable ask ns net rules /\ names_of ask ns net rules names end).
Proof using All.
  wp_use find_peer_names_spec. intros [err|m] Hm; [done|]. destruct Hm as [Hr Hm]. cbn. split; [done|].
  split; [apply sort_by_sorted|]. exists (go_range m). split_and!.
  - apply sort_by_perm.
  - rewrite go_range_perm. apply NoDup_fst_map_to_list.
  - intros u n Hu. rewrite elem_of_go_range in Hu. destruct (Hm u) as [H1 _]. destruct (H1 n Hu) as [E|E]; [|done].
    by rewrite lookup_empty in E.
  - intros node Hn. destruct (Hm (UID (peer_meta node))) as [_ [_ H2]].
    destruct H2 as [n Hn']; [right; eauto|]. apply list_elem_of_fmap. exists (UID (peer_meta node), n).
    by rewrite elem_of_go_range.
Qed.

Lemma build_rules_spec src action rules :
  wp R G (build_rules src action rules) (rules_of ask src action rules).
Proof using All.
  induction rules as [|[sels ports] rules IH]; simpl; [constructor|].
  wp_use getPeerNamesByLabels_spec. intros [e|names] Hn.
  - eapply wp_mono; [exact IH|]. intros out Hout. by constructor.
  - destruct Hn. apply wp_bind. eapply wp_mono; [exact IH|]. intros out Hout.
    econstructor; [done|done|apply expand_rule_spec|done].
Qed.

Lemma buildPolicy_spec p : wp R G (buildPolicy p) (λ q, policy_built ask p (Some q)).
Proof using All.
  wp_use build_rules_spec. intros ins Hin.
  wp_use build_rules_spec. intros outs Hout.
  exists {| ipol_PolicyName := Name (pol_meta p); ipol_Action := policy_action p; ipol_Ingress := ins; ipol_Egress := outs |}, (policy_action p).
  unfold policy_action in *. split_and!; try done; intros E; [by rewrite E|by rewrite bool_decide_false].
Qed.

Lemma build_policies_spec policies :
  wp R G (build_policies policies) (Forall2 (policy_built ask) policies).
Proof using All.
  induction policies as [|p policies IH]; simpl; [constructor|].
  wp_use buildPolicy_spec. intros q Hq.
  apply wp_bind. eapply wp_mono; [exact IH|]. intros rest Hrest. by constructor.
Qed.
End facts.

(** Whatever the answers, the policies are built by reading only. *)
Section reads.
Context `{LabelSelectors, MapRange} (R : forall T, apiE T -> T -> Prop).
Context (G : forall T, apiE T -> Prop) (HG : forall k opts, G _ (AList k opts)).

Lemma find_peer_names_reads ns net rules : forall found, wp R G (find_peer_names ns net rules found) (λ _, True).
Proof using All.
  induction rules as [|rule rules IH]; intros found; simpl; [done|].
  destruct (sel_PeerSelector rule) as [sel|]; [|apply IH].
  destruct (LabelSelectorAsSelector (Some sel)); [done|].
  split; [exact (HG KPeer _)|]. intros [e|nodes] _; [done|apply IH].
Qed.
Lemma build_rules_reads src action rules : wp R G (build_rules src action rules) (λ _, True).
Proof using All.
  induction rules as [|[sels ports] rules IH]; simpl; [done|]. unfold getPeerNamesByLabels.
  apply wp_bind. wp_use find_peer_names_reads. intros [e|found] _; [exact IH|]. cbn.
  apply wp_bind. eapply wp_mono; [exact IH|]. done.
Qed.
Lemma build_policies_reads policies : wp R G (build_policies policies) (λ _, True).
Proof using All.
  induction policies as [|p policies IH]; simpl; [done|]. unfold buildPolicy.
  wp_use build_rules_reads. intros ins _. wp_use build_rules_reads. intros outs _. cbn.
  apply wp_bind. eapply wp_mono; [exact IH|]. done.
Qed.
Context (HN : G _ ANow).
Lemma generate_reads current snapshot version : Forall valid_policy (snap_Policies snapshot) ->
  wp R G (generate current snapshot version) (λ r, exists msg, r = inr msg).
Proof using All.
  intros Hv. unfold generate. split; [done|]. intros now _. cbv zeta. set (cur := peer_with_labels _ _).
  destruct (GetComputedPeers_selects cur (snapshot_network snapshot) _ Hv) as (l & Hl & _).
  unfold ResolvePeers. rewrite (Hl _). simpl mbind. cbv beta iota.
  wp_use build_policies_reads. intros policies _. by eexists.
Qed.
End reads.

(** The network section: nothing without a network, else its names and its peers that have
    an address, sorted by name. *)
Definition network_section `{MapRange} (snapshot : PeerStateSnapshot) (net : InfraNetwork) : Prop :=
  match snap_Network snapshot with
  | None => in_NetworkId net = "" /\ in_NetworkName net = "" /\ in_Peers net = []
  | Some n =>
      in_NetworkId net = Name (net_meta n) /\ in_NetworkName net = netspec_Name (net_Spec n) /\
      StronglySorted (key_le ip_Name) (in_Peers net) /\
      in_Peers net ≡ₚ (transferToPeer <$> filter (λ p, is_Some (AllocatedAddress (peer_Status p))) (snap_Peers snapshot))
  end.

Lemma snapshot_network_section `{MapRange} snapshot : network_section snapshot (snapshot_network snapshot).
Proof.
  unfold network_section, snapshot_network. destruct (snap_Network snapshot); [|done].
  split_and!; try done; [apply sort_by_sorted|]. simpl. rewrite sort_by_perm.
  replace (filter (λ p, AllocatedAddress (peer_Status p) <> None) (snap_Peers snapshot))
    with (filter (λ p, is_Some (AllocatedAddress (peer_Status p))) (snap_Peers snapshot)); [done|].
  apply list_filter_iff. intros p. symmetry. apply not_eq_None_Some.
Qed.

(** What a correct message says of a peer with this snapshot. *)
Definition message_for `{LabelSelectors, MapRange} (ask : ListOptions -> gresult (list LatticePeer))
    (current : LatticePeer) (snapshot : PeerStateSnapshot) (version : string) (msg : Message) : Prop :=
  exists cur net fw,
    m_Current msg = Some cur /\ m_Network msg = Some net /\ m_ComputedRules msg = Some fw /\
    m_EventType msg = EventTypeNodeUpdate /\ m_ConfigVersion msg = version /\ m_Changes msg = None /\
    (* the peer itself *)
    ip_Name cur = Name (peer_meta current) /\ ip_AppID cur = AppId (peer_Spec current) /\
    ip_PublicKey cur = PublicKey (peer_Spec current) /\ ip_Address cur = AllocatedAddress (peer_Status current) /\
    ip_PrivateKey cur = "" /\ ip_Labels cur = snap_Labels snapshot /\
    (* the network's peers *)
    network_section snapshot net /\
    (* the peers to connect to *)
    sorted_by_name (m_ComputedPeers msg) /\
    (forall p, p ∈ m_ComputedPeers msg -> selected cur (in_Peers net) (snap_Policies snapshot) p) /\
    (forall p, selected cur (in_Peers net) (snap_Policies snapshot) p ->
      ip_Name p ∈ ip_Name <$> m_ComputedPeers msg) /\
    (* the policies, and the firewall rules made of them *)
    Forall2 (policy_built ask) (snap_Policies snapshot) (m_Policies msg) /\
    Evaluate (Some cur) (Some net) (m_Policies msg) = inr fw.


(** A selector that does not parse, of a policy that applies or for a peer of the network,
    is a panic. *)
Lemma bad_selector_panics `{LabelSelectors, MapRange} (h : forall T, apiE T -> unit -> T -> unit -> Prop)
    current snapshot version policy rest err r s s' :
  snap_Policies snapshot = policy :: rest ->
  LabelSelectorAsSelector (Some (pol_PeerSelector (pol_Spec policy))) = inl err ->
  ~ runs h (generate current snapshot version) s r s'.
Proof.
  intros E Ef Hr. unfold generate in Hr. apply runs_bind_inv in Hr as (now & s1 & _ & Hr). cbv zeta in Hr.
  unfold ResolvePeers, GetComputedPeers in Hr. rewrite E in Hr. simpl in Hr. unfold matchLabels in Hr. rewrite Ef in Hr.
  simpl in Hr. by inversion Hr.
Qed.

Definition gen_peer (uid name app : string) (address : option string) : LatticePeer := {|
  peer_meta := {| Name := name; Namespace := "ws"; UID := uid; ResourceVersion := ""; Generation := 0; DeletionTimestamp := None;
    Finalizers := []; Labels := {[ "app" := app ]}; Annotations := ∅; OwnerReferences := [] |};
  peer_Spec := {| AppId := name; InterfaceName := "wg0"; Platform := "linux"; PrivateKey := "k";
    PublicKey := "K"; AllowedIPs := []; DNSServers := []; MTU := 0; PeerId := "7";
    Network := Some "net"; NetworkPolicies := []; WrrpUrl := ""; WrrpQuicUrl := "" |};
  peer_Status := {| Conditions := []; PeerStatus := ""; Phase := NodePhaseReady; ActiveKey := "";
    ActiveNetwork := Some "net"; ActiveNetworkPolicies := []; AllocatedAddress := address;
    ConnSummary := {| cs_Total := 0; cs_Connected := 0; cs_Disconnected := 0 |}; LastSyncTime := None;
    CurrentHash := ""; ObservedGeneration := 0 |} |}.
Definition gen_network : LatticeNetwork := {|
  net_meta := new_meta "ws" "net";
  net_Spec := {| netspec_Name := "net"; netspec_NetworkId := ""; netspec_Owner := ""; netspec_CIDR := ""; netspec_Mtu := 1420;
    netspec_Dns := {| dns_Enabled := false; dns_Servers := [] |}; netspec_PeerSelector := ∅; netspec_Policies := [] |};
  net_Status := {| net_Phase := NetworkPhaseReady; net_Conditions := []; net_ActiveCIDR := "10.0.0.0/24";
    net_AllocatedCount := 0; net_AvailableIPs := 0; net_ObservedGeneration := 0 |} |}.
Definition gen_snapshot : PeerStateSnapshot := {|
  snap_Peer := gen_peer "1" "a" "web" (Some "10.0.0.1"); snap_Network := Some gen_network; snap_Policies := [resolver_policy];
  snap_Peers := [gen_peer "3" "c" "db" None; gen_peer "2" "b" "db" (Some "10.0.0.2"); gen_peer "1" "a" "web" (Some "10.0.0.1")];
  snap_Labels := {[ "app" := "web" ]} |}.
(** The cluster lists the peers of the snapshot that the selector accepts. *)
Definition gen_ask (opts : ListOptions) : gresult (list LatticePeer) :=
  match @LabelSelectorAsSelector plain_selectors (list_Selector opts) with
  | inl err => inl err
  | inr f => inr (filter (λ p, f (Labels (peer_meta p)) = true) (snap_Peers gen_snapshot))
  end.
Definition gen_answers T (e : apiE T) (s : unit) : T * unit :=
  (match e in apiE T return T with
   | AGet _ _ | ACreate _ _ | AUpdate _ _ | APatch _ _ _ | AStatusPatch _ _ _ | AStatusUpdate _ _ | AApply _ _
   | AGenerateKey => inl (ErrStatus NotFound "not found")
   | ADelete _ _ => inr tt
   | AList k opts => match k return gresult (list (obj k)) with KPeer => gen_ask opts | _ => inr [] end
   | ASetControllerReference _ m => inr m
   | ANow => 0
   | AEvent _ _ _ => tt
   end, s).
Definition gen_view (m : Message) : list string * list string * list (list string) :=
  (default [] (fmap ip_Name <$> (in_Peers <$> m_Network m)), ip_Name <$> m_ComputedPeers m,
   omap (λ r, r_PeerNames <$> r) (mjoin (ipol_Egress <$> omap id (m_Policies m)))).

