(* ===== verification/Infra.v ===== *)
(** * Infra: peer identities, the peer table and relay addresses
    ([internal/agent/infra/peer.go], [internal/agent/infra/wrrp.go]) *)

From S2P Require Import Prelude Net Api Message.

(** [wgtypes.ParseKey], of the WireGuard library: 32 bytes or an error. *)
Class WireGuardKeys := {
  ParseKey : string -> option (list Z);
  ParseKey_length s k : ParseKey s = Some k -> length k = 32%nat;
  ParseKey_byte s k : ParseKey s = Some k -> Forall is_byte k;
}.

(** ** Peer identifiers *)

(** [PeerID] is an array of eight bytes. *)
Abbreviation PeerID := (list Z).

Definition FromKey (key : list Z) : PeerID := take 8 key.
Definition ToUint64 (p : PeerID) : Z := be_value p.
Definition FromUint64 (id : Z) : PeerID := be_bytes 8 id.
Definition PeerID_String (id : PeerID) : string := pretty (ToUint64 id).

Record PeerIdentity := { pi_AppID : string; pi_PublicKey : list Z }.
Definition NewPeerIdentity (appId : string) (pubKey : list Z) : PeerIdentity :=
  {| pi_AppID := appId; pi_PublicKey := pubKey |}.
Definition PeerIdentity_ID (p : PeerIdentity) : PeerID := FromKey (pi_PublicKey p).
Definition PeerIdentity_String (p : PeerIdentity) : string := PeerID_String (PeerIdentity_ID p).

Lemma FromUint64_ToUint64 p :
  length p = 8%nat -> Forall is_byte p -> FromUint64 (ToUint64 p) = p.
Proof. intros Hl Hb. unfold FromUint64, ToUint64. rewrite <- Hl. by apply be_bytes_value. Qed.

Lemma ToUint64_FromUint64 z : 0 <= z < 2 ^ 64 -> ToUint64 (FromUint64 z) = z.
Proof. intros Hz. unfold FromUint64, ToUint64. rewrite be_value_bytes. by apply Z.mod_small. Qed.

(** ** The peer table *)

Module PeerManager.

Section manager.
Context `{WireGuardKeys}.

Record PeerManager := {
  peers : gmap string InfraPeer;
  byID : gmap PeerID InfraPeer;
}.

Definition NewPeerManager : PeerManager := {| peers := ∅; byID := ∅ |}.

(** The identifier under which a peer is indexed. *)
Definition peer_id (peer : InfraPeer) : option PeerID :=
  if bool_decide (ip_PublicKey peer = "") then None else FromKey <$> ParseKey (ip_PublicKey peer).

Definition AddPeer (p : PeerManager) (appId : string) (peer : InfraPeer) : PeerManager := {|
  peers := <[appId := peer]> (peers p);
  byID := match peer_id peer with
          | Some id => <[id := peer]> (byID p)
          | None => byID p
          end |}.

Definition RemovePeer (p : PeerManager) (appId : string) : PeerManager := {|
  byID := match peers p !! appId ≫= peer_id with
          | Some id => delete id (byID p)
          | None => byID p
          end;
  peers := delete appId (peers p) |}.

Definition GetPeer (p : PeerManager) (appId : string) : option InfraPeer := peers p !! appId.
Definition GetByPeerID (p : PeerManager) (peerID : PeerID) : option InfraPeer := byID p !! peerID.
Definition GetAll `{MapRange} (p : PeerManager) : list InfraPeer := (go_range (peers p)).*2.

Definition GetIdentity (p : PeerManager) (peerID : PeerID) : option PeerIdentity :=
  match byID p !! peerID with
  | None => None
  | Some peer =>
      if bool_decide (ip_PublicKey peer = "") then None
      else key ← ParseKey (ip_PublicKey peer); Some (NewPeerIdentity (ip_AppID peer) key)
  end.

(** *** The two indexes *)

(** The secondary index holds exactly the peers of the primary one that have an
    identifier, and no two of them share it. *)
Definition in_sync (p : PeerManager) : Prop :=
  (forall id peer, byID p !! id = Some peer <->
    exists appId, peers p !! appId = Some peer /\ peer_id peer = Some id) /\
  (forall a1 a2 q1 q2 id, peers p !! a1 = Some q1 -> peers p !! a2 = Some q2 ->
    peer_id q1 = Some id -> peer_id q2 = Some id -> a1 = a2).

Inductive pm_op := OpAdd (appId : string) (peer : InfraPeer) | OpRemove (appId : string).

Definition pm_step (p : PeerManager) (o : pm_op) : PeerManager :=
  match o with OpAdd a q => AddPeer p a q | OpRemove a => RemovePeer p a end.

(** Peers keep their key, and different peers have different identifiers. *)
Definition op_ok (p : PeerManager) (o : pm_op) : Prop :=
  match o with
  | OpRemove _ => True
  | OpAdd a q =>
      (forall q', peers p !! a = Some q' -> peer_id q' = None \/ peer_id q' = peer_id q) /\
      (forall a' q' id, peers p !! a' = Some q' -> a' <> a -> peer_id q = Some id -> peer_id q' <> Some id)
  end.

Fixpoint ops_ok (p : PeerManager) (os : list pm_op) : Prop :=
  match os with
  | [] => True
  | o :: os => op_ok p o /\ ops_ok (pm_step p o) os
  end.

Lemma in_sync_empty : in_sync NewPeerManager.
Proof.
  split; simpl.
  - intros id q. rewrite lookup_empty. split; [done|]. intros (a & Ha & _). by rewrite lookup_empty in Ha.
  - intros a1 a2 q1 q2 id Ha. by rewrite lookup_empty in Ha.
Qed.

Lemma unique_add p a q : in_sync p -> op_ok p (OpAdd a q) ->
  forall a1 a2 q1 q2 id, <[a := q]> (peers p) !! a1 = Some q1 -> <[a := q]> (peers p) !! a2 = Some q2 ->
    peer_id q1 = Some id -> peer_id q2 = Some id -> a1 = a2.
Proof.
  intros [_ Hu] [_ Hb] a1 a2 q1 q2 id.
  destruct (decide (a1 = a)) as [->|N1], (decide (a2 = a)) as [->|N2];
    rewrite ?lookup_insert_eq, ?lookup_insert_ne by done; try done.
  - intros [= ->] H2 E1 E2. by destruct (Hb _ _ _ H2 N2 E1).
  - intros H1 [= ->] E1 E2. by destruct (Hb _ _ _ H1 N1 E2).
  - apply Hu.
Qed.

Lemma in_sync_add p a q : in_sync p -> op_ok p (OpAdd a q) -> in_sync (AddPeer p a q).
Proof.
  intros Hs Hok. split; [|by apply unique_add]. destruct Hs as [Hs Hu], Hok as [Ha Hb].
  intros id p'. simpl. destruct (peer_id q) as [idq|] eqn:Eq.
  - destruct (decide (id = idq)) as [->|Hid].
    + rewrite lookup_insert_eq. split.
      * intros [= ->]. exists a. by rewrite lookup_insert_eq.
      * intros (a' & Ha' & Hp'). destruct (decide (a' = a)) as [->|N].
        { by rewrite lookup_insert_eq in Ha'. }
        rewrite lookup_insert_ne in Ha' by done. by destruct (Hb _ _ _ Ha' N eq_refl).
    + rewrite lookup_insert_ne, Hs by done. split.
      * intros (a' & Ha' & Hp'). exists a'. split; [|done]. rewrite lookup_insert_ne; [done|].
        intros ->. destruct (Ha _ Ha') as [E|E]; congruence.
      * intros (a' & Ha' & Hp'). exists a'. split; [|done].
        destruct (decide (a' = a)) as [->|N]; [rewrite lookup_insert_eq in Ha'; congruence|].
        by rewrite lookup_insert_ne in Ha'.
  - rewrite Hs. split.
    + intros (a' & Ha' & Hp'). exists a'. split; [|done]. rewrite lookup_insert_ne; [done|].
      intros ->. destruct (Ha _ Ha') as [E|E]; congruence.
    + intros (a' & Ha' & Hp'). exists a'. split; [|done].
      destruct (decide (a' = a)) as [->|N]; [rewrite lookup_insert_eq in Ha'; congruence|].
      by rewrite lookup_insert_ne in Ha'.
Qed.

Lemma in_sync_remove p a : in_sync p -> in_sync (RemovePeer p a).
Proof.
  intros [Hs Hu]. split; simpl.
  - intros id q.
    assert (Hdel : (exists a', delete a (peers p) !! a' = Some q /\ peer_id q = Some id) <->
      byID p !! id = Some q /\ peers p !! a ≫= peer_id <> Some id).
    { rewrite Hs. split.
      - intros (a' & [N Ha']%lookup_delete_Some & Hq). split; [by eexists|].
        intros (q' & Hq' & E)%bind_Some. by apply N, (Hu _ _ _ _ _ Hq' Ha' E Hq).
      - intros [(a' & Ha' & Hq) N]. exists a'. split; [|done]. apply lookup_delete_Some.
        split; [|done]. intros ->. apply N. by rewrite Ha'. }
    rewrite Hdel. destruct (peers p !! a ≫= peer_id) as [id'|] eqn:E.
    + rewrite lookup_delete_Some. split; [intros [N ?]; split; [done|]; congruence|].
      intros [? N]. split; [congruence|done].
    + split; [done|]. by intros [? _].
  - intros a1 a2 q1 q2 id [_ H1]%lookup_delete_Some [_ H2]%lookup_delete_Some. by apply Hu.
Qed.

End manager.

(** The two indexes of the peer table agree after any sequence of
    [AddPeer] and [RemovePeer] in which peers keep their key and have different
    identifiers: a lookup by identifier finds a peer exactly if that peer is
    stored under its application id. *)
Theorem indexes_in_sync `{WireGuardKeys} os :
  ops_ok NewPeerManager os ->
  let p := foldl pm_step NewPeerManager os in
  forall id peer, GetByPeerID p id = Some peer <->
    exists appId, GetPeer p appId = Some peer /\ peer_id peer = Some id.
Proof.
  assert (Hgen : forall os p, in_sync p -> ops_ok p os -> in_sync (foldl pm_step p os)).
  { clear os. induction os as [|o os IH]; intros p Hp Hok; simpl; [done|]. destruct Hok as [Ho Hos].
    apply IH; [|done]. destruct o; [by apply in_sync_add|by apply in_sync_remove]. }
  intros Hok. apply (Hgen os _ in_sync_empty Hok).
Qed.

End PeerManager.

(** ** Relay addresses

    A remote identifier of the relay protocol travels through WireGuard as a
    fake IPv6 address. *)

Module Wrrp.

Definition wrrpFakePrefix : list Z := [0xfd; 0x77; 0x72; 0x72; 0x70; 0x00; 0x00; 0x00].
Definition WrrpFakePort : Z := 51820.

Definition addr_bytes (a : netip) : list Z :=
  match As16 a with IP4 a => be_bytes 16 a | IP16 a => be_bytes 16 a end.

Definition WrrpFakeAddrPort (remoteId : Z) : netip * Z :=
  (Is6 (be_value (wrrpFakePrefix ++ be_bytes 8 remoteId)), WrrpFakePort).

Definition IsWrrpFakeAddr (addr : netip) : bool :=
  match addr with
  | Is4 _ => false
  | Is6 _ => bool_decide (take 6 (addr_bytes addr) = take 6 wrrpFakePrefix)
  end.

Definition RemoteIdFromWrrpFakeAddr (addr : netip) : Z := be_value (drop 8 (addr_bytes addr)).

Lemma fake_addr_bytes remoteId :
  addr_bytes (WrrpFakeAddrPort remoteId).1 = wrrpFakePrefix ++ be_bytes 8 remoteId.
Proof.
  unfold addr_bytes, WrrpFakeAddrPort. cbn [fst As16].
  set (l := wrrpFakePrefix ++ be_bytes 8 remoteId).
  assert (Hl : length l = 16%nat) by (unfold l; by autorewrite with lattice).
  rewrite <- Hl. apply be_bytes_value. unfold l. apply Forall_app. split.
  - unfold wrrpFakePrefix, is_byte. repeat constructor; lia.
  - auto with lattice.
Qed.

(** Relay addresses round trip: the fake address made of a 64-bit
    identifier is recognised as one and gives the identifier back. *)
Theorem WrrpFakeAddr_roundtrip remoteId :
  0 <= remoteId < 2 ^ 64 ->
  IsWrrpFakeAddr (WrrpFakeAddrPort remoteId).1 = true /\
  RemoteIdFromWrrpFakeAddr (WrrpFakeAddrPort remoteId).1 = remoteId.
Proof.
  intros Hr. unfold IsWrrpFakeAddr, RemoteIdFromWrrpFakeAddr. rewrite fake_addr_bytes. split.
  - simpl fst. cbv iota. apply bool_decide_true. by destruct (be_bytes 8 remoteId).
  - rewrite drop_app_length'; [|done]. rewrite be_value_bytes. by apply Z.mod_small.
Qed.

Lemma WrrpFakeAddr_roundtrip_witness :
  IsWrrpFakeAddr (WrrpFakeAddrPort 123456789).1 = true /\
  RemoteIdFromWrrpFakeAddr (WrrpFakeAddrPort 123456789).1 = 123456789.
Proof. apply (WrrpFakeAddr_roundtrip 123456789). lia. Defined.

End Wrrp.

(** ** Concrete keys *)

(** Keys as text: every non-empty text is a key padded to 32 bytes. *)
Definition sample_keys : WireGuardKeys.
Proof.
  refine {| ParseKey := λ s, Some (be_bytes 32 (Z.of_nat (String.length s) * 2 ^ 240)) |}.
  - intros s k [= <-]. apply length_be_bytes.
  - intros s k [= <-]. auto with lattice.
Defined.

Definition keyed_peer (n key : string) : InfraPeer := {|
  ip_Name := n; ip_InterfaceName := ""; ip_Platform := "linux"; ip_Description := "";
  ip_NetworkId := ""; ip_CreatedBy := ""; ip_UserId := 0; ip_Hostname := ""; ip_AppID := n;
  ip_Address := None; ip_Endpoint := ""; ip_Remove := false; ip_PresharedKey := "";
  ip_PersistentKeepalive := 0; ip_PrivateKey := ""; ip_PublicKey := key; ip_PeerID := 0;
  ip_AllowedIPs := ""; ip_ReplacePeers := false; ip_Port := 0; ip_GroupName := "";
  ip_Version := 0; ip_LastUpdatedAt := ""; ip_Token := ""; ip_WrrpUrl := ""; ip_Labels := ∅ |}.

Definition sample_ops : list PeerManager.pm_op :=
  [PeerManager.OpAdd "a" (keyed_peer "a" "k"); PeerManager.OpAdd "b" (keyed_peer "b" "kk");
   PeerManager.OpRemove "a"].

Lemma indexes_in_sync_witness :
  PeerManager.GetByPeerID (foldl (@PeerManager.pm_step sample_keys) PeerManager.NewPeerManager sample_ops)
    (FromKey (be_bytes 32 (2 * 2 ^ 240))) = Some (keyed_peer "b" "kk").
Proof.
  apply (@PeerManager.indexes_in_sync sample_keys sample_ops);
    [|exists "b"; split; vm_compute; reflexivity].
  split; [split|split; [split|repeat split]].
  - intros q Hq. cbn in Hq. by apply lookup_empty_Some in Hq.
  - intros a' q id Hq. cbn in Hq. by apply lookup_empty_Some in Hq.
  - intros q Hq. by vm_compute in Hq.
  - intros a' q id Hq N. cbn in Hq.
    apply lookup_insert_Some in Hq as [[<- <-]|[_ Hq]]; [|by apply lookup_empty_Some in Hq].
    vm_compute. congruence.
Defined.
