(* ===== verification/PeerController.v ===== *)
(** * PeerController: the reconciler of peers
    ([internal/agent/controller/peer_controller.go])

    A peer is driven by its phase: keys are generated first, then the peer joins
    or leaves networks, and once ready its configuration is written to a config
    map.  The Go code patches the object it holds and copies what the server
    stored back into it: functions that take a peer here return the updated one.
    The version counter of the generator is passed along. *)

From S2P Require Import Prelude Prog Net Sha256 Api Ipam Message Json ControllerUtils Infra.
From S2P Require Import PeerResolver PolicyEvaluator Generator.

(** [ctrl.Request] and the requeue delay of [ctrl.Result], in nanoseconds. *)
Abbreviation Request := NamespacedName.
Abbreviation Result := Z.
Definition millisecond : Z := 10 ^ 6.
Definition second : Z := 10 ^ 9.

Definition finalizerName : string := "alattice.io/node".
Definition network_label_prefix : string := "alattice.io/network-".

(** [fmt.Sprintf("%x", sha256.Sum256(b))] of the message without its version and
    timestamp; [json.Marshal] cannot fail on these types. *)
Definition computeMessageHash (msg : Message) : gresult string :=
  inr (hex_encode (Sum256 (hashed_message msg))).

Definition newConfigmap (namespace configMapName message hash : string) : ConfigMap := {|
  cm_meta := meta_with_annotations
    (meta_with_labels (new_meta namespace configMapName)
       {[ "app.kubernetes.io/managed-by" := "lattice-controller" ]})
    {[ "alattice.io/config-hash" := hash ]};
  cm_Data := {[ "config.json" := message ]} |}.

(** ** Patching a peer *)

(** [updateSpec]: the flag and error of the Go function, and the peer as the
    caller sees it afterwards. *)
Definition updateSpec (node : LatticePeer) (updateFunc : LatticePeer -> kprog (gresult LatticePeer)) :
    kprog (gresult bool * LatticePeer) :=
  r ← updateFunc node;
  match r with
  | inl err => mret (inl err, node)
  | inr nodeCopy =>
      if bool_decide (peer_Spec nodeCopy = peer_Spec node) &&
         bool_decide (Labels (peer_meta nodeCopy) = Labels (peer_meta node)) &&
         bool_decide (Annotations (peer_meta nodeCopy) = Annotations (peer_meta node))
      then mret (inr false, node)
      else
        p ← call (APatch KPeer node nodeCopy);
        match p with
        | inl err => if IsConflict err then mret (inr false, node) else mret (inl err, node)
        | inr stored =>
            mret (inr true,
              peer_with_spec
                (peer_with_meta node
                  (meta_with_version
                    (meta_with_annotations
                      (meta_with_labels (peer_meta node) (Labels (peer_meta stored)))
                      (Annotations (peer_meta stored)))
                    (ResourceVersion (peer_meta stored))))
                (peer_Spec stored))
        end
  end.

Definition updateStatus (node : LatticePeer) (updateFunc : LatticePeerStatus -> kprog LatticePeerStatus) :
    kprog (gresult bool * LatticePeer) :=
  status ← updateFunc (peer_Status node);
  if bool_decide (status = peer_Status node) then mret (inr false, node)
  else
    p ← call (AStatusPatch KPeer node (peer_with_status node status));
    match p with
    | inl err => if IsConflict err then mret (inr false, node) else mret (inl err, node)
    | inr stored =>
        mret (inr true,
          peer_with_status
            (peer_with_meta node (meta_with_version (peer_meta node) (ResourceVersion (peer_meta stored))))
            (peer_Status stored))
    end.

(** [p.Status.Conditions = setCondition(..., metav1.Now())]. *)
Definition mark (type status reason message : string) (s : LatticePeerStatus) : kprog LatticePeerStatus :=
  now ← call ANow;
  mret (status_with_conditions s (setCondition (Conditions s)
    {| cond_Type := type; cond_Status := status; cond_Reason := reason; cond_Message := message;
       cond_LastTransitionTime := now |})).

Definition set_phase (ph : string) (s : LatticePeerStatus) : kprog LatticePeerStatus :=
  mret (status_with_phase s ph).

(** ** Labels and keys *)

Definition is_network_label (l : string) : bool := has_prefix network_label_prefix l.

(** The loops that delete every network label. *)
Definition clear_network_labels (lbls : labels) : labels :=
  filter (λ kv : string * string, is_network_label kv.1 = false) lbls.

Definition spec_with_keys (s : LatticePeerSpec) (priv pub id : string) : LatticePeerSpec := {|
  AppId := AppId s; InterfaceName := InterfaceName s; Platform := Platform s;
  PrivateKey := priv; PublicKey := pub; AllowedIPs := AllowedIPs s; DNSServers := DNSServers s;
  MTU := MTU s; PeerId := id; Network := Network s; NetworkPolicies := NetworkPolicies s;
  WrrpUrl := WrrpUrl s; WrrpQuicUrl := WrrpQuicUrl s |}.

Definition ensureKeys (peer : LatticePeer) : kprog (gresult bool * LatticePeer) :=
  if negb (bool_decide (PrivateKey (peer_Spec peer) = "")) then mret (inr false, peer)
  else updateSpec peer (λ node,
    key ←? call AGenerateKey;
    mret (inr (peer_with_spec node (spec_with_keys (peer_Spec node) (kp_Private key) (kp_Public key)
      (pretty (ToUint64 (FromKey (kp_PublicBytes key)))))))).

Definition getNetwork (peer : LatticePeer) : kprog (gresult LatticeNetwork) :=
  match Network (peer_Spec peer) with
  | None => Panic
  | Some name =>
      network ← call (AGet KNetwork {| key_Namespace := Namespace (peer_meta peer); key_Name := name |});
      match network with
      | inl err => mret (inl (ErrWrap "failed to get joined network" err))
      | inr network => mret (inr network)
      end
  end.

Definition ensurePeerSpec (peer : LatticePeer) : kprog (gresult bool * LatticePeer) :=
  updateSpec peer (λ node,
    network ←? getNetwork node;
    let lbls := clear_network_labels (Labels (peer_meta node)) in
    mret (inr (peer_with_meta node (meta_with_labels (peer_meta node)
      (<[networkLabelKey (Name (net_meta network)) := "true"]> lbls))))).

(** ** Snapshots *)

Definition network_peers_options (namespace networkName : string) : ListOptions := {|
  list_Namespace := Some namespace; list_Selector := None;
  list_Labels := {[ networkLabelKey networkName := "true" ]} |}.

Section controller.
Context `{IPv6Text, LabelSelectors, MapRange}.

Definition findPeersByNetwork (network : LatticeNetwork) : kprog (gresult (list LatticePeer)) :=
  peers ←? call (AList KPeer (network_peers_options (Namespace (net_meta network)) (Name (net_meta network))));
  mret (inr peers).

(** The loop over the policies of the namespace. *)
Fixpoint matching_policies (peerNetwork : string) (nodeLabelSet : labels) (items : list LatticePolicy) :
    gresult (list LatticePolicy) :=
  match items with
  | [] => inr []
  | policy :: items =>
      if negb (bool_decide (pol_Network (pol_Spec policy) = peerNetwork))
      then matching_policies peerNetwork nodeLabelSet items
      else
        match LabelSelectorAsSelector (Some (pol_PeerSelector (pol_Spec policy))) with
        | inl err => inl (ErrWrap ("invalid nodeSelector in policy " +:+ Namespace (pol_meta policy) +:+ "/" +:+
                                   Name (pol_meta policy)) err)
        | inr selector =>
            match matching_policies peerNetwork nodeLabelSet items with
            | inl err => inl err
            | inr matched => inr (if selector nodeLabelSet then policy :: matched else matched)
            end
        end
  end.

Definition filterPoliciesForNode (peer : LatticePeer) : kprog (gresult (list LatticePolicy)) :=
  policyList ←? call (AList KPolicy (InNamespace (Namespace (peer_meta peer))));
  let peerNetwork := default "" (Network (peer_Spec peer)) in
  mret (matching_policies peerNetwork (Labels (peer_meta peer)) policyList).

Definition snapshot_policies (snapshot : PeerStateSnapshot) : kprog PeerStateSnapshot :=
  policyList ← filterPoliciesForNode (snap_Peer snapshot);
  match policyList with
  | inl _ => mret snapshot
  | inr l => mret {| snap_Peer := snap_Peer snapshot; snap_Network := snap_Network snapshot;
                     snap_Policies := l; snap_Peers := snap_Peers snapshot; snap_Labels := snap_Labels snapshot |}
  end.

Definition getPeerStateSnapshot (current : LatticePeer) (req : Request) : kprog PeerStateSnapshot :=
  let snapshot net peers := {| snap_Peer := current; snap_Network := net; snap_Policies := [];
    snap_Peers := peers; snap_Labels := Labels (peer_meta current) |} in
  match Network (peer_Spec current) with
  | None => snapshot_policies (snapshot None [])
  | Some networkName =>
      r ← call (AGet KNetwork {| key_Namespace := key_Namespace req; key_Name := networkName |});
      match r with
      | inl _ => mret (snapshot None [])
      | inr network =>
          peerList ← findPeersByNetwork network;
          match peerList with
          | inl _ => mret (snapshot (Some network) [])
          | inr items => snapshot_policies (snapshot (Some network) items)
          end
      end
  end.

(** ** Writing the configuration *)

(** The answer of a handler, with the version counter. *)
Abbreviation outcome := (kprog (gresult Result * Z)).

Definition config_condition_failed (peer : LatticePeer) (message : string) : kprog LatticePeer :=
  '(_, peer) ← updateStatus peer (mark NodeConditionNetworkConfigured ConditionFalse ReasonConfigFailed message);
  mret peer.

Definition config_condition_ready (peer : LatticePeer) (newHash : string) : kprog (gresult bool * LatticePeer) :=
  updateStatus peer (λ s,
    mark NodeConditionNetworkConfigured ConditionTrue ReasonReady "" (status_with_hash s newHash)).

Definition lastReconcile (vc : Z) (peer : LatticePeer) (request : Request) : outcome :=
  let configMapName := Name (peer_meta peer) +:+ "-config" in
  snapshot ← getPeerStateSnapshot peer request;
  let '(version, vc) := generateConfigVersion vc in
  message ← generate peer snapshot version;
  match message with
  | inl err => mret (inl err, vc)
  | inr message =>
  match computeMessageHash message with
  | inl err => mret (inl err, vc)
  | inr newHash =>
  let desired := newConfigmap (Namespace (peer_meta peer)) configMapName (Message_String message) newHash in
  owned ← call (ASetControllerReference (peer_meta peer) (cm_meta desired));
  match owned with
  | inl err => mret (inl err, vc)
  | inr meta =>
  let desired := {| cm_meta := meta; cm_Data := cm_Data desired |} in
  found ← call (AGet KConfigMap {| key_Namespace := Namespace (peer_meta peer); key_Name := configMapName |});
  match found with
  | inl err =>
      if negb (IsNotFound err) then mret (inl err, vc)
      else
        applied ← call (AApply KConfigMap desired);
        match applied with
        | inl err =>
            _ ← config_condition_failed peer ("Failed to create config: " +:+ error_text err);
            mret (inl err, vc)
        | inr _ =>
            '(r, peer) ← config_condition_ready peer newHash;
            match r with
            | inl err => mret (inl err, vc)
            | inr _ =>
                _ ← call (AEvent (meta_key (peer_meta peer)) "ConfigMapCreated"
                  ("configmap=" +:+ configMapName +:+ " hash=" +:+ newHash +:+ " version=" +:+
                   m_ConfigVersion message));
                mret (inr 0, vc)
            end
        end
  | inr _ =>
      let oldHash := CurrentHash (peer_Status peer) in
      if bool_decide (oldHash = newHash) then mret (inr 0, vc)
      else
        applied ← call (AApply KConfigMap desired);
        match applied with
        | inl err =>
            _ ← config_condition_failed peer ("Failed to update config: " +:+ error_text err);
            mret (inl err, vc)
        | inr _ =>
            '(r, peer) ← config_condition_ready peer newHash;
            match r with
            | inl err => mret (inl err, vc)
            | inr true => mret (inr 0, vc)
            | inr false =>
                _ ← call (AEvent (meta_key (peer_meta peer)) "ConfigMapUpdated"
                  ("configmap=" +:+ configMapName +:+ " oldHash=" +:+ oldHash +:+ " newHash=" +:+ newHash +:+
                   " version=" +:+ m_ConfigVersion message));
                mret (inr 0, vc)
            end
        end
  end
  end
  end
  end.

(** ** Joining and leaving networks *)

(** A failed join: the phase and condition are recorded, the error returned. *)
Definition fail_with (vc : Z) (peer : LatticePeer) (type reason message : string) (err : gerror) : outcome :=
  _ ← updateStatus peer (λ s, s ← set_phase NodePhaseFailed s; mark type ConditionFalse reason message s);
  mret (inl err, vc).

Definition mark_joined (address : string) (net : option string) (s : LatticePeerStatus) :
    kprog LatticePeerStatus :=
  s ← set_phase NodePhaseReady s;
  s ← mark NodeConditionJoiningNetwork ConditionTrue ReasonReady "" (status_with_network s net (Some address));
  mark NodeConditionIPAllocated ConditionTrue ReasonReady "" s.

Definition joinNetwork (vc : Z) (peer : LatticePeer) (req : Request) : outcome :=
  match Network (peer_Spec peer) with
  | None => Panic
  | Some specNet =>
  if bool_decide (ActiveNetwork (peer_Status peer) = Some specNet) then mret (inr 0, vc)
  else
  got ← call (AGet KNetwork {| key_Namespace := Namespace (peer_meta peer); key_Name := specNet |});
  match got with
  | inl err =>
      fail_with vc peer NodeConditionJoiningNetwork ReasonNotReady
        ("Network " +:+ go_quote specNet +:+ " not found: " +:+ error_text err) err
  | inr network =>
  if bool_decide (net_ActiveCIDR (net_Status network) = "") then
    _ ← updateStatus peer (mark NodeConditionJoiningNetwork ConditionFalse ReasonConfiguring
      ("Waiting for network " +:+ go_quote (Name (net_meta network)) +:+ " to assign an ActiveCIDR"));
    mret (inr (3 * second), vc)
  else
  '(changed, peer) ← ensurePeerSpec peer;
  match changed with
  | inl err =>
      fail_with vc peer NodeConditionJoiningNetwork ReasonNotReady
        ("Failed to apply network labels: " +:+ error_text err) err
  | inr true => mret (inr (100 * millisecond), vc)
  | inr false =>
  address ← AllocateIP network peer;
  match address with
  | inl err =>
      fail_with vc peer NodeConditionIPAllocated ReasonAllocationFailed (error_text err) err
  | inr address =>
  '(r, peer) ← updateStatus peer (mark_joined address (Network (peer_Spec peer)));
  match r with
  | inl err => mret (inl err, vc)
  | inr _ => lastReconcile vc peer req
  end
  end
  end
  end
  end.

Definition mark_left (s : LatticePeerStatus) : kprog LatticePeerStatus :=
  s ← set_phase NodePhaseReady (status_with_network s None None);
  mark NodeConditionJoiningNetwork ConditionFalse ReasonLeaving "" s.

Definition leave_labels (vc : Z) (peer : LatticePeer) (req : Request) : outcome :=
  '(r, peer) ← updateSpec peer (λ p,
    mret (inr (peer_with_meta p (meta_with_labels (peer_meta p) (clear_network_labels (Labels (peer_meta p)))))));
  match r with
  | inl err =>
      fail_with vc peer NodeConditionProvisioned ReasonNotReady
        ("Failed to remove network labels: " +:+ error_text err) err
  | inr _ =>
      '(r, peer) ← updateStatus peer mark_left;
      match r with
      | inl err => mret (inl err, vc)
      | inr _ =>
          match Network (peer_Spec peer) with
          | Some _ => mret (inr (100 * millisecond), vc)
          | None => lastReconcile vc peer req
          end
      end
  end.

Definition leaveNetwork (vc : Z) (peer : LatticePeer) (req : Request) : outcome :=
  match AllocatedAddress (peer_Status peer) with
  | Some address =>
      released ← ReleaseIP (Namespace (peer_meta peer)) address;
      match released with
      | inl err => mret (inl err, vc)
      | inr _ => leave_labels vc peer req
      end
  | None => leave_labels vc peer req
  end.

(** ** The phases *)

Definition handleInitialization (vc : Z) (peer : LatticePeer) (req : Request) : outcome :=
  '(changed, peer) ← ensureKeys peer;
  match changed with
  | inl err => mret (inl err, vc)
  | inr true => mret (inr 0, vc)
  | inr false =>
      '(r, _) ← updateStatus peer (λ s,
        s ← set_phase NodePhasePending s;
        mark NodeConditionInitialized ConditionTrue ReasonReady "" s);
      match r with
      | inl err => mret (inl err, vc)
      | inr _ => mret (inr (100 * millisecond), vc)
      end
  end.

Definition handlePending (vc : Z) (peer : LatticePeer) (req : Request) : outcome :=
  match Network (peer_Spec peer), ActiveNetwork (peer_Status peer) with
  | None, None =>
      '(r, peer) ← updateStatus peer (set_phase NodePhaseReady);
      match r with
      | inl err => mret (inl err, vc)
      | inr _ => lastReconcile vc peer req
      end
  | None, Some _ => leaveNetwork vc peer req
  | Some specNet, Some activeNet =>
      if negb (bool_decide (activeNet = specNet)) then leaveNetwork vc peer req
      else joinNetwork vc peer req
  | Some _, None => joinNetwork vc peer req
  end.

Definition need_transition (peer : LatticePeer) : bool :=
  negb (bool_decide (Network (peer_Spec peer) = ActiveNetwork (peer_Status peer))).

Definition handleReady (vc : Z) (peer : LatticePeer) (req : Request) : outcome :=
  if need_transition peer then
    '(r, _) ← updateStatus peer (set_phase NodePhasePending);
    match r with
    | inl err => mret (inl err, vc)
    | inr _ => mret (inr (100 * millisecond), vc)
    end
  else lastReconcile vc peer req.

Definition handleFailed (vc : Z) (peer : LatticePeer) (req : Request) : outcome :=
  '(r, _) ← updateStatus peer (set_phase NodePhasePending);
  match r with
  | inl err => mret (inl err, vc)
  | inr _ => mret (inr (30 * second), vc)
  end.

(** [performCleanup] does nothing and never fails. *)
Definition handleDelete (vc : Z) (node : LatticePeer) : outcome :=
  if negb (ContainsFinalizer (peer_meta node) finalizerName) then mret (inr 0, vc)
  else
    r ← call (AUpdate KPeer (peer_with_meta node (RemoveFinalizer (peer_meta node) finalizerName)));
    match r with
    | inl err => mret (inl err, vc)
    | inr _ => mret (inr 0, vc)
    end.

Definition Reconcile (vc : Z) (req : Request) : outcome :=
  got ← call (AGet KPeer req);
  match got with
  | inl err => mret ((if IsNotFound err then inr 0 else inl err), vc)
  | inr peer =>
      match DeletionTimestamp (peer_meta peer) with
      | Some _ =>
          if ContainsFinalizer (peer_meta peer) finalizerName then handleDelete vc peer
          else mret (inr 0, vc)
      | None =>
          if negb (ContainsFinalizer (peer_meta peer) finalizerName) then
            r ← call (AUpdate KPeer (peer_with_meta peer (AddFinalizer (peer_meta peer) finalizerName)));
            match r with
            | inl err => mret (inl err, vc)
            | inr _ => mret (inr 100, vc)
            end
          else if bool_decide (str_get (Labels (peer_meta peer)) LabelShadow = "true") then mret (inr 0, vc)
          else if bool_decide (Phase (peer_Status peer) = "") then handleInitialization vc peer req
          else if bool_decide (Phase (peer_Status peer) = NodePhasePending) then handlePending vc peer req
          else if bool_decide (Phase (peer_Status peer) = NodePhaseReady) then handleReady vc peer req
          else if bool_decide (Phase (peer_Status peer) = NodePhaseFailed) then handleFailed vc peer req
          else handleInitialization vc peer req
      end
  end.

(** ** Watches *)

Definition requests_of (nodes : list LatticePeer) : list Request := (λ n, meta_key (peer_meta n)) <$> nodes.

Definition mapNetworkForNodes (network : LatticeNetwork) : kprog (list Request) :=
  nodeList ← call (AList KPeer (network_peers_options (Namespace (net_meta network)) (Name (net_meta network))));
  match nodeList with
  | inl _ => mret []
  | inr items => mret (requests_of items)
  end.

Definition mapConfigMapForNodes (cm : ConfigMap) : kprog (list Request) :=
  let name := trim_suffix (Name (cm_meta cm)) "-config" in
  node ← call (AGet KPeer {| key_Namespace := Namespace (cm_meta cm); key_Name := name |});
  match node with
  | inl _ => mret []
  | inr node => mret (requests_of [node])
  end.

Definition mapEndpointForNodes (endpoint : LatticeEndpoint) : kprog (list Request) :=
  peerList ← call (AList KPeer (InNamespace (Namespace (ep_meta endpoint))));
  match peerList with
  | inl _ => mret []
  | inr items => mret (requests_of items)
  end.

Definition mapPolicyForNodes (policy : LatticePolicy) : kprog (list Request) :=
  match LabelSelectorAsSelector (Some (pol_PeerSelector (pol_Spec policy))) with
  | inl _ => mret []
  | inr _ =>
      nodeList ← call (AList KPeer (network_list_options (Namespace (pol_meta policy))
        (pol_Network (pol_Spec policy)) (pol_PeerSelector (pol_Spec policy))));
      match nodeList with
      | inl _ => mret []
      | inr items => mret (requests_of items)
      end
  end.

(** The predicates of the watches: which updates enqueue a reconcile. *)
Definition networkReadyPredicate (oldNet newNet : LatticeNetwork) : bool :=
  negb (Generation (net_meta oldNet) =? Generation (net_meta newNet)) ||
  (bool_decide (net_ActiveCIDR (net_Status oldNet) = "") &&
   negb (bool_decide (net_ActiveCIDR (net_Status newNet) = ""))).

Definition ownedCMPredicate (cm : ConfigMap) : bool :=
  bool_decide (str_get (Labels (cm_meta cm)) "app.kubernetes.io/managed-by" = "lattice-controller").

Definition configMapPredicate (oldCm newCm : ConfigMap) : bool :=
  negb (bool_decide (cm_Data oldCm = cm_Data newCm)).

End controller.

(** ** What a reconcile may do

    The cluster answers an object of the key asked for, the peer being [got], and the
    rules of its policies have selectors that parse: one that does not makes the
    configuration's generation panic ([bad_selector_panics]). *)
Definition peer_env `{LabelSelectors} (got : LatticePeer) T (e : apiE T) (r : T) : Prop :=
  api_answers T e r /\
  match e in apiE T return T -> Prop with
  | AGet k key => λ r, forall o, r = inr o -> obj_key k o = key /\
      match k return obj k -> Prop with KPeer => λ p, p = got | _ => λ _, True end o
  | AList k _ =>
      match k return gresult (list (obj k)) -> Prop with
      | KPolicy => λ r, forall l, r = inr l ->
          Forall (λ p, Forall (λ sel, valid_selector (sel_PeerSelector sel)) (policy_selections p)) l
      | _ => λ _, True
      end
  | _ => λ _, True
  end r.

(** A peer that is in a network has an address. *)
Definition addressed (s : LatticePeerStatus) : Prop :=
  ActiveNetwork s <> None -> AllocatedAddress s <> None.

Definition known_phase (ph : string) : Prop :=
  ph = NodePhasePending \/ ph = NodePhaseReady \/ ph = NodePhaseFailed.

(** The transitions of the phase machine. *)
Inductive phase_step : string -> string -> Prop :=
| phase_stay ph : phase_step ph ph
| phase_init ph : ~ known_phase ph -> phase_step ph NodePhasePending
| phase_joined : phase_step NodePhasePending NodePhaseReady
| phase_failed : phase_step NodePhasePending NodePhaseFailed
| phase_again : phase_step NodePhaseReady NodePhasePending
| phase_retry : phase_step NodePhaseFailed NodePhasePending.

(** The labels put the peer in at most one network. *)
Definition one_network (l : labels) : Prop :=
  exists net, forall k v, l !! k = Some v -> is_network_label k = true -> k = networkLabelKey net.

(** A patch of the peer [req]: only keys are added to the specification, and only
    where there were none; the network labels change to those of one network. *)
Definition spec_patch_ok (req : Request) (base new : LatticePeer) : Prop :=
  meta_key (peer_meta new) = req /\ peer_meta new = meta_with_labels (peer_meta base) (Labels (peer_meta new)) /\
  (forall k, is_network_label k = false -> Labels (peer_meta new) !! k = Labels (peer_meta base) !! k) /\ peer_Status new = peer_Status base /\
  (peer_Spec new = peer_Spec base \/
   (PrivateKey (peer_Spec base) = "" /\
    exists priv pub id, peer_Spec new = spec_with_keys (peer_Spec base) priv pub id)) /\
  (Labels (peer_meta new) = Labels (peer_meta base) \/ one_network (Labels (peer_meta new))).

(** A status patch of the peer [req]: it follows the phase machine and keeps
    peers in a network addressed. *)
Definition status_change (old new : LatticePeerStatus) : Prop :=
  (addressed old -> addressed new) /\ phase_step (Phase old) (Phase new).

Definition status_patch_ok (req : Request) (base new : LatticePeer) : Prop :=
  meta_key (peer_meta new) = req /\ new = peer_with_status base (peer_Status new) /\
  status_change (peer_Status base) (peer_Status new).

Definition config_key (req : Request) : NamespacedName :=
  {| key_Namespace := key_Namespace req; key_Name := key_Name req +:+ "-config" |}.

(** The endpoint of the address that the peer's status records. *)
Definition own_endpoint `{IPv6Text} (req : Request) (got : LatticePeer) (key : NamespacedName) : Prop :=
  exists address ip, AllocatedAddress (peer_Status got) = Some address /\ net_ParseIP address = Some ip /\
    key = {| key_Namespace := key_Namespace req; key_Name := "ip-" +:+ ipToHex ip |}.

Definition peer_calls `{IPv6Text} (req : Request) (got : LatticePeer) T (e : apiE T) : Prop :=
  match e with
  | AGet _ _ | AList _ _ | ANow | AGenerateKey | ASetControllerReference _ _ | AEvent _ _ _ => True
  | AUpdate k o => match k return obj k -> Prop with
                   | KPeer => λ p, meta_key (peer_meta p) = req /\
                       (p = peer_with_meta got (AddFinalizer (peer_meta got) finalizerName) \/
                        p = peer_with_meta got (RemoveFinalizer (peer_meta got) finalizerName))
                   | _ => λ _, False
                   end o
  | APatch k b n => match k return obj k -> obj k -> Prop with
                    | KPeer => spec_patch_ok req
                    | _ => λ _ _, False
                    end b n
  | AStatusPatch k b n => match k return obj k -> obj k -> Prop with
                          | KPeer => status_patch_ok req
                          | _ => λ _ _, False
                          end b n
  | AApply k o => match k return obj k -> Prop with
                  | KConfigMap => λ cm, meta_key (cm_meta cm) = config_key req
                  | _ => λ _, False
                  end o
  | ACreate k o => match k return obj k -> Prop with
                   | KEndpoint => λ ep, Namespace (ep_meta ep) = key_Namespace req /\
                                        ep_PeerRef (ep_Spec ep) = key_Name req
                   | _ => λ _, False
                   end o
  | ADelete k key => k = KEndpoint /\ own_endpoint req got key
  | AStatusUpdate _ _ => False
  end.

Section safety.
Context `{IPv6Text, LabelSelectors, MapRange} (req : Request) (got : LatticePeer).

Abbreviation safe p Q := (wp (peer_env got) (peer_calls req got) p Q).

Lemma safe_reads {A} (p : kprog A) Q : wp api_answers read_call p Q -> safe p Q.
Proof. apply wp_weaken; [by intros T e r [? _]|]. by intros T []. Qed.

Lemma phase_neq : NodePhasePending <> NodePhaseReady /\ NodePhasePending <> NodePhaseFailed.
Proof. done. Qed.

(** *** Patches *)

Lemma mark_safe type status reason message s :
  safe (mark type status reason message s) (λ s', ActiveNetwork s' = ActiveNetwork s /\
    AllocatedAddress s' = AllocatedAddress s /\ Phase s' = Phase s).
Proof. by split. Qed.

Lemma updateStatus_safe peer f :
  meta_key (peer_meta peer) = req ->
  safe (f (peer_Status peer)) (λ s, status_change (peer_Status peer) s) ->
  safe (updateStatus peer f) (λ r, meta_key (peer_meta r.2) = req).
Proof.
  intros Hk Hf. apply wp_bind. eapply wp_mono; [exact Hf|]. intros s Hs.
  case_bool_decide; [done|]. split.
  - split_and!; simpl; done.
  - intros [err|stored] _; cbn; [by destruct (IsConflict err)|done].
Qed.

(** A patch that only marks a condition. *)
Lemma updateStatus_mark_safe peer type status reason message :
  meta_key (peer_meta peer) = req ->
  safe (updateStatus peer (mark type status reason message)) (λ r, meta_key (peer_meta r.2) = req).
Proof.
  intros Hk. apply updateStatus_safe; [done|]. eapply wp_mono; [apply mark_safe|].
  intros s (E1 & E2 & E3). unfold status_change, addressed. rewrite E1, E2, E3. split; [done|constructor].
Qed.

Lemma updateSpec_safe peer f :
  safe (f peer) (λ r, forall c, r = inr c -> spec_patch_ok req peer c) ->
  meta_key (peer_meta peer) = req ->
  safe (updateSpec peer f) (λ r, meta_key (peer_meta r.2) = req /\ peer_Status r.2 = peer_Status peer /\
    (r.1 = inr false -> r.2 = peer)).
Proof.
  intros Hf Hk. apply wp_bind. eapply wp_mono; [exact Hf|]. intros [err|c] Hc; [done|].
  destruct (_ && _); [done|]. split; [by apply Hc|].
  intros [err|stored] _; cbn; [destruct (IsConflict err)|]; by split_and!.
Qed.

Lemma one_network_insert n l : one_network (<[networkLabelKey n := "true"]> (clear_network_labels l)).
Proof.
  exists n. intros k v [[<- _]|[_ Hk]]%lookup_insert_Some Hn; [done|].
  apply map_lookup_filter_Some in Hk as [_ Hk]. simpl in Hk. congruence.
Qed.

Lemma clear_network_lookup l k : is_network_label k = false -> clear_network_labels l !! k = l !! k.
Proof.
  intros Hk. unfold clear_network_labels. rewrite map_lookup_filter. destruct (l !! k); [|done]. simpl.
  by rewrite option_guard_True.
Qed.

Lemma networkLabelKey_is n : is_network_label (networkLabelKey n) = true.
Proof.
  unfold networkLabelKey, safeKeyName, is_network_label, has_prefix. cbv zeta.
  by destruct (decide (String.length ("network-" +:+ n) <= 63)%nat);
    [rewrite bool_decide_true by done|rewrite bool_decide_false by done]; apply (prefix_app network_label_prefix).
Qed.

Lemma one_network_clear l : one_network (clear_network_labels l).
Proof.
  exists "". intros k v Hk Hn. apply map_lookup_filter_Some in Hk as [_ Hk]. simpl in Hk. congruence.
Qed.

Lemma ensureKeys_safe peer :
  meta_key (peer_meta peer) = req ->
  safe (ensureKeys peer) (λ r, meta_key (peer_meta r.2) = req /\ peer_Status r.2 = peer_Status peer).
Proof.
  intros Hk. unfold ensureKeys. case_bool_decide as Hp; cbn [negb]; [|done].
  eapply wp_mono; [apply updateSpec_safe; [|done]|by intros [] (? & ? & _)].
  wp_ask. intros [err|key] _; simpl; [done|].
  intros c [= <-]. split_and!; simpl; [done|by destruct (peer_meta peer)|done..| |by left]. right. eauto.
Qed.

Lemma ensurePeerSpec_safe peer :
  meta_key (peer_meta peer) = req -> Network (peer_Spec peer) <> None ->
  safe (ensurePeerSpec peer) (λ r, meta_key (peer_meta r.2) = req /\ peer_Status r.2 = peer_Status peer /\
    (r.1 = inr false -> r.2 = peer)).
Proof.
  intros Hk Hn. apply updateSpec_safe; [|done]. unfold getNetwork.
  destruct (Network (peer_Spec peer)) as [n|]; [|done].
  wp_ask. intros [err|net] _; simpl; [done|].
  intros c [= <-]. split_and!; simpl; [done..| | |by left|right; apply one_network_insert]; [|done].
  intros k Hl. rewrite lookup_insert_ne; [by apply clear_network_lookup|].
  intros <-. by rewrite networkLabelKey_is in Hl.
Qed.

(** *** The configuration *)

Lemma matching_policies_valid net lbls items l :
  Forall (λ p, Forall (λ sel, valid_selector (sel_PeerSelector sel)) (policy_selections p)) items ->
  matching_policies net lbls items = inr l -> Forall valid_policy l.
Proof.
  intros Hv. revert l. induction Hv as [|p items Hp Hv IH]; intros l; simpl; [by intros [= <-]|].
  case_bool_decide; simpl; [|apply IH].
  destruct (LabelSelectorAsSelector _) as [err|f] eqn:Hf; [done|].
  destruct (matching_policies net lbls items) as [err|m]; [done|]. intros [= <-].
  assert (Forall valid_policy m) by (by apply IH).
  destruct (f lbls); [|done]. constructor; [|done]. split; [by exists f|done].
Qed.

Lemma snapshot_policies_safe snapshot :
  snap_Policies snapshot = [] ->
  safe (snapshot_policies snapshot) (λ s, Forall valid_policy (snap_Policies s)).
Proof.
  intros Hn. unfold snapshot_policies, filterPoliciesForNode.
  wp_ask. intros [err|items] [_ Hv].
  - cbn. rewrite Hn. constructor.
  - cbn in Hv |- *. destruct (matching_policies _ _ _) as [err|l] eqn:Hm; cbn; [rewrite Hn; constructor|].
    eapply matching_policies_valid; [|exact Hm]. by apply Hv.
Qed.

Lemma getPeerStateSnapshot_safe peer :
  safe (getPeerStateSnapshot peer req) (λ s, Forall valid_policy (snap_Policies s)).
Proof.
  unfold getPeerStateSnapshot. destruct (Network (peer_Spec peer)) as [n|].
  - wp_ask. intros [err|net] _; [constructor|].
    wp_ask. intros [err|items] _; [constructor|].
    by apply snapshot_policies_safe.
  - by apply snapshot_policies_safe.
Qed.

Lemma config_condition_failed_safe peer message :
  meta_key (peer_meta peer) = req -> safe (config_condition_failed peer message) (λ _, True).
Proof.
  intros Hk. apply wp_bind. eapply wp_mono; [by apply updateStatus_mark_safe|]. by intros [r p] _.
Qed.

Lemma config_condition_ready_safe peer newHash :
  meta_key (peer_meta peer) = req ->
  safe (config_condition_ready peer newHash) (λ r, meta_key (peer_meta r.2) = req).
Proof.
  intros Hk. apply updateStatus_safe; [done|]. eapply wp_mono; [apply mark_safe|].
  intros s (E1 & E2 & E3). unfold status_change, addressed. rewrite E1, E2, E3. split; [done|constructor].
Qed.

Lemma lastReconcile_safe vc peer :
  meta_key (peer_meta peer) = req -> safe (lastReconcile vc peer req) (λ _, True).
Proof.
  intros Hk. unfold lastReconcile. apply wp_bind.
  eapply wp_mono; [apply getPeerStateSnapshot_safe|]. intros snapshot Hv. cbn [generateConfigVersion].
  apply wp_bind. eapply wp_mono; [by apply generate_reads|].
  intros r (msg & ->). cbn [computeMessageHash]. wp_ask.
  intros [err|meta] [[_ Hmeta] _]; [done|]. specialize (Hmeta _ eq_refl).
  assert (Hown : meta_key meta = config_key req).
  { rewrite Hmeta. unfold config_key. by rewrite <- Hk. }
  wp_ask. intros [err|cm] _.
  - destruct (IsNotFound err); [|done]. wp_ask. intros [err'|cm'] _.
    + apply wp_bind. eapply wp_mono; [by apply config_condition_failed_safe|]. done.
    + apply wp_bind. eapply wp_mono; [by apply config_condition_ready_safe|]. by intros [[e|b] p] Hp.
  - case_bool_decide; [done|]. wp_ask. intros [err'|cm'] _.
    + apply wp_bind. eapply wp_mono; [by apply config_condition_failed_safe|]. done.
    + apply wp_bind. eapply wp_mono; [by apply config_condition_ready_safe|]. by intros [[e|[]] p] Hp.
Qed.

(** *** Joining and leaving *)

Lemma fail_with_safe vc peer type reason message err :
  meta_key (peer_meta peer) = req -> Phase (peer_Status peer) = NodePhasePending ->
  safe (fail_with vc peer type reason message err) (λ _, True).
Proof.
  intros Hk Hp. apply wp_bind. eapply wp_mono; [apply updateStatus_safe; [done|]|done].
  eapply wp_mono; [apply (mark_safe _ _ _ _ (status_with_phase (peer_Status peer) NodePhaseFailed))|].
  intros s (E1 & E2 & E3). unfold status_change, addressed. rewrite E1, E2, E3, Hp.
  split; [done|constructor].
Qed.

Lemma claim_address_safe network peer used : forall fuel i e,
  meta_key (peer_meta peer) = req -> safe (claim_address fuel i e used network peer) (λ _, True).
Proof.
  induction fuel as [|fuel IH]; intros i e Hk; simpl; [done|].
  destruct (i <=? e); [|done]. case_bool_decide; [by apply IH|].
  split; [done|]. intros [err|m] [[_ Hm] _]; [done|]. specialize (Hm _ eq_refl). split.
  - simpl. rewrite <- Hk. split; [|done]. by injection Hm.
  - intros [err|o] _; [|done]. destruct (IsAlreadyExists err); [by apply IH|done].
Qed.

Lemma AllocateIP_safe network peer :
  meta_key (peer_meta peer) = req -> safe (AllocateIP network peer) (λ _, True).
Proof.
  intros Hk. unfold AllocateIP. destruct (net_ParseCIDR _) as [[ip ipnet]|]; [|done].
  wp_ask. intros [err|items] _; [done|].
  destruct (owned_endpoint peer items); [done|]. by apply claim_address_safe.
Qed.

Lemma ReleaseIP_safe address :
  AllocatedAddress (peer_Status got) = Some address -> safe (ReleaseIP (key_Namespace req) address) (λ _, True).
Proof.
  intros Ha. unfold ReleaseIP. case_bool_decide; [done|]. destruct (net_ParseIP address) as [ip|] eqn:Ep; [|done].
  apply wp_bind, wp_call; [split; [done|by exists address, ip]|]. intros [err|[]] _; [by destruct (IsNotFound err)|done].
Qed.

Lemma joinNetwork_safe vc peer :
  meta_key (peer_meta peer) = req -> Phase (peer_Status peer) = NodePhasePending ->
  Network (peer_Spec peer) <> None -> safe (joinNetwork vc peer req) (λ _, True).
Proof.
  intros Hk Hp Hn. unfold joinNetwork. destruct (Network (peer_Spec peer)) as [n|] eqn:En; [|done].
  case_bool_decide; [done|]. wp_ask.
  intros [err|net] _; [by apply fail_with_safe|]. case_bool_decide.
  { apply wp_bind. eapply wp_mono; [by apply updateStatus_mark_safe|]. done. }
  apply wp_bind. eapply wp_mono; [apply ensurePeerSpec_safe; [done|by rewrite En]|].
  intros [[err|[]] p] (Hk' & Hs & Hsame); simpl in Hk', Hs, Hsame; [apply fail_with_safe; congruence|done|].
  rewrite (Hsame eq_refl). apply wp_bind. eapply wp_mono; [by apply AllocateIP_safe|].
  intros [err|address] _; [by apply fail_with_safe|].
  apply wp_bind. eapply wp_mono; [apply updateStatus_safe; [done|]|].
  - apply (wp_bind _ _ (mark NodeConditionJoiningNetwork ConditionTrue ReasonReady ""
      (status_with_network (status_with_phase (peer_Status peer) NodePhaseReady)
         (Network (peer_Spec peer)) (Some address)))).
    eapply wp_mono; [apply mark_safe|]. intros s (E1 & E2 & E3).
    eapply wp_mono; [apply mark_safe|]. intros s' (F1 & F2 & F3).
    unfold status_change, addressed. rewrite F1, F2, F3, E1, E2, E3, Hp. split; [done|constructor].
  - intros [[err|b] p'] Hp'; [done|]. by apply lastReconcile_safe.
Qed.

Lemma leave_labels_safe vc peer :
  meta_key (peer_meta peer) = req -> Phase (peer_Status peer) = NodePhasePending ->
  safe (leave_labels vc peer req) (λ _, True).
Proof.
  intros Hk Hp. unfold leave_labels. apply wp_bind.
  eapply wp_mono; [apply updateSpec_safe; [|done]|].
  { intros c [= <-]. split_and!; simpl; [done..| | |by left|right; apply one_network_clear]; [|done].
    intros k. apply clear_network_lookup. }
  intros [[err|b] p] (Hk' & Hs & _); simpl in Hk', Hs; [apply fail_with_safe; congruence|].
  apply wp_bind. eapply wp_mono; [apply updateStatus_safe; [done|]|].
  - eapply wp_mono; [apply (mark_safe _ _ _ _ (status_with_phase
      (status_with_network (peer_Status p) None None) NodePhaseReady))|].
    intros s (E1 & E2 & E3). unfold status_change, addressed. rewrite E1, E2, E3, Hs, Hp.
    split; [done|constructor].
  - intros [[err|c] p'] Hk''; [done|]. simpl in Hk''.
    destruct (Network (peer_Spec p')); [done|by apply lastReconcile_safe].
Qed.

Lemma leaveNetwork_safe vc peer :
  peer = got -> meta_key (peer_meta peer) = req -> Phase (peer_Status peer) = NodePhasePending ->
  safe (leaveNetwork vc peer req) (λ _, True).
Proof.
  intros Hg Hk Hp. unfold leaveNetwork.
  destruct (AllocatedAddress (peer_Status peer)) as [a|] eqn:Ea; [|by apply leave_labels_safe].
  assert (Namespace (peer_meta peer) = key_Namespace req) as -> by (by rewrite <- Hk).
  wp_use (ReleaseIP_safe a); [by rewrite <- Hg|].
  intros [err|[]] _; [done|by apply leave_labels_safe].
Qed.

(** *** The phases *)

Lemma set_phase_change s ph : phase_step (Phase s) ph -> safe (set_phase ph s) (λ s', status_change s s').
Proof. intros Hs. by split. Qed.

Lemma handleInitialization_safe vc peer :
  meta_key (peer_meta peer) = req -> ~ known_phase (Phase (peer_Status peer)) ->
  safe (handleInitialization vc peer req) (λ _, True).
Proof.
  intros Hk Hp. unfold handleInitialization. apply wp_bind.
  eapply wp_mono; [by apply ensureKeys_safe|].
  intros [[err|[]] p] [Hk' Hs]; simpl in Hk', Hs; [done..|].
  apply wp_bind. eapply wp_mono; [apply updateStatus_safe; [done|]|by intros [[err|b] p'] _].
  eapply wp_mono; [apply (mark_safe _ _ _ _ (status_with_phase (peer_Status p) NodePhasePending))|].
  intros s (E1 & E2 & E3). unfold status_change, addressed. rewrite E1, E2, E3, Hs.
  split; [done|by constructor].
Qed.

Lemma handlePending_safe vc peer :
  peer = got -> meta_key (peer_meta peer) = req -> Phase (peer_Status peer) = NodePhasePending ->
  safe (handlePending vc peer req) (λ _, True).
Proof.
  intros Hg Hk Hp. unfold handlePending.
  destruct (Network (peer_Spec peer)) as [n|] eqn:En, (ActiveNetwork (peer_Status peer)) as [a|].
  - destruct (negb _); [by apply leaveNetwork_safe|].
    apply joinNetwork_safe; [done|done|by rewrite En].
  - apply joinNetwork_safe; [done|done|by rewrite En].
  - by apply leaveNetwork_safe.
  - apply wp_bind. eapply wp_mono; [apply updateStatus_safe; [done|apply set_phase_change]|].
    + rewrite Hp. constructor.
    + intros [[err|b] p'] Hk'; [done|by apply lastReconcile_safe].
Qed.

Lemma handleReady_safe vc peer :
  meta_key (peer_meta peer) = req -> Phase (peer_Status peer) = NodePhaseReady ->
  safe (handleReady vc peer req) (λ _, True).
Proof.
  intros Hk Hp. unfold handleReady. destruct (need_transition peer); [|by apply lastReconcile_safe].
  apply wp_bind. eapply wp_mono; [apply updateStatus_safe; [done|apply set_phase_change]|].
  - rewrite Hp. apply phase_again.
  - by intros [[err|b] p'] _.
Qed.

Lemma handleFailed_safe vc peer :
  meta_key (peer_meta peer) = req -> Phase (peer_Status peer) = NodePhaseFailed ->
  safe (handleFailed vc peer req) (λ _, True).
Proof.
  intros Hk Hp. unfold handleFailed.
  apply wp_bind. eapply wp_mono; [apply updateStatus_safe; [done|apply set_phase_change]|].
  - rewrite Hp. apply phase_retry.
  - by intros [[err|b] p'] _.
Qed.

Lemma handleDelete_safe vc peer :
  peer = got -> meta_key (peer_meta peer) = req -> safe (handleDelete vc peer) (λ _, True).
Proof.
  intros -> Hk. unfold handleDelete. destruct (negb _); [done|].
  split; [split; [done|by right]|]. by intros [err|p] _.
Qed.
End safety.

(** C13. When the selectors of the policies' rules parse, a reconcile of a peer does not panic,
    whatever else the cluster answers, and stays within its own objects: it updates only the
    finalizer of that peer; its patches of the peer add keys only where there are none and
    change no label but those of networks, putting the peer in at most one; its status patches
    follow the phase machine (a new peer becomes Pending, Pending becomes Ready or Failed, both
    of those only Pending again) and never record a network without an address; it applies only
    the peer's own config map, creates endpoints only for that peer and deletes only the
    endpoint of the address that the peer's status records. *)
Theorem Reconcile_safe `{IPv6Text, LabelSelectors, MapRange} vc req got :
  wp (peer_env got) (peer_calls req got) (Reconcile vc req) (λ _, True).
Proof.
  unfold Reconcile. wp_ask. intros [err|peer] [_ Hk].
  { by destruct (IsNotFound err). }
  simpl in Hk. destruct (Hk _ eq_refl) as [Hkey Hgot]. clear Hk. rename Hkey into Hk. change (meta_key (peer_meta peer) = req) in Hk.
  destruct (DeletionTimestamp (peer_meta peer)).
  { destruct (ContainsFinalizer _ _); [by apply handleDelete_safe|done]. }
  destruct (ContainsFinalizer (peer_meta peer) finalizerName) eqn:Hf; cbn [negb].
  2: { apply wp_bind, wp_call; [|by intros [err|p] _]. simpl. subst peer. unfold AddFinalizer. rewrite Hf. split; [done|by left]. }
  case_bool_decide; [done|].
  case_bool_decide as P1.
  { apply handleInitialization_safe; [done|]. rewrite P1. by intros [?|[?|?]]. }
  case_bool_decide as P2; [by apply handlePending_safe|].
  case_bool_decide as P3; [by apply handleReady_safe|].
  case_bool_decide as P4; [by apply handleFailed_safe|].
  apply handleInitialization_safe; [done|]. by intros [?|[?|?]].
Qed.

(** Shadow peers belong to the peering controllers: once it carries the
    finalizer, a reconcile of one changes nothing. *)
Theorem Reconcile_shadow `{IPv6Text, LabelSelectors, MapRange} vc req got :
  wp (λ T e r, peer_env got T e r /\
        match e in apiE T return T -> Prop with
        | AGet k _ =>
            match k return gresult (obj k) -> Prop with
            | KPeer => λ r, forall p, r = inr p -> DeletionTimestamp (peer_meta p) = None /\
                finalizerName ∈ Finalizers (peer_meta p) /\
                Labels (peer_meta p) !! LabelShadow = Some "true"
            | _ => λ _, True
            end
        | _ => λ _, True
        end r)
     read_call (Reconcile vc req) (λ r, r.2 = vc).
Proof.
  unfold Reconcile. wp_ask. intros [err|peer] [_ Hp].
  { by destruct (IsNotFound err). }
  destruct (Hp peer eq_refl) as (Hd & Hf & Hs). rewrite Hd. unfold ContainsFinalizer, str_get.
  rewrite bool_decide_true by done. cbn [negb]. by rewrite Hs.
Qed.

(** ** A peer that is up to date

    A cluster that answers every call by a fixed function, the clock apart. *)
Section up_to_date.
Context (rd : forall T, apiE T -> T).

Definition fixed_answers T (e : apiE T) (r : T) : Prop :=
  match e in apiE T return T -> Prop with ANow => λ _, True | e => λ r, r = rd _ e end r.

Definition eval {A} (p : kprog A) : option A := (run (λ T e (s : unit), (rd T e, s)) p tt).1.

Definition lookup_call T (e : apiE T) : Prop :=
  match e with AGet _ _ | AList _ _ => True | _ => False end.

Lemma eval_bind {A B} (p : kprog A) (f : A -> kprog B) :
  eval (p ≫= f) = eval p ≫= λ a, eval (f a).
Proof. unfold eval. induction p as [a| |T e k IH]; simpl; [done|done|]. apply IH. Qed.

(** A program that only looks things up returns what it evaluates to. *)
Lemma eval_wp {A} (p : kprog A) (Q : A -> Prop) :
  wp fixed_answers lookup_call p Q ->
  exists a, eval p = Some a /\ Q a /\ wp fixed_answers lookup_call p (λ b, b = a).
Proof.
  induction p as [a| |T e k IH]; simpl; [by exists a|done|]. intros [Hl Hk].
  assert (Hrd : fixed_answers T e (rd T e)) by (by destruct e).
  destruct (IH _ (Hk _ Hrd)) as (a & Ha & HQ & Hwp). exists a. split_and!; [done..|].
  intros r Hr. assert (r = rd T e) as -> by (by destruct e). done.
Qed.

Context `{IPv6Text, LabelSelectors, MapRange}.

Lemma getPeerStateSnapshot_lookups peer req :
  wp fixed_answers lookup_call (getPeerStateSnapshot peer req) (λ _, True).
Proof.
  unfold getPeerStateSnapshot.
  assert (Hp : forall snap, wp fixed_answers lookup_call (snapshot_policies snap) (λ _, True)).
  { intros snap. unfold snapshot_policies, filterPoliciesForNode.
    wp_ask. intros [e|l] _; cbn; [done|]. by destruct (matching_policies _ _ _). }
  destruct (Network (peer_Spec peer)); [|apply Hp].
  wp_ask. intros [e|net] _; [done|].
  wp_ask. intros [e|l] _; [done|apply Hp].
Qed.

(** The hash does not depend on the version or the time of generation. *)
Lemma generate_hash peer snapshot v0 v m :
  eval (generate peer snapshot v0) = Some (inr m) ->
  wp fixed_answers read_call (generate peer snapshot v)
    (λ r, exists m', r = inr m' /\ hashed_message m' = hashed_message m).
Proof.
  unfold generate. rewrite eval_bind. cbn [eval run call fst mbind option_bind].
  intros Hm. wp_ask. intros now _. cbv zeta in *.
  destruct (ResolvePeers _ _ _) as [[err|computed]|]; [done| |done].
  rewrite eval_bind in Hm.
  destruct (eval_wp (build_policies (snap_Policies snapshot)) (λ _, True)) as (ps & Eps & _ & Hps).
  { by apply build_policies_reads. }
  rewrite Eps in Hm. apply wp_bind.
  eapply wp_mono; [eapply wp_weaken; [| |exact Hps]; [done|by intros T []]|].
  intros ? ->. cbn in Hm |- *. injection Hm as <-. by eexists.
Qed.

Lemma generate_version peer snapshot v v' m :
  eval (generate peer snapshot v) = Some (inr m) ->
  exists m', eval (generate peer snapshot v') = Some (inr m') /\ hashed_message m' = hashed_message m.
Proof.
  unfold generate. rewrite !eval_bind. cbn [eval run call fst mbind option_bind]. cbv zeta.
  destruct (ResolvePeers _ _ _) as [[err|computed]|]; [done| |done].
  rewrite !eval_bind. destruct (eval (build_policies _)) as [ps|]; cbn [mbind option_bind]; [|done].
  destruct (Evaluate _ _ ps) as [err|fw]; [done|]. intros Hm. eexists. split; [reflexivity|]. by injection Hm as <-.
Qed.

Definition desired_hash (peer : LatticePeer) (req : Request) : option string :=
  eval (snapshot ← getPeerStateSnapshot peer req;
        message ← generate peer snapshot "";
        mret (match message with
              | inr m => match computeMessageHash m with inr h => h | inl _ => "" end
              | inl _ => ""
              end)).

(** Reads, and the in-memory owner reference. *)
Definition quiet_call T (e : apiE T) : Prop :=
  match e with ASetControllerReference _ _ => True | _ => read_call T e end.

Lemma quiet_lookups {A} (p : kprog A) Q :
  wp fixed_answers lookup_call p Q -> wp fixed_answers quiet_call p Q.
Proof. apply wp_weaken; [done|]. by intros T []. Qed.

Lemma lastReconcile_quiet vc peer req cm :
  desired_hash peer req = Some (CurrentHash (peer_Status peer)) ->
  rd _ (AGet KConfigMap {| key_Namespace := Namespace (peer_meta peer);
                           key_Name := Name (peer_meta peer) +:+ "-config" |}) = inr cm ->
  (forall a b, exists m, rd _ (ASetControllerReference a b) = inr m) ->
  wp fixed_answers quiet_call (lastReconcile vc peer req) (λ r, r.1 = inr 0).
Proof.
  intros Hh Hcm Hown. unfold desired_hash in Hh. rewrite eval_bind in Hh. unfold lastReconcile.
  destruct (eval_wp _ _ (getPeerStateSnapshot_lookups peer req)) as (snap & Es & _ & Hs).
  rewrite Es in Hh. cbn [mbind option_bind] in Hh. rewrite eval_bind in Hh.
  apply wp_bind. eapply wp_mono; [by apply quiet_lookups|]. intros ? ->.
  cbn [generateConfigVersion]. apply wp_bind.
  destruct (eval (generate peer snap "")) as [[err|m]|] eqn:Em; [|idtac|done].
  { exfalso. clear -Em. unfold generate in Em. rewrite eval_bind in Em.
    cbn [eval run call fst mbind option_bind] in Em.
    destruct (ResolvePeers _ _ _) as [[e|c]|] eqn:Er; [|idtac|done].
    - unfold ResolvePeers in Er. by destruct (GetComputedPeers _ _ _).
    - rewrite eval_bind in Em. by destruct (eval (build_policies _)). }
  eapply wp_mono; [eapply wp_weaken; [| |exact (generate_hash _ _ _ _ _ Em)]; [done|by intros T []]|].
  intros r (m' & -> & Hm'). unfold computeMessageHash in *. rewrite Hm'.
  wp_ask. intros owned ->.
  destruct (Hown (peer_meta peer) (cm_meta (newConfigmap (Namespace (peer_meta peer))
    (Name (peer_meta peer) +:+ "-config") (Message_String m') (hex_encode (Sum256 (hashed_message m))))))
    as [meta ->].
  wp_ask. intros found ->. rewrite Hcm.
  injection Hh as Hh. by rewrite bool_decide_true.
Qed.
End up_to_date.

(** A peer that is ready, in the network it asks for, and whose recorded hash is the one of the
    configuration the cluster's state calls for now is left alone. *)
Lemma Reconcile_settled `{IPv6Text, LabelSelectors, MapRange} (rd : forall T, apiE T -> T) vc req peer cm :
  rd _ (AGet KPeer req) = inr peer -> meta_key (peer_meta peer) = req ->
  DeletionTimestamp (peer_meta peer) = None -> finalizerName ∈ Finalizers (peer_meta peer) ->
  str_get (Labels (peer_meta peer)) LabelShadow <> "true" ->
  Phase (peer_Status peer) = NodePhaseReady ->
  Network (peer_Spec peer) = ActiveNetwork (peer_Status peer) ->
  rd _ (AGet KConfigMap (config_key req)) = inr cm ->
  (forall a b, exists m, rd _ (ASetControllerReference a b) = inr m) ->
  desired_hash rd peer req = Some (CurrentHash (peer_Status peer)) ->
  wp (fixed_answers rd) quiet_call (Reconcile vc req) (λ r, r.1 = inr 0).
Proof.
  intros Hp Hk Hd Hf Hs Hph Hnet Hcm Hown Hh. unfold Reconcile.
  wp_ask. intros got ->. rewrite Hp, Hd.
  unfold ContainsFinalizer. rewrite (bool_decide_true (finalizerName ∈ _)) by done. cbn [negb].
  rewrite (bool_decide_false (str_get _ _ = _)), Hph by done.
  change (wp (fixed_answers rd) quiet_call (handleReady vc peer req) (λ r, r.1 = inr 0)).
  unfold handleReady, need_transition. rewrite Hnet, bool_decide_true by done. cbn [negb].
  eapply lastReconcile_quiet; [done| |done]. rewrite <- Hcm. unfold config_key. by rewrite <- Hk.
Qed.

(** *** Two orders of map iteration

    Of what is hashed, the routes of an annotated peer and the flows of a firewall chain come
    out of a map as it is iterated; one of either is the same in every order. *)
Section orders.
Context (r0 r1 : MapRange).

Definition few_routes (p : LatticePeer) : Prop := (length (@extra_routes r0 (Annotations (peer_meta p))) <= 1)%nat.
(** A chain ends with the rule that drops the rest. *)
Definition few_flows (m : Message) : Prop :=
  forall fw, m_ComputedRules m = Some fw -> (length (fw_Ingress fw) <= 2 /\ length (fw_Egress fw) <= 2)%nat.

Lemma short_perm {A} (l1 l2 : list A) : l1 ≡ₚ l2 -> (length l1 <= 1)%nat -> l2 = l1.
Proof using Type.
  intros Hp Hl. destruct l1 as [|x [|y l1]]; simpl in Hl; [by apply Permutation_nil|by apply Permutation_singleton_l in Hp|lia].
Qed.
Lemma sort_by_id_perm l1 l2 : l1 ≡ₚ l2 -> sort_by id l1 = sort_by id l2.
Proof using Type.
  intros Hp. apply (StronglySorted_unique_strong (key_le id)); [|apply sort_by_sorted..|by rewrite !sort_by_perm].
  intros x y _ _ H1 H2. by apply (anti_symm String.le).
Qed.
Lemma go_ranges {K} `{Countable K} {V} (m : gmap K V) : @go_range r0 _ _ _ _ m ≡ₚ @go_range r1 _ _ _ _ m.
Proof using Type. by rewrite !go_range_perm. Qed.

Lemma transferToPeer_order p : few_routes p -> @transferToPeer r1 p = @transferToPeer r0 p.
Proof using Type.
  intros Hf. unfold transferToPeer, peer_allowed_ips.
  replace (@extra_routes r1 (Annotations (peer_meta p))) with (@extra_routes r0 (Annotations (peer_meta p))); [done|].
  symmetry. apply short_perm; [|done]. unfold extra_routes. by rewrite go_ranges.
Qed.

Lemma snapshot_network_order snapshot :
  Forall few_routes (snap_Peers snapshot) -> @snapshot_network r1 snapshot = @snapshot_network r0 snapshot.
Proof using Type.
  intros Hf. unfold snapshot_network. destruct (snap_Network snapshot); [|done]. f_equal. f_equal.
  apply list_fmap_ext. intros i p Hp. apply transferToPeer_order. rewrite Forall_forall in Hf. apply Hf.
  apply list_elem_of_lookup_2, list_elem_of_filter in Hp. tauto.
Qed.

Definition keyed (m : gmap string InfraPeer) : Prop := forall n p, m !! n = Some p -> n = ip_Name p.
Lemma add_matched_keyed cur l : forall m, keyed m -> keyed (add_matched cur m l).
Proof using Type.
  induction l as [|q l IH]; intros m Hm; simpl; [done|]. apply IH. case_bool_decide; [done|].
  intros n p [[<- <-]|[_ Hl]]%lookup_insert_Some; [done|by apply Hm].
Qed.
Lemma add_selections_keyed `{LabelSelectors} cur all sels : forall m m',
  keyed m -> add_selections cur all sels m = Some m' -> keyed m'.
Proof using Type.
  induction sels as [|sel sels IH]; intros m m' Hm; simpl; [by intros [= <-]|].
  destruct (resolveSelectionToPeers sel all); simpl; [|done]. apply IH. by apply add_matched_keyed.
Qed.
Lemma add_policies_keyed `{LabelSelectors} cur all ps : forall m m',
  keyed m -> add_policies cur all ps m = Some m' -> keyed m'.
Proof using Type.
  induction ps as [|p ps IH]; intros m m' Hm; simpl; [by intros [= <-]|].
  destruct (matchLabels _ _) as [[]|]; simpl; [|by apply IH|done].
  destruct (add_selections _ _ _ _) as [m1|] eqn:E; simpl; [|done]. apply IH. by eapply add_selections_keyed.
Qed.
Lemma ResolvePeers_order `{LabelSelectors} cur net ps : @ResolvePeers _ r1 cur net ps = @ResolvePeers _ r0 cur net ps.
Proof using Type.
  unfold ResolvePeers, GetComputedPeers. destruct (add_policies _ _ _ _) as [m|] eqn:E; simpl; [|done].
  assert (Hk : keyed m) by (eapply add_policies_keyed; [|exact E]; intros n p; by rewrite lookup_empty).
  do 2 f_equal. apply sort_by_unique; [|by rewrite go_ranges].
  rewrite (@keyed_names r1 m Hk), go_range_perm. apply NoDup_fst_map_to_list.
Qed.

Lemma emit_chain_order chain d : (length (@emit_chain r0 chain d) <= 2)%nat -> @emit_chain r1 chain d = @emit_chain r0 chain d.
Proof using Type.
  unfold emit_chain. rewrite length_app, length_fmap. simpl. intros Hl.
  rewrite (short_perm (@go_range r0 _ _ _ _ d) (@go_range r1 _ _ _ _ d)); [done|apply go_ranges|lia].
Qed.
Lemma Evaluate_order cur net ps fw : @Evaluate r0 (Some cur) (Some net) ps = inr fw ->
  (length (fw_Ingress fw) <= 2 /\ length (fw_Egress fw) <= 2)%nat -> @Evaluate r1 (Some cur) (Some net) ps = inr fw.
Proof using Type. intros [= <-] [Hi He]. unfold Evaluate. simpl in Hi, He. by rewrite !emit_chain_order. Qed.

Section rd.
Context `{IPv6Text, LabelSelectors} (rd : forall T, apiE T -> T).

Lemma getPeerNames_order ns net sels :
  eval rd (@getPeerNamesByLabels _ r1 ns net sels) = eval rd (@getPeerNamesByLabels _ r0 ns net sels).
Proof using Type.
  unfold getPeerNamesByLabels, try_bind. rewrite !eval_bind. destruct (eval rd (find_peer_names _ _ _ _)) as [r|]; [|done]. destruct r as [err|m]; [done|].
  simpl. unfold eval. simpl. do 2 f_equal. apply sort_by_id_perm. by rewrite go_ranges.
Qed.
Lemma build_rules_order src action rules :
  eval rd (@build_rules _ r1 src action rules) = eval rd (@build_rules _ r0 src action rules).
Proof using Type.
  induction rules as [|[sels ports] rules IH]; simpl; [done|]. rewrite !eval_bind, getPeerNames_order.
  destruct (eval rd (getPeerNamesByLabels _ _ _)) as [[err|names]|]; simpl; [done| |done]. by rewrite !eval_bind, IH.
Qed.
Lemma build_policies_order ps : eval rd (@build_policies _ r1 ps) = eval rd (@build_policies _ r0 ps).
Proof using Type.
  assert (Hb : forall p, eval rd (@buildPolicy _ r1 p) = eval rd (@buildPolicy _ r0 p)).
  { intros p. unfold buildPolicy. rewrite !eval_bind, build_rules_order. destruct (eval rd (build_rules _ _ _)); simpl; [|done].
    by rewrite !eval_bind, build_rules_order. }
  induction ps as [|p ps IH]; simpl; [done|]. rewrite !eval_bind, Hb. destruct (eval rd (buildPolicy p)); simpl; [|done].
  by rewrite !eval_bind, IH.
Qed.

(** The same message, but for its version. *)
Lemma generate_order peer snapshot v m :
  few_routes peer -> Forall few_routes (snap_Peers snapshot) -> few_flows m ->
  eval rd (@generate _ r0 peer snapshot v) = Some (inr m) -> eval rd (@generate _ r1 peer snapshot v) = Some (inr m).
Proof using Type.
  intros Hp Hs Hf. unfold generate. rewrite !eval_bind. cbn [eval run call fst mbind option_bind]. cbv zeta.
  rewrite snapshot_network_order, transferToPeer_order, ResolvePeers_order by done.
  set (cur := peer_with_labels _ _). set (net := snapshot_network _).
  destruct (ResolvePeers cur net _) as [[err|computed]|]; [done| |done].
  rewrite !eval_bind, build_policies_order. destruct (eval rd (build_policies _)) as [ps|]; cbn [mbind option_bind]; [|done].
  destruct (@Evaluate r0 (Some cur) (Some net) ps) as [err|fw] eqn:Ef; [done|]. intros Hm.
  assert (Hfw : m_ComputedRules m = Some fw) by (by injection Hm as <-).
  by rewrite (Evaluate_order _ _ _ _ Ef (Hf fw Hfw)).
Qed.
End rd.
End orders.

(** C15. A peer that is ready, in the network it asks for, is not a shadow or being deleted, has
    the finalizer and its config map, and whose recorded hash is that of the configuration which
    the cluster's state called for when maps were iterated in the order [r0], is left alone: a
    reconcile only reads, whatever the time and the version counter are, and asks for no
    requeue. So it is when maps are iterated in that order again, and in every other order
    ([r1]) as long as no firewall chain has more than one flow beside its last rule and no peer
    more than one route annotation; with more of them the hash changes with the order
    ([order_changes_hash]). *)
Theorem Reconcile_up_to_date `{IPv6Text, LabelSelectors} (rd : forall T, apiE T -> T) (r0 r1 : MapRange) vc req peer cm snapshot v m :
  rd _ (AGet KPeer req) = inr peer -> meta_key (peer_meta peer) = req ->
  DeletionTimestamp (peer_meta peer) = None -> finalizerName ∈ Finalizers (peer_meta peer) ->
  str_get (Labels (peer_meta peer)) LabelShadow <> "true" ->
  Phase (peer_Status peer) = NodePhaseReady ->
  Network (peer_Spec peer) = ActiveNetwork (peer_Status peer) ->
  rd _ (AGet KConfigMap (config_key req)) = inr cm ->
  (forall a b, exists m, rd _ (ASetControllerReference a b) = inr m) ->
  eval rd (getPeerStateSnapshot peer req) = Some snapshot ->
  eval rd (@generate _ r0 peer snapshot v) = Some (inr m) ->
  computeMessageHash m = inr (CurrentHash (peer_Status peer)) ->
  r1 = r0 \/ few_routes r0 peer /\ Forall (few_routes r0) (snap_Peers snapshot) /\ few_flows m ->
  wp (fixed_answers rd) quiet_call (@Reconcile _ _ r1 vc req) (λ r, r.1 = inr 0).
Proof.
  intros Hp Hk Hd Hf Hs Hph Hnet Hcm Hown Hsnap Hgen Hh Hor.
  apply (@Reconcile_settled _ _ r1 rd vc req peer cm); try done.
  assert (Hg : eval rd (@generate _ r1 peer snapshot v) = Some (inr m)).
  { destruct Hor as [->|(H1 & H2 & H3)]; [done|by apply generate_order with (r0 := r0)]. }
  unfold desired_hash. rewrite eval_bind, Hsnap. cbn [mbind option_bind]. rewrite eval_bind.
  destruct (generate_version rd peer snapshot v "" m Hg) as (m' & -> & E).
  change (Some (match computeMessageHash m' with inr h => h | inl _ => "" end) = Some (CurrentHash (peer_Status peer))).
  unfold computeMessageHash in *. rewrite E. by injection Hh as ->.
Qed.

Definition settled_peer (hash : string) : LatticePeer := {|
  peer_meta := meta_with_finalizers (new_meta "ws" "a") [finalizerName];
  peer_Spec := {| AppId := "a"; InterfaceName := "wg0"; Platform := "linux"; PrivateKey := "k";
    PublicKey := "K"; AllowedIPs := []; DNSServers := []; MTU := 0; PeerId := "7";
    Network := None; NetworkPolicies := []; WrrpUrl := ""; WrrpQuicUrl := "" |};
  peer_Status := {| Conditions := []; PeerStatus := ""; Phase := NodePhaseReady; ActiveKey := "";
    ActiveNetwork := None; ActiveNetworkPolicies := []; AllocatedAddress := None;
    ConnSummary := {| cs_Total := 0; cs_Connected := 0; cs_Disconnected := 0 |}; LastSyncTime := None;
    CurrentHash := hash; ObservedGeneration := 0 |} |}.

Definition sample_config : ConfigMap := {| cm_meta := new_meta "ws" "a-config"; cm_Data := ∅ |}.
Definition key_a : Request := {| key_Namespace := "ws"; key_Name := "a" |}.
Definition not_served : gerror := ErrStatus NotFound "not found".

(** A cluster with one peer and its config map. *)
Definition settled_cluster (hash : string) T (e : apiE T) : T :=
  match e in apiE T return T with
  | AGet k _ =>
      match k return gresult (obj k) with
      | KPeer => inr (settled_peer hash)
      | KConfigMap => inr sample_config
      | _ => inl not_served
      end
  | AList _ _ => inr []
  | ACreate _ o | AUpdate _ o | AStatusUpdate _ o | AApply _ o => inr o
  | APatch _ _ n | AStatusPatch _ _ n => inr n
  | ADelete _ _ => inr tt
  | ASetControllerReference _ m => inr m
  | ANow => 0
  | AGenerateKey => inl not_served
  | AEvent _ _ _ => tt
  end.

(** Two orders: the second is the first, backwards. *)
Definition settled_snapshot (hash : string) : PeerStateSnapshot := {|
  snap_Peer := settled_peer hash; snap_Network := None; snap_Policies := []; snap_Peers := []; snap_Labels := ∅ |}.
Definition settled_message (hash : string) : Message :=
  match eval (settled_cluster hash) (@generate plain_selectors range_in_order (settled_peer hash) (settled_snapshot hash) "v1") with
  | Some (inr m) => m
  | _ => {| m_EventType := EventTypeNodeUpdate; m_ConfigVersion := ""; m_Timestamp := 0; m_Changes := None; m_Current := None;
            m_Network := None; m_Policies := []; m_ComputedPeers := []; m_ComputedRules := None; m_Labels := ∅ |}
  end.
Definition settled_hash : string :=
  Eval vm_compute in match computeMessageHash (settled_message "") with inr h => h | inl _ => "" end.

Lemma Reconcile_up_to_date_witness :
  wp (fixed_answers (settled_cluster settled_hash)) quiet_call
    (@Reconcile {| parse_ipv6 := λ _, None; show_ipv6 := λ _, "" |} plain_selectors range_reversed 7 key_a)
    (λ r, r.1 = inr 0).
Proof.
  apply (@Reconcile_up_to_date {| parse_ipv6 := λ _, None; show_ipv6 := λ _, "" |} plain_selectors
    (settled_cluster settled_hash) range_in_order range_reversed 7 key_a (settled_peer settled_hash) sample_config
    (settled_snapshot settled_hash) "v1" (settled_message settled_hash));
    [reflexivity|reflexivity|reflexivity|by apply list_elem_of_singleton|done|reflexivity..| | | | |].
  - intros a b. by eexists.
  - vm_compute. reflexivity.
  - vm_compute. reflexivity.
  - vm_compute. reflexivity.
  - right. split; [vm_compute; lia|]. split; [constructor|]. intros fw E. vm_compute in E. injection E as <-. simpl. lia.
Defined.

(** One policy with two ports, and the peer it selects. *)
Definition two_port_policy : LatticePolicy := {|
  pol_meta := pol_meta resolver_policy;
  pol_Spec := {| pol_Network := "net"; pol_PeerSelector := app_selector "web"; pol_Ingress := [];
    pol_Egress := [{| eg_To := [{| sel_PeerSelector := Some (app_selector "db"); sel_IPBlock := None |}];
                      eg_Ports := [{| npp_Port := 80; npp_Protocol := "TCP" |}; {| npp_Port := 443; npp_Protocol := "TCP" |}] |}];
    pol_Action := "ALLOW" |};
  pol_Status := pol_Status resolver_policy |}.
Definition two_port_snapshot : PeerStateSnapshot := {|
  snap_Peer := snap_Peer gen_snapshot; snap_Network := snap_Network gen_snapshot; snap_Policies := [two_port_policy];
  snap_Peers := snap_Peers gen_snapshot; snap_Labels := snap_Labels gen_snapshot |}.
Definition hash_in_order (r : MapRange) : option string :=
  match (run gen_answers (@generate plain_selectors r (snap_Peer gen_snapshot) two_port_snapshot "v1") tt).1 with
  | Some (inr m) => match computeMessageHash m with inr h => Some h | inl _ => None end
  | _ => None
  end.
Example order_changes_hash :
  exists h1 h2, hash_in_order range_in_order = Some h1 /\ hash_in_order range_reversed = Some h2 /\ h1 <> h2.
Proof. do 2 eexists. split; [vm_compute; reflexivity|]. split; [vm_compute; reflexivity|done]. Qed.
