(* ===== verification/ResourceControllers.v ===== *)
(** * ResourceControllers: networks, policies, enrollment tokens and relays
    ([internal/agent/controller]: [network_controller.go],
    [networkpolicy_controller.go], [token_controller.go], [relay_controller.go]) *)

From S2P Require Import Prelude Prog Net Api Ipam ControllerUtils.

(** ** Networks *)

Module NetworkReconciler.

Definition network_with_status (n : LatticeNetwork) (s : LatticeNetworkStatus) : LatticeNetwork :=
  {| net_meta := net_meta n; net_Spec := net_Spec n; net_Status := s |}.

Definition with_phase (s : LatticeNetworkStatus) (ph : string) : LatticeNetworkStatus := {|
  net_Phase := ph; net_Conditions := net_Conditions s; net_ActiveCIDR := net_ActiveCIDR s;
  net_AllocatedCount := net_AllocatedCount s; net_AvailableIPs := net_AvailableIPs s;
  net_ObservedGeneration := net_ObservedGeneration s |}.
Definition with_cidr (s : LatticeNetworkStatus) (cidr : string) : LatticeNetworkStatus := {|
  net_Phase := net_Phase s; net_Conditions := net_Conditions s; net_ActiveCIDR := cidr;
  net_AllocatedCount := net_AllocatedCount s; net_AvailableIPs := net_AvailableIPs s;
  net_ObservedGeneration := net_ObservedGeneration s |}.
Definition with_count (s : LatticeNetworkStatus) (n : Z) : LatticeNetworkStatus := {|
  net_Phase := net_Phase s; net_Conditions := net_Conditions s; net_ActiveCIDR := net_ActiveCIDR s;
  net_AllocatedCount := n; net_AvailableIPs := net_AvailableIPs s;
  net_ObservedGeneration := net_ObservedGeneration s |}.

(** The patch goes out whether or not it changes anything, and the caller's
    network keeps its old status. *)
Definition network_updateStatus (network : LatticeNetwork)
    (updateFunc : LatticeNetworkStatus -> LatticeNetworkStatus) : kprog (gresult bool) :=
  let networkCopy := network_with_status network (updateFunc (net_Status network)) in
  r ← call (AStatusPatch KNetwork network networkCopy);
  match r with
  | inl err => if IsConflict err then mret (inr false) else mret (inl err)
  | inr stored =>
      if negb (bool_decide (net_Status stored = net_Status network)) then mret (inr true)
      else mret (inr false)
  end.

Definition findNodesByLabels (network : LatticeNetwork) : kprog (gresult (list LatticePeer)) :=
  call (AList KPeer {| list_Namespace := Some (Namespace (net_meta network)); list_Selector := None;
    list_Labels := {[ "alattice.io/network-" +:+ Name (net_meta network) := "true" ]} |}).

Definition count_peers (network : LatticeNetwork) : kprog (gresult ctrl_Result) :=
  peers ←? findNodesByLabels network;
  let count := Z.of_nat (length peers) in
  if negb (net_AllocatedCount (net_Status network) =? count) then
    _ ←? network_updateStatus network (λ s, with_count s count);
    mret (inr no_requeue)
  else mret (inr no_requeue).

Definition pool_key : NamespacedName := {| key_Namespace := ""; key_Name := "lattice-ip-pool" |}.

Definition assign_subnet `{IPv6Text} (network : LatticeNetwork) : kprog (gresult ctrl_Result) :=
  if bool_decide (net_ActiveCIDR (net_Status network) = "") then
    pool ←? call (AGet KPool pool_key);
    cidr ←? AllocateSubnet (Name (net_meta network)) pool;
    updated ←? network_updateStatus network (λ s, with_phase (with_cidr s cidr) NetworkPhaseReady);
    if (updated : bool) then mret (inr no_requeue) else count_peers network
  else count_peers network.

Definition network_Reconcile `{IPv6Text} (req : NamespacedName) : kprog (gresult ctrl_Result) :=
  got ← call (AGet KNetwork req);
  match got with
  | inl err => mret (if IsNotFound err then inr no_requeue else inl err)
  | inr network =>
      if bool_decide (net_Phase (net_Status network) = "") then
        _ ←? network_updateStatus network (λ s, with_phase s NetworkPhaseCreating);
        assign_subnet network
      else assign_subnet network
  end.

Definition mapNodeForNetworks `{MapRange} (node : LatticePeer) : list NamespacedName :=
  let from_labels := omap (λ kv : string * string,
    if has_prefix "alattice.io/network-" kv.1 && bool_decide (kv.2 = "true")
    then Some (trim_prefix kv.1 "alattice.io/network-") else None) (go_range (Labels (peer_meta node))) in
  (λ n, {| key_Namespace := Namespace (peer_meta node); key_Name := n |}) <$>
    (option_list (Network (peer_Spec node)) ++ from_labels).

(** *** What a reconcile may do *)

(** A subnet, once assigned, stays; a network turns Ready with a subnet only. *)
Definition network_status_ok (req : NamespacedName) (base new : LatticeNetwork) : Prop :=
  meta_key (net_meta new) = req /\ net_Spec new = net_Spec base /\
  (net_ActiveCIDR (net_Status base) <> "" ->
    net_ActiveCIDR (net_Status new) = net_ActiveCIDR (net_Status base)) /\
  (net_Phase (net_Status new) = NetworkPhaseReady ->
    net_Phase (net_Status base) = NetworkPhaseReady \/ net_ActiveCIDR (net_Status new) <> "").

Definition network_calls (req : NamespacedName) T (e : apiE T) : Prop :=
  match e with
  | AGet _ _ | AList _ _ | ASetControllerReference _ _ => True
  | ACreate k o => match k return obj k -> Prop with
                   | KSubnet => λ s, sa_NetworkName (sa_Spec s) = key_Name req
                   | _ => λ _, False
                   end o
  | AStatusPatch k b n => match k return obj k -> obj k -> Prop with
                          | KNetwork => network_status_ok req
                          | _ => λ _ _, False
                          end b n
  | _ => False
  end.

Definition network_env T (e : apiE T) (r : T) : Prop :=
  api_answers T e r /\
  match e in apiE T return T -> Prop with
  | AGet k key => λ r, forall o, r = inr o -> obj_key k o = key
  | _ => λ _, True
  end r.

Section safety.
Context `{IPv6Text} (req : NamespacedName).
Abbreviation safe p Q := (wp network_env (network_calls req) p Q).

Lemma network_updateStatus_safe network f :
  network_status_ok req network (network_with_status network (f (net_Status network))) ->
  safe (network_updateStatus network f) (λ _, True).
Proof.
  intros Hok. wp_ask. intros [err|stored] _; cbn.
  - by destruct (IsConflict err).
  - by destruct (bool_decide _).
Qed.

Lemma count_peers_safe network : meta_key (net_meta network) = req -> safe (count_peers network) (λ _, True).
Proof.
  intros Hk. wp_ask. intros [err|peers] _; [done|]. cbv beta iota zeta.
  destruct (negb _); [|done]. apply wp_try.
  eapply wp_mono; [apply network_updateStatus_safe|by intros []].
  split_and!; simpl; [done..|]. tauto.
Qed.

Lemma AllocateSubnet_safe networkName pool :
  networkName = key_Name req ->
  safe (AllocateSubnet networkName pool) (λ r, forall cidr, r = inr cidr -> cidr <> "").
Proof.
  intros ->. unfold AllocateSubnet. generalize maxRetries as n. induction n as [|n IH]; simpl; [done|].
  apply wp_bind. unfold FindFirstFree. destruct (net_ParseCIDR _) as [[ip ipnet]|]; [|done].
  wp_ask. intros [err|items] _; [done|].
  destruct (ip_Mask ip (net_Mask ipnet)) as [start|]; [|done]. cbv beta iota. cbn [wp].
  match goal with |- context [scan_subnets ?a ?b ?c ?d ?e] =>
    destruct (scan_subnets a b c d e) as [err|sub] end; [intros ? [=]|].
  split; [exact I|]. intros [err|m] _; [intros ? [=]|]. split; [reflexivity|].
  intros [err|o] _; [destruct (IsAlreadyExists err); [apply IH|done]|].
  intros cidr [= <-]. unfold subnet_cidr. by destruct (ip_String sub).
Qed.

Lemma assign_subnet_safe network :
  meta_key (net_meta network) = req -> safe (assign_subnet network) (λ _, True).
Proof.
  intros Hk. unfold assign_subnet. case_bool_decide as Hc; [|by apply count_peers_safe].
  wp_ask. intros [err|pool] _; [done|].
  apply wp_try. eapply wp_mono; [apply AllocateSubnet_safe; by rewrite <- Hk|].
  intros [err|cidr] Hcidr; [done|]. specialize (Hcidr _ eq_refl).
  wp_use network_updateStatus_safe.
  - split_and!; simpl; [done..|]. tauto.
  - intros [err|[]] _; [done|done|by apply count_peers_safe].
Qed.
End safety.

(** Reconciling a network only patches that network's status and creates
    subnet allocations in its name; an assigned subnet is never changed or
    cleared, and the phase becomes Ready only together with a subnet. *)
Theorem network_Reconcile_safe `{IPv6Text} req :
  wp network_env (network_calls req) (network_Reconcile req) (λ _, True).
Proof.
  unfold network_Reconcile. wp_ask. intros [err|network] [_ Hk].
  { cbn. by destruct (IsNotFound err). }
  specialize (Hk _ eq_refl). change (meta_key (net_meta network) = req) in Hk.
  case_bool_decide as Hp; [|by apply assign_subnet_safe].
  wp_use network_updateStatus_safe.
  - split_and!; simpl; try done.
  - intros [err|b] _; [done|by apply assign_subnet_safe].
Qed.

End NetworkReconciler.

(** ** Policies *)

Module NetworkPolicyReconciler.

Definition policy_Reconcile `{LabelSelectors} (req : NamespacedName) : kprog (gresult ctrl_Result) :=
  got ← call (AGet KPolicy req);
  match got with
  | inl err => mret (if IsNotFound err then inr no_requeue else inl err)
  | inr policy =>
      match LabelSelectorAsSelector (Some (pol_PeerSelector (pol_Spec policy))) with
      | inl err => mret (inl err)
      | inr _ =>
          peerList ←? call (AList KPeer {| list_Namespace := Some (key_Namespace req);
            list_Selector := Some (pol_PeerSelector (pol_Spec policy)); list_Labels := ∅ |});
          let ruleCount := Z.of_nat (length (pol_Ingress (pol_Spec policy)) +
                                     length (pol_Egress (pol_Spec policy))) in
          _ ←? call (AStatusPatch KPolicy policy
            {| pol_meta := pol_meta policy; pol_Spec := pol_Spec policy;
               pol_Status := {| pol_TargetNodes := Z.of_nat (length peerList);
                                pol_RuleCount := ruleCount |} |});
          mret (inr no_requeue)
      end
  end.

End NetworkPolicyReconciler.

(** ** Enrollment tokens *)

Module TokenReconciler.

Definition token_with_status (t : LatticeEnrollmentToken) (s : LatticeEnrollmentTokenStatus) :
    LatticeEnrollmentToken :=
  {| tok_meta := tok_meta t; tok_Spec := tok_Spec t; tok_Status := s |}.

(** The caller's token keeps its old status. *)
Definition token_updateStatus (token : LatticeEnrollmentToken)
    (updateFunc : LatticeEnrollmentTokenStatus -> LatticeEnrollmentTokenStatus) : kprog (gresult bool) :=
  let tokenCopy := token_with_status token (updateFunc (tok_Status token)) in
  if bool_decide (tok_Status token = tok_Status tokenCopy) then mret (inr false)
  else
    r ← call (AStatusPatch KToken token tokenCopy);
    match r with
    | inl err => if IsConflict err then mret (inr false) else mret (inl err)
    | inr _ => mret (inr true)
    end.

Definition mark_expired (s : LatticeEnrollmentTokenStatus) : LatticeEnrollmentTokenStatus := {|
  tokst_Token := tokst_Token s; tokst_BoundPeers := tokst_BoundPeers s; tokst_Phase := "Expired";
  tokst_UsedCount := tokst_UsedCount s; tokst_IsExpired := true |}.

Definition set_token (t : string) (s : LatticeEnrollmentTokenStatus) : LatticeEnrollmentTokenStatus := {|
  tokst_Token := t; tokst_BoundPeers := tokst_BoundPeers s; tokst_Phase := tokst_Phase s;
  tokst_UsedCount := tokst_UsedCount s; tokst_IsExpired := tokst_IsExpired s |}.

Definition bind_peer (s : LatticeEnrollmentTokenStatus) (peer : string) : LatticeEnrollmentTokenStatus := {|
  tokst_Token := tokst_Token s; tokst_BoundPeers := tokst_BoundPeers s ++ [peer];
  tokst_Phase := tokst_Phase s; tokst_UsedCount := tokst_UsedCount s + 1;
  tokst_IsExpired := tokst_IsExpired s |}.

(** The loop over the specification's peers; [statusPeers] is the set before it. *)
Definition bind_peers (statusPeers : gset string) (peers : list string) (s : LatticeEnrollmentTokenStatus) :
    LatticeEnrollmentTokenStatus :=
  foldl (λ s peer, if bool_decide (peer ∈ statusPeers) then s else bind_peer s peer) s peers.

Definition sync_bound_peers (token : LatticeEnrollmentToken) (remaining : Z) : kprog (gresult ctrl_Result) :=
  if negb (bool_decide (tok_BoundPeers (tok_Spec token) = tokst_BoundPeers (tok_Status token))) then
    let statusPeers := stringSet (tokst_BoundPeers (tok_Status token)) in
    ok ←? token_updateStatus token (bind_peers statusPeers (tok_BoundPeers (tok_Spec token)));
    if (ok : bool) then mret (inr no_requeue) else mret (inr (requeue_after remaining))
  else mret (inr (requeue_after remaining)).

Definition sync_token (token : LatticeEnrollmentToken) (remaining : Z) : kprog (gresult ctrl_Result) :=
  if bool_decide (tokst_Token (tok_Status token) = "") then
    ok ←? token_updateStatus token (set_token (tok_Token (tok_Spec token)));
    if (ok : bool) then mret (inr no_requeue) else sync_bound_peers token remaining
  else sync_bound_peers token remaining.

(** Times are in nanoseconds. *)
Definition token_Reconcile (req : NamespacedName) : kprog (gresult ctrl_Result) :=
  got ← call (AGet KToken req);
  match got with
  | inl err => mret (if IsNotFound err then inr no_requeue else inl err)
  | inr token =>
      if bool_decide (tokst_Phase (tok_Status token) = "Expired") then mret (inr no_requeue)
      else
        now ← call ANow;
        let remaining := tok_Expiry (tok_Spec token) - now in
        if remaining <=? 0 then
          ok ←? token_updateStatus token mark_expired;
          if (ok : bool) then mret (inr no_requeue) else sync_token token remaining
        else sync_token token remaining
  end.

(** *** What a reconcile may do *)

(** Every bound peer is counted. *)
Definition counted (s : LatticeEnrollmentTokenStatus) : Prop :=
  tokst_UsedCount s = Z.of_nat (length (tokst_BoundPeers s)).

(** Bound peers are only added, from the specification; the token text is copied
    once; an expiry mark comes with its phase. *)
Definition token_status_ok (req : NamespacedName) (base new : LatticeEnrollmentToken) : Prop :=
  meta_key (tok_meta new) = req /\ tok_Spec new = tok_Spec base /\
  (counted (tok_Status base) -> counted (tok_Status new)) /\
  (exists added, tokst_BoundPeers (tok_Status new) = tokst_BoundPeers (tok_Status base) ++ added /\
    Forall (λ p, p ∈ tok_BoundPeers (tok_Spec base) /\ p ∉ tokst_BoundPeers (tok_Status base)) added) /\
  (tokst_Token (tok_Status new) = tokst_Token (tok_Status base) \/
   tokst_Token (tok_Status base) = "" /\ tokst_Token (tok_Status new) = tok_Token (tok_Spec base)) /\
  tokst_Phase (tok_Status base) <> "Expired".

Definition token_calls (req : NamespacedName) T (e : apiE T) : Prop :=
  match e with
  | AGet _ _ | ANow => True
  | AStatusPatch k b n => match k return obj k -> obj k -> Prop with
                          | KToken => token_status_ok req
                          | _ => λ _ _, False
                          end b n
  | _ => False
  end.

Lemma bind_peers_spec known peers : forall s,
  exists added,
    tokst_BoundPeers (bind_peers known peers s) = tokst_BoundPeers s ++ added /\
    tokst_UsedCount (bind_peers known peers s) = tokst_UsedCount s + Z.of_nat (length added) /\
    tokst_Token (bind_peers known peers s) = tokst_Token s /\
    Forall (λ p, p ∈ peers /\ p ∉ known) added.
Proof.
  induction peers as [|p peers IH]; intros s; simpl.
  - exists []. rewrite app_nil_r. split_and!; [done|simpl; lia|done|constructor].
  - case_bool_decide as Hp.
    + destruct (IH s) as (added & E1 & E2 & E3 & Hf). exists added. split_and!; [done..|].
      eapply Forall_impl; [exact Hf|]. intros q [? ?]. split; [by right|done].
    + destruct (IH (bind_peer s p)) as (added & E1 & E2 & E3 & Hf). exists (p :: added).
      rewrite E1, E2, E3. simpl. split_and!; [by rewrite <- app_assoc|lia|done|].
      constructor; [split; [by left|done]|].
      eapply Forall_impl; [exact Hf|]. intros q [? ?]. split; [by right|done].
Qed.

Section safety.
Context (req : NamespacedName).
Abbreviation safe p Q := (wp NetworkReconciler.network_env (token_calls req) p Q).

Lemma token_updateStatus_safe token f :
  (tok_Status token <> f (tok_Status token) ->
    token_status_ok req token (token_with_status token (f (tok_Status token)))) ->
  safe (token_updateStatus token f) (λ _, True).
Proof.
  intros Hok. unfold token_updateStatus. cbv zeta. case_bool_decide as Hd; [done|].
  apply wp_bind, wp_call; [by apply Hok|]. intros [err|stored] _; [|done]. cbn. by destruct (IsConflict err).
Qed.

(** Patches that leave the bound peers alone. *)
Lemma keep_peers_ok token s :
  meta_key (tok_meta token) = req -> tokst_Phase (tok_Status token) <> "Expired" ->
  tokst_BoundPeers s = tokst_BoundPeers (tok_Status token) ->
  tokst_UsedCount s = tokst_UsedCount (tok_Status token) ->
  tokst_Token s = tokst_Token (tok_Status token) \/
    tokst_Token (tok_Status token) = "" /\ tokst_Token s = tok_Token (tok_Spec token) ->
  token_status_ok req token (token_with_status token s).
Proof.
  intros Hk Hp Eb Eu Et. split_and!; simpl; [done..| | |done|done].
  - unfold counted. by rewrite Eb, Eu.
  - exists []. by rewrite app_nil_r.
Qed.

Lemma sync_bound_peers_safe token remaining :
  meta_key (tok_meta token) = req -> tokst_Phase (tok_Status token) <> "Expired" ->
  safe (sync_bound_peers token remaining) (λ _, True).
Proof.
  intros Hk Hp. unfold sync_bound_peers. case_bool_decide; cbn [negb]; [done|].
  apply wp_try. eapply wp_mono; [apply token_updateStatus_safe; intros _|by intros [err|[]] _].
  destruct (bind_peers_spec (stringSet (tokst_BoundPeers (tok_Status token)))
    (tok_BoundPeers (tok_Spec token)) (tok_Status token)) as (added & E1 & E2 & E3 & Hf).
  split_and!; simpl; [done..| | |by left|done].
  - unfold counted. rewrite E1, E2, length_app. lia.
  - exists added. split; [done|]. eapply Forall_impl; [exact Hf|].
    intros p [? Hn]. split; [done|]. by rewrite elem_of_stringSet in Hn.
Qed.

Lemma sync_token_safe token remaining :
  meta_key (tok_meta token) = req -> tokst_Phase (tok_Status token) <> "Expired" ->
  safe (sync_token token remaining) (λ _, True).
Proof.
  intros Hk Hp. unfold sync_token. case_bool_decide; [|by apply sync_bound_peers_safe].
  apply wp_try. eapply wp_mono; [apply token_updateStatus_safe; intros _|].
  - apply keep_peers_ok; try done. by right.
  - intros [err|[]] _; [done|done|by apply sync_bound_peers_safe].
Qed.
End safety.

(** Reconciling an enrollment token only patches that token's status:
    nothing at all once it is expired; otherwise bound peers are only appended,
    each one named by the specification and not bound before, the use count
    stays the number of bound peers, and the token text is copied at most once. *)
Theorem token_Reconcile_safe req :
  wp NetworkReconciler.network_env (token_calls req) (token_Reconcile req) (λ _, True).
Proof.
  unfold token_Reconcile. wp_ask. intros [err|token] [_ Hk].
  { cbn. by destruct (IsNotFound err). }
  specialize (Hk _ eq_refl). change (meta_key (tok_meta token) = req) in Hk.
  case_bool_decide as Hp; [done|]. wp_ask. intros now _. cbv zeta.
  destruct (_ <=? 0); [|by apply sync_token_safe].
  apply wp_try. eapply wp_mono; [apply token_updateStatus_safe; intros _|].
  - apply keep_peers_ok; try done. by left.
  - intros [err|[]] _; [done|done|by apply sync_token_safe].
Qed.

End TokenReconciler.

(** ** Relay servers *)

Module RelayReconciler.

Definition relay_selector (relayName : string) : LabelSelector :=
  {| MatchLabels := {[ RelayPeerLabel := relayName ]}; MatchExpressions := [] |}.

Definition countConnectedPeers (relay : LatticeRelayServer) : kprog (gresult Z) :=
  let namespaces := relay_Namespaces (relay_Spec relay) in
  peerList ←? call (AList KPeer {|
    list_Namespace := match namespaces with [ns] => Some ns | _ => None end;
    list_Selector := Some (relay_selector (Name (relay_meta relay))); list_Labels := ∅ |});
  if bool_decide (1 < length namespaces)%nat then
    mret (inr (Z.of_nat (length (filter (λ p, Namespace (peer_meta p) ∈ namespaces) peerList))))
  else mret (inr (Z.of_nat (length peerList))).

(** A label that could not be removed is only logged. *)
Definition clearPeers (relayName : string) : kprog (gresult unit) :=
  peerList ←? call (AList KPeer {| list_Namespace := None;
    list_Selector := Some (relay_selector relayName); list_Labels := ∅ |});
  _ ← for_all peerList (λ peer,
    _ ← call (APatch KPeer peer (peer_with_meta peer (meta_with_labels (peer_meta peer)
                (delete RelayPeerLabel (Labels (peer_meta peer))))));
    mret tt);
  mret (inr tt).

Definition relay_with_meta (r : LatticeRelayServer) (m : ObjectMeta) : LatticeRelayServer :=
  {| relay_meta := m; relay_Spec := relay_Spec r; relay_Status := relay_Status r |}.

(** The status patch, made only when something changed; its error is logged. *)
Definition relay_sync (relay : LatticeRelayServer) (connected : Z) : kprog (gresult ctrl_Result) :=
  let st := relay_Status relay in
  let desiredPhase := if relay_Enabled (relay_Spec relay) then RelayPhaseActive else RelayPhaseDisabled in
  let desiredHealth := if bool_decide (relay_Health st = "") then RelayHealthUnknown else relay_Health st in
  if negb (relay_ConnectedPeers st =? connected) || negb (bool_decide (relay_Phase st = desiredPhase)) ||
     negb (bool_decide (relay_Health st = desiredHealth)) then
    now ← call ANow;
    _ ← call (AStatusPatch KRelay relay
      {| relay_meta := relay_meta relay; relay_Spec := relay_Spec relay;
         relay_Status := {| relay_Phase := desiredPhase; relay_Health := desiredHealth;
           relay_LatencyMs := relay_LatencyMs st; relay_ConnectedPeers := connected;
           relay_LastProbeTime := Some now; relay_Conditions := relay_Conditions st |} |});
    mret (inr (requeue_after (seconds 300)))
  else mret (inr (requeue_after (seconds 300))).

Definition relay_Reconcile (req : NamespacedName) : kprog (gresult ctrl_Result) :=
  got ← call (AGet KRelay req);
  match got with
  | inl err => mret (if IsNotFound err then inr no_requeue else inl err)
  | inr relay =>
      match DeletionTimestamp (relay_meta relay) with
      | Some _ =>
          if ContainsFinalizer (relay_meta relay) RelayFinalizer then
            _ ←? clearPeers (Name (relay_meta relay));
            _ ←? call (AUpdate KRelay (relay_with_meta relay (RemoveFinalizer (relay_meta relay) RelayFinalizer)));
            mret (inr no_requeue)
          else mret (inr no_requeue)
      | None =>
          if negb (ContainsFinalizer (relay_meta relay) RelayFinalizer) then
            _ ←? call (AUpdate KRelay (relay_with_meta relay (AddFinalizer (relay_meta relay) RelayFinalizer)));
            mret (inr requeue_now)
          else
            connected ←? countConnectedPeers relay;
            relay_sync relay connected
      end
  end.

Definition mapPeerToRelay (labels : labels) : list NamespacedName :=
  let relayName := str_get labels RelayPeerLabel in
  if bool_decide (relayName = "") then []
  else [{| key_Namespace := ""; key_Name := relayName |}].

Definition relayLabelChanged (old new : labels) : bool :=
  negb (bool_decide (str_get old RelayPeerLabel = str_get new RelayPeerLabel)).

(** A status that shows what was counted, or the patch that makes it so: the
    calls of a reconcile outside the deletion path write this relay only. *)
Definition relay_status_shows (relay : LatticeRelayServer) (n : Z) (st : LatticeRelayServerStatus) : Prop :=
  relay_ConnectedPeers st = n /\
  relay_Phase st = (if relay_Enabled (relay_Spec relay) then RelayPhaseActive else RelayPhaseDisabled) /\
  relay_Health st <> "".

Definition relay_calls (req : NamespacedName) (labelled : LatticePeer -> Prop) T (e : apiE T) : Prop :=
  match e with
  | AGet _ _ | AList _ _ | ANow => True
  | AUpdate k o => match k return obj k -> Prop with
                   | KRelay => λ r, meta_key (relay_meta r) = req
                   | _ => λ _, False
                   end o
  | AStatusPatch k b n => match k return obj k -> obj k -> Prop with
                          | KRelay => λ b n, meta_key (relay_meta n) = req /\ relay_Spec n = relay_Spec b /\
                              exists c, relay_status_shows b c (relay_Status n)
                          | _ => λ _ _, False
                          end b n
  | APatch k b n => match k return obj k -> obj k -> Prop with
                    | KPeer => λ b n, labelled b /\
                        n = peer_with_meta b (meta_with_labels (peer_meta b)
                              (delete RelayPeerLabel (Labels (peer_meta b))))
                    | _ => λ _ _, False
                    end b n
  | _ => False
  end.

(** The listing honours the relay selector. *)
Definition relay_env (labelled : LatticePeer -> Prop) T (e : apiE T) (r : T) : Prop :=
  NetworkReconciler.network_env T e r /\
  match e in apiE T return T -> Prop with
  | AList k _ => match k return gresult (list (obj k)) -> Prop with
                 | KPeer => λ r, forall l, r = inr l -> Forall labelled l
                 | _ => λ _, True
                 end
  | _ => λ _, True
  end r.

Lemma clearPeers_safe req labelled relayName :
  wp (relay_env labelled) (relay_calls req labelled) (clearPeers relayName) (λ _, True).
Proof.
  wp_ask. intros [err|l] [_ Hl]; [done|]. specialize (Hl _ eq_refl).
  apply wp_bind. induction Hl as [|p l Hp Hl IH]; simpl; [done|]. split; [done|]. intros r _. exact IH.
Qed.

Lemma countConnectedPeers_safe req labelled relay :
  wp (relay_env labelled) (relay_calls req labelled) (countConnectedPeers relay) (λ _, True).
Proof.
  wp_ask. intros [err|l] _; [done|].
  cbv beta iota. by destruct (bool_decide _).
Qed.

Lemma relay_sync_safe req labelled relay n :
  meta_key (relay_meta relay) = req ->
  wp (relay_env labelled) (relay_calls req labelled) (relay_sync relay n) (λ _, True).
Proof.
  intros Hk. unfold relay_sync. cbv zeta. destruct (_ || _); [|done].
  wp_ask. intros now _.
  apply wp_bind, wp_call; [|done]. split_and!; simpl; [done|done|].
  exists n. split_and!; simpl; [done|done|]. by case_bool_decide.
Qed.

(** Reconciling a relay server updates only that relay, in a status that
    shows the number of peers counted, the phase of its Enabled flag and a health;
    on deletion it removes the relay label, and nothing else, from the peers that
    were listed as labelled with it. *)
Theorem relay_Reconcile_safe req labelled :
  wp (relay_env labelled) (relay_calls req labelled) (relay_Reconcile req) (λ _, True).
Proof.
  unfold relay_Reconcile. wp_ask. intros [err|relay] [[_ Hk] _].
  { cbn. by destruct (IsNotFound err). }
  specialize (Hk _ eq_refl). change (meta_key (relay_meta relay) = req) in Hk.
  destruct (DeletionTimestamp (relay_meta relay)).
  { destruct (ContainsFinalizer _ _); [|done]. apply wp_try.
    eapply wp_mono; [apply clearPeers_safe|]. intros [err|[]] _; [done|].
    wp_ask. by intros [err|r] _. }
  destruct (ContainsFinalizer _ _) eqn:Hf; cbn [negb].
  2: { apply wp_try, wp_call; [|by intros [err|r] _]. simpl. unfold AddFinalizer. by rewrite Hf. }
  wp_use countConnectedPeers_safe.
  intros [err|n] _; [done|]. by apply relay_sync_safe.
Qed.

End RelayReconciler.
