(* ===== verification/PeeringController.v ===== *)
(** * PeeringController: peering two networks
    ([internal/agent/controller/peering_controller.go])

    A peering annotates the gateway of each network with the other network's
    subnet, creates a shadow of each gateway in the other namespace, and admits
    gateway and shadow by policies.  Deletion undoes all of it. *)

From S2P Require Import Prelude Prog Api Message ControllerUtils ResourceControllers.

Definition shadowPeerName (peeringName : string) : string := "peering-shadow-" +:+ peeringName.
Definition gwAccessPolicyName (peeringName : string) : string :=
  "lattice-peering-" +:+ peeringName +:+ "-gw-access".
Definition shadowPolicyName (peeringName : string) : string :=
  "lattice-peering-" +:+ peeringName +:+ "-shadow".

Definition getReadyNetwork (ns name : string) : kprog (gresult LatticeNetwork) :=
  network ←? call (AGet KNetwork {| key_Namespace := ns; key_Name := name |});
  if negb (bool_decide (net_Phase (net_Status network) = NetworkPhaseReady)) ||
     bool_decide (net_ActiveCIDR (net_Status network) = "")
  then mret (inl (ErrText ("network " +:+ ns +:+ "/" +:+ name +:+ " not ready (phase=" +:+
         net_Phase (net_Status network) +:+ ", cidr=" +:+ go_quote (net_ActiveCIDR (net_Status network)) +:+ ")")))
  else mret (inr network).

Definition gateway_options (ns networkName : string) : ListOptions := {|
  list_Namespace := Some ns; list_Selector := None;
  list_Labels := {[ LabelGateway := "true"; networkLabelKey networkName := "true" ]} |}.

Definition findGateway (ns networkName : string) : kprog (gresult (option LatticePeer)) :=
  peerList ←? call (AList KPeer (gateway_options ns networkName));
  mret (inr (head peerList)).

Definition peer_with_annotations (p : LatticePeer) (a : labels) : LatticePeer :=
  peer_with_meta p (meta_with_annotations (peer_meta p) a).

Definition ensureAnnotation (peer : LatticePeer) (key value : string) : kprog (gresult unit) :=
  if bool_decide (str_get (Annotations (peer_meta peer)) key = value) then mret (inr tt)
  else
    _ ←? call (APatch KPeer peer (peer_with_annotations peer (<[key := value]> (Annotations (peer_meta peer)))));
    mret (inr tt).

Definition removeAnnotation (peer : LatticePeer) (key : string) : kprog (gresult unit) :=
  match Annotations (peer_meta peer) !! key with
  | None => mret (inr tt)
  | Some _ =>
      _ ←? call (APatch KPeer peer (peer_with_annotations peer (delete key (Annotations (peer_meta peer)))));
      mret (inr tt)
  end.

(** ** Shadow peers *)

Definition empty_status : LatticePeerStatus := {|
  Conditions := []; PeerStatus := ""; Phase := ""; ActiveKey := ""; ActiveNetwork := None;
  ActiveNetworkPolicies := []; AllocatedAddress := None;
  ConnSummary := {| cs_Total := 0; cs_Connected := 0; cs_Disconnected := 0 |}; LastSyncTime := None;
  CurrentHash := ""; ObservedGeneration := 0 |}.

Definition shadow_peer (peering : LatticeNetworkPeering) (srcGateway : LatticePeer)
    (targetNS targetNetwork srcCIDR : string) : LatticePeer := {|
  peer_meta := meta_with_annotations
    (meta_with_labels (new_meta targetNS (shadowPeerName (Name (np_meta peering))))
       (<[LabelShadow := "true"]> {[ networkLabelKey targetNetwork := "true" ]}))
    {[ AnnotationShadowAllowedIPs := srcCIDR ]};
  peer_Spec := {| AppId := AppId (peer_Spec srcGateway); InterfaceName := ""; Platform := "";
    PrivateKey := ""; PublicKey := PublicKey (peer_Spec srcGateway); AllowedIPs := []; DNSServers := [];
    MTU := 0; PeerId := PeerId (peer_Spec srcGateway); Network := None; NetworkPolicies := [];
    WrrpUrl := ""; WrrpQuicUrl := "" |};
  peer_Status := empty_status |}.

Definition spec_with_identity (s d : LatticePeerSpec) : LatticePeerSpec := {|
  AppId := AppId d; InterfaceName := InterfaceName s; Platform := Platform s; PrivateKey := PrivateKey s;
  PublicKey := PublicKey d; AllowedIPs := AllowedIPs s; DNSServers := DNSServers s; MTU := MTU s;
  PeerId := PeerId d; Network := Network s; NetworkPolicies := NetworkPolicies s;
  WrrpUrl := WrrpUrl s; WrrpQuicUrl := WrrpQuicUrl s |}.

(** The status that makes a shadow appear in configurations. *)
Definition shadow_status (p : LatticePeer) (address : string) : LatticePeer :=
  peer_with_status p (status_with_phase
    (status_with_network (peer_Status p) (ActiveNetwork (peer_Status p)) (Some address)) NodePhaseReady).

Definition ensureShadowPeer (peering : LatticeNetworkPeering) (srcGateway : LatticePeer)
    (targetNS targetNetwork srcCIDR : string) : kprog (gresult unit) :=
  let name := shadowPeerName (Name (np_meta peering)) in
  let desired := shadow_peer peering srcGateway targetNS targetNetwork srcCIDR in
  got ← call (AGet KPeer {| key_Namespace := targetNS; key_Name := name |});
  match got with
  | inl err =>
      if IsNotFound err then
        created ←? call (ACreate KPeer desired);
        match AllocatedAddress (peer_Status srcGateway) with
        | Some address =>
            _ ←? call (AStatusUpdate KPeer (shadow_status created address));
            mret (inr tt)
        | None => mret (inr tt)
        end
      else mret (inl err)
  | inr existing =>
      let peerCopy :=
        peer_with_spec
          (peer_with_meta existing
            (meta_with_annotations
              (meta_with_labels (peer_meta existing) (Labels (peer_meta desired)))
              (Annotations (peer_meta desired))))
          (spec_with_identity (peer_Spec existing) (peer_Spec desired)) in
      stored ←? call (APatch KPeer existing peerCopy);
      match AllocatedAddress (peer_Status srcGateway) with
      | Some address =>
          if negb (bool_decide (AllocatedAddress (peer_Status existing) = Some address)) then
            _ ←? call (AStatusUpdate KPeer (shadow_status stored address));
            mret (inr tt)
          else mret (inr tt)
      | None => mret (inr tt)
      end
  end.

(** ** Policies *)

Definition label_selection (l : string) : PeerSelection := {|
  sel_PeerSelector := Some {| MatchLabels := {[ l := "true" ]}; MatchExpressions := [] |};
  sel_IPBlock := None |}.

Definition peering_policy_meta (peering : LatticeNetworkPeering) (ns name : string) : ObjectMeta :=
  meta_with_labels (new_meta ns name) {[ "alattice.io/peering" := safeLabelValue (Name (np_meta peering)) ]}.

Definition gwPolicy (peering : LatticeNetworkPeering) (networkName ns : string) : LatticePolicy := {|
  pol_meta := peering_policy_meta peering ns (gwAccessPolicyName (Name (np_meta peering)));
  pol_Spec := {| pol_Network := networkName;
    pol_PeerSelector := {| MatchLabels := ∅; MatchExpressions := [] |};
    pol_Egress := [{| eg_To := [label_selection LabelGateway]; eg_Ports := [] |}];
    pol_Ingress := [{| ing_From := [label_selection LabelGateway]; ing_Ports := [] |}];
    pol_Action := "" |};
  pol_Status := {| pol_TargetNodes := 0; pol_RuleCount := 0 |} |}.

Definition shadowPolicy (peering : LatticeNetworkPeering) (networkName ns : string) : LatticePolicy := {|
  pol_meta := peering_policy_meta peering ns (shadowPolicyName (Name (np_meta peering)));
  pol_Spec := {| pol_Network := networkName;
    pol_PeerSelector := {| MatchLabels := {[ LabelGateway := "true" ]}; MatchExpressions := [] |};
    pol_Egress := [{| eg_To := [label_selection LabelShadow]; eg_Ports := [] |}];
    pol_Ingress := [];
    pol_Action := "" |};
  pol_Status := {| pol_TargetNodes := 0; pol_RuleCount := 0 |} |}.

Definition applyPolicy (desired : LatticePolicy) : kprog (gresult unit) :=
  got ← call (AGet KPolicy (meta_key (pol_meta desired)));
  match got with
  | inl err =>
      if IsNotFound err then _ ←? call (ACreate KPolicy desired); mret (inr tt) else mret (inl err)
  | inr existing =>
      _ ←? call (APatch KPolicy existing
        {| pol_meta := pol_meta existing; pol_Spec := pol_Spec desired; pol_Status := pol_Status existing |});
      mret (inr tt)
  end.

Definition ensurePolicies (peering : LatticeNetworkPeering) (networkName ns : string) : kprog (gresult unit) :=
  for_each [gwPolicy peering networkName ns; shadowPolicy peering networkName ns] applyPolicy.

Definition deleteIfExists (k : kind) (ns name : string) : kprog (gresult unit) :=
  r ← call (ADelete k {| key_Namespace := ns; key_Name := name |});
  match r with
  | inl err => if IsNotFound err then mret (inr tt) else mret (inl err)
  | inr _ => mret (inr tt)
  end.

(** ** Status *)

Definition peering_with_status (p : LatticeNetworkPeering) (s : LatticeNetworkPeeringStatus) :
    LatticeNetworkPeering := {| np_meta := np_meta p; np_Spec := np_Spec p; np_Status := s |}.

Definition setReady (peering : LatticeNetworkPeering) (cidrA cidrB : string) : kprog (gresult ctrl_Result) :=
  now ← call ANow;
  _ ←? call (AStatusPatch KPeering peering (peering_with_status peering {|
    np_Phase := NetworkPhaseReady; np_CIDRA := cidrA; np_CIDRB := cidrB;
    np_Conditions := setCondition (np_Conditions (np_Status peering)) {|
      cond_Type := "Ready"; cond_Status := ConditionTrue; cond_Reason := "PeeringEstablished";
      cond_Message := "peering between " +:+ cidrA +:+ " and " +:+ cidrB +:+ " established";
      cond_LastTransitionTime := now |} |}));
  mret (inr no_requeue).

Definition setError (peering : LatticeNetworkPeering) (msg : string) : kprog (gresult ctrl_Result) :=
  now ← call ANow;
  _ ← call (AStatusPatch KPeering peering (peering_with_status peering {|
    np_Phase := NetworkPhaseFailed; np_CIDRA := np_CIDRA (np_Status peering);
    np_CIDRB := np_CIDRB (np_Status peering);
    np_Conditions := setCondition (np_Conditions (np_Status peering)) {|
      cond_Type := "Ready"; cond_Status := ConditionFalse; cond_Reason := "PeeringError";
      cond_Message := msg; cond_LastTransitionTime := now |} |}));
  mret (inr (requeue_after (seconds 30))).

(** ** Reconciling *)

Definition wrap_error (msg : string) (p : kprog (gresult unit)) : kprog (gresult unit) :=
  r ← p; mret (match r with inl err => inl (ErrWrap msg err) | inr u => inr u end).

Definition no_gateway (ns network : string) : string :=
  "no gateway peer in " +:+ ns +:+ "/" +:+ network +:+ ": label " +:+ LabelGateway +:+ "=true required".

(** Steps 3 to 7, once networks and gateways are known. *)
Definition establish (peering : LatticeNetworkPeering) (networkA networkB : LatticeNetwork)
    (gatewayA gatewayB : LatticePeer) : kprog (gresult ctrl_Result) :=
  let spec := np_Spec peering in
  let cidrA := net_ActiveCIDR (net_Status networkA) in
  let cidrB := net_ActiveCIDR (net_Status networkB) in
  let annotationKey := peeringRouteAnnotationKey (Name (np_meta peering)) in
  _ ←? ensureAnnotation gatewayA annotationKey cidrB;
  _ ←? ensureAnnotation gatewayB annotationKey cidrA;
  _ ←? wrap_error "shadow peer for gateway A in namespace B"
    (ensureShadowPeer peering gatewayA (np_NamespaceB spec) (Name (net_meta networkB)) cidrA);
  _ ←? wrap_error "shadow peer for gateway B in namespace A"
    (ensureShadowPeer peering gatewayB (np_NamespaceA spec) (Name (net_meta networkA)) cidrB);
  _ ←? wrap_error "policies namespace A"
    (ensurePolicies peering (Name (net_meta networkA)) (np_NamespaceA spec));
  _ ←? wrap_error "policies namespace B"
    (ensurePolicies peering (Name (net_meta networkB)) (np_NamespaceB spec));
  setReady peering cidrA cidrB.

Definition reconcileNormal (peering : LatticeNetworkPeering) : kprog (gresult ctrl_Result) :=
  let spec := np_Spec peering in
  networkA ← getReadyNetwork (np_NamespaceA spec) (np_NetworkA spec);
  match networkA with
  | inl err => setError peering ("network A not ready: " +:+ error_text err)
  | inr networkA =>
  networkB ← getReadyNetwork (np_NamespaceB spec) (np_NetworkB spec);
  match networkB with
  | inl err => setError peering ("network B not ready: " +:+ error_text err)
  | inr networkB =>
  gatewayA ← findGateway (np_NamespaceA spec) (np_NetworkA spec);
  match gatewayA with
  | inl _ | inr None => setError peering (no_gateway (np_NamespaceA spec) (np_NetworkA spec))
  | inr (Some gatewayA) =>
  gatewayB ← findGateway (np_NamespaceB spec) (np_NetworkB spec);
  match gatewayB with
  | inl _ | inr None => setError peering (no_gateway (np_NamespaceB spec) (np_NetworkB spec))
  | inr (Some gatewayB) => establish peering networkA networkB gatewayA gatewayB
  end
  end
  end
  end.

(** The loop over the two namespaces that removes the route annotations. *)
Definition unroute (peering : LatticeNetworkPeering) (ns : string) : kprog unit :=
  let spec := np_Spec peering in
  let networkName := if bool_decide (ns = np_NamespaceB spec) then np_NetworkB spec else np_NetworkA spec in
  gw ← findGateway ns networkName;
  match gw with
  | inr (Some gw) => _ ← removeAnnotation gw (peeringRouteAnnotationKey (Name (np_meta peering))); mret tt
  | _ => mret tt
  end.

Definition unshadow (peering : LatticeNetworkPeering) (ns : string) : kprog unit :=
  _ ← deleteIfExists KPeer ns (shadowPeerName (Name (np_meta peering)));
  _ ← deleteIfExists KPolicy ns (gwAccessPolicyName (Name (np_meta peering)));
  _ ← deleteIfExists KPolicy ns (shadowPolicyName (Name (np_meta peering)));
  mret tt.

Definition peering_with_meta (p : LatticeNetworkPeering) (m : ObjectMeta) : LatticeNetworkPeering :=
  {| np_meta := m; np_Spec := np_Spec p; np_Status := np_Status p |}.

Definition reconcileDelete (peering : LatticeNetworkPeering) : kprog (gresult ctrl_Result) :=
  let namespaces := [np_NamespaceA (np_Spec peering); np_NamespaceB (np_Spec peering)] in
  _ ← for_all namespaces (unroute peering);
  _ ← for_all namespaces (unshadow peering);
  _ ←? call (AUpdate KPeering (peering_with_meta peering (RemoveFinalizer (np_meta peering) PeeringFinalizer)));
  mret (inr no_requeue).

Definition peering_Reconcile (req : NamespacedName) : kprog (gresult ctrl_Result) :=
  got ← call (AGet KPeering req);
  match got with
  | inl err => mret (if IsNotFound err then inr no_requeue else inl err)
  | inr peering =>
      match DeletionTimestamp (np_meta peering) with
      | Some _ => reconcileDelete peering
      | None =>
          if negb (ContainsFinalizer (np_meta peering) PeeringFinalizer) then
            _ ←? call (AUpdate KPeering (peering_with_meta peering (AddFinalizer (np_meta peering) PeeringFinalizer)));
            mret (inr requeue_now)
          else reconcileNormal peering
      end
  end.

(** ** Watches *)

Definition mapPeerToPeerings (ns : string) : kprog (list NamespacedName) :=
  r ← call (AList KPeering list_all);
  match r with
  | inl _ => mret []
  | inr items =>
      mret ((λ p, {| key_Namespace := ""; key_Name := Name (np_meta p) |}) <$>
        filter (λ p, np_NamespaceA (np_Spec p) = ns \/ np_NamespaceB (np_Spec p) = ns) items)
  end.

Definition mapNetworkToPeerings (ns name : string) : kprog (list NamespacedName) :=
  r ← call (AList KPeering list_all);
  match r with
  | inl _ => mret []
  | inr items =>
      mret ((λ p, {| key_Namespace := ""; key_Name := Name (np_meta p) |}) <$>
        filter (λ p, (np_NamespaceA (np_Spec p) = ns /\ np_NetworkA (np_Spec p) = name) \/
                     (np_NamespaceB (np_Spec p) = ns /\ np_NetworkB (np_Spec p) = name)) items)
  end.

Definition peeringNetworkPredicate (oldNet newNet : LatticeNetwork) : bool :=
  negb (bool_decide (net_Phase (net_Status oldNet) = net_Phase (net_Status newNet))) ||
  negb (bool_decide (net_ActiveCIDR (net_Status oldNet) = net_ActiveCIDR (net_Status newNet))).

(** ** What a reconcile may do *)

(** *** The helpers, in any environment that answers reads under the key asked *)

Section helpers.
Context (R : forall T, apiE T -> T -> Prop) (G : forall T, apiE T -> Prop).
Context (HG : forall T (e : apiE T), read_call T e -> G T e).
Context (HR : forall k key o, R _ (AGet k key) (inr o) -> obj_key k o = key).

(** Only the annotation [key] changes. *)
Definition annotation_patch (key : string) (base new : LatticePeer) : Prop :=
  exists a, new = peer_with_annotations base a /\ forall k, k <> key -> a !! k = Annotations (peer_meta base) !! k.

Lemma ensureAnnotation_wp peer key value :
  (forall b n, annotation_patch key b n -> G _ (APatch KPeer b n)) ->
  wp R G (ensureAnnotation peer key value) (λ _, True).
Proof.
  intros Hp. unfold ensureAnnotation. case_bool_decide; [done|]. apply wp_try, wp_call; [|by intros [err|o] _].
  apply Hp. eexists. split; [done|]. intros k Hk. by rewrite lookup_insert_ne.
Qed.

Lemma removeAnnotation_wp peer key :
  (forall b n, annotation_patch key b n -> G _ (APatch KPeer b n)) ->
  wp R G (removeAnnotation peer key) (λ _, True).
Proof.
  intros Hp. unfold removeAnnotation. destruct (_ !! _); [|done]. apply wp_try, wp_call; [|by intros [err|o] _].
  apply Hp. eexists. split; [done|]. intros k Hk. by rewrite lookup_delete_ne.
Qed.

Lemma applyPolicy_wp (own : NamespacedName -> Prop) desired :
  own (meta_key (pol_meta desired)) ->
  (forall o, own (meta_key (pol_meta o)) -> G _ (ACreate KPolicy o)) ->
  (forall b n, own (meta_key (pol_meta n)) -> pol_meta n = pol_meta b -> G _ (APatch KPolicy b n)) ->
  wp R G (applyPolicy desired) (λ _, True).
Proof using All.
  intros Hd Hc Hp. unfold applyPolicy. apply wp_bind, wp_call; [by apply HG|]. intros [err|existing] Hk.
  - destruct (IsNotFound err); [|done]. apply wp_try, wp_call; [by apply Hc|]. by intros [err'|o] _.
  - apply wp_try, wp_call; [|by intros [err'|o] _]. apply Hp; [|done].
    apply HR in Hk. change (own (obj_key KPolicy existing)). by rewrite Hk.
Qed.

Lemma deleteIfExists_wp k ns name :
  G _ (ADelete k {| key_Namespace := ns; key_Name := name |}) ->
  wp R G (deleteIfExists k ns name) (λ _, True).
Proof.
  intros Hk. apply wp_bind, wp_call; [done|]. intros [err|[]] _; [|done]. cbv beta iota. by destruct (IsNotFound err).
Qed.
End helpers.

Section safety.
Context (p : LatticeNetworkPeering).

Definition own_namespace (ns : string) : Prop :=
  ns = np_NamespaceA (np_Spec p) \/ ns = np_NamespaceB (np_Spec p).

Definition shadow_key (key : NamespacedName) : Prop :=
  own_namespace (key_Namespace key) /\ key_Name key = shadowPeerName (Name (np_meta p)).

Definition policy_key (key : NamespacedName) : Prop :=
  own_namespace (key_Namespace key) /\
  (key_Name key = gwAccessPolicyName (Name (np_meta p)) \/ key_Name key = shadowPolicyName (Name (np_meta p))).

(** Only the annotation of this peering's route changes. *)
Definition route_patch (base new : LatticePeer) : Prop :=
  exists a, new = peer_with_annotations base a /\
    forall k, k <> peeringRouteAnnotationKey (Name (np_meta p)) -> a !! k = Annotations (peer_meta base) !! k.

(** The patched object is the shadow peer of this peering. *)
Definition shadow_patch (base new : LatticePeer) : Prop :=
  shadow_key (meta_key (peer_meta new)) /\ meta_key (peer_meta base) = meta_key (peer_meta new) /\
  Labels (peer_meta new) !! LabelShadow = Some "true".

Definition peering_calls T (e : apiE T) : Prop :=
  match e with
  | AGet _ _ | AList _ _ | ANow => True
  | AUpdate k o => match k return obj k -> Prop with
                   | KPeering => λ o, meta_key (np_meta o) = meta_key (np_meta p)
                   | _ => λ _, False
                   end o
  | AStatusPatch k b n => match k return obj k -> obj k -> Prop with
                          | KPeering => λ b n, b = p /\ np_meta n = np_meta p /\ np_Spec n = np_Spec p
                          | _ => λ _ _, False
                          end b n
  | AStatusUpdate k o => match k return obj k -> Prop with
                         | KPeer => λ o, shadow_key (meta_key (peer_meta o))
                         | _ => λ _, False
                         end o
  | APatch k b n => match k return obj k -> obj k -> Prop with
                    | KPeer => λ b n, route_patch b n \/ shadow_patch b n
                    | KPolicy => λ b n, policy_key (meta_key (pol_meta n)) /\ pol_meta n = pol_meta b
                    | _ => λ _ _, False
                    end b n
  | ACreate k o => match k return obj k -> Prop with
                   | KPeer => λ o, shadow_key (meta_key (peer_meta o)) /\
                                   Labels (peer_meta o) !! LabelShadow = Some "true"
                   | KPolicy => λ o, policy_key (meta_key (pol_meta o))
                   | _ => λ _, False
                   end o
  | ADelete k key => (k = KPeer /\ shadow_key key) \/ (k = KPolicy /\ policy_key key)
  | _ => False
  end.

(** The server knows this peering, and answers writes under the key written. *)
Definition peering_env T (e : apiE T) (r : T) : Prop :=
  NetworkReconciler.network_env T e r /\
  match e in apiE T return T -> Prop with
  | AGet k _ => match k return gresult (obj k) -> Prop with
                | KPeering => λ r, forall o, r = inr o -> o = p
                | _ => λ _, True
                end
  | ACreate k o => λ r, forall o', r = inr o' -> obj_key k o' = obj_key k o
  | APatch k _ n => λ r, forall o', r = inr o' -> obj_key k o' = obj_key k n
  | _ => λ _, True
  end r.

Abbreviation safe q Q := (wp peering_env peering_calls q Q).

Lemma getReadyNetwork_safe ns name : safe (getReadyNetwork ns name) (λ _, True).
Proof.
  wp_ask. intros [err|net] _; [done|]. cbv beta iota. by destruct (_ || _).
Qed.

Lemma findGateway_safe ns name : safe (findGateway ns name) (λ _, True).
Proof. wp_ask. by intros [err|l] _. Qed.

Lemma peering_reads T (e : apiE T) : read_call T e -> peering_calls T e.
Proof. by destruct e. Qed.
Lemma peering_env_key k key o : peering_env _ (AGet k key) (inr o) -> obj_key k o = key.
Proof. intros [[_ Hk] _]. by apply Hk. Qed.

Lemma ensureAnnotation_safe peer value :
  safe (ensureAnnotation peer (peeringRouteAnnotationKey (Name (np_meta p))) value) (λ _, True).
Proof. apply ensureAnnotation_wp. by left. Qed.

Lemma removeAnnotation_safe peer :
  safe (removeAnnotation peer (peeringRouteAnnotationKey (Name (np_meta p)))) (λ _, True).
Proof. apply removeAnnotation_wp. by left. Qed.

Lemma shadow_status_safe o address :
  shadow_key (meta_key (peer_meta o)) ->
  safe (_ ←? call (AStatusUpdate KPeer (shadow_status o address)); mret (inr tt)) (λ _, True).
Proof. intros Hk. wp_ask. by intros [err|o'] _. Qed.

Lemma ensureShadowPeer_safe gw ns network cidr :
  own_namespace ns -> safe (ensureShadowPeer p gw ns network cidr) (λ _, True).
Proof.
  intros Hns. unfold ensureShadowPeer. wp_ask. intros [err|existing] [[_ Hk] _].
  - destruct (IsNotFound err); [|done]. apply wp_try, wp_call.
    { simpl. split; [by split|]. by rewrite lookup_insert_eq. }
    intros [err'|created] [_ Hc]; [done|]. specialize (Hc _ eq_refl).
    destruct (AllocatedAddress _); [|done]. apply shadow_status_safe.
    change (meta_key (peer_meta created)) with (obj_key KPeer created). rewrite Hc. by split.
  - specialize (Hk _ eq_refl). cbv zeta. apply wp_try, wp_call.
    { right. simpl in Hk. change (meta_key (peer_meta existing) = {| key_Namespace := ns;
        key_Name := shadowPeerName (Name (np_meta p)) |}) in Hk.
      split_and!; [|done|by apply lookup_insert_eq].
      change (shadow_key (meta_key (peer_meta existing))). rewrite Hk. by split. }
    intros [err'|stored] [_ Hs]; [done|]. specialize (Hs _ eq_refl).
    destruct (AllocatedAddress (peer_Status gw)); [|done]. destruct (negb _); [|done].
    apply shadow_status_safe. change (meta_key (peer_meta stored)) with (obj_key KPeer stored). rewrite Hs.
    change (shadow_key (obj_key KPeer existing)). rewrite Hk. by split.
Qed.

Lemma applyPolicy_safe desired :
  policy_key (meta_key (pol_meta desired)) -> safe (applyPolicy desired) (λ _, True).
Proof.
  intros Hd. apply (applyPolicy_wp _ _ peering_reads peering_env_key policy_key); done.
Qed.

Lemma ensurePolicies_safe network ns : own_namespace ns -> safe (ensurePolicies p network ns) (λ _, True).
Proof.
  intros Hns. wp_use applyPolicy_safe.
  { split; [done|by left]. }
  intros [err|[]] _; [done|]. apply wp_try. eapply wp_mono; [apply applyPolicy_safe|by intros []].
  split; [done|by right].
Qed.

Lemma wrap_error_safe msg q : safe q (λ _, True) -> safe (wrap_error msg q) (λ _, True).
Proof. intros Hq. apply wp_bind. eapply wp_mono; [exact Hq|done]. Qed.

Lemma setError_safe msg : safe (setError p msg) (λ _, True).
Proof. wp_ask. intros now _. by apply wp_bind, wp_call. Qed.

Lemma setReady_safe cidrA cidrB : safe (setReady p cidrA cidrB) (λ _, True).
Proof.
  wp_ask. intros now _. wp_ask. by intros [err|o] _.
Qed.

(** One step of [establish]: the rest runs only if it succeeded. *)
Lemma then_safe {A} (q : kprog (gresult A)) (k : A -> kprog (gresult ctrl_Result)) :
  safe q (λ _, True) -> (forall a, safe (k a) (λ _, True)) -> safe (try_bind q k) (λ _, True).
Proof. intros Hq Hk. apply wp_try. eapply wp_mono; [exact Hq|]. by intros [err|a] _. Qed.

Lemma establish_safe networkA networkB gwA gwB : safe (establish p networkA networkB gwA gwB) (λ _, True).
Proof.
  assert (own_namespace (np_NamespaceA (np_Spec p))) by (by left).
  assert (own_namespace (np_NamespaceB (np_Spec p))) by (by right).
  unfold establish. cbv zeta.
  apply then_safe; [apply ensureAnnotation_safe|intros _].
  apply then_safe; [apply ensureAnnotation_safe|intros _].
  apply then_safe; [by apply wrap_error_safe, ensureShadowPeer_safe|intros _].
  apply then_safe; [by apply wrap_error_safe, ensureShadowPeer_safe|intros _].
  apply then_safe; [by apply wrap_error_safe, ensurePolicies_safe|intros _].
  apply then_safe; [by apply wrap_error_safe, ensurePolicies_safe|intros _].
  apply setReady_safe.
Qed.

Lemma reconcileNormal_safe : safe (reconcileNormal p) (λ _, True).
Proof.
  unfold reconcileNormal. cbv zeta.
  wp_use getReadyNetwork_safe. intros [err|netA] _; [apply setError_safe|].
  wp_use getReadyNetwork_safe. intros [err|netB] _; [apply setError_safe|].
  wp_use findGateway_safe. intros [err|[gwA|]] _; [apply setError_safe| |apply setError_safe].
  wp_use findGateway_safe. intros [err|[gwB|]] _; [apply setError_safe| |apply setError_safe].
  apply establish_safe.
Qed.

Lemma for_all_safe {A} (l : list A) f : Forall (λ x, safe (f x) (λ _, True)) l -> safe (for_all l f) (λ _, True).
Proof.
  induction 1 as [|x l Hx Hl IH]; simpl; [done|]. apply wp_bind. eapply wp_mono; [exact Hx|done].
Qed.

Lemma unroute_safe ns : safe (unroute p ns) (λ _, True).
Proof.
  wp_use findGateway_safe. intros [err|[gw|]] _; [done| |done].
  apply wp_bind. eapply wp_mono; [apply removeAnnotation_safe|done].
Qed.

Lemma deleteIfExists_safe k ns name :
  (k = KPeer /\ shadow_key {| key_Namespace := ns; key_Name := name |}) \/
  (k = KPolicy /\ policy_key {| key_Namespace := ns; key_Name := name |}) ->
  safe (deleteIfExists k ns name) (λ _, True).
Proof. intros Hk. by apply deleteIfExists_wp. Qed.

Lemma unshadow_safe ns : own_namespace ns -> safe (unshadow p ns) (λ _, True).
Proof.
  intros Hns. unfold unshadow.
  apply wp_bind. eapply wp_mono; [apply deleteIfExists_safe; left; split; [done|by split]|]. intros _ _.
  apply wp_bind. eapply wp_mono; [apply deleteIfExists_safe; right; split; [done|split; [done|by left]]|]. intros _ _.
  apply wp_bind. eapply wp_mono; [apply deleteIfExists_safe; right; split; [done|split; [done|by right]]|]. done.
Qed.

Lemma reconcileDelete_safe : safe (reconcileDelete p) (λ _, True).
Proof.
  unfold reconcileDelete. cbv zeta. apply wp_bind.
  eapply wp_mono; [apply for_all_safe; repeat constructor; apply unroute_safe|]. intros _ _.
  apply wp_bind. eapply wp_mono; [apply for_all_safe; repeat constructor; apply unshadow_safe|].
  - by left.
  - by right.
  - intros _ _. wp_ask. by intros [err|o] _.
Qed.
End safety.

(** Reconciling a peering touches nothing but its own objects: its own
    resource and status; on other peers, only the route annotation of this
    peering; the shadow peers and the two policies that carry its name, in its two
    namespaces, are the only objects it creates, patches or deletes. *)
Theorem peering_Reconcile_safe p :
  wp (peering_env p) (peering_calls p) (peering_Reconcile (meta_key (np_meta p))) (λ _, True).
Proof.
  unfold peering_Reconcile. wp_ask. intros [err|peering] [_ Hp].
  { cbv beta iota. by destruct (IsNotFound err). }
  rewrite (Hp _ eq_refl). destruct (DeletionTimestamp (np_meta p)); [apply reconcileDelete_safe|].
  destruct (ContainsFinalizer (np_meta p) PeeringFinalizer) eqn:Hf; cbn [negb]; [apply reconcileNormal_safe|].
  apply wp_try, wp_call; [|by intros [err|o] _]. simpl. unfold AddFinalizer. by rewrite Hf.
Qed.

(** ** The route reaches the agents *)

Lemma route_key_prefix name : has_prefix AnnotationPeeringRoutePrefix (peeringRouteAnnotationKey name) = true.
Proof.
  destruct (safeKeyName_bound "peering-route-" name) as [_ Hp]; [simpl; lia|].
  apply prefix_true in Hp as [t Ht]. unfold peeringRouteAnnotationKey. rewrite Ht.
  apply prefix_true. by exists t.
Qed.

Definition routes_of `{MapRange} (peer : LatticePeer) : list string :=
  let a := Annotations (peer_meta peer) in
  option_list ((λ addr, addr +:+ "/32") <$> AllocatedAddress (peer_Status peer)) ++
  (let s := str_get a AnnotationShadowAllowedIPs in if bool_decide (s = "") then [] else [s]) ++
  extra_routes a.

Lemma str_join_ne sep x l : str_join sep (x :: l) = "" -> x = "".
Proof. destruct l as [|y l]; simpl; [done|]. by destruct x. Qed.

Lemma append_route_join x l :
  Forall (λ s, s <> "") l -> append_route (str_join "," l) x = str_join "," (l ++ [x]).
Proof.
  intros Hl. unfold append_route. case_bool_decide as He.
  - destruct Hl as [|y l Hy Hl]; [done|]. by apply str_join_ne in He.
  - destruct Hl as [|y l Hy Hl]; [by destruct He|]. clear He. revert y Hy.
    induction Hl as [|z l Hz Hl IH]; intros y Hy; [done|].
    change (str_join "," (y :: z :: l)) with (y +:+ "," +:+ str_join "," (z :: l)).
    rewrite !app_string_assoc. rewrite IH by done. done.
Qed.

Lemma str_join_app l1 x l2 :
  str_join "," (l1 ++ [str_join "," (x :: l2)]) = str_join "," (l1 ++ x :: l2).
Proof.
  induction l1 as [|y l1 IH]; [done|]. destruct l1 as [|z l1]; [done|].
  set (j := str_join "," (x :: l2)) in *.
  change (y +:+ "," +:+ str_join "," ((z :: l1) ++ [j]) =
          y +:+ "," +:+ str_join "," ((z :: l1) ++ x :: l2)). by rewrite IH.
Qed.

Lemma peer_allowed_ips_routes `{MapRange} peer : peer_allowed_ips peer = str_join "," (routes_of peer).
Proof.
  unfold peer_allowed_ips, routes_of. cbv zeta.
  set (l1 := option_list _).
  assert (E1 : match AllocatedAddress (peer_Status peer) with Some addr => addr +:+ "/32" | None => "" end =
    str_join "," l1) by (subst l1; by destruct (AllocatedAddress _)).
  assert (H1 : Forall (λ s, s <> "") l1).
  { subst l1. destruct (AllocatedAddress _) as [a|]; simpl; repeat constructor. by destruct a. }
  rewrite E1. clearbody l1. clear E1. rewrite app_assoc.
  set (sh := str_get _ _). set (l2 := l1 ++ _).
  assert (E2 : (if bool_decide (sh = "") then str_join "," l1 else append_route (str_join "," l1) sh) =
    str_join "," l2).
  { subst l2. case_bool_decide; [by rewrite app_nil_r|by apply append_route_join]. }
  assert (H2 : Forall (λ s, s <> "") l2).
  { subst l2. apply Forall_app. split; [done|]. case_bool_decide; repeat constructor; done. }
  rewrite E2. clearbody l2. destruct (extra_routes _) as [|x l3]; [by rewrite app_nil_r|].
  rewrite append_route_join by done. apply str_join_app.
Qed.

(** The addresses a peer is sent to the agents with include [cidr], along with
    its own address. *)
Definition route_visible `{MapRange} (gateway : LatticePeer) (cidr : string) : Prop :=
  exists routes, ip_AllowedIPs (transferToPeer gateway) = str_join "," routes /\ cidr ∈ routes /\
    (forall a, AllocatedAddress (peer_Status gateway) = Some a -> (a +:+ "/32") ∈ routes).

Lemma annotated_route_visible `{MapRange} gateway name cidr :
  Annotations (peer_meta gateway) !! peeringRouteAnnotationKey name = Some cidr -> cidr <> "" ->
  route_visible gateway cidr.
Proof.
  intros Ha Hc. exists (routes_of gateway). split_and!.
  - apply peer_allowed_ips_routes.
  - unfold routes_of. cbv zeta. rewrite !elem_of_app. right. right. unfold extra_routes.
    apply list_elem_of_omap. exists (peeringRouteAnnotationKey name, cidr).
    rewrite elem_of_go_range. split; [done|]. cbn [fst snd]. by rewrite route_key_prefix, bool_decide_false.
  - intros a Hs. unfold routes_of. cbv zeta. rewrite Hs. rewrite elem_of_app. left. by left.
Qed.

(** A peering's route reaches the agents.  When the peering controller
    annotates a gateway with the remote subnet, either the gateway is already
    sent to the other peers with allowed addresses that include that subnet, or
    the controller patches it into one that is, whatever else is annotated. *)
Theorem peering_route_visible `{MapRange} gateway name cidr :
  cidr <> "" ->
  let ensure := ensureAnnotation gateway (peeringRouteAnnotationKey name) cidr in
  (ensure = mret (inr tt) /\ route_visible gateway cidr) \/
  (exists gateway', ensure = (_ ←? call (APatch KPeer gateway gateway'); mret (inr tt)) /\
    route_visible gateway' cidr).
Proof.
  intros Hc. cbv zeta. unfold ensureAnnotation. case_bool_decide as Ha.
  - left. split; [done|]. apply (annotated_route_visible _ name); [|done]. unfold str_get in Ha.
    destruct (_ !! _) eqn:E; cbn in Ha; congruence.
  - right. eexists. split; [done|]. apply (annotated_route_visible _ name); [|done].
    cbn. by rewrite lookup_insert_eq.
Qed.

Definition sample_gateway : LatticePeer := {|
  peer_meta := meta_with_annotations (new_meta "a" "gw")
    {[ peeringRouteAnnotationKey "a-to-b" := "10.0.2.0/24" ]};
  peer_Spec := spec_with_identity (peer_Spec (shadow_peer
    {| np_meta := new_meta "" "a-to-b"; np_Spec := {| np_NamespaceA := "a"; np_NetworkA := "n";
         np_NamespaceB := "b"; np_NetworkB := "n"; np_PeeringMode := "" |};
       np_Status := {| np_Phase := ""; np_CIDRA := ""; np_CIDRB := ""; np_Conditions := [] |} |}
    {| peer_meta := new_meta "a" "gw"; peer_Spec := {| AppId := "gw"; InterfaceName := ""; Platform := "";
         PrivateKey := ""; PublicKey := "K"; AllowedIPs := []; DNSServers := []; MTU := 0; PeerId := "1";
         Network := Some "n"; NetworkPolicies := []; WrrpUrl := ""; WrrpQuicUrl := "" |};
       peer_Status := empty_status |} "b" "n" "10.0.1.0/24"))
    {| AppId := "gw"; InterfaceName := ""; Platform := ""; PrivateKey := ""; PublicKey := "K";
       AllowedIPs := []; DNSServers := []; MTU := 0; PeerId := "1"; Network := Some "n";
       NetworkPolicies := []; WrrpUrl := ""; WrrpQuicUrl := "" |};
  peer_Status := status_with_network empty_status (Some "n") (Some "10.0.1.2") |}.

Definition bare_gateway : LatticePeer := peer_with_annotations sample_gateway ∅.

Lemma peering_route_visible_witness :
  ip_AllowedIPs (transferToPeer sample_gateway) = "10.0.1.2/32,10.0.2.0/24" /\
  exists gateway',
    ensureAnnotation bare_gateway (peeringRouteAnnotationKey "a-to-b") "10.0.2.0/24" =
      (_ ←? call (APatch KPeer bare_gateway gateway'); mret (inr tt)) /\
    route_visible gateway' "10.0.2.0/24".
Proof.
  split; [vm_compute; reflexivity|].
  assert (Hne : "10.0.2.0/24" <> "") by (apply (bool_decide_unpack _); vm_compute; exact I).
  destruct (peering_route_visible bare_gateway "a-to-b" "10.0.2.0/24" Hne) as [[Hbad _]|Hok]; [|exact Hok].
  exfalso. unfold ensureAnnotation in Hbad. rewrite bool_decide_false in Hbad; [discriminate Hbad|].
  apply (bool_decide_unpack _). vm_compute. exact I.
Defined.
