(* ===== verification/ClusterPeering.v ===== *)
(** * ClusterPeering: peering with a network of another cluster
    ([internal/agent/controller/cluster_peering_controller.go],
    [internal/server/server/peering.go], [pkg/utils/resp])

    The controller asks the other cluster's management server for its gateway over
    HTTP, represents it by a shadow peer and routes its subnet through the local
    gateway.  The handler that answers such a request is here as well, so that the
    two sides can be put together. *)

From S2P Require Import Prelude Prog Api Message ControllerUtils ResourceControllers PeeringController.

(** ** JSON over HTTP *)

(** A JSON value; an object keeps the order of its members. *)
Inductive json :=
| JNull
| JBool (b : bool)
| JNumber (z : Z)
| JString (s : string)
| JArray (l : list json)
| JObject (members : list (string * json)).

(** A response: its status, the beginning of its body as text, and the JSON value
    the body holds, or the error of reading one. *)
Record HttpResponse := { hr_StatusCode : Z; hr_Body : string; hr_JSON : gresult json }.

(** [resp.Response] and the helpers that send one: the status of the HTTP response
    is always 200. *)
Record Response (A : Type) := { rsp_Code : Z; rsp_Msg : string; rsp_Data : option A }.
Arguments rsp_Code {A} _. Arguments rsp_Msg {A} _. Arguments rsp_Data {A} _.
Arguments Build_Response {A} _ _ _.

Definition resp_OK {A} (data : A) : Response A :=
  {| rsp_Code := 200; rsp_Msg := "success"; rsp_Data := Some data |}.
Definition resp_Error {A} (msg : string) : Response A :=
  {| rsp_Code := 500; rsp_Msg := msg; rsp_Data := None |}.
Definition resp_BadRequest {A} (msg : string) : Response A :=
  {| rsp_Code := 400; rsp_Msg := msg; rsp_Data := None |}.

(** [gin.Context.JSON] of a response. *)
Definition response_json {A} (data : A -> json) (r : Response A) : json := JObject [
  ("code", JNumber (rsp_Code r)); ("msg", JString (rsp_Msg r));
  ("data", match rsp_Data r with None => JNull | Some d => data d end) ].
Definition http_of {A} (data : A -> json) (r : Response A) : HttpResponse :=
  {| hr_StatusCode := 200; hr_Body := ""; hr_JSON := inr (response_json data r) |}.

(** ** The side that is asked *)

Record GatewayInfo := {
  gi_PublicKey : string; gi_GatewayIP : string; gi_CIDR : string; gi_AppID : string; gi_PeerID : string }.

Definition gateway_options_raw (ns networkName : string) : ListOptions := {|
  list_Namespace := Some ns; list_Selector := None;
  list_Labels := <[LabelGateway := "true"]> {[ "alattice.io/network-" +:+ networkName := "true" ]} |}.

(** The handler of [GET /api/v1/peering/gateway-info]. *)
Definition gatewayInfo (ns networkName : string) : kprog (Response GatewayInfo) :=
  if bool_decide (ns = "") || bool_decide (networkName = "")
  then mret (resp_BadRequest "namespace and network are required")
  else
    network ← call (AGet KNetwork {| key_Namespace := ns; key_Name := networkName |});
    match network with
    | inl err =>
        mret (resp_Error (if IsNotFound err then "network " +:+ ns +:+ "/" +:+ networkName +:+ " not found"
                          else error_text err))
    | inr network =>
        if negb (bool_decide (net_Phase (net_Status network) = NetworkPhaseReady)) ||
           bool_decide (net_ActiveCIDR (net_Status network) = "")
        then mret (resp_Error ("network " +:+ ns +:+ "/" +:+ networkName +:+ " is not ready (phase=" +:+
               net_Phase (net_Status network) +:+ ")"))
        else
          peerList ← call (AList KPeer (gateway_options_raw ns networkName));
          match peerList with
          | inl err => mret (resp_Error (error_text err))
          | inr [] => mret (resp_Error ("no gateway peer found in " +:+ ns +:+ "/" +:+ networkName))
          | inr (gw :: _) =>
              match AllocatedAddress (peer_Status gw) with
              | None => mret (resp_Error "gateway peer has no allocated address yet")
              | Some address => mret (resp_OK {|
                  gi_PublicKey := PublicKey (peer_Spec gw); gi_GatewayIP := address;
                  gi_CIDR := net_ActiveCIDR (net_Status network); gi_AppID := AppId (peer_Spec gw);
                  gi_PeerID := PeerId (peer_Spec gw) |})
              end
          end
    end.

(** The map that is the data of the answer, by sorted keys. *)
Definition gateway_json (i : GatewayInfo) : json := JObject [
  ("appId", JString (gi_AppID i)); ("cidr", JString (gi_CIDR i)); ("gatewayIP", JString (gi_GatewayIP i));
  ("peerId", JString (gi_PeerID i)); ("publicKey", JString (gi_PublicKey i)) ].

(** ** The side that asks *)

(** Besides the Kubernetes API the controller makes requests to other clusters:
    a GET of an address with a bearer token. *)
Inductive clusterE : Type -> Type :=
| CApi T (e : apiE T) : clusterE T
| CHttpGet (url token : string) : clusterE (gresult HttpResponse).

Abbreviation cprog := (prog clusterE).
Definition api {A} (p : kprog A) : cprog A := translate CApi p.

Definition clusterPeeringFinalizer : string := "alattice.io/cluster-peering-finalizer".

(** [json.Decode] into a [GatewayInfo]: a member sets the field of its name, up to
    letter case, and null leaves it; a value that is not a string is an error,
    the first of which is returned.  Member names are taken to be ASCII. *)
Definition gateway_keys : list string := ["publicKey"; "gatewayIP"; "cidr"; "appId"; "peerId"].
Definition gateway_field (key : string) : option string :=
  head (filter (λ k, str_lower k = str_lower key) gateway_keys).

Definition set_gateway_field (i : GatewayInfo) (field value : string) : GatewayInfo := {|
  gi_PublicKey := if bool_decide (field = "publicKey") then value else gi_PublicKey i;
  gi_GatewayIP := if bool_decide (field = "gatewayIP") then value else gi_GatewayIP i;
  gi_CIDR := if bool_decide (field = "cidr") then value else gi_CIDR i;
  gi_AppID := if bool_decide (field = "appId") then value else gi_AppID i;
  gi_PeerID := if bool_decide (field = "peerId") then value else gi_PeerID i |}.

Definition json_kind (j : json) : string :=
  match j with
  | JNull => "null" | JBool _ => "bool" | JNumber _ => "number" | JString _ => "string"
  | JArray _ => "array" | JObject _ => "object"
  end.

Fixpoint decode_gateway_members (l : list (string * json)) (i : GatewayInfo) : gresult GatewayInfo :=
  match l with
  | [] => inr i
  | (key, v) :: l =>
      match gateway_field key, v with
      | Some field, JString s => decode_gateway_members l (set_gateway_field i field s)
      | None, _ | _, JNull => decode_gateway_members l i
      | Some field, _ => inl (ErrText ("json: cannot unmarshal " +:+ json_kind v +:+
          " into Go struct field GatewayInfo." +:+ field +:+ " of type string"))
      end
  end.

Definition no_gateway_info : GatewayInfo :=
  {| gi_PublicKey := ""; gi_GatewayIP := ""; gi_CIDR := ""; gi_AppID := ""; gi_PeerID := "" |}.

Definition decode_gateway (j : gresult json) : gresult GatewayInfo :=
  match j with
  | inl err => inl err
  | inr (JObject l) => decode_gateway_members l no_gateway_info
  | inr JNull => inr no_gateway_info
  | inr v => inl (ErrText ("json: cannot unmarshal " +:+ json_kind v +:+
      " into Go value of type controller.GatewayInfo"))
  end.

Definition format_gateway (i : GatewayInfo) : string :=
  "{PublicKey:" +:+ gi_PublicKey i +:+ " GatewayIP:" +:+ gi_GatewayIP i +:+ " CIDR:" +:+ gi_CIDR i +:+
  " AppID:" +:+ gi_AppID i +:+ " PeerID:" +:+ gi_PeerID i +:+ "}".

Definition fetchGatewayInfo (endpoint token ns network : string) : cprog (gresult GatewayInfo) :=
  let url := endpoint +:+ "/api/v1/peering/gateway-info?namespace=" +:+ ns +:+ "&network=" +:+ network in
  resp ←? call (CHttpGet url token);
  if negb (hr_StatusCode resp =? 200) then
    Ret (inl (ErrText ("remote gateway-info returned " +:+ pretty (hr_StatusCode resp) +:+ ": " +:+ hr_Body resp)))
  else
    match decode_gateway (hr_JSON resp) with
    | inl err => Ret (inl (ErrWrap "decode gateway-info response" err))
    | inr info =>
        if bool_decide (gi_PublicKey info = "") || bool_decide (gi_GatewayIP info = "") ||
           bool_decide (gi_CIDR info = "")
        then Ret (inl (ErrText ("incomplete gateway-info: " +:+ format_gateway info)))
        else Ret (inr info)
    end.

(** The first secret, of any namespace, that is labelled with the name. *)
Definition loadCredential (secretName : string) : cprog (gresult string) :=
  secretList ←? api (call (AList KSecret {| list_Namespace := None; list_Selector := None;
    list_Labels := {[ "alattice.io/cluster-credential" := secretName ]} |}));
  match secretList with
  | [] => Ret (inl (ErrText ("secret " +:+ go_quote secretName +:+
            " not found (label alattice.io/cluster-credential=" +:+ secretName +:+ ")")))
  | secret :: _ =>
      match secret_Data secret !! "token" with
      | None => Ret (inl (ErrText ("secret " +:+ go_quote secretName +:+ " missing key 'token'")))
      | Some token => Ret (inr token)
      end
  end.

(** *** The objects of a cluster peering *)

Definition cp_name (cp : LatticeClusterPeering) : string := Name (cp_meta cp).
Definition shadow_name (cp : LatticeClusterPeering) : string := "cluster-shadow-" +:+ cp_name cp.
Definition cluster_gwPolicyName (cp : LatticeClusterPeering) : string :=
  "lattice-cpeering-" +:+ cp_name cp +:+ "-gw-access".
Definition cluster_shadowPolicyName (cp : LatticeClusterPeering) : string :=
  "lattice-cpeering-" +:+ cp_name cp +:+ "-shadow".
Definition cluster_annotationKey (cp : LatticeClusterPeering) : string :=
  AnnotationPeeringRoutePrefix +:+ cp_name cp.

Definition remote_gateway_shadow (cp : LatticeClusterPeering) (info : GatewayInfo) (networkName : string) :
    LatticePeer := {|
  peer_meta := meta_with_annotations
    (meta_with_labels (new_meta (cp_LocalNamespace (cp_Spec cp)) (shadow_name cp))
       (<[LabelShadow := "true"]> {[ "alattice.io/network-" +:+ networkName := "true" ]}))
    {[ AnnotationShadowAllowedIPs := gi_CIDR info ]};
  peer_Spec := {| AppId := gi_AppID info; InterfaceName := ""; Platform := "";
    PrivateKey := ""; PublicKey := gi_PublicKey info; AllowedIPs := []; DNSServers := [];
    MTU := 0; PeerId := gi_PeerID info; Network := None; NetworkPolicies := [];
    WrrpUrl := ""; WrrpQuicUrl := "" |};
  peer_Status := empty_status |}.

(** The fields of the specification that an update sets: not the identifier. *)
Definition spec_with_key_and_app (s d : LatticePeerSpec) : LatticePeerSpec := {|
  AppId := AppId d; InterfaceName := InterfaceName s; Platform := Platform s; PrivateKey := PrivateKey s;
  PublicKey := PublicKey d; AllowedIPs := AllowedIPs s; DNSServers := DNSServers s; MTU := MTU s;
  PeerId := PeerId s; Network := Network s; NetworkPolicies := NetworkPolicies s;
  WrrpUrl := WrrpUrl s; WrrpQuicUrl := WrrpQuicUrl s |}.

Definition ensureRemoteGatewayShadow (cp : LatticeClusterPeering) (info : GatewayInfo) (networkName : string) :
    kprog (gresult unit) :=
  let desired := remote_gateway_shadow cp info networkName in
  got ← call (AGet KPeer (meta_key (peer_meta desired)));
  match got with
  | inl err =>
      if IsNotFound err then
        created ←? call (ACreate KPeer desired);
        _ ←? call (AStatusUpdate KPeer (shadow_status created (gi_GatewayIP info)));
        mret (inr tt)
      else mret (inl err)
  | inr existing =>
      let peerCopy :=
        peer_with_spec
          (peer_with_meta existing
            (meta_with_annotations
              (meta_with_labels (peer_meta existing) (Labels (peer_meta desired)))
              (Annotations (peer_meta desired))))
          (spec_with_key_and_app (peer_Spec existing) (peer_Spec desired)) in
      stored ←? call (APatch KPeer existing peerCopy);
      if negb (bool_decide (AllocatedAddress (peer_Status existing) = Some (gi_GatewayIP info))) then
        _ ←? call (AStatusUpdate KPeer (shadow_status stored (gi_GatewayIP info)));
        mret (inr tt)
      else mret (inr tt)
  end.

Definition cluster_policy_meta (cp : LatticeClusterPeering) (name : string) : ObjectMeta :=
  meta_with_labels (new_meta (cp_LocalNamespace (cp_Spec cp)) name) {[ "alattice.io/cluster-peering" := cp_name cp ]}.

Definition cluster_gwPolicy (cp : LatticeClusterPeering) (networkName : string) : LatticePolicy := {|
  pol_meta := cluster_policy_meta cp (cluster_gwPolicyName cp);
  pol_Spec := {| pol_Network := networkName;
    pol_PeerSelector := {| MatchLabels := ∅; MatchExpressions := [] |};
    pol_Egress := [{| eg_To := [label_selection LabelGateway]; eg_Ports := [] |}];
    pol_Ingress := [{| ing_From := [label_selection LabelGateway]; ing_Ports := [] |}];
    pol_Action := "" |};
  pol_Status := {| pol_TargetNodes := 0; pol_RuleCount := 0 |} |}.

Definition cluster_shadowPolicy (cp : LatticeClusterPeering) (networkName : string) : LatticePolicy := {|
  pol_meta := cluster_policy_meta cp (cluster_shadowPolicyName cp);
  pol_Spec := {| pol_Network := networkName;
    pol_PeerSelector := {| MatchLabels := {[ LabelGateway := "true" ]}; MatchExpressions := [] |};
    pol_Egress := [{| eg_To := [label_selection LabelShadow]; eg_Ports := [] |}];
    pol_Ingress := [];
    pol_Action := "" |};
  pol_Status := {| pol_TargetNodes := 0; pol_RuleCount := 0 |} |}.

Definition ensurePoliciesForCluster (cp : LatticeClusterPeering) (networkName : string) : kprog (gresult unit) :=
  for_each [cluster_gwPolicy cp networkName; cluster_shadowPolicy cp networkName] applyPolicy.

Definition getReadyNetworkForCluster (ns name : string) : kprog (gresult LatticeNetwork) :=
  network ←? call (AGet KNetwork {| key_Namespace := ns; key_Name := name |});
  if negb (bool_decide (net_Phase (net_Status network) = NetworkPhaseReady)) ||
     bool_decide (net_ActiveCIDR (net_Status network) = "")
  then mret (inl (ErrText ("network " +:+ ns +:+ "/" +:+ name +:+ " not ready")))
  else mret (inr network).

(** By the network's name itself, not by [networkLabelKey]. *)
Definition findGatewayForCluster (ns networkName : string) : kprog (gresult (option LatticePeer)) :=
  peers ←? call (AList KPeer (gateway_options_raw ns networkName));
  mret (inr (head peers)).

(** The same code as the network peering controller's. *)
Definition ensureAnnotationForCluster := ensureAnnotation.
Definition removeAnnotationForCluster := removeAnnotation.
Definition deleteClusterResourceIfExists := deleteIfExists.

(** *** Status *)

Definition cp_with_status (cp : LatticeClusterPeering) (s : LatticeClusterPeeringStatus) : LatticeClusterPeering :=
  {| cp_meta := cp_meta cp; cp_Spec := cp_Spec cp; cp_Status := s |}.
Definition cp_with_meta (cp : LatticeClusterPeering) (m : ObjectMeta) : LatticeClusterPeering :=
  {| cp_meta := m; cp_Spec := cp_Spec cp; cp_Status := cp_Status cp |}.

Definition setClusterPeeringReady (cp : LatticeClusterPeering) (localCIDR remoteCIDR : string) :
    kprog (gresult ctrl_Result) :=
  now ← call ANow;
  _ ←? call (AStatusPatch KClusterPeering cp (cp_with_status cp {|
    cp_Phase := ClusterPeeringPhaseReady; cp_LocalCIDR := localCIDR; cp_RemoteCIDR := remoteCIDR;
    cp_Conditions := setCondition (cp_Conditions (cp_Status cp)) {|
      cond_Type := "Ready"; cond_Status := ConditionTrue; cond_Reason := "ClusterPeeringEstablished";
      cond_Message := "cross-cluster peering " +:+ localCIDR +:+ " ↔ " +:+ remoteCIDR +:+ " established";
      cond_LastTransitionTime := now |} |}));
  mret (inr (requeue_after (seconds 300))).

Definition setClusterPeeringError (cp : LatticeClusterPeering) (msg : string) : kprog (gresult ctrl_Result) :=
  now ← call ANow;
  _ ← call (AStatusPatch KClusterPeering cp (cp_with_status cp {|
    cp_Phase := ClusterPeeringPhaseError; cp_LocalCIDR := cp_LocalCIDR (cp_Status cp);
    cp_RemoteCIDR := cp_RemoteCIDR (cp_Status cp);
    cp_Conditions := setCondition (cp_Conditions (cp_Status cp)) {|
      cond_Type := "Ready"; cond_Status := ConditionFalse; cond_Reason := "ClusterPeeringError";
      cond_Message := msg; cond_LastTransitionTime := now |} |}));
  mret (inr (requeue_after (seconds 30))).

(** *** Reconciling *)

(** Steps 4 to 8, with the gateway of the other cluster known. *)
Definition establish_cluster (cp : LatticeClusterPeering) (info : GatewayInfo) : kprog (gresult ctrl_Result) :=
  let spec := cp_Spec cp in
  localNetwork ← getReadyNetworkForCluster (cp_LocalNamespace spec) (cp_LocalNetwork spec);
  match localNetwork with
  | inl err => setClusterPeeringError cp ("local network not ready: " +:+ error_text err)
  | inr localNetwork =>
      let networkName := Name (net_meta localNetwork) in
      _ ←? wrap_error "ensure remote gateway shadow" (ensureRemoteGatewayShadow cp info networkName);
      localGW ← findGatewayForCluster (cp_LocalNamespace spec) (cp_LocalNetwork spec);
      match localGW with
      | inl err => setClusterPeeringError cp ("no local gateway: " +:+ error_text err)
      | inr None => setClusterPeeringError cp "no local gateway: <nil>"
      | inr (Some localGW) =>
          _ ←? ensureAnnotationForCluster localGW (cluster_annotationKey cp) (gi_CIDR info);
          _ ←? ensurePoliciesForCluster cp networkName;
          setClusterPeeringReady cp (net_ActiveCIDR (net_Status localNetwork)) (gi_CIDR info)
      end
  end.

Definition cluster_reconcileNormal (cp : LatticeClusterPeering) : cprog (gresult ctrl_Result) :=
  let spec := cp_Spec cp in
  cluster ← api (call (AGet KCluster {| key_Namespace := ""; key_Name := cp_RemoteCluster spec |}));
  match cluster with
  | inl err => api (setClusterPeeringError cp
      ("LatticeCluster " +:+ go_quote (cp_RemoteCluster spec) +:+ " not found: " +:+ error_text err))
  | inr cluster =>
      token ← loadCredential (clu_CredentialRef (clu_Spec cluster));
      match token with
      | inl err => api (setClusterPeeringError cp ("credential load failed: " +:+ error_text err))
      | inr token =>
          info ← fetchGatewayInfo (clu_ManagementEndpoint (clu_Spec cluster)) token
            (cp_RemoteNamespace spec) (cp_RemoteNetwork spec);
          match info with
          | inl err => api (setClusterPeeringError cp ("remote gateway info: " +:+ error_text err))
          | inr info => api (establish_cluster cp info)
          end
      end
  end.

Definition cluster_reconcileDelete (cp : LatticeClusterPeering) : kprog (gresult ctrl_Result) :=
  let ns := cp_LocalNamespace (cp_Spec cp) in
  gw ← findGatewayForCluster ns (cp_LocalNetwork (cp_Spec cp));
  _ ← match gw with
      | inr (Some gw) => removeAnnotationForCluster gw (cluster_annotationKey cp)
      | _ => mret (inr tt)
      end;
  _ ← deleteClusterResourceIfExists KPeer ns (shadow_name cp);
  _ ← deleteClusterResourceIfExists KPolicy ns (cluster_gwPolicyName cp);
  _ ← deleteClusterResourceIfExists KPolicy ns (cluster_shadowPolicyName cp);
  _ ←? call (AUpdate KClusterPeering (cp_with_meta cp (RemoveFinalizer (cp_meta cp) clusterPeeringFinalizer)));
  mret (inr no_requeue).

Definition cluster_Reconcile (req : NamespacedName) : cprog (gresult ctrl_Result) :=
  got ← api (call (AGet KClusterPeering req));
  match got with
  | inl err => Ret (if IsNotFound err then inr no_requeue else inl err)
  | inr cp =>
      match DeletionTimestamp (cp_meta cp) with
      | Some _ => api (cluster_reconcileDelete cp)
      | None =>
          if negb (ContainsFinalizer (cp_meta cp) clusterPeeringFinalizer) then
            _ ←? api (call (AUpdate KClusterPeering
              (cp_with_meta cp (AddFinalizer (cp_meta cp) clusterPeeringFinalizer))));
            Ret (inr requeue_now)
          else cluster_reconcileNormal cp
      end
  end.

(** ** What a reconcile may do *)

Section safety.
Context (cp : LatticeClusterPeering).

Definition cluster_shadow_key (key : NamespacedName) : Prop :=
  key = {| key_Namespace := cp_LocalNamespace (cp_Spec cp); key_Name := shadow_name cp |}.
Definition cluster_policy_key (key : NamespacedName) : Prop :=
  key_Namespace key = cp_LocalNamespace (cp_Spec cp) /\
  (key_Name key = cluster_gwPolicyName cp \/ key_Name key = cluster_shadowPolicyName cp).

Definition cluster_api_calls T (e : apiE T) : Prop :=
  match e with
  | AGet _ _ | AList _ _ | ANow => True
  | AUpdate k o => match k return obj k -> Prop with
                   | KClusterPeering => λ o, meta_key (cp_meta o) = meta_key (cp_meta cp)
                   | _ => λ _, False
                   end o
  | AStatusPatch k b n => match k return obj k -> obj k -> Prop with
                          | KClusterPeering => λ b n, b = cp /\ cp_meta n = cp_meta cp /\ cp_Spec n = cp_Spec cp
                          | _ => λ _ _, False
                          end b n
  | AStatusUpdate k o => match k return obj k -> Prop with
                         | KPeer => λ o, cluster_shadow_key (meta_key (peer_meta o))
                         | _ => λ _, False
                         end o
  | APatch k b n => match k return obj k -> obj k -> Prop with
                    | KPeer => λ b n, annotation_patch (cluster_annotationKey cp) b n \/
                        (cluster_shadow_key (meta_key (peer_meta n)) /\ meta_key (peer_meta b) = meta_key (peer_meta n) /\
                         Labels (peer_meta n) !! LabelShadow = Some "true")
                    | KPolicy => λ b n, cluster_policy_key (meta_key (pol_meta n)) /\ pol_meta n = pol_meta b
                    | _ => λ _ _, False
                    end b n
  | ACreate k o => match k return obj k -> Prop with
                   | KPeer => λ o, cluster_shadow_key (meta_key (peer_meta o)) /\
                                   Labels (peer_meta o) !! LabelShadow = Some "true"
                   | KPolicy => λ o, cluster_policy_key (meta_key (pol_meta o))
                   | _ => λ _, False
                   end o
  | ADelete k key => (k = KPeer /\ cluster_shadow_key key) \/ (k = KPolicy /\ cluster_policy_key key)
  | _ => False
  end.

(** The server knows this peering, and answers writes under the key written. *)
Definition cluster_api_env T (e : apiE T) (r : T) : Prop :=
  NetworkReconciler.network_env T e r /\
  match e in apiE T return T -> Prop with
  | AGet k _ => match k return gresult (obj k) -> Prop with
                | KClusterPeering => λ r, forall o, r = inr o -> o = cp
                | _ => λ _, True
                end
  | ACreate k o => λ r, forall o', r = inr o' -> obj_key k o' = obj_key k o
  | APatch k _ n => λ r, forall o', r = inr o' -> obj_key k o' = obj_key k n
  | _ => λ _, True
  end r.

Abbreviation safe q Q := (wp cluster_api_env cluster_api_calls q Q).

Lemma cluster_reads T (e : apiE T) : read_call T e -> cluster_api_calls T e.
Proof. by destruct e. Qed.
Lemma cluster_env_key k key o : cluster_api_env _ (AGet k key) (inr o) -> obj_key k o = key.
Proof. intros [[_ Hk] _]. by apply Hk. Qed.

Lemma cluster_status_safe o address :
  cluster_shadow_key (meta_key (peer_meta o)) ->
  safe (_ ←? call (AStatusUpdate KPeer (shadow_status o address)); mret (inr tt)) (λ _, True).
Proof. intros Hk. wp_ask. by intros [err|o'] _. Qed.

Lemma ensureRemoteGatewayShadow_safe info network :
  safe (ensureRemoteGatewayShadow cp info network) (λ _, True).
Proof.
  unfold ensureRemoteGatewayShadow. wp_ask. intros [err|existing] [[_ Hk] _].
  - destruct (IsNotFound err); [|done]. apply wp_try, wp_call; [simpl; split; [done|]; by rewrite lookup_insert_eq|].
    intros [err'|created] [_ Hc]; [done|]. specialize (Hc _ eq_refl). apply cluster_status_safe.
    change (cluster_shadow_key (obj_key KPeer created)). by rewrite Hc.
  - specialize (Hk _ eq_refl). cbv zeta. apply wp_try, wp_call.
    { right. split_and!; [|done|by apply lookup_insert_eq]. change (cluster_shadow_key (obj_key KPeer existing)).
      by rewrite Hk. }
    intros [err'|stored] [_ Hs]; [done|]. specialize (Hs _ eq_refl). destruct (negb _); [|done].
    apply cluster_status_safe. change (cluster_shadow_key (obj_key KPeer stored)). rewrite Hs.
    change (cluster_shadow_key (obj_key KPeer existing)). by rewrite Hk.
Qed.

Lemma cluster_applyPolicy_safe desired :
  cluster_policy_key (meta_key (pol_meta desired)) -> safe (applyPolicy desired) (λ _, True).
Proof. intros Hd. by apply (applyPolicy_wp _ _ cluster_reads cluster_env_key cluster_policy_key). Qed.

Lemma ensurePoliciesForCluster_safe network : safe (ensurePoliciesForCluster cp network) (λ _, True).
Proof.
  wp_use cluster_applyPolicy_safe; [split; [done|by left]|].
  intros [err|[]] _; [done|]. apply wp_try.
  eapply wp_mono; [apply cluster_applyPolicy_safe; split; [done|by right]|by intros []].
Qed.

Lemma setClusterPeeringError_safe msg : safe (setClusterPeeringError cp msg) (λ _, True).
Proof. wp_ask. intros now _. by apply wp_bind, wp_call. Qed.

Lemma setClusterPeeringReady_safe cidrA cidrB : safe (setClusterPeeringReady cp cidrA cidrB) (λ _, True).
Proof. wp_ask. intros now _. wp_ask. by intros [err|o] _. Qed.

Lemma getReadyNetworkForCluster_safe ns name : safe (getReadyNetworkForCluster ns name) (λ _, True).
Proof. wp_ask. intros [err|net] _; [done|]. cbv beta iota. by destruct (_ || _). Qed.

Lemma findGatewayForCluster_safe ns name : safe (findGatewayForCluster ns name) (λ _, True).
Proof. wp_ask. by intros [err|l] _. Qed.

Lemma cluster_wrap_safe msg q : safe q (λ _, True) -> safe (wrap_error msg q) (λ _, True).
Proof. intros Hq. apply wp_bind. eapply wp_mono; [exact Hq|done]. Qed.

Lemma establish_cluster_safe info : safe (establish_cluster cp info) (λ _, True).
Proof.
  unfold establish_cluster. cbv zeta.
  wp_use getReadyNetworkForCluster_safe. intros [err|net] _; [apply setClusterPeeringError_safe|].
  apply wp_try. eapply wp_mono; [apply cluster_wrap_safe, ensureRemoteGatewayShadow_safe|].
  intros [err|[]] _; [done|].
  wp_use findGatewayForCluster_safe. intros [err|[gw|]] _; [apply setClusterPeeringError_safe| |apply setClusterPeeringError_safe].
  apply wp_try. eapply wp_mono; [apply ensureAnnotation_wp; by left|]. intros [err|[]] _; [done|].
  apply wp_try. eapply wp_mono; [apply ensurePoliciesForCluster_safe|]. intros [err|[]] _; [done|].
  apply setClusterPeeringReady_safe.
Qed.

Lemma cluster_unroute_safe (gw : gresult (option LatticePeer)) :
  safe (match gw with
        | inr (Some gw) => removeAnnotationForCluster gw (cluster_annotationKey cp)
        | _ => mret (inr tt)
        end) (λ _, True).
Proof. destruct gw as [err|[gw|]]; [done| |done]. apply removeAnnotation_wp. by left. Qed.

Lemma cluster_reconcileDelete_safe : safe (cluster_reconcileDelete cp) (λ _, True).
Proof.
  unfold cluster_reconcileDelete. cbv zeta. wp_use findGatewayForCluster_safe. intros gw _.
  apply wp_bind. eapply wp_mono; [apply cluster_unroute_safe|]. intros _ _.
  apply wp_bind. eapply wp_mono; [apply deleteIfExists_wp; by left|]. intros _ _.
  apply wp_bind. eapply wp_mono; [apply deleteIfExists_wp; right; split; [done|split; [done|by left]]|]. intros _ _.
  apply wp_bind. eapply wp_mono; [apply deleteIfExists_wp; right; split; [done|split; [done|by right]]|]. intros _ _.
  wp_ask. by intros [err'|o] _.
Qed.
End safety.

(** What may be answered, and what may be called, other clusters included: they
    may answer anything and are only asked for their gateway. *)
Definition cluster_env (cp : LatticeClusterPeering) T (e : clusterE T) (r : T) : Prop :=
  match e in clusterE T return T -> Prop with
  | CApi _ e => cluster_api_env cp _ e
  | CHttpGet _ _ => λ _, True
  end r.

Definition cluster_calls (cp : LatticeClusterPeering) T (e : clusterE T) : Prop :=
  match e with
  | CApi _ e => cluster_api_calls cp _ e
  | CHttpGet url _ => exists endpoint, url = endpoint +:+ "/api/v1/peering/gateway-info?namespace=" +:+
      cp_RemoteNamespace (cp_Spec cp) +:+ "&network=" +:+ cp_RemoteNetwork (cp_Spec cp)
  end.

Lemma cluster_run_safe cp (q : kprog (gresult ctrl_Result)) :
  wp (cluster_api_env cp) (cluster_api_calls cp) q (λ _, True) ->
  wp (cluster_env cp) (cluster_calls cp) (api q) (λ _, True).
Proof. intros Hq. apply (wp_translate CApi (cluster_env cp) (cluster_calls cp)), Hq. Qed.

Lemma loadCredential_safe cp name : wp (cluster_env cp) (cluster_calls cp) (loadCredential name) (λ _, True).
Proof.
  unfold loadCredential. apply wp_try, wp_call; [done|]. intros [err|[|secret l]] _; [done..|]. simpl.
  by destruct (secret_Data secret !! "token").
Qed.

Lemma fetchGatewayInfo_safe cp endpoint token :
  wp (cluster_env cp) (cluster_calls cp)
    (fetchGatewayInfo endpoint token (cp_RemoteNamespace (cp_Spec cp)) (cp_RemoteNetwork (cp_Spec cp))) (λ _, True).
Proof.
  unfold fetchGatewayInfo. cbv zeta. apply wp_try, wp_call; [by exists endpoint|]. intros [err|resp] _; [done|].
  destruct (negb _); [done|]. destruct (decode_gateway _) as [err|info]; [done|]. by destruct (_ || _ || _).
Qed.

(** Reconciling a cluster peering never panics and, whatever the other
    cluster answers, touches nothing but its own objects in its own namespace:
    its own resource and status, the shadow peer and the two policies that carry
    its name, and on other peers only the annotation of this peering's route; the
    other cluster is only asked for its gateway. *)
Theorem cluster_Reconcile_safe cp :
  wp (cluster_env cp) (cluster_calls cp) (cluster_Reconcile (meta_key (cp_meta cp))) (λ _, True).
Proof.
  unfold cluster_Reconcile. apply wp_bind, wp_call; [done|]. intros [err|o] [_ Hp].
  { cbv beta iota. by destruct (IsNotFound err). }
  simpl in Hp. rewrite (Hp _ eq_refl). destruct (DeletionTimestamp (cp_meta cp)).
  { apply cluster_run_safe, cluster_reconcileDelete_safe. }
  destruct (ContainsFinalizer (cp_meta cp) clusterPeeringFinalizer) eqn:Hf; cbn [negb].
  2: { apply wp_try, wp_call; [|by intros [err|o'] _]. simpl. unfold AddFinalizer. by rewrite Hf. }
  unfold cluster_reconcileNormal. cbv zeta. apply wp_bind, wp_call; [done|].
  intros [err|cluster] _; [apply cluster_run_safe, setClusterPeeringError_safe|].
  apply wp_bind. eapply wp_mono; [apply loadCredential_safe|].
  intros [err|token] _; [apply cluster_run_safe, setClusterPeeringError_safe|].
  apply wp_bind. eapply wp_mono; [apply fetchGatewayInfo_safe|].
  intros [err|info] _; apply cluster_run_safe; [apply setClusterPeeringError_safe|apply establish_cluster_safe].
Qed.

(** ** The two sides together *)

(** The other cluster runs this program: a request that is answered is answered
    by the handler, or refused by the middleware before it; both send a
    [resp.Response]. *)
Definition lattice_env (cp : LatticeClusterPeering) T (e : clusterE T) (r : T) : Prop :=
  match e in clusterE T return T -> Prop with
  | CApi _ e => cluster_api_env cp _ e
  | CHttpGet _ _ => λ r, forall resp, r = inr resp -> exists rsp,
      (may_return (gatewayInfo (cp_RemoteNamespace (cp_Spec cp)) (cp_RemoteNetwork (cp_Spec cp))) rsp \/
       rsp_Data rsp = None) /\ resp = http_of gateway_json rsp
  end r.

(** Nothing but the finalizer and an error status. *)
Definition no_peering_calls (cp : LatticeClusterPeering) T (e : clusterE T) : Prop :=
  match e with
  | CApi _ e =>
      match e with
      | AGet _ _ | AList _ _ | ANow => True
      | AUpdate k o => match k return obj k -> Prop with
                       | KClusterPeering => λ o, o = cp_with_meta cp (AddFinalizer (cp_meta cp) clusterPeeringFinalizer)
                       | _ => λ _, False
                       end o
      | AStatusPatch k b n => match k return obj k -> obj k -> Prop with
                              | KClusterPeering => λ b n, cp_Phase (cp_Status n) = ClusterPeeringPhaseError
                              | _ => λ _ _, False
                              end b n
      | _ => False
      end
  | CHttpGet _ _ => True
  end.

(** The wrapped answer has no member that the decoder looks for. *)
Lemma decode_response (rsp : Response GatewayInfo) :
  decode_gateway (hr_JSON (http_of gateway_json rsp)) = inr no_gateway_info.
Proof.
  unfold http_of, response_json, decode_gateway, hr_JSON, decode_gateway_members.
  by replace (gateway_field "code") with (@None string) by (vm_compute; reflexivity);
     replace (gateway_field "msg") with (@None string) by (vm_compute; reflexivity);
     replace (gateway_field "data") with (@None string) by (vm_compute; reflexivity).
Qed.

Lemma setClusterPeeringError_no_peering cp msg :
  wp (lattice_env cp) (no_peering_calls cp) (api (setClusterPeeringError cp msg)) (λ _, True).
Proof. split; [done|]. intros now _. by split. Qed.

(** C14. Two clusters that run this program never peer: the handler wraps the
    gateway in a response object, the controller reads the members of the gateway
    from the response object itself, finds none, and reports an incomplete answer.
    So a cluster peering that is not being deleted only ever gets its finalizer
    and the Error phase; no shadow peer, route or policy is made. *)
Theorem cluster_peering_never_ready cp :
  DeletionTimestamp (cp_meta cp) = None ->
  wp (lattice_env cp) (no_peering_calls cp) (cluster_Reconcile (meta_key (cp_meta cp))) (λ _, True).
Proof.
  intros Hd. unfold cluster_Reconcile. apply wp_bind, wp_call; [done|]. intros [err|o] [_ Hp].
  { cbv beta iota. by destruct (IsNotFound err). }
  simpl in Hp. rewrite (Hp _ eq_refl), Hd. destruct (ContainsFinalizer _ _) eqn:Hf; cbn [negb].
  2: { apply wp_try, wp_call; [done|]. by intros [err|o'] _. }
  unfold cluster_reconcileNormal. cbv zeta. apply wp_bind, wp_call; [done|].
  intros [err|cluster] _; [apply setClusterPeeringError_no_peering|].
  apply wp_bind. unfold loadCredential. apply wp_try, wp_call; [done|].
  intros [err|[|secret l]] _; cbn [wp translate]; [apply setClusterPeeringError_no_peering..|].
  destruct (secret_Data secret !! "token") as [token|]; cbn [wp]; [|apply setClusterPeeringError_no_peering].
  apply wp_bind. unfold fetchGatewayInfo. cbv zeta. apply wp_try, wp_call; [done|].
  intros [err|resp] Hr; cbn [wp]; [apply setClusterPeeringError_no_peering|].
  destruct (Hr _ eq_refl) as (rsp & _ & ->). rewrite decode_response.
  change (hr_StatusCode (http_of gateway_json rsp) =? 200) with true. cbn [negb].
  apply setClusterPeeringError_no_peering.
Qed.

(** A cluster with a peering, a remote cluster and its credential; the remote
    cluster has a gateway.  The state collects the phases of the status patches. *)
Definition sample_cp : LatticeClusterPeering := {|
  cp_meta := meta_with_finalizers (new_meta "" "to-eu") [clusterPeeringFinalizer];
  cp_Spec := {| cp_LocalNamespace := "ws-a"; cp_LocalNetwork := "net"; cp_RemoteCluster := "eu";
    cp_RemoteNamespace := "ws-b"; cp_RemoteNetwork := "net" |};
  cp_Status := {| cp_Phase := ""; cp_LocalCIDR := ""; cp_RemoteCIDR := ""; cp_Conditions := [] |} |}.

Definition sample_gateway_info : GatewayInfo := {|
  gi_PublicKey := "K"; gi_GatewayIP := "10.0.2.1"; gi_CIDR := "10.0.2.0/24"; gi_AppID := "gw"; gi_PeerID := "7" |}.

Definition sample_cluster : LatticeCluster := {|
  clu_meta := new_meta "" "eu";
  clu_Spec := {| clu_ManagementEndpoint := "https://eu"; clu_CredentialRef := "eu-token" |};
  clu_Status := {| clu_Phase := ""; clu_LastProbeTime := None; clu_Conditions := [] |} |}.

Definition not_served {A} : gresult A := inl (ErrStatus OtherReason "not served").

Definition sample_cluster_api T (e : apiE T) : T :=
  match e in apiE T return T with
  | AGet k _ => match k return gresult (obj k) with
                | KClusterPeering => inr sample_cp
                | KCluster => inr sample_cluster
                | _ => not_served
                end
  | AList k _ => match k return gresult (list (obj k)) with
                 | KSecret => inr [{| secret_meta := new_meta "sys" "s"; secret_Data := {[ "token" := "t" ]} |}]
                 | _ => not_served
                 end
  | ACreate _ o => inr o
  | AUpdate _ o => inr o
  | APatch _ _ n => inr n
  | AStatusPatch _ _ n => inr n
  | AStatusUpdate _ o => inr o
  | AApply _ o => inr o
  | ADelete _ _ => inr tt
  | ASetControllerReference _ m => inr m
  | ANow => 0
  | AGenerateKey => not_served
  | AEvent _ _ _ => tt
  end.

Definition patched_phase T (e : clusterE T) : list string :=
  match e with
  | CApi _ (AStatusPatch k _ n) => match k return obj k -> list string with
                                   | KClusterPeering => λ n, [cp_Phase (cp_Status n)]
                                   | _ => λ _, []
                                   end n
  | _ => []
  end.

Definition sample_clusters T (e : clusterE T) (s : list string) : T * list string :=
  (match e in clusterE T return T with
   | CApi _ e => sample_cluster_api _ e
   | CHttpGet _ _ => inr (http_of gateway_json (resp_OK sample_gateway_info))
   end, s ++ patched_phase T e).

Lemma cluster_peering_never_ready_witness :
  run sample_clusters (cluster_Reconcile (meta_key (cp_meta sample_cp))) [] =
    (Some (inr (requeue_after (seconds 30))), ["Error"]) /\
  wp (lattice_env sample_cp) (no_peering_calls sample_cp) (cluster_Reconcile (meta_key (cp_meta sample_cp)))
    (λ _, True).
Proof. split; [vm_compute; reflexivity|]. apply cluster_peering_never_ready. reflexivity. Defined.

(** An answer that is not wrapped would be understood. *)
Example unwrapped_gateway_read :
  decode_gateway (inr (gateway_json sample_gateway_info)) = inr sample_gateway_info.
Proof. vm_compute. reflexivity. Qed.

(** ** Names *)

(** The route annotation of a cluster peering is that of the network peering of the
    same name, when the name is short: the two overwrite each other's routes on a
    gateway they share. *)
Theorem cluster_route_collides cp peering :
  Name (np_meta peering) = cp_name cp -> (String.length (cp_name cp) <= 49)%nat ->
  cluster_annotationKey cp = peeringRouteAnnotationKey (Name (np_meta peering)).
Proof.
  intros -> Hs. unfold cluster_annotationKey, peeringRouteAnnotationKey, safeKeyName. cbv zeta.
  rewrite bool_decide_true; [done|]. rewrite length_app_string. simpl. lia.
Qed.

(** A gateway of a network with a long name is not found: it is labelled with the
    shortened key. *)
Theorem long_network_unlabelled networkName :
  (55 < String.length networkName)%nat -> "alattice.io/network-" +:+ networkName <> networkLabelKey networkName.
Proof.
  intros Hn Heq. destruct (safeKeyName_bound "network-" networkName) as [Hb _]; [simpl; lia|].
  apply (f_equal String.length) in Heq. unfold networkLabelKey in Heq.
  change "alattice.io/network-" with ("alattice.io/" +:+ "network-") in Heq.
  rewrite !length_app_string in Heq. simpl in Heq. lia.
Qed.
