(* ===== verification/Relay.v ===== *)
(** * Relay: the LRP relay protocol
    ([internal/relay]: [lrp_protocol.go], [session_manager.go], [lrp_server.go],
    [lrp_server_quic.go], [lrp_client.go], [lrp_client_tcp.go],
    [lrp_client_quic.go])

    Clients register under an identifier and send frames to others through the
    server.  Connections are modelled by what arrives on them: a TCP connection by
    the bytes received before its first read error, a QUIC connection by its
    datagrams.  What the server and the clients do with it is a list of events. *)

From S2P Require Import Prelude Prog.

(** ** Frames *)

Definition HeaderSize : nat := 12.
Definition Register : Z := 0x01.
Definition Forward : Z := 0x02.
Definition KeepAlive : Z := 0x03.
Definition Probe : Z := 0x04.

Record Header := { Seq : Z; PayloadLen : Z; Cmd : Z; ToID : Z; Reserved : Z }.

(** The fields at their widths. *)
Definition header_wf (h : Header) : Prop :=
  0 <= Seq h < 2 ^ 16 /\ 0 <= PayloadLen h < 2 ^ 32 /\ is_byte (Cmd h) /\
  0 <= ToID h < 2 ^ 32 /\ is_byte (Reserved h).

Definition Marshal (h : Header) : list Z :=
  le_bytes 2 (Seq h) ++ le_bytes 4 (PayloadLen h) ++ [Cmd h] ++ le_bytes 4 (ToID h) ++ [Reserved h].

(** A buffer too short to hold the header panics. *)
Definition MarshalInto (h : Header) (buf : list Z) : option (list Z) :=
  if bool_decide (HeaderSize <= length buf)%nat then Some (Marshal h ++ drop HeaderSize buf) else None.

Definition Unmarshal (data : list Z) : gresult Header :=
  if bool_decide (length data < HeaderSize)%nat then inl (ErrText "lrp: header too short")
  else inr {| Seq := le_value (take 2 data);
              PayloadLen := le_value (take 4 (drop 2 data));
              Cmd := nth 6 data 0;
              ToID := le_value (take 4 (drop 7 data));
              Reserved := nth 11 data 0 |}.

(** ** The client's frames *)

(** The sequence counter is an atomic [uint32]. *)
Definition nextSeq (seq : Z) : Z * Z := let c := u32 (seq + 1) in (Z.land c 0xFFFF, c).

(** The Register frame of a client, and its counter afterwards. *)
Definition register_frame (seq localId : Z) : list Z * Z :=
  let '(s, seq) := nextSeq seq in
  (Marshal {| Seq := s; PayloadLen := 0; Cmd := Register; ToID := u32 localId; Reserved := 0 |}, seq).

Definition makeFrame (seq toID cmd : Z) (data : list Z) : list Z * Z :=
  let '(s, seq) := nextSeq seq in
  (Marshal {| Seq := s; PayloadLen := u32 (Z.of_nat (length data)); Cmd := cmd; ToID := u32 toID;
              Reserved := 0 |} ++ data, seq).

(** The queue of the TCP client: a full queue drops the frame. *)
Definition sendChanDepth : nat := 256.
Definition tcp_Send (sendCh : list (list Z)) (seq targetId lrpType : Z) (data : list Z)
    : gresult unit * list (list Z) * Z :=
  let '(frame, seq) := makeFrame seq targetId lrpType data in
  if bool_decide (length sendCh < sendChanDepth)%nat then (inr tt, sendCh ++ [frame], seq)
  else (inl (ErrText "lrp: send channel full"), sendCh, seq).

(** ** Sessions *)

Inductive link := StreamLink (stream : Z) | DatagramLink (conn : Z).
Record Session := { session_ID : Z; session_Stream : Z; session_Type : string }.

Record SessionManager := {
  sessions : gmap Z Session;
  quicConns : gmap Z Z;
}.

Definition NewSessionManager : SessionManager := {| sessions := ∅; quicConns := ∅ |}.

Definition sm_Register (m : SessionManager) (id : Z) (s : Session) : SessionManager :=
  {| sessions := <[id := s]> (sessions m); quicConns := quicConns m |}.

Definition sm_Unregister (m : SessionManager) (id : Z) : SessionManager :=
  {| sessions := delete id (sessions m); quicConns := delete id (quicConns m) |}.

Definition sm_RegisterQUIC (m : SessionManager) (id ctrl conn : Z) : SessionManager :=
  {| sessions := <[id := {| session_ID := id; session_Stream := ctrl; session_Type := "QUIC" |}]> (sessions m);
     quicConns := <[id := conn]> (quicConns m) |}.

Definition sm_Get (m : SessionManager) (id : Z) : option Session := sessions m !! id.

(** Where [Relay] writes the frame; [None] is its error. *)
Definition relay_target (m : SessionManager) (toID : Z) : option link :=
  match quicConns m !! toID with
  | Some conn => Some (DatagramLink conn)
  | None =>
      match sessions m !! toID with
      | Some s => Some (StreamLink (session_Stream s))
      | None => None
      end
  end.

Definition ConnectedPeers (m : SessionManager) : nat := size (sessions m).

(** The write itself is the environment's. *)
Inductive relayE : Type -> Type :=
| Deliver (to : link) (frame : list Z) : relayE (gresult unit).

Definition sm_Relay (m : SessionManager) (toID : Z) (frame : list Z) : prog relayE (gresult unit) :=
  match relay_target m toID with
  | Some l => call (Deliver l frame)
  | None => Ret (inl (ErrText "lrp: relay target not found"))
  end.

(** ** The server *)

Inductive server_event :=
| EvRegister (id : Z)
| EvRelay (toID : Z) (frame : list Z)
| EvUnregister (id : Z).

(** The loop of a TCP session on the bytes still to come.  A payload that does
    not arrive whole ends it: the next read fails as well. *)
Fixpoint session_loop (fuel : nat) (input : list Z) : list server_event :=
  match fuel with
  | O => []
  | S fuel =>
      if bool_decide (length input < HeaderSize)%nat then []
      else
        match Unmarshal (take HeaderSize input) with
        | inl _ => session_loop fuel (drop HeaderSize input)
        | inr h =>
            let rest := drop HeaderSize input in
            if (Cmd h =? Forward) || (Cmd h =? Probe) then
              let len := Z.to_nat (PayloadLen h) in
              if bool_decide (length rest < len)%nat then []
              else EvRelay (ToID h) (take HeaderSize input ++ take len rest) ::
                   session_loop fuel (drop len rest)
            else session_loop fuel rest
        end
  end.

(** A session consumes at least a header per turn, so its input bounds it. *)
Definition handleBoltSession (input : list Z) : list server_event :=
  if bool_decide (length input < HeaderSize)%nat then []
  else
    match Unmarshal (take HeaderSize input) with
    | inl _ => []
    | inr header =>
        if negb (Cmd header =? Register) then []
        else
          let fromId := ToID header in
          [EvRegister fromId] ++ session_loop (length input) (drop HeaderSize input) ++ [EvUnregister fromId]
    end.

(** Datagrams of a QUIC session. *)
Definition relayDatagrams (datagrams : list (list Z)) : list server_event :=
  omap (λ data,
    if bool_decide (length data < HeaderSize)%nat then None
    else
      match Unmarshal (take HeaderSize data) with
      | inl _ => None
      | inr h =>
          if negb (Cmd h =? Forward) && negb (Cmd h =? Probe) then None
          else Some (EvRelay (ToID h) data)
      end) datagrams.

(** The number of headers read off a QUIC control stream before it ends. *)
Fixpoint handleControlStream (fuel : nat) (input : list Z) : nat :=
  match fuel with
  | O => 0
  | S fuel =>
      if bool_decide (length input < HeaderSize)%nat then 0
      else
        match Unmarshal (take HeaderSize input) with
        | inl _ => 0
        | inr _ => S (handleControlStream fuel (drop HeaderSize input))
        end
  end.

(** ** Receiving *)

Definition MaxProbePayload : Z := 2048.

Definition probeChanSize : nat := 1024.

(** [Task]: a probe waiting for the client's handler. *)
Record Task := { SessionID : Z; Data : list Z }.

(** The non-blocking send on the probe channel: a full channel drops the task. *)
Definition offer_probe (probeCh : list Task) (t : Task) : list Task :=
  if bool_decide (length probeCh < probeChanSize)%nat then probeCh ++ [t] else probeCh.

(** What a client's [ReceiveFunc] returns: no packet, a packet from the endpoint
    of a remote identifier, or an error. *)
Inductive rx_result :=
| RxNothing
| RxPacket (remoteId : Z) (payload : list Z)
| RxError.

(** One call of the TCP client's on the bytes received, with the size of the
    packet buffer: the result, the probe channel and what is left of the stream.
    [timeout]: a header that does not arrive whole is a read that timed out, for
    which nothing is returned. *)
Definition tcp_receive (timeout : bool) (bufsize : nat) (probeCh : list Task) (input : list Z)
    : rx_result * list Task * list Z :=
  if bool_decide (length input < HeaderSize)%nat then
    (if timeout then RxNothing else RxError, probeCh, [])
  else
    let rest := drop HeaderSize input in
    match Unmarshal (take HeaderSize input) with
    | inl _ => (RxError, probeCh, rest)
    | inr header =>
        let len := Z.to_nat (PayloadLen header) in
        if Cmd header =? Probe then
          if PayloadLen header >? MaxProbePayload then (RxNothing, probeCh, rest)
          else if bool_decide (length rest < len)%nat then (RxError, probeCh, [])
          else (RxNothing, offer_probe probeCh {| SessionID := ToID header; Data := take len rest |},
                drop len rest)
        else if Cmd header =? Forward then
          if bool_decide (bufsize < len)%nat then (RxNothing, probeCh, rest)
          else if bool_decide (length rest < len)%nat then (RxError, probeCh, [])
          else (RxPacket (ToID header) (take len rest), probeCh, drop len rest)
        else (RxNothing, probeCh, drop len rest)
    end.

(** One call of the QUIC client's on the datagrams received before the connection
    ends: it reads until one is a packet. *)
Fixpoint quic_receive (bufsize : nat) (probeCh : list Task) (datagrams : list (list Z))
    : rx_result * list Task * list (list Z) :=
  match datagrams with
  | [] => (RxError, probeCh, [])
  | data :: datagrams =>
      if bool_decide (length data < HeaderSize)%nat then quic_receive bufsize probeCh datagrams
      else
        match Unmarshal (take HeaderSize data) with
        | inl _ => quic_receive bufsize probeCh datagrams
        | inr header =>
            let payload := drop HeaderSize data in
            if Cmd header =? Forward then
              if bool_decide (bufsize < length payload)%nat then quic_receive bufsize probeCh datagrams
              else (RxPacket (ToID header) payload, probeCh, datagrams)
            else if Cmd header =? Probe then
              quic_receive bufsize (offer_probe probeCh {| SessionID := ToID header; Data := payload |})
                datagrams
            else quic_receive bufsize probeCh datagrams
        end
  end.

(** ** Frames round trip *)

Lemma length_Marshal h : length (Marshal h) = HeaderSize.
Proof. unfold Marshal. by autorewrite with lattice. Qed.

Lemma le_value_le_bytes n z : 0 <= z < 256 ^ Z.of_nat n -> le_value (le_bytes n z) = z.
Proof. intros Hz. rewrite le_value_bytes. by apply Z.mod_small. Qed.

(** The four byte fields, as lists of known length. *)
Lemma Marshal_fields h :
  exists a b c d e f i j k l,
    le_bytes 2 (Seq h) = [a; b] /\ le_bytes 4 (PayloadLen h) = [c; d; e; f] /\
    le_bytes 4 (ToID h) = [i; j; k; l] /\
    Marshal h = [a; b; c; d; e; f; Cmd h; i; j; k; l; Reserved h].
Proof. unfold Marshal. simpl. by repeat eexists. Qed.

Lemma Unmarshal_Marshal h data : header_wf h -> Unmarshal (Marshal h ++ data) = inr h.
Proof.
  intros (Hs & Hp & Hc & Ht & Hr).
  destruct (Marshal_fields h) as (a & b & c & d & e & f & i & j & k & l & E1 & E2 & E3 & ->).
  unfold Unmarshal. rewrite bool_decide_false by (unfold HeaderSize; rewrite length_app; simpl; lia).
  cbn [app take drop nth]. rewrite <- E1, <- E2, <- E3.
  rewrite (le_value_le_bytes 2 _ Hs), (le_value_le_bytes 4 _ Hp), (le_value_le_bytes 4 _ Ht).
  by destruct h.
Qed.

Lemma le_value_range l : Forall is_byte l -> 0 <= le_value l < 256 ^ Z.of_nat (length l).
Proof.
  induction 1 as [|b l Hb Hl IH]; [simpl; lia|]. unfold is_byte in Hb.
  rewrite length_cons, Nat2Z.inj_succ, Z.pow_succ_r by lia. simpl. lia.
Qed.

Lemma Marshal_Unmarshal data :
  Forall is_byte data -> (HeaderSize <= length data)%nat ->
  exists h, Unmarshal data = inr h /\ header_wf h /\ Marshal h = take HeaderSize data.
Proof.
  intros Hb Hl. do 12 (destruct data as [|? data]; [simpl in Hl; unfold HeaderSize in Hl; lia|]).
  eexists. split; [unfold Unmarshal; rewrite bool_decide_false by (unfold HeaderSize; simpl; lia); reflexivity|].
  cbn [take drop nth]. repeat (apply Forall_cons in Hb as [? Hb]).
  assert (B2 : forall x y, is_byte x -> is_byte y -> le_bytes 2 (le_value [x; y]) = [x; y]).
  { intros. apply (le_bytes_value [x; y]). byte_list. }
  assert (B4 : forall x y z w, is_byte x -> is_byte y -> is_byte z -> is_byte w ->
    le_bytes 4 (le_value [x; y; z; w]) = [x; y; z; w]).
  { intros p q r s ? ? ? ?. apply (le_bytes_value [p; q; r; s]). byte_list. }
  split.
  - unfold header_wf. cbn [Seq PayloadLen Cmd ToID Reserved]. split_and!; try done;
      match goal with |- context [le_value ?l] =>
        assert (Hr : Forall is_byte l) by byte_list; apply le_value_range in Hr; apply Hr end.
  - unfold Marshal. cbn [Seq PayloadLen Cmd ToID Reserved].
    rewrite B2, !B4 by done. done.
Qed.

(** Headers round trip: what [Marshal] writes is read back by [Unmarshal],
    whatever follows it, and any twelve bytes are read as a header whose
    [Marshal] is those bytes. *)
Theorem header_roundtrip h data bytes :
  header_wf h -> Forall is_byte bytes -> (HeaderSize <= length bytes)%nat ->
  Unmarshal (Marshal h ++ data) = inr h /\
  exists h', Unmarshal bytes = inr h' /\ header_wf h' /\ Marshal h' = take HeaderSize bytes.
Proof. intros Hwf Hb Hl. split; [by apply Unmarshal_Marshal|by apply Marshal_Unmarshal]. Qed.

Definition sample_header : Header :=
  {| Seq := 258; PayloadLen := 5; Cmd := Forward; ToID := 4294967295; Reserved := 0 |}.

Lemma header_roundtrip_witness :
  Unmarshal (Marshal sample_header ++ [9]) = inr sample_header /\
  exists h', Unmarshal (replicate 12 7) = inr h' /\ header_wf h' /\ Marshal h' = replicate 12 7.
Proof.
  apply (header_roundtrip sample_header [9] (replicate 12 7)).
  - unfold header_wf, is_byte, sample_header, Forward. simpl. lia.
  - apply Forall_replicate. unfold is_byte. lia.
  - unfold HeaderSize. simpl. lia.
Defined.

(** ** Framing *)

(** What a client sends, as (target, command, payload). *)
Record send := { to_id : Z; to_cmd : Z; to_data : list Z }.

(** Data frames of any payload that fits a length field, and empty keep-alives. *)
Definition valid_send (s : send) : Prop :=
  (to_cmd s = Forward \/ to_cmd s = Probe \/ (to_cmd s = KeepAlive /\ to_data s = [])) /\
  Z.of_nat (length (to_data s)) < 2 ^ 32.

(** The frames of a sequence of sends, with the sequence counter running on. *)
Fixpoint send_frames (seq : Z) (sends : list send) : list (send * list Z) :=
  match sends with
  | [] => []
  | s :: sends =>
      let '(frame, seq) := makeFrame seq (to_id s) (to_cmd s) (to_data s) in
      (s, frame) :: send_frames seq sends
  end.

Definition is_data (cmd : Z) : bool := (cmd =? Forward) || (cmd =? Probe).

(** The relays the server owes for them. *)
Definition owed_relays (frames : list (send * list Z)) : list server_event :=
  omap (λ sf, if is_data (to_cmd sf.1) then Some (EvRelay (u32 (to_id sf.1)) sf.2) else None) frames.

(** The frames that are whole within the first [n] bytes of the stream. *)
Fixpoint arrived (n : nat) (frames : list (send * list Z)) : list (send * list Z) :=
  match frames with
  | [] => []
  | sf :: frames =>
      if bool_decide (n < length sf.2)%nat then [] else sf :: arrived (n - length sf.2) frames
  end.

Definition wire (frames : list (send * list Z)) : list Z := concat frames.*2.

Lemma nextSeq_range seq : 0 <= (nextSeq seq).1 < 2 ^ 16.
Proof.
  unfold nextSeq. cbn [fst]. change 0xFFFF with (Z.ones 16). rewrite Z.land_ones by lia.
  apply Z.mod_pos_bound. lia.
Qed.

Lemma makeFrame_spec seq s :
  valid_send s -> exists h, header_wf h /\ (makeFrame seq (to_id s) (to_cmd s) (to_data s)).1 = Marshal h ++ to_data s /\
    Cmd h = to_cmd s /\ ToID h = u32 (to_id s) /\ Z.to_nat (PayloadLen h) = length (to_data s).
Proof.
  intros [Hc Hl]. unfold makeFrame. pose proof (nextSeq_range seq) as Hs.
  destruct (nextSeq seq) as [q seq']. cbn [fst] in *. eexists. split_and!; [|reflexivity..|].
  - split; [apply Hs|]. split; [simpl; auto with lattice|].
    split; [|split; [simpl; auto with lattice|unfold is_byte; simpl; lia]].
    cbn [Cmd]. destruct Hc as [->|[->|[-> _]]]; unfold Forward, Probe, KeepAlive, is_byte; lia.
  - cbn [PayloadLen]. rewrite u32_small by lia. lia.
Qed.

(** One turn of the loop on a frame that has arrived whole, in part or not at all. *)
Lemma session_loop_frame fuel h data rest n :
  header_wf h -> Z.to_nat (PayloadLen h) = length data -> (is_data (Cmd h) = false -> data = []) ->
  session_loop (S fuel) (take n ((Marshal h ++ data) ++ rest)) =
  if bool_decide (n < HeaderSize + length data)%nat then []
  else (if is_data (Cmd h) then [EvRelay (ToID h) (Marshal h ++ data)] else []) ++
       session_loop fuel (take (n - (HeaderSize + length data)) rest).
Proof.
  intros Hwf Hlen Hdata. rewrite <- app_assoc. pose proof (length_Marshal h) as Hm.
  destruct (decide (n < HeaderSize)%nat) as [Hn|Hn].
  - rewrite bool_decide_true by lia. cbn [session_loop]. rewrite bool_decide_true; [done|].
    rewrite length_take, length_app. lia.
  - rewrite take_app_ge by lia. rewrite Hm. cbn [session_loop].
    decide_len.
    rewrite take_app_length' by done. rewrite drop_app_length' by done.
    rewrite <- (app_nil_r (Marshal h)) at 1. rewrite Unmarshal_Marshal by done.
    fold (is_data (Cmd h)). rewrite Hlen. destruct (is_data (Cmd h)) eqn:Hd.
    + destruct (decide (n - HeaderSize < length data)%nat) as [Hlt|Hge].
      * by rewrite !bool_decide_true by (rewrite ?length_take, ?length_app; lia).
      * rewrite take_app_ge by lia. rewrite !bool_decide_false by (rewrite ?length_take, ?length_app; lia).
        rewrite take_app_length' by done. rewrite drop_app_length' by done.
        by rewrite Nat.sub_add_distr.
    + rewrite (Hdata eq_refl). cbn [length app]. rewrite Nat.add_0_r.
      by rewrite bool_decide_false by lia.
Qed.

Lemma session_loop_wire : forall sends seq n fuel,
  Forall valid_send sends -> (length sends < fuel)%nat ->
  let frames := send_frames seq sends in
  session_loop fuel (take n (wire frames)) = owed_relays (arrived n frames).
Proof.
  induction sends as [|s sends IH]; intros seq n fuel Hv Hf; cbv zeta.
  - destruct fuel; [simpl in Hf; lia|]. change (wire _) with (@nil Z). by rewrite take_nil.
  - apply Forall_cons in Hv as [Hs Hv]. destruct fuel as [|fuel]; [simpl in Hf; lia|].
    destruct (makeFrame_spec seq s Hs) as (h & Hwf & Eh & Ec & Et & El). simpl in Hf.
    cbn [send_frames]. destruct (makeFrame seq (to_id s) (to_cmd s) (to_data s)) as [f seq'].
    cbn [fst] in Eh. subst f. unfold wire. rewrite fmap_cons, concat_cons. cbn [snd].
    assert (Hd : is_data (Cmd h) = false -> to_data s = []).
    { rewrite Ec. by destruct Hs as [[->|[->|[_ ?]]] _]. }
    rewrite (session_loop_frame fuel h (to_data s) _ n Hwf El Hd).
    cbn [arrived snd]. rewrite length_app, length_Marshal. case_bool_decide as Hn; [done|].
    specialize (IH seq' (n - (HeaderSize + length (to_data s)))%nat fuel Hv ltac:(lia)).
    cbv zeta in IH. unfold wire in IH. rewrite IH.
    unfold owed_relays at 2. cbn [omap list_omap fst snd]. rewrite <- Ec, <- Et.
    by destruct (is_data (Cmd h)).
Qed.

Lemma arrived_all : forall frames n, (length (wire frames) <= n)%nat -> arrived n frames = frames.
Proof.
  induction frames as [|[s f] frames IH]; intros n Hn; [done|].
  unfold wire in *. rewrite fmap_cons, concat_cons, length_app in Hn. cbn [snd] in Hn.
  cbn [arrived snd]. rewrite bool_decide_false by lia. f_equal. apply IH. lia.
Qed.

(** Any fuel beyond the input's length gives the whole run. *)
Lemma session_loop_fuel : forall f1 f2 input,
  (length input < f1)%nat -> (length input < f2)%nat -> session_loop f1 input = session_loop f2 input.
Proof.
  induction f1 as [|f1 IH]; intros f2 input H1 H2; [lia|]. destruct f2 as [|f2]; [lia|].
  cbn [session_loop]. case_bool_decide as Hl; [done|].
  assert (Hd : forall k, (length (drop k (drop HeaderSize input)) < f1)%nat /\
                         (length (drop k (drop HeaderSize input)) < f2)%nat).
  { intros k. rewrite !length_drop. unfold HeaderSize in *. lia. }
  destruct (Unmarshal _) as [e|h]; [apply IH; apply (Hd 0%nat)|].
  destruct (_ || _); [|apply IH; apply (Hd 0%nat)].
  case_bool_decide; [done|]. f_equal. apply IH; apply Hd.
Qed.

Lemma register_frame_spec seq localId :
  exists h, header_wf h /\ (register_frame seq localId).1 = Marshal h /\
    Cmd h = Register /\ ToID h = u32 localId.
Proof.
  unfold register_frame. pose proof (nextSeq_range seq) as Hs. destruct (nextSeq seq) as [q seq'].
  eexists. split; [|by split].
  split; [apply Hs|]. split; [simpl; lia|]. split; [unfold is_byte, Register; simpl; lia|].
  split; [simpl; auto with lattice|unfold is_byte; simpl; lia].
Qed.

(** A session that starts with a Register header runs its loop on the rest. *)
Lemma handleBoltSession_registered h rest :
  header_wf h -> Cmd h = Register ->
  handleBoltSession (Marshal h ++ rest) =
  [EvRegister (ToID h)] ++ session_loop (S (length rest)) rest ++ [EvUnregister (ToID h)].
Proof.
  intros Hwf Hc. unfold handleBoltSession. pose proof (length_Marshal h) as Hm.
  decide_len.
  rewrite take_app_length' by done. rewrite drop_app_length' by done.
  rewrite <- (app_nil_r (Marshal h)) at 1. rewrite Unmarshal_Marshal by done.
  rewrite Hc. cbn [negb Z.eqb Register Pos.eqb]. rewrite (session_loop_fuel _ (S (length rest))); [done| |lia].
  rewrite length_app, Hm. unfold HeaderSize. lia.
Qed.

(** C22. Framing of a TCP session.  A client's stream (its Register frame, then
    any sequence of data frames and keep-alives), cut after any number of bytes,
    makes the server register that client, relay exactly the data frames that
    arrived whole, byte for byte, to their targets in the order sent, and
    unregister it.  When the whole stream arrives every data frame is relayed. *)
Theorem session_relays_frames seq localId sends n :
  Forall valid_send sends ->
  let '(reg, seq') := register_frame seq localId in
  let frames := send_frames seq' sends in
  handleBoltSession (reg ++ take n (wire frames)) =
    [EvRegister (u32 localId)] ++ owed_relays (arrived n frames) ++ [EvUnregister (u32 localId)] /\
  handleBoltSession (reg ++ wire frames) =
    [EvRegister (u32 localId)] ++ owed_relays frames ++ [EvUnregister (u32 localId)].
Proof.
  intros Hv. destruct (register_frame_spec seq localId) as (h & Hwf & Eh & Ec & Et).
  destruct (register_frame seq localId) as [reg seq']. cbn [fst] in Eh. subst reg. cbv zeta.
  set (frames := send_frames seq' sends).
  assert (Hrun : forall m, handleBoltSession (Marshal h ++ take m (wire frames)) =
    [EvRegister (u32 localId)] ++ owed_relays (arrived m frames) ++ [EvUnregister (u32 localId)]).
  { intros m. rewrite (handleBoltSession_registered h _ Hwf Ec), Et.
    rewrite (session_loop_fuel _ (S (length sends) + S (length (take m (wire frames))))) by lia.
    unfold frames. by rewrite session_loop_wire by (done || lia). }
  split; [apply Hrun|]. rewrite <- (arrived_all frames (length (wire frames))) at 2 by done.
  rewrite <- Hrun. by rewrite take_ge by done.
Qed.

Definition sample_sends : list send :=
  [{| to_id := 7; to_cmd := Forward; to_data := [1; 2; 3] |};
   {| to_id := 0; to_cmd := KeepAlive; to_data := [] |};
   {| to_id := 8; to_cmd := Probe; to_data := [9] |}].

Lemma session_relays_frames_witness :
  let '(reg, seq') := register_frame 0 5 in
  let frames := send_frames seq' sample_sends in
  handleBoltSession (reg ++ take 30 (wire frames)) =
    [EvRegister 5] ++ owed_relays (arrived 30 frames) ++ [EvUnregister 5] /\
  handleBoltSession (reg ++ wire frames) =
    [EvRegister 5] ++ owed_relays frames ++ [EvUnregister 5].
Proof.
  apply (session_relays_frames 0 5 sample_sends 30).
  repeat constructor; unfold valid_send; simpl; eauto; lia.
Defined.

(** ** What the receiver takes for the sender *)

(** A data packet a client sends to [toID] and the server relays unchanged
    reaches the receiving client, over TCP or QUIC, whole and with nothing left
    over; but the identifier the receiver takes for the packet's remote end is
    the frame's target, the receiver itself, whoever sent it. *)
Theorem received_remote_is_target timeout seq toID data bufsize probeCh :
  Z.of_nat (length data) < 2 ^ 32 -> (length data <= bufsize)%nat ->
  let frame := (makeFrame seq toID Forward data).1 in
  tcp_receive timeout bufsize probeCh frame = (RxPacket (u32 toID) data, probeCh, []) /\
  quic_receive bufsize probeCh [frame] = (RxPacket (u32 toID) data, probeCh, []) /\
  relayDatagrams [frame] = [EvRelay (u32 toID) frame].
Proof.
  intros Hl Hb.
  destruct (makeFrame_spec seq {| to_id := toID; to_cmd := Forward; to_data := data |})
    as (h & Hwf & Eh & Ec & Et & El).
  { split; [by left|done]. }
  cbn [to_id to_cmd to_data] in *. cbv zeta. rewrite Eh. pose proof (length_Marshal h) as Hm.
  assert (Hu : Unmarshal (take HeaderSize (Marshal h ++ data)) = inr h).
  { rewrite take_app_length' by done. rewrite <- (app_nil_r (Marshal h)). by apply Unmarshal_Marshal. }
  assert (Hlen : ~ (length (Marshal h ++ data) < HeaderSize)%nat) by (rewrite length_app; lia).
  unfold tcp_receive, quic_receive, relayDatagrams. cbn [omap list_omap].
  rewrite !(bool_decide_false _ Hlen), Hu, !drop_app_length' by done. rewrite Ec, Et, El.
  cbn [Z.eqb Forward Probe Pos.eqb negb andb].
  rewrite !bool_decide_false by lia. by rewrite take_ge, drop_ge by lia.
Qed.

Lemma received_remote_is_target_witness :
  let frame := (makeFrame 0 7 Forward [1; 2]).1 in
  tcp_receive false 1500 [] frame = (RxPacket 7 [1; 2], [], []) /\
  quic_receive 1500 [] [frame] = (RxPacket 7 [1; 2], [], []) /\
  relayDatagrams [frame] = [EvRelay 7 frame].
Proof. apply (received_remote_is_target false 0 7 [1; 2] 1500 []); simpl; lia. Defined.

(** ** Session registry *)

(** What sessions do to the manager over their lifetimes, in any interleaving. *)
Inductive sm_op :=
| OpTCP (id stream : Z)
| OpQUIC (id ctrl conn : Z)
| OpEnd (id : Z).

Definition sm_apply (m : SessionManager) (op : sm_op) : SessionManager :=
  match op with
  | OpTCP id stream => sm_Register m id {| session_ID := id; session_Stream := stream; session_Type := "TCP" |}
  | OpQUIC id ctrl conn => sm_RegisterQUIC m id ctrl conn
  | OpEnd id => sm_Unregister m id
  end.

(** The contract: a table of the live sessions' links. *)
Definition route_apply (routes : gmap Z link) (op : sm_op) : gmap Z link :=
  match op with
  | OpTCP id stream => <[id := StreamLink stream]> routes
  | OpQUIC id _ conn => <[id := DatagramLink conn]> routes
  | OpEnd id => delete id routes
  end.

(** A client connects again only once its previous session has ended. *)
Definition op_exclusive (routes : gmap Z link) (op : sm_op) : bool :=
  match op with
  | OpTCP id _ | OpQUIC id _ _ => bool_decide (routes !! id = None)
  | OpEnd _ => true
  end.

Fixpoint exclusive (routes : gmap Z link) (ops : list sm_op) : bool :=
  match ops with
  | [] => true
  | op :: ops => op_exclusive routes op && exclusive (route_apply routes op) ops
  end.

(** Simulation: the two tables of the manager represent the routes. *)
Definition represents (m : SessionManager) (routes : gmap Z link) : Prop :=
  (forall id, relay_target m id = routes !! id) /\ dom (sessions m) = dom routes /\
  dom (quicConns m) ⊆ dom (sessions m).

Lemma represents_step m routes op :
  represents m routes -> op_exclusive routes op = true ->
  represents (sm_apply m op) (route_apply routes op).
Proof.
  intros (Ht & Hd & Hq) Hex. destruct op as [id stream|id ctrl conn|id]; simpl in *.
  - apply bool_decide_eq_true in Hex.
    assert (Hno : quicConns m !! id = None).
    { apply not_elem_of_dom in Hex. apply not_elem_of_dom. set_solver. }
    split_and!.
    + intros i. specialize (Ht i). unfold relay_target in *. simpl.
      destruct (decide (i = id)) as [->|Hne]; simplify_map_eq; [done|]. done.
    + simpl. rewrite !dom_insert_L. by rewrite Hd.
    + simpl. rewrite dom_insert_L. set_solver.
  - split_and!.
    + intros i. specialize (Ht i). unfold relay_target in *. simpl.
      destruct (decide (i = id)) as [->|Hne]; simplify_map_eq; done.
    + simpl. rewrite !dom_insert_L. by rewrite Hd.
    + simpl. rewrite !dom_insert_L. set_solver.
  - split_and!.
    + intros i. specialize (Ht i). unfold relay_target in *. simpl.
      destruct (decide (i = id)) as [->|Hne]; simplify_map_eq; done.
    + simpl. rewrite !dom_delete_L. by rewrite Hd.
    + simpl. rewrite !dom_delete_L. set_solver.
Qed.

Lemma represents_run : forall ops m routes,
  represents m routes -> exclusive routes ops = true ->
  represents (foldl sm_apply m ops) (foldl route_apply routes ops).
Proof.
  induction ops as [|op ops IH]; intros m routes Hr Hex; [done|].
  simpl in Hex. apply andb_true_iff in Hex as [Hop Hops]. simpl.
  apply IH; [by apply represents_step|done].
Qed.

(** C24. The session manager implements a routing table.  When a client connects
    only after its previous session has ended, then after any interleaving of
    sessions starting and ending, over TCP and QUIC, a frame for an identifier is
    written to the link of that client's live session and to no other, a frame
    for a client that is not connected is refused, and the count of connected
    peers is the number of live sessions. *)
Theorem session_manager_routes ops id frame :
  exclusive ∅ ops = true ->
  let m := foldl sm_apply NewSessionManager ops in
  let routes := foldl route_apply ∅ ops in
  sm_Relay m id frame =
    match routes !! id with
    | Some l => call (Deliver l frame)
    | None => Ret (inl (ErrText "lrp: relay target not found"))
    end /\
  (is_Some (sm_Get m id) <-> is_Some (routes !! id)) /\ ConnectedPeers m = size routes.
Proof.
  intros Hex. cbv zeta.
  destruct (represents_run ops NewSessionManager ∅) as (Ht & Hd & _); [done|done|].
  unfold sm_Relay, sm_Get, ConnectedPeers. rewrite Ht. split_and!; [done| |].
  - rewrite <- !elem_of_dom. by rewrite Hd.
  - by rewrite <- !size_dom, Hd.
Qed.

Definition sample_session_ops : list sm_op := [OpTCP 5 50; OpQUIC 6 60 61; OpEnd 5; OpTCP 5 51].

Lemma session_manager_routes_witness :
  sm_Relay (foldl sm_apply NewSessionManager sample_session_ops) 5 [1] = call (Deliver (StreamLink 51) [1]) /\
  ConnectedPeers (foldl sm_apply NewSessionManager sample_session_ops) = 2%nat.
Proof.
  destruct (session_manager_routes sample_session_ops 5 [1]) as (H1 & _ & H3); [vm_compute; reflexivity|].
  split; [rewrite H1; reflexivity|rewrite H3; reflexivity].
Defined.

(** Without it: the deferred [Unregister] of a replaced session removes its
    successor, and a TCP session that replaces a QUIC one is never written to. *)
Lemma replaced_session_lost :
  relay_target (foldl sm_apply NewSessionManager [OpTCP 5 50; OpTCP 5 51; OpEnd 5]) 5 = None /\
  relay_target (foldl sm_apply NewSessionManager [OpQUIC 5 50 51; OpTCP 5 52]) 5 = Some (DatagramLink 51).
Proof. by split. Qed.
