(* ===== verification/Transport.v ===== *)
(** * Transport: the connection to one remote peer
    ([internal/server/transport]: [state_machine.go], [configurator.go],
    [probe.go], [probe_factory.go], [role.go])

    A probe discovers a transport to a peer, moves a state machine and configures
    WireGuard from the transitions.  Its goroutines and timers are threads: lists
    of actions still to run.  An action is what runs without another goroutine of
    the probe in between: one critical section or atomic access with what follows
    from it, or a transition with its callbacks, which run under the state
    machine's lock.  Threads interleave action by action. *)

From S2P Require Import Prelude Prog Net Api Message Infra.

(** ** The state machine *)

Inductive PeerState :=
  StateCreated | StateProbing | StateICEReady | StateWRRPReady | StateFailed | StateClosed.
#[global] Instance PeerState_eq_dec : EqDecision PeerState.
Proof. solve_decision. Defined.

Definition PeerState_String (s : PeerState) : string :=
  match s with
  | StateCreated => "created"
  | StateProbing => "probing"
  | StateICEReady => "ice-ready"
  | StateWRRPReady => "wrrp-ready"
  | StateFailed => "failed"
  | StateClosed => "closed"
  end.

Definition allowedTransitions (s : PeerState) : list PeerState :=
  match s with
  | StateCreated => [StateProbing]
  | StateProbing => [StateICEReady; StateWRRPReady; StateFailed]
  | StateWRRPReady => [StateICEReady; StateFailed; StateClosed]
  | StateICEReady => [StateFailed; StateClosed]
  | StateFailed => [StateProbing; StateClosed]
  | StateClosed => []
  end.

(** ** Roles *)

Definition isInitiator (local remote : PeerIdentity) : bool :=
  ToUint64 (PeerIdentity_ID local) >? ToUint64 (PeerIdentity_ID remote).

(** ** Transports *)

Inductive TransportType := ICE | WRRP.
#[global] Instance TransportType_eq_dec : EqDecision TransportType.
Proof. solve_decision. Defined.
Record Transport := { t_Type : TransportType; t_RemoteAddr : string }.

(** [ErrDialerClosed]; [ErrWrap] is what [errors.Is] looks through. *)
Definition ErrDialerClosed : gerror := ErrText "iceDialer explicitly closed".
Fixpoint IsDialerClosed (e : gerror) : bool :=
  bool_decide (e = ErrDialerClosed) || match e with ErrWrap _ e => IsDialerClosed e | _ => false end.

(** What the select loop of [discover] sees, in order: a transport or an error of
    a dialer, the end of the window that a relay leaves for a direct one, the end
    of the context. *)
Inductive dial_event := DResult (t : Transport) | DErr (e : gerror) | DWindow | DDone (e : gerror).

(** A relay has been found: wait for the other dialer's transport.  The errors
    stay in their channel. *)
Fixpoint relay_window (t : Transport) (evs : list dial_event) : option (gresult Transport * bool) :=
  match evs with
  | [] => None
  | DResult iceT :: _ => Some (inr iceT, false)
  | DWindow :: _ => Some (inr t, true)
  | _ :: evs => relay_window t evs
  end.

(** The result, and whether [wrrpWon] was set; [None] while it still waits. *)
Fixpoint discover_loop (EnableWrrp : bool) (failed : nat) (evs : list dial_event)
    : option (gresult Transport * bool) :=
  match evs with
  | [] => None
  | DResult t :: evs =>
      if bool_decide (t_Type t = WRRP) && EnableWrrp then relay_window t evs else Some (inr t, false)
  | DErr e :: evs =>
      if bool_decide (S failed = if EnableWrrp then 2%nat else 1%nat) then Some (inl e, false)
      else discover_loop EnableWrrp (S failed) evs
  | DWindow :: evs => discover_loop EnableWrrp failed evs
  | DDone e :: _ => Some (inl e, false)
  end.

Definition discover (EnableWrrp : bool) (evs : list dial_event) := discover_loop EnableWrrp 0 evs.

(** ** WireGuard through the provisioner *)

Record SetPeer := {
  sp_PrivateKey : string;
  sp_PresharedKey : string;
  sp_PublicKey : string;
  sp_Endpoint : string;
  sp_AllowedIPs : string;
  sp_PersistentKeepalived : Z;
  sp_Remove : bool;
}.

(** [getProvisioner() != nil], the methods of [provision.Provisioner] and the
    clock, in nanoseconds. *)
Inductive provE : Type -> Type :=
| PHas : provE bool
| PAddPeer (peer : SetPeer) : provE (gresult unit)
| PRemovePeer (peer : SetPeer) : provE (gresult unit)
| PApplyRoute (action address name : string) : provE (gresult unit)
| PSetupNAT (iface : string) : provE (gresult unit)
| PGetIfaceName : provE string
| PNow : provE Z.

(** [pr := getProvisioner(); if pr == nil { return nil }]. *)
Definition with_provisioner (p : prog provE (gresult unit)) : prog provE (gresult unit) :=
  call PHas ≫= λ has : bool, if has then p else Ret (inr tt).

Definition adapter_AddPeer (publicKey allowedIPs : string) : prog provE (gresult unit) :=
  with_provisioner (call (PAddPeer {| sp_PrivateKey := ""; sp_PresharedKey := "";
    sp_PublicKey := publicKey; sp_Endpoint := "";
    sp_AllowedIPs := allowedIPs; sp_PersistentKeepalived := 0; sp_Remove := false |})).

(** The allowed addresses of a peer, or its own address. *)
Definition peer_allowed (peer : InfraPeer) : string :=
  match ip_Address peer with
  | Some a => if bool_decide (ip_AllowedIPs peer = "") then a +:+ "/32" else ip_AllowedIPs peer
  | None => ip_AllowedIPs peer
  end.

Definition adapter_SetEndpoint (remotePeer : option InfraPeer) (publicKey endpoint : string)
    (persistentKeepalive : Z) : prog provE (gresult unit) :=
  with_provisioner (call (PAddPeer {| sp_PrivateKey := ""; sp_PresharedKey := "";
    sp_PublicKey := publicKey; sp_Endpoint := endpoint;
    sp_AllowedIPs := match remotePeer with Some rp => peer_allowed rp | None => "" end;
    sp_PersistentKeepalived := persistentKeepalive; sp_Remove := false |})).

Definition adapter_RemovePeer (publicKey : string) : prog provE (gresult unit) :=
  with_provisioner (call (PRemovePeer {| sp_PrivateKey := ""; sp_PresharedKey := "";
    sp_PublicKey := publicKey; sp_Endpoint := "";
    sp_AllowedIPs := ""; sp_PersistentKeepalived := 0; sp_Remove := true |})).

Definition adapter_ApplyRoute (address iface : string) : prog provE (gresult unit) :=
  with_provisioner (call (PApplyRoute "add" address iface)).

Definition adapter_SetupNAT (iface : string) : prog provE (gresult unit) :=
  with_provisioner (call (PSetupNAT iface)).

(** [iface := ""; if pr := getProvisioner(); pr != nil { iface = pr.GetIfaceName() }]. *)
Definition iface_name : prog provE string :=
  call PHas ≫= λ has : bool, if has then call PGetIfaceName else Ret "".

(** ** The probe *)

Record Probe := {
  sm : PeerState;
  cfg_peers : gset string;
  peerKnownDone : bool;
  remotePeer : option InfraPeer;
  currentTransport : option Transport;
  epoch : Z;
  running : bool;
  firstFailureAt : option Z;
  has_dialers : bool;
  peerManager : PeerManager.PeerManager;
}.

Definition with_sm (s : PeerState) (p : Probe) : Probe := {|
  sm := s; cfg_peers := cfg_peers p; peerKnownDone := peerKnownDone p; remotePeer := remotePeer p;
  currentTransport := currentTransport p; epoch := epoch p; running := running p;
  firstFailureAt := firstFailureAt p; has_dialers := has_dialers p; peerManager := peerManager p |}.
Definition with_cfg_peers (s : gset string) (p : Probe) : Probe := {|
  sm := sm p; cfg_peers := s; peerKnownDone := peerKnownDone p; remotePeer := remotePeer p;
  currentTransport := currentTransport p; epoch := epoch p; running := running p;
  firstFailureAt := firstFailureAt p; has_dialers := has_dialers p; peerManager := peerManager p |}.
Definition with_known (b : bool) (p : Probe) : Probe := {|
  sm := sm p; cfg_peers := cfg_peers p; peerKnownDone := b; remotePeer := remotePeer p;
  currentTransport := currentTransport p; epoch := epoch p; running := running p;
  firstFailureAt := firstFailureAt p; has_dialers := has_dialers p; peerManager := peerManager p |}.
Definition with_remote (q : InfraPeer) (m : PeerManager.PeerManager) (p : Probe) : Probe := {|
  sm := sm p; cfg_peers := cfg_peers p; peerKnownDone := peerKnownDone p; remotePeer := Some q;
  currentTransport := currentTransport p; epoch := epoch p; running := running p;
  firstFailureAt := firstFailureAt p; has_dialers := has_dialers p; peerManager := m |}.
Definition with_transport (t : Transport) (p : Probe) : Probe := {|
  sm := sm p; cfg_peers := cfg_peers p; peerKnownDone := peerKnownDone p; remotePeer := remotePeer p;
  currentTransport := Some t; epoch := epoch p; running := running p;
  firstFailureAt := firstFailureAt p; has_dialers := has_dialers p; peerManager := peerManager p |}.
Definition with_epoch (e : Z) (p : Probe) : Probe := {|
  sm := sm p; cfg_peers := cfg_peers p; peerKnownDone := peerKnownDone p; remotePeer := remotePeer p;
  currentTransport := currentTransport p; epoch := e; running := running p;
  firstFailureAt := firstFailureAt p; has_dialers := has_dialers p; peerManager := peerManager p |}.
Definition with_running (b : bool) (p : Probe) : Probe := {|
  sm := sm p; cfg_peers := cfg_peers p; peerKnownDone := peerKnownDone p; remotePeer := remotePeer p;
  currentTransport := currentTransport p; epoch := epoch p; running := b;
  firstFailureAt := firstFailureAt p; has_dialers := has_dialers p; peerManager := peerManager p |}.
Definition with_failure (f : option Z) (p : Probe) : Probe := {|
  sm := sm p; cfg_peers := cfg_peers p; peerKnownDone := peerKnownDone p; remotePeer := remotePeer p;
  currentTransport := currentTransport p; epoch := epoch p; running := running p;
  firstFailureAt := f; has_dialers := has_dialers p; peerManager := peerManager p |}.
Definition without_dialers (p : Probe) : Probe := {|
  sm := sm p; cfg_peers := cfg_peers p; peerKnownDone := peerKnownDone p; remotePeer := remotePeer p;
  currentTransport := currentTransport p; epoch := epoch p; running := running p;
  firstFailureAt := firstFailureAt p; has_dialers := false; peerManager := peerManager p |}.

Section probe.
Context `{IPv6Text, WireGuardKeys}.
(** This node, the peer, and the peer's key as text. *)
Context (localId remoteId : PeerIdentity) (pubKey : string).

(** [netip.AddrPort.String()]. *)
Definition AddrPort_String (ap : netip * Z) : string :=
  match ap.1 with
  | Is4 a => ipv4_string a +:+ ":" +:+ pretty ap.2
  | Is6 a => "[" +:+ show_ipv6 a +:+ "]:" +:+ pretty ap.2
  end.

Definition PersistentKeepalive : Z := 25.
(** Only the initiator drives the keep-alives. *)
Definition persistentKA : Z := if isInitiator localId remoteId then PersistentKeepalive else 0.

Definition transport_endpoint (t : Transport) : string :=
  match t_Type t with
  | WRRP => AddrPort_String (Wrrp.WrrpFakeAddrPort (ToUint64 (PeerIdentity_ID remoteId)))
  | ICE => t_RemoteAddr t
  end.

(** The configurator forgets the peer, then WireGuard does. *)
Definition cfg_RemovePeer (p : Probe) : prog provE Probe :=
  _ ← adapter_RemovePeer pubKey; Ret (with_cfg_peers (cfg_peers p ∖ {[pubKey]}) p).

(** The callback of a transition. *)
Definition onTransition (from to : PeerState) (p : Probe) : prog provE Probe :=
  if bool_decide (from = StateProbing) &&
     (bool_decide (to = StateICEReady) || bool_decide (to = StateWRRPReady)) then
    match remotePeer p with
    | Some rp =>
        match ip_Address rp, currentTransport p with
        | Some address, Some t =>
            set ← adapter_SetEndpoint (remotePeer p) pubKey (transport_endpoint t) persistentKA;
            match set with
            | inl _ => Ret p
            | inr _ =>
                iface ← iface_name;
                _ ← adapter_ApplyRoute address iface;
                _ ← adapter_SetupNAT iface;
                Ret p
            end
        | _, _ => Ret p
        end
    | None => Ret p
    end
  else if bool_decide (from = StateWRRPReady) && bool_decide (to = StateICEReady) then
    match currentTransport p with
    | Some t => _ ← adapter_SetEndpoint (remotePeer p) pubKey (t_RemoteAddr t) persistentKA; Ret p
    | None => Ret p
    end
  else if bool_decide (to = StateFailed) || bool_decide (to = StateClosed) then cfg_RemovePeer p
  else Ret p.

Definition Transition (target : PeerState) (p : Probe) : prog provE (gresult unit * Probe) :=
  if bool_decide (target ∈ allowedTransitions (sm p)) then
    p' ← onTransition (sm p) target (with_sm target p); Ret (inr tt, p')
  else Ret (inl (ErrText ("invalid transition " +:+ PeerState_String (sm p) +:+ " → " +:+
                          PeerState_String target)), p).

(** ** Goroutines *)

Inductive action :=
| AStart                                       (* [Start]: the swap of [running] *)
| ALoadEpoch                                   (* [Start]: the epoch it runs under *)
| ASpawn (myEpoch : Z)                         (* [Start]: the goroutine *)
| ADiscover (myEpoch : Z)                      (* in [discover] *)
| AFinish (myEpoch : Z) (r : gresult Transport)  (* [discover] has returned *)
| ARunningOff                                  (* [running.Store(false)] *)
| AOutcome (r : gresult Transport)             (* [onFailure] or [onSuccess] *)
| ASetTransport (t : Transport)
| ATransition (target : PeerState)
| AAfter                                       (* [time.AfterFunc(10s, restart)] *)
| ARestart                                     (* [restart]: the dialers *)
| ANextEpoch                                   (* [restart]: [epoch.Add(1)] *)
| APeerReceived (peer : InfraPeer)             (* [onPeerReceived] *)
| APeerKnown (peer : InfraPeer)                (* [onPeerKnown]: its guards *)
| ARegisterPeer (peer : InfraPeer)             (* [configurator.RegisterPeer] *)
| AAddPeer (peer : InfraPeer)                  (* its call on WireGuard *)
| APeerRoute (peer : InfraPeer)                (* [configurator.ApplyRoute] *)
| AClose.                                      (* [Close] *)

Definition thread := list action.

Definition second : Z := 10 ^ 9.

Definition onFailure (err : gerror) (p : Probe) : prog provE (Probe * thread) :=
  if IsDialerClosed err then Ret (with_failure None p, [ATransition StateFailed; ARestart])
  else
    now ← call PNow;
    let first := default now (firstFailureAt p) in
    let p := with_failure (Some first) p in
    now' ← call PNow;
    if now' - first >=? 60 * second then Ret (p, [ATransition StateClosed])
    else Ret (p, [ATransition StateFailed; AAfter]).

Definition onSuccess (t : Transport) : thread :=
  [ASetTransport t;
   ATransition (match t_Type t with ICE => StateICEReady | WRRP => StateWRRPReady end)].

Definition handleUpgradeTransport (t : Transport) : thread :=
  [ASetTransport t; ATransition StateICEReady].

Definition probe_Start (p : Probe) : Probe * thread :=
  if running p then (p, []) else (with_running true p, [ALoadEpoch]).

(** The goroutine of [Start] once [discover] has returned. *)
Definition finish (myEpoch : Z) (r : gresult Transport) (p : Probe) : thread :=
  if bool_decide (epoch p = myEpoch) then [ARunningOff; AOutcome r] else [].

Definition probe_restart (p : Probe) : Probe * thread :=
  if has_dialers p then (with_known false p, [ANextEpoch; ARunningOff; AStart]) else (p, []).

Definition onPeerReceived (peer : InfraPeer) (p : Probe) : Probe * thread :=
  (with_remote peer (PeerManager.AddPeer (peerManager p) (ip_AppID peer) peer) p, [APeerKnown peer]).

Definition onPeerKnown (peer : InfraPeer) (p : Probe) : Probe * thread :=
  if peerKnownDone p || bool_decide (ip_Address peer = None) then (p, [])
  else (with_known true p, [ARegisterPeer peer]).

(** The configurator notes the peer before it calls WireGuard. *)
Definition cfg_RegisterPeer (peer : InfraPeer) (p : Probe) : Probe * thread :=
  if bool_decide (pubKey ∈ cfg_peers p) then (p, [APeerRoute peer])
  else (with_cfg_peers ({[pubKey]} ∪ cfg_peers p) p, [AAddPeer peer]).

(** What an action does to the probe, what its thread does next, and the threads
    it starts.  [ADiscover] waits for its dialers: see [step]. *)
Definition exec (a : action) (p : Probe) : prog provE (Probe * thread * list thread) :=
  match a with
  | AStart => Ret (probe_Start p, [])
  | ALoadEpoch => Ret (p, [ATransition StateProbing; ASpawn (epoch p)], [])
  | ASpawn myEpoch => Ret (p, [], [[ADiscover myEpoch]])
  | ADiscover myEpoch => Ret (p, [ADiscover myEpoch], [])
  | AFinish myEpoch r => Ret (p, finish myEpoch r p, [])
  | ARunningOff => Ret (with_running false p, [], [])
  | AOutcome (inl err) => pk ← onFailure err p; Ret (pk.1, pk.2, [])
  | AOutcome (inr t) => Ret (p, onSuccess t, [])
  | ASetTransport t => Ret (with_transport t p, [], [])
  | ATransition target => r ← Transition target p; Ret (r.2, [], [])
  | AAfter => Ret (p, [], [[ARestart]])
  | ARestart => Ret (probe_restart p, [])
  | ANextEpoch => Ret (with_epoch (u64 (epoch p + 1)) p, [], [])
  | APeerReceived peer => Ret (onPeerReceived peer p, [])
  | APeerKnown peer => Ret (onPeerKnown peer p, [])
  | ARegisterPeer peer => Ret (cfg_RegisterPeer peer p, [])
  | AAddPeer peer =>
      r ← adapter_AddPeer pubKey (peer_allowed peer);
      match r with
      | inl _ => Ret (with_known false p, [], [])
      | inr _ => Ret (p, [APeerRoute peer], [])
      end
  | APeerRoute peer =>
      match ip_Address peer with
      | Some address => iface ← iface_name; _ ← adapter_ApplyRoute address iface; Ret (p, [], [])
      | None => Ret (p, [], [])
      end
  | AClose => Ret (without_dialers p, [], [])
  end.

(** What others ask of the probe: [Start], [restart] when a relay session is
    offered anew, the peer description of a handshake, [Close]. *)
Inductive request : thread -> Prop :=
| req_start : request [AStart]
| req_restart : request [ARestart]
| req_peer peer : request [APeerReceived peer]
| req_close : request [AClose].

(** One thread run to its end with no other in between: the probe, and the
    threads it started. *)
Fixpoint run_alone (fuel : nat) (t : thread) (p : Probe) : prog provE (Probe * list thread) :=
  match fuel, t with
  | S fuel, a :: t =>
      r ← exec a p;
      let '(p, k, new) := r in
      q ← run_alone fuel (k ++ t) p;
      Ret (q.1, new ++ q.2)
  | _, _ => Ret (p, [])
  end.

(** ** Interleaving *)

Section steps.
Context {W : Type} (h : forall T, provE T -> W -> T -> W -> Prop) (EnableWrrp : bool).

Inductive step : (Probe * list thread) * W -> (Probe * list thread) * W -> Prop :=
| step_action i a k p ts w p' k' new w' :
    ts !! i = Some (a :: k) -> (forall e, a <> ADiscover e) ->
    runs h (exec a p) w (p', k', new) w' ->
    step (p, ts, w) (p', <[i := k' ++ k]> ts ++ new, w')
(** [discover] returns; if the relay won, the direct dialer may still succeed. *)
| step_discover i myEpoch k p ts w evs r won late :
    ts !! i = Some (ADiscover myEpoch :: k) -> discover EnableWrrp evs = Some (r, won) ->
    (forall t, late = Some t -> won = true /\ t_Type t = ICE) ->
    step (p, ts, w)
      (p, <[i := AFinish myEpoch r :: k]> ts ++ option_list (handleUpgradeTransport <$> late), w)
| step_request t p ts w : request t -> step (p, ts, w) (p, ts ++ [t], w).
End steps.

(** ** What transitions do to WireGuard *)

Definition is_ready (s : PeerState) : bool :=
  bool_decide (s = StateICEReady) || bool_decide (s = StateWRRPReady).

(** The calls a transition of [p] to [target] may make. *)
Definition transition_call (p : Probe) (target : PeerState) (T : Type) (e : provE T) : Prop :=
  match e with
  | PHas | PGetIfaceName => target ∈ allowedTransitions (sm p)
  | PAddPeer sp =>
      target ∈ allowedTransitions (sm p) /\ is_ready target = true /\
      exists t, currentTransport p = Some t /\
        sp = {| sp_PrivateKey := ""; sp_PresharedKey := ""; sp_PublicKey := pubKey;
                sp_Endpoint := if bool_decide (sm p = StateProbing) then transport_endpoint t else t_RemoteAddr t;
                sp_AllowedIPs := match remotePeer p with Some rp => peer_allowed rp | None => "" end;
                sp_PersistentKeepalived := persistentKA; sp_Remove := false |}
  | PRemovePeer sp =>
      target ∈ allowedTransitions (sm p) /\ (target = StateFailed \/ target = StateClosed) /\
      sp_PublicKey sp = pubKey /\ sp_Remove sp = true
  | PApplyRoute action address _ =>
      sm p = StateProbing /\ is_ready target = true /\ action = "add" /\
      (remotePeer p ≫= ip_Address) = Some address
  | PSetupNAT _ => sm p = StateProbing /\ is_ready target = true
  | PNow => False
  end.
End probe.

(** ** Proofs *)

Section proofs.
Context `{IPv6Text, WireGuardKeys}.
Context (localId remoteId : PeerIdentity) (pubKey : string).
Context (R : forall T, provE T -> T -> Prop).
#[local] Abbreviation Transition := (Transition localId remoteId pubKey).
#[local] Abbreviation exec := (exec localId remoteId pubKey).

Lemma with_provisioner_wp (G : forall T, provE T -> Prop) (p : prog provE (gresult unit)) Q :
  G _ PHas -> Q (inr tt) -> wp R G p Q -> wp R G (with_provisioner p) Q.
Proof. intros HG HQ Hp. apply wp_bind, wp_call; [done|]. by intros [] _. Qed.

(** A call through the adapter, whatever is answered. *)
Lemma adapter_wp (G : forall T, provE T -> Prop) (e : provE (gresult unit)) Q :
  G _ PHas -> G _ e -> (forall r, Q r) -> wp R G (with_provisioner (call e)) Q.
Proof. intros HG He HQ. apply with_provisioner_wp; [done..|]. apply wp_call; [done|]. intros; apply HQ. Qed.

Lemma iface_name_wp (G : forall T, provE T -> Prop) Q : G _ PHas -> G _ PGetIfaceName -> (forall s, Q s) -> wp R G iface_name Q.
Proof. intros H1 H2 HQ. apply wp_bind, wp_call; [done|]. intros [] _; [|apply HQ]. apply wp_call; [done|]. intros; apply HQ. Qed.

Lemma cfg_RemovePeer_wp (G : forall T, provE T -> Prop) p Q :
  G _ PHas ->
  G _ (PRemovePeer {| sp_PrivateKey := ""; sp_PresharedKey := ""; sp_PublicKey := pubKey;
    sp_Endpoint := ""; sp_AllowedIPs := ""; sp_PersistentKeepalived := 0; sp_Remove := true |}) ->
  Q (with_cfg_peers (cfg_peers p ∖ {[pubKey]}) p) -> wp R G (cfg_RemovePeer pubKey p) Q.
Proof. intros H1 H2 HQ. apply wp_bind, adapter_wp; [done..|]. by intros r. Qed.

Lemma onTransition_wp p target :
  target ∈ allowedTransitions (sm p) ->
  wp R (transition_call localId remoteId pubKey p target)
    (onTransition localId remoteId pubKey (sm p) target (with_sm target p)) (λ p', sm p' = target).
Proof.
  intros Ht. unfold onTransition. cbn [remotePeer currentTransport with_sm].
  destruct (bool_decide (sm p = StateProbing) && _) eqn:H1.
  { apply andb_true_iff in H1 as [Hp Hr]. fold (is_ready target) in Hr.
    pose proof Hp as Hpb. apply bool_decide_eq_true in Hp.
    destruct (remotePeer p) as [rp|] eqn:Erp; [|done].
    destruct (ip_Address rp) as [address|] eqn:Ea; [|done].
    destruct (currentTransport p) as [t|] eqn:Et; [|done].
    apply wp_bind, adapter_wp; [done| |].
    { split_and!; [done..|]. exists t. by rewrite Hpb, Erp. }
    intros [err|[]]; [done|]. apply wp_bind, iface_name_wp; [done..|]. intros iface.
    apply wp_bind, adapter_wp; [done| |].
    { split_and!; [done..|]. by rewrite Erp. }
    intros _. apply wp_bind, adapter_wp; [done|by split|]. done. }
  destruct (bool_decide (sm p = StateWRRPReady) && _) eqn:H2.
  { apply andb_true_iff in H2 as [Hp Hr]. apply bool_decide_eq_true in Hp, Hr.
    destruct (currentTransport p) as [t|] eqn:Et; [|done].
    apply wp_bind, adapter_wp; [done| |done].
    split_and!; [done|by rewrite Hr|]. exists t. by rewrite Hp. }
  destruct (bool_decide (target = StateFailed) || _) eqn:H3; [|done].
  apply orb_true_iff in H3. rewrite !bool_decide_eq_true in H3.
  by apply cfg_RemovePeer_wp.
Qed.

(** What a transition does, whatever the provisioner answers.  A transition
    outside the table is refused and neither changes the probe nor calls
    anything.  One inside it moves the state machine; the endpoint of the active
    transport is set only on the way to a ready state (a relay's as its fake
    address), route and NAT are set up only when the first transport becomes
    ready, and the peer is removed only on the way to [Failed] or [Closed]. *)
Theorem transition_effects target p :
  wp R (transition_call localId remoteId pubKey p target) (Transition target p) (λ r,
    (target ∈ allowedTransitions (sm p) -> r.1 = inr tt /\ sm r.2 = target) /\
    (target ∉ allowedTransitions (sm p) -> r.2 = p /\ r.1 <> inr tt)).
Proof.
  unfold Transport.Transition. case_bool_decide as Ht; [|by split].
  apply wp_bind. eapply wp_mono; [by apply onTransition_wp|]. intros p' Hp'. by split.
Qed.

(** ** What an action other than a transition does *)

Definition quiet_call (T : Type) (e : provE T) : Prop :=
  match e with
  | PAddPeer sp => sp_Endpoint sp = "" /\ sp_Remove sp = false
  | PRemovePeer _ | PSetupNAT _ => False
  | _ => True
  end.

Lemma onFailure_wp err p :
  wp R quiet_call (onFailure err p) (λ pk, sm pk.1 = sm p).
Proof.
  unfold onFailure. destruct (IsDialerClosed err); [done|]. wp_ask. intros now _. cbv zeta.
  wp_ask. intros now' _. by destruct (_ >=? _).
Qed.

Lemma exec_quiet a p :
  (forall target, a <> ATransition target) -> wp R quiet_call (exec a p) (λ r, sm r.1.1 = sm p).
Proof.
  intros Ha. destruct a as [| | | |e r| |[err|t]| |target| | | |peer|peer|peer|peer|peer|];
    cbn [Transport.exec wp]; try done.
  - unfold probe_Start. by destruct (running p).
  - wp_use onFailure_wp. by intros pk.
  - by destruct (Ha target).
  - unfold probe_restart. by destruct (has_dialers p).
  - unfold onPeerKnown. by destruct (_ || _).
  - unfold cfg_RegisterPeer. by case_bool_decide.
  - apply wp_bind, adapter_wp; [done|by split|]. by intros [].
  - destruct (ip_Address peer) as [address|]; [|done]. apply wp_bind, iface_name_wp; [done..|].
    intros iface. by apply wp_bind, adapter_wp.
Qed.
End proofs.

(** ** WireGuard as the probe sees it *)

(** What the device behind the provisioner does with the endpoint of a peer:
    setting one that succeeds installs it, one that fails or names no endpoint
    keeps what there is, and removing a peer succeeds and forgets it. *)
Class WGDevice {W} (h : forall T, provE T -> W -> T -> W -> Prop) := {
  wg_endpoint : W -> string -> option string;
  wg_has w r w' : h _ PHas w r w' -> r = true /\ w' = w;
  wg_add w sp r w' k : h _ (PAddPeer sp) w r w' ->
    wg_endpoint w' k =
      if bool_decide (r = inr tt /\ k = sp_PublicKey sp /\ sp_Endpoint sp <> "")
      then Some (sp_Endpoint sp) else wg_endpoint w k;
  wg_remove w sp r w' k : h _ (PRemovePeer sp) w r w' ->
    r = inr tt /\ wg_endpoint w' k = if bool_decide (k = sp_PublicKey sp) then None else wg_endpoint w k;
  wg_route w act addr n r w' k : h _ (PApplyRoute act addr n) w r w' -> wg_endpoint w' k = wg_endpoint w k;
  wg_nat w i r w' k : h _ (PSetupNAT i) w r w' -> wg_endpoint w' k = wg_endpoint w k;
  wg_iface w r w' k : h _ PGetIfaceName w r w' -> wg_endpoint w' k = wg_endpoint w k;
  wg_now w r w' k : h _ PNow w r w' -> wg_endpoint w' k = wg_endpoint w k;
}.

Section device.
Context `{IPv6Text, WireGuardKeys}.
Context (localId remoteId : PeerIdentity) (pubKey : string).
Context {W : Type} (h : forall T, provE T -> W -> T -> W -> Prop) `{!WGDevice h}.

(** The endpoint is configured only while a transport is ready. *)
Definition endpoint_ok (p : Probe) (w : W) : Prop :=
  wg_endpoint w pubKey <> None -> is_ready (sm p) = true.

Lemma quiet_endpoint {A} (q : prog provE A) (Q : A -> Prop) w a w' :
  wp (λ _ _ _, True) quiet_call q Q -> runs h q w a w' ->
  Q a /\ wg_endpoint w' pubKey = wg_endpoint w pubKey.
Proof.
  intros Hwp Hr.
  apply (wp_runs h (λ _ _ _, True) quiet_call (λ w1, wg_endpoint w1 pubKey = wg_endpoint w pubKey)
    q Q w a w'); [|done..].
  intros T e s r s' Hs Hq Hh. split; [done|]. rewrite <- Hs. destruct e; simpl in Hq; try done.
  - by destruct (wg_has _ _ _ Hh) as [_ ->].
  - rewrite (wg_add _ _ _ _ _ Hh). destruct Hq as [-> _]. rewrite bool_decide_false; [done|tauto].
  - by apply (wg_route _ _ _ _ _ _ _ Hh).
  - by apply (wg_iface _ _ _ _ Hh).
  - by apply (wg_now _ _ _ _ Hh).
Qed.

Lemma RemovePeer_endpoint w r w' :
  runs h (adapter_RemovePeer pubKey) w r w' -> wg_endpoint w' pubKey = None.
Proof.
  intros (b & w1 & [-> ->]%runs_call_inv%wg_has & Hrm%runs_call_inv)%runs_bind_inv.
  destruct (wg_remove _ _ _ _ pubKey Hrm) as [_ ->]. by rewrite bool_decide_true.
Qed.

Lemma onTransition_removes from target p :
  target = StateFailed \/ target = StateClosed ->
  onTransition localId remoteId pubKey from target p = cfg_RemovePeer pubKey p.
Proof. intros [->| ->]; by destruct from. Qed.

Lemma Transition_endpoint_ok target p w r p' w' :
  endpoint_ok p w -> runs h (Transition localId remoteId pubKey target p) w (r, p') w' ->
  endpoint_ok p' w'.
Proof.
  intros Hok Hr. unfold Transition in Hr. case_bool_decide as Ht.
  2: { by apply runs_ret_inv in Hr as [[= _ ->] ->]. }
  apply runs_bind_inv in Hr as (q & w1 & Hcb & [[= _ ->] ->]%runs_ret_inv).
  assert (Hsm : sm q = target).
  { destruct (wp_runs h (λ _ _ _, True) (transition_call localId remoteId pubKey p target)
      (λ _, True) _ _ _ _ _ ltac:(done) (onTransition_wp localId remoteId pubKey _ p target Ht)
      ltac:(done) Hcb) as [Hq _]. done. }
  intros He. rewrite Hsm. destruct (is_ready target) eqn:Hr; [done|]. exfalso. apply He.
  destruct target; try (by destruct (sm p); set_solver); try done.
  - assert (Hn : is_ready (sm p) = false) by (by destruct (sm p); set_solver).
    assert (Hc : wg_endpoint w pubKey = None).
    { destruct (wg_endpoint w pubKey) eqn:E; [|done]. unfold endpoint_ok in Hok.
      rewrite E, Hn in Hok. by specialize (Hok ltac:(done)). }
    unfold onTransition in Hcb.
    rewrite andb_false_r, andb_false_r in Hcb.
    by apply runs_ret_inv in Hcb as [_ ->].
  - rewrite onTransition_removes in Hcb by auto.
    by apply runs_bind_inv in Hcb as (x & w2 & Hx%RemovePeer_endpoint & [_ ->]%runs_ret_inv).
  - rewrite onTransition_removes in Hcb by auto.
    by apply runs_bind_inv in Hcb as (x & w2 & Hx%RemovePeer_endpoint & [_ ->]%runs_ret_inv).
Qed.

Lemma exec_endpoint_ok a p w p' k new w' :
  endpoint_ok p w -> runs h (exec localId remoteId pubKey a p) w (p', k, new) w' -> endpoint_ok p' w'.
Proof.
  intros Hok Hr. assert (Hcase : (exists t, a = ATransition t) \/ forall t, a <> ATransition t).
  { destruct a; eauto. }
  destruct Hcase as [[target ->]|Ha].
  - apply runs_bind_inv in Hr as ([r q] & w1 & Ht & [[= -> _ _] ->]%runs_ret_inv).
    by eapply Transition_endpoint_ok.
  - destruct (quiet_endpoint _ _ _ _ _ (exec_quiet localId remoteId pubKey _ a p Ha) Hr) as [Hs He].
    unfold endpoint_ok. cbn in Hs. by rewrite He, Hs.
Qed.
End device.

(** C26. However the goroutines, timers, retries, upgrades and restarts of a probe
    interleave, whatever the dialers find, whichever device calls fail (removal
    apart) and whatever the clock says: WireGuard has an endpoint for the peer
    only while the state machine is in a ready state. *)
Theorem endpoint_only_when_ready `{IPv6Text, WireGuardKeys} localId remoteId pubKey
    {W} (h : forall T, provE T -> W -> T -> W -> Prop) `{!WGDevice h} EnableWrrp p0 w0 p ts w :
  sm p0 = StateCreated -> wg_endpoint w0 pubKey = None ->
  rtc (step localId remoteId pubKey h EnableWrrp) (p0, [], w0) (p, ts, w) ->
  wg_endpoint w pubKey <> None -> sm p = StateICEReady \/ sm p = StateWRRPReady.
Proof.
  intros Hp0 Hw0 Hr.
  assert (Hinv : endpoint_ok pubKey h p w).
  { assert (Hgen : forall c c', rtc (step localId remoteId pubKey h EnableWrrp) c c' ->
      endpoint_ok pubKey h c.1.1 c.2 -> endpoint_ok pubKey h c'.1.1 c'.2).
    { induction 1 as [|c1 c2 c3 Hs _ IH]; [done|]. intros Hok. apply IH.
      destruct Hs; simpl in *; [by eapply exec_endpoint_ok|done..]. }
    apply (Hgen _ _ Hr). intros He. by destruct (He Hw0). }
  intros He. specialize (Hinv He). unfold is_ready in Hinv.
  apply orb_true_iff in Hinv. by rewrite !bool_decide_eq_true in Hinv.
Qed.

(** *** Schedules *)

(** What happens next: a thread runs its next action, a discovery ends, or a
    request comes in. *)
Inductive choice :=
| CRun (i : nat)
| CDiscover (i : nat) (evs : list dial_event) (late : option Transport)
| CStart | CRestart | CPeer (peer : InfraPeer) | CClose.

Section schedule.
Context `{IPv6Text, WireGuardKeys}.
Context (localId remoteId : PeerIdentity) (pubKey : string).
Context {W : Type} (h : forall T, provE T -> W -> T * W) (EnableWrrp : bool).

Definition is_discover (a : action) : bool := match a with ADiscover _ => true | _ => false end.

(** A choice that is not possible is skipped. *)
Definition choose (c : choice) (cfg : Probe * list thread * W) : Probe * list thread * W :=
  let '(p, ts, w) := cfg in
  match c with
  | CRun i =>
      match ts !! i with
      | Some (a :: k) =>
          if is_discover a then cfg
          else
            match run h (exec localId remoteId pubKey a p) w with
            | (Some (p', k', new), w') => (p', <[i := k' ++ k]> ts ++ new, w')
            | (None, _) => cfg
            end
      | _ => cfg
      end
  | CDiscover i evs late =>
      match ts !! i with
      | Some (ADiscover myEpoch :: k) =>
          match discover EnableWrrp evs with
          | Some (r, won) =>
              let late := if won then late ≫= λ t, if bool_decide (t_Type t = ICE) then Some t else None
                          else None in
              (p, <[i := AFinish myEpoch r :: k]> ts ++ option_list (handleUpgradeTransport <$> late), w)
          | None => cfg
          end
      | _ => cfg
      end
  | CStart => (p, ts ++ [[AStart]], w)
  | CRestart => (p, ts ++ [[ARestart]], w)
  | CPeer peer => (p, ts ++ [[APeerReceived peer]], w)
  | CClose => (p, ts ++ [[AClose]], w)
  end.

Lemma choose_steps c cfg :
  rtc (step localId remoteId pubKey (fun_world h) EnableWrrp) cfg (choose c cfg).
Proof.
  destruct cfg as [[p ts] w]. destruct c as [i|i evs late| | |peer|]; cbn [choose];
    [..|by apply rtc_once, step_request; constructor|by apply rtc_once, step_request; constructor
    |by apply rtc_once, step_request; constructor|by apply rtc_once, step_request; constructor].
  - destruct (ts !! i) as [[|a k]|] eqn:Hi; [done| |done].
    destruct (is_discover a) eqn:Ha; [done|].
    destruct (run h (exec localId remoteId pubKey a p) w) as [[[[p' k'] new]|] w'] eqn:Hr; [|done].
    apply rtc_once. eapply step_action; [done|by intros e ->|].
    pose proof (run_runs h (exec localId remoteId pubKey a p) w (p', k', new)) as Hrun.
    rewrite Hr in Hrun. by apply Hrun.
  - destruct (ts !! i) as [[|a k]|] eqn:Hi; [done| |done]. destruct a; try done.
    destruct (discover EnableWrrp evs) as [[r won]|] eqn:Hd; [|done].
    apply rtc_once. eapply step_discover; [done..|]. intros t Ht. destruct won; [|done].
    split; [done|]. destruct late as [t'|]; [|done]. cbn in Ht. case_bool_decide; congruence.
Qed.

Lemma choices_steps cs : forall cfg,
  rtc (step localId remoteId pubKey (fun_world h) EnableWrrp) cfg (foldl (λ cfg c, choose c cfg) cfg cs).
Proof.
  induction cs as [|c cs IH]; intros cfg; [done|]. etrans; [apply choose_steps|apply IH].
Qed.
End schedule.

(** *** A concrete device *)

(** WireGuard as a table of endpoints that accepts everything. *)
Definition sample_device (T : Type) (e : provE T) : gmap string string -> T * gmap string string :=
  match e in provE T return gmap string string -> T * gmap string string with
  | PHas => λ w, (true, w)
  | PAddPeer sp => λ w,
      (inr tt, if bool_decide (sp_Endpoint sp = "") then w else <[sp_PublicKey sp := sp_Endpoint sp]> w)
  | PRemovePeer sp => λ w, (inr tt, delete (sp_PublicKey sp) w)
  | PApplyRoute _ _ _ => λ w, (inr tt, w)
  | PSetupNAT _ => λ w, (inr tt, w)
  | PGetIfaceName => λ w, ("wf0", w)
  | PNow => λ w, (0, w)
  end.

#[local] Instance sample_device_ok : WGDevice (fun_world sample_device).
Proof.
  refine {| wg_endpoint := λ w k, w !! k |}.
  all: unfold fun_world, sample_device; intros; simplify_eq; try done.
  - case_bool_decide as E1.
    + rewrite bool_decide_false; [done|]. by intros (_ & _ & ?).
    + match goal with |- context [bool_decide (_ /\ ?k = _ /\ _)] => destruct (decide (k = sp_PublicKey sp)) as [->|Hk] end.
      * by rewrite bool_decide_true, lookup_insert_eq.
      * rewrite bool_decide_false, lookup_insert_ne; [done..|tauto].
  - split; [done|]. case_bool_decide; simplify_map_eq; done.
Defined.

(** *** Runs *)

Definition no_ipv6_text : IPv6Text := {| parse_ipv6 := λ _, None; show_ipv6 := λ _, "relay" |}.
#[local] Existing Instance no_ipv6_text.
#[local] Existing Instance sample_keys.

Definition node_a : PeerIdentity := {| pi_AppID := "a"; pi_PublicKey := replicate 32 1 |}.
Definition node_b : PeerIdentity := {| pi_AppID := "b"; pi_PublicKey := replicate 32 2 |}.

Definition peer_b : InfraPeer := {|
  ip_Name := "b"; ip_InterfaceName := ""; ip_Platform := "linux"; ip_Description := "";
  ip_NetworkId := ""; ip_CreatedBy := ""; ip_UserId := 0; ip_Hostname := ""; ip_AppID := "b";
  ip_Address := Some "10.0.0.2"; ip_Endpoint := ""; ip_Remove := false; ip_PresharedKey := "";
  ip_PersistentKeepalive := 0; ip_PrivateKey := ""; ip_PublicKey := "kb"; ip_PeerID := 0;
  ip_AllowedIPs := ""; ip_ReplacePeers := false; ip_Port := 0; ip_GroupName := "";
  ip_Version := 0; ip_LastUpdatedAt := ""; ip_Token := ""; ip_WrrpUrl := ""; ip_Labels := ∅ |}.

Definition new_probe : Probe := {|
  sm := StateCreated; cfg_peers := ∅; peerKnownDone := false; remotePeer := None;
  currentTransport := None; epoch := 0; running := false; firstFailureAt := None;
  has_dialers := true; peerManager := PeerManager.NewPeerManager |}.

Definition ice_transport : Transport := {| t_Type := ICE; t_RemoteAddr := "192.0.2.7:51820" |}.
Definition wrrp_transport : Transport := {| t_Type := WRRP; t_RemoteAddr := "relay.example:6266" |}.

(** The peer is described, the probe starts, the relay wins, then the direct
    transport takes over. *)
Definition upgrade_run : list choice :=
  [CPeer peer_b; CRun 0; CStart] ++ replicate 4 (CRun 1) ++
  [CDiscover 2 [DResult wrrp_transport; DWindow] (Some ice_transport)] ++
  replicate 5 (CRun 2) ++ replicate 2 (CRun 3).

Definition after_upgrade : Probe * list thread * gmap string string :=
  foldl (λ cfg c, choose node_a node_b "kb" sample_device true c cfg) (new_probe, [], ∅) upgrade_run.

Lemma endpoint_only_when_ready_witness :
  wg_endpoint after_upgrade.2 "kb" = Some "192.0.2.7:51820" /\
  (sm after_upgrade.1.1 = StateICEReady \/ sm after_upgrade.1.1 = StateWRRPReady).
Proof.
  split; [vm_compute; reflexivity|].
  apply (endpoint_only_when_ready node_a node_b "kb" (fun_world sample_device) true new_probe ∅
    after_upgrade.1.1 after_upgrade.1.2 after_upgrade.2).
  - reflexivity.
  - reflexivity.
  - apply (choices_steps node_a node_b "kb" sample_device true upgrade_run (new_probe, [], ∅)).
  - vm_compute. discriminate.
Defined.

(** ** Retries and restarts *)

Definition clock_only (T : Type) (e : provE T) : Prop := match e with PNow => True | _ => False end.
Definition no_call (T : Type) (e : provE T) : Prop := False.
Definition clock_after (t : Z) (T : Type) (e : provE T) : T -> Prop :=
  match e in provE T return T -> Prop with PNow => λ now, t <= now | _ => λ _, True end.

Section lifecycle.
Context `{IPv6Text, WireGuardKeys}.
Context (localId remoteId : PeerIdentity) (pubKey : string).

(** A transition that is not allowed is skipped. *)
Lemma exec_refused target p :
  target ∉ allowedTransitions (sm p) ->
  exec localId remoteId pubKey (ATransition target) p = Ret (p, [], []).
Proof. intros Ht. cbn [exec]. unfold Transition. by rewrite bool_decide_false. Qed.

Lemma run_alone_nil fuel p : run_alone localId remoteId pubKey fuel [] p = Ret (p, []).
Proof. by destruct fuel. Qed.

Lemma run_alone_cons R G fuel a t p Q :
  wp R G (exec localId remoteId pubKey a p) (λ r,
    wp R G (run_alone localId remoteId pubKey fuel (r.1.2 ++ t) r.1.1) (λ q, Q (q.1, r.2 ++ q.2))) ->
  wp R G (run_alone localId remoteId pubKey (S fuel) (a :: t) p) Q.
Proof.
  intros Hw. cbn [run_alone]. apply wp_bind. eapply wp_mono; [exact Hw|].
  intros [[p' k] new] Hq. by apply wp_bind.
Qed.
End lifecycle.

(** The next action of a thread that runs alone. *)
Ltac alone_step := apply run_alone_cons; cbn [exec]; cbn [wp fst snd app].


(** A probe whose discovery fails for good is left as it is.  When it has
    failed for sixty seconds, the failing discovery asks for [Closed], which is
    not allowed from [Probing]: the probe stays in [Probing], WireGuard is not
    called, and neither a retry nor anything else is scheduled. *)
Theorem unreachable_probe_stuck `{IPv6Text, WireGuardKeys} localId remoteId pubKey fuel p err t0 :
  sm p = StateProbing -> firstFailureAt p = Some t0 -> IsDialerClosed err = false ->
  wp (clock_after (t0 + 60 * second)) clock_only
    (run_alone localId remoteId pubKey fuel [AOutcome (inl err)] p)
    (λ r, sm r.1 = StateProbing /\ r.2 = []).
Proof.
  intros Hs Hf He. destruct fuel as [|fuel]; [done|]. apply run_alone_cons. cbn [exec].
  apply wp_bind. unfold onFailure. rewrite He. wp_ask. intros now _. cbv zeta.
  wp_ask. intros now' Hnow'. cbn in Hnow'. rewrite Hf.
  change (default now (Some t0)) with t0.
  destruct (Z.geb_spec (now' - t0) (60 * second)) as [_|Hlt]; [|lia].
  cbn [wp fst snd app]. destruct fuel as [|fuel]; [by cbn|]. apply run_alone_cons.
  rewrite exec_refused by (cbn [sm with_failure]; rewrite Hs; set_solver).
  cbn [wp fst snd app]. rewrite run_alone_nil. by cbn.
Qed.

Definition failing_probe : Probe := with_failure (Some 5) (with_sm StateProbing new_probe).

Lemma unreachable_probe_stuck_witness :
  wp (clock_after (5 + 60 * second)) clock_only
    (run_alone node_a node_b "kb" 9 [AOutcome (inl (ErrText "timed out"))] failing_probe)
    (λ r, sm r.1 = StateProbing /\ r.2 = []).
Proof.
  apply (unreachable_probe_stuck node_a node_b "kb" 9 failing_probe (ErrText "timed out") 5);
    reflexivity.
Defined.

(** A restart of a probe with a direct transport does not reach WireGuard:
    it starts a discovery, but when that finds a new direct transport no call is
    made, so the peer keeps its old endpoint while the probe holds the new
    transport. *)
Theorem restart_when_ready_ignored `{IPv6Text, WireGuardKeys} localId remoteId pubKey R p t :
  sm p = StateICEReady -> has_dialers p = true -> t_Type t = ICE ->
  wp R no_call (run_alone localId remoteId pubKey 9 [ARestart] p) (λ r,
    sm r.1 = StateICEReady /\ r.2 = [[ADiscover (epoch r.1)]] /\
    wp R no_call (run_alone localId remoteId pubKey 9 [AFinish (epoch r.1) (inr t)] r.1)
      (λ r', sm r'.1 = StateICEReady /\ currentTransport r'.1 = Some t /\ r'.2 = [])).
Proof.
  intros Hs Hd Ht. alone_step. unfold probe_restart. rewrite Hd. cbn [fst snd app].
  do 3 alone_step. unfold probe_Start. cbn [running with_running fst snd app]. alone_step.
  set (q := with_running true _). assert (Hq : sm q = StateICEReady) by done.
  apply run_alone_cons. rewrite exec_refused by (rewrite Hq; set_solver). cbn [wp fst snd app].
  alone_step. rewrite run_alone_nil. cbn [wp fst snd app]. split; [done|]. split; [done|].
  alone_step. unfold finish. rewrite bool_decide_true by done. cbn [fst snd app]. do 2 alone_step.
  unfold onSuccess. rewrite Ht. alone_step. apply run_alone_cons.
  rewrite exec_refused by (cbn [sm with_transport with_running]; rewrite Hq; set_solver).
  cbn [wp fst snd app]. by rewrite run_alone_nil.
Qed.

Lemma restart_when_ready_ignored_witness :
  wp (λ _ _ _, True) no_call (run_alone node_a node_b "kb" 9 [ARestart] after_upgrade.1.1) (λ r,
    sm r.1 = StateICEReady /\ r.2 = [[ADiscover (epoch r.1)]] /\
    wp (λ _ _ _, True) no_call
      (run_alone node_a node_b "kb" 9
        [AFinish (epoch r.1) (inr {| t_Type := ICE; t_RemoteAddr := "198.51.100.9:51820" |})] r.1)
      (λ r', sm r'.1 = StateICEReady /\
        currentTransport r'.1 = Some {| t_Type := ICE; t_RemoteAddr := "198.51.100.9:51820" |} /\
        r'.2 = [])).
Proof.
  apply (restart_when_ready_ignored node_a node_b "kb" (λ _ _ _, True) after_upgrade.1.1
    {| t_Type := ICE; t_RemoteAddr := "198.51.100.9:51820" |}); vm_compute; reflexivity.
Defined.
