(* ===== verification/Agent.v ===== *)
(** * Agent: applying the configuration a node is sent
    ([internal/agent/message_handler.go], [internal/agent/node.go],
    [internal/server/client/client.go], [ProbeFactory.Get] and [Remove] of
    [internal/server/transport/probe_factory.go])

    The node keeps a table of peers and one probe per remote peer.  The methods of
    the provisioner and of a probe are calls. *)

From S2P Require Import Prelude Prog Net Api Message Infra Transport.

Record Node := {
  nd_Name : string;
  nd_PublicKey : string;
  nd_peers : PeerManager.PeerManager;
  nd_probes : gmap string PeerIdentity;
}.

Inductive agentE : Type -> Type :=
| GApplyIP (action address name : string) : agentE (gresult unit)
| GRemovePeer (peer : SetPeer) : agentE (gresult unit)
| GRemoveAllPeers : agentE unit
| GProvision (rules : FirewallRule) : agentE (gresult unit)
| GProbeStart (appId : string) : agentE (gresult unit)
| GProbeClose (appId : string) : agentE unit.

(** An operation on the node: its error and the node afterwards. *)
Abbreviation nprog := (prog agentE (gresult unit * Node)).

Definition node_with_peers (n : Node) (m : PeerManager.PeerManager) : Node :=
  {| nd_Name := nd_Name n; nd_PublicKey := nd_PublicKey n; nd_peers := m; nd_probes := nd_probes n |}.
Definition node_with_probes (n : Node) (m : gmap string PeerIdentity) : Node :=
  {| nd_Name := nd_Name n; nd_PublicKey := nd_PublicKey n; nd_peers := nd_peers n; nd_probes := m |}.

Definition peer_with_allowed (p : InfraPeer) (allowed : string) : InfraPeer := {|
  ip_Name := ip_Name p; ip_InterfaceName := ip_InterfaceName p; ip_Platform := ip_Platform p;
  ip_Description := ip_Description p; ip_NetworkId := ip_NetworkId p; ip_CreatedBy := ip_CreatedBy p;
  ip_UserId := ip_UserId p; ip_Hostname := ip_Hostname p; ip_AppID := ip_AppID p;
  ip_Address := ip_Address p; ip_Endpoint := ip_Endpoint p; ip_Remove := ip_Remove p;
  ip_PresharedKey := ip_PresharedKey p; ip_PersistentKeepalive := ip_PersistentKeepalive p;
  ip_PrivateKey := ip_PrivateKey p; ip_PublicKey := ip_PublicKey p; ip_PeerID := ip_PeerID p;
  ip_AllowedIPs := allowed; ip_ReplacePeers := ip_ReplacePeers p; ip_Port := ip_Port p;
  ip_GroupName := ip_GroupName p; ip_Version := ip_Version p; ip_LastUpdatedAt := ip_LastUpdatedAt p;
  ip_Token := ip_Token p; ip_WrrpUrl := ip_WrrpUrl p; ip_Labels := ip_Labels p |}.

Section agent.
Context `{WireGuardKeys}.

(** ** The probe factory *)

(** A probe that exists is kept, with the identity it was made for. *)
Definition factory_Get (n : Node) (remoteId : PeerIdentity) : Node :=
  match nd_probes n !! pi_AppID remoteId with
  | Some _ => n
  | None => node_with_probes n (<[pi_AppID remoteId := remoteId]> (nd_probes n))
  end.

Definition factory_Remove (appId : string) (n : Node) : prog agentE Node :=
  let n' := node_with_probes n (delete appId (nd_probes n)) in
  match nd_probes n !! appId with
  | Some _ => _ ← call (GProbeClose appId); Ret n'
  | None => Ret n'
  end.

(** ** The node *)

Definition client_AddPeer (p : InfraPeer) (n : Node) : nprog :=
  match ParseKey (ip_PublicKey p) with
  | None => Ret (inl (ErrText "wgtypes: failed to parse key"), n)
  | Some key =>
      let peerIdentity := NewPeerIdentity (ip_AppID p) key in
      let n := factory_Get n peerIdentity in
      err ← call (GProbeStart (ip_AppID p));
      Ret (err, n)
  end.

Definition node_AddPeer (peer : InfraPeer) (n : Node) : nprog :=
  let n := node_with_peers n (PeerManager.AddPeer (nd_peers n) (ip_AppID peer) peer) in
  if bool_decide (ip_PublicKey peer = nd_PublicKey n) then Ret (inr tt, n) else client_AddPeer peer n.

Definition node_RemovePeer (peer : InfraPeer) (n : Node) : nprog :=
  n ← factory_Remove (ip_AppID peer) n;
  err ← call (GRemovePeer {| sp_PrivateKey := ""; sp_PresharedKey := ""; sp_PublicKey := ip_PublicKey peer;
    sp_Endpoint := ""; sp_AllowedIPs := ""; sp_PersistentKeepalived := 0; sp_Remove := true |});
  Ret (err, n).

(** ** The message handler *)

(** [if err := op; err != nil { return err }]. *)
Definition and_then (op : nprog) (k : Node -> nprog) : nprog :=
  r ← op; match r.1 with inl err => Ret (inl err, r.2) | inr _ => k r.2 end.

Fixpoint applyRemotePeers (peers : list InfraPeer) (n : Node) : nprog :=
  match peers with
  | [] => Ret (inr tt, n)
  | peer :: peers => and_then (node_AddPeer peer n) (applyRemotePeers peers)
  end.

Definition applyFirewallRules (rules : option FirewallRule) (n : Node) : nprog :=
  match rules with
  | None => Ret (inr tt, n)
  | Some rules => err ← call (GProvision rules); Ret (err, n)
  end.

(** The local peer: its address, then its entry in the table. *)
Definition apply_current (current : option InfraPeer) (n : Node) : nprog :=
  match current with
  | Some cur =>
      match ip_Address cur with
      | Some address =>
          err ← call (GApplyIP "add" address (nd_Name n));
          match err with
          | inl err => Ret (inl err, n)
          | inr _ =>
              let cur := if bool_decide (ip_AllowedIPs cur = "") then peer_with_allowed cur (address +:+ "/32")
                         else cur in
              node_AddPeer cur n
          end
      | None => Ret (inr tt, n)
      end
  | None => Ret (inr tt, n)
  end.

Definition ApplyFullConfig (msg : Message) (n : Node) : nprog :=
  and_then (apply_current (m_Current msg) n) (λ n,
  and_then (applyRemotePeers (m_ComputedPeers msg) n) (λ n,
  applyFirewallRules (m_ComputedRules msg) n)).

(** Errors of single peers are only logged. *)
Fixpoint add_peers (selfKey : string) (peers : list InfraPeer) (n : Node) : prog agentE Node :=
  match peers with
  | [] => Ret n
  | peer :: peers =>
      if bool_decide (ip_PublicKey peer = selfKey) then add_peers selfKey peers n
      else r ← node_AddPeer peer n; add_peers selfKey peers r.2
  end.

Fixpoint remove_peers (peers : list InfraPeer) (n : Node) : prog agentE Node :=
  match peers with
  | [] => Ret n
  | peer :: peers => r ← node_RemovePeer peer n; remove_peers peers r.2
  end.

(** The address change: the error, and the current peer afterwards. *)
Definition change_address (changes : DetailsInfo) (cur : InfraPeer) (n : Node)
    : prog agentE (gresult InfraPeer) :=
  if ch_AddressChanged changes then
    match ip_Address cur with
    | None =>
        if bool_decide (ch_NetworkLeft changes = []) then Ret (inr cur)
        else
          err ← call (GApplyIP "remove" "" (nd_Name n));
          match err with
          | inl err => Ret (inl (ErrWrap "failed to remove IP" err))
          | inr _ => _ ← call GRemoveAllPeers; Ret (inr cur)
          end
    | Some address => Ret (inr (peer_with_allowed cur (address +:+ "/32")))
    end
  else Ret (inr cur).

Definition with_current (msg : Message) (cur : InfraPeer) : Message := {|
  m_EventType := m_EventType msg; m_ConfigVersion := m_ConfigVersion msg; m_Timestamp := m_Timestamp msg;
  m_Changes := m_Changes msg; m_Current := Some cur; m_Network := m_Network msg;
  m_Policies := m_Policies msg; m_ComputedPeers := m_ComputedPeers msg;
  m_ComputedRules := m_ComputedRules msg; m_Labels := m_Labels msg |}.

(** The incremental part. *)
Definition apply_changes (changes : DetailsInfo) (cur : InfraPeer) (n : Node)
    : prog agentE (gresult InfraPeer * Node) :=
  r ← change_address changes cur n;
  match r with
  | inl err => Ret (inl err, n)
  | inr cur =>
      n ← add_peers (ip_PublicKey cur) (ch_PeersAdded changes) n;
      n ← remove_peers (ch_PeersRemoved changes) n;
      Ret (inr cur, n)
  end.

Definition apply_full (msg : Message) (n : Node) : nprog :=
  r ← ApplyFullConfig msg n;
  match r.1 with
  | inl err => Ret (inl (ErrWrap "failed to apply full configuration" err), r.2)
  | inr _ => Ret (inr tt, r.2)
  end.

Definition HandleEvent (msg : option Message) (n : Node) : nprog :=
  match msg with
  | None => Ret (inr tt, n)
  | Some msg =>
      match m_Current msg with
      | None => Ret (inr tt, n)
      | Some cur =>
          match m_Changes msg with
          | Some changes =>
              if HasChanges changes then
                r ← apply_changes changes cur n;
                match r.1 with
                | inl err => Ret (inl err, r.2)
                | inr cur => apply_full (with_current msg cur) r.2
                end
              else apply_full msg n
          | None => apply_full msg n
          end
      end
  end.
End agent.

(** ** Correctness *)

Section facts.
Context `{WireGuardKeys} (R : forall T, agentE T -> T -> Prop).

(** [n'] has what [n] has, and possibly more peers and probes. *)
Definition extends (n n' : Node) : Prop :=
  nd_Name n' = nd_Name n /\ nd_PublicKey n' = nd_PublicKey n /\ nd_probes n ⊆ nd_probes n' /\
  dom (PeerManager.peers (nd_peers n)) ⊆ dom (PeerManager.peers (nd_peers n')).

#[local] Instance extends_preorder : PreOrder extends.
Proof.
  split; [by intros n|]. intros n1 n2 n3 (E1 & E2 & E3 & E4) (F1 & F2 & F3 & F4).
  split_and!; [congruence..|by etrans|by etrans].
Qed.

(** The peer is in the table, and has a probe unless it is the node itself. *)
Definition has_probe (q : InfraPeer) (n : Node) : Prop :=
  ip_PublicKey q = nd_PublicKey n \/ is_Some (nd_probes n !! ip_AppID q).

Definition stored (q : InfraPeer) (n : Node) : Prop :=
  PeerManager.GetPeer (nd_peers n) (ip_AppID q) = Some q.

Lemma has_probe_extends q n n' : extends n n' -> has_probe q n -> has_probe q n'.
Proof.
  intros (_ & E & Hs & _) [Hk|[i Hi]]; [left; congruence|right]. exists i.
  by eapply lookup_weaken.
Qed.

Lemma node_AddPeer_wp (G : forall T, agentE T -> Prop) q n Q :
  (ip_PublicKey q <> nd_PublicKey n -> G _ (GProbeStart (ip_AppID q))) ->
  (forall r, extends n r.2 -> nd_peers r.2 = PeerManager.AddPeer (nd_peers n) (ip_AppID q) q ->
    (r.1 = inr tt -> has_probe q r.2) -> Q r) ->
  wp R G (node_AddPeer q n) Q.
Proof.
  intros HG HQ. unfold node_AddPeer. cbn [nd_PublicKey node_with_peers].
  set (n1 := node_with_peers n _).
  assert (He : extends n n1).
  { split_and!; [done..|]. cbn. rewrite dom_insert_L. set_solver. }
  case_bool_decide as Hk; [apply HQ; [done..|by left]|].
  unfold client_AddPeer. destruct (ParseKey (ip_PublicKey q)) as [key|]; [|by apply HQ].
  cbv zeta. apply wp_bind, wp_call; [by apply HG|]. intros err _. cbn [wp].
  unfold factory_Get. cbn [pi_AppID NewPeerIdentity].
  destruct (nd_probes n1 !! ip_AppID q) as [i|] eqn:Hi; apply HQ; try done.
  - intros _. right. by exists i.
  - split_and!; [done..| |cbn; rewrite dom_insert_L; set_solver].
    cbn. by apply insert_subseteq.
  - intros _. right. cbn. by rewrite lookup_insert_eq.
Qed.

(** What a list of additions leaves: later entries with the same id win. *)
Lemma applyRemotePeers_wp (G : forall T, agentE T -> Prop) : forall peers n,
  (forall q, q ∈ peers -> ip_PublicKey q <> nd_PublicKey n -> G _ (GProbeStart (ip_AppID q))) ->
  wp R G (applyRemotePeers peers n) (λ r, extends n r.2 /\
    (forall q, ip_AppID q ∉ ip_AppID <$> peers -> stored q n -> stored q r.2) /\
    (r.1 = inr tt -> Forall (λ q, has_probe q r.2) peers /\
      (NoDup (ip_AppID <$> peers) -> Forall (λ q, stored q r.2) peers))).
Proof.
  induction peers as [|q peers IH]; intros n HG; [by cbn|].
  cbn [applyRemotePeers]. unfold and_then. apply wp_bind.
  apply node_AddPeer_wp; [intros Hk; by apply HG; [left|]|]. intros [err n1] He Hp Hpr. cbn in *.
  assert (Hkeep : forall q', ip_AppID q' ∉ ip_AppID q :: (ip_AppID <$> peers) -> stored q' n -> stored q' n1).
  { intros q' Hn Hs. unfold stored, PeerManager.GetPeer in *. rewrite Hp. cbn.
    rewrite lookup_insert_ne; [done|]. intros E. apply Hn. rewrite E. left. }
  destruct err as [err|[]]; [by split_and!|].
  eapply wp_mono; [apply IH|].
  { intros q' Hq' Hk. apply HG; [by right|]. destruct He as (_ & E & _). by rewrite E in Hk. }
  intros [err2 n2] (He2 & Hk2 & Hr2). cbn in *. split_and!.
  - by etrans.
  - intros q' Hn Hs. apply Hk2; [set_solver|]. by apply Hkeep.
  - intros Hok. destruct (Hr2 Hok) as [Hprobe Hst]. split.
    + constructor; [|done]. eapply has_probe_extends; [done|by apply Hpr].
    + intros [Hn Hnd]%NoDup_cons. constructor; [|by apply Hst]. apply Hk2; [done|].
      unfold stored, PeerManager.GetPeer. rewrite Hp. cbn. by rewrite lookup_insert_eq.
Qed.

(** The local peer as it is stored: with its own address allowed by default. *)
Definition effective_current (cur : InfraPeer) (address : string) : InfraPeer :=
  if bool_decide (ip_AllowedIPs cur = "") then peer_with_allowed cur (address +:+ "/32") else cur.

Lemma effective_current_same cur address :
  ip_AppID (effective_current cur address) = ip_AppID cur /\
  ip_PublicKey (effective_current cur address) = ip_PublicKey cur.
Proof. unfold effective_current. by case_bool_decide. Qed.

(** The calls a configuration with this local peer, these peers and rules may
    make on a node. *)
Definition full_call (cur : option InfraPeer) (peers : list InfraPeer) (rules : option FirewallRule)
    (name key : string) (T : Type) (e : agentE T) : Prop :=
  match e with
  | GApplyIP action address nm =>
      action = "add" /\ nm = name /\ (cur ≫= ip_Address) = Some address
  | GProvision r => rules = Some r
  | GProbeStart appId => exists q, q ∈ option_list cur ++ peers /\ ip_AppID q = appId /\ ip_PublicKey q <> key
  | GRemovePeer _ | GRemoveAllPeers | GProbeClose _ => False
  end.

(** What a configuration that was applied leaves. *)
Definition configured (cur : option InfraPeer) (peers : list InfraPeer) (n : Node) : Prop :=
  Forall (λ q, has_probe q n) peers /\
  (NoDup (ip_AppID <$> peers) -> Forall (λ q, stored q n) peers) /\
  (forall c address, cur = Some c -> ip_Address c = Some address ->
    ip_AppID c ∉ ip_AppID <$> peers -> stored (effective_current c address) n).

Lemma apply_current_wp cur peers rules n :
  wp R (full_call cur peers rules (nd_Name n) (nd_PublicKey n)) (apply_current cur n) (λ r,
    extends n r.2 /\ (r.1 = inr tt -> forall c address, cur = Some c -> ip_Address c = Some address ->
      stored (effective_current c address) r.2)).
Proof.
  unfold apply_current. destruct cur as [c|]; [|by cbn].
  destruct (ip_Address c) as [address|] eqn:Ha; [|by split; [|intros _ ? ? [= <-]; congruence]].
  apply wp_bind, wp_call; [by cbn|]. intros [err|[]] _; [by split|].
  fold (effective_current c address). destruct (effective_current_same c address) as [Ei Ek].
  apply node_AddPeer_wp.
  - intros Hk. rewrite Ei. exists c. split; [by left|]. split; [done|]. by rewrite Ek in Hk.
  - intros r He Hp _. split; [done|]. intros _ c' a' [= <-] Ha'. assert (a' = address) as -> by congruence.
    unfold stored, PeerManager.GetPeer. rewrite Hp. cbn. by rewrite lookup_insert_eq.
Qed.

Lemma ApplyFullConfig_wp msg n :
  wp R (full_call (m_Current msg) (m_ComputedPeers msg) (m_ComputedRules msg) (nd_Name n) (nd_PublicKey n))
    (ApplyFullConfig msg n)
    (λ r, extends n r.2 /\ (r.1 = inr tt -> configured (m_Current msg) (m_ComputedPeers msg) r.2)).
Proof.
  unfold ApplyFullConfig, and_then. apply wp_bind. eapply wp_mono; [apply apply_current_wp|].
  intros [[err|[]] n1] [He1 Hc1]; [by split|]. cbn [fst snd] in *. specialize (Hc1 eq_refl).
  apply wp_bind. eapply wp_mono; [apply applyRemotePeers_wp|].
  { intros q Hq Hk. exists q. destruct He1 as (_ & E & _). rewrite E in Hk. set_solver. }
  intros [err n2] (He2 & Hkeep & Hok). cbn [fst snd] in *.
  assert (He : extends n n2) by (by etrans). destruct err as [err|[]]; [by split|].
  destruct (Hok eq_refl) as [Hpr Hst].
  assert (Hconf : configured (m_Current msg) (m_ComputedPeers msg) n2).
  { split_and!; [done..|]. intros c a Hc Ha Hn. apply Hkeep; [|by apply Hc1].
    by rewrite (proj1 (effective_current_same c a)). }
  unfold applyFirewallRules. destruct (m_ComputedRules msg) as [rules|] eqn:Er; [|by cbn].
  apply wp_bind, wp_call; [by cbn|]. by intros err _.
Qed.

Lemma apply_full_wp msg n :
  wp R (full_call (m_Current msg) (m_ComputedPeers msg) (m_ComputedRules msg) (nd_Name n) (nd_PublicKey n))
    (apply_full msg n)
    (λ r, extends n r.2 /\ (r.1 = inr tt -> configured (m_Current msg) (m_ComputedPeers msg) r.2)).
Proof. wp_use ApplyFullConfig_wp. intros [[err|[]] n'] [He Hc]; cbn in *; by split. Qed.

(** The calls of an incremental change. *)
Definition change_call (changes : DetailsInfo) (cur : InfraPeer) (name key : string)
    (T : Type) (e : agentE T) : Prop :=
  match e with
  | GApplyIP action address nm =>
      action = "remove" /\ address = "" /\ nm = name /\ ip_Address cur = None /\ ch_NetworkLeft changes <> []
  | GRemoveAllPeers => ip_Address cur = None /\ ch_NetworkLeft changes <> []
  | GProvision r => False
  | GProbeStart appId => exists q, q ∈ ch_PeersAdded changes /\ ip_AppID q = appId /\ ip_PublicKey q <> key
  | GRemovePeer sp => exists q, q ∈ ch_PeersRemoved changes /\ sp_PublicKey sp = ip_PublicKey q
  | GProbeClose appId => exists q, q ∈ ch_PeersRemoved changes /\ ip_AppID q = appId
  end.

Definition same_node (n n' : Node) : Prop := nd_Name n' = nd_Name n /\ nd_PublicKey n' = nd_PublicKey n.

Lemma add_peers_wp changes cur selfKey name : forall peers n,
  (forall q, q ∈ peers -> q ∈ ch_PeersAdded changes) ->
  wp R (change_call changes cur name (nd_PublicKey n)) (add_peers selfKey peers n) (same_node n).
Proof.
  induction peers as [|q peers IH]; intros n Hin; [by cbn|]. cbn [add_peers].
  assert (Hin' : forall q', q' ∈ peers -> q' ∈ ch_PeersAdded changes) by set_solver.
  case_bool_decide; [by apply IH|]. apply wp_bind. apply node_AddPeer_wp.
  - intros Hk. exists q. split; [apply Hin; left|done].
  - intros [err n'] (E1 & E2 & _) _ _. cbn in *. rewrite <- E2.
    eapply wp_mono; [by apply IH|]. intros n2 [F1 F2]. split; congruence.
Qed.

Lemma remove_peers_wp changes cur name key : forall peers n,
  (forall q, q ∈ peers -> q ∈ ch_PeersRemoved changes) ->
  wp R (change_call changes cur name key) (remove_peers peers n) (same_node n).
Proof.
  induction peers as [|q peers IH]; intros n Hin; [by cbn|]. cbn [remove_peers].
  assert (Hin' : forall q', q' ∈ peers -> q' ∈ ch_PeersRemoved changes) by set_solver.
  assert (Hq : q ∈ ch_PeersRemoved changes) by (apply Hin; left).
  unfold node_RemovePeer, factory_Remove. apply wp_bind, wp_bind.
  assert (Hrest : forall m, same_node n m -> wp R (change_call changes cur name key)
    (err ← call (GRemovePeer {| sp_PrivateKey := ""; sp_PresharedKey := ""; sp_PublicKey := ip_PublicKey q;
       sp_Endpoint := ""; sp_AllowedIPs := ""; sp_PersistentKeepalived := 0; sp_Remove := true |}); Ret (err, m))
    (λ r, wp R (change_call changes cur name key) (remove_peers peers r.2) (same_node n))).
  { intros m [E1 E2]. apply wp_bind, wp_call; [by exists q|]. intros err _. cbn.
    eapply wp_mono; [by apply IH|]. intros n2 [F1 F2]. split; congruence. }
  destruct (nd_probes n !! ip_AppID q); [|by apply Hrest].
  apply wp_bind, wp_call; [by exists q|]. intros _ _. by apply Hrest.
Qed.

(** The local peer once an address change has been handled. *)
Definition changed_current (changes : option DetailsInfo) (cur : InfraPeer) : InfraPeer :=
  match changes, ip_Address cur with
  | Some ch, Some address =>
      if HasChanges ch && ch_AddressChanged ch then peer_with_allowed cur (address +:+ "/32") else cur
  | _, _ => cur
  end.

Lemma change_address_wp changes cur name key n :
  nd_Name n = name -> HasChanges changes = true ->
  wp R (change_call changes cur name key) (change_address changes cur n)
    (λ r, forall cur', r = inr cur' -> cur' = changed_current (Some changes) cur).
Proof.
  intros Hn Hc. unfold change_address, changed_current. rewrite Hc. cbn [andb].
  destruct (ch_AddressChanged changes).
  - destruct (ip_Address cur) as [address|] eqn:Ha; [by cbn; congruence|].
    case_bool_decide as Hl; [by cbn; congruence|]. apply wp_bind, wp_call; [by cbn|].
    intros [err|[]] _; [done|]. apply wp_bind, wp_call; [by split|]. by intros _ _ ? [= <-].
  - destruct (ip_Address cur); cbn; congruence.
Qed.

(** Every call of [HandleEvent] on a message. *)
Definition handle_call (msg : Message) (cur : InfraPeer) (n : Node) (T : Type) (e : agentE T) : Prop :=
  full_call (Some (changed_current (m_Changes msg) cur)) (m_ComputedPeers msg) (m_ComputedRules msg)
    (nd_Name n) (nd_PublicKey n) T e \/
  exists changes, m_Changes msg = Some changes /\ HasChanges changes = true /\
    change_call changes cur (nd_Name n) (nd_PublicKey n) T e.

Lemma apply_full_handle msg cur n n1 cur' Q :
  same_node n n1 -> cur' = changed_current (m_Changes msg) cur ->
  (forall r, extends n1 r.2 -> (r.1 = inr tt -> configured (Some cur') (m_ComputedPeers msg) r.2) -> Q r) ->
  wp R (handle_call msg cur n) (apply_full (with_current msg cur') n1) Q.
Proof.
  intros [E1 E2] -> HQ. eapply wp_mono.
  - eapply wp_weaken; [by intros|intros T e|apply apply_full_wp].
    cbn [with_current m_Current m_ComputedPeers m_ComputedRules].
    intros Hc. left. by rewrite E1, E2 in Hc.
  - intros r [He Hc]. by apply HQ.
Qed.

Lemma with_current_same msg cur : m_Current msg = Some cur -> with_current msg cur = msg.
Proof. intros Hc. destruct msg. cbn in Hc. by subst. Qed.

Lemma apply_changes_wp msg cur n changes :
  m_Changes msg = Some changes -> HasChanges changes = true ->
  wp R (handle_call msg cur n) (apply_changes changes cur n)
    (λ r, same_node n r.2 /\ forall cur', r.1 = inr cur' -> cur' = changed_current (m_Changes msg) cur).
Proof.
  intros Hm Hc. rewrite Hm.
  apply (wp_weaken R R (change_call changes cur (nd_Name n) (nd_PublicKey n)) (handle_call msg cur n));
    [done|by right; exists changes|].
  unfold apply_changes. apply wp_bind. eapply wp_mono; [by apply change_address_wp|].
  intros [err|cur'] Hcur; [by cbn|]. specialize (Hcur _ eq_refl).
  apply wp_bind. eapply wp_mono; [by apply add_peers_wp|]. intros n1 [E1 E2].
  apply wp_bind. eapply wp_mono; [by apply remove_peers_wp|]. intros n2 [F1 F2]. cbn.
  split; [split; congruence|]. by intros ? [= <-].
Qed.
End facts.

Lemma HandleEvent_wp `{WireGuardKeys} (R : forall T, agentE T -> T -> Prop) msg cur n :
  m_Current msg = Some cur ->
  wp R (handle_call msg cur n) (HandleEvent (Some msg) n) (λ r, r.1 = inr tt ->
    configured (Some (changed_current (m_Changes msg) cur)) (m_ComputedPeers msg) r.2).
Proof.
  intros Hcur. unfold HandleEvent. rewrite Hcur.
  assert (Hplain : changed_current (m_Changes msg) cur = cur ->
    wp R (handle_call msg cur n) (apply_full msg n) (λ r, r.1 = inr tt ->
      configured (Some (changed_current (m_Changes msg) cur)) (m_ComputedPeers msg) r.2)).
  { intros E. rewrite <- (with_current_same msg cur Hcur) at 2.
    apply apply_full_handle; [done|done|]. intros r _ Hc. by rewrite E. }
  destruct (m_Changes msg) as [changes|] eqn:Hm; [|apply Hplain; done].
  destruct (HasChanges changes) eqn:Hc.
  - apply wp_bind. eapply wp_mono; [by apply apply_changes_wp|].
    intros [[err|cur'] n1] [Hs Hcur']; cbn [fst snd] in *; [done|].
    apply apply_full_handle; [done|by apply Hcur'|]. intros r _ Hr.
    specialize (Hcur' _ eq_refl). rewrite Hm in Hcur'. by rewrite <- Hcur'.
  - apply Hplain. unfold changed_current. destruct (ip_Address cur); [by rewrite Hc|done].
Qed.

(** *** The calls that were made *)

(** The calls of a node and whether they succeeded, in order. *)
Inductive node_call :=
| CApplyIP (action address name : string) | CRemovePeer (key : string) | CRemoveAll
| CProvision (rules : FirewallRule) | CProbeStart (appId : string) | CProbeClose (appId : string).
Abbreviation node_log := (list (node_call * bool)).
Definition succeeded {A} (r : gresult A) : bool := match r with inr _ => true | inl _ => false end.
(** A world that answers as it likes, and where every call is written down. *)
Definition logged_world T (e : agentE T) (s : node_log) : T -> node_log -> Prop :=
  match e in agentE T return T -> node_log -> Prop with
  | GApplyIP action address name => λ r s', s' = s ++ [(CApplyIP action address name, succeeded r)]
  | GRemovePeer p => λ r s', s' = s ++ [(CRemovePeer (sp_PublicKey p), succeeded r)]
  | GRemoveAllPeers => λ _ s', s' = s ++ [(CRemoveAll, true)]
  | GProvision rules => λ r s', s' = s ++ [(CProvision rules, succeeded r)]
  | GProbeStart appId => λ r s', s' = s ++ [(CProbeStart appId, succeeded r)]
  | GProbeClose appId => λ _ s', s' = s ++ [(CProbeClose appId, true)]
  end.

(** The successful calls of applying a configuration on a node with this name and key: its address and,
    unless it is the node itself, its probe; a probe of every other peer; the rules. *)
Definition probe_of (key : string) (q : InfraPeer) : node_log :=
  if bool_decide (ip_PublicKey q = key) then [] else [(CProbeStart (ip_AppID q), true)].
Definition full_calls (name key : string) (cur : InfraPeer) (peers : list InfraPeer) (rules : option FirewallRule) : node_log :=
  match ip_Address cur with Some address => (CApplyIP "add" address name, true) :: probe_of key cur | None => [] end ++
  concat (probe_of key <$> peers) ++
  match rules with Some rules => [(CProvision rules, true)] | None => [] end.

Section logged.
Context `{WireGuardKeys}.

Lemma logged_grows {A} (p : prog agentE A) s a s' : runs logged_world p s a s' -> s `prefix_of` s'.
Proof.
  induction 1 as [b s|T e k s r s1 b s2 He Hr IH]; [done|]. etrans; [|exact IH].
  destruct e; cbn in He; subst s1; by eexists.
Qed.

Lemma node_AddPeer_logged q n s n' s' :
  runs logged_world (node_AddPeer q n) s (inr tt, n') s' -> s' = s ++ probe_of (nd_PublicKey n) q /\ same_node n n'.
Proof.
  unfold node_AddPeer, probe_of. cbn [nd_PublicKey node_with_peers]. intros Hr.
  case_bool_decide; [apply runs_ret_inv in Hr as [[= ->] ->]; by rewrite app_nil_r|].
  unfold client_AddPeer in Hr. destruct (ParseKey _) as [key|]; [|by apply runs_ret_inv in Hr as [? _]].
  cbv zeta in Hr. apply runs_bind_inv in Hr as (err & s1 & He & Hr). apply runs_call_inv in He. cbn in He. subst s1.
  apply runs_ret_inv in Hr as [[= <- ->] ->]. split; [done|]. unfold factory_Get.
  by destruct (nd_probes _ !! _).
Qed.

Lemma and_then_logged (op : nprog) k s n' s' :
  runs logged_world (and_then op k) s (inr tt, n') s' ->
  exists n1 s1, runs logged_world op s (inr tt, n1) s1 /\ runs logged_world (k n1) s1 (inr tt, n') s'.
Proof.
  intros Hr. apply runs_bind_inv in Hr as ([[err|[]] n1] & s1 & H1 & Hr); cbn in Hr; [by apply runs_ret_inv in Hr as [? _]|].
  by exists n1, s1.
Qed.

Lemma applyRemotePeers_logged peers : forall n s n' s',
  runs logged_world (applyRemotePeers peers n) s (inr tt, n') s' ->
  s' = s ++ concat (probe_of (nd_PublicKey n) <$> peers) /\ same_node n n'.
Proof.
  induction peers as [|q peers IH]; intros n s n' s' Hr.
  { apply runs_ret_inv in Hr as [[= ->] ->]. by rewrite app_nil_r. }
  apply and_then_logged in Hr as (n1 & s1 & H1 & Hr). apply node_AddPeer_logged in H1 as [-> [E1 E2]].
  apply IH in Hr as [-> [F1 F2]]. rewrite E2, <- app_assoc. split; [done|]. split; congruence.
Qed.

Lemma apply_full_logged msg n s n' s' cur :
  m_Current msg = Some cur -> runs logged_world (apply_full msg n) s (inr tt, n') s' ->
  s' = s ++ full_calls (nd_Name n) (nd_PublicKey n) cur (m_ComputedPeers msg) (m_ComputedRules msg).
Proof.
  intros Hcur Hr. apply runs_bind_inv in Hr as ([[err|[]] n0] & s0 & Hf & Hr); [by apply runs_ret_inv in Hr as [? _]|].
  apply runs_ret_inv in Hr as [_ ->]. unfold ApplyFullConfig in Hf. rewrite Hcur in Hf.
  apply and_then_logged in Hf as (n1 & s1 & H1 & Hf).
  assert (Hs1 : s1 = s ++ match ip_Address cur with
      Some address => (CApplyIP "add" address (nd_Name n), true) :: probe_of (nd_PublicKey n) cur | None => [] end /\ same_node n n1).
  { unfold apply_current in H1. destruct (ip_Address cur) as [address|];
      [|apply runs_ret_inv in H1 as [[= ->] ->]; by rewrite app_nil_r].
    apply runs_bind_inv in H1 as ([err|[]] & s2 & Hc & H1); [by apply runs_ret_inv in H1 as [? _]|].
    apply runs_call_inv in Hc. cbn in Hc. subst s2. fold (effective_current cur address) in H1.
    apply node_AddPeer_logged in H1 as [-> Hsame]. split; [|done].
    destruct (effective_current_same cur address) as [Ei Ek]. unfold probe_of. by rewrite Ei, Ek, <- app_assoc. }
  destruct Hs1 as [-> [E1 E2]]. apply and_then_logged in Hf as (n2 & s2 & H2 & Hf).
  apply applyRemotePeers_logged in H2 as [-> _]. rewrite E2 in *. unfold full_calls.
  unfold applyFirewallRules in Hf. destruct (m_ComputedRules msg) as [rules|].
  - apply runs_bind_inv in Hf as (err & s3 & Hc & Hf). apply runs_call_inv in Hc. cbn in Hc. subst s3.
    apply runs_ret_inv in Hf as [[= <- _] ->]. by rewrite <- !app_assoc.
  - apply runs_ret_inv in Hf as [_ ->]. by rewrite app_nil_r, <- !app_assoc.
Qed.

Lemma remove_peers_logged peers : forall n s n' s',
  runs logged_world (remove_peers peers n) s n' s' ->
  exists t, s' = s ++ t /\ Forall (λ q, exists b, (CRemovePeer (ip_PublicKey q), b) ∈ t) peers.
Proof.
  induction peers as [|q peers IH]; intros n s n' s' Hr.
  { apply runs_ret_inv in Hr as [_ ->]. exists []. by rewrite app_nil_r. }
  apply runs_bind_inv in Hr as ([err n1] & s1 & H1 & Hr). apply IH in Hr as (t2 & -> & Ht2).
  assert (Ht1 : exists t1 b, s1 = s ++ t1 /\ (CRemovePeer (ip_PublicKey q), b) ∈ t1).
  { apply runs_bind_inv in H1 as (n2 & s2 & H2 & H1). apply logged_grows in H2 as [t ->].
    apply runs_bind_inv in H1 as (e & s3 & Hc & H1). apply runs_call_inv in Hc. cbn in Hc. subst s3.
    apply runs_ret_inv in H1 as [_ ->]. exists (t ++ [(CRemovePeer (ip_PublicKey q), succeeded e)]), (succeeded e).
    rewrite <- app_assoc. split; [done|]. set_solver. }
  destruct Ht1 as (t1 & b & -> & Hb). exists (t1 ++ t2). rewrite <- app_assoc. split; [done|]. constructor.
  - exists b. set_solver.
  - eapply Forall_impl; [exact Ht2|]. intros q' [b' Hb']. exists b'. set_solver.
Qed.

Lemma apply_changes_logged msg cur n s changes cur' n' s' :
  m_Changes msg = Some changes -> HasChanges changes = true ->
  runs logged_world (apply_changes changes cur n) s (inr cur', n') s' ->
  cur' = changed_current (m_Changes msg) cur /\ same_node n n' /\
  exists t, s' = s ++ t /\ Forall (λ q, exists b, (CRemovePeer (ip_PublicKey q), b) ∈ t) (ch_PeersRemoved changes).
Proof.
  intros Hm Hc Hr.
  destruct (wp_runs logged_world (λ _ _ _, True) (handle_call msg cur n) (λ _, True) _ _ s (inr cur', n') s'
    (λ _ _ _ _ _ _ _ _, conj I I) (apply_changes_wp (λ _ _ _, True) msg cur n changes Hm Hc) I Hr) as [[Hs Hcur] _].
  split; [by apply Hcur|]. split; [done|].
  apply runs_bind_inv in Hr as ([err|c1] & s1 & H1 & Hr); [by apply runs_ret_inv in Hr as [? _]|].
  apply logged_grows in H1 as [t1 ->]. apply runs_bind_inv in Hr as (n1 & s2 & H2 & Hr). apply logged_grows in H2 as [t2 ->].
  apply runs_bind_inv in Hr as (n2 & s3 & H3 & Hr). apply remove_peers_logged in H3 as (t3 & -> & Ht).
  apply runs_ret_inv in Hr as [_ ->]. exists (t1 ++ t2 ++ t3). rewrite <- !app_assoc. split; [done|].
  eapply Forall_impl; [exact Ht|]. intros q' [b' Hb']. exists b'. set_solver.
Qed.

(** What a successful handling did: what the list of changes asks for, and then the whole
    configuration. *)
Definition handled_calls (msg : Message) (cur : InfraPeer) (n : Node) (t : node_log) : Prop :=
  exists changed, t = changed ++ full_calls (nd_Name n) (nd_PublicKey n) (changed_current (m_Changes msg) cur)
                       (m_ComputedPeers msg) (m_ComputedRules msg) /\
    match m_Changes msg with
    | Some changes =>
        if HasChanges changes
        then Forall (λ q, exists b, (CRemovePeer (ip_PublicKey q), b) ∈ changed) (ch_PeersRemoved changes)
        else changed = []
    | None => changed = []
    end.

Lemma HandleEvent_logged msg cur n s n' s' :
  m_Current msg = Some cur -> runs logged_world (HandleEvent (Some msg) n) s (inr tt, n') s' ->
  exists t, s' = s ++ t /\ handled_calls msg cur n t.
Proof.
  intros Hcur Hr. unfold HandleEvent in Hr. rewrite Hcur in Hr.
  assert (Hplain : changed_current (m_Changes msg) cur = cur ->
    match m_Changes msg with Some changes => HasChanges changes = false | None => True end ->
    runs logged_world (apply_full msg n) s (inr tt, n') s' -> exists t, s' = s ++ t /\ handled_calls msg cur n t).
  { intros E Hch Hf. eapply apply_full_logged in Hf as ->; [|exact Hcur]. eexists. split; [done|]. exists [].
    rewrite E. split; [done|]. destruct (m_Changes msg); [by rewrite Hch|done]. }
  destruct (m_Changes msg) as [changes|] eqn:Hm.
  - destruct (HasChanges changes) eqn:Hc.
    + apply runs_bind_inv in Hr as ([[err|cur'] n1] & s1 & H1 & Hr); cbn [fst snd] in Hr; [by apply runs_ret_inv in Hr as [? _]|].
      eapply apply_changes_logged in H1 as (Hcur' & [E1 E2] & t & -> & Ht); [|done..]. subst cur'.
      eapply apply_full_logged in Hr as ->; [|reflexivity]. rewrite E1, E2, <- app_assoc.
      eexists. split; [done|]. exists t. rewrite Hm, Hc. by split.
    + apply Hplain; [|done|exact Hr]. unfold changed_current. destruct (ip_Address cur); [by rewrite Hc|done].
  - by apply Hplain.
Qed.
End logged.

(** C27. Handling a configuration, whatever the device answers. A message without a local peer
    changes nothing. When [HandleEvent] reports success for another one, the calls that it made
    end with those of the whole configuration, each of which succeeded and in this order: the
    node's address, if the local peer has one, a probe of the local peer if its key is not the
    node's, a probe of each computed peer whose key is not the node's, and the firewall rules,
    if there are any. Before them come only those of the list of changes, if that has any; then
    each of its removed peers was asked to be removed, with whatever result. Afterwards every
    computed peer has a probe, unless its key is the node's; when no two of them have the same
    id, each is the table's entry for its id; and the local peer is stored with its allowed
    address if it has an address and no computed peer has its id (without an address nothing is
    stored for it). Whether it succeeds or not, the calls are those the message asks for: its
    address, its firewall rules, probes of its peers, and removals only of the peers its change
    list removes, or of all when it leaves its network. *)
Theorem HandleEvent_applies `{WireGuardKeys} msg n s r s' :
  runs logged_world (HandleEvent (Some msg) n) s r s' ->
  match m_Current msg with
  | None => r = (inr tt, n) /\ s' = s
  | Some cur =>
      wp (λ _ _ _, True) (handle_call msg cur n) (HandleEvent (Some msg) n) (λ _, True) /\
      (r.1 = inr tt ->
        (exists t, s' = s ++ t /\ handled_calls msg cur n t) /\
        configured (Some (changed_current (m_Changes msg) cur)) (m_ComputedPeers msg) r.2)
  end.
Proof.
  intros Hr. destruct (m_Current msg) as [cur|] eqn:Hcur.
  - pose proof (HandleEvent_wp (λ _ _ _, True) msg cur n Hcur) as Hwp. split; [by eapply wp_mono|].
    intros Hok. split.
    + destruct r as [e n']. cbn in Hok. subst e. by eapply HandleEvent_logged.
    + destruct (wp_runs logged_world (λ _ _ _, True) (handle_call msg cur n) (λ _, True) _ _ s r s'
        (λ _ _ _ _ _ _ _ _, conj I I) Hwp I Hr) as [Hc _]. by apply Hc.
  - unfold HandleEvent in Hr. rewrite Hcur in Hr. by apply runs_ret_inv in Hr.
Qed.

(** A message without a change list, as every message the control plane
    generates is, never removes anything: no removal is asked of WireGuard or of
    a probe, and every peer of the table and every probe, with the key it was
    made for, is still there afterwards, whether or not the message lists that
    peer and whatever key it lists it with. *)
Theorem snapshot_never_removes `{WireGuardKeys} (R : forall T, agentE T -> T -> Prop) msg n :
  m_Changes msg = None ->
  wp R (λ T e, match e with GRemovePeer _ | GRemoveAllPeers | GProbeClose _ => False | _ => True end)
    (HandleEvent (Some msg) n) (λ r, extends n r.2).
Proof.
  intros Hm. unfold HandleEvent. destruct (m_Current msg) as [cur|] eqn:Hcur; [|by cbn]. rewrite Hm.
  eapply wp_mono.
  - eapply wp_weaken; [by intros|intros T e|apply apply_full_wp]. by destruct e.
  - by intros r [He _].
Qed.

#[local] Existing Instance sample_keys.

Definition sample_node : Node := {|
  nd_Name := "wf0"; nd_PublicKey := "ka";
  nd_peers := PeerManager.AddPeer PeerManager.NewPeerManager "b" (keyed_peer "b" "kb");
  nd_probes := {[ "b" := node_b ]} |}.

(** The node's own address, and no peers any more. *)
Definition sample_message : Message := {|
  m_EventType := EventTypeNodeUpdate; m_ConfigVersion := "2"; m_Timestamp := 0; m_Changes := None;
  m_Current := Some (keyed_peer "a" "ka"); m_Network := None; m_Policies := []; m_ComputedPeers := [];
  m_ComputedRules := None; m_Labels := ∅ |}.

Lemma snapshot_never_removes_witness :
  wp (λ _ _ _, True) (λ T e, match e with GRemovePeer _ | GRemoveAllPeers | GProbeClose _ => False | _ => True end)
    (HandleEvent (Some sample_message) sample_node) (λ r, extends sample_node r.2).
Proof. apply (snapshot_never_removes (λ _ _ _, True) sample_message sample_node). reflexivity. Defined.

(** A peer joins and another one leaves, and there are rules. *)
Definition located_peer (q : InfraPeer) (address : string) : InfraPeer := {|
  ip_Name := ip_Name q; ip_InterfaceName := ip_InterfaceName q; ip_Platform := ip_Platform q;
  ip_Description := ip_Description q; ip_NetworkId := ip_NetworkId q; ip_CreatedBy := ip_CreatedBy q;
  ip_UserId := ip_UserId q; ip_Hostname := ip_Hostname q; ip_AppID := ip_AppID q;
  ip_Address := Some address; ip_Endpoint := ip_Endpoint q; ip_Remove := ip_Remove q;
  ip_PresharedKey := ip_PresharedKey q; ip_PersistentKeepalive := ip_PersistentKeepalive q;
  ip_PrivateKey := ip_PrivateKey q; ip_PublicKey := ip_PublicKey q; ip_PeerID := ip_PeerID q;
  ip_AllowedIPs := ip_AllowedIPs q; ip_ReplacePeers := ip_ReplacePeers q; ip_Port := ip_Port q;
  ip_GroupName := ip_GroupName q; ip_Version := ip_Version q; ip_LastUpdatedAt := ip_LastUpdatedAt q;
  ip_Token := ip_Token q; ip_WrrpUrl := ip_WrrpUrl q; ip_Labels := ip_Labels q |}.
Definition joining_rules : FirewallRule := {| fw_Platform := "linux"; fw_PolicyName := "p"; fw_Ingress := []; fw_Egress := [] |}.
Definition joining_message : Message := {|
  m_EventType := EventTypeNodeUpdate; m_ConfigVersion := "3"; m_Timestamp := 0;
  m_Changes := Some {| ch_AddressChanged := false; ch_KeyChanged := false; ch_EndpointChanged := false;
    ch_PeersAdded := [keyed_peer "c" "kc"]; ch_PeersRemoved := [keyed_peer "b" "kb"]; ch_PeersUpdated := []; ch_PoliciesAdded := [];
    ch_PoliciesRemoved := []; ch_PoliciesUpdated := []; ch_NetworkJoined := []; ch_NetworkLeft := [];
    ch_NetworkConfigChanged := false; ch_Reason := []; ch_TotalChanges := 2 |};
  m_Current := Some (located_peer (keyed_peer "a" "ka") "10.0.0.1"); m_Network := None; m_Policies := [];
  m_ComputedPeers := [keyed_peer "c" "kc"]; m_ComputedRules := Some joining_rules; m_Labels := ∅ |}.
Definition willing_device T (e : agentE T) (s : node_log) : T * node_log :=
  match e in agentE T return T * node_log with
  | GApplyIP action address name => (inr tt, s ++ [(CApplyIP action address name, true)])
  | GRemovePeer p => (inr tt, s ++ [(CRemovePeer (sp_PublicKey p), true)])
  | GRemoveAllPeers => (tt, s ++ [(CRemoveAll, true)])
  | GProvision rules => (inr tt, s ++ [(CProvision rules, true)])
  | GProbeStart appId => (inr tt, s ++ [(CProbeStart appId, true)])
  | GProbeClose appId => (tt, s ++ [(CProbeClose appId, true)])
  end.
Lemma willing_world T e s r s' : fun_world willing_device T e s r s' -> logged_world T e s r s'.
Proof. unfold fun_world. destruct e; cbn; intros E; by simplify_eq. Qed.

Definition joining_calls : node_log := [
  (CProbeStart "c", true); (CProbeClose "b", true); (CRemovePeer "kb", true);
  (CApplyIP "add" "10.0.0.1" "wf0", true); (CProbeStart "c", true); (CProvision joining_rules, true)].

Lemma HandleEvent_applies_witness :
  exists r, runs logged_world (HandleEvent (Some joining_message) sample_node) [] r joining_calls /\
    stored (keyed_peer "c" "kc") r.2 /\ has_probe (keyed_peer "c" "kc") r.2.
Proof.
  pose (r := default (inr tt, sample_node) (run willing_device (HandleEvent (Some joining_message) sample_node) []).1).
  assert (Hr : runs logged_world (HandleEvent (Some joining_message) sample_node) [] r joining_calls).
  { eapply runs_weaken; [apply willing_world|].
    assert (E : run willing_device (HandleEvent (Some joining_message) sample_node) [] = (Some r, joining_calls))
      by (vm_compute; reflexivity).
    generalize (run_runs willing_device (HandleEvent (Some joining_message) sample_node) [] r). rewrite E.
    intros Hw. exact (Hw eq_refl). }
  exists r. split; [exact Hr|].
  destruct (HandleEvent_applies joining_message sample_node [] r joining_calls Hr) as [_ Hok].
  destruct (Hok ltac:(vm_compute; reflexivity)) as [_ (Hprobe & Hst & _)]. split.
  - refine (Forall_inv (Hst _)). apply NoDup_singleton.
  - exact (Forall_inv Hprobe).
Defined.
