(* ===== verification/Device.v ===== *)
(** * Device: the text that configures WireGuard
    ([internal/agent/infra/device_conf.go], [internal/agent/provision/provisioner.go],
    [Start], [Stop] and [SetConfig] of [internal/agent/node.go])

    A device is configured by a text of lines [key=value].  The reading of such a
    text is WireGuard's documented protocol; it is the reference for the functions
    that write it. *)

From S2P Require Import Prelude Prog Net Api Message Infra Transport Agent.

Definition newline : ascii := ascii_of_nat 10.
Definition equals : ascii := ascii_of_nat 61.
Definition line (key value : string) : string := key +:+ String equals (value +:+ String newline "").

(** [strings.Split] at a character. *)
Fixpoint str_split (c : ascii) (s : string) : list string :=
  match s with
  | EmptyString => [""]
  | String d s =>
      if bool_decide (d = c) then "" :: str_split c s
      else match str_split c s with x :: l => String d x :: l | [] => [String d ""] end
  end.

(** [strings.TrimSpace] of an ASCII text. *)
Definition trim_char (c : ascii) : bool :=
  let n := Z.of_nat (nat_of_ascii c) in (n =? 32) || ((9 <=? n) && (n <=? 13)).
Fixpoint trim_left (s : string) : string :=
  match s with
  | EmptyString => ""
  | String c s' => if trim_char c then trim_left s' else s
  end.
Fixpoint trim_right (s : string) : string :=
  match s with
  | EmptyString => ""
  | String c s' => if bool_decide (trim_left s = "") then "" else String c (trim_right s')
  end.
Definition trim (s : string) : string := trim_right (trim_left s).

(** ** Writing *)

Record DeviceConfig := {
  dc_PrivateKey : string; dc_Address : string; dc_Fwmark : Z; dc_ListenPort : Z; dc_ReplacePeers : bool;
}.
Record DeviceConf := { df_Device : option DeviceConfig; df_Nodes : list InfraPeer }.

Section device.
Context `{WireGuardKeys}.

(** A key in hexadecimal; nothing for a text that is not a key. *)
Definition keyf (value : string) : string :=
  if bool_decide (value = "") then ""
  else match ParseKey value with None => "" | Some k => hex_encode k end.

(** An empty value is left out. *)
Definition printf (key value : string) : string := if bool_decide (value = "") then "" else line key value.

(** The text of a list of key-value pairs. *)
Definition print_lines (l : list (string * string)) : string := foldr (λ kv s, printf kv.1 kv.2 +:+ s) "" l.

Definition allowed_lines (allowedIPs : string) : list (string * string) :=
  pair "allowed_ip" <$> (trim <$> str_split (ascii_of_nat 44) allowedIPs).

Definition device_lines (d : DeviceConfig) : list (string * string) :=
  [("private_key", keyf (dc_PrivateKey d))] ++
  (if dc_ListenPort d =? 0 then [] else [("listen_port", pretty (dc_ListenPort d))]) ++
  [("fwmark", pretty (dc_Fwmark d))].
Definition DeviceConfig_String (d : DeviceConfig) : string := print_lines (device_lines d).

Definition node_lines (peer : InfraPeer) : list (string * string) :=
  [("public_key", keyf (ip_PublicKey peer)); ("preshared_key", keyf (ip_PresharedKey peer));
   ("replace_allowed_ips", "true")] ++ allowed_lines (ip_AllowedIPs peer) ++ [("endpoint", ip_Endpoint peer)].
Definition conf_lines (d : DeviceConf) : list (string * string) :=
  match df_Device d with
  | None => []
  | Some dev => [("private_key", keyf (dc_PrivateKey dev)); ("listen_port", pretty (dc_ListenPort dev));
                 ("fwmark", pretty (dc_Fwmark dev))]
  end ++ concat (node_lines <$> df_Nodes d).
Definition DeviceConf_String (d : DeviceConf) : string := print_lines (conf_lines d).

Definition peer_lines (p : SetPeer) : list (string * string) :=
  [("public_key", keyf (sp_PublicKey p)); ("preshared_key", keyf (sp_PresharedKey p));
   ("replace_allowed_ips", "true"); ("persistent_keepalive_interval", pretty (sp_PersistentKeepalived p))] ++
  allowed_lines (sp_AllowedIPs p) ++ [("endpoint", sp_Endpoint p)] ++
  (if sp_Remove p then [("remove", "true")] else []).
Definition SetPeer_String (p : SetPeer) : string := print_lines (peer_lines p).

(** ** Reading *)

(** [strconv.ParseBool]. *)
Definition ParseBool (s : string) : option bool :=
  if bool_decide (s ∈ ["1"; "t"; "T"; "TRUE"; "true"; "True"]) then Some true
  else if bool_decide (s ∈ ["0"; "f"; "F"; "FALSE"; "false"; "False"]) then Some false
  else None.

(** [strconv.Atoi]: an optional sign and decimal digits, within an [int]. *)
Fixpoint digits_value (s : string) (n : Z) : option Z :=
  match s with
  | EmptyString => Some n
  | String c s =>
      let d := Z.of_nat (nat_of_ascii c) - 48 in
      if (d <? 0) || (9 <? d) then None else digits_value s (n * 10 + d)
  end.
Definition Atoi (s : string) : option Z :=
  let '(sign, digits) := match s with
    | String c rest =>
        if bool_decide (c = ascii_of_nat 45) then (-1, rest)
        else if bool_decide (c = ascii_of_nat 43) then (1, rest) else (1, s)
    | EmptyString => (1, s)
    end in
  if bool_decide (digits = "") then None
  else
    n ← digits_value digits 0;
    let n := sign * n in
    if (- 2 ^ 63 <=? n) && (n <? 2 ^ 63) then Some n else None.

(** The state of [Parse]: the device, and the nodes, the last of which is being
    read once there is one. *)
Definition dc_set (d : DeviceConfig) (key value : string) : string + DeviceConfig :=
  let with' pk port mark rp := {| dc_PrivateKey := pk; dc_Address := dc_Address d; dc_Fwmark := mark;
    dc_ListenPort := port; dc_ReplacePeers := rp |} in
  let orElse {A} (name : string) (o : option A) (f : A -> DeviceConfig) : string + DeviceConfig :=
    match o with None => inl name | Some x => inr (f x) end in
  if bool_decide (key = "private_key") then inr (with' value (dc_ListenPort d) (dc_Fwmark d) (dc_ReplacePeers d))
  else if bool_decide (key = "listen_port") then
    orElse "ListenPort" (Atoi value) (λ n, with' (dc_PrivateKey d) n (dc_Fwmark d) (dc_ReplacePeers d))
  else if bool_decide (key = "fwmark") then
    orElse "Fwmark" (Atoi value) (λ n, with' (dc_PrivateKey d) (dc_ListenPort d) n (dc_ReplacePeers d))
  else if bool_decide (key = "replace_peers") then
    orElse "replace_peers" (ParseBool value) (λ b, with' (dc_PrivateKey d) (dc_ListenPort d) (dc_Fwmark d) b)
  else inr d.

Record ParsedNode := { pn_PublicKey : string; pn_PresharedKey : string; pn_ReplacePeers : bool; pn_AllowedIPs : string }.
Definition pn_set (p : ParsedNode) (key value : string) : option ParsedNode :=
  if bool_decide (key = "preshared_key") then
    Some {| pn_PublicKey := pn_PublicKey p; pn_PresharedKey := value; pn_ReplacePeers := pn_ReplacePeers p;
            pn_AllowedIPs := pn_AllowedIPs p |}
  else if bool_decide (key = "replace_allow_ips") then
    (λ b, {| pn_PublicKey := pn_PublicKey p; pn_PresharedKey := pn_PresharedKey p; pn_ReplacePeers := b;
             pn_AllowedIPs := pn_AllowedIPs p |}) <$> ParseBool value
  else if bool_decide (key = "allow_ips") then
    Some {| pn_PublicKey := pn_PublicKey p; pn_PresharedKey := pn_PresharedKey p; pn_ReplacePeers := pn_ReplacePeers p;
            pn_AllowedIPs := value |}
  else Some p.

(** [done]: the nodes before the one that is read, [current]. *)
Fixpoint parse_lines (dev : DeviceConfig) (done : list ParsedNode) (current : option ParsedNode) (lines : list string)
    : gresult (DeviceConfig * list ParsedNode) :=
  let nodes := match current with Some p => done ++ [p] | None => done end in
  match lines with
  | [] => inr (dev, nodes)
  | l :: lines =>
      match after_char equals l with
      | None => inl (ErrText ("invalid config!!!, err:" +:+ l))
      | Some value =>
          let key := before_char equals l in
          if bool_decide (key = "RemoteKey") then
            parse_lines dev nodes (Some {| pn_PublicKey := value; pn_PresharedKey := ""; pn_ReplacePeers := false;
              pn_AllowedIPs := "" |}) lines
          else match current with
            | None => match dc_set dev key value with
                      | inr dev => parse_lines dev done None lines
                      | inl name => inl (ErrText ("invalid " +:+ name +:+ "!!!, err:" +:+ l))
                      end
            | Some p => match pn_set p key value with
                        | Some p => parse_lines dev done (Some p) lines
                        | None => inl (ErrText ("invalid replace_peers!!!, err:" +:+ l))
                        end
            end
      end
  end.

Definition Parse (str : string) : gresult (DeviceConfig * list ParsedNode) :=
  parse_lines {| dc_PrivateKey := ""; dc_Address := ""; dc_Fwmark := 0; dc_ListenPort := 0; dc_ReplacePeers := false |}
    [] None (str_split newline str).

(** ** The device *)

(** The calls on the WireGuard device, the control plane and the connections; the
    calls of the message handler are among them. *)
Inductive deviceE : Type -> Type :=
| DUp : deviceE (gresult unit)
| DIpcSet (text : string) : deviceE (gresult unit)
| DIpcGet : deviceE (gresult string)
| DIpcSetOperation (text : string) : deviceE (gresult unit)
| DRemoveAllPeers : deviceE unit
| DClose : deviceE unit
| DGetNetworkMap : deviceE (gresult Message)
| DWrrpClose : deviceE (gresult unit)
| DNatsClose : deviceE (gresult unit)
| DAgent (T : Type) (e : agentE T) : deviceE T.

Definition SetupInterface (conf : DeviceConfig) : prog deviceE (gresult unit) := call (DIpcSet (DeviceConfig_String conf)).
Definition prov_AddPeer (peer : SetPeer) : prog deviceE (gresult unit) := call (DIpcSet (SetPeer_String peer)).
Definition prov_RemovePeer (peer : SetPeer) : prog deviceE (gresult unit) := call (DIpcSet (SetPeer_String peer)).
Definition prov_RemoveAllPeers : prog deviceE unit := call DRemoveAllPeers.

(** The private key is the current peer's, which [Node] does not hold. *)
Definition node_Start (privateKey : string) (n : Node) : prog deviceE (gresult unit * Node) :=
  up ← call DUp;
  match up with
  | inl err => Ret (inl err, n)
  | inr _ =>
      set ← SetupInterface {| dc_PrivateKey := privateKey; dc_Address := ""; dc_Fwmark := 0; dc_ListenPort := 0;
        dc_ReplacePeers := false |};
      match set with
      | inl err => Ret (inl err, n)
      | inr _ =>
          remoteCfg ← call DGetNetworkMap;
          match remoteCfg with
          | inl err => Ret (inl err, n)
          | inr msg => translate DAgent (ApplyFullConfig msg n)
          end
      end
  end.

(** The relay's client and the message service may be absent; their errors are only
    logged. *)
Definition node_Stop (has_wrrp has_nats : bool) : prog deviceE (gresult unit) :=
  _ ← (if has_wrrp then _ ← call DWrrpClose; Ret tt else Ret tt);
  _ ← (if has_nats then _ ← call DNatsClose; Ret tt else Ret tt);
  _ ← call DClose;
  Ret (inr tt).

Definition SetConfig (conf : DeviceConf) : prog deviceE (gresult unit) :=
  nowConf ←? call DIpcGet;
  if bool_decide (DeviceConf_String conf = nowConf) then Ret (inr tt)
  else call (DIpcSetOperation (DeviceConf_String conf)).

(** ** Reading the text back *)

(** The pairs of a text, up to its end; [None] for a line without an equals sign or an
    unfinished line. *)
Definition read_line (l : string) : option (string * string) :=
  (λ v, (before_char equals l, v)) <$> after_char equals l.
Fixpoint read_lines (lines : list string) : option (list (string * string)) :=
  match lines with
  | [] => None
  | [last] => if bool_decide (last = "") then Some [] else None
  | l :: lines => kv ← read_line l; kvs ← read_lines lines; Some (kv :: kvs)
  end.
Definition uapi_read (s : string) : option (list (string * string)) := read_lines (str_split newline s).

(** ** Correctness *)

(** A pair that is written as one line. *)
Definition printable (kv : string * string) : Prop :=
  contains_char equals kv.1 = false /\ contains_char newline kv.1 = false /\ contains_char newline kv.2 = false.

Lemma str_split_ne c s : str_split c s <> [].
Proof. destruct s as [|d s]; cbn; [done|]. case_bool_decide; [done|]. by destruct (str_split c s). Qed.

Lemma str_split_app c s t :
  contains_char c s = false -> str_split c (s +:+ String c t) = s :: str_split c t.
Proof.
  induction s as [|d s IH]; cbn; [by rewrite bool_decide_true|].
  intros [Hd Hs]%orb_false_iff. apply bool_decide_eq_false in Hd.
  rewrite bool_decide_false by congruence. by rewrite (IH Hs).
Qed.

Lemma read_lines_cons l ls :
  ls <> [] -> read_lines (l :: ls) = (kv ← read_line l; kvs ← read_lines ls; Some (kv :: kvs)).
Proof. by destruct ls. Qed.

Lemma uapi_read_line k v s :
  printable (k, v) ->
  uapi_read (line k v +:+ s) = (λ kvs, (k, v) :: kvs) <$> uapi_read s.
Proof.
  intros (He & Hk & Hv). cbn in *. unfold uapi_read, line.
  assert (E : (k +:+ String equals (v +:+ String newline "")) +:+ s = (k +:+ String equals v) +:+ String newline s).
  { rewrite !app_string_assoc. cbn. by rewrite app_string_assoc. }
  rewrite E, str_split_app.
  2:{ rewrite contains_char_app. cbn. by rewrite Hk, Hv. }
  rewrite read_lines_cons by apply str_split_ne.
  assert (read_line (k +:+ String equals v) = Some (k, v)) as ->; [|by destruct (read_lines _)].
  unfold read_line. by rewrite after_char_app, before_char_app.
Qed.

(** The pairs that a list of pairs is written as. *)
Definition written_lines (l : list (string * string)) : list (string * string) := filter (λ kv, kv.2 <> "") l.

Lemma print_lines_read l : Forall printable l -> uapi_read (print_lines l) = Some (written_lines l).
Proof.
  unfold written_lines. induction 1 as [|[k v] l Hkv Hl IH]; [done|]. cbn [print_lines foldr fst snd].
  fold (print_lines l). unfold printf. rewrite filter_cons. cbn [snd]. case_bool_decide as Hv.
  - rewrite decide_False by (intros Hn; by apply Hn). exact IH.
  - rewrite decide_True, uapi_read_line, IH by done. done.
Qed.

Lemma hex_encode_no_newline l : Forall is_byte l -> contains_char newline (hex_encode l) = false.
Proof.
  assert (Hall : Forall (λ d, bool_decide (newline = hex_digit d) = false) (seqZ 0 16))
    by (vm_compute; repeat constructor).
  rewrite Forall_forall in Hall. assert (Hd : forall d, 0 <= d < 16 -> bool_decide (newline = hex_digit d) = false).
  { intros d Hd. apply Hall, elem_of_seqZ. lia. }
  induction 1 as [|b l Hb Hl IH]; cbn [hex_encode contains_char]; [done|]. unfold is_byte in Hb.
  rewrite !Hd by (Z.div_mod_to_equations; lia). done.
Qed.

Lemma keyf_no_newline value : contains_char newline (keyf value) = false.
Proof.
  unfold keyf. case_bool_decide; [done|]. destruct (ParseKey value) as [k|] eqn:Hk; [|done].
  eapply hex_encode_no_newline, ParseKey_byte, Hk.
Qed.

Lemma pretty_N_go_no_newline n s :
  contains_char newline s = false -> contains_char newline (pretty_N_go n s) = false.
Proof.
  revert s. induction (N.lt_wf_0 n) as [n _ IH]. intros s Hs.
  destruct (decide (n = 0%N)) as [->|]; [by rewrite pretty_N_go_0|].
  rewrite pretty_N_go_step by lia. apply IH; [apply N.div_lt; lia|]. cbn. rewrite Hs, orb_false_r.
  assert (Hall : forall m, (m < 10)%N -> bool_decide (newline = pretty_N_char m) = false).
  { intros m Hm. destruct m as [|m]; [done|]. do 4 (destruct m as [m|m|]; try done; try lia). }
  apply Hall, N.mod_lt. lia.
Qed.
Lemma pretty_Z_no_newline (z : Z) : contains_char newline (pretty z) = false.
Proof.
  assert (HN : forall n : N, contains_char newline (pretty n) = false).
  { intros n. unfold pretty, pretty_N. destruct (decide (n = 0%N)); [done|]. by apply pretty_N_go_no_newline. }
  unfold pretty, pretty_Z. destruct z as [|p|p]; [done|apply HN|].
  rewrite contains_char_app. exact (HN (N.pos p)).
Qed.

Lemma str_split_free n c s :
  contains_char n s = false -> Forall (λ x, contains_char n x = false) (str_split c s).
Proof.
  induction s as [|d s IH]; cbn; [by repeat constructor|]. intros [Hd Hs]%orb_false_iff. specialize (IH Hs).
  destruct (bool_decide (d = c)); [by constructor|].
  destruct (str_split c s) as [|x l]; [constructor; [|done]; cbn; by rewrite Hd|].
  inversion IH as [|? ? Hx Hl]; subst. constructor; [cbn; by rewrite Hd, Hx|done].
Qed.
Lemma trim_left_free n s : contains_char n s = false -> contains_char n (trim_left s) = false.
Proof.
  induction s as [|d s IH]; cbn; [done|]. intros [Hd Hs]%orb_false_iff.
  destruct (trim_char d); [auto|cbn; by rewrite Hd, Hs].
Qed.
Lemma trim_right_free n s : contains_char n s = false -> contains_char n (trim_right s) = false.
Proof.
  induction s as [|d s IH]; [done|]. cbn [trim_right contains_char]. intros [Hd Hs]%orb_false_iff.
  destruct (bool_decide (trim_left (String d s) = "")); [done|]. cbn [contains_char]. rewrite Hd. by apply IH.
Qed.

Lemma allowed_lines_printable ips :
  contains_char newline ips = false -> Forall printable (allowed_lines ips).
Proof.
  intros Hips. unfold allowed_lines. apply Forall_fmap, Forall_fmap.
  eapply Forall_impl; [by apply (str_split_free newline (ascii_of_nat 44))|]. intros x Hx.
  split_and!; [done|done|]. cbn. by apply trim_right_free, trim_left_free.
Qed.

Lemma printable_fixed k v :
  contains_char equals k || contains_char newline k = false -> contains_char newline v = false -> printable (k, v).
Proof. intros [? ?]%orb_false_iff ?. by split_and!. Qed.

Ltac printable_tac :=
  repeat first
    [ apply Forall_nil_2 | apply Forall_app; split | apply Forall_cons; split
    | by apply allowed_lines_printable
    | apply printable_fixed;
        [reflexivity | first [apply keyf_no_newline | apply pretty_Z_no_newline | reflexivity | assumption]] ].

Lemma peer_lines_printable p :
  contains_char newline (sp_AllowedIPs p) = false -> contains_char newline (sp_Endpoint p) = false ->
  Forall printable (peer_lines p).
Proof. intros Ha He. unfold peer_lines. destruct (sp_Remove p); printable_tac. Qed.

Lemma device_lines_printable d : Forall printable (device_lines d).
Proof. unfold device_lines. case_match; printable_tac. Qed.

Lemma node_lines_printable peer :
  contains_char newline (ip_AllowedIPs peer) = false -> contains_char newline (ip_Endpoint peer) = false ->
  Forall printable (node_lines peer).
Proof. intros Ha He. unfold node_lines. printable_tac. Qed.

Lemma keyf_ne value k : value <> "" -> ParseKey value = Some k -> keyf value = hex_encode k /\ hex_encode k <> "".
Proof.
  intros Hv Hk. unfold keyf. rewrite bool_decide_false, Hk by done. split; [done|].
  apply ParseKey_length in Hk. by destruct k.
Qed.

Lemma written_allowed ips :
  written_lines (allowed_lines ips) = pair "allowed_ip" <$> filter (λ x, x <> "") (trim <$> str_split (ascii_of_nat 44) ips).
Proof.
  unfold written_lines, allowed_lines. induction (trim <$> str_split _ ips) as [|x l IH]; [done|].
  cbn [fmap list_fmap]. rewrite !filter_cons. cbn [snd]. destruct (decide (x <> "")); [cbn; by f_equal|done].
Qed.

Lemma written_lines_app l1 l2 : written_lines (l1 ++ l2) = written_lines l1 ++ written_lines l2.
Proof. apply filter_app. Qed.
Lemma written_lines_cons k v l :
  written_lines ((k, v) :: l) = (if bool_decide (v = "") then [] else [(k, v)]) ++ written_lines l.
Proof.
  unfold written_lines. rewrite filter_cons. cbn [snd]. destruct (bool_decide_reflect (v = "")) as [Hv|Hv].
  - rewrite decide_False by naive_solver. done.
  - by rewrite decide_True.
Qed.
Lemma written_preshared (key value : string) :
  (if bool_decide (keyf value = "") then [] else [(key, keyf value)]) =
  match ParseKey value with
  | Some psk => if bool_decide (value = "") then [] else [(key, hex_encode psk)]
  | None => []
  end.
Proof.
  unfold keyf. destruct (bool_decide_reflect (value = "")) as [E|E].
  - rewrite bool_decide_true by done. by destruct (ParseKey value).
  - destruct (ParseKey value) as [psk|] eqn:Hp; [|by rewrite bool_decide_true].
    rewrite bool_decide_false; [done|]. by destruct (keyf_ne _ _ E Hp).
Qed.

(** C16. The text that adds, updates or removes a peer says what was asked: read back line by
    line it is the peer's key in hexadecimal, its allowed networks each on a line of its own
    without spaces or empty ones, its endpoint unless it is empty, its keepalive interval, and the order
    to remove it exactly when it is to be removed.  An address or endpoint with a line break is
    excluded: it would be read as lines of its own. *)
Theorem peer_text_read p k :
  contains_char newline (sp_AllowedIPs p) = false -> contains_char newline (sp_Endpoint p) = false ->
  sp_PublicKey p <> "" -> ParseKey (sp_PublicKey p) = Some k ->
  uapi_read (SetPeer_String p) = Some (
    [("public_key", hex_encode k)] ++
    (match ParseKey (sp_PresharedKey p) with
     | Some psk => if bool_decide (sp_PresharedKey p = "") then [] else [("preshared_key", hex_encode psk)]
     | None => []
     end) ++
    [("replace_allowed_ips", "true"); ("persistent_keepalive_interval", pretty (sp_PersistentKeepalived p))] ++
    (pair "allowed_ip" <$> filter (λ x, x <> "") (trim <$> str_split (ascii_of_nat 44) (sp_AllowedIPs p))) ++
    (if bool_decide (sp_Endpoint p = "") then [] else [("endpoint", sp_Endpoint p)]) ++
    (if sp_Remove p then [("remove", "true")] else [])).
Proof.
  intros Ha He Hpk Hk. unfold SetPeer_String. rewrite print_lines_read by by apply peer_lines_printable.
  f_equal. unfold peer_lines. destruct (keyf_ne _ _ Hpk Hk) as [-> Hne].
  rewrite !written_lines_app, !written_lines_cons, written_allowed, written_preshared.
  rewrite (bool_decide_false (hex_encode k = "")) by done.
  rewrite (bool_decide_false (pretty (sp_PersistentKeepalived p) = "")) by apply pretty_Z_ne.
  rewrite !(bool_decide_false ("true" = "")) by done.
  assert (written_lines (if sp_Remove p then [("remove", "true")] else []) =
    if sp_Remove p then [("remove", "true")] else []) as -> by by destruct (sp_Remove p).
  unfold written_lines. rewrite !filter_nil, !app_nil_r. by rewrite <- !app_assoc.
Qed.

Lemma str_split_concat c s t : str_split c (t +:+ String c s) = str_split c t ++ str_split c s.
Proof.
  induction t as [|d t IH]; cbn; [by rewrite bool_decide_true|].
  destruct (bool_decide (d = c)); [by rewrite IH|]. rewrite IH.
  destruct (str_split c t) eqn:Ht; [by apply str_split_ne in Ht|done].
Qed.

Lemma print_lines_end l : "" ∈ str_split newline (print_lines l).
Proof.
  induction l as [|[k v] l IH]; [by left|]. cbn [print_lines foldr fst snd]. fold (print_lines l).
  unfold printf. case_bool_decide; [done|]. unfold line.
  assert (E : (k +:+ String equals (v +:+ String newline "")) +:+ print_lines l =
    (k +:+ String equals v) +:+ String newline (print_lines l)).
  { rewrite !app_string_assoc. cbn. by rewrite app_string_assoc. }
  rewrite E, str_split_concat. apply elem_of_app. by right.
Qed.

Lemma parse_lines_empty lines dev done current :
  "" ∈ lines -> exists err, parse_lines dev done current lines = inl err.
Proof.
  revert dev done current. induction lines as [|l lines IH]; intros dev done current Hin; [by apply elem_of_nil in Hin|].
  apply elem_of_cons in Hin as [<-|Hin]; [by eexists|]. cbn [parse_lines].
  destruct (after_char equals l) as [value|]; [|by eexists]. case_bool_decide; [by apply IH|].
  destruct current as [p|].
  - destruct (pn_set p _ _); [by apply IH|by eexists].
  - destruct (dc_set dev _ _); [by eexists|by apply IH].
Qed.

(** [Parse] does not read what [String] writes: whatever the configuration, its text is
    rejected, since its end counts as a line without an equals sign. *)
Theorem Parse_rejects_String d : exists err, Parse (DeviceConf_String d) = inl err.
Proof. apply parse_lines_empty, print_lines_end. Qed.

(** The stages of the start of a node: the call whose answer decides, and the calls that
    are made up to it. *)
Inductive stage := SUp | SKey | SMap.
Definition stage_fails (st : stage) {T} (e : deviceE T) : T -> Prop :=
  match st, e with
  | SUp, DUp => λ r, exists err, r = inl err
  | SKey, DIpcSet _ => λ r, exists err, r = inl err
  | SMap, DGetNetworkMap => λ r, exists err, r = inl err
  | _, _ => λ _, True
  end.
Definition stage_call (privateKey : string) (st : stage) {T} (e : deviceE T) : Prop :=
  match e with
  | DUp => True
  | DIpcSet text => st <> SUp /\ text = printf "private_key" (keyf privateKey) +:+ line "fwmark" "0"
  | DGetNetworkMap => st = SMap
  | _ => False
  end.

(** The start of a node is ordered: whichever of bringing the device up, giving it the
    private key and fetching the network map fails, nothing after it is called, the failure is
    the answer and the node is as it was. *)
Theorem node_Start_ordered privateKey n st :
  wp (λ T e r, stage_fails st e r) (λ T e, stage_call privateKey st e)
    (node_Start privateKey n) (λ r, (exists err, r.1 = inl err) /\ r.2 = n).
Proof.
  unfold node_Start, SetupInterface. cbn -[DeviceConfig_String]. split; [done|].
  intros [err|u] Hup; cbn -[DeviceConfig_String]; [by eauto|].
  assert (st <> SUp) by (intros ->; by destruct Hup).
  split; [split; [done|reflexivity]|].
  intros [err|u'] Hset; cbn; [by eauto|]. assert (st = SMap) as -> by (destruct st; naive_solver).
  split; [done|]. intros r [err ->]. cbn. eauto.
Qed.
End device.

Definition sample_set_peer : SetPeer := {|
  sp_PrivateKey := ""; sp_PresharedKey := ""; sp_PublicKey := "ab"; sp_Endpoint := "192.0.2.1:51820";
  sp_AllowedIPs := "10.0.0.2/32, ,10.0.0.3/32"; sp_PersistentKeepalived := 25; sp_Remove := false |}.

Lemma peer_text_read_witness :
  (λ kvs, drop 1 kvs) <$> uapi_read (@SetPeer_String sample_keys sample_set_peer) =
  Some [("replace_allowed_ips", "true"); ("persistent_keepalive_interval", "25"); ("allowed_ip", "10.0.0.2/32");
        ("allowed_ip", "10.0.0.3/32"); ("endpoint", "192.0.2.1:51820")].
Proof.
  rewrite (@peer_text_read sample_keys sample_set_peer (be_bytes 32 (2 * 2 ^ 240)));
    [vm_compute; reflexivity|reflexivity|reflexivity|done|reflexivity].
Defined.

(** A line break in an endpoint is read as further lines: here, the removal of the peer. *)
Example endpoint_injects :
  uapi_read (@SetPeer_String sample_keys {| sp_PrivateKey := ""; sp_PresharedKey := ""; sp_PublicKey := "";
    sp_Endpoint := "a" +:+ String newline "remove=true"; sp_AllowedIPs := ""; sp_PersistentKeepalived := 0;
    sp_Remove := false |}) =
  Some [("replace_allowed_ips", "true"); ("persistent_keepalive_interval", "0"); ("endpoint", "a"); ("remove", "true")].
Proof. vm_compute. reflexivity. Qed.
