(* ===== verification/Dialers.v ===== *)
(** * Dialers: the handshakes that find a transport
    ([internal/server/transport/wrrp_dialer.go], [ice_dialer.go])

    Both dialers exchange SYN and ACK packets over the signalling service; then
    the relay dialer exchanges an OFFER and an ANSWER over the relay, and the ICE
    dialer candidates.  Tickers and timeouts are separate operations. *)

From S2P Require Import Prelude Prog Net Api Message Infra Transport.

(** ** Packets ([internal/grpc/signal.proto]) *)

Inductive PacketType := PT_UNKNOWN | HANDSHAKE_SYN | HANDSHAKE_ACK | OFFER | ANSWER | MESSAGE.
#[global] Instance PacketType_eq_dec : EqDecision PacketType.
Proof. solve_decision. Defined.

Record Offer := { of_Ufrag : string; of_Pwd : string; of_Candidate : string; of_Current : string;
                  of_PublicKey : string }.
Inductive Payload := NoPayload | HandshakePayload (PeerInfo : string) | OfferPayload (o : Offer)
                   | AnswerPayload (o : Offer) | MessagePayload (content : string).

Record SignalPacket := { pk_Type : PacketType; pk_Dialer : TransportType; pk_SenderId : Z;
                         pk_Payload : Payload }.

Definition GetHandshake (p : SignalPacket) : option string :=
  match pk_Payload p with HandshakePayload i => Some i | _ => None end.
Definition GetOffer (p : SignalPacket) : option Offer :=
  match pk_Payload p with OfferPayload o => Some o | _ => None end.

(** [json.Marshal] of a [*infra.Peer] and [json.Unmarshal] back into one. *)
Class PeerJSON := {
  encode_peer : option InfraPeer -> string;
  decode_peer : string -> option InfraPeer;
  decode_encode p : is_Some (decode_peer (encode_peer p));
}.

(** ** The relay dialer *)

(** [w_cancel]: [cancel] is set; [w_syn]: the SYN ticker runs; [w_ready]:
    [readyChan] is closed; [w_stopped]: [stopChan] is closed. *)
Record wrrpDialer := { w_active : bool; w_cancel : bool; w_syn : bool; w_ready : bool; w_stopped : bool }.

Definition NewWrrpDialer : wrrpDialer :=
  {| w_active := false; w_cancel := false; w_syn := false; w_ready := false; w_stopped := false |}.

(** What a dialer does: a packet on the signalling service or through the relay,
    [onPeerReceived], [onRestart]. *)
Inductive output :=
| OSignal (p : SignalPacket)
| ORelay (p : SignalPacket)
| OPeer (peer : InfraPeer)
| ORestart.

Section wrrp.
Context `{PeerJSON}.
(** This node, the peer, and what [getLocalPeer] returns. *)
Context (localId remoteId : PeerIdentity) (localPeer : option InfraPeer) (localKey : string).

Definition wrrp_sendPacket (t : PacketType) : output :=
  OSignal {| pk_Type := t; pk_Dialer := WRRP; pk_SenderId := ToUint64 (PeerIdentity_ID localId);
    pk_Payload :=
      match t with
      | HANDSHAKE_SYN | HANDSHAKE_ACK =>
          HandshakePayload (match localPeer with Some _ => encode_peer localPeer | None => "" end)
      | _ => NoPayload
      end |}.

Definition sendOfferFromWrrp (t : PacketType) : output :=
  ORelay {| pk_Type := t; pk_Dialer := WRRP; pk_SenderId := ToUint64 (PeerIdentity_ID localId);
    pk_Payload := OfferPayload {| of_Ufrag := ""; of_Pwd := ""; of_Candidate := "";
      of_Current := encode_peer localPeer; of_PublicKey := localKey |} |}.

(** The peer description of a handshake, if there is one that decodes. *)
Definition handshake_peer (packet : SignalPacket) : list output :=
  match GetHandshake packet with
  | Some info =>
      if bool_decide (info = "") then []
      else match decode_peer info with Some peer => [OPeer peer] | None => [] end
  | None => []
  end.

(** [cancel], when it is set, stops the ticker. *)
Definition run_cancel (d : wrrpDialer) : bool := if w_cancel d then false else w_syn d.

(** An OFFER or an ANSWER was accepted. *)
Definition activate (d : wrrpDialer) : wrrpDialer :=
  {| w_active := true; w_cancel := false; w_syn := run_cancel d; w_ready := true; w_stopped := w_stopped d |}.

(** [None] is the nil dereference of an OFFER or ANSWER without its payload; an
    error that is returned changes nothing. *)
Definition wrrp_Handle (d : wrrpDialer) (packet : SignalPacket) : option (wrrpDialer * list output) :=
  if negb (bool_decide (pk_Dialer packet = WRRP)) then Some (d, [])
  else
    match pk_Type packet with
    | HANDSHAKE_SYN =>
        if w_active d then
          Some ({| w_active := false; w_cancel := w_cancel d; w_syn := w_syn d; w_ready := w_ready d;
                   w_stopped := w_stopped d |}, handshake_peer packet ++ [ORestart])
        else Some (d, handshake_peer packet ++ [wrrp_sendPacket HANDSHAKE_ACK])
    | HANDSHAKE_ACK =>
        let d := {| w_active := w_active d; w_cancel := w_cancel d; w_syn := run_cancel d;
                    w_ready := w_ready d; w_stopped := w_stopped d |} in
        Some (d, handshake_peer packet ++
                 (if isInitiator localId remoteId then [sendOfferFromWrrp OFFER] else []))
    | OFFER =>
        offer ← GetOffer packet;
        match decode_peer (of_Current offer) with
        | None => Some (d, [])
        | Some peer => Some (activate d, [OPeer peer; sendOfferFromWrrp ANSWER])
        end
    | ANSWER =>
        offer ← GetOffer packet;
        match decode_peer (of_Current offer) with
        | None => Some (d, [])
        | Some peer => Some (activate d, [OPeer peer])
        end
    | _ => Some (d, [])
    end.

(** [Prepare]: the ticker starts, replacing one that runs, with a first SYN. *)
Definition wrrp_Prepare (d : wrrpDialer) : wrrpDialer * list output :=
  ({| w_active := w_active d; w_cancel := true; w_syn := true; w_ready := w_ready d;
      w_stopped := w_stopped d |}, [wrrp_sendPacket HANDSHAKE_SYN]).

(** Every two seconds. *)
Definition wrrp_tick (d : wrrpDialer) : list output :=
  if w_syn d && negb (w_stopped d) then [wrrp_sendPacket HANDSHAKE_SYN] else [].

(** [Close], and the ticker's timeout. *)
Definition wrrp_Close (d : wrrpDialer) : wrrpDialer :=
  if w_stopped d then d
  else {| w_active := w_active d; w_cancel := w_cancel d; w_syn := run_cancel d; w_ready := w_ready d;
          w_stopped := true |}.

Definition wrrp_expire (d : wrrpDialer) : wrrpDialer :=
  {| w_active := w_active d; w_cancel := w_cancel d; w_syn := false; w_ready := w_ready d;
     w_stopped := w_stopped d |}.

(** [Dial]: a transport once [readyChan] is closed, an error when the deadline is
    seen first; [None] while it waits. *)
Definition wrrp_Dial (d : wrrpDialer) (deadline : bool) (remoteAddr : string) : option (gresult Transport) :=
  if deadline then Some (inl (ErrText "wrrpDialer: timed out waiting for ready"))
  else if w_ready d then Some (inr {| t_Type := WRRP; t_RemoteAddr := remoteAddr |})
  else None.
End wrrp.

(** ** Two dialers *)

(** The two ends of a connection; [initiator] names the first. *)
Inductive side := initiator | responder.
#[global] Instance side_eq_dec : EqDecision side.
Proof. solve_decision. Defined.
Definition other (s : side) : side := match s with initiator => responder | responder => initiator end.

(** The dialers, the packets in flight with where they go, who was asked to
    restart, and what [Dial] returned, once it did. *)
Record system := {
  sys_dialer : side -> wrrpDialer;
  sys_net : list (side * SignalPacket);
  sys_restarted : list side;
  sys_dialed : side -> option (gresult Transport);
}.

Section pair.
Context `{PeerJSON}.
Context (ids : side -> PeerIdentity) (peers : side -> option InfraPeer) (keys : side -> string).

Definition handle (s : side) := wrrp_Handle (ids s) (ids (other s)) (peers s) (keys s).

(** What is sent goes to the other side. *)
Definition sent (s : side) (out : list output) : list (side * SignalPacket) :=
  omap (λ o, match o with OSignal p | ORelay p => Some (other s, p) | _ => None end) out.

Definition restarts (s : side) (out : list output) : list side :=
  omap (λ o, match o with ORestart => Some s | _ => None end) out.

Definition update (sys : system) (s : side) (d : wrrpDialer) (net : list (side * SignalPacket))
    (out : list output) : system :=
  {| sys_dialer := λ s', if bool_decide (s' = s) then d else sys_dialer sys s';
     sys_net := net ++ sent s out;
     sys_restarted := sys_restarted sys ++ restarts s out;
     sys_dialed := sys_dialed sys |}.

(** Packets may be lost and overtake each other.  [EDial]: a [Dial] that has not returned looks at its
    channels; [deadline]: it takes the one of its deadline. *)
Inductive sys_event := EPrepare (s : side) | ETick (s : side) | EExpire (s : side) | EClose (s : side)
                     | EDeliver (i : nat) | ELose (i : nat) | EDial (s : side) (deadline : bool) (remoteAddr : string).

Definition dial (sys : system) (s : side) (deadline : bool) (remoteAddr : string) : system :=
  {| sys_dialer := sys_dialer sys; sys_net := sys_net sys; sys_restarted := sys_restarted sys;
     sys_dialed := λ s', if bool_decide (s' = s)
                         then match sys_dialed sys s with
                              | Some r => Some r
                              | None => wrrp_Dial (sys_dialer sys s) deadline remoteAddr
                              end
                         else sys_dialed sys s' |}.

(** [None]: a dialer panicked. *)
Definition sys_step (sys : system) (e : sys_event) : option system :=
  match e with
  | EPrepare s =>
      let '(d, out) := wrrp_Prepare (ids s) (peers s) (sys_dialer sys s) in
      Some (update sys s d (sys_net sys) out)
  | ETick s => Some (update sys s (sys_dialer sys s) (sys_net sys)
                       (wrrp_tick (ids s) (peers s) (sys_dialer sys s)))
  | EExpire s => Some (update sys s (wrrp_expire (sys_dialer sys s)) (sys_net sys) [])
  | EClose s => Some (update sys s (wrrp_Close (sys_dialer sys s)) (sys_net sys) [])
  | EDeliver i =>
      match sys_net sys !! i with
      | Some (s, p) =>
          r ← handle s (sys_dialer sys s) p;
          Some (update sys s r.1 (delete i (sys_net sys)) r.2)
      | None => Some sys
      end
  | ELose i => Some {| sys_dialer := sys_dialer sys; sys_net := delete i (sys_net sys);
                       sys_restarted := sys_restarted sys; sys_dialed := sys_dialed sys |}
  | EDial s deadline remoteAddr => Some (dial sys s deadline remoteAddr)
  end.

Definition sys_run (sys : system) (es : list sys_event) : option system :=
  foldl (λ sys e, sys ≫= λ sys, sys_step sys e) (Some sys) es.

Definition new_system : system :=
  {| sys_dialer := λ _, NewWrrpDialer; sys_net := []; sys_restarted := []; sys_dialed := λ _, None |}.
End pair.

(** *** Correctness of the exchange *)

Section pair_facts.
Context `{PeerJSON}.
Context (ids : side -> PeerIdentity) (peers : side -> option InfraPeer) (keys : side -> string).
Context (Hids : isInitiator (ids initiator) (ids responder) = true).

(** An OFFER is for the responder; an ANSWER is for the initiator and says that
    the responder is ready; both can be read. *)
Definition packet_ok (sys : system) (sp : side * SignalPacket) : Prop :=
  let '(s, p) := sp in
  pk_Dialer p = WRRP /\
  (pk_Type p = OFFER \/ pk_Type p = ANSWER -> exists o, GetOffer p = Some o /\ is_Some (decode_peer (of_Current o))) /\
  (pk_Type p = OFFER -> s = responder) /\
  (pk_Type p = ANSWER -> s = initiator /\ w_ready (sys_dialer sys responder) = true).

Definition sys_ok (sys : system) : Prop :=
  Forall (packet_ok sys) (sys_net sys) /\
  (w_ready (sys_dialer sys initiator) = true -> w_ready (sys_dialer sys responder) = true) /\
  (forall s, w_ready (sys_dialer sys s) = true -> w_active (sys_dialer sys s) = true \/ s ∈ sys_restarted sys) /\
  (forall s t, sys_dialed sys s = Some (inr t) -> w_ready (sys_dialer sys s) = true /\ t_Type t = WRRP).

Lemma initiator_only s : isInitiator (ids s) (ids (other s)) = bool_decide (s = initiator).
Proof.
  destruct s; cbn [other]; [by rewrite Hids|].
  unfold isInitiator in *. rewrite bool_decide_false by done.
  apply Z.gtb_lt in Hids. destruct (Z.gtb_spec (ToUint64 (PeerIdentity_ID (ids responder)))
    (ToUint64 (PeerIdentity_ID (ids initiator)))); [lia|done].
Qed.

(** Readiness is never lost, so what a packet says stays true. *)
Lemma packets_ok_mono sys sys' net :
  (w_ready (sys_dialer sys responder) = true -> w_ready (sys_dialer sys' responder) = true) ->
  Forall (packet_ok sys) net -> Forall (packet_ok sys') net.
Proof.
  intros Hm Hn. eapply Forall_impl; [exact Hn|]. intros [s p] (H1 & H2 & H3 & H4). split_and!; [done..|].
  intros E. destruct (H4 E) as [-> ?]. auto.
Qed.

(** What a side does keeps the system in order: it stays ready, it sends what it
    may, and it is active or restarted when ready. *)
Lemma update_ok sys s d net out :
  sys_ok sys -> Forall (packet_ok sys) net ->
  (w_ready (sys_dialer sys s) = true -> w_ready d = true) ->
  (s = initiator -> w_ready d = true -> w_ready (sys_dialer sys responder) = true) ->
  (w_ready d = true -> w_active d = true \/ (s ∈ sys_restarted sys \/ ORestart ∈ out)) ->
  Forall (packet_ok (update sys s d net out)) (sent s out) ->
  sys_ok (update sys s d net out).
Proof.
  intros (Hn & Hr & Ha & Ht) Hnet Hmono Hready Hactive Hsent. split_and!.
  - cbn. apply Forall_app. split; [|done]. apply (packets_ok_mono sys); [|done].
    cbn. by case_bool_decide as E; [rewrite E|].
  - cbn. case_bool_decide as E1; case_bool_decide as E2; subst; try done; auto.
  - intros s' Hs'. cbn in *. rewrite elem_of_app. case_bool_decide as E.
    + subst s'. destruct (Hactive Hs') as [?|[?|Ho]]; [by left|by right; left|]. right. right.
      unfold restarts. apply list_elem_of_omap. by exists ORestart.
    + destruct (Ha _ Hs'); [by left|by right; left].
  - intros s' t Hs'. cbn in *. destruct (Ht _ _ Hs') as [Hw ?]. case_bool_decide as E; [subst s'; auto|done].
Qed.

Lemma sent_app s out1 out2 : sent s (out1 ++ out2) = sent s out1 ++ sent s out2.
Proof. apply omap_app. Qed.

Lemma sent_handshake_peer s p : sent s (handshake_peer p) = [].
Proof.
  unfold handshake_peer. destruct (GetHandshake p) as [i|]; [|done].
  case_bool_decide; [done|]. by destruct (decode_peer i).
Qed.

(** A SYN or an ACK may be sent at any time. *)
Lemma sent_handshake_ok sys s t :
  t = HANDSHAKE_SYN \/ t = HANDSHAKE_ACK ->
  Forall (packet_ok sys) (sent s [wrrp_sendPacket (ids s) (peers s) t]).
Proof.
  intros Ht. apply Forall_singleton. destruct Ht as [->| ->]; cbn; split_and!; try done; by intros [|].
Qed.

Lemma sent_offer_ok sys s t :
  (t = OFFER /\ s = initiator) \/
  (t = ANSWER /\ s = responder /\ w_ready (sys_dialer sys responder) = true) ->
  Forall (packet_ok sys) (sent s [sendOfferFromWrrp (ids s) (peers s) (keys s) t]).
Proof.
  intros Ht. apply Forall_singleton.
  destruct Ht as [[-> ->]|(-> & -> & Hr)]; cbn; split_and!; try done;
    intros _; eexists; (split; [done|apply decode_encode]).
Qed.

(** A delivered packet is handled without a panic and in order. *)
Lemma handle_ok sys s p net :
  sys_ok sys -> Forall (packet_ok sys) net -> packet_ok sys (s, p) ->
  exists d out, handle ids peers keys s (sys_dialer sys s) p = Some (d, out) /\
    sys_ok (update sys s d net out).
Proof.
  intros Hok Hnet (Hd & Hoffer & Ho & Ha). pose proof Hok as (_ & Hr & Hact & _).
  unfold handle, wrrp_Handle. rewrite bool_decide_true by done. cbn [negb].
  assert (Hsame : forall d out, w_ready d = w_ready (sys_dialer sys s) ->
    w_active d = w_active (sys_dialer sys s) \/ ORestart ∈ out ->
    Forall (packet_ok (update sys s d net out)) (sent s out) -> sys_ok (update sys s d net out)).
  { intros d out E1 E2 E3. apply update_ok; [done|done| | | |done]; rewrite E1; [done| |].
    - by intros ->.
    - intros Hw. destruct (Hact _ Hw), E2; auto. left. congruence. }
  destruct (pk_Type p) eqn:Et;
    try (by eexists _, _; split; [reflexivity|]; apply Hsame; [done|by left|constructor]).
  - destruct (w_active (sys_dialer sys s)) eqn:Eact; (eexists _, _; split; [reflexivity|]); apply Hsame.
    + done.
    + right. rewrite elem_of_app. right. by left.
    + rewrite sent_app, sent_handshake_peer. constructor.
    + done.
    + by left.
    + rewrite sent_app, sent_handshake_peer. apply sent_handshake_ok. by right.
  - eexists _, _. split; [reflexivity|]. rewrite (initiator_only s). apply Hsame; [done|by left|].
    rewrite sent_app, sent_handshake_peer. case_bool_decide as Es; [|constructor].
    apply sent_offer_ok. by left.
  - destruct (Hoffer ltac:(by left)) as (o & -> & [q Hq]). cbn [mbind option_bind]. rewrite Hq.
    eexists _, _. split; [reflexivity|]. rewrite (Ho eq_refl).
    apply update_ok; [done|done|done|done|by left|].
    apply (sent_offer_ok _ responder ANSWER). right. split_and!; [done..|]. by cbn.
  - destruct (Hoffer ltac:(by right)) as (o & -> & [q Hq]). cbn [mbind option_bind]. rewrite Hq.
    destruct (Ha eq_refl) as [-> Hresp]. eexists _, _. split; [reflexivity|].
    apply update_ok; [done|done|done|done|by left|constructor].
Qed.

Lemma sys_step_ok sys e : sys_ok sys -> exists sys', sys_step ids peers keys sys e = Some sys' /\ sys_ok sys'.
Proof.
  intros Hok. pose proof Hok as (Hn & Hr & Ha & Ht).
  assert (Hkeep : forall s d out, w_ready d = w_ready (sys_dialer sys s) ->
    w_active d = w_active (sys_dialer sys s) ->
    (forall sys', Forall (packet_ok sys') (sent s out)) -> sys_ok (update sys s d (sys_net sys) out)).
  { intros s d out E1 E2 E3. apply update_ok; [done|done| | | |by apply E3]; rewrite ?E1, ?E2; [done| |].
    - by intros ->.
    - intros Hw. destruct (Ha _ Hw); auto. }
  destruct e as [s|s|s|s|i|i|s deadline addr]; cbn [sys_step].
  - eexists. split; [reflexivity|]. apply Hkeep; [done|done|]. intros. apply sent_handshake_ok. by left.
  - eexists. split; [reflexivity|]. apply Hkeep; [done|done|]. intros. unfold wrrp_tick.
    destruct (_ && _); [|constructor]. apply sent_handshake_ok. by left.
  - eexists. split; [reflexivity|]. by apply Hkeep.
  - eexists. split; [reflexivity|]. apply Hkeep; [..|constructor]; unfold wrrp_Close; by destruct (w_stopped _).
  - destruct (sys_net sys !! i) as [[s p]|] eqn:Hi; [|by eexists].
    destruct (handle_ok sys s p (delete i (sys_net sys)) Hok) as (d & out & -> & Hok').
    + by apply Forall_delete.
    + by apply (Forall_lookup_1 _ _ _ _ Hn Hi).
    + eexists. split; [reflexivity|done].
  - eexists. split; [reflexivity|]. split_and!; cbn; [|done..].
    apply Forall_delete. by apply (packets_ok_mono sys).
  - eexists. split; [reflexivity|]. split_and!; cbn; [by apply (packets_ok_mono sys)|done|done|].
    intros s' t. case_bool_decide as E; [subst s'|by apply Ht].
    destruct (sys_dialed sys s) as [x|] eqn:Ex; [intros [= ->]; by apply Ht|]. unfold wrrp_Dial.
    destruct deadline; [done|]. destruct (w_ready (sys_dialer sys s)); [|done]. by intros [= <-].
Qed.

Lemma sys_run_ok es : forall sys, sys_ok sys -> exists sys', sys_run ids peers keys sys es = Some sys' /\ sys_ok sys'.
Proof.
  unfold sys_run. induction es as [|e es IH]; intros sys Hok; [by exists sys|].
  destruct (sys_step_ok sys e Hok) as (sys1 & Hs & Hok1).
  cbn [foldl mbind option_bind]. rewrite Hs. by apply IH.
Qed.

Lemma new_system_ok : sys_ok new_system.
Proof. split_and!; [constructor|done|by intros s|by intros s t]. Qed.

(** A peer description in a handshake has no effect on the exchange. *)
Lemma update_handshake sys s d net p out :
  update sys s d net (handshake_peer p ++ out) = update sys s d net out.
Proof.
  unfold update. f_equal; [by rewrite sent_app, sent_handshake_peer|]. unfold restarts.
  rewrite omap_app. unfold handshake_peer. destruct (GetHandshake p) as [i|]; [|done].
  case_bool_decide; [done|]. by destruct (decode_peer i).
Qed.

Lemma sys_run_cons sys e es sys1 sys2 :
  sys_step ids peers keys sys e = Some sys1 -> sys_run ids peers keys sys1 es = Some sys2 ->
  sys_run ids peers keys sys (e :: es) = Some sys2.
Proof. intros Hs Hr. unfold sys_run. cbn [foldl mbind option_bind]. by rewrite Hs. Qed.

Lemma deliver_offer sys i s p d out :
  sys_net sys !! i = Some (s, p) -> handle ids peers keys s (sys_dialer sys s) p = Some (d, out) ->
  sys_step ids peers keys sys (EDeliver i) = Some (update sys s d (delete i (sys_net sys)) out).
Proof. intros Hi Hh. cbn [sys_step]. by rewrite Hi, Hh. Qed.

Lemma deliver_step sys i s p d q out :
  sys_net sys !! i = Some (s, p) ->
  handle ids peers keys s (sys_dialer sys s) p = Some (d, handshake_peer q ++ out) ->
  sys_step ids peers keys sys (EDeliver i) = Some (update sys s d (delete i (sys_net sys)) out).
Proof.
  intros Hi Hh. cbn [sys_step]. rewrite Hi, Hh. cbn [mbind option_bind fst snd]. by rewrite update_handshake.
Qed.
End pair_facts.

(** C29. The relay handshake of two fresh dialers, with packets lost, delayed and overtaking
    each other, tickers running and expiring, dialers closed, and each [Dial] returning or
    giving up at any time: no dialer panics, OFFERs only go to the responder and ANSWERs to the
    initiator; a [Dial] that returned a transport returned one over the relay, and its side is
    active unless it was asked to restart; and when the initiator's did, the responder accepted
    the initiator's OFFER, so that the responder's [Dial] has returned a transport, would return
    one now, or has given up: it may have, at its deadline, and then only the initiator has a
    transport. *)
Theorem wrrp_handshake `{PeerJSON} ids peers keys es :
  isInitiator (ids initiator) (ids responder) = true ->
  exists sys, sys_run ids peers keys new_system es = Some sys /\
    (forall s p, (s, p) ∈ sys_net sys -> pk_Type p = OFFER -> s = responder) /\
    (forall s p, (s, p) ∈ sys_net sys -> pk_Type p = ANSWER -> s = initiator) /\
    (forall s t, sys_dialed sys s = Some (inr t) ->
      t_Type t = WRRP /\ (w_active (sys_dialer sys s) = true \/ s ∈ sys_restarted sys)) /\
    (forall t, sys_dialed sys initiator = Some (inr t) ->
      w_ready (sys_dialer sys responder) = true /\
      forall addr, match sys_dialed sys responder with
                   | Some (inr t') => t_Type t' = WRRP
                   | Some (inl _) => True
                   | None => wrrp_Dial (sys_dialer sys responder) false addr =
                             Some (inr {| t_Type := WRRP; t_RemoteAddr := addr |})
                   end).
Proof.
  intros Hids. destruct (sys_run_ok ids peers keys Hids es new_system new_system_ok) as (sys & Hs & Hn & Hr & Ha & Ht).
  exists sys. split_and!; [done| | | |].
  - intros s p Hp. rewrite Forall_forall in Hn. by destruct (Hn _ Hp) as (_ & _ & Ho & _).
  - intros s p Hp. rewrite Forall_forall in Hn. destruct (Hn _ Hp) as (_ & _ & _ & Hi).
    intros Et. by apply Hi.
  - intros s t Hd. destruct (Ht _ _ Hd) as [Hw ?]. split; [done|by apply Ha].
  - intros t Hd. destruct (Ht _ _ Hd) as [Hw _]. apply Hr in Hw. split; [done|]. intros addr.
    destruct (sys_dialed sys responder) as [[err|t']|] eqn:E; [done|by apply (Ht responder)|].
    unfold wrrp_Dial. by rewrite Hw.
Qed.

(** Both sides announce themselves; the responder's SYN is slow. *)
Definition slow_syn : list sys_event :=
  [EPrepare initiator; EPrepare responder; EDeliver 0; EDeliver 1; EDeliver 1; EDeliver 1].

(** The exchange succeeds, but a SYN that was overtaken by it is taken for a
    restart of the peer: the side it reaches asks for a restart of a connection
    that both sides have just established, although neither was restarted. *)
Theorem late_syn_restarts `{PeerJSON} ids peers keys :
  isInitiator (ids initiator) (ids responder) = true ->
  exists sys sys',
    sys_run ids peers keys new_system slow_syn = Some sys /\
    w_active (sys_dialer sys initiator) = true /\ w_active (sys_dialer sys responder) = true /\
    sys_restarted sys = [] /\
    sys_step ids peers keys sys (EDeliver 0) = Some sys' /\ sys_restarted sys' = [initiator].
Proof.
  intros Hids. destruct (decode_encode (peers initiator)) as [q1 Hq1].
  destruct (decode_encode (peers responder)) as [q2 Hq2].
  eexists _, _. split.
  { eapply sys_run_cons; [reflexivity|]. eapply sys_run_cons; [reflexivity|].
    eapply sys_run_cons; [eapply deliver_step; reflexivity|].
    eapply sys_run_cons; [eapply deliver_step; [reflexivity|]|].
    { unfold handle, wrrp_Handle. cbn [pk_Dialer pk_Type wrrp_sendPacket other]. rewrite Hids.
      rewrite bool_decide_true by done. reflexivity. }
    eapply sys_run_cons; [eapply deliver_offer; [reflexivity|]|].
    { unfold handle, wrrp_Handle. cbn. rewrite Hq1. reflexivity. }
    eapply sys_run_cons; [eapply deliver_offer; [reflexivity|]|].
    { unfold handle, wrrp_Handle. cbn. rewrite Hq2. reflexivity. }
    reflexivity. }
  split; [done|]. split; [done|]. split; [done|].
  split; [eapply deliver_step; reflexivity|reflexivity].
Qed.

(** *** A concrete exchange *)

Definition plain_json : PeerJSON.
Proof.
  refine {| encode_peer := λ p, match p with Some p => ip_AppID p | None => "null" end;
            decode_peer := λ s, Some (keyed_peer s "") |}. by intros p; eexists.
Defined.

Definition sample_ids (s : side) : PeerIdentity := match s with initiator => node_b | responder => node_a end.
Definition sample_peers (s : side) : option InfraPeer :=
  match s with initiator => Some (keyed_peer "b" "kb") | responder => None end.

(** Both get a transport. *)
Definition both_dial : list sys_event := slow_syn ++ [EDial initiator false "relay"; EDial responder false "relay"].

Lemma wrrp_handshake_witness :
  isInitiator (sample_ids initiator) (sample_ids responder) = true /\
  exists sys t t', @sys_run plain_json sample_ids sample_peers (λ _, "key") new_system both_dial = Some sys /\
    sys_dialed sys initiator = Some (inr t) /\ sys_dialed sys responder = Some (inr t') /\ t_Type t = WRRP /\ t_Type t' = WRRP.
Proof.
  assert (Hids : isInitiator (sample_ids initiator) (sample_ids responder) = true)
    by (vm_compute; reflexivity).
  split; [exact Hids|].
  destruct (@wrrp_handshake plain_json sample_ids sample_peers (λ _, "key") both_dial Hids)
    as (sys & Hs & _ & _ & Ht & _).
  assert (Hd : forall s, sys_dialed sys s = Some (inr {| t_Type := WRRP; t_RemoteAddr := "relay" |})).
  { intros s.
    assert (E : (λ sys, sys_dialed sys s) <$> @sys_run plain_json sample_ids sample_peers (λ _, "key") new_system both_dial =
      Some (Some (inr {| t_Type := WRRP; t_RemoteAddr := "relay" |}))) by (destruct s; vm_compute; reflexivity).
    rewrite Hs in E. injection E as E. exact E. }
  exists sys. eexists _, _. split; [exact Hs|]. split; [apply Hd|]. split; [apply Hd|].
  split; [exact (proj1 (Ht initiator _ (Hd initiator)))|exact (proj1 (Ht responder _ (Hd responder)))].
Defined.

(** The responder's [Dial] gave up while the OFFER was on its way; its dialer still answers, and the
    initiator alone has a transport. *)
Example only_initiator_dials :
  let late := [EPrepare initiator; EPrepare responder; EDeliver 0; EDeliver 1; EDial responder true "";
               EDeliver 1; EDeliver 1; EDial initiator false "relay"] in
  (λ sys, (sys_dialed sys initiator, sys_dialed sys responder)) <$>
    @sys_run plain_json sample_ids sample_peers (λ _, "key") new_system late =
  Some (Some (inr {| t_Type := WRRP; t_RemoteAddr := "relay" |}),
        Some (inl (ErrText "wrrpDialer: timed out waiting for ready"))).
Proof. vm_compute. reflexivity. Qed.

Lemma late_syn_restarts_witness :
  exists sys sys',
    @sys_run plain_json sample_ids sample_peers (λ _, "key") new_system slow_syn = Some sys /\
    w_active (sys_dialer sys initiator) = true /\ w_active (sys_dialer sys responder) = true /\
    sys_restarted sys = [] /\
    @sys_step plain_json sample_ids sample_peers (λ _, "key") sys (EDeliver 0) = Some sys' /\
    sys_restarted sys' = [initiator].
Proof.
  apply (@late_syn_restarts plain_json sample_ids sample_peers (λ _, "key")). vm_compute. reflexivity.
Defined.
