(* ===== verification/IceDialer.v ===== *)
(** * IceDialer: the handshake for a direct transport
    ([internal/server/transport/ice_dialer.go])

    The initiator sends SYNs until an ACK comes, the responder creates its ICE
    agent when a SYN comes, and both then exchange candidates in OFFERs.  The ICE
    agent is pion's: its methods are calls, and a method of a nil agent is a nil
    dereference. *)

From S2P Require Import Prelude Prog Net Api Message Infra Transport Dialers.

(** [ic_agent]: [agent] is not nil; [ic_closed]: [closed] is set and [closeChan]
    closed; [ic_offerReady]: that channel is closed; [ic_cancel]: the ticker's
    cancel function is installed; [ic_syn]: the ticker runs. *)
Record iceDialer := {
  ic_agent : bool;
  ic_credentialsInited : bool;
  ic_rUfrag : string;
  ic_rPwd : string;
  ic_closed : bool;
  ic_offerReady : bool;
  ic_cancel : bool;
  ic_syn : bool;
}.

Definition NewIceDialer : iceDialer := {|
  ic_agent := false; ic_credentialsInited := false; ic_rUfrag := ""; ic_rPwd := ""; ic_closed := false;
  ic_offerReady := false; ic_cancel := false; ic_syn := false |}.

Definition with_agent (b : bool) (d : iceDialer) : iceDialer := {|
  ic_agent := b; ic_credentialsInited := ic_credentialsInited d; ic_rUfrag := ic_rUfrag d; ic_rPwd := ic_rPwd d;
  ic_closed := ic_closed d; ic_offerReady := ic_offerReady d; ic_cancel := ic_cancel d; ic_syn := ic_syn d |}.
Definition with_inited (d : iceDialer) : iceDialer := {|
  ic_agent := ic_agent d; ic_credentialsInited := true; ic_rUfrag := ic_rUfrag d; ic_rPwd := ic_rPwd d;
  ic_closed := ic_closed d; ic_offerReady := ic_offerReady d; ic_cancel := ic_cancel d; ic_syn := ic_syn d |}.
Definition with_credentials (ufrag pwd : string) (d : iceDialer) : iceDialer := {|
  ic_agent := ic_agent d; ic_credentialsInited := ic_credentialsInited d; ic_rUfrag := ufrag; ic_rPwd := pwd;
  ic_closed := ic_closed d; ic_offerReady := ic_offerReady d; ic_cancel := ic_cancel d; ic_syn := ic_syn d |}.
Definition with_offer (d : iceDialer) : iceDialer := {|
  ic_agent := ic_agent d; ic_credentialsInited := ic_credentialsInited d; ic_rUfrag := ic_rUfrag d;
  ic_rPwd := ic_rPwd d; ic_closed := ic_closed d; ic_offerReady := true; ic_cancel := ic_cancel d;
  ic_syn := ic_syn d |}.
Definition with_ticker (cancel syn : bool) (d : iceDialer) : iceDialer := {|
  ic_agent := ic_agent d; ic_credentialsInited := ic_credentialsInited d; ic_rUfrag := ic_rUfrag d;
  ic_rPwd := ic_rPwd d; ic_closed := ic_closed d; ic_offerReady := ic_offerReady d; ic_cancel := cancel;
  ic_syn := syn |}.
Definition as_closed (d : iceDialer) : iceDialer := {|
  ic_agent := false; ic_credentialsInited := ic_credentialsInited d; ic_rUfrag := ic_rUfrag d; ic_rPwd := ic_rPwd d;
  ic_closed := true; ic_offerReady := ic_offerReady d; ic_cancel := ic_cancel d; ic_syn := ic_syn d |}.

(** [getAgent] builds and wires an agent; the rest are methods of the agent,
    [ice.UnmarshalCandidate], the signalling service and [onPeerReceived]. *)
Inductive iceE : Type -> Type :=
| ISend (p : SignalPacket) : iceE (gresult unit)
| INewAgent : iceE (gresult unit)
| IGatherCandidates : iceE (gresult unit)
| IGetLocalUserCredentials : iceE (gresult (string * string))
| IUnmarshalCandidate (text : string) : iceE (gresult string)
| IAddRemoteCandidate (candidate : string) : iceE (gresult unit)
| IStart (dial : bool) (ufrag pwd : string) : iceE (gresult string)
| IAwaitConnect : iceE (gresult unit)
| IAgentClose : iceE (gresult unit)
| IPeerReceived (peer : InfraPeer) : iceE unit.

Abbreviation iprog := (prog iceE (gresult unit * iceDialer)).

Section ice.
Context `{PeerJSON}.
Context (localId remoteId : PeerIdentity) (localPeer : option InfraPeer) (localKey : string).

(** A method of the agent. *)
Definition on_agent {A} (d : iceDialer) (p : prog iceE A) : prog iceE A := if ic_agent d then p else Panic.

Definition ice_packet (t : PacketType) (payload : Payload) : SignalPacket :=
  {| pk_Type := t; pk_Dialer := ICE; pk_SenderId := ToUint64 (PeerIdentity_ID localId); pk_Payload := payload |}.

Definition ice_sendPacket (d : iceDialer) (t : PacketType) (candidate : option string)
    : prog iceE (gresult unit) :=
  if ic_closed d then Ret (inr tt)
  else
    match t with
    | HANDSHAKE_SYN | HANDSHAKE_ACK =>
        call (ISend (ice_packet t (HandshakePayload
          (match localPeer with Some _ => encode_peer localPeer | None => "" end))))
    | OFFER =>
        on_agent d (
          credentials ←? call IGetLocalUserCredentials;
          match candidate with
          | None => Ret (inl (ErrText "candidate is nil for OFFER"))
          | Some c =>
              call (ISend (ice_packet t (OfferPayload {| of_Ufrag := credentials.1; of_Pwd := credentials.2;
                of_Candidate := c; of_Current := encode_peer localPeer; of_PublicKey := localKey |})))
          end)
    | _ => call (ISend (ice_packet t NoPayload))
    end.

(** The agent found a local candidate; errors are logged. *)
Definition onCandidate (d : iceDialer) (candidate : string) : prog iceE unit :=
  _ ← ice_sendPacket d OFFER (Some candidate); Ret tt.

Definition ice_Close (d : iceDialer) : prog iceE iceDialer :=
  if ic_closed d then Ret d
  else if ic_agent d then _ ← call IAgentClose; Ret (as_closed d)
  else Ret (as_closed d).

(** [i.cancel()]. *)
Definition ice_run_cancel (d : iceDialer) : iceDialer :=
  with_ticker (ic_cancel d) (if ic_cancel d then false else ic_syn d) d.

(** The remote peer's description, the first time one arrives. *)
Definition learn_peer (present : bool) (info : string) (d : iceDialer) : prog iceE iceDialer :=
  if ic_credentialsInited d then Ret d
  else if present then
    match decode_peer info with
    | Some peer => _ ← call (IPeerReceived peer); Ret (with_inited d)
    | None => Ret (with_inited d)
    end
  else Ret (with_inited d).

Definition handshake_learn (packet : SignalPacket) (d : iceDialer) : prog iceE iceDialer :=
  match GetHandshake packet with
  | Some info => if bool_decide (info = "") then Ret d else learn_peer true info d
  | None => Ret d
  end.

Definition handle_ack (d : iceDialer) (packet : SignalPacket) : iprog :=
  if ic_closed d then Ret (inr tt, d)
  else if negb (ic_agent d) then Ret (inr tt, d)
  else
    d ← handshake_learn packet d;
    err ← call IGatherCandidates;
    Ret (err, ice_run_cancel d).

Definition handle_syn (d : iceDialer) (packet : SignalPacket) : iprog :=
  if ic_closed d then Ret (inr tt, d)
  else
    d ← handshake_learn packet d;
    if ic_agent d then d ← ice_Close d; Ret (inr tt, d)
    else
      ack ← ice_sendPacket d HANDSHAKE_ACK None;
      match ack with
      | inl err => Ret (inl err, d)
      | inr _ =>
          made ← call INewAgent;
          match made with
          | inl err => Ret (inl err, d)
          | inr _ => err ← call IGatherCandidates; Ret (err, with_agent true d)
          end
      end.

Definition handle_offer (d : iceDialer) (packet : SignalPacket) : iprog :=
  match GetOffer packet with
  | None => Panic
  | Some offer =>
      let d := if bool_decide (ic_rUfrag d = "") then with_credentials (of_Ufrag offer) (of_Pwd offer) d else d in
      d ← learn_peer (negb (bool_decide (of_Current offer = ""))) (of_Current offer) d;
      parsed ← call (IUnmarshalCandidate (of_Candidate offer));
      match parsed with
      | inl err => Ret (inl err, d)
      | inr candidate =>
          added ← on_agent d (call (IAddRemoteCandidate candidate));
          match added with
          | inl err => Ret (inl err, d)
          | inr _ => Ret (inr tt, with_offer d)
          end
      end
  end.

Definition ice_Handle (d : iceDialer) (packet : SignalPacket) : iprog :=
  if negb (bool_decide (pk_Dialer packet = ICE)) then Ret (inr tt, d)
  else
    match pk_Type packet with
    | HANDSHAKE_ACK => handle_ack d packet
    | HANDSHAKE_SYN => handle_syn d packet
    | OFFER | ANSWER => handle_offer d packet
    | _ => Ret (inr tt, d)
    end.

(** [Prepare], up to the first SYN of its ticker, whose error is logged. *)
Definition start_syn (d : iceDialer) : iprog :=
  let d := with_ticker true true d in
  _ ← ice_sendPacket d HANDSHAKE_SYN None;
  Ret (inr tt, d).

Definition ice_Prepare (d : iceDialer) : iprog :=
  if negb (isInitiator localId remoteId) then Ret (inr tt, d)
  else if ic_agent d then start_syn d
  else
    made ← call INewAgent;
    match made with
    | inl err => Ret (inl (ErrWrap "getAgent failed" err), d)
    | inr _ => start_syn (with_agent true d)
    end.

(** Every two seconds while the ticker runs. *)
Definition ice_tick (d : iceDialer) : prog iceE unit :=
  if ic_syn d then _ ← ice_sendPacket d HANDSHAKE_SYN None; Ret tt else Ret tt.

(** What wakes [Dial] up. *)
Inductive dial_wake := WDeadline | WClosed | WOfferReady.

(** [Dial]; [None] when it is not woken like this. *)
Definition ice_Dial (d : iceDialer) (wake : dial_wake) : option (prog iceE (gresult Transport)) :=
  match wake with
  | WDeadline => Some (Ret (inl (ErrText "iceDialer: timed out waiting for offer")))
  | WClosed => if ic_closed d then Some (Ret (inl ErrDialerClosed)) else None
  | WOfferReady =>
      if ic_offerReady d then
        Some (on_agent d (
          remoteAddr ←? call (IStart (isInitiator localId remoteId) (ic_rUfrag d) (ic_rPwd d));
          _ ←? call IAwaitConnect;
          Ret (inr {| t_Type := ICE; t_RemoteAddr := remoteAddr |})))
      else None
  end.
End ice.

(** ** Correctness *)

(** A closed dialer has no agent. *)
Definition ice_inv (d : iceDialer) : Prop := ic_closed d = true -> ic_agent d = false.

(** What never goes back. *)
Definition ice_mono (d d' : iceDialer) : Prop :=
  (ic_closed d = true -> ic_closed d' = true) /\
  (ic_credentialsInited d = true -> ic_credentialsInited d' = true) /\
  (ic_offerReady d = true -> ic_offerReady d' = true) /\
  (ic_rUfrag d <> "" -> ic_rUfrag d' = ic_rUfrag d /\ ic_rPwd d' = ic_rPwd d).

#[local] Instance ice_mono_preorder : PreOrder ice_mono.
Proof.
  split; [by intros d|]. intros d1 d2 d3 (A1 & A2 & A3 & A4) (B1 & B2 & B3 & B4).
  split_and!; [auto..|]. intros Hne. destruct (A4 Hne) as [E1 E2].
  rewrite <- E1 in Hne. destruct (B4 Hne). split; congruence.
Qed.

(** The calls that handling [packet] may make. *)
Definition ice_call (d : iceDialer) (packet : SignalPacket) (T : Type) (e : iceE T) : Prop :=
  match e with
  | ISend p => ic_closed d = false /\ pk_Type packet = HANDSHAKE_SYN /\ ic_agent d = false /\
               pk_Type p = HANDSHAKE_ACK
  | INewAgent => ic_closed d = false /\ pk_Type packet = HANDSHAKE_SYN /\ ic_agent d = false
  | IGatherCandidates => ic_closed d = false /\
      ((pk_Type packet = HANDSHAKE_ACK /\ ic_agent d = true) \/
       (pk_Type packet = HANDSHAKE_SYN /\ ic_agent d = false))
  | IAgentClose => ic_closed d = false /\ pk_Type packet = HANDSHAKE_SYN /\ ic_agent d = true
  | IPeerReceived _ => ic_credentialsInited d = false
  | IUnmarshalCandidate text => exists o, GetOffer packet = Some o /\ text = of_Candidate o
  | IAddRemoteCandidate _ => ic_agent d = true
  | IStart _ _ _ | IAwaitConnect | IGetLocalUserCredentials => False
  end.

Section ice_facts.
Context `{PeerJSON}.
Context (localId remoteId : PeerIdentity) (localPeer : option InfraPeer) (localKey : string).
Context (R : forall T, iceE T -> T -> Prop).

(** Learning changes nothing but that the peer is known. *)
Lemma learn_peer_wp (G : forall T, iceE T -> Prop) present info d Q :
  (forall peer, ic_credentialsInited d = false -> G _ (IPeerReceived peer)) ->
  Q d -> Q (with_inited d) -> wp R G (learn_peer present info d) Q.
Proof.
  intros HG H1 H2. unfold learn_peer. destruct (ic_credentialsInited d) eqn:Ei; [done|].
  destruct present; [|done]. destruct (decode_peer info); [|done].
  apply wp_bind, wp_call; [by apply HG|]. by intros _ _.
Qed.

Lemma handshake_learn_wp (G : forall T, iceE T -> Prop) packet d Q :
  (forall peer, ic_credentialsInited d = false -> G _ (IPeerReceived peer)) ->
  Q d -> Q (with_inited d) -> wp R G (handshake_learn packet d) Q.
Proof.
  intros HG H1 H2. unfold handshake_learn. destruct (GetHandshake packet) as [info|]; [|done].
  case_bool_decide; [done|]. by apply learn_peer_wp.
Qed.

Lemma ice_mono_inited d : ice_mono d (with_inited d).
Proof. by split_and!. Qed.

Lemma handle_ack_wp d packet :
  ice_inv d -> pk_Type packet = HANDSHAKE_ACK ->
  wp R (ice_call d packet) (handle_ack d packet) (λ r, ice_inv r.2 /\ ice_mono d r.2).
Proof.
  intros Hinv Et. unfold handle_ack. destruct (ic_closed d) eqn:Ec; [done|].
  destruct (ic_agent d) eqn:Ea; [|done]. cbn [negb].
  assert (Hrest : forall d', ic_closed d' = false -> ice_mono d d' ->
    wp R (ice_call d packet) (err ← call IGatherCandidates; Ret (err, ice_run_cancel d'))
      (λ r, ice_inv r.2 /\ ice_mono d r.2)).
  { intros d' Ec' Hm. apply wp_bind, wp_call; [split; [done|by left]|]. intros err _. cbn. split; [intros E; cbn in E; congruence|done]. }
  apply wp_bind, handshake_learn_wp; [done|by apply Hrest|].
  apply Hrest; [done|apply ice_mono_inited].
Qed.

Lemma ice_Close_wp d packet :
  ic_closed d = false -> pk_Type packet = HANDSHAKE_SYN -> ic_agent d = true ->
  forall d', ic_closed d' = false -> ic_agent d' = true -> ice_mono d d' ->
  wp R (ice_call d packet) (ice_Close d') (λ r, r = as_closed d').
Proof.
  intros Ec Et Ea d' Ec' Ea' Hm. unfold ice_Close. rewrite Ec', Ea'.
  apply wp_bind, wp_call; [by cbn|]. by intros err _.
Qed.

Lemma handle_syn_wp d packet :
  ice_inv d -> pk_Type packet = HANDSHAKE_SYN ->
  wp R (ice_call d packet) (handle_syn localId localPeer localKey d packet) (λ r,
    ice_inv r.2 /\ ice_mono d r.2 /\ (ic_agent d = true -> ic_closed r.2 = true)).
Proof.
  intros Hinv Et. unfold handle_syn. destruct (ic_closed d) eqn:Ec; [by cbn|].
  set (rest := λ d : iceDialer, _).
  assert (Hrest : forall d', ic_closed d' = false -> ic_agent d' = ic_agent d -> ice_mono d d' ->
    wp R (ice_call d packet) (rest d')
      (λ r, ice_inv r.2 /\ ice_mono d r.2 /\ (ic_agent d = true -> ic_closed r.2 = true))).
  { intros d' Ec' Ea' Hm. unfold rest. destruct (ic_agent d) eqn:Ea; rewrite Ea'.
    - apply wp_bind. eapply wp_mono; [by apply ice_Close_wp|]. intros x ->. cbn.
      split_and!; [done| |done]. etrans; [exact Hm|]. by split_and!.
    - unfold ice_sendPacket. rewrite Ec'. apply wp_bind, wp_call; [by cbn|].
      assert (Hstay : ice_inv d') by (intros E; congruence).
      intros [err|[]] _; [by cbn|]. apply wp_bind, wp_call; [by cbn|].
      intros [err|[]] _; [by cbn|]. apply wp_bind, wp_call; [split; [done|by right]|]. intros err _. cbn.
      split_and!; [intros E; cbn in E; congruence|done|done]. }
  apply wp_bind, handshake_learn_wp; [done|by apply Hrest|].
  apply Hrest; [done..|apply ice_mono_inited].
Qed.

Lemma handle_offer_wp d packet :
  ice_inv d -> is_Some (GetOffer packet) -> ic_agent d = true ->
  wp R (ice_call d packet) (handle_offer d packet) (λ r, ice_inv r.2 /\ ice_mono d r.2).
Proof.
  intros Hinv [o Ho] Ea. unfold handle_offer. rewrite Ho. cbv zeta.
  set (d1 := if bool_decide _ then _ else _).
  assert (H1 : ice_mono d d1 /\ ic_agent d1 = true /\ ic_closed d1 = ic_closed d /\
    ic_credentialsInited d1 = ic_credentialsInited d).
  { unfold d1. case_bool_decide as Eu; [|done]. by split_and!. }
  clearbody d1. destruct H1 as (Hm1 & Ea1 & Ec1 & Ei1).
  assert (Ec : ic_closed d = false) by (destruct (ic_closed d) eqn:E; [rewrite Hinv in Ea; congruence|done]).
  set (rest := λ d : iceDialer, _).
  assert (Hrest : forall d', ic_closed d' = false -> ic_agent d' = true -> ice_mono d d' ->
    wp R (ice_call d packet) (rest d') (λ r, ice_inv r.2 /\ ice_mono d r.2)).
  { intros d' Ec' Ea' Hm. unfold rest. assert (Hstay : ice_inv d') by (intros E; congruence).
    apply wp_bind, wp_call; [by exists o|]. intros [err|c] _; [by cbn|].
    unfold on_agent. rewrite Ea'. apply wp_bind, wp_call; [done|]. intros [err|[]] _; [by cbn|].
    cbn. split; [intros E; cbn in E; congruence|]. etrans; [exact Hm|]. by split_and!. }
  apply wp_bind, learn_peer_wp.
  - intros peer Hi. cbn. congruence.
  - apply Hrest; [congruence|done|done].
  - apply Hrest; [cbn; congruence|done|]. etrans; [exact Hm1|apply ice_mono_inited].
Qed.
End ice_facts.

(** Handling a packet of the ICE handshake, whatever the agent and the
    signalling service answer.  An OFFER or ANSWER needs its payload and an agent;
    then nothing panics.  A closed dialer sends nothing, gathers nothing and has no
    agent; the peer is described to the probe only while it is not yet known; an
    ACK is sent only for a SYN that finds no agent, and a SYN that finds one closes
    the dialer.  Being closed, knowing the peer, having an offer and the first
    credentials are never undone. *)
Theorem ice_Handle_safe `{PeerJSON} localId localPeer localKey
    (R : forall T, iceE T -> T -> Prop) d packet :
  ice_inv d ->
  (pk_Dialer packet = ICE -> pk_Type packet = OFFER \/ pk_Type packet = ANSWER ->
    is_Some (GetOffer packet) /\ ic_agent d = true) ->
  wp R (ice_call d packet) (ice_Handle localId localPeer localKey d packet) (λ r,
    ice_inv r.2 /\ ice_mono d r.2 /\
    (pk_Dialer packet = ICE -> pk_Type packet = HANDSHAKE_SYN -> ic_agent d = true -> ic_closed r.2 = true)).
Proof.
  intros Hinv Hoffer. unfold ice_Handle. case_bool_decide as Hd; [|by cbn]. cbn [negb].
  specialize (Hoffer Hd). destruct (pk_Type packet) eqn:Et; try (by cbn).
  - eapply wp_mono; [by apply handle_syn_wp|]. intros r (? & ? & ?). by split_and!.
  - eapply wp_mono; [by apply handle_ack_wp|]. intros r (? & ?). by split_and!.
  - destruct Hoffer as [Ho Ha]; [by left|].
    eapply wp_mono; [by apply handle_offer_wp|]. intros r (? & ?). by split_and!.
  - destruct Hoffer as [Ho Ha]; [by right|].
    eapply wp_mono; [by apply handle_offer_wp|]. intros r (? & ?). by split_and!.
Qed.

(** A first SYN at the responder. *)
Definition first_syn : SignalPacket :=
  {| pk_Type := HANDSHAKE_SYN; pk_Dialer := ICE; pk_SenderId := 1; pk_Payload := HandshakePayload "b" |}.

Lemma ice_Handle_safe_witness :
  ice_inv NewIceDialer /\
  wp (λ _ _ _, True) (ice_call NewIceDialer first_syn)
    (@ice_Handle plain_json node_a None "key" NewIceDialer first_syn)
    (λ r, ice_inv r.2 /\ ice_mono NewIceDialer r.2 /\
      (pk_Dialer first_syn = ICE -> pk_Type first_syn = HANDSHAKE_SYN -> ic_agent NewIceDialer = true ->
        ic_closed r.2 = true)).
Proof.
  assert (Hinv : ice_inv NewIceDialer) by (intros E; discriminate E).
  split; [exact Hinv|].
  apply (@ice_Handle_safe plain_json node_a None "key" (λ _ _ _, True) NewIceDialer first_syn Hinv).
  intros _ [E|E]; discriminate E.
Defined.

(** A dialer that has no agent, one that was closed or one whose peer skips
    the SYN, is brought down by an OFFER: when the candidate in it parses, handling
    it is a nil dereference; and so is an OFFER without its payload. *)
Theorem offer_without_agent_panics `{PeerJSON} localId localPeer localKey {W}
    (h : forall T, iceE T -> W -> T * W) (w : W) d packet :
  ic_agent d = false -> pk_Dialer packet = ICE -> pk_Type packet = OFFER ->
  (forall text w, exists c, (h _ (IUnmarshalCandidate text) w).1 = inr c) ->
  (run h (ice_Handle localId localPeer localKey d packet) w).1 = None.
Proof.
  intros Ha Hd Ht Hc. unfold ice_Handle. rewrite Hd, Ht, bool_decide_true by done. cbn [negb].
  unfold handle_offer. destruct (GetOffer packet) as [o|]; [|done]. cbv zeta.
  set (d1 := if bool_decide _ then _ else _).
  assert (Ha1 : ic_agent d1 = false) by (unfold d1; by case_bool_decide).
  clearbody d1.
  set (rest := λ d : iceDialer, _).
  assert (Hrest : forall d' w', ic_agent d' = false -> (run h (rest d') w').1 = None).
  { intros d' w' Ha'. unfold rest. rewrite bind_call. cbn [run].
    destruct (Hc (of_Candidate o) w') as [c Hc']. destruct (h _ (IUnmarshalCandidate _) w') as [r w2].
    cbn in Hc'. subst r. unfold on_agent. by rewrite Ha'. }
  unfold learn_peer. destruct (ic_credentialsInited d1); [by apply Hrest|].
  destruct (negb _); [|by apply Hrest]. destruct (decode_peer _); [|by apply Hrest].
  rewrite bind_call. cbn. destruct (h _ (IPeerReceived _) w) as [u w2]. by apply Hrest.
Qed.

(** An agent whose calls all succeed. *)
Definition quiet_agent (T : Type) (e : iceE T) (w : unit) : T * unit :=
  match e in iceE T return T * unit with
  | ISend _ | INewAgent | IGatherCandidates | IAddRemoteCandidate _ | IAwaitConnect | IAgentClose => (inr tt, w)
  | IGetLocalUserCredentials => (inr ("ufrag", "pwd"), w)
  | IUnmarshalCandidate text => (inr text, w)
  | IStart _ _ _ => (inr "10.0.0.1:7000", w)
  | IPeerReceived _ => (tt, w)
  end.

Definition late_offer : SignalPacket :=
  {| pk_Type := OFFER; pk_Dialer := ICE; pk_SenderId := 1; pk_Payload := OfferPayload
      {| of_Ufrag := "u"; of_Pwd := "p"; of_Candidate := "c"; of_Current := "b"; of_PublicKey := "k" |} |}.

Lemma offer_without_agent_panics_witness :
  (run quiet_agent (@ice_Handle plain_json node_a None "key" (as_closed NewIceDialer) late_offer) tt).1 = None.
Proof.
  apply (@offer_without_agent_panics plain_json node_a None "key" unit quiet_agent tt); [reflexivity..|].
  intros text w. exists text. reflexivity.
Defined.
