(* ===== verification/Bind.v ===== *)
(** * Bind: the agent's UDP sockets
    ([internal/agent/infra/conn.go], [mux_filter.go], [chan_conn.go], [wrrp.go])

    WireGuard and ICE share one socket per address family.  A reader sends STUN
    packets to ICE and the others to WireGuard; [DefaultBind] is WireGuard's view
    of the sockets, and sends to an address or, for a relayed peer, to the relay.
    Addresses for sending come from a pool and go back to it as they are. *)

From S2P Require Import Prelude Prog Net Api Message Infra Transport.

Abbreviation bytes := (list Z).

(** ** Endpoints *)

(** [WRRPEndpoint]; no address is the zero [netip.AddrPort]. *)
Record WRRPEndpoint := { ep_Addr : option (netip * Z); ep_RemoteId : Z; ep_Type : TransportType }.

(** [netip.ParseAddrPort] and the text of an address and port. *)
Class AddrPortText := { ParseAddrPort : string -> gresult (netip * Z); show_AddrPort : netip * Z -> string;
  parse_show_AddrPort a : ParseAddrPort (show_AddrPort a) = inr a }.

(** [strconv.ParseUint(s, 10, 64)]. *)
Fixpoint parse_uint (s : string) (n : Z) : gresult Z :=
  match s with
  | EmptyString => inr n
  | String c s =>
      let d := Z.of_nat (nat_of_ascii c) - 48 in
      if (d <? 0) || (9 <? d) then inl (ErrText "invalid syntax")
      else if n * 10 + d >=? 2 ^ 64 then inl (ErrText "value out of range")
      else parse_uint s (n * 10 + d)
  end.
Definition ParseUint64 (s : string) : gresult Z :=
  if bool_decide (s = "") then inl (ErrText "invalid syntax") else parse_uint s 0.

(** [strings.Cut]: what follows the first [sep]. *)
Fixpoint cut_after (sep s : string) : option string :=
  if has_prefix sep s then Some (str_drop (String.length sep) s)
  else match s with EmptyString => None | String _ s => cut_after sep s end.

Section endpoints.
Context `{AddrPortText}.

(** [relay]: the address of the connected relay client, if there is one. *)
Definition ParseEndpoint (relay : option string) (s : string) : gresult WRRPEndpoint :=
  if has_prefix "wrrp:" s then
    match cut_after "wrrp://" s with
    | None => inl (ErrText "invalid wrrp endpoint")
    | Some after =>
        match ParseUint64 after with
        | inl err => inl err
        | inr remoteId =>
            let addr := match relay with
                        | None => None
                        | Some ra => match ParseAddrPort ra with inr a => Some a | inl _ => None end
                        end in
            inr {| ep_Addr := addr; ep_RemoteId := remoteId; ep_Type := WRRP |}
        end
    end
  else
    match ParseAddrPort s with
    | inl err => inl err
    | inr e =>
        if Wrrp.IsWrrpFakeAddr e.1
        then inr {| ep_Addr := Some e; ep_RemoteId := Wrrp.RemoteIdFromWrrpFakeAddr e.1; ep_Type := WRRP |}
        else inr {| ep_Addr := Some e; ep_RemoteId := 0; ep_Type := ICE |}
    end.

Definition DstToString (e : WRRPEndpoint) : string :=
  match ep_Addr e with
  | Some a => show_AddrPort a
  | None => "wrrp://" +:+ pretty (ep_RemoteId e)
  end.
End endpoints.

(** [MarshalBinary]: the address and the port, little end first. *)
Definition addrport_binary (a : netip * Z) : bytes :=
  match a.1 with Is4 x => be_bytes 4 x | Is6 x => be_bytes 16 x end ++ le_bytes 2 a.2.

(** What WireGuard compares endpoints by. *)
Definition DstToBytes (e : WRRPEndpoint) : bytes :=
  match ep_Type e with
  | WRRP => be_bytes 8 (ep_RemoteId e)
  | ICE => match ep_Addr e with Some a => addrport_binary a | None => [] end
  end.

(** [DstIP]; the zero address is not IPv6. *)
Definition DstIP (e : WRRPEndpoint) : option netip :=
  match ep_Type e with
  | WRRP => Some (Is4 0)
  | ICE => fst <$> ep_Addr e
  end.

(** ** Sending *)

(** A [net.UDPAddr] of the pool: sixteen bytes, of which the first [ua_len] are its
    address, and a port. *)
Record UDPAddr := { ua_mem : bytes; ua_len : nat; ua_Port : Z }.
Definition new_UDPAddr : UDPAddr := {| ua_mem := replicate 16 0; ua_len := 16; ua_Port := 0 |}.
Definition ua_IP (u : UDPAddr) : bytes := take (ua_len u) (ua_mem u).

(** [copy(ua.IP, src)]: as much as fits. *)
Definition copy_IP (u : UDPAddr) (src : bytes) : UDPAddr :=
  let n := Nat.min (ua_len u) (length src) in
  {| ua_mem := take n src ++ drop n (ua_mem u); ua_len := ua_len u; ua_Port := ua_Port u |}.

(** A datagram: its destination and its bytes. *)
Record Datagram := { dg_IP : bytes; dg_Port : Z; dg_Data : bytes }.

(** The sockets, the relay client and the pool. *)
Inductive bindE : Type -> Type :=
| BRelay (remoteId : Z) (kind : Z) (data : bytes) : bindE (gresult unit)
| BPoolGet : bindE UDPAddr
| BPoolPut (u : UDPAddr) : bindE unit
| BWriteBatch (v6 : bool) (msgs : list Datagram) : bindE (Z * option gerror)
| BWriteMsg (v6 : bool) (msg : Datagram) : bindE (gresult unit)
| BCloseConn (v6 : bool) : bindE (gresult unit).
Abbreviation bprog := (prog bindE).

Definition EAFNOSUPPORT : gerror := ErrText "address family not supported by protocol".
Definition ErrBindAlreadyOpen : gerror := ErrText "bind is already open".
Definition WrrpForward : Z := 2.

(** The fields of a [DefaultBind] as far as they change or steer it: whether it was
    given sockets and a relay client, whether they are open, and the platform. *)
Record DefaultBind := {
  b_v4conn : bool; b_v6conn : bool; b_wrrp : bool;
  b_ipv4 : bool; b_ipv6 : bool;
  b_blackhole4 : bool; b_blackhole6 : bool;
  b_linux : bool;
}.

Definition bind_with_open (b : DefaultBind) (v4 v6 : bool) : DefaultBind := {|
  b_v4conn := b_v4conn b; b_v6conn := b_v6conn b; b_wrrp := b_wrrp b; b_ipv4 := v4; b_ipv6 := v6;
  b_blackhole4 := b_blackhole4 b; b_blackhole6 := b_blackhole6 b; b_linux := b_linux b |}.

Inductive receiver := ReceiveIPv4 | ReceiveIPv6 | ReceiveWrrp.

(** The sockets are those the bind was made with, also when it was closed before. *)
Definition Open (enableWrrp : bool) (uport : Z) (b : DefaultBind) : bprog (gresult (list receiver * Z) * DefaultBind) :=
  if b_ipv4 b || b_ipv6 b then Ret (inl ErrBindAlreadyOpen, b)
  else
    let fns := (if b_v4conn b then [ReceiveIPv4] else []) ++ (if b_v6conn b then [ReceiveIPv6] else []) in
    let b := bind_with_open b (b_v4conn b) (b_v6conn b) in
    match fns with
    | [] => Ret (inl EAFNOSUPPORT, b)
    | _ =>
        if enableWrrp then
          if b_wrrp b then Ret (inr (fns ++ [ReceiveWrrp], uport), b) else Panic
        else Ret (inr (fns, uport), b)
    end.

Definition Close (b : DefaultBind) : bprog (gresult unit * DefaultBind) :=
  r1 ← (if b_ipv4 b then call (BCloseConn false) else Ret (inr tt));
  r2 ← (if b_ipv6 b then call (BCloseConn true) else Ret (inr tt));
  let b := {| b_v4conn := b_v4conn b; b_v6conn := b_v6conn b; b_wrrp := b_wrrp b; b_ipv4 := false; b_ipv6 := false;
              b_blackhole4 := false; b_blackhole6 := false; b_linux := b_linux b |} in
  Ret (match r1 with inl err => inl err | inr _ => r2 end, b).

(** One system call after the other until all is written; a call that writes
    nothing and reports no error would be repeated for ever. *)
Fixpoint write_batches (fuel : nat) (v6 : bool) (msgs : list Datagram) : bprog (gresult unit) :=
  match fuel with
  | O => Ret (inl ErrFuel)
  | S fuel =>
      r ← call (BWriteBatch v6 msgs);
      match r with
      | (n, Some err) => Ret (inl err)
      | (n, None) =>
          if n =? Z.of_nat (length msgs) then Ret (inr tt) else write_batches fuel v6 (drop (Z.to_nat n) msgs)
      end
  end.

Fixpoint write_each (v6 : bool) (msgs : list Datagram) : bprog (gresult unit) :=
  match msgs with
  | [] => Ret (inr tt)
  | m :: msgs =>
      r ← call (BWriteMsg v6 m);
      match r with inl err => Ret (inl err) | inr _ => write_each v6 msgs end
  end.

Definition datagrams (ua : UDPAddr) (bufs : list bytes) : list Datagram :=
  (λ buf, {| dg_IP := ua_IP ua; dg_Port := ua_Port ua; dg_Data := buf |}) <$> bufs.

Definition send_with (linux v6 : bool) (ua : UDPAddr) (bufs : list bytes) : bprog (gresult unit) :=
  let msgs := datagrams ua bufs in
  r ← (if linux then write_batches (S (length msgs)) v6 msgs else write_each v6 msgs);
  _ ← call (BPoolPut ua);
  Ret r.

(** The address is cut to four bytes, and stays so in the pool. *)
Definition send4 (linux : bool) (addr port : Z) (bufs : list bytes) : bprog (gresult unit) :=
  ua ← call BPoolGet;
  let ua := copy_IP ua (be_bytes 4 addr) in
  let ua := {| ua_mem := ua_mem ua; ua_len := 4; ua_Port := port |} in
  send_with linux false ua bufs.

(** Neither the length nor the port of the address is set. *)
Definition send6 (linux : bool) (addr : Z) (bufs : list bytes) : bprog (gresult unit) :=
  ua ← call BPoolGet;
  send_with linux true (copy_IP ua (be_bytes 16 addr)) bufs.

Fixpoint relay_each (remoteId : Z) (bufs : list bytes) : bprog (gresult unit) :=
  match bufs with
  | [] => Ret (inr tt)
  | buf :: bufs => _ ←? call (BRelay remoteId WrrpForward buf); relay_each remoteId bufs
  end.

(** A direct endpoint without an address is not IPv6, and its [As4] panics. *)
Definition Send (b : DefaultBind) (bufs : list bytes) (e : WRRPEndpoint) : bprog (gresult unit) :=
  match ep_Type e with
  | WRRP => match bufs with
            | [] => Ret (inr tt)
            | _ => if b_wrrp b then relay_each (ep_RemoteId e) bufs else Panic
            end
  | ICE =>
      match ep_Addr e with
      | Some (Is6 addr, _) =>
          if b_blackhole6 b then Ret (inr tt)
          else if negb (b_ipv6 b) then Ret (inl EAFNOSUPPORT)
          else send6 (b_linux b) addr bufs
      | Some (Is4 addr, port) =>
          if b_blackhole4 b then Ret (inr tt)
          else if negb (b_ipv4 b) then Ret (inl EAFNOSUPPORT)
          else send4 (b_linux b) addr port bufs
      | None =>
          if b_blackhole4 b then Ret (inr tt)
          else if negb (b_ipv4 b) then Ret (inl EAFNOSUPPORT)
          else Panic
      end
  end.

(** ** Where packets go *)

(** The pool, the datagrams that left through either socket, and the packets given
    to the relay. *)
Record bind_state := { bs_pool : list UDPAddr; bs_sent : list (bool * Datagram); bs_relayed : list (Z * Z * bytes) }.
Definition bind_sent (s : bind_state) (l : list (bool * Datagram)) : bind_state :=
  {| bs_pool := bs_pool s; bs_sent := bs_sent s ++ l; bs_relayed := bs_relayed s |}.

(** The pool gives back what was put there or makes a new address; a batch that is
    written without an error has written something, the messages in order; an error
    may come after some of them. *)
Definition bind_world T (e : bindE T) (s : bind_state) (r : T) (s' : bind_state) : Prop :=
  match e in bindE T return T -> Prop with
  | BRelay id kind data => λ r,
      match r with
      | inr _ => s' = {| bs_pool := bs_pool s; bs_sent := bs_sent s; bs_relayed := bs_relayed s ++ [(id, kind, data)] |}
      | inl err => s' = s /\ err <> ErrFuel
      end
  | BPoolGet => λ u,
      (u = new_UDPAddr /\ s' = s) \/
      exists l1 l2, bs_pool s = l1 ++ u :: l2 /\
        s' = {| bs_pool := l1 ++ l2; bs_sent := bs_sent s; bs_relayed := bs_relayed s |}
  | BPoolPut u => λ _, s' = {| bs_pool := u :: bs_pool s; bs_sent := bs_sent s; bs_relayed := bs_relayed s |}
  | BWriteBatch v6 msgs => λ r,
      match r.2 with
      | None => 0 <= r.1 <= Z.of_nat (length msgs) /\ (msgs <> [] -> 1 <= r.1) /\
                s' = bind_sent s (pair v6 <$> take (Z.to_nat r.1) msgs)
      | Some err => err <> ErrFuel /\ exists k, s' = bind_sent s (pair v6 <$> take k msgs)
      end
  | BWriteMsg v6 msg => λ r,
      match r with inr _ => s' = bind_sent s [(v6, msg)] | inl err => s' = s /\ err <> ErrFuel end
  | BCloseConn _ => λ r, s' = s
  end r.

Definition pooled_ok (u : UDPAddr) : Prop := length (ua_mem u) = 16%nat /\ (ua_len u = 4%nat \/ ua_len u = 16%nat).

Lemma new_pooled_ok : pooled_ok new_UDPAddr.
Proof. split; [done|by right]. Qed.

Lemma copy_IP_ok u src : pooled_ok u -> pooled_ok (copy_IP u src).
Proof.
  intros [Hm Hl]. split; [|done]. cbn. rewrite length_app, length_take, length_drop. lia.
Qed.

(** Of messages, the first [k] were written; all if there was no error. *)
Definition written (v6 : bool) (msgs : list Datagram) (s : bind_state) (r : gresult unit) (s' : bind_state) : Prop :=
  r <> inl ErrFuel /\ exists k, s' = bind_sent s (pair v6 <$> take k msgs) /\ (r = inr tt -> (length msgs <= k)%nat).

Lemma bind_sent_app s l1 l2 : bind_sent (bind_sent s l1) l2 = bind_sent s (l1 ++ l2).
Proof. unfold bind_sent. cbn. by rewrite app_assoc. Qed.

Lemma write_batches_inv v6 fuel : forall msgs s r s', (length msgs < fuel)%nat ->
  runs bind_world (write_batches fuel v6 msgs) s r s' -> written v6 msgs s r s'.
Proof.
  induction fuel as [|fuel IH]; intros msgs s r s' Hf Hr; [lia|].
  apply runs_bind_inv in Hr as ([n err] & s1 & Hw%runs_call_inv & Hr). cbn in Hw. destruct err as [err|].
  - destruct Hw as [Hne [k ->]]. apply runs_ret_inv in Hr as [-> ->]. split; [congruence|]. by exists k.
  - destruct Hw as ([H0 Hn] & H1 & ->). destruct (Z.eqb_spec n (Z.of_nat (length msgs))) as [E|Hne].
    + apply runs_ret_inv in Hr as [-> ->]. split; [done|]. exists (Z.to_nat n). split; [done|]. lia.
    + assert (msgs <> []) as Hm by (intros ->; cbn in *; lia). specialize (H1 Hm).
      apply IH in Hr as [Hfu (k & -> & Hk)]; [|rewrite length_drop; lia]. split; [done|].
      exists (Z.to_nat n + k)%nat. split.
      * by rewrite bind_sent_app, <- fmap_app, take_take_drop.
      * intros Hok. specialize (Hk Hok). rewrite length_drop in Hk. lia.
Qed.

Lemma write_each_inv v6 msgs : forall s r s', runs bind_world (write_each v6 msgs) s r s' -> written v6 msgs s r s'.
Proof.
  induction msgs as [|m msgs IH]; intros s r s' Hr.
  - apply runs_ret_inv in Hr as [-> ->]. split; [done|]. exists 0%nat. split; [|done].
    destruct s. unfold bind_sent. cbn. by rewrite app_nil_r.
  - apply runs_bind_inv in Hr as (w & s1 & Hw%runs_call_inv & Hr). cbn in Hw. destruct w as [err|[]].
    + destruct Hw as [-> Hne]. apply runs_ret_inv in Hr as [-> ->]. split; [congruence|]. exists 0%nat. split; [|done].
      destruct s. unfold bind_sent. cbn. by rewrite app_nil_r.
    + subst s1. apply IH in Hr as [Hfu (k & -> & Hk)]. split; [done|]. exists (S k). cbn.
      split; [by rewrite bind_sent_app|]. intros Hok. specialize (Hk Hok). lia.
Qed.

Lemma send_with_inv linux v6 ua bufs s r s' :
  runs bind_world (send_with linux v6 ua bufs) s r s' ->
  exists s1, written v6 (datagrams ua bufs) s r s1 /\
    s' = {| bs_pool := ua :: bs_pool s1; bs_sent := bs_sent s1; bs_relayed := bs_relayed s1 |}.
Proof.
  intros Hr. apply runs_bind_inv in Hr as (r1 & s1 & Hw & Hr).
  apply runs_bind_inv in Hr as ([] & s2 & Hp%runs_call_inv & Hr). cbn in Hp. apply runs_ret_inv in Hr as [-> ->].
  exists s1. split; [|done]. destruct linux; [eapply write_batches_inv; [|exact Hw]; lia|by apply write_each_inv].
Qed.

(** The pool before and after. *)
Lemma pool_get_inv s u s' : Forall pooled_ok (bs_pool s) -> runs bind_world (call BPoolGet) s u s' ->
  pooled_ok u /\ (u = new_UDPAddr \/ u ∈ bs_pool s) /\ Forall pooled_ok (bs_pool s') /\
  bs_sent s' = bs_sent s /\ bs_relayed s' = bs_relayed s.
Proof.
  intros Hp Hr%runs_call_inv. cbn in Hr. destruct Hr as [[-> ->]|(l1 & l2 & E & ->)].
  - split_and!; try done; [apply new_pooled_ok|by left].
  - rewrite E in Hp |- *. apply Forall_app in Hp as [Hp1 [Hu Hp2]%Forall_cons]. cbn. split_and!; try done.
    + right. apply elem_of_app. right. by left.
    + by apply Forall_app.
Qed.

(** The first [k] of the packets went to this destination, all without an error. *)
Definition sent_to (v6 : bool) (ip : bytes) (port : Z) (bufs : list bytes) (s : bind_state) (r : gresult unit)
    (s' : bind_state) : Prop :=
  bs_relayed s' = bs_relayed s /\
  exists k, bs_sent s' = bs_sent s ++ ((λ buf, (v6, {| dg_IP := ip; dg_Port := port; dg_Data := buf |})) <$> take k bufs) /\
    (r = inr tt -> (length bufs <= k)%nat).

Lemma written_sent v6 ua bufs s r s1 : written v6 (datagrams ua bufs) s r s1 ->
  r <> inl ErrFuel /\ bs_pool s1 = bs_pool s /\ sent_to v6 (ua_IP ua) (ua_Port ua) bufs s r s1.
Proof.
  intros [Hfu (k & -> & Hk)]. split_and!; [done..|]. split; [done|]. exists k. unfold datagrams in *.
  rewrite length_fmap in Hk. split; [|done]. cbn. by rewrite <- fmap_take, <- list_fmap_compose.
Qed.

Lemma send4_inv linux addr port bufs s r s' :
  Forall pooled_ok (bs_pool s) -> runs bind_world (send4 linux addr port bufs) s r s' ->
  r <> inl ErrFuel /\ Forall pooled_ok (bs_pool s') /\ sent_to false (be_bytes 4 addr) port bufs s r s'.
Proof.
  intros Hp Hr. apply runs_bind_inv in Hr as (u & s1 & Hg & Hr).
  apply pool_get_inv in Hg as ([Hm Hl] & _ & Hp1 & Es & Er); [|done].
  apply send_with_inv in Hr as (s2 & (Hfu & Epool & Hrel & k & Esent & Hk)%written_sent & ->).
  assert (Hmin : Nat.min (ua_len u) (length (be_bytes 4 addr)) = 4%nat).
  { rewrite length_be_bytes. destruct Hl as [-> | ->]; done. }
  split_and!; [done| |].
  - cbn [bs_pool]. rewrite Epool. constructor; [|done]. split; [|by left]. cbn [ua_mem copy_IP].
    rewrite Hmin, length_app, length_take, length_drop, length_be_bytes. lia.
  - split; [cbn; congruence|]. exists k. split; [|done]. cbn [bs_sent]. rewrite Esent, Es. do 2 f_equal.
    unfold ua_IP. cbn [ua_mem ua_len ua_Port copy_IP]. rewrite Hmin, (take_ge (be_bytes 4 addr)) by (by rewrite length_be_bytes).
    rewrite take_app_length' by (by rewrite length_be_bytes). done.
Qed.

(** The destination of an IPv6 packet is what the pooled address was, overwritten as
    far as it is long. *)
Lemma send6_inv linux addr bufs s r s' :
  Forall pooled_ok (bs_pool s) -> runs bind_world (send6 linux addr bufs) s r s' ->
  r <> inl ErrFuel /\ Forall pooled_ok (bs_pool s') /\
  exists u, (u = new_UDPAddr \/ u ∈ bs_pool s) /\
    sent_to true (take (ua_len u) (be_bytes 16 addr)) (ua_Port u) bufs s r s'.
Proof.
  intros Hp Hr. apply runs_bind_inv in Hr as (u & s1 & Hg & Hr).
  apply pool_get_inv in Hg as (Hu & Hin & Hp1 & Es & Er); [|done].
  apply send_with_inv in Hr as (s2 & (Hfu & Epool & Hrel & k & Esent & Hk)%written_sent & ->).
  split_and!; [done| |].
  - cbn [bs_pool]. rewrite Epool. constructor; [by apply copy_IP_ok|done].
  - exists u. split; [done|]. split; [cbn; congruence|]. exists k. split; [|done]. cbn [bs_sent]. rewrite Esent, Es.
    do 2 f_equal. unfold ua_IP. cbn [ua_mem ua_len ua_Port copy_IP]. destruct Hu as [Hm Hl]. rewrite length_be_bytes.
    replace (Nat.min (ua_len u) 16) with (ua_len u) by (destruct Hl; lia).
    rewrite take_app_length'; [done|]. rewrite length_take, length_be_bytes. destruct Hl; lia.
Qed.

Lemma relay_each_inv id bufs : forall s r s', runs bind_world (relay_each id bufs) s r s' ->
  r <> inl ErrFuel /\ bs_pool s' = bs_pool s /\ bs_sent s' = bs_sent s /\
  exists k, bs_relayed s' = bs_relayed s ++ ((λ buf, (id, WrrpForward, buf)) <$> take k bufs) /\
    (r = inr tt -> (length bufs <= k)%nat).
Proof.
  induction bufs as [|buf bufs IH]; intros s r s' Hr.
  - apply runs_ret_inv in Hr as [-> ->]. split_and!; try done. exists 0%nat. by rewrite app_nil_r.
  - apply runs_bind_inv in Hr as (w & s1 & Hw%runs_call_inv & Hr). cbn in Hw. destruct w as [err|[]].
    + destruct Hw as [-> Hne]. apply runs_ret_inv in Hr as [-> ->]. split_and!; try done; [congruence|].
      exists 0%nat. by rewrite app_nil_r.
    + subst s1. apply IH in Hr as (Hfu & Hp & Hs & k & Hrel & Hk). split_and!; try done. exists (S k).
      cbn in *. rewrite Hrel, <- app_assoc. split; [done|]. intros Hok. specialize (Hk Hok). lia.
Qed.

(** Where packets go.  With whatever the pool gives and however the system calls
    split a batch: packets for a relayed peer go to the relay with the peer's
    identifier and through no socket; packets for an IPv4 address go to exactly that
    address and port; in order, and all of them unless an error is returned, or the
    family is blackholed.  Packets for an IPv6 address instead go to the port, and
    to as many bytes of the address, as the pooled address happens to have: the
    port of the endpoint plays no role.  The loop over a batch ends. *)
Theorem Send_goes b bufs e s r s' :
  Forall pooled_ok (bs_pool s) -> runs bind_world (Send b bufs e) s r s' ->
  r <> inl ErrFuel /\ Forall pooled_ok (bs_pool s') /\
  match ep_Type e, ep_Addr e with
  | WRRP, _ => bs_sent s' = bs_sent s /\
      exists k, bs_relayed s' = bs_relayed s ++ ((λ buf, (ep_RemoteId e, WrrpForward, buf)) <$> take k bufs) /\
        (r = inr tt -> (length bufs <= k)%nat)
  | ICE, Some (Is4 addr, port) =>
      s' = s /\ (r = inr tt -> b_blackhole4 b = true) \/ sent_to false (be_bytes 4 addr) port bufs s r s'
  | ICE, Some (Is6 addr, _) =>
      s' = s /\ (r = inr tt -> b_blackhole6 b = true) \/
      exists u, (u = new_UDPAddr \/ u ∈ bs_pool s) /\
        sent_to true (take (ua_len u) (be_bytes 16 addr)) (ua_Port u) bufs s r s'
  | ICE, None => s' = s
  end.
Proof.
  intros Hp Hr. unfold Send in Hr. destruct (ep_Type e).
  - destruct (ep_Addr e) as [[[addr|addr] port]|].
    + destruct (b_blackhole4 b) eqn:Eb; [apply runs_ret_inv in Hr as [-> ->]; split_and!; [done..|by left]|].
      destruct (negb _); [apply runs_ret_inv in Hr as [-> ->]; split_and!; [done..|by left]|].
      apply send4_inv in Hr as (Hfu & Hp' & Hs); [|done]. split_and!; [done..|by right].
    + destruct (b_blackhole6 b) eqn:Eb; [apply runs_ret_inv in Hr as [-> ->]; split_and!; [done..|by left]|].
      destruct (negb _); [apply runs_ret_inv in Hr as [-> ->]; split_and!; [done..|by left]|].
      apply send6_inv in Hr as (Hfu & Hp' & Hs); [|done]. split_and!; [done..|by right].
    + destruct (b_blackhole4 b); [by apply runs_ret_inv in Hr as [-> ->]|].
      destruct (negb _); [by apply runs_ret_inv in Hr as [-> ->]|]. inversion Hr.
  - assert (Hgo : runs bind_world (relay_each (ep_RemoteId e) bufs) s r s').
    { destruct bufs; [exact Hr|]. destruct (b_wrrp b); [exact Hr|inversion Hr]. }
    apply relay_each_inv in Hgo as (Hfu & Epool & Es & Hk). split_and!; [done|by rewrite Epool|done|done].
Qed.

(** Sending does not panic when there is a relay client and a direct endpoint has an
    address. *)
Lemma Send_no_panic b bufs e :
  (ep_Type e = WRRP -> b_wrrp b = true) -> (ep_Type e = ICE -> ep_Addr e <> None) ->
  wp (λ _ _ _, True) (λ _ _, True) (Send b bufs e) (λ _, True).
Proof.
  assert (Hsend : forall linux v6 ua bufs, wp (λ _ _ _, True) (λ _ _, True) (send_with linux v6 ua bufs) (λ _, True)).
  { intros linux v6 ua bufs0. apply wp_bind. eapply (wp_mono _ _ _ (λ _, True)).
    - destruct linux.
      + generalize (datagrams ua bufs0) at 2. generalize (S (length (datagrams ua bufs0))). intros fuel.
        induction fuel as [|fuel IH]; intros msgs; [done|]. split; [done|]. intros [n [err|]] _; [done|].
        cbn. by destruct (n =? _).
      + induction (datagrams ua bufs0) as [|m msgs IH]; [done|]. split; [done|]. by intros [err|[]] _.
    - intros r _. by split. }
  intros Hw Hd. unfold Send. destruct (ep_Type e).
  - specialize (Hd eq_refl). destruct (ep_Addr e) as [[[addr|addr] port]|]; [| |done].
    + destruct (b_blackhole4 b), (b_ipv4 b); try done. split; [done|]. intros u _. apply Hsend.
    + destruct (b_blackhole6 b), (b_ipv6 b); try done. split; [done|]. intros u _. apply Hsend.
  - rewrite Hw by done. destruct bufs as [|buf bufs]; [done|]. generalize (buf :: bufs). intros l.
    induction l as [|x l IH]; [done|]. split; [done|]. by intros [err|[]] _.
Qed.

(** A system in which everything is written at once and the pool is a stack. *)
Definition plain_bind T (e : bindE T) (s : bind_state) : T * bind_state :=
  match e in bindE T return T * bind_state with
  | BRelay id kind data =>
      (inr tt, {| bs_pool := bs_pool s; bs_sent := bs_sent s; bs_relayed := bs_relayed s ++ [(id, kind, data)] |})
  | BPoolGet => match bs_pool s with
                | [] => (new_UDPAddr, s)
                | u :: l => (u, {| bs_pool := l; bs_sent := bs_sent s; bs_relayed := bs_relayed s |})
                end
  | BPoolPut u => (tt, {| bs_pool := u :: bs_pool s; bs_sent := bs_sent s; bs_relayed := bs_relayed s |})
  | BWriteBatch v6 msgs => ((Z.of_nat (length msgs), None), bind_sent s (pair v6 <$> msgs))
  | BWriteMsg v6 msg => (inr tt, bind_sent s [(v6, msg)])
  | BCloseConn _ => (inr tt, s)
  end.

Lemma plain_bind_world T (e : bindE T) s r s' : fun_world plain_bind T e s r s' -> bind_world T e s r s'.
Proof.
  unfold fun_world. destruct e as [id kind data| |u|v6 msgs|v6 msg|v6]; cbn; intros E; simplify_eq; try done.
  - destruct (bs_pool s) as [|u l] eqn:Ep; simplify_eq; [by left|]. right. by exists [], l.
  - cbn. split_and!; [lia|lia|destruct msgs; cbn; [done|lia]|]. by rewrite Nat2Z.id, firstn_all.
Qed.

Definition open_bind : DefaultBind := {|
  b_v4conn := true; b_v6conn := true; b_wrrp := true; b_ipv4 := true; b_ipv6 := true; b_blackhole4 := false;
  b_blackhole6 := false; b_linux := true |}.
Definition no_packets : bind_state := {| bs_pool := []; bs_sent := []; bs_relayed := [] |}.
(** 192.0.2.1:1000 and [2001:db8::1]:51820. *)
Definition peer_v4 : WRRPEndpoint := {| ep_Addr := Some (Is4 (be_value [192; 0; 2; 1]), 1000); ep_RemoteId := 0; ep_Type := ICE |}.
Definition peer_v6 : WRRPEndpoint := {|
  ep_Addr := Some (Is6 (be_value ([0x20; 0x01; 0x0d; 0xb8] ++ replicate 11 0 ++ [1])), 51820); ep_RemoteId := 0; ep_Type := ICE |}.

Lemma Send_goes_witness :
  let r := run plain_bind (Send open_bind [[1; 2]; [3]] peer_v4) no_packets in
  runs bind_world (Send open_bind [[1; 2]; [3]] peer_v4) no_packets (inr tt) r.2 /\
  (inr tt <> inl ErrFuel :> gresult unit) /\ Forall pooled_ok (bs_pool r.2) /\
  (r.2 = no_packets /\ (inr tt = inr tt :> gresult unit -> b_blackhole4 open_bind = true) \/
   sent_to false (be_bytes 4 (be_value [192; 0; 2; 1])) 1000 [[1; 2]; [3]] no_packets (inr tt) r.2).
Proof.
  cbv zeta. match goal with |- ?R /\ _ => assert (Hr : R) end.
  { assert (Hf : runs (fun_world plain_bind) (Send open_bind [[1; 2]; [3]] peer_v4) no_packets (inr tt)
      (run plain_bind (Send open_bind [[1; 2]; [3]] peer_v4) no_packets).2) by (apply run_runs; vm_compute; reflexivity).
    clear -Hf. induction Hf as [|T e k s r s1 a s2 He Hr IH]; [constructor|]. econstructor; [|exact IH].
    by apply plain_bind_world. }
  split; [exact Hr|].
  exact (Send_goes open_bind [[1; 2]; [3]] peer_v4 no_packets (inr tt) _ (Forall_nil_2 _) Hr).
Defined.

(** IPv6 packets go to port 0; and after an IPv4 packet, to the first four bytes of the
    IPv6 address as an IPv4 address, at the port of the other peer. *)
Example v6_misdirected :
  (λ d, (dg_IP d.2, dg_Port d.2)) <$> bs_sent (run plain_bind (Send open_bind [[1]] peer_v6) no_packets).2 =
    [(be_bytes 16 (be_value ([0x20; 0x01; 0x0d; 0xb8] ++ replicate 11 0 ++ [1])), 0)] /\
  (λ d, (dg_IP d.2, dg_Port d.2)) <$>
    bs_sent (run plain_bind (_ ← Send open_bind [[1]] peer_v4; Send open_bind [[2]] peer_v6) no_packets).2 =
    [([192; 0; 2; 1], 1000); ([0x20; 0x01; 0x0d; 0xb8], 1000)].
Proof. split; vm_compute; reflexivity. Qed.

(** A bind that is closed and opened again works with the sockets it has closed. *)
Lemma reopened_bind b w port : b_v4conn b = true -> b_ipv4 b = true -> b_wrrp b = true ->
  may_return (c ← Close b; Open w port c.2)
    (inr ((if b_v4conn b then [ReceiveIPv4] else []) ++ (if b_v6conn b then [ReceiveIPv6] else []) ++
          (if w then [ReceiveWrrp] else []), port),
     {| b_v4conn := b_v4conn b; b_v6conn := b_v6conn b; b_wrrp := b_wrrp b; b_ipv4 := true; b_ipv6 := b_v6conn b;
        b_blackhole4 := false; b_blackhole6 := false; b_linux := b_linux b |}).
Proof.
  intros E1 E2 E3. apply may_return_bind. eexists (inr tt, _). split.
  - unfold Close. rewrite E2. exists (inr tt). destruct (b_ipv6 b); [exists (inr tt)|]; reflexivity.
  - cbn. unfold Open, bind_with_open. cbn. rewrite E1. destruct (b_v6conn b), w; cbn; rewrite ?E3; reflexivity.
Qed.

(** ** Endpoints as text *)

Section endpoint_facts.
Context `{AddrPortText}.

(** An endpoint that is written and read again leads to the same place.  A direct
    address comes back as it was; the fake address of a relayed peer gives the peer
    it stands for. *)
Lemma ParseEndpoint_direct relay a :
  has_prefix "wrrp:" (show_AddrPort a) = false -> Wrrp.IsWrrpFakeAddr a.1 = false ->
  let e := {| ep_Addr := Some a; ep_RemoteId := 0; ep_Type := ICE |} in
  ParseEndpoint relay (DstToString e) = inr e.
Proof. intros Hp Hf. unfold ParseEndpoint, DstToString. cbn [ep_Addr]. by rewrite Hp, parse_show_AddrPort, Hf. Qed.

Lemma ParseEndpoint_relayed relay id :
  0 <= id < 2 ^ 64 -> has_prefix "wrrp:" (show_AddrPort (Wrrp.WrrpFakeAddrPort id)) = false ->
  let e := {| ep_Addr := Some (Wrrp.WrrpFakeAddrPort id); ep_RemoteId := id; ep_Type := WRRP |} in
  ParseEndpoint relay (DstToString e) = inr e.
Proof.
  intros Hid Hp. unfold ParseEndpoint, DstToString. cbn [ep_Addr]. rewrite Hp, parse_show_AddrPort.
  assert (Hb : forall l, take 6 (Wrrp.wrrpFakePrefix ++ l) = take 6 Wrrp.wrrpFakePrefix) by done.
  assert (Hf : Wrrp.IsWrrpFakeAddr (Wrrp.WrrpFakeAddrPort id).1 = true).
  { unfold Wrrp.IsWrrpFakeAddr, Wrrp.WrrpFakeAddrPort. cbn [fst]. apply bool_decide_eq_true_2.
    change (Wrrp.addr_bytes (Is6 (be_value (Wrrp.wrrpFakePrefix ++ be_bytes 8 id))))
      with (Wrrp.addr_bytes (Wrrp.WrrpFakeAddrPort id).1). by rewrite Wrrp.fake_addr_bytes. }
  rewrite Hf. do 2 f_equal. unfold Wrrp.RemoteIdFromWrrpFakeAddr. rewrite Wrrp.fake_addr_bytes.
  change (drop 8 (Wrrp.wrrpFakePrefix ++ be_bytes 8 id)) with (be_bytes 8 id).
  rewrite be_value_bytes. apply Z.mod_small. lia.
Qed.
End endpoint_facts.

(** ** The reader of a socket *)

Record Packet := { pkt_Data : bytes; pkt_Addr : netip * Z }.

Section mux.
(** [stun.IsMessage]; the capacity of the channel to WireGuard, if one was set. *)
Context (is_stun : bytes -> bool) (pass_size : option nat).

(** The channel to ICE ([ChanPacketConn]) and the one to WireGuard, whether the former
    was closed, and the count of dropped packets; what was read, and what ICE and
    WireGuard took so far. *)
Record mux_state := {
  mx_recvCh : list Packet;
  mx_pass : list Packet;
  mx_done : bool;
  mx_dropped : Z;
  mx_read : list Packet;
  mx_ice : list Packet;
  mx_wg : list Packet;
}.
Definition mux_start : mux_state := {|
  mx_recvCh := []; mx_pass := []; mx_done := false; mx_dropped := 0; mx_read := []; mx_ice := []; mx_wg := [] |}.

Definition recv_size : nat := 256.
(** The reader's buffer. *)
Definition read_packet (p : Packet) : Packet := {| pkt_Data := take 2048 (pkt_Data p); pkt_Addr := pkt_Addr p |}.
Definition stun_packet (p : Packet) : bool := is_stun (pkt_Data p).

(** [inject]: blocks while the channel is full, unless it is closed; when both cases
    of its [select] are ready either is taken ([keep]).  [None]: blocked. *)
Definition inject (keep : bool) (p : Packet) (s : mux_state) : option mux_state :=
  let room := bool_decide (length (mx_recvCh s) < recv_size)%nat in
  if room && (keep || negb (mx_done s)) then
    Some {| mx_recvCh := mx_recvCh s ++ [p]; mx_pass := mx_pass s; mx_done := mx_done s; mx_dropped := mx_dropped s;
            mx_read := mx_read s ++ [p]; mx_ice := mx_ice s; mx_wg := mx_wg s |}
  else if mx_done s then
    Some {| mx_recvCh := mx_recvCh s; mx_pass := mx_pass s; mx_done := mx_done s; mx_dropped := mx_dropped s;
            mx_read := mx_read s ++ [p]; mx_ice := mx_ice s; mx_wg := mx_wg s |}
  else None.

(** A packet that is not STUN: dropped when the channel is full. *)
Definition pass_through (p : Packet) (s : mux_state) : mux_state :=
  let room := match pass_size with Some n => bool_decide (length (mx_pass s) < n)%nat | None => false end in
  {| mx_recvCh := mx_recvCh s; mx_pass := if room then mx_pass s ++ [p] else mx_pass s; mx_done := mx_done s;
     mx_dropped := if room || bool_decide (pass_size = None) then mx_dropped s else u64 (mx_dropped s + 1);
     mx_read := mx_read s ++ [p]; mx_ice := mx_ice s; mx_wg := mx_wg s |}.

(** One turn of [readLoop]. *)
Definition readLoop_turn (keep : bool) (p : Packet) (s : mux_state) : option mux_state :=
  let p := read_packet p in
  if stun_packet p then inject keep p s else Some (pass_through p s).

(** The reader, ICE's reader, WireGuard's receive function and [Close] interleave. *)
Inductive mux_step : mux_state -> mux_state -> Prop :=
| mux_turn keep p s s' : readLoop_turn keep p s = Some s' -> mux_step s s'
| mux_ice_read p l s : mx_recvCh s = p :: l -> mux_step s {|
    mx_recvCh := l; mx_pass := mx_pass s; mx_done := mx_done s; mx_dropped := mx_dropped s; mx_read := mx_read s;
    mx_ice := mx_ice s ++ [p]; mx_wg := mx_wg s |}
| mux_wg_receive p l s : mx_pass s = p :: l -> mux_step s {|
    mx_recvCh := mx_recvCh s; mx_pass := l; mx_done := mx_done s; mx_dropped := mx_dropped s; mx_read := mx_read s;
    mx_ice := mx_ice s; mx_wg := mx_wg s ++ [p] |}
| mux_close s : mux_step s {|
    mx_recvCh := mx_recvCh s; mx_pass := mx_pass s; mx_done := true; mx_dropped := mx_dropped s; mx_read := mx_read s;
    mx_ice := mx_ice s; mx_wg := mx_wg s |}.

Definition stun_read (s : mux_state) : list Packet := filter (λ p, stun_packet p = true) (mx_read s).
Definition other_read (s : mux_state) : list Packet := filter (λ p, stun_packet p = false) (mx_read s).

Record mux_ok (s : mux_state) : Prop := {
  mo_stun : sublist (mx_ice s ++ mx_recvCh s) (stun_read s);
  mo_stun_all : mx_done s = false -> mx_ice s ++ mx_recvCh s = stun_read s;
  mo_other : sublist (mx_wg s ++ mx_pass s) (other_read s);
  mo_count : pass_size <> None ->
    mx_dropped s = u64 (Z.of_nat (length (other_read s)) - Z.of_nat (length (mx_wg s ++ mx_pass s)));
  mo_recv : (length (mx_recvCh s) <= recv_size)%nat;
  mo_pass : (length (mx_pass s) <= default 0%nat pass_size)%nat;
}.

(** A packet read last is kept or left out. *)
Lemma last_kept (keep : Packet -> Prop) `{forall q, Decision (keep q)} read p :
  keep p -> filter keep (read ++ [p]) = filter keep read ++ [p].
Proof. intros Hp. rewrite filter_app, filter_cons. by rewrite decide_True. Qed.
Lemma last_left_out (keep : Packet -> Prop) `{forall q, Decision (keep q)} read p :
  ~ keep p -> filter keep (read ++ [p]) = filter keep read.
Proof. intros Hp. rewrite filter_app, filter_cons, decide_False by done. apply app_nil_r. Qed.

Lemma u64_succ a b : a = u64 b -> u64 (a + 1) = u64 (b + 1).
Proof. intros ->. unfold u64. by rewrite Z.add_mod_idemp_l. Qed.

Lemma mux_turn_ok keep p s s' : mux_ok s -> readLoop_turn keep p s = Some s' -> mux_ok s'.
Proof.
  intros [Hs Ha Ho Hc Hr Hp] E. unfold readLoop_turn in E. cbv zeta in E. set (p' := read_packet p) in *.
  destruct (stun_packet p') eqn:Est.
  - assert (Hno : other_read {| mx_recvCh := []; mx_pass := []; mx_done := false; mx_dropped := 0;
        mx_read := mx_read s ++ [p']; mx_ice := []; mx_wg := [] |} = other_read s).
    { unfold other_read. cbn. apply last_left_out. congruence. }
    assert (Hyes : forall x, mx_read x = mx_read s ++ [p'] -> stun_read x = stun_read s ++ [p']).
    { intros x Ex. unfold stun_read. rewrite Ex. by apply last_kept. }
    unfold inject in E. cbv zeta in E. destruct (_ && _) eqn:Eroom.
    + apply andb_true_iff in Eroom as [Hroom%bool_decide_eq_true_1 _]. injection E as <-.
      split; cbn [mx_ice mx_recvCh mx_done mx_wg mx_pass mx_dropped]; try done.
      * rewrite Hyes, app_assoc by done. by apply sublist_app.
      * intros Hd. rewrite Hyes, app_assoc by done. by rewrite Ha.
      * unfold other_read in *. cbn in Hno |- *. by rewrite Hno.
      * unfold other_read in *. cbn in Hno |- *. by rewrite Hno.
      * rewrite length_app. cbn. lia.
    + destruct (mx_done s) eqn:Ed; [|done]. injection E as <-.
      split; cbn [mx_ice mx_recvCh mx_done mx_wg mx_pass mx_dropped]; try done.
      * rewrite Hyes by done. by apply sublist_inserts_r.
      * unfold other_read in *. cbn in Hno |- *. by rewrite Hno.
      * unfold other_read in *. cbn in Hno |- *. by rewrite Hno.
  - injection E as <-. assert (Hno : stun_read (pass_through p' s) = stun_read s).
    { unfold stun_read. cbn. apply last_left_out. congruence. }
    assert (Hyes : other_read (pass_through p' s) = other_read s ++ [p']).
    { unfold other_read. cbn. by apply last_kept. }
    unfold pass_through in *. cbv zeta in *.
    destruct (match pass_size with Some n => _ | None => _ end) eqn:Eroom;
      split; rewrite ?Hno, ?Hyes; cbn [mx_ice mx_recvCh mx_done mx_wg mx_pass mx_dropped orb]; try done.
    + rewrite app_assoc. by apply sublist_app.
    + intros Hn. rewrite Hc by done. rewrite !length_app. cbn. f_equal. lia.
    + destruct pass_size as [n|]; [|done]. apply bool_decide_eq_true_1 in Eroom. rewrite length_app. cbn. lia.
    + by apply sublist_inserts_r.
    + intros Hn. rewrite bool_decide_false by done. rewrite (u64_succ _ _ (Hc Hn)), !length_app. cbn. f_equal. lia.
Qed.

(** Sorting packets.  However the reader, ICE, WireGuard and [Close] interleave: ICE
    gets the STUN packets of the socket and nothing else, in order, and all of them
    until the mux is closed; WireGuard gets other packets and nothing else, in
    order, and the counter tells (modulo 2^64) how many it missed; the channels
    stay within their capacity. *)
Theorem mux_sorts s :
  rtc mux_step mux_start s ->
  sublist (mx_ice s ++ mx_recvCh s) (stun_read s) /\
  (mx_done s = false -> mx_ice s ++ mx_recvCh s = stun_read s) /\
  sublist (mx_wg s ++ mx_pass s) (other_read s) /\
  (pass_size <> None ->
     mx_dropped s = u64 (Z.of_nat (length (other_read s)) - Z.of_nat (length (mx_wg s ++ mx_pass s)))) /\
  (length (mx_recvCh s) <= recv_size)%nat /\ (length (mx_pass s) <= default 0%nat pass_size)%nat.
Proof.
  intros Hr. assert (Hok : mux_ok s).
  { assert (H0 : mux_ok mux_start) by (split; cbn; try done; lia).
    revert H0 Hr. generalize mux_start. intros s0 H0 Hr. induction Hr as [|s0 s1 s Hst Hr IH]; [done|].
    apply IH. clear IH Hr. destruct Hst as [keep p s0 s1 E|p l s0 E|p l s0 E|s0]; [by eapply mux_turn_ok| | |];
      destruct H0 as [Hs Ha Ho Hc Hr Hp]; split; cbn; try done; rewrite ?E in *; rewrite <- ?app_assoc in *; cbn in *;
      try done; lia. }
  by destruct Hok.
Qed.

(** *** Stopping *)

(** [net.ErrClosed], which sockets return wrapped. *)
Definition ErrClosed : gerror := ErrText "use of closed network connection".

(** The loop over what the socket returns; [None]: it still runs. *)
Fixpoint readLoop (reads : list (gresult Packet)) : option unit :=
  match reads with
  | [] => None
  | inl err :: reads => if bool_decide (err = ErrClosed) then Some tt else readLoop reads
  | inr _ :: reads => readLoop reads
  end.

(** The loop compares errors without unwrapping them: when a socket is closed its
    reader spins, and [Close], which waits for it, does not return. *)
Lemma readLoop_spins n msg : readLoop (replicate n (inl (ErrWrap msg ErrClosed))) = None.
Proof. induction n as [|n IH]; [done|]. cbn. exact IH. Qed.
End mux.

Definition sample_stun (data : bytes) : bool := bool_decide (head data = Some 0).
Definition sample_packet (d : Z) : Packet := {| pkt_Data := [d]; pkt_Addr := (Is4 1, 5) |}.
Definition sample_turn (d : Z) (s : mux_state) : mux_state :=
  default s (readLoop_turn sample_stun (Some 1%nat) true (sample_packet d) s).
Definition mux1 : mux_state := Eval vm_compute in sample_turn 4 mux_start.
Definition mux2 : mux_state := Eval vm_compute in sample_turn 0 mux1.
Definition mux3 : mux_state := Eval vm_compute in sample_turn 6 mux2.

Lemma mux_sorts_witness :
  rtc (mux_step sample_stun (Some 1%nat)) mux_start mux3 /\
  mx_recvCh mux3 = [sample_packet 0] /\ mx_pass mux3 = [sample_packet 4] /\ mx_dropped mux3 = 1 /\
  sublist (mx_wg mux3 ++ mx_pass mux3) (other_read sample_stun mux3).
Proof.
  assert (Hr : rtc (mux_step sample_stun (Some 1%nat)) mux_start mux3).
  { apply (rtc_l _ _ mux1); [apply (mux_turn _ _ true (sample_packet 4)); vm_compute; reflexivity|].
    apply (rtc_l _ _ mux2); [apply (mux_turn _ _ true (sample_packet 0)); vm_compute; reflexivity|].
    apply (rtc_l _ _ mux3); [apply (mux_turn _ _ true (sample_packet 6)); vm_compute; reflexivity|]. apply rtc_refl. }
  split; [exact Hr|]. split; [reflexivity|]. split; [reflexivity|]. split; [reflexivity|].
  destruct (mux_sorts sample_stun (Some 1%nat) mux3 Hr) as (_ & _ & H & _). exact H.
Defined.
