(* ===== verification/Store.v ===== *)
(** * Store: the management server's database
    ([internal/server/models], [internal/server/repository],
    [internal/db/gormstore])

    The rows of the tables, the scopes queries are built from, and the repository
    methods as programs whose calls are the statements gorm executes.  What gorm
    and the database do with a statement is stated as laws ([GormDB]); any
    statement may also fail.  The timestamps that gorm maintains by itself
    ([CreatedAt], [UpdatedAt]) are left out. *)

From Stdlib Require Import SpecFloat.
From S2P Require Import Prelude Prog Net Api.

(** ** Rows ([models]) *)

(** [m_deleted]: [DeletedAt] is set. *)
Record Model := { m_ID : string; m_deleted : bool }.
Definition new_model : Model := {| m_ID := ""; m_deleted := false |}.
Definition with_id (id : string) : Model := {| m_ID := id; m_deleted := false |}.

Definition RoleAdmin : string := "admin".
Definition RoleEditor : string := "editor".
Definition RoleMember : string := "member".
Definition RoleViewer : string := "viewer".
Definition SystemRolePlatformAdmin : string := "platform_admin".
Definition SystemRoleUser : string := "user".

(** [dto.GetRoleWeight]: a role that is not in the map weighs nothing. *)
Definition GetRoleWeight (role : string) : Z :=
  if bool_decide (role = RoleAdmin) then 100
  else if bool_decide (role = RoleEditor) then 80
  else if bool_decide (role = RoleMember) then 40
  else if bool_decide (role = RoleViewer) then 10
  else 0.

Record User := {
  u_Model : Model;
  u_SystemRole : string;
  u_Username : string;
  u_Password : string;
  u_Mobile : string;
  u_Email : string;
  u_Avatar : string;
  u_Address : string;
  u_Gender : Z;
}.

Definition new_user : User := {|
  u_Model := new_model; u_SystemRole := ""; u_Username := ""; u_Password := ""; u_Mobile := ""; u_Email := "";
  u_Avatar := ""; u_Address := ""; u_Gender := 0 |}.

Record UserIdentity := {
  id_Model : Model;
  id_UserID : string;
  id_Provider : string;
  id_ExternalID : string;
  id_Email : string;
}.

Definition MemberStatusActive : string := "active".
Definition MemberStatusPending : string := "pending".
Definition MemberStatusSuspended : string := "suspended".
Definition MemberStatusRemoved : string := "removed".

Record WorkspaceMember := {
  wm_Model : Model;
  wm_WorkspaceID : string;
  wm_UserID : string;
  wm_Role : string;
  wm_Status : string;
  wm_InvitedBy : string;
  wm_JoinedAt : option Z;
}.

Record Workspace := {
  ws_Model : Model;
  ws_Slug : string;
  ws_Namespace : string;
  ws_DisplayName : string;
  ws_Status : string;
  ws_CreatedBy : string;
  ws_UpdatedBy : string;
}.

Definition new_workspace : Workspace := {|
  ws_Model := new_model; ws_Slug := ""; ws_Namespace := ""; ws_DisplayName := ""; ws_Status := "";
  ws_CreatedBy := ""; ws_UpdatedBy := "" |}.

(** [SetNamespace]. *)
Definition SetNamespace (w : Workspace) (ns : string) : Workspace :=
  if bool_decide (ws_Namespace w = "") then
    {| ws_Model := ws_Model w; ws_Slug := ws_Slug w; ws_Namespace := ns; ws_DisplayName := ws_DisplayName w;
       ws_Status := ws_Status w; ws_CreatedBy := ws_CreatedBy w; ws_UpdatedBy := ws_UpdatedBy w |}
  else w.

Record WorkspaceInvitation := {
  inv_Model : Model;
  inv_WorkspaceID : string;
  inv_InviterID : string;
  inv_Email : string;
  inv_Role : string;
  inv_Token : string;
  inv_Status : string;
  inv_ExpiresAt : Z;
}.

Definition WorkflowStatusPending : string := "pending".
Definition WorkflowStatusApproved : string := "approved".
Definition WorkflowStatusRejected : string := "rejected".
Definition WorkflowStatusExecuted : string := "executed".
Definition WorkflowStatusFailed : string := "failed".

Record WorkflowRequest := {
  wr_ID : string;
  wr_WorkspaceID : string;
  wr_RequestedBy : string;
  wr_RequestedByName : string;
  wr_RequestedByEmail : string;
  wr_ResourceType : string;
  wr_ResourceName : string;
  wr_Action : string;
  wr_Payload : string;
  wr_Status : string;
  wr_ReviewedBy : string;
  wr_ReviewedByName : string;
  wr_ReviewedAt : option Z;
  wr_ReviewNote : string;
  wr_ExecutedAt : option Z;
  wr_ErrorMessage : string;
}.

Definition PolicyStatusPending : string := "pending".
Definition PolicyStatusActive : string := "active".
Definition PolicyStatusFailed : string := "failed".

(** [models.Policy]; the types and the specification are JSON texts. *)
Record PolicyRow := {
  po_Model : Model;
  po_WorkspaceID : string;
  po_Name : string;
  po_Description : string;
  po_Action : string;
  po_PolicyTypes : string;
  po_Spec : string;
  po_Status : string;
  po_WorkflowRequestID : string;
  po_ErrorMessage : string;
  po_CreatedBy : string;
  po_CreatedByName : string;
  po_UpdatedBy : string;
  po_UpdatedByName : string;
}.

Definition policy_with_model (r : PolicyRow) (m : Model) : PolicyRow := {|
  po_Model := m; po_WorkspaceID := po_WorkspaceID r; po_Name := po_Name r; po_Description := po_Description r;
  po_Action := po_Action r; po_PolicyTypes := po_PolicyTypes r; po_Spec := po_Spec r; po_Status := po_Status r;
  po_WorkflowRequestID := po_WorkflowRequestID r; po_ErrorMessage := po_ErrorMessage r;
  po_CreatedBy := po_CreatedBy r; po_CreatedByName := po_CreatedByName r; po_UpdatedBy := po_UpdatedBy r;
  po_UpdatedByName := po_UpdatedByName r |}.
Definition policy_with_status (r : PolicyRow) (status err : string) : PolicyRow := {|
  po_Model := po_Model r; po_WorkspaceID := po_WorkspaceID r; po_Name := po_Name r;
  po_Description := po_Description r; po_Action := po_Action r; po_PolicyTypes := po_PolicyTypes r;
  po_Spec := po_Spec r; po_Status := status; po_WorkflowRequestID := po_WorkflowRequestID r;
  po_ErrorMessage := err; po_CreatedBy := po_CreatedBy r; po_CreatedByName := po_CreatedByName r;
  po_UpdatedBy := po_UpdatedBy r; po_UpdatedByName := po_UpdatedByName r |}.

(** Alerts; a [float64] is a binary64 number of [SpecFloat], and times are in
    nanoseconds. *)
Record AlertRule := {
  ar_Model : Model;
  ar_Name : string;
  ar_WorkspaceID : string;
  ar_Enabled : bool;
  ar_MetricType : string;
  ar_Operator : string;
  ar_Threshold : spec_float;
  ar_Duration : string;
  ar_Lookback : string;
  ar_GroupBy : string;
  ar_ForEach : bool;
  ar_Channels : string;
  ar_Severity : string;
  ar_Message : string;
  ar_SilenceUntil : option Z;
  ar_MuteTimeRules : string;
}.
Record AlertHistory := {
  ah_Model : Model;
  ah_RuleID : string;
  ah_WorkspaceID : string;
  ah_Status : string;
  ah_Severity : string;
  ah_Labels : string;
  ah_Value : spec_float;
  ah_Message : string;
  ah_StartedAt : Z;
  ah_EndedAt : option Z;
  ah_Notified : bool;
}.
Record AlertChannel := {
  ach_Model : Model;
  ach_Name : string;
  ach_WorkspaceID : string;
  ach_Type : string;
  ach_Config : string;
  ach_Enabled : bool;
}.
Record AlertSilence := {
  sil_Model : Model;
  sil_WorkspaceID : string;
  sil_CreatedBy : string;
  sil_Matchers : string;
  sil_Comment : string;
  sil_StartsAt : Z;
  sil_EndsAt : Z;
}.

Definition rule_with_model (r : AlertRule) (m : Model) : AlertRule := {|
  ar_Model := m; ar_Name := ar_Name r; ar_WorkspaceID := ar_WorkspaceID r; ar_Enabled := ar_Enabled r;
  ar_MetricType := ar_MetricType r; ar_Operator := ar_Operator r; ar_Threshold := ar_Threshold r;
  ar_Duration := ar_Duration r; ar_Lookback := ar_Lookback r; ar_GroupBy := ar_GroupBy r;
  ar_ForEach := ar_ForEach r; ar_Channels := ar_Channels r; ar_Severity := ar_Severity r;
  ar_Message := ar_Message r; ar_SilenceUntil := ar_SilenceUntil r; ar_MuteTimeRules := ar_MuteTimeRules r |}.
Definition history_with_model (r : AlertHistory) (m : Model) : AlertHistory := {|
  ah_Model := m; ah_RuleID := ah_RuleID r; ah_WorkspaceID := ah_WorkspaceID r; ah_Status := ah_Status r;
  ah_Severity := ah_Severity r; ah_Labels := ah_Labels r; ah_Value := ah_Value r; ah_Message := ah_Message r;
  ah_StartedAt := ah_StartedAt r; ah_EndedAt := ah_EndedAt r; ah_Notified := ah_Notified r |}.
Definition channel_with_model (r : AlertChannel) (m : Model) : AlertChannel := {|
  ach_Model := m; ach_Name := ach_Name r; ach_WorkspaceID := ach_WorkspaceID r; ach_Type := ach_Type r;
  ach_Config := ach_Config r; ach_Enabled := ach_Enabled r |}.
Definition silence_with_model (r : AlertSilence) (m : Model) : AlertSilence := {|
  sil_Model := m; sil_WorkspaceID := sil_WorkspaceID r; sil_CreatedBy := sil_CreatedBy r;
  sil_Matchers := sil_Matchers r; sil_Comment := sil_Comment r; sil_StartsAt := sil_StartsAt r;
  sil_EndsAt := sil_EndsAt r |}.

(** A profile is keyed by its user, and is never deleted. *)
Record UserProfile := {
  up_UserID : string;
  up_Title : string;
  up_Company : string;
  up_Bio : string;
  up_Timezone : string;
  up_Language : string;
  up_EmailNotify : bool;
}.
Record CustomMetric := {
  cm_Model : Model;
  cm_Name : string;
  cm_WorkspaceID : string;
  cm_Query : string;
  cm_Type : string;
  cm_ResultType : string;
  cm_Labels : string;
  cm_CreatedBy : string;
}.
Definition metric_with_model (r : CustomMetric) (m : Model) : CustomMetric := {|
  cm_Model := m; cm_Name := cm_Name r; cm_WorkspaceID := cm_WorkspaceID r; cm_Query := cm_Query r; cm_Type := cm_Type r;
  cm_ResultType := cm_ResultType r; cm_Labels := cm_Labels r; cm_CreatedBy := cm_CreatedBy r |}.

Inductive table :=
| TUser | TIdentity | TMember | TWorkspace | TInvitation | TWorkflow | TPolicy
| TRule | THistory | TChannel | TSilence | TProfile | TMetric.
#[global] Instance table_eq_dec : EqDecision table.
Proof. solve_decision. Defined.

Definition row (t : table) : Type :=
  match t with
  | TUser => User | TIdentity => UserIdentity | TMember => WorkspaceMember | TWorkspace => Workspace
  | TInvitation => WorkspaceInvitation | TWorkflow => WorkflowRequest | TPolicy => PolicyRow
  | TRule => AlertRule | THistory => AlertHistory | TChannel => AlertChannel | TSilence => AlertSilence
  | TProfile => UserProfile | TMetric => CustomMetric
  end.

(** A workflow request has no [DeletedAt], and neither has a profile. *)
Definition row_model (t : table) : row t -> Model :=
  match t with
  | TUser => u_Model | TIdentity => id_Model | TMember => wm_Model | TWorkspace => ws_Model
  | TInvitation => inv_Model | TWorkflow => λ r, with_id (wr_ID r) | TPolicy => po_Model
  | TRule => ar_Model | THistory => ah_Model | TChannel => ach_Model | TSilence => sil_Model
  | TProfile => λ r, with_id (up_UserID r) | TMetric => cm_Model
  end.

Definition row_id (t : table) (r : row t) : string := m_ID (row_model t r).
Definition live (t : table) (r : row t) : bool := negb (m_deleted (row_model t r)).

(** The columns that queries name; a truth value as its text. *)
Definition bool_text (b : bool) : string := if b then "true" else "false".
Definition column (t : table) (c : string) : row t -> string :=
  let id := bool_decide (c = "id") in
  match t with
  | TUser => λ r, if id then row_id TUser r else if bool_decide (c = "username") then u_Username r
                  else if bool_decide (c = "email") then u_Email r else ""
  | TIdentity => λ r, if id then row_id TIdentity r else if bool_decide (c = "user_id") then id_UserID r
                  else if bool_decide (c = "provider") then id_Provider r
                  else if bool_decide (c = "external_id") then id_ExternalID r else ""
  | TMember => λ r, if id then row_id TMember r else if bool_decide (c = "workspace_id") then wm_WorkspaceID r
                  else if bool_decide (c = "user_id") then wm_UserID r
                  else if bool_decide (c = "status") then wm_Status r else ""
  | TWorkspace => λ r, if id then row_id TWorkspace r else if bool_decide (c = "namespace") then ws_Namespace r
                  else if bool_decide (c = "slug") then ws_Slug r
                  else if bool_decide (c = "display_name") then ws_DisplayName r else ""
  | TInvitation => λ r, if id then row_id TInvitation r
                  else if bool_decide (c = "workspace_id") then inv_WorkspaceID r
                  else if bool_decide (c = "token") then inv_Token r
                  else if bool_decide (c = "email") then inv_Email r
                  else if bool_decide (c = "status") then inv_Status r else ""
  | TWorkflow => λ r, if id then row_id TWorkflow r
                  else if bool_decide (c = "workspace_id") then wr_WorkspaceID r
                  else if bool_decide (c = "requested_by") then wr_RequestedBy r
                  else if bool_decide (c = "resource_type") then wr_ResourceType r
                  else if bool_decide (c = "action") then wr_Action r
                  else if bool_decide (c = "status") then wr_Status r else ""
  | TPolicy => λ r, if id then row_id TPolicy r
                  else if bool_decide (c = "workspace_id") then po_WorkspaceID r
                  else if bool_decide (c = "name") then po_Name r
                  else if bool_decide (c = "description") then po_Description r
                  else if bool_decide (c = "status") then po_Status r else ""
  | TRule => λ r, if id then row_id TRule r else if bool_decide (c = "workspace_id") then ar_WorkspaceID r
                  else if bool_decide (c = "enabled") then bool_text (ar_Enabled r) else ""
  | THistory => λ r, if id then row_id THistory r else if bool_decide (c = "workspace_id") then ah_WorkspaceID r else ""
  | TChannel => λ r, if id then row_id TChannel r else if bool_decide (c = "workspace_id") then ach_WorkspaceID r else ""
  | TSilence => λ r, if id then row_id TSilence r else if bool_decide (c = "workspace_id") then sil_WorkspaceID r else ""
  | TProfile => λ r, if bool_decide (c = "user_id") then up_UserID r else if id then row_id TProfile r else ""
  | TMetric => λ r, if id then row_id TMetric r else if bool_decide (c = "workspace_id") then cm_WorkspaceID r else ""
  end.

(** ** Statements *)

(** A [WHERE] clause is a conjunction of these. *)
Inductive cond :=
| CEq (c v : string)
| CNe (c v : string)
| CIn (c : string) (vs : list string)
| CAnyLike (cs : list string) (keyword : string).

(** [LIKE '%keyword%'] depends on the database's collation. *)
Class SqlLike := { like : string -> string -> bool }.

Definition holds `{SqlLike} (t : table) (c : cond) (r : row t) : bool :=
  match c with
  | CEq c v => bool_decide (column t c r = v)
  | CNe c v => negb (bool_decide (column t c r = v))
  | CIn c vs => bool_decide (column t c r ∈ vs)
  | CAnyLike cs k => existsb (λ c, like (column t c r) k) cs
  end.

Definition row_selected `{SqlLike} (t : table) (cs : list cond) (r : row t) : bool :=
  live t r && forallb (λ c, holds t c r) cs.

(** A value of an [UPDATE]. *)
Inductive sqlval := VText (s : string) | VTime (z : Z).

Definition text_of (v : sqlval) : string := match v with VText s => s | VTime _ => "" end.
Definition time_of (v : sqlval) : option Z := match v with VTime z => Some z | VText _ => None end.

(** The columns that [UPDATE]s name. *)
Definition set_column (t : table) (c : string) (v : sqlval) : row t -> row t :=
  match t with
  | TMember => λ r,
      {| wm_Model := wm_Model r; wm_WorkspaceID := wm_WorkspaceID r; wm_UserID := wm_UserID r;
         wm_Role := if bool_decide (c = "role") then text_of v else wm_Role r;
         wm_Status := if bool_decide (c = "status") then text_of v else wm_Status r;
         wm_InvitedBy := wm_InvitedBy r; wm_JoinedAt := wm_JoinedAt r |}
  | TInvitation => λ r,
      {| inv_Model := inv_Model r; inv_WorkspaceID := inv_WorkspaceID r; inv_InviterID := inv_InviterID r;
         inv_Email := inv_Email r; inv_Role := inv_Role r; inv_Token := inv_Token r;
         inv_Status := if bool_decide (c = "status") then text_of v else inv_Status r;
         inv_ExpiresAt := inv_ExpiresAt r |}
  | TWorkflow => λ r,
      {| wr_ID := wr_ID r; wr_WorkspaceID := wr_WorkspaceID r; wr_RequestedBy := wr_RequestedBy r;
         wr_RequestedByName := wr_RequestedByName r; wr_RequestedByEmail := wr_RequestedByEmail r;
         wr_ResourceType := wr_ResourceType r; wr_ResourceName := wr_ResourceName r; wr_Action := wr_Action r;
         wr_Payload := wr_Payload r;
         wr_Status := if bool_decide (c = "status") then text_of v else wr_Status r;
         wr_ReviewedBy := if bool_decide (c = "reviewed_by") then text_of v else wr_ReviewedBy r;
         wr_ReviewedByName := if bool_decide (c = "reviewed_by_name") then text_of v else wr_ReviewedByName r;
         wr_ReviewedAt := if bool_decide (c = "reviewed_at") then time_of v else wr_ReviewedAt r;
         wr_ReviewNote := if bool_decide (c = "review_note") then text_of v else wr_ReviewNote r;
         wr_ExecutedAt := if bool_decide (c = "executed_at") then time_of v else wr_ExecutedAt r;
         wr_ErrorMessage := if bool_decide (c = "error_message") then text_of v else wr_ErrorMessage r |}
  | _ => λ r, r
  end.

Definition assign (t : table) (sets : list (string * sqlval)) (r : row t) : row t :=
  foldl (λ r cv, set_column t cv.1 cv.2 r) r sets.

(** [Updates(entity)] writes the fields of the entity that are not zero; [Save],
    which only the policies use, all of them. *)
Definition nonzero (new old : string) : string := if bool_decide (new = "") then old else new.
Definition float_zero (f : spec_float) : bool := match f with S754_zero false => true | _ => false end.
Definition nonzero_float (new old : spec_float) : spec_float := if float_zero new then old else new.
Definition nonzero_time (new old : option Z) : option Z := match new with None => old | _ => new end.

Definition save (t : table) : row t -> row t -> row t :=
  match t with
  | TUser => λ n o, {| u_Model := u_Model o; u_SystemRole := nonzero (u_SystemRole n) (u_SystemRole o);
      u_Username := nonzero (u_Username n) (u_Username o); u_Password := nonzero (u_Password n) (u_Password o);
      u_Mobile := nonzero (u_Mobile n) (u_Mobile o); u_Email := nonzero (u_Email n) (u_Email o);
      u_Avatar := nonzero (u_Avatar n) (u_Avatar o); u_Address := nonzero (u_Address n) (u_Address o);
      u_Gender := if u_Gender n =? 0 then u_Gender o else u_Gender n |}
  | TWorkspace => λ n o, {| ws_Model := ws_Model o; ws_Slug := nonzero (ws_Slug n) (ws_Slug o);
      ws_Namespace := nonzero (ws_Namespace n) (ws_Namespace o);
      ws_DisplayName := nonzero (ws_DisplayName n) (ws_DisplayName o);
      ws_Status := nonzero (ws_Status n) (ws_Status o); ws_CreatedBy := nonzero (ws_CreatedBy n) (ws_CreatedBy o);
      ws_UpdatedBy := nonzero (ws_UpdatedBy n) (ws_UpdatedBy o) |}
  | TPolicy => λ n o, policy_with_model n (po_Model o)
  | TRule => λ n o, {| ar_Model := ar_Model o; ar_Name := nonzero (ar_Name n) (ar_Name o);
      ar_WorkspaceID := nonzero (ar_WorkspaceID n) (ar_WorkspaceID o); ar_Enabled := ar_Enabled n || ar_Enabled o;
      ar_MetricType := nonzero (ar_MetricType n) (ar_MetricType o);
      ar_Operator := nonzero (ar_Operator n) (ar_Operator o);
      ar_Threshold := nonzero_float (ar_Threshold n) (ar_Threshold o);
      ar_Duration := nonzero (ar_Duration n) (ar_Duration o); ar_Lookback := nonzero (ar_Lookback n) (ar_Lookback o);
      ar_GroupBy := nonzero (ar_GroupBy n) (ar_GroupBy o); ar_ForEach := ar_ForEach n || ar_ForEach o;
      ar_Channels := nonzero (ar_Channels n) (ar_Channels o); ar_Severity := nonzero (ar_Severity n) (ar_Severity o);
      ar_Message := nonzero (ar_Message n) (ar_Message o);
      ar_SilenceUntil := nonzero_time (ar_SilenceUntil n) (ar_SilenceUntil o);
      ar_MuteTimeRules := nonzero (ar_MuteTimeRules n) (ar_MuteTimeRules o) |}
  | TChannel => λ n o, {| ach_Model := ach_Model o; ach_Name := nonzero (ach_Name n) (ach_Name o);
      ach_WorkspaceID := nonzero (ach_WorkspaceID n) (ach_WorkspaceID o); ach_Type := nonzero (ach_Type n) (ach_Type o);
      ach_Config := nonzero (ach_Config n) (ach_Config o); ach_Enabled := ach_Enabled n || ach_Enabled o |}
  | TProfile => λ n o, {| up_UserID := up_UserID o; up_Title := nonzero (up_Title n) (up_Title o);
      up_Company := nonzero (up_Company n) (up_Company o); up_Bio := nonzero (up_Bio n) (up_Bio o);
      up_Timezone := nonzero (up_Timezone n) (up_Timezone o); up_Language := nonzero (up_Language n) (up_Language o);
      up_EmailNotify := up_EmailNotify n || up_EmailNotify o |}
  | TMetric => λ n o, {| cm_Model := cm_Model o; cm_Name := nonzero (cm_Name n) (cm_Name o);
      cm_WorkspaceID := nonzero (cm_WorkspaceID n) (cm_WorkspaceID o); cm_Query := nonzero (cm_Query n) (cm_Query o);
      cm_Type := nonzero (cm_Type n) (cm_Type o); cm_ResultType := nonzero (cm_ResultType n) (cm_ResultType o);
      cm_Labels := nonzero (cm_Labels n) (cm_Labels o); cm_CreatedBy := nonzero (cm_CreatedBy n) (cm_CreatedBy o) |}
  | _ => λ n o, o
  end.

(** The defaults of the column tags, for fields that are zero. *)
Definition defaults (t : table) : row t -> row t :=
  match t with
  | TMember => λ r, {| wm_Model := wm_Model r; wm_WorkspaceID := wm_WorkspaceID r; wm_UserID := wm_UserID r;
      wm_Role := wm_Role r; wm_Status := nonzero (wm_Status r) MemberStatusActive; wm_InvitedBy := wm_InvitedBy r;
      wm_JoinedAt := wm_JoinedAt r |}
  | TWorkspace => λ r, {| ws_Model := ws_Model r; ws_Slug := ws_Slug r; ws_Namespace := ws_Namespace r;
      ws_DisplayName := ws_DisplayName r; ws_Status := nonzero (ws_Status r) "active";
      ws_CreatedBy := ws_CreatedBy r; ws_UpdatedBy := ws_UpdatedBy r |}
  | TInvitation => λ r, {| inv_Model := inv_Model r; inv_WorkspaceID := inv_WorkspaceID r;
      inv_InviterID := inv_InviterID r; inv_Email := inv_Email r; inv_Role := inv_Role r;
      inv_Token := inv_Token r; inv_Status := nonzero (inv_Status r) "pending"; inv_ExpiresAt := inv_ExpiresAt r |}
  | TPolicy => λ r, policy_with_status r (nonzero (po_Status r) PolicyStatusPending) (po_ErrorMessage r)
  | TRule => λ r, {| ar_Model := ar_Model r; ar_Name := ar_Name r; ar_WorkspaceID := ar_WorkspaceID r;
      ar_Enabled := true; ar_MetricType := ar_MetricType r; ar_Operator := ar_Operator r;
      ar_Threshold := ar_Threshold r; ar_Duration := ar_Duration r; ar_Lookback := ar_Lookback r;
      ar_GroupBy := ar_GroupBy r; ar_ForEach := ar_ForEach r; ar_Channels := ar_Channels r;
      ar_Severity := ar_Severity r; ar_Message := ar_Message r; ar_SilenceUntil := ar_SilenceUntil r;
      ar_MuteTimeRules := ar_MuteTimeRules r |}
  | TChannel => λ r, {| ach_Model := ach_Model r; ach_Name := ach_Name r; ach_WorkspaceID := ach_WorkspaceID r;
      ach_Type := ach_Type r; ach_Config := ach_Config r; ach_Enabled := true |}
  | TProfile => λ r, {| up_UserID := up_UserID r; up_Title := up_Title r; up_Company := up_Company r; up_Bio := up_Bio r;
      up_Timezone := nonzero (up_Timezone r) "Asia/Shanghai"; up_Language := nonzero (up_Language r) "zh-CN";
      up_EmailNotify := true |}
  | _ => λ r, r
  end.

(** The unique indexes of the policies and of the tokens of invitations, which rows marked as
    deleted take part in; the indexes of the other tables are left out. *)
Definition clashes (t : table) : row t -> row t -> bool :=
  match t with
  | TPolicy => λ r r', bool_decide (po_WorkspaceID r = po_WorkspaceID r') && bool_decide (po_Name r = po_Name r')
  | TInvitation => λ r r', bool_decide (inv_Token r = inv_Token r')
  | _ => λ _ _, false
  end.

(** Soft deletion. *)
Definition as_deleted (m : Model) : Model := {| m_ID := m_ID m; m_deleted := true |}.

Definition mark_deleted (t : table) : row t -> row t :=
  match t with
  | TUser => λ r, {| u_Model := as_deleted (u_Model r); u_SystemRole := u_SystemRole r; u_Username := u_Username r;
      u_Password := u_Password r; u_Mobile := u_Mobile r; u_Email := u_Email r; u_Avatar := u_Avatar r;
      u_Address := u_Address r; u_Gender := u_Gender r |}
  | TIdentity => λ r, {| id_Model := as_deleted (id_Model r); id_UserID := id_UserID r;
      id_Provider := id_Provider r; id_ExternalID := id_ExternalID r; id_Email := id_Email r |}
  | TMember => λ r, {| wm_Model := as_deleted (wm_Model r); wm_WorkspaceID := wm_WorkspaceID r;
      wm_UserID := wm_UserID r; wm_Role := wm_Role r; wm_Status := wm_Status r; wm_InvitedBy := wm_InvitedBy r;
      wm_JoinedAt := wm_JoinedAt r |}
  | TWorkspace => λ r, {| ws_Model := as_deleted (ws_Model r); ws_Slug := ws_Slug r; ws_Namespace := ws_Namespace r;
      ws_DisplayName := ws_DisplayName r; ws_Status := ws_Status r; ws_CreatedBy := ws_CreatedBy r;
      ws_UpdatedBy := ws_UpdatedBy r |}
  | TInvitation => λ r, {| inv_Model := as_deleted (inv_Model r); inv_WorkspaceID := inv_WorkspaceID r;
      inv_InviterID := inv_InviterID r; inv_Email := inv_Email r; inv_Role := inv_Role r;
      inv_Token := inv_Token r; inv_Status := inv_Status r; inv_ExpiresAt := inv_ExpiresAt r |}
  | TWorkflow => λ r, r
  | TPolicy => λ r, policy_with_model r (as_deleted (po_Model r))
  | TRule => λ r, rule_with_model r (as_deleted (ar_Model r))
  | THistory => λ r, history_with_model r (as_deleted (ah_Model r))
  | TChannel => λ r, channel_with_model r (as_deleted (ach_Model r))
  | TSilence => λ r, silence_with_model r (as_deleted (sil_Model r))
  | TProfile => λ r, r
  | TMetric => λ r, metric_with_model r (as_deleted (cm_Model r))
  end.

Definition ErrRecordNotFound : gerror := ErrText "record not found".
Definition is_record_not_found (e : gerror) : bool := bool_decide (e = ErrRecordNotFound).

(** The objects the server creates in a tenant's namespace. *)
Inductive KObject :=
| KNamespace (name : string) (labels : list (string * string))
| KQuota (name ns : string) (hard : list (string * string))
| KRoleBinding (name ns group role : string)
| KNetwork (n : LatticeNetwork)
| KPolicy (p : LatticePolicy).

(** What the server asks of its environment: statements of the database,
    transactions, the clock, random identifiers and bytes, password hashing, JSON
    web tokens, the Kubernetes API and the executors of workflow requests.
    [DUpsert]: the first matching row is updated, or one is inserted.
    [DListJoined]: the workspaces joined with a user's members.  [SKGetQuota]: the
    limit and the use of node resources. *)
Inductive srvE : Type -> Type :=
| DFirst (t : table) (cs : list cond) : srvE (gresult (row t))
| DFind (t : table) (cs : list cond) (page : option (Z * Z)) : srvE (gresult (list (row t)))
| DCount (t : table) (cs : list cond) : srvE (gresult Z)
| DListJoined (userID : string) (cs : list cond) : srvE (gresult (list Workspace))
| DCreate (t : table) (r : row t) : srvE (gresult (row t))
| DUpdate (t : table) (cs : list cond) (sets : list (string * sqlval)) : srvE (gresult unit)
| DSave (t : table) (r : row t) : srvE (gresult unit)
| DUpsert (t : table) (cs : list cond) (r : row t) : srvE (gresult unit)
| DDelete (t : table) (cs : list cond) : srvE (gresult unit)
| DBegin : srvE (gresult unit)
| DCommit : srvE (gresult unit)
| DRollback : srvE unit
| SNow : srvE Z
| SUUID : srvE string
| SRandom (n : nat) : srvE (gresult (list Z))
| SEncryptPassword (password : string) : srvE (gresult string)
| SComparePassword (hash password : string) : srvE (gresult unit)
| SGenerateJWT (userID email username systemRole : string) : srvE (gresult string)
| SKCreate (o : KObject) : srvE (gresult unit)
| SKGetNetwork (key : NamespacedName) : srvE (gresult LatticeNetwork)
| SKGetPolicy (key : NamespacedName) : srvE (gresult LatticePolicy)
| SKGetNamespace (name : string) : srvE (gresult unit)
| SKGetQuota (key : NamespacedName) : srvE (gresult (option Z * option Z))
| SKCountTokens (ns : string) : srvE (gresult Z)
| SKDeleteNamespace (name : string) : srvE (gresult unit)
| SExecute (key payload : string) : srvE (gresult unit).

Abbreviation sprog := (prog srvE).

(** ** Scopes and the base repository ([repository]) *)

(** A scope with an empty argument does not restrict the query. *)
Definition scope (c v : string) : list cond := if bool_decide (v = "") then [] else [CEq c v].
Definition WithID (id : string) : list cond := scope "id" id.
Definition WithUserID (userID : string) : list cond := scope "user_id" userID.
Definition WithNamespace (namespace : string) : list cond := scope "namespace" namespace.
Definition WithUsername (username : string) : list cond := scope "username" username.
Definition WithWorkspaceID (wsID : string) : list cond := scope "workspace_id" wsID.
Definition WithKeyword (keyword : string) (columns : list string) : list cond :=
  if bool_decide (keyword = "") then [] else match columns with [] => [] | _ => [CAnyLike columns keyword] end.

(** The offset and the limit of a page. *)
Definition Paginate (page pageSize : Z) : Z * Z :=
  let page := if page <=? 0 then 1 else page in
  let pageSize := if pageSize >? 100 then 100 else if pageSize <=? 0 then 10 else pageSize in
  ((page - 1) * pageSize, pageSize).

(** The hook that gorm runs before an insert, on the rows that embed [Model]. *)
Definition set_id (t : table) (id : string) : row t -> row t :=
  match t with
  | TUser => λ r, {| u_Model := {| m_ID := id; m_deleted := m_deleted (u_Model r) |};
      u_SystemRole := u_SystemRole r; u_Username := u_Username r; u_Password := u_Password r;
      u_Mobile := u_Mobile r; u_Email := u_Email r; u_Avatar := u_Avatar r; u_Address := u_Address r;
      u_Gender := u_Gender r |}
  | TIdentity => λ r, {| id_Model := {| m_ID := id; m_deleted := m_deleted (id_Model r) |};
      id_UserID := id_UserID r; id_Provider := id_Provider r; id_ExternalID := id_ExternalID r;
      id_Email := id_Email r |}
  | TMember => λ r, {| wm_Model := {| m_ID := id; m_deleted := m_deleted (wm_Model r) |};
      wm_WorkspaceID := wm_WorkspaceID r; wm_UserID := wm_UserID r; wm_Role := wm_Role r;
      wm_Status := wm_Status r; wm_InvitedBy := wm_InvitedBy r; wm_JoinedAt := wm_JoinedAt r |}
  | TWorkspace => λ r, {| ws_Model := {| m_ID := id; m_deleted := m_deleted (ws_Model r) |};
      ws_Slug := ws_Slug r; ws_Namespace := ws_Namespace r; ws_DisplayName := ws_DisplayName r;
      ws_Status := ws_Status r; ws_CreatedBy := ws_CreatedBy r; ws_UpdatedBy := ws_UpdatedBy r |}
  | TInvitation => λ r, {| inv_Model := {| m_ID := id; m_deleted := m_deleted (inv_Model r) |};
      inv_WorkspaceID := inv_WorkspaceID r; inv_InviterID := inv_InviterID r; inv_Email := inv_Email r;
      inv_Role := inv_Role r; inv_Token := inv_Token r; inv_Status := inv_Status r;
      inv_ExpiresAt := inv_ExpiresAt r |}
  | TWorkflow => λ r, r
  | TPolicy => λ r, policy_with_model r {| m_ID := id; m_deleted := m_deleted (po_Model r) |}
  | TRule => λ r, rule_with_model r {| m_ID := id; m_deleted := m_deleted (ar_Model r) |}
  | THistory => λ r, history_with_model r {| m_ID := id; m_deleted := m_deleted (ah_Model r) |}
  | TChannel => λ r, channel_with_model r {| m_ID := id; m_deleted := m_deleted (ach_Model r) |}
  | TSilence => λ r, silence_with_model r {| m_ID := id; m_deleted := m_deleted (sil_Model r) |}
  | TProfile => λ r, r
  | TMetric => λ r, metric_with_model r {| m_ID := id; m_deleted := m_deleted (cm_Model r) |}
  end.

(** [NamespaceAware]: only a workspace is. *)
Definition sync_namespace (t : table) : row t -> row t :=
  match t with
  | TWorkspace => λ r, SetNamespace r ("wf-" +:+ m_ID (ws_Model r))
  | _ => λ r, r
  end.

Definition BeforeCreate (t : table) (r : row t) : sprog (row t) :=
  if bool_decide (row_id t r = "") then
    id ← call SUUID; Ret (sync_namespace t (set_id t id r))
  else Ret (sync_namespace t r).

Definition base_Create (t : table) (r : row t) : sprog (gresult (row t)) :=
  r ← BeforeCreate t r; call (DCreate t r).
Definition base_First (t : table) (cs : list cond) : sprog (gresult (row t)) := call (DFirst t cs).
Definition base_GetByID (t : table) (id : string) : sprog (gresult (row t)) := call (DFirst t [CEq "id" id]).
Definition base_Find (t : table) (cs : list cond) (page : option (Z * Z)) : sprog (gresult (list (row t))) :=
  call (DFind t cs page).
Definition base_Count (t : table) (cs : list cond) : sprog (gresult Z) := call (DCount t cs).
Definition base_Update (t : table) (r : row t) : sprog (gresult unit) := call (DSave t r).
Definition base_Upsert (t : table) (cs : list cond) (r : row t) : sprog (gresult unit) := call (DUpsert t cs r).
Definition base_Delete (t : table) (cs : list cond) : sprog (gresult unit) := call (DDelete t cs).

(** ** The repositories ([gormstore]) *)

Definition users_GetByID (id : string) : sprog (gresult User) := base_GetByID TUser id.
Definition users_GetByUsername (username : string) : sprog (gresult User) :=
  base_First TUser (WithUsername username).
Definition users_GetByEmail (email : string) : sprog (gresult User) := base_First TUser [CEq "email" email].
Definition users_Login (username password : string) : sprog (gresult User) :=
  base_First TUser (WithUsername username).
Definition users_Delete (id : string) : sprog (gresult unit) := base_Delete TUser (WithID id).

Definition identities_GetByProviderAndExternalID (provider externalID : string)
    : sprog (gresult UserIdentity) :=
  base_First TIdentity [CEq "provider" provider; CEq "external_id" externalID].
Definition identities_ListByUser (userID : string) : sprog (gresult (list UserIdentity)) :=
  base_Find TIdentity [CEq "user_id" userID] None.

Definition workspaces_GetByID (id : string) : sprog (gresult Workspace) := base_GetByID TWorkspace id.
Definition workspaces_GetByNamespace (namespace : string) : sprog (gresult Workspace) :=
  base_First TWorkspace (WithNamespace namespace).
Definition workspaces_Delete (id : string) : sprog (gresult unit) := base_Delete TWorkspace (WithID id).
Definition workspaces_ListByUser (userID : string) : sprog (gresult (list Workspace)) :=
  call (DListJoined userID []).
Definition workspaces_List (keyword : string) (page pageSize : Z) : sprog (gresult (list Workspace * Z)) :=
  total ←? base_Count TWorkspace (WithKeyword keyword ["display_name"; "slug"]);
  items ←? base_Find TWorkspace (WithKeyword keyword ["display_name"; "slug"]) (Some (Paginate page pageSize));
  Ret (inr (items, total)).
Definition workspaces_ExistsByUserAndSlug (userID slug : string) : sprog (gresult bool) :=
  l ←? call (DListJoined userID [CEq "slug" slug]); Ret (inr (bool_decide (0 < length l)%nat)).

Definition members_GetMembership (workspaceID userID : string) : sprog (gresult WorkspaceMember) :=
  base_First TMember (WithWorkspaceID workspaceID ++ WithUserID userID).
Definition members_AddMember (m : WorkspaceMember) : sprog (gresult WorkspaceMember) := base_Create TMember m.
Definition members_RemoveMember (workspaceID userID : string) : sprog (gresult unit) :=
  base_Delete TMember (WithWorkspaceID workspaceID ++ WithUserID userID).
Definition members_SoftRemove (workspaceID userID : string) : sprog (gresult unit) :=
  call (DUpdate TMember [CEq "workspace_id" workspaceID; CEq "user_id" userID]
    [("status", VText MemberStatusRemoved)]).
Definition members_DeleteByWorkspace (workspaceID : string) : sprog (gresult unit) :=
  base_Delete TMember (WithWorkspaceID workspaceID).
Definition members_ListMembers (workspaceID : string) : sprog (gresult (list WorkspaceMember)) :=
  base_Find TMember [CEq "workspace_id" workspaceID; CNe "status" MemberStatusRemoved] None.
Definition members_ListByUser (userID : string) (page pageSize : Z)
    : sprog (gresult (list WorkspaceMember * Z)) :=
  total ←? base_Count TMember (WithUserID userID);
  items ←? base_Find TMember (WithUserID userID) (Some (Paginate page pageSize));
  Ret (inr (items, total)).
Definition members_UpdateRole (workspaceID userID role : string) : sprog (gresult unit) :=
  call (DUpdate TMember [CEq "workspace_id" workspaceID; CEq "user_id" userID] [("role", VText role)]).

Definition invitations_FindByID (id : string) : sprog (gresult WorkspaceInvitation) :=
  base_First TInvitation [CEq "id" id].
Definition invitations_GetByToken (token : string) : sprog (gresult WorkspaceInvitation) :=
  base_First TInvitation [CEq "token" token].
Definition invitations_ListByWorkspace (workspaceID : string) : sprog (gresult (list WorkspaceInvitation)) :=
  base_Find TInvitation [CEq "workspace_id" workspaceID] None.
Definition invitations_UpdateStatus (id status : string) : sprog (gresult unit) :=
  call (DUpdate TInvitation [CEq "id" id] [("status", VText status)]).
Definition invitations_FindAcceptedByEmails (emails : list string)
    : sprog (gresult (list WorkspaceInvitation)) :=
  match emails with
  | [] => Ret (inr [])
  | _ => base_Find TInvitation [CIn "email" emails; CEq "status" "accepted"] None
  end.
Definition invitations_GetPending (email workspaceID : string) : sprog (gresult WorkspaceInvitation) :=
  base_First TInvitation [CEq "email" email; CEq "workspace_id" workspaceID; CEq "status" "pending"].

Definition workflows_Create (r : WorkflowRequest) : sprog (gresult WorkflowRequest) := call (DCreate TWorkflow r).
Definition workflows_GetByID (id : string) : sprog (gresult WorkflowRequest) :=
  call (DFirst TWorkflow [CEq "id" id]).
Definition workflows_Delete (id : string) : sprog (gresult unit) := call (DDelete TWorkflow [CEq "id" id]).
Definition workflows_UpdateStatus (id status : string) (fields : list (string * sqlval))
    : sprog (gresult unit) :=
  call (DUpdate TWorkflow [CEq "id" id] (("status", VText status) :: fields)).

Record WorkflowFilter := {
  wf_WorkspaceID : string; wf_RequestedBy : string; wf_ResourceType : string; wf_Action : string;
  wf_Status : string; wf_Page : Z; wf_PageSize : Z;
}.
Definition workflows_List (f : WorkflowFilter) : sprog (gresult (list WorkflowRequest * Z)) :=
  let cs := scope "workspace_id" (wf_WorkspaceID f) ++ scope "requested_by" (wf_RequestedBy f) ++
            scope "resource_type" (wf_ResourceType f) ++ scope "action" (wf_Action f) ++
            scope "status" (wf_Status f) in
  total ←? call (DCount TWorkflow cs);
  let page := if wf_Page f <? 1 then 1 else wf_Page f in
  let pageSize := if wf_PageSize f <? 1 then 10 else wf_PageSize f in
  l ←? call (DFind TWorkflow cs (Some ((page - 1) * pageSize, pageSize)));
  Ret (inr (l, total)).

Definition policies_Create (p : PolicyRow) : sprog (gresult PolicyRow) := base_Create TPolicy p.
Definition policies_GetByID (id : string) : sprog (gresult PolicyRow) := call (DFirst TPolicy [CEq "id" id]).
Definition policies_GetByName (workspaceID name : string) : sprog (gresult PolicyRow) :=
  call (DFirst TPolicy [CEq "workspace_id" workspaceID; CEq "name" name]).
Definition policies_Update (p : PolicyRow) : sprog (gresult unit) := call (DSave TPolicy p).
Definition policies_Delete (workspaceID name : string) : sprog (gresult unit) :=
  call (DDelete TPolicy [CEq "workspace_id" workspaceID; CEq "name" name]).

Record PolicyFilter := { pf_WorkspaceID : string; pf_Status : string; pf_Keyword : string; pf_Page : Z; pf_PageSize : Z }.
Definition policies_List (f : PolicyFilter) : sprog (gresult (list PolicyRow * Z)) :=
  let cs := scope "workspace_id" (pf_WorkspaceID f) ++ scope "status" (pf_Status f) ++
            WithKeyword (pf_Keyword f) ["name"; "description"] in
  total ←? call (DCount TPolicy cs);
  let page := if pf_Page f <? 1 then 1 else pf_Page f in
  let pageSize := if pf_PageSize f <? 1 then 20 else pf_PageSize f in
  l ←? call (DFind TPolicy cs (Some ((page - 1) * pageSize, pageSize)));
  Ret (inr (l, total)).

Definition alerts_GetAlertRule (id : string) : sprog (gresult AlertRule) := base_GetByID TRule id.
Definition alerts_CreateAlertRule (r : AlertRule) : sprog (gresult AlertRule) := base_Create TRule r.
Definition alerts_UpdateAlertRule (r : AlertRule) : sprog (gresult unit) := base_Update TRule r.
Definition alerts_DeleteAlertRule (id : string) : sprog (gresult unit) := base_Delete TRule (WithID id).
Definition alerts_ListAlertRulesByWorkspace (wsID : string) : sprog (gresult (list AlertRule)) :=
  base_Find TRule [CEq "workspace_id" wsID] None.
Definition alerts_ListEnabledAlertRules : sprog (gresult (list AlertRule)) :=
  base_Find TRule [CEq "enabled" (bool_text true)] None.
Definition alerts_ListAlertHistory (wsID : string) (page pageSize : Z) : sprog (gresult (list AlertHistory * Z)) :=
  total ←? call (DCount THistory [CEq "workspace_id" wsID]);
  items ←? call (DFind THistory [CEq "workspace_id" wsID] (Some ((page - 1) * pageSize, pageSize)));
  Ret (inr (items, total)).
Definition alerts_CreateAlertHistory (h : AlertHistory) : sprog (gresult AlertHistory) := base_Create THistory h.
Definition alerts_ListAlertChannels (wsID : string) : sprog (gresult (list AlertChannel)) :=
  base_Find TChannel [CEq "workspace_id" wsID] None.
Definition alerts_CreateAlertChannel (c : AlertChannel) : sprog (gresult AlertChannel) := base_Create TChannel c.
Definition alerts_UpdateAlertChannel (c : AlertChannel) : sprog (gresult unit) := base_Update TChannel c.
Definition alerts_DeleteAlertChannel (id : string) : sprog (gresult unit) := base_Delete TChannel (WithID id).
Definition alerts_GetAlertChannel (id : string) : sprog (gresult AlertChannel) := base_GetByID TChannel id.
Definition alerts_ListAlertSilences (wsID : string) : sprog (gresult (list AlertSilence)) :=
  base_Find TSilence [CEq "workspace_id" wsID] None.
Definition alerts_CreateAlertSilence (x : AlertSilence) : sprog (gresult AlertSilence) := base_Create TSilence x.
Definition alerts_DeleteAlertSilence (id : string) : sprog (gresult unit) := base_Delete TSilence (WithID id).

Definition users_ListRaw (keyword : string) (page pageSize : Z) : sprog (gresult (list User * Z)) :=
  let cs := WithKeyword keyword ["username"; "email"] in
  total ←? call (DCount TUser cs);
  items ←? call (DFind TUser cs (Some ((page - 1) * pageSize, pageSize)));
  Ret (inr (items, total)).
Definition profiles_Get (userID : string) : sprog (gresult UserProfile) := base_First TProfile (WithUserID userID).
(** The condition is a struct, whose fields that are zero do not restrict. *)
Definition profiles_Upsert (p : UserProfile) : sprog (gresult unit) :=
  base_Upsert TProfile (scope "user_id" (up_UserID p)) p.
Definition metrics_Create (m : CustomMetric) : sprog (gresult CustomMetric) := base_Create TMetric m.
Definition metrics_Update (m : CustomMetric) : sprog (gresult unit) := base_Update TMetric m.
Definition metrics_ListByWorkspace (wsID : string) : sprog (gresult (list CustomMetric)) :=
  base_Find TMetric [CEq "workspace_id" wsID] None.
Definition metrics_GetByID (id : string) : sprog (gresult CustomMetric) := base_GetByID TMetric id.
Definition metrics_Delete (id : string) : sprog (gresult unit) := base_Delete TMetric [CEq "id" id].

(** [Tx]: the body in a transaction, which its error rolls back. *)
Definition Tx {A} (body : sprog (gresult A)) : sprog (gresult A) :=
  _ ←? call DBegin;
  r ← body;
  match r with
  | inl err => _ ← call DRollback; Ret (inl err)
  | inr a => _ ←? call DCommit; Ret (inr a)
  end.

(** ** The database *)

Record AlertTables := {
  al_rules : list AlertRule;
  al_history : list AlertHistory;
  al_channels : list AlertChannel;
  al_silences : list AlertSilence;
}.

Record Tables := {
  t_users : list User;
  t_identities : list UserIdentity;
  t_members : list WorkspaceMember;
  t_workspaces : list Workspace;
  t_invitations : list WorkspaceInvitation;
  t_workflows : list WorkflowRequest;
  t_policies : list PolicyRow;
  t_alerts : AlertTables;
  t_profiles : list UserProfile;
  t_metrics : list CustomMetric;
}.

Definition rows (s : Tables) (t : table) : list (row t) :=
  match t with
  | TUser => t_users s | TIdentity => t_identities s | TMember => t_members s | TWorkspace => t_workspaces s
  | TInvitation => t_invitations s | TWorkflow => t_workflows s | TPolicy => t_policies s
  | TRule => al_rules (t_alerts s) | THistory => al_history (t_alerts s) | TChannel => al_channels (t_alerts s)
  | TSilence => al_silences (t_alerts s) | TProfile => t_profiles s | TMetric => t_metrics s
  end.

Definition no_alerts : AlertTables := {| al_rules := []; al_history := []; al_channels := []; al_silences := [] |}.
Definition with_alerts (s : Tables) (a : AlertTables) : Tables := {|
  t_users := t_users s; t_identities := t_identities s; t_members := t_members s; t_workspaces := t_workspaces s;
  t_invitations := t_invitations s; t_workflows := t_workflows s; t_policies := t_policies s; t_alerts := a;
  t_profiles := t_profiles s; t_metrics := t_metrics s |}.

Definition set_rows (s : Tables) (t : table) : list (row t) -> Tables :=
  match t with
  | TUser => λ l, {| t_users := l; t_identities := t_identities s; t_members := t_members s;
      t_workspaces := t_workspaces s; t_invitations := t_invitations s; t_workflows := t_workflows s;
      t_policies := t_policies s; t_alerts := t_alerts s;
      t_profiles := t_profiles s; t_metrics := t_metrics s |}
  | TIdentity => λ l, {| t_users := t_users s; t_identities := l; t_members := t_members s;
      t_workspaces := t_workspaces s; t_invitations := t_invitations s; t_workflows := t_workflows s;
      t_policies := t_policies s; t_alerts := t_alerts s;
      t_profiles := t_profiles s; t_metrics := t_metrics s |}
  | TMember => λ l, {| t_users := t_users s; t_identities := t_identities s; t_members := l;
      t_workspaces := t_workspaces s; t_invitations := t_invitations s; t_workflows := t_workflows s;
      t_policies := t_policies s; t_alerts := t_alerts s;
      t_profiles := t_profiles s; t_metrics := t_metrics s |}
  | TWorkspace => λ l, {| t_users := t_users s; t_identities := t_identities s; t_members := t_members s;
      t_workspaces := l; t_invitations := t_invitations s; t_workflows := t_workflows s;
      t_policies := t_policies s; t_alerts := t_alerts s;
      t_profiles := t_profiles s; t_metrics := t_metrics s |}
  | TInvitation => λ l, {| t_users := t_users s; t_identities := t_identities s; t_members := t_members s;
      t_workspaces := t_workspaces s; t_invitations := l; t_workflows := t_workflows s;
      t_policies := t_policies s; t_alerts := t_alerts s;
      t_profiles := t_profiles s; t_metrics := t_metrics s |}
  | TWorkflow => λ l, {| t_users := t_users s; t_identities := t_identities s; t_members := t_members s;
      t_workspaces := t_workspaces s; t_invitations := t_invitations s; t_workflows := l;
      t_policies := t_policies s; t_alerts := t_alerts s;
      t_profiles := t_profiles s; t_metrics := t_metrics s |}
  | TPolicy => λ l, {| t_users := t_users s; t_identities := t_identities s; t_members := t_members s;
      t_workspaces := t_workspaces s; t_invitations := t_invitations s; t_workflows := t_workflows s;
      t_policies := l; t_alerts := t_alerts s;
      t_profiles := t_profiles s; t_metrics := t_metrics s |}
  | TRule => λ l, with_alerts s {| al_rules := l; al_history := al_history (t_alerts s);
      al_channels := al_channels (t_alerts s); al_silences := al_silences (t_alerts s) |}
  | THistory => λ l, with_alerts s {| al_rules := al_rules (t_alerts s); al_history := l;
      al_channels := al_channels (t_alerts s); al_silences := al_silences (t_alerts s) |}
  | TChannel => λ l, with_alerts s {| al_rules := al_rules (t_alerts s); al_history := al_history (t_alerts s);
      al_channels := l; al_silences := al_silences (t_alerts s) |}
  | TSilence => λ l, with_alerts s {| al_rules := al_rules (t_alerts s); al_history := al_history (t_alerts s);
      al_channels := al_channels (t_alerts s); al_silences := l |}
  | TProfile => λ l, {| t_users := t_users s; t_identities := t_identities s; t_members := t_members s;
      t_workspaces := t_workspaces s; t_invitations := t_invitations s; t_workflows := t_workflows s;
      t_policies := t_policies s; t_alerts := t_alerts s; t_profiles := l; t_metrics := t_metrics s |}
  | TMetric => λ l, {| t_users := t_users s; t_identities := t_identities s; t_members := t_members s;
      t_workspaces := t_workspaces s; t_invitations := t_invitations s; t_workflows := t_workflows s;
      t_policies := t_policies s; t_alerts := t_alerts s; t_profiles := t_profiles s; t_metrics := l |}
  end.

(** The tables, what they were when the transaction began, the objects of the
    Kubernetes API that the server created or deleted, and the executor calls. *)
Record World := {
  w_tables : Tables;
  w_saved : option Tables;
  w_objects : list KObject;
  w_executed : list (string * string);
}.

Definition with_tables (w : World) (s : Tables) : World :=
  {| w_tables := s; w_saved := w_saved w; w_objects := w_objects w; w_executed := w_executed w |}.
Definition set_saved (w : World) (s : Tables) (saved : option Tables) : World :=
  {| w_tables := s; w_saved := saved; w_objects := w_objects w; w_executed := w_executed w |}.

Section statements.
Context `{SqlLike}.

Definition matching (s : Tables) (t : table) (cs : list cond) : list (row t) :=
  filter (λ r, row_selected t cs r = true) (rows s t).

Definition update_rows (s : Tables) (t : table) (cs : list cond) (f : row t -> row t) : Tables :=
  set_rows s t ((λ r, if row_selected t cs r then f r else r) <$> rows s t).

Definition insert_row (s : Tables) (t : table) (r : row t) : Tables := set_rows s t (rows s t ++ [r]).

(** Rows without [DeletedAt] are deleted for good. *)
Definition delete_rows (s : Tables) (t : table) (cs : list cond) : Tables :=
  match t with
  | TWorkflow => set_rows s t (filter (λ r, row_selected t cs r = false) (rows s t))
  | _ => update_rows s t cs (mark_deleted t)
  end.

(** [FirstOrCreate] with [Assign]: as far as the fields are not zero, the first of the matching
    rows takes them; without one a row is made of them. *)
Definition upserted (s s' : Tables) (t : table) (cs : list cond) (r : row t) : Prop :=
  match matching s t cs with
  | [] => s' = insert_row s t (defaults t r)
  | _ => exists old, old ∈ matching s t cs /\ s' = update_rows s t [CEq "id" (row_id t old)] (save t r)
  end.

(** The live workspaces that a live member row of the user points to. *)
Definition joined (s : Tables) (userID : string) (cs : list cond) (w : Workspace) : Prop :=
  w ∈ matching s TWorkspace cs /\
  exists m, m ∈ rows s TMember /\ live TMember m = true /\ wm_UserID m = userID /\
            wm_WorkspaceID m = row_id TWorkspace w.
End statements.

(** What gorm and the database promise about a statement, an error included. *)
Definition gorm_step `{SqlLike} T (e : srvE T) (w : World) : T -> World -> Prop :=
  let s := w_tables w in
  match e in srvE T return T -> World -> Prop with
  | DFirst t cs => λ r w', w' = w /\
      match r with
      | inr x => x ∈ matching s t cs
      | inl err => err = ErrRecordNotFound -> matching s t cs = []
      end
  | DFind t cs page => λ r w', w' = w /\
      match r with
      | inr l => (forall x, x ∈ l -> x ∈ matching s t cs) /\
                 (page = None -> forall x, x ∈ matching s t cs -> x ∈ l)
      | inl _ => True
      end
  | DCount t cs => λ r w', w' = w /\ match r with inr n => n = Z.of_nat (length (matching s t cs)) | inl _ => True end
  | DListJoined userID cs => λ r w', w' = w /\
      match r with inr l => forall x, x ∈ l <-> joined s userID cs x | inl _ => True end
  | DCreate t x => λ r w',
      match r with
      | inr y => y = defaults t x /\ row_id t x ∉ (row_id t <$> rows s t) /\
                 w' = with_tables w (insert_row s t y) /\ existsb (clashes t x) (rows s t) = false
      | inl _ => w' = w
      end
  | DUpdate t cs sets => λ r w',
      match r with inr _ => w' = with_tables w (update_rows s t cs (assign t sets)) | inl _ => w' = w end
  | DSave t x => λ r w',
      match r with
      | inr _ => w' = with_tables w (update_rows s t [CEq "id" (row_id t x)] (save t x))
      | inl _ => w' = w
      end
  | DUpsert t cs x => λ r w',
      match r with inr _ => exists s', upserted s s' t cs x /\ w' = with_tables w s' | inl _ => w' = w end
  | DDelete t cs => λ r w',
      match r with inr _ => cs <> [] /\ w' = with_tables w (delete_rows s t cs) | inl _ => w' = w end
  | DBegin => λ r w', match r with inr _ => w' = set_saved w s (Some s) | inl _ => w' = w end
  | DCommit => λ r w',
      match r with inr _ => w' = set_saved w s None | inl _ => w' = set_saved w (default s (w_saved w)) None end
  | DRollback => λ _ w', w' = set_saved w (default s (w_saved w)) None
  | SKCreate o => λ r w',
      w_tables w' = s /\ w_saved w' = w_saved w /\ w_executed w' = w_executed w /\
      match r with inr _ => w_objects w' = w_objects w ++ [o] | inl _ => w_objects w' = w_objects w end
  | SKDeleteNamespace _ => λ _ w',
      w_tables w' = s /\ w_saved w' = w_saved w /\ w_executed w' = w_executed w
  | SExecute key payload => λ _ w',
      w' = {| w_tables := s; w_saved := w_saved w; w_objects := w_objects w;
              w_executed := w_executed w ++ [(key, payload)] |}
  | SUUID => λ id w', w' = w /\ id <> ""
  | SRandom n => λ r w', w' = w /\ match r with inr l => length l = n /\ Forall is_byte l | inl _ => True end
  | _ => λ _ w', w' = w
  end.

(** The environment of a server. *)
Class GormDB `{SqlLike} (h : forall T, srvE T -> World -> T -> World -> Prop) := {
  gorm_law T (e : srvE T) w r w' : h T e w r w' -> gorm_step T e w r w';
}.

(** ** Reasoning about runs *)

(** With an identifier that is not empty, the scopes do restrict the query. *)
Lemma scope_nonempty c v : v <> "" -> scope c v = [CEq c v].
Proof. intros Hv. unfold scope. by rewrite bool_decide_false. Qed.

Lemma row_selected_id `{SqlLike} t id (r : row t) :
  row_selected t [CEq "id" id] r = live t r && bool_decide (row_id t r = id).
Proof. unfold row_selected. cbn. rewrite andb_true_r. by destruct t. Qed.

(** What is selected by its identifier is a row that has it. *)
Lemma found_id `{SqlLike} t s id (r : row t) :
  r ∈ matching s t [CEq "id" id] -> r ∈ rows s t /\ row_id t r = id.
Proof.
  unfold matching. rewrite list_elem_of_filter, row_selected_id, andb_true_iff.
  intros [[_ E%bool_decide_eq_true_1] Hr]. done.
Qed.

(** The calls that are not about transactions. *)
Definition no_tx T (e : srvE T) : Prop :=
  match e with DBegin | DCommit | DRollback => False | _ => True end.
(** A program that leaves transactions alone, whatever it is answered. *)
Definition plain {A} (p : sprog A) : Prop := wp (λ _ _ _, True) no_tx p (λ _, True).

Section store_facts.
Context `{SqlLike} (h : forall T, srvE T -> World -> T -> World -> Prop) `{!GormDB h}.

(** A query changes nothing. *)
Lemma first_inv t cs w r w' :
  runs h (base_First t cs) w r w' ->
  w' = w /\ match r with
            | inr x => x ∈ matching (w_tables w) t cs
            | inl err => err = ErrRecordNotFound -> matching (w_tables w) t cs = []
            end.
Proof using All. intros Hr. apply runs_call_inv, gorm_law in Hr. exact Hr. Qed.

(** The clock, too. *)
Lemma now_inv w t w' : runs h (call SNow) w t w' -> w' = w.
Proof using All. intros Hr. by apply runs_call_inv, gorm_law in Hr. Qed.

(** An insert gives the row an identifier that no row has, and the defaults. *)
Lemma base_Create_inv t (x y : row t) w w' :
  row_id t x = "" -> runs h (base_Create t x) w (inr y) w' ->
  exists id, let x' := sync_namespace t (set_id t id x) in
    id <> "" /\ y = defaults t x' /\ row_id t x' ∉ (row_id t <$> rows (w_tables w) t) /\
    w' = with_tables w (insert_row (w_tables w) t y).
Proof using All.
  intros Hid Hr. unfold base_Create, BeforeCreate in Hr. rewrite bool_decide_true in Hr by done.
  apply runs_bind_inv in Hr as (z & w1 & Hr1 & Hr). apply runs_bind_inv in Hr1 as (id & w2 & Hr2 & Hr1).
  apply runs_call_inv, gorm_law in Hr2 as [-> Hne]. apply runs_ret_inv in Hr1 as [-> ->].
  apply runs_call_inv, gorm_law in Hr as (-> & Hnew & -> & _). by exists id.
Qed.

Lemma plain_saved {A} (p : sprog A) w a w' : plain p -> runs h p w a w' -> w_saved w' = w_saved w.
Proof using All.
  intros Hp Hr.
  destruct (wp_runs h (λ _ _ _, True) no_tx (λ x, w_saved x = w_saved w) p (λ _, True) w a w') as [_ E]; try done.
  intros T e s r s' Hs He Hh. split; [done|]. apply gorm_law in Hh.
  destruct e; cbn in He, Hh; try done; repeat case_match; destruct_and?; try (destruct Hh as (? & ? & Hh)); subst; cbn in *;
    try done; congruence.
Qed.

(** A transaction that fails leaves the tables as they were; one that succeeds
    ran its body. *)
Lemma Tx_inv {A} (body : sprog (gresult A)) w r w' :
  plain body -> runs h (Tx body) w r w' ->
  match r with
  | inl _ => w_tables w' = w_tables w
  | inr a => exists w2, runs h body (set_saved w (w_tables w) (Some (w_tables w))) (inr a) w2 /\
                        w' = set_saved w2 (w_tables w2) None
  end.
Proof using All.
  intros Hp Hr. apply runs_bind_inv in Hr as (rb & w1 & Hr1 & Hr). apply runs_call_inv, gorm_law in Hr1. cbn in Hr1.
  destruct rb as [err|[]]; subst w1; [by apply runs_ret_inv in Hr as [-> ->]|].
  apply runs_bind_inv in Hr as (ra & w2 & Hr2 & Hr). pose proof (plain_saved _ _ _ _ Hp Hr2) as Es. cbn in Es.
  destruct ra as [err|a].
  - apply runs_bind_inv in Hr as (u & w3 & Hr3 & Hr). apply runs_call_inv, gorm_law in Hr3. cbn in Hr3. subst w3.
    apply runs_ret_inv in Hr as [-> ->]. cbn. by rewrite Es.
  - apply runs_bind_inv in Hr as (rc & w3 & Hr3 & Hr). apply runs_call_inv, gorm_law in Hr3. cbn in Hr3.
    destruct rc as [err|[]]; subst w3; apply runs_ret_inv in Hr as [-> ->]; [cbn; by rewrite Es|by exists w2].
Qed.
End store_facts.

Ltac term_head t := match t with ?f _ => term_head f | _ => t end.

(** Shows that a program leaves transactions alone, call by call. *)
Ltac solve_plain :=
  repeat first
    [ progress cbv beta iota zeta
    | match goal with |- plain _ => unfold plain end
    | apply wp_try | apply wp_bind
    | apply wp_call; [exact I|intros ? _]
    | exact I
    | match goal with |- context [match ?x with _ => _ end] => destruct x end
    | match goal with |- wp _ _ ?p _ => let f := term_head p in unfold f end ].

(** ** A database in memory *)

Section memory.
Context `{SqlLike}.
Context (now : Z) (uuid : World -> string) (jwt : string -> string).
Context (uuid_nonempty : forall w, uuid w <> "").

(** [First] orders by primary key. *)
Fixpoint least_id (t : table) (best : row t) (l : list (row t)) : row t :=
  match l with
  | [] => best
  | r :: l => least_id t (if String.ltb (row_id t r) (row_id t best) then r else best) l
  end.

Definition first_row (t : table) (l : list (row t)) : gresult (row t) :=
  match l with [] => inl ErrRecordNotFound | r :: l => inr (least_id t r l) end.

Definition page_of {A} (page : option (Z * Z)) (l : list A) : list A :=
  match page with Some (o, n) => take (Z.to_nat n) (drop (Z.to_nat o) l) | None => l end.

Definition joins (s : Tables) (userID : string) (w : Workspace) : bool :=
  existsb (λ m, live TMember m && bool_decide (wm_UserID m = userID) &&
                bool_decide (wm_WorkspaceID m = row_id TWorkspace w)) (rows s TMember).

Definition memory_db T (e : srvE T) (w : World) : T * World :=
  let s := w_tables w in
  match e in srvE T return T * World with
  | DFirst t cs => (first_row t (matching s t cs), w)
  | DFind t cs page => (inr (page_of page (matching s t cs)), w)
  | DCount t cs => (inr (Z.of_nat (length (matching s t cs))), w)
  | DListJoined u cs => (inr (filter (λ x, joins s u x = true) (matching s TWorkspace cs)), w)
  | DCreate t x =>
      if bool_decide (row_id t x ∈ (row_id t <$> rows s t)) || existsb (clashes t x) (rows s t)
      then (inl (ErrText "UNIQUE constraint failed"), w)
      else (inr (defaults t x), with_tables w (insert_row s t (defaults t x)))
  | DUpdate t cs sets => (inr tt, with_tables w (update_rows s t cs (assign t sets)))
  | DSave t x => (inr tt, with_tables w (update_rows s t [CEq "id" (row_id t x)] (save t x)))
  | DUpsert t cs x =>
      (inr tt, with_tables w match matching s t cs with
         | [] => insert_row s t (defaults t x)
         | y :: l => update_rows s t [CEq "id" (row_id t (least_id t y l))] (save t x)
         end)
  | DDelete t cs =>
      match cs with
      | [] => (inl (ErrText "WHERE conditions required"), w)
      | _ => (inr tt, with_tables w (delete_rows s t cs))
      end
  | DBegin => (inr tt, set_saved w s (Some s))
  | DCommit => (inr tt, set_saved w s None)
  | DRollback => (tt, set_saved w (default s (w_saved w)) None)
  | SNow => (now, w)
  | SUUID => (uuid w, w)
  | SRandom n => (inr (replicate n 7), w)
  | SEncryptPassword p => (inr p, w)
  | SComparePassword hash p => (if bool_decide (hash = p) then inr tt else inl (ErrText "mismatch"), w)
  | SGenerateJWT u _ _ _ => (inr (jwt u), w)
  | SKCreate o => (inr tt, {| w_tables := s; w_saved := w_saved w; w_objects := w_objects w ++ [o];
                              w_executed := w_executed w |})
  | SKGetNetwork _ => (inl (ErrStatus NotFound "network"), w)
  | SKGetPolicy _ => (inl (ErrStatus NotFound "policy"), w)
  | SKGetNamespace _ => (inr tt, w)
  | SKGetQuota _ => (inr (Some 50, Some 0), w)
  | SKCountTokens _ => (inr 0, w)
  | SKDeleteNamespace _ => (inr tt, w)
  | SExecute key payload =>
      (inr tt, {| w_tables := s; w_saved := w_saved w; w_objects := w_objects w;
                  w_executed := w_executed w ++ [(key, payload)] |})
  end.

Lemma least_id_elem t (best : row t) l : least_id t best l ∈ best :: l.
Proof.
  revert best. induction l as [|r l IH]; intros best; simpl; [by left|].
  destruct (String.ltb _ _).
  - right. apply IH.
  - specialize (IH best). apply elem_of_cons in IH as [->|IH]; [by left|]. right. by right.
Qed.

Lemma joins_spec s u cs (x : Workspace) :
  x ∈ filter (λ x, joins s u x = true) (matching s TWorkspace cs) <-> joined s u cs x.
Proof.
  rewrite list_elem_of_filter. unfold joined, joins. rewrite existsb_exists. split.
  - intros [(m & Hm & E) Hx]. split; [done|]. exists m. rewrite !andb_true_iff in E.
    destruct E as [[? ?%bool_decide_eq_true_1] ?%bool_decide_eq_true_1]. apply list_elem_of_In in Hm. auto.
  - intros [Hx (m & Hm & Hl & Hu & Hw)]. split; [|done]. exists m.
    split; [by apply list_elem_of_In|]. by rewrite Hl, !bool_decide_true.
Qed.

#[export] Instance memory_gorm : GormDB (fun_world memory_db).
Proof using uuid_nonempty.
  constructor. intros T e w r w' E. unfold fun_world in E.
  destruct e; cbn in E |- *; simplify_eq; try done.
  - split; [done|]. unfold first_row. destruct (matching _ _ _) as [|y l]; [done|]. apply least_id_elem.
  - split; [done|]. split; [|by intros ->]. intros x. destruct page as [[o n]|]; cbn; [|done].
    intros Hx. eapply subseteq_drop, subseteq_take, Hx.
  - split; [done|]. intros x. apply joins_spec.
  - destruct (_ || _) eqn:Ec; simplify_eq; [done|]. apply orb_false_iff in Ec as [?%bool_decide_eq_false_1 ?].
    done.
  - eexists. split; [|done]. unfold upserted. destruct (matching _ _ _) as [|y l] eqn:Em; [done|].
    exists (least_id t y l). split; [|done]. apply least_id_elem.
  - destruct cs; simplify_eq; done.
  - rewrite length_replicate. split_and!; [done..|]. apply Forall_replicate. unfold is_byte. lia.
Qed.
End memory.
