(* ===== verification/Access.v ===== *)
(** * Access: who may do what in the management server
    ([pkg/utils/jwt.go], [internal/server/auth], [permission],
    [server/middleware], [resource/impersonator.go])

    Tokens and their revocation, the roles of a workspace's members, and the
    middleware that guards the routes.  A middleware either answers the request or
    passes it on with what it learnt in the context. *)

From S2P Require Import Prelude Prog Net Api Store.

(** ** Tokens *)

Record LatticeClaims := {
  cl_Subject : string;
  cl_Email : string;
  cl_Username : string;
  cl_SystemRole : string;
  cl_ID : string;
  cl_ExpiresAt : option Z;
}.

(** The JWT library: the claims of a token whose HMAC signature checks against
    the secret and which is valid at a time; an expired token is refused. *)
Class JwtLibrary := {
  ParseWithClaims : string -> Z -> string -> gresult (LatticeClaims * bool);
  parse_unexpired secret now token claims exp :
    ParseWithClaims secret now token = inr (claims, true) -> cl_ExpiresAt claims = Some exp -> now < exp;
}.

(** [GetJWTSecret], from the environment variable. *)
Definition GetJWTSecret (env : string) : string :=
  if bool_decide (env = "") then "your-256-bit-secret-key-here" else env.

Definition ParseToken `{JwtLibrary} (env : string) (now : Z) (tokenString : string) : gresult LatticeClaims :=
  match ParseWithClaims (GetJWTSecret env) now tokenString with
  | inl err => inl err
  | inr (claims, valid) => if valid then inr claims else inl (ErrText "invalid token")
  end.

(** ** Revocation ([auth/revocation.go]) *)

Abbreviation RevocationList := (gmap string Z).

Definition Revoke (rl : RevocationList) (jti : string) (expiresAt : Z) : RevocationList := <[jti := expiresAt]> rl.
Definition IsRevoked (rl : RevocationList) (jti : string) : bool := bool_decide (is_Some (rl !! jti)).
Definition Cleanup (rl : RevocationList) (now : Z) : RevocationList :=
  filter (λ kv, ~ now > kv.2) rl.

(** ** Roles ([permission/checker.go]) *)

(** [None]: the caller is a platform administrator, who has no member record. *)
Definition RequireWorkspaceRole (wsID userID role : string) : sprog (gresult (option WorkspaceMember)) :=
  user ← users_GetByID userID;
  match user with
  | inl _ => Ret (inl (ErrText "user not found"))
  | inr user =>
      if bool_decide (u_SystemRole user = SystemRolePlatformAdmin) then Ret (inr None)
      else
        member ← members_GetMembership wsID userID;
        match member with
        | inl _ => Ret (inl (ErrText "not a member of this workspace"))
        | inr member =>
            if bool_decide (wm_Status member = MemberStatusSuspended) ||
               bool_decide (wm_Status member = MemberStatusRemoved)
            then Ret (inl (ErrText "your access to this workspace has been suspended or revoked"))
            else if GetRoleWeight (wm_Role member) <? GetRoleWeight role
            then Ret (inl (ErrText "insufficient role in workspace"))
            else Ret (inr (Some member))
        end
  end.

(** [NamespaceAccessor]: whom the scoped client acts as. *)
Record ImpersonationConfig := { imp_UserName : string; imp_Groups : list string }.

Definition NamespaceAccessor (wsID userID role : string) : ImpersonationConfig :=
  {| imp_UserName := "wf-user-" +:+ userID; imp_Groups := ["wf-group-" +:+ wsID +:+ "-" +:+ role] |}.

(** [K8sClient] reads the role of the member record it was given, also when it
    was given none. *)
Definition K8sClient (wsID userID : string) : sprog (gresult ImpersonationConfig) :=
  member ← RequireWorkspaceRole wsID userID RoleViewer;
  match member with
  | inl err => Ret (inl (ErrWrap "permission denied" err))
  | inr None => Panic
  | inr (Some m) => Ret (inr (NamespaceAccessor wsID userID (wm_Role m)))
  end.

(** ** Middleware *)

(** A request: its headers and the parameters of its path. *)
Record HttpRequest := {
  rq_Authorization : string;
  rq_WorkspaceId : string;
  rq_Param : string -> string;
}.

(** What the middleware left in the context; an absent string reads as empty.
    [cx_member] may be absent, or a pointer that may be nil. *)
Record Ctx := {
  cx_user_id : string;
  cx_username : string;
  cx_email : string;
  cx_system_role : string;
  cx_jti : string;
  cx_exp : option Z;
  cx_workspace_id : string;
  cx_member : option (option WorkspaceMember);
}.

Definition empty_ctx : Ctx := {|
  cx_user_id := ""; cx_username := ""; cx_email := ""; cx_system_role := ""; cx_jti := ""; cx_exp := None;
  cx_workspace_id := ""; cx_member := None |}.

Inductive Reply := Unauthorized | Forbidden | BadRequest | RError (msg : string) | OK | Accepted.
#[global] Instance Reply_eq_dec : EqDecision Reply.
Proof. solve_decision. Defined.

(** A middleware answers or passes the request on. *)
Abbreviation middleware := (HttpRequest -> Ctx -> sprog (Reply + Ctx)).

(** Writes the claims to the context; reading the time of an absent expiry is a
    nil dereference. *)
Definition with_claims (c : Ctx) (claims : LatticeClaims) : option Ctx :=
  match cl_ExpiresAt claims with
  | None => None
  | Some exp => Some {|
      cx_user_id := cl_Subject claims; cx_username := cl_Username claims; cx_email := cl_Email claims;
      cx_system_role := cl_SystemRole claims; cx_jti := cl_ID claims; cx_exp := Some exp;
      cx_workspace_id := cx_workspace_id c; cx_member := cx_member c |}
  end.

Definition with_workspace (c : Ctx) (wsID : string) (member : option (option WorkspaceMember)) : Ctx := {|
  cx_user_id := cx_user_id c; cx_username := cx_username c; cx_email := cx_email c;
  cx_system_role := cx_system_role c; cx_jti := cx_jti c; cx_exp := cx_exp c; cx_workspace_id := wsID;
  cx_member := match member with Some m => Some m | None => cx_member c end |}.

Section middleware_defs.
Context `{JwtLibrary}.
(** The secret's environment variable and the revocation list, if any. *)
Context (env : string) (revocationList : option RevocationList).

(** The token of the request: its claims, or that the request is refused. *)
Definition authenticate (rq : HttpRequest) (now : Z) : option LatticeClaims :=
  if bool_decide (rq_Authorization rq = "") || negb (has_prefix "Bearer " (rq_Authorization rq)) then None
  else
    match ParseToken env now (str_drop 7 (rq_Authorization rq)) with
    | inl _ => None
    | inr claims =>
        if match revocationList with
           | Some rl => negb (bool_decide (cl_ID claims = "")) && IsRevoked rl (cl_ID claims)
           | None => false
           end
        then None else Some claims
    end.

Definition AuthMiddleware : middleware := λ rq c,
  now ← call SNow;
  match authenticate rq now with
  | None => Ret (inl Unauthorized)
  | Some claims => match with_claims c claims with None => Panic | Some c => Ret (inr c) end
  end.

Definition WorkspaceAuthMiddleware (requiredRole : string) : middleware := λ rq c,
  now ← call SNow;
  match authenticate rq now with
  | None => Ret (inl Unauthorized)
  | Some claims =>
      match with_claims c claims with
      | None => Panic
      | Some c =>
          let wsID := if bool_decide (rq_WorkspaceId rq = "") then rq_Param rq "id" else rq_WorkspaceId rq in
          if bool_decide (wsID = "") then Ret (inl Forbidden)
          else if bool_decide (cl_SystemRole claims = SystemRolePlatformAdmin)
          then Ret (inr (with_workspace c wsID None))
          else
            member ← RequireWorkspaceRole wsID (cl_Subject claims) requiredRole;
            match member with
            | inl _ => Ret (inl Forbidden)
            | inr member => Ret (inr (with_workspace c wsID (Some member)))
            end
      end
  end.

Definition AdminOnly : middleware := WorkspaceAuthMiddleware RoleAdmin.

Definition PlatformAdminOnly : middleware := λ rq c,
  if bool_decide (cx_system_role c = SystemRolePlatformAdmin) then Ret (inr c) else Ret (inl Forbidden).

Definition IsPlatformAdmin (c : Ctx) : bool := bool_decide (cx_system_role c = SystemRolePlatformAdmin).
End middleware_defs.

(** A route: its middleware in order, then its handler. *)
Fixpoint serve (ms : list middleware) (handler : HttpRequest -> Ctx -> sprog Reply) (rq : HttpRequest) (c : Ctx)
    : sprog Reply :=
  match ms with
  | [] => handler rq c
  | m :: ms =>
      r ← m rq c;
      match r with inl reply => Ret reply | inr c => serve ms handler rq c end
  end.

(** ** Correctness *)

(** [user] may act in [wsID] with the rights of [role]: as a platform
    administrator, or as a member who is neither suspended nor removed. *)
Definition may_act `{SqlLike} (s : Tables) (wsID userID role : string) : Prop :=
  (exists u, u ∈ matching s TUser [CEq "id" userID] /\ u_SystemRole u = SystemRolePlatformAdmin) \/
  (exists u m, u ∈ matching s TUser [CEq "id" userID] /\
     m ∈ matching s TMember [CEq "workspace_id" wsID; CEq "user_id" userID] /\
     wm_Status m <> MemberStatusSuspended /\ wm_Status m <> MemberStatusRemoved /\
     GetRoleWeight role <= GetRoleWeight (wm_Role m)).

(** The request carries a token that the library takes for valid at the time [now], with these
    claims, and that is not on the list of revoked ones, where there is a list. *)
Definition presents_token `{JwtLibrary} (env : string) (rl : option RevocationList) (rq : HttpRequest) (now : Z)
    (claims : LatticeClaims) : Prop :=
  (exists token, rq_Authorization rq = "Bearer " +:+ token /\
     ParseWithClaims (GetJWTSecret env) now token = inr (claims, true)) /\
  forall l, rl = Some l -> cl_ID claims = "" \/ l !! cl_ID claims = None.

Lemma authenticate_iff `{JwtLibrary} env rl rq now claims :
  authenticate env rl rq now = Some claims <-> presents_token env rl rq now claims.
Proof.
  unfold authenticate, presents_token, ParseToken. split.
  - destruct (_ || _) eqn:Eh; [done|]. apply orb_false_iff in Eh as [_ Hp%negb_false_iff].
    apply prefix_true in Hp as [token Ht].
    assert (Hd : str_drop 7 (rq_Authorization rq) = token) by (by rewrite Ht).
    rewrite Hd. destruct (ParseWithClaims _ _ _) as [err|[cl []]] eqn:Hl; [done| |done].
    destruct (match rl with Some _ => _ | None => _ end) eqn:Hr; [done|]. intros [= ->].
    split; [by exists token|]. intros l ->. apply andb_false_iff in Hr as [Hr|Hr].
    + left. by apply negb_false_iff, bool_decide_eq_true in Hr.
    + right. apply bool_decide_eq_false_1 in Hr. by apply eq_None_not_Some.
  - intros [(token & -> & Hl) Hrl].
    assert (Hh : bool_decide ("Bearer " +:+ token = "") || negb (has_prefix "Bearer " ("Bearer " +:+ token)) = false).
    { rewrite bool_decide_false by done. cbn [orb]. apply negb_false_iff, prefix_true. by exists token. }
    rewrite Hh. change (str_drop 7 ("Bearer " +:+ token)) with token. rewrite Hl. cbn iota beta.
    destruct rl as [l|]; [|done]. destruct (Hrl l eq_refl) as [Hid|Hid].
    + by rewrite bool_decide_true.
    + unfold IsRevoked. rewrite Hid. rewrite (bool_decide_false (is_Some None)) by (by intros [? ?]).
      by rewrite andb_false_r.
Qed.

Section access_facts.
Context `{JwtLibrary} `{SqlLike} (h : forall T, srvE T -> World -> T -> World -> Prop) `{!GormDB h}.

Lemma RequireWorkspaceRole_inv wsID userID role w m w' :
  wsID <> "" -> (forall u, u ∈ t_users (w_tables w) -> row_id TUser u <> "") ->
  runs h (RequireWorkspaceRole wsID userID role) w (inr m) w' ->
  w' = w /\ may_act (w_tables w) wsID userID role /\
  match m with
  | None => exists u, u ∈ matching (w_tables w) TUser [CEq "id" userID] /\ u_SystemRole u = SystemRolePlatformAdmin
  | Some m => m ∈ matching (w_tables w) TMember [CEq "workspace_id" wsID; CEq "user_id" userID] /\
              GetRoleWeight role <= GetRoleWeight (wm_Role m)
  end.
Proof using All.
  intros Hws Hids Hr. apply runs_bind_inv in Hr as (ru & w1 & Hr1 & Hr).
  apply (first_inv h TUser) in Hr1 as [-> Hru]. destruct ru as [err|u]; [by apply runs_ret_inv in Hr as [? _]|].
  case_bool_decide as Hsys.
  { apply runs_ret_inv in Hr as [[= ->] ->]. split_and!; [done|left|]; eauto. }
  assert (Hu : userID <> "").
  { destruct (found_id TUser _ _ _ Hru) as [Hin <-]. by apply Hids. }
  apply runs_bind_inv in Hr as (rm & w2 & Hr2 & Hr). apply (first_inv h TMember) in Hr2 as [-> Hrm].
  destruct rm as [err|mb]; [by apply runs_ret_inv in Hr as [? _]|].
  unfold WithWorkspaceID, WithUserID in Hrm. rewrite !scope_nonempty in Hrm by done. cbn [app] in Hrm.
  destruct (_ || _) eqn:Est; [by apply runs_ret_inv in Hr as [? _]|].
  apply orb_false_iff in Est as [Es1%bool_decide_eq_false_1 Es2%bool_decide_eq_false_1].
  destruct (Z.ltb_spec (GetRoleWeight (wm_Role mb)) (GetRoleWeight role));
    apply runs_ret_inv in Hr as [[= ->] ->].
  split_and!; [done| |done|done]. right. by exists u, mb.
Qed.
(** What the workspace middleware lets through. *)
Lemma WorkspaceAuth_inv env rl role rq c w c' w' :
  (forall u, u ∈ t_users (w_tables w) -> row_id TUser u <> "") ->
  runs h (WorkspaceAuthMiddleware env rl role rq c) w (inr c') w' ->
  w' = w /\ exists now claims, presents_token env rl rq now claims /\
    cx_user_id c' = cl_Subject claims /\ cx_username c' = cl_Username claims /\ cx_system_role c' = cl_SystemRole claims /\
    cx_workspace_id c' = (if bool_decide (rq_WorkspaceId rq = "") then rq_Param rq "id" else rq_WorkspaceId rq) /\
    cx_workspace_id c' <> "" /\
    (cl_SystemRole claims = SystemRolePlatformAdmin \/
     may_act (w_tables w) (cx_workspace_id c') (cx_user_id c') role).
Proof using All.
  intros Hids Hr. apply runs_bind_inv in Hr as (now & w1 & Hr1 & Hr).
  apply runs_call_inv, gorm_law in Hr1. cbn in Hr1. subst w1.
  destruct (authenticate env rl rq now) as [claims|] eqn:Ha; [apply authenticate_iff in Ha|by apply runs_ret_inv in Hr as [? _]].
  unfold with_claims in Hr. destruct (cl_ExpiresAt claims) as [exp|]; [|by inversion Hr].
  cbv zeta in Hr.
  set (wsID := if bool_decide (rq_WorkspaceId rq = "") then rq_Param rq "id" else rq_WorkspaceId rq) in *.
  clearbody wsID. case_bool_decide as Hws; [by apply runs_ret_inv in Hr as [? _]|].
  case_bool_decide as Hadm.
  { apply runs_ret_inv in Hr as [[= ->] ->]. split; [done|]. exists now, claims. split_and!; try done. by left. }
  apply runs_bind_inv in Hr as (rm & w2 & Hr2 & Hr).
  destruct rm as [err|m]; [by apply runs_ret_inv in Hr as [? _]|].
  apply RequireWorkspaceRole_inv in Hr2 as (-> & Hmay & _); [|done..].
  apply runs_ret_inv in Hr as [[= ->] ->].
  split; [done|]. exists now, claims. split_and!; try done. by right.
Qed.
End access_facts.

(** ** Logging out *)

(** [logout]: the token of the request is revoked until it expires; without an
    expiry in the context, for twelve hours (a time is in nanoseconds). *)
Definition twelve_hours : Z := 12 * 3600 * 10 ^ 9.

Definition logout (rl : RevocationList) (now : Z) (c : Ctx) : Reply * RevocationList :=
  if bool_decide (cx_jti c = "") then (RError "invalid token", rl)
  else
    match cx_exp c with
    | None => (OK, Revoke rl (cx_jti c) (now + twelve_hours))
    | Some exp => (OK, Revoke rl (cx_jti c) exp)
    end.

(** What happens to the list meanwhile: other logouts, and the periodic cleanup. *)
Inductive revocation_op := OpRevoke (jti : string) (expiresAt : Z) | OpCleanup (now : Z).

Definition revocation_step (rl : RevocationList) (o : revocation_op) : RevocationList :=
  match o with OpRevoke jti e => Revoke rl jti e | OpCleanup now => Cleanup rl now end.

(** A cleanup before [now], and a logout that gives the token [jti] the expiry it has. *)
Definition op_before (jti : string) (exp now : Z) (o : revocation_op) : Prop :=
  match o with
  | OpRevoke j e => j = jti -> e = exp
  | OpCleanup t => t <= now
  end.

(** Until the token expires, the list keeps it. *)
Lemma revocation_kept jti exp now ops : forall rl,
  rl !! jti = Some exp -> now <= exp -> Forall (op_before jti exp now) ops ->
  foldl revocation_step rl ops !! jti = Some exp.
Proof.
  induction ops as [|o ops IH]; intros rl Hrl Hexp Hops; [done|].
  apply Forall_cons in Hops as [Ho Hops]. cbn [foldl]. apply IH; [|done..].
  destruct o as [j e|t]; cbn in *.
  - unfold Revoke. destruct (decide (j = jti)) as [->|Hne].
    + rewrite lookup_insert_eq. f_equal. auto.
    + by rewrite lookup_insert_ne.
  - unfold Cleanup. apply map_lookup_filter_Some. split; [done|]. cbn. lia.
Qed.

(** C32. A token that was logged out is refused wherever the list of revoked tokens is asked.
    Whatever other tokens are revoked meanwhile and whenever expired entries are cleaned up, a
    request that carries it is not authenticated against the list, at any later time: before its
    expiry because it is still listed, and afterwards because it has expired. Only there: where
    no list is given, as on the routes of the profile and of the assistant, and against the
    empty list that a restarted server begins with, the request is authenticated as before,
    until the token expires. *)
Theorem logout_revokes `{JwtLibrary} env rl c t0 exp ops now rq claims token :
  cx_jti c <> "" -> cx_exp c = Some exp ->
  Forall (op_before (cx_jti c) exp now) ops ->
  cl_ID claims = cx_jti c -> cl_ExpiresAt claims = Some exp ->
  rq_Authorization rq = "Bearer " +:+ token ->
  authenticate env (Some (foldl revocation_step (logout rl t0 c).2 ops)) rq now <> Some claims /\
  (ParseWithClaims (GetJWTSecret env) now token = inr (claims, true) ->
   now < exp /\ authenticate env None rq now = Some claims /\ authenticate env (Some ∅) rq now = Some claims).
Proof.
  intros Hj He Hops Hid Hexp Htok. split.
  - intros [(token' & _ & Hp) Hl]%authenticate_iff. pose proof (parse_unexpired _ _ _ _ _ Hp Hexp) as Hnow.
    destruct (Hl _ eq_refl) as [Hn|Hn]; [by rewrite Hid in Hn|]. rewrite Hid in Hn.
    rewrite (revocation_kept _ exp now) in Hn; [done| |lia|done].
    unfold logout. rewrite bool_decide_false, He by done. apply lookup_insert_eq.
  - intros Hp. split; [by eapply parse_unexpired|].
    split; apply authenticate_iff; (split; [by exists token|]); intros l [= <-]. right. apply lookup_empty.
Qed.

(** C31. A request that the workspace middleware lets through changes nothing and carries a
    bearer token that the library takes for valid under the server's secret, and that is not on
    the list of revoked tokens; the context names the token's user and the workspace of the
    header, or of the path when there is no header; and that user may act in that workspace with
    the required role, as a platform administrator or as a member who is neither suspended nor
    removed. *)
Theorem workspace_access_sound `{JwtLibrary} `{SqlLike}
    (h : forall T, srvE T -> World -> T -> World -> Prop) `{!GormDB h}
    env rl role rq c w c' w' :
  (forall u, u ∈ t_users (w_tables w) -> row_id TUser u <> "") ->
  runs h (WorkspaceAuthMiddleware env (Some rl) role rq c) w (inr c') w' ->
  w' = w /\
  exists now claims token,
    rq_Authorization rq = "Bearer " +:+ token /\
    ParseWithClaims (GetJWTSecret env) now token = inr (claims, true) /\
    (cl_ID claims = "" \/ rl !! cl_ID claims = None) /\
    cx_user_id c' = cl_Subject claims /\ cx_system_role c' = cl_SystemRole claims /\
    cx_workspace_id c' = (if bool_decide (rq_WorkspaceId rq = "") then rq_Param rq "id" else rq_WorkspaceId rq) /\
    cx_workspace_id c' <> "" /\
    (cl_SystemRole claims = SystemRolePlatformAdmin \/
     may_act (w_tables w) (cx_workspace_id c') (cx_user_id c') role).
Proof.
  intros Hids Hr.
  destruct (WorkspaceAuth_inv h _ _ _ _ _ _ _ _ Hids Hr) as (-> & now & claims & [(token & Htok & Hpar) Hl] & Hsub & _ & Hrest).
  split; [done|]. exists now, claims, token. destruct Hrest as (Hsys & Hws & Hne & Hor). split_and!; try done. by apply Hl.
Qed.

(** *** A server with one workspace *)

(** A library for tokens of the form user:jti that expire at 100. *)
Definition plain_jwt : JwtLibrary.
Proof.
  refine {| ParseWithClaims := λ _ now t,
      inr ({| cl_Subject := before_char ":" t; cl_Email := ""; cl_Username := ""; cl_SystemRole := SystemRoleUser;
              cl_ID := default "" (after_char ":" t); cl_ExpiresAt := Some 100 |}, now <? 100) |}.
  intros secret now token claims exp [= <- ?] [= <-]. lia.
Defined.

Definition plain_like : SqlLike := {| like := λ s k, str_contains k s |}.

Definition sample_user (id email role : string) : User := {|
  u_Model := with_id id; u_SystemRole := role; u_Username := id; u_Password := ""; u_Mobile := "";
  u_Email := email; u_Avatar := ""; u_Address := ""; u_Gender := 0 |}.
Definition sample_member (id ws user role status : string) : WorkspaceMember := {|
  wm_Model := with_id id; wm_WorkspaceID := ws; wm_UserID := user; wm_Role := role; wm_Status := status;
  wm_InvitedBy := ""; wm_JoinedAt := None |}.
Definition sample_workspace (id : string) : Workspace := {|
  ws_Model := with_id id; ws_Slug := id; ws_Namespace := "wf-" +:+ id; ws_DisplayName := id; ws_Status := "active";
  ws_CreatedBy := ""; ws_UpdatedBy := "" |}.

Definition sample_tables : Tables := {|
  t_users := [sample_user "alice" "a@x" SystemRoleUser; sample_user "bob" "b@x" SystemRoleUser];
  t_identities := [];
  t_members := [sample_member "m1" "ws-a" "alice" RoleAdmin MemberStatusActive;
                sample_member "m2" "ws-b" "bob" RoleAdmin MemberStatusActive];
  t_workspaces := [sample_workspace "ws-a"; sample_workspace "ws-b"];
  t_invitations := []; t_workflows := []; t_policies := []; t_alerts := no_alerts; t_profiles := []; t_metrics := [] |}.

Definition sample_world : World :=
  {| w_tables := sample_tables; w_saved := None; w_objects := []; w_executed := [] |}.

(** Identifiers that differ from those of the sample. *)
Definition sample_uuid (w : World) : string :=
  "n" +:+ pretty (length (t_members (w_tables w)) + length (t_users (w_tables w)) +
                  length (t_invitations (w_tables w)) + length (t_workspaces (w_tables w)))%nat.

Lemma sample_uuid_nonempty w : sample_uuid w <> "".
Proof. done. Qed.

#[global] Instance sample_gorm : @GormDB plain_like (fun_world (@memory_db plain_like 5 sample_uuid (λ u, u))).
Proof. apply (@memory_gorm plain_like). apply sample_uuid_nonempty. Defined.

Definition sample_request (user ws id : string) : HttpRequest := {|
  rq_Authorization := "Bearer " +:+ user +:+ ":jti"; rq_WorkspaceId := ws;
  rq_Param := λ p, if bool_decide (p = "id") then id else "" |}.

Lemma logout_revokes_witness :
  @authenticate plain_jwt "" (Some ∅) (sample_request "alice" "ws-a" "") 5 <> None /\
  let alice := {| cl_Subject := "alice"; cl_Email := ""; cl_Username := ""; cl_SystemRole := "user";
                  cl_ID := "jti"; cl_ExpiresAt := Some 100 |} in
  @authenticate plain_jwt "" (Some (foldl revocation_step (logout ∅ 5 {| cx_user_id := "alice";
    cx_username := ""; cx_email := ""; cx_system_role := "user"; cx_jti := "jti"; cx_exp := Some 100;
    cx_workspace_id := ""; cx_member := None |}).2 [OpRevoke "other" 3; OpCleanup 50])) (sample_request "alice" "ws-a" "") 60
  <> Some alice /\
  @authenticate plain_jwt "" None (sample_request "alice" "ws-a" "") 60 = Some alice.
Proof.
  split; [vm_compute; discriminate|]. intros alice.
  destruct (@logout_revokes plain_jwt "" ∅ {| cx_user_id := "alice";
    cx_username := ""; cx_email := ""; cx_system_role := "user"; cx_jti := "jti"; cx_exp := Some 100;
    cx_workspace_id := ""; cx_member := None |} 5 100 [OpRevoke "other" 3; OpCleanup 50] 60
    (sample_request "alice" "ws-a" "") alice "alice:jti") as [H1 H2]; [discriminate|reflexivity| |reflexivity..|].
  - repeat constructor; cbn; [discriminate|lia].
  - split; [exact H1|]. apply H2. vm_compute. reflexivity.
Defined.

Lemma workspace_access_sound_witness :
  exists c', runs (fun_world (@memory_db plain_like 5 sample_uuid (λ u, u)))
    (@WorkspaceAuthMiddleware plain_jwt "" (Some ∅) RoleAdmin (sample_request "alice" "" "ws-a") empty_ctx)
    sample_world (inr c') sample_world /\ cx_workspace_id c' = "ws-a" /\
    exists now claims token, "Bearer alice:jti" = "Bearer " +:+ token /\
    @ParseWithClaims plain_jwt (GetJWTSecret "") now token = inr (claims, true) /\
    (cl_SystemRole claims = SystemRolePlatformAdmin \/
     @may_act plain_like sample_tables (cx_workspace_id c') (cx_user_id c') RoleAdmin).
Proof.
  pose (p := @WorkspaceAuthMiddleware plain_jwt "" (Some ∅) RoleAdmin (sample_request "alice" "" "ws-a") empty_ctx).
  pose (c' := {| cx_user_id := "alice"; cx_username := ""; cx_email := ""; cx_system_role := "user";
    cx_jti := "jti"; cx_exp := Some 100; cx_workspace_id := "ws-a";
    cx_member := Some (Some (sample_member "m1" "ws-a" "alice" RoleAdmin MemberStatusActive)) |}).
  assert (Hr : runs (fun_world (@memory_db plain_like 5 sample_uuid (λ u, u))) p sample_world (inr c') sample_world).
  { apply (run_runs (@memory_db plain_like 5 sample_uuid (λ u, u)) p sample_world (inr c')). vm_compute. reflexivity. }
  exists c'. split; [exact Hr|]. split; [reflexivity|].
  destruct (@workspace_access_sound plain_jwt plain_like _ sample_gorm "" ∅ RoleAdmin
    (sample_request "alice" "" "ws-a") empty_ctx sample_world c' sample_world)
    as (_ & now & claims & token & Ht & Hp & _ & _ & _ & _ & _ & Hor).
  - intros u. cbn. rewrite !elem_of_cons, elem_of_nil. intros [->|[->|[]]]; discriminate.
  - exact Hr.
  - exists now, claims, token. split; [exact Ht|]. split; [exact Hp|exact Hor].
Defined.
