(* ===== verification/Invitations.v ===== *)
(** * Invitations: inviting people to a workspace
    ([internal/server/service/invitation.go])

    An invitation names an email address, a workspace and a role, and carries a
    token signed with the server's secret.  Accepting it, with an account or by
    registering one, adds a member in a transaction. *)

From S2P Require Import Prelude Prog Net Sha256 Api Store Access.

(** ** Tokens *)

(** [hex.DecodeString]. *)
Definition hex_value (c : ascii) : option Z :=
  let n := Z.of_nat (nat_of_ascii c) in
  if (48 <=? n) && (n <=? 57) then Some (n - 48)
  else if (97 <=? n) && (n <=? 102) then Some (n - 87)
  else if (65 <=? n) && (n <=? 70) then Some (n - 55)
  else None.

Fixpoint hex_decode (s : string) : option (list Z) :=
  match s with
  | EmptyString => Some []
  | String c (String d s) =>
      hi ← hex_value c; lo ← hex_value d; l ← hex_decode s; Some (16 * hi + lo :: l)
  | String _ EmptyString => None
  end.

Definition sign (secret : string) (random : list Z) : string :=
  hex_encode (hmac_sha256 (string_bytes secret) random).

Definition invite_token (random : list Z) (secret : string) : string :=
  hex_encode random +:+ String dot (sign secret random).

Definition GenerateInviteToken (secret : string) : sprog (gresult string) :=
  random ←? call (SRandom 16); Ret (inr (invite_token random secret)).

Definition VerifyInviteToken (token secret : string) : bool :=
  match after_char dot token with
  | None => false
  | Some signature =>
      if contains_char dot signature then false
      else
        match hex_decode (before_char dot token) with
        | None => false
        | Some random => bool_decide (signature = sign secret random)
        end
  end.

(** ** The service *)

(** [strings.EqualFold]. *)
Class CaseFolding := { EqualFold : string -> string -> bool }.

(** A week, in nanoseconds. *)
Definition invitation_lifetime : Z := 7 * 24 * 3600 * 10 ^ 9.

Definition new_invitation (workspaceID inviterID email role token : string) (expires : Z) : WorkspaceInvitation := {|
  inv_Model := new_model; inv_WorkspaceID := workspaceID; inv_InviterID := inviterID; inv_Email := email;
  inv_Role := role; inv_Token := token; inv_Status := "pending"; inv_ExpiresAt := expires |}.

Definition new_member (workspaceID userID role invitedBy : string) (now : Z) : WorkspaceMember := {|
  wm_Model := new_model; wm_WorkspaceID := workspaceID; wm_UserID := userID; wm_Role := role;
  wm_Status := "active"; wm_InvitedBy := invitedBy; wm_JoinedAt := Some now |}.

Record InvitePreviewVo := {
  pv_Email : string; pv_WorkspaceID : string; pv_WorkspaceName : string; pv_InviterName : string;
  pv_InviterEmail : string; pv_Role : string; pv_ExpiresAt : Z; pv_Status : string;
}.

Section invitations.
Context `{CaseFolding}.
Context (hmacSecret : string).

(** Whether the inviter may invite with this role. *)
Definition may_invite (workspaceID inviterID role : string) (inviter : User) : sprog (gresult unit) :=
  if bool_decide (u_SystemRole inviter = SystemRolePlatformAdmin) then Ret (inr tt)
  else
    member ← members_GetMembership workspaceID inviterID;
    match member with
    | inl _ => Ret (inl (ErrText "inviter is not a member of this workspace"))
    | inr m =>
        if GetRoleWeight (wm_Role m) <? GetRoleWeight RoleAdmin
        then Ret (inl (ErrText "only admins can invite members"))
        else if GetRoleWeight role >? GetRoleWeight (wm_Role m)
        then Ret (inl (ErrText "cannot invite with a role higher than your own"))
        else Ret (inr tt)
    end.

Definition inv_Create (workspaceID inviterID email role : string) : sprog (gresult WorkspaceInvitation) :=
  inviter ← users_GetByID inviterID;
  match inviter with
  | inl _ => Ret (inl (ErrText "inviter not found"))
  | inr inviter =>
      _ ←? may_invite workspaceID inviterID role inviter;
      existing ← invitations_GetPending email workspaceID;
      match existing with
      | inr _ => Ret (inl (ErrText "a pending invitation already exists for this email"))
      | inl err =>
          if negb (is_record_not_found err) then Ret (inl err)
          else
            token ←? GenerateInviteToken hmacSecret;
            now ← call SNow;
            base_Create TInvitation
              (new_invitation workspaceID inviterID email role token (now + invitation_lifetime))
      end
  end.

Definition inv_Preview (token : string) : sprog (gresult InvitePreviewVo) :=
  inv ← invitations_GetByToken token;
  match inv with
  | inl _ => Ret (inl (ErrText "invitation not found"))
  | inr inv =>
      ws ← workspaces_GetByID (inv_WorkspaceID inv);
      match ws with
      | inl _ => Ret (inl (ErrText "workspace not found"))
      | inr ws =>
          inviter ← users_GetByID (inv_InviterID inv);
          let '(name, email) := match inviter with inr u => (u_Username u, u_Email u) | inl _ => ("", "") end in
          Ret (inr {| pv_Email := inv_Email inv; pv_WorkspaceID := inv_WorkspaceID inv;
            pv_WorkspaceName := ws_DisplayName ws; pv_InviterName := name; pv_InviterEmail := email;
            pv_Role := inv_Role inv; pv_ExpiresAt := inv_ExpiresAt inv; pv_Status := inv_Status inv |})
      end
  end.

(** How [Accept] and [RegisterAndAccept] start: the invitation of the token,
    checked; an expired one is marked, whatever comes of that. *)
Definition load_pending (token : string) : sprog (gresult WorkspaceInvitation) :=
  inv ← invitations_GetByToken token;
  match inv with
  | inl _ => Ret (inl (ErrText "invitation not found"))
  | inr inv =>
      if negb (VerifyInviteToken token hmacSecret) then Ret (inl (ErrText "invalid invitation token"))
      else if negb (bool_decide (inv_Status inv = "pending"))
      then Ret (inl (ErrText "invitation is no longer pending"))
      else
        now ← call SNow;
        if now >? inv_ExpiresAt inv then
          _ ← invitations_UpdateStatus (row_id TInvitation inv) "expired";
          Ret (inl (ErrText "invitation has expired"))
        else Ret (inr inv)
  end.

(** How they end: the member is added and the invitation used up. *)
Definition join (inv : WorkspaceInvitation) (userID : string) : sprog (gresult unit) :=
  now ← call SNow;
  _ ←? members_AddMember (new_member (inv_WorkspaceID inv) userID (inv_Role inv) (inv_InviterID inv) now);
  invitations_UpdateStatus (row_id TInvitation inv) "accepted".

Definition inv_Accept (token acceptorUserID : string) : sprog (gresult unit) :=
  Tx (inv ←? load_pending token;
      acceptor ← users_GetByID acceptorUserID;
      match acceptor with
      | inl _ => Ret (inl (ErrText "user not found"))
      | inr acceptor =>
          if negb (EqualFold (u_Email acceptor) (inv_Email inv))
          then Ret (inl (ErrText ("this invitation was sent to " +:+ inv_Email inv +:+
                                  ", but you are logged in as " +:+ u_Email acceptor)))
          else join inv acceptorUserID
      end).

Definition registered_user (id username email password : string) : User := {|
  u_Model := with_id id; u_SystemRole := ""; u_Username := username; u_Password := password; u_Mobile := "";
  u_Email := email; u_Avatar := ""; u_Address := ""; u_Gender := 0 |}.

Definition inv_RegisterAndAccept (token username password : string) : sprog (gresult string) :=
  Tx (inv ←? load_pending token;
      existing ← users_GetByEmail (inv_Email inv);
      match existing with
      | inr _ => Ret (inl (ErrText "an account with this email already exists, please log in instead"))
      | inl err =>
          if negb (is_record_not_found err) then Ret (inl err)
          else
            taken ← users_GetByUsername username;
            match taken with
            | inr _ => Ret (inl (ErrText "username already taken"))
            | inl _ =>
                hashed ←? call (SEncryptPassword password);
                id ← call SUUID;
                user ←? base_Create TUser (registered_user id username (inv_Email inv) hashed);
                _ ←? join inv (row_id TUser user);
                call (SGenerateJWT (row_id TUser user) (u_Email user) (u_Username user) (u_SystemRole user))
            end
      end).

Definition inv_Revoke (callerID invitationID : string) : sprog (gresult unit) :=
  inv ← invitations_FindByID invitationID;
  match inv with
  | inl _ => Ret (inl (ErrText "invitation not found"))
  | inr inv =>
      caller ← users_GetByID callerID;
      match caller with
      | inl _ => Ret (inl (ErrText "caller not found"))
      | inr caller =>
          allowed ←
            (if bool_decide (u_SystemRole caller = SystemRolePlatformAdmin) then Ret true
             else if bool_decide (inv_InviterID inv = callerID) then Ret true
             else
               member ← members_GetMembership (inv_WorkspaceID inv) callerID;
               Ret (match member with
                    | inl _ => false
                    | inr m => negb (GetRoleWeight (wm_Role m) <? GetRoleWeight RoleAdmin)
                    end));
          if negb allowed
          then Ret (inl (ErrText "permission denied: only the inviter or a workspace admin can revoke this invitation"))
          else invitations_UpdateStatus invitationID "revoked"
      end
  end.

Definition inv_List (workspaceID : string) : sprog (gresult (list WorkspaceInvitation)) :=
  invitations_ListByWorkspace workspaceID.
End invitations.

(** ** Correctness *)

Lemma hex_value_digit d : 0 <= d < 16 -> hex_value (hex_digit d) = Some d.
Proof.
  intros Hd. assert (Hall : Forall (λ d, hex_value (hex_digit d) = Some d) (seqZ 0 16))
    by (vm_compute; repeat constructor).
  rewrite Forall_forall in Hall. apply Hall, elem_of_seqZ. lia.
Qed.

Lemma hex_digit_not_dot d : 0 <= d < 16 -> bool_decide (dot = hex_digit d) = false.
Proof.
  intros Hd. assert (Hall : Forall (λ d, bool_decide (dot = hex_digit d) = false) (seqZ 0 16))
    by (vm_compute; repeat constructor).
  rewrite Forall_forall in Hall. apply Hall, elem_of_seqZ. lia.
Qed.

Lemma hex_decode_encode l : Forall is_byte l -> hex_decode (hex_encode l) = Some l.
Proof.
  induction 1 as [|b l Hb Hl IH]; cbn; [done|]. unfold is_byte in Hb.
  rewrite !hex_value_digit by (Z.div_mod_to_equations; lia). cbn. rewrite IH. cbn.
  do 2 f_equal. pose proof (Z.div_mod b 16). lia.
Qed.

Lemma hex_encode_no_dot l : Forall is_byte l -> contains_char dot (hex_encode l) = false.
Proof.
  induction 1 as [|b l Hb Hl IH]; cbn [hex_encode contains_char]; [done|]. unfold is_byte in Hb.
  rewrite !hex_digit_not_dot by (Z.div_mod_to_equations; lia). done.
Qed.

Lemma sha_sum_bytes msg : Forall is_byte (sha_sum msg).
Proof.
  unfold sha_sum. set (l := sha_blocks _ _ _). clearbody l. induction l as [|x l IH]; [constructor|].
  change (Forall is_byte (be_bytes 4 x ++ mjoin (be_bytes 4 <$> l))). apply Forall_app. split; [apply be_bytes_byte|done].
Qed.

Lemma split_char c s t : after_char c s = Some t -> s = before_char c s +:+ String c t.
Proof.
  induction s as [|d s IH]; cbn; [done|]. case_bool_decide as E.
  - intros [= ->]. by rewrite E.
  - intros Ht. cbn. f_equal. by apply IH.
Qed.

(** Invitation tokens: the token generated from any random bytes verifies, and
    a token verifies exactly when it is the hexadecimal text of some bytes, a dot,
    and the signature of those bytes under the server's secret. *)
Theorem invite_token_verifies secret :
  (forall random, Forall is_byte random -> VerifyInviteToken (invite_token random secret) secret = true) /\
  (forall token, VerifyInviteToken token secret = true <->
    exists text random, token = text +:+ String dot (sign secret random) /\ hex_decode text = Some random /\
      contains_char dot text = false).
Proof.
  assert (Hsign : forall random, contains_char dot (sign secret random) = false).
  { intros random. apply hex_encode_no_dot, sha_sum_bytes. }
  split.
  - intros random Hr. unfold VerifyInviteToken, invite_token.
    rewrite after_char_app, before_char_app, Hsign, hex_decode_encode by (try apply hex_encode_no_dot; done).
    by rewrite bool_decide_true.
  - intros token. unfold VerifyInviteToken. split.
    + destruct (after_char dot token) as [sg|] eqn:Ha; [|done]. destruct (contains_char dot sg) eqn:Hc; [done|].
      destruct (hex_decode _) as [random|] eqn:Hd; [|done]. intros ->%bool_decide_eq_true_1.
      exists (before_char dot token), random. split_and!; [by apply split_char|done|].
      clear. induction token as [|d t IH]; cbn; [done|]. case_bool_decide as E; [done|]. cbn.
      by rewrite bool_decide_false.
    + intros (text & random & -> & Hd & Hc). rewrite after_char_app, before_char_app, Hsign, Hd by done.
      by rewrite bool_decide_true.
Qed.

(** What accepting an invitation does to the tables: the invitation was pending,
    in time and addressed to the user; the user becomes a member with the invited
    role, and the invitation is used up. *)
Definition accepted_by `{CaseFolding} `{SqlLike} (secret token userID : string) (s s' : Tables) : Prop :=
  exists inv acceptor id now1 now2,
    inv ∈ matching s TInvitation [CEq "token" token] /\ VerifyInviteToken token secret = true /\
    inv_Status inv = "pending" /\ now1 <= inv_ExpiresAt inv /\
    acceptor ∈ matching s TUser [CEq "id" userID] /\ EqualFold (u_Email acceptor) (inv_Email inv) = true /\
    id <> "" /\
    s' = update_rows
           (insert_row s TMember {| wm_Model := with_id id; wm_WorkspaceID := inv_WorkspaceID inv;
              wm_UserID := userID; wm_Role := inv_Role inv; wm_Status := MemberStatusActive;
              wm_InvitedBy := inv_InviterID inv; wm_JoinedAt := Some now2 |})
           TInvitation [CEq "id" (row_id TInvitation inv)] (assign TInvitation [("status", VText "accepted")]).

Section invitation_facts.
Context `{SqlLike} (h : forall T, srvE T -> World -> T -> World -> Prop) `{!GormDB h}.

Lemma load_pending_inv secret token w inv w' :
  runs h (load_pending secret token) w (inr inv) w' ->
  w' = w /\ inv ∈ matching (w_tables w) TInvitation [CEq "token" token] /\
  VerifyInviteToken token secret = true /\ inv_Status inv = "pending" /\ exists now, now <= inv_ExpiresAt inv.
Proof using All.
  intros Hr. apply runs_bind_inv in Hr as (ri & w1 & Hr1 & Hr). apply (first_inv h TInvitation) in Hr1 as [-> Hi].
  destruct ri as [err|i]; [by apply runs_ret_inv in Hr as [? _]|].
  destruct (VerifyInviteToken token secret); [|by apply runs_ret_inv in Hr as [? _]]. cbn [negb] in Hr.
  case_bool_decide as Hp; [|by apply runs_ret_inv in Hr as [? _]]. cbn [negb] in Hr.
  apply runs_bind_inv in Hr as (now & w2 & Hr2 & Hr). apply now_inv in Hr2; [subst w2|done].
  destruct (now >? inv_ExpiresAt i) eqn:Hlate.
  - apply runs_bind_inv in Hr as (? & ? & _ & Hr). by apply runs_ret_inv in Hr as [? _].
  - apply runs_ret_inv in Hr as [[= ->] ->]. split_and!; [done..|]. exists now. lia.
Qed.

Lemma join_inv inv userID w u w' :
  runs h (join inv userID) w (inr u) w' ->
  exists id now, id <> "" /\ w' = with_tables w (update_rows
    (insert_row (w_tables w) TMember {| wm_Model := with_id id; wm_WorkspaceID := inv_WorkspaceID inv;
       wm_UserID := userID; wm_Role := inv_Role inv; wm_Status := MemberStatusActive;
       wm_InvitedBy := inv_InviterID inv; wm_JoinedAt := Some now |})
    TInvitation [CEq "id" (row_id TInvitation inv)] (assign TInvitation [("status", VText "accepted")])).
Proof using All.
  intros Hr. apply runs_bind_inv in Hr as (now & w1 & Hr1 & Hr). apply now_inv in Hr1; [subst w1|done].
  apply runs_try_inv in Hr as (m & w2 & Hr2 & Hr). apply (base_Create_inv h TMember) in Hr2 as (id & Hne & -> & _ & ->); [|done].
  apply runs_call_inv, gorm_law in Hr. cbn in Hr. subst w'. by exists id, now.
Qed.
End invitation_facts.

Lemma accept_inv `{CaseFolding} `{SqlLike} (h : forall T, srvE T -> World -> T -> World -> Prop) `{!GormDB h}
    secret token user w r w' :
  runs h (inv_Accept secret token user) w r w' ->
  match r with
  | inr _ => accepted_by secret token user (w_tables w) (w_tables w')
  | inl _ => w_tables w' = w_tables w
  end.
Proof.
  intros Hr. apply (Tx_inv h) in Hr; [|solve_plain].
  destruct r as [err|u]; [done|]. destruct Hr as (w2 & Hr & ->).
  apply runs_try_inv in Hr as (inv & w3 & Hr1 & Hr).
  apply (load_pending_inv h) in Hr1 as (-> & Hi & Hv & Hp & now & Hnow).
  apply runs_bind_inv in Hr as (ra & w4 & Hr2 & Hr). apply (first_inv h TUser) in Hr2 as [-> Ha].
  destruct ra as [err|a]; [by apply runs_ret_inv in Hr as [? _]|].
  destruct (EqualFold _ _) eqn:Hf; [|by apply runs_ret_inv in Hr as [? _]]. cbn [negb] in Hr.
  apply (join_inv h) in Hr as (id & now2 & Hne & ->). by exists inv, a, id, now, now2.
Qed.

(** C33. Accepting an invitation. When it succeeds, the invitation of the token was pending and
    in time, the token's signature is the server's, and the user's email is the one invited; the
    user becomes a member with the role and the workspace of the invitation, nothing else of the
    tables changes but that the invitation is marked accepted. When it fails, at whatever step,
    the tables are as they were: an expired invitation, too, stays pending. *)
Theorem Accept_spec `{CaseFolding} `{SqlLike} (h : forall T, srvE T -> World -> T -> World -> Prop) `{!GormDB h}
    secret token user w r w' :
  runs h (inv_Accept secret token user) w r w' ->
  match r with
  | inr _ => accepted_by secret token user (w_tables w) (w_tables w')
  | inl _ => w_tables w' = w_tables w
  end.
Proof. apply (accept_inv h). Qed.

(** *** An invitation is used once *)

(** The invitation of a token is marked as accepted. *)
Definition used_up `{SqlLike} (token : string) (s s' : Tables) : Prop :=
  exists inv, inv ∈ matching s TInvitation [CEq "token" token] /\
    t_invitations s' = t_invitations (update_rows s TInvitation [CEq "id" (row_id TInvitation inv)]
      (assign TInvitation [("status", VText "accepted")])).

Lemma register_used_up `{SqlLike} (h : forall T, srvE T -> World -> T -> World -> Prop) `{!GormDB h}
    secret token name password w v w' :
  runs h (inv_RegisterAndAccept secret token name password) w (inr v) w' ->
  used_up token (w_tables w) (w_tables w').
Proof.
  intros Hr. apply (Tx_inv h) in Hr; [|solve_plain]. destruct Hr as (w2 & Hr & ->).
  apply runs_try_inv in Hr as (inv & w3 & Hr1 & Hr). apply (load_pending_inv h) in Hr1 as (-> & Hi & _).
  apply runs_bind_inv in Hr as (ru & w4 & Hr2 & Hr). apply (first_inv h TUser) in Hr2 as [-> _].
  destruct ru as [err|u]; [|by apply runs_ret_inv in Hr as [? _]].
  destruct (negb _); [by apply runs_ret_inv in Hr as [? _]|].
  apply runs_bind_inv in Hr as (rn & w4 & Hr2 & Hr). apply (first_inv h TUser) in Hr2 as [-> _].
  destruct rn as [err'|u]; [|by apply runs_ret_inv in Hr as [? _]].
  apply runs_try_inv in Hr as (hashed & w4 & Hr2 & Hr). apply runs_call_inv, gorm_law in Hr2. cbn in Hr2. subst w4.
  apply runs_bind_inv in Hr as (id & w4 & Hr2 & Hr). apply runs_call_inv, gorm_law in Hr2 as [-> Hne].
  apply runs_try_inv in Hr as (user & w4 & Hr2 & Hr). unfold base_Create, BeforeCreate in Hr2. cbn [row_id registered_user] in Hr2.
  rewrite bool_decide_false in Hr2 by done. apply runs_bind_inv in Hr2 as (x & w5 & Hx & Hr2). apply runs_ret_inv in Hx as [-> ->].
  apply runs_call_inv, gorm_law in Hr2 as (_ & _ & -> & _).
  apply runs_try_inv in Hr as (u & w5 & Hr2 & Hr). apply (join_inv h) in Hr2 as (id2 & now & _ & ->).
  apply runs_call_inv, gorm_law in Hr. cbn in Hr. subst w2. by exists inv.
Qed.

(** There is an invitation with the token, and none with it is pending. *)
Definition spent (token : string) (s : Tables) : Prop :=
  (exists i, i ∈ t_invitations s /\ inv_Token i = token) /\
  forall i, i ∈ t_invitations s -> inv_Token i = token -> inv_Status i <> "pending".

Lemma used_up_spent `{SqlLike} token s s' :
  (forall i j, i ∈ t_invitations s -> j ∈ t_invitations s -> inv_Token i = token -> inv_Token j = token -> i = j) ->
  used_up token s s' -> spent token s'.
Proof.
  intros Huniq (inv & Hinv & E). unfold spent. rewrite E. clear E.
  apply list_elem_of_filter in Hinv as [Hsel Hin]. unfold row_selected in Hsel. cbn in Hsel.
  rewrite !andb_true_iff in Hsel. destruct Hsel as (Hl & Ht & _). apply bool_decide_eq_true_1 in Ht. cbn in Ht.
  assert (Hmark : row_selected TInvitation [CEq "id" (row_id TInvitation inv)] inv = true).
  { rewrite row_selected_id. cbn. by rewrite Hl, bool_decide_true. }
  cbn. split.
  - eexists. split; [apply list_elem_of_fmap; eexists; split; [reflexivity|exact Hin]|]. by rewrite Hmark.
  - intros i (j & -> & Hj)%list_elem_of_fmap Hti.
    assert (j = inv) as ->; [|by rewrite Hmark]. apply Huniq; [done|done| |done]. revert Hti.
    destruct (row_selected TInvitation _ j); intros Hti; exact Hti.
Qed.

(** The calls that leave a spent token spent. *)
Definition keeps_spent T (e : srvE T) : Prop :=
  match e with
  | DUpdate TInvitation _ sets => exists status, sets = [("status", VText status)] /\ status <> "pending"
  | DSave TInvitation _ | DUpsert TInvitation _ _ | DDelete TInvitation _ => False
  | _ => True
  end.
Definition still_spent (token : string) (w : World) : Prop :=
  spent token (w_tables w) /\ spent token (default (w_tables w) (w_saved w)).

Lemma same_invitations token s s' : t_invitations s' = t_invitations s -> spent token s -> spent token s'.
Proof. unfold spent. by intros ->. Qed.
Lemma insert_spent `{SqlLike} token s y :
  existsb (clashes TInvitation y) (rows s TInvitation) = false -> spent token s -> spent token (insert_row s TInvitation y).
Proof.
  intros Hc [(i & Hi & Ht) Hs]. cbn in *. split.
  - exists i. split; [apply elem_of_app; by left|done].
  - intros j [Hj|Hj]%elem_of_app Htj; [by apply Hs|]. apply list_elem_of_singleton in Hj as ->. exfalso.
    apply not_true_iff_false in Hc. apply Hc, existsb_exists. exists i.
    split; [by apply list_elem_of_In|]. apply bool_decide_eq_true. congruence.
Qed.
Lemma update_spent `{SqlLike} token s cs status :
  status <> "pending" -> spent token s ->
  spent token (update_rows s TInvitation cs (assign TInvitation [("status", VText status)])).
Proof.
  intros Hst [(i & Hi & Ht) Hs]. cbn. split.
  - eexists. split; [apply list_elem_of_fmap; eexists; split; [reflexivity|exact Hi]|].
    destruct (row_selected TInvitation _ i); exact Ht.
  - intros j (k & -> & Hk)%list_elem_of_fmap Htk. revert Htk. destruct (row_selected TInvitation _ k); intros Htk; [exact Hst|by apply Hs].
Qed.

Lemma update_other `{SqlLike} s t cs f : t <> TInvitation -> t_invitations (update_rows s t cs f) = t_invitations s.
Proof. by destruct t. Qed.
Lemma insert_other `{SqlLike} s t r : t <> TInvitation -> t_invitations (insert_row s t r) = t_invitations s.
Proof. by destruct t. Qed.

Lemma keeps_spent_step `{SqlLike} token T (e : srvE T) w r w' :
  keeps_spent T e -> gorm_step T e w r w' -> still_spent token w -> still_spent token w'.
Proof.
  intros He Hg [H1 H2].
  assert (Hinv : forall s', spent token s' -> still_spent token (with_tables w s')).
  { intros s' Hs. split; [done|]. cbn. destruct (w_saved w); [exact H2|exact Hs]. }
  assert (Hother : forall s', t_invitations s' = t_invitations (w_tables w) -> still_spent token (with_tables w s')).
  { intros s' E. apply Hinv. by eapply same_invitations. }
  destruct e; cbn in Hg; try (subst w'; by split); try (by destruct Hg as [-> _]).
  - destruct r as [err|y]; [by subst w'|]. destruct Hg as (-> & _ & -> & Hc).
    destruct (decide (t = TInvitation)) as [->|Hne]; [|by apply Hother, insert_other]. by apply Hinv, insert_spent.
  - destruct r as [err|[]]; [by subst w'|]. subst w'.
    destruct (decide (t = TInvitation)) as [->|Hne]; [|by apply Hother, update_other].
    destruct He as (status & -> & Hst). by apply Hinv, update_spent.
  - destruct r as [err|[]]; [by subst w'|]. subst w'.
    destruct (decide (t = TInvitation)) as [->|Hne]; [done|by apply Hother, update_other].
  - destruct r as [err|?]; [by subst w'|]. destruct Hg as (s' & Hup & ->).
    destruct (decide (t = TInvitation)) as [->|Hne]; [done|]. apply Hother. unfold upserted in Hup.
    destruct (matching _ _ _); [subst s'; by apply insert_other|]. destruct Hup as (old & _ & ->). by apply update_other.
  - destruct r as [err|[]]; [by subst w'|]. destruct Hg as [_ ->]. apply Hother. by destruct t.
  - by destruct r as [err|[]]; subst w'.
  - destruct r as [err|[]]; subst w'; by split.
  - destruct Hg as (E1 & E2 & _). unfold still_spent. by rewrite E1, E2.
  - destruct Hg as (E1 & E2 & _). unfold still_spent. by rewrite E1, E2.
Qed.

(** A program all of whose calls keep a spent token spent, whatever they are answered. *)
Definition sparing {A} (p : sprog A) : Prop := wp (λ _ _ _, True) keeps_spent p (λ _, True).
Ltac solve_sparing :=
  repeat first
    [ progress cbv beta iota zeta
    | match goal with |- sparing _ => unfold sparing end
    | match goal with |- wp _ _ (Ret _) _ => cbn [wp] end
    | apply wp_try | apply wp_bind
    | apply wp_call; [first [exact I|eexists; split; [reflexivity|discriminate]]|intros ? _]
    | exact I
    | match goal with |- context [match ?x with _ => _ end] => destruct x end
    | match goal with |- wp _ _ ?p _ => let f := term_head p in unfold f end ].

(** The operations of the service, by anyone. *)
Inductive inv_call :=
| CCreate (workspaceID inviterID email role : string) | CPreview (token : string) | CList (workspaceID : string)
| CAccept (token userID : string) | CRegister (token username password : string) | CRevoke (callerID invitationID : string).
Definition do_call `{CaseFolding} (secret : string) (c : inv_call) : sprog unit :=
  match c with
  | CCreate ws inviter email role => _ ← inv_Create secret ws inviter email role; Ret tt
  | CPreview token => _ ← inv_Preview token; Ret tt
  | CList ws => _ ← inv_List ws; Ret tt
  | CAccept token user => _ ← inv_Accept secret token user; Ret tt
  | CRegister token name password => _ ← inv_RegisterAndAccept secret token name password; Ret tt
  | CRevoke caller id => _ ← inv_Revoke caller id; Ret tt
  end.

Lemma do_call_sparing `{CaseFolding} secret c : sparing (do_call secret c).
Proof. destruct c; solve_sparing. Qed.

Lemma do_call_spent `{CaseFolding} `{SqlLike} (h : forall T, srvE T -> World -> T -> World -> Prop) `{!GormDB h}
    secret token c w u w' :
  still_spent token w -> runs h (do_call secret c) w u w' -> still_spent token w'.
Proof.
  intros Hs Hr.
  destruct (wp_runs h (λ _ _ _, True) keeps_spent (still_spent token) (do_call secret c) (λ _, True) w u w') as [_ E]; try done.
  - intros T e s r s' HI He Hh. split; [done|]. eapply keeps_spent_step; [done|by apply gorm_law|done].
  - apply do_call_sparing.
Qed.

Lemma load_spent `{SqlLike} (h : forall T, srvE T -> World -> T -> World -> Prop) `{!GormDB h} secret token w i w' :
  spent token (w_tables w) -> ~ runs h (load_pending secret token) w (inr i) w'.
Proof.
  intros [_ Hs] Hr. apply (load_pending_inv h) in Hr as (_ & Hi & _ & Hp & _).
  apply list_elem_of_filter in Hi as [Hsel Hin]. unfold row_selected in Hsel. cbn in Hsel.
  rewrite !andb_true_iff in Hsel. destruct Hsel as (_ & Ht & _). apply bool_decide_eq_true_1 in Ht.
  by apply (Hs i).
Qed.

(** One operation after another, each by anyone and with any outcome. *)
Definition later `{CaseFolding} `{SqlLike} (h : forall T, srvE T -> World -> T -> World -> Prop) (secret : string) : World -> World -> Prop :=
  rtc (λ w w', exists c u, runs h (do_call secret c) w u w').

(** C35. An invitation is used once. When no other invitation has its token, then after [Accept]
    or [RegisterAndAccept] succeeded with the token neither succeeds with it any more, for any
    user: not then, and not after any operations of the service, by anyone and whatever came of
    them, inviting the same person again and revoking the invitation among them. The operations
    follow one another: two that overlap are not covered. *)
Theorem invitation_single_use `{CaseFolding} `{SqlLike}
    (h : forall T, srvE T -> World -> T -> World -> Prop) `{!GormDB h} secret token w w' w2 :
  (forall i j, i ∈ t_invitations (w_tables w) -> j ∈ t_invitations (w_tables w) ->
    inv_Token i = token -> inv_Token j = token -> i = j) ->
  (exists user u, runs h (inv_Accept secret token user) w (inr u) w') \/
  (exists name password v, runs h (inv_RegisterAndAccept secret token name password) w (inr v) w') ->
  later h secret w' w2 ->
  (forall user w3 v, ~ runs h (inv_Accept secret token user) w2 (inr v) w3) /\
  (forall name password w3 v, ~ runs h (inv_RegisterAndAccept secret token name password) w2 (inr v) w3).
Proof.
  intros Huniq Hacc Hlater.
  assert (Hspent : still_spent token w').
  { assert (Hs : spent token (w_tables w') /\ w_saved w' = None); [|by destruct Hs as [? E]; split; [|rewrite E]].
    destruct Hacc as [(user & u & Hr)|(name & pw & v & Hr)].
    - split.
      + apply (accept_inv h) in Hr as (inv & a & id & n1 & n2 & Hinv & _ & _ & _ & _ & _ & _ & E).
        eapply used_up_spent; [exact Huniq|]. exists inv. by rewrite E.
      + apply (Tx_inv h) in Hr; [|solve_plain]. by destruct Hr as (? & _ & ->).
    - split.
      + eapply used_up_spent; [exact Huniq|]. by eapply register_used_up.
      + apply (Tx_inv h) in Hr; [|solve_plain]. by destruct Hr as (? & _ & ->). }
  assert (Hw2 : still_spent token w2).
  { clear Hacc Huniq. induction Hlater as [w'|w' w1 w2 (c & u & Hr) _ IH]; [done|]. apply IH. by eapply do_call_spent. }
  destruct Hw2 as [Hs _]. split.
  - intros user w3 v Hr. apply (Tx_inv h) in Hr; [|solve_plain]. destruct Hr as (w4 & Hr & _).
    apply runs_try_inv in Hr as (i & w5 & Hr & _). revert Hr. by apply load_spent.
  - intros name pw w3 v Hr. apply (Tx_inv h) in Hr; [|solve_plain]. destruct Hr as (w4 & Hr & _).
    apply runs_try_inv in Hr as (i & w5 & Hr & _). revert Hr. by apply load_spent.
Qed.

(** *** Bob is invited to Alice's workspace *)

Definition ascii_folding : CaseFolding := {| EqualFold := equal_fold |}.

Definition sample_token : string := Eval vm_compute in invite_token (replicate 16 7) "secret".

Definition bob_invitation : WorkspaceInvitation := {|
  inv_Model := with_id "i1"; inv_WorkspaceID := "ws-a"; inv_InviterID := "alice"; inv_Email := "B@x";
  inv_Role := RoleEditor; inv_Token := sample_token; inv_Status := "pending"; inv_ExpiresAt := 50 |}.

Definition invited_world : World :=
  with_tables sample_world (insert_row sample_tables TInvitation bob_invitation).

Abbreviation sample_db := (@memory_db plain_like 5 sample_uuid (λ u, u)).

Definition joined_world : World := Eval vm_compute in
  (run sample_db (@inv_Accept ascii_folding "secret" sample_token "bob") invited_world).2.

Lemma Accept_spec_witness :
  runs (fun_world sample_db) (@inv_Accept ascii_folding "secret" sample_token "bob") invited_world (inr tt) joined_world /\
  @accepted_by ascii_folding plain_like "secret" sample_token "bob" (w_tables invited_world) (w_tables joined_world).
Proof.
  assert (Hr : runs (fun_world sample_db) (@inv_Accept ascii_folding "secret" sample_token "bob") invited_world
    (inr tt) joined_world).
  { apply (run_runs sample_db (@inv_Accept ascii_folding "secret" sample_token "bob") invited_world (inr tt)).
    vm_compute. reflexivity. }
  split; [exact Hr|].
  exact (@Accept_spec ascii_folding plain_like _ sample_gorm "secret" sample_token "bob" _ _ _ Hr).
Defined.

(** Bob used it, and Alice then revokes what he used. *)
Definition revoked_world : World := Eval vm_compute in (run sample_db (inv_Revoke "alice" "i1") joined_world).2.

Lemma invitation_single_use_witness :
  inv_Status <$> t_invitations (w_tables joined_world) = ["accepted"] /\
  inv_Status <$> t_invitations (w_tables revoked_world) = ["revoked"] /\
  ~ exists w2 v, runs (fun_world sample_db) (@inv_Accept ascii_folding "secret" sample_token "bob")
    revoked_world (inr v) w2.
Proof.
  assert (Hr : runs (fun_world sample_db) (@inv_Accept ascii_folding "secret" sample_token "bob") invited_world
    (inr tt) joined_world).
  { apply (run_runs sample_db (@inv_Accept ascii_folding "secret" sample_token "bob") invited_world (inr tt)).
    vm_compute. reflexivity. }
  assert (Hl : @later ascii_folding plain_like (fun_world sample_db) "secret" joined_world revoked_world).
  { apply rtc_once. exists (CRevoke "alice" "i1"), tt.
    apply (run_runs sample_db (@do_call ascii_folding "secret" (CRevoke "alice" "i1")) joined_world tt).
    vm_compute. reflexivity. }
  split; [vm_compute; reflexivity|]. split; [vm_compute; reflexivity|]. intros (w2 & v & H2).
  refine (proj1 (@invitation_single_use ascii_folding plain_like _ sample_gorm "secret" sample_token
    invited_world joined_world revoked_world _ (or_introl (ex_intro _ "bob" (ex_intro _ tt Hr))) Hl) "bob" w2 v H2).
  intros i j Hi Hj _ _. apply list_elem_of_singleton in Hi, Hj. congruence.
Defined.
