(* ===== verification/Workflow.v ===== *)
(** * Workflow: requests that need an approval
    ([internal/server/service/workflow.go])

    A request is submitted as pending; a reviewer approves or rejects it; an
    approved request is executed by a goroutine that [Approve] starts, which
    records the outcome. *)

From S2P Require Import Prelude Prog Net Api Store Access.

Record SubmitWorkflowReq := {
  sub_WorkspaceID : string;
  sub_RequestedBy : string;
  sub_RequestedByName : string;
  sub_RequestedByEmail : string;
  sub_ResourceType : string;
  sub_ResourceName : string;
  sub_Action : string;
  sub_Payload : string;
}.

Definition executorKey (resourceType action : string) : string := resourceType +:+ ":" +:+ action.

(** The keys with an executor; running one is a call. *)
Abbreviation executors := (list string).
Definition RegisterExecutor (e : executors) (resourceType action : string) : executors :=
  executorKey resourceType action :: e.

Definition Submit (req : SubmitWorkflowReq) : sprog (gresult WorkflowRequest) :=
  id ← call SUUID;
  r ← workflows_Create {|
    wr_ID := id; wr_WorkspaceID := sub_WorkspaceID req; wr_RequestedBy := sub_RequestedBy req;
    wr_RequestedByName := sub_RequestedByName req; wr_RequestedByEmail := sub_RequestedByEmail req;
    wr_ResourceType := sub_ResourceType req; wr_ResourceName := sub_ResourceName req;
    wr_Action := sub_Action req; wr_Payload := sub_Payload req; wr_Status := WorkflowStatusPending;
    wr_ReviewedBy := ""; wr_ReviewedByName := ""; wr_ReviewedAt := None; wr_ReviewNote := "";
    wr_ExecutedAt := None; wr_ErrorMessage := "" |};
  match r with
  | inl err => Ret (inl (ErrWrap "create workflow request" err))
  | inr wr => Ret (inr wr)
  end.

(** What a review writes. *)
Definition review (reviewerID reviewerName note : string) (now : Z) : list (string * sqlval) :=
  [("reviewed_by", VText reviewerID); ("reviewed_by_name", VText reviewerName); ("reviewed_at", VTime now);
   ("review_note", VText note)].

(** [Approve] answers the request that the goroutine it starts will execute. *)
Definition Approve (id reviewerID reviewerName note : string) : sprog (gresult WorkflowRequest) :=
  wr ← workflows_GetByID id;
  match wr with
  | inl _ => Ret (inl (ErrText "workflow request not found"))
  | inr wr =>
      if negb (bool_decide (wr_Status wr = WorkflowStatusPending))
      then Ret (inl (ErrText ("cannot approve a request with status " +:+ go_quote (wr_Status wr))))
      else
        now ← call SNow;
        _ ←? workflows_UpdateStatus id WorkflowStatusApproved (review reviewerID reviewerName note now);
        Ret (inr (assign TWorkflow (("status", VText WorkflowStatusApproved) :: review reviewerID reviewerName note now) wr))
  end.

Definition Reject (id reviewerID reviewerName note : string) : sprog (gresult unit) :=
  wr ← workflows_GetByID id;
  match wr with
  | inl _ => Ret (inl (ErrText "workflow request not found"))
  | inr wr =>
      if negb (bool_decide (wr_Status wr = WorkflowStatusPending))
      then Ret (inl (ErrText ("cannot reject a request with status " +:+ go_quote (wr_Status wr))))
      else
        now ← call SNow;
        workflows_UpdateStatus id WorkflowStatusRejected (review reviewerID reviewerName note now)
  end.

Definition workflow_List (f : WorkflowFilter) : sprog (gresult (list WorkflowRequest * Z)) := workflows_List f.
Definition workflow_GetByID (id : string) : sprog (gresult WorkflowRequest) := workflows_GetByID id.

(** The key of a request, and whether there is an executor for it. *)
Definition key_of (wr : WorkflowRequest) : string := executorKey (wr_ResourceType wr) (wr_Action wr).
Definition registered (e : executors) (wr : WorkflowRequest) : bool := bool_decide (key_of wr ∈ e).

(** The goroutine; the errors of its updates are dropped. *)
Definition execute (e : executors) (wr : WorkflowRequest) : sprog unit :=
  if negb (registered e wr) then
    now ← call SNow;
    _ ← workflows_UpdateStatus (wr_ID wr) WorkflowStatusFailed
      [("executed_at", VTime now); ("error_message", VText ("no executor registered for " +:+ go_quote (key_of wr)))];
    Ret tt
  else
    now ← call SNow;
    r ← call (SExecute (key_of wr) (wr_Payload wr));
    match r with
    | inl err =>
        _ ← workflows_UpdateStatus (wr_ID wr) WorkflowStatusFailed
          [("executed_at", VTime now); ("error_message", VText (error_text err))];
        Ret tt
    | inr _ =>
        _ ← workflows_UpdateStatus (wr_ID wr) WorkflowStatusExecuted [("executed_at", VTime now)];
        Ret tt
    end.

(** ** The requests over time *)

(** The server, the goroutines that have not run, and the requests whose executor
    was called. *)
Record wf_system := {
  sy_world : World;
  sy_pending : list WorkflowRequest;
  sy_ran : list WorkflowRequest;
}.

(** One call of the service after another, and goroutines in any order. *)
Inductive wf_step (h : forall T, srvE T -> World -> T -> World -> Prop) (e : executors) : wf_system -> wf_system -> Prop :=
| step_submit req s r w' :
    runs h (Submit req) (sy_world s) r w' ->
    wf_step h e s {| sy_world := w'; sy_pending := sy_pending s; sy_ran := sy_ran s |}
| step_approve id reviewer name note s r w' :
    runs h (Approve id reviewer name note) (sy_world s) r w' ->
    wf_step h e s {| sy_world := w'; sy_ran := sy_ran s;
                     sy_pending := sy_pending s ++ match r with inr wr => [wr] | inl _ => [] end |}
| step_reject id reviewer name note s r w' :
    runs h (Reject id reviewer name note) (sy_world s) r w' ->
    wf_step h e s {| sy_world := w'; sy_pending := sy_pending s; sy_ran := sy_ran s |}
| step_execute wr l1 l2 s u w' :
    sy_pending s = l1 ++ wr :: l2 -> runs h (execute e wr) (sy_world s) u w' ->
    wf_step h e s {| sy_world := w'; sy_pending := l1 ++ l2;
                     sy_ran := sy_ran s ++ if registered e wr then [wr] else [] |}.

(** A request that was approved and not decided otherwise. *)
Definition approved_status (st : string) : Prop :=
  st = WorkflowStatusApproved \/ st = WorkflowStatusExecuted \/ st = WorkflowStatusFailed.

(** The row of a request that was taken up. *)
Definition taken_up (l : list WorkflowRequest) (wr : WorkflowRequest) : Prop :=
  exists r, r ∈ l /\ wr_ID r = wr_ID wr /\ key_of r = key_of wr /\ wr_Payload r = wr_Payload wr /\
            approved_status (wr_Status r).

Definition wf_inv (s : wf_system) : Prop :=
  let l := t_workflows (w_tables (sy_world s)) in
  NoDup (wr_ID <$> l) /\
  NoDup (wr_ID <$> sy_pending s ++ sy_ran s) /\
  Forall (taken_up l) (sy_pending s ++ sy_ran s) /\
  w_executed (sy_world s) = (λ wr, (key_of wr, wr_Payload wr)) <$> sy_ran s.

Section workflow_facts.
Context `{SqlLike} (h : forall T, srvE T -> World -> T -> World -> Prop) `{!GormDB h}.

(** What an update of one request does to the requests. *)
Definition update_request (id : string) (sets : list (string * sqlval)) (l : list WorkflowRequest) : list WorkflowRequest :=
  (λ r, if bool_decide (wr_ID r = id) then assign TWorkflow sets r else r) <$> l.

Lemma update_workflow_inv id status fields w r w' :
  runs h (workflows_UpdateStatus id status fields) w r w' ->
  w_executed w' = w_executed w /\
  t_workflows (w_tables w') =
    match r with
    | inr _ => update_request id (("status", VText status) :: fields) (t_workflows (w_tables w))
    | inl _ => t_workflows (w_tables w)
    end.
Proof using All.
  intros Hr. apply runs_call_inv, gorm_law in Hr. unfold gorm_step in Hr. destruct r; subst w'; [done|].
  split; [done|]. unfold update_request. cbv [with_tables w_tables update_rows set_rows t_workflows rows].
  apply list_fmap_ext. intros i x _. cbv beta. by rewrite row_selected_id.
Qed.

(** Reviews and outcomes change neither the identity nor what is to be done. *)
Lemma assign_core sets r :
  wr_ID (assign TWorkflow sets r) = wr_ID r /\ key_of (assign TWorkflow sets r) = key_of r /\
  wr_Payload (assign TWorkflow sets r) = wr_Payload r.
Proof.
  revert r. induction sets as [|[c v] sets IH]; intros r; [done|].
  exact (IH (set_column TWorkflow c v r)).
Qed.

Lemma assign_status status fields r :
  Forall (λ cv, cv.1 <> "status") fields ->
  wr_Status (assign TWorkflow (("status", VText status) :: fields) r) = status.
Proof.
  intros Hf. cbn [assign foldl]. set (r' := set_column _ _ _ _).
  assert (E : wr_Status r' = status) by done. clearbody r'. revert r' E.
  induction Hf as [|[c v] fields Hc Hf IH]; intros r' E; [done|]. cbn [foldl]. apply IH. cbn.
  by rewrite bool_decide_false.
Qed.

Lemma update_request_ids id sets l : wr_ID <$> update_request id sets l = wr_ID <$> l.
Proof.
  unfold update_request. rewrite <- list_fmap_compose. apply list_fmap_ext. intros i r _. cbn.
  case_bool_decide; [apply assign_core|done].
Qed.

(** With distinct identifiers, an identifier names one request. *)
Lemma same_request l r1 r2 :
  NoDup (wr_ID <$> l) -> r1 ∈ l -> r2 ∈ l -> wr_ID r1 = wr_ID r2 -> r1 = r2.
Proof.
  intros Hnd [i Hi]%list_elem_of_lookup [j Hj]%list_elem_of_lookup E.
  assert (i = j) as ->; [|congruence].
  apply (NoDup_lookup _ _ _ (wr_ID r1) Hnd); rewrite list_lookup_fmap; [by rewrite Hi|].
  rewrite Hj. cbn. congruence.
Qed.

(** Requests that were taken up stay so when another one is updated, and when
    the outcome is recorded. *)
Lemma taken_up_update l id status fields wr :
  Forall (λ cv, cv.1 <> "status") fields ->
  taken_up l wr -> wr_ID wr <> id \/ approved_status status ->
  taken_up (update_request id (("status", VText status) :: fields) l) wr.
Proof.
  intros Hf (r & Hr & Eid & Ek & Ep & Es) Hor. unfold taken_up, update_request.
  eexists. split; [apply list_elem_of_fmap; by exists r|]. cbn beta.
  case_bool_decide as E.
  - destruct (assign_core (("status", VText status) :: fields) r) as (E1 & E2 & E3).
    rewrite E1, E2, E3, assign_status by done. split_and!; [done..|]. destruct Hor; [congruence|done].
  - done.
Qed.

(** A pending request has not been taken up. *)
Lemma pending_not_taken l ts r :
  NoDup (wr_ID <$> l) -> Forall (taken_up l) ts -> r ∈ l -> wr_Status r = WorkflowStatusPending ->
  wr_ID r ∉ (wr_ID <$> ts).
Proof.
  intros Hnd Hts Hr Hp (wr & E & Hwr)%list_elem_of_fmap. rewrite Forall_forall in Hts.
  destruct (Hts _ Hwr) as (r' & Hr' & Eid & _ & _ & Hst).
  assert (r' = r) as -> by (apply (same_request l); [done..|congruence]).
  rewrite Hp in Hst. by destruct Hst as [?|[?|?]].
Qed.

(** A decision about a pending request keeps the others as they were. *)
Lemma decide_others l ts r status fields :
  Forall (λ cv, cv.1 <> "status") fields ->
  NoDup (wr_ID <$> l) -> Forall (taken_up l) ts -> r ∈ l -> wr_Status r = WorkflowStatusPending ->
  Forall (taken_up (update_request (wr_ID r) (("status", VText status) :: fields) l)) ts.
Proof.
  intros Hf Hnd Hts Hr Hp. pose proof (pending_not_taken _ _ _ Hnd Hts Hr Hp) as Hni.
  apply Forall_forall. intros wr Hwr. apply taken_up_update; [done| |].
  - by apply (proj1 (Forall_forall _ _) Hts).
  - left. intros E. apply Hni. rewrite <- E. by apply list_elem_of_fmap_2.
Qed.

Lemma review_fields a b c d : Forall (λ cv, cv.1 <> "status") (review a b c d).
Proof. by repeat constructor. Qed.

Lemma submit_keeps req s r w' :
  wf_inv s -> runs h (Submit req) (sy_world s) r w' ->
  wf_inv {| sy_world := w'; sy_pending := sy_pending s; sy_ran := sy_ran s |}.
Proof using All.
  intros (H1 & H2 & H3 & H4) Hr. apply runs_bind_inv in Hr as (id & w1 & Hr1 & Hr).
  apply runs_call_inv, gorm_law in Hr1 as [-> _]. apply runs_bind_inv in Hr as (rc & w2 & Hr2 & Hr).
  apply runs_call_inv, gorm_law in Hr2. assert (w' = w2) as -> by (by destruct rc; apply runs_ret_inv in Hr as [_ ->]).
  destruct rc as [err|wr]; cbn in Hr2; [by subst w2|]. destruct Hr2 as (-> & Hnew & -> & _).
  split_and!; cbn; [|done| |done].
  - rewrite fmap_app. apply NoDup_app. split_and!; [done| |apply NoDup_singleton].
    intros x Hx ->%list_elem_of_singleton. by apply Hnew.
  - eapply Forall_impl; [exact H3|]. intros x (r' & Hr' & Hrest). exists r'.
    split; [|done]. apply elem_of_app. by left.
Qed.

(** What [Approve] and [Reject] find. *)
Lemma found_pending id w r w' :
  runs h (workflows_GetByID id) w r w' ->
  w' = w /\ forall wr, r = inr wr -> wr ∈ t_workflows (w_tables w) /\ wr_ID wr = id.
Proof using All.
  intros Hr. apply (first_inv h TWorkflow) in Hr as [-> Hm]. split; [done|]. intros wr ->.
  by apply (found_id TWorkflow).
Qed.

Lemma approve_keeps id reviewer name note s r w' :
  wf_inv s -> runs h (Approve id reviewer name note) (sy_world s) r w' ->
  wf_inv {| sy_world := w'; sy_ran := sy_ran s;
            sy_pending := sy_pending s ++ match r with inr wr => [wr] | inl _ => [] end |}.
Proof using All.
  intros Hinv Hr. pose proof Hinv as (H1 & H2 & H3 & H4).
  apply runs_bind_inv in Hr as (rg & w1 & Hr1 & Hr). apply found_pending in Hr1 as [-> Hg].
  assert (Hsame : wf_inv {| sy_world := sy_world s; sy_ran := sy_ran s; sy_pending := sy_pending s ++ [] |})
    by (by rewrite app_nil_r).
  destruct rg as [err|wr]; [by apply runs_ret_inv in Hr as [-> ->]|]. destruct (Hg _ eq_refl) as [Hin <-].
  case_bool_decide as Hp; [|by apply runs_ret_inv in Hr as [-> ->]]. cbn [negb] in Hr.
  apply runs_bind_inv in Hr as (now & w2 & Hr2 & Hr). apply (now_inv h) in Hr2 as ->.
  apply runs_bind_inv in Hr as (ru & w3 & Hr3 & Hr). apply update_workflow_inv in Hr3 as [He Hl].
  destruct ru as [err|[]]; apply runs_ret_inv in Hr as [-> ->].
  { split_and!; cbn; rewrite ?Hl, ?app_nil_r; [done..|congruence]. }
  set (wr' := assign TWorkflow _ wr).
  destruct (assign_core (("status", VText WorkflowStatusApproved) :: review reviewer name note now) wr)
    as (E1 & E2 & E3). fold wr' in E1, E2, E3.
  pose proof (pending_not_taken _ _ _ H1 H3 Hin Hp) as Hni.
  split_and!; cbn [sy_world sy_pending sy_ran]; rewrite ?Hl.
  - by rewrite update_request_ids.
  - assert (Hperm : wr_ID <$> (sy_pending s ++ [wr']) ++ sy_ran s ≡ₚ wr_ID wr :: (wr_ID <$> sy_pending s ++ sy_ran s)).
    { rewrite <- app_assoc, <- E1, <- fmap_cons. apply fmap_Permutation. symmetry. apply Permutation_middle. }
    rewrite Hperm. by apply NoDup_cons.
  - pose proof (decide_others _ _ wr WorkflowStatusApproved _ (review_fields reviewer name note now) H1 H3 Hin Hp) as Hk.
    rewrite !Forall_app in *. destruct Hk as [Hk1 Hk2]. split_and!; [done| |done]. apply Forall_singleton.
    exists wr'. split_and!; [|done..|].
    + unfold update_request. apply list_elem_of_fmap. exists wr. by rewrite bool_decide_true.
    + left. apply assign_status, review_fields.
  - congruence.
Qed.

Lemma reject_keeps id reviewer name note s r w' :
  wf_inv s -> runs h (Reject id reviewer name note) (sy_world s) r w' ->
  wf_inv {| sy_world := w'; sy_pending := sy_pending s; sy_ran := sy_ran s |}.
Proof using All.
  intros Hinv Hr. pose proof Hinv as (H1 & H2 & H3 & H4).
  apply runs_bind_inv in Hr as (rg & w1 & Hr1 & Hr). apply found_pending in Hr1 as [-> Hg].
  destruct rg as [err|wr]; [by apply runs_ret_inv in Hr as [-> ->]|]. destruct (Hg _ eq_refl) as [Hin <-].
  case_bool_decide as Hp; [|by apply runs_ret_inv in Hr as [-> ->]]. cbn [negb] in Hr.
  apply runs_bind_inv in Hr as (now & w2 & Hr2 & Hr). apply (now_inv h) in Hr2 as ->.
  apply update_workflow_inv in Hr as [He Hl].
  split_and!; cbn [sy_world sy_pending sy_ran]; rewrite ?Hl; [|done| |congruence]; destruct r; try done.
  - by rewrite update_request_ids.
  - by apply decide_others; [apply review_fields|..].
Qed.

(** Recording the outcome of a goroutine keeps the invariant. *)
Lemma outcome_keeps wr l1 l2 s ran id status fields w r w' :
  wf_inv s -> sy_pending s = l1 ++ wr :: l2 -> wr_ID wr = id -> approved_status status ->
  Forall (λ cv, cv.1 <> "status") fields ->
  t_workflows (w_tables w) = t_workflows (w_tables (sy_world s)) ->
  w_executed w = (λ wr, (key_of wr, wr_Payload wr)) <$> (sy_ran s ++ ran) ->
  ran = [] \/ ran = [wr] ->
  runs h (workflows_UpdateStatus id status fields) w r w' ->
  wf_inv {| sy_world := w'; sy_pending := l1 ++ l2; sy_ran := sy_ran s ++ ran |}.
Proof using All.
  intros (H1 & H2 & H3 & H4) Epend Eid Hst Hf El Ee Hran Hr. apply update_workflow_inv in Hr as [He Hl].
  rewrite El in Hl. rewrite Epend in H2, H3.
  assert (Hsub : (l1 ++ l2) ++ sy_ran s ++ ran ⊆+ (l1 ++ wr :: l2) ++ sy_ran s).
  { destruct Hran as [->| ->]; rewrite ?app_nil_r.
    - apply submseteq_skips_r. apply submseteq_app; [done|]. by apply submseteq_cons.
    - apply Permutation_submseteq. rewrite (Permutation_app_comm (sy_ran s)), <- Permutation_middle. cbn.
      by rewrite <- Permutation_middle. }
  split_and!; cbn [sy_world sy_pending sy_ran]; rewrite ?Hl.
  - destruct r; [done|]. by rewrite update_request_ids.
  - assert (Hs : wr_ID <$> (l1 ++ l2) ++ sy_ran s ++ ran ⊆+ wr_ID <$> (l1 ++ wr :: l2) ++ sy_ran s)
      by (by apply fmap_submseteq).
    apply submseteq_Permutation in Hs as [k Hk]. rewrite Hk in H2. by apply NoDup_app in H2 as (? & _ & _).
  - assert (Hall : Forall (taken_up (t_workflows (w_tables (sy_world s)))) ((l1 ++ l2) ++ sy_ran s ++ ran)).
    { apply submseteq_Permutation in Hsub as [k Hk]. rewrite Hk in H3. by apply Forall_app in H3 as [? _]. }
    destruct r; [done|]. eapply Forall_impl; [exact Hall|]. intros x Hx. apply taken_up_update; auto.
  - congruence.
Qed.

Lemma execute_keeps e wr l1 l2 s u w' :
  wf_inv s -> sy_pending s = l1 ++ wr :: l2 -> runs h (execute e wr) (sy_world s) u w' ->
  wf_inv {| sy_world := w'; sy_pending := l1 ++ l2; sy_ran := sy_ran s ++ if registered e wr then [wr] else [] |}.
Proof using All.
  intros Hinv Ep Hr. pose proof Hinv as (_ & _ & _ & H4). unfold execute in Hr.
  destruct (registered e wr); cbn [negb] in Hr;
    apply runs_bind_inv in Hr as (now & w1 & Hr1 & Hr); apply (now_inv h) in Hr1 as ->;
    [apply runs_bind_inv in Hr as (rx & w2 & Hr2 & Hr);
     apply runs_call_inv, gorm_law in Hr2; cbn in Hr2; subst w2; destruct rx as [err|[]]|];
    apply runs_bind_inv in Hr as (ru & w3 & Hr3 & Hr); apply runs_ret_inv in Hr as [-> ->];
    (eapply outcome_keeps in Hr3; [exact Hr3|done|done|done| | |done| |]); try (by repeat constructor); cbn;
    rewrite ?fmap_app, ?app_nil_r; unfold approved_status; try congruence; auto.
  all: by rewrite H4.
Qed.

Lemma wf_step_keeps e s s' : wf_step h e s s' -> wf_inv s -> wf_inv s'.
Proof using All.
  intros [req s0 r w' Hr|id rv nm nt s0 r w' Hr|id rv nm nt s0 r w' Hr|wr l1 l2 s0 u w' Ep Hr] Hinv.
  - by eapply submit_keeps.
  - by eapply approve_keeps.
  - by eapply reject_keeps.
  - by eapply execute_keeps.
Qed.
End workflow_facts.

(** C36. However submissions, approvals, rejections and executions follow each
    other, one at a time: the executor of a request is called at most once; every
    call was made with the key and the payload of a request that was approved, and
    that request is recorded as approved, executed or failed; so a rejected request
    is never executed. *)
Theorem workflow_executes_once `{SqlLike} (h : forall T, srvE T -> World -> T -> World -> Prop) `{!GormDB h}
    e w s :
  t_workflows (w_tables w) = [] -> w_executed w = [] ->
  rtc (wf_step h e) {| sy_world := w; sy_pending := []; sy_ran := [] |} s ->
  NoDup (wr_ID <$> sy_ran s) /\
  w_executed (sy_world s) = (λ wr, (key_of wr, wr_Payload wr)) <$> sy_ran s /\
  forall wr r, wr ∈ sy_ran s -> r ∈ t_workflows (w_tables (sy_world s)) -> wr_ID r = wr_ID wr ->
    key_of r = key_of wr /\ wr_Payload r = wr_Payload wr /\ approved_status (wr_Status r).
Proof.
  intros Ew Ex Hr.
  assert (Hinv : wf_inv s).
  { assert (H0 : wf_inv {| sy_world := w; sy_pending := []; sy_ran := [] |}).
    { split_and!; cbn; rewrite ?Ew; [apply NoDup_nil_2..|constructor|done]. }
    clear Ew Ex. induction Hr as [|x y z Hs Hr IH]; [done|]. apply IH. by eapply (wf_step_keeps h). }
  destruct Hinv as (H1 & H2 & H3 & H4). split_and!; [|done|].
  - rewrite fmap_app in H2. by apply NoDup_app in H2 as (_ & _ & ?).
  - intros wr r Hwr Hrow Eid. rewrite Forall_forall in H3.
    destruct (H3 wr) as (r' & Hr' & Eid' & Hk & Hp & Hs); [apply elem_of_app; by right|].
    assert (r = r') as -> by (apply (same_request (t_workflows (w_tables (sy_world s)))); [done..|congruence]). done.
Qed.

(** *** One request, and two reviewers at once *)

Definition relay_request : SubmitWorkflowReq := {|
  sub_WorkspaceID := "ws-a"; sub_RequestedBy := "bob"; sub_RequestedByName := "bob"; sub_RequestedByEmail := "b@x";
  sub_ResourceType := "relay"; sub_ResourceName := "r1"; sub_Action := "create"; sub_Payload := "p" |}.

Abbreviation review_db := (@memory_db plain_like 5 sample_uuid (λ u, u)).
Definition request_id : string := Eval vm_compute in sample_uuid sample_world.
Definition submitted_world : World := Eval vm_compute in (run review_db (Submit relay_request) sample_world).2.
Definition approved_world : World := Eval vm_compute in
  (run review_db (Approve request_id "alice" "alice" "ok") submitted_world).2.
Definition approved_request : WorkflowRequest := Eval vm_compute in
  default {| wr_ID := ""; wr_WorkspaceID := ""; wr_RequestedBy := ""; wr_RequestedByName := "";
    wr_RequestedByEmail := ""; wr_ResourceType := ""; wr_ResourceName := ""; wr_Action := ""; wr_Payload := "";
    wr_Status := ""; wr_ReviewedBy := ""; wr_ReviewedByName := ""; wr_ReviewedAt := None; wr_ReviewNote := "";
    wr_ExecutedAt := None; wr_ErrorMessage := "" |} (head (t_workflows (w_tables approved_world))).
Definition executed_world : World := Eval vm_compute in
  (run review_db (execute ["relay:create"] approved_request) approved_world).2.

Lemma workflow_executes_once_witness :
  w_executed executed_world = [("relay:create", "p")] /\
  NoDup (wr_ID <$> [approved_request]) /\
  w_executed executed_world = (λ wr, (key_of wr, wr_Payload wr)) <$> [approved_request].
Proof.
  split; [reflexivity|].
  destruct (@workflow_executes_once plain_like (fun_world review_db) sample_gorm ["relay:create"] sample_world
    {| sy_world := executed_world; sy_pending := []; sy_ran := [approved_request] |}) as (H1 & H2 & _);
    [reflexivity|reflexivity| |split; [exact H1|exact H2]].
  eapply rtc_l; [eapply (step_submit _ _ relay_request)|].
  { eapply (run_runs review_db (Submit relay_request) sample_world). vm_compute. reflexivity. }
  eapply rtc_l; [eapply (step_approve _ _ request_id "alice" "alice" "ok")|].
  { eapply (run_runs review_db (Approve request_id "alice" "alice" "ok")). vm_compute. reflexivity. }
  eapply rtc_l; [eapply (step_execute _ _ approved_request [] [])|].
  { vm_compute. reflexivity. }
  { eapply (run_runs review_db (execute ["relay:create"] approved_request)). vm_compute. reflexivity. }
  vm_compute. apply rtc_refl.
Defined.

(** [Approve] reads the status and writes it in two statements.  Two reviewers
    whose calls interleave both find the request pending, both start a goroutine,
    and the request is executed twice. *)
Lemma approve_race :
  exists wr1 wr2,
    (sched review_db [0; 1; 0; 1; 0; 1]%nat
      [Approve request_id "alice" "alice" "ok"; Approve request_id "carol" "carol" "ok"] submitted_world).1 =
    [Ret (inr wr1); Ret (inr wr2)] /\ wr_ID wr1 = request_id /\ wr_ID wr2 = request_id.
Proof. eexists _, _. split; [vm_compute; reflexivity|]. split; reflexivity. Qed.
