(* ===== verification/Workspaces.v ===== *)
(** * Workspaces: tenants, their members and users
    ([internal/server/service/workspace.go], [service/user.go],
    [server/workspace.go], [server/member.go], [server/user.go],
    [pkg/utils/strings.go])

    The services that create and list workspaces and users, and the handlers of
    their routes. *)

From S2P Require Import Prelude Prog Net Api Store Access Invitations.

(** ** Slugs *)

(** The romanisation of Chinese characters, and lower case. *)
Class SlugText := { Pinyin : string -> list (list string); ToLower : string -> string }.

Definition slug_char (c : ascii) : bool :=
  let n := nat_of_ascii c in bool_decide (97 <= n <= 122)%nat || bool_decide (48 <= n <= 57)%nat.

Definition hyphen : ascii := ascii_of_nat 45.

(** Every run of other characters becomes one hyphen; [run]: in such a run. *)
Fixpoint replace_runs (run : bool) (s : string) : string :=
  match s with
  | EmptyString => ""
  | String c s =>
      if slug_char c then String c (replace_runs false s)
      else if run then replace_runs true s else String hyphen (replace_runs true s)
  end.

Fixpoint trim_left (s : string) : string :=
  match s with String c s' => if bool_decide (c = hyphen) then trim_left s' else s | EmptyString => "" end.

Fixpoint trim_right (s : string) : string :=
  match s with
  | EmptyString => ""
  | String c s =>
      match trim_right s with
      | EmptyString => if bool_decide (c = hyphen) then "" else String c ""
      | t => String c t
      end
  end.

(** The first reading of each character; [None] is the index out of range. *)
Definition GenerateSlug `{SlugText} (input : string) : option string :=
  input ← match Pinyin input with
          | [] => Some input
          | p => str_join "-" <$> mapM head p
          end;
  Some (trim_right (trim_left (replace_runs false (ToLower input)))).

(** ** Tenants *)

Definition initial_roles : list string := ["admin"; "editor"; "member"; "viewer"].

Definition role_binding (ns wsID roleName : string) : KObject :=
  KRoleBinding ("wf-rb-" +:+ wsID +:+ "-" +:+ roleName) ns ("wf-group-" +:+ wsID +:+ "-" +:+ roleName)
    ("lattice-" +:+ roleName).

Definition createRoleBinding (ns wsID roleName : string) : sprog (gresult unit) :=
  call (SKCreate (role_binding ns wsID roleName)).

Definition managed_meta (nsName name : string) : ObjectMeta :=
  meta_with_labels (new_meta nsName name) {["app.kubernetes.io/managed-by" := "lattice-controller"]}.

Definition default_network (nsName : string) : LatticeNetwork := {|
  net_meta := managed_meta nsName "lattice-default-net";
  net_Spec := {| netspec_Name := "lattice-default-net"; netspec_NetworkId := ""; netspec_Owner := "";
    netspec_CIDR := "100.64.0.0/16"; netspec_Mtu := 0; netspec_Dns := {| dns_Enabled := false; dns_Servers := [] |};
    netspec_PeerSelector := ∅; netspec_Policies := [] |};
  net_Status := {| net_Phase := ""; net_Conditions := []; net_ActiveCIDR := ""; net_AllocatedCount := 0;
    net_AvailableIPs := 0; net_ObservedGeneration := 0 |} |}.

Definition createDefaultNetwork (nsName : string) : sprog (gresult unit) :=
  r ← call (SKGetNetwork {| key_Namespace := nsName; key_Name := "lattice-default-net" |});
  match r with
  | inr _ => Ret (inr tt)
  | inl err =>
      if IsNotFound err then
        c ← call (SKCreate (KNetwork (default_network nsName)));
        match c with
        | inl e => Ret (inl (ErrText ("failed to create default network: " +:+ error_text e)))
        | inr _ => Ret (inr tt)
        end
      else Ret (inl err)
  end.

Definition default_policy (nsName : string) : LatticePolicy := {|
  pol_meta := managed_meta nsName "lattice-deny-all";
  pol_Spec := {| pol_Network := nsName +:+ "-net"; pol_PeerSelector := {| MatchLabels := ∅; MatchExpressions := [] |};
    pol_Ingress := []; pol_Egress := []; pol_Action := "DENY" |};
  pol_Status := {| pol_TargetNodes := 0; pol_RuleCount := 0 |} |}.

Definition createDefaultPolicy (nsName : string) : sprog (gresult unit) :=
  r ← call (SKGetPolicy {| key_Namespace := nsName; key_Name := "lattice-deny-all" |});
  match r with
  | inr _ => Ret (inr tt)
  | inl err =>
      if IsNotFound err then
        c ← call (SKCreate (KPolicy (default_policy nsName)));
        match c with
        | inl e => Ret (inl (ErrText ("failed to create default policy: " +:+ error_text e)))
        | inr _ => Ret (inr tt)
        end
      else Ret (inl err)
  end.

(** [fmt.Errorf("what: %v", err)]. *)
Definition or_fail {A} (what : string) (p : sprog (gresult A)) : sprog (gresult A) :=
  r ← p; Ret (match r with inl err => inl (ErrText (what +:+ ": " +:+ error_text err)) | inr a => inr a end).

Definition InitializeTenant (wsID role : string) : sprog (gresult unit) :=
  let nsName := "wf-" +:+ wsID in
  _ ←? call (SKCreate (KNamespace nsName [("alattice.io/workspace-id", wsID)]));
  _ ←? or_fail "failed to create quota"
         (call (SKCreate (KQuota "workspace-quota" nsName [("count/nodes.alattice.io", "50"); ("secrets", "20")])));
  _ ←? for_each initial_roles (λ r, or_fail "failed to create role binding" (createRoleBinding nsName wsID r));
  _ ←? or_fail "failed to create default network" (createDefaultNetwork nsName);
  or_fail "failed to create default policy" (createDefaultPolicy nsName).

Definition InitNewNamespace (workspaceId : string) : sprog (gresult unit) := InitializeTenant workspaceId "admin".

(** ** The workspace service *)

Record WorkspaceDto := { wd_Slug : string; wd_DisplayName : string }.

Record WorkspaceVo := {
  wv_ID : string; wv_Slug : string; wv_Namespace : string; wv_DisplayName : string; wv_TokenCount : Z;
  wv_QuotaUsage : Z; wv_NodeCount : Z; wv_Status : string; wv_NetworkName : string; wv_NetworkCIDR : string;
  wv_NetworkStatus : string; wv_CreatedBy : string; wv_UpdatedBy : string;
}.

Definition workspace_vo (ws : Workspace) (status : string) : WorkspaceVo := {|
  wv_ID := row_id TWorkspace ws; wv_Slug := ws_Slug ws; wv_Namespace := ws_Namespace ws;
  wv_DisplayName := ws_DisplayName ws; wv_TokenCount := 0; wv_QuotaUsage := 0; wv_NodeCount := 0;
  wv_Status := status; wv_NetworkName := ""; wv_NetworkCIDR := ""; wv_NetworkStatus := "";
  wv_CreatedBy := ""; wv_UpdatedBy := "" |}.

Definition with_namespace (ws : Workspace) (ns : string) : Workspace := {|
  ws_Model := ws_Model ws; ws_Slug := ws_Slug ws; ws_Namespace := ns; ws_DisplayName := ws_DisplayName ws;
  ws_Status := ws_Status ws; ws_CreatedBy := ws_CreatedBy ws; ws_UpdatedBy := ws_UpdatedBy ws |}.

(** The transaction of [AddWorkspace]. *)
Definition create_workspace (userID username slug displayName : string) : sprog (gresult WorkspaceVo) :=
  newWs ←? base_Create TWorkspace {|
    ws_Model := new_model; ws_Slug := slug; ws_Namespace := ""; ws_DisplayName := displayName; ws_Status := "";
    ws_CreatedBy := username; ws_UpdatedBy := "" |};
  let newWs := with_namespace newWs ("wf-" +:+ row_id TWorkspace newWs) in
  _ ←? base_Update TWorkspace newWs;
  _ ←? InitNewNamespace (row_id TWorkspace newWs);
  _ ←? (if bool_decide (userID = "") then Ret (inr tt)
        else
          now ← call SNow;
          _ ←? members_AddMember (new_member (row_id TWorkspace newWs) userID "admin" "" now);
          Ret (inr tt));
  Ret (inr (workspace_vo newWs "active")).

Definition AddWorkspace `{SlugText} (userID username : string) (dto : WorkspaceDto) : sprog (gresult WorkspaceVo) :=
  match GenerateSlug (wd_Slug dto) with
  | None => Panic
  | Some slug =>
      exists_ ←? (if bool_decide (userID = "") then Ret (inr false)
                  else workspaces_ExistsByUserAndSlug userID slug);
      if exists_ : bool then Ret (inl (ErrText ("workspace with name " +:+ go_quote (wd_Slug dto) +:+ " already exists")))
      else Tx (create_workspace userID username slug (wd_DisplayName dto))
  end.

Definition UpdateWorkspace (username id : string) (dto : WorkspaceDto) : sprog (gresult WorkspaceVo) :=
  ws ←? workspaces_GetByID id;
  let ws := {| ws_Model := ws_Model ws; ws_Slug := ws_Slug ws; ws_Namespace := ws_Namespace ws;
    ws_DisplayName := nonzero (wd_DisplayName dto) (ws_DisplayName ws); ws_Status := ws_Status ws;
    ws_CreatedBy := ws_CreatedBy ws; ws_UpdatedBy := username |} in
  _ ←? base_Update TWorkspace ws;
  let v := workspace_vo ws (ws_Status ws) in
  Ret (inr {| wv_ID := wv_ID v; wv_Slug := wv_Slug v; wv_Namespace := wv_Namespace v;
    wv_DisplayName := wv_DisplayName v; wv_TokenCount := 0; wv_QuotaUsage := 0; wv_NodeCount := 0;
    wv_Status := wv_Status v; wv_NetworkName := ""; wv_NetworkCIDR := ""; wv_NetworkStatus := "";
    wv_CreatedBy := ws_CreatedBy ws; wv_UpdatedBy := ws_UpdatedBy ws |}).

Definition DeleteWorkspace (id : string) : sprog (gresult unit) :=
  ws ←? workspaces_GetByID id;
  _ ←? (if bool_decide (ws_Namespace ws = "") then Ret (inr tt)
        else
          r ← call (SKDeleteNamespace (ws_Namespace ws));
          match r with
          | inr _ => Ret (inr tt)
          | inl err =>
              if IsNotFound err then Ret (inr tt)
              else Ret (inl (ErrWrap ("failed to delete namespace " +:+ ws_Namespace ws) err))
          end);
  Tx (_ ←? members_DeleteByWorkspace id; workspaces_Delete id).

(** What the listing adds about one workspace; failed reads leave zeros. *)
Definition describe (ws : Workspace) : sprog WorkspaceVo :=
  ns ← call (SKGetNamespace (ws_Namespace ws));
  match ns with
  | inl _ =>
      let v := workspace_vo ws "inactive" in
      Ret {| wv_ID := wv_ID v; wv_Slug := wv_Slug v; wv_Namespace := wv_Namespace v;
        wv_DisplayName := wv_DisplayName v; wv_TokenCount := 0; wv_QuotaUsage := 0; wv_NodeCount := 0;
        wv_Status := wv_Status v; wv_NetworkName := ""; wv_NetworkCIDR := ""; wv_NetworkStatus := "";
        wv_CreatedBy := ws_CreatedBy ws; wv_UpdatedBy := ws_UpdatedBy ws |}
  | inr _ =>
      quota ← call (SKGetQuota {| key_Namespace := ws_Namespace ws; key_Name := "workspace-quota" |});
      network ← call (SKGetNetwork {| key_Namespace := ws_Namespace ws; key_Name := "lattice-default-net" |});
      tokens ← call (SKCountTokens (ws_Namespace ws));
      let '(hard, used) := match quota with inr q => q | inl _ => (None, None) end in
      let '(name, cidr, phase) :=
        match network with
        | inr n => (netspec_Name (net_Spec n),
                    nonzero (net_ActiveCIDR (net_Status n)) (netspec_CIDR (net_Spec n)), net_Phase (net_Status n))
        | inl _ => ("", "", "")
        end in
      Ret {| wv_ID := row_id TWorkspace ws; wv_Slug := ws_Slug ws; wv_Namespace := ws_Namespace ws;
        wv_DisplayName := ws_DisplayName ws; wv_TokenCount := match tokens with inr n => n | inl _ => 0 end;
        wv_QuotaUsage := default 0 used; wv_NodeCount := default 0 hard; wv_Status := "active";
        wv_NetworkName := name; wv_NetworkCIDR := cidr; wv_NetworkStatus := phase;
        wv_CreatedBy := ws_CreatedBy ws; wv_UpdatedBy := ws_UpdatedBy ws |}
  end.

(** The goroutines write disjoint entries of the result, in order. *)
Fixpoint describe_all (l : list Workspace) : sprog (list WorkspaceVo) :=
  match l with
  | [] => Ret []
  | ws :: l => v ← describe ws; vs ← describe_all l; Ret (v :: vs)
  end.

Record PageRequest := { pr_Page : Z; pr_PageSize : Z; pr_Keyword : string; pr_Status : string }.

(** The workspaces of a user are those of the member rows, which are read without
    them: each is an empty one.  [userID]: the user of the context, where it has one; the
    code takes it for granted. *)
Definition ListWorkspaces (systemRole : string) (userID : option string) (rq : PageRequest)
    : sprog (gresult (list WorkspaceVo * Z)) :=
  found ←? (if bool_decide (systemRole = "platform_admin")
            then workspaces_List (pr_Keyword rq) (pr_Page rq) (pr_PageSize rq)
            else
              match userID with
              | None => Panic
              | Some userID =>
                  ms ←? members_ListByUser userID (pr_Page rq) (pr_PageSize rq);
                  Ret (inr ((λ _, new_workspace) <$> ms.1, ms.2))
              end);
  result ← describe_all found.1;
  if bool_decide (pr_Status rq = "") then Ret (inr (result, found.2))
  else
    let result := filter (λ v, wv_Status v = pr_Status rq) result in
    Ret (inr (result, Z.of_nat (length result))).

(** ** Members *)

Definition GetMemberRole (workspaceNamespace userID : string) : sprog (gresult string) :=
  ws ←? workspaces_GetByNamespace workspaceNamespace;
  m ←? members_GetMembership (row_id TWorkspace ws) userID;
  Ret (inr (wm_Role m)).

(** The member service and controller. *)
Definition member_Add (workspaceID userID role : string) : sprog (gresult unit) :=
  now ← call SNow;
  _ ←? members_AddMember (new_member workspaceID userID role "" now); Ret (inr tt).
Definition member_UpdateRole (workspaceID userID role : string) : sprog (gresult unit) :=
  members_UpdateRole workspaceID userID role.
Definition member_Remove (workspaceID userID : string) : sprog (gresult unit) :=
  members_SoftRemove workspaceID userID.
Definition member_List (workspaceID : string) : sprog (gresult (list WorkspaceMember)) :=
  members_ListMembers workspaceID.

(** [resp.Error] or [resp.OK]. *)
Definition reply_of {A} (r : gresult A) : Reply := match r with inl err => RError (error_text err) | inr _ => OK end.

(** The handlers; [body] is the bound JSON, if it binds. *)
Definition handleListMembers (rq : HttpRequest) (c : Ctx) : sprog Reply :=
  r ← member_List (rq_Param rq "id"); Ret (reply_of r).

Definition handleAddMember (body : option string) (rq : HttpRequest) (c : Ctx) : sprog Reply :=
  let wsID := rq_Param rq "id" in
  let userID := rq_Param rq "userID" in
  match body with
  | None => Ret BadRequest
  | Some role =>
      existing ← members_GetMembership wsID userID;
      match existing with
      | inr _ => Ret BadRequest
      | inl _ => r ← member_Add wsID userID role; Ret (reply_of r)
      end
  end.

(** [None]: the type assertion holds but the pointer is nil, and its role is read. *)
Definition requireWorkspaceAdmin (c : Ctx) : option bool :=
  if bool_decide (cx_system_role c = SystemRolePlatformAdmin) then Some true
  else
    match cx_member c with
    | None => Some false
    | Some None => None
    | Some (Some m) => Some (negb (GetRoleWeight (wm_Role m) <? GetRoleWeight RoleAdmin))
    end.

Definition handleUpdateMemberRole (body : option string) (rq : HttpRequest) (c : Ctx) : sprog Reply :=
  let wsID := rq_Param rq "id" in
  let userID := rq_Param rq "userID" in
  match body with
  | None => Ret BadRequest
  | Some role =>
      caller ← users_GetByID (cx_user_id c);
      match caller with
      | inl _ => Ret (RError "caller not found")
      | inr caller =>
          forbidden ←
            (if bool_decide (u_SystemRole caller = SystemRolePlatformAdmin) then Ret false
             else
               m ← members_GetMembership wsID (cx_user_id c);
               Ret (match m with
                    | inr m => GetRoleWeight role >? GetRoleWeight (wm_Role m)
                    | inl _ => false
                    end));
          if forbidden : bool then Ret Forbidden
          else r ← member_UpdateRole wsID userID role; Ret (reply_of r)
      end
  end.

Definition handleRemoveMember (rq : HttpRequest) (c : Ctx) : sprog Reply :=
  let wsID := rq_Param rq "id" in
  let userID := rq_Param rq "userID" in
  let remove := r ← member_Remove wsID userID; Ret (reply_of r) in
  if bool_decide (cx_user_id c = userID) then remove
  else
    match requireWorkspaceAdmin c with
    | None => Panic
    | Some false => Ret Forbidden
    | Some true => remove
    end.

Definition handleAddWs `{SlugText} (body : option WorkspaceDto) (rq : HttpRequest) (c : Ctx) : sprog Reply :=
  match body with
  | None => Ret BadRequest
  | Some dto => r ← AddWorkspace (cx_user_id c) (cx_username c) dto; Ret (reply_of r)
  end.

Definition handleUpdateWs (body : option WorkspaceDto) (rq : HttpRequest) (c : Ctx) : sprog Reply :=
  let id := rq_Param rq "id" in
  if bool_decide (id = "") then Ret BadRequest
  else
    match body with
    | None => Ret BadRequest
    | Some dto => r ← UpdateWorkspace (cx_username c) id dto; Ret (reply_of r)
    end.

Definition handleDeleteWs (rq : HttpRequest) (c : Ctx) : sprog Reply :=
  let id := rq_Param rq "id" in
  if bool_decide (id = "") then Ret BadRequest else r ← DeleteWorkspace id; Ret (reply_of r).

(** The middleware of the route put the user into the context. *)
Definition handleListWs (rq : PageRequest) (c : Ctx) : sprog Reply :=
  r ← ListWorkspaces (cx_system_role c) (Some (cx_user_id c)) rq; Ret (reply_of r).

(** The same over the message bus ([nats_admin.go]), where the context has no user. *)
Definition NatsAddWorkspace `{SlugText} (slug namespace displayName : string) : sprog (gresult WorkspaceVo) :=
  if bool_decide (slug = "") then Ret (inl (ErrText "slug is required"))
  else AddWorkspace "" "" {| wd_Slug := slug; wd_DisplayName := nonzero displayName slug |}.
Definition NatsRemoveWorkspace (namespace : string) : sprog (gresult unit) :=
  if bool_decide (namespace = "") then Ret (inl (ErrText "namespace is required"))
  else
    ws ← workspaces_GetByNamespace namespace;
    match ws with
    | inl err => Ret (inl (ErrWrap ("workspace not found for namespace " +:+ go_quote namespace) err))
    | inr ws => DeleteWorkspace (row_id TWorkspace ws)
    end.
Definition NatsListWorkspaces : sprog (gresult (list WorkspaceVo)) :=
  r ←? ListWorkspaces "" None {| pr_Page := 1; pr_PageSize := 200; pr_Keyword := ""; pr_Status := "" |};
  Ret (inr r.1).

(** ** Users ([service/user.go]) *)

Record UserDto := { ud_Username : string; ud_Password : string; ud_Role : string; ud_Namespace : string }.

Definition with_system_role (u : User) (role : string) : User := {|
  u_Model := u_Model u; u_SystemRole := role; u_Username := u_Username u; u_Password := u_Password u;
  u_Mobile := u_Mobile u; u_Email := u_Email u; u_Avatar := u_Avatar u; u_Address := u_Address u;
  u_Gender := u_Gender u |}.

Definition local_user (username password systemRole email : string) : User := {|
  u_Model := new_model; u_SystemRole := systemRole; u_Username := username; u_Password := password;
  u_Mobile := ""; u_Email := email; u_Avatar := ""; u_Address := ""; u_Gender := 0 |}.

Definition DeleteUser (id : string) : sprog (gresult unit) := users_Delete id.

Definition UpdateSystemRole (userID role : string) : sprog (gresult unit) :=
  if negb (bool_decide (role = SystemRolePlatformAdmin)) && negb (bool_decide (role = SystemRoleUser))
  then Ret (inl (ErrText "invalid system role"))
  else
    user ← users_GetByID userID;
    match user with
    | inl _ => Ret (inl (ErrText "user not found"))
    | inr user => base_Update TUser (with_system_role user role)
    end.

Definition AddUser (dto : UserDto) : sprog (gresult unit) :=
  Tx (hashed ← call (SEncryptPassword (ud_Password dto));
      match hashed with
      | inl err => Ret (inl (ErrWrap "failed to hash password" err))
      | inr hashed =>
          newUser ←? base_Create TUser (local_user (ud_Username dto) hashed "" "");
          ws ←? workspaces_GetByNamespace (ud_Namespace dto);
          _ ←? members_AddMember {| wm_Model := new_model; wm_WorkspaceID := row_id TWorkspace ws;
            wm_UserID := row_id TUser newUser; wm_Role := ud_Role dto; wm_Status := "active"; wm_InvitedBy := "";
            wm_JoinedAt := None |};
          Ret (inr tt)
      end).

(** A failed promotion is only logged. *)
Definition promote (targetRole : string) (user : User) : sprog User :=
  if bool_decide (targetRole = SystemRolePlatformAdmin) &&
     negb (bool_decide (u_SystemRole user = SystemRolePlatformAdmin))
  then
    let user := with_system_role user SystemRolePlatformAdmin in
    _ ← base_Update TUser user; Ret user
  else Ret user.

Definition OnboardExternalUser `{CaseFolding} (provider subject email : string) (adminEmails : list string)
    : sprog (gresult User) :=
  let targetRole := if existsb (λ a, EqualFold a email) adminEmails then SystemRolePlatformAdmin else SystemRoleUser in
  identity ← identities_GetByProviderAndExternalID provider subject;
  match identity with
  | inr identity =>
      user ←? users_GetByID (id_UserID identity);
      user ← promote targetRole user; Ret (inr user)
  | inl err =>
      if negb (is_record_not_found err) then Ret (inl err)
      else
        user ← users_GetByEmail email;
        user ←? (match user with
                 | inr user => user ← promote targetRole user; Ret (inr user)
                 | inl err =>
                     if negb (is_record_not_found err) then Ret (inl err)
                     else base_Create TUser (local_user "" "" targetRole email)
                 end);
        _ ←? base_Create TIdentity {| id_Model := new_model; id_UserID := row_id TUser user;
               id_Provider := provider; id_ExternalID := subject; id_Email := email |};
        Ret (inr user)
  end.

(** One configured administrator; only an unexpected lookup error stops the rest. *)
Definition init_admin (username password : string) : sprog (gresult unit) :=
  existing ← users_GetByUsername username;
  match existing with
  | inl err =>
      if negb (is_record_not_found err) then Ret (inl err)
      else
        hashed ← call (SEncryptPassword password);
        match hashed with
        | inl _ => Ret (inr tt)
        | inr hashed => _ ← base_Create TUser (local_user username hashed SystemRolePlatformAdmin ""); Ret (inr tt)
        end
  | inr existing =>
      if bool_decide (u_SystemRole existing = SystemRolePlatformAdmin) then Ret (inr tt)
      else _ ← base_Update TUser (with_system_role existing SystemRolePlatformAdmin); Ret (inr tt)
  end.

Definition InitAdmin (admins : list (string * string)) : sprog (gresult unit) :=
  for_each admins (λ a, init_admin a.1 a.2).

Definition GetMe (id : string) : sprog (gresult User) := users_GetByID id.

Definition user_Register (dto : UserDto) : sprog (gresult unit) :=
  password ←? call (SEncryptPassword (ud_Password dto));
  _ ←? base_Create TUser (local_user (ud_Username dto) password "" ""); Ret (inr tt).

Definition Login (username password : string) : sprog (gresult User) :=
  user ← users_Login username password;
  match user with
  | inl _ => Ret (inl (ErrText "invalid credentials"))
  | inr user =>
      ok ← call (SComparePassword (u_Password user) password);
      match ok with
      | inl _ => Ret (inl (ErrText "invalid credentials"))
      | inr _ => Ret (inr user)
      end
  end.

(** The handlers of the user routes. *)
Definition RegisterUser (body : option UserDto) (rq : HttpRequest) (c : Ctx) : sprog Reply :=
  match body with None => Ret BadRequest | Some dto => r ← user_Register dto; Ret (reply_of r) end.

Definition login (body : option UserDto) (rq : HttpRequest) (c : Ctx) : sprog Reply :=
  match body with
  | None => Ret BadRequest
  | Some dto =>
      user ← Login (ud_Username dto) (ud_Password dto);
      match user with
      | inl err => Ret (RError (error_text err))
      | inr u =>
          t ← call (SGenerateJWT (row_id TUser u) (u_Email u) (u_Username u) (u_SystemRole u));
          Ret (reply_of t)
      end
  end.

Definition getMe (rq : HttpRequest) (c : Ctx) : sprog Reply :=
  if bool_decide (cx_user_id c = "") then Ret BadRequest
  else r ← GetMe (cx_user_id c); Ret (reply_of r).

Definition handleAddUser (body : option UserDto) (rq : HttpRequest) (c : Ctx) : sprog Reply :=
  match body with None => Ret BadRequest | Some dto => r ← AddUser dto; Ret (reply_of r) end.

Definition handleDeleteUser (rq : HttpRequest) (c : Ctx) : sprog Reply :=
  if bool_decide (rq_Param rq "name" = "") then Ret BadRequest
  else r ← DeleteUser (rq_Param rq "name"); Ret (reply_of r).

Definition handleUpdateSystemRole (body : option string) (rq : HttpRequest) (c : Ctx) : sprog Reply :=
  if negb (bool_decide (cx_system_role c = "platform_admin")) then Ret (RError "forbidden: platform_admin only")
  else if bool_decide (rq_Param rq "id" = "") then Ret BadRequest
  else
    match body with
    | None => Ret BadRequest
    | Some role => r ← UpdateSystemRole (rq_Param rq "id") role; Ret (reply_of r)
    end.

Record wsEntry := { we_WorkspaceID : string; we_WorkspaceName : string; we_Role : string }.

(** Members whose workspace cannot be read are left out. *)
Fixpoint user_workspaces (ms : list WorkspaceMember) : sprog (list wsEntry) :=
  match ms with
  | [] => Ret []
  | m :: ms =>
      ws ← workspaces_GetByID (wm_WorkspaceID m);
      rest ← user_workspaces ms;
      Ret (match ws with
           | inr ws => {| we_WorkspaceID := wm_WorkspaceID m; we_WorkspaceName := ws_DisplayName ws;
                          we_Role := wm_Role m |} :: rest
           | inl _ => rest
           end)
  end.

Definition handleGetUserWorkspaces (rq : HttpRequest) (c : Ctx) : sprog (Reply + list wsEntry) :=
  if bool_decide (rq_Param rq "id" = "") then Ret (inl BadRequest)
  else
    r ← members_ListByUser (rq_Param rq "id") 1 999;
    match r with
    | inl err => Ret (inl (RError (error_text err)))
    | inr (ms, _) => l ← user_workspaces ms; Ret (inr l)
    end.

(** ** Correctness *)

(** Words of lower-case letters and digits joined by single hyphens; [start]: a
    word must follow. *)
Fixpoint slug_from (start : bool) (s : string) : bool :=
  match s with
  | EmptyString => negb start
  | String c s =>
      if slug_char c then slug_from false s else bool_decide (c = hyphen) && negb start && slug_from true s
  end.

Definition clean_slug (s : string) : bool := bool_decide (s = "") || slug_from true s.

(** The same without the condition at the end. *)
Fixpoint hyphenated (start : bool) (s : string) : bool :=
  match s with
  | EmptyString => true
  | String c s =>
      if slug_char c then hyphenated false s else bool_decide (c = hyphen) && negb start && hyphenated true s
  end.

Lemma hyphen_not_slug : slug_char hyphen = false.
Proof. reflexivity. Qed.

Lemma replace_runs_hyphenated s : forall run, hyphenated run (replace_runs run s) = true.
Proof.
  induction s as [|c s IH]; intros run; [done|]. cbn [replace_runs]. destruct (slug_char c) eqn:Ec.
  - cbn [hyphenated]. rewrite Ec. apply IH.
  - destruct run; [apply IH|]. cbn [hyphenated]. by rewrite hyphen_not_slug, IH, bool_decide_true.
Qed.

Lemma trim_left_hyphenated s : forall p, hyphenated p s = true -> hyphenated true (trim_left s) = true.
Proof.
  induction s as [|c s IH]; intros p; [done|]. cbn [hyphenated trim_left].
  destruct (slug_char c) eqn:Ec.
  - intros Hs. rewrite bool_decide_false by (intros ->; done). cbn [hyphenated]. by rewrite Ec.
  - intros [[-> ?]%andb_true_iff Hs]%andb_true_iff. by apply (IH true).
Qed.

Lemma trim_right_slug s : forall p, hyphenated p s = true -> trim_right s = "" \/ slug_from p (trim_right s) = true.
Proof.
  induction s as [|c s IH]; intros p; [by left|]. cbn [hyphenated trim_right].
  destruct (slug_char c) eqn:Ec.
  - intros [->|Ht]%IH; right.
    + rewrite bool_decide_false by (intros ->; done). cbn [slug_from]. by rewrite Ec.
    + destruct (trim_right s) as [|d t].
      * rewrite bool_decide_false by (intros ->; done). cbn [slug_from]. by rewrite Ec.
      * cbn [slug_from]. by rewrite Ec.
  - intros [[Hh Hp]%andb_true_iff Hs]%andb_true_iff. destruct (IH true Hs) as [->|Ht].
    + left. by rewrite Hh.
    + destruct (trim_right s) as [|d t]; [by left|]. right.
      change (slug_from p (String c (String d t))) with
        (if slug_char c then slug_from false (String d t)
         else bool_decide (c = hyphen) && negb p && slug_from true (String d t)).
      by rewrite Ec, Hh, Hp, Ht.
Qed.

Lemma slug_fixed s : forall p, slug_from p s = true ->
  replace_runs p s = s /\ trim_right s = s.
Proof.
  induction s as [|c s IH]; intros p; [by split|]. cbn [slug_from replace_runs trim_right].
  destruct (slug_char c) eqn:Ec.
  - intros [E1 E2]%IH. rewrite E1, E2. split; [done|]. destruct s; [|done].
    rewrite bool_decide_false by (intros ->; done). done.
  - intros [[->%bool_decide_eq_true_1 Hp]%andb_true_iff Hs]%andb_true_iff.
    destruct p; [done|]. destruct (IH true Hs) as [E1 E2]. rewrite E1, E2. by destruct s.
Qed.

(** C37. A generated slug is empty or consists of words of lower-case letters and
    digits joined by single hyphens; and such a slug, when it has no Chinese
    characters and is in lower case, is its own slug. *)
Theorem GenerateSlug_clean `{SlugText} input :
  (forall s, GenerateSlug input = Some s -> clean_slug s = true) /\
  (Pinyin input = [] -> ToLower input = input -> clean_slug input = true -> GenerateSlug input = Some input).
Proof.
  split.
  - intros s. unfold GenerateSlug. destruct (match Pinyin input with [] => _ | _ => _ end) as [t|]; [|done].
    cbn [mbind option_bind]. intros [= <-]. unfold clean_slug.
    destruct (trim_right_slug (trim_left (replace_runs false (ToLower t))) true) as [->|E].
    + apply (trim_left_hyphenated _ false), replace_runs_hyphenated.
    + done.
    + by rewrite E, orb_true_r.
  - intros Hp Hl Hc. unfold GenerateSlug. rewrite Hp. cbn [mbind option_bind]. rewrite Hl.
    unfold clean_slug in Hc. case_bool_decide as E; [by rewrite E|]. cbn [orb] in Hc.
    destruct input as [|c s]; [done|]. destruct (slug_fixed _ _ Hc) as [_ E2]. cbn [slug_from] in Hc.
    destruct (slug_char c) eqn:Ec; [|by rewrite andb_false_r in Hc].
    destruct (slug_fixed _ _ Hc) as [E1 _]. cbn [replace_runs]. rewrite Ec, E1. cbn [trim_left].
    rewrite bool_decide_false by (intros ->; done). by rewrite E2.
Qed.

(** The tables are the same, and objects were created. *)
Definition created (l : list KObject) (w w' : World) : Prop :=
  w_tables w' = w_tables w /\ w_objects w' = w_objects w ++ l.

Lemma created_app l1 l2 w1 w2 w3 : created l1 w1 w2 -> created l2 w2 w3 -> created (l1 ++ l2) w1 w3.
Proof. intros [A1 A2] [B1 B2]. split; [congruence|]. by rewrite B2, A2, app_assoc. Qed.

Section tenant_facts.
Context `{SqlLike} (h : forall T, srvE T -> World -> T -> World -> Prop) `{!GormDB h}.

Lemma kcreate_inv o w r w' : runs h (call (SKCreate o)) w (inr r) w' -> created [o] w w'.
Proof using All. intros Hr. apply runs_call_inv, gorm_law in Hr. cbn in Hr. by destruct Hr as (? & _ & _ & ?). Qed.

Lemma or_fail_inv {A} what (p : sprog (gresult A)) w a w' :
  runs h (or_fail what p) w (inr a) w' -> runs h p w (inr a) w'.
Proof.
  intros (r & w1 & Hr1 & Hr)%runs_bind_inv. apply runs_ret_inv in Hr as [Hr ->].
  destruct r as [err|b]; [done|]. by injection Hr as ->.
Qed.

(** The default objects are created unless they exist. *)
Lemma create_default_inv {B} (get : srvE (gresult B)) o msg w u w' :
  (forall r w1, runs h (call get) w r w1 -> w1 = w) ->
  runs h (r ← call get;
          match r with
          | inr _ => Ret (inr tt)
          | inl err =>
              if IsNotFound err then
                c ← call (SKCreate o);
                match c with inl e => Ret (inl (ErrText (msg e))) | inr _ => Ret (inr tt) end
              else Ret (inl err)
          end) w (inr u) w' ->
  exists l, created l w w'.
Proof using All.
  intros Hget Hr. apply runs_bind_inv in Hr as (rg & w1 & Hr1 & Hr). apply Hget in Hr1 as ->.
  destruct rg as [err|b].
  - destruct (IsNotFound err); [|by apply runs_ret_inv in Hr as [? _]].
    apply runs_bind_inv in Hr as (rc & w2 & Hr2 & Hr).
    destruct rc as [e|[]]; apply runs_ret_inv in Hr as [? ->]; [done|]. apply kcreate_inv in Hr2. by exists [o].
  - apply runs_ret_inv in Hr as [_ ->]. exists []. split; [done|]. by rewrite app_nil_r.
Qed.

Lemma bindings_inv ns wsID roles : forall w u w',
  runs h (for_each roles (λ r, or_fail "failed to create role binding" (createRoleBinding ns wsID r))) w (inr u) w' ->
  created (role_binding ns wsID <$> roles) w w'.
Proof using All.
  induction roles as [|r roles IH]; intros w u w' Hr.
  - apply runs_ret_inv in Hr as [_ ->]. split; [done|]. by rewrite app_nil_r.
  - apply runs_try_inv in Hr as (x & w1 & Hr1 & Hr). apply or_fail_inv, kcreate_inv in Hr1. apply IH in Hr.
    by apply (created_app [_] _ _ w1).
Qed.

Lemma InitializeTenant_inv wsID role w u w' :
  runs h (InitializeTenant wsID role) w (inr u) w' ->
  exists l, created (KNamespace ("wf-" +:+ wsID) [("alattice.io/workspace-id", wsID)] ::
    KQuota "workspace-quota" ("wf-" +:+ wsID) [("count/nodes.alattice.io", "50"); ("secrets", "20")] ::
    (role_binding ("wf-" +:+ wsID) wsID <$> initial_roles) ++ l) w w'.
Proof using All.
  intros Hr. apply runs_try_inv in Hr as (x1 & w1 & Hr1%kcreate_inv & Hr).
  apply runs_try_inv in Hr as (x2 & w2 & Hr2%or_fail_inv%kcreate_inv & Hr).
  apply runs_try_inv in Hr as (x3 & w3 & Hr3%bindings_inv & Hr).
  apply runs_try_inv in Hr as (x4 & w4 & Hr4%or_fail_inv & Hr%or_fail_inv).
  apply create_default_inv in Hr4 as [l4 Hr4].
  2:{ intros r w5 Hg. apply runs_call_inv, gorm_law in Hg. exact Hg. }
  apply create_default_inv in Hr as [l5 Hr].
  2:{ intros r w5 Hg. apply runs_call_inv, gorm_law in Hg. exact Hg. }
  exists (l4 ++ l5).
  change (_ :: _ :: ?l ++ l4 ++ l5) with ([KNamespace ("wf-" +:+ wsID) [("alattice.io/workspace-id", wsID)]] ++
    [KQuota "workspace-quota" ("wf-" +:+ wsID) [("count/nodes.alattice.io", "50"); ("secrets", "20")]] ++ l ++ l4 ++ l5).
  by eapply created_app, created_app, created_app, created_app.
Qed.
End tenant_facts.

(** The rows of a new workspace and of its creator's membership. *)
Definition workspace_row (id slug displayName username : string) : Workspace := {|
  ws_Model := with_id id; ws_Slug := slug; ws_Namespace := "wf-" +:+ id; ws_DisplayName := displayName;
  ws_Status := "active"; ws_CreatedBy := username; ws_UpdatedBy := "" |}.
Definition admin_row (mid id userID : string) (now : Z) : WorkspaceMember := {|
  wm_Model := with_id mid; wm_WorkspaceID := id; wm_UserID := userID; wm_Role := RoleAdmin;
  wm_Status := MemberStatusActive; wm_InvitedBy := ""; wm_JoinedAt := Some now |}.

(** Saving the namespace that the hook already set changes nothing. *)
Lemma save_namespace_noop `{SqlLike} s ws :
  row_id TWorkspace ws ∉ (row_id TWorkspace <$> t_workspaces s) ->
  update_rows (insert_row s TWorkspace ws) TWorkspace [CEq "id" (row_id TWorkspace ws)] (save TWorkspace ws) =
  insert_row s TWorkspace ws.
Proof.
  intros Hnew. unfold insert_row at 2. unfold update_rows. cbn [rows insert_row set_rows t_workspaces].
  cbn [set_rows t_users t_identities t_members t_workspaces t_invitations t_workflows t_policies t_alerts].
  f_equal. rewrite fmap_app. f_equal.
  - rewrite <- (list_fmap_id (t_workspaces s)) at 2. apply list_fmap_ext. intros i x Hx.
    rewrite row_selected_id. rewrite (bool_decide_false (row_id TWorkspace x = _)), andb_false_r; [done|].
    intros E. apply Hnew. rewrite <- E. apply list_elem_of_fmap_2. by eapply list_elem_of_lookup_2.
  - cbn [fmap list_fmap]. f_equal. rewrite row_selected_id. destruct (_ && _); [|done]. destruct ws. cbn.
    unfold nonzero. by repeat case_bool_decide; subst.
Qed.

Lemma create_workspace_inv `{SqlLike} (h : forall T, srvE T -> World -> T -> World -> Prop) `{!GormDB h}
    userID username slug display w v w' :
  runs h (create_workspace userID username slug display) w (inr v) w' ->
  exists id mid now l, id <> "" /\ id ∉ (row_id TWorkspace <$> t_workspaces (w_tables w)) /\
    v = workspace_vo (workspace_row id slug display username) "active" /\
    w_tables w' =
      (let s := insert_row (w_tables w) TWorkspace (workspace_row id slug display username) in
       if bool_decide (userID = "") then s else insert_row s TMember (admin_row mid id userID now)) /\
    w_objects w' = w_objects w ++
      KNamespace ("wf-" +:+ id) [("alattice.io/workspace-id", id)] ::
      KQuota "workspace-quota" ("wf-" +:+ id) [("count/nodes.alattice.io", "50"); ("secrets", "20")] ::
      (role_binding ("wf-" +:+ id) id <$> initial_roles) ++ l.
Proof.
  intros Hr. apply runs_try_inv in Hr as (ws & w1 & Hr1 & Hr).
  apply (base_Create_inv h TWorkspace) in Hr1 as (id & Hne & Ews & Hnew & ->); [|done].
  assert (ws = workspace_row id slug display username) as -> by (rewrite Ews; reflexivity). clear Ews.
  assert (Hid : id ∉ (row_id TWorkspace <$> t_workspaces (w_tables w))) by exact Hnew. clear Hnew.
  set (row := workspace_row id slug display username) in *. cbv zeta in Hr.
  assert (E : with_namespace row ("wf-" +:+ row_id TWorkspace row) = row) by reflexivity. rewrite E in Hr. clear E.
  apply runs_try_inv in Hr as (x2 & w2 & Hr2 & Hr).
  apply runs_call_inv, gorm_law in Hr2. unfold gorm_step in Hr2. subst w2.
  apply runs_try_inv in Hr as (x3 & w3 & Hr3 & Hr). unfold InitNewNamespace in Hr3.
  apply (InitializeTenant_inv h id "admin") in Hr3 as [l [Et Eo]].
  unfold with_tables in Et. cbn [w_tables] in Et. rewrite save_namespace_noop in Et by done.
  apply runs_try_inv in Hr as (x4 & w4 & Hr4 & Hr). apply runs_ret_inv in Hr as [[= ->] ->].
  case_bool_decide as Hu.
  - apply runs_ret_inv in Hr4 as [_ ->]. by exists id, "", 0, l.
  - apply runs_bind_inv in Hr4 as (now & w5 & Hr5 & Hr4). apply (now_inv h) in Hr5 as ->.
    apply runs_try_inv in Hr4 as (m & w6 & Hr6 & Hr4). apply runs_ret_inv in Hr4 as [_ ->].
    apply (base_Create_inv h TMember) in Hr6 as (mid & _ & -> & _ & ->); [|done].
    exists id, mid, now, l. split_and!; try done. cbn [with_tables w_tables]. by rewrite Et.
Qed.

(** Creating a workspace.  On success there is one new workspace row, with a
    fresh identifier and the namespace of that name, the creator is its active
    administrator, nothing else of the tables changed, and the namespace, its
    quota and the bindings of all roles were created, so that the scoped client of
    a member with any of the roles acts as a group that is bound to that role in
    the namespace.  On an error the tables are as they were. *)
Theorem AddWorkspace_spec `{SlugText} `{SqlLike} (h : forall T, srvE T -> World -> T -> World -> Prop) `{!GormDB h}
    userID username dto w r w' :
  runs h (AddWorkspace userID username dto) w r w' ->
  match r with
  | inl _ => w_tables w' = w_tables w
  | inr v => exists slug id mid now, GenerateSlug (wd_Slug dto) = Some slug /\
      id <> "" /\ id ∉ (row_id TWorkspace <$> t_workspaces (w_tables w)) /\
      wv_ID v = id /\ wv_Namespace v = "wf-" +:+ id /\
      w_tables w' =
        (let s := insert_row (w_tables w) TWorkspace (workspace_row id slug (wd_DisplayName dto) username) in
         if bool_decide (userID = "") then s else insert_row s TMember (admin_row mid id userID now)) /\
      KNamespace ("wf-" +:+ id) [("alattice.io/workspace-id", id)] ∈ w_objects w' /\
      forall role u, role ∈ initial_roles ->
        exists name g, imp_Groups (NamespaceAccessor id u role) = [g] /\
          KRoleBinding name ("wf-" +:+ id) g ("lattice-" +:+ role) ∈ w_objects w'
  end.
Proof.
  intros Hr. unfold AddWorkspace in Hr. destruct (GenerateSlug (wd_Slug dto)) as [slug|] eqn:Es; [|by inversion Hr].
  apply runs_bind_inv in Hr as (rx & w1 & Hr1 & Hr).
  assert (w1 = w) as ->.
  { case_bool_decide; [by apply runs_ret_inv in Hr1 as [_ ->]|].
    apply runs_bind_inv in Hr1 as (rj & w2 & Hr2 & Hr1). apply runs_call_inv, gorm_law in Hr2 as [-> _].
    by destruct rj; apply runs_ret_inv in Hr1 as [_ ->]. }
  destruct rx as [err|[]]; [by apply runs_ret_inv in Hr as [-> ->]|by apply runs_ret_inv in Hr as [-> ->]|].
  apply (Tx_inv h) in Hr; [|solve_plain]. destruct r as [err|v]; [done|]. destruct Hr as (w2 & Hr & ->).
  apply (create_workspace_inv h) in Hr as (id & mid & now & l & Hne & Hnew & -> & Et & Eo).
  exists slug, id, mid, now. cbn [set_saved w_tables w_objects] in *. split_and!; try done.
  - rewrite Eo. apply elem_of_app. right. by left.
  - intros role u Hrole. eexists _, _. split; [reflexivity|]. rewrite Eo. apply elem_of_app. right. right. right.
    apply elem_of_app. left. apply list_elem_of_fmap. by exists role.
Qed.

(** *** The sample server *)

Definition plain_slug : SlugText := {| Pinyin := λ _, []; ToLower := str_lower |}.

Lemma GenerateSlug_clean_witness :
  @GenerateSlug plain_slug "--My  Team 7!" = Some "my-team-7" /\ clean_slug "my-team-7" = true /\
  @GenerateSlug plain_slug "my-team-7" = Some "my-team-7".
Proof.
  split; [vm_compute; reflexivity|]. split.
  - apply (proj1 (@GenerateSlug_clean plain_slug "--My  Team 7!")). vm_compute. reflexivity.
  - apply (proj2 (@GenerateSlug_clean plain_slug "my-team-7")); vm_compute; reflexivity.
Defined.

Definition team_dto : WorkspaceDto := {| wd_Slug := "Team"; wd_DisplayName := "The team" |}.
Definition team_world : World := Eval vm_compute in
  (run sample_db (@AddWorkspace plain_slug "alice" "alice" team_dto) sample_world).2.
Definition team_vo : WorkspaceVo := workspace_vo (workspace_row "n6" "team" "The team" "alice") "active".

Lemma AddWorkspace_spec_witness :
  runs (fun_world sample_db) (@AddWorkspace plain_slug "alice" "alice" team_dto) sample_world (inr team_vo) team_world /\
  exists slug id mid now, @GenerateSlug plain_slug (wd_Slug team_dto) = Some slug /\ wv_ID team_vo = id /\
    w_tables team_world = insert_row (insert_row sample_tables TWorkspace (workspace_row id slug "The team" "alice"))
                            TMember (admin_row mid id "alice" now).
Proof.
  assert (Hr : runs (fun_world sample_db) (@AddWorkspace plain_slug "alice" "alice" team_dto) sample_world
    (inr team_vo) team_world).
  { apply (run_runs sample_db (@AddWorkspace plain_slug "alice" "alice" team_dto) sample_world (inr team_vo)).
    vm_compute. reflexivity. }
  split; [exact Hr|].
  destruct (@AddWorkspace_spec plain_slug plain_like _ sample_gorm "alice" "alice" team_dto _ _ _ Hr)
    as (slug & id & mid & now & Es & _ & _ & Ei & _ & Et & _).
  exists slug, id, mid, now. split; [exact Es|]. split; [exact Ei|]. exact Et.
Defined.

(** Listing the workspaces over the bus never answers: it panics, in a goroutine of the server
    that no one recovers. *)
Lemma bus_listing_panics (h : forall T, srvE T -> World -> T -> World -> Prop) w r w' :
  ~ runs h NatsListWorkspaces w r w'.
Proof. change NatsListWorkspaces with (@Panic srvE (gresult (list WorkspaceVo))). inversion 1. Qed.

(** The routes of workspaces and members. *)
Definition delete_route : HttpRequest -> Ctx -> sprog Reply :=
  serve [@AuthMiddleware plain_jwt "" (Some ∅); @AdminOnly plain_jwt "" (Some ∅)] handleDeleteWs.
Definition add_member_route (role : string) : HttpRequest -> Ctx -> sprog Reply :=
  serve [@AdminOnly plain_jwt "" (Some ∅)] (handleAddMember (Some role)).

(** The middleware checks the workspace of the header and the handlers act on the
    one of the path: Alice, who administers only her own workspace, deletes Bob's,
    and makes herself an administrator of it. *)
Lemma cross_tenant_delete :
  let r := run sample_db (delete_route (sample_request "alice" "ws-a" "ws-b") empty_ctx) sample_world in
  r.1 = Some OK /\ m_deleted (ws_Model (nth 1 (t_workspaces (w_tables r.2)) new_workspace)) = true.
Proof. vm_compute. split; reflexivity. Qed.

Definition grab_request : HttpRequest := {|
  rq_Authorization := "Bearer alice:jti"; rq_WorkspaceId := "ws-a";
  rq_Param := λ p, if bool_decide (p = "id") then "ws-b" else "alice" |}.
Definition grabbed_world : World := Eval vm_compute in
  (run sample_db (add_member_route RoleAdmin grab_request empty_ctx) sample_world).2.

(** Alice has no rights in a workspace. *)
Lemma alice_not_in_b : ~ @may_act plain_like sample_tables "ws-b" "alice" RoleViewer.
Proof.
  intros [(u & Hu & Hs)|(u & m & _ & Hm & _)].
  - apply list_elem_of_filter in Hu as [_ Hu]. cbn in Hu.
    rewrite !elem_of_cons, elem_of_nil in Hu. destruct Hu as [->|[->|[]]]; discriminate Hs.
  - apply list_elem_of_filter in Hm as [Hsel Hm]. cbn in Hm.
    rewrite !elem_of_cons, elem_of_nil in Hm. destruct Hm as [->|[->|[]]]; vm_compute in Hsel; discriminate Hsel.
Qed.

(** The middleware authorises the workspace that the header names and the
    handlers act on the workspace of the path.  The administrator of one workspace
    thereby becomes an administrator of another in which she had no rights, by
    adding herself as a member with her own workspace in the header. *)
Theorem cross_tenant_admin :
  (run sample_db (add_member_route RoleAdmin grab_request empty_ctx) sample_world).1 = Some OK /\
  ~ @may_act plain_like sample_tables "ws-b" "alice" RoleViewer /\
  @may_act plain_like
    (w_tables (run sample_db (add_member_route RoleAdmin grab_request empty_ctx) sample_world).2)
    "ws-b" "alice" RoleAdmin.
Proof.
  split; [vm_compute; reflexivity|]. split; [apply alice_not_in_b|].
  assert (E : (run sample_db (add_member_route RoleAdmin grab_request empty_ctx) sample_world).2 = grabbed_world)
    by (vm_compute; reflexivity).
  rewrite E. right. exists (sample_user "alice" "a@x" SystemRoleUser), (nth 2 (t_members (w_tables grabbed_world))
    (sample_member "" "" "" "" "")).
  split_and!; [| |vm_compute; congruence..]; apply list_elem_of_filter; (split; [reflexivity|]); vm_compute;
    repeat first [left|right].
Qed.

(** A platform administrator in the database whose token is older than the
    promotion: the handler reads the role of a nil member. *)
Lemma promoted_admin_panics :
  let c := {| cx_user_id := "alice"; cx_username := ""; cx_email := ""; cx_system_role := SystemRoleUser;
              cx_jti := "jti"; cx_exp := Some 100; cx_workspace_id := "ws-b"; cx_member := Some None |} in
  handleRemoveMember {| rq_Authorization := ""; rq_WorkspaceId := "";
                        rq_Param := λ p, if bool_decide (p = "id") then "ws-b" else "bob" |} c = Panic.
Proof. reflexivity. Qed.

(** Any user who is logged in may add an administrator to any workspace: the route
    only authenticates. *)
Definition add_user_route (dto : UserDto) : HttpRequest -> Ctx -> sprog Reply :=
  serve [@AuthMiddleware plain_jwt "" (Some ∅)] (handleAddUser (Some dto)).

Lemma any_user_adds_admin :
  let dto := {| ud_Username := "mallory"; ud_Password := "pw"; ud_Role := RoleAdmin; ud_Namespace := "wf-ws-b" |} in
  let r := run sample_db (add_user_route dto (sample_request "alice" "" "") empty_ctx) sample_world in
  r.1 = Some OK /\
  (λ m, (wm_WorkspaceID m, wm_Role m)) <$> drop 2 (t_members (w_tables r.2)) = [("ws-b", RoleAdmin)].
Proof. vm_compute. split; reflexivity. Qed.
