(* ===== verification/Ai.v ===== *)
(** * Ai: the assistant ([internal/server/service/ai.go], [internal/server/llm],
    [internal/server/nats/presence.go])

    A chat is a loop: the language model is asked, the tools it calls are run on
    the workspace's namespace, and it is asked again with the results, a bounded
    number of times.  The audit applies fixed rules and lets the model word the
    findings. *)

From S2P Require Import Prelude Prog Net Api Message Json Store.

(** ** Presence *)

Abbreviation NodePresenceStore := (gmap string Z).
(** Ninety seconds, in nanoseconds. *)
Definition offlineThreshold : Z := 90 * 10 ^ 9.
Definition presence_Update (s : NodePresenceStore) (appId : string) (now : Z) : NodePresenceStore := <[appId := now]> s.
Definition GetStatus (s : NodePresenceStore) (now : Z) (appId : string) : string * option Z :=
  match s !! appId with
  | None => ("pending", None)
  | Some t => if now - t <? offlineThreshold then ("online", Some t) else ("offline", Some t)
  end.

(** ** Messages of the model ([llm/client.go]) *)

Record ToolCall := { tc_ID : string; tc_Name : string; tc_Input : string }.
Record ToolResult := { tr_ToolCallID : string; tr_Content : string }.
Record LlmMessage := {
  lm_Role : string; lm_Content : string; lm_ToolCalls : list ToolCall; lm_ToolResults : list ToolResult }.
(** [tool_InputSchema]: the properties of the input object, all required. *)
Record Tool := { tool_Name : string; tool_Description : string; tool_InputSchema : list (string * string) }.
Record LlmRequest := {
  lr_System : string; lr_Messages : list LlmMessage; lr_Tools : list Tool; lr_MaxTokens : Z }.
Record LlmResponse := { resp_Content : string; resp_ToolCalls : list ToolCall; resp_StopReason : string }.
Definition HasToolCalls (r : LlmResponse) : bool := bool_decide (0 < length (resp_ToolCalls r))%nat.

Inductive StreamEvent :=
| SToken (content : string)
| SToolUse (tool input : string)
| SError (err : string)
| SDone.

(** What the service asks: the workspace, the objects of a namespace, the status of
    a node (none without a presence store; a time is formatted), the model, and
    the stream to the client, whose errors are ignored. *)
Inductive aiE : Type -> Type :=
| AiWorkspace (id : string) : aiE (gresult Workspace)
| AiPeers (ns : string) : aiE (gresult (list LatticePeer))
| AiPolicies (ns : string) : aiE (gresult (list LatticePolicy))
| AiNetworks (ns : string) : aiE (gresult (list LatticeNetwork))
| AiPeer (key : NamespacedName) : aiE (gresult LatticePeer)
| AiStatus (appId : string) : aiE (option (string * option string))
| AiComplete (rq : LlmRequest) : aiE (gresult LlmResponse)
| AiWrite (ev : StreamEvent) : aiE unit.

Abbreviation aprog := (prog aiE).

(** [encoding/json] on what the model sends: the arguments of a tool, and the
    enriched findings. *)
Class AiJSON := {
  decode_pair : string -> gresult (string * string);
  decode_enriched : string -> option (list (string * string * string));
  encode_summaries : list (string * string * string) -> string;
}.

(** [%v] of a map: the entries in the order of their keys. *)
Definition format_labels (m : labels) : string :=
  "map[" +:+ str_join " " ((λ kv, kv.1 +:+ ":" +:+ kv.2) <$> merge_sort (key_le fst) (map_to_list m)) +:+ "]".

Definition line_break : string := String (ascii_of_nat 10) "".
Definition nat_text (n : nat) : string := pretty n.

(** ** Tools *)

(** The status of every peer in turn. *)
Fixpoint with_status {A} (f : LatticePeer -> option (string * option string) -> A) (l : list LatticePeer)
    : aprog (list A) :=
  match l with
  | [] => Ret []
  | p :: l =>
      st ← call (AiStatus (AppId (peer_Spec p)));
      rest ← with_status f l;
      Ret (f p st :: rest)
  end.

Definition peer_line (p : LatticePeer) (st : option (string * option string)) : string :=
  let '(status, lastSeen) :=
    match st with
    | None => ("未知", "")
    | Some (s, None) => (s, "")
    | Some (s, Some t) => (s, " 最后在线: " +:+ t)
    end in
  let addr := match AllocatedAddress (peer_Status p) with Some a => " IP: " +:+ a | None => "" end in
  let lbls := if bool_decide (Labels (peer_meta p) = ∅) then ""
              else " 标签: " +:+ format_labels (Labels (peer_meta p)) in
  "- " +:+ Name (peer_meta p) +:+ " [" +:+ status +:+ "]" +:+ addr +:+ lastSeen +:+ lbls +:+ line_break.

Definition toolListPeers (ns : string) : aprog (gresult string) :=
  l ←? call (AiPeers ns);
  lines ← with_status peer_line l;
  Ret (inr ("共 " +:+ nat_text (length l) +:+ " 个 Peer：" +:+ line_break +:+ str_join "" lines)).

(** A selector's labels that were not sent are nil. *)
Definition policy_lines (p : LatticePolicy) : string :=
  let s := pol_Spec p in
  "- " +:+ Name (pol_meta p) +:+ " [" +:+ pol_Action s +:+ "] 网络: " +:+ pol_Network s +:+ line_break +:+
  (match pol_Ingress s with [] => "" | l => "  Ingress 规则: " +:+ nat_text (length l) +:+ " 条" +:+ line_break end) +:+
  (match pol_Egress s with [] => "" | l => "  Egress 规则: " +:+ nat_text (length l) +:+ " 条" +:+ line_break end) +:+
  (if bool_decide (MatchLabels (pol_PeerSelector s) = ∅) then ""
   else "  目标 Peer 标签: " +:+ format_labels (MatchLabels (pol_PeerSelector s)) +:+ line_break).

Definition toolListPolicies (ns : string) : aprog (gresult string) :=
  l ←? call (AiPolicies ns);
  Ret (inr ("共 " +:+ nat_text (length l) +:+ " 条策略：" +:+ line_break +:+ str_join "" (policy_lines <$> l))).

Definition network_line (n : LatticeNetwork) : string :=
  let cidr := if bool_decide (net_ActiveCIDR (net_Status n) = "") then ""
              else " CIDR: " +:+ net_ActiveCIDR (net_Status n) in
  "- " +:+ Name (net_meta n) +:+ " [" +:+ net_Phase (net_Status n) +:+ "]" +:+ cidr +:+ line_break.

Definition toolListNetworks (ns : string) : aprog (gresult string) :=
  l ←? call (AiNetworks ns);
  Ret (inr ("共 " +:+ nat_text (length l) +:+ " 个网络：" +:+ line_break +:+ str_join "" (network_line <$> l))).

Section connectivity.
Context `{LabelSelectors}.

(** Whether an entry of an ingress rule lets the source in. *)
Definition entry_allows (fromLabels : labels) (ps : PeerSelection) : bool :=
  match sel_PeerSelector ps with
  | None => true
  | Some sel =>
      match LabelSelectorAsSelector (Some sel) with inl _ => false | inr f => f fromLabels end
  end.

(** Whether a policy is reported as allowing the source to reach the target. *)
Definition policy_matches (fromLabels toLabels : labels) (p : LatticePolicy) : bool :=
  let s := pol_Spec p in
  if negb (bool_decide (pol_Action s = "ALLOW")) then false
  else
    match LabelSelectorAsSelector (Some (pol_PeerSelector s)) with
    | inl _ => false
    | inr sel =>
        if negb (sel toLabels) then false
        else existsb (λ r, existsb (entry_allows fromLabels) (ing_From r)) (pol_Ingress s) ||
             match pol_Ingress s with [] => true | _ => false end
    end.

Definition toolCheckConnectivity (ns from to : string) : aprog (gresult string) :=
  fromPeer ← call (AiPeer {| key_Namespace := ns; key_Name := from |});
  match fromPeer with
  | inl _ => Ret (inr ("找不到 Peer " +:+ go_quote from))
  | inr fromPeer =>
      toPeer ← call (AiPeer {| key_Namespace := ns; key_Name := to |});
      match toPeer with
      | inl _ => Ret (inr ("找不到 Peer " +:+ go_quote to))
      | inr toPeer =>
          policies ←? call (AiPolicies ns);
          let matched := filter (λ p, policy_matches (Labels (peer_meta fromPeer)) (Labels (peer_meta toPeer)) p = true)
                           policies in
          Ret (inr (match matched with
            | [] => "blocked: " +:+ from +:+ " → " +:+ to +:+ " 没有匹配的 ALLOW 策略"
            | _ => "allowed: " +:+ from +:+ " → " +:+ to +:+ " 匹配策略: " +:+
                   str_join ", " ((λ p, Name (pol_meta p)) <$> matched)
            end))
      end
  end.

Definition executeTool `{AiJSON} (ns name input : string) : aprog (gresult string) :=
  if bool_decide (name = "list_peers") then toolListPeers ns
  else if bool_decide (name = "list_policies") then toolListPolicies ns
  else if bool_decide (name = "list_networks") then toolListNetworks ns
  else if bool_decide (name = "check_connectivity") then
    match decode_pair input with
    | inl err => Ret (inl (ErrWrap "invalid input" err))
    | inr (from, to) => toolCheckConnectivity ns from to
    end
  else Ret (inl (ErrText ("unknown tool: " +:+ name))).
End connectivity.

(** The tools on offer. *)
Definition buildTools : list Tool := [
  {| tool_Name := "list_peers"; tool_Description := "列出工作区内所有 WireGuard Peer 节点，包含在线状态、IP 地址、标签";
     tool_InputSchema := [] |};
  {| tool_Name := "list_policies"; tool_Description := "列出工作区内所有访问控制策略（LatticePolicy）";
     tool_InputSchema := [] |};
  {| tool_Name := "list_networks"; tool_Description := "列出工作区内所有 WireGuard 网络及其 CIDR";
     tool_InputSchema := [] |};
  {| tool_Name := "check_connectivity";
     tool_Description := "检查两个 Peer 之间是否有策略允许通信，返回匹配到的策略或 'blocked'";
     tool_InputSchema := [("from", "源 Peer 名称"); ("to", "目标 Peer 名称")] |} ].

(** ** The system prompt *)

Definition baseSystemPrompt : string :=
  str_join line_break [
    "你是 Lattice 的网络管理助手，帮助用户管理基于 WireGuard 的私有网络。"; "";
    "## Lattice 核心概念";
    "- LatticeNetwork: 一个隔离的 WireGuard 网络，每个网络有独立 CIDR（如 10.100.1.0/24）";
    "- LatticePeer: 网络中的节点，代表一台设备或服务";
    "- LatticePolicy: 访问控制策略，控制哪些 Peer 之间可以通信（默认拒绝）"; "";
    "## 操作规范"; "- 查询操作：直接返回结果"; "- 创建/修改/删除操作：先展示变更预览，用户确认后才能执行";
    "- 不确定的操作：先询问用户意图，再给出方案"].

(** A list that cannot be read counts as empty. *)
Definition or_empty {A} (r : gresult (list A)) : list A := match r with inr l => l | inl _ => [] end.

Definition buildSystemPrompt (wsID ns wsName : string) : aprog string :=
  peers ← call (AiPeers ns);
  policies ← call (AiPolicies ns);
  networks ← call (AiNetworks ns);
  online ← with_status (λ _ st, match st with Some (s, _) => bool_decide (s = "online") | None => false end)
             (or_empty peers);
  Ret (baseSystemPrompt +:+ line_break +:+ line_break +:+ "## 当前工作区状态" +:+ line_break +:+
    "- 工作区: " +:+ wsName +:+ "（ID: " +:+ wsID +:+ "，命名空间: " +:+ ns +:+ "）" +:+ line_break +:+
    "- 网络数量: " +:+ nat_text (length (or_empty networks)) +:+ line_break +:+
    "- Peer 总数: " +:+ nat_text (length (or_empty peers)) +:+ "（在线: " +:+
      nat_text (length (filter (λ b, b = true) online)) +:+ "）" +:+ line_break +:+
    "- 策略条数: " +:+ nat_text (length (or_empty policies))).

(** ** Chat *)

Record ChatRequest := { cr_Message : string; cr_WorkspaceID : string; cr_History : list (string * string) }.

Section chat.
Context `{LabelSelectors} `{AiJSON}.

(** The tool calls of one answer, in order. *)
Fixpoint run_tools (ns : string) (tcs : list ToolCall) : aprog (list ToolResult) :=
  match tcs with
  | [] => Ret []
  | tc :: tcs =>
      _ ← call (AiWrite (SToolUse (tc_Name tc) (tc_Input tc)));
      result ← executeTool ns (tc_Name tc) (tc_Input tc);
      rest ← run_tools ns tcs;
      Ret ({| tr_ToolCallID := tc_ID tc;
              tr_Content := match result with inr t => t | inl err => "error: " +:+ error_text err end |} :: rest)
  end.

(** An error of the model is sent to the client and returned. *)
Definition complete (rq : LlmRequest) : aprog (gresult LlmResponse) :=
  r ← call (AiComplete rq);
  match r with
  | inl err => _ ← call (AiWrite (SError (error_text err))); Ret (inl err)
  | inr resp => Ret (inr resp)
  end.

Definition chat_finish (resp : LlmResponse) : aprog (gresult unit) :=
  _ ← call (AiWrite (SToken (resp_Content resp)));
  _ ← call (AiWrite SDone);
  Ret (inr tt).

(** At most [n] answers with tool calls; then one without tools. *)
Fixpoint chat_loop (n : nat) (system ns : string) (msgs : list LlmMessage) : aprog (gresult unit) :=
  match n with
  | O =>
      resp ←? complete {| lr_System := system; lr_Messages := msgs; lr_Tools := []; lr_MaxTokens := 4096 |};
      chat_finish resp
  | S n =>
      resp ←? complete {| lr_System := system; lr_Messages := msgs; lr_Tools := buildTools; lr_MaxTokens := 4096 |};
      if negb (HasToolCalls resp) then chat_finish resp
      else
        results ← run_tools ns (resp_ToolCalls resp);
        chat_loop n system ns (msgs ++ [
          {| lm_Role := "assistant"; lm_Content := resp_Content resp; lm_ToolCalls := resp_ToolCalls resp;
             lm_ToolResults := [] |};
          {| lm_Role := "tool"; lm_Content := ""; lm_ToolCalls := []; lm_ToolResults := results |}])
  end.

(** [NewAIService] gives the number of rounds. *)
Definition max_tool_calls (configured : Z) : nat := Z.to_nat (if configured <=? 0 then 5 else configured).

Definition plain_message (role content : string) : LlmMessage :=
  {| lm_Role := role; lm_Content := content; lm_ToolCalls := []; lm_ToolResults := [] |}.

Definition Chat (configured : Z) (rq : ChatRequest) : aprog (gresult unit) :=
  ws ← call (AiWorkspace (cr_WorkspaceID rq));
  match ws with
  | inl err => Ret (inl (ErrWrap "workspace not found" err))
  | inr ws =>
      system ← buildSystemPrompt (row_id TWorkspace ws) (ws_Namespace ws) (ws_DisplayName ws);
      chat_loop (max_tool_calls configured) system (ws_Namespace ws)
        (((λ h, plain_message h.1 h.2) <$> cr_History rq) ++ [plain_message "user" (cr_Message rq)])
  end.

(** ** Audit *)

Record AuditFinding := {
  af_Severity : string; af_Rule : string; af_Resource : string; af_Description : string; af_Suggestion : string }.

Definition finding (severity rule resource : string) : AuditFinding :=
  {| af_Severity := severity; af_Rule := rule; af_Resource := resource; af_Description := ""; af_Suggestion := "" |}.

Definition allows_all (p : LatticePolicy) : bool :=
  let s := pol_Spec p in
  bool_decide (pol_Action s = "ALLOW") && bool_decide (length (pol_Ingress s) = 0%nat) &&
  bool_decide (length (pol_Egress s) = 0%nat) && bool_decide (MatchLabels (pol_PeerSelector s) = ∅) &&
  bool_decide (MatchExpressions (pol_PeerSelector s) = []).

Definition runAuditRules (ns : string) : aprog (list AuditFinding) :=
  policies ← call (AiPolicies ns);
  peers ← call (AiPeers ns);
  let policies := or_empty policies in
  let peers := or_empty peers in
  let rule1 := (λ p, finding "high" "allow-all-detected" ("policy/" +:+ Name (pol_meta p))) <$>
               filter (λ p, allows_all p = true) policies in
  rule2 ← with_status (λ p st,
            match st with
            | Some (s, _) =>
                if bool_decide (s = "offline") || bool_decide (s = "")
                then [finding "low" "unused-peer" ("peer/" +:+ Name (peer_meta p))] else []
            | None => []
            end) peers;
  let rule3 := match policies, peers with
               | [], _ :: _ => [finding "medium" "no-policies" ("namespace/" +:+ ns)]
               | _, _ => []
               end in
  Ret (rule1 ++ mjoin rule2 ++ rule3).

(** The last entry of a rule counts. *)
Definition enriched_for (l : list (string * string * string)) (rule : string) : option (string * string) :=
  foldl (λ acc e, if bool_decide (e.1.1 = rule) then Some (e.1.2, e.2) else acc) None l.

(** The text from the first opening to the last closing bracket; white space
    around it does not matter to what is decoded. *)
Fixpoint from_bracket (s : string) : string :=
  match s with
  | EmptyString => ""
  | String c s' => if bool_decide (nat_of_ascii c = 91%nat) then s else from_bracket s'
  end.
Definition has_open (s : string) : bool := contains_char (ascii_of_nat 91) s.
Fixpoint upto_bracket (s : string) : string :=
  match s with
  | EmptyString => ""
  | String c s =>
      if contains_char (ascii_of_nat 93) s then String c (upto_bracket s)
      else if bool_decide (nat_of_ascii c = 93%nat) then String c "" else String c s
  end.
Definition json_part (s : string) : string :=
  let s := if has_open s then from_bracket s else s in
  if contains_char (ascii_of_nat 93) s then upto_bracket s else s.

Definition enrich_prompt (summaries : string) : string :=
  str_join line_break ["以下是 Lattice 网络安全扫描发现的问题列表（JSON 格式）："; summaries; "";
    "请为每个问题生成简洁的中文说明（description）和修复建议（suggestion），";
    "以 JSON 数组返回，字段包含 rule、description、suggestion。"; "只返回 JSON，不要其他内容。"].

Definition enrichFindingsWithLLM (findings : list AuditFinding) : aprog (list AuditFinding) :=
  r ← call (AiComplete {| lr_System := "";
    lr_Messages := [plain_message "user" (enrich_prompt
      (encode_summaries ((λ f, (af_Rule f, af_Severity f, af_Resource f)) <$> findings)))];
    lr_Tools := []; lr_MaxTokens := 2048 |});
  match r with
  | inl _ => Ret findings
  | inr resp =>
      match decode_enriched (json_part (resp_Content resp)) with
      | None => Ret findings
      | Some enriched =>
          Ret ((λ f, match enriched_for enriched (af_Rule f) with
                     | Some (d, s) => {| af_Severity := af_Severity f; af_Rule := af_Rule f;
                         af_Resource := af_Resource f; af_Description := d; af_Suggestion := s |}
                     | None => f
                     end) <$> findings)
      end
  end.

Definition weight (f : AuditFinding) : Z :=
  if bool_decide (af_Severity f = "high") then 15
  else if bool_decide (af_Severity f = "medium") then 8
  else if bool_decide (af_Severity f = "low") then 3 else 0.

Definition audit_score (findings : list AuditFinding) : Z :=
  let score := foldl (λ s f, s - weight f) 100 findings in
  if score <? 0 then 0 else score.

Definition Audit (workspaceID : string) : aprog (gresult (Z * list AuditFinding)) :=
  ws ← call (AiWorkspace workspaceID);
  match ws with
  | inl err => Ret (inl (ErrWrap "workspace not found" err))
  | inr ws =>
      findings ← runAuditRules (ws_Namespace ws);
      findings ← match findings with [] => Ret [] | _ => enrichFindingsWithLLM findings end;
      Ret (inr (audit_score findings, findings))
  end.
End chat.

(** ** Correctness *)

(** The calls that were made and what they were answered: anything, but that the workspaces are
    those of a table. *)
Abbreviation ai_call := {T : Type & (aiE T * T)%type}.
Abbreviation entry e r := (existT (P := λ T : Type, (aiE T * T)%type) _ (e, r)).
Definition ai_log (lookup : string -> gresult Workspace) (T : Type) (e : aiE T) (s : list ai_call)
    (r : T) (s' : list ai_call) : Prop :=
  s' = s ++ [entry e r] /\
  match e in aiE T return T -> Prop with AiWorkspace id => λ r, r = lookup id | _ => λ _, True end r.

(** What the model answered, and what was written to the client. *)
Definition model_answer (c : ai_call) : option (gresult LlmResponse) :=
  let '(existT T (e, r)) := c in
  match e in aiE T return T -> option (gresult LlmResponse) with AiComplete _ => λ r, Some r | _ => λ _, None end r.
Definition asked (l : list ai_call) : list (gresult LlmResponse) := omap model_answer l.
Definition written (l : list ai_call) : list StreamEvent :=
  omap (λ c : ai_call, match (projT2 c).1 with AiWrite ev => Some ev | _ => None end) l.

(** Reads of one namespace, the model and the client's stream. *)
Definition confined (ns : string) (c : ai_call) : Prop :=
  match (projT2 c).1 with
  | AiPeers n | AiPolicies n | AiNetworks n => n = ns
  | AiPeer key => key_Namespace key = ns
  | AiStatus _ | AiComplete _ | AiWrite _ => True
  | AiWorkspace _ => False
  end.

(** What a chat of at most [n] rounds with tools sends and returns when the model answers so; none if
    a chat would have asked more or less often: an error ends it, as does an answer without tools, or any
    answer after the last round. *)
Definition tool_uses (resp : LlmResponse) : list StreamEvent := (λ tc, SToolUse (tc_Name tc) (tc_Input tc)) <$> resp_ToolCalls resp.
Fixpoint transcript (n : nat) (answers : list (gresult LlmResponse)) : option (list StreamEvent * gresult unit) :=
  match answers with
  | [] => None
  | [inl err] => Some ([SError (error_text err)], inl err)
  | inl _ :: _ => None
  | inr resp :: rest =>
      match n, resp_ToolCalls resp with
      | S n, _ :: _ => t ← transcript n rest; Some (tool_uses resp ++ t.1, t.2)
      | _, _ => match rest with [] => Some ([SToken (resp_Content resp); SDone], inr tt) | _ => None end
      end
  end.

(** Tool uses, then how the stream ends. *)
Definition well_ended (r : gresult unit) (evs : list StreamEvent) : Prop :=
  exists tools, Forall (λ ev, match ev with SToolUse _ _ => True | _ => False end) tools /\
    match r with
    | inr _ => exists text, evs = tools ++ [SToken text; SDone]
    | inl err => evs = tools ++ [SError (error_text err)]
    end.

(** A transcript ends as it should, after at most one answer more than there are rounds. *)
Lemma transcript_ends n : forall answers evs r,
  transcript n answers = Some (evs, r) -> (length answers <= S n)%nat /\ well_ended r evs.
Proof.
  assert (Hlast : forall resp, well_ended (inr tt) [SToken (resp_Content resp); SDone]).
  { intros resp. exists []. split; [constructor|]. by eexists. }
  induction n as [|n IH]; intros [|[err|resp] rest] evs r Ht; try done; cbn in Ht.
  - destruct rest; [|done]. injection Ht as <- <-. split; [cbn; lia|]. exists []. by split; [constructor|].
  - destruct rest; [|done]. injection Ht as <- <-. split; [cbn; lia|done].
  - destruct rest; [|done]. injection Ht as <- <-. split; [cbn; lia|]. exists []. by split; [constructor|].
  - destruct (resp_ToolCalls resp) as [|tc tcs].
    { destruct rest; [|done]. injection Ht as <- <-. split; [cbn; lia|done]. }
    destruct (transcript n rest) as [[evs' r']|] eqn:E; [|done]. cbn in Ht. injection Ht as <- <-.
    destruct (IH _ _ _ E) as [Hl (tools & Htools & Hend)]. split; [cbn; lia|]. exists (tool_uses resp ++ tools). split.
    + apply Forall_app. split; [|done]. unfold tool_uses. by apply Forall_fmap, Forall_true.
    + destruct r'; [by rewrite Hend, app_assoc|]. destruct Hend as [text Hend]. exists text. by rewrite Hend, app_assoc.
Qed.

(** What a part of a chat does that does not ask the model: it writes [evs] and stays in the
    namespace. *)
Definition effect {A} (lookup : string -> gresult Workspace) (ns : string) (evs : list StreamEvent) (p : aprog A) : Prop :=
  forall s a s', runs (ai_log lookup) p s a s' ->
    exists l, s' = s ++ l /\ asked l = [] /\ written l = evs /\ Forall (confined ns) l.

Section chat_facts.
Context `{LabelSelectors} `{AiJSON} (lookup : string -> gresult Workspace).

Lemma asked_app l1 l2 : asked (l1 ++ l2) = asked l1 ++ asked l2.
Proof. apply omap_app. Qed.
Lemma written_app l1 l2 : written (l1 ++ l2) = written l1 ++ written l2.
Proof. apply omap_app. Qed.

Lemma effect_bind {A B} ns e1 e2 (p : aprog A) (f : A -> aprog B) :
  effect lookup ns e1 p -> (forall a, effect lookup ns e2 (f a)) -> effect lookup ns (e1 ++ e2) (p ≫= f).
Proof.
  intros Hp Hf s b s' Hr. apply runs_bind_inv in Hr as (a & s1 & Hr1 & Hr2).
  apply Hp in Hr1 as (l1 & -> & C1 & E1 & F1). apply (Hf a) in Hr2 as (l2 & -> & C2 & E2 & F2).
  exists (l1 ++ l2). rewrite app_assoc, asked_app, written_app, C1, C2, E1, E2. split_and!; [done..|by apply Forall_app].
Qed.

Lemma effect_ret {A} ns (a : A) : effect lookup ns [] (Ret a).
Proof. intros s b s' [-> ->]%runs_ret_inv. exists []. by rewrite app_nil_r. Qed.

(** A read, and what is written. *)
Lemma effect_read {T} ns (c : aiE T) :
  (forall r, confined ns (entry c r) /\ asked [entry c r] = [] /\ written [entry c r] = []) ->
  effect lookup ns [] (call c).
Proof.
  intros Hc s a s' Hr. apply runs_call_inv in Hr as [Hr _]. destruct (Hc a) as (H1 & H2 & H3).
  exists [entry c a]. split_and!; [done..|by constructor].
Qed.
Lemma effect_write ns ev : effect lookup ns [ev] (call (AiWrite ev)).
Proof. intros s a s' [-> _]%runs_call_inv. eexists. split; [reflexivity|]. split_and!; [done|done|]. by repeat constructor. Qed.

(** Reads one after the other. *)
Lemma effect_then {A B} ns e (p : aprog A) (f : A -> aprog B) :
  effect lookup ns [] p -> (forall a, effect lookup ns e (f a)) -> effect lookup ns e (p ≫= f).
Proof. apply (effect_bind ns []). Qed.

Lemma with_status_effect {A} ns (f : LatticePeer -> option (string * option string) -> A) l :
  effect lookup ns [] (with_status f l).
Proof.
  induction l as [|p l IH]; cbn [with_status]; [by apply effect_ret|].
  apply effect_then; [by apply effect_read|]. intros st. apply effect_then; [done|]. intros rest. by apply effect_ret.
Qed.

(** Whatever tool the model asks for, with whatever input, is a read. *)
Lemma executeTool_effect ns name input : effect lookup ns [] (executeTool ns name input).
Proof.
  unfold executeTool. repeat case_bool_decide.
  - apply effect_then; [by apply effect_read|]. intros [err|l]; [by apply effect_ret|].
    apply effect_then; [apply with_status_effect|]. intros lines. by apply effect_ret.
  - apply effect_then; [by apply effect_read|]. intros [err|l]; by apply effect_ret.
  - apply effect_then; [by apply effect_read|]. intros [err|l]; by apply effect_ret.
  - destruct (decode_pair input) as [err|[from to]]; [by apply effect_ret|].
    apply effect_then; [by apply effect_read|]. intros [err|p1]; [by apply effect_ret|].
    apply effect_then; [by apply effect_read|]. intros [err|p2]; [by apply effect_ret|].
    apply effect_then; [by apply effect_read|]. intros [err|l]; by apply effect_ret.
  - by apply effect_ret.
Qed.

Lemma run_tools_effect ns tcs :
  effect lookup ns ((λ tc, SToolUse (tc_Name tc) (tc_Input tc)) <$> tcs) (run_tools ns tcs).
Proof.
  induction tcs as [|tc tcs IH]; cbn [run_tools]; [by apply effect_ret|].
  rewrite fmap_cons. revert IH. generalize ((λ tc, SToolUse (tc_Name tc) (tc_Input tc)) <$> tcs). intros evs IH.
  apply (effect_bind ns [SToolUse (tc_Name tc) (tc_Input tc)] evs); [apply effect_write|]. intros _.
  apply effect_then; [apply executeTool_effect|]. intros result.
  rewrite <- (app_nil_r evs). apply effect_bind; [done|]. intros rest. by apply effect_ret.
Qed.

Lemma complete_log ns rq s r s' :
  runs (ai_log lookup) (complete rq) s r s' ->
  exists l, s' = s ++ l /\ asked l = [r] /\ Forall (confined ns) l /\
    written l = match r with inl err => [SError (error_text err)] | inr _ => [] end.
Proof.
  intros Hr. apply runs_bind_inv in Hr as (a & s1 & [-> _]%runs_call_inv & Hr). destruct a as [err|resp].
  - apply runs_bind_inv in Hr as (u & s2 & [-> _]%runs_call_inv & [-> ->]%runs_ret_inv).
    rewrite <- app_assoc. eexists. split; [reflexivity|]. split_and!; [done| |done]. by repeat constructor.
  - apply runs_ret_inv in Hr as [-> ->]. eexists. split; [reflexivity|]. split_and!; [done| |done]. by repeat constructor.
Qed.

Lemma chat_finish_effect ns resp : effect lookup ns [SToken (resp_Content resp); SDone] (chat_finish resp).
Proof.
  apply (effect_bind ns [SToken (resp_Content resp)] [SDone]); [apply effect_write|]. intros _.
  apply (effect_bind ns [SDone] []); [apply effect_write|]. intros _. by apply effect_ret.
Qed.
Lemma chat_finish_ok resp s r s' : runs (ai_log lookup) (chat_finish resp) s r s' -> r = inr tt.
Proof.
  intros Hr. apply runs_bind_inv in Hr as (u & s1 & _ & Hr). apply runs_bind_inv in Hr as (v & s2 & _ & Hr).
  by apply runs_ret_inv in Hr as [-> _].
Qed.

(** The chat follows the answers of the model. *)
Lemma chat_loop_log ns n : forall system msgs s r s',
  runs (ai_log lookup) (chat_loop n system ns msgs) s r s' ->
  exists l, s' = s ++ l /\ Forall (confined ns) l /\ transcript n (asked l) = Some (written l, r).
Proof.
  assert (Hfinish : forall resp l1 s r s', runs (ai_log lookup) (chat_finish resp) (s ++ l1) r s' ->
    asked l1 = [inr resp] -> Forall (confined ns) l1 -> written l1 = [] ->
    exists l, s' = s ++ l /\ Forall (confined ns) l /\ asked l = [inr resp] /\
      written l = [SToken (resp_Content resp); SDone] /\ r = inr tt).
  { intros resp l1 s r s' Hr A1 F1 W1. pose proof (chat_finish_ok _ _ _ _ Hr) as ->.
    apply (chat_finish_effect ns) in Hr as (l2 & -> & A2 & W2 & F2). exists (l1 ++ l2).
    rewrite app_assoc, asked_app, written_app, A1, A2, W1, W2. by rewrite Forall_app. }
  induction n as [|n IH]; intros system msgs s r s' Hr; cbn [chat_loop] in Hr;
    apply runs_bind_inv in Hr as ([err|resp] & s1 & Hr1 & Hr); apply (complete_log ns) in Hr1 as (l1 & -> & A1 & F1 & W1).
  - apply runs_ret_inv in Hr as [-> ->]. exists l1. rewrite A1, W1. by split_and!.
  - apply Hfinish in Hr as (l & -> & F & A & W & ->); [|done..]. exists l. rewrite A, W. by split_and!.
  - apply runs_ret_inv in Hr as [-> ->]. exists l1. rewrite A1, W1. by split_and!.
  - unfold HasToolCalls in Hr. destruct (resp_ToolCalls resp) as [|tc tcs] eqn:Etc.
    { cbn in Hr. apply Hfinish in Hr as (l & -> & F & A & W & ->); [|done..]. exists l. rewrite A, W. cbn. rewrite Etc. by split_and!. }
    rewrite bool_decide_true in Hr by (cbn; lia). cbn [negb] in Hr.
    apply runs_bind_inv in Hr as (results & s2 & Hr2 & Hr). rewrite <- Etc in Hr2.
    apply (run_tools_effect ns) in Hr2 as (l2 & -> & A2 & W2 & F2).
    apply IH in Hr as (l3 & -> & F3 & T3). exists (l1 ++ l2 ++ l3).
    rewrite !app_assoc, !asked_app, !written_app, A1, A2, W1, W2, !Forall_app. cbn. rewrite Etc, T3. cbn [mbind option_bind fst snd].
    unfold tool_uses. rewrite Etc. by split_and!.
Qed.

Lemma prompt_effect ns wsID wsName : effect lookup ns [] (buildSystemPrompt wsID ns wsName).
Proof.
  do 3 (apply effect_then; [by apply effect_read|]; intros ?).
  apply effect_then; [apply with_status_effect|]. intros online. by apply effect_ret.
Qed.
End chat_facts.

(** Every run of the program ends with a result: it does not panic, and a program
    is a finite tree. *)
Definition returns {A} (p : aprog A) : Prop := wp (λ _ _ _, True) (λ _ _, True) p (λ _, True).

Lemma returns_bind {A B} (p : aprog A) (f : A -> aprog B) :
  returns p -> (forall a, returns (f a)) -> returns (p ≫= f).
Proof. intros Hp Hf. apply wp_bind. eapply wp_mono; [exact Hp|]. intros a _. apply Hf. Qed.

Lemma returns_call {T} (e : aiE T) : returns (call e).
Proof. by apply wp_call. Qed.

Lemma returns_try {A B} (p : aprog (gresult A)) (f : A -> aprog (gresult B)) :
  returns p -> (forall a, returns (f a)) -> returns (try_bind p f).
Proof. intros Hp Hf. apply returns_bind; [done|]. by intros [err|a]. Qed.

Lemma with_status_returns {A} (f : LatticePeer -> option (string * option string) -> A) l : returns (with_status f l).
Proof.
  induction l as [|p l IH]; cbn [with_status]; [done|].
  apply returns_bind; [apply returns_call|]. intros st. by apply returns_bind.
Qed.

(** The next call, or the rest of it. *)
Ltac returns_step :=
  first [exact I | apply returns_call | apply with_status_returns
        |apply returns_try; [|intros ?] | apply returns_bind; [|intros [?|?]] | apply returns_bind; [|intros ?]].

Section chat_returns.
Context `{LabelSelectors} `{AiJSON}.

Lemma executeTool_returns ns name input : returns (executeTool ns name input).
Proof.
  unfold executeTool. repeat case_bool_decide; try (by repeat returns_step).
  destruct (decode_pair input) as [err|[from to]]; [done|]. unfold toolCheckConnectivity. by repeat returns_step.
Qed.

Lemma chat_loop_returns n : forall system ns msgs, returns (chat_loop n system ns msgs).
Proof.
  assert (Hc : forall rq, returns (complete rq)) by (intros; unfold complete; by repeat returns_step).
  assert (Hf : forall resp, returns (chat_finish resp)) by (intros; unfold chat_finish; by repeat returns_step).
  assert (Ht : forall ns tcs, returns (run_tools ns tcs)).
  { intros ns tcs. induction tcs as [|tc tcs IH]; cbn [run_tools]; [done|].
    apply returns_bind; [apply returns_call|]. intros _. apply returns_bind; [apply executeTool_returns|].
    intros r. by apply returns_bind. }
  induction n as [|n IH]; intros system ns msgs; cbn [chat_loop]; (apply returns_try; [apply Hc|]); intros resp; [done|].
  destruct (negb _); [done|]. by apply returns_bind.
Qed.
End chat_returns.

(** C40. A chat ends whatever the model answers, also one that asks for tools forever: it
    returns, after at most one request per configured round and one more. For an unknown
    workspace it returns an error, and the client is sent nothing at all. Otherwise what the
    client is sent follows from the answers of the model: for each answer that names tools,
    while rounds are left, the uses of those tools, in order, and the model is asked again; for
    the first other answer its text and the end of the stream, and no more; for an error of the
    model that error, which is returned, and no more. Whichever tools the model names, with
    whatever input, only objects of the workspace's namespace are read and nothing is written.
    *)
Theorem Chat_terminates `{LabelSelectors} `{AiJSON} lookup configured rq :
  returns (Chat configured rq) /\
  forall r l, runs (ai_log lookup) (Chat configured rq) [] r l ->
    (length (asked l) <= S (max_tool_calls configured))%nat /\
    match lookup (cr_WorkspaceID rq) with
    | inl err => r = inl (ErrWrap "workspace not found" err) /\ asked l = [] /\ written l = []
    | inr ws => transcript (max_tool_calls configured) (asked l) = Some (written l, r) /\ well_ended r (written l) /\
        exists l', l = entry (AiWorkspace (cr_WorkspaceID rq)) (inr ws) :: l' /\ Forall (confined (ws_Namespace ws)) l'
    end.
Proof.
  split.
  - apply returns_bind; [apply returns_call|]. intros [err|ws]; [done|].
    apply returns_bind; [|intros ?; apply chat_loop_returns]. unfold buildSystemPrompt. by repeat returns_step.
  - intros r l Hr. apply runs_bind_inv in Hr as (rw & s1 & [-> Erw]%runs_call_inv & Hr). subst rw.
    destruct (lookup (cr_WorkspaceID rq)) as [err|ws].
    { apply runs_ret_inv in Hr as [-> ->]. split; [apply Nat.le_0_l|done]. }
    apply runs_bind_inv in Hr as (sys & s2 & Hr2 & Hr).
    apply prompt_effect in Hr2 as (l2 & -> & A2 & W2 & F2).
    apply chat_loop_log in Hr as (l3 & -> & F3 & T3).
    destruct (transcript_ends _ _ _ _ T3) as [Hlen Hend].
    rewrite !asked_app, !written_app, A2, W2. split; [exact Hlen|]. split; [exact T3|]. split; [exact Hend|].
    exists (l2 ++ l3). split; [by rewrite <- app_assoc|by apply Forall_app].
Qed.

(** A model that always asks for a tool. *)
Definition plain_ai_json : AiJSON := {|
  decode_pair := λ s, inr (s, s); decode_enriched := λ _, None; encode_summaries := λ _, "" |}.

Definition stubborn (T : Type) (e : aiE T) (s : list StreamEvent) : T * list StreamEvent :=
  match e in aiE T return T * list StreamEvent with
  | AiWorkspace id => (inr {| ws_Model := with_id id; ws_Slug := id; ws_Namespace := "wf-" +:+ id;
      ws_DisplayName := id; ws_Status := "active"; ws_CreatedBy := ""; ws_UpdatedBy := "" |}, s)
  | AiPeers _ => (inr [], s) | AiPolicies _ => (inr [], s) | AiNetworks _ => (inr [], s)
  | AiPeer _ => (inl (ErrText "not found"), s)
  | AiStatus _ => (None, s)
  | AiComplete _ => (inr {| resp_Content := "again"; resp_StopReason := "tool_use";
      resp_ToolCalls := [{| tc_ID := "1"; tc_Name := "delete_everything"; tc_Input := "" |}] |}, s)
  | AiWrite ev => (tt, s ++ [ev])
  end.

Example stubborn_chat :
  (run stubborn (@Chat plain_selectors plain_ai_json 2 {| cr_Message := "hi"; cr_WorkspaceID := "a"; cr_History := [] |}) []).2
  = [SToolUse "delete_everything" ""; SToolUse "delete_everything" ""; SToken "again"; SDone].
Proof. vm_compute. reflexivity. Qed.
