(* ===== verification/Mgmt.v ===== *)
(** * Mgmt: what the services of the management server share

    The services of policies, peers, relays and peerings use the database, the
    Kubernetes API and a few calls more.  [mgmtE] puts these together; programs
    over the database or the API alone are translated.  Listings are cut into
    pages with Go's [int] arithmetic and slicing. *)

From S2P Require Import Prelude Prog Net Api Store Access.

(** ** Calls *)

(** [MTokensBy]: the enrollment tokens that an index of the cache holds under a
    value; [MNowText]: the time in RFC 3339; [MStatus]: the status of a node in
    the presence store, none without a store; [MSend]: a message for a peer on the
    signalling service; [MDial]: a TCP connection is opened and closed; [MRandInt]: a
    random number below a bound. *)
Inductive mgmtE : Type -> Type :=
| MSrv T (e : srvE T) : mgmtE T
| MApi T (e : apiE T) : mgmtE T
| MTokensBy (index value : string) : mgmtE (gresult (list LatticeEnrollmentToken))
| MNowText : mgmtE string
| MStatus (appId : string) : mgmtE (option (string * option string))
| MSend (peer : list Z) (sender : Z) (content : string) : mgmtE (gresult unit)
| MDial (addr : string) : mgmtE (gresult unit)
| MRandInt (max : Z) : mgmtE (gresult Z).

Abbreviation mprog := (prog mgmtE).
Definition db {A} (p : sprog A) : mprog A := translate MSrv p.
Definition kapi {A} (p : kprog A) : mprog A := translate MApi p.

(** A route whose handler is such a program. *)
Fixpoint mserve (ms : list middleware) (handler : HttpRequest -> Ctx -> mprog Reply) (rq : HttpRequest) (c : Ctx)
    : mprog Reply :=
  match ms with
  | [] => handler rq c
  | m :: ms =>
      r ← db (m rq c);
      match r with inl reply => Ret reply | inr c => mserve ms handler rq c end
  end.

Definition reply_to {A} (r : gresult A) : Reply := match r with inl err => RError (error_text err) | inr _ => OK end.

(** [strings.TrimSpace] of an ASCII text. *)
Definition is_space (c : ascii) : bool :=
  let n := Z.of_nat (nat_of_ascii c) in (n =? 32) || ((9 <=? n) && (n <=? 13)).
Fixpoint trim_space_left (s : string) : string :=
  match s with
  | EmptyString => ""
  | String c s' => if is_space c then trim_space_left s' else s
  end.
Definition blank (s : string) : bool := bool_decide (trim_space_left s = "").
Fixpoint trim_space_right (s : string) : string :=
  match s with
  | EmptyString => ""
  | String c s' => if blank s then "" else String c (trim_space_right s')
  end.
Definition TrimSpace (s : string) : string := trim_space_right (trim_space_left s).

(** ** Pages *)

(** [dto.PageRequest] and [dto.PageResult]. *)
Record PageRequest := { pg_Page : Z; pg_PageSize : Z; pg_Keyword : string }.
Record PageResult (A : Type) := { res_Total : Z; res_Page : Z; res_PageSize : Z; res_List : list A }.
Arguments res_Total {A} _. Arguments res_Page {A} _. Arguments res_PageSize {A} _. Arguments res_List {A} _.
Arguments Build_PageResult {A} _ _ _ _.

(** An [int] of 64 bits. *)
Definition i64 (z : Z) : Z := (z + 2 ^ 63) mod 2 ^ 64 - 2 ^ 63.

(** [l[i:j]]; [None] is the run-time panic. *)
Definition go_slice {A} (l : list A) (i j : Z) : option (list A) :=
  if (0 <=? i) && (i <=? j) && (j <=? Z.of_nat (length l))
  then Some (take (Z.to_nat (j - i)) (drop (Z.to_nat i) l)) else None.

(** The bounds of a page, clamped to the length. *)
Definition page_bounds (total page size : Z) : Z * Z :=
  let start := i64 (i64 (page - 1) * size) in
  let stop := i64 (start + size) in
  (if start >? total then total else start, if stop >? total then total else stop).

Definition cut_page {A} (l : list A) (page size : Z) : option (list A) :=
  let '(start, stop) := page_bounds (Z.of_nat (length l)) page size in go_slice l start stop.

Lemma i64_small z : - 2 ^ 63 <= z < 2 ^ 63 -> i64 z = z.
Proof. intros Hz. unfold i64. rewrite Z.mod_small; lia. Qed.

(** Pages whose end does not overflow: no panic, and the elements of the page. *)
Lemma cut_page_ok {A} (l : list A) page size :
  1 <= page -> 0 <= size -> page * size < 2 ^ 63 -> page < 2 ^ 63 ->
  cut_page l page size = Some (take (Z.to_nat size) (drop (Z.to_nat ((page - 1) * size)) l)).
Proof.
  intros Hp Hs Ho Hw. unfold cut_page, page_bounds. cbv zeta.
  assert (0 <= (page - 1) * size) by nia. assert ((page - 1) * size + size = page * size) as E by lia.
  rewrite (i64_small (page - 1)), (i64_small ((page - 1) * size)), E, (i64_small (page * size)) by nia.
  set (a := (page - 1) * size) in *. unfold go_slice.
  destruct (Z.gtb_spec a (Z.of_nat (length l))), (Z.gtb_spec (page * size) (Z.of_nat (length l))).
  - rewrite !(proj2 (Z.leb_le _ _)) by lia. cbn [andb]. f_equal. rewrite !drop_ge, !take_nil by lia. done.
  - lia.
  - rewrite !(proj2 (Z.leb_le _ _)) by lia. cbn [andb]. f_equal.
    rewrite !take_ge; [done|rewrite length_drop; lia..].
  - rewrite !(proj2 (Z.leb_le _ _)) by lia. cbn [andb]. do 2 f_equal. lia.
Qed.

(** The pages of a list, put together, are the list. *)
Fixpoint pages {A} (l : list A) (page size : Z) (n : nat) : list A :=
  match n with
  | O => []
  | S n => default [] (cut_page l page size) ++ pages l (page + 1) size n
  end.

Lemma pages_drop {A} (l : list A) size n : forall page,
  1 <= page -> 0 < size -> (page + Z.of_nat n) * size < 2 ^ 63 ->
  pages l page size n = take (n * Z.to_nat size) (drop (Z.to_nat ((page - 1) * size)) l).
Proof.
  induction n as [|n IH]; intros page Hp Hs Ho; [done|].
  cbn [pages]. rewrite cut_page_ok by nia. cbn [default]. rewrite IH by nia.
  replace ((page + 1 - 1) * size) with ((page - 1) * size + size) by lia. rewrite Z2Nat.inj_add by nia.
  rewrite <- drop_drop. set (k := Z.to_nat size). set (d := drop _ l).
  cbn [Nat.mul]. rewrite <- (take_drop k d) at 3. rewrite take_app.
  destruct (decide (length d <= k)%nat) as [Hle|Hgt].
  - rewrite (take_ge d) by lia. rewrite (take_ge d) by lia. rewrite (drop_ge d k) by lia. by rewrite !take_nil.
  - rewrite length_take, (take_ge (take k d)) by (rewrite length_take; lia). f_equal. f_equal. lia.
Qed.

Lemma pages_all {A} (l : list A) size n :
  0 < size -> (1 + Z.of_nat n) * size < 2 ^ 63 -> (length l <= n * Z.to_nat size)%nat -> pages l 1 size n = l.
Proof. intros Hs Ho Hl. rewrite pages_drop by lia. by rewrite drop_0, take_ge. Qed.

(** ** The world of the services *)

(** A database world with the calls made on the Kubernetes API that change
    something, whose answers are left open. *)
Record ApiCall := { ac_T : Type; ac_call : apiE ac_T; ac_answer : ac_T }.

Record MWorld := { mw_db : World; mw_api : list ApiCall }.

Definition is_write {T} (e : apiE T) : bool :=
  match e with
  | AGet _ _ | AList _ _ | ANow | AGenerateKey => false
  | _ => true
  end.

Definition log_call {T} (e : apiE T) (r : T) (l : list ApiCall) : list ApiCall :=
  if is_write e then l ++ [{| ac_T := T; ac_call := e; ac_answer := r |}] else l.

Definition mgmt_world (h : forall T, srvE T -> World -> T -> World -> Prop) T (e : mgmtE T)
    : MWorld -> T -> MWorld -> Prop :=
  match e in mgmtE T return MWorld -> T -> MWorld -> Prop with
  | MSrv _ e => λ w r w', h _ e (mw_db w) r (mw_db w') /\ mw_api w' = mw_api w
  | MApi _ e => λ w r w', mw_db w' = mw_db w /\ mw_api w' = log_call e r (mw_api w)
  | MRandInt max => λ w r w', w' = w /\ match r with inr n => 0 < max -> 0 <= n < max | inl _ => True end
  | _ => λ w _ w', w' = w
  end.

(** A program over the database alone runs as it does by itself. *)
Lemma runs_db h {A} (p : sprog A) w a w' :
  runs (mgmt_world h) (db p) w a w' -> runs h p (mw_db w) a (mw_db w') /\ mw_api w' = mw_api w.
Proof.
  revert w. induction p as [b| |T e k IH]; intros w Hr.
  - apply runs_ret_inv in Hr as [-> ->]. split; [constructor|done].
  - inversion Hr.
  - apply runs_vis_inv in Hr as (r & w1 & [Hh Ha] & Hr). apply IH in Hr as [Hr Ha']. split; [|congruence].
    by econstructor.
Qed.

(** And so does a program over the API alone, in the world of the log. *)
Definition api_log T (e : apiE T) (l : list ApiCall) (r : T) (l' : list ApiCall) : Prop := l' = log_call e r l.

Lemma runs_kapi h {A} (p : kprog A) w a w' :
  runs (mgmt_world h) (kapi p) w a w' -> runs api_log p (mw_api w) a (mw_api w') /\ mw_db w' = mw_db w.
Proof.
  revert w. induction p as [b| |T e k IH]; intros w Hr.
  - apply runs_ret_inv in Hr as [-> ->]. split; [constructor|done].
  - inversion Hr.
  - apply runs_vis_inv in Hr as (r & w1 & [Hd Ha] & Hr). apply IH in Hr as [Hr Hd']. split; [|congruence].
    by econstructor.
Qed.

Lemma runs_kcall h {T} (e : apiE T) w r w' :
  runs (mgmt_world h) (kapi (call e)) w r w' -> mw_db w' = mw_db w /\ mw_api w' = log_call e r (mw_api w).
Proof. intros (x & w1 & Hh & Hr)%runs_vis_inv. apply runs_ret_inv in Hr as [-> ->]. exact Hh. Qed.

(** *** Answers *)

(** The worlds of the services, of the API and of the database where calls are answered
    by some answers only, so that what was answered can be told. *)
Section answered.
Context (ans : forall T, mgmtE T -> T -> Prop).

Definition api_answers T (e : apiE T) (r : T) : Prop := ans T (MApi T e) r.
Definition db_answers T (e : srvE T) (r : T) : Prop := ans T (MSrv T e) r.
Definition answered_mgmt h T (e : mgmtE T) (w : MWorld) (r : T) (w' : MWorld) : Prop := mgmt_world h T e w r w' /\ ans T e r.
Definition answered_api T (e : apiE T) (l : list ApiCall) (r : T) (l' : list ApiCall) : Prop := api_log T e l r l' /\ api_answers T e r.
Definition answered_db (h : forall T, srvE T -> World -> T -> World -> Prop) T (e : srvE T) (w : World) (r : T) (w' : World) : Prop :=
  h T e w r w' /\ db_answers T e r.

Lemma runs_kapi_answered h {A} (p : kprog A) w a w' :
  runs (answered_mgmt h) (kapi p) w a w' -> runs answered_api p (mw_api w) a (mw_api w') /\ mw_db w' = mw_db w.
Proof.
  revert w. induction p as [b| |T e k IH]; intros w Hr.
  - apply runs_ret_inv in Hr as [-> ->]. split; [constructor|done].
  - inversion Hr.
  - apply runs_vis_inv in Hr as (r & w1 & [[Hd Ha] Hans] & Hr). apply IH in Hr as [Hr Hd']. split; [|congruence].
    econstructor; [|exact Hr]. by split.
Qed.
Lemma runs_db_answered h {A} (p : sprog A) w a w' :
  runs (answered_mgmt h) (db p) w a w' -> runs (answered_db h) p (mw_db w) a (mw_db w') /\ mw_api w' = mw_api w.
Proof.
  revert w. induction p as [b| |T e k IH]; intros w Hr.
  - apply runs_ret_inv in Hr as [-> ->]. split; [constructor|done].
  - inversion Hr.
  - apply runs_vis_inv in Hr as (r & w1 & [[Hh Ha] Hans] & Hr). apply IH in Hr as [Hr Ha']. split; [|congruence].
    econstructor; [|exact Hr]. by split.
Qed.
(** One call of the database. *)
Lemma runs_db_call h {T} (e : srvE T) w r w' :
  runs (answered_mgmt h) (db (call e)) w r w' -> h T e (mw_db w) r (mw_db w') /\ db_answers T e r /\ mw_api w' = mw_api w.
Proof. intros [Hr Ha]%runs_db_answered. apply runs_call_inv in Hr as [Hh Hans]. by split_and!. Qed.
End answered.

(** A database and an API that run as functions. *)
Definition mgmt_fun (h : forall T, srvE T -> World -> T * World) (a : forall T, apiE T -> T)
    (tokens : list LatticeEnrollmentToken) T (e : mgmtE T) (w : MWorld) : T * MWorld :=
  match e in mgmtE T return T * MWorld with
  | MSrv _ e => let '(r, w') := h _ e (mw_db w) in (r, {| mw_db := w'; mw_api := mw_api w |})
  | MApi _ e => (a _ e, {| mw_db := mw_db w; mw_api := log_call e (a _ e) (mw_api w) |})
  | MTokensBy _ _ => (inr tokens, w)
  | MNowText => ("1970-01-01T00:00:00Z", w)
  | MStatus _ => (None, w)
  | MSend _ _ _ => (inr tt, w)
  | MDial _ => (inr tt, w)
  | MRandInt _ => (inr 0, w)
  end.

(** A functional world is one of the worlds of the services. *)
Lemma mgmt_run h a tokens {A} (p : mprog A) w r :
  (run (mgmt_fun h a tokens) p w).1 = Some r ->
  runs (mgmt_world (fun_world h)) p w r (run (mgmt_fun h a tokens) p w).2.
Proof.
  intros Hr%run_runs. remember (run (mgmt_fun h a tokens) p w).2 as w' eqn:E. clear E.
  induction Hr as [b s|T e k s x s1 b s2 He Hr IH]; [constructor|]. econstructor; [|exact IH].
  destruct e as [T e|T e|i v| |app|p' n c|addr|mx]; unfold fun_world in He; cbn in He; simplify_eq; try (split; [done|lia]); try done.
  destruct (h T e (mw_db s)) as [x' w0] eqn:Eh. simplify_eq. by split.
Qed.
