(* ===== verification/Policies.v ===== *)
(** * Policies: the policy service and its routes
    ([internal/server/service/policy.go], [internal/server/server/policy.go],
    [internal/db/gormstore/policy.go] through Store)

    A policy is kept as a row of the database and as a resource of the Kubernetes
    API.  A platform administrator applies one directly; other members submit one,
    which an approved workflow request applies. *)

From S2P Require Import Prelude Prog Net Api Json Store Access Workflow Mgmt.

(** [dto.PolicyDto], with the specification it embeds. *)
Record PolicyDto := {
  pd_Name : string;
  pd_Namespace : string;
  pd_Action : string;
  pd_Description : string;
  pd_PolicyTypes : list string;
  pd_Spec : LatticePolicySpec;
}.

(** [encoding/json] on the texts kept in a row and on the payload of a workflow
    request.  What was encoded is decoded. *)
Class PolicyJSON := {
  encode_spec : LatticePolicySpec -> string;
  decode_spec : string -> gresult LatticePolicySpec;
  encode_types : list string -> string;
  decode_types : string -> list string;
  decode_payload : string -> gresult string;
  decode_encode_spec s : decode_spec (encode_spec s) = inr s;
  decode_encode_types l : decode_types (encode_types l) = l;
}.

Definition encode_payload (policyID : string) : string :=
  json_object [json_field "policyId" (json_string policyID)].

Definition spec_with_action (s : LatticePolicySpec) (action : string) : LatticePolicySpec := {|
  pol_Network := pol_Network s; pol_PeerSelector := pol_PeerSelector s; pol_Ingress := pol_Ingress s;
  pol_Egress := pol_Egress s; pol_Action := action |}.

(** The resource of a policy. *)
Definition policy_crd (ns name action description : string) (types : list string) (spec : LatticePolicySpec)
    : LatticePolicy := {|
  pol_meta := meta_with_annotations (meta_with_labels (new_meta ns name) {[ "action" := action ]})
    (<["description" := description]> {[ "policyTypes" := str_join "," types ]});
  pol_Spec := spec_with_action spec action;
  pol_Status := {| pol_TargetNodes := 0; pol_RuleCount := 0 |} |}.

Record PolicyVo := {
  pv_Name : string; pv_Action : string; pv_Description : string; pv_Namespace : string;
  pv_PolicyTypes : list string; pv_Status : string; pv_CreatedBy : string; pv_CreatedByName : string;
  pv_UpdatedBy : string; pv_UpdatedByName : string; pv_Spec : LatticePolicySpec;
}.

Section service.
Context `{PolicyJSON}.

Definition Submit (wsID createdBy createdByName : string) (policyDto : PolicyDto) : sprog (gresult PolicyRow) :=
  policies_Create {|
    po_Model := new_model; po_WorkspaceID := wsID; po_Name := pd_Name policyDto;
    po_Description := pd_Description policyDto; po_Action := pd_Action policyDto;
    po_PolicyTypes := encode_types (pd_PolicyTypes policyDto); po_Spec := encode_spec (pd_Spec policyDto);
    po_Status := PolicyStatusPending; po_WorkflowRequestID := ""; po_ErrorMessage := "";
    po_CreatedBy := createdBy; po_CreatedByName := createdByName; po_UpdatedBy := ""; po_UpdatedByName := "" |}.

(** The resource that a row stands for. *)
Definition row_crd (rec : PolicyRow) (ns : string) (spec : LatticePolicySpec) : LatticePolicy :=
  policy_crd ns (po_Name rec) (po_Action rec) (po_Description rec) (decode_types (po_PolicyTypes rec)) spec.

Definition Apply (policyID : string) : mprog (gresult unit) :=
  rec ← db (policies_GetByID policyID);
  match rec with
  | inl err => Ret (inl (ErrWrap "policy record not found" err))
  | inr rec =>
      workspace ← db (workspaces_GetByID (po_WorkspaceID rec));
      match workspace with
      | inl err => Ret (inl (ErrWrap "workspace not found" err))
      | inr workspace =>
          match decode_spec (po_Spec rec) with
          | inl err => Ret (inl (ErrWrap "unmarshal spec" err))
          | inr spec =>
              r ← kapi (call (AApply Api.KPolicy (row_crd rec (ws_Namespace workspace) spec)));
              match r with
              | inl err =>
                  _ ← db (policies_Update (policy_with_status rec PolicyStatusFailed (error_text err)));
                  Ret (inl err)
              | inr _ => db (policies_Update (policy_with_status rec PolicyStatusActive ""))
              end
          end
      end
  end.

(** The row that [ApplyDirect] writes over the one it found or a new one. *)
Definition direct_row (existing : PolicyRow) (operatorID operatorName : string) (policyDto : PolicyDto)
    : PolicyRow := {|
  po_Model := po_Model existing; po_WorkspaceID := po_WorkspaceID existing; po_Name := po_Name existing;
  po_Description := pd_Description policyDto; po_Action := pd_Action policyDto;
  po_PolicyTypes := encode_types (pd_PolicyTypes policyDto); po_Spec := encode_spec (pd_Spec policyDto);
  po_Status := PolicyStatusActive; po_WorkflowRequestID := po_WorkflowRequestID existing;
  po_ErrorMessage := ""; po_CreatedBy := po_CreatedBy existing; po_CreatedByName := po_CreatedByName existing;
  po_UpdatedBy := operatorID; po_UpdatedByName := operatorName |}.

Definition new_policy_row (wsID name operatorID operatorName : string) : PolicyRow := {|
  po_Model := new_model; po_WorkspaceID := wsID; po_Name := name; po_Description := ""; po_Action := "";
  po_PolicyTypes := ""; po_Spec := ""; po_Status := ""; po_WorkflowRequestID := ""; po_ErrorMessage := "";
  po_CreatedBy := operatorID; po_CreatedByName := operatorName; po_UpdatedBy := ""; po_UpdatedByName := "" |}.

(** The errors of the database are ignored. *)
Definition upsert_policy (wsID operatorID operatorName : string) (policyDto : PolicyDto) : sprog unit :=
  existing ← policies_GetByName wsID (pd_Name policyDto);
  let rec := direct_row (match existing with
    | inl _ => new_policy_row wsID (pd_Name policyDto) operatorID operatorName
    | inr existing => existing
    end) operatorID operatorName policyDto in
  if bool_decide (row_id TPolicy rec = "")
  then _ ← policies_Create rec; Ret tt
  else _ ← policies_Update rec; Ret tt.

Definition ApplyDirect (wsID operatorID operatorName : string) (policyDto : PolicyDto) : mprog (gresult PolicyVo) :=
  workspace ←? db (workspaces_GetByID wsID);
  _ ←? kapi (call (AApply Api.KPolicy (policy_crd (ws_Namespace workspace) (pd_Name policyDto) (pd_Action policyDto)
    (pd_Description policyDto) (pd_PolicyTypes policyDto) (pd_Spec policyDto))));
  _ ← db (upsert_policy wsID operatorID operatorName policyDto);
  Ret (inr {| pv_Name := pd_Name policyDto; pv_Action := pd_Action policyDto;
    pv_Description := pd_Description policyDto; pv_Namespace := pd_Namespace policyDto;
    pv_PolicyTypes := pd_PolicyTypes policyDto; pv_Status := ""; pv_CreatedBy := ""; pv_CreatedByName := "";
    pv_UpdatedBy := ""; pv_UpdatedByName := "";
    pv_Spec := spec_with_action (pd_Spec policyDto) (pd_Action policyDto) |}).

Definition empty_spec : LatticePolicySpec := {|
  pol_Network := ""; pol_PeerSelector := {| MatchLabels := ∅; MatchExpressions := [] |}; pol_Ingress := [];
  pol_Egress := []; pol_Action := "" |}.

(** Texts that do not decode are shown as empty. *)
Definition policy_vo (rec : PolicyRow) : PolicyVo := {|
  pv_Name := po_Name rec; pv_Action := po_Action rec; pv_Description := po_Description rec; pv_Namespace := "";
  pv_PolicyTypes := decode_types (po_PolicyTypes rec); pv_Status := po_Status rec;
  pv_CreatedBy := po_CreatedBy rec; pv_CreatedByName := po_CreatedByName rec; pv_UpdatedBy := po_UpdatedBy rec;
  pv_UpdatedByName := po_UpdatedByName rec;
  pv_Spec := match decode_spec (po_Spec rec) with inl _ => empty_spec | inr s => s end |}.

Definition ListPolicy (wsID : string) (pageParam : PageRequest) : sprog (gresult (PageResult PolicyVo)) :=
  r ←? policies_List {| pf_WorkspaceID := wsID; pf_Status := ""; pf_Keyword := pg_Keyword pageParam;
    pf_Page := pg_Page pageParam; pf_PageSize := pg_PageSize pageParam |};
  let '(records, total) := r in
  Ret (inr {| res_Total := total; res_Page := pg_Page pageParam; res_PageSize := pg_PageSize pageParam;
    res_List := policy_vo <$> records |}).

Definition DeletePolicy (wsID name : string) : mprog (gresult unit) :=
  workspace ←? db (workspaces_GetByID wsID);
  rec ← db (policies_GetByName wsID name);
  _ ← kapi (call (ADelete Api.KPolicy {| key_Namespace := ws_Namespace workspace; key_Name := name |}));
  _ ←? db (policies_Delete wsID name);
  match rec with
  | inr rec =>
      if bool_decide (po_WorkflowRequestID rec = "") then Ret (inr tt)
      else _ ← db (workflows_Delete (po_WorkflowRequestID rec)); Ret (inr tt)
  | inl _ => Ret (inr tt)
  end.

(** ** Routes *)

Inductive http_method := GET | POST | PUT | DELETE.
#[global] Instance http_method_eq_dec : EqDecision http_method.
Proof. solve_decision. Defined.

(** The handler of [POST /create] and [PUT /update]; [None] is a body that does not
    decode. *)
Definition createOrUpdatePolicy (method : http_method) (req : option PolicyDto) (rq : HttpRequest) (c : Ctx)
    : mprog Reply :=
  match req with
  | None => Ret BadRequest
  | Some req =>
      let wsID := cx_workspace_id c in
      if bool_decide (method = POST) then
        if bool_decide (cx_system_role c = SystemRolePlatformAdmin) then
          vo ← ApplyDirect wsID (cx_user_id c) (cx_username c) req;
          Ret (reply_to vo)
        else
          policyRec ← db (Submit wsID (cx_user_id c) (cx_username c) req);
          match policyRec with
          | inl err => Ret (RError (error_text err))
          | inr policyRec =>
              v ← db (Workflow.Submit {|
                sub_WorkspaceID := wsID; sub_RequestedBy := cx_user_id c; sub_RequestedByName := cx_username c;
                sub_RequestedByEmail := cx_email c; sub_ResourceType := "policy"; sub_ResourceName := pd_Name req;
                sub_Action := "create"; sub_Payload := encode_payload (row_id TPolicy policyRec) |});
              match v with
              | inl err => Ret (RError (error_text err))
              | inr _ => Ret Accepted
              end
          end
      else
        vo ← ApplyDirect wsID (cx_user_id c) (cx_username c) req;
        Ret (reply_to vo)
  end.

(** What the workflow service runs for the key of policies. *)
Definition policy_executor (payload : string) : mprog (gresult unit) :=
  match decode_payload payload with
  | inl err => Ret (inl err)
  | inr policyID => Apply policyID
  end.

Definition registerPolicyExecutor (e : executors) : executors := RegisterExecutor e "policy" "create".

Definition listPolicies (req : option PageRequest) (rq : HttpRequest) (c : Ctx) : mprog Reply :=
  match req with
  | None => Ret BadRequest
  | Some req => vo ← db (ListPolicy (cx_workspace_id c) req); Ret (reply_to vo)
  end.

Definition deletePolicy (rq : HttpRequest) (c : Ctx) : mprog Reply :=
  let name := rq_Param rq "name" in
  if bool_decide (name = "") then Ret BadRequest
  else r ← DeletePolicy (cx_workspace_id c) name; Ret (reply_to r).
End service.

(** The routes of policies, all with the same middleware. *)
Section routes.
Context `{JwtLibrary} `{PolicyJSON} (env : string) (revocationList : option RevocationList).
Definition policy_route (handler : HttpRequest -> Ctx -> mprog Reply) : HttpRequest -> Ctx -> mprog Reply :=
  mserve [WorkspaceAuthMiddleware env revocationList RoleViewer] handler.
Definition create_policy_route (req : option PolicyDto) := policy_route (createOrUpdatePolicy POST req).
Definition update_policy_route (req : option PolicyDto) := policy_route (createOrUpdatePolicy PUT req).
Definition delete_policy_route := policy_route deletePolicy.
End routes.

(** ** What the service does *)

(** The calls of a program over the database alone. *)
Definition no_api T (e : mgmtE T) : Prop := match e with MApi _ _ => False | _ => True end.

Lemma wp_db {A} (p : sprog A) (Q : A -> Prop) :
  wp (λ _ _ _, True) (λ _ _, True) p Q -> wp (λ _ _ _, True) no_api (db p) Q.
Proof. intros Hp. apply wp_translate. eapply wp_weaken; [| |exact Hp]; done. Qed.

Lemma any_first t cs Q : (forall r, Q r) -> wp (λ _ _ _, True) (λ _ _, True) (base_First t cs) Q.
Proof. intros HQ. split; [done|]. intros r _. apply HQ. Qed.

Lemma any_create t (x : row t) Q : (forall r, Q r) -> wp (λ _ _ _, True) (λ _ _, True) (base_Create t x) Q.
Proof.
  intros HQ. unfold base_Create, BeforeCreate. destruct (bool_decide _); simpl; repeat split; auto.
Qed.

(** What a member who is not a platform administrator submits stays in the
    database: whatever the database answers, creating a policy makes no call on
    the Kubernetes API. *)
Theorem submission_stays_in_database `{PolicyJSON} req rq c :
  cx_system_role c <> SystemRolePlatformAdmin ->
  wp (λ _ _ _, True) no_api (createOrUpdatePolicy POST req rq c) (λ _, True).
Proof.
  intros Hr. unfold createOrUpdatePolicy. destruct req as [req|]; [|done]. cbv zeta.
  rewrite bool_decide_true, (bool_decide_false (cx_system_role c = _)) by done.
  apply wp_bind, wp_db, any_create. intros [err|rec]; [done|]. apply wp_bind, wp_db.
  unfold Workflow.Submit. apply wp_bind, wp_call; [done|]. intros id _.
  apply wp_bind, wp_call; [done|]. by intros [err|wr] _.
Qed.

Section runs.
Context `{PolicyJSON} `{SqlLike} (h : forall T, srvE T -> World -> T -> World -> Prop) `{!GormDB h}.

Abbreviation policy_rows w := (t_policies (w_tables (mw_db w))).

(** A query through the translation. *)
Lemma db_first_inv t cs w r w' :
  runs (mgmt_world h) (db (base_First t cs)) w r w' ->
  w' = w /\ match r with
            | inr x => x ∈ matching (w_tables (mw_db w)) t cs
            | inl err => err = ErrRecordNotFound -> matching (w_tables (mw_db w)) t cs = []
            end.
Proof using All.
  intros Hr. apply runs_db in Hr as [Hr Ha]. apply (first_inv h) in Hr as [E Hr].
  split; [|exact Hr]. destruct w, w'; cbn in *; congruence.
Qed.

(** What writing a row of a policy does. *)
Lemma policies_Update_inv rec w r w' :
  runs h (policies_Update rec) w r w' ->
  w_tables w' = match r with
                | inr _ => update_rows (w_tables w) TPolicy [CEq "id" (row_id TPolicy rec)] (save TPolicy rec)
                | inl _ => w_tables w
                end.
Proof using All. intros Hr. apply runs_call_inv, gorm_law in Hr. cbn in Hr. by destruct r; subst w'. Qed.

Definition applied_call (crd : LatticePolicy) (answer : gresult LatticePolicy) : ApiCall :=
  {| ac_T := gresult LatticePolicy; ac_call := AApply Api.KPolicy crd; ac_answer := answer |}.

(** Applying the policy of an approved request, where calls are answered by [ans].  Either the row or its
    workspace could not be read, and nothing happened; or the specification of the row could not;
    or the resource that the row describes was applied in the workspace's namespace, exactly once,
    and then the row was to say active without an error after a
    success, and failed with the API's error otherwise. *)
Lemma Apply_inv ans id w r w' :
  runs (answered_mgmt ans h) (Apply id) w r w' ->
  (exists err, mw_api w' = mw_api w /\ w_tables (mw_db w') = w_tables (mw_db w) /\
     ((db_answers ans _ (DFirst TPolicy [CEq "id" id]) (inl err) /\ r = inl (ErrWrap "policy record not found" err)) \/
      exists rec, rec ∈ matching (w_tables (mw_db w)) TPolicy [CEq "id" id] /\
        ((db_answers ans _ (DFirst TWorkspace [CEq "id" (po_WorkspaceID rec)]) (inl err) /\
          r = inl (ErrWrap "workspace not found" err)) \/
         (decode_spec (po_Spec rec) = inl err /\ r = inl (ErrWrap "unmarshal spec" err))))) \/
  (exists rec ws spec answer saved, let s := w_tables (mw_db w) in
     rec ∈ matching s TPolicy [CEq "id" id] /\ ws ∈ matching s TWorkspace [CEq "id" (po_WorkspaceID rec)] /\
     decode_spec (po_Spec rec) = inr spec /\
     mw_api w' = mw_api w ++ [applied_call (row_crd rec (ws_Namespace ws) spec) answer] /\
     let rec' := match answer with
                 | inr _ => policy_with_status rec PolicyStatusActive ""
                 | inl err => policy_with_status rec PolicyStatusFailed (error_text err)
                 end in
     db_answers ans _ (DSave TPolicy rec') saved /\
     w_tables (mw_db w') = match saved with
                           | inr _ => update_rows s TPolicy [CEq "id" (row_id TPolicy rec)] (save TPolicy rec')
                           | inl _ => s
                           end /\
     r = match answer with inl err => inl err | inr _ => saved end).
Proof using All.
  intros Hr. apply runs_bind_inv in Hr as (rr & w1 & Hr1 & Hr). apply runs_db_call in Hr1 as (Hh & Hans & Ha1).
  apply gorm_law in Hh as [Ew Hrec].
  assert (w1 = w) as -> by (destruct w, w1; cbn in *; congruence).
  destruct rr as [err|rec]; [apply runs_ret_inv in Hr as [-> ->]; left; exists err; split_and!; [done..|by left]|].
  apply runs_bind_inv in Hr as (rw & w1 & Hr1 & Hr). apply runs_db_call in Hr1 as (Hh & Hans2 & Ha2).
  apply gorm_law in Hh as [Ew2 Hws]. assert (w1 = w) as -> by (destruct w, w1; cbn in *; congruence).
  destruct rw as [err|ws].
  { apply runs_ret_inv in Hr as [-> ->]. left. exists err. split_and!; [done..|]. right. exists rec. split; [done|by left]. }
  destruct (decode_spec (po_Spec rec)) as [err|spec] eqn:Es.
  { apply runs_ret_inv in Hr as [-> ->]. left. exists err. split_and!; [done..|]. right. exists rec. split; [done|by right]. }
  apply runs_bind_inv in Hr as (answer & w1 & [Hap Ed]%runs_kapi_answered & Hr). apply runs_call_inv in Hap as [Hap _].
  unfold api_log in Hap. cbn in Hap. right.
  destruct answer as [err|o].
  - apply runs_bind_inv in Hr as (saved & w2 & Hu & Hr). apply runs_ret_inv in Hr as [-> ->].
    apply runs_db_call in Hu as (Hh & Hsaved & Ha3). apply gorm_law in Hh.
    exists rec, ws, spec, (inl err), saved. cbv zeta. rewrite Ha3, Hap. split_and!; [done..| |done].
    cbn in Hh. rewrite Ed in Hh. by destruct saved; rewrite Hh.
  - apply runs_db_call in Hr as (Hh & Hsaved & Ha3). apply gorm_law in Hh.
    exists rec, ws, spec, (inr o), r. cbv zeta. rewrite Ha3, Hap. split_and!; [done..| |done].
    cbn in Hh. rewrite Ed in Hh. by destruct r; rewrite Hh.
Qed.

Definition submitted_row (id wsID createdBy createdByName : string) (policyDto : PolicyDto) : PolicyRow := {|
  po_Model := with_id id; po_WorkspaceID := wsID; po_Name := pd_Name policyDto;
  po_Description := pd_Description policyDto; po_Action := pd_Action policyDto;
  po_PolicyTypes := encode_types (pd_PolicyTypes policyDto); po_Spec := encode_spec (pd_Spec policyDto);
  po_Status := PolicyStatusPending; po_WorkflowRequestID := ""; po_ErrorMessage := "";
  po_CreatedBy := createdBy; po_CreatedByName := createdByName; po_UpdatedBy := ""; po_UpdatedByName := "" |}.

Lemma Submit_inv wsID by_ name dto w rec w' :
  runs h (Submit wsID by_ name dto) w (inr rec) w' ->
  exists id, id <> "" /\ rec = submitted_row id wsID by_ name dto /\
    w' = with_tables w (insert_row (w_tables w) TPolicy rec).
Proof using All.
  intros Hr. apply (base_Create_inv h TPolicy) in Hr as (id & Hid & -> & _ & ->); [|done]. exists id. split; [done|].
  by split.
Qed.

(** C34. A submission that is approved later applies the very resource that applying it directly
    would have, in the namespace of the workspace it was submitted for: the way through the
    payload of its request and through the database changes nothing of a policy. When the
    executor runs for the request, with the row as it was submitted, either reading the row or
    the workspace failed, which is the error, and nothing happened; or the resource was applied,
    by one call. Then the row is written, to say active when the API took the resource, and
    failed with the API's error otherwise. The executor reports the error of the API; or else
    that of writing the row, which then is as it was; or else success. *)
Theorem submitted_policy_applied ans wsID createdBy createdByName dto w rec w1 w2 r w3 :
  decode_payload (encode_payload (row_id TPolicy rec)) = inr (row_id TPolicy rec) ->
  runs h (Submit wsID createdBy createdByName dto) w (inr rec) w1 ->
  (forall x, x ∈ policy_rows w2 -> row_id TPolicy x = row_id TPolicy rec -> x = rec) ->
  runs (answered_mgmt ans h) (policy_executor (encode_payload (row_id TPolicy rec))) w2 r w3 ->
  (exists err, mw_api w3 = mw_api w2 /\ w_tables (mw_db w3) = w_tables (mw_db w2) /\
     ((db_answers ans _ (DFirst TPolicy [CEq "id" (row_id TPolicy rec)]) (inl err) /\
       r = inl (ErrWrap "policy record not found" err)) \/
      (db_answers ans _ (DFirst TWorkspace [CEq "id" wsID]) (inl err) /\ r = inl (ErrWrap "workspace not found" err)))) \/
  (exists ws answer saved, let s := w_tables (mw_db w2) in
     ws ∈ matching s TWorkspace [CEq "id" wsID] /\
     mw_api w3 = mw_api w2 ++ [applied_call (policy_crd (ws_Namespace ws) (pd_Name dto) (pd_Action dto)
       (pd_Description dto) (pd_PolicyTypes dto) (pd_Spec dto)) answer] /\
     let row := match answer with
                | inr _ => policy_with_status rec PolicyStatusActive ""
                | inl err => policy_with_status rec PolicyStatusFailed (error_text err)
                end in
     db_answers ans _ (DSave TPolicy row) saved /\
     w_tables (mw_db w3) = match saved with
                           | inr _ => update_rows s TPolicy [CEq "id" (row_id TPolicy rec)] (save TPolicy row)
                           | inl _ => s
                           end /\
     r = match answer with inl err => inl err | inr _ => saved end).
Proof using All.
  intros Hpay Hs Hrow Hr. apply Submit_inv in Hs as (id & _ & E & _). unfold policy_executor in Hr. rewrite Hpay in Hr.
  apply Apply_inv in Hr as [(err & Hapi & Htab & Hcause)|(rec' & ws & spec & answer & saved & Hr)].
  - left. exists err. split_and!; [done..|]. destruct Hcause as [Hc|(rec' & Hrec & Hc)]; [by left|].
    apply found_id in Hrec as [Hin Hid]. apply Hrow in Hin; [|done]. subst rec'. destruct Hc as [Hc|[Hc _]].
    + right. by rewrite E in Hc.
    + rewrite E in Hc. cbn in Hc. by rewrite decode_encode_spec in Hc.
  - right. cbv zeta in Hr. destruct Hr as (Hrec & Hws & Hspec & Hapi & Hsaved & Htab & ->).
    apply found_id in Hrec as [Hin Hid]. apply Hrow in Hin; [|done]. subst rec'.
    rewrite E in Hws, Hspec, Hapi. cbn in Hws, Hspec.
    rewrite decode_encode_spec in Hspec. injection Hspec as <-. exists ws, answer, saved. cbv zeta.
    unfold row_crd in Hapi. cbn in Hapi. rewrite decode_encode_types in Hapi. by split_and!.
Qed.

(** A name that was deleted in a workspace is never recorded there again: the row
    that is marked as deleted still holds the name, the insert fails, and the
    error is ignored, although the policy was applied. *)
Theorem deleted_name_unrecorded wsID operatorID operatorName dto w u w' :
  existsb (λ r, clashes TPolicy (new_policy_row wsID (pd_Name dto) "" "") r && negb (live TPolicy r))
    (t_policies (w_tables w)) = true ->
  matching (w_tables w) TPolicy [CEq "workspace_id" wsID; CEq "name" (pd_Name dto)] = [] ->
  runs h (upsert_policy wsID operatorID operatorName dto) w u w' -> w_tables w' = w_tables w.
Proof using All.
  intros Hdel Hnone Hr. apply runs_bind_inv in Hr as (rr & w1 & Hr1 & Hr). apply (first_inv h TPolicy) in Hr1 as [-> Hrr].
  destruct rr as [err|rec]; [|rewrite Hnone in Hrr; by apply elem_of_nil in Hrr]. cbn in Hr.
  apply runs_bind_inv in Hr as (rc & w2 & Hc & [_ ->]%runs_ret_inv). unfold policies_Create, base_Create in Hc.
  apply runs_bind_inv in Hc as (x & w3 & Hb & Hc). unfold BeforeCreate in Hb.
  rewrite bool_decide_true in Hb by done. apply runs_vis_inv in Hb as (id & w4 & Hid & [-> ->]%runs_ret_inv).
  apply gorm_law in Hid as [-> _]. apply runs_call_inv, gorm_law in Hc. cbn [gorm_step] in Hc.
  destruct rc as [err'|y]; [by subst w2|]. destruct Hc as (_ & _ & _ & Hno). exfalso.
  apply existsb_exists in Hdel as (r0 & Hin & Hr0). apply andb_true_iff in Hr0 as [Hr0 _].
  assert (Hyes : existsb (clashes TPolicy (new_policy_row wsID (pd_Name dto) "" "")) (t_policies (w_tables w)) = true)
    by (apply existsb_exists; by exists r0).
  change (existsb (clashes TPolicy (new_policy_row wsID (pd_Name dto) "" "")) (t_policies (w_tables w)) = false) in Hno.
  congruence.
Qed.
End runs.

(** ** A server with a viewer *)

(** An encoding of specifications, through the positive numbers. *)
Fixpoint pos_text (p : positive) : string :=
  match p with
  | xH => ""
  | xO p => String (ascii_of_nat 48) (pos_text p)
  | xI p => String (ascii_of_nat 49) (pos_text p)
  end.
Fixpoint text_pos (s : string) : positive :=
  match s with
  | EmptyString => xH
  | String c s => if Ascii.eqb c (ascii_of_nat 48) then xO (text_pos s) else xI (text_pos s)
  end.
Lemma text_pos_text p : text_pos (pos_text p) = p.
Proof. induction p as [p IH|p IH|]; cbn; [by rewrite IH..|done]. Qed.

#[local] Instance IPBlock_eq_dec : EqDecision IPBlock. Proof. solve_decision. Defined.
#[local] Instance IPBlock_countable : Countable IPBlock.
Proof. by apply (inj_countable' ipb_CIDR Build_IPBlock); intros []. Defined.
#[local] Instance requirement_countable : Countable LabelSelectorRequirement.
Proof.
  by apply (inj_countable' (λ r, (req_Key r, req_Operator r, req_Values r))
    (λ '(k, o, v), Build_LabelSelectorRequirement k o v)); intros [].
Defined.
#[local] Instance selector_countable : Countable LabelSelector.
Proof.
  by apply (inj_countable' (λ s, (MatchLabels s, MatchExpressions s)) (λ '(l, e), Build_LabelSelector l e));
    intros [].
Defined.
#[local] Instance selection_eq_dec : EqDecision PeerSelection. Proof. solve_decision. Defined.
#[local] Instance selection_countable : Countable PeerSelection.
Proof.
  by apply (inj_countable' (λ s, (sel_PeerSelector s, sel_IPBlock s)) (λ '(l, e), Build_PeerSelection l e));
    intros [].
Defined.
#[local] Instance port_eq_dec : EqDecision NetworkPolicyPort. Proof. solve_decision. Defined.
#[local] Instance port_countable : Countable NetworkPolicyPort.
Proof. by apply (inj_countable' (λ s, (npp_Port s, npp_Protocol s)) (λ '(l, e), Build_NetworkPolicyPort l e)); intros []. Defined.
#[local] Instance ingress_eq_dec : EqDecision IngressRule. Proof. solve_decision. Defined.
#[local] Instance ingress_countable : Countable IngressRule.
Proof. by apply (inj_countable' (λ s, (ing_From s, ing_Ports s)) (λ '(l, e), Build_IngressRule l e)); intros []. Defined.
#[local] Instance egress_eq_dec : EqDecision EgressRule. Proof. solve_decision. Defined.
#[local] Instance egress_countable : Countable EgressRule.
Proof. by apply (inj_countable' (λ s, (eg_To s, eg_Ports s)) (λ '(l, e), Build_EgressRule l e)); intros []. Defined.
#[local] Instance spec_eq_dec : EqDecision LatticePolicySpec. Proof. solve_decision. Defined.
#[local] Instance spec_countable : Countable LatticePolicySpec.
Proof.
  by apply (inj_countable' (λ s, (pol_Network s, pol_PeerSelector s, pol_Ingress s, pol_Egress s, pol_Action s))
    (λ '(n, p, i, e, a), Build_LatticePolicySpec n p i e a)); intros [].
Defined.

Definition coded {A} `{Countable A} (a : A) : string := pos_text (encode a).
Definition uncoded {A} `{Countable A} (s : string) : option A := decode (text_pos s).

(** The identifier in a payload whose text has nothing to escape. *)
Definition payload_id (s : string) : string := let t := str_drop 13 s in String.substring 0 (String.length t - 2) t.

Definition plain_policy_json : PolicyJSON.
Proof.
  refine {| encode_spec := coded; encode_types := coded; decode_payload := λ s, inr (payload_id s);
    decode_spec := λ s, match uncoded s with Some x => inr x | None => inl (ErrText "invalid character") end;
    decode_types := λ s, default [] (uncoded s) |}.
  - intros s. unfold uncoded, coded. by rewrite text_pos_text, decode_encode.
  - intros l. unfold uncoded, coded. by rewrite text_pos_text, decode_encode.
Defined.

(** Alice may only look at her workspace. *)
Definition viewer_tables : Tables := {|
  t_users := t_users sample_tables; t_identities := [];
  t_members := [sample_member "m1" "ws-a" "alice" RoleViewer MemberStatusActive];
  t_workspaces := t_workspaces sample_tables; t_invitations := []; t_workflows := []; t_policies := []; t_alerts := no_alerts; t_profiles := []; t_metrics := [] |}.
Definition viewer_world : MWorld := {|
  mw_db := {| w_tables := viewer_tables; w_saved := None; w_objects := []; w_executed := [] |}; mw_api := [] |}.

(** An API server that takes what it is given. *)
Definition accepting_api T (e : apiE T) : T :=
  match e in apiE T return T with
  | AGet _ _ => inl (ErrStatus NotFound "not found")
  | AList _ _ => inr []
  | ACreate _ o => inr o
  | AUpdate _ o => inr o
  | APatch _ _ n => inr n
  | AStatusPatch _ _ n => inr n
  | AStatusUpdate _ o => inr o
  | AApply _ o => inr o
  | ADelete _ _ => inr tt
  | ASetControllerReference _ m => inr m
  | ANow => 0
  | AGenerateKey => inl (ErrStatus OtherReason "no entropy")
  | AEvent _ _ _ => tt
  end.

Definition viewer_db : forall T, srvE T -> World -> T * World := @memory_db plain_like 5 sample_uuid (λ u, u).
Definition viewer_mgmt : forall T, mgmtE T -> MWorld -> T * MWorld := mgmt_fun viewer_db accepting_api [].

Definition allow_all_dto : PolicyDto := {|
  pd_Name := "open"; pd_Namespace := ""; pd_Action := "ALLOW"; pd_Description := "";
  pd_PolicyTypes := ["Ingress"; "Egress"]; pd_Spec := empty_spec |}.

Definition run_policy (route : HttpRequest -> Ctx -> mprog Reply) : option Reply * MWorld :=
  run viewer_mgmt (route (sample_request "alice" "ws-a" "") empty_ctx) viewer_world.

(** The approval of policies can be bypassed.  A viewer who creates a policy
    gets a pending row and a workflow request, and nothing is applied; when she
    sends the same policy to the update route, which the code takes to be for
    administrators only, it is applied at once and recorded as active. *)
Theorem viewer_applies_policy :
  let created := run_policy (@create_policy_route plain_jwt plain_policy_json "" (Some ∅) (Some allow_all_dto)) in
  let updated := run_policy (@update_policy_route plain_jwt plain_policy_json "" (Some ∅) (Some allow_all_dto)) in
  created.1 = Some Accepted /\ mw_api created.2 = [] /\
  po_Status <$> t_policies (w_tables (mw_db created.2)) = [PolicyStatusPending] /\
  wr_Status <$> t_workflows (w_tables (mw_db created.2)) = [WorkflowStatusPending] /\
  updated.1 = Some OK /\
  mw_api updated.2 = [applied_call (policy_crd "wf-ws-a" "open" "ALLOW" "" ["Ingress"; "Egress"] empty_spec)
    (inr (policy_crd "wf-ws-a" "open" "ALLOW" "" ["Ingress"; "Egress"] empty_spec))] /\
  po_Status <$> t_policies (w_tables (mw_db updated.2)) = [PolicyStatusActive].
Proof. vm_compute. repeat split. Qed.

Lemma submission_stays_in_database_witness :
  wp (λ _ _ _, True) no_api
    (@createOrUpdatePolicy plain_policy_json POST (Some allow_all_dto) (sample_request "alice" "ws-a" "") empty_ctx)
    (λ _, True).
Proof. apply (@submission_stays_in_database plain_policy_json). discriminate. Defined.

Definition submit_run : option (gresult PolicyRow) * World := Eval vm_compute in
  run viewer_db (@Submit plain_policy_json "ws-a" "alice" "Alice" allow_all_dto) (mw_db viewer_world).
Definition submit_world : MWorld := {| mw_db := submit_run.2; mw_api := [] |}.
Definition submit_row : PolicyRow := Eval vm_compute in
  match submit_run.1 with Some (inr r) => r | _ => new_policy_row "" "" "" "" end.

(** The answers of a cluster that takes everything. *)
Definition viewer_answers T (e : mgmtE T) (r : T) : Prop :=
  match e in mgmtE T return T -> Prop with
  | MApi _ e => λ r, r = accepting_api _ e
  | _ => λ _, True
  end r.
Lemma viewer_run {A} (p : mprog A) w r :
  (run viewer_mgmt p w).1 = Some r ->
  runs (answered_mgmt viewer_answers (fun_world viewer_db)) p w r (run viewer_mgmt p w).2.
Proof.
  intros Hr%run_runs. eapply runs_weaken; [|exact Hr]. clear Hr. intros T e s x s' He. split.
  - destruct e as [T e|T e|i v| |app|p' n c|addr|mx]; unfold fun_world in *; cbn in He; simplify_eq;
      try (split; [done|lia]); try done.
    destruct (viewer_db T e (mw_db s)) as [x' w0] eqn:Eh. simplify_eq. by split.
  - destruct e; cbn in He |- *; unfold fun_world in He; cbn in He; by simplify_eq.
Qed.

Lemma submitted_policy_applied_witness :
  let w3 := (run viewer_mgmt (@policy_executor plain_policy_json (encode_payload (row_id TPolicy submit_row))) submit_world).2 in
  runs (fun_world viewer_db) (@Submit plain_policy_json "ws-a" "alice" "Alice" allow_all_dto) (mw_db viewer_world)
    (inr submit_row) submit_run.2 /\
  exists ws answer, ws ∈ @matching plain_like (w_tables (mw_db submit_world)) TWorkspace [CEq "id" "ws-a"] /\
     mw_api w3 = [applied_call (policy_crd (ws_Namespace ws) "open" "ALLOW" "" ["Ingress"; "Egress"] empty_spec) answer].
Proof.
  cbv zeta.
  assert (Hs : runs (fun_world viewer_db) (@Submit plain_policy_json "ws-a" "alice" "Alice" allow_all_dto)
    (mw_db viewer_world) (inr submit_row) submit_run.2).
  { apply (run_runs viewer_db (@Submit plain_policy_json "ws-a" "alice" "Alice" allow_all_dto) (mw_db viewer_world)
      (inr submit_row)). vm_compute. reflexivity. }
  split; [exact Hs|].
  destruct (@submitted_policy_applied plain_policy_json plain_like (fun_world viewer_db) sample_gorm
    viewer_answers "ws-a" "alice"
    "Alice" allow_all_dto (mw_db viewer_world) submit_row submit_run.2 submit_world (inr tt)
    (run viewer_mgmt (@policy_executor plain_policy_json (encode_payload (row_id TPolicy submit_row))) submit_world).2)
    as [(err & _ & _ & [[_ E]|[_ E]])|(ws & answer & saved & Hws & Hapi & _)].
  - vm_compute. reflexivity.
  - exact Hs.
  - intros x Hx _. vm_compute in Hx. apply list_elem_of_singleton in Hx. rewrite Hx. vm_compute. reflexivity.
  - apply (viewer_run _ submit_world (inr tt)). vm_compute. reflexivity.
  - discriminate E.
  - discriminate E.
  - exists ws, answer. split; [exact Hws|]. exact Hapi.
Defined.
