(* ===== verification/Peers.v ===== *)
(** * Peers: enrollment, peers and their tokens on the management server
    ([internal/server/service/peer.go], [token.go], [network.go],
    [internal/server/resource/peer.go], [internal/server/controller/peer.go],
    the peer and token routes of [server/api.go], [pkg/utils/encrypt.go])

    An agent enrolls with a token and is given a key pair and, later, its
    configuration.  The other operations are those of a workspace's users on its
    peers and tokens. *)

From S2P Require Import Prelude Prog Net Api Message ControllerUtils ResourceControllers Infra Store Access Mgmt Policies.

(** What a workspace request carries in its context. *)
Abbreviation workspace_key := string (only parsing).

(** [time.ParseDuration], in nanoseconds. *)
Class Durations := {
  ParseDuration : string -> gresult Z;
  one_week : ParseDuration "168h" = inr (168 * 3600 * 10 ^ 9);
}.

(** [wgtypes.ParseKey] of a private key, with the public key that belongs to it. *)
Class PrivateKeys := { parse_private : string -> option KeyPair }.

(** [json.Unmarshal] of a configuration; a JSON null gives no message. *)
Class ConfigJSON := { decode_message : string -> gresult (option Message) }.

(** ** The resource client *)

Record PeerDto := {
  pe_Name : string;
  pe_Namespace : string;
  pe_AppID : string;
  pe_Platform : string;
  pe_InterfaceName : string;
  pe_Token : string;
  pe_Labels : labels;
  pe_DisplayName : string;
}.

Definition default_net : string := "lattice-default-net".
Definition managed_labels : labels := {[ "app.kubernetes.io/managed-by" := "lattice-controller" ]}.

(** The identifier that belongs to a public key. *)
Definition peer_number (k : KeyPair) : Z := ToUint64 (FromKey (kp_PublicBytes k)).

(** The resource that enrollment applies. *)
Definition enrolled_peer (namespace : string) (e : PeerDto) (key : KeyPair) : LatticePeer := {|
  peer_meta := meta_with_labels (new_meta namespace (pe_AppID e)) managed_labels;
  peer_Spec := {| AppId := pe_AppID e; InterfaceName := pe_InterfaceName e; Platform := pe_Platform e;
    PrivateKey := kp_Private key; PublicKey := kp_Public key; AllowedIPs := []; DNSServers := []; MTU := 0;
    PeerId := pretty (peer_number key); Network := Some default_net; NetworkPolicies := []; WrrpUrl := "";
    WrrpQuicUrl := "" |};
  peer_Status := {| Conditions := []; PeerStatus := "Inactive"; Phase := ""; ActiveKey := "";
    ActiveNetwork := None; ActiveNetworkPolicies := []; AllocatedAddress := None;
    ConnSummary := {| cs_Total := 0; cs_Connected := 0; cs_Disconnected := 0 |}; LastSyncTime := None;
    CurrentHash := ""; ObservedGeneration := 0 |} |}.

Definition peer_with_token (p : InfraPeer) (token : string) : InfraPeer := {|
  ip_Name := ip_Name p; ip_InterfaceName := ip_InterfaceName p; ip_Platform := ip_Platform p;
  ip_Description := ip_Description p; ip_NetworkId := ip_NetworkId p; ip_CreatedBy := ip_CreatedBy p;
  ip_UserId := ip_UserId p; ip_Hostname := ip_Hostname p; ip_AppID := ip_AppID p; ip_Address := ip_Address p;
  ip_Endpoint := ip_Endpoint p; ip_Remove := ip_Remove p; ip_PresharedKey := ip_PresharedKey p;
  ip_PersistentKeepalive := ip_PersistentKeepalive p; ip_PrivateKey := ip_PrivateKey p;
  ip_PublicKey := ip_PublicKey p; ip_PeerID := ip_PeerID p; ip_AllowedIPs := ip_AllowedIPs p;
  ip_ReplacePeers := ip_ReplacePeers p; ip_Port := ip_Port p; ip_GroupName := ip_GroupName p;
  ip_Version := ip_Version p; ip_LastUpdatedAt := ip_LastUpdatedAt p; ip_Token := token;
  ip_WrrpUrl := ip_WrrpUrl p; ip_Labels := ip_Labels p |}.

(** The peer that is answered to the agent. *)
Definition registered_peer (node : LatticePeer) (namespace : string) (number : Z) : InfraPeer := {|
  ip_Name := ""; ip_InterfaceName := ""; ip_Platform := ""; ip_Description := ""; ip_NetworkId := namespace;
  ip_CreatedBy := ""; ip_UserId := 0; ip_Hostname := ""; ip_AppID := AppId (peer_Spec node);
  ip_Address := AllocatedAddress (peer_Status node); ip_Endpoint := ""; ip_Remove := false;
  ip_PresharedKey := ""; ip_PersistentKeepalive := 0; ip_PrivateKey := PrivateKey (peer_Spec node);
  ip_PublicKey := PublicKey (peer_Spec node); ip_PeerID := number; ip_AllowedIPs := "";
  ip_ReplacePeers := false; ip_Port := 0; ip_GroupName := ""; ip_Version := 0; ip_LastUpdatedAt := "";
  ip_Token := ""; ip_WrrpUrl := ""; ip_Labels := ∅ |}.

Section resource.
Context `{PrivateKeys}.

(** An error of the read that is not about a missing peer leaves an empty key,
    which does not parse. *)
Definition enrollment_key (node : gresult LatticePeer) : kprog (gresult KeyPair) :=
  let fresh := match node with inl err => IsNotFound err | inr _ => false end in
  if fresh then call AGenerateKey
  else
    match parse_private (match node with inr n => PrivateKey (peer_Spec n) | inl _ => "" end) with
    | None => mret (inl (ErrText "wgtypes: failed to parse key"))
    | Some key => mret (inr key)
    end.

Definition client_Register (namespace : string) (e : PeerDto) : kprog (gresult InfraPeer) :=
  node ← call (AGet KPeer {| key_Namespace := namespace; key_Name := pe_AppID e |});
  key ←? enrollment_key node;
  node ←? call (AApply KPeer (enrolled_peer namespace e key));
  mret (inr (registered_peer node namespace (peer_number key))).

Definition UpdateNodeStatus (namespace name : string) (f : LatticePeerStatus -> LatticePeerStatus) : kprog (gresult unit) :=
  node ←? call (AGet KPeer {| key_Namespace := namespace; key_Name := name |});
  _ ←? call (AStatusUpdate KPeer (peer_with_status node (f (peer_Status node))));
  mret (inr tt).

Definition UpdateNodeSepc (namespace name : string) (f : LatticePeer -> LatticePeer) : kprog (gresult unit) :=
  node ←? call (AGet KPeer {| key_Namespace := namespace; key_Name := name |});
  _ ←? call (AUpdate KPeer (f node));
  mret (inr tt).

Definition named_network (ns name cidr : string) : LatticeNetwork := {|
  net_meta := new_meta ns name;
  net_Spec := {| netspec_Name := name; netspec_NetworkId := ""; netspec_Owner := ""; netspec_CIDR := cidr;
    netspec_Mtu := 0; netspec_Dns := {| dns_Enabled := false; dns_Servers := [] |}; netspec_PeerSelector := ∅;
    netspec_Policies := [] |};
  net_Status := {| net_Phase := ""; net_Conditions := []; net_ActiveCIDR := ""; net_AllocatedCount := 0;
    net_AvailableIPs := 0; net_ObservedGeneration := 0 |} |}.

Definition zero_network : LatticeNetwork := named_network "" "" "".

(** The network that is returned is the one that was read: nothing, when there was
    none.  Errors of the read other than its absence are dropped. *)
Definition client_CreateNetwork (networkId cidr : string) : kprog (gresult LatticeNetwork) :=
  network ← call (AGet Api.KNetwork {| key_Namespace := "default"; key_Name := networkId |});
  match network with
  | inr network => mret (inr network)
  | inl err =>
      if IsNotFound err then
        _ ←? call (AApply Api.KNetwork (named_network "default" networkId cidr));
        mret (inr zero_network)
      else mret (inr zero_network)
  end.
End resource.

(** [infra.Message{}]. *)
Definition empty_message : Message := {|
  m_EventType := EventTypeJoinNetwork; m_ConfigVersion := ""; m_Timestamp := 0; m_Changes := None;
  m_Current := None; m_Network := None; m_Policies := []; m_ComputedPeers := []; m_ComputedRules := None;
  m_Labels := ∅ |}.

(** The last of the listed tokens that satisfies [f]. *)
Definition last_token (f : LatticeEnrollmentToken -> bool) (l : list LatticeEnrollmentToken)
    : option LatticeEnrollmentToken := last (filter (λ t, f t = true) l).

Definition GetNetworkMap `{ConfigJSON} (tokenStr name : string) : mprog (gresult (option Message)) :=
  if bool_decide (tokenStr = "") then Ret (inl (ErrText "token is empty"))
  else
    list ← call (MTokensBy "spec.token" tokenStr);
    match list with
    | inl err => Ret (inl (ErrText ("get token failed: " +:+ error_text err)))
    | inr list =>
        match last_token (λ t, bool_decide (tokst_Token (tok_Status t) = tokenStr)) list with
        | None => Ret (inl (ErrText "token not exists"))
        | Some token =>
            node ←? kapi (call (AGet KPeer {| key_Namespace := Namespace (tok_meta token); key_Name := name |}));
            cm ← kapi (call (AGet KConfigMap {| key_Namespace := Namespace (peer_meta node);
              key_Name := Name (peer_meta node) +:+ "-config" |}));
            match cm with
            | inl err => if IsNotFound err then Ret (inr (Some empty_message)) else Ret (inl err)
            | inr cm => Ret (decode_message (str_get (cm_Data cm) "config.json"))
            end
        end
    end.

(** ** The peer service *)

Definition displayNameAnnotation : string := "lattice.io/display-name".
Definition disabledAnnotation : string := "lattice.io/disabled".

Section service.
Context `{MapRange} `{PrivateKeys} `{Durations} `{JSON : ConfigJSON} `{PolicyJSON}.

(** An empty value removes a label. *)
Definition update_labels (old new : labels) : labels :=
  foldl (λ l kv, if bool_decide (kv.2 = "") then delete kv.1 l else <[kv.1 := kv.2]> l) old (go_range new).

Definition update_annotations (a : labels) (displayName : string) : labels :=
  if bool_decide (displayName = "") then delete displayNameAnnotation a
  else <[displayNameAnnotation := displayName]> a.

Record PeerVo := {
  pr_Namespace : string; pr_Name : string; pr_DisplayName : string; pr_AppID : string; pr_PublicKey : string;
  pr_Platform : string; pr_Address : option string; pr_Labels : labels; pr_WorkspaceDisplayName : string;
  pr_Disabled : bool; pr_Status : string; pr_LastSeen : option string;
}.

Definition UpdatePeer (dto : PeerDto) : kprog (gresult PeerVo) :=
  peer ←? call (AGet KPeer {| key_Namespace := pe_Namespace dto; key_Name := pe_Name dto |});
  let l := update_labels (Labels (peer_meta peer)) (pe_Labels dto) in
  let a := update_annotations (Annotations (peer_meta peer)) (pe_DisplayName dto) in
  stored ←? call (AUpdate KPeer (peer_with_meta peer (meta_with_annotations (meta_with_labels (peer_meta peer) l) a)));
  mret (inr {| pr_Namespace := ""; pr_Name := Name (peer_meta stored);
    pr_DisplayName := str_get a displayNameAnnotation; pr_AppID := AppId (peer_Spec stored);
    pr_PublicKey := PublicKey (peer_Spec stored); pr_Platform := Platform (peer_Spec stored);
    pr_Address := AllocatedAddress (peer_Status stored); pr_Labels := l; pr_WorkspaceDisplayName := "";
    pr_Disabled := false; pr_Status := ""; pr_LastSeen := None |}).

Definition peer_matches (kw : string) (p : LatticePeer) : bool :=
  str_contains kw (Name (peer_meta p)) ||
  str_contains kw (str_get (Annotations (peer_meta p)) displayNameAnnotation) ||
  match AllocatedAddress (peer_Status p) with Some a => str_contains kw a | None => false end.

Definition peer_vo (workspace : Workspace) (p : LatticePeer) (status : option (string * option string)) : PeerVo := {|
  pr_Namespace := Namespace (peer_meta p); pr_Name := Name (peer_meta p);
  pr_DisplayName := str_get (Annotations (peer_meta p)) displayNameAnnotation; pr_AppID := AppId (peer_Spec p);
  pr_PublicKey := PublicKey (peer_Spec p); pr_Platform := ""; pr_Address := AllocatedAddress (peer_Status p);
  pr_Labels := Labels (peer_meta p); pr_WorkspaceDisplayName := ws_DisplayName workspace;
  pr_Disabled := bool_decide (str_get (Annotations (peer_meta p)) disabledAnnotation = "true");
  pr_Status := match status with Some (s, _) => s | None => "" end;
  pr_LastSeen := match status with Some (_, t) => t | None => None end |}.

Fixpoint peers_with_status (workspace : Workspace) (l : list LatticePeer) : mprog (list PeerVo) :=
  match l with
  | [] => Ret []
  | p :: l =>
      st ← call (MStatus (AppId (peer_Spec p)));
      rest ← peers_with_status workspace l;
      Ret (peer_vo workspace p st :: rest)
  end.

(** The total counts the peers before the keyword was applied. *)
Definition ListPeers (workspaceId : string) (pageParam : PageRequest) : mprog (gresult (PageResult PeerVo)) :=
  workspace ←? db (workspaces_GetByID workspaceId);
  peerList ←? kapi (call (AList KPeer (InNamespace (ws_Namespace workspace))));
  let filtered := if bool_decide (pg_Keyword pageParam = "") then peerList
                  else filter (λ p, peer_matches (pg_Keyword pageParam) p = true) peerList in
  let page := if pg_Page pageParam <? 1 then 1 else pg_Page pageParam in
  match cut_page filtered page (pg_PageSize pageParam) with
  | None => Panic
  | Some items =>
      vos ← peers_with_status workspace items;
      Ret (inr {| res_Total := Z.of_nat (length peerList); res_Page := pg_Page pageParam;
        res_PageSize := pg_PageSize pageParam; res_List := vos |})
  end.

Definition DisablePeer (namespace name : string) : kprog (gresult unit) :=
  peer ←? call (AGet KPeer {| key_Namespace := namespace; key_Name := name |});
  _ ←? call (AUpdate KPeer (peer_with_meta peer (meta_with_annotations (peer_meta peer)
         (<[disabledAnnotation := "true"]> (Annotations (peer_meta peer))))));
  mret (inr tt).

Definition EnablePeer (namespace name : string) : kprog (gresult unit) :=
  peer ←? call (AGet KPeer {| key_Namespace := namespace; key_Name := name |});
  _ ←? call (AUpdate KPeer (peer_with_meta peer (meta_with_annotations (peer_meta peer)
         (delete disabledAnnotation (Annotations (peer_meta peer))))));
  mret (inr tt).

Definition DeletePeer (namespace name : string) : kprog (gresult unit) :=
  peer ←? call (AGet KPeer {| key_Namespace := namespace; key_Name := name |});
  _ ←? call (ADelete KPeer (meta_key (peer_meta peer)));
  cm ← call (AGet KConfigMap {| key_Namespace := namespace; key_Name := name +:+ "-config" |});
  match cm with
  | inl _ => mret (inr tt)
  | inr cm => _ ← call (ADelete KConfigMap (meta_key (cm_meta cm))); mret (inr tt)
  end.

(** *** Tokens *)

Record TokenDto := { td_Namespace : string; td_Name : string; td_Expiry : string; td_Limit : Z }.

Definition new_token (dto : TokenDto) (expiry : Z) : LatticeEnrollmentToken := {|
  tok_meta := meta_with_labels (new_meta (td_Namespace dto) (str_lower (td_Name dto))) managed_labels;
  tok_Spec := {| tok_Token := td_Name dto; tok_Namespace := td_Namespace dto; tok_UsageLimit := td_Limit dto;
    tok_Expiry := expiry; tok_BoundPeers := [] |};
  tok_Status := {| tokst_Token := ""; tokst_BoundPeers := []; tokst_Phase := ""; tokst_UsedCount := 0;
    tokst_IsExpired := false |} |}.

(** The text of a token: the one of its status, if it has one. *)
Definition actual_token (t : LatticeEnrollmentToken) : string :=
  if bool_decide (tokst_Token (tok_Status t) = "") then tok_Token (tok_Spec t) else tokst_Token (tok_Status t).

(** Times are in nanoseconds; the expiry is cut to a second. *)
Definition CreateToken (dto : TokenDto) : mprog (gresult string) :=
  token ← kapi (call (AGet KToken {| key_Namespace := td_Namespace dto; key_Name := td_Name dto |}));
  match token with
  | inr token => Ret (inr (actual_token token))
  | inl err =>
      if IsNotFound err then
        match ParseDuration (td_Expiry dto) with
        | inl err => Ret (inl err)
        | inr duration =>
            now ← kapi (call ANow);
            token ←? kapi (call (ACreate KToken (new_token dto ((now + duration) / 10 ^ 9 * 10 ^ 9))));
            Ret (inr (actual_token token))
        end
      else Ret (inr "")
  end.

Definition token_with_use (t : LatticeEnrollmentToken) : LatticeEnrollmentToken :=
  let s := tok_Status t in
  TokenReconciler.token_with_status t {|
    tokst_Token := tokst_Token s; tokst_BoundPeers := tokst_BoundPeers s; tokst_Phase := tokst_Phase s;
    tokst_UsedCount := tokst_UsedCount s + 1; tokst_IsExpired := tokst_IsExpired s |}.

(** [retry.RetryOnConflict] of client-go with its default back-off, five steps. *)
Fixpoint RetryOnConflict (steps : nat) (last : gerror) (p : kprog (gresult unit)) : kprog (gresult unit) :=
  match steps with
  | O => mret (inl last)
  | S steps =>
      r ← p;
      match r with
      | inl err => if IsConflict err then RetryOnConflict steps err p else mret (inl err)
      | inr _ => mret (inr tt)
      end
  end.

Definition count_use (key : NamespacedName) : kprog (gresult unit) :=
  latestToken ←? call (AGet KToken key);
  _ ←? call (AStatusUpdate KToken (token_with_use latestToken));
  mret (inr tt).

Definition tokens_of (tokenStr : string) : mprog (gresult (list LatticeEnrollmentToken)) :=
  l ←? call (MTokensBy "status.token" tokenStr);
  match l with
  | [] => call (MTokensBy "spec.token" tokenStr)
  | _ => Ret (inr l)
  end.

(** Neither the expiry, nor the limit of uses, nor the phase of the token is
    looked at. *)
Definition checkToken (tokenStr : string) : mprog (gresult LatticeEnrollmentToken) :=
  if bool_decide (tokenStr = "") then Ret (inl (ErrText "token is empty"))
  else
    l ← tokens_of tokenStr;
    match l with
    | inl err => Ret (inl (ErrText ("get token failed: " +:+ error_text err)))
    | inr l =>
        match last_token (λ t, bool_decide (tokst_Token (tok_Status t) = tokenStr) ||
                               bool_decide (tok_Token (tok_Spec t) = tokenStr)) l with
        | None => Ret (inl (ErrText "token not exists"))
        | Some token =>
            _ ←? kapi (RetryOnConflict 5 (ErrText "timed out waiting for the condition")
                   (count_use (meta_key (tok_meta token))));
            Ret (inr token)
        end
    end.

Definition Register (dto : PeerDto) : mprog (gresult InfraPeer) :=
  token ←? checkToken (pe_Token dto);
  node ←? kapi (client_Register (Namespace (tok_meta token)) dto);
  Ret (inr (peer_with_token node (actual_token token))).

(** *** Namespaces *)

Definition ensureNamespace (nsName : string) : mprog (gresult unit) :=
  ns ← db (call (SKGetNamespace nsName));
  match ns with
  | inl err =>
      if IsNotFound err then
        _ ← db (call (SKCreate (KNamespace nsName [("app.kubernetes.io/managed-by", "lattice-controller")])));
        Ret (inr tt)
      else Ret (inr tt)
  | inr _ => Ret (inr tt)
  end.

Definition default_network_of (nsName : string) : LatticeNetwork :=
  let n := named_network nsName default_net "" in
  {| net_meta := meta_with_labels (net_meta n) managed_labels;
     net_Spec := {| netspec_Name := nsName +:+ "-net"; netspec_NetworkId := ""; netspec_Owner := "";
       netspec_CIDR := ""; netspec_Mtu := 0; netspec_Dns := {| dns_Enabled := false; dns_Servers := [] |};
       netspec_PeerSelector := ∅; netspec_Policies := [] |};
     net_Status := net_Status n |}.

Definition ensureDefaultNetwork (nsName : string) : kprog (gresult unit) :=
  net ← call (AGet Api.KNetwork {| key_Namespace := nsName; key_Name := default_net |});
  match net with
  | inl err =>
      if IsNotFound err then
        created ← call (ACreate Api.KNetwork (default_network_of nsName));
        match created with
        | inl err => mret (inl (ErrText ("failed to create default network: " +:+ error_text err)))
        | inr _ => mret (inr tt)
        end
      else mret (inr tt)
  | inr _ => mret (inr tt)
  end.

Definition bootstrap (nsName : string) : mprog (gresult unit) :=
  _ ←? ensureNamespace nsName; kapi (ensureDefaultNetwork nsName).
End service.

(** ** Enrollment *)

Section enrollment.
Context `{PrivateKeys}.

(** What the calls may be answered. *)
Context (ans : forall T, mgmtE T -> T -> Prop).
Abbreviation api_answers := (Mgmt.api_answers ans).
Abbreviation answered_mgmt := (Mgmt.answered_mgmt ans).
Abbreviation answered_api := (Mgmt.answered_api ans).

Definition use_call (t : LatticeEnrollmentToken) (r : gresult LatticeEnrollmentToken) : ApiCall :=
  {| ac_T := gresult LatticeEnrollmentToken; ac_call := AStatusUpdate KToken (token_with_use t); ac_answer := r |}.
(** A use of the token that is kept under a key, as it was read, was not counted: its record had
    changed meanwhile. *)
Definition missed_use (key : NamespacedName) (c : ApiCall) : Prop := exists t err,
  api_answers _ (AGet KToken key) (inr t) /\ IsConflict err = true /\ c = use_call t (inl err).
Definition enroll_call (o : LatticePeer) (r : gresult LatticePeer) : ApiCall :=
  {| ac_T := gresult LatticePeer; ac_call := AApply KPeer o; ac_answer := r |}.

Lemma count_use_inv key l r l' :
  runs answered_api (count_use key) l r l' ->
  match r with
  | inr _ => exists t o, api_answers _ (AGet KToken key) (inr t) /\ l' = l ++ [use_call t (inr o)]
  | inl err => l' = l \/ exists t, api_answers _ (AGet KToken key) (inr t) /\ l' = l ++ [use_call t (inl err)]
  end.
Proof.
  intros Hr. apply runs_bind_inv in Hr as (got & l1 & [Hg Hans]%runs_call_inv & Hr). unfold api_log in Hg. cbn in Hg. subst l1.
  destruct got as [err|t]; [apply runs_ret_inv in Hr as [-> ->]; by left|].
  apply runs_bind_inv in Hr as (a & l1 & [Hg _]%runs_call_inv & Hr). unfold api_log in Hg. cbn in Hg. subst l1.
  destruct a as [err|o]; apply runs_ret_inv in Hr as [-> ->]; [right; by exists t|by exists t, o].
Qed.

(** A use is counted once, after fewer failed attempts than there are steps. *)
Lemma RetryOnConflict_inv steps key : forall last l l',
  runs answered_api (RetryOnConflict steps last (count_use key)) l (inr tt) l' ->
  exists missed t o, api_answers _ (AGet KToken key) (inr t) /\ l' = l ++ missed ++ [use_call t (inr o)] /\
    Forall (missed_use key) missed /\ (length missed < steps)%nat.
Proof.
  induction steps as [|steps IH]; intros last l l' Hr; [by apply runs_ret_inv in Hr as [? _]|].
  apply runs_bind_inv in Hr as ([err|[]] & l1 & H1%count_use_inv & Hr).
  - destruct (IsConflict err) eqn:Ec; [|by apply runs_ret_inv in Hr as [? _]].
    apply IH in Hr as (missed & t & o & Ht & -> & Hm & Hl). destruct H1 as [->|(t0 & Ht0 & ->)].
    + exists missed, t, o. split_and!; [done..|lia].
    + exists (use_call t0 (inl err) :: missed), t, o. rewrite <- app_assoc. split_and!; [done|done| |simpl; lia].
      constructor; [by exists t0, err|done].
  - apply runs_ret_inv in Hr as [_ ->]. destruct H1 as (t & o & Ht & ->). exists [], t, o. split_and!; [done..|simpl; lia].
Qed.

(** The key of a peer: a new one, or that of the peer which is there already. *)
Definition key_from (peer : NamespacedName) (key : KeyPair) : Prop :=
  api_answers _ AGenerateKey (inr key) \/
  exists node, api_answers _ (AGet KPeer peer) (inr node) /\ parse_private (PrivateKey (peer_Spec node)) = Some key.

Lemma enrollment_key_inv peer node l r l' :
  api_answers _ (AGet KPeer peer) node -> parse_private "" = None ->
  runs answered_api (enrollment_key node) l r l' -> l' = l /\ forall key, r = inr key -> key_from peer key.
Proof.
  intros Hnode Hempty. unfold enrollment_key. cbv zeta. destruct node as [err|node].
  - destruct (IsNotFound err).
    + intros [Hr Ha]%runs_call_inv. split; [exact Hr|]. intros key ->. by left.
    + rewrite Hempty. intros [-> ->]%runs_ret_inv. by split.
  - destruct (parse_private (PrivateKey (peer_Spec node))) as [k|] eqn:Ek; intros [-> ->]%runs_ret_inv; (split; [done|]); intros key [= ->].
    right. by exists node.
Qed.

(** The key of a peer that has one is kept. *)
Lemma enrollment_key_kept node key l r l' :
  parse_private (PrivateKey (peer_Spec node)) = Some key ->
  runs api_log (enrollment_key (inr node)) l r l' -> r = inr key.
Proof. intros Hk. unfold enrollment_key. rewrite Hk. by intros [-> _]%runs_ret_inv. Qed.

Lemma client_Register_inv ns dto l p l' :
  parse_private "" = None ->
  runs answered_api (client_Register ns dto) l (inr p) l' ->
  exists key node, key_from {| key_Namespace := ns; key_Name := pe_AppID dto |} key /\
    l' = l ++ [enroll_call (enrolled_peer ns dto key) (inr node)] /\ p = registered_peer node ns (peer_number key).
Proof.
  intros Hempty Hr. apply runs_bind_inv in Hr as (got & l1 & [Hg Ha]%runs_call_inv & Hr). unfold api_log in Hg. cbn in Hg. subst l1.
  apply runs_try_inv in Hr as (key & l1 & [-> Hkey]%(enrollment_key_inv _ _ _ _ _ Ha Hempty) & Hr).
  apply runs_try_inv in Hr as (node & l2 & [Hg _]%runs_call_inv & Hr). unfold api_log in Hg. cbn in Hg. subst l2.
  apply runs_ret_inv in Hr as [[= ->] ->]. exists key, node. split_and!; [by apply Hkey|done..].
Qed.

Lemma last_token_inv f l t : last_token f l = Some t -> f t = true /\ t ∈ l.
Proof. intros Hl. unfold last_token in Hl. apply last_Some_elem_of, list_elem_of_filter in Hl. exact Hl. Qed.

Definition token_text (t : LatticeEnrollmentToken) (s : string) : Prop :=
  tokst_Token (tok_Status t) = s \/ tok_Token (tok_Spec t) = s.
(** A token that was listed for a text: by the text of its status or, when there is none of those,
    by that of its specification. *)
Definition listed_for (text : string) (t : LatticeEnrollmentToken) : Prop := exists l, t ∈ l /\
  (ans _ (MTokensBy "status.token" text) (inr l) \/
   (ans _ (MTokensBy "status.token" text) (inr []) /\ ans _ (MTokensBy "spec.token" text) (inr l))).

Lemma tokens_of_inv h text w r w' : runs (answered_mgmt h) (tokens_of text) w r w' ->
  w' = w /\ forall l t, r = inr l -> t ∈ l -> listed_for text t.
Proof.
  intros Hr. apply runs_bind_inv in Hr as (l & w1 & [-> Ha]%runs_call_inv & Hr).
  destruct l as [err|[|t0 l]].
  - by apply runs_ret_inv in Hr as [-> ->].
  - apply runs_call_inv in Hr as [-> Hb]. split; [done|]. intros l t -> Ht. exists l. split; [done|]. by right.
  - apply runs_ret_inv in Hr as [-> ->]. split; [done|]. intros l' t [= <-] Ht. eexists. split; [done|]. by left.
Qed.

Lemma checkToken_inv h text w token w' :
  runs (answered_mgmt h) (checkToken text) w (inr token) w' ->
  text <> "" /\ token_text token text /\ listed_for text token /\ mw_db w' = mw_db w /\
  exists missed t o, api_answers _ (AGet KToken (meta_key (tok_meta token))) (inr t) /\
    mw_api w' = mw_api w ++ missed ++ [use_call t (inr o)] /\
    Forall (missed_use (meta_key (tok_meta token))) missed /\ (length missed < 5)%nat.
Proof.
  unfold checkToken. case_bool_decide as Ht; [by intros [? _]%runs_ret_inv|]. intros Hr.
  apply runs_bind_inv in Hr as (l & w1 & [-> Hlist]%tokens_of_inv & Hr).
  destruct l as [err|l]; [by apply runs_ret_inv in Hr as [? _]|].
  destruct (last_token _ l) as [t|] eqn:El; [|by apply runs_ret_inv in Hr as [? _]].
  apply last_token_inv in El as [Et Hin]. apply orb_true_iff in Et.
  apply runs_try_inv in Hr as ([] & w1 & [Hu Hd]%runs_kapi_answered & Hr).
  apply RetryOnConflict_inv in Hu. apply runs_ret_inv in Hr as [[= ->] ->]. split_and!; [done| |by eapply Hlist|done|done].
  destruct Et as [E|E]; apply bool_decide_eq_true_1 in E; [by left|by right].
Qed.

(** C39. What enrolling does, whatever the cluster answers, provided that an empty text is no
    private key. An agent that is answered presented a token that is not empty and that is the
    text of an enrollment token which was listed for it. A use of that token, as it was last
    read under its name, was counted once, and before at most four attempts failed because the
    token had changed meanwhile; then one peer was applied, under the agent's identifier in the
    namespace of that token, with a key pair that was made for it, or that the peer of this name
    had already; and the agent is told what the server stored, the number of that key and the
    token. The database is not touched. *)
Theorem Register_spec h dto w p w' :
  parse_private "" = None ->
  runs (answered_mgmt h) (Register dto) w (inr p) w' ->
  pe_Token dto <> "" /\ mw_db w' = mw_db w /\
  exists token latest counted missed key node,
    let ns := Namespace (tok_meta token) in
    listed_for (pe_Token dto) token /\ token_text token (pe_Token dto) /\
    api_answers _ (AGet KToken (meta_key (tok_meta token))) (inr latest) /\
    Forall (missed_use (meta_key (tok_meta token))) missed /\ (length missed < 5)%nat /\
    key_from {| key_Namespace := ns; key_Name := pe_AppID dto |} key /\
    mw_api w' = mw_api w ++ missed ++ [use_call latest (inr counted); enroll_call (enrolled_peer ns dto key) (inr node)] /\
    p = peer_with_token (registered_peer node ns (peer_number key)) (actual_token token).
Proof using All.
  intros Hempty Hr.
  apply runs_try_inv in Hr as (token & w1 & (Hne & Htext & Hlist & Hd1 & missed & t & o & Ht & Ha1 & Hm & Hl)%checkToken_inv & Hr).
  apply runs_try_inv in Hr as (node & w2 & [Hc Hd2]%runs_kapi_answered & Hr).
  apply client_Register_inv in Hc as (key & stored & Hkey & Ha2 & ->); [|done].
  apply runs_ret_inv in Hr as [[= ->] ->]. split_and!; [done|congruence|].
  exists token, t, o, missed, key, stored. cbv zeta. split_and!; [done..| |done].
  rewrite Ha2, Ha1, <- !app_assoc. done.
Qed.

End enrollment.

Section limits.
Context `{PrivateKeys}.

(** The cluster has this token and this state of it, no such peer, and takes what
    it is given. *)
Definition open_cluster (token latest : LatticeEnrollmentToken) T (e : mgmtE T) : T -> Prop :=
  match e in mgmtE T return T -> Prop with
  | MTokensBy _ _ => λ r, r = inr [token]
  | MApi _ e =>
      match e in apiE T return T -> Prop with
      | AGet k _ => match k return gresult (obj k) -> Prop with
                    | KToken => λ r, r = inr latest
                    | KPeer => λ r, exists msg, r = inl (ErrStatus NotFound msg)
                    | _ => λ _, True
                    end
      | AStatusUpdate _ _ => λ r, exists o, r = inr o
      | AGenerateKey => λ r, exists key, r = inr key
      | AApply _ o => λ r, r = inr o
      | _ => λ _, True
      end
  | _ => λ _, True
  end.

(** The limits of a token are not enforced.  An agent that presents the text of
    a token is enrolled in its namespace whatever the token's expiry, limit of
    uses, count of uses and phase are, in the listed object as in the latest one. *)
Theorem Register_any_token token latest dto :
  pe_Token dto <> "" -> tok_Token (tok_Spec token) = pe_Token dto ->
  wp (open_cluster token latest) (λ _ _, True) (Register dto)
    (λ r, exists p, r = inr p /\ ip_AppID p = pe_AppID dto /\ ip_NetworkId p = Namespace (tok_meta token)).
Proof using All.
  intros Hne Htext. unfold Register, checkToken. rewrite bool_decide_false by done.
  apply wp_try, wp_bind. unfold tokens_of. apply wp_try, wp_call; [done|]. intros r ->. cbn [wp].
  assert (last_token (λ t, bool_decide (tokst_Token (tok_Status t) = pe_Token dto) ||
    bool_decide (tok_Token (tok_Spec t) = pe_Token dto)) [token] = Some token) as ->.
  { unfold last_token. rewrite filter_cons_True; [done|]. apply orb_true_iff. right. by apply bool_decide_eq_true_2. }
  apply wp_try. split; [done|]. intros r ->. split; [done|]. intros r [o ->]. cbn.
  split; [done|]. intros r [msg ->]. split; [done|]. intros r [key ->]. split; [done|]. intros r ->.
  by eexists.
Qed.
End limits.

(** ** Labels *)

(** What an update does to a label, whatever the order of the range. *)
Lemma update_labels_lookup `{MapRange} old new k :
  update_labels old new !! k =
  match new !! k with
  | None => old !! k
  | Some v => if bool_decide (v = "") then None else Some v
  end.
Proof.
  unfold update_labels.
  assert (Hgen : forall (l : list (string * string)) (m : labels), NoDup l.*1 ->
    foldl (λ l kv, if bool_decide (kv.2 = "") then delete kv.1 l else <[kv.1 := kv.2]> l) m l !! k =
    match (list_to_map l : labels) !! k with
    | None => m !! k
    | Some v => if bool_decide (v = "") then None else Some v
    end).
  { induction l as [|[k' v] l IH]; intros m Hnd; [done|]. apply NoDup_cons in Hnd as [Hk Hnd]. cbn [foldl fst snd].
    rewrite IH by done. rewrite list_to_map_cons. destruct (decide (k' = k)) as [->|Hne].
    - rewrite lookup_insert_eq. apply not_elem_of_list_to_map in Hk. cbn [fst snd] in *. rewrite Hk.
      case_bool_decide; [by rewrite lookup_delete_eq|by rewrite lookup_insert_eq].
    - rewrite lookup_insert_ne by done. destruct (list_to_map l !! k); [done|].
      case_bool_decide; [by rewrite lookup_delete_ne|by rewrite lookup_insert_ne]. }
  assert (Hp : (go_range new).*1 ≡ₚ (map_to_list new).*1) by (by rewrite go_range_perm).
  assert (Hnd : NoDup (go_range new).*1) by (rewrite Hp; apply NoDup_fst_map_to_list).
  rewrite Hgen by done. rewrite (list_to_map_proper _ _ Hnd (go_range_perm new)).
  by rewrite list_to_map_to_list.
Qed.

(** ** A cluster with one token *)

Definition plain_private : PrivateKeys := {| parse_private := λ s,
  if bool_decide (s = "") then None
  else Some {| kp_Private := s; kp_Public := s; kp_PublicBytes := replicate 32 7 |} |}.

(** A token that has expired and was used up. *)
Definition stale_token : LatticeEnrollmentToken := {|
  tok_meta := new_meta "wf-ws-a" "t";
  tok_Spec := {| tok_Token := "T"; tok_Namespace := "wf-ws-a"; tok_UsageLimit := 1; tok_Expiry := 0; tok_BoundPeers := [] |};
  tok_Status := {| tokst_Token := "T"; tokst_BoundPeers := []; tokst_Phase := "Expired"; tokst_UsedCount := 9;
    tokst_IsExpired := true |} |}.

Definition sample_agent : PeerDto := {|
  pe_Name := ""; pe_Namespace := ""; pe_AppID := "laptop"; pe_Platform := "linux"; pe_InterfaceName := "wg0";
  pe_Token := "T"; pe_Labels := ∅; pe_DisplayName := "" |}.

Definition sample_key : KeyPair := {| kp_Private := "P"; kp_Public := "Q"; kp_PublicBytes := replicate 32 7 |}.

Definition stale_api T (e : apiE T) : T :=
  match e in apiE T return T with
  | AGet k _ => match k return gresult (obj k) with
                | KToken => inr stale_token
                | _ => inl (ErrStatus NotFound "not found")
                end
  | AGenerateKey => inr sample_key
  | e => accepting_api _ e
  end.

Definition stale_mgmt : forall T, mgmtE T -> MWorld -> T * MWorld := mgmt_fun viewer_db stale_api [stale_token].

Lemma Register_any_token_witness :
  pe_Token sample_agent <> "" /\
  wp (open_cluster stale_token stale_token) (λ _ _, True) (@Register plain_private sample_agent)
    (λ r, exists p, r = inr p /\ ip_AppID p = "laptop" /\ ip_NetworkId p = "wf-ws-a").
Proof.
  split; [discriminate|]. apply (@Register_any_token plain_private stale_token stale_token sample_agent).
  - discriminate.
  - reflexivity.
Defined.

Definition enrolled_laptop : InfraPeer :=
  peer_with_token (registered_peer (enrolled_peer "wf-ws-a" sample_agent sample_key) "wf-ws-a" (peer_number sample_key)) "T".

(** What the calls of this cluster are answered. *)
Definition stale_answers T (e : mgmtE T) (r : T) : Prop :=
  match e in mgmtE T return T -> Prop with
  | MTokensBy _ _ => λ r, r = inr [stale_token]
  | MApi _ e => λ r, r = stale_api _ e
  | _ => λ _, True
  end r.
Lemma stale_run {A} (p : mprog A) w r :
  (run stale_mgmt p w).1 = Some r ->
  runs (answered_mgmt stale_answers (fun_world viewer_db)) p w r (run stale_mgmt p w).2.
Proof.
  intros Hr%run_runs. eapply runs_weaken; [|exact Hr]. clear Hr. intros T e s x s' He. split.
  - destruct e as [T e|T e|i v| |app|p' n c|addr|mx]; unfold fun_world in *; cbn in He; simplify_eq;
      try (split; [done|lia]); try done.
    destruct (viewer_db T e (mw_db s)) as [x' w0] eqn:Eh. simplify_eq. by split.
  - destruct e; cbn in He |- *; unfold fun_world in He; cbn in He; by simplify_eq.
Qed.

Lemma Register_spec_witness :
  let w' := (run stale_mgmt (@Register plain_private sample_agent) viewer_world).2 in
  runs (answered_mgmt stale_answers (fun_world viewer_db)) (@Register plain_private sample_agent) viewer_world (inr enrolled_laptop) w' /\
  exists token latest counted missed key node, token = stale_token /\ latest = stale_token /\
    mw_api w' = missed ++ [use_call latest (inr counted);
      enroll_call (enrolled_peer (Namespace (tok_meta token)) sample_agent key) (inr node)].
Proof.
  cbv zeta.
  assert (Hr : runs (answered_mgmt stale_answers (fun_world viewer_db)) (@Register plain_private sample_agent) viewer_world
    (inr enrolled_laptop) (run stale_mgmt (@Register plain_private sample_agent) viewer_world).2).
  { apply (stale_run _ viewer_world (inr enrolled_laptop)). vm_compute. reflexivity. }
  split; [exact Hr|].
  destruct (@Register_spec plain_private stale_answers (fun_world viewer_db) sample_agent viewer_world enrolled_laptop _
      eq_refl Hr)
    as (_ & _ & token & latest & counted & missed & key & node & (l & Hin & Hl) & _ & Hlatest & _ & _ & _ & Hapi & _).
  exists token, latest, counted, missed, key, node. split; [|split; [injection Hlatest as ->; reflexivity|exact Hapi]].
  assert (l = [stale_token]) as -> by (destruct Hl as [Hl|[_ Hl]]; injection Hl as ->; reflexivity).
  by apply list_elem_of_singleton in Hin.
Defined.
