(* ===== verification/Tokens.v ===== *)
(** * Tokens: the token and network services, and the routes of tokens and peers
    ([internal/server/service/token.go], [network.go], [pkg/utils/encrypt.go],
    [internal/server/server/api.go], [server/nats_admin.go]) *)

From S2P Require Import Prelude Prog Net Api Message ControllerUtils Infra Store Access Mgmt Policies Peers.

(** ** Random tokens *)

Definition charset : string := "abcdefghijklmnopqrstuvwxyzABCDEFGHIJKLMNOPQRSTUVWXYZ123456789".

Definition char_at (s : string) (i : Z) : ascii := default (ascii_of_nat 0) (String.get (Z.to_nat i) s).

Fixpoint random_chars (n : nat) : mprog (gresult string) :=
  match n with
  | O => Ret (inr "")
  | S n =>
      num ←? call (MRandInt (Z.of_nat (String.length charset)));
      rest ←? random_chars n;
      Ret (inr (String (char_at charset num) rest))
  end.

Definition GenerateSecureToken : mprog (gresult string) := random_chars 16.

(** ** The token service *)

Definition missing_workspace : gerror := ErrText "workspaceId missing in context".

Section service.
Context `{MapRange} `{Durations} `{PolicyJSON}.

Definition deny_policy (ns : string) : PolicyDto := {|
  pd_Name := "default-deny"; pd_Namespace := ns; pd_Action := "Deny"; pd_Description := "";
  pd_PolicyTypes := []; pd_Spec := empty_spec |}.

Definition token_Create (wsId : string) : mprog (gresult string) :=
  if bool_decide (wsId = "") then Ret (inl missing_workspace)
  else
    workspace ←? db (workspaces_GetByID wsId);
    tokenStr ←? GenerateSecureToken;
    _ ←? CreateToken {| td_Namespace := ws_Namespace workspace; td_Name := tokenStr; td_Expiry := "168h"; td_Limit := 5 |};
    _ ←? ApplyDirect wsId "" "" (deny_policy (ws_Namespace workspace));
    Ret (inr tokenStr).

Definition token_Delete (wsId token : string) : mprog (gresult unit) :=
  if bool_decide (wsId = "") then Ret (inl missing_workspace)
  else
    workspace ←? db (workspaces_GetByID wsId);
    r ← kapi (call (ADelete KToken {| key_Namespace := ws_Namespace workspace; key_Name := token |}));
    match r with
    | inl err => Ret (if IsNotFound err then inr tt else inl err)
    | inr _ => Ret (inr tt)
    end.

(** ** The network service *)

Record TokenVo := {
  tv_Token : string; tv_Namespace : string; tv_WorkspaceDisplayName : string; tv_UsageLimit : Z; tv_Expiry : Z;
  tv_BoundPeers : list string; tv_UsedCount : Z; tv_IsExpired : bool; tv_Phase : string;
}.

Definition token_vo (item : LatticeEnrollmentToken) (displayName : string) : TokenVo := {|
  tv_Token := tokst_Token (tok_Status item); tv_Namespace := Namespace (tok_meta item);
  tv_WorkspaceDisplayName := displayName; tv_UsageLimit := tok_UsageLimit (tok_Spec item);
  tv_Expiry := tok_Expiry (tok_Spec item); tv_BoundPeers := tokst_BoundPeers (tok_Status item);
  tv_UsedCount := tokst_UsedCount (tok_Status item); tv_IsExpired := tokst_IsExpired (tok_Status item);
  tv_Phase := tokst_Phase (tok_Status item) |}.

Fixpoint token_vos (l : list LatticeEnrollmentToken) : sprog (list TokenVo) :=
  match l with
  | [] => Ret []
  | item :: l =>
      ws ← workspaces_GetByNamespace (Namespace (tok_meta item));
      rest ← token_vos l;
      Ret (token_vo item (match ws with inr ws => ws_DisplayName ws | inl _ => "" end) :: rest)
  end.

(** Neither the page nor its size is corrected before the list is cut. *)
Definition ListTokens (workspaceId : string) (pageParam : PageRequest) : mprog (gresult (PageResult TokenVo)) :=
  workspace ←? db (workspaces_GetByID workspaceId);
  tokenList ←? kapi (call (AList KToken (InNamespace (ws_Namespace workspace))));
  allTokens ← db (token_vos tokenList);
  let filtered := if bool_decide (pg_Keyword pageParam = "") then allTokens
                  else filter (λ t, str_contains (pg_Keyword pageParam) (tv_Token t) = true) allTokens in
  match cut_page filtered (pg_Page pageParam) (pg_PageSize pageParam) with
  | None => Panic
  | Some items =>
      Ret (inr {| res_Total := Z.of_nat (length allTokens); res_Page := pg_Page pageParam;
        res_PageSize := pg_PageSize pageParam; res_List := items |})
  end.

Definition svc_CreateNetwork (networkId cidr : string) : kprog (gresult string) :=
  network ←? client_CreateNetwork networkId cidr;
  mret (inr (Name (net_meta network))).

Definition peer_with_network (p : LatticePeer) (network : option string) : LatticePeer :=
  let s := peer_Spec p in
  peer_with_spec p {| AppId := AppId s; InterfaceName := InterfaceName s; Platform := Platform s;
    PrivateKey := PrivateKey s; PublicKey := PublicKey s; AllowedIPs := AllowedIPs s; DNSServers := DNSServers s;
    MTU := MTU s; PeerId := PeerId s; Network := network; NetworkPolicies := NetworkPolicies s;
    WrrpUrl := WrrpUrl s; WrrpQuicUrl := WrrpQuicUrl s |}.

Definition JoinNetwork (appIds : list string) (networkId : string) : kprog (gresult unit) :=
  if bool_decide (networkId = "") then mret (inr tt)
  else for_each appIds (λ appId, UpdateNodeSepc "default" appId (λ node, peer_with_network node (Some networkId))).

Definition LeaveNetwork (appIds : list string) (networkId : string) : kprog (gresult unit) :=
  if bool_decide (networkId = "") then mret (inr tt)
  else for_each appIds (λ appId, UpdateNodeSepc "default" appId (λ node, peer_with_network node None)).

(** ** Routes *)

Definition listTokens (req : option PageRequest) (rq : HttpRequest) (c : Ctx) : mprog Reply :=
  match req with
  | None => Ret BadRequest
  | Some p => r ← ListTokens (cx_workspace_id c) p; Ret (reply_to r)
  end.
Definition generateToken (rq : HttpRequest) (c : Ctx) : mprog Reply :=
  r ← token_Create (cx_workspace_id c); Ret (reply_to r).
Definition rmToken (rq : HttpRequest) (c : Ctx) : mprog Reply :=
  let token := rq_Param rq "token" in
  if bool_decide (token = "") then Ret (RError "token is required")
  else r ← token_Delete (cx_workspace_id c) (str_lower token); Ret (reply_to r).

Definition listPeers (req : option PageRequest) (rq : HttpRequest) (c : Ctx) : mprog Reply :=
  match req with
  | None => Ret BadRequest
  | Some p => r ← ListPeers (cx_workspace_id c) p; Ret (reply_to r)
  end.

(** The namespace of the peer comes from the body. *)
Definition updatePeer (req : option PeerDto) (rq : HttpRequest) (c : Ctx) : mprog Reply :=
  match req with
  | None => Ret BadRequest
  | Some req => vo ← kapi (UpdatePeer req); Ret (reply_to vo)
  end.

Definition peerNamespace (c : Ctx) : sprog (gresult string) :=
  ws ←? workspaces_GetByID (cx_workspace_id c); Ret (inr (ws_Namespace ws)).

Definition with_peer_namespace (c : Ctx) (f : string -> kprog (gresult unit)) : mprog Reply :=
  ns ← db (peerNamespace c);
  match ns with
  | inl err => Ret (RError (error_text err))
  | inr ns => r ← kapi (f ns); Ret (reply_to r)
  end.

Definition disablePeer (rq : HttpRequest) (c : Ctx) : mprog Reply :=
  with_peer_namespace c (λ ns, DisablePeer ns (rq_Param rq "name")).
Definition enablePeer (rq : HttpRequest) (c : Ctx) : mprog Reply :=
  with_peer_namespace c (λ ns, EnablePeer ns (rq_Param rq "name")).
Definition deletePeerHandler (rq : HttpRequest) (c : Ctx) : mprog Reply :=
  with_peer_namespace c (λ ns, DeletePeer ns (rq_Param rq "name")).

(** *** Requests on the message bus, which carry the namespace and no user *)

Definition workspaceCtxByNs (namespace : string) : sprog (gresult string) :=
  ws ← workspaces_GetByNamespace namespace;
  match ws with
  | inl err => Ret (inl (ErrWrap ("no workspace for namespace " +:+ go_quote namespace +:+
                     " — run 'lattice workspace list'") err))
  | inr ws => Ret (inr (row_id TWorkspace ws))
  end.

Definition server_CreateToken (namespace : string) : mprog (gresult string) :=
  if bool_decide (namespace = "") then Ret (inl (ErrText "namespace is required"))
  else wsId ←? db (workspaceCtxByNs namespace); token_Create wsId.

Definition NatsRemoveToken (namespace token : string) : mprog (gresult unit) :=
  if bool_decide (namespace = "") then Ret (inl (ErrText "namespace is required"))
  else if bool_decide (token = "") then Ret (inl (ErrText "token is required"))
  else wsId ←? db (workspaceCtxByNs namespace); token_Delete wsId (str_lower token).

Definition NatsListTokens (namespace : string) : mprog (gresult (list TokenVo)) :=
  if bool_decide (namespace = "") then Ret (inl (ErrText "namespace is required"))
  else
    wsId ←? db (workspaceCtxByNs namespace);
    tokens ←? ListTokens wsId {| pg_Page := 1; pg_PageSize := 200; pg_Keyword := "" |};
    Ret (inr (res_List tokens)).

Definition NatsAddPolicy (namespace name action description : string) : mprog (gresult PolicyVo) :=
  if bool_decide (namespace = "") then Ret (inl (ErrText "namespace is required"))
  else if bool_decide (name = "") then Ret (inl (ErrText "name is required"))
  else
    let action := if bool_decide (action = "") then "ALLOW" else action in
    wsId ←? db (workspaceCtxByNs namespace);
    ApplyDirect wsId "" "" {| pd_Name := name; pd_Namespace := namespace; pd_Action := action;
      pd_Description := description; pd_PolicyTypes := ["Ingress"; "Egress"]; pd_Spec := empty_spec |}.

Definition NatsRemovePolicy (namespace name : string) : mprog (gresult unit) :=
  if bool_decide (namespace = "") || bool_decide (name = "")
  then Ret (inl (ErrText "namespace and name are required"))
  else wsId ←? db (workspaceCtxByNs namespace); DeletePolicy wsId name.

Definition NatsListPolicies (namespace : string) : mprog (gresult (list PolicyVo)) :=
  if bool_decide (namespace = "") then Ret (inl (ErrText "namespace is required"))
  else
    wsId ←? db (workspaceCtxByNs namespace);
    result ←? db (ListPolicy wsId {| pg_Page := 1; pg_PageSize := 200; pg_Keyword := "" |});
    Ret (inr (res_List result)).

(** The labels are merged into the peer's. *)
Definition NatsPeerLabel (namespace name : string) (new : labels) : kprog (gresult labels) :=
  if bool_decide (namespace = "") || bool_decide (name = "")
  then mret (inl (ErrText "namespace and peer_name are required"))
  else if bool_decide (new = ∅) then mret (inl (ErrText "at least one label key=value is required"))
  else
    peer ← call (AGet KPeer {| key_Namespace := namespace; key_Name := name |});
    match peer with
    | inl err => mret (inl (ErrWrap ("peer " +:+ go_quote name +:+ " not found in " +:+ go_quote namespace) err))
    | inr peer =>
        r ← call (APatch KPeer peer (peer_with_meta peer (meta_with_labels (peer_meta peer)
              (new ∪ Labels (peer_meta peer)))));
        match r with
        | inl err => mret (inl (ErrWrap "patch peer labels" err))
        | inr stored => mret (inr (Labels (peer_meta stored)))
        end
    end.

Record PeerRow := {
  prow_Name : string; prow_AppID : string; prow_IP : string; prow_Network : string; prow_Phase : string;
  prow_Labels : labels }.

Definition peer_row (p : LatticePeer) : PeerRow := {|
  prow_Name := Name (peer_meta p); prow_AppID := AppId (peer_Spec p);
  prow_IP := default "" (AllocatedAddress (peer_Status p)); prow_Network := default "" (Network (peer_Spec p));
  prow_Phase := Phase (peer_Status p); prow_Labels := Labels (peer_meta p) |}.

Definition NatsPeerList (namespace : string) : kprog (gresult (list PeerRow)) :=
  if bool_decide (namespace = "") then mret (inl (ErrText "namespace is required"))
  else
    peers ← call (AList KPeer (InNamespace namespace));
    match peers with
    | inl err => mret (inl (ErrWrap "list peers" err))
    | inr peers => mret (inr (peer_row <$> (peers : list LatticePeer)))
    end.

(** A policy that lets the peers of the first network talk to each other. *)
Definition NatsAllowAll (namespace : string) : mprog (gresult PolicyVo) :=
  if bool_decide (namespace = "") then Ret (inl (ErrText "namespace is required"))
  else
    netList ← kapi (call (AList Api.KNetwork (InNamespace namespace)));
    match netList with
    | inl err => Ret (inl (ErrWrap "list LatticeNetworks" err))
    | inr [] => Ret (inl (ErrText ("no LatticeNetwork found in namespace " +:+ go_quote namespace +:+
                     " — is the workspace ready?")))
    | inr (net :: _) =>
        let networkName := Name (net_meta net) in
        let peerSel := {| MatchLabels := {[ "alattice.io/network-" +:+ networkName := "true" ]}; MatchExpressions := [] |} in
        let selection := {| sel_PeerSelector := Some peerSel; sel_IPBlock := None |} in
        wsId ←? db (workspaceCtxByNs namespace);
        ApplyDirect wsId "" "" {| pd_Name := "allow-all"; pd_Namespace := namespace; pd_Action := "ALLOW";
          pd_Description := "full-mesh allow-all (created by CLI)"; pd_PolicyTypes := ["Ingress"; "Egress"];
          pd_Spec := {| pol_Network := networkName; pol_PeerSelector := peerSel;
            pol_Ingress := [{| ing_From := [selection]; ing_Ports := [] |}];
            pol_Egress := [{| eg_To := [selection]; eg_Ports := [] |}]; pol_Action := "ALLOW" |} |}
    end.
End service.

(** ** Tokens are drawn from the alphabet *)

Definition random_env T (e : mgmtE T) : T -> Prop :=
  match e in mgmtE T return T -> Prop with
  | MRandInt max => λ r, forall n, r = inr n -> 0 <= n < max
  | _ => λ _, True
  end.

Fixpoint all_chars (f : ascii -> bool) (s : string) : bool :=
  match s with EmptyString => true | String c s => f c && all_chars f s end.

Lemma get_contains s : forall n, (n < String.length s)%nat ->
  contains_char (default (ascii_of_nat 0) (String.get n s)) s = true.
Proof.
  induction s as [|c s IH]; intros n Hn; simpl in Hn; [lia|]. destruct n as [|n]; cbn.
  - unfold contains_char. by rewrite bool_decide_true.
  - cbn [contains_char]. rewrite IH by lia. apply orb_true_r.
Qed.

Lemma random_chars_shape n :
  wp random_env (λ _ _, True) (random_chars n) (λ r, forall s, r = inr s ->
    String.length s = n /\ all_chars (λ c, contains_char c charset) s = true).
Proof.
  induction n as [|n IH]; [by intros s [= <-]|]. cbn [random_chars].
  apply wp_try, wp_call; [done|]. intros [err|num] Hnum; [done|]. specialize (Hnum _ eq_refl).
  apply wp_try. eapply wp_mono; [exact IH|]. intros [err|rest] Hrest; [done|].
  intros s Hs. injection Hs as <-. destruct (Hrest _ eq_refl) as [Hl Hc]. cbn [String.length all_chars].
  rewrite Hl, Hc. split; [done|]. rewrite andb_true_r. apply get_contains. simpl in Hnum |- *. lia.
Qed.

(** ** What a viewer can do *)

Definition sample_peer_b : LatticePeer := enrolled_peer "wf-ws-b" sample_agent sample_key.

Definition peers_api T (e : apiE T) : T :=
  match e in apiE T return T with
  | AGet k _ => match k return gresult (obj k) with
                | KPeer => inr sample_peer_b
                | _ => inl (ErrStatus NotFound "not found")
                end
  | AList k _ => match k return gresult (list (obj k)) with
                 | KToken => inr [stale_token]
                 | _ => inr []
                 end
  | e => accepting_api _ e
  end.

Definition run_viewer (handler : HttpRequest -> Ctx -> mprog Reply) : option Reply * MWorld :=
  run (mgmt_fun viewer_db peers_api []) (mserve [@WorkspaceAuthMiddleware plain_jwt "" (Some ∅) RoleViewer] handler
    (sample_request "alice" "ws-a" "") empty_ctx) viewer_world.

(** The handler of peer updates takes the namespace from the body: Alice, who may
    only look at her workspace, labels a peer of Bob's as a gateway. *)
Lemma viewer_labels_foreign_peer :
  let dto := {| pe_Name := "laptop"; pe_Namespace := "wf-ws-b"; pe_AppID := ""; pe_Platform := "";
    pe_InterfaceName := ""; pe_Token := ""; pe_Labels := {[ LabelGateway := "true" ]}; pe_DisplayName := "" |} in
  let r := run_viewer (updatePeer (Some dto)) in
  r.1 = Some OK /\
  (λ c, match ac_call c with
        | AUpdate KPeer o => Some (Namespace (peer_meta o), Labels (peer_meta o) !! LabelGateway)
        | _ => None
        end) <$> mw_api r.2 = [Some ("wf-ws-b", Some "true")].
Proof. vm_compute. split; reflexivity. Qed.

(** Page zero of the tokens is a slice with a negative bound. *)
Lemma token_page_zero_panics :
  (run_viewer (listTokens (Some {| pg_Page := 0; pg_PageSize := 10; pg_Keyword := "" |}))).1 = None /\
  (run_viewer (listTokens (Some {| pg_Page := 1; pg_PageSize := 10; pg_Keyword := "" |}))).1 = Some OK.
Proof. vm_compute. split; reflexivity. Qed.
