(* ===== verification/Push.v ===== *)
(** * Push: configurations on their way to the agents
    ([internal/server/resource/client.go])

    The controllers write a peer's configuration into a config map; the management
    server watches the config maps and sends each configuration to its peer, once
    per configuration. *)

From S2P Require Import Prelude Prog Api Message Json Sha256 Infra Mgmt Policies Peers.

(** The hash of the last configuration that was sent to an agent. *)
Abbreviation lastPushedHash := (gmap string string).

(** The messages that were to be sent to peers, and whether they were. *)
Abbreviation sends := (list (PeerID * string * bool)).

Section push.
Context `{WireGuardKeys} `{ConfigJSON}.

(** Of the whole message, its timestamp and version included. *)
Definition computeMessageHash (msg : Message) : string := hex_encode (Sum256 (Message_String msg)).

Definition pushToNode (cache : lastPushedHash) (peer : InfraPeer) (msg : Message)
    : mprog (gresult unit * lastPushedHash) :=
  let msgHash := computeMessageHash msg in
  if bool_decide (cache !! ip_AppID peer = Some msgHash) then Ret (inr tt, cache)
  else
    match ParseKey (ip_PublicKey peer) with
    | None => Ret (inl (ErrText ("invalid public key for peer " +:+ ip_AppID peer)), cache)
    | Some pubKey =>
        let peerID := FromKey pubKey in
        sent ← call (MSend peerID (ToUint64 peerID) (Message_String msg));
        match sent with
        | inl err => Ret (inl (ErrText ("failed to send message to node " +:+ ip_AppID peer +:+ ": " +:+ error_text err)), cache)
        | inr _ => Ret (inr tt, <[ip_AppID peer := msgHash]> cache)
        end
    end.

(** The same for an addition, an update and a deletion of a config map. *)
Definition handleConfigMapEvent (cache : lastPushedHash) (cm : ConfigMap) : mprog lastPushedHash :=
  match decode_message (str_get (cm_Data cm) "config.json") with
  | inl _ | inr None => Ret cache
  | inr (Some msg) =>
      match m_Current msg with
      | None => Ret cache
      | Some peer => r ← pushToNode cache peer msg; Ret r.2
      end
  end.

(** Events come one at a time. *)
Fixpoint handle_events (cache : lastPushedHash) (l : list ConfigMap) : mprog lastPushedHash :=
  match l with
  | [] => Ret cache
  | cm :: l => cache ← handleConfigMapEvent cache cm; handle_events cache l
  end.

(** ** What is sent *)

(** A world that remembers the messages that were to be sent, and whether they were. *)
Definition send_world T (e : mgmtE T) (s : sends) (r : T) (s' : sends) : Prop :=
  match e in mgmtE T return T -> Prop with
  | MSend p _ c => λ r, s' = s ++ [(p, c, match r with inr _ => true | inl _ => false end)]
  | _ => λ _, s' = s
  end r.

(** The configuration of a config map, with its peer and the peer's key. *)
Definition config_of (cm : ConfigMap) : option (InfraPeer * Message * PeerID) :=
  match decode_message (str_get (cm_Data cm) "config.json") with
  | inr (Some msg) => peer ← m_Current msg; key ← ParseKey (ip_PublicKey peer); Some (peer, msg, FromKey key)
  | _ => None
  end.

(** What the cache says of the messages sent so far: a hash was recorded for an
    agent when a configuration with that hash was sent for it. *)
Definition cache_ok (events : list ConfigMap) (cache : lastPushedHash) (sent : sends) : Prop :=
  forall app hsh, cache !! app = Some hsh ->
    exists cm peer msg id, cm ∈ events /\ config_of cm = Some (peer, msg, id) /\ ip_AppID peer = app /\
      computeMessageHash msg = hsh /\ (id, Message_String msg, true) ∈ sent.

(** What one event does. *)
Lemma event_inv cache cm s cache' s' :
  runs send_world (handleConfigMapEvent cache cm) s cache' s' ->
  match config_of cm with
  | None => cache' = cache /\ s' = s
  | Some (peer, msg, id) =>
      if bool_decide (cache !! ip_AppID peer = Some (computeMessageHash msg)) then cache' = cache /\ s' = s
      else (cache' = cache /\ s' = s ++ [(id, Message_String msg, false)]) \/
           (cache' = <[ip_AppID peer := computeMessageHash msg]> cache /\ s' = s ++ [(id, Message_String msg, true)])
  end.
Proof.
  unfold handleConfigMapEvent, config_of. destruct (decode_message _) as [err|[msg|]];
    [by intros [-> ->]%runs_ret_inv| |by intros [-> ->]%runs_ret_inv].
  destruct (m_Current msg) as [peer|]; [|by intros [-> ->]%runs_ret_inv]. cbn [mbind option_bind].
  intros (x & s1 & Hr & [-> ->]%runs_ret_inv)%runs_bind_inv. unfold pushToNode in Hr. cbv zeta in Hr.
  destruct (ParseKey (ip_PublicKey peer)) as [key|] eqn:Ek; cbn [mbind option_bind].
  - case_bool_decide; [by apply runs_ret_inv in Hr as [-> ->]|].
    apply runs_bind_inv in Hr as (sent & s2 & Hs%runs_call_inv & Hr). cbn in Hs.
    destruct sent as [err|[]]; apply runs_ret_inv in Hr as [-> ->]; subst s2; [by left|by right].
  - case_bool_decide; by apply runs_ret_inv in Hr as [-> ->].
Qed.

Lemma cache_ok_step events cache s cm cache' s' :
  cache_ok events cache s -> cm ∈ events -> runs send_world (handleConfigMapEvent cache cm) s cache' s' ->
  cache_ok events cache' s'.
Proof.
  intros Hok Hcm Hr. apply event_inv in Hr. destruct (config_of cm) as [[[peer msg] id]|] eqn:Ec; [|by destruct Hr as [-> ->]].
  assert (Hmore : forall x, cache_ok events cache (s ++ [x])).
  { intros x app hsh Happ. destruct (Hok _ _ Happ) as (c & p & m & i & ? & ? & ? & ? & ?).
    exists c, p, m, i. split_and!; [done..|]. apply elem_of_app. by left. }
  case_bool_decide; [by destruct Hr as [-> ->]|]. destruct Hr as [[-> ->]|[-> ->]]; [by apply Hmore|].
  intros app hsh Happ. destruct (decide (ip_AppID peer = app)) as [<-|Hne].
  - rewrite lookup_insert_eq in Happ. injection Happ as <-. exists cm, peer, msg, id.
    split_and!; [done..|]. apply elem_of_app. right. by left.
  - rewrite lookup_insert_ne in Happ by done. by apply Hmore.
Qed.

(** Events keep the record right. *)
Lemma events_ok all l : forall cache s cache' s',
  l ⊆ all -> cache_ok all cache s -> runs send_world (handle_events cache l) s cache' s' -> cache_ok all cache' s'.
Proof.
  induction l as [|cm l IH]; intros cache s cache' s' Hl Hok Hr.
  - by apply runs_ret_inv in Hr as [-> ->].
  - apply runs_bind_inv in Hr as (cache1 & s1 & Hr1 & Hr). eapply IH; [set_solver| |exact Hr].
    eapply cache_ok_step; [done| |exact Hr1]. set_solver.
Qed.

(** The same configuration again, any number of times. *)
Lemma settled_events cm peer msg id n : forall cache s cache' s',
  config_of cm = Some (peer, msg, id) -> cache !! ip_AppID peer = Some (computeMessageHash msg) ->
  runs send_world (handle_events cache (replicate n cm)) s cache' s' -> cache' = cache /\ s' = s.
Proof.
  induction n as [|n IH]; intros cache s cache' s' Hc Hk Hr.
  - by apply runs_ret_inv in Hr as [-> ->].
  - apply runs_bind_inv in Hr as (cache1 & s1 & Hr1%event_inv & Hr). rewrite Hc, bool_decide_true in Hr1 by done.
    destruct Hr1 as [-> ->]. by eapply IH.
Qed.

(** C28. Pushing configurations, whatever events come before and whichever sends fail. A
    recorded hash is that of a configuration that was sent to the agent. When a configuration
    with a valid key comes, either its hash is recorded already and nothing is sent; or its text
    is sent to its peer and its hash recorded; or that was tried and failed, and nothing is
    recorded, so that the next event tries again. Once it is recorded, the same configuration
    again, any number of times, sends nothing. *)
Theorem push_once events cache s cm peer msg id cache' s' :
  runs send_world (handle_events ∅ events) [] cache s ->
  config_of cm = Some (peer, msg, id) ->
  runs send_world (handleConfigMapEvent cache cm) s cache' s' ->
  cache_ok events cache s /\
  let recorded c := c !! ip_AppID peer = Some (computeMessageHash msg) in
  ((recorded cache /\ cache' = cache /\ s' = s) \/
   (~ recorded cache /\ recorded cache' /\ s' = s ++ [(id, Message_String msg, true)]) \/
   (~ recorded cache /\ cache' = cache /\ s' = s ++ [(id, Message_String msg, false)])) /\
  (recorded cache' -> forall n cache2 s2,
     runs send_world (handle_events cache' (replicate n cm)) s' cache2 s2 -> cache2 = cache' /\ s2 = s').
Proof.
  intros Hev Hc Hr. split; [eapply (events_ok events events); [done| |exact Hev]; intros app hsh; by rewrite lookup_empty|].
  cbv zeta. split; [|intros Hrec n cache2 s2 Hn; by eapply settled_events].
  apply event_inv in Hr. rewrite Hc in Hr. case_bool_decide as Hk; [by left|]. right.
  destruct Hr as [[-> ->]|[-> ->]]; [by right|]. left. split_and!; [done|by rewrite lookup_insert_eq|done].
Qed.
End push.

(** ** One configuration *)

Definition pushed_peer : InfraPeer := registered_peer (enrolled_peer "ws" sample_agent sample_key) "ws" 7.
Definition pushed_message : Message := {|
  m_EventType := EventTypeJoinNetwork; m_ConfigVersion := "1"; m_Timestamp := 5; m_Changes := None;
  m_Current := Some pushed_peer; m_Network := None; m_Policies := []; m_ComputedPeers := [];
  m_ComputedRules := None; m_Labels := ∅ |}.
Definition pushed_config : ConfigMap := {| cm_meta := new_meta "ws" "laptop-config"; cm_Data := {[ "config.json" := "c" ]} |}.

Definition one_config : ConfigJSON := {| decode_message := λ s,
  if bool_decide (s = "c") then inr (Some pushed_message) else inl (ErrText "unexpected end of JSON input") |}.
Definition seven_keys : WireGuardKeys.
Proof.
  refine {| ParseKey := λ s, if bool_decide (s = "") then None else Some (replicate 32 7) |}.
  - intros s k. case_bool_decide; [done|]. by intros [= <-].
  - intros s k. case_bool_decide; [done|]. intros Hk. injection Hk as <-. change (Forall is_byte (replicate 32 7)). apply Forall_replicate. unfold is_byte. lia.
Defined.

Definition sending T (e : mgmtE T) (s : sends) : T * sends :=
  match e in mgmtE T return T * sends with
  | MSrv _ e => ((viewer_db _ e (mw_db viewer_world)).1, s)
  | MApi _ e => (accepting_api _ e, s)
  | MTokensBy _ _ => (inr [], s)
  | MNowText => ("", s)
  | MStatus _ => (None, s)
  | MSend p _ c => (inr tt, s ++ [(p, c, true)])
  | MDial _ => (inr tt, s)
  | MRandInt _ => (inr 0, s)
  end.

Lemma sending_world {A} (p : mprog A) s r :
  (run sending p s).1 = Some r -> runs send_world p s r (run sending p s).2.
Proof.
  intros Hr%run_runs. remember (run sending p s).2 as s' eqn:E. clear E.
  induction Hr as [b s|T e k s x s1 b s2 He Hr IH]; [constructor|]. econstructor; [|exact IH].
  unfold fun_world in He. by destruct e; cbn in He; simplify_eq.
Qed.

Lemma push_once_witness :
  exists cache s, runs send_world (@handleConfigMapEvent seven_keys one_config ∅ pushed_config) [] cache s /\
    s = [(replicate 8 7, Message_String pushed_message, true)] /\
    forall n cache2 s2, runs send_world (@handle_events seven_keys one_config cache (replicate n pushed_config)) s cache2 s2 ->
      s2 = s.
Proof.
  pose (cache := <["laptop" := computeMessageHash pushed_message]> (∅ : lastPushedHash)).
  pose (s := [(replicate 8 7, Message_String pushed_message, true)]).
  assert (Hr : runs send_world (@handleConfigMapEvent seven_keys one_config ∅ pushed_config) [] cache s).
  { assert (E : run sending (@handleConfigMapEvent seven_keys one_config ∅ pushed_config) [] = (Some cache, s))
      by (vm_compute; reflexivity).
    generalize (sending_world (@handleConfigMapEvent seven_keys one_config ∅ pushed_config) [] cache).
    rewrite E. intros Hw. exact (Hw eq_refl). }
  exists cache, s. split; [exact Hr|]. split; [reflexivity|]. intros n cache2 s2 Hn.
  destruct (@push_once seven_keys one_config [] ∅ [] pushed_config pushed_peer pushed_message (replicate 8 7) cache s)
    as (_ & _ & Hagain).
  - constructor.
  - reflexivity.
  - exact Hr.
  - destruct (Hagain (lookup_insert_eq _ _ _) n cache2 s2 Hn) as [_ E]. exact E.
Defined.
