(* ===== verification/Relays.v ===== *)
(** * Relays: the relay and peering services
    ([internal/server/service/relay.go], [service/peering.go],
    [internal/server/server/relay.go], [server/peering.go])

    Relays and peerings are resources of the whole cluster that the users of a
    workspace list and change.  Creation times are left out. *)

From S2P Require Import Prelude Prog Net Api ControllerUtils Store Access Workspaces Mgmt Policies.

(** ** Relays *)

Record RelayDto := {
  rd_Name : string; rd_DisplayName : string; rd_Description : string; rd_TcpUrl : string; rd_QuicUrl : string;
  rd_Enabled : bool; rd_Workspaces : list string;
}.

(** [rv_UpdatedAt]: the text of the annotation, which the code parses. *)
Record RelayVo := {
  rv_ID : string; rv_Name : string; rv_Description : string; rv_TcpUrl : string; rv_QuicUrl : string;
  rv_Enabled : bool; rv_Status : string; rv_LatencyMs : option Z; rv_ConnectedPeers : Z;
  rv_Workspaces : list string; rv_CreatedBy : string; rv_UpdatedBy : string; rv_UpdatedAt : string;
}.

Definition RelayHealthHealthy : string := "Healthy".
Definition RelayHealthDegraded : string := "Degraded".
Definition RelayHealthOffline : string := "Offline".

Definition relay_status (health : string) : string :=
  if bool_decide (health = RelayHealthHealthy) then "healthy"
  else if bool_decide (health = RelayHealthDegraded) then "degraded"
  else if bool_decide (health = RelayHealthOffline) then "offline"
  else "unknown".

Definition relayToVo (r : LatticeRelayServer) : RelayVo :=
  let ann := Annotations (relay_meta r) in {|
  rv_ID := Name (relay_meta r); rv_Name := relay_DisplayName (relay_Spec r);
  rv_Description := relay_Description (relay_Spec r); rv_TcpUrl := relay_TcpUrl (relay_Spec r);
  rv_QuicUrl := relay_QuicUrl (relay_Spec r); rv_Enabled := relay_Enabled (relay_Spec r);
  rv_Status := relay_status (relay_Health (relay_Status r)); rv_LatencyMs := relay_LatencyMs (relay_Status r);
  rv_ConnectedPeers := relay_ConnectedPeers (relay_Status r); rv_Workspaces := relay_Namespaces (relay_Spec r);
  rv_CreatedBy := str_get ann "alattice.io/created-by"; rv_UpdatedBy := str_get ann "alattice.io/updated-by";
  rv_UpdatedAt := str_get ann "alattice.io/updated-at" |}.

Section relays.
Context `{SlugText}.

Definition relay_matches (kw : string) (r : RelayVo) : bool :=
  str_contains kw (ToLower (rv_Name r)) || str_contains kw (ToLower (rv_TcpUrl r)) ||
  str_contains kw (ToLower (rv_QuicUrl r)).

Definition relay_List (pageParam : PageRequest) : kprog (gresult (PageResult RelayVo)) :=
  r ← call (AList KRelay list_all);
  match r with
  | inl err => mret (inl (ErrWrap "relay list" err))
  | inr items =>
      let all := relayToVo <$> (items : list LatticeRelayServer) in
      let kw := TrimSpace (pg_Keyword pageParam) in
      let all := if bool_decide (kw = "") then all else filter (λ r, relay_matches (ToLower kw) r = true) all in
      let page := if pg_Page pageParam <? 1 then 1 else pg_Page pageParam in
      let size := if pg_PageSize pageParam <? 1 then 20 else pg_PageSize pageParam in
      match cut_page all page size with
      | None => Panic
      | Some items => mret (inr {| res_Total := Z.of_nat (length all); res_Page := page; res_PageSize := size;
                                   res_List := items |})
      end
  end.
End relays.

(** An identifier that is not found is taken for a namespace. *)
Fixpoint resolve_each (workspaceIDs : list string) : sprog (list string) :=
  match workspaceIDs with
  | [] => Ret []
  | id :: rest =>
      ws ← workspaces_GetByID id;
      l ← resolve_each rest;
      Ret (match ws with
           | inl _ => id :: l
           | inr ws => if bool_decide (ws_Namespace ws = "") then l else ws_Namespace ws :: l
           end)
  end.

Definition resolveNamespaces (workspaceIDs : list string) : sprog (gresult (list string)) :=
  match workspaceIDs with
  | [] => Ret (inr [])
  | _ => l ← resolve_each workspaceIDs; Ret (inr l)
  end.

Definition relay_spec (req : RelayDto) (ns : list string) : LatticeRelayServerSpec := {|
  relay_DisplayName := rd_DisplayName req; relay_Description := rd_Description req; relay_TcpUrl := rd_TcpUrl req;
  relay_QuicUrl := rd_QuicUrl req; relay_Enabled := rd_Enabled req; relay_Namespaces := ns |}.

Definition relay_Create (username : string) (req : RelayDto) : mprog (gresult RelayVo) :=
  if bool_decide (rd_Name req = "") then Ret (inl (ErrText "relay name is required"))
  else if bool_decide (rd_TcpUrl req = "") then Ret (inl (ErrText "tcpUrl is required"))
  else
    ns ←? db (resolveNamespaces (rd_Workspaces req));
    now ← call MNowText;
    let obj := {|
      relay_meta := meta_with_annotations (meta_with_labels (new_meta "" (rd_Name req))
          {[ "app.kubernetes.io/managed-by" := "lattice-controller" ]})
        (<["alattice.io/created-by" := username]> (<["alattice.io/updated-by" := username]>
          {[ "alattice.io/updated-at" := now ]}));
      relay_Spec := relay_spec req ns;
      relay_Status := {| relay_Phase := ""; relay_Health := ""; relay_LatencyMs := None; relay_ConnectedPeers := 0;
        relay_LastProbeTime := None; relay_Conditions := [] |} |} in
    r ← kapi (call (ACreate KRelay obj));
    match r with
    | inl err => Ret (inl (ErrWrap "relay create" err))
    | inr obj => Ret (inr (relayToVo obj))
    end.

(** The address may become empty here. *)
Definition relay_Update (username id : string) (req : RelayDto) : mprog (gresult RelayVo) :=
  existing ← kapi (call (AGet KRelay {| key_Namespace := ""; key_Name := id |}));
  match existing with
  | inl err => Ret (inl (ErrWrap "relay get" err))
  | inr existing =>
      ns ←? db (resolveNamespaces (rd_Workspaces req));
      now ← call MNowText;
      let patch := {|
        relay_meta := meta_with_annotations (relay_meta existing)
          (<["alattice.io/updated-at" := now]> (<["alattice.io/updated-by" := username]>
            (Annotations (relay_meta existing))));
        relay_Spec := relay_spec req ns;
        relay_Status := relay_Status existing |} in
      r ← kapi (call (APatch KRelay existing patch));
      match r with
      | inl err => Ret (inl (ErrWrap "relay update" err))
      | inr patch => Ret (inr (relayToVo patch))
      end
  end.

Definition relay_Delete (id : string) : kprog (gresult unit) :=
  r ← call (ADelete KRelay {| key_Namespace := ""; key_Name := id |});
  match r with
  | inl err => mret (if IsNotFound err then inr tt else inl (ErrWrap "relay delete" err))
  | inr _ => mret (inr tt)
  end.

Record RelayTestVo := { rt_OK : bool; rt_Error : string }.

(** The latency that is measured is left out. *)
Definition relay_Test (id : string) : mprog (gresult RelayTestVo) :=
  relay ← kapi (call (AGet KRelay {| key_Namespace := ""; key_Name := id |}));
  match relay with
  | inl err => Ret (inl (ErrWrap "relay get" err))
  | inr relay =>
      let addr := relay_TcpUrl (relay_Spec relay) in
      if bool_decide (addr = "") then Ret (inr {| rt_OK := false; rt_Error := "tcpUrl is empty" |})
      else
        r ← call (MDial addr);
        match r with
        | inl err => Ret (inr {| rt_OK := false; rt_Error := error_text err |})
        | inr _ => Ret (inr {| rt_OK := true; rt_Error := "" |})
        end
  end.

(** *** Handlers *)

Definition listRelays `{SlugText} (req : option PageRequest) (rq : HttpRequest) (c : Ctx) : mprog Reply :=
  match req with
  | None => Ret BadRequest
  | Some p => r ← kapi (relay_List p); Ret (reply_to r)
  end.
Definition createRelay (req : option RelayDto) (rq : HttpRequest) (c : Ctx) : mprog Reply :=
  match req with
  | None => Ret BadRequest
  | Some req => r ← relay_Create (cx_username c) req; Ret (reply_to r)
  end.
Definition updateRelay (req : option RelayDto) (rq : HttpRequest) (c : Ctx) : mprog Reply :=
  let id := rq_Param rq "id" in
  if bool_decide (id = "") then Ret BadRequest
  else
    match req with
    | None => Ret BadRequest
    | Some req => r ← relay_Update (cx_username c) id req; Ret (reply_to r)
    end.
Definition deleteRelay (rq : HttpRequest) (c : Ctx) : mprog Reply :=
  let id := rq_Param rq "id" in
  if bool_decide (id = "") then Ret BadRequest else r ← kapi (relay_Delete id); Ret (reply_to r).
Definition testRelay (rq : HttpRequest) (c : Ctx) : mprog Reply :=
  let id := rq_Param rq "id" in
  if bool_decide (id = "") then Ret BadRequest else r ← relay_Test id; Ret (reply_to r).

(** ** Peerings *)

Record WorkspaceEndpointVo := { we_Name : string; we_Namespace : string; we_CIDR : string; we_NodeCount : Z }.
Record PeeringVo := {
  pg_Name : string; pg_Local : WorkspaceEndpointVo; pg_Remote : WorkspaceEndpointVo; pg_Status : string;
  pg_PeeringMode : string;
}.
Record PeeringDto := { pn_Name : string; pn_NamespaceB : string; pn_NetworkB : string; pn_PeeringMode : string }.

Definition PeeringModeGateway : string := "gateway".

Definition phaseToStatus (phase : string) : string :=
  if bool_decide (phase = NetworkPhaseReady) then "active"
  else if bool_decide (phase = NetworkPhaseFailed) then "failed"
  else "pending".

Definition buildEndpoint (ns networkName : string) : kprog WorkspaceEndpointVo :=
  network ← call (AGet Api.KNetwork {| key_Namespace := ns; key_Name := networkName |});
  peerList ← call (AList KPeer (InNamespace ns));
  mret {| we_Name := ns; we_Namespace := ns;
    we_CIDR := match network with inr n => net_ActiveCIDR (net_Status n) | inl _ => "" end;
    we_NodeCount := match peerList with
      | inr l => Z.of_nat (length (filter (λ p, str_get (Labels (peer_meta p)) "alattice.io/shadow" <> "true") l))
      | inl _ => 0
      end |}.

Definition endpoint_named (e : WorkspaceEndpointVo) (ws : gresult Workspace) : WorkspaceEndpointVo :=
  match ws with
  | inl _ => e
  | inr ws => {| we_Name := ws_DisplayName ws; we_Namespace := we_Namespace e; we_CIDR := we_CIDR e;
                 we_NodeCount := we_NodeCount e |}
  end.

(** The two sides of a peering as the namespace [ns] sees them. *)
Definition sides (ns : string) (s : LatticeNetworkPeeringSpec) : (string * string) * (string * string) :=
  if bool_decide (np_NamespaceB s = ns)
  then ((np_NamespaceB s, np_NetworkB s), (np_NamespaceA s, np_NetworkA s))
  else ((np_NamespaceA s, np_NetworkA s), (np_NamespaceB s, np_NetworkB s)).

Definition involves (ns : string) (p : LatticeNetworkPeering) : bool :=
  bool_decide (np_NamespaceA (np_Spec p) = ns) || bool_decide (np_NamespaceB (np_Spec p) = ns).

Definition peering_vo (ns : string) (p : LatticeNetworkPeering) : mprog PeeringVo :=
  let '((localNs, localNet), (remoteNs, remoteNet)) := sides ns (np_Spec p) in
  localEndpoint ← kapi (buildEndpoint localNs localNet);
  remoteEndpoint ← kapi (buildEndpoint remoteNs remoteNet);
  localWs ← db (workspaces_GetByNamespace localNs);
  remoteWs ← db (workspaces_GetByNamespace remoteNs);
  Ret {| pg_Name := Name (np_meta p); pg_Local := endpoint_named localEndpoint localWs;
    pg_Remote := endpoint_named remoteEndpoint remoteWs; pg_Status := phaseToStatus (np_Phase (np_Status p));
    pg_PeeringMode := np_PeeringMode (np_Spec p) |}.

Fixpoint peering_vos (ns : string) (l : list LatticeNetworkPeering) : mprog (list PeeringVo) :=
  match l with
  | [] => Ret []
  | p :: l =>
      if involves ns p then v ← peering_vo ns p; rest ← peering_vos ns l; Ret (v :: rest)
      else peering_vos ns l
  end.

Definition peering_List (wsID : string) : mprog (gresult (list PeeringVo)) :=
  ws ←? db (workspaces_GetByID wsID);
  l ←? kapi (call (AList KPeering list_all));
  vos ← peering_vos (ws_Namespace ws) l;
  Ret (inr vos).

Definition defaultNetwork (ns : string) : kprog (gresult string) :=
  l ←? call (AList Api.KNetwork (InNamespace ns));
  mret (inr (if existsb (λ n, bool_decide (Name (net_meta n) = "lattice-default-net")) l then "lattice-default-net"
             else match l with n :: _ => Name (net_meta n) | [] => "lattice-default-net" end)).

(** [strings.ReplaceAll(s, "_", "-")]. *)
Fixpoint hyphens (s : string) : string :=
  match s with
  | EmptyString => ""
  | String c s => String (if Ascii.eqb c (ascii_of_nat 95) then ascii_of_nat 45 else c) (hyphens s)
  end.

Section peerings.
Context `{SlugText}.

Definition peering_name (nsA nsB : string) : string := ToLower (hyphens (nsA +:+ "-to-" +:+ nsB)).

(** The other namespace is the caller's choice. *)
Definition peering_Create (wsID : string) (d : PeeringDto) : mprog (gresult PeeringVo) :=
  ws ←? db (workspaces_GetByID wsID);
  let nsA := ws_Namespace ws in
  let nsB := pn_NamespaceB d in
  netA ← kapi (defaultNetwork nsA);
  match netA with
  | inl err => Ret (inl (ErrWrap "local network" err))
  | inr netA =>
      let netB := if bool_decide (pn_NetworkB d = "") then "lattice-default-net" else pn_NetworkB d in
      let name := if bool_decide (pn_Name d = "") then peering_name nsA nsB else pn_Name d in
      let mode := if bool_decide (pn_PeeringMode d = "") then PeeringModeGateway else pn_PeeringMode d in
      r ← kapi (call (ACreate KPeering {| np_meta := new_meta "" name;
        np_Spec := {| np_NamespaceA := nsA; np_NetworkA := netA; np_NamespaceB := nsB; np_NetworkB := netB;
                      np_PeeringMode := mode |};
        np_Status := {| np_Phase := ""; np_CIDRA := ""; np_CIDRB := ""; np_Conditions := [] |} |}));
      match r with
      | inl err => Ret (inl (if IsAlreadyExists err then ErrText ("peering " +:+ go_quote name +:+ " already exists")
                             else err))
      | inr peering =>
          localEndpoint ← kapi (buildEndpoint nsA netA);
          remoteEndpoint ← kapi (buildEndpoint nsB netB);
          Ret (inr {| pg_Name := Name (np_meta peering);
            pg_Local := if bool_decide (ws_DisplayName ws = "") then localEndpoint else endpoint_named localEndpoint (inr ws);
            pg_Remote := remoteEndpoint; pg_Status := "pending"; pg_PeeringMode := mode |})
      end
  end.

(** By name, whichever namespaces it connects. *)
Definition peering_Delete (name : string) : kprog (gresult unit) :=
  peering ←? call (AGet KPeering {| key_Namespace := ""; key_Name := name |});
  call (ADelete KPeering (meta_key (np_meta peering))).

Definition listPeerings (rq : HttpRequest) (c : Ctx) : mprog Reply :=
  r ← peering_List (cx_workspace_id c); Ret (reply_to r).
Definition createPeering (d : option PeeringDto) (rq : HttpRequest) (c : Ctx) : mprog Reply :=
  match d with
  | None => Ret BadRequest
  | Some d =>
      if bool_decide (pn_NamespaceB d = "") then Ret BadRequest
      else r ← peering_Create (cx_workspace_id c) d; Ret (reply_to r)
  end.
Definition deletePeering (rq : HttpRequest) (c : Ctx) : mprog Reply :=
  r ← kapi (peering_Delete (rq_Param rq "name")); Ret (reply_to r).
End peerings.

(** ** Listings *)

(** An API server that lists these relays. *)
Definition listing (items : list LatticeRelayServer) T (e : apiE T) (s : unit) : T * unit :=
  (match e in apiE T return T with
   | AList k _ => match k return gresult (list (obj k)) with
                  | KRelay => inr items
                  | _ => inr []
                  end
   | e => accepting_api _ e
   end, s).

Definition relay_page `{SlugText} (items : list LatticeRelayServer) (kw : string) (page size : Z)
    : option (gresult (PageResult RelayVo)) :=
  (run (listing items) (relay_List {| pg_Page := page; pg_PageSize := size; pg_Keyword := kw |}) tt).1.

(** The relays that a keyword finds. *)
Definition found_relays `{SlugText} (items : list LatticeRelayServer) (kw : string) : list RelayVo :=
  filter (λ r, bool_decide (TrimSpace kw = "") || relay_matches (ToLower (TrimSpace kw)) r = true) (relayToVo <$> items).

Lemma relay_page_eq `{SlugText} items kw page size :
  1 <= page -> 1 <= size ->
  relay_page items kw page size =
    (λ l, inr {| res_Total := Z.of_nat (length (found_relays items kw)); res_Page := page; res_PageSize := size;
                 res_List := l |}) <$> cut_page (found_relays items kw) page size.
Proof.
  intros Hp Hs. unfold relay_page, relay_List, found_relays. cbn [run call mbind prog_mbind prog_bind listing fst pg_Keyword pg_Page pg_PageSize].
  destruct (Z.ltb_spec page 1); [lia|]. destruct (Z.ltb_spec size 1); [lia|]. cbn zeta.
  assert (E : (if bool_decide (TrimSpace kw = "") then relayToVo <$> items
    else filter (λ r, relay_matches (ToLower (TrimSpace kw)) r = true) (relayToVo <$> items)) =
    filter (λ r, bool_decide (TrimSpace kw = "") || relay_matches (ToLower (TrimSpace kw)) r = true) (relayToVo <$> items)).
  { case_bool_decide; cbn [orb]; [|done]. symmetry. induction (relayToVo <$> items) as [|x l IH]; [done|].
    rewrite filter_cons_True by done. by rewrite IH. }
  rewrite E. by destruct (cut_page _ page size).
Qed.

(** The pages that a client asks for are the pages of the list. *)
Lemma pages_seq {A} (l : list A) size n k :
  concat ((λ page, default [] (cut_page l page size)) <$> (Z.of_nat <$> seq k n)) = pages l (Z.of_nat k) size n.
Proof.
  revert k. induction n as [|n IH]; intros k; [done|].
  cbn [seq fmap list_fmap concat pages]. f_equal. rewrite IH. f_equal. lia.
Qed.

(** The pages of the relays.  Unless the end of the last page overflows an
    int, asking for the pages one after the other does not panic, and gives every
    relay that the keyword finds exactly once and in order, each time with their
    number. *)
Theorem relay_pages_complete `{SlugText} items kw size n :
  1 <= size -> (1 + Z.of_nat n) * size < 2 ^ 63 ->
  (length (found_relays items kw) <= n * Z.to_nat size)%nat ->
  exists f : Z -> list RelayVo,
    (forall page, 1 <= page <= Z.of_nat n -> relay_page items kw page size =
       Some (inr {| res_Total := Z.of_nat (length (found_relays items kw)); res_Page := page; res_PageSize := size;
                    res_List := f page |})) /\
    concat (f <$> (Z.of_nat <$> seq 1 n)) = found_relays items kw.
Proof.
  intros Hs Ho Hl. exists (λ page, default [] (cut_page (found_relays items kw) page size)). split.
  - intros page Hp. rewrite relay_page_eq by lia. rewrite cut_page_ok by nia. done.
  - transitivity (pages (found_relays items kw) 1 size n); [|apply pages_all; [lia|done|done]].
    apply (pages_seq _ size n 1).
Qed.

Definition sample_relay (name : string) : LatticeRelayServer := {|
  relay_meta := new_meta "" name;
  relay_Spec := {| relay_DisplayName := name; relay_Description := ""; relay_TcpUrl := ""; relay_QuicUrl := "";
                   relay_Enabled := true; relay_Namespaces := [] |};
  relay_Status := {| relay_Phase := RelayPhaseActive; relay_Health := RelayHealthUnknown; relay_LatencyMs := None;
                     relay_ConnectedPeers := 0; relay_LastProbeTime := None; relay_Conditions := [] |} |}.

Lemma relay_pages_complete_witness :
  let relays := sample_relay <$> ["a"; "b"; "c"] in
  let found := @found_relays plain_slug relays "" in
  length found = 3%nat /\ exists f : Z -> list RelayVo,
  (forall page, 1 <= page <= Z.of_nat 2 -> @relay_page plain_slug relays "" page 2 =
     Some (inr {| res_Total := Z.of_nat (length found); res_Page := page; res_PageSize := 2; res_List := f page |})) /\
  concat (f <$> (Z.of_nat <$> seq 1 2)) = found.
Proof. split; [reflexivity|]. apply (@relay_pages_complete plain_slug); vm_compute; (reflexivity || lia || discriminate). Defined.

(** A page whose end overflows is a slice with a negative bound, for any relays. *)
Lemma relay_page_overflow_panics `{SlugText} items kw : relay_page items kw 2 (2 ^ 63 - 1) = None.
Proof.
  rewrite relay_page_eq by lia. set (l := found_relays items kw). unfold cut_page, page_bounds. cbv zeta.
  replace (i64 (i64 (2 - 1) * (2 ^ 63 - 1))) with (2 ^ 63 - 1) by (vm_compute; reflexivity).
  replace (i64 (2 ^ 63 - 1 + (2 ^ 63 - 1))) with (-2) by (vm_compute; reflexivity).
  destruct (Z.gtb_spec (-2) (Z.of_nat (length l))); [lia|]. unfold go_slice.
  assert (Hb : forall a, (0 <=? a) && (a <=? -2) = false).
  { intros a. destruct (Z.leb_spec 0 a), (Z.leb_spec a (-2)); cbn; lia || done. }
  by rewrite Hb.
Qed.

(** A server on which the workspace is found and these peerings are listed. *)
Definition peerings_env (ws : Workspace) (items : list LatticeNetworkPeering) T (e : mgmtE T) : T -> Prop :=
  match e in mgmtE T return T -> Prop with
  | MSrv _ e => match e in srvE T return T -> Prop with
                | DFirst t cs => match t return gresult (row t) -> Prop with
                                 | TWorkspace => λ r, cs = [CEq "id" (row_id TWorkspace ws)] -> r = inr ws
                                 | _ => λ _, True
                                 end
                | _ => λ _, True
                end
  | MApi _ e => match e in apiE T return T -> Prop with
                | AList k _ => match k return gresult (list (obj k)) -> Prop with
                               | KPeering => λ r, r = inr items
                               | _ => λ _, True
                               end
                | _ => λ _, True
                end
  | _ => λ _, True
  end.

Definition reads_only T (e : mgmtE T) : Prop :=
  match e with
  | MSrv _ (DFirst _ _) => True
  | MApi _ e => is_write e = false
  | _ => False
  end.

Lemma peering_vo_reads ws items ns p :
  wp (peerings_env ws items) reads_only (peering_vo ns p)
    (λ v, pg_Name v = Name (np_meta p) /\ we_Namespace (pg_Local v) = (sides ns (np_Spec p)).1.1).
Proof.
  unfold peering_vo. destruct (sides ns (np_Spec p)) as [[ln lnet] [rn rnet]]. cbn [fst].
  apply wp_bind. split; [done|]. intros net1 _. split; [done|]. intros peers1 _.
  apply wp_bind. split; [done|]. intros net2 _. split; [done|]. intros peers2 _.
  apply wp_bind. split; [done|]. intros ws1 _. apply wp_bind. split; [done|]. intros ws2 _.
  split; [done|]. by destruct ws1.
Qed.

Lemma involves_local ns p : involves ns p = true -> (sides ns (np_Spec p)).1.1 = ns.
Proof.
  unfold involves, sides. repeat case_bool_decide; simplify_eq/=; done.
Qed.

Lemma peering_vos_reads ws items ns l :
  wp (peerings_env ws items) reads_only (peering_vos ns l)
    (λ vos, pg_Name <$> vos = (λ p, Name (np_meta p)) <$> filter (λ p, involves ns p = true) l /\
            Forall (λ v, we_Namespace (pg_Local v) = ns) vos).
Proof.
  induction l as [|p l IH]; [by split|]. cbn [peering_vos]. destruct (involves ns p) eqn:Hi.
  - rewrite filter_cons_True by done. apply wp_bind. eapply wp_mono; [apply peering_vo_reads|]. intros v [Hn Hl].
    apply wp_bind. eapply wp_mono; [exact IH|]. intros rest [Hr Hf]. split.
    + cbn. by rewrite Hn, Hr.
    + constructor; [|done]. by rewrite Hl, involves_local.
  - rewrite filter_cons_False by (by rewrite Hi). exact IH.
Qed.

(** The peerings of a workspace.  Listing changes nothing and gives exactly the
    peerings that involve the workspace's namespace, in order, each seen from that
    namespace: it is the local side. *)
Theorem peering_List_spec ws items :
  wp (peerings_env ws items) reads_only (peering_List (row_id TWorkspace ws))
    (λ r, exists vos, r = inr vos /\
       pg_Name <$> vos = (λ p, Name (np_meta p)) <$> filter (λ p, involves (ws_Namespace ws) p = true) items /\
       Forall (λ v, we_Namespace (pg_Local v) = ws_Namespace ws) vos).
Proof.
  apply wp_try. split; [done|]. intros r Hr. rewrite (Hr eq_refl). cbn [wp translate].
  apply wp_try. split; [done|]. intros r' ->. cbn [wp translate].
  apply wp_bind. eapply wp_mono; [apply peering_vos_reads|]. intros vos [Hn Hl]. exists vos. by split_and!.
Qed.

(** ** What a viewer can do *)

Definition foreign_peering : LatticeNetworkPeering := {|
  np_meta := new_meta "" "b-to-c";
  np_Spec := {| np_NamespaceA := "wf-ws-b"; np_NetworkA := "net"; np_NamespaceB := "wf-ws-c"; np_NetworkB := "net";
                np_PeeringMode := PeeringModeGateway |};
  np_Status := {| np_Phase := NetworkPhaseReady; np_CIDRA := ""; np_CIDRB := ""; np_Conditions := [] |} |}.

Definition foreign_api T (e : apiE T) : T :=
  match e in apiE T return T with
  | AGet k _ => match k return gresult (obj k) with
                | KPeering => inr foreign_peering
                | _ => inl (ErrStatus NotFound "not found")
                end
  | e => accepting_api _ e
  end.

(** Alice, who may only look at her workspace, deletes a peering between two others
    and connects her network to Bob's. *)
Lemma viewer_changes_peerings :
  let serve handler := run (mgmt_fun viewer_db foreign_api [])
    (mserve [@WorkspaceAuthMiddleware plain_jwt "" (Some ∅) RoleViewer] handler
       {| rq_Authorization := "Bearer alice:jti"; rq_WorkspaceId := "ws-a"; rq_Param := λ _, "b-to-c" |} empty_ctx)
    viewer_world in
  let deleted := serve deletePeering in
  let created := serve (@createPeering plain_slug (Some {| pn_Name := ""; pn_NamespaceB := "wf-ws-b";
    pn_NetworkB := ""; pn_PeeringMode := "" |})) in
  deleted.1 = Some OK /\ length (mw_api deleted.2) = 1%nat /\ created.1 = Some OK /\
  (λ c, match ac_call c with
        | ACreate KPeering o => Some (Name (np_meta o), np_NamespaceA (np_Spec o), np_NamespaceB (np_Spec o))
        | _ => None
        end) <$> mw_api created.2 = [Some ("wf-ws-a-to-wf-ws-b", "wf-ws-a", "wf-ws-b")].
Proof. vm_compute. repeat split. Qed.
