(* ===== verification/Alerts.v ===== *)
(** * Alerts: the alert engine, the metrics it queries and the alert service
    ([internal/monitor/alert/engine.go], [internal/monitor/gateway],
    [internal/monitor/adapter], [internal/monitor/template],
    [internal/server/service/alertService.go], [internal/server/server/alert.go])

    Every thirty seconds the engine queries the metric of each enabled rule,
    compares it with the threshold, and keeps the rules that fire in memory; a
    change is recorded in the history and sent to the channels of the rule.
    Numbers are binary64 ([SpecFloat]), NaN included. *)

From Stdlib Require Import SpecFloat.
From S2P Require Import Prelude Prog Net Api Store Access Mgmt Policies.

(** ** Calls *)

(** [model.Sample] and the kinds of [model.Value] the code distinguishes. *)
Record Sample := { sa_Metric : labels; sa_Value : spec_float; sa_Timestamp : Z }.
Inductive VMValue := VVector (l : list Sample) | VOther.

Record PeerHeartbeat := { ph_ID : string; ph_Name : string; ph_NetworkID : string; ph_LastSeen : Z }.

Record AlertItem := { ai_Value : spec_float; ai_Message : string }.
Record NotificationRequest := {
  nr_RuleName : string; nr_Severity : string; nr_Status : string; nr_Alerts : list AlertItem; nr_StartedAt : Z;
}.

(** The database, the metrics service ([LVMQuery]), the table of heartbeats (the
    peers of a network seen after a time, and all of them), and the notifiers by
    their type. *)
Inductive alertE : Type -> Type :=
| LSrv T (e : srvE T) : alertE T
| LVMQuery (promql : string) (ts : Z) : alertE (gresult VMValue)
| LCountPeers (network : string) (seenAfter : option Z) : alertE (gresult Z)
| LPeers (network : string) : alertE (gresult (list PeerHeartbeat))
| LSend (kind : string) (req : NotificationRequest) (config : string) : alertE (gresult unit).

Abbreviation lprog := (prog alertE).
Definition adb {A} (p : sprog A) : lprog A := translate LSrv p.
Definition Now : lprog Z := call (LSrv _ SNow).

(** [time.Time{}], in nanoseconds since 1970, and seconds. *)
Definition zero_time : Z := -62135596800 * 10 ^ 9.
Definition Unix (t : Z) : Z := t / 10 ^ 9.

(** [float64] of an integer. *)
Definition float_of (z : Z) : spec_float := binary_normalize 53 1024 z 0 false.

(** ** Adapters *)

(** A cell of a table. *)
Inductive cell := CText (s : string) | CFloat (f : spec_float) | CBool (b : bool) | CInt (z : Z).

Record QueryRequest := {
  qr_MetricType : string; qr_Labels : labels; qr_Namespace : string; qr_End : Z; qr_Lookback : string;
}.
Record ScalarResult := { sc_Value : spec_float; sc_Timestamp : Z }.
Record QueryResult := { res_Scalar : option ScalarResult; res_Table : list (gmap string cell) }.

Definition scalar (v : spec_float) (t : Z) : QueryResult :=
  {| res_Scalar := Some {| sc_Value := v; sc_Timestamp := t |}; res_Table := [] |}.

Record MetricTemplate := { mt_Query : string; mt_ResultType : string }.

(** Parsing and executing a [text/template]. *)
Class TextTemplate := { execute_template : string -> labels -> gresult string }.

(** [json.Marshal] and [json.Unmarshal] of lists of texts and of matchers;
    [time.Parse] in RFC 3339. *)
Class AlertJSON := {
  encode_strings : list string -> string;
  decode_strings : string -> gresult (list string);
  encode_matchers : list labels -> string;
  parse_time : string -> option Z;
  decode_encode_strings l : decode_strings (encode_strings l) = inr l;
}.

(** The alerts that fire, by key. *)
Record ActiveAlert := {
  aa_RuleID : string; aa_GroupKey : string; aa_FirstSeen : Z; aa_LastSeen : Z; aa_Value : spec_float;
}.
Abbreviation activeAlerts := (gmap string ActiveAlert).

Section monitor.
Context `{MapRange} `{TextTemplate} `{AlertJSON} (templates : gmap string MetricTemplate).

Definition template_Get (metricType : string) : gresult MetricTemplate :=
  match templates !! metricType with
  | None => inl (ErrWrap ("metric template not found: " +:+ metricType) (ErrText "template not found"))
  | Some t => inr t
  end.

Definition template_Render (metricType : string) (params : labels) : gresult string :=
  match template_Get metricType with
  | inl err => inl err
  | inr tpl => execute_template (mt_Query tpl) params
  end.

(** The labels of a sample without its name, and its value. *)
Definition sample_row (s : Sample) : gmap string cell :=
  <["value" := CFloat (sa_Value s)]>
    (foldl (λ row kv, if bool_decide (kv.1 = "__name__") then row else <[kv.1 := CText kv.2]> row)
       ∅ (go_range (sa_Metric s))).

(** An answer without samples counts as zero. *)
Definition parseVMValue (val : VMValue) (resultType : string) : lprog QueryResult :=
  if bool_decide (resultType = "table") then
    match val with
    | VVector l => Ret {| res_Scalar := None; res_Table := sample_row <$> l |}
    | VOther => Ret {| res_Scalar := None; res_Table := [] |}
    end
  else
    match val with
    | VVector (s :: _) => Ret (scalar (sa_Value s) (Z.quot (sa_Timestamp s) 1000))
    | _ => now ← Now; Ret (scalar (S754_zero false) (Unix now))
    end.

Definition vm_Query (req : QueryRequest) : lprog (gresult QueryResult) :=
  match template_Get (qr_MetricType req) with
  | inl err => Ret (inl err)
  | inr tpl =>
      let params := foldl (λ p kv, <[kv.1 := kv.2]> p) {[ "Namespace" := qr_Namespace req ]} (go_range (qr_Labels req)) in
      match template_Render (qr_MetricType req) params with
      | inl err => Ret (inl err)
      | inr promql =>
          ts ← (if qr_End req =? zero_time then Now else Ret (qr_End req));
          val ← call (LVMQuery promql ts);
          match val with
          | inl err => Ret (inl (ErrWrap "VM query error" err))
          | inr val => r ← parseVMValue val (mt_ResultType tpl); Ret (inr r)
          end
      end
  end.

Definition heartbeat_row (threshold : Z) (p : PeerHeartbeat) : gmap string cell :=
  <["peer_id" := CText (ph_ID p)]> (<["name" := CText (ph_Name p)]>
    (<["online" := CBool (threshold <=? ph_LastSeen p)]> {[ "last_seen" := CInt (Unix (ph_LastSeen p)) ]})).

Definition heartbeat_Query (req : QueryRequest) : lprog (gresult QueryResult) :=
  now ← Now;
  let threshold := now - 90 * 10 ^ 9 in
  if bool_decide (qr_MetricType req = "heartbeat_online_count") then
    r ← call (LCountPeers (qr_Namespace req) (Some threshold));
    match r with
    | inl err => Ret (inl (ErrWrap "query online count" err))
    | inr count => Ret (inr (scalar (float_of count) (Unix now)))
    end
  else if bool_decide (qr_MetricType req = "heartbeat_total_nodes") then
    r ← call (LCountPeers (qr_Namespace req) None);
    match r with
    | inl err => Ret (inl (ErrWrap "query total nodes" err))
    | inr count => Ret (inr (scalar (float_of count) (Unix now)))
    end
  else if bool_decide (qr_MetricType req = "heartbeat_peer_status") then
    r ← call (LPeers (qr_Namespace req));
    match r with
    | inl err => Ret (inl (ErrWrap "query peer status" err))
    | inr peers => Ret (inr {| res_Scalar := None; res_Table := heartbeat_row threshold <$> peers |})
    end
  else Ret (inl (ErrWrap ("unsupported heartbeat metric: " +:+ qr_MetricType req) (ErrText "metric not found"))).

(** ** The gateway *)

(** The adapters that are registered, by name. *)
Context (adapters : gset string).

Definition resolveAdapter (metricType : string) : gresult string :=
  if has_prefix "heartbeat_" metricType && bool_decide ("heartbeat" ∈ adapters) then inr "heartbeat"
  else if bool_decide ("victoriametrics" ∈ adapters) then inr "victoriametrics"
  else inl (ErrText ("no adapter available for metric: " +:+ metricType)).

Definition gateway_Query (req : QueryRequest) : lprog (gresult QueryResult) :=
  match resolveAdapter (qr_MetricType req) with
  | inl err => Ret (inl err)
  | inr name => if bool_decide (name = "heartbeat") then heartbeat_Query req else vm_Query req
  end.

(** ** The engine *)

Definition compareThreshold (value : spec_float) (operator : string) (threshold : spec_float) : bool :=
  if bool_decide (operator = "gt") then SFltb threshold value
  else if bool_decide (operator = "gte") then SFleb threshold value
  else if bool_decide (operator = "lt") then SFltb value threshold
  else if bool_decide (operator = "lte") then SFleb value threshold
  else if bool_decide (operator = "eq") then SFeqb value threshold
  else if bool_decide (operator = "neq") then negb (SFeqb value threshold)
  else false.

(** The types of notifiers the engine was given. *)
Context (notifiers : gset string).

Definition new_history (rule : AlertRule) (status : string) (value : spec_float) (message : string)
    (startedAt : Z) (endedAt : option Z) : AlertHistory := {|
  ah_Model := new_model; ah_RuleID := row_id TRule rule; ah_WorkspaceID := ar_WorkspaceID rule;
  ah_Status := status; ah_Severity := ar_Severity rule; ah_Labels := ""; ah_Value := value;
  ah_Message := message; ah_StartedAt := startedAt; ah_EndedAt := endedAt; ah_Notified := false |}.

(** A channel is found by its identifier, whichever workspace it belongs to. *)
Fixpoint notify_each (req : NotificationRequest) (channelIDs : list string) : lprog unit :=
  match channelIDs with
  | [] => Ret tt
  | chID :: channelIDs =>
      ch ← adb (alerts_GetAlertChannel chID);
      match ch with
      | inl _ => notify_each req channelIDs
      | inr ch =>
          if ach_Enabled ch && bool_decide (ach_Type ch ∈ notifiers)
          then _ ← call (LSend (ach_Type ch) req (ach_Config ch)); notify_each req channelIDs
          else notify_each req channelIDs
      end
  end.

Definition sendNotification (rule : AlertRule) (items : list AlertItem) (status : string) : lprog unit :=
  match (if bool_decide (ar_Channels rule = "") then inr [] else decode_strings (ar_Channels rule)) with
  | inl _ => Ret tt
  | inr channelIDs =>
      now ← Now;
      notify_each {| nr_RuleName := ar_Name rule; nr_Severity := ar_Severity rule; nr_Status := status;
                     nr_Alerts := items; nr_StartedAt := now |} channelIDs
  end.

(** Records the change, and sends it only if that succeeded. *)
Definition announce (rule : AlertRule) (h : AlertHistory) : lprog unit :=
  r ← adb (alerts_CreateAlertHistory h);
  match r with
  | inl _ => Ret tt
  | inr _ => sendNotification rule [{| ai_Value := ah_Value h; ai_Message := ah_Message h |}] (ah_Status h)
  end.

Definition handleFiring (st : activeAlerts) (rule : AlertRule) (key : string) (value : spec_float) : lprog activeAlerts :=
  now ← Now;
  match st !! key with
  | None =>
      _ ← announce rule (new_history rule "firing" value (ar_Message rule) now None);
      Ret (<[key := {| aa_RuleID := row_id TRule rule; aa_GroupKey := key; aa_FirstSeen := now; aa_LastSeen := now;
                       aa_Value := value |}]> st)
  | Some active =>
      Ret (<[key := {| aa_RuleID := aa_RuleID active; aa_GroupKey := aa_GroupKey active;
                       aa_FirstSeen := aa_FirstSeen active; aa_LastSeen := now; aa_Value := value |}]> st)
  end.

Definition handleResolved (st : activeAlerts) (rule : AlertRule) (key : string) (value : spec_float) : lprog activeAlerts :=
  match st !! key with
  | None => Ret st
  | Some active =>
      ended ← Now;
      _ ← announce rule (new_history rule "resolved" value ("Resolved: " +:+ ar_Message rule) (aa_FirstSeen active)
            (Some ended));
      Ret (delete key st)
  end.

(** The matchers of a silence are not looked at: it silences its whole workspace. *)
Definition isSilenced (wsID : string) (rule : AlertRule) : lprog bool :=
  until ← (match ar_SilenceUntil rule with
           | None => Ret false
           | Some until => now ← Now; Ret (now <? until)
           end);
  if until : bool then Ret true
  else
    silences ← adb (alerts_ListAlertSilences wsID);
    match silences with
    | inl _ => Ret false
    | inr silences =>
        now ← Now;
        Ret (existsb (λ s, (sil_StartsAt s <? now) && (now <? sil_EndsAt s)) silences)
    end.

Definition alertKey (id : string) : string := id +:+ ":default".

(** The duration of a rule, which says how long the threshold must be exceeded, is
    not looked at. *)
Definition evaluateRule (st : activeAlerts) (rule : AlertRule) : lprog activeAlerts :=
  silenced ← isSilenced (ar_WorkspaceID rule) rule;
  if silenced : bool then Ret st
  else
    now ← Now;
    result ← gateway_Query {| qr_MetricType := ar_MetricType rule; qr_Labels := ∅; qr_Namespace := ar_WorkspaceID rule;
               qr_End := now; qr_Lookback := ar_Lookback rule |};
    match result with
    | inl _ => Ret st
    | inr result =>
        match res_Scalar result with
        | None => Ret st
        | Some sc =>
            let key := alertKey (row_id TRule rule) in
            if compareThreshold (sc_Value sc) (ar_Operator rule) (ar_Threshold rule)
            then handleFiring st rule key (sc_Value sc)
            else handleResolved st rule key (sc_Value sc)
        end
    end.

Fixpoint evaluateRules (st : activeAlerts) (rules : list AlertRule) : lprog activeAlerts :=
  match rules with
  | [] => Ret st
  | rule :: rules => st ← evaluateRule st rule; evaluateRules st rules
  end.

Definition evaluate (st : activeAlerts) : lprog activeAlerts :=
  rules ← adb alerts_ListEnabledAlertRules;
  match rules with
  | inl _ => Ret st
  | inr rules => evaluateRules st rules
  end.

(** The first [n] evaluations of [Start]. *)
Fixpoint evaluations (n : nat) (st : activeAlerts) : lprog activeAlerts :=
  match n with
  | O => Ret st
  | S n => st ← evaluate st; evaluations n st
  end.
End monitor.

(** ** What is recorded and sent *)

(** A record that was attempted, with whether it was stored; a notification. *)
Inductive aevent :=
| EvHistory (h : AlertHistory) (stored : bool)
| EvSend (kind : string) (req : NotificationRequest) (config : string).

Definition stored_ok {A} (r : gresult A) : bool := match r with inr _ => true | inl _ => false end.

Definition event_of T (e : alertE T) : T -> list aevent :=
  match e in alertE T return T -> list aevent with
  | LSrv _ e =>
      match e in srvE T return T -> list aevent with
      | DCreate t x =>
          match t return row t -> gresult (row t) -> list aevent with
          | THistory => λ x r, [EvHistory x (stored_ok r)]
          | _ => λ _ _, []
          end x
      | _ => λ _, []
      end
  | LSend kind req config => λ _, [EvSend kind req config]
  | _ => λ _, []
  end.

(** The world answers as it likes and keeps the events. *)
Definition alert_world T (e : alertE T) (s : list aevent) (r : T) (s' : list aevent) : Prop :=
  s' = s ++ event_of T e r.

(** The records about a rule. *)
Definition histories (id : string) (trace : list aevent) : list AlertHistory :=
  omap (λ ev, match ev with
              | EvHistory h _ => if bool_decide (ah_RuleID h = id) then Some h else None
              | EvSend _ _ _ => None
              end) trace.

(** The life of an alert: it fires, then it resolves with the time it began.  The
    result says whether it is active and since when; [None]: not such a life. *)
Fixpoint lifecycle (active : option Z) (l : list AlertHistory) : option (option Z) :=
  match l with
  | [] => Some active
  | h :: l =>
      match active with
      | None => if bool_decide (ah_Status h = "firing") then lifecycle (Some (ah_StartedAt h)) l else None
      | Some t =>
          if bool_decide (ah_Status h = "resolved") && bool_decide (ah_StartedAt h = t) then lifecycle None l else None
      end
  end.

Lemma lifecycle_app l1 l2 : forall a, lifecycle a (l1 ++ l2) = lifecycle a l1 ≫= λ b, lifecycle b l2.
Proof.
  induction l1 as [|h l1 IH]; intros a; [done|]. cbn [lifecycle app]. destruct a; case_match; auto.
Qed.

(** A notification tells of a record. *)
Definition tells_of (req : NotificationRequest) (h : AlertHistory) : Prop :=
  nr_Status req = ah_Status h /\ nr_Severity req = ah_Severity h /\
  nr_Alerts req = [{| ai_Value := ah_Value h; ai_Message := ah_Message h |}].

Record engine_ok (st : activeAlerts) (trace : list aevent) : Prop := {
  ok_lives id : lifecycle None (histories id trace) = Some (aa_FirstSeen <$> st !! alertKey id);
  ok_sends l1 kind req config l2 : trace = l1 ++ EvSend kind req config :: l2 ->
    exists h, EvHistory h true ∈ l1 /\ tells_of req h;
}.

(** Calls that leave no event. *)
Definition quiet_call T (e : alertE T) : Prop := forall r, event_of T e r = [].

Lemma quiet_runs {A} (p : lprog A) s a s' :
  wp (λ _ _ _, True) quiet_call p (λ _, True) -> runs alert_world p s a s' -> s' = s.
Proof.
  intros Hp Hr. eapply (wp_runs alert_world (λ _ _ _, True) quiet_call (λ x, x = s)) in Hr as [_ E]; [exact E| |exact Hp|done].
  intros T e s1 r s2 -> Hq Hh. split; [done|]. unfold alert_world in Hh. by rewrite Hh, Hq, app_nil_r.
Qed.

(** Shows that a program is quiet, call by call. *)
Ltac solve_quiet :=
  repeat first
    [ progress cbv beta iota zeta
    | match goal with |- wp _ _ (Ret _) _ => cbn [wp] end
    | apply wp_bind
    | split; [by intros ?|intros ? _]
    | exact I
    | match goal with |- context [match ?x with _ => _ end] => destruct x end
    | match goal with |- wp _ _ ?p _ => let f := term_head p in unfold f end ].

Section engine.
Context `{MapRange} `{TextTemplate} `{AlertJSON}.
Context (templates : gmap string MetricTemplate) (adapters notifiers : gset string).

Lemma isSilenced_quiet wsID rule s b s' : runs alert_world (isSilenced wsID rule) s b s' -> s' = s.
Proof. apply quiet_runs. solve_quiet. Qed.

Lemma gateway_Query_quiet req s r s' : runs alert_world (gateway_Query templates adapters req) s r s' -> s' = s.
Proof. apply quiet_runs. solve_quiet. Qed.

Lemma now_quiet s t s' : runs alert_world Now s t s' -> s' = s.
Proof. apply quiet_runs. solve_quiet. Qed.
(** Only notifications of [req]. *)
Lemma notify_each_sends req ids : forall s u s',
  runs alert_world (notify_each notifiers req ids) s u s' ->
  exists l, s' = s ++ l /\ Forall (λ ev, exists kind config, ev = EvSend kind req config) l.
Proof.
  induction ids as [|id ids IH]; intros s u s' Hr.
  - apply runs_ret_inv in Hr as [_ ->]. exists []. by rewrite app_nil_r.
  - apply runs_bind_inv in Hr as (ch & s1 & Hc & Hr). apply quiet_runs in Hc as ->; [|solve_quiet].
    destruct ch as [err|ch]; [by eapply IH|]. destruct (_ && _); [|by eapply IH].
    apply runs_bind_inv in Hr as (r & s1 & Hs%runs_call_inv & Hr). unfold alert_world in Hs. cbn in Hs.
    apply IH in Hr as (l & -> & Hl). subst s1. exists (EvSend (ach_Type ch) req (ach_Config ch) :: l).
    rewrite <- app_assoc. split; [done|]. constructor; [by eexists _, _|done].
Qed.

Lemma sendNotification_sends rule h s u s' :
  runs alert_world (sendNotification notifiers rule [{| ai_Value := ah_Value h; ai_Message := ah_Message h |}] (ah_Status h)) s u s' ->
  ah_Severity h = ar_Severity rule ->
  exists l, s' = s ++ l /\ Forall (λ ev, exists kind req config, ev = EvSend kind req config /\ tells_of req h) l.
Proof.
  unfold sendNotification. intros Hr Hsev.
  destruct (if bool_decide _ then _ else _) as [err|ids].
  { apply runs_ret_inv in Hr as [_ ->]. exists []. by rewrite app_nil_r. }
  apply runs_bind_inv in Hr as (now & s1 & ->%now_quiet & (l & -> & Hl)%notify_each_sends).
  exists l. split; [done|]. eapply Forall_impl; [exact Hl|]. intros ev (kind & config & ->).
  by eexists _, _, _.
Qed.

(** One record, and notifications of it if it was stored. *)
Lemma announce_events rule h s u s' :
  runs alert_world (announce notifiers rule h) s u s' -> ah_Severity h = ar_Severity rule -> row_id THistory h = "" ->
  exists id stored l, let h' := history_with_model h {| m_ID := id; m_deleted := m_deleted (ah_Model h) |} in
    s' = s ++ EvHistory h' stored :: l /\
    Forall (λ ev, stored = true /\ exists kind req config, ev = EvSend kind req config /\ tells_of req h') l.
Proof.
  intros Hr Hsev Hid. apply runs_bind_inv in Hr as (r & s1 & Hc & Hr).
  unfold alerts_CreateAlertHistory, base_Create, BeforeCreate in Hc. rewrite bool_decide_true in Hc by done.
  apply runs_vis_inv in Hc as (id & s2 & Hu & Hc). unfold alert_world in Hu. cbn in Hu. rewrite app_nil_r in Hu. subst s2.
  apply runs_vis_inv in Hc as (r' & s2 & Hh & [-> ->]%runs_ret_inv). unfold alert_world in Hh. cbn in Hh.
  exists id, (stored_ok r'). destruct r' as [err|stored].
  - apply runs_ret_inv in Hr as [_ ->]. exists []. by split.
  - apply sendNotification_sends in Hr as (l & -> & Hl); [|done]. exists l. subst s2. rewrite <- app_assoc. split; [done|].
    eapply Forall_impl; [exact Hl|]. intros ev (kind & req & config & -> & Ht). split; [done|]. by eexists _, _, _.
Qed.
Lemma histories_app id l1 l2 : histories id (l1 ++ l2) = histories id l1 ++ histories id l2.
Proof. apply omap_app. Qed.

Lemma histories_sends id l (P : NotificationRequest -> Prop) (b : bool) :
  Forall (λ ev, b = true /\ exists kind req config, ev = EvSend kind req config /\ P req) l -> histories id l = [].
Proof. induction 1 as [|ev l (_ & kind & req & config & -> & _) _ IH]; [done|]. exact IH. Qed.

Lemma str_app_suffix_inj (a b c : string) : a +:+ c = b +:+ c -> a = b.
Proof.
  revert b. induction a as [|ch a IH]; intros [|ch' b] E; [done| | |].
  - apply (f_equal String.length) in E. cbn in E. rewrite length_app_string in E. lia.
  - apply (f_equal String.length) in E. cbn in E. rewrite length_app_string in E. lia.
  - cbn in E. injection E as -> E. f_equal. by apply IH.
Qed.

Lemma alertKey_inj id id' : alertKey id = alertKey id' -> id = id'.
Proof. apply str_app_suffix_inj. Qed.

(** A step of the life of the rule of [h]. *)
Lemma engine_ok_step st s h stored l st' :
  engine_ok st s ->
  Forall (λ ev, stored = true /\ exists kind req config, ev = EvSend kind req config /\ tells_of req h) l ->
  (forall id, id <> ah_RuleID h -> st' !! alertKey id = st !! alertKey id) ->
  lifecycle (aa_FirstSeen <$> st !! alertKey (ah_RuleID h)) [h] = Some (aa_FirstSeen <$> st' !! alertKey (ah_RuleID h)) ->
  engine_ok st' (s ++ EvHistory h stored :: l).
Proof.
  intros [Hlives Hsends] Hl Hother Hlife. split.
  - intros id. change (EvHistory h stored :: l) with ([EvHistory h stored] ++ l).
    rewrite !histories_app, (histories_sends _ l _ _ Hl), app_nil_r, lifecycle_app, Hlives. cbn [mbind option_bind].
    unfold histories at 1. cbn [omap list_omap]. case_bool_decide as E.
    + by rewrite <- E.
    + cbn [lifecycle]. by rewrite Hother.
  - intros l1 kind req config l2 E. apply app_eq_inv in E as [(k & -> & E)|(k & -> & E)].
    + destruct k as [|ev k]; [by rewrite app_nil_l in E|]. cbn in E. injection E as <- E. by eapply Hsends.
    + destruct k as [|ev k]; [done|]. cbn in E. injection E as <- ->.
      rewrite Forall_app, Forall_cons in Hl. destruct Hl as (_ & (-> & ? & ? & ? & [= <- <- <-] & Ht) & _).
      exists h. split; [|done]. apply elem_of_app. right. by left.
Qed.

Lemma evaluateRule_ok st s rule st' s' :
  engine_ok st s -> runs alert_world (evaluateRule templates adapters notifiers st rule) s st' s' -> engine_ok st' s'.
Proof.
  intros Hok Hr. apply runs_bind_inv in Hr as (b & s1 & ->%isSilenced_quiet & Hr).
  destruct b; [by apply runs_ret_inv in Hr as [-> ->]|].
  apply runs_bind_inv in Hr as (now & s1 & ->%now_quiet & Hr).
  apply runs_bind_inv in Hr as (result & s1 & ->%gateway_Query_quiet & Hr).
  destruct result as [err|result]; [by apply runs_ret_inv in Hr as [-> ->]|].
  destruct (res_Scalar result) as [sc|]; [|by apply runs_ret_inv in Hr as [-> ->]]. cbv zeta in Hr.
  set (key := alertKey (row_id TRule rule)) in *.
  destruct (compareThreshold _ _ _).
  - apply runs_bind_inv in Hr as (first & s1 & ->%now_quiet & Hr). destruct (st !! key) as [active|] eqn:Ek.
    + apply runs_ret_inv in Hr as [-> ->]. destruct Hok as [Hlives Hsends]. split; [|done]. intros id.
      rewrite Hlives. f_equal. destruct (decide (key = alertKey id)) as [<-|Hne].
      * by rewrite lookup_insert_eq, Ek.
      * by rewrite lookup_insert_ne.
    + apply runs_bind_inv in Hr as (u & s1 & Ha & Hr).
      apply announce_events in Ha as (id & stored & l & -> & Hl); [|done..]. apply runs_ret_inv in Hr as [-> ->].
      eapply engine_ok_step; [exact Hok|exact Hl| |].
      * intros id' Hne. rewrite lookup_insert_ne; [done|]. intros E%alertKey_inj. by apply Hne.
      * cbn [history_with_model new_history ah_RuleID lifecycle]. fold key. by rewrite Ek, lookup_insert_eq.
  - unfold handleResolved in Hr. destruct (st !! key) as [active|] eqn:Ek; [|by apply runs_ret_inv in Hr as [-> ->]].
    apply runs_bind_inv in Hr as (ended & s1 & ->%now_quiet & Hr).
    apply runs_bind_inv in Hr as (u & s1 & Ha & Hr).
    apply announce_events in Ha as (id & stored & l & -> & Hl); [|done..]. apply runs_ret_inv in Hr as [-> ->].
    eapply engine_ok_step; [exact Hok|exact Hl| |].
    + intros id' Hne. rewrite lookup_delete_ne; [done|]. intros E%alertKey_inj. by apply Hne.
    + cbn [history_with_model new_history ah_RuleID lifecycle ah_Status ah_StartedAt]. fold key.
      rewrite Ek, lookup_delete_eq. cbn [fmap option_fmap option_map]. by rewrite !bool_decide_true.
Qed.

Lemma evaluate_ok st s st' s' :
  engine_ok st s -> runs alert_world (evaluate templates adapters notifiers st) s st' s' -> engine_ok st' s'.
Proof.
  intros Hok Hr. apply runs_bind_inv in Hr as (rules & s1 & Hq & Hr). apply quiet_runs in Hq as ->; [|solve_quiet].
  destruct rules as [err|rules]; [by apply runs_ret_inv in Hr as [-> ->]|].
  revert st s Hok Hr. induction rules as [|rule rules IH]; intros st s Hok Hr.
  - by apply runs_ret_inv in Hr as [-> ->].
  - apply runs_bind_inv in Hr as (st1 & s1 & Hr1 & Hr). eapply IH; [|exact Hr]. by eapply evaluateRule_ok.
Qed.

(** C11. The life of alerts.  However often the engine evaluates, whatever the rules,
    silences and metrics are meanwhile and whichever calls fail: for every rule
    the records it tries to make are firing and resolved in turn, beginning with
    firing, each resolved one with the time its alert began; and the engine takes
    the alert for active, since that time, exactly if the last one is firing.
    Every notification tells of a record that was stored before. *)
Theorem alerts_lifecycle n st trace :
  runs alert_world (evaluations templates adapters notifiers n ∅) [] st trace ->
  (forall id, lifecycle None (histories id trace) = Some (aa_FirstSeen <$> st !! alertKey id)) /\
  (forall l1 kind req config l2, trace = l1 ++ EvSend kind req config :: l2 ->
     exists h, EvHistory h true ∈ l1 /\ tells_of req h).
Proof.
  intros Hr. assert (Hok : engine_ok ∅ []).
  { split; [done|]. intros [|? ?] ? ? ? ? [=]. }
  revert Hok Hr. generalize (∅ : activeAlerts) as st0, (@nil aevent) as s. induction n as [|n IH]; intros st0 s Hok Hr.
  - apply runs_ret_inv in Hr as [-> ->]. by destruct Hok.
  - apply runs_bind_inv in Hr as (st1 & s1 & Hr1 & Hr). eapply IH; [|exact Hr]. by eapply evaluate_ok.
Qed.
End engine.

(** ** Comparisons *)

Definition is_nan (f : spec_float) : bool := match f with S754_nan => true | _ => false end.

Lemma SFcompare_antisym f g : SFcompare g f = option_map CompOpp (SFcompare f g).
Proof.
  destruct f as [s|s| |s m e], g as [s'|s'| |s' m' e']; cbn; try done; try (by destruct s); try (by destruct s');
    try (by destruct s, s').
  f_equal. rewrite (Z.compare_antisym e e'). change (BinPosDef.Pos.compare_cont Eq m' m) with (Pos.compare m' m).
  change (BinPosDef.Pos.compare_cont Eq m m') with (Pos.compare m m'). rewrite (Pos.compare_antisym m m').
  destruct s, s'; try done; destruct (e ?= e')%Z, (m ?= m')%positive; done.
Qed.

Lemma SFcompare_total f g : is_nan f = false -> is_nan g = false -> exists c, SFcompare f g = Some c.
Proof. destruct f, g; cbn; try done; intros; eauto. Qed.

(** Numbers that can be compared.  Two of the operators exclude each other and one of
    them holds, whatever the numbers are unless one is NaN; for NaN only [neq]
    fires; an operator that is not known never fires. *)
Theorem compareThreshold_spec v t :
  let cmp op := compareThreshold v op t in
  (is_nan v = false -> is_nan t = false ->
     cmp "lte" = negb (cmp "gt") /\ cmp "lt" = negb (cmp "gte") /\ cmp "neq" = negb (cmp "eq") /\
     cmp "gte" = cmp "gt" || cmp "eq" /\ cmp "lte" = cmp "lt" || cmp "eq" /\
     (cmp "lt" && cmp "gt") = false) /\
  (is_nan v || is_nan t = true -> forall op, cmp op = bool_decide (op = "neq")) /\
  (forall op, op ∉ ["gt"; "gte"; "lt"; "lte"; "eq"; "neq"] -> cmp op = false).
Proof.
  cbv zeta. unfold SFltb, SFleb, SFeqb. split_and!.
  - intros Hv Ht. destruct (SFcompare_total v t Hv Ht) as [c Ec]. unfold compareThreshold. vm_compute bool_decide. cbv iota.
    unfold SFltb, SFleb, SFeqb. rewrite (SFcompare_antisym v t), Ec. by destruct c.
  - intros Hn op. assert (SFcompare v t = None /\ SFcompare t v = None) as [E1 E2].
    { destruct v, t; cbn in Hn |- *; try done. }
    unfold compareThreshold, SFltb, SFleb, SFeqb. rewrite E1, E2. repeat case_bool_decide; simplify_eq; done.
  - intros op Hop. unfold compareThreshold. rewrite !bool_decide_false by set_solver. done.
Qed.

(** ** The service *)

Record CreateAlertRuleRequest := {
  rr_Name : string; rr_MetricType : string; rr_Operator : string; rr_Threshold : spec_float; rr_Duration : string;
  rr_Lookback : string; rr_GroupBy : list string; rr_ForEach : bool; rr_Channels : list string; rr_Severity : string;
  rr_Message : string;
}.
(** [ccr_Config]: the value of the field as JSON. *)
Record CreateChannelRequest := { ccr_Name : string; ccr_Type : string; ccr_Config : string }.
Record CreateSilenceRequest := {
  csr_Matchers : list labels; csr_Comment : string; csr_StartsAt : string; csr_EndsAt : string;
}.

Section service.
Context `{AlertJSON}.

(** The rule [old] with the fields of a request. *)
Definition requested_rule (old : AlertRule) (req : CreateAlertRuleRequest) : AlertRule := {|
  ar_Model := ar_Model old; ar_Name := rr_Name req; ar_WorkspaceID := ar_WorkspaceID old;
  ar_Enabled := ar_Enabled old; ar_MetricType := rr_MetricType req; ar_Operator := rr_Operator req;
  ar_Threshold := rr_Threshold req; ar_Duration := rr_Duration req; ar_Lookback := rr_Lookback req;
  ar_GroupBy := encode_strings (rr_GroupBy req); ar_ForEach := rr_ForEach req;
  ar_Channels := encode_strings (rr_Channels req); ar_Severity := rr_Severity req; ar_Message := rr_Message req;
  ar_SilenceUntil := ar_SilenceUntil old; ar_MuteTimeRules := ar_MuteTimeRules old |}.

Definition blank_rule (id wsID : string) : AlertRule := {|
  ar_Model := with_id id; ar_Name := ""; ar_WorkspaceID := wsID; ar_Enabled := true; ar_MetricType := "";
  ar_Operator := ""; ar_Threshold := S754_zero false; ar_Duration := ""; ar_Lookback := ""; ar_GroupBy := "";
  ar_ForEach := false; ar_Channels := ""; ar_Severity := ""; ar_Message := ""; ar_SilenceUntil := None;
  ar_MuteTimeRules := "" |}.

Definition CreateRule (wsID : string) (req : CreateAlertRuleRequest) : sprog (gresult AlertRule) :=
  id ← call SUUID;
  r ← alerts_CreateAlertRule (requested_rule (blank_rule id wsID) req);
  match r with
  | inl err => Ret (inl (ErrWrap "create alert rule" err))
  | inr rule => Ret (inr rule)
  end.

Definition ListRules (wsID : string) : sprog (gresult (list AlertRule)) := alerts_ListAlertRulesByWorkspace wsID.
Definition GetRule (id : string) : sprog (gresult AlertRule) := alerts_GetAlertRule id.

(** The answer is the rule as requested, not as stored. *)
Definition UpdateRule (id : string) (req : CreateAlertRuleRequest) : sprog (gresult AlertRule) :=
  rule ←? alerts_GetAlertRule id;
  let rule := requested_rule rule req in
  _ ←? alerts_UpdateAlertRule rule;
  Ret (inr rule).

Definition DeleteRule (id : string) : sprog (gresult unit) := alerts_DeleteAlertRule id.
Definition ListHistory (wsID : string) (page pageSize : Z) : sprog (gresult (list AlertHistory * Z)) :=
  alerts_ListAlertHistory wsID page pageSize.

Definition CreateChannel (wsID : string) (req : CreateChannelRequest) : sprog (gresult AlertChannel) :=
  id ← call SUUID;
  alerts_CreateAlertChannel {| ach_Model := with_id id; ach_Name := ccr_Name req; ach_WorkspaceID := wsID;
    ach_Type := ccr_Type req; ach_Config := ccr_Config req; ach_Enabled := true |}.
Definition ListChannels (wsID : string) : sprog (gresult (list AlertChannel)) := alerts_ListAlertChannels wsID.
Definition UpdateChannel (id : string) (req : CreateChannelRequest) : sprog (gresult AlertChannel) :=
  ch ←? alerts_GetAlertChannel id;
  let ch := {| ach_Model := ach_Model ch; ach_Name := ccr_Name req; ach_WorkspaceID := ach_WorkspaceID ch;
    ach_Type := ccr_Type req; ach_Config := ccr_Config req; ach_Enabled := ach_Enabled ch |} in
  _ ←? alerts_UpdateAlertChannel ch;
  Ret (inr ch).
Definition DeleteChannel (id : string) : sprog (gresult unit) := alerts_DeleteAlertChannel id.

(** A time that does not parse is the zero time. *)
Definition CreateSilence (wsID createdBy : string) (req : CreateSilenceRequest) : sprog (gresult AlertSilence) :=
  id ← call SUUID;
  alerts_CreateAlertSilence {| sil_Model := with_id id; sil_WorkspaceID := wsID; sil_CreatedBy := createdBy;
    sil_Matchers := encode_matchers (csr_Matchers req); sil_Comment := csr_Comment req;
    sil_StartsAt := default zero_time (parse_time (csr_StartsAt req));
    sil_EndsAt := default zero_time (parse_time (csr_EndsAt req)) |}.
Definition ListSilences (wsID : string) : sprog (gresult (list AlertSilence)) := alerts_ListAlertSilences wsID.
Definition DeleteSilence (id : string) : sprog (gresult unit) := alerts_DeleteAlertSilence id.

(** ** Routes *)

(** The handlers that name a workspace want one in the context; [None] is a body
    that does not decode. *)
Definition in_workspace {A} (c : Ctx) (f : string -> sprog (gresult A)) : sprog Reply :=
  let wsID := cx_workspace_id c in
  if bool_decide (wsID = "") then Ret (RError "workspace_id required") else r ← f wsID; Ret (reply_to r).
Definition with_body {A B} (body : option A) (f : A -> sprog (gresult B)) : sprog (gresult B) :=
  match body with None => Ret (inl (ErrText "invalid request")) | Some req => f req end.

Definition listAlertRules (rq : HttpRequest) (c : Ctx) : sprog Reply := in_workspace c ListRules.
Definition getAlertRule (rq : HttpRequest) (c : Ctx) : sprog Reply := r ← GetRule (rq_Param rq "id"); Ret (reply_to r).
Definition createAlertRule (body : option CreateAlertRuleRequest) (rq : HttpRequest) (c : Ctx) : sprog Reply :=
  in_workspace c (λ wsID, with_body body (CreateRule wsID)).
Definition updateAlertRule (body : option CreateAlertRuleRequest) (rq : HttpRequest) (c : Ctx) : sprog Reply :=
  r ← with_body body (UpdateRule (rq_Param rq "id")); Ret (reply_to r).
Definition deleteAlertRule (rq : HttpRequest) (c : Ctx) : sprog Reply :=
  r ← DeleteRule (rq_Param rq "id"); Ret (reply_to r).

(** [strconv.Atoi] of a query parameter gives zero for a text that is no number;
    the parameters come as its results. *)
Definition listAlertHistory (page pageSize : Z) (rq : HttpRequest) (c : Ctx) : sprog Reply :=
  let page := if page <? 1 then 1 else page in
  let pageSize := if (pageSize <? 1) || (pageSize >? 100) then 20 else pageSize in
  in_workspace c (λ wsID, ListHistory wsID page pageSize).

Definition listAlertChannels (rq : HttpRequest) (c : Ctx) : sprog Reply := in_workspace c ListChannels.
Definition createAlertChannel (body : option CreateChannelRequest) (rq : HttpRequest) (c : Ctx) : sprog Reply :=
  in_workspace c (λ wsID, with_body body (CreateChannel wsID)).
Definition updateAlertChannel (body : option CreateChannelRequest) (rq : HttpRequest) (c : Ctx) : sprog Reply :=
  r ← with_body body (UpdateChannel (rq_Param rq "id")); Ret (reply_to r).
Definition deleteAlertChannel (rq : HttpRequest) (c : Ctx) : sprog Reply :=
  r ← DeleteChannel (rq_Param rq "id"); Ret (reply_to r).
Definition listAlertSilences (rq : HttpRequest) (c : Ctx) : sprog Reply := in_workspace c ListSilences.
Definition createAlertSilence (body : option CreateSilenceRequest) (rq : HttpRequest) (c : Ctx) : sprog Reply :=
  in_workspace c (λ wsID, with_body body (CreateSilence wsID (cx_user_id c))).
Definition deleteAlertSilence (rq : HttpRequest) (c : Ctx) : sprog Reply :=
  r ← DeleteSilence (rq_Param rq "id"); Ret (reply_to r).
End service.

(** Every route has this middleware. *)
Definition alert_route `{JwtLibrary} (env : string) (revoked : option RevocationList)
    (handler : HttpRequest -> Ctx -> sprog Reply) : HttpRequest -> Ctx -> sprog Reply :=
  serve [WorkspaceAuthMiddleware env revoked RoleViewer] handler.

(** ** Samples *)

Definition plain_alert_json : AlertJSON.
Proof.
  refine {| encode_strings := coded; encode_matchers := λ _, ""; parse_time := λ _, None;
    decode_strings := λ s, match uncoded s with Some x => inr x | None => inl (ErrText "invalid character") end |}.
  intros l. unfold uncoded, coded. by rewrite text_pos_text, decode_encode.
Defined.
Definition plain_templates : TextTemplate := {| execute_template := λ q _, inr q |}.

Definition load_request : CreateAlertRuleRequest := {|
  rr_Name := "load"; rr_MetricType := "tx"; rr_Operator := "gt"; rr_Threshold := float_of 5; rr_Duration := "5m";
  rr_Lookback := "5m"; rr_GroupBy := []; rr_ForEach := false; rr_Channels := ["ch-b"]; rr_Severity := "critical";
  rr_Message := "too much" |}.
Definition load_rule : AlertRule := @requested_rule plain_alert_json (blank_rule "r1" "ws-a") load_request.
Definition hook_of_b : AlertChannel := {|
  ach_Model := with_id "ch-b"; ach_Name := "b"; ach_WorkspaceID := "ws-b"; ach_Type := "webhook";
  ach_Config := "{}"; ach_Enabled := true |}.

(** The rule and another workspace's channel; the metric is [high] until something
    was recorded, then zero; records are stored if [store] says so. *)
Definition load_world (high : spec_float) (store : bool) T (e : alertE T) (s : list aevent) : T * list aevent :=
  let answer : T := match e in alertE T return T with
    | LSrv _ e => match e in srvE T return T with
                  | DFind t _ _ => match t return gresult (list (row t)) with TRule => inr [load_rule] | _ => inr [] end
                  | DFirst t _ => match t return gresult (row t) with
                                  | TChannel => inr hook_of_b | _ => inl ErrRecordNotFound end
                  | DCreate t x => if store then inr x else inl (ErrText "disk full")
                  | SUUID => "id"
                  | SNow => 7
                  | e => (memory_db (H := plain_like) 7 (λ _, "id") (λ u, u) _ e
                           {| w_tables := sample_tables; w_saved := None; w_objects := []; w_executed := [] |}).1
                  end
    | LVMQuery _ _ => inr (VVector [{| sa_Metric := ∅; sa_Value := if s is [] then high else float_of 0;
                                       sa_Timestamp := 0 |}])
    | LCountPeers _ _ => inr 0
    | LPeers _ => inr []
    | LSend _ _ _ => inr tt
    end in
  (answer, s ++ event_of T e answer).

Lemma load_world_traces high store T (e : alertE T) s r s' :
  fun_world (load_world high store) T e s r s' -> alert_world T e s r s'.
Proof. intros E. unfold fun_world, load_world in E. injection E as <- <-. reflexivity. Qed.

(** [n] evaluations in that world. *)
Definition load_run (high : spec_float) (store : bool) (n : nat) : option activeAlerts * list aevent :=
  run (load_world high store)
    (@evaluations range_in_order plain_templates plain_alert_json {[ "tx" := {| mt_Query := "q"; mt_ResultType := "scalar" |} ]}
       {["victoriametrics"]} {["webhook"]} n ∅) [].

(** What a trace says, for reading. *)
Definition event_text (ev : aevent) : string :=
  match ev with
  | EvHistory h stored => ah_Status h +:+ (if stored then "" else " (not stored)")
  | EvSend kind req _ => "sent " +:+ nr_Status req
  end.

(** An alert fires at once, although the rule asks for five minutes, is sent to the
    channel of another workspace, and resolves. *)
Example load_alert :
  event_text <$> (load_run (float_of 9) true 1).2 = ["firing"; "sent firing"] /\
  event_text <$> (load_run (float_of 9) true 4).2 = ["firing"; "sent firing"; "resolved"; "sent resolved"].
Proof. split; vm_compute; reflexivity. Qed.

(** A record that cannot be stored is not tried again: nobody is told of the alert. *)
Example load_alert_lost :
  event_text <$> (load_run (float_of 9) false 4).2 = ["firing (not stored)"; "resolved (not stored)"].
Proof. vm_compute. reflexivity. Qed.

Lemma alerts_lifecycle_witness :
  let st := default ∅ (load_run (float_of 9) true 2).1 in
  (forall id, lifecycle None (histories id (load_run (float_of 9) true 2).2) = Some (aa_FirstSeen <$> st !! alertKey id)) /\
  (forall l1 kind req config l2, (load_run (float_of 9) true 2).2 = l1 ++ EvSend kind req config :: l2 ->
     exists h, EvHistory h true ∈ l1 /\ tells_of req h).
Proof.
  cbv zeta. eapply (@alerts_lifecycle range_in_order plain_templates plain_alert_json _ _ _ 2).
  eapply (runs_weaken (fun_world (load_world (float_of 9) true))); [apply load_world_traces|].
  apply run_runs. vm_compute. reflexivity.
Defined.

(** A stored rule, changed to a threshold of zero and no message. *)
Definition quiet_request : CreateAlertRuleRequest := {|
  rr_Name := "load"; rr_MetricType := "tx"; rr_Operator := "gt"; rr_Threshold := S754_zero false; rr_Duration := "5m";
  rr_Lookback := "5m"; rr_GroupBy := []; rr_ForEach := false; rr_Channels := []; rr_Severity := "critical";
  rr_Message := "" |}.
Definition rules_world : World := {|
  w_tables := with_alerts viewer_tables {| al_rules := [load_rule]; al_history := []; al_channels := [hook_of_b]; al_silences := [] |};
  w_saved := None; w_objects := []; w_executed := [] |}.

(** The answer shows the threshold zero that was asked for; the database keeps five. *)
Example update_keeps_threshold :
  let r := run viewer_db (@UpdateRule plain_alert_json "r1" quiet_request) rules_world in
  (match r.1 with Some (inr rule) => Some (ar_Threshold rule, ar_Message rule) | _ => None end,
   (λ rule, (ar_Threshold rule, ar_Message rule)) <$> al_rules (t_alerts (w_tables r.2))) =
  (Some (S754_zero false, ""), [(float_of 5, "too much")]).
Proof. vm_compute. reflexivity. Qed.

(** Alice, who may only look at workspace a, deletes the channel of workspace b. *)
Lemma viewer_deletes_foreign_channel :
  let r := run viewer_db (@alert_route plain_jwt "" (Some ∅) deleteAlertChannel
    {| rq_Authorization := "Bearer alice:jti"; rq_WorkspaceId := "ws-a"; rq_Param := λ _, "ch-b" |} empty_ctx) rules_world in
  r.1 = Some OK /\ live TChannel <$> al_channels (t_alerts (w_tables r.2)) = [false].
Proof. vm_compute. repeat split. Qed.
