(* ===== verification/AuditTrail.v ===== *)
(** * AuditTrail: the log of changes
    ([internal/server/service/audit.go], [internal/server/server/middleware/audit.go])

    A middleware makes an entry of every request that is not a GET, and a service
    queues the entries for a goroutine that writes them in batches. *)

From S2P Require Import Prelude Prog Net Api Store Access.

(** [au_CreatedAt]: 0 when it is not set. *)
Record AuditLog := {
  au_ID : string;
  au_CreatedAt : Z;
  au_UserID : string;
  au_UserName : string;
  au_UserEmail : string;
  au_UserIP : string;
  au_WorkspaceID : string;
  au_Action : string;
  au_Resource : string;
  au_ResourceID : string;
  au_ResourceName : string;
  au_Scope : string;
  au_Status : string;
  au_StatusCode : Z;
  au_Detail : string;
}.

(** ** The middleware *)

Definition actionFromMethod (method path : string) : string :=
  let lp := str_lower path in
  if str_contains "/login" lp then "LOGIN"
  else if str_contains "/logout" lp then "LOGOUT"
  else if str_contains "/accept" lp then "ACCEPT"
  else if str_contains "/invitations" lp && bool_decide (method = "POST") then "INVITE"
  else if str_contains "/invitations" lp && bool_decide (method = "DELETE") then "REVOKE"
  else if bool_decide (method = "POST") then "CREATE"
  else if bool_decide (method = "PUT") || bool_decide (method = "PATCH") then "UPDATE"
  else if bool_decide (method = "DELETE") then "DELETE"
  else method.

(** [strings.NewReplacer]: at each place the first of the pairs whose old text is
    there is replaced, and the search goes on behind it. *)
Fixpoint first_match (pairs : list (string * string)) (s : string) : option (string * string) :=
  match pairs with
  | [] => None
  | (old, new) :: pairs => if has_prefix old s then Some (old, new) else first_match pairs s
  end.
Fixpoint str_replace (pairs : list (string * string)) (skip : nat) (s : string) : string :=
  match s with
  | EmptyString => ""
  | String c s' =>
      match skip with
      | S skip => str_replace pairs skip s'
      | O => match first_match pairs s with
             | Some (old, new) => new +:+ str_replace pairs (String.length old - 1) s'
             | None => String c (str_replace pairs 0 s')
             end
      end
  end.

Definition singularize (s : string) : string :=
  str_replace [("members", "member"); ("invitations", "invitation"); ("workspaces", "workspace");
    ("policies", "policy"); ("relays", "relay"); ("tokens", "token"); ("users", "user"); ("peers", "peer");
    ("networks", "network")] 0 s.

(** [strings.Split] at slashes, and [strings.Trim] of slashes. *)
Definition slash : ascii := ascii_of_nat 47.
Fixpoint split_slash (s : string) : list string :=
  match s with
  | EmptyString => [""]
  | String c s =>
      if bool_decide (c = slash) then "" :: split_slash s
      else match split_slash s with x :: l => String c x :: l | [] => [String c ""] end
  end.
Fixpoint trim_left_slash (s : string) : string :=
  match s with
  | String c s' => if bool_decide (c = slash) then trim_left_slash s' else s
  | EmptyString => ""
  end.
Fixpoint trim_right_slash (s : string) : string :=
  match s with
  | EmptyString => ""
  | String c s' => if bool_decide (trim_left_slash s = "") then "" else String c (trim_right_slash s')
  end.

Fixpoint count_char (c : ascii) (s : string) : nat :=
  match s with
  | EmptyString => 0
  | String d s => ((if bool_decide (c = d) then 1 else 0) + count_char c s)%nat
  end.

Definition skipped_segment (s : string) : bool :=
  bool_decide (s ∈ [""; "api"; "v1"; "accept"; "login"; "logout"; "register"]) ||
  (bool_decide (String.length s = 36%nat) && bool_decide (count_char (ascii_of_nat 45) s = 4%nat)).

(** The last segment that is not skipped. *)
Definition resourceFromPath (path : string) : string :=
  match last (filter (λ s, skipped_segment s = false) (split_slash (trim_right_slash (trim_left_slash path)))) with
  | Some s => singularize s
  | None => "unknown"
  end.

Definition scopeFromParams (param : string -> string) : string :=
  str_join " " ((if bool_decide (param "id" = "") then [] else ["workspace:" +:+ param "id"]) ++
    ((λ p, p +:+ ":" +:+ param p) <$> filter (λ p, param p <> "") ["userID"; "invID"; "token"; "name"])).

(** What the middleware reads of a request; [ad_FullPath] is the pattern of the
    route, with the names of its parameters. *)
Record AuditedRequest := {
  ad_Method : string; ad_FullPath : string; ad_ClientIP : string; ad_WorkspaceHeader : string;
  ad_Param : string -> string;
}.

Definition audit_entry (rq : AuditedRequest) (c : Ctx) (scope : string) (code : Z) : AuditLog := {|
  au_ID := ""; au_CreatedAt := 0; au_UserID := cx_user_id c; au_UserName := cx_username c;
  au_UserEmail := cx_email c; au_UserIP := ad_ClientIP rq; au_WorkspaceID := ad_WorkspaceHeader rq;
  au_Action := actionFromMethod (ad_Method rq) (ad_FullPath rq); au_Resource := resourceFromPath (ad_FullPath rq);
  au_ResourceID := ""; au_ResourceName := "";
  au_Scope := if bool_decide (scope = "") then scopeFromParams (ad_Param rq) else scope;
  au_Status := if code >=? 400 then "failed" else "success"; au_StatusCode := code; au_Detail := "" |}.

(** The rest of the chain answers with a status code ([0]: nothing was written),
    leaves its context behind, and may have set a scope; [log] is the service. *)
Definition AuditMiddleware {E} (log : AuditLog -> prog E unit) (rq : AuditedRequest)
    (next : prog E (Z * Ctx * string)) : prog E Z :=
  r ← next;
  let '(code, c, scope) := r in
  if bool_decide (ad_Method rq = "GET") || bool_decide (ad_Method rq = "OPTIONS") then Ret code
  else
    let code := if code =? 0 then 200 else code in
    _ ← log (audit_entry rq c scope code);
    Ret code.

(** The status codes that the helpers of [pkg/utils/resp] write. *)
Definition reply_code (r : Reply) : Z := match r with Accepted => 202 | _ => 200 end.

(** A handler of the server reports its errors with the status 200, so that the log
    takes every failure for a success. *)
Lemma every_reply_is_success rq c scope r : au_Status (audit_entry rq c scope (reply_code r)) = "success".
Proof. by destruct r. Qed.

(** The resource of a route that ends with a parameter is the parameter. *)
Example resource_of_routes :
  resourceFromPath <$> ["/api/v1/policies"; "/api/v1/policies/:name"; "/api/v1/policies/update";
    "/api/v1/workspaces/:id/members/:userID"; "/api/v1/peers/:name/disable"; "/api/v1/users/login"] =
  ["policy"; ":name"; "update"; ":userID"; "disable"; "user"].
Proof. vm_compute. reflexivity. Qed.

(** ** The service *)

(** What the goroutine is doing: its loop, the drain after the context ended, or
    nothing any more. *)
Inductive writer_mode := Running | Draining | Stopped.

(** The channel and the buffer; the batches that were given to the database with
    whether it took them; the entries that the channel took and those that were
    dropped. *)
Record audit_state := {
  q_ch : list AuditLog;
  q_buf : list AuditLog;
  q_mode : writer_mode;
  q_flushed : list (list AuditLog * bool);
  q_accepted : list AuditLog;
  q_dropped : list AuditLog;
}.

Definition audit_start : audit_state :=
  {| q_ch := []; q_buf := []; q_mode := Running; q_flushed := []; q_accepted := []; q_dropped := [] |}.

(** The channel has room for 512 entries. *)
Definition channel_size : nat := 512.
Definition batch_size : nat := 100.

(** The identifier and the time of an entry that has none. *)
Definition stamp (id : string) (now : Z) (e : AuditLog) : AuditLog := {|
  au_ID := if bool_decide (au_ID e = "") then id else au_ID e;
  au_CreatedAt := if au_CreatedAt e =? 0 then now else au_CreatedAt e;
  au_UserID := au_UserID e; au_UserName := au_UserName e; au_UserEmail := au_UserEmail e; au_UserIP := au_UserIP e;
  au_WorkspaceID := au_WorkspaceID e; au_Action := au_Action e; au_Resource := au_Resource e;
  au_ResourceID := au_ResourceID e; au_ResourceName := au_ResourceName e; au_Scope := au_Scope e;
  au_Status := au_Status e; au_StatusCode := au_StatusCode e; au_Detail := au_Detail e |}.

Definition Log (id : string) (now : Z) (e : AuditLog) (s : audit_state) : audit_state :=
  let e := stamp id now e in
  if bool_decide (length (q_ch s) < channel_size)%nat then
    {| q_ch := q_ch s ++ [e]; q_buf := q_buf s; q_mode := q_mode s; q_flushed := q_flushed s;
       q_accepted := q_accepted s ++ [e]; q_dropped := q_dropped s |}
  else
    {| q_ch := q_ch s; q_buf := q_buf s; q_mode := q_mode s; q_flushed := q_flushed s;
       q_accepted := q_accepted s; q_dropped := q_dropped s ++ [e] |}.

(** An error of the database, when [ok] is false, is logged; the buffer is emptied. *)
Definition flush (ok : bool) (s : audit_state) : audit_state :=
  match q_buf s with
  | [] => s
  | buf => {| q_ch := q_ch s; q_buf := []; q_mode := q_mode s; q_flushed := q_flushed s ++ [(buf, ok)];
              q_accepted := q_accepted s; q_dropped := q_dropped s |}
  end.

Definition set_mode (m : writer_mode) (s : audit_state) : audit_state :=
  {| q_ch := q_ch s; q_buf := q_buf s; q_mode := m; q_flushed := q_flushed s; q_accepted := q_accepted s;
     q_dropped := q_dropped s |}.

(** The entry at the head of the channel, moved to the buffer. *)
Definition buffered (e : AuditLog) (ch : list AuditLog) (s : audit_state) : audit_state :=
  {| q_ch := ch; q_buf := q_buf s ++ [e]; q_mode := q_mode s; q_flushed := q_flushed s; q_accepted := q_accepted s;
     q_dropped := q_dropped s |}.

Definition on_entry (ok : bool) (e : AuditLog) (ch : list AuditLog) (s : audit_state) : audit_state :=
  let s := buffered e ch s in
  if bool_decide (batch_size <= length (q_buf s))%nat then flush ok s else s.

(** Requests log entries while the goroutine runs; its [select] takes any case that
    is ready. *)
Inductive audit_step : audit_state -> audit_state -> Prop :=
| audit_log id now e s : audit_step s (Log id now e s)
| audit_entry_case ok e ch s : q_mode s = Running -> q_ch s = e :: ch -> audit_step s (on_entry ok e ch s)
| audit_tick ok s : q_mode s = Running -> audit_step s (flush ok s)
| audit_done s : q_mode s = Running -> audit_step s (set_mode Draining s)
| audit_drain e ch s : q_mode s = Draining -> q_ch s = e :: ch -> audit_step s (buffered e ch s)
| audit_stop ok s : q_mode s = Draining -> q_ch s = [] -> audit_step s (set_mode Stopped (flush ok s)).

(** The entries of the batches, in order. *)
Definition flushed_entries (s : audit_state) : list AuditLog := concat (fst <$> q_flushed s).

Record audit_ok (s : audit_state) : Prop := {
  ao_order : q_accepted s = flushed_entries s ++ q_buf s ++ q_ch s;
  ao_room : (length (q_ch s) <= channel_size)%nat;
  ao_buffer : q_mode s = Running -> (length (q_buf s) < batch_size)%nat;
  ao_stopped : q_mode s = Stopped -> q_buf s = [];
  ao_batches : Forall (λ b, b.1 <> []) (q_flushed s);
}.

Lemma flush_keeps (ok : bool) s :
  flushed_entries (flush ok s) ++ q_buf (flush ok s) ++ q_ch (flush ok s) = flushed_entries s ++ q_buf s ++ q_ch s /\
  q_ch (flush ok s) = q_ch s /\ q_buf (flush ok s) = [] /\ q_mode (flush ok s) = q_mode s /\
  q_accepted (flush ok s) = q_accepted s /\
  (Forall (λ b, b.1 <> []) (q_flushed s) -> Forall (λ b, b.1 <> []) (q_flushed (flush ok s))).
Proof.
  unfold flush, flushed_entries. destruct (q_buf s) as [|e buf] eqn:E; [by rewrite E|]. cbn. split_and!; try done.
  - rewrite fmap_app, concat_app. cbn. by rewrite app_nil_r, <- app_assoc.
  - intros Hf. apply Forall_app. split; [done|]. by constructor.
Qed.

Lemma audit_step_ok s s' : audit_ok s -> audit_step s s' -> audit_ok s'.
Proof.
  intros [Ho Hr Hb Hs Hf] Hst. destruct Hst as [id now e s|ok e ch s Hm Hc|ok s Hm|s Hm|e ch s Hm Hc|ok s Hm Hc].
  - unfold Log. cbv zeta. case_bool_decide as Hl; split; cbn; try done.
    + rewrite Ho. unfold flushed_entries. cbn. by rewrite <- !app_assoc.
    + rewrite length_app. cbn. lia.
  - assert (Ho' : q_accepted s = flushed_entries s ++ (q_buf s ++ [e]) ++ ch) by (by rewrite Ho, Hc, <- app_assoc).
    assert (Hr' : (length ch <= channel_size)%nat) by (rewrite Hc in Hr; cbn in Hr; lia).
    unfold on_entry. cbv zeta. cbn [buffered q_buf]. case_bool_decide as Hl.
    + destruct (flush_keeps ok (buffered e ch s)) as (E1 & E2 & E3 & E4 & E5 & E6). split.
      * by rewrite E1, E5.
      * by rewrite E2.
      * intros _. rewrite E3. cbn. unfold batch_size. lia.
      * done.
      * by apply E6.
    + split; cbn; try done; [intros _; lia|congruence].
  - destruct (flush_keeps ok s) as (E1 & E2 & E3 & E4 & E5 & E6). split.
    + by rewrite E1, E5.
    + by rewrite E2.
    + intros _. rewrite E3. cbn. unfold batch_size. lia.
    + done.
    + by apply E6.
  - by split.
  - split; cbn; try done; [|rewrite Hc in Hr; cbn in Hr; lia|congruence..].
    rewrite Ho, Hc. unfold flushed_entries. cbn. by rewrite <- !app_assoc.
  - destruct (flush_keeps ok s) as (E1 & E2 & E3 & E4 & E5 & E6). split; cbn; try done.
    + rewrite E5, Ho, <- E1. done.
    + by rewrite E2.
    + by apply E6.
Qed.

(** When the context ends, what waits is written. *)
Lemma audit_drains (ok : bool) s : audit_ok s -> q_mode s = Draining ->
  exists s', rtc audit_step s s' /\ q_mode s' = Stopped /\ q_accepted s' = q_accepted s /\
    flushed_entries s' = q_accepted s.
Proof.
  remember (q_ch s) as ch eqn:Ec. revert s Ec. induction ch as [|e ch IH]; intros s Ec Hok Hm.
  - exists (set_mode Stopped (flush ok s)). destruct (flush_keeps ok s) as (E1 & E2 & E3 & E4 & E5 & _).
    split_and!; [by apply rtc_once, audit_stop|done|done|].
    destruct Hok as [Ho _ _ _ _]. rewrite Ho, <- E1, E3, E2, <- Ec, !app_nil_r. done.
  - assert (Hst : audit_step s (buffered e ch s)) by (by apply audit_drain).
    destruct (IH (buffered e ch s)) as (s' & Hs & Hm' & Ha & Hf); [done|by eapply audit_step_ok|done|].
    exists s'. split_and!; [by eapply rtc_l|done..].
Qed.

(** What the goroutine found accepted while it ran is given to the database before it stops. *)
Lemma audit_step_mode s s' : audit_ok s -> audit_step s s' ->
  q_accepted s `prefix_of` q_accepted s' /\ flushed_entries s `prefix_of` flushed_entries s' /\
  (q_mode s = Stopped -> q_mode s' = Stopped) /\
  (q_mode s <> Stopped -> q_mode s' = Stopped -> flushed_entries s' = q_accepted s').
Proof.
  assert (Hflush : forall ok s, flushed_entries s `prefix_of` flushed_entries (flush ok s)).
  { intros ok x. unfold flush, flushed_entries. destruct (q_buf x); [done|]. cbn. rewrite fmap_app, concat_app. by eexists. }
  intros Hok Hst. pose proof (audit_step_ok _ _ Hok Hst) as [Ho _ _ Hs _].
  destruct Hst as [id now e s|ok e ch s Hm Hc|ok s Hm|s Hm|e ch s Hm Hc|ok s Hm Hc].
  - unfold Log. cbv zeta. case_bool_decide; cbn; (split_and!; [first [done|by eexists]|done|done|done]).
  - unfold on_entry. cbv zeta. cbn [buffered q_buf]. destruct (flush_keeps ok (buffered e ch s)) as (_ & _ & _ & E4 & E5 & _).
    case_bool_decide; (split_and!; [by rewrite ?E5|try apply (Hflush ok (buffered e ch s)); done|congruence|]).
    + rewrite E4. cbn. congruence.
    + cbn. congruence.
  - destruct (flush_keeps ok s) as (_ & _ & _ & E4 & E5 & _).
    split_and!; [by rewrite E5|apply Hflush|congruence|rewrite E4; congruence].
  - split_and!; [done|done|congruence|done].
  - split_and!; [done|done|congruence|cbn; congruence].
  - destruct (flush_keeps ok s) as (_ & E2 & E3 & _ & E5 & _). split_and!; [by cbn; rewrite E5|apply Hflush|done|].
    intros _ _. revert Ho. cbn. rewrite E2, Hc, E3, !app_nil_r. intros ->. done.
Qed.

Lemma audit_stops s s' : audit_ok s -> q_mode s <> Stopped -> rtc audit_step s s' -> q_mode s' = Stopped ->
  q_accepted s `prefix_of` flushed_entries s'.
Proof.
  intros Hok Hm Hr Hs. revert Hok Hm.
  enough (Hgen : audit_ok s -> (q_mode s <> Stopped -> q_accepted s `prefix_of` flushed_entries s') /\
    flushed_entries s `prefix_of` flushed_entries s') by (intros; by apply Hgen).
  induction Hr as [s|s s1 s' Hst Hr IH]; intros Hok; [done|].
  destruct (audit_step_mode _ _ Hok Hst) as (Ha & Hf & _ & Hstop). pose proof (audit_step_ok _ _ Hok Hst) as Hok1.
  destruct (IH Hs Hok1) as [IH1 IH2]. split; [|by etrans]. intros Hm.
  destruct (q_mode s1) eqn:E1; [| |].
  - etrans; [exact Ha|]. by apply IH1.
  - etrans; [exact Ha|]. by apply IH1.
  - etrans; [exact Ha|]. rewrite <- Hstop by done. exact IH2.
Qed.

(** C30. The queue of the log. However requests and the goroutine interleave and whichever
    writes fail: the entries that the channel took are, in the order in which they were logged,
    those of the batches given to the database, then those in the buffer, then those in the
    channel, so none is written twice, skipped or overtaken; the buffer stays below a hundred
    while the goroutine runs; no batch is empty. As long as the goroutine has not stopped it
    can, and however it comes to stop after the context ended, everything that the channel had
    taken before was given to the database, in order. *)
Theorem audit_queue s :
  rtc audit_step audit_start s ->
  q_accepted s = flushed_entries s ++ q_buf s ++ q_ch s /\
  (length (q_ch s) <= channel_size)%nat /\
  (q_mode s = Running -> (length (q_buf s) < batch_size)%nat) /\
  Forall (λ b, b.1 <> []) (q_flushed s) /\
  (q_mode s <> Stopped ->
     (exists s', rtc audit_step s s' /\ q_mode s' = Stopped) /\
     forall s', rtc audit_step s s' -> q_mode s' = Stopped -> q_accepted s `prefix_of` flushed_entries s').
Proof.
  intros Hr. assert (Hok : audit_ok s).
  { assert (H0 : audit_ok audit_start) by (split; cbn; try done; unfold channel_size, batch_size; lia).
    revert H0 Hr. generalize audit_start as s0. intros s0 H0 Hr. induction Hr as [|s0 s1 s Hst Hr IH]; [done|].
    apply IH. by eapply audit_step_ok. }
  pose proof Hok as [Ho Hroom Hb Hs Hf]. split_and!; try done. intros Hm. split; [|by intros; eapply audit_stops].
  destruct (q_mode s) eqn:E; [| |done].
  - assert (Hd : audit_step s (set_mode Draining s)) by (by apply audit_done).
    destruct (audit_drains true (set_mode Draining s)) as (s' & Hs' & Hm' & _); [by eapply audit_step_ok|done|].
    exists s'. split; [by eapply rtc_l|done].
  - destruct (audit_drains true s) as (s' & Hs' & Hm' & _); [done|done|]. by exists s'.
Qed.

Definition sample_entry (action : string) : AuditLog := {|
  au_ID := ""; au_CreatedAt := 0; au_UserID := "alice"; au_UserName := "Alice"; au_UserEmail := ""; au_UserIP := "";
  au_WorkspaceID := ""; au_Action := action; au_Resource := "policy"; au_ResourceID := ""; au_ResourceName := "";
  au_Scope := ""; au_Status := "success"; au_StatusCode := 200; au_Detail := "" |}.

Lemma audit_queue_witness :
  let s1 := Log "1" 5 (sample_entry "CREATE") audit_start in
  let s2 := Log "2" 6 (sample_entry "DELETE") s1 in
  let s3 := on_entry true (stamp "1" 5 (sample_entry "CREATE")) [stamp "2" 6 (sample_entry "DELETE")] s2 in
  let s4 := flush true s3 in
  rtc audit_step audit_start s4 /\ au_ID <$> flushed_entries s4 = ["1"] /\ au_ID <$> q_ch s4 = ["2"] /\
  forall s', rtc audit_step s4 s' -> q_mode s' = Stopped -> ["1"; "2"] `prefix_of` (au_ID <$> flushed_entries s').
Proof.
  cbv zeta. match goal with |- rtc _ _ ?s /\ _ => assert (Hr : rtc audit_step audit_start s) end.
  { eapply rtc_l; [apply audit_log|]. eapply rtc_l; [apply audit_log|].
    eapply rtc_l; [apply (audit_entry_case true); reflexivity|]. apply rtc_once, audit_tick. reflexivity. }
  split; [exact Hr|]. split; [vm_compute; reflexivity|]. split; [vm_compute; reflexivity|].
  intros s' Hs' Hm. destruct (audit_queue _ Hr) as (_ & _ & _ & _ & Hstop).
  destruct (Hstop (λ E, match E in _ = m return match m with Running => True | _ => False end with eq_refl => I end)) as [_ Hall].
  destruct (Hall s' Hs' Hm) as [rest E]. rewrite E. exists (au_ID <$> rest). rewrite fmap_app. reflexivity.
Defined.
