(* ===== verification/Signal.v ===== *)
(** * Signal: messages between agents and the management server
    ([internal/server/nats/nats.go] and [presence.go], [internal/server/client/client.go],
    [ProbeFactory.Handle] and [Probe.Handle] of [internal/server/transport],
    [internal/agent/heartbeat.go], the reconnection of [internal/agent/node.go],
    [Register], [GetNetMap] and [Heartbeat] of [internal/server/server/server.go])

    Agents ask the server over a message bus: a request carries a subject, a queue
    subscriber answers it, and an error travels in a header.  Agents signal each other
    and receive their configuration as packets on a subject of their own. *)

From S2P Require Import Prelude Prog Net Api Message Infra Transport Agent Dialers Ai Mgmt Policies Peers.

(** ** Requests and services *)

(** What a subscriber answers: its error and status headers, and the data. *)
Record NatsMsg := { nm_Error : string; nm_Status : string; nm_Data : string }.

Inductive nats_error := NoResponders | NatsErr (e : gerror).
Definition nats_gerror (e : nats_error) : gerror :=
  match e with NoResponders => ErrText "nats: no responders available for request" | NatsErr e => e end.

(** [NWait]: the delay in milliseconds passed, or the context ended with an error. *)
Inductive natsE : Type -> Type :=
| NConnected : natsE bool
| NRequest (subject data : string) : natsE (nats_error + NatsMsg)
| NWait (delay : Z) : natsE (option gerror).

Definition maxRetries : nat := 5.
Definition baseDelay : Z := 100.

(** The loop over the attempts [i], [n] of which are left. *)
Fixpoint request_loop (subject data : string) (n : nat) (i : Z) (last : nats_error) : prog natsE (gerror + NatsMsg) :=
  match n with
  | O => Ret (inl (nats_gerror last))
  | S n =>
      r ← call (NRequest subject data);
      match r with
      | inr msg => Ret (inr msg)
      | inl (NatsErr err) => Ret (inl err)
      | inl NoResponders =>
          w ← call (NWait (Z.shiftl baseDelay i));
          match w with
          | Some err => Ret (inl err)
          | None => request_loop subject data n (i + 1) NoResponders
          end
      end
  end.

Definition Request (subject method data : string) : prog natsE (gresult string) :=
  connected ← call NConnected;
  if negb connected then Ret (inl (ErrText "nats: connection is not ready"))
  else
    r ← request_loop (subject +:+ "." +:+ method) data maxRetries 0 NoResponders;
    match r with
    | inl err => Ret (inl err)
    | inr msg =>
        if bool_decide (nm_Error msg = "") then Ret (inr (nm_Data msg)) else Ret (inl (ErrText (nm_Error msg)))
    end.

(** The answer of [Service] to a request its function answered. *)
Definition service_reply (answer : gresult string) : NatsMsg :=
  match answer with
  | inl err => {| nm_Error := error_text err; nm_Status := "400"; nm_Data := "" |}
  | inr data => {| nm_Error := ""; nm_Status := ""; nm_Data := data |}
  end.

(** What the asking side makes of such an answer. *)
Definition answered (answer : gresult string) : gresult string :=
  match answer with
  | inr data => inr data
  | inl err => if bool_decide (error_text err = "") then inr "" else inl (ErrText (error_text err))
  end.

(** The bus, with the state [S] of the subscribers' side: [H subject data] is what
    the subscriber of a subject may do.  A request without a responder reaches no one;
    one that fails otherwise, for instance by a timeout, may have been served. *)
Section bus.
Context {S : Type} (H : string -> string -> S -> gresult string -> S -> Prop).

Definition bus_world T (e : natsE T) (s : S) (r : T) (s' : S) : Prop :=
  match e in natsE T return T -> Prop with
  | NConnected => λ _, s' = s
  | NWait _ => λ _, s' = s
  | NRequest subject data => λ r,
      match r with
      | inl NoResponders => s' = s
      | inl (NatsErr _) => s' = s \/ exists answer, H subject data s answer s'
      | inr msg => exists answer, H subject data s answer s' /\ msg = service_reply answer
      end
  end r.

Lemma request_loop_inv subject data n i last s r s' :
  runs bus_world (request_loop subject data n i last) s r s' ->
  match r with
  | inl _ => s' = s \/ exists answer, H subject data s answer s'
  | inr msg => exists answer, H subject data s answer s' /\ msg = service_reply answer
  end.
Proof.
  revert i last s. induction n as [|n IH]; intros i last s Hr.
  { apply runs_ret_inv in Hr as [-> ->]. by left. }
  apply runs_bind_inv in Hr as (a & s1 & Ha & Hr). apply runs_call_inv in Ha. destruct a as [[|err]|msg].
  - cbn in Ha. subst s1. apply runs_bind_inv in Hr as (w & s1 & Hw & Hr). apply runs_call_inv in Hw. cbn in Hw. subst s1.
    destruct w as [err|]; [apply runs_ret_inv in Hr as [-> ->]; by left|]. by apply IH in Hr.
  - apply runs_ret_inv in Hr as [-> ->]. exact Ha.
  - apply runs_ret_inv in Hr as [-> ->]. exact Ha.
Qed.

(** Remote calls are made at most once.  However often a request is repeated: it is
    served once or not at all, and a result is the answer of that one time, with its
    error by its text.  An error without a text counts as an empty answer. *)
Theorem Request_at_most_once subject method data s r s' :
  runs bus_world (Request subject method data) s r s' ->
  match r with
  | inr text => exists answer, H (subject +:+ "." +:+ method) data s answer s' /\ answered answer = inr text
  | inl err => s' = s \/ exists answer, H (subject +:+ "." +:+ method) data s answer s'
  end.
Proof.
  intros Hr. apply runs_bind_inv in Hr as (b & s1 & Hb & Hr). apply runs_call_inv in Hb. cbn in Hb. subst s1.
  destruct b; cbn [negb] in Hr; [|apply runs_ret_inv in Hr as [-> ->]; by left].
  apply runs_bind_inv in Hr as (a & s1 & Ha & Hr). apply request_loop_inv in Ha.
  destruct a as [err|msg]; [apply runs_ret_inv in Hr as [-> ->]; exact Ha|].
  destruct Ha as (answer & HH & ->). unfold answered. destruct answer as [err|text]; cbn in Hr.
  - destruct (bool_decide (error_text err = "")) eqn:E; apply runs_ret_inv in Hr as [-> ->]; [|by eauto].
    exists (inl err). by rewrite E.
  - rewrite bool_decide_true in Hr by done. apply runs_ret_inv in Hr as [-> ->]. eauto.
Qed.
End bus.

(** A subject without a subscriber: five requests, and 3.1 seconds of waiting. *)
Definition deaf_world T (e : natsE T) (s : Z * Z) : T * (Z * Z) :=
  match e in natsE T return T * (Z * Z) with
  | NConnected => (true, s)
  | NRequest _ _ => (inl NoResponders, (s.1 + 1, s.2))
  | NWait delay => (None, (s.1, s.2 + delay))
  end.
Example request_gives_up subject method data :
  run deaf_world (Request subject method data) (0, 0) = (Some (inl (nats_gerror NoResponders)), (5, 3100)).
Proof. reflexivity. Qed.

(** ** Presence *)

(** The store of the last heartbeats is that of [Ai], whose tools read it. *)

(** [payload]: the decoded heartbeat, or the error of decoding it. *)
Definition server_Heartbeat (s : NodePresenceStore) (payload : gresult string) (now : Z) : gresult string * NodePresenceStore :=
  match payload with
  | inl err => (inl err, s)
  | inr appId => (inr "", if bool_decide (appId = "") then s else presence_Update s appId now)
  end.

(** ** The agent's client *)

(** The request of [dto.PeerDto] as the services read it, and the JSON of the answers. *)
Class ClientJSON := {
  encode_dto : PeerDto -> string;
  decode_dto : string -> gresult PeerDto;
  encode_answer : InfraPeer -> string;
  decode_answer : string -> gresult InfraPeer;
  encode_heartbeat : string -> string;
}.

Section client.
Context `{ClientJSON} `{ConfigJSON}.

Definition dto_of (appId ifname platform token : string) : PeerDto := {|
  pe_Name := appId; pe_Namespace := ""; pe_AppID := appId; pe_Platform := platform; pe_InterfaceName := ifname;
  pe_Token := token; pe_Labels := ∅; pe_DisplayName := "" |}.

(** [hostname]: what [os.Hostname] gives; the host name itself is not read by the
    server's services.  [appId] and [platform] are the configured ones. *)
Definition agent_Register (appId platform : string) (hostname : gresult string) (token ifname : string)
    : prog natsE (gresult InfraPeer) :=
  if bool_decide (token = "") then Ret (inl (ErrText "token is empty"))
  else match hostname with
    | inl err => Ret (inl err)
    | inr _ =>
        data ← Request "lattice.signals.peer" "register" (encode_dto (dto_of appId ifname platform token));
        match data with
        | inl err => Ret (inl (ErrText ("register failed. " +:+ error_text err)))
        | inr data => Ret (decode_answer data)
        end
    end.

(** The request of a network map names the agent and its token only. *)
Definition agent_GetNetMap (appId configured : string) (token : string) : prog natsE (gresult (option Message)) :=
  let token := if bool_decide (token = "") then configured else token in
  let request := {| pe_Name := ""; pe_Namespace := ""; pe_AppID := appId; pe_Platform := ""; pe_InterfaceName := "";
    pe_Token := token; pe_Labels := ∅; pe_DisplayName := "" |} in
  data ←? Request "lattice.signals.peer" "GetNetMap" (encode_dto request);
  Ret (decode_message data).

(** One heartbeat at once and one per tick; failures are only logged. *)
Fixpoint StartHeartbeat (appId : string) (ticks : nat) : prog natsE unit :=
  _ ← Request "lattice.signals.peer" "heartbeat" (encode_heartbeat appId);
  match ticks with
  | O => Ret tt
  | S ticks => StartHeartbeat appId ticks
  end.
End client.

(** ** The server's side of enrollment *)

Section server.
Context `{ClientJSON} `{PrivateKeys}.

(** [peerController.Register] behind [Server.Register]. *)
Definition server_Register (request : string) : mprog (gresult string) :=
  match decode_dto request with
  | inl err => Ret (inl err)
  | inr dto => peer ←? Peers.Register dto; Ret (inr (encode_answer peer))
  end.

(** The subscriptions of the server that concern enrollment, in a world of the
    management server. *)
Definition server_routes {S} (w : forall T, mgmtE T -> S -> T -> S -> Prop) (subject data : string) (s : S)
    (answer : gresult string) (s' : S) : Prop :=
  subject = "lattice.signals.peer.register" /\ runs w (server_Register data) s answer s'.

(** C38. Enrollment over the bus: when an agent is given a peer, the server enrolled exactly
    once, with the token, name, interface and platform of the agent, and answered this peer;
    what enrolling does is [Register_spec]. *)
Theorem enrolled_over_bus {S} (w : forall T, mgmtE T -> S -> T -> S -> Prop) appId platform hostname token ifname s p s' :
  decode_dto (encode_dto (dto_of appId ifname platform token)) = inr (dto_of appId ifname platform token) ->
  (forall q, runs w (Peers.Register (dto_of appId ifname platform token)) s (inr q) s' ->
     decode_answer (encode_answer q) = inr q) ->
  (exists err, decode_answer "" = inl err) ->
  runs (bus_world (server_routes w)) (agent_Register appId platform hostname token ifname) s (inr p) s' ->
  token <> "" /\ runs w (Peers.Register (dto_of appId ifname platform token)) s (inr p) s'.
Proof.
  intros Hdto Hans [err Hempty] Hr. unfold agent_Register in Hr.
  destruct (bool_decide_reflect (token = "")) as [E|E]; [by apply runs_ret_inv in Hr as [? _]|]. split; [done|].
  destruct hostname as [err'|hn]; [by apply runs_ret_inv in Hr as [? _]|].
  apply runs_bind_inv in Hr as (r & s1 & Hreq & Hr). apply Request_at_most_once in Hreq.
  destruct r as [err'|text]; [by apply runs_ret_inv in Hr as [? _]|].
  apply runs_ret_inv in Hr as [Hp ->]. destruct Hreq as (answer & [_ Hs] & Hanswer).
  destruct answer as [err'|data].
  { cbn in Hanswer. destruct (bool_decide (error_text err' = "")); [|done]. injection Hanswer as <-. congruence. }
  cbn in Hanswer. injection Hanswer as <-. unfold server_Register in Hs. rewrite Hdto in Hs.
  apply runs_try_inv in Hs as (q & s2 & Hq & Hs). apply runs_ret_inv in Hs as [Hd ->].
  injection Hd as ->. rewrite (Hans q Hq) in Hp. by injection Hp as ->.
Qed.
End server.

(** A laptop enrolls. *)
Definition laptop_dto : PeerDto := dto_of "laptop" "wg0" "linux" "T".
Definition laptop_peer : InfraPeer :=
  peer_with_token (registered_peer (enrolled_peer "wf-ws-a" laptop_dto sample_key) "wf-ws-a" (peer_number sample_key)) "T".
Definition laptop_json : ClientJSON := {|
  encode_dto := λ _, "dto"; decode_dto := λ s, if bool_decide (s = "dto") then inr laptop_dto else inl (ErrText "json");
  encode_answer := λ _, "peer";
  decode_answer := λ s, if bool_decide (s = "peer") then inr laptop_peer else inl (ErrText "unexpected end of JSON input");
  encode_heartbeat := id |}.
Definition enrolling : prog mgmtE (gresult InfraPeer) := @Peers.Register plain_private laptop_dto.

Lemma enrolled_over_bus_witness :
  let bus := bus_world (@server_routes laptop_json plain_private _ (fun_world stale_mgmt)) in
  let s' := (run stale_mgmt enrolling viewer_world).2 in
  runs bus (@agent_Register laptop_json "laptop" "linux" (inr "host") "T" "wg0") viewer_world (inr laptop_peer) s' /\
  runs (fun_world stale_mgmt) enrolling viewer_world (inr laptop_peer) s'.
Proof.
  cbv zeta. set (s' := (run stale_mgmt enrolling viewer_world).2).
  assert (Hs : runs (fun_world stale_mgmt) enrolling viewer_world (inr laptop_peer) s').
  { apply run_runs. vm_compute. reflexivity. }
  assert (Hr : runs (bus_world (@server_routes laptop_json plain_private _ (fun_world stale_mgmt)))
    (@agent_Register laptop_json "laptop" "linux" (inr "host") "T" "wg0") viewer_world (inr laptop_peer) s').
  { eapply (runs_vis _ _ NConnected _ _ true); [reflexivity|].
    eapply (runs_vis _ _ (NRequest "lattice.signals.peer.register" "dto") _ _ (inr (service_reply (inr "peer"))) s').
    - exists (inr "peer"). split; [|reflexivity]. split; [reflexivity|]. apply run_runs. vm_compute. reflexivity.
    - apply runs_ret. }
  split; [exact Hr|].
  apply (@enrolled_over_bus laptop_json plain_private _ (fun_world stale_mgmt) "laptop" "linux" (inr "host") "T" "wg0"
    viewer_world laptop_peer s').
  - reflexivity.
  - intros q Hq. apply runs_fun in Hq. apply runs_fun in Hs. pose proof (eq_trans (eq_sym Hs) Hq) as E. by injection E as <-.
  - eexists. reflexivity.
  - exact Hr.
Defined.

(** ** Packets for an agent *)

(** [proto.Unmarshal] of a packet. *)
Class PacketCodec := { decode_packet : string -> option SignalPacket }.

(** The dialers of a probe answer packets; the message handler makes the agent's calls. *)
Inductive packetE : Type -> Type :=
| PHandle (appId : string) (dialer : TransportType) (packet : SignalPacket) : packetE (gresult unit)
| PAgent (T : Type) (e : agentE T) : packetE T.

Section packets.
Context `{WireGuardKeys} `{ConfigJSON} `{PacketCodec}.

(** [Probe.Handle]: the dialer is chosen by the packet, for the peer the probe was made for. *)
Definition probe_Handle (probe : PeerIdentity) (packet : SignalPacket) : prog packetE (gresult unit) :=
  call (PHandle (pi_AppID probe) (pk_Dialer packet) packet).

(** [ready]: the message handler exists.  A MESSAGE packet without its payload is a nil
    dereference. *)
Definition factory_Handle (ready : bool) (remoteId : PeerID) (packet : SignalPacket) (n : Node)
    : prog packetE (gresult unit * Node) :=
  if bool_decide (pk_Type packet = MESSAGE) then
    if negb ready then Ret (inr tt, n)
    else match pk_Payload packet with
      | MessagePayload content =>
          match decode_message content with
          | inl err => Ret (inl (ErrWrap "handle MESSAGE: unmarshal" err), n)
          | inr msg => translate PAgent (HandleEvent msg n)
          end
      | _ => Panic
      end
  else
    match PeerManager.GetIdentity (nd_peers n) remoteId with
    | None => Ret (inr tt, n)
    | Some identity =>
        let n := factory_Get n identity in
        match nd_probes n !! pi_AppID identity with
        | Some probe => err ← probe_Handle probe packet; Ret (err, n)
        | None => Ret (inr tt, n)
        end
    end.

(** The callback of [Subscribe]; the error of the handler is only logged. *)
Definition on_packet (ready : bool) (data : string) (n : Node) : prog packetE Node :=
  match decode_packet data with
  | None => Ret n
  | Some packet => r ← factory_Handle ready (FromUint64 (pk_SenderId packet)) packet n; Ret r.2
  end.

Lemma factory_Get_probe n identity : is_Some (nd_probes (factory_Get n identity) !! pi_AppID identity).
Proof.
  unfold factory_Get. destruct (nd_probes n !! pi_AppID identity) as [q|] eqn:E; [by rewrite E|].
  cbn. rewrite lookup_insert_eq. by eexists.
Qed.

(** What a packet on the agent's subject does.  Text that is no packet does nothing.  A packet
    other than a MESSAGE is dropped, without a call and without a change, unless its sender's
    number is that of a peer in the table; then it goes to exactly one dialer, the one the packet
    names, of the probe of that peer, and at most that peer's probe is new.  But a MESSAGE is
    applied as the network configuration whoever its sender claims to be, and one without a
    payload stops the agent. *)
Theorem packet_dispatch ready data n packet :
  decode_packet data = Some packet ->
  (pk_Type packet <> MESSAGE ->
     match PeerManager.GetIdentity (nd_peers n) (FromUint64 (pk_SenderId packet)) with
     | None => on_packet ready data n = Ret n
     | Some identity =>
         exists probe, nd_probes (factory_Get n identity) !! pi_AppID identity = Some probe /\
           (forall a, a <> pi_AppID identity -> nd_probes (factory_Get n identity) !! a = nd_probes n !! a) /\
           on_packet ready data n =
             Vis (PHandle (pi_AppID probe) (pk_Dialer packet) packet) (λ _, Ret (factory_Get n identity))
     end) /\
  (pk_Type packet = MESSAGE -> ready = true ->
     match pk_Payload packet with
     | MessagePayload content => forall msg, decode_message content = inr msg ->
         on_packet ready data n = (r ← translate PAgent (HandleEvent msg n); Ret r.2)
     | _ => on_packet ready data n = Panic
     end).
Proof.
  intros Hd. unfold on_packet, factory_Handle. rewrite Hd. split.
  - intros Ht. rewrite bool_decide_false by done.
    destruct (PeerManager.GetIdentity _ _) as [identity|]; [|done].
    destruct (factory_Get_probe n identity) as [probe Hp]. exists probe. rewrite Hp. split_and!; try done.
    intros a Ha. unfold factory_Get. destruct (nd_probes n !! pi_AppID identity); [done|].
    cbn. by rewrite lookup_insert_ne by done.
  - intros -> ->. rewrite bool_decide_true by done. cbn [negb].
    destruct (pk_Payload packet) as [| | | |content]; try done. intros msg ->. done.
Qed.
End packets.

(** ** Reconnection *)

(** The handler of a reconnection, when the network map can be fetched: what the agent asks and
    the calls of applying the answer.  Only the public key of [current] is in [Node]. *)
Inductive reconnectE : Type -> Type :=
| RRegister : reconnectE (gresult InfraPeer)
| RNetworkMap : reconnectE (gresult Message)
| RAgent (T : Type) (e : agentE T) : reconnectE T.

Definition node_with_key (n : Node) (key : string) : Node :=
  {| nd_Name := nd_Name n; nd_PublicKey := key; nd_peers := nd_peers n; nd_probes := nd_probes n |}.

Definition reconnected `{WireGuardKeys} (can_fetch : bool) (n : Node) : prog reconnectE Node :=
  peer ← call RRegister;
  match peer with
  | inl _ => Ret n
  | inr peer =>
      let n := node_with_key n (ip_PublicKey peer) in
      if negb can_fetch then Ret n
      else
        remoteCfg ← call RNetworkMap;
        match remoteCfg with
        | inl _ => Ret n
        | inr msg => r ← translate RAgent (ApplyFullConfig msg n); Ret r.2
        end
  end.

(** ** A packet *)

Definition syn_packet : SignalPacket :=
  {| pk_Type := HANDSHAKE_SYN; pk_Dialer := ICE; pk_SenderId := 5; pk_Payload := NoPayload |}.
Definition syn_codec : PacketCodec := {| decode_packet := λ s, if bool_decide (s = "syn") then Some syn_packet else None |}.
Definition no_config : ConfigJSON := {| decode_message := λ _, inr None |}.

Lemma packet_dispatch_witness :
  @on_packet sample_keys no_config syn_codec true "syn" (@sample_node) = Ret sample_node.
Proof.
  apply (proj1 (@packet_dispatch sample_keys no_config syn_codec true "syn" sample_node syn_packet eq_refl)).
  discriminate.
Defined.
