(* ===== verification/Llm.v ===== *)
(** * Llm: the language models behind the assistant
    ([internal/server/llm/anthropic.go], [openai_compat.go], [factory.go])

    The assistant speaks of messages, tool calls and results; each kind of provider has
    a format of its own.  A client writes a request in its format, posts it, and reads
    the answer back. *)

From S2P Require Import Prelude Prog Api Json ClusterPeering Ai.

(** [encoding/json] on raw messages: the text of a value, and the value of a text or the
    error of reading one. *)
Class RawJSON := {
  raw_text : json -> string;
  raw_value : string -> gresult json;
  schema_text : list (string * string) -> string;
}.

(** ** Encoding *)

Definition text_member (name s : string) : list (string * json) :=
  if bool_decide (s = "") then [] else [(name, JString s)].
(** A nil slice is null. *)
Definition nil_array (l : list json) : json := match l with [] => JNull | _ => JArray l end.

Fixpoint each {A B} (f : A -> gresult B) (l : list A) : gresult (list B) :=
  match l with
  | [] => inr []
  | x :: l =>
      match f x with
      | inl err => inl err
      | inr y => match each f l with inl err => inl err | inr ys => inr (y :: ys) end
      end
  end.

(** ** Decoding into structs: of several errors the one of the first field is returned. *)

(** The member of a field: names match up to letter case; a name is taken to occur once. *)
Definition member (key : string) (l : list (string * json)) : json :=
  match list_find (λ m, str_lower m.1 = str_lower key) l with Some (_, m) => m.2 | None => JNull end.
Definition type_error (v : json) (what type : string) : gerror :=
  ErrText ("json: cannot unmarshal " +:+ json_kind v +:+ " into Go " +:+ what +:+ " of type " +:+ type).
Definition text_field (struct path key : string) (l : list (string * json)) : gresult string :=
  match member key l with
  | JNull => inr ""
  | JString s => inr s
  | v => inl (type_error v ("struct field " +:+ struct +:+ "." +:+ path +:+ key) "string")
  end.
Definition members (v : json) (what type : string) : gresult (list (string * json)) :=
  match v with
  | JNull => inr []
  | JObject l => inr l
  | v => inl (type_error v what type)
  end.
Definition list_field {A} (f : json -> gresult A) (struct path key type : string) (l : list (string * json))
    : gresult (list A) :=
  match member key l with
  | JNull => inr []
  | JArray vs => each f vs
  | v => inl (type_error v ("struct field " +:+ struct +:+ "." +:+ path +:+ key) type)
  end.

Notation "x ←! p ; k" := (match p with inl err => inl err | inr x => k end)
  (at level 20, p at level 100, k at level 200, right associativity).

(** The two texts of an [error] member, if it is there. *)
Definition error_field (struct : string) (l : list (string * json)) : gresult (option (string * string)) :=
  match member "error" l with
  | JNull => inr None
  | v =>
      m ←! members v ("struct field " +:+ struct +:+ ".error") "struct";
      t ←! text_field "" "error." "type" m; msg ←! text_field "" "error." "message" m;
      inr (Some (t, msg))
  end.

(** ** Anthropic *)

Record AnthropicBlock := {
  ab_Type : string; ab_Text : string; ab_ID : string; ab_Name : string; ab_Input : string;
  ab_ToolUseID : string; ab_Content : string;
}.
Record AnthropicContent := { ac_text : string; ac_blocks : list AnthropicBlock }.
Record AnthropicMessage := { am_Role : string; am_Content : AnthropicContent }.
Record AnthropicResponse := {
  ar_Content : list AnthropicBlock; ar_StopReason : string; ar_Error : option (string * string) }.

Definition text_block (s : string) : AnthropicBlock := {| ab_Type := "text"; ab_Text := s; ab_ID := "";
  ab_Name := ""; ab_Input := ""; ab_ToolUseID := ""; ab_Content := "" |}.
Definition use_block (tc : ToolCall) : AnthropicBlock := {| ab_Type := "tool_use"; ab_Text := ""; ab_ID := tc_ID tc;
  ab_Name := tc_Name tc; ab_Input := tc_Input tc; ab_ToolUseID := ""; ab_Content := "" |}.
Definition result_block (tr : ToolResult) : AnthropicBlock := {| ab_Type := "tool_result"; ab_Text := ""; ab_ID := "";
  ab_Name := ""; ab_Input := ""; ab_ToolUseID := tr_ToolCallID tr; ab_Content := tr_Content tr |}.

Definition RoleTool : string := "tool".
Definition toAnthropicMessage (m : LlmMessage) : AnthropicMessage :=
  if bool_decide (lm_Role m = RoleTool) then
    {| am_Role := "user"; am_Content := {| ac_text := ""; ac_blocks := result_block <$> lm_ToolResults m |} |}
  else match lm_ToolCalls m with
    | [] => {| am_Role := lm_Role m; am_Content := {| ac_text := lm_Content m; ac_blocks := [] |} |}
    | tcs => {| am_Role := "assistant"; am_Content := {| ac_text := "";
        ac_blocks := (if bool_decide (lm_Content m = "") then [] else [text_block (lm_Content m)]) ++ (use_block <$> tcs) |} |}
    end.

Definition StopReasonEndTurn : string := "end_turn".
Definition StopReasonToolUse : string := "tool_use".
Definition block_call (b : AnthropicBlock) : option ToolCall :=
  if bool_decide (ab_Type b = "tool_use") then Some {| tc_ID := ab_ID b; tc_Name := ab_Name b; tc_Input := ab_Input b |}
  else None.
Definition fromAnthropicResponse (ar : AnthropicResponse) : LlmResponse := {|
  resp_Content := str_join "" (ab_Text <$> filter (λ b, ab_Type b = "text") (ar_Content ar));
  resp_ToolCalls := omap block_call (ar_Content ar);
  resp_StopReason := if bool_decide (ar_StopReason ar = "tool_use") then StopReasonToolUse else StopReasonEndTurn |}.

Section clients.
Context `{RawJSON}.

(** A raw message that is empty is left out. *)
Definition block_json (b : AnthropicBlock) : gresult json :=
  input ←! (if bool_decide (ab_Input b = "") then inr []
            else match raw_value (ab_Input b) with
                 | inl err => inl (ErrText ("json: error calling MarshalJSON for type json.RawMessage: " +:+ error_text err))
                 | inr v => inr [("input", v)]
                 end);
  inr (JObject ([("type", JString (ab_Type b))] ++ text_member "text" (ab_Text b) ++ text_member "id" (ab_ID b) ++
    text_member "name" (ab_Name b) ++ input ++ text_member "tool_use_id" (ab_ToolUseID b) ++
    text_member "content" (ab_Content b))).

(** [anthropicContent.MarshalJSON]. *)
Definition content_json (c : AnthropicContent) : gresult json :=
  match ac_blocks c with
  | [] => inr (JString (ac_text c))
  | blocks =>
      match each block_json blocks with
      | inl err => inl (ErrText ("json: error calling MarshalJSON for type llm.anthropicContent: " +:+ error_text err))
      | inr l => inr (JArray l)
      end
  end.
Definition message_json (m : AnthropicMessage) : gresult json :=
  c ←! content_json (am_Content m); inr (JObject [("role", JString (am_Role m)); ("content", c)]).

(** The schema of a tool is written by the assistant and can be read. *)
Definition schema_json (t : Tool) : json :=
  match raw_value (schema_text (tool_InputSchema t)) with inr v => v | inl _ => JNull end.

Definition anthropic_request (model : string) (rq : LlmRequest) : gresult json :=
  messages ←! each message_json (toAnthropicMessage <$> lr_Messages rq);
  inr (JObject ([("model", JString model); ("max_tokens", JNumber (if lr_MaxTokens rq =? 0 then 4096 else lr_MaxTokens rq))] ++
    text_member "system" (lr_System rq) ++ [("messages", nil_array messages)] ++
    match lr_Tools rq with
    | [] => []
    | ts => [("tools", JArray ((λ t, JObject [("name", JString (tool_Name t)); ("description", JString (tool_Description t));
              ("input_schema", schema_json t)]) <$> ts))]
    end)).

Definition decode_block (v : json) : gresult AnthropicBlock :=
  let text := text_field "anthropicBlock" "content." in
  m ←! members v "struct field anthropicResponse.content" "llm.anthropicBlock";
  t ←! text "type" m; tx ←! text "text" m; i ←! text "id" m; n ←! text "name" m;
  u ←! text "tool_use_id" m; c ←! text "content" m;
  inr {| ab_Type := t; ab_Text := tx; ab_ID := i; ab_Name := n;
         ab_Input := match list_find (λ m, str_lower m.1 = "input") m with Some (_, p) => raw_text p.2 | None => "" end;
         ab_ToolUseID := u; ab_Content := c |}.
Definition decode_anthropic (v : json) : gresult AnthropicResponse :=
  m ←! members v "value" "llm.anthropicResponse";
  content ←! list_field decode_block "anthropicResponse" "" "content" "[]llm.anthropicBlock" m;
  stop ←! text_field "anthropicResponse" "" "stop_reason" m;
  err ←! error_field "anthropicResponse" m;
  inr {| ar_Content := content; ar_StopReason := stop; ar_Error := err |}.

(** ** Requests over HTTP *)

(** A POST with headers; an error of the transport or of reading the body is an error. *)
Inductive llmE : Type -> Type :=
| LPost (url : string) (headers : list (string * string)) (body : json) : llmE (gresult HttpResponse).

Definition anthropicVersion : string := "2023-06-01".
Definition anthropic_answer (resp : HttpResponse) : gresult LlmResponse :=
  match (v ←! hr_JSON resp; decode_anthropic v) with
  | inl err => inl (ErrWrap "parse response" err)
  | inr ar =>
      match ar_Error ar with
      | Some (t, msg) => inl (ErrText ("anthropic error " +:+ t +:+ ": " +:+ msg))
      | None =>
          if 400 <=? hr_StatusCode resp then
            inl (ErrText ("anthropic HTTP " +:+ pretty (hr_StatusCode resp) +:+ ": " +:+ hr_Body resp))
          else inr (fromAnthropicResponse ar)
      end
  end.
Definition anthropic_Complete (apiKey model baseURL : string) (rq : LlmRequest) : prog llmE (gresult LlmResponse) :=
  match anthropic_request model rq with
  | inl err => Ret (inl err)
  | inr body =>
      resp ←? call (LPost (baseURL +:+ "/v1/messages")
        [("Content-Type", "application/json"); ("x-api-key", apiKey); ("anthropic-version", anthropicVersion)] body);
      Ret (anthropic_answer resp)
  end.

(** [NewAnthropicClient]. *)
Definition default_to (s default : string) : string := if bool_decide (s = "") then default else s.
Definition defaultAnthropicModel : string := "claude-sonnet-4-6".
Definition defaultAnthropicBaseURL : string := "https://api.anthropic.com".

(** ** OpenAI and compatible services *)

Record OaiToolCall := { oc_ID : string; oc_Type : string; oc_Name : string; oc_Arguments : string }.
(** [om_Content]: a text, or nil. *)
Record OaiMessage := {
  om_Role : string; om_Content : option string; om_ToolCallID : string; om_ToolCalls : list OaiToolCall }.
Record OaiChoice := { ch_Message : OaiMessage; ch_FinishReason : string }.
Record OaiResponse := { or_Choices : list OaiChoice; or_Error : option (string * string) }.

(** [json.Marshal] of a raw message compacts it; without a value nothing is written, and
    the error is ignored. *)
Definition arguments (input : string) : string :=
  match raw_value input with inl _ => "" | inr v => raw_text v end.

Definition toOAIMessages (m : LlmMessage) : list OaiMessage :=
  if bool_decide (lm_Role m = RoleTool) then
    (λ tr, {| om_Role := "tool"; om_Content := Some (tr_Content tr); om_ToolCallID := tr_ToolCallID tr;
              om_ToolCalls := [] |}) <$> lm_ToolResults m
  else [{|
    om_Role := lm_Role m;
    om_Content := match lm_ToolCalls m with [] => Some (lm_Content m) | _ => None end;
    om_ToolCallID := "";
    om_ToolCalls := (λ tc, {| oc_ID := tc_ID tc; oc_Type := "function"; oc_Name := tc_Name tc;
                              oc_Arguments := arguments (tc_Input tc) |}) <$> lm_ToolCalls m |}].

Definition fromOAIResponse (choice : OaiChoice) : LlmResponse := {|
  resp_Content := default "" (om_Content (ch_Message choice));
  resp_ToolCalls := (λ oc, {| tc_ID := oc_ID oc; tc_Name := oc_Name oc; tc_Input := oc_Arguments oc |}) <$>
    om_ToolCalls (ch_Message choice);
  resp_StopReason := if bool_decide (ch_FinishReason choice = "tool_calls") then StopReasonToolUse else StopReasonEndTurn |}.

Definition oai_call_json (c : OaiToolCall) : json :=
  JObject [("id", JString (oc_ID c)); ("type", JString (oc_Type c));
           ("function", JObject [("name", JString (oc_Name c)); ("arguments", JString (oc_Arguments c))])].
Definition oai_message_json (m : OaiMessage) : json :=
  JObject ([("role", JString (om_Role m)); ("content", match om_Content m with Some s => JString s | None => JNull end)] ++
    text_member "tool_call_id" (om_ToolCallID m) ++
    match om_ToolCalls m with [] => [] | l => [("tool_calls", JArray (oai_call_json <$> l))] end).

(** The limit on tokens is not sent. *)
Definition oai_request (model : string) (rq : LlmRequest) : json :=
  let system := if bool_decide (lr_System rq = "") then []
    else [{| om_Role := "system"; om_Content := Some (lr_System rq); om_ToolCallID := ""; om_ToolCalls := [] |}] in
  JObject ([("model", JString model);
            ("messages", nil_array (oai_message_json <$> system ++ concat (toOAIMessages <$> lr_Messages rq)))] ++
    match lr_Tools rq with
    | [] => []
    | ts => [("tools", JArray ((λ t, JObject [("type", JString "function"); ("function", JObject [
              ("name", JString (tool_Name t)); ("description", JString (tool_Description t));
              ("parameters", schema_json t)])]) <$> ts))]
    end).

Definition decode_call (v : json) : gresult OaiToolCall :=
  let path := "choices.message.tool_calls." in
  m ←! members v "struct field oaiResponse.choices.message.tool_calls" "llm.oaiToolCall";
  i ←! text_field "oaiToolCall" path "id" m; t ←! text_field "oaiToolCall" path "type" m;
  f ←! members (member "function" m) "struct field oaiToolCall.choices.message.tool_calls.function" "llm.oaiFunction";
  n ←! text_field "oaiFunction" (path +:+ "function.") "name" f;
  a ←! text_field "oaiFunction" (path +:+ "function.") "arguments" f;
  inr {| oc_ID := i; oc_Type := t; oc_Name := n; oc_Arguments := a |}.
(** Content of any kind is accepted; what is no text reads as nil. *)
Definition decode_choice (v : json) : gresult OaiChoice :=
  m ←! members v "struct field oaiResponse.choices" "llm.oaiChoice";
  msg ←! members (member "message" m) "struct field oaiChoice.choices.message" "llm.oaiMessage";
  r ←! text_field "oaiMessage" "choices.message." "role" msg;
  i ←! text_field "oaiMessage" "choices.message." "tool_call_id" msg;
  calls ←! list_field decode_call "oaiMessage" "choices.message." "tool_calls" "[]llm.oaiToolCall" msg;
  fr ←! text_field "oaiChoice" "choices." "finish_reason" m;
  inr {| ch_Message := {| om_Role := r; om_Content := match member "content" msg with JString s => Some s | _ => None end;
           om_ToolCallID := i; om_ToolCalls := calls |}; ch_FinishReason := fr |}.
Definition decode_oai (v : json) : gresult OaiResponse :=
  m ←! members v "value" "llm.oaiResponse";
  choices ←! list_field decode_choice "oaiResponse" "" "choices" "[]llm.oaiChoice" m;
  err ←! error_field "oaiResponse" m;
  inr {| or_Choices := choices; or_Error := err |}.

Definition oai_answer (resp : HttpResponse) : gresult LlmResponse :=
  match (v ←! hr_JSON resp; decode_oai v) with
  | inl err => inl (ErrWrap "parse response" err)
  | inr r =>
      match or_Error r with
      | Some (t, msg) => inl (ErrText ("llm error " +:+ t +:+ ": " +:+ msg))
      | None =>
          if 400 <=? hr_StatusCode resp then
            inl (ErrText ("llm HTTP " +:+ pretty (hr_StatusCode resp) +:+ ": " +:+ hr_Body resp))
          else match or_Choices r with
            | [] => inl (ErrText "llm returned empty choices")
            | choice :: _ => inr (fromOAIResponse choice)
            end
      end
  end.
Definition oai_Complete (baseURL apiKey model : string) (rq : LlmRequest) : prog llmE (gresult LlmResponse) :=
  resp ←? call (LPost (baseURL +:+ "/chat/completions")
    [("Content-Type", "application/json"); ("Authorization", "Bearer " +:+ apiKey)] (oai_request model rq));
  Ret (oai_answer resp).

(** ** The choice of a provider *)

Record AIConfig := { ai_Provider : string; ai_APIKey : string; ai_Model : string; ai_BaseURL : string }.
Inductive llm_client := Anthropic (apiKey model baseURL : string) | OpenAICompat (baseURL apiKey model : string).
Definition NewAnthropicClient (apiKey model baseURL : string) : llm_client :=
  Anthropic apiKey (default_to model defaultAnthropicModel) (default_to baseURL defaultAnthropicBaseURL).

Definition NewClient (cfg : AIConfig) : gresult llm_client :=
  if bool_decide (ai_APIKey cfg = "") then inl (ErrText "ai.api-key is not configured")
  else if bool_decide (ai_Provider cfg = "anthropic") || bool_decide (ai_Provider cfg = "") then
    inr (NewAnthropicClient (ai_APIKey cfg) (ai_Model cfg) (ai_BaseURL cfg))
  else if bool_decide (ai_Provider cfg = "deepseek") then
    inr (OpenAICompat (default_to (ai_BaseURL cfg) "https://api.deepseek.com/v1") (ai_APIKey cfg)
      (default_to (ai_Model cfg) "deepseek-chat"))
  else if bool_decide (ai_Provider cfg = "openai") then
    inr (OpenAICompat "https://api.openai.com/v1" (ai_APIKey cfg) (default_to (ai_Model cfg) "gpt-4o"))
  else if bool_decide (ai_BaseURL cfg = "") then
    inl (ErrText ("unknown ai.provider " +:+ go_quote (ai_Provider cfg) +:+
      "; set base-url for custom OpenAI-compatible endpoints"))
  else inr (OpenAICompat (ai_BaseURL cfg) (ai_APIKey cfg) (ai_Model cfg)).

Definition Complete (c : llm_client) (rq : LlmRequest) : prog llmE (gresult LlmResponse) :=
  match c with
  | Anthropic apiKey model baseURL => anthropic_Complete apiKey model baseURL rq
  | OpenAICompat baseURL apiKey model => oai_Complete baseURL apiKey model rq
  end.

(** ** Correctness *)

(** An answer of a model, apart from its format: a text, and calls of tools with the values
    of their inputs. *)
Record Reply := { rp_Text : string; rp_Calls : list (string * string * json); rp_Stops : bool }.

(** The answer in the format of either provider. *)
Definition anthropic_wire (r : Reply) : json := JObject [
  ("content", JArray (JObject [("type", JString "text"); ("text", JString (rp_Text r))] ::
     ((λ c, JObject [("type", JString "tool_use"); ("id", JString c.1.1); ("name", JString c.1.2); ("input", c.2)])
        <$> rp_Calls r)));
  ("stop_reason", JString (if rp_Stops r then "end_turn" else "tool_use")) ].
Definition oai_wire (r : Reply) : json := JObject [
  ("choices", JArray [JObject [
     ("message", JObject [("role", JString "assistant"); ("content", JString (rp_Text r));
        ("tool_calls", JArray ((λ c, JObject [("id", JString c.1.1); ("type", JString "function");
           ("function", JObject [("name", JString c.1.2); ("arguments", JString (raw_text c.2))])]) <$> rp_Calls r))]);
     ("finish_reason", JString (if rp_Stops r then "stop" else "tool_calls"))]]) ].

Definition read_reply (r : Reply) : LlmResponse := {|
  resp_Content := rp_Text r;
  resp_ToolCalls := (λ c, {| tc_ID := c.1.1; tc_Name := c.1.2; tc_Input := raw_text c.2 |}) <$> rp_Calls r;
  resp_StopReason := if rp_Stops r then StopReasonEndTurn else StopReasonToolUse |}.

Lemma each_fmap {A B C} (f : B -> gresult C) (g : A -> B) (h : A -> C) (l : list A) :
  (forall a, f (g a) = inr (h a)) -> each f (g <$> l) = inr (h <$> l).
Proof. intros Hf. induction l as [|a l IH]; [done|]. cbn. rewrite Hf. cbn in IH. by rewrite IH. Qed.

Lemma filter_uses (l : list ToolCall) : filter (λ b, ab_Type b = "text") (use_block <$> l) = [].
Proof. induction l as [|c l IH]; [done|]. cbn [fmap list_fmap]. by rewrite filter_cons, decide_False, IH. Qed.
Lemma omap_uses (l : list ToolCall) : omap block_call (use_block <$> l) = l.
Proof. induction l as [|[i n t] l IH]; [done|]. cbn. by rewrite IH. Qed.

Definition wire_call (c : string * string * json) : ToolCall :=
  {| tc_ID := c.1.1; tc_Name := c.1.2; tc_Input := raw_text c.2 |}.

Lemma decode_anthropic_members vs stop :
  decode_anthropic (JObject [("content", JArray vs); ("stop_reason", JString stop)]) =
  match each decode_block vs with
  | inl err => inl err
  | inr blocks => inr {| ar_Content := blocks; ar_StopReason := stop; ar_Error := None |}
  end.
Proof. reflexivity. Qed.
Lemma decode_choice_members text vs fr :
  decode_choice (JObject [("message", JObject [("role", JString "assistant"); ("content", JString text);
    ("tool_calls", JArray vs)]); ("finish_reason", JString fr)]) =
  match each decode_call vs with
  | inl err => inl err
  | inr calls => inr {| ch_Message := {| om_Role := "assistant"; om_Content := Some text; om_ToolCallID := "";
                                         om_ToolCalls := calls |}; ch_FinishReason := fr |}
  end.
Proof. reflexivity. Qed.
Lemma decode_oai_members v :
  decode_oai (JObject [("choices", JArray [v])]) =
  match decode_choice v with
  | inl err => inl err
  | inr c => inr {| or_Choices := [c]; or_Error := None |}
  end.
Proof.
  change (decode_oai _) with (match each decode_choice [v] with
    | inl err => inl err | inr cs => inr {| or_Choices := cs; or_Error := None |} end).
  cbn [each]. by destruct (decode_choice v).
Qed.

(** C12. The assistant does not see which provider answers: an answer of a model is read the
    same from both formats, with its text, its calls in order with their inputs, and why it
    stopped. *)
Theorem providers_agree r status body :
  status < 400 ->
  anthropic_answer {| hr_StatusCode := status; hr_Body := body; hr_JSON := inr (anthropic_wire r) |} = inr (read_reply r) /\
  oai_answer {| hr_StatusCode := status; hr_Body := body; hr_JSON := inr (oai_wire r) |} = inr (read_reply r).
Proof.
  intros Hs. assert (Hstatus : (400 <=? status) = false) by lia. destruct r as [text calls stops]. split.
  - unfold anthropic_answer, anthropic_wire. cbn [hr_JSON hr_StatusCode rp_Text rp_Calls rp_Stops].
    rewrite decode_anthropic_members. cbn [each].
    change (decode_block (JObject [("type", JString "text"); ("text", JString text)])) with (inr (text_block text) : gresult _).
    rewrite (each_fmap _ _ (λ c, use_block (wire_call c))) by done. cbv iota beta. rewrite Hstatus.
    f_equal. unfold fromAnthropicResponse, read_reply. cbn [ar_Content ar_StopReason rp_Calls rp_Stops rp_Text].
    rewrite (list_fmap_compose wire_call use_block). cbn [omap list_omap block_call].
    rewrite filter_cons, decide_True, filter_uses by done. rewrite omap_uses. by destruct stops.
  - unfold oai_answer, oai_wire. cbn [hr_JSON hr_StatusCode rp_Text rp_Calls rp_Stops].
    rewrite decode_oai_members, decode_choice_members.
    rewrite (each_fmap _ _ (λ c, {| oc_ID := c.1.1; oc_Type := "function"; oc_Name := c.1.2; oc_Arguments := raw_text c.2 |}))
      by done.
    cbv iota beta. rewrite Hstatus. f_equal. unfold fromOAIResponse, read_reply. cbn.
    rewrite <- list_fmap_compose. by destruct stops.
Qed.

(** What an assistant's turn becomes in the history of either provider, read back as the
    answer it was.  Anthropic is shown the turn as it was.  The other providers are shown its
    calls, their inputs rewritten, but never the text that came with them. *)
Theorem history_of_calls m :
  lm_Role m <> RoleTool -> lm_ToolCalls m <> [] ->
  (let r := fromAnthropicResponse {| ar_Content := ac_blocks (am_Content (toAnthropicMessage m));
              ar_StopReason := "tool_use"; ar_Error := None |} in
   resp_Content r = lm_Content m /\ resp_ToolCalls r = lm_ToolCalls m) /\
  (exists om, toOAIMessages m = [om] /\
   let r := fromOAIResponse {| ch_Message := om; ch_FinishReason := "tool_calls" |} in
   resp_Content r = "" /\
   resp_ToolCalls r = (λ tc, {| tc_ID := tc_ID tc; tc_Name := tc_Name tc; tc_Input := arguments (tc_Input tc) |}) <$>
     lm_ToolCalls m).
Proof.
  intros Hrole Hcalls. unfold toAnthropicMessage, toOAIMessages. rewrite !(bool_decide_false (lm_Role m = RoleTool)) by done.
  destruct (lm_ToolCalls m) as [|tc tcs] eqn:E; [done|]. split.
  - cbn [am_Content ac_blocks]. unfold fromAnthropicResponse. cbn [ar_Content resp_Content resp_ToolCalls].
    rewrite filter_app, filter_uses, omap_app, omap_uses, app_nil_r.
    destruct (bool_decide_reflect (lm_Content m = "")) as [->|Hc]; [done|]. split; [|done].
    by rewrite filter_cons, decide_True.
  - eexists. split; [done|]. cbn. split; [done|]. by rewrite <- list_fmap_compose.
Qed.
End clients.

(** A failed request is never taken for an answer. *)
Lemma failed_request `{RawJSON} resp :
  400 <= hr_StatusCode resp ->
  (exists err, anthropic_answer resp = inl err) /\ (exists err, oai_answer resp = inl err).
Proof.
  intros Hs%Z.leb_le. unfold anthropic_answer, oai_answer. rewrite Hs. split.
  - destruct (match hr_JSON resp with inl err => _ | inr v => _ end) as [|ar]; [by eexists|].
    destruct (ar_Error ar) as [[? ?]|]; by eexists.
  - destruct (match hr_JSON resp with inl err => _ | inr v => _ end) as [|r]; [by eexists|].
    destruct (or_Error r) as [[? ?]|]; by eexists.
Qed.

Definition brief_json : RawJSON := {|
  raw_text := λ v, match v with JObject [] => "{}" | _ => "null" end;
  raw_value := λ s, if bool_decide (s = "{}") then inr (JObject []) else inl (ErrText "invalid character");
  schema_text := λ _, "{}" |}.
Definition sample_reply : Reply := {| rp_Text := "Let me look."; rp_Calls := [("c1", "list_peers", JObject [])];
  rp_Stops := false |}.
Definition sample_turn_message : LlmMessage := {| lm_Role := "assistant"; lm_Content := "Let me look.";
  lm_ToolCalls := [{| tc_ID := "c1"; tc_Name := "list_peers"; tc_Input := "{}" |}]; lm_ToolResults := [] |}.

Lemma providers_agree_witness :
  @anthropic_answer brief_json {| hr_StatusCode := 200; hr_Body := ""; hr_JSON := inr (anthropic_wire sample_reply) |} =
  @oai_answer {| hr_StatusCode := 200; hr_Body := ""; hr_JSON := inr (@oai_wire brief_json sample_reply) |}.
Proof.
  destruct (@providers_agree brief_json sample_reply 200 "" ltac:(lia)) as [Ha Ho]. exact (eq_trans Ha (eq_sym Ho)).
Defined.

Lemma history_of_calls_witness :
  exists om, @toOAIMessages brief_json sample_turn_message = [om] /\
    resp_Content (fromOAIResponse {| ch_Message := om; ch_FinishReason := "tool_calls" |}) = "".
Proof.
  destruct (proj2 (@history_of_calls brief_json sample_turn_message ltac:(discriminate) ltac:(discriminate)))
    as (om & Hom & Hc & _). exists om. split; [exact Hom|exact Hc].
Defined.
