(* ===== verification/Dashboard.v ===== *)
(** * Dashboard: what the users of the management server see of their networks
    ([internal/server/service/monitor.go], [internal/server/controller/monitor.go],
    [pkg/utils/format.go])

    Metrics are queried from a service that speaks PromQL and shaped into cards, trends and
    lists.  The goroutines of a group are written one after the other: they write different
    variables, so only the order of their queries is lost; when several of them fail, any of
    the errors may be the group's ([DFirst]). *)

From Stdlib Require Import SpecFloat.
From S2P Require Import Prelude Prog Net Api Store Mgmt Alerts.

(** ** Numbers as text *)

Definition infinity : spec_float := S754_infinity false.
Definition fdiv : spec_float -> spec_float -> spec_float := SFdiv 53 1024.
Definition fmul : spec_float -> spec_float -> spec_float := SFmul 53 1024.
Definition fle (a b : spec_float) : bool := SFleb a b.
Definition flt (a b : spec_float) : bool := SFltb a b.
Definition feq (a b : spec_float) : bool := SFeqb a b.

(** The nearest integer to [num / den], ties to even. *)
Definition round_div (num den : Z) : Z :=
  let q := num / den in
  let r := num mod den in
  match 2 * r ?= den with Lt => q | Gt => q + 1 | Eq => if Z.even q then q else q + 1 end.
Fixpoint pad_zeros (n : nat) (s : string) : string := match n with O => s | S n => String (ascii_of_nat 48) (pad_zeros n s) end.

(** [%.nf]. *)
Definition format_fixed (n : nat) (f : spec_float) : string :=
  let digits sign (z : Z) :=
    let p := 10 ^ Z.of_nat n in
    let frac := pretty (z mod p) in
    (if sign : bool then "-" else "") +:+ pretty (z / p) +:+
    (match n with O => "" | _ => "." +:+ pad_zeros (n - String.length frac) frac end) in
  match f with
  | S754_nan => "NaN"
  | S754_infinity s => if s then "-Inf" else "+Inf"
  | S754_zero s => digits s 0
  | S754_finite s m e =>
      digits s (if 0 <=? e then Z.pos m * 2 ^ e * 10 ^ Z.of_nat n
                else round_div (Z.pos m * 10 ^ Z.of_nat n) (2 ^ (- e)))
  end.

(** [int(f)] and [int64(f)]: the fraction is dropped; what does not fit is the least integer,
    as on amd64. *)
Definition to_int (f : spec_float) : Z :=
  match f with
  | S754_zero _ => 0
  | S754_finite s m e =>
      let a := if 0 <=? e then Z.pos m * 2 ^ e else Z.pos m / 2 ^ (- e) in
      let v := if s then - a else a in
      if (- 2 ^ 63 <=? v) && (v <? 2 ^ 63) then v else - 2 ^ 63
  | _ => - 2 ^ 63
  end.

Definition unit_letters : list string := ["K"; "M"; "G"; "T"; "P"; "E"].

(** The loop over the units, with fuel: the divisor, an [int64], and the exponent. *)
Fixpoint bytes_loop (fuel : nat) (n : spec_float) (div : Z) (exp : nat) : option (Z * nat) :=
  match fuel with
  | O => None
  | S fuel =>
      if fle (float_of 1024) n then bytes_loop fuel (fdiv n (float_of 1024)) (i64 (div * 1024)) (S exp)
      else Some (div, exp)
  end.
(** [None]: the loop does not end within the fuel; [Some None]: there is no such unit, a
    panic. *)
Definition formatBytes (fuel : nat) (b : spec_float) : option (option string) :=
  if flt b (float_of 1024) then Some (Some (format_fixed 2 b +:+ " B"))
  else
    match bytes_loop fuel (fdiv b (float_of 1024)) 1024 0 with
    | None => None
    | Some (div, exp) =>
        Some ((λ u, format_fixed 2 (fdiv b (float_of div)) +:+ " " +:+ u +:+ "B") <$> unit_letters !! exp)
    end.

Definition formatDuration (seconds : Z) : string :=
  if seconds <=? 0 then "Starting..."
  else
    let d := Z.quot seconds 86400 in
    let h := Z.quot (Z.rem seconds 86400) 3600 in
    let m := Z.quot (Z.rem seconds 3600) 60 in
    let s := Z.rem seconds 60 in
    if 0 <? d then pretty d +:+ "d " +:+ pretty h +:+ "h"
    else if 0 <? h then pretty h +:+ "h " +:+ pretty m +:+ "m"
    else if 0 <? m then pretty m +:+ "m " +:+ pretty s +:+ "s"
    else pretty s +:+ "s".

Definition AutoFormat (fuel : nat) (metricName : string) (val : spec_float) : option (option string) :=
  let text s := Some (Some s) in
  if has_suffix "_percent" metricName then text (format_fixed 1 val +:+ "%")
  else if has_suffix "_bytes" metricName then formatBytes fuel val
  else if has_suffix "_seconds" metricName then text (formatDuration (to_int val))
  else if has_suffix "_count" metricName then text (pretty (to_int val))
  else text (format_fixed 2 val).

(** Percentages of integers: the product wraps. *)
Definition progress (value max : Z) : Z :=
  let pct := Z.quot (i64 (value * 100)) max in if 100 <? pct then 100 else pct.
Definition calcProgress (value max : Z) : string :=
  if (max <=? 0) || (value <=? 0) then "0%" else pretty (progress value max) +:+ "%".

Definition formatTrafficBytes (b : spec_float) : string :=
  if fle (float_of (10 ^ 12)) b then format_fixed 1 (fdiv b (float_of (10 ^ 12))) +:+ " TB"
  else if fle (float_of (10 ^ 9)) b then format_fixed 1 (fdiv b (float_of (10 ^ 9))) +:+ " GB"
  else if fle (float_of (10 ^ 6)) b then format_fixed 1 (fdiv b (float_of (10 ^ 6))) +:+ " MB"
  else format_fixed 0 b +:+ " B".

Example format_fixed_values :
  format_fixed 1 (float_of 42) = "42.0" /\ format_fixed 2 (fdiv (float_of 1) (float_of 8)) = "0.12" /\
  format_fixed 0 (fdiv (float_of 5) (float_of 2)) = "2" /\ format_fixed 1 (float_of (-3)) = "-3.0".
Proof. vm_compute. done. Qed.

(** A terabyte, and the least number without a unit: a panic.  An infinite number of bytes
    keeps the loop running forever. *)
Example formatBytes_values :
  formatBytes 10 (float_of (2 ^ 40)) = Some (Some "1.00 TB") /\ formatBytes 10 (float_of (2 ^ 70)) = Some None.
Proof. vm_compute. done. Qed.
Lemma formatBytes_never_ends fuel : formatBytes fuel infinity = None.
Proof.
  unfold formatBytes. change (flt infinity (float_of 1024)) with false. cbv iota.
  change (fdiv infinity (float_of 1024)) with infinity.
  assert (E : forall div exp, bytes_loop fuel infinity div exp = None).
  { induction fuel as [|fuel IH]; intros div exp; [done|]. cbn [bytes_loop].
    change (fle (float_of 1024) infinity) with true. cbv iota.
    change (fdiv infinity (float_of 1024)) with infinity. apply IH. }
  by rewrite E.
Qed.

Lemma progress_bounds value max :
  0 < max -> 0 <= value -> value * 100 < 2 ^ 63 -> 0 <= progress value max <= 100.
Proof.
  intros Hm Hv Ho. unfold progress. rewrite i64_small by lia. rewrite Z.quot_div_nonneg by lia.
  pose proof (Z.div_pos (value * 100) max ltac:(lia) Hm). destruct (Z.ltb_spec 100 (value * 100 / max)); lia.
Qed.

(** ** Records ([models/mointor.go], [dashboard.go], [topology.go], [node_snapshot.go]) *)

Record PeerSnapshot := {
  ps_ID : string; ps_Name : string; ps_InternalIP : string; ps_Status : string; ps_HealthLevel : string;
  ps_Metrics : gmap string string }.
Record NodeSnapshot := {
  ns_ID : string; ns_Name : string; ns_IP : string; ns_Status : string; ns_HealthLevel : string;
  ns_Metrics : gmap string string; ns_RawMetrics : gmap string spec_float }.
Record NodeMonitorDetail := {
  nm_ID : string; nm_Name : string; nm_Endpoint : string; nm_TotalTx : Z; nm_Online : bool; nm_CPU : spec_float }.
Record StatCard := {
  st_Label : string; st_Value : string; st_Unit : string; st_Trend : string; st_Color : string; st_Percent : Z }.
Record TrendData := { td_Timestamps : list string; td_TXData : list spec_float; td_RXData : list spec_float }.
Record AggregatedMonitorResponse := {
  am_WorkspaceID : string; am_LiveStats : list StatCard; am_Nodes : list NodeMonitorDetail; am_Trend : TrendData }.
Record NodeCPUItem := { nc_PeerID : string; nc_Name : string; nc_CPU : spec_float; nc_MemoryMB : spec_float }.
Record WorkspaceDashboardResponse := {
  wd_StatCards : list StatCard; wd_ThroughputTrend : TrendData; wd_NodeCPU : list NodeCPUItem;
  wd_TopNodes : list NodeMonitorDetail }.
Record GlobalStatItem := {
  gs_Label : string; gs_Value : string; gs_Unit : string; gs_Trend : string; gs_Color : string; gs_BarWidth : string;
  gs_TrendUp : bool }.
Record WorkspaceUsageRow := {
  wu_Name : string; wu_Type : string; wu_Nodes : Z; wu_Traffic : string; wu_Health : Z; wu_Status : string }.
Record DashboardResponse := {
  dr_GlobalStats : list GlobalStatItem; dr_WorkspaceUsage : list WorkspaceUsageRow; dr_GlobalTrend : TrendData;
  dr_TopNodes : list NodeMonitorDetail }.

(** ** Queries *)

(** A value of PromQL: a vector, the streams of a matrix, or another type. *)
Inductive Value := MVector (l : list Sample) | MMatrix (l : list (list (Z * spec_float))) | MOther (type : string).

(** Queries at a time and over a range, in nanoseconds; the cache of the last throughputs,
    whose entries go after a minute; a time of day as text. *)
Inductive dashE : Type -> Type :=
| DNow : dashE Z
| DQuery (promql : string) (ts : Z) : dashE (gresult Value)
| DQueryRange (promql : string) (start stop step : Z) : dashE (gresult Value)
| DCacheGet (key : string) : dashE (option spec_float)
| DCacheSet (key : string) (v : spec_float) : dashE unit
| DFirst (errs : list gerror) : dashE gerror
| DWorkspace (id : string) : dashE (gresult Workspace).
Abbreviation dprog := (prog dashE).

Definition quote : string := String (ascii_of_nat 34) "".
(** [{label="value"}]. *)
Definition matcher (label value : string) : string := label +:+ "=" +:+ quote +:+ value +:+ quote.
Definition label_of (name : string) (s : Sample) : string := str_get (sa_Metric s) name.

Definition Query (promql : string) : dprog (gresult Value) :=
  now ← call DNow; call (DQuery promql now).
Definition QueryByTime (query : string) : dprog (gresult (list Sample)) :=
  r ← Query query;
  Ret match r with
      | inl err => inl (ErrText ("promql query error: " +:+ error_text err))
      | inr (MVector l) => inr l
      | inr (MMatrix _) => inl (ErrText "unexpected result type: model.Matrix, expected model.Vector")
      | inr (MOther t) => inl (ErrText ("unexpected result type: " +:+ t +:+ ", expected model.Vector"))
      end.
(** A query whose error is ignored. *)
Definition QueryQuiet (query : string) : dprog (list Sample) :=
  r ← QueryByTime query; Ret match r with inl _ => [] | inr l => l end.
Definition first_value (l : list Sample) : spec_float := match l with s :: _ => sa_Value s | [] => S754_zero false end.

(** The time of day of a timestamp in milliseconds, in the local time zone. *)
Class ClockText := { hh_mm : Z -> string }.

Section service.
Context `{MapRange} `{ClockText}.

(** *** Snapshots *)

Definition ps_add (p : PeerSnapshot) (shortName text : string) (val : spec_float) : PeerSnapshot := {|
  ps_ID := ps_ID p; ps_Name := ps_Name p; ps_InternalIP := ps_InternalIP p; ps_Status := ps_Status p;
  ps_HealthLevel :=
    if bool_decide (shortName = "cpu_usage_percent") then
      if flt (float_of 95) val then "error" else if flt (float_of 80) val then "warning" else ps_HealthLevel p
    else ps_HealthLevel p;
  ps_Metrics := <[shortName := text]> (ps_Metrics p) |}.
Definition new_snapshot (s : Sample) : PeerSnapshot := {|
  ps_ID := label_of "node_id" s; ps_Name := label_of "node_id" s; ps_InternalIP := label_of "ip" s; ps_Status := "online";
  ps_HealthLevel := "success"; ps_Metrics := ∅ |}.

(** [None]: the formatting panics or does not end, which is a panic of the model. *)
Fixpoint topology_nodes (fuel : nat) (l : list Sample) (nodes : gmap string PeerSnapshot) : option (gmap string PeerSnapshot) :=
  match l with
  | [] => Some nodes
  | s :: l =>
      let nodeID := label_of "node_id" s in
      let metricName := label_of "__name__" s in
      let node := default (new_snapshot s) (nodes !! nodeID) in
      match AutoFormat fuel metricName (sa_Value s) with
      | Some (Some text) =>
          topology_nodes fuel l (<[nodeID := ps_add node (trim_prefix metricName "lattice_node_") text (sa_Value s)]> nodes)
      | _ => None
      end
  end.

Definition GetTopologySnapshot (fuel : nat) : dprog (gresult (list PeerSnapshot)) :=
  vector ←? QueryByTime ("last_over_time({__name__=~" +:+ quote +:+ "lattice_node_.*" +:+ quote +:+ "}[5m])");
  match topology_nodes fuel vector ∅ with
  | None => Panic
  | Some nodes => Ret (inr (snd <$> go_range nodes))
  end.

Definition fillMetrics (node : NodeSnapshot) (name : string) (val : spec_float) : NodeSnapshot :=
  if bool_decide (name = "lattice_node_cpu_useage") then {|
    ns_ID := ns_ID node; ns_Name := ns_Name node; ns_IP := ns_IP node; ns_Status := ns_Status node;
    ns_HealthLevel := if flt (float_of 90) val then "error" else ns_HealthLevel node;
    ns_Metrics := <["cpu" := format_fixed 1 val +:+ "%"]> (ns_Metrics node);
    ns_RawMetrics := <["cpu" := val]> (ns_RawMetrics node) |}
  else if bool_decide (name = "lattice_peer_status") then
    let up := feq val (float_of 1) in {|
    ns_ID := ns_ID node; ns_Name := ns_Name node; ns_IP := ns_IP node;
    ns_Status := if up then "online" else "offline";
    ns_HealthLevel := if up then if bool_decide (ns_HealthLevel node = "") then "success" else ns_HealthLevel node
                      else "error";
    ns_Metrics := ns_Metrics node; ns_RawMetrics := ns_RawMetrics node |}
  else {|
    ns_ID := ns_ID node; ns_Name := ns_Name node; ns_IP := ns_IP node; ns_Status := ns_Status node;
    ns_HealthLevel := ns_HealthLevel node;
    ns_Metrics := <[name := format_fixed 2 val]> (ns_Metrics node);
    ns_RawMetrics := <[name := val]> (ns_RawMetrics node) |}.

Definition node_sample (nodes : gmap string NodeSnapshot) (s : Sample) : gmap string NodeSnapshot :=
  let nodeID := label_of "node_id" s in
  let fresh := {| ns_ID := nodeID; ns_Name := label_of "node_name" s; ns_IP := label_of "node_ip" s;
    ns_Status := "online"; ns_HealthLevel := ""; ns_Metrics := ∅; ns_RawMetrics := ∅ |} in
  <[nodeID := fillMetrics (default fresh (nodes !! nodeID)) (label_of "__name__" s) (sa_Value s)]> nodes.

Definition GetNodeSnapshot (namespace : string) : dprog (gresult (list NodeSnapshot)) :=
  r ← Query ("last_over_time({" +:+ matcher "network_id" namespace +:+ "}[5m])");
  Ret match r with
      | inl err => inl err
      | inr (MVector vector) => inr (snd <$> go_range (foldl node_sample ∅ vector))
      | inr _ => inl (ErrText "unexpected prometheus return type")
      end.

(** The sums of a metric by workspace. *)
Definition GetGlobalStats (metricName : string) : dprog (gresult (gmap string spec_float)) :=
  r ← Query ("sum(" +:+ metricName +:+ ") by (workspace_id)");
  Ret match r with
      | inl err => inl err
      | inr (MVector vector) => inr (foldl (λ stats s, <[label_of "workspace_id" s := sa_Value s]> stats) ∅ vector)
      | inr _ => inl (ErrText "unexpected vector type")
      end.

(** *** Trends *)

Definition getTrend (wsID : string) (current : spec_float) : dprog string :=
  lastVal ← call (DCacheGet ("last_tp_" +:+ wsID));
  _ ← call (DCacheSet ("last_tp_" +:+ wsID) current);
  Ret match lastVal with
      | None => "stable"
      | Some v =>
          if flt (fmul v (fdiv (float_of 105) (float_of 100))) current then "up"
          else if flt current (fmul v (fdiv (float_of 95) (float_of 100))) then "down" else "stable"
      end.

(** The first stream of a matrix. *)
Definition stream (v : Value) : list (Z * spec_float) := match v with MMatrix (s :: _) => s | _ => [] end.
Definition processMatrixToTrendWithRX (txVal rxVal : Value) : TrendData := {|
  td_Timestamps := (λ p, hh_mm p.1) <$> stream txVal; td_TXData := snd <$> stream txVal; td_RXData := snd <$> stream rxVal |}.

Definition hour : Z := 3600 * 10 ^ 9.
Definition minute : Z := 60 * 10 ^ 9.
Definition value_of (r : gresult Value) : Value := match r with inl _ => MOther "<nil>" | inr v => v end.

(** Of one network, or of all. *)
Definition traffic_rate (ns : option string) (direction window unit : string) : string :=
  "sum(irate(lattice_node_traffic_bytes_total{" +:+
  (match ns with None => "" | Some ns => matcher "network_id" ns +:+ "," end) +:+ matcher "direction" direction +:+
  "}[" +:+ window +:+ "])) * 8 / " +:+ unit.

(** *** The monitor of a workspace *)

Definition throughput_card (value trend : string) (percent : Z) : StatCard := {|
  st_Label := "实时吞吐"; st_Value := value; st_Unit := "Mbps"; st_Trend := trend; st_Color := "text-blue-500";
  st_Percent := percent |}.
Definition fetchThroughput (namespace : string) : dprog StatCard :=
  r ← Query (traffic_rate (Some namespace) "tx" "2m" "1e6");
  match r with
  | inr (MVector (s :: _)) =>
      let percent := to_int (fmul (fdiv (sa_Value s) (float_of 1000)) (float_of 100)) in
      trend ← getTrend namespace (sa_Value s);
      Ret (throughput_card (format_fixed 1 (sa_Value s)) trend (if 100 <? percent then 100 else percent))
  | _ => Ret (throughput_card "0.0" "stable" 0)
  end.

Definition formatVectorValue (v : Value) : string :=
  match v with MVector (s :: _) => format_fixed 1 (sa_Value s) | _ => "0.0" end.

(** A card of one query. *)
Definition live_card (label unit query : string) : dprog (gresult StatCard) :=
  r ← Query query;
  Ret match r with
      | inl err => inl err
      | inr v => inr {| st_Label := label; st_Value := formatVectorValue v; st_Unit := unit; st_Trend := "";
                        st_Color := "text-emerald-500"; st_Percent := 0 |}
      end.

Definition convertVectorToNodes (v : Value) : list NodeMonitorDetail :=
  match v with
  | MVector l => (λ s, {| nm_ID := label_of "peer_id" s; nm_Name := label_of "node_id" s; nm_Endpoint := label_of "endpoint" s;
      nm_TotalTx := 0; nm_Online := feq (sa_Value s) (float_of 1); nm_CPU := S754_zero false |}) <$> l
  | _ => []
  end.

(** A failed query of the received rate leaves that line empty; one of the sent rate fails. *)
Definition live_trend (namespace : string) : dprog (gresult TrendData) :=
  start ← call DNow; stop ← call DNow;
  tx ← call (DQueryRange (traffic_rate (Some namespace) "tx" "5m" "1e6") (start - hour) stop (2 * minute));
  match tx with
  | inl err => Ret (inl err)
  | inr tx =>
      rx ← call (DQueryRange (traffic_rate (Some namespace) "rx" "5m" "1e6") (start - hour) stop (2 * minute));
      Ret (inr (processMatrixToTrendWithRX tx (value_of rx)))
  end.

Definition error_of {A} (r : gresult A) : list gerror := match r with inl err => [err] | inr _ => [] end.

Definition GetWorkspaceAggregatedMonitor (namespace : string) : dprog (gresult AggregatedMonitorResponse) :=
  let ns := matcher "network_id" namespace in
  throughput ← fetchThroughput namespace;
  latency ← live_card "平均延迟" "ms" ("avg(lattice_peer_latency_ms{" +:+ ns +:+ "})");
  loss ← live_card "丢包率" "%" ("avg(lattice_peer_packet_loss_percent{" +:+ ns +:+ "})");
  tunnels ← live_card "活动隧道" "条" ("ceil(sum(lattice_peer_status{" +:+ ns +:+ "} == 1) / 2)");
  trend ← live_trend namespace;
  nodes ← Query ("last_over_time(lattice_peer_status{" +:+ ns +:+ "}[5m])");
  match latency, loss, tunnels, trend, nodes with
  | inr latency, inr loss, inr tunnels, inr trend, inr nodes => Ret (inr {|
      am_WorkspaceID := namespace; am_LiveStats := [throughput; latency; loss; tunnels];
      am_Nodes := convertVectorToNodes nodes; am_Trend := trend |})
  | _, _, _, _, _ =>
      err ← call (DFirst (error_of latency ++ error_of loss ++ error_of tunnels ++ error_of trend ++ error_of nodes));
      Ret (inl err)
  end.

(** *** The dashboard of a workspace *)

Definition dash_card (label value unit trend color : string) : StatCard := {|
  st_Label := label; st_Value := value; st_Unit := unit; st_Trend := trend; st_Color := color; st_Percent := 0 |}.

Definition quiet_trend (ns : option string) (window unit : string) (start stop step : Z) : dprog TrendData :=
  tx ← call (DQueryRange (traffic_rate ns "tx" window unit) start stop step);
  rx ← call (DQueryRange (traffic_rate ns "rx" window unit) start stop step);
  Ret (processMatrixToTrendWithRX (value_of tx) (value_of rx)).

(** The last value of a label. *)
Definition by_peer {A} (f : Sample -> A) (l : list Sample) : gmap string A :=
  foldl (λ m s, <[label_of "peer_id" s := f s]> m) ∅ l.
Definition online_peers (l : list Sample) : gset string :=
  list_to_set (label_of "peer_id" <$> filter (λ s, feq (sa_Value s) (float_of 1) = true) l).
(** The first endpoint that is not empty. *)
Definition peer_endpoints (l : list Sample) : gmap string string :=
  foldl (λ m s, let pid := label_of "peer_id" s in let ep := label_of "endpoint" s in
                if bool_decide (ep = "") || negb (bool_decide (str_get m pid = "")) then m else <[pid := ep]> m) ∅ l.

Definition top_node (online : gset string) (endpoints : gmap string string) (cpu : gmap string spec_float) (s : Sample)
    : NodeMonitorDetail :=
  let pid := label_of "peer_id" s in {|
  nm_ID := pid; nm_Name := pid; nm_Endpoint := str_get endpoints pid; nm_TotalTx := to_int (sa_Value s);
  nm_Online := bool_decide (pid ∈ online); nm_CPU := default (S754_zero false) (cpu !! pid) |}.

Definition GetWorkspaceDashboard (namespace : string) : dprog (gresult WorkspaceDashboardResponse) :=
  let ns := matcher "network_id" namespace in
  nodes ← QueryQuiet ("count(last_over_time(lattice_node_uptime_seconds{" +:+ ns +:+ "}[5m]))");
  tput ← QueryQuiet (traffic_rate (Some namespace) "tx" "2m" "1e6");
  trend ← getTrend (namespace +:+ "_tx") (first_value tput);
  latency ← QueryQuiet ("avg(lattice_peer_latency_ms{" +:+ ns +:+ "})");
  loss ← QueryQuiet ("avg(lattice_peer_packet_loss_percent{" +:+ ns +:+ "})");
  start ← call DNow; stop ← call DNow;
  line ← quiet_trend (Some namespace) "5m" "1e6" (start - hour) stop (2 * minute);
  cpu ← QueryQuiet ("last_over_time(lattice_node_cpu_usage_percent{" +:+ ns +:+ "}[5m])");
  mem ← QueryQuiet ("last_over_time(lattice_node_memory_bytes{" +:+ ns +:+ "}[5m])");
  traffic ← QueryQuiet ("topk(10, sum by (peer_id)(increase(lattice_node_traffic_bytes_total{" +:+ ns +:+ "}[24h])))");
  status ← QueryQuiet ("last_over_time(lattice_peer_status{" +:+ ns +:+ "}[5m])");
  let memMap := by_peer (λ s, fdiv (sa_Value s) (float_of (10 ^ 6))) mem in
  Ret (inr {|
    wd_StatCards := [
      dash_card "在线节点" (pretty (to_int (first_value nodes))) "台" "stable" "text-emerald-500";
      dash_card "实时吞吐" (format_fixed 1 (first_value tput)) "Mbps" trend "text-blue-500";
      dash_card "平均延迟" (format_fixed 1 (first_value latency)) "ms"
        (if flt (float_of 100) (first_value latency) then "up" else "stable") "text-amber-500";
      dash_card "丢包率" (format_fixed 2 (first_value loss)) "%"
        (if flt (float_of 1) (first_value loss) then "up" else "stable") "text-emerald-500" ];
    wd_ThroughputTrend := line;
    wd_NodeCPU := (λ s, let pid := label_of "peer_id" s in {|
      nc_PeerID := pid; nc_Name := pid; nc_CPU := sa_Value s; nc_MemoryMB := default (S754_zero false) (memMap !! pid) |}) <$> cpu;
    wd_TopNodes := top_node (online_peers status) (peer_endpoints status) ∅ <$> traffic |}).

(** *** The dashboard of all workspaces *)

Definition by_network {A} (f : Sample -> A) (l : list Sample) : gmap string A :=
  foldl (λ m s, <[label_of "network_id" s := f s]> m) ∅ l.

(** Only the first sample of a peer is listed. *)
Fixpoint first_of_peer (seen : gset string) (l : list Sample) : list Sample :=
  match l with
  | [] => []
  | s :: l =>
      let pid := label_of "peer_id" s in
      if bool_decide (pid ∈ seen) then first_of_peer seen l else s :: first_of_peer ({[ pid ]} ∪ seen) l
  end.

Definition usage_row (nodes : gmap string Z) (traffic health : gmap string spec_float) (wsID : string) : WorkspaceUsageRow :=
  let h := to_int (default (S754_zero false) (health !! wsID)) in
  let h := if h =? 0 then 100 else h in {|
  wu_Name := wsID; wu_Type := "Production"; wu_Nodes := default 0 (nodes !! wsID);
  wu_Traffic := formatTrafficBytes (default (S754_zero false) (traffic !! wsID)); wu_Health := h;
  wu_Status := if h <? 90 then "Warning" else "Running" |}.
Definition usage_rows (nodes : gmap string Z) (traffic health : gmap string spec_float) : list WorkspaceUsageRow :=
  let wsIDs : gmap string () := gset_to_gmap () (dom nodes ∪ dom traffic) in
  usage_row nodes traffic health <$> (fst <$> go_range wsIDs).

Definition global_stats (activeWs onlineNodes : Z) (gbps : spec_float) : list GlobalStatItem := [
  {| gs_Label := "活跃工作空间"; gs_Value := pretty activeWs; gs_Unit := "SETS"; gs_Trend := "+0"; gs_Color := "text-blue-500";
     gs_BarWidth := calcProgress activeWs 20; gs_TrendUp := true |};
  {| gs_Label := "全网在线节点"; gs_Value := pretty onlineNodes; gs_Unit := "NODE"; gs_Trend := "Live";
     gs_Color := "text-emerald-500"; gs_BarWidth := calcProgress onlineNodes 2000; gs_TrendUp := true |};
  {| gs_Label := "全域总吞吐"; gs_Value := format_fixed 1 gbps; gs_Unit := "Gbps"; gs_Trend := "Gbps"; gs_Color := "text-primary";
     gs_BarWidth := calcProgress (to_int (fmul gbps (float_of 10))) 100; gs_TrendUp := true |};
  {| gs_Label := "未处理告警"; gs_Value := "00"; gs_Unit := "WARN"; gs_Trend := "Healthy"; gs_Color := "text-error";
     gs_BarWidth := "0%"; gs_TrendUp := false |} ].

(** The nodes of the most traffic; none if that query fails. *)
Definition global_top : dprog (list NodeMonitorDetail) :=
  r ← QueryByTime "topk(10, sum by (peer_id, network_id) (increase(lattice_node_traffic_bytes_total[24h])))";
  match r with
  | inl _ => Ret []
  | inr traffic =>
      cpu ← QueryQuiet "last_over_time(lattice_node_cpu_usage_percent[5m])";
      status ← QueryQuiet "last_over_time(lattice_peer_status[5m])";
      Ret (top_node (online_peers status) (peer_endpoints status) (by_peer sa_Value cpu) <$> first_of_peer ∅ traffic)
  end.

Definition day : Z := 24 * hour.
(** [Truncate(24h)]: the midnight before, in UTC. *)
Definition midnight (t : Z) : Z := t - (t - zero_time) mod day.

Definition GetGlobalDashboard : dprog (gresult DashboardResponse) :=
  active ← QueryQuiet ("count(count by (workspace_id) (lattice_peer_status{workspace_id!=" +:+ quote +:+ quote +:+ "}))");
  online ← QueryQuiet "count(count by (peer_id) (lattice_peer_status == 1))";
  gbps ← QueryQuiet ("sum(irate(lattice_peer_traffic_bytes_total{" +:+ matcher "direction" "tx" +:+ "}[2m])) * 8 / 1e9");
  nodes ← QueryQuiet "count by (network_id) (last_over_time(lattice_node_uptime_seconds[5m]))";
  traffic ← QueryQuiet ("sum by (network_id) (increase(lattice_node_traffic_bytes_total{" +:+ matcher "direction" "tx" +:+ "}[24h]))");
  health ← QueryQuiet "avg by (network_id) (lattice_peer_status) * 100";
  start ← call DNow; stop ← call DNow;
  line ← quiet_trend None "20m" "1e9" (midnight start) stop (4 * hour);
  top ← global_top;
  Ret (inr {|
    dr_GlobalStats := global_stats (to_int (first_value active)) (to_int (first_value online)) (first_value gbps);
    dr_WorkspaceUsage := usage_rows (by_network (λ s, to_int (sa_Value s)) nodes) (by_network sa_Value traffic)
      (by_network sa_Value health);
    dr_GlobalTrend := line; dr_TopNodes := top |}).

(** ** The controller *)

Definition resolveNamespace (wsID : string) : dprog (gresult string) :=
  ws ← call (DWorkspace wsID);
  Ret match ws with
      | inl err => inl (ErrWrap ("workspace " +:+ wsID +:+ " not found") err)
      | inr ws => if bool_decide (ws_Namespace ws = "")
                  then inl (ErrText ("workspace " +:+ wsID +:+ " has no namespace configured")) else inr (ws_Namespace ws)
      end.
Definition controller_GetWorkspaceAggregatedMonitor (wsID : string) : dprog (gresult AggregatedMonitorResponse) :=
  ns ←? resolveNamespace wsID; GetWorkspaceAggregatedMonitor ns.
Definition controller_GetWorkspaceDashboard (wsID : string) : dprog (gresult WorkspaceDashboardResponse) :=
  ns ←? resolveNamespace wsID; GetWorkspaceDashboard ns.

(** The snapshot of the nodes is not asked for: the answer is always empty. *)
Definition controller_GetNodeSnapshot : dprog (gresult (list NodeSnapshot)) := Ret (inr []).
Definition controller_GetTopologySnapshot (fuel : nat) : dprog (gresult (list PeerSnapshot)) := GetTopologySnapshot fuel.
Definition controller_GetGlobalDashboard : dprog (gresult DashboardResponse) := GetGlobalDashboard.

(** ** Correctness *)

Lemma usage_row_status nodes traffic health wsID :
  let row := usage_row nodes traffic health wsID in
  wu_Health row <> 0 /\ (wu_Status row = "Running" <-> 90 <= wu_Health row).
Proof.
  unfold usage_row. cbn [wu_Health wu_Status].
  set (h := to_int _). destruct (Z.eqb_spec h 0) as [->|Hh].
  - by split.
  - split; [done|]. destruct (Z.ltb_spec h 90); split; intros; try done; lia.
Qed.

(** A workspace none of whose peers is online is shown as healthy. *)
Lemma all_offline_running nodes traffic health wsID v :
  health !! wsID = Some v -> to_int v = 0 ->
  let row := usage_row nodes traffic health wsID in wu_Health row = 100 /\ wu_Status row = "Running".
Proof. 
  intros Hv Hz. assert (E : to_int (default (S754_zero false) (health !! wsID)) = 0) by by rewrite Hv.
  unfold usage_row. cbn [wu_Health wu_Status]. by rewrite E. Qed.

Lemma usage_rows_names nodes traffic health :
  wu_Name <$> usage_rows nodes traffic health = fst <$> go_range (gset_to_gmap () (dom nodes ∪ dom traffic) : gmap string ()).
Proof. unfold usage_rows. rewrite <- !list_fmap_compose. done. Qed.

Lemma first_of_peer_fresh seen l :
  NoDup (label_of "peer_id" <$> first_of_peer seen l) /\
  (forall pid, pid ∈ (label_of "peer_id" <$> first_of_peer seen l) <-> pid ∉ seen /\ pid ∈ (label_of "peer_id" <$> l)).
Proof.
  revert seen. induction l as [|s l IH]; intros seen; cbn [first_of_peer].
  { split; [constructor|]. intros pid. cbn. set_solver. }
  destruct (bool_decide_reflect (label_of "peer_id" s ∈ seen)) as [Hs|Hs].
  - destruct (IH seen) as [Hn Hin]. split; [done|]. intros pid. rewrite Hin, fmap_cons, elem_of_cons. set_solver.
  - destruct (IH ({[ label_of "peer_id" s ]} ∪ seen)) as [Hn Hin]. cbn [fmap list_fmap]. split.
    + constructor; [|done]. rewrite Hin. set_solver.
    + intros pid. rewrite !elem_of_cons. unfold fmap in Hin. rewrite Hin.
      destruct (decide (pid = label_of "peer_id" s)) as [->|]; set_solver.
Qed.

Lemma names_nodup {A} (m : gmap string A) : NoDup (fst <$> go_range m).
Proof. rewrite (go_range_perm m). apply NoDup_fst_map_to_list. Qed.

Section wp.
Context (R : forall T, dashE T -> T -> Prop).
Abbreviation dwp p Q := (wp R (λ _ _, True) p Q).

Lemma any_query promql Q : (forall l, Q l) -> dwp (QueryByTime promql) Q.
Proof. intros HQ. unfold QueryByTime, Query. cbn. split; [done|]. intros now _. split; [done|]. auto. Qed.
Lemma any_quiet promql Q : (forall l, Q l) -> dwp (QueryQuiet promql) Q.
Proof. intros HQ. apply wp_bind, any_query. intros l. apply HQ. Qed.
Lemma any_trend ns window unit start stop step Q : (forall t, Q t) -> dwp (quiet_trend ns window unit start stop step) Q.
Proof. intros HQ. cbn. split; [done|]. intros tx _. split; [done|]. auto. Qed.
Lemma global_top_nodup Q : (forall l, NoDup (nm_ID <$> l) -> Q l) -> dwp global_top Q.
Proof.
  intros HQ. apply wp_bind, any_query. intros [err|traffic]; [apply HQ; constructor|].
  apply wp_bind, any_quiet. intros cpu. apply wp_bind, any_quiet. intros status. apply HQ.
  rewrite <- list_fmap_compose. apply (first_of_peer_fresh ∅ traffic).
Qed.
End wp.

(** The global dashboard.  Whatever the queries answer and whichever of them fail: a dashboard is
    returned, its four figures are there, no workspace is listed twice and no node is, and
    a workspace is running exactly if the health that is shown is at least 90.  A health of
    zero is never shown. *)
Theorem global_dashboard_spec (R : forall T, dashE T -> T -> Prop) :
  wp R (λ _ _, True) GetGlobalDashboard (λ r, exists d, r = inr d /\
    length (dr_GlobalStats d) = 4%nat /\
    NoDup (wu_Name <$> dr_WorkspaceUsage d) /\ NoDup (nm_ID <$> dr_TopNodes d) /\
    Forall (λ row, wu_Health row <> 0 /\ (wu_Status row = "Running" <-> 90 <= wu_Health row)) (dr_WorkspaceUsage d)).
Proof.
  unfold GetGlobalDashboard. do 6 (apply wp_bind, any_quiet; intros ?).
  cbn -[wp global_top quiet_trend]. split; [done|]. intros start _. split; [done|]. intros stop _.
  apply wp_bind, any_trend. intros line. apply wp_bind, global_top_nodup. intros top Htop.
  eexists. split_and!; [done|done| |done|].
  - cbn [dr_WorkspaceUsage]. rewrite usage_rows_names. apply names_nodup.
  - apply Forall_fmap, Forall_forall. intros wsID _. apply usage_row_status.
Qed.
End service.
