(* ===== verification/Telemetry.v ===== *)
(** * Telemetry: the measurements of an agent ([internal/telemetry], the pro build)

    Scrapers measure the system, WireGuard and the peers' latency; every interval their
    samples are written as a remote-write request of protobuf and pushed, with retries. *)

From Stdlib Require Import SpecFloat.
From S2P Require Import Prelude Prog Net Api Message Sha256 Infra.

Record MetricSample := { sm_Name : string; sm_Labels : labels; sm_Value : spec_float; sm_TimestampMs : Z }.
Record Identity := { id_PeerID : string; id_NetworkID : string; id_Interface : string }.

Definition NewSample (name : string) (l : labels) (value : spec_float) (tsMs : Z) : MetricSample :=
  {| sm_Name := name; sm_Labels := l; sm_Value := value; sm_TimestampMs := tsMs |}.
(** The labels of [extra] win. *)
Definition mergeLabels (base extra : labels) : labels := extra ∪ base.

Definition zero : spec_float := S754_zero false.
Definition float_of_int (z : Z) : spec_float := binary_normalize 53 1024 z 0 false.
Definition fadd : spec_float -> spec_float -> spec_float := SFadd 53 1024.

(** [math.Float64bits]. *)
Definition Float64bits (f : spec_float) : Z :=
  let sign (s : bool) := if s then 2 ^ 63 else 0 in
  match f with
  | S754_zero s => sign s
  | S754_infinity s => sign s + 2047 * 2 ^ 52
  | S754_nan => 2047 * 2 ^ 52 + 2 ^ 51 + 1
  | S754_finite s m e =>
      sign s + (if 2 ^ 52 <=? Z.pos m then (e + 1075) * 2 ^ 52 + (Z.pos m - 2 ^ 52) else Z.pos m)
  end.
Example Float64bits_values :
  Float64bits (float_of_int 1) = 1023 * 2 ^ 52 /\ Float64bits (float_of_int (-2)) = 2 ^ 63 + 1024 * 2 ^ 52.
Proof. vm_compute. done. Qed.

Lemma digits2_pos_spec m : 2 ^ (Z.pos (digits2_pos m) - 1) <= Z.pos m < 2 ^ Z.pos (digits2_pos m).
Proof.
  induction m as [m IH|m IH|]; cbn [digits2_pos]; [| |cbn; lia].
  all: rewrite Pos2Z.inj_succ; replace (Z.succ (Z.pos (digits2_pos m)) - 1) with (1 + (Z.pos (digits2_pos m) - 1)) by lia;
    rewrite Z.pow_add_r, Z.pow_succ_r by lia; lia.
Qed.

(** The bits of a binary64 number fit 64 bits. *)
Lemma Float64bits_range f : valid_binary 53 1024 f = true -> 0 <= Float64bits f < 2 ^ 64.
Proof.
  destruct f as [s|s| |s m e]; cbn [Float64bits valid_binary]; intros Hv; try (destruct s; lia); [lia|].
  unfold bounded, canonical_mantissa, fexp, emin in Hv. apply andb_true_iff in Hv as [Hc He].
  apply Z.eqb_eq in Hc. apply Z.leb_le in He. pose proof (digits2_pos_spec m) as [Hlo Hhi].
  assert (Hm : Z.pos m < 2 ^ 53).
  { eapply Z.lt_le_trans; [exact Hhi|]. apply Z.pow_le_mono_r; lia. }
  destruct (Z.leb_spec (2 ^ 52) (Z.pos m)); destruct s; nia.
Qed.

(** ** Protobuf ([protowire]) *)

Fixpoint varint (n : nat) (v : Z) : list Z :=
  match n with
  | O => []
  | S n => if v <? 128 then [v] else (v mod 128 + 128) :: varint n (v / 128)
  end.
(** A 64-bit number takes at most ten bytes. *)
Definition AppendVarint (v : Z) : list Z := varint 10 v.
Definition AppendTag (num type : Z) : list Z := AppendVarint (num * 8 + type).
Definition VarintType : Z := 0.
Definition Fixed64Type : Z := 1.
Definition BytesType : Z := 2.
Definition AppendBytes (b : list Z) : list Z := AppendVarint (Z.of_nat (length b)) ++ b.
Definition AppendFixed64 (v : Z) : list Z := le_bytes 8 v.

Section encoding.
Context `{MapRange}.

(** The labels of a sample with its name, sorted. *)
Definition label_set (s : MetricSample) : list (string * string) :=
  sort_by fst (("__name__", sm_Name s) :: go_range (sm_Labels s)).
Definition label_bytes (kv : string * string) : list Z :=
  AppendTag 1 BytesType ++ AppendBytes (string_bytes kv.1) ++ AppendTag 2 BytesType ++ AppendBytes (string_bytes kv.2).
Definition value_bytes (s : MetricSample) : list Z :=
  AppendTag 1 Fixed64Type ++ AppendFixed64 (Float64bits (sm_Value s)) ++
  AppendTag 2 VarintType ++ AppendVarint (u64 (sm_TimestampMs s)).
Definition series_bytes (s : MetricSample) : list Z :=
  concat ((λ kv, AppendTag 1 BytesType ++ AppendBytes (label_bytes kv)) <$> label_set s) ++
  AppendTag 2 BytesType ++ AppendBytes (value_bytes s).
(** The request before compression. *)
Definition write_request (samples : list MetricSample) : list Z :=
  concat ((λ s, AppendTag 1 BytesType ++ AppendBytes (series_bytes s)) <$> samples).
Definition encodeRemoteWrite (snappy : list Z -> list Z) (samples : list MetricSample) : list Z :=
  snappy (write_request samples).
End encoding.

(** ** Reading a request: the protobuf format *)

Inductive field := FVarint (v : Z) | FFixed64 (b : list Z) | FBytes (b : list Z).

Fixpoint read_varint (n : nat) (l : list Z) : option (Z * list Z) :=
  match n, l with
  | S n, b :: l =>
      if b <? 128 then Some (b, l)
      else '(v, rest) ← read_varint n l; Some (b - 128 + 128 * v, rest)
  | _, _ => None
  end.
Definition read_field (l : list Z) : option (Z * field * list Z) :=
  '(key, l) ← read_varint 10 l;
  let num := key / 8 in
  let type := key mod 8 in
  if type =? VarintType then '(v, l) ← read_varint 10 l; Some (num, FVarint v, l)
  else if type =? Fixed64Type then
    if (8 <=? length l)%nat then Some (num, FFixed64 (take 8 l), drop 8 l) else None
  else if type =? BytesType then
    '(n, l) ← read_varint 10 l;
    if n <=? Z.of_nat (length l) then Some (num, FBytes (take (Z.to_nat n) l), drop (Z.to_nat n) l) else None
  else None.
Fixpoint read_fields (fuel : nat) (l : list Z) : option (list (Z * field)) :=
  match l, fuel with
  | [], _ => Some []
  | _, O => None
  | _, S fuel => '(num, f, l) ← read_field l; fs ← read_fields fuel l; Some ((num, f) :: fs)
  end.
(** Every field takes at least a byte. *)
Definition read_message (l : list Z) : option (list (Z * field)) := read_fields (length l) l.

(** The label pairs, the bits of the value and the time of one series. *)
Definition read_label (l : list Z) : option (list Z * list Z) :=
  match read_message l with Some [(1, FBytes k); (2, FBytes v)] => Some (k, v) | _ => None end.
Definition read_value (l : list Z) : option (Z * Z) :=
  match read_message l with Some [(1, FFixed64 b); (2, FVarint t)] => Some (le_value b, t) | _ => None end.
Record Series := { se_Labels : list (list Z * list Z); se_Samples : list (Z * Z) }.
Fixpoint read_parts (fs : list (Z * field)) : option Series :=
  match fs with
  | [] => Some {| se_Labels := []; se_Samples := [] |}
  | (1, FBytes b) :: fs =>
      kv ← read_label b; s ← read_parts fs; Some {| se_Labels := kv :: se_Labels s; se_Samples := se_Samples s |}
  | (2, FBytes b) :: fs =>
      v ← read_value b; s ← read_parts fs; Some {| se_Labels := se_Labels s; se_Samples := v :: se_Samples s |}
  | _ => None
  end.
Definition read_series (f : Z * field) : option Series :=
  match f with (1, FBytes b) => fs ← read_message b; read_parts fs | _ => None end.
Definition read_request (l : list Z) : option (list Series) :=
  fs ← read_message l; mapM read_series fs.

(** ** What is written can be read *)

Lemma varint_ne n v : (0 < n)%nat -> (1 <= length (varint n v))%nat.
Proof. destruct n as [|n]; [lia|]. intros _. cbn. case_match; cbn; lia. Qed.

Lemma read_varint_app n v r :
  (0 < n)%nat -> 0 <= v < 2 ^ (7 * Z.of_nat n) -> read_varint n (varint n v ++ r) = Some (v, r).
Proof.
  revert v. induction n as [|n IH]; intros v Hn Hv; [lia|]. cbn [varint].
  destruct (Z.ltb_spec v 128) as [Hs|Hs]; cbn [read_varint app].
  - by rewrite (proj2 (Z.ltb_lt v 128) Hs).
  - assert (Hm : 0 <= v mod 128 < 128) by (apply Z.mod_pos_bound; lia).
    rewrite (proj2 (Z.ltb_ge (v mod 128 + 128) 128)) by lia.
    assert (Hd : 0 <= v / 128 < 2 ^ (7 * Z.of_nat n)).
    { split; [apply Z.div_pos; lia|]. apply Z.div_lt_upper_bound; [lia|].
    replace (7 * Z.of_nat (S n)) with (7 + 7 * Z.of_nat n) in Hv by lia. rewrite Z.pow_add_r in Hv by lia. change (2 ^ 7) with 128 in Hv. lia. }
    destruct n as [|n]; [change (2 ^ (7 * Z.of_nat 0)) with 1 in Hd; Z.div_mod_to_equations; lia|].
    rewrite IH by (done || lia). cbn; do 2 f_equal; pose proof (Z.div_mod v 128); lia.
Qed.

Lemma read_AppendVarint v r : 0 <= v < 2 ^ 64 -> read_varint 10 (AppendVarint v ++ r) = Some (v, r).
Proof. intros Hv. apply read_varint_app; [lia|]. change (2 ^ (7 * Z.of_nat 10)) with (2 ^ 70). lia. Qed.

(** A field as it is written. *)
Definition field_bytes (nf : Z * field) : list Z :=
  match nf.2 with
  | FVarint v => AppendTag nf.1 VarintType ++ AppendVarint v
  | FFixed64 b => AppendTag nf.1 Fixed64Type ++ b
  | FBytes b => AppendTag nf.1 BytesType ++ AppendBytes b
  end.
Definition field_ok (nf : Z * field) : Prop :=
  0 <= nf.1 < 2 ^ 29 /\
  match nf.2 with
  | FVarint v => 0 <= v < 2 ^ 64
  | FFixed64 b => length b = 8%nat
  | FBytes b => Z.of_nat (length b) < 2 ^ 63
  end.

Lemma read_tag num type r :
  0 <= num < 2 ^ 29 -> 0 <= type < 8 ->
  exists key, read_varint 10 (AppendTag num type ++ r) = Some (key, r) /\ key / 8 = num /\ key mod 8 = type.
Proof.
  intros Hn Ht. exists (num * 8 + type). split; [apply read_AppendVarint; lia|].
  split; [rewrite Z.div_add_l by lia; rewrite Z.div_small by lia; lia|].
  rewrite Z.add_comm, Z_mod_plus_full. by apply Z.mod_small.
Qed.

Lemma read_field_app nf r : field_ok nf -> read_field (field_bytes nf ++ r) = Some (nf.1, nf.2, r).
Proof.
  destruct nf as [num f]. intros [Hn Hf]. cbn [fst snd] in *. unfold field_bytes. cbn [fst snd].
  destruct f as [v|b|b]; rewrite <- app_assoc; unfold read_field.
  - destruct (read_tag num VarintType (AppendVarint v ++ r) Hn) as (key & -> & Hnum & Htype); [done|].
    cbn [mbind option_bind]. rewrite Hnum, Htype. cbn -[read_varint AppendVarint]. by rewrite read_AppendVarint.
  - destruct (read_tag num Fixed64Type (b ++ r) Hn) as (key & -> & Hnum & Htype); [done|].
    cbn [mbind option_bind]. rewrite Hnum, Htype. cbn -[take drop].
    rewrite length_app, Hf. cbn -[take drop]. by rewrite <- Hf, take_app_length, drop_app_length.
  - destruct (read_tag num BytesType (AppendBytes b ++ r) Hn) as (key & -> & Hnum & Htype); [done|].
    cbn [mbind option_bind]. rewrite Hnum, Htype. unfold AppendBytes. rewrite <- app_assoc.
    cbn -[read_varint AppendVarint take drop]. rewrite read_AppendVarint by lia.
    cbn -[take drop]. rewrite length_app.
    rewrite (proj2 (Z.leb_le _ _)) by lia. by rewrite Nat2Z.id, take_app_length, drop_app_length.
Qed.

Lemma field_bytes_ne nf : (1 <= length (field_bytes nf))%nat.
Proof.
  assert (Ht : forall num type, (1 <= length (AppendTag num type))%nat) by (intros; apply varint_ne; lia).
  unfold field_bytes. destruct nf.2; rewrite length_app; pose proof (Ht nf.1 VarintType);
    pose proof (Ht nf.1 Fixed64Type); pose proof (Ht nf.1 BytesType); lia.
Qed.

Lemma read_fields_concat fuel fs :
  Forall field_ok fs -> (length fs <= fuel)%nat -> read_fields fuel (concat (field_bytes <$> fs)) = Some fs.
Proof.
  intros Hok. revert fuel. induction Hok as [|nf fs Hnf Hok IH]; intros fuel Hfuel; [by destruct fuel|].
  rewrite fmap_cons. cbn [concat]. destruct fuel as [|fuel]; [cbn in Hfuel; lia|].
  pose proof (field_bytes_ne nf) as Hne.
  assert (E : read_fields (S fuel) (field_bytes nf ++ concat (field_bytes <$> fs)) =
    ('(num, f, l) ← read_field (field_bytes nf ++ concat (field_bytes <$> fs)); fs ← read_fields fuel l; Some ((num, f) :: fs))).
  { destruct (field_bytes nf) as [|b l]; [cbn in Hne; lia|done]. }
  rewrite E, read_field_app by done. cbn [mbind option_bind].
  rewrite IH by (cbn in Hfuel; lia). by destruct nf.
Qed.

Lemma read_message_concat fs : Forall field_ok fs -> read_message (concat (field_bytes <$> fs)) = Some fs.
Proof.
  intros Hok. apply read_fields_concat; [done|]. clear Hok.
  induction fs as [|nf fs IH]; [done|]. rewrite fmap_cons. cbn [concat length].
  rewrite length_app. pose proof (field_bytes_ne nf). lia.
Qed.

Section roundtrip.
Context `{MapRange}.

Definition label_fields (kv : string * string) : list (Z * field) :=
  [(1, FBytes (string_bytes kv.1)); (2, FBytes (string_bytes kv.2))].
Definition value_fields (s : MetricSample) : list (Z * field) :=
  [(1, FFixed64 (le_bytes 8 (Float64bits (sm_Value s)))); (2, FVarint (u64 (sm_TimestampMs s)))].
Definition series_fields (s : MetricSample) : list (Z * field) :=
  ((λ kv, (1, FBytes (label_bytes kv))) <$> label_set s) ++ [(2, FBytes (value_bytes s))].

Lemma label_bytes_fields kv : label_bytes kv = concat (field_bytes <$> label_fields kv).
Proof. unfold label_bytes, label_fields. cbn -[AppendTag AppendBytes]. by rewrite app_nil_r, <- !app_assoc. Qed.
Lemma value_bytes_fields s : value_bytes s = concat (field_bytes <$> value_fields s).
Proof. unfold value_bytes, value_fields. cbn -[AppendTag AppendVarint le_bytes]. by rewrite app_nil_r, <- !app_assoc. Qed.
Lemma series_bytes_fields s : series_bytes s = concat (field_bytes <$> series_fields s).
Proof.
  unfold series_bytes, series_fields. rewrite fmap_app, concat_app. f_equal.
  - by rewrite <- list_fmap_compose.
  - cbn -[AppendTag AppendBytes]. by rewrite app_nil_r.
Qed.
Lemma write_request_fields samples :
  write_request samples = concat (field_bytes <$> ((λ s, (1, FBytes (series_bytes s))) <$> samples)).
Proof. unfold write_request. by rewrite <- list_fmap_compose. Qed.

(** Parts are no longer than the whole. *)
Lemma field_length num b : (length b <= length (field_bytes (num, FBytes b)))%nat.
Proof. unfold field_bytes, AppendBytes. cbn [fst snd]. rewrite !length_app. lia. Qed.
Lemma concat_length {A B} (f : A -> list B) (l : list A) x : x ∈ l -> (length (f x) <= length (concat (f <$> l)))%nat.
Proof.
  induction l as [|y l IH]; [by intros ?%elem_of_nil|]. rewrite elem_of_cons, fmap_cons. cbn [concat]. rewrite length_app.
  intros [->|Hx]; [lia|]. specialize (IH Hx). lia.
Qed.
Lemma fields_length fs num b :
  (num, FBytes b) ∈ fs -> (length b <= length (concat (field_bytes <$> fs)))%nat.
Proof. intros Hin. etrans; [apply (field_length num)|]. by apply concat_length. Qed.

Lemma read_label_bytes kv :
  Z.of_nat (length (label_bytes kv)) < 2 ^ 63 -> read_label (label_bytes kv) = Some (string_bytes kv.1, string_bytes kv.2).
Proof.
  rewrite label_bytes_fields. intros Hl. unfold read_label. rewrite read_message_concat; [done|].
  pose proof (fields_length (label_fields kv) 1 (string_bytes kv.1) ltac:(left)) as H1.
  pose proof (fields_length (label_fields kv) 2 (string_bytes kv.2) ltac:(right; left)) as H2.
  repeat constructor; cbn [fst snd]; lia.
Qed.
Lemma read_value_bytes s : read_value (value_bytes s) = Some (u64 (Float64bits (sm_Value s)), u64 (sm_TimestampMs s)).
Proof.
  rewrite value_bytes_fields. unfold read_value. rewrite read_message_concat.
  - cbn -[le_bytes le_value]. by rewrite le_value_bytes.
  - repeat constructor; cbn [fst snd]; try lia; try apply length_le_bytes; apply u64_range.
Qed.

(** What a series says. *)
Definition series_of (s : MetricSample) : Series := {|
  se_Labels := (λ kv, (string_bytes kv.1, string_bytes kv.2)) <$> label_set s;
  se_Samples := [(u64 (Float64bits (sm_Value s)), u64 (sm_TimestampMs s))] |}.

Lemma read_series_bytes s :
  Z.of_nat (length (series_bytes s)) < 2 ^ 63 -> read_series (1, FBytes (series_bytes s)) = Some (series_of s).
Proof.
  intros Hl. cbn [read_series]. rewrite series_bytes_fields in Hl |- *.
  rewrite read_message_concat; cbn [mbind option_bind].
  - assert (Hlabels : forall kv, kv ∈ label_set s -> Z.of_nat (length (label_bytes kv)) < 2 ^ 63).
    { intros kv Hkv. pose proof (fields_length (series_fields s) 1 (label_bytes kv)) as Hle.
      assert ((1, FBytes (label_bytes kv)) ∈ series_fields s).
      { apply elem_of_app. left. apply list_elem_of_fmap. by exists kv. }
      specialize (Hle H0). lia. }
    unfold series_fields, series_of. clear Hl. induction (label_set s) as [|kv l IH].
    + cbn [fmap list_fmap app read_parts]. by rewrite read_value_bytes.
    + rewrite !fmap_cons. cbn [app read_parts]. rewrite read_label_bytes by (apply Hlabels; by left).
      cbn [mbind option_bind]. rewrite IH; [done|]. intros kv' Hkv'. apply Hlabels. by right.
  - apply Forall_forall. intros [num f] Hin.
    assert (Hb : forall b, f = FBytes b -> Z.of_nat (length b) < 2 ^ 63).
    { intros b ->. pose proof (fields_length _ _ _ Hin). lia. }
    apply elem_of_app in Hin as [Hin|Hin].
    + apply list_elem_of_fmap in Hin as (kv & [= -> ->] & _). split; [cbn; lia|]. by apply Hb.
    + apply list_elem_of_singleton in Hin as [= -> ->]. split; [cbn; lia|]. by apply Hb.
Qed.

(** C5. What is pushed can be read: whatever the samples, the request read back is, in order, one
    series per sample, with the labels of the sample and its name sorted by name, its value
    bit for bit and its time.  The request fits a slice. *)
Theorem remote_write_read samples :
  Z.of_nat (length (write_request samples)) < 2 ^ 63 ->
  read_request (write_request samples) = Some (series_of <$> samples) /\
  (forall s, s ∈ samples -> label_set s ≡ₚ ("__name__", sm_Name s) :: map_to_list (sm_Labels s) /\
     StronglySorted (key_le fst) (label_set s)).
Proof.
  intros Hl. split.
  2:{ intros s _. split; [|apply sort_by_sorted]. unfold label_set. by rewrite sort_by_perm, go_range_perm. }
  rewrite write_request_fields in Hl |- *. unfold read_request.
  assert (Hs : forall s, s ∈ samples -> Z.of_nat (length (series_bytes s)) < 2 ^ 63).
  { intros s Hin. pose proof (fields_length ((λ s, (1, FBytes (series_bytes s))) <$> samples) 1 (series_bytes s)) as Hle.
    assert (Hf : (1, FBytes (series_bytes s)) ∈ ((λ s, (1, FBytes (series_bytes s))) <$> samples)).
    { apply list_elem_of_fmap. by exists s. }
    specialize (Hle Hf). lia. }
  rewrite read_message_concat; cbn [mbind option_bind].
  - clear Hl. induction samples as [|s samples IH]; [done|]. rewrite !fmap_cons. cbn [mapM].
    rewrite read_series_bytes by (apply Hs; by left). cbn [mbind option_bind].
    rewrite IH; [done|]. intros s' Hs'. apply Hs. by right.
  - apply Forall_fmap, Forall_forall. intros s Hin. split; [cbn; lia|]. by apply Hs.
Qed.
End roundtrip.

(** ** Scrapers *)

(** A peer as the device reports it; times in nanoseconds, none for no handshake. *)
Record WgPeer := {
  wg_Key : list Z; wg_KeyText : string; wg_ReceiveBytes : Z; wg_TransmitBytes : Z; wg_LastHandshake : option Z;
  wg_Endpoint : option string }.

(** The clock in milliseconds and in nanoseconds; the device; a ping of three packets (its mean
    time in milliseconds and its loss, none if it could not be made); the measurements of the
    system; the POST of a request (its status); and the wait between attempts, which the end
    of the context cuts short. *)
Inductive telE : Type -> Type :=
| TNowMs : telE Z
| TNow : telE Z
| TDevice (iface : string) : telE (gresult (list WgPeer))
| TPing (ip : string) : telE (option (Z * spec_float))
| TCPU : telE (option spec_float)
| TMemory : telE (option Z)
| TGoroutines : telE Z
| TUptime : telE spec_float
| TPush (payload : list Z) : telE (gresult Z)
| TWait (seconds : Z) : telE (option gerror).
Abbreviation tprog := (prog telE).

Definition scraper := (Identity -> Z -> tprog (gresult (list MetricSample))).
Definition node_base (id : Identity) : labels := {[ "peer_id" := id_PeerID id; "network_id" := id_NetworkID id ]}.
Definition the_label (name value : string) : labels := {[ name := value ]}.

Definition system_Scrape : scraper := λ id nowMs,
  let base := node_base id in
  cpu ← call TCPU;
  mem ← call TMemory;
  goroutines ← call TGoroutines;
  uptime ← call TUptime;
  Ret (inr (
    (match cpu with Some p => [NewSample "lattice_node_cpu_usage_percent" base p nowMs] | None => [] end) ++
    (match mem with Some u => [NewSample "lattice_node_memory_bytes" base (float_of_int u) nowMs] | None => [] end) ++
    [NewSample "lattice_node_goroutines" base (float_of_int goroutines) nowMs;
     NewSample "lattice_node_uptime_seconds" base uptime nowMs])).

Section scrapers.
Context `{MapRange} `{WireGuardKeys} (peers : PeerManager.PeerManager).

(** The identifier, name and network of a remote peer; an unknown one goes by the beginning
    of its key and is taken for one of the own network. *)
Definition remote_of (id : Identity) (p : WgPeer) : string * string * string :=
  let network n := if bool_decide (n = "") then id_NetworkID id else n in
  match PeerManager.GetByPeerID peers (FromKey (wg_Key p)) with
  | Some meta => (ip_AppID meta, ip_Name meta, network (ip_NetworkId meta))
  | None => let short := str_take 16 (wg_KeyText p) in (short, short, network "")
  end.

Definition three_minutes : Z := 3 * 60 * 10 ^ 9.
Definition peer_online (now : Z) (p : WgPeer) : bool :=
  match wg_LastHandshake p with Some t => now - t <? three_minutes | None => false end.

Definition peer_samples (id : Identity) (nowMs now : Z) (p : WgPeer) : list MetricSample :=
  let base := node_base id in
  let '(remotePeerID, remoteName, _) := remote_of id p in
  let traffic := mergeLabels base {[ "remote_peer_id" := remotePeerID; "remote_peer_name" := remoteName ]} in
  [NewSample "lattice_peer_status"
     (mergeLabels base {[ "remote_peer_id" := remotePeerID; "remote_peer_name" := remoteName;
                          "endpoint" := default "" (wg_Endpoint p) ]})
     (if peer_online now p then float_of_int 1 else zero) nowMs;
   NewSample "lattice_peer_last_handshake_seconds" (mergeLabels base (the_label "remote_peer_id" remotePeerID))
     (match wg_LastHandshake p with Some t => float_of_int (t / 10 ^ 9) | None => zero end) nowMs;
   NewSample "lattice_peer_traffic_bytes_total" (mergeLabels traffic (the_label "direction" "rx"))
     (float_of_int (wg_ReceiveBytes p)) nowMs;
   NewSample "lattice_peer_traffic_bytes_total" (mergeLabels traffic (the_label "direction" "tx"))
     (float_of_int (wg_TransmitBytes p)) nowMs].

Definition total (f : WgPeer -> Z) (l : list WgPeer) : spec_float := foldl (λ t p, fadd t (float_of_int (f p))) zero l.
(** The traffic with each other network. *)
Definition peering (f : WgPeer -> Z) (id : Identity) (l : list WgPeer) : gmap string spec_float :=
  foldl (λ m p, let '(_, _, network) := remote_of id p in
                if bool_decide (network = id_NetworkID id) then m
                else <[network := fadd (default zero (m !! network)) (float_of_int (f p))]> m) ∅ l.

Definition wireguard_Scrape : scraper := λ id nowMs,
  dev ← call (TDevice (id_Interface id));
  match dev with
  | inl err => Ret (inl (ErrWrap ("wgctrl Device(" +:+ id_Interface id +:+ ")") err))
  | inr l =>
      now ← call TNow;
      let base := node_base id in
      let tx := peering wg_TransmitBytes id l in
      Ret (inr (concat (peer_samples id nowMs now <$> l) ++
        [NewSample "lattice_node_traffic_bytes_total" (mergeLabels base (the_label "direction" "rx")) (total wg_ReceiveBytes l) nowMs;
         NewSample "lattice_node_traffic_bytes_total" (mergeLabels base (the_label "direction" "tx")) (total wg_TransmitBytes l) nowMs] ++
        concat ((λ nr : string * spec_float,
          let lbls : labels := {[ "peer_id" := id_PeerID id; "local_network_id" := id_NetworkID id; "remote_network_id" := nr.1 ]} in
          [NewSample "lattice_peering_traffic_bytes_total" (mergeLabels lbls (the_label "direction" "rx")) nr.2 nowMs;
           NewSample "lattice_peering_traffic_bytes_total" (mergeLabels lbls (the_label "direction" "tx"))
             (default zero (tx !! nr.1)) nowMs]) <$> go_range (peering wg_ReceiveBytes id l))))
  end.

(** The peers with an address are pinged; the results come in the order the pings end, and the
    table is ranged over in any order, so that these orders are taken to agree. *)
Definition ping_targets : list (InfraPeer * string) :=
  omap (λ p, a ← ip_Address p; if bool_decide (a = "") || bool_decide (a = "0.0.0.0") then None else Some (p, a))
    (PeerManager.GetAll peers).
Fixpoint ping_all (id : Identity) (nowMs : Z) (l : list (InfraPeer * string)) : tprog (list MetricSample) :=
  match l with
  | [] => Ret []
  | (p, ip) :: l =>
      r ← call (TPing ip);
      let '(latency, loss) := match r with
        | Some (rtt, loss) => (float_of_int rtt, loss)
        | None => (zero, float_of_int 100)
        end in
      let base := node_base id in
      rest ← ping_all id nowMs l;
      Ret (NewSample "lattice_peer_latency_ms" (mergeLabels base
             {[ "remote_peer_id" := ip_AppID p; "remote_peer_name" := ip_Name p; "remote_peer_ip" := ip ]}) latency nowMs ::
           NewSample "lattice_peer_packet_loss_percent" (mergeLabels base (the_label "remote_peer_id" (ip_AppID p))) loss nowMs ::
           rest)
  end.
Definition icmp_Scrape : scraper := λ id nowMs, out ← ping_all id nowMs ping_targets; Ret (inr out).
End scrapers.

(** ** The collector *)

Record Config := { cf_VMEndpoint : string; cf_Interval : Z; cf_MaxRetries : Z }.
Definition setDefaults (c : Config) : Config := {|
  cf_VMEndpoint := cf_VMEndpoint c; cf_Interval := if cf_Interval c <=? 0 then 30 * 10 ^ 9 else cf_Interval c;
  cf_MaxRetries := if cf_MaxRetries c <=? 0 then 3 else cf_MaxRetries c |}.

Definition push (payload : list Z) : tprog (gresult unit) :=
  status ←? call (TPush payload);
  if Z.quot status 100 =? 2 then Ret (inr tt) else Ret (inl (ErrText ("vm returned HTTP " +:+ pretty status))).

(** Attempt [i] with [n] left. *)
Fixpoint push_loop (payload : list Z) (retries : Z) (n : nat) (i : Z) (lastErr : gerror) : tprog (gresult unit) :=
  match n with
  | O => Ret (inl (ErrWrap ("push failed after " +:+ pretty retries +:+ " retries") lastErr))
  | S n =>
      r ← push payload;
      match r with
      | inr _ => Ret (inr tt)
      | inl err =>
          w ← call (TWait (Z.shiftl 1 i));
          match w with Some cerr => Ret (inl cerr) | None => push_loop payload retries n (i + 1) err end
      end
  end.
Definition pushWithRetry (retries : Z) (payload : list Z) : tprog (gresult unit) :=
  push_loop payload retries (Z.to_nat retries) 0 (ErrText "%!w(<nil>)").

(** A scraper that fails is left out. *)
Fixpoint scrape_all (id : Identity) (nowMs : Z) (l : list scraper) : tprog (list MetricSample) :=
  match l with
  | [] => Ret []
  | sc :: l =>
      r ← sc id nowMs;
      rest ← scrape_all id nowMs l;
      Ret (match r with inl _ => rest | inr samples => samples ++ rest end)
  end.

Section collector.
Context `{MapRange} (snappy : list Z -> list Z).

(** A cycle at the time [nowMs]. *)
Definition cycle (c : Config) (id : Identity) (scrapers : list scraper) (nowMs : Z) : tprog (gresult unit) :=
  samples ← scrape_all id nowMs scrapers;
  if bool_decide (samples = []) || bool_decide (cf_VMEndpoint c = "") then Ret (inr tt)
  else pushWithRetry (cf_MaxRetries c) (encodeRemoteWrite snappy samples).

Definition tick (c : Config) (id : Identity) (scrapers : list scraper) : tprog (gresult unit) :=
  nowMs ← call TNowMs; cycle c id scrapers nowMs.

(** A cycle per tick; its error is only logged. *)
Fixpoint collector_Run (c : Config) (id : Identity) (scrapers : list scraper) (ticks : nat) : tprog unit :=
  match ticks with
  | O => Ret tt
  | S ticks => _ ← tick c id scrapers; collector_Run c id scrapers ticks
  end.
End collector.

(** *** Attempts *)

(** A world that remembers which attempts were accepted. *)
Definition push_world T (e : telE T) (s : list bool) (r : T) (s' : list bool) : Prop :=
  match e in telE T return T -> Prop with
  | TPush _ => λ r, s' = s ++ [match r with inl _ => false | inr status => Z.quot status 100 =? 2 end]
  | _ => λ _, s' = s
  end r.

Lemma push_inv payload s r s' :
  runs push_world (push payload) s r s' -> s' = s ++ [match r with inl _ => false | inr _ => true end].
Proof.
  intros Hr. apply runs_bind_inv in Hr as (a & s1 & Ha & Hr). apply runs_call_inv in Ha. cbn in Ha.
  destruct a as [err|status]; [by apply runs_ret_inv in Hr as [-> ->]|].
  destruct (Z.quot status 100 =? 2); by apply runs_ret_inv in Hr as [-> ->].
Qed.

Lemma push_loop_inv payload retries n i last s r s' :
  runs push_world (push_loop payload retries n i last) s r s' ->
  exists k, s' = s ++ replicate k false ++ (match r with inl _ => [] | inr _ => [true] end) /\
    (k + length (match r with inl _ => [] | inr _ => [true] end) <= n)%nat /\
    ((0 < n)%nat -> (0 < k + length (match r with inl _ => [] | inr _ => [true] end))%nat).
Proof.
  revert i last s. induction n as [|n IH]; intros i last s Hr.
  { apply runs_ret_inv in Hr as [-> ->]. exists 0%nat. rewrite app_nil_r. cbn. split_and!; [done|lia|lia]. }
  apply runs_bind_inv in Hr as (a & s1 & Ha & Hr). apply push_inv in Ha as ->. destruct a as [err|u].
  - apply runs_bind_inv in Hr as (w & s1 & Hw & Hr). apply runs_call_inv in Hw. cbn in Hw. subst s1.
    destruct w as [cerr|].
    + apply runs_ret_inv in Hr as [-> ->]. exists 1%nat. cbn. split_and!; [done|lia|lia].
    + apply IH in Hr as (k & -> & Hk & _). exists (S k). rewrite <- app_assoc. cbn. split_and!; [done| |]; lia.
  - apply runs_ret_inv in Hr as [-> ->]. exists 0%nat. cbn. split_and!; [done|lia|lia].
Qed.

(** A payload is accepted at most once: the attempts are refused ones, at least one and at most as many as
    configured, and then the accepted one exactly if the push succeeds. *)
Theorem push_attempts retries payload r s' :
  0 < retries -> runs push_world (pushWithRetry retries payload) [] r s' ->
  s' <> [] /\ Z.of_nat (length s') <= retries /\
  exists k, s' = replicate k false ++ match r with inl _ => [] | inr _ => [true] end.
Proof.
  intros Hretries Hr. apply push_loop_inv in Hr as (k & -> & Hk & Hpos). rewrite app_nil_l.
  specialize (Hpos ltac:(lia)). rewrite length_app, length_replicate. split_and!; [|lia|by exists k].
  intros E. apply (f_equal length) in E. rewrite length_app, length_replicate in E. cbn in E. lia.
Qed.

(** A scraper that fails loses only its own samples: the cycle pushes the samples of the others in
    order, if there are any and there is somewhere to push them. *)
Theorem failing_scraper_skipped `{MapRange} snappy c id nowMs (answers : list (gresult (list MetricSample))) :
  let samples := concat ((λ r, match r with inl _ => [] | inr l => l end) <$> answers) in
  cycle snappy c id ((λ r _ _, Ret r) <$> answers) nowMs =
  if bool_decide (samples = []) || bool_decide (cf_VMEndpoint c = "") then Ret (inr tt)
  else pushWithRetry (cf_MaxRetries c) (snappy (write_request samples)).
Proof.
  cbv zeta. unfold cycle. assert (E : scrape_all id nowMs ((λ r _ _, Ret r) <$> answers) =
    Ret (concat ((λ r, match r with inl _ => [] | inr l => l end) <$> answers))).
  { induction answers as [|r l IH]; [done|]. rewrite !fmap_cons. cbn [scrape_all concat].
    rewrite bind_ret, IH, bind_ret. by destruct r. }
  by rewrite E, bind_ret.
Qed.

(** ** Examples *)

Definition sample_metric : MetricSample := {|
  sm_Name := "up"; sm_Labels := {[ "peer_id" := "a" ]}; sm_Value := float_of_int 1; sm_TimestampMs := 1000 |}.

Lemma remote_write_read_witness :
  @read_request (@write_request range_in_order [sample_metric]) = Some [@series_of range_in_order sample_metric].
Proof. apply (proj1 (@remote_write_read range_in_order [sample_metric] ltac:(vm_compute; reflexivity))). Defined.

Lemma push_attempts_witness :
  exists k, [false; true] = replicate k false ++ [true].
Proof.
  assert (Hr : runs push_world (pushWithRetry 3 [7]) [] (inr tt) [false; true]).
  { eapply (runs_vis _ _ (TPush [7]) _ _ (inr 503) [false]); [reflexivity|].
    eapply (runs_vis _ _ (TWait 1) _ _ None [false]); [reflexivity|].
    eapply (runs_vis _ _ (TPush [7]) _ _ (inr 204) [false; true]); [reflexivity|]. apply runs_ret. }
  destruct (push_attempts 3 [7] (inr tt) [false; true] ltac:(lia) Hr) as (_ & _ & Hk). exact Hk.
Defined.
