(* ===== verification/Notifiers.v ===== *)
(** * Notifiers: where alerts are sent ([internal/monitor/alert/notifier])

    The alert engine hands a notification and the configuration of a channel, a JSON text, to
    the notifier of the channel's type: a webhook, a DingTalk or Slack robot, or a mail. *)

From Stdlib Require Import SpecFloat.
From S2P Require Import Prelude Prog Api Json Sha256 ClusterPeering Alerts Dashboard.

Record WebhookConfig := { wc_URL : string; wc_Method : string; wc_Headers : labels }.
Record DingTalkConfig := { dc_WebhookURL : string; dc_Secret : string }.
Record SlackConfig := { sk_WebhookURL : string }.
Record EmailConfig := {
  em_SMTPHost : string; em_SMTPPort : Z; em_Username : string; em_Password : string; em_From : string; em_To : string }.

(** [json.Unmarshal] of the configurations; a finite number in JSON; [time.RFC3339];
    [url.QueryEscape]. *)
Class ChannelText := {
  decode_webhook : string -> gresult WebhookConfig;
  decode_dingtalk : string -> gresult DingTalkConfig;
  decode_slack : string -> gresult SlackConfig;
  decode_email : string -> gresult EmailConfig;
  json_float : spec_float -> string;
  rfc3339 : Z -> string;
  QueryEscape : string -> string;
}.

(** A request with headers and a body, answered by a status and a body; a mail. *)
Inductive notifyE : Type -> Type :=
| NNowMs : notifyE Z
| NHttp (method url : string) (headers : list (string * string)) (body : string) : notifyE (gresult (Z * string))
| NMail (addr username password host from : string) (recipients : list string) (msg : string) : notifyE (gresult unit).
Abbreviation nprog := (prog notifyE).

(** [base64.StdEncoding]. *)
Definition base64_digit (d : Z) : ascii :=
  ascii_of_nat (Z.to_nat (if d <? 26 then 65 + d else if d <? 52 then 71 + d else if d <? 62 then d - 4
                          else if d =? 62 then 43 else 47)).
Fixpoint base64 (l : list Z) : string :=
  let c (d : Z) s := String (base64_digit d) s in
  match l with
  | [] => ""
  | [a] => c (a / 4) (c (a mod 4 * 16) "==")
  | [a; b] => c (a / 4) (c (a mod 4 * 16 + b / 16) (c (b mod 16 * 4) "="))
  | a :: b :: d :: l => c (a / 4) (c (a mod 4 * 16 + b / 16) (c (b mod 16 * 4 + d / 64) (c (d mod 64) (base64 l))))
  end.
Example base64_values : base64 (string_bytes "foobar") = "Zm9vYmFy" /\ base64 (string_bytes "fo") = "Zm8=".
Proof. vm_compute. done. Qed.

Definition json_type : list (string * string) := [("Content-Type", "application/json")].
Definition line_feed : string := String (ascii_of_nat 10) "".
Definition is_finite (f : spec_float) : bool :=
  match f with S754_nan | S754_infinity _ => false | _ => true end.

Section notifiers.
Context `{MapRange} `{ChannelText}.

(** *** Webhook *)

(** A number that is not finite cannot be written: the error is ignored and the body empty.
    The labels of an item are never set. *)
Definition webhook_body (req : NotificationRequest) : string :=
  if forallb (λ a, is_finite (ai_Value a)) (nr_Alerts req) then
    json_object [
      json_field "alerts" (json_nil_array (λ a, json_object [json_field "Labels" json_null;
        json_field "Value" (json_float (ai_Value a)); json_field "Message" (json_string (ai_Message a))]) (nr_Alerts req));
      json_field "rule_name" (json_string (nr_RuleName req)); json_field "severity" (json_string (nr_Severity req));
      json_field "started_at" (json_string (rfc3339 (nr_StartedAt req))); json_field "status" (json_string (nr_Status req))]
  else "".

Definition webhook_Send (req : NotificationRequest) (config : string) : nprog (gresult unit) :=
  match decode_webhook config with
  | inl err => Ret (inl (ErrWrap "parse webhook config" err))
  | inr cfg =>
      if bool_decide (wc_URL cfg = "") then Ret (inl (ErrText "webhook URL is empty"))
      else
        let method := if bool_decide (wc_Method cfg = "") then "POST" else wc_Method cfg in
        resp ← call (NHttp method (wc_URL cfg) (json_type ++ go_range (wc_Headers cfg)) (webhook_body req));
        Ret match resp with
            | inl err => inl (ErrWrap "webhook request failed" err)
            | inr (status, _) =>
                if 400 <=? status then inl (ErrText ("webhook returned status " +:+ pretty status)) else inr tt
            end
  end.

(** *** DingTalk *)

Definition signDingTalk (secret : string) (timestamp : Z) : string :=
  base64 (hmac_sha256 (string_bytes secret) (string_bytes (pretty timestamp +:+ line_feed +:+ secret))).

Definition dingtalk_text (req : NotificationRequest) : string :=
  (if bool_decide (nr_Status req = "resolved") then "🟢" else "🔴") +:+ " [" +:+ nr_Severity req +:+ "] " +:+ nr_RuleName req +:+
  line_feed +:+ "Status: " +:+ nr_Status req +:+ line_feed +:+ "Severity: " +:+ nr_Severity req +:+
  str_join "" ((λ a, line_feed +:+ "Value: " +:+ format_fixed 2 (ai_Value a) +:+
    (if bool_decide (ai_Message a = "") then "" else line_feed +:+ ai_Message a)) <$> nr_Alerts req).
Definition buildDingTalkMessage (req : NotificationRequest) : string :=
  json_object [json_field "msgtype" (json_string "text");
               json_field "text" (json_object [json_field "content" (json_string (dingtalk_text req))])].

Definition dingtalk_url (cfg : DingTalkConfig) (ts : Z) : string :=
  if bool_decide (dc_Secret cfg = "") then dc_WebhookURL cfg
  else dc_WebhookURL cfg +:+ "&timestamp=" +:+ pretty ts +:+ "&sign=" +:+ QueryEscape (signDingTalk (dc_Secret cfg) ts).
Definition dingtalk_Send (req : NotificationRequest) (config : string) : nprog (gresult unit) :=
  match decode_dingtalk config with
  | inl err => Ret (inl (ErrWrap "parse dingtalk config" err))
  | inr cfg =>
      if bool_decide (dc_WebhookURL cfg = "") then Ret (inl (ErrText "dingtalk webhook URL is empty"))
      else
        ts ← (if bool_decide (dc_Secret cfg = "") then Ret 0 else call NNowMs);
        resp ← call (NHttp "POST" (dingtalk_url cfg ts) json_type (buildDingTalkMessage req));
        Ret match resp with
            | inl err => inl (ErrWrap "dingtalk request failed" err)
            | inr (status, body) =>
                if 400 <=? status then inl (ErrText ("dingtalk returned " +:+ pretty status +:+ ": " +:+ body)) else inr tt
            end
  end.

(** *** Slack *)

Definition slack_text (req : NotificationRequest) : string :=
  "*[" +:+ nr_Severity req +:+ "]* " +:+ nr_RuleName req +:+ " — *" +:+ nr_Status req +:+ "*" +:+ line_feed +:+
  str_join "" ((λ a, "Value: `" +:+ format_fixed 2 (ai_Value a) +:+ "`" +:+
    (if bool_decide (ai_Message a = "") then "" else " | " +:+ ai_Message a) +:+ line_feed) <$> nr_Alerts req).
Definition slack_body (req : NotificationRequest) : string :=
  let color := if bool_decide (nr_Status req = "resolved") then "#36a64f"
               else if bool_decide (nr_Severity req = "warning") then "#ffaa00" else "#ff0000" in
  json_object [json_field "attachments" (json_array id [json_object [
    json_field "color" (json_string color); json_field "footer" (json_string "Lattice Alert");
    json_field "text" (json_string (slack_text req));
    json_field "title" (json_string ("[" +:+ nr_Severity req +:+ "] " +:+ nr_RuleName req +:+ " - " +:+ nr_Status req));
    json_field "ts" (json_int (Unix (nr_StartedAt req)))]])].
Definition slack_Send (req : NotificationRequest) (config : string) : nprog (gresult unit) :=
  match decode_slack config with
  | inl err => Ret (inl (ErrWrap "parse slack config" err))
  | inr cfg =>
      if bool_decide (sk_WebhookURL cfg = "") then Ret (inl (ErrText "slack webhook URL is empty"))
      else
        resp ← call (NHttp "POST" (sk_WebhookURL cfg) json_type (slack_body req));
        Ret match resp with
            | inl err => inl (ErrWrap "slack request failed" err)
            | inr (status, _) =>
                if 400 <=? status then inl (ErrText ("slack returned status " +:+ pretty status)) else inr tt
            end
  end.

(** *** Mail *)

Definition buildEmailBody (req : NotificationRequest) : string :=
  str_join line_feed (["Rule: " +:+ nr_RuleName req; "Status: " +:+ nr_Status req; "Severity: " +:+ nr_Severity req;
    "Time: " +:+ rfc3339 (nr_StartedAt req); ""] ++
    concat ((λ a, ("  Value: " +:+ format_fixed 2 (ai_Value a)) ::
      (if bool_decide (ai_Message a = "") then [] else ["  Message: " +:+ ai_Message a])) <$> nr_Alerts req)).

Definition crlf : string := String (ascii_of_nat 13) line_feed.
Definition email_message (cfg : EmailConfig) (req : NotificationRequest) : string :=
  str_join crlf ["From: " +:+ em_From cfg; "To: " +:+ em_To cfg;
    "Subject: [Lattice Alert] " +:+ nr_RuleName req +:+ " - " +:+ nr_Status req; "MIME-Version: 1.0";
    "Content-Type: text/plain; charset=UTF-8"; ""; buildEmailBody req].

(** [strings.Split] at commas, and [strings.TrimSpace] of each part. *)
Fixpoint split_commas (s : string) : list string :=
  match s with
  | EmptyString => [""]
  | String c s =>
      if bool_decide (c = ascii_of_nat 44) then "" :: split_commas s
      else match split_commas s with x :: l => String c x :: l | [] => [String c ""] end
  end.
Fixpoint trim_start (s : string) : string :=
  match s with EmptyString => "" | String c s' => if Ascii.is_space c then trim_start s' else s end.
Fixpoint trim_end (s : string) : string :=
  match s with EmptyString => "" | String c s' => if is_blank s then "" else String c (trim_end s') end.

Definition email_Send (req : NotificationRequest) (config : string) : nprog (gresult unit) :=
  match decode_email config with
  | inl err => Ret (inl (ErrWrap "parse email config" err))
  | inr cfg =>
      if bool_decide (em_SMTPHost cfg = "") || bool_decide (em_To cfg = "") then Ret (inl (ErrText "email config incomplete"))
      else call (NMail (em_SMTPHost cfg +:+ ":" +:+ pretty (em_SMTPPort cfg)) (em_Username cfg) (em_Password cfg)
        (em_SMTPHost cfg) (em_From cfg) ((λ r, trim_end (trim_start r)) <$> split_commas (em_To cfg)) (email_message cfg req))
  end.

(** *** The notifiers by their type ([monitor.go]) *)

Definition notify (kind : string) : option (NotificationRequest -> string -> nprog (gresult unit)) :=
  if bool_decide (kind = "webhook") then Some webhook_Send
  else if bool_decide (kind = "dingtalk") then Some dingtalk_Send
  else if bool_decide (kind = "slack") then Some slack_Send
  else if bool_decide (kind = "email") then Some email_Send
  else None.

(** ** Correctness *)

(** A world that counts what was sent, and what of it was accepted. *)
Definition notify_world T (e : notifyE T) (s : list bool) (r : T) (s' : list bool) : Prop :=
  match e in notifyE T return T -> Prop with
  | NNowMs => λ _, s' = s
  | NHttp _ _ _ _ => λ r, s' = s ++ [match r with inl _ => false | inr (status, _) => negb (400 <=? status) end]
  | NMail _ _ _ _ _ _ _ => λ r, s' = s ++ [match r with inl _ => false | inr _ => true end]
  end r.

Lemma one_call {T} (e : notifyE T) (f : T -> gresult unit) s r s' (ok : T -> bool) :
  runs notify_world (x ← call e; Ret (f x)) s r s' ->
  (forall x s1, notify_world T e s x s1 -> s1 = s ++ [ok x] /\ (f x = inr tt <-> ok x = true)) ->
  exists b, s' = s ++ [b] /\ (r = inr tt <-> b = true).
Proof.
  intros Hr Hf. apply runs_bind_inv in Hr as (x & s1 & Hx & Hr). apply runs_call_inv in Hx.
  apply runs_ret_inv in Hr as [-> ->]. destruct (Hf x s1 Hx) as [-> Hok]. by exists (ok x).
Qed.

(** A notification is sent at most once, and the error that is returned tells the truth: success exactly if
    it was sent and accepted; nothing is sent with a configuration that cannot be used. *)
Theorem notification_sent kind send req config s r s' :
  notify kind = Some send -> runs notify_world (send req config) s r s' ->
  (s' = s /\ exists err, r = inl err) \/ (exists b, s' = s ++ [b] /\ (r = inr tt <-> b = true)).
Proof.
  unfold notify. intros Hk Hr.
  assert (Hstatus : forall status (err : gerror), (if 400 <=? status then inl err else inr tt) = inr tt :> gresult unit
    <-> negb (400 <=? status) = true) by (intros status err; by destruct (400 <=? status)).
  repeat (case_bool_decide; [injection Hk as <-|]); try done.
  - unfold webhook_Send in Hr. destruct (decode_webhook config) as [err|cfg]; [apply runs_ret_inv in Hr as [-> ->]; eauto|].
    case_bool_decide; [apply runs_ret_inv in Hr as [-> ->]; eauto|].
    right. eapply one_call; [exact Hr|]. intros x s1 ->. split; [done|]. destruct x as [err|[status body]]; [done|apply Hstatus].
  - unfold dingtalk_Send in Hr. destruct (decode_dingtalk config) as [err|cfg]; [apply runs_ret_inv in Hr as [-> ->]; eauto|].
    case_bool_decide; [apply runs_ret_inv in Hr as [-> ->]; eauto|].
    apply runs_bind_inv in Hr as (ts & s1 & Hts & Hr).
    assert (s1 = s) as ->.
    { case_bool_decide; [by apply runs_ret_inv in Hts as [_ ->]|by apply runs_call_inv in Hts]. }
    right. eapply one_call; [exact Hr|]. intros x s1 ->. split; [done|]. destruct x as [err|[status body]]; [done|apply Hstatus].
  - unfold slack_Send in Hr. destruct (decode_slack config) as [err|cfg]; [apply runs_ret_inv in Hr as [-> ->]; eauto|].
    case_bool_decide; [apply runs_ret_inv in Hr as [-> ->]; eauto|].
    right. eapply one_call; [exact Hr|]. intros x s1 ->. split; [done|]. destruct x as [err|[status body]]; [done|apply Hstatus].
  - unfold email_Send in Hr. destruct (decode_email config) as [err|cfg]; [apply runs_ret_inv in Hr as [-> ->]; eauto|].
    destruct (_ || _); [apply runs_ret_inv in Hr as [-> ->]; eauto|].
    right. apply runs_call_inv in Hr. cbn in Hr. eexists. split; [exact Hr|]. by destruct r as [err|[]].
Qed.
End notifiers.

(** A rule's name with a line break writes headers of its own into the mail. *)
Example name_forges_headers `{MapRange} `{ChannelText} cfg req body :
  nr_RuleName req = "load" +:+ crlf +:+ "Reply-To: mallory@example.org" +:+ crlf +:+ "X:" ->
  buildEmailBody req = body ->
  email_message cfg req =
    str_join crlf ["From: " +:+ em_From cfg; "To: " +:+ em_To cfg; "Subject: [Lattice Alert] load";
      "Reply-To: mallory@example.org"; "X: - " +:+ nr_Status req; "MIME-Version: 1.0";
      "Content-Type: text/plain; charset=UTF-8"; ""; body].
Proof. intros Hn Hb. unfold email_message. by rewrite Hn, Hb. Qed.

Definition plain_channels : ChannelText := {|
  decode_webhook := λ s, inr {| wc_URL := s; wc_Method := ""; wc_Headers := ∅ |};
  decode_dingtalk := λ _, inl (ErrText "json"); decode_slack := λ _, inl (ErrText "json");
  decode_email := λ _, inl (ErrText "json"); json_float := λ _, "1"; rfc3339 := λ _, ""; QueryEscape := id |}.
Definition sample_notice : NotificationRequest := {|
  nr_RuleName := "load"; nr_Severity := "warning"; nr_Status := "firing";
  nr_Alerts := [{| ai_Value := float_of 9; ai_Message := "" |}]; nr_StartedAt := 0 |}.

Lemma notification_sent_witness :
  runs notify_world (@webhook_Send range_in_order plain_channels sample_notice "http://hook") [] (inr tt) [true] /\
  (([true] = ([] : list bool) /\ exists err, (inr tt : gresult unit) = inl err) \/
   (exists b, [true] = [b] /\ ((inr tt : gresult unit) = inr tt <-> b = true))).
Proof.
  assert (Hr : runs notify_world (@webhook_Send range_in_order plain_channels sample_notice "http://hook") [] (inr tt) [true]).
  { eapply (runs_vis _ _ (NHttp _ _ _ _) _ _ (inr (200, "ok")) [true]); [reflexivity|apply runs_ret]. }
  split; [exact Hr|].
  exact (@notification_sent range_in_order plain_channels "webhook" _ sample_notice "http://hook" [] (inr tt) [true] eq_refl Hr).
Defined.
