(* ===== verification/RelayLink.v ===== *)
(** * RelayLink: how a client gets and keeps its connection to a relay
    ([internal/relay/lrp_client_tcp.go], [lrp_client_quic.go], [lrp_client.go],
    [lrp_server.go], [lrp_server_quic.go], and the choice of the relay in [NewNode] of
    [internal/agent/node.go])

    A TCP client asks the HTTP server of a relay for an upgrade and then registers; a
    single goroutine writes the frames that the others queue. *)

From S2P Require Import Prelude Prog Net Api Message Infra Transport Agent Peers Signal Relay.

(** ** The upgrade *)

Record UpgradeRequest := { ur_Method : string; ur_Path : string; ur_Upgrade : string; ur_Connection : string }.

(** [boltUpgradeHandler]: the status, and whether the connection is taken over. *)
Definition boltUpgradeHandler (hijacked : bool) (rq : UpgradeRequest) : Z * bool :=
  if negb (bool_decide (ur_Upgrade rq = "bolt")) then (400, false) else (101, hijacked).

(** The mux of [NewServer] has one pattern; every other path is not found. *)
Definition server_mux (hijacked : bool) (rq : UpgradeRequest) : Z * bool :=
  if bool_decide (ur_Path rq = "/bolt/v1/upgrade") then boltUpgradeHandler hijacked rq else (404, false).

(** A connection to the server: the status of the request, and the session on the bytes that
    follow. *)
Definition serve_connection (hijacked : bool) (rq : UpgradeRequest) (input : list Z) : Z * list server_event :=
  let '(status, taken) := server_mux hijacked rq in (status, if taken then handleBoltSession input else []).

(** ** The clients *)

(** Connections are numbers.  [LReadResponse]: the status of the answer; [LStream]: the
    control stream of a QUIC connection. *)
Inductive linkE : Type -> Type :=
| LDial (url : string) : linkE (gresult Z)
| LSendRequest (conn : Z) (rq : UpgradeRequest) : linkE (gresult unit)
| LReadResponse (conn : Z) : linkE (gresult Z)
| LWrite (conn : Z) (frame : list Z) : linkE (gresult unit)
| LClose (conn : Z) : linkE unit
| LDialQUIC (url : string) : linkE (gresult Z)
| LStream (conn : Z) : linkE (gresult Z)
| LCloseQUIC (conn : Z) (reason : string) : linkE unit.
Abbreviation kprog := (prog linkE).

(** A client that is connected: its connection, the stream it registered on, and its
    sequence counter. *)
Record LrpClient := { lc_conn : Z; lc_control : Z; lc_seq : Z }.

Definition upgrade_request : UpgradeRequest :=
  {| ur_Method := "GET"; ur_Path := "/lrp/v1/upgrade"; ur_Upgrade := "lrp"; ur_Connection := "Upgrade" |}.

Definition close_with {A} (close : linkE unit) (err : gerror) : kprog (gresult A) := _ ← call close; Ret (inl err).

(** [TCPClient.Connect] with the registration, for a client that has no connection. *)
Definition tcp_Connect (localId : Z) (url : string) : kprog (gresult LrpClient) :=
  conn ←? call (LDial url);
  sent ← call (LSendRequest conn upgrade_request);
  match sent with
  | inl err => close_with (LClose conn) err
  | inr _ =>
      resp ← call (LReadResponse conn);
      match resp with
      | inl err => close_with (LClose conn) (ErrText ("upgrade failed: " +:+ error_text err))
      | inr status =>
          if negb (status =? 101) then close_with (LClose conn) (ErrText "upgrade failed: <nil>")
          else
            let '(frame, seq) := register_frame 0 localId in
            r ← call (LWrite conn frame);
            match r with
            | inl err => close_with (LClose conn) err
            | inr _ => Ret (inr {| lc_conn := conn; lc_control := conn; lc_seq := seq |})
            end
      end
  end.

(** The goroutines that [NewTCPClient] starts are [writer_step], the keepalive and
    [probeWorker]. *)
Definition NewTCPClient (localId : Z) (url : string) : kprog (gresult LrpClient) := tcp_Connect localId url.

Definition quic_Connect (localId : Z) (url : string) : kprog (gresult LrpClient) :=
  conn ←? call (LDialQUIC url);
  ctrl ← call (LStream conn);
  match ctrl with
  | inl err => close_with (LCloseQUIC conn "open stream failed") err
  | inr ctrl =>
      let '(frame, seq) := register_frame 0 localId in
      r ← call (LWrite ctrl frame);
      match r with
      | inl err => close_with (LCloseQUIC conn "register failed") err
      | inr _ => Ret (inr {| lc_conn := conn; lc_control := ctrl; lc_seq := seq |})
      end
  end.
Definition NewQUICClient (localId : Z) (url : string) : kprog (gresult LrpClient) := quic_Connect localId url.

(** A TCP client sends an empty frame to no one every twenty seconds. *)
Definition keepalive_frame (seq : Z) : list Z * Z := makeFrame seq 0 KeepAlive [].

(** [probeWorker] on the tasks in order: the sender is the one that the packet names. *)
Fixpoint probeWorker `{WireGuardKeys} `{ConfigJSON} `{PacketCodec} (ready : bool) (decode : list Z -> string)
    (tasks : list Task) (n : Node) : prog packetE Node :=
  match tasks with
  | [] => Ret n
  | t :: tasks => n ← on_packet ready (decode (Data t)) n; probeWorker ready decode tasks n
  end.

(** The flags of the agent that concern the relay. *)
Record RelayFlags := { rf_EnableWrrp : bool; rf_RelayQuicURL : string; rf_RelayURL : string }.

(** The relay of an agent, none when it has none; an error ends the start of the agent.
    [registered]: the relay's address that enrolling gave. *)
Definition node_relay (flags : RelayFlags) (registered : string) (localId : Z) : kprog (gresult (option LrpClient)) :=
  if negb (rf_EnableWrrp flags) then Ret (inr None)
  else if negb (bool_decide (rf_RelayQuicURL flags = "")) then
    c ←? NewQUICClient localId (rf_RelayQuicURL flags); Ret (inr (Some c))
  else
    let url := if bool_decide (rf_RelayURL flags = "") then registered else rf_RelayURL flags in
    if bool_decide (url = "") then Ret (inr None)
    else c ←? NewTCPClient localId url; Ret (inr (Some c)).

(** A QUIC connection at the server, by the bytes of its control stream and its datagrams:
    those that came [before] the stream ended, and [after] it, until the connection is
    closed. *)
Definition handleConn (control : list Z) (before after : list (list Z)) : list server_event :=
  if bool_decide (length control < HeaderSize)%nat then []
  else
    match Unmarshal (take HeaderSize control) with
    | inl _ => []
    | inr h =>
        if negb (Cmd h =? Register) then []
        else EvRegister (ToID h) :: relayDatagrams before ++ EvUnregister (ToID h) :: relayDatagrams after
    end.

(** ** The writer of a TCP client *)

(** Waiting for a frame; having written one; so many frames of the batch to go; ended. *)
Inductive writer_mode := Waiting | Sized | Batch (n : nat) | Ended.

(** The channel; what the buffered writer took and how many of these were flushed; the frame
    of a failed write; the frames that [Send] queued and the number of those it refused. *)
Record tcp_link := {
  lk_ch : list (list Z);
  lk_mode : writer_mode;
  lk_written : list (list Z);
  lk_flushed : nat;
  lk_lost : list (list Z);
  lk_accepted : list (list Z);
  lk_refused : nat;
}.
Definition link_start : tcp_link :=
  {| lk_ch := []; lk_mode := Waiting; lk_written := []; lk_flushed := 0; lk_lost := []; lk_accepted := []; lk_refused := 0 |}.

(** [Send] with the number that the counter gave. *)
Definition link_Send (seq targetId lrpType : Z) (data : list Z) (s : tcp_link) : tcp_link :=
  match tcp_Send (lk_ch s) seq targetId lrpType data with
  | (inr _, ch, _) => {| lk_ch := ch; lk_mode := lk_mode s; lk_written := lk_written s; lk_flushed := lk_flushed s;
      lk_lost := lk_lost s; lk_accepted := lk_accepted s ++ [(makeFrame seq targetId lrpType data).1];
      lk_refused := lk_refused s |}
  | (inl _, _, _) => {| lk_ch := lk_ch s; lk_mode := lk_mode s; lk_written := lk_written s; lk_flushed := lk_flushed s;
      lk_lost := lk_lost s; lk_accepted := lk_accepted s; lk_refused := S (lk_refused s) |}
  end.

(** The write of a frame taken from the channel. *)
Definition write_frame (ok : bool) (frame : list Z) (ch : list (list Z)) (next : writer_mode) (s : tcp_link) : tcp_link :=
  {| lk_ch := ch; lk_mode := if ok then next else Ended;
     lk_written := if ok then lk_written s ++ [frame] else lk_written s; lk_flushed := lk_flushed s;
     lk_lost := if ok then lk_lost s else frame :: lk_lost s; lk_accepted := lk_accepted s; lk_refused := lk_refused s |}.
Definition with_mode (m : writer_mode) (flushed : nat) (s : tcp_link) : tcp_link :=
  {| lk_ch := lk_ch s; lk_mode := m; lk_written := lk_written s; lk_flushed := flushed; lk_lost := lk_lost s;
     lk_accepted := lk_accepted s; lk_refused := lk_refused s |}.

(** [writerLoop] among the callers of [Send]; [ok]: what the connection answers. *)
Inductive writer_step : tcp_link -> tcp_link -> Prop :=
| link_send seq targetId lrpType data s : writer_step s (link_Send seq targetId lrpType data s)
| link_done s : lk_mode s = Waiting -> writer_step s (with_mode Ended (lk_flushed s) s)
| link_first ok frame ch s : lk_mode s = Waiting -> lk_ch s = frame :: ch -> writer_step s (write_frame ok frame ch Sized s)
| link_size s : lk_mode s = Sized -> writer_step s (with_mode (Batch (length (lk_ch s))) (lk_flushed s) s)
| link_batch ok n frame ch s :
    lk_mode s = Batch (S n) -> lk_ch s = frame :: ch -> writer_step s (write_frame ok frame ch (Batch n) s)
| link_flush (ok : bool) s :
    lk_mode s = Batch 0 ->
    writer_step s (if ok then with_mode Waiting (length (lk_written s)) s else with_mode Ended (lk_flushed s) s).

(** ** Correctness *)

(** What holds of the link at every moment. *)
Record link_ok (s : tcp_link) : Prop := {
  lo_order : lk_accepted s = lk_written s ++ lk_lost s ++ lk_ch s;
  lo_room : (length (lk_ch s) <= sendChanDepth)%nat;
  lo_batch n : lk_mode s = Batch n -> (n <= length (lk_ch s))%nat;
  lo_waiting : lk_mode s = Waiting -> lk_flushed s = length (lk_written s);
  lo_flushed : (lk_flushed s <= length (lk_written s))%nat;
  lo_alive : lk_mode s <> Ended -> lk_lost s = [];
  lo_lost : (length (lk_lost s) <= 1)%nat;
}.

Lemma link_Send_cases seq to type data s :
  (length (lk_ch s) < sendChanDepth)%nat /\
    lk_ch (link_Send seq to type data s) = lk_ch s ++ [(makeFrame seq to type data).1] /\
    lk_accepted (link_Send seq to type data s) = lk_accepted s ++ [(makeFrame seq to type data).1] \/
  (sendChanDepth <= length (lk_ch s))%nat /\
    lk_ch (link_Send seq to type data s) = lk_ch s /\ lk_accepted (link_Send seq to type data s) = lk_accepted s.
Proof.
  unfold link_Send, tcp_Send. destruct (makeFrame seq to type data) as [frame sq].
  destruct (bool_decide_reflect (length (lk_ch s) < sendChanDepth)%nat); cbn; [left|right]; split_and!; done || lia.
Qed.

Lemma link_Send_rest seq to type data s :
  let s' := link_Send seq to type data s in
  lk_mode s' = lk_mode s /\ lk_written s' = lk_written s /\ lk_flushed s' = lk_flushed s /\ lk_lost s' = lk_lost s.
Proof. cbv zeta. unfold link_Send, tcp_Send. destruct (makeFrame _ _ _ _). by destruct (bool_decide _). Qed.

Lemma write_frame_ok (ok : bool) frame ch next s :
  link_ok s -> lk_mode s <> Ended -> lk_ch s = frame :: ch -> next <> Waiting ->
  (forall n, next = Batch n -> (n <= length ch)%nat) -> link_ok (write_frame ok frame ch next s).
Proof.
  intros [Ho Hr Hb Hw Hf Ha Hl] Hm Hc Hn Hnb. rewrite Hc in *. rewrite (Ha Hm) in *. cbn in Ho, Hr.
  destruct ok; split; cbn; rewrite ?(Ha Hm); try done; try (rewrite ?length_app; cbn; lia).
  by rewrite Ho, <- app_assoc.
Qed.

Lemma writer_step_ok s s' : link_ok s -> writer_step s s' -> link_ok s'.
Proof.
  intros Hok Hst. pose proof Hok as [Ho Hr Hb Hw Hf Ha Hl].
  destruct Hst as [seq to type data s|s Hm|ok frame ch s Hm Hc|s Hm|ok n frame ch s Hm Hc|ok s Hm].
  - destruct (link_Send_rest seq to type data s) as (E1 & E2 & E3 & E4).
    destruct (link_Send_cases seq to type data s) as [(Hlt & Ec & Ea)|(Hge & Ec & Ea)];
      split; rewrite ?E1, ?E2, ?E3, ?E4, ?Ec, ?Ea; try done; try (rewrite length_app; cbn; lia).
    + by rewrite Ho, <- !app_assoc.
    + intros n Hn. rewrite length_app. specialize (Hb n Hn). lia.
  - by split.
  - apply write_frame_ok; [done|congruence|done|done|done].
  - split; cbn; try done; [|intros; apply Ha; congruence]. by intros n [= <-].
  - apply write_frame_ok; [done|congruence|done|done|]. intros k [= <-]. specialize (Hb _ Hm). rewrite Hc in Hb. cbn in Hb. lia.
  - destruct ok; split; cbn; try done. intros _. apply Ha. congruence.
Qed.

Lemma link_reached s : rtc writer_step link_start s -> link_ok s.
Proof.
  assert (H0 : link_ok link_start) by (split; cbn; try done; unfold sendChanDepth; lia).
  intros Hr. revert H0. induction Hr as [|s0 s1 s Hst Hr IH]; [done|]. intros H0. apply IH. by eapply writer_step_ok.
Qed.

(** An ended writer stays so and writes nothing. *)
Lemma writer_ended s s' :
  rtc writer_step s s' -> lk_mode s = Ended ->
  lk_mode s' = Ended /\ lk_written s' = lk_written s /\ lk_flushed s' = lk_flushed s /\ lk_lost s' = lk_lost s.
Proof.
  induction 1 as [|s0 s1 s' Hst Hr IH]; intros Hm; [done|].
  destruct Hst as [seq to type data s|s Hm'|ok frame ch s Hm'|s Hm'|ok n frame ch s Hm'|ok s Hm']; try congruence.
  destruct (link_Send_rest seq to type data s) as (E1 & E2 & E3 & E4).
  rewrite <- E2, <- E3, <- E4. apply IH. congruence.
Qed.

(** C17. The link of a TCP client, however callers, the writer and failures interleave.  The frames
    that [Send] took are, in their order, those written, at most one that a failed write lost,
    and those in the channel; the writer never waits inside a batch; when it waits for a
    frame, everything written was flushed.  But one failed write ends the link for good: the
    writer is not started again, so nothing is ever written any more, and of all later calls
    of [Send] only as many succeed as the channel has room, 256. *)
Theorem tcp_link_fifo s :
  rtc writer_step link_start s ->
  lk_accepted s = lk_written s ++ lk_lost s ++ lk_ch s /\
  (length (lk_lost s) <= 1)%nat /\ (length (lk_ch s) <= sendChanDepth)%nat /\
  (forall n, lk_mode s = Batch (S n) -> exists frame ch, lk_ch s = frame :: ch) /\
  (lk_mode s = Waiting -> lk_flushed s = length (lk_written s)) /\
  (lk_mode s = Ended -> forall s', rtc writer_step s s' ->
     lk_mode s' = Ended /\ lk_written s' = lk_written s /\
     (length (lk_accepted s') <= length (lk_written s) + 1 + sendChanDepth)%nat).
Proof.
  intros Hr. pose proof (link_reached s Hr) as [Ho Hroom Hb Hw _ _ Hl]. split_and!; try done.
  - intros n Hn. specialize (Hb _ Hn). destruct (lk_ch s) as [|frame ch]; [cbn in Hb; lia|by eexists _, _].
  - intros Hm s' Hr'. destruct (writer_ended s s' Hr' Hm) as (E1 & E2 & _ & E4). split_and!; [done..|].
    assert (Hr2 : rtc writer_step link_start s') by (by etrans).
    destruct (link_reached s' Hr2) as [Ho' Hroom' _ _ _ _ Hl']. rewrite Ho', E2, !length_app. lia.
Qed.

(** *** The upgrade over TCP *)

(** A network in which relays are servers of this program: the requests that were sent on
    connections, whose answers come from [server_mux]; whatever else may fail. *)
Definition relay_world T (e : linkE T) (s : gmap Z UpgradeRequest) : T -> gmap Z UpgradeRequest -> Prop :=
  match e in linkE T return T -> gmap Z UpgradeRequest -> Prop with
  | LSendRequest conn rq => λ _ s', s' = <[conn := rq]> s
  | LReadResponse conn => λ r s', s' = s /\
      forall status, r = inr status -> exists rq hijacked, s !! conn = Some rq /\ status = (server_mux hijacked rq).1
  | _ => λ _ s', s' = s
  end.

Lemma tcp_Connect_refused localId url s r s' :
  runs relay_world (tcp_Connect localId url) s r s' -> exists err, r = inl err.
Proof.
  intros Hr. apply runs_bind_inv in Hr as (conn & s1 & _ & Hr).
  destruct conn as [err|conn]; [apply runs_ret_inv in Hr as [-> _]; by eexists|].
  apply runs_bind_inv in Hr as (sent & s2 & Hs & Hr). apply runs_call_inv in Hs. cbn in Hs. subst s2.
  assert (Hclose : forall cl err s3, runs relay_world (@close_with LrpClient cl err) s3 r s' -> exists err, r = inl err).
  { intros cl err s3 Hc. apply runs_bind_inv in Hc as (u & s4 & _ & Hc). apply runs_ret_inv in Hc as [-> _]. by eexists. }
  destruct sent as [err|u]; [by eapply Hclose|].
  apply runs_bind_inv in Hr as (resp & s3 & Hresp & Hr). apply runs_call_inv in Hresp as [-> Hresp].
  destruct resp as [err|status]; [by eapply Hclose|].
  destruct (Hresp status eq_refl) as (rq & hijacked & Hrq & ->). rewrite lookup_insert_eq in Hrq. injection Hrq as <-.
  assert (E : (server_mux hijacked upgrade_request).1 = 404) by reflexivity.
  rewrite E in Hr. exact (Hclose _ _ _ Hr).
Qed.

(** C23. Over TCP an agent never gets a relay of this program: it asks for another path and another
    protocol than the server has, so the upgrade is refused, and an agent that uses a relay
    without QUIC does not start.  Whatever the client asked for, the server itself is
    right: it would take the connection of a client that speaks its protocol. *)
Theorem tcp_relay_refused flags registered localId s r s' :
  rf_EnableWrrp flags = true -> rf_RelayQuicURL flags = "" -> rf_RelayURL flags <> "" \/ registered <> "" ->
  runs relay_world (node_relay flags registered localId) s r s' ->
  (exists err, r = inl err) /\
  forall input, serve_connection true {| ur_Method := "GET"; ur_Path := "/bolt/v1/upgrade"; ur_Upgrade := "bolt";
    ur_Connection := "Upgrade" |} input = (101, handleBoltSession input).
Proof.
  intros He Hq Hu Hr. split; [|done]. unfold node_relay in Hr. rewrite He, Hq in Hr. cbn [negb] in Hr.
  rewrite (bool_decide_true (("" : string) = "")) in Hr by done. cbn [negb] in Hr.
  set (url := if bool_decide (rf_RelayURL flags = "") then registered else rf_RelayURL flags) in Hr.
  assert (Hurl : url <> "").
  { unfold url. clear -Hu. case_bool_decide; [|done]. by destruct Hu. }
  rewrite (bool_decide_false (url = "")) in Hr by done. apply runs_bind_inv in Hr as (c & s1 & Hc & Hr).
  apply tcp_Connect_refused in Hc as [err ->]. apply runs_ret_inv in Hr as [-> _]. by eexists.
Qed.

(** Over QUIC a client is registered under the number it has in frames. *)
Lemma quic_session seq localId before after :
  handleConn (register_frame seq localId).1 before after =
  EvRegister (u32 localId) :: relayDatagrams before ++ EvUnregister (u32 localId) :: relayDatagrams after.
Proof.
  destruct (register_frame_spec seq localId) as (h & Hwf & -> & Hc & <-).
  unfold handleConn. pose proof (length_Marshal h) as Hm. rewrite bool_decide_false by lia.
  rewrite take_ge by lia. rewrite <- (app_nil_r (Marshal h)). rewrite Unmarshal_Marshal by done. by rewrite Hc.
Qed.

(** *** Samples *)

Definition relay_flags : RelayFlags := {| rf_EnableWrrp := true; rf_RelayQuicURL := ""; rf_RelayURL := "relay:6266" |}.

(** A network without failures. *)
Definition quiet_network T (e : linkE T) (s : gmap Z UpgradeRequest) : T * gmap Z UpgradeRequest :=
  match e in linkE T return T * gmap Z UpgradeRequest with
  | LDial _ => (inr 7, s)
  | LSendRequest conn rq => (inr tt, <[conn := rq]> s)
  | LReadResponse conn => (match s !! conn with Some rq => inr (server_mux true rq).1 | None => inl (ErrText "EOF") end, s)
  | LWrite _ _ => (inr tt, s)
  | LClose _ => (tt, s)
  | LDialQUIC _ => (inr 8, s)
  | LStream _ => (inr 9, s)
  | LCloseQUIC _ _ => (tt, s)
  end.

Lemma quiet_network_answers T (e : linkE T) s r s' : fun_world quiet_network T e s r s' -> relay_world T e s r s'.
Proof.
  unfold fun_world. destruct e; cbn; intros E; try (by injection E as <- <-).
  injection E as <- <-. split; [done|]. intros status. destruct (s !! conn) as [rq|] eqn:Hs; intros [= <-].
  by exists rq, true.
Qed.

Definition refused_network : gmap Z UpgradeRequest := {[ 7 := upgrade_request ]}.
Definition refusal : gresult (option LrpClient) := inl (ErrText "upgrade failed: <nil>").

Lemma refused_url : rf_RelayURL relay_flags <> "".
Proof. discriminate. Qed.
Lemma refused_run : runs relay_world (node_relay relay_flags "" 5) ∅ refusal refused_network.
Proof.
  eapply runs_weaken; [apply quiet_network_answers|].
  replace refused_network with (run quiet_network (node_relay relay_flags "" 5) ∅).2 by (vm_compute; reflexivity).
  apply run_runs. vm_compute. reflexivity.
Qed.

Lemma tcp_relay_refused_witness :
  runs relay_world (node_relay relay_flags "" 5) ∅ refusal refused_network /\ exists err, refusal = inl err.
Proof.
  split; [exact refused_run|].
  exact (proj1 (tcp_relay_refused relay_flags "" 5 ∅ refusal refused_network eq_refl eq_refl
    (or_introl refused_url) refused_run)).
Defined.

(** Two frames are queued, the first write fails: the second one stays in the channel. *)
Lemma tcp_link_fifo_witness :
  let s1 := link_Send 1 5 Forward [1] link_start in
  let s2 := link_Send 2 6 Forward [2] s1 in
  let s3 := write_frame false (makeFrame 1 5 Forward [1]).1 [(makeFrame 2 6 Forward [2]).1] Sized s2 in
  rtc writer_step link_start s3 /\ lk_mode s3 = Ended /\
  lk_accepted s3 = lk_written s3 ++ lk_lost s3 ++ lk_ch s3.
Proof.
  cbv zeta. match goal with |- rtc _ _ ?s /\ _ => assert (Hr : rtc writer_step link_start s) end.
  { eapply rtc_l; [eapply (link_send 1 5 Forward [1])|]. eapply rtc_l; [eapply (link_send 2 6 Forward [2])|].
    eapply rtc_l; [|apply rtc_refl]. apply (link_first false); reflexivity. }
  split; [exact Hr|]. split; [reflexivity|]. apply (tcp_link_fifo _ Hr).
Defined.
