(* ===== verification/Routes.v ===== *)
(** * Routes: who may do what over HTTP
    ([internal/server/server/workflow.go], [invitation.go], [ai.go], [monitor.go],
    [dashboard.go] with the pages of [audit.go], and
    [internal/server/controller/workflow.go])

    The handlers of requests that need an approval, of invitations, of the assistant and of
    the dashboards, behind the middleware of their routes. *)

From S2P Require Import Device.
From S2P Require Import Prelude Prog Net Api Store Access Invitations Workflow Ai Mgmt Alerts Dashboard.

(** ** Pages ([bindPage]) *)

(** A number of a query parameter, [default] when it is absent. *)
Definition page_number (what text : string) (default : Z) : gresult Z :=
  if bool_decide (text = "") then inr default
  else match Atoi text with
       | Some n => inr n
       | None => inl (ErrText ("invalid " +:+ what +:+ ": strconv.Atoi: parsing " +:+ go_quote text))
       end.
Definition bindPage (query : string -> string) : gresult (Z * Z) :=
  match page_number "page" (query "page") 1 with
  | inl err => inl err
  | inr p => match page_number "pageSize" (query "pageSize") 20 with inl err => inl err | inr ps => inr (p, ps) end
  end.

(** ** Requests that need an approval *)

(** The answer for a request, without the time of its creation; times as text. *)
Record WorkflowRequestVo := {
  wv_ID : string; wv_WorkspaceID : string; wv_RequestedBy : string; wv_RequestedByName : string;
  wv_RequestedByEmail : string; wv_ResourceType : string; wv_ResourceName : string; wv_Action : string;
  wv_Status : string; wv_ReviewedBy : string; wv_ReviewedByName : string; wv_ReviewedAt : option string;
  wv_ReviewNote : string; wv_ExecutedAt : option string; wv_ErrorMessage : string }.

(** A time with the layout of RFC 3339, in the zone it has, followed by the letter Z. *)
Class TimeText := { layout_Z : Z -> string }.

Section workflow.
Context `{TimeText}.

Definition toWorkflowVo (wr : WorkflowRequest) : WorkflowRequestVo := {|
  wv_ID := wr_ID wr; wv_WorkspaceID := wr_WorkspaceID wr; wv_RequestedBy := wr_RequestedBy wr;
  wv_RequestedByName := wr_RequestedByName wr; wv_RequestedByEmail := wr_RequestedByEmail wr;
  wv_ResourceType := wr_ResourceType wr; wv_ResourceName := wr_ResourceName wr; wv_Action := wr_Action wr;
  wv_Status := wr_Status wr; wv_ReviewedBy := wr_ReviewedBy wr; wv_ReviewedByName := wr_ReviewedByName wr;
  wv_ReviewedAt := layout_Z <$> wr_ReviewedAt wr; wv_ReviewNote := wr_ReviewNote wr;
  wv_ExecutedAt := layout_Z <$> wr_ExecutedAt wr; wv_ErrorMessage := wr_ErrorMessage wr |}.

Definition controller_Submit (req : SubmitWorkflowReq) : sprog (gresult WorkflowRequestVo) :=
  wr ←? Submit req; Ret (inr (toWorkflowVo wr)).
Definition controller_List (f : WorkflowFilter) : sprog (gresult (PageResult WorkflowRequestVo)) :=
  lt ←? workflow_List f;
  Ret (inr {| res_Total := lt.2; res_Page := wf_Page f; res_PageSize := wf_PageSize f; res_List := toWorkflowVo <$> lt.1 |}).
Definition controller_GetByID (id : string) : sprog (gresult WorkflowRequestVo) :=
  wr ←? workflow_GetByID id; Ret (inr (toWorkflowVo wr)).

(** The body of a submission: the type of the resource and the action are required. *)
Record SubmitBody := {
  sb_ResourceType : string; sb_ResourceName : string; sb_Action : string; sb_Payload : option string }.

Definition handleSubmitWorkflowRequest (body : option SubmitBody) (rq : HttpRequest) (c : Ctx) : sprog Reply :=
  match body with
  | None => Ret BadRequest
  | Some b =>
      if bool_decide (sb_ResourceType b = "") || bool_decide (sb_Action b = "") then Ret BadRequest
      else
        v ← controller_Submit {|
          sub_WorkspaceID := rq_Param rq "id"; sub_RequestedBy := cx_user_id c; sub_RequestedByName := cx_username c;
          sub_RequestedByEmail := cx_email c; sub_ResourceType := sb_ResourceType b; sub_ResourceName := sb_ResourceName b;
          sub_Action := sb_Action b; sub_Payload := default "{}" (sb_Payload b) |};
        Ret match v with inl err => RError (error_text err) | inr _ => Accepted end
  end.

(** The list, by the query; the workspace of the path goes first. *)
Definition handleListWorkflowRequests (query : string -> string) (rq : HttpRequest) (c : Ctx)
    : sprog (Reply + PageResult WorkflowRequestVo) :=
  let wsID := if bool_decide (rq_Param rq "id" = "") then query "workspaceId" else rq_Param rq "id" in
  match bindPage query with
  | inl _ => Ret (inl BadRequest)
  | inr (p, ps) =>
      r ← controller_List {| wf_WorkspaceID := wsID; wf_RequestedBy := ""; wf_ResourceType := query "resourceType";
        wf_Action := query "action"; wf_Status := query "status"; wf_Page := p; wf_PageSize := ps |};
      Ret match r with inl err => inl (RError (error_text err)) | inr page => inr page end
  end.

Definition handleGetWorkflowRequest (rq : HttpRequest) (c : Ctx) : sprog Reply :=
  let id := rq_Param rq "reqId" in
  if bool_decide (id = "") then Ret BadRequest else v ← controller_GetByID id; Ret (reply_to v).

(** A body that cannot be read counts as an empty note. *)
Definition handleApproveWorkflowRequest (note : option string) (rq : HttpRequest) (c : Ctx) : sprog Reply :=
  r ← Approve (rq_Param rq "reqId") (cx_user_id c) (cx_username c) (default "" note); Ret (reply_to r).
Definition handleRejectWorkflowRequest (note : option string) (rq : HttpRequest) (c : Ctx) : sprog Reply :=
  r ← Reject (rq_Param rq "reqId") (cx_user_id c) (cx_username c) (default "" note); Ret (reply_to r).
End workflow.

(** ** The groups of routes *)

Section groups.
Context `{JwtLibrary} (env : string) (revoked : option RevocationList).

(** The routes of a workspace ([/api/v1/workspaces/:id/...]). *)
Definition viewer_route (handler : HttpRequest -> Ctx -> sprog Reply) (rq : HttpRequest) : sprog Reply :=
  serve [WorkspaceAuthMiddleware env revoked RoleViewer] handler rq empty_ctx.
Definition admin_route (handler : HttpRequest -> Ctx -> sprog Reply) (rq : HttpRequest) : sprog Reply :=
  serve [AdminOnly env revoked] handler rq empty_ctx.
(** The routes of the platform: [/api/v1/workflow-requests], [/api/v1/audit-logs] and
    [/api/v1/dashboard].  Their groups have no middleware that reads the token. *)
Definition platform_route (handler : HttpRequest -> Ctx -> sprog Reply) (rq : HttpRequest) : sprog Reply :=
  serve [PlatformAdminOnly] handler rq empty_ctx.
(** Routes without a workspace, and public ones. *)
Definition user_route (handler : HttpRequest -> Ctx -> sprog Reply) (rq : HttpRequest) : sprog Reply :=
  serve [AuthMiddleware env revoked] handler rq empty_ctx.
Definition public_route (handler : HttpRequest -> Ctx -> sprog Reply) (rq : HttpRequest) : sprog Reply :=
  serve [] handler rq empty_ctx.
End groups.

(** ** Invitations *)

Section invitations.
Context `{CaseFolding} (hmacSecret : string).

(** The body names an address and a role; both are required. *)
Definition handleCreateInvitation (body : option (string * string)) (rq : HttpRequest) (c : Ctx) : sprog Reply :=
  match body with
  | None => Ret BadRequest
  | Some (email, role) => r ← inv_Create hmacSecret (rq_Param rq "id") (cx_user_id c) email role; Ret (reply_to r)
  end.
(** The answer has the tokens of the invitations. *)
Definition handleListInvitations (rq : HttpRequest) (c : Ctx) : sprog (Reply + list WorkspaceInvitation) :=
  r ← inv_List (rq_Param rq "id"); Ret match r with inl err => inl (RError (error_text err)) | inr l => inr l end.
Definition handleRevokeInvitation (rq : HttpRequest) (c : Ctx) : sprog Reply :=
  r ← inv_Revoke (cx_user_id c) (rq_Param rq "invID"); Ret (reply_to r).
Definition handlePreviewInvitation (rq : HttpRequest) (c : Ctx) : sprog Reply :=
  r ← inv_Preview (rq_Param rq "token"); Ret (reply_to r).
(** The body names a user and a password of at least six characters. *)
Definition handleRegisterAndAccept (body : option (string * string)) (rq : HttpRequest) (c : Ctx) : sprog Reply :=
  match body with
  | None => Ret BadRequest
  | Some (username, password) =>
      if bool_decide (username = "") || bool_decide (String.length password < 6)%nat then Ret BadRequest
      else r ← inv_RegisterAndAccept hmacSecret (rq_Param rq "token") username password; Ret (reply_to r)
  end.
Definition handleAcceptInvitation (rq : HttpRequest) (c : Ctx) : sprog Reply :=
  r ← inv_Accept hmacSecret (rq_Param rq "token") (cx_user_id c); Ret (reply_to r).
End invitations.

(** ** The assistant and the dashboards *)

(** The calls of the handlers that do more than ask the database. *)
Inductive routeE : Type -> Type :=
| RSrv (T : Type) (e : srvE T) : routeE T
| RAi (T : Type) (e : aiE T) : routeE T
| RDash (T : Type) (e : dashE T) : routeE T
| RWrite (text : string) : routeE bool.
Abbreviation rprog := (prog routeE).

(** A handler behind a middleware that lets the request pass. *)
Definition behind (m : middleware) (handler : HttpRequest -> Ctx -> rprog Reply) (rq : HttpRequest) : rprog Reply :=
  r ← translate RSrv (m rq empty_ctx);
  match r with inl reply => Ret reply | inr c => handler rq c end.

Section assistant.
Context `{JwtLibrary} `{LabelSelectors} `{AiJSON}.

(** No list of revoked tokens is given to the routes of the assistant. *)
Definition ai_route (env : string) (handler : HttpRequest -> Ctx -> rprog Reply) : HttpRequest -> rprog Reply :=
  behind (AuthMiddleware env None) handler.

(** The error of a conversation was sent with the stream. *)
Definition handleAIChat (configured : Z) (body : option ChatRequest) (rq : HttpRequest) (c : Ctx) : rprog Reply :=
  match body with
  | None => Ret BadRequest
  | Some req =>
      if bool_decide (cr_WorkspaceID req = "") then Ret BadRequest
      else if bool_decide (cr_Message req = "") then Ret BadRequest
      else _ ← translate RAi (Chat configured req); Ret OK
  end.
Definition handleAIAudit (workspaceId : string) (rq : HttpRequest) (c : Ctx) : rprog Reply :=
  if bool_decide (workspaceId = "") then Ret BadRequest
  else r ← translate RAi (Audit workspaceId); Ret (reply_to r).

(** Without an assistant both routes answer that it is not configured. *)
Definition ai_stub (rq : HttpRequest) (c : Ctx) : rprog Reply :=
  Ret (RError "AI not configured: set ai.enabled=true and ai.api-key in lattice.yaml").

(** [sseWriter.Write] of the JSON of an event. *)
Definition sse_Write (data : gresult string) : rprog (gresult unit) :=
  match data with
  | inl err => Ret (inl err)
  | inr data =>
      ok ← call (RWrite ("data: " +:+ data +:+ line_break +:+ line_break));
      Ret (if ok : bool then inr tt else inl (ErrText "write"))
  end.
End assistant.

Section dashboards.
Context `{MapRange} `{ClockText}.

Definition dashboardOverview (rq : HttpRequest) (c : Ctx) : rprog Reply :=
  r ← translate RDash controller_GetGlobalDashboard; Ret (reply_to r).
Definition workspaceDashboard (rq : HttpRequest) (c : Ctx) : rprog Reply :=
  r ← translate RDash (controller_GetWorkspaceDashboard (rq_Param rq "id")); Ret (reply_to r).
Definition topology (fuel : nat) (rq : HttpRequest) (c : Ctx) : rprog Reply :=
  r ← translate RDash (controller_GetTopologySnapshot fuel);
  Ret match r with inl _ => RError "get topoloty falied" | inr _ => OK end.
Definition workspaceSnapshot (rq : HttpRequest) (c : Ctx) : rprog Reply :=
  r ← translate RDash (controller_GetWorkspaceAggregatedMonitor (cx_workspace_id c));
  Ret match r with inl _ => RError "get topoloty falied" | inr _ => OK end.
End dashboards.

(** ** Correctness *)

(** The routes of the platform answer no one: nothing put the role of the caller in the
    context that they look at, so a platform administrator is refused like everybody else. *)
Lemma platform_routes_closed handler rq : platform_route handler rq = Ret Forbidden.
Proof. reflexivity. Qed.

(** The calls that only read. *)
Definition reading T (e : srvE T) : Prop := match e with SNow | Store.DFirst _ _ => True | _ => False end.
Fixpoint only_reads {A} (p : sprog A) : Prop :=
  match p with
  | Ret _ | Panic => True
  | Vis e k => reading _ e /\ forall r, only_reads (k r)
  end.

Lemma only_reads_bind {A B} (p : sprog A) (f : A -> sprog B) :
  only_reads p -> (forall a, only_reads (f a)) -> only_reads (p ≫= f).
Proof.
  intros Hp Hf. induction p as [a| |T e k IH]; [apply Hf|done|]. destruct Hp as [He Hk]. split; [done|]. intros r. by apply IH.
Qed.
Lemma RequireWorkspaceRole_reads wsID userID role : only_reads (RequireWorkspaceRole wsID userID role).
Proof.
  apply only_reads_bind; [done|]. intros [err|u]; [done|]. case_bool_decide; [done|].
  apply only_reads_bind; [done|]. intros [err|m]; [done|]. destruct (_ || _); [done|]. by destruct (_ <? _).
Qed.
Lemma WorkspaceAuth_reads `{JwtLibrary} env rl role rq c : only_reads (WorkspaceAuthMiddleware env rl role rq c).
Proof.
  split; [done|]. intros now. cbn -[only_reads RequireWorkspaceRole authenticate with_claims]. destruct (authenticate env rl rq now) as [claims|]; [|exact I].
  destruct (with_claims c claims) as [c'|]; [|exact I]. cbv zeta.
  set (wsID := if bool_decide (rq_WorkspaceId rq = "") then rq_Param rq "id" else rq_WorkspaceId rq). clearbody wsID.
  case_bool_decide; [exact I|]. case_bool_decide; [exact I|].
  apply only_reads_bind; [apply RequireWorkspaceRole_reads|]. by intros [err|m].
Qed.

Section route_facts.
Context `{JwtLibrary} `{SqlLike} (h : forall T, srvE T -> World -> T -> World -> Prop) `{!GormDB h}.

Lemma only_reads_same {A} (p : sprog A) w a w' : only_reads p -> runs h p w a w' -> w' = w.
Proof using All.
  intros Hp Hr. revert Hp. induction Hr as [b w|T e k w r w1 b w2 He Hr IH]; intros Hp; [done|].
  destruct Hp as [Hread Hk]. rewrite (IH (Hk r)). apply gorm_law in He.
  destruct e; try (by destruct Hread); cbn in He; first [done|by destruct r as [?|?]; apply He].
Qed.

(** A route of a workspace refuses a request without a change, or runs its handler for a caller
    who may act as a viewer in the workspace of the header, or of the path without one. *)
Lemma viewer_route_inv env rl handler rq w reply w' :
  (forall u, u ∈ t_users (w_tables w) -> row_id TUser u <> "") ->
  runs h (viewer_route env rl handler rq) w reply w' ->
  (reply <> OK /\ w' = w) \/
  exists c now claims, authenticate env rl rq now = Some claims /\ cx_user_id c = cl_Subject claims /\
    cx_username c = cl_Username claims /\
    cx_workspace_id c = (if bool_decide (rq_WorkspaceId rq = "") then rq_Param rq "id" else rq_WorkspaceId rq) /\
    (cl_SystemRole claims = SystemRolePlatformAdmin \/ may_act (w_tables w) (cx_workspace_id c) (cl_Subject claims) RoleViewer) /\
    runs h (handler rq c) w reply w'.
Proof using All.
  intros Hids Hr. apply runs_bind_inv in Hr as ([r|c] & w1 & Hm & Hr).
  - left. apply (only_reads_same _ _ _ _ (WorkspaceAuth_reads _ _ _ _ _)) in Hm as Hw. apply runs_ret_inv in Hr as [-> ->].
    split; [|done]. intros ->. revert Hm. clear. intros Hm. apply runs_bind_inv in Hm as (now & w2 & _ & Hm).
    destruct (authenticate env rl rq now) as [claims|]; [|by apply runs_ret_inv in Hm as [? _]].
    destruct (with_claims empty_ctx claims) as [c'|]; [|by inversion Hm]. cbv zeta in Hm.
    set (wsID := if bool_decide (rq_WorkspaceId rq = "") then rq_Param rq "id" else rq_WorkspaceId rq) in Hm. clearbody wsID.
    case_bool_decide; [by apply runs_ret_inv in Hm as [? _]|]. case_bool_decide; [by apply runs_ret_inv in Hm as [? _]|].
    apply runs_bind_inv in Hm as ([err|m] & w3 & _ & Hm); by apply runs_ret_inv in Hm as [? _].
  - right. destruct (WorkspaceAuth_inv h _ _ _ _ _ _ _ _ Hids Hm) as (-> & now & claims & H1%authenticate_iff & H2 & H3 & _ & H5 & _ & H7).
    exists c, now, claims. rewrite <- H2. by split_and!.
Qed.

(** Approving over HTTP.  An approval that is answered as done was for a request that existed
    and was pending, is recorded under the name of the authenticated caller, and changes no
    other request; every other answer leaves the requests as they were.  The caller may act
    as a viewer in the workspace that the header names; nothing ties this workspace to that of
    the request, or the reviewer to a role above the one who asked. *)
Theorem approval_route_spec env rl note rq w reply w' :
  (forall u, u ∈ t_users (w_tables w) -> row_id TUser u <> "") ->
  runs h (viewer_route env rl (handleApproveWorkflowRequest note) rq) w reply w' ->
  let id := rq_Param rq "reqId" in
  let before := t_workflows (w_tables w) in
  let after := t_workflows (w_tables w') in
  match reply with
  | OK => exists now claims wr reviewed wsID,
      authenticate env rl rq now = Some claims /\
      wsID = (if bool_decide (rq_WorkspaceId rq = "") then rq_Param rq "id" else rq_WorkspaceId rq) /\
      (cl_SystemRole claims = SystemRolePlatformAdmin \/ may_act (w_tables w) wsID (cl_Subject claims) RoleViewer) /\
      wr ∈ before /\ wr_ID wr = id /\ wr_Status wr = WorkflowStatusPending /\
      after = update_request id (("status", VText WorkflowStatusApproved) ::
        review (cl_Subject claims) (cl_Username claims) (default "" note) reviewed) before
  | _ => after = before
  end.
Proof using All.
  intros Hids Hr. cbv zeta. apply viewer_route_inv in Hr as [[Hn ->]|(c & now & claims & Ha & Hu & Hname & Hws & Hmay & Hr)];
    [by destruct reply|..|done].
  apply runs_bind_inv in Hr as (r & w1 & Hap & Hr). apply runs_ret_inv in Hr as [-> ->]. rewrite Hu, Hname in Hap.
  apply runs_bind_inv in Hap as (rg & w2 & Hg & Hap). apply (found_pending h) in Hg as [-> Hg].
  destruct rg as [err|wr]; [by apply runs_ret_inv in Hap as [-> ->]|]. destruct (Hg _ eq_refl) as [Hin Hid].
  case_bool_decide as Hp; [|by apply runs_ret_inv in Hap as [-> ->]]. cbn [negb] in Hap.
  apply runs_bind_inv in Hap as (reviewed & w3 & Hnow & Hap). apply (now_inv h) in Hnow as ->.
  apply runs_bind_inv in Hap as (ru & w4 & Hup & Hap). apply (update_workflow_inv h) in Hup as [_ Hl].
  destruct ru as [err|[]]; apply runs_ret_inv in Hap as [-> ->]; cbn [reply_to]; [done|].
  exists now, claims, wr, reviewed, (cx_workspace_id c). by split_and!.
Qed.
End route_facts.

(** *** Carol, a viewer, approves what she asked for herself *)

Definition carol_tables : Tables := insert_row (insert_row sample_tables TUser (sample_user "carol" "c@x" SystemRoleUser))
  TMember (sample_member "m3" "ws-a" "carol" RoleViewer MemberStatusActive).
Definition carol_request : SubmitWorkflowReq := {|
  sub_WorkspaceID := "ws-b"; sub_RequestedBy := "carol"; sub_RequestedByName := "carol"; sub_RequestedByEmail := "c@x";
  sub_ResourceType := "relay"; sub_ResourceName := "r1"; sub_Action := "create"; sub_Payload := "p" |}.
Definition asked_world : World := Eval vm_compute in
  (run sample_db (Submit carol_request) (with_tables sample_world carol_tables)).2.
Definition carol_http : HttpRequest := {|
  rq_Authorization := "Bearer carol:jti"; rq_WorkspaceId := "";
  rq_Param := λ p, if bool_decide (p = "id") then "ws-a" else sample_uuid (with_tables sample_world carol_tables) |}.
Definition carol_approves : sprog Reply :=
  @viewer_route plain_jwt "" (Some ∅) (handleApproveWorkflowRequest (Some "mine")) carol_http.
Definition carol_claims : LatticeClaims := {|
  cl_Subject := "carol"; cl_Email := ""; cl_Username := ""; cl_SystemRole := SystemRoleUser; cl_ID := "jti";
  cl_ExpiresAt := Some 100 |}.
Definition allowed_world : World := Eval vm_compute in (run sample_db carol_approves asked_world).2.

(** Her request is for the workspace [ws-b], of which she is no member. *)
Lemma approval_route_spec_witness :
  runs (fun_world sample_db) carol_approves asked_world OK allowed_world /\
  exists wr, wr ∈ t_workflows (w_tables asked_world) /\ wr_Status wr = WorkflowStatusPending /\
    @may_act plain_like (w_tables asked_world) "ws-a" "carol" RoleViewer.
Proof.
  assert (Hr : runs (fun_world sample_db) carol_approves asked_world OK allowed_world).
  { apply (run_runs sample_db carol_approves asked_world OK). vm_compute. reflexivity. }
  split; [exact Hr|].
  destruct (@approval_route_spec plain_jwt plain_like _ sample_gorm "" (Some ∅) (Some "mine") carol_http
    asked_world OK allowed_world) as (now & claims & wr & reviewed & wsID & Ha & Hws & Hmay & Hin & _ & Hp & _).
  - intros u. cbn. rewrite !elem_of_cons, elem_of_nil. intros [->|[->|[->|[]]]]; discriminate.
  - exact Hr.
  - exists wr. split; [exact Hin|]. split; [exact Hp|]. subst wsID. assert (Hc : claims = carol_claims).
    { assert (E : @authenticate plain_jwt "" (Some ∅) carol_http now = if now <? 100 then Some carol_claims else None)
        by (unfold carol_http, authenticate; cbn -[Z.ltb]; destruct (now <? 100); vm_compute; reflexivity).
      rewrite E in Ha. destruct (now <? 100); congruence. }
    subst claims. destruct Hmay as [Hc|Hmay]; [discriminate|]. exact Hmay.
Defined.

(** *** Alice reads the invitations of a workspace in which she has no part *)

Definition other_invitation : WorkspaceInvitation := {|
  inv_Model := with_id "i2"; inv_WorkspaceID := "ws-b"; inv_InviterID := "bob"; inv_Email := "new@x";
  inv_Role := RoleAdmin; inv_Token := sample_token; inv_Status := "pending"; inv_ExpiresAt := 50 |}.
Definition promised_world : World := with_tables sample_world (insert_row sample_tables TInvitation other_invitation).
Definition list_http : HttpRequest := {|
  rq_Authorization := "Bearer alice:jti"; rq_WorkspaceId := "ws-a"; rq_Param := λ _, "ws-b" |}.
Definition token_http : HttpRequest := {|
  rq_Authorization := ""; rq_WorkspaceId := ""; rq_Param := λ _, sample_token |}.

(** The header names the workspace she administers, the path the one she reads; with the
    token of the answer anyone registers as an administrator of that workspace. *)
Example stolen_invitation :
  (run sample_db (r ← @AdminOnly plain_jwt "" (Some ∅) list_http empty_ctx;
     match r with inl reply => Ret (inl reply) | inr c => handleListInvitations list_http c end) promised_world).1
    = Some (inr [other_invitation]) /\
  let taken := run sample_db (public_route (handleRegisterAndAccept "secret" (Some ("mallory", "secret1"))) token_http)
                 promised_world in
  taken.1 = Some OK /\
  exists m, m ∈ t_members (w_tables taken.2) /\ wm_WorkspaceID m = "ws-b" /\ wm_Role m = RoleAdmin /\
    wm_UserID m <> "bob".
Proof.
  split; [vm_compute; reflexivity|]. cbv zeta. split; [vm_compute; reflexivity|].
  eexists. split; [vm_compute; do 2 right; left|]. vm_compute. split; [reflexivity|]. split; [reflexivity|discriminate].
Qed.
