(* ===== verification/Config.v ===== *)
(** * Config: the settings of every binary
    ([internal/agent/config/config.go], [validate.go], and the preparation of
    [cmd/lattice/cmd/up.go])

    Settings come in layers: defaults, a file, a file of the environment, variables of the
    process, flags; what is still empty is looked up among the variables with which
    Kubernetes announces services. *)

From S2P Require Import Prelude Prog Api.
From S2P Require Llm.

(** ** Viper *)

Inductive value := VString (s : string) | VInt (z : Z) | VBool (b : bool) | VAdmins (l : list (string * string)).
#[export] Instance value_eq_dec : EqDecision value.
Proof. solve_decision. Defined.

(** The leaves of a tree of settings, by their dotted paths in lower case. *)
Abbreviation settings := (gmap string value).

(** A flag of the command line, and whether the user gave it. *)
Record Flag := { fl_Name : string; fl_Value : value; fl_Changed : bool }.

(** A [viper.Viper].  [AutomaticEnv name]: with the prefix and the replacer that name the
    variable of a key.  Reading a setting sees the variables of the process. *)
Class ViperLibrary := {
  viper : Type;
  viper_New : viper;
  SetDefault : string -> value -> viper -> viper;
  SetConfig : settings -> viper -> viper;
  MergeConfig : settings -> viper -> viper;
  AutomaticEnv : (string -> string) -> viper -> viper;
  BindPFlags : list Flag -> viper -> gresult viper;
  viper_Set : string -> value -> viper -> viper;
  viper_Get : (string -> string) -> viper -> string -> option value;
  AllSettings : (string -> string) -> viper -> settings;
}.

(** [mapstructure] with weak types, [cast.ToString] and the text of a flag. *)
Class WeakDecode := {
  weak_string : value -> gresult string;
  weak_int : value -> gresult Z;
  weak_bool : value -> gresult bool;
  weak_admins : value -> gresult (list (string * string));
  weak_list : value -> gresult (list string);
  ToString : value -> string;
  flag_text : value -> string;
}.

(** ** The documented layers of viper *)

Record layers := {
  ly_override : settings; ly_flag : settings; ly_env : option (string -> string); ly_config : settings;
  ly_default : settings; ly_flag_default : settings }.
Definition no_layers : layers :=
  {| ly_override := ∅; ly_flag := ∅; ly_env := None; ly_config := ∅; ly_default := ∅; ly_flag_default := ∅ |}.
Definition layer_default k v (l : layers) : layers :=
  {| ly_override := ly_override l; ly_flag := ly_flag l; ly_env := ly_env l; ly_config := ly_config l;
     ly_default := <[str_lower k := v]> (ly_default l); ly_flag_default := ly_flag_default l |}.
Definition layer_config (s : settings) (l : layers) : layers :=
  {| ly_override := ly_override l; ly_flag := ly_flag l; ly_env := ly_env l; ly_config := s;
     ly_default := ly_default l; ly_flag_default := ly_flag_default l |}.
Definition layer_env name (l : layers) : layers :=
  {| ly_override := ly_override l; ly_flag := ly_flag l; ly_env := Some name; ly_config := ly_config l;
     ly_default := ly_default l; ly_flag_default := ly_flag_default l |}.
Definition flags_that (changed : bool) (fs : list Flag) : settings :=
  list_to_map ((λ f, (str_lower (fl_Name f), fl_Value f)) <$> filter (λ f, fl_Changed f = changed) fs).
#[global] Arguments flags_that : simpl never.
Definition layer_flags fs (l : layers) : layers :=
  {| ly_override := ly_override l; ly_flag := flags_that true fs; ly_env := ly_env l; ly_config := ly_config l;
     ly_default := ly_default l; ly_flag_default := flags_that false fs |}.
Definition layer_override k v (l : layers) : layers :=
  {| ly_override := <[str_lower k := v]> (ly_override l); ly_flag := ly_flag l; ly_env := ly_env l;
     ly_config := ly_config l; ly_default := ly_default l; ly_flag_default := ly_flag_default l |}.

(** An empty variable counts as absent. *)
Definition env_value (env : string -> string) (name : option (string -> string)) (k : string) : option value :=
  match name with
  | None => None
  | Some name => if bool_decide (env (name k) = "") then None else Some (VString (env (name k)))
  end.
#[global] Arguments env_value : simpl never.
Definition or_else {A} (x y : option A) : option A := match x with Some a => Some a | None => y end.
(** The documented order: set, flag, variable, file, default, default of a flag. *)
Definition effective (env : string -> string) (l : layers) (k : string) : option value :=
  or_else (ly_override l !! k) (or_else (ly_flag l !! k) (or_else (env_value env (ly_env l) k)
    (or_else (ly_config l !! k) (or_else (ly_default l !! k) (ly_flag_default l !! k))))).
(** The keys that have a value somewhere; a variable alone does not make a key known. *)
Definition known (l : layers) : settings :=
  ly_override l ∪ ly_flag l ∪ ly_config l ∪ ly_default l ∪ ly_flag_default l.

Class ViperLaws `{ViperLibrary} := {
  layers_of : viper -> layers;
  of_New : layers_of viper_New = no_layers;
  of_SetDefault k v x : layers_of (SetDefault k v x) = layer_default k v (layers_of x);
  of_SetConfig s x : layers_of (SetConfig s x) = layer_config s (layers_of x);
  of_MergeConfig s x : layers_of (MergeConfig s x) = layer_config (s ∪ ly_config (layers_of x)) (layers_of x);
  of_AutomaticEnv name x : layers_of (AutomaticEnv name x) = layer_env name (layers_of x);
  of_BindPFlags fs x : exists y, BindPFlags fs x = inr y /\ layers_of y = layer_flags fs (layers_of x);
  of_Set k v x : layers_of (viper_Set k v x) = layer_override k v (layers_of x);
  of_Get env x k : viper_Get env x k = effective env (layers_of x) (str_lower k);
  of_AllSettings env x k : AllSettings env x !! k =
    match known (layers_of x) !! k with Some _ => effective env (layers_of x) k | None => None end;
}.

(** ** The settings of the program ([Config]) *)

Record AppConfig := { app_Name : string; app_InitAdmins : list (string * string) }.
Record DatabaseConfig := { db_Driver : string; db_DSN : string }.
Record MonitorConfig := { mon_Address : string; mon_TemplateDir : string }.
Record TelemetryConfig := { tel_VMEndpoint : string; tel_IntervalSeconds : Z }.
Record JWTConfig := { jwt_Secret : string; jwt_ExpireHours : Z }.
Record DexConfig := { dex_Issur : string; dex_ProviderUrl : string; dex_AdminEmails : list string }.

(** The AI part has three fields more than the one of Llm, which its clients read. *)
Record Config := {
  cf_Listen : string; cf_Level : string; cf_Env : string; cf_Debug : bool; cf_Auth : string; cf_AppId : string;
  cf_Token : string; cf_InterfaceName : string;
  cf_SignalingURL : string; cf_ServerUrl : string; cf_RelayURL : string; cf_RelayQuicURL : string;
  cf_TurnServerURL : string; cf_PublicIP : string; cf_Port : Z; cf_WgPort : Z;
  cf_EnableWrrp : bool; cf_EnableTLS : bool; cf_EnableMetric : bool; cf_EnableDNS : bool; cf_EnableSysLog : bool;
  cf_EnableDaemon : bool;
  cf_MetricsAddr : string; cf_ProbeAddr : string; cf_EnableLeaderElection : bool; cf_SecureMetrics : bool;
  cf_EnableHTTP2 : bool; cf_WebhookCertPath : string; cf_WebhookCertName : string; cf_WebhookCertKey : string;
  cf_MetricsCertPath : string; cf_MetricsCertName : string; cf_MetricsCertKey : string;
  cf_App : AppConfig; cf_Database : DatabaseConfig; cf_Monitor : MonitorConfig; cf_Telemetry : TelemetryConfig;
  cf_JWT : JWTConfig; cf_Dex : DexConfig;
  cf_AI : Llm.AIConfig; cf_AI_Enabled : bool; cf_AI_MaxToolCalls : Z; cf_AI_AuditSchedule : string;
}.

Section decode.
Context `{WeakDecode}.

(** The keys of the struct tags, by the type of their fields. *)
Definition string_keys : list string := [
  "listen"; "level"; "env"; "auth"; "app-id"; "token"; "interface-name"; "signaling-url"; "server-url"; "relay-url";
  "relay-quic-url"; "stun-url"; "public-ip"; "metrics-addr"; "health-probe-bind-address"; "webhook-cert-path";
  "webhook-cert-name"; "webhook-cert-key"; "metrics-cert-path"; "metrics-cert-name"; "metrics-cert-key"; "app.name";
  "database.driver"; "database.dsn"; "monitor.address"; "monitor.templatedir"; "telemetry.vmendpoint"; "jwt.secret";
  "dex.issur"; "dex.providerurl"; "ai.provider"; "ai.api-key"; "ai.model"; "ai.base-url"; "ai.audit-schedule"].
Definition int_keys : list string :=
  ["port"; "wg-port"; "telemetry.intervalseconds"; "jwt.expire_hours"; "ai.max-tool-calls"].
Definition bool_keys : list string := [
  "debug"; "enable-wrrp"; "enable-tls"; "enable-metric"; "enable-dns"; "enable-sys-log"; "enable-daemon"; "leader-elect";
  "metrics-secure"; "enable-http2"; "ai.enabled"].

(** A field takes the value of its key; without one, or when it cannot be converted, it stays. *)
Definition field {A} (convert : value -> gresult A) (s : settings) (k : string) (old : A) : A :=
  match s !! k with Some v => match convert v with inr x => x | inl _ => old end | None => old end.
Definition conversion_errors {A} (convert : value -> gresult A) (s : settings) (ks : list string) : list gerror :=
  omap (λ k, match s !! k with Some v => match convert v with inl e => Some e | inr _ => None end | None => None end) ks.

Definition unmarshal_errors (s : settings) : list gerror :=
  conversion_errors weak_string s string_keys ++ conversion_errors weak_int s int_keys ++
  conversion_errors weak_bool s bool_keys ++ conversion_errors weak_admins s ["app.initadmins"] ++
  conversion_errors weak_list s ["dex.adminemails"].

(** [Unmarshal]: every field is converted; it fails when one of them did. *)
Definition Unmarshal (s : settings) (c : Config) : list gerror * Config :=
  let str := field weak_string s in let int := field weak_int s in let bool := field weak_bool s in
  (unmarshal_errors s,
   {| cf_Listen := str "listen" (cf_Listen c); cf_Level := str "level" (cf_Level c); cf_Env := str "env" (cf_Env c);
      cf_Debug := bool "debug" (cf_Debug c); cf_Auth := str "auth" (cf_Auth c); cf_AppId := str "app-id" (cf_AppId c);
      cf_Token := str "token" (cf_Token c); cf_InterfaceName := str "interface-name" (cf_InterfaceName c);
      cf_SignalingURL := str "signaling-url" (cf_SignalingURL c); cf_ServerUrl := str "server-url" (cf_ServerUrl c);
      cf_RelayURL := str "relay-url" (cf_RelayURL c); cf_RelayQuicURL := str "relay-quic-url" (cf_RelayQuicURL c);
      cf_TurnServerURL := str "stun-url" (cf_TurnServerURL c); cf_PublicIP := str "public-ip" (cf_PublicIP c);
      cf_Port := int "port" (cf_Port c); cf_WgPort := int "wg-port" (cf_WgPort c);
      cf_EnableWrrp := bool "enable-wrrp" (cf_EnableWrrp c); cf_EnableTLS := bool "enable-tls" (cf_EnableTLS c);
      cf_EnableMetric := bool "enable-metric" (cf_EnableMetric c); cf_EnableDNS := bool "enable-dns" (cf_EnableDNS c);
      cf_EnableSysLog := bool "enable-sys-log" (cf_EnableSysLog c);
      cf_EnableDaemon := bool "enable-daemon" (cf_EnableDaemon c);
      cf_MetricsAddr := str "metrics-addr" (cf_MetricsAddr c); cf_ProbeAddr := str "health-probe-bind-address" (cf_ProbeAddr c);
      cf_EnableLeaderElection := bool "leader-elect" (cf_EnableLeaderElection c);
      cf_SecureMetrics := bool "metrics-secure" (cf_SecureMetrics c); cf_EnableHTTP2 := bool "enable-http2" (cf_EnableHTTP2 c);
      cf_WebhookCertPath := str "webhook-cert-path" (cf_WebhookCertPath c);
      cf_WebhookCertName := str "webhook-cert-name" (cf_WebhookCertName c);
      cf_WebhookCertKey := str "webhook-cert-key" (cf_WebhookCertKey c);
      cf_MetricsCertPath := str "metrics-cert-path" (cf_MetricsCertPath c);
      cf_MetricsCertName := str "metrics-cert-name" (cf_MetricsCertName c);
      cf_MetricsCertKey := str "metrics-cert-key" (cf_MetricsCertKey c);
      cf_App := {| app_Name := str "app.name" (app_Name (cf_App c));
                   app_InitAdmins := field weak_admins s "app.initadmins" (app_InitAdmins (cf_App c)) |};
      cf_Database := {| db_Driver := str "database.driver" (db_Driver (cf_Database c));
                        db_DSN := str "database.dsn" (db_DSN (cf_Database c)) |};
      cf_Monitor := {| mon_Address := str "monitor.address" (mon_Address (cf_Monitor c));
                       mon_TemplateDir := str "monitor.templatedir" (mon_TemplateDir (cf_Monitor c)) |};
      cf_Telemetry := {| tel_VMEndpoint := str "telemetry.vmendpoint" (tel_VMEndpoint (cf_Telemetry c));
                         tel_IntervalSeconds := int "telemetry.intervalseconds" (tel_IntervalSeconds (cf_Telemetry c)) |};
      cf_JWT := {| jwt_Secret := str "jwt.secret" (jwt_Secret (cf_JWT c));
                   jwt_ExpireHours := int "jwt.expire_hours" (jwt_ExpireHours (cf_JWT c)) |};
      cf_Dex := {| dex_Issur := str "dex.issur" (dex_Issur (cf_Dex c)); dex_ProviderUrl := str "dex.providerurl" (dex_ProviderUrl (cf_Dex c));
                   dex_AdminEmails := field weak_list s "dex.adminemails" (dex_AdminEmails (cf_Dex c)) |};
      cf_AI := {| Llm.ai_Provider := str "ai.provider" (Llm.ai_Provider (cf_AI c));
                  Llm.ai_APIKey := str "ai.api-key" (Llm.ai_APIKey (cf_AI c)); Llm.ai_Model := str "ai.model" (Llm.ai_Model (cf_AI c));
                  Llm.ai_BaseURL := str "ai.base-url" (Llm.ai_BaseURL (cf_AI c)) |};
      cf_AI_Enabled := bool "ai.enabled" (cf_AI_Enabled c); cf_AI_MaxToolCalls := int "ai.max-tool-calls" (cf_AI_MaxToolCalls c);
      cf_AI_AuditSchedule := str "ai.audit-schedule" (cf_AI_AuditSchedule c) |}).
End decode.

(** The global configuration before it is loaded. *)
Definition zero_config : Config := {|
  cf_Listen := ""; cf_Level := ""; cf_Env := ""; cf_Debug := false; cf_Auth := ""; cf_AppId := ""; cf_Token := "";
  cf_InterfaceName := ""; cf_SignalingURL := ""; cf_ServerUrl := ""; cf_RelayURL := ""; cf_RelayQuicURL := "";
  cf_TurnServerURL := ""; cf_PublicIP := ""; cf_Port := 0; cf_WgPort := 0; cf_EnableWrrp := false; cf_EnableTLS := false;
  cf_EnableMetric := false; cf_EnableDNS := false; cf_EnableSysLog := false; cf_EnableDaemon := false;
  cf_MetricsAddr := ""; cf_ProbeAddr := ""; cf_EnableLeaderElection := false; cf_SecureMetrics := false;
  cf_EnableHTTP2 := false; cf_WebhookCertPath := ""; cf_WebhookCertName := ""; cf_WebhookCertKey := "";
  cf_MetricsCertPath := ""; cf_MetricsCertName := ""; cf_MetricsCertKey := "";
  cf_App := {| app_Name := ""; app_InitAdmins := [] |}; cf_Database := {| db_Driver := ""; db_DSN := "" |};
  cf_Monitor := {| mon_Address := ""; mon_TemplateDir := "" |};
  cf_Telemetry := {| tel_VMEndpoint := ""; tel_IntervalSeconds := 0 |};
  cf_JWT := {| jwt_Secret := ""; jwt_ExpireHours := 0 |};
  cf_Dex := {| dex_Issur := ""; dex_ProviderUrl := ""; dex_AdminEmails := [] |};
  cf_AI := {| Llm.ai_Provider := ""; Llm.ai_APIKey := ""; Llm.ai_Model := ""; Llm.ai_BaseURL := "" |};
  cf_AI_Enabled := false; cf_AI_MaxToolCalls := 0; cf_AI_AuditSchedule := "" |}.

(** The configuration with the fields that are changed after it was read. *)
Definition put (c : Config) (signaling server appId : string) (metric : bool) (db : DatabaseConfig) (vm : string) : Config := {|
  cf_Listen := cf_Listen c; cf_Level := cf_Level c; cf_Env := cf_Env c; cf_Debug := cf_Debug c; cf_Auth := cf_Auth c;
  cf_AppId := appId; cf_Token := cf_Token c; cf_InterfaceName := cf_InterfaceName c; cf_SignalingURL := signaling;
  cf_ServerUrl := server; cf_RelayURL := cf_RelayURL c; cf_RelayQuicURL := cf_RelayQuicURL c;
  cf_TurnServerURL := cf_TurnServerURL c; cf_PublicIP := cf_PublicIP c; cf_Port := cf_Port c; cf_WgPort := cf_WgPort c;
  cf_EnableWrrp := cf_EnableWrrp c; cf_EnableTLS := cf_EnableTLS c; cf_EnableMetric := metric;
  cf_EnableDNS := cf_EnableDNS c; cf_EnableSysLog := cf_EnableSysLog c; cf_EnableDaemon := cf_EnableDaemon c;
  cf_MetricsAddr := cf_MetricsAddr c; cf_ProbeAddr := cf_ProbeAddr c; cf_EnableLeaderElection := cf_EnableLeaderElection c;
  cf_SecureMetrics := cf_SecureMetrics c; cf_EnableHTTP2 := cf_EnableHTTP2 c; cf_WebhookCertPath := cf_WebhookCertPath c;
  cf_WebhookCertName := cf_WebhookCertName c; cf_WebhookCertKey := cf_WebhookCertKey c;
  cf_MetricsCertPath := cf_MetricsCertPath c; cf_MetricsCertName := cf_MetricsCertName c;
  cf_MetricsCertKey := cf_MetricsCertKey c; cf_App := cf_App c; cf_Database := db; cf_Monitor := cf_Monitor c;
  cf_Telemetry := {| tel_VMEndpoint := vm; tel_IntervalSeconds := tel_IntervalSeconds (cf_Telemetry c) |};
  cf_JWT := cf_JWT c; cf_Dex := cf_Dex c; cf_AI := cf_AI c; cf_AI_Enabled := cf_AI_Enabled c;
  cf_AI_MaxToolCalls := cf_AI_MaxToolCalls c; cf_AI_AuditSchedule := cf_AI_AuditSchedule c |}.
Definition put_urls (signaling server : string) (c : Config) : Config :=
  put c signaling server (cf_AppId c) (cf_EnableMetric c) (cf_Database c) (tel_VMEndpoint (cf_Telemetry c)).
Definition put_database (db : DatabaseConfig) (c : Config) : Config :=
  put c (cf_SignalingURL c) (cf_ServerUrl c) (cf_AppId c) (cf_EnableMetric c) db (tel_VMEndpoint (cf_Telemetry c)).
Definition put_appId (appId : string) (c : Config) : Config :=
  put c (cf_SignalingURL c) (cf_ServerUrl c) appId (cf_EnableMetric c) (cf_Database c) (tel_VMEndpoint (cf_Telemetry c)).
Definition put_metrics (metric : bool) (vm : string) (c : Config) : Config :=
  put c (cf_SignalingURL c) (cf_ServerUrl c) (cf_AppId c) metric (cf_Database c) vm.

(** ** What is found out and inferred *)

(** The address of a service that Kubernetes announces under a prefix. *)
Definition service_url (env : string -> string) (scheme prefix port : string) : option string :=
  let host := env (prefix +:+ "_SERVICE_HOST") in
  if bool_decide (host = "") then None
  else Some (scheme +:+ host +:+ ":" +:+ Llm.default_to (env (prefix +:+ "_SERVICE_PORT")) port).

Definition manager_prefixes : list string := ["LATTICE_MANAGER"; "LATTICE_API"; "MANAGER"].

Definition applyK8sFallbacks (env : string -> string) (c : Config) : Config :=
  let signaling := if bool_decide (cf_SignalingURL c = "") then default "" (service_url env "nats://" "NATS" "4222")
                   else cf_SignalingURL c in
  let server := if bool_decide (cf_ServerUrl c = "") then
                  default "" (head (omap (λ p, service_url env "http://" p "8080") manager_prefixes))
                else cf_ServerUrl c in
  put_urls signaling server c.

(** The kind of database of a data source name. *)
Definition mariadb_dsn (dsn : string) : bool :=
  str_contains "@tcp(" dsn || has_prefix "mysql://" dsn || has_prefix "mariadb://" dsn.
Definition inferDatabaseDriver (c : Config) : Config :=
  let db := cf_Database c in
  let driver :=
    if bool_decide (db_DSN db = "") then "sqlite"
    else if negb (bool_decide (db_Driver db = "")) && negb (bool_decide (db_Driver db = "sqlite")) then db_Driver db
    else if mariadb_dsn (db_DSN db) then "mariadb" else "sqlite" in
  put_database {| db_Driver := driver; db_DSN := db_DSN db |} c.

(** ** Loading *)

Definition default_settings : list (string * value) := [
  ("listen", VString ":8080"); ("level", VString "info"); ("env", VString "dev"); ("signaling-url", VString "");
  ("server-url", VString ""); ("stun-url", VString "stun.alattice.io:3478"); ("relay-url", VString ":6266");
  ("relay-quic-url", VString ""); ("port", VInt 3478); ("wg-port", VInt 51820); ("database.driver", VString "sqlite");
  ("database.dsn", VString ""); ("dex.providerUrl", VString ""); ("monitor.address", VString "");
  ("metrics-addr", VString ":8443"); ("health-probe-bind-address", VString ":8081"); ("ai.enabled", VBool false);
  ("ai.provider", VString "anthropic"); ("ai.model", VString ""); ("ai.max-tool-calls", VInt 5);
  ("ai.audit-schedule", VString "0 2 * * *"); ("app.name", VString "Lattice");
  ("app.initAdmins", VAdmins [("admin", "123456")])].

(** The variable of a key: the prefix, in upper case, with dots and hyphens replaced. *)
Fixpoint underscores (s : string) : string :=
  match s with
  | EmptyString => EmptyString
  | String c s => String (if bool_decide (c = "."%char) || bool_decide (c = "-"%char) then "_"%char else c) (underscores s)
  end.
Definition env_name (k : string) : string := underscores (str_upper ("LATTICE_" +:+ k)).

Inductive stat := Exists | Missing | StatError.
Inductive confE : Type -> Type :=
| CHome : confE string
| CStat (path : string) : confE stat
| CMkdirAll (dir : string) : confE (gresult unit)
| CSafeWrite (path : string) (s : settings) : confE (gresult unit)
| CRead (path : string) : confE (gresult settings)
| CWrite (path : string) (s : settings) : confE (gresult unit)
| CGetwd : confE string
| CHostname : confE (gresult string).
Abbreviation cprog := (prog confE).

Section load.
Context `{ViperLibrary} `{WeakDecode} (env : string -> string).

Definition setDefaults (v : viper) : viper := foldl (λ v kd, SetDefault kd.1 kd.2 v) v default_settings.

Definition flag_lookup (fs : list Flag) (name : string) : option Flag :=
  head (filter (λ f, fl_Name f = name) fs).
Definition changed_text (fs : list Flag) (name : string) : option string :=
  match flag_lookup fs name with Some f => if fl_Changed f then Some (flag_text (fl_Value f)) else None | None => None end.

Definition peekConfigDir (fs : list Flag) : cprog string :=
  match changed_text fs "config-dir" with
  | Some dir => Ret dir
  | None =>
      if negb (bool_decide (env "LATTICE_CONFIG_DIR" = "")) then Ret (env "LATTICE_CONFIG_DIR")
      else home ← call CHome; Ret (if bool_decide (home = "/") then "/etc/lattice" else home +:+ "/.lattice")
  end.
Definition peekEnv (fs : list Flag) : string :=
  match changed_text fs "env" with
  | Some e => e
  | None => Llm.default_to (env "LATTICE_ENV") "dev"
  end.

(** [WriteConfig], and once more under the path, which is the same file. *)
Definition write_config (path : string) (v : viper) : cprog (gresult unit) :=
  r ← call (CWrite path (AllSettings env v));
  match r with inr _ => Ret (inr tt) | inl _ => call (CWrite path (AllSettings env v)) end.

(** [Visit] goes through the flags that were given, by name. *)
Definition pin_flag (v : viper) (f : Flag) : viper :=
  if bool_decide (fl_Name f = "save") then v
  else match viper_Get env v (fl_Name f) with Some x => viper_Set (fl_Name f) x v | None => v end.
Definition SaveChangedFlags (dir : string) (fs : list Flag) (v : viper) : cprog (gresult unit * viper) :=
  made ← call (CMkdirAll dir);
  match made with
  | inl err => Ret (inl (ErrWrap "create config dir" err), v)
  | inr _ =>
      let v := foldl pin_flag v (sort_by fl_Name (filter (λ f, fl_Changed f = true) fs)) in
      r ← write_config (dir +:+ "/lattice.yaml") v; Ret (r, v)
  end.

(** The base file, which is written with the defaults when it is missing. *)
Definition read_base (dir : string) (v : viper) : cprog viper :=
  let path := dir +:+ "/lattice.yaml" in
  st ← call (CStat path);
  _ ← match st with
      | Missing => _ ← call (CMkdirAll dir); _ ← call (CSafeWrite path (AllSettings env v)); Ret tt
      | _ => Ret tt
      end;
  r ← call (CRead path);
  Ret match r with inl _ => v | inr s => SetConfig s v end.
Definition read_overlay (dir e : string) (v : viper) : cprog viper :=
  let path := dir +:+ "/lattice." +:+ e +:+ ".yaml" in
  st ← call (CStat path);
  match st with
  | Exists => r ← call (CRead path); Ret match r with inl _ => v | inr s => MergeConfig s v end
  | _ => Ret v
  end.

(** What is done with a configuration that was read. *)
Definition finish (vm_endpoint : option value) (c : Config) : Config :=
  let c := if bool_decide (tel_VMEndpoint (cf_Telemetry c) = "") then
             put_metrics (cf_EnableMetric c) (match vm_endpoint with Some v => ToString v | None => "" end) c
           else c in
  inferDatabaseDriver (applyK8sFallbacks env c).

(** [load], with the global configuration. *)
Definition load (fs : list Flag) (v : viper) (global : Config) : cprog (gresult unit * (viper * string * Config)) :=
  let v := setDefaults v in
  dir ← peekConfigDir fs;
  v ← read_base dir v;
  v ← read_overlay dir (peekEnv fs) v;
  match BindPFlags fs (AutomaticEnv env_name v) with
  | inl err => Ret (inl (ErrWrap "[config] BindPFlags" err), (v, dir, global))
  | inr v =>
      let '(errors, c) := Unmarshal (AllSettings env v) global in
      match errors with
      | err :: _ => Ret (inl (ErrWrap "[config] Unmarshal" err), (v, dir, c))
      | [] =>
          let c := finish (viper_Get env v "vm-endpoint") c in
          match flag_lookup fs "save" with
          | Some f =>
              if bool_decide (flag_text (fl_Value f) = "true") then r ← SaveChangedFlags dir fs v; Ret (inr tt, (r.2, dir, c))
              else Ret (inr tt, (v, dir, c))
          | None => Ret (inr tt, (v, dir, c))
          end
      end
  end.

(** The manager of a process: it loads once, and later calls succeed without doing anything. *)
Record ConfigManager := { cm_v : viper; cm_once : bool; cm_dir : string }.
Definition Load (fs : list Flag) (cm : ConfigManager) (global : Config) : cprog (gresult unit * ConfigManager * Config) :=
  if cm_once cm then Ret (inr tt, cm, global)
  else r ← load fs (cm_v cm) global;
       let '(err, (v, dir, c)) := r in Ret (err, {| cm_v := v; cm_once := true; cm_dir := dir |}, c).
Definition Save (cm : ConfigManager) : cprog (gresult unit) := write_config (cm_dir cm +:+ "/lattice.yaml") (cm_v cm).
End load.

(** ** Validation *)

Definition applyServerDefaults (c : Config) : cprog Config :=
  let c := put_urls (Llm.default_to (cf_SignalingURL c) "nats://127.0.0.1:4222") (cf_ServerUrl c) c in
  if bool_decide (db_DSN (cf_Database c) = "") then
    wd ← call CGetwd;
    let dsn := if bool_decide (wd = "") then "lattice.db" else trim_suffix wd "/" +:+ "/lattice.db" in
    Ret (put_database {| db_Driver := "sqlite"; db_DSN := dsn |} c)
  else Ret c.

Record configField := { ff_name : string; ff_value : string; ff_status : string; ff_suggestion : string }.
Definition checked (f : configField) : configField :=
  if bool_decide (ff_value f = "") then
    {| ff_name := ff_name f; ff_value := ff_value f; ff_status := "MISSING"; ff_suggestion := ff_suggestion f |}
  else {| ff_name := ff_name f; ff_value := ff_value f; ff_status := "OK"; ff_suggestion := "-" |}.
Definition client_fields (c : Config) : list configField := [
  {| ff_name := "signaling-url"; ff_value := cf_SignalingURL c; ff_status := ""; ff_suggestion := "--signaling-url nats://<HOST>:4222" |};
  {| ff_name := "server-url"; ff_value := cf_ServerUrl c; ff_status := ""; ff_suggestion := "--server-url http://<HOST>:8080" |};
  {| ff_name := "token"; ff_value := cf_Token c; ff_status := ""; ff_suggestion := "--token <TOKEN>" |}].
(** The error, and the rows that are printed with it. *)
Definition runClientValidation (c : Config) : gresult unit * list configField :=
  let fields := checked <$> client_fields c in
  let missing := ff_name <$> filter (λ f, ff_status f = "MISSING") fields in
  if bool_decide (missing = []) then (inr tt, [])
  else (inl (ErrText ("missing required config: " +:+ str_join ", " missing)), fields).
Definition ValidateAndReport (isServer : bool) (c : Config) : cprog (gresult unit * Config) :=
  if isServer then c ← applyServerDefaults c; Ret (inr tt, c) else Ret ((runClientValidation c).1, c).

(** ** Before an agent starts ([lattice up]) *)

Definition flag_string (fs : list Flag) (name : string) : string :=
  match flag_lookup fs name with Some f => match fl_Value f with VString s => s | _ => "" end | None => "" end.
Definition flag_bool (fs : list Flag) (name : string) : bool :=
  match flag_lookup fs name with Some f => match fl_Value f with VBool b => b | _ => false end | None => false end.

Section up.
Context `{ViperLibrary} (env : string -> string).

(** An identifier is made of the host's name, and kept in the file. *)
Definition ensure_appId (cm : ConfigManager) (c : Config) : cprog (gresult (ConfigManager * Config)) :=
  if negb (bool_decide (cf_AppId c = "")) then Ret (inr (cm, c))
  else
    host ←? call CHostname;
    let v := viper_Set "app-id" (VString (str_lower host)) (cm_v cm) in
    _ ←? call (CWrite (cm_dir cm +:+ "/lattice.yaml") (AllSettings env v));
    Ret (inr ({| cm_v := v; cm_once := cm_once cm; cm_dir := cm_dir cm |}, put_appId (str_lower host) c)).

(** The configuration with which the agent is started. *)
Definition up (fs : list Flag) (cm : ConfigManager) (c : Config) : cprog (gresult Config) :=
  match (runClientValidation c).1 with
  | inl err => Ret (inl err)
  | inr _ =>
      cmc ←? ensure_appId cm c;
      saved ← (if flag_bool fs "save" then Save env cmc.1 else Ret (inr tt));
      match saved with
      | inl err => Ret (inl (ErrWrap "failed to save config" err))
      | inr _ =>
          Ret (inr (put_metrics (flag_bool fs "enable-metric" || cf_EnableMetric cmc.2)
            (Llm.default_to (flag_string fs "vm-endpoint") (tel_VMEndpoint (cf_Telemetry cmc.2))) cmc.2))
      end
  end.
End up.

(** ** Correctness *)

Lemma or_else_None {A} (x : option A) : or_else x None = x.
Proof. by destruct x. Qed.
Lemma or_else_idemp {A} (x y : option A) : or_else x (or_else x y) = or_else x y.
Proof. by destruct x. Qed.
Lemma lookup_union_or {A} (m1 m2 : gmap string A) k : (m1 ∪ m2) !! k = or_else (m1 !! k) (m2 !! k).
Proof. rewrite lookup_union. by destruct (m1 !! k), (m2 !! k). Qed.

Definition default_layer : settings := foldl (λ m kd, <[str_lower kd.1 := kd.2]> m) ∅ default_settings.

(** Files as trees of settings, and whether they can be written. *)
Definition file_world (home : string) (writable : bool) T (e : confE T) (s : gmap string settings)
    : T -> gmap string settings -> Prop :=
  match e in confE T return T -> gmap string settings -> Prop with
  | CHome => λ r s', r = home /\ s' = s
  | CStat p => λ r s', r = match s !! p with Some _ => Exists | None => Missing end /\ s' = s
  | CMkdirAll _ => λ r s', (if writable then r = inr tt else True) /\ s' = s
  | CSafeWrite p x => λ r s',
      match s !! p with
      | Some _ => (exists err, r = inl err) /\ s' = s
      | None => r = inr tt /\ s' = <[p := x]> s \/ writable = false /\ (exists err, r = inl err) /\ s' = s
      end
  | CRead p => λ r s', match s !! p with Some x => r = inr x | None => exists err, r = inl err end /\ s' = s
  | CWrite p x => λ r s', r = inr tt /\ s' = <[p := x]> s \/ writable = false /\ (exists err, r = inl err) /\ s' = s
  | CGetwd => λ _ s', s' = s
  | CHostname => λ _ s', s' = s
  end.

Section config_facts.
Context `{ViperLaws} `{WeakDecode} (env : string -> string) (home : string) (writable : bool).

(** What the directory of the configuration is, and the file of the environment. *)
Definition config_dir (fs : list Flag) : string :=
  match changed_text fs "config-dir" with
  | Some dir => dir
  | None => if negb (bool_decide (env "LATTICE_CONFIG_DIR" = "")) then env "LATTICE_CONFIG_DIR"
            else if bool_decide (home = "/") then "/etc/lattice" else home +:+ "/.lattice"
  end.
Definition base_path (fs : list Flag) : string := config_dir fs +:+ "/lattice.yaml".
Definition overlay_path (fs : list Flag) : string := config_dir fs +:+ "/lattice." +:+ peekEnv env fs +:+ ".yaml".

(** Where a setting comes from, given the two files. *)
Definition source (fs : list Flag) (base overlay : settings) (k : string) : option value :=
  or_else (flags_that true fs !! k) (or_else (env_value env (Some env_name) k) (or_else (overlay !! k)
    (or_else (base !! k) (or_else (default_layer !! k) (flags_that false fs !! k))))).
(** The settings that reach the configuration. *)
Definition loads (fs : list Flag) (base overlay m : settings) : Prop :=
  forall k, m !! k =
    match (flags_that true fs ∪ overlay ∪ base ∪ default_layer ∪ flags_that false fs) !! k with
    | Some _ => source fs base overlay k
    | None => None
    end.

Lemma peekConfigDir_inv fs s dir s' :
  runs (file_world home writable) (peekConfigDir env fs) s dir s' -> dir = config_dir fs /\ s' = s.
Proof.
  unfold peekConfigDir, config_dir. destruct (changed_text fs "config-dir"); [apply runs_ret_inv|].
  destruct (negb _); [apply runs_ret_inv|]. intros Hr.
  apply runs_bind_inv in Hr as (h & s1 & Hh & Hr). apply runs_call_inv in Hh as [-> ->]. by apply runs_ret_inv in Hr.
Qed.

Lemma layers_setDefaults v : layers_of v = no_layers ->
  layers_of (setDefaults v) = {| ly_override := ∅; ly_flag := ∅; ly_env := None; ly_config := ∅;
    ly_default := default_layer; ly_flag_default := ∅ |}.
Proof.
  intros Hv. unfold setDefaults, default_layer.
  assert (Hg : forall l m x, layers_of x = {| ly_override := ∅; ly_flag := ∅; ly_env := None; ly_config := ∅;
      ly_default := m; ly_flag_default := ∅ |} ->
    layers_of (foldl (λ v kd, SetDefault kd.1 kd.2 v) x l) = {| ly_override := ∅; ly_flag := ∅; ly_env := None;
      ly_config := ∅; ly_default := foldl (λ m kd, <[str_lower kd.1 := kd.2]> m) m l; ly_flag_default := ∅ |}).
  { induction l as [|kd l IH]; intros m x Hx; [done|]. cbn. apply IH. by rewrite of_SetDefault, Hx. }
  by apply Hg.
Qed.
Lemma Unmarshal_errors s c : (Unmarshal s c).1 = unmarshal_errors s.
Proof. reflexivity. Qed.
#[local] Opaque default_layer Unmarshal finish.

(** Reading a setting through the base file gives it, or the default. *)
Lemma read_base_inv fs v s v' s' :
  layers_of v = {| ly_override := ∅; ly_flag := ∅; ly_env := None; ly_config := ∅; ly_default := default_layer;
                   ly_flag_default := ∅ |} ->
  runs (file_world home writable) (read_base env (config_dir fs) v) s v' s' ->
  exists config, layers_of v' = layer_config config (layers_of v) /\
    (forall k, or_else (config !! k) (default_layer !! k) = or_else (default ∅ (s !! base_path fs) !! k) (default_layer !! k)) /\
    (forall k, is_Some (config !! k) -> is_Some ((default ∅ (s !! base_path fs) ∪ default_layer) !! k)) /\
    (forall k, is_Some (default ∅ (s !! base_path fs) !! k) -> is_Some (config !! k)) /\
    (forall p, p <> base_path fs -> s' !! p = s !! p).
Proof.
  intros Hv Hr. unfold read_base in Hr. fold (base_path fs) in Hr.
  apply runs_bind_inv in Hr as (st & s1 & Hst & Hr). apply runs_call_inv in Hst as [-> ->].
  destruct (s !! base_path fs) as [base|] eqn:Eb.
  - rewrite bind_ret in Hr. apply runs_bind_inv in Hr as (r & s2 & Hrd & Hr). apply runs_call_inv in Hrd as [Hrd ->].
    rewrite Eb in Hrd. subst r. apply runs_ret_inv in Hr as [-> ->]. exists base. rewrite of_SetConfig. cbn.
    split_and!; try done. intros k [x Hx]. rewrite lookup_union_or, Hx. by eexists.
  - apply runs_bind_inv in Hr as (u & s2 & Hw & Hr). apply runs_bind_inv in Hw as (m & s3 & Hm & Hw).
    apply runs_call_inv in Hm as [_ ->]. apply runs_bind_inv in Hw as (w & s4 & Hsw & Hw). apply runs_ret_inv in Hw as [_ ->].
    apply runs_call_inv in Hsw. cbn in Hsw. rewrite Eb in Hsw.
    apply runs_bind_inv in Hr as (r & s5 & Hrd & Hr). apply runs_call_inv in Hrd as [Hrd ->]. apply runs_ret_inv in Hr as [-> ->].
    destruct Hsw as [[_ ->]|(_ & _ & ->)].
    + rewrite lookup_insert_eq in Hrd. subst r. exists (AllSettings env v). rewrite of_SetConfig.
      assert (Ha : forall k, AllSettings env v !! k = default_layer !! k).
      { intros k. rewrite of_AllSettings, Hv. unfold known, effective. cbn.
        rewrite !map_empty_union, map_union_empty, !lookup_empty. cbn. rewrite or_else_None. by destruct (default_layer !! k). }
      split_and!; [done|..]; intros k; cbn [default]; rewrite ?Ha, ?lookup_empty.
      * by destruct (default_layer !! k).
      * intros Hk. by rewrite map_empty_union.
      * by intros [? ?].
      * intros Hne. by rewrite lookup_insert_ne.
    + rewrite Eb in Hrd. destruct Hrd as [err ->]. exists ∅. rewrite Hv. unfold layer_config. cbn.
      split_and!; try done. intros k [x Hx]. by rewrite lookup_empty in Hx.
Qed.

Lemma overlay_not_base fs : overlay_path fs <> base_path fs.
Proof.
  unfold overlay_path, base_path. intros E. apply (inj (String.append _)) in E.
  apply (f_equal String.length) in E. rewrite !length_app_string in E. cbn in E. lia.
Qed.

Lemma read_overlay_inv fs v s v' s' :
  runs (file_world home writable) (read_overlay (config_dir fs) (peekEnv env fs) v) s v' s' ->
  s' = s /\ layers_of v' = layer_config (default ∅ (s !! overlay_path fs) ∪ ly_config (layers_of v)) (layers_of v).
Proof.
  unfold read_overlay. fold (overlay_path fs). intros Hr.
  apply runs_bind_inv in Hr as (st & s1 & Hst & Hr). apply runs_call_inv in Hst as [-> ->].
  destruct (s !! overlay_path fs) as [x|] eqn:Eo.
  - apply runs_bind_inv in Hr as (r & s2 & Hrd & Hr). apply runs_call_inv in Hrd as [Hrd ->]. rewrite Eo in Hrd. subst r.
    apply runs_ret_inv in Hr as [-> ->]. by rewrite of_MergeConfig.
  - apply runs_ret_inv in Hr as [-> ->]. cbn [default]. rewrite map_empty_union. by destruct (layers_of v).
Qed.

(** The settings of the viper that [load] unmarshals. *)
Lemma loaded_settings fs base overlay config v :
  layers_of v = layer_flags fs (layer_env env_name (layer_config (overlay ∪ config)
    {| ly_override := ∅; ly_flag := ∅; ly_env := None; ly_config := config; ly_default := default_layer;
       ly_flag_default := ∅ |})) ->
  (forall k, or_else (config !! k) (default_layer !! k) = or_else (base !! k) (default_layer !! k)) ->
  (forall k, is_Some (config !! k) -> is_Some ((base ∪ default_layer) !! k)) ->
  (forall k, is_Some (base !! k) -> is_Some (config !! k)) ->
  loads fs base overlay (AllSettings env v) /\
  forall k, effective env (layers_of v) k = source fs base overlay k.
Proof.
  intros Hv Hc Hd Hb.
  assert (Heff : forall k, effective env (layers_of v) k = source fs base overlay k).
  { intros k. unfold effective, source. rewrite Hv. cbn. rewrite lookup_empty, lookup_union_or. cbn [or_else].
    destruct (flags_that true fs !! k); [done|]. cbn [or_else]. destruct (env_value env (Some env_name) k); [done|]. cbn [or_else].
    destruct (overlay !! k); [done|]. cbn [or_else]. specialize (Hc k).
    destruct (config !! k), (base !! k), (default_layer !! k); cbn in *; congruence. }
  split; [|exact Heff]. intros k. rewrite of_AllSettings, Heff. unfold known. rewrite Hv. cbn.
  rewrite !lookup_union_or, lookup_empty. cbn [or_else]. specialize (Hd k). specialize (Hb k). rewrite lookup_union_or in Hd.
  destruct (flags_that true fs !! k); [done|]. destruct (overlay !! k); [done|]. cbn [or_else].
  destruct (config !! k), (base !! k), (default_layer !! k); cbn in *; try done.
  - by destruct (Hd ltac:(by eexists)).
  - by destruct (Hb ltac:(by eexists)).
Qed.

(** A load that succeeds: where the settings came from, and what [save] is given. *)
Lemma load_inv fs v0 s r s' :
  layers_of v0 = no_layers ->
  runs (file_world home writable) (load env fs v0 zero_config) s r s' ->
  let base := default ∅ (s !! base_path fs) in
  let overlay := default ∅ (s !! overlay_path fs) in
  exists v s1, loads fs base overlay (AllSettings env v) /\
    (forall k, effective env (layers_of v) k = source fs base overlay k) /\
    ly_override (layers_of v) = ∅ /\ ly_flag (layers_of v) = flags_that true fs /\
    (forall p, p <> base_path fs -> s1 !! p = s !! p) /\
    (r.1 = inr tt <-> unmarshal_errors (AllSettings env v) = []) /\
    (r.1 = inr tt -> r.2.2 = finish env (source fs base overlay "vm-endpoint") (Unmarshal (AllSettings env v) zero_config).2 /\
    match flag_lookup fs "save" with
    | Some f => if bool_decide (flag_text (fl_Value f) = "true")
                then exists e v', runs (file_world home writable) (SaveChangedFlags env (config_dir fs) fs v) s1 (e, v') s'
                else s' = s1
    | None => s' = s1
    end).
Proof.
  intros Hv0 Hr base overlay. unfold load in Hr.
  apply runs_bind_inv in Hr as (dir & s1 & Hdir & Hr). apply peekConfigDir_inv in Hdir as [-> ->].
  apply runs_bind_inv in Hr as (v1 & s1 & Hb & Hr). apply layers_setDefaults in Hv0.
  apply (read_base_inv fs) in Hb as (config & Hl1 & Hc & Hd & Hbase & Hother); [|done]. fold base in Hc, Hd, Hbase.
  apply runs_bind_inv in Hr as (v2 & s2 & Ho & Hr). apply read_overlay_inv in Ho as [-> Hl2].
  rewrite Hother in Hl2 by apply overlay_not_base. fold overlay in Hl2.
  destruct (of_BindPFlags fs (AutomaticEnv env_name v2)) as (v3 & Eb & Hl3). rewrite Eb in Hr.
  rewrite of_AutomaticEnv, Hl2, Hl1, Hv0 in Hl3. cbn [ly_config layer_config] in Hl3.
  destruct (loaded_settings fs base overlay config v3) as [Hloads Heff]; [exact Hl3|done..|].
  exists v3, s1. destruct (Unmarshal (AllSettings env v3) zero_config) as [errors c] eqn:Eu.
  pose proof (Unmarshal_errors (AllSettings env v3) zero_config) as Ee. rewrite Eu in Ee. cbn [fst] in Ee.
  split_and!; [done|done|by rewrite Hl3|by rewrite Hl3|done|..].
  { rewrite <- Ee. destruct errors as [|err errors]; [|by apply runs_ret_inv in Hr as [-> _]].
    destruct (flag_lookup fs "save") as [f|]; [case_bool_decide|];
      [apply runs_bind_inv in Hr as (e & s3 & _ & Hr)|..]; by apply runs_ret_inv in Hr as [-> _]. }
  intros Hok. destruct errors as [|err errors]; [|by apply runs_ret_inv in Hr as [-> _]].
  rewrite of_Get, Heff in Hr. change (str_lower "vm-endpoint") with "vm-endpoint" in Hr.
  split; destruct (flag_lookup fs "save") as [f|]; try case_bool_decide; try by apply runs_ret_inv in Hr as [-> ->].
  - apply runs_bind_inv in Hr as (e & s3 & _ & Hr). by apply runs_ret_inv in Hr as [-> _].
  - apply runs_bind_inv in Hr as ([e v'] & s3 & Hs & Hr). apply runs_ret_inv in Hr as [_ ->]. by exists e, v'.
Qed.

(** Keeping the flags that were given changes no setting. *)
Lemma pin_flags l v :
  (forall f, f ∈ l -> is_Some (ly_flag (layers_of v) !! str_lower (fl_Name f))) ->
  forall k, AllSettings env (foldl (pin_flag env) v l) !! k = AllSettings env v !! k.
Proof.
  revert v. induction l as [|f l IH]; intros v Hl k; [done|]. cbn [foldl].
  assert (Hf : is_Some (ly_flag (layers_of v) !! str_lower (fl_Name f))) by (apply Hl; by left).
  unfold pin_flag at 2. case_bool_decide; [apply IH; intros g Hg; apply Hl; by right|].
  rewrite of_Get. destruct (effective env (layers_of v) (str_lower (fl_Name f))) as [x|] eqn:Ex;
    [|apply IH; intros g Hg; apply Hl; by right].
  rewrite IH; [|intros g Hg; rewrite of_Set; apply Hl; by right].
  rewrite !of_AllSettings, of_Set. unfold known. cbn [ly_override ly_flag ly_config ly_default ly_flag_default layer_override].
  destruct (decide (k = str_lower (fl_Name f))) as [->|Hk].
  - rewrite !lookup_union_or, lookup_insert_eq. cbn [or_else]. destruct Hf as [y Hy]. rewrite Hy.
    unfold effective in Ex |- *. cbn [ly_override layer_override]. rewrite lookup_insert_eq.
    by destruct (ly_override (layers_of v) !! str_lower (fl_Name f)).
  - unfold effective. cbn [ly_override ly_flag ly_env ly_config ly_default ly_flag_default layer_override].
    by rewrite !lookup_union_or, lookup_insert_ne.
Qed.

Lemma flags_that_some b fs k :
  is_Some (flags_that b fs !! k) <-> exists f, f ∈ fs /\ fl_Changed f = b /\ str_lower (fl_Name f) = k.
Proof.
  unfold flags_that. split.
  - intros [x Hx]. apply elem_of_list_to_map_2 in Hx. apply list_elem_of_fmap in Hx as (f & [= -> _] & Hf).
    apply list_elem_of_filter in Hf as [? ?]. by exists f.
  - intros (f & Hf & Hb & <-). apply elem_of_dom. rewrite dom_list_to_map_L. apply elem_of_list_to_set.
    apply list_elem_of_fmap. exists (str_lower (fl_Name f), fl_Value f). split; [done|].
    apply list_elem_of_fmap. exists f. split; [done|]. by apply list_elem_of_filter.
Qed.

Lemma SaveChangedFlags_inv fs v s e v' s' :
  writable = true -> ly_flag (layers_of v) = flags_that true fs ->
  runs (file_world home writable) (SaveChangedFlags env (config_dir fs) fs v) s (e, v') s' ->
  exists saved, (forall k, saved !! k = AllSettings env v !! k) /\ s' = <[base_path fs := saved]> s.
Proof.
  intros Hw Hl Hr. unfold SaveChangedFlags in Hr. fold (base_path fs) in Hr.
  apply runs_bind_inv in Hr as (made & s1 & Hm & Hr). apply runs_call_inv in Hm as [Hm ->]. rewrite Hw in Hm. subst made.
  set (v1 := foldl _ _ _) in Hr.
  apply runs_bind_inv in Hr as (r & s2 & Hr1 & Hr). apply runs_ret_inv in Hr as [_ ->].
  unfold write_config in Hr1. apply runs_bind_inv in Hr1 as (r1 & s3 & Hc & Hr1). apply runs_call_inv in Hc.
  destruct Hc as [[-> ->]|(? & _)]; [|congruence]. apply runs_ret_inv in Hr1 as [_ ->].
  exists (AllSettings env v1). split; [|done]. apply pin_flags. intros f Hf.
  unfold sort_by in Hf. rewrite merge_sort_Permutation in Hf. apply list_elem_of_filter in Hf as [Hc Hf].
  rewrite Hl. apply flags_that_some. by exists f.
Qed.

(** Where the settings come from.  When loading succeeds, the configuration is, up to what is
    inferred at the end, made of settings each of which is the first that there is of: a flag
    that was given, a variable that is not empty, the file of the environment, the base file, a
    default, the default of a flag.  But only a key that has a value in a file, a default or a
    flag is read at all: for any other the variable is ignored. *)
Theorem load_layers fs s r s' :
  runs (file_world home writable) (load env fs viper_New zero_config) s r s' -> r.1 = inr tt ->
  let base := default ∅ (s !! base_path fs) in
  let overlay := default ∅ (s !! overlay_path fs) in
  exists m, (forall k, m !! k =
      match (flags_that true fs ∪ overlay ∪ base ∪ default_layer ∪ flags_that false fs) !! k with
      | Some _ => source fs base overlay k
      | None => None
      end) /\
    unmarshal_errors m = [] /\
    r.2.2 = finish env (source fs base overlay "vm-endpoint") (Unmarshal m zero_config).2.
Proof.
  intros Hr Hok base overlay. apply load_inv in Hr as (v & s1 & Hl & _ & _ & _ & _ & He & Hc); [|apply of_New].
  exists (AllSettings env v). split_and!; [exact Hl|by apply He|by apply Hc].
Qed.

Lemma changed_text_none fs name : Forall (λ f, fl_Changed f = false) fs -> changed_text fs name = None.
Proof.
  intros Hf. unfold changed_text, flag_lookup. destruct (filter _ fs) as [|f l] eqn:E; [done|]. cbn.
  assert (Hin : f ∈ filter (λ g, fl_Name g = name) fs) by (rewrite E; by left).
  apply list_elem_of_filter in Hin as [_ Hin]. rewrite Forall_forall in Hf. by rewrite (Hf f Hin).
Qed.

Lemma flags_that_unchanged fs : Forall (λ f, fl_Changed f = false) fs -> flags_that true fs = ∅.
Proof.
  intros Hf. apply map_empty. intros k. destruct (flags_that true fs !! k) eqn:E; [|done].
  destruct (proj1 (flags_that_some true fs k)) as (f & Hin & Hb & _); [by eexists|].
  rewrite Forall_forall in Hf. by rewrite (Hf f Hin) in Hb.
Qed.

(** Settings that were saved are the settings of a run without flags. *)
Lemma saved_settings fs1 fs2 base overlay m1 saved m2 :
  (forall f, f ∈ fs1 -> fl_Changed f = true ->
    env (env_name (str_lower (fl_Name f))) = "" /\ overlay !! str_lower (fl_Name f) = None) ->
  fl_Name <$> fs2 = fl_Name <$> fs1 -> Forall (λ f, fl_Changed f = false) fs2 ->
  loads fs1 base overlay m1 -> (forall k, saved !! k = m1 !! k) -> loads fs2 saved overlay m2 ->
  (forall k, source fs2 saved overlay k = source fs1 base overlay k) /\ m2 = m1.
Proof.
  intros Henv Hnames Hun Hm1 Hs Hm2.
  assert (Hkey : forall k, is_Some (flags_that false fs2 !! k) -> is_Some ((flags_that true fs1 ∪ flags_that false fs1) !! k)).
  { intros k. rewrite flags_that_some. intros (f & Hf & _ & <-).
    assert (Hn : fl_Name f ∈ fl_Name <$> fs1) by (rewrite <- Hnames; by apply list_elem_of_fmap_2).
    apply list_elem_of_fmap in Hn as (g & -> & Hg). rewrite lookup_union_or.
    assert (Hsome : is_Some (flags_that (fl_Changed g) fs1 !! str_lower (fl_Name g))) by (apply flags_that_some; by exists g).
    destruct (fl_Changed g); destruct Hsome as [x Hx]; [rewrite Hx; by eexists|].
    rewrite Hx. destruct (flags_that true fs1 !! _); by eexists. }
  assert (Hchanged : forall k x, flags_that true fs1 !! k = Some x -> env_value env (Some env_name) k = None /\ overlay !! k = None).
  { intros k x Hx. destruct (proj1 (flags_that_some true fs1 k)) as (f & Hf & Hb & <-); [by eexists|].
    destruct (Henv f Hf Hb) as [He Ho]. unfold env_value. by rewrite He, bool_decide_true. }
  assert (Hsrc : forall k, source fs2 saved overlay k = source fs1 base overlay k).
  { intros k. specialize (Hm1 k). specialize (Hs k). specialize (Hkey k). specialize (Hchanged k).
    unfold source in Hm1 |- *. rewrite flags_that_unchanged by done. rewrite !lookup_union_or in *. rewrite !lookup_empty in *.
    cbn [or_else] in *. rewrite Hs, Hm1.
    destruct (flags_that true fs1 !! k); cbn [or_else] in *; [by destruct (Hchanged _ eq_refl) as [-> ->]|].
    destruct (env_value env (Some env_name) k); [done|]. cbn [or_else].
    destruct (overlay !! k); [done|]. cbn [or_else].
    destruct (base !! k); [done|]. cbn [or_else]. destruct (default_layer !! k); [done|]. cbn [or_else] in *.
    destruct (flags_that false fs1 !! k); [done|]. destruct (flags_that false fs2 !! k); [|done].
    by destruct (Hkey ltac:(by eexists)). }
  split; [exact Hsrc|]. apply map_eq. intros k. rewrite Hm2, Hm1, Hsrc, !lookup_union_or, flags_that_unchanged by done.
  rewrite !lookup_empty. cbn [or_else]. specialize (Hkey k). rewrite lookup_union_or in Hkey. rewrite Hs, Hm1, !lookup_union_or.
  assert (Hsome : is_Some (or_else (flags_that true fs1 !! k) (or_else (overlay !! k)
      (or_else (base !! k) (or_else (default_layer !! k) (flags_that false fs1 !! k))))) ->
    is_Some (source fs1 base overlay k)).
  { unfold source. destruct (flags_that true fs1 !! k), (env_value env (Some env_name) k), (overlay !! k), (base !! k), (default_layer !! k); cbn; eauto. }
  destruct (flags_that true fs1 !! k), (overlay !! k), (base !! k), (default_layer !! k), (flags_that false fs1 !! k); cbn [or_else] in *;
    try done; try (destruct (source fs1 base overlay k); [done|by destruct (Hsome ltac:(by eexists))]).
  destruct (flags_that false fs2 !! k); [by destruct (Hkey ltac:(by eexists))|done].
Qed.
End config_facts.

(** C21. Saved flags persist. After a run that was given [--save], but neither [--config-dir]
    nor [--env], where the files can be written, and where neither a variable of the process nor
    the file of the environment, which [--save] does not write, has a value for any flag that
    was given, a run of the same binary without any flag, with the same variables, succeeds and
    has the same configuration. *)
Theorem saved_flags_persist `{ViperLaws} `{WeakDecode} env home fs1 fs2 f s r1 s1 r2 s2 :
  flag_lookup fs1 "save" = Some f -> flag_text (fl_Value f) = "true" ->
  changed_text fs1 "config-dir" = None -> changed_text fs1 "env" = None ->
  (forall f, f ∈ fs1 -> fl_Changed f = true -> env (env_name (str_lower (fl_Name f))) = "" /\
     default ∅ (s !! overlay_path env home fs1) !! str_lower (fl_Name f) = None) ->
  fl_Name <$> fs2 = fl_Name <$> fs1 -> Forall (λ f, fl_Changed f = false) fs2 ->
  runs (file_world home true) (load env fs1 viper_New zero_config) s r1 s1 -> r1.1 = inr tt ->
  runs (file_world home true) (load env fs2 viper_New zero_config) s1 r2 s2 ->
  r2.1 = inr tt /\ r2.2.2 = r1.2.2.
Proof.
  intros Hf Htrue Hdir Henv1 Hvars Hnames Hun Hr1 Hok Hr2.
  assert (Ed : config_dir env home fs2 = config_dir env home fs1)
    by (unfold config_dir; by rewrite Hdir, changed_text_none).
  assert (Eb : base_path env home fs2 = base_path env home fs1) by (unfold base_path; by rewrite Ed).
  assert (Eo : overlay_path env home fs2 = overlay_path env home fs1)
    by (unfold overlay_path, peekEnv; by rewrite Ed, Henv1, changed_text_none).
  apply load_inv in Hr1 as (v1 & t1 & Hl1 & _ & _ & Hfl1 & Hother & He1 & Hc1); [|apply of_New].
  destruct (Hc1 Hok) as [Hcfg1 Hsave]. rewrite Hf, bool_decide_true in Hsave by done. destruct Hsave as (e & v' & Hsave).
  apply SaveChangedFlags_inv in Hsave as (saved & Hsaved & ->); [|done..].
  apply load_inv in Hr2 as (v2 & t2 & Hl2 & _ & _ & _ & _ & He2 & Hc2); [|apply of_New].
  rewrite Eb, Eo, lookup_insert_eq, lookup_insert_ne, Hother in * by (apply not_eq_sym; auto using overlay_not_base).
  cbn [default] in *.
  destruct (saved_settings env fs1 fs2 _ _ _ saved _ Hvars Hnames Hun Hl1 Hsaved Hl2) as [Hsrc Hm].
  assert (r2.1 = inr tt) as Hok2 by (apply He2; rewrite Hm; by apply He1).
  split; [done|]. destruct (Hc2 Hok2) as [-> _]. by rewrite Hcfg1, Hm, Hsrc.
Qed.

(** The key of a language model's provider can be given by no variable, whatever its name:
    without the key in a file, the assistant has no client. *)
Lemma hidden_variable `{ViperLaws} `{WeakDecode} env home writable fs s r s' :
  runs (file_world home writable) (load env fs viper_New zero_config) s r s' -> r.1 = inr tt ->
  (forall b, flags_that b fs !! "ai.api-key" = None) ->
  default ∅ (s !! base_path env home fs) !! "ai.api-key" = None ->
  default ∅ (s !! overlay_path env home fs) !! "ai.api-key" = None ->
  Llm.ai_APIKey (cf_AI r.2.2) = "" /\
  exists err, Llm.NewClient (cf_AI r.2.2) = inl err.
Proof.
  intros Hr Hok Hf Hb Ho. apply load_inv in Hr as (v & s1 & Hl & _ & _ & _ & _ & _ & Hc); [|apply of_New].
  destruct (Hc Hok) as [-> _].
  assert (E : Llm.ai_APIKey (cf_AI (finish env (source env fs (default ∅ (s !! base_path env home fs))
      (default ∅ (s !! overlay_path env home fs)) "vm-endpoint") (Unmarshal (AllSettings env v) zero_config).2)) = "").
  { assert (Hk : AllSettings env v !! "ai.api-key" = None).
    { rewrite Hl, !lookup_union_or, !Hf, Ho, Hb. reflexivity. }
    unfold finish. case_bool_decide; cbn; unfold field; by rewrite Hk. }
  split; [exact E|]. unfold Llm.NewClient. rewrite E. by eexists.
Qed.

(** The variables that Kubernetes documents for a service. *)
Definition service_variables (service : string) : list string :=
  (λ x, underscores (str_upper service) +:+ x) <$> ["_SERVICE_HOST"; "_SERVICE_PORT"].

(** The services of the repository's manifests are never found: what is announced for them
    has no influence. *)
Lemma manifests_not_discovered env env' c :
  (forall x, x ∉ service_variables "lattice-api-service" ++ service_variables "lattice-nats-service" ++
                 service_variables "api-service" ++ service_variables "nats-service" -> env' x = env x) ->
  applyK8sFallbacks env' c = applyK8sFallbacks env c.
Proof.
  intros He. unfold applyK8sFallbacks, manager_prefixes, service_url. cbn [omap list_omap].
  repeat (match goal with |- context [env' ?x] => rewrite (He x) by (apply (bool_decide_unpack _); vm_compute; exact I) end). done.
Qed.

(** The driver of the database: what was given, if it was not [sqlite]; otherwise by the name of the source. *)
Lemma inferDatabaseDriver_spec c :
  let db := cf_Database c in let db' := cf_Database (inferDatabaseDriver c) in
  db_DSN db' = db_DSN db /\ inferDatabaseDriver (inferDatabaseDriver c) = inferDatabaseDriver c /\
  (db_Driver db' = "mariadb" \/ db_Driver db' = "sqlite" \/ db_Driver db' = db_Driver db) /\
  (db_DSN db = "" -> db_Driver db' = "sqlite").
Proof.
  cbv zeta. destruct c as [? ? ? ? ? ? ? ? ? ? ? ? ? ? ? ? ? ? ? ? ? ? ? ? ? ? ? ? ? ? ? ? ? ? [driver dsn] ? [vm iv] ? ? ? ? ? ?].
  unfold inferDatabaseDriver, put_database, put. cbn.
  repeat case_bool_decide; cbn; try done; destruct (mariadb_dsn dsn) eqn:E; cbn; split_and!; try done; tauto.
Qed.

(** An agent passes the validation exactly with its three addresses and names what is missing. *)
Lemma runClientValidation_spec c :
  (runClientValidation c).1 = inr tt <-> cf_SignalingURL c <> "" /\ cf_ServerUrl c <> "" /\ cf_Token c <> "".
Proof.
  unfold runClientValidation, client_fields, checked. cbn.
  repeat case_bool_decide; cbn; split; try done; try tauto; try (intros (? & ? & ?); done).
Qed.

(** *** A viper of layers, and a first run *)

Definition layered : ViperLibrary := {|
  viper := layers; viper_New := no_layers; SetDefault := layer_default; SetConfig := layer_config;
  MergeConfig s l := layer_config (s ∪ ly_config l) l; AutomaticEnv := layer_env; BindPFlags fs l := inr (layer_flags fs l);
  viper_Set := layer_override; viper_Get env l k := effective env l (str_lower k);
  AllSettings env l := map_imap (λ k _, effective env l k) (known l) |}.

#[export] Instance layered_laws : @ViperLaws layered.
Proof.
  refine (@Build_ViperLaws layered (λ l, l) _ _ _ _ _ _ _ _ _); try done.
  - intros fs x. by eexists.
  - intros env x k. cbn. rewrite map_lookup_imap. by destruct (known x !! k).
Defined.

Definition plain_decode : WeakDecode := {|
  weak_string v := match v with VString s => inr s | VInt z => inr (pretty z) | VBool b => inr (if b then "1" else "0")
                   | VAdmins _ => inl (ErrText "expected type 'string'") end;
  weak_int v := match v with VInt z => inr z | _ => inl (ErrText "expected type 'int'") end;
  weak_bool v := match v with VBool b => inr b | _ => inl (ErrText "expected type 'bool'") end;
  weak_admins v := match v with VAdmins l => inr l | _ => inl (ErrText "expected a slice") end;
  weak_list v := inl (ErrText "expected a slice");
  ToString v := match v with VString s => s | _ => "" end;
  flag_text v := match v with VString s => s | VInt z => pretty z | VBool b => if b then "true" else "false" | VAdmins _ => "" end |}.

Definition sample_env (x : string) : string := if bool_decide (x = "LATTICE_SERVER_URL") then "http://srv:8080" else "".
Definition sample_flags (token : string) (save given : bool) : list Flag := [
  {| fl_Name := "token"; fl_Value := VString token; fl_Changed := given |};
  {| fl_Name := "save"; fl_Value := VBool save; fl_Changed := given |};
  {| fl_Name := "config-dir"; fl_Value := VString ""; fl_Changed := false |}].

Definition file_handler T (e : confE T) (s : gmap string settings) : T * gmap string settings :=
  match e in confE T return T * gmap string settings with
  | CHome => ("/home/me", s)
  | CStat p => (match s !! p with Some _ => Exists | None => Missing end, s)
  | CMkdirAll _ => (inr tt, s)
  | CSafeWrite p x => match s !! p with Some _ => (inl (ErrText "exists"), s) | None => (inr tt, <[p := x]> s) end
  | CRead p => match s !! p with Some x => (inr x, s) | None => (inl (ErrText "missing"), s) end
  | CWrite p x => (inr tt, <[p := x]> s)
  | CGetwd => ("/work", s)
  | CHostname => (inr "Host", s)
  end.
Lemma file_handler_world T e s r s' :
  fun_world file_handler T e s r s' -> file_world "/home/me" true T e s r s'.
Proof.
  unfold fun_world. destruct e; cbn; intros E; simplify_eq; try done; try (by left).
  - destruct (s !! path) eqn:Es; simplify_eq; [split; [by eexists|done]|by left].
  - destruct (s !! path) eqn:Es; simplify_eq; split; try done. by eexists.
Qed.

Abbreviation sample_load fs := (@load layered plain_decode sample_env fs no_layers zero_config).
Definition files_run (fs : list Flag) (s : gmap string settings) := run file_handler (sample_load fs) s.

Lemma files_runs fs s r : (files_run fs s).1 = Some r ->
  runs (file_world "/home/me" true) (sample_load fs) s r (files_run fs s).2.
Proof. intros E. eapply runs_weaken; [apply file_handler_world|]. by apply run_runs. Qed.

Definition first_files : gmap string settings := Eval vm_compute in (files_run (sample_flags "t1" true true) ∅).2.

Lemma files_run_ok fs s : fst <$> (files_run fs s).1 = Some (inr tt) ->
  exists r, (files_run fs s).1 = Some r /\ r.1 = inr tt.
Proof. destruct (files_run fs s).1 as [r|]; intros E; [|done]. exists r. split; [done|]. by injection E. Qed.

(** The token of the flag, the server of the variable, a default. *)
Lemma load_layers_witness :
  exists r s', runs (file_world "/home/me" true) (sample_load (sample_flags "t1" true true)) ∅ r s' /\ r.1 = inr tt /\
  exists m : settings, m !! "token" = Some (VString "t1") /\ m !! "server-url" = Some (VString "http://srv:8080") /\
    m !! "listen" = Some (VString ":8080") /\ m !! "ai.api-key" = None.
Proof.
  destruct (files_run_ok (sample_flags "t1" true true) ∅) as (r & E & Hok); [vm_compute; reflexivity|].
  exists r, (files_run (sample_flags "t1" true true) ∅).2. pose proof (files_runs _ _ _ E) as Hr.
  split; [exact Hr|]. split; [exact Hok|].
  destruct (@load_layers layered layered_laws plain_decode sample_env "/home/me" true _ _ _ _ Hr Hok) as (m & Hm & _ & _).
  exists m. rewrite !Hm. vm_compute. repeat split; reflexivity.
Defined.

(** The token of the first run is that of the second, which is given no flag; the file of the environment
    gives the address of the server's metrics. *)
Definition dev_files : gmap string settings := {["/home/me/.lattice/lattice.dev.yaml" := {["monitor.address" := VString "http://vm"]}]}.
Lemma saved_flags_persist_witness :
  exists r1 s1 r2 s2,
    runs (file_world "/home/me" true) (sample_load (sample_flags "t1" true true)) dev_files r1 s1 /\
    runs (file_world "/home/me" true) (sample_load (sample_flags "" false false)) s1 r2 s2 /\
    r2.2.2 = r1.2.2 /\ cf_Token r2.2.2 = "t1".
Proof.
  destruct (files_run_ok (sample_flags "t1" true true) dev_files) as (r1 & E1 & Hok1); [vm_compute; reflexivity|].
  set (s1 := (files_run (sample_flags "t1" true true) dev_files).2).
  assert (T1 : (λ r, cf_Token r.2.2) <$> (files_run (sample_flags "t1" true true) dev_files).1 = Some "t1") by (vm_compute; reflexivity).
  rewrite E1 in T1. injection T1 as T1.
  destruct (files_run_ok (sample_flags "" false false) s1) as (r2 & E2 & _); [vm_compute; reflexivity|].
  exists r1, s1, r2, (files_run (sample_flags "" false false) s1).2.
  pose proof (files_runs _ _ _ E1) as Hr1. pose proof (files_runs _ _ _ E2) as Hr2.
  split; [exact Hr1|]. split; [exact Hr2|].
  destruct (@saved_flags_persist layered layered_laws plain_decode sample_env "/home/me" (sample_flags "t1" true true)
    (sample_flags "" false false) {| fl_Name := "save"; fl_Value := VBool true; fl_Changed := true |} dev_files r1 s1 r2 (files_run (sample_flags "" false false) s1).2)
    as [_ Hsame]; [reflexivity|reflexivity|reflexivity|reflexivity| |reflexivity| |exact Hr1|exact Hok1|exact Hr2|].
  - intros f Hf _. unfold sample_flags in Hf. rewrite !elem_of_cons, elem_of_nil in Hf.
    destruct Hf as [->|[->|[->|[]]]]; vm_compute; split; reflexivity.
  - repeat constructor.
  - split; [exact Hsame|]. rewrite Hsame. exact T1.
Defined.

(** The file that [--save] writes has every setting, not those of the flags alone: defaults
    too, and values of variables. *)
Example save_writes_everything :
  exists written, first_files !! "/home/me/.lattice/lattice.yaml" = Some written /\
    written !! "app.initadmins" = Some (VAdmins [("admin", "123456")]) /\
    written !! "server-url" = Some (VString "http://srv:8080") /\ written !! "save" = Some (VBool true).
Proof. eexists. split; [reflexivity|]. vm_compute. repeat split; reflexivity. Qed.
