(* ===== verification/Boot.v ===== *)
(** * Boot: how an agent starts and stops
    ([internal/agent/run.go], [NewNode] of [internal/agent/node.go],
    [internal/dns/wire_dns.go])

    An agent takes its interface and sockets, enrolls over the message bus, listens on a
    subject of its own, connects to its relay, makes the WireGuard device and starts it.  A
    file with the number of its process lets another call stop it. *)

From S2P Require Import Device.
From S2P Require Import Prelude Prog Net Api Message Infra Transport Agent Dialers Ai Mgmt Peers Push Signal RelayLink.
From S2P Require Llm Config.

(** ** What an agent calls *)

(** [public_key]: the curve's public key of a private one. *)
Class NodeKeys := { public_key : list Z -> list Z }.

(** [BListenUDP]: the socket, none when the host has no such addresses.  [BGo]: a goroutine is
    started.  [BWait]: until the agent is told to end, or a goroutine failed. *)
Inductive bootE : Type -> Type :=
| BGetenv (name : string) : bootE string
| BMkdirAll (dir : string) : bootE (gresult unit)
| BWriteFile (path text : string) : bootE (gresult unit)
| BReadFile (path : string) : bootE (gresult string)
| BRemove (path : string) : bootE unit
| BGetpid : bootE Z
| BFindProcess (pid : Z) : bootE (gresult unit)
| BTerminate (pid : Z) : bootE (gresult unit)
| BDevices : bootE (gresult (list string))
| BOpenLog (path : string) : bootE (gresult unit)
| BExecutable : bootE (gresult string)
| BArgs : bootE (list string)
| BStartProcess (path : string) (args env : list string) : bootE (gresult unit)
| BEnviron : bootE (list string)
| BExit : bootE unit
| BCreateTUN (name : string) : bootE (gresult unit)
| BListenUDP (network : string) (port : Z) : bootE (gresult (option Z))
| BConnectNats (appId url : string) : bootE (gresult unit)
| BHostname : bootE (gresult string)
| BBus (T : Type) (e : natsE T) : bootE T
| BSubscribe (subject : string) : bootE (gresult unit)
| BLink (T : Type) (e : linkE T) : bootE T
| BNewDevice (name : string) : bootE unit
| BDevice (T : Type) (e : deviceE T) : bootE T
| BGo (what : string) : bootE unit
| BUAPIOpen (name : string) : bootE (gresult unit)
| BUAPIListen (name : string) : bootE (gresult unit)
| BWait : bootE (gresult unit).
Abbreviation bprog := (prog bootE).

(** ** Making the node *)

Definition getInterfaceName : string := "wf0".
Definition CreateTUN : bprog (gresult string) := _ ←? call (BCreateTUN getInterfaceName); Ret (inr getInterfaceName).
Definition ListenUDP (network : string) (uport : Z) : bprog (gresult (option Z)) := call (BListenUDP network (u16 uport)).

(** The subject of a peer ([Send] of nats.go, and the subscription of its agent). *)
Definition peer_subject (id : PeerID) : string := "lattice.signals.peers." +:+ PeerID_String id.
Definition own_subject (id : PeerIdentity) : string := "lattice.signals.peers" +:+ "." +:+ PeerIdentity_String id.

Record NodeConfig := { nc_Port : Z; nc_Token : string; nc_AppId : string; nc_Platform : string; nc_SignalingURL : string; nc_Relay : RelayFlags }.

(** A node that was made: what enrolling answered, its own identity, and its relay. *)
Record Made := { md_Node : Node; md_current : InfraPeer; md_id : PeerIdentity; md_relay : option LrpClient }.

Section node.
Context `{ClientJSON} `{WireGuardKeys} `{NodeKeys}.

(** The network: the interface, the sockets, the bus. *)
Definition phase1 (cfg : NodeConfig) : bprog (gresult string) :=
  name ←? CreateTUN;
  _ ←? ListenUDP "udp4" (nc_Port cfg);
  _ ←? ListenUDP "udp6" (nc_Port cfg);
  _ ←? call (BConnectNats (nc_AppId cfg) (nc_SignalingURL cfg));
  Ret (inr name).

(** The identity: enrolling, and listening. *)
Definition phase2 (cfg : NodeConfig) (name : string) : bprog (gresult (InfraPeer * PeerIdentity)) :=
  host ← call BHostname;
  peer ←? translate BBus (agent_Register (nc_AppId cfg) (nc_Platform cfg) host (nc_Token cfg) name);
  match ParseKey (ip_PrivateKey peer) with
  | None => Ret (inl (ErrText "wgtypes: failed to parse key"))
  | Some private =>
      let id := NewPeerIdentity (ip_AppID peer) (public_key private) in
      _ ←? call (BSubscribe (own_subject id));
      Ret (inr (peer, id))
  end.

(** The relay, and the data plane; making the device cannot fail. *)
Definition NewNode (cfg : NodeConfig) : bprog (gresult Made) :=
  name ←? phase1 cfg;
  pi ←? phase2 cfg name;
  relay ←? translate BLink (node_relay (nc_Relay cfg) (ip_WrrpUrl pi.1) (ToUint64 (PeerIdentity_ID pi.2)));
  _ ← call (BNewDevice name);
  Ret (inr {| md_Node := {| nd_Name := name; nd_PublicKey := ip_PublicKey pi.1;
                            nd_peers := PeerManager.AddPeer (PeerManager.NewPeerManager) (ip_AppID pi.1) pi.1; nd_probes := ∅ |};
              md_current := pi.1; md_id := pi.2; md_relay := relay |}).
End node.

(** ** The process *)

Definition pidFilePath (iface : string) : string := "/var/run/wireguard/" +:+ iface +:+ ".pid".
Definition writePIDFile (path : string) : bprog (gresult unit) :=
  _ ←? call (BMkdirAll "/var/run/wireguard");
  pid ← call BGetpid;
  call (BWriteFile path (pretty pid)).

(** On Linux.  [os.Exit] ends the parent. *)
Definition daemon_args (args : list string) : list string := filter (λ a, a <> "--daemon" /\ a <> "-d") args.
Definition daemon_env (environ : list string) : list string := environ ++ ["LATTICE_DAEMON=true"].
Definition startDaemon (level : string) : bprog (gresult unit) :=
  made ← call (BMkdirAll "/var/log/lattice");
  match made with
  | inl err => Ret (inl (ErrWrap "failed to create log directory" err))
  | inr _ =>
      logfile ← (if negb (bool_decide (level = "")) && negb (bool_decide (level = "silent"))
                 then call (BOpenLog "/var/log/lattice/lattice.log") else Ret (inr tt));
      match logfile with
      | inl err => Ret (inl (ErrWrap "failed to open log file" err))
      | inr _ =>
          environ ← call BEnviron;
          exe ← call BExecutable;
          match exe with
          | inl err => Ret (inl (ErrWrap "failed to determine executable" err))
          | inr path =>
              args ← call BArgs;
              started ← call (BStartProcess path (daemon_args args) (daemon_env environ));
              match started with
              | inl err => Ret (inl (ErrWrap "failed to daemonize" err))
              | inr _ => _ ← call BExit; Ret (inr tt)
              end
          end
      end
  end.

Record StartFlags := {
  sf_Level : string; sf_EnableDaemon : bool; sf_InterfaceName : string; sf_EnableDNS : bool; sf_EnableMetric : bool;
  sf_VMEndpoint : string; sf_Node : NodeConfig }.

Section start.
Context `{ClientJSON} `{WireGuardKeys} `{NodeKeys}.

(** From the making of the node until the agent runs. *)
Definition boot (flags : StartFlags) : bprog (gresult Made) :=
  _ ← (if sf_EnableDNS flags then call (BGo "dns") else Ret tt);
  m ←? NewNode (sf_Node flags);
  started ← translate BDevice (node_Start (ip_PrivateKey (md_current m)) (md_Node m));
  match started.1 with
  | inl err => Ret (inl err)
  | inr _ =>
      _ ← call (BGo "heartbeat");
      _ ← (if sf_EnableMetric flags && negb (bool_decide (sf_VMEndpoint flags = "")) then call (BGo "telemetry") else Ret tt);
      opened ← call (BUAPIOpen (nd_Name (md_Node m)));
      match opened with
      | inl err => Ret (inl (ErrWrap "failed to open UAPI socket" err))
      | inr _ =>
          listening ← call (BUAPIListen (nd_Name (md_Node m)));
          match listening with
          | inl err => Ret (inl (ErrWrap "failed to listen on UAPI socket" err))
          | inr _ => _ ← call (BGo "uapi");
                     Ret (inr {| md_Node := started.2; md_current := md_current m; md_id := md_id m; md_relay := md_relay m |})
          end
      end
  end.

(** The file is removed whenever the function returns, if this call wrote it. *)
Definition with_pid_file {A} (path : string) (body : bprog A) : bprog A :=
  wrote ← writePIDFile path;
  r ← body;
  _ ← match wrote with inr _ => call (BRemove path) | inl _ => Ret tt end;
  Ret r.

Definition run_agent (flags : StartFlags) : bprog (gresult unit) :=
  m ←? boot flags;
  _ ← call BWait;
  _ ← translate BDevice (node_Stop match md_relay m with Some _ => true | None => false end true);
  Ret (inr tt).

Definition agent_Start (flags : StartFlags) : bprog (gresult unit) :=
  daemon ← (if sf_EnableDaemon flags then d ← call (BGetenv "LATTICE_DAEMON"); Ret (bool_decide (d = "")) else Ret false);
  if daemon : bool then startDaemon (sf_Level flags)
  else with_pid_file (pidFilePath (sf_InterfaceName flags)) (run_agent flags).
End start.

(** [Stop], by the interface that the flags name. *)
Definition read_pid (path : string) : bprog (gresult Z) :=
  data ← call (BReadFile path);
  match data with
  | inl err => Ret (inl (ErrWrap ("failed to read PID file " +:+ path) err))
  | inr text =>
      match Atoi (trim text) with
      | None => Ret (inl (ErrText ("invalid PID in " +:+ path)))
      | Some pid => Ret (inr pid)
      end
  end.
Definition agent_Stop (interfaceName : string) : bprog (gresult unit) :=
  name ←? (if negb (bool_decide (interfaceName = "")) then Ret (inr interfaceName)
           else
             ifaces ←? call BDevices;
             match ifaces with
             | [] => Ret (inl (ErrText "lattice daemon is not running, no interfaces found"))
             | x :: _ => Ret (inr x)
             end);
  pid ←? read_pid (pidFilePath name);
  found ← call (BFindProcess pid);
  match found with
  | inl err => Ret (inl (ErrWrap ("process " +:+ pretty pid +:+ " not found") err))
  | inr _ =>
      sent ← call (BTerminate pid);
      match sent with
      | inl err => Ret (inl (ErrWrap ("failed to send SIGTERM to PID " +:+ pretty pid) err))
      | inr _ => Ret (inr tt)
      end
  end.

(** ** The DNS server of an agent *)

Record DNSConfig := { dn_Records : gmap string string; dn_Upstream : string; dn_Listen : string }.
Record LinkDNS := { ld_listenAddr : string; ld_upstreamDNS : string }.
Definition NewNativeDNS (cfg : DNSConfig) : LinkDNS := {|
  ld_listenAddr := Llm.default_to (dn_Listen cfg) ":53"; ld_upstreamDNS := Llm.default_to (dn_Upstream cfg) "81.68.109.143:53" |}.

(** A question: a name and a type; 1 is an address.  [UExchange]: the records of the answer of
    the upstream server. *)
Inductive upstreamE : Type -> Type :=
| UExchange (server name : string) : upstreamE (gresult (list string)).
Definition TypeA : Z := 1.
Fixpoint handleDNSRequest (l : LinkDNS) (questions : list (string * Z)) : prog upstreamE (list string) :=
  match questions with
  | [] => Ret []
  | (name, qtype) :: questions =>
      answers ← (if qtype =? TypeA then
                   r ← call (UExchange (ld_upstreamDNS l) name); Ret match r with inl _ => [] | inr l => l end
                 else Ret []);
      rest ← handleDNSRequest l questions;
      Ret (answers ++ rest)
  end.

(** ** Correctness *)

(** *** Decimal texts *)

Fixpoint all_digits (s : string) : Prop :=
  match s with
  | EmptyString => True
  | String c s => (48 <= Z.of_nat (nat_of_ascii c) <= 57) /\ all_digits s
  end.

Lemma digit_char (x : N) :
  let d := Z.of_N (x mod 10) in Z.of_nat (nat_of_ascii (pretty_N_char (x mod 10))) = 48 + d /\ 0 <= d <= 9.
Proof.
  cbv zeta. assert (Hx : (x mod 10 < 10)%N) by (apply N.mod_lt; lia). revert Hx. generalize (x mod 10)%N as d. intros d Hd.
  assert (d = 0 \/ d = 1 \/ d = 2 \/ d = 3 \/ d = 4 \/ d = 5 \/ d = 6 \/ d = 7 \/ d = 8 \/ d = 9)%N as Hc by lia.
  repeat destruct Hc as [->|Hc]; subst; vm_compute; split; (reflexivity || split; discriminate).
Qed.

Lemma pretty_N_go_digits (x : N) s :
  all_digits s -> all_digits (pretty_N_go x s) /\ digits_value (pretty_N_go x s) 0 = digits_value s (Z.of_N x) /\
  (x <> 0%N -> pretty_N_go x s <> "").
Proof.
  revert s. induction (N.lt_wf_0 x) as [x _ IH]. intros s Hs. destruct (decide (x = 0)%N) as [->|Hx]; [by rewrite pretty_N_go_0|].
  rewrite pretty_N_go_step by lia.
  pose proof (digit_char x) as [Hc Hd]. cbv zeta in Hc, Hd.
  destruct (IH (x `div` 10)%N) with (s := String (pretty_N_char (x `mod` 10)) s) as (H1 & H2 & H3);
    [apply N.div_lt; lia|cbn; split; [lia|done]|].
  split; [done|]. split.
  - rewrite H2. cbn [digits_value]. rewrite Hc.
    replace (48 + Z.of_N (x `mod` 10) - 48) with (Z.of_N (x `mod` 10)) by lia.
    rewrite (proj2 (Z.ltb_ge _ 0)) by (apply Hd). rewrite (proj2 (Z.ltb_ge 9 _)) by (apply Hd). cbn [orb].
    f_equal. pose proof (N.div_mod x 10 ltac:(lia)). lia.
  - intros _. destruct (decide (x `div` 10 = 0)%N) as [->|Hne]; [by rewrite pretty_N_go_0|auto].
Qed.

Lemma all_digits_trim s : all_digits s -> trim s = s.
Proof.
  assert (Hc : forall c, 48 <= Z.of_nat (nat_of_ascii c) <= 57 -> trim_char c = false).
  { intros c Hc. unfold trim_char. rewrite orb_false_iff, andb_false_iff, Z.eqb_neq, !Z.leb_gt. lia. }
  assert (Hl : forall s, all_digits s -> trim_left s = s).
  { intros [|c t]; [done|]. intros [Hd _]. cbn. by rewrite (Hc c Hd). }
  intros Hs. unfold trim. rewrite (Hl s Hs). revert Hs. induction s as [|c s IH]; [done|]. intros Hs. cbn [trim_right].
  rewrite (Hl _ Hs), bool_decide_false by done. f_equal. apply IH. by destruct Hs.
Qed.

(** The number of a process is read back from its text. *)
Lemma Atoi_pid pid : 0 < pid < 2 ^ 63 -> Atoi (trim (pretty pid)) = Some pid.
Proof.
  intros Hp. destruct pid as [|p|p]; [lia| |lia]. change (pretty (Z.pos p)) with (pretty_N_go (N.pos p) "").
  destruct (pretty_N_go_digits (N.pos p) "") as (Hd & Hv & Hn); [done|]. rewrite all_digits_trim by done.
  specialize (Hn ltac:(done)). unfold Atoi. destruct (pretty_N_go (N.pos p) "") as [|c s]; [done|].
  destruct Hd as [Hc _].
  rewrite !bool_decide_false by (first [done|intros ->; rewrite nat_ascii_embedding in Hc by lia; lia]).
  rewrite Hv. cbn [mbind option_bind digits_value].
  change (Z.of_N (N.pos p)) with (Z.pos p). by rewrite Z.mul_1_l, (proj2 (Z.leb_le _ _)), (proj2 (Z.ltb_lt _ _)) by lia.
Qed.

(** *** The file of the process *)

(** A host: its files, the process of the agent, and the processes that were told to end.
    Everything else does as it likes. *)
Record host := { ho_files : gmap string string; ho_pid : Z; ho_ended : list Z }.
Definition with_files (f : gmap string string) (h : host) : host := {| ho_files := f; ho_pid := ho_pid h; ho_ended := ho_ended h |}.
Definition host_world T (e : bootE T) (s : host) : T -> host -> Prop :=
  match e in bootE T return T -> host -> Prop with
  | BWriteFile p t => λ r s', s' = match r with inr _ => with_files (<[p := t]> (ho_files s)) s | inl _ => s end
  | BReadFile p => λ r s', match ho_files s !! p with Some t => r = inr t | None => exists err, r = inl err end /\ s' = s
  | BRemove p => λ _ s', s' = with_files (delete p (ho_files s)) s
  | BGetpid => λ r s', r = ho_pid s /\ s' = s
  | BFindProcess _ => λ r s', r = inr tt /\ s' = s
  | BTerminate pid => λ r s', r = inr tt /\ s' = {| ho_files := ho_files s; ho_pid := ho_pid s; ho_ended := ho_ended s ++ [pid] |}
  | BDevices => λ r s', r = inr [getInterfaceName] /\ s' = s
  | _ => λ _ s', s' = s
  end.

(** Programs that leave the host's files and processes alone. *)
Definition leaves T (e : bootE T) : Prop :=
  match e with BWriteFile _ _ | BRemove _ | BTerminate _ => False | _ => True end.
Fixpoint quiet {A} (p : bprog A) : Prop :=
  match p with Vis e k => leaves _ e /\ forall r, quiet (k r) | _ => True end.

Lemma quiet_bind {A B} (p : bprog A) (f : A -> bprog B) : quiet p -> (forall a, quiet (f a)) -> quiet (p ≫= f).
Proof. intros Hp Hf. induction p as [a| |T e k IH]; cbn in *; [apply Hf|done|]. split; [apply Hp|]. intros r. apply IH, Hp. Qed.
Lemma quiet_try {A B} (p : bprog (gresult A)) (f : A -> bprog (gresult B)) :
  quiet p -> (forall a, quiet (f a)) -> quiet (try_bind p f).
Proof. intros Hp Hf. apply quiet_bind; [done|]. by intros [err|a]. Qed.
Lemma quiet_translate {E : Type -> Type} {A} (f : forall T, E T -> bootE T) (p : prog E A) :
  (forall T e, leaves T (f T e)) -> quiet (translate f p).
Proof. intros Hf. induction p as [a| |T e k IH]; cbn; [done|done|]. split; [apply Hf|auto]. Qed.
Lemma quiet_call {T} (e : bootE T) : leaves T e -> quiet (call e).
Proof. by split. Qed.
Lemma runs_quiet {A} (p : bprog A) s a s' : quiet p -> runs host_world p s a s' -> s' = s.
Proof.
  intros Hq Hr. induction Hr as [a s|T e k s r s1 a s2 He Hr IH]; [done|]. destruct Hq as [Hl Hk].
  assert (s1 = s) as -> by (destruct e; cbn in He, Hl; by (done || destruct He)). auto.
Qed.

Ltac solve_quiet :=
  repeat first [done | apply quiet_call; done | apply quiet_translate; done
               | apply quiet_try; [|intros ?] | apply quiet_bind; [|intros ?] | case_match].

Section process.
Context `{ClientJSON} `{WireGuardKeys} `{NodeKeys}.

Lemma boot_quiet flags : quiet (boot flags).
Proof. unfold boot, NewNode, phase1, phase2, CreateTUN, ListenUDP. solve_quiet. Qed.

Lemma run_agent_quiet flags : quiet (run_agent flags).
Proof. unfold run_agent. apply quiet_try; [apply boot_quiet|]. intros m. solve_quiet. Qed.

(** An agent that runs: it wrote its file and booted. *)
Definition running (flags : StartFlags) : bprog (gresult unit * gresult Made) :=
  wrote ← writePIDFile (pidFilePath (sf_InterfaceName flags)); m ← boot flags; Ret (wrote, m).

(** What an agent does after it booted, until it returns. *)
Definition rest (flags : StartFlags) (wrote : gresult unit) (m : gresult Made) : bprog (gresult unit) :=
  r ← match m with
      | inl err => Ret (inl err)
      | inr m => _ ← call BWait;
                 _ ← translate BDevice (node_Stop match md_relay m with Some _ => true | None => false end true); Ret (inr tt)
      end;
  _ ← match wrote with inr _ => call (BRemove (pidFilePath (sf_InterfaceName flags))) | inl _ => Ret tt end;
  Ret r.

(** Every run of an agent passes by the moment at which it runs. *)
Lemma agent_Start_running {S} (h : forall T, bootE T -> S -> T -> S -> Prop) flags s r s' :
  sf_EnableDaemon flags = false -> runs h (agent_Start flags) s r s' ->
  exists w m s1, runs h (running flags) s (w, m) s1 /\ runs h (rest flags w m) s1 r s'.
Proof.
  intros Hd Hr. unfold agent_Start in Hr. rewrite Hd, bind_ret in Hr.
  apply runs_bind_inv in Hr as (w & s1 & Hw & Hr). apply runs_bind_inv in Hr as (q & s2 & Hq & Hr).
  apply runs_bind_inv in Hq as (m & s3 & Hm & Hq). exists w, m, s3. split.
  - eapply runs_bind; [exact Hw|]. eapply runs_bind; [exact Hm|]. apply runs_ret.
  - eapply runs_bind; [|exact Hr]. by destruct m.
Qed.

Lemma writePIDFile_inv path s r s' : runs host_world (writePIDFile path) s r s' ->
  s' = match r with inr _ => with_files (<[path := pretty (ho_pid s)]> (ho_files s)) s | inl _ => s end.
Proof.
  intros Hr. unfold writePIDFile in Hr. apply runs_bind_inv in Hr as (m & s1 & Hm & Hr). apply runs_call_inv in Hm. cbn in Hm. subst s1.
  destruct m as [err|u]; [by apply runs_ret_inv in Hr as [-> ->]|].
  apply runs_bind_inv in Hr as (pid & s1 & Hp & Hr). apply runs_call_inv in Hp as [-> ->]. by apply runs_call_inv in Hr.
Qed.

Lemma agent_Stop_named name s r s' : name <> "" ->
  runs host_world (agent_Stop name) s r s' ->
  match ho_files s !! pidFilePath name with
  | None => (exists err, r = inl err) /\ s' = s
  | Some text => forall pid, Atoi (trim text) = Some pid ->
      r = inr tt /\ s' = {| ho_files := ho_files s; ho_pid := ho_pid s; ho_ended := ho_ended s ++ [pid] |}
  end.
Proof.
  intros Hn Hr. unfold agent_Stop in Hr. rewrite bool_decide_false in Hr by done. cbn [negb] in Hr.
  change (try_bind (Ret (inr name)) ?f) with (f name) in Hr.
  apply runs_bind_inv in Hr as (p & s1 & Hp & Hr). unfold read_pid in Hp.
  apply runs_bind_inv in Hp as (d & s2 & Hd & Hp). apply runs_call_inv in Hd as [Hd ->].
  destruct (ho_files s !! pidFilePath name) as [text|].
  - subst d. intros pid Ha. rewrite Ha in Hp. apply runs_ret_inv in Hp as [-> ->].
    apply runs_bind_inv in Hr as (fd & s3 & Hf & Hr). apply runs_call_inv in Hf as [-> ->].
    apply runs_bind_inv in Hr as (sent & s4 & Hs & Hr). apply runs_call_inv in Hs as [-> ->]. by apply runs_ret_inv in Hr.
  - destruct Hd as [err ->]. apply runs_ret_inv in Hp as [-> ->]. apply runs_ret_inv in Hr as [-> ->]. split; [by eexists|done].
Qed.

(** The file of an agent.  While an agent that could write its file runs, stopping the interface
    its flags name ends its process.  But if the flags name none, and no flag does, the file has
    no name: stopping without a name, which looks for the interface of the device, finds no
    agent.  And whatever becomes of an agent that is started, its file is gone when it ends:
    if another agent had written it before, that one is not found any more. *)
Theorem stop_finds_agent flags name s m s1 :
  0 < ho_pid s < 2 ^ 63 -> sf_EnableDaemon flags = false ->
  runs host_world (running flags) s (inr tt, m) s1 ->
  (forall r s2, name <> "" -> sf_InterfaceName flags = name -> runs host_world (agent_Stop name) s1 r s2 ->
     r = inr tt /\ ho_ended s2 = ho_ended s ++ [ho_pid s]) /\
  (forall r s2, sf_InterfaceName flags = "" -> ho_files s !! pidFilePath getInterfaceName = None ->
     runs host_world (agent_Stop "") s1 r s2 -> (exists err, r = inl err) /\ ho_ended s2 = ho_ended s) /\
  (forall r s2, runs host_world (agent_Start flags) s r s2 ->
     ho_files s2 !! pidFilePath (sf_InterfaceName flags) = None \/ ho_files s2 = ho_files s).
Proof.
  intros Hpid Hd Hr. unfold running in Hr.
  apply runs_bind_inv in Hr as (w & t1 & Hw & Hr). apply runs_bind_inv in Hr as (m' & t2 & Hm & Hr).
  apply runs_ret_inv in Hr as [[= <- <-] ->]. apply writePIDFile_inv in Hw. cbv beta iota in Hw.
  apply (runs_quiet _ _ _ _ (boot_quiet flags)) in Hm. subst t2 t1. split_and!.
  - intros r s2 Hn <- Hs. apply agent_Stop_named in Hs; [|done]. cbn [ho_files with_files] in Hs. rewrite lookup_insert_eq in Hs.
    destruct (Hs _ (Atoi_pid _ Hpid)) as [-> ->]. done.
  - intros r s2 Hn Hf Hs. rewrite Hn in Hs. unfold agent_Stop in Hs. rewrite bool_decide_true in Hs by done. cbn [negb] in Hs.
    assert (Hs' : runs host_world (agent_Stop getInterfaceName)
      (with_files (<[pidFilePath "" := pretty (ho_pid s)]> (ho_files s)) s) r s2).
    { apply runs_bind_inv in Hs as (x & s3 & Hx & Hs). apply runs_bind_inv in Hx as (l & s4 & Hl & Hx).
      apply runs_call_inv in Hl as [-> ->]. apply runs_ret_inv in Hx as [-> ->]. exact Hs. }
    apply agent_Stop_named in Hs'; [|done]. cbn [ho_files with_files] in Hs'. rewrite lookup_insert_ne, Hf in Hs' by done. by destruct Hs' as [? ->].
  - intros r s2 Hs. unfold agent_Start in Hs. rewrite Hd, bind_ret in Hs. unfold with_pid_file in Hs.
    apply runs_bind_inv in Hs as (w & t1 & Hw & Hs). apply writePIDFile_inv in Hw.
    apply runs_bind_inv in Hs as (q & t2 & Hq & Hs). apply (runs_quiet _ _ _ _ (run_agent_quiet flags)) in Hq. subst t2.
    apply runs_bind_inv in Hs as (u & t3 & Hu & Hs). apply runs_ret_inv in Hs as [_ ->].
    destruct w as [err|[]]; [right; by apply runs_ret_inv in Hu as [_ ->]; subst t1|].
    left. apply runs_call_inv in Hu. cbn in Hu. subst t3. apply lookup_delete_eq.
Qed.
End process.

(** *** The order of making a node *)

(** [MAnswered]: a request on the bus and the text that answered it, without an error. *)
Inductive milestone :=
| MInterface | MSocket | MBus | MAnswered (subject request answer : string) | MListens (subject : string) | MDevice.
Definition reached (s : list milestone) {A} (r : gresult A) (x : milestone) : list milestone :=
  match r with inr _ => s ++ [x] | inl _ => s end.
Definition bus_milestone T (e : natsE T) : T -> list milestone :=
  match e in natsE T return T -> list milestone with
  | NRequest subject data => λ r,
      match r with
      | inr msg => if bool_decide (nm_Error msg = "") then [MAnswered subject data (nm_Data msg)] else []
      | inl _ => []
      end
  | _ => λ _, []
  end.
Definition boot_world T (e : bootE T) (s : list milestone) : T -> list milestone -> Prop :=
  match e in bootE T return T -> list milestone -> Prop with
  | BCreateTUN _ => λ r s', s' = reached s r MInterface
  | BListenUDP _ _ => λ r s', s' = reached s r MSocket
  | BConnectNats _ _ => λ r s', s' = reached s r MBus
  | BSubscribe subject => λ r s', s' = reached s r (MListens subject)
  | BBus _ e => λ r s', s' = s ++ bus_milestone _ e r
  | BNewDevice _ => λ _ s', s' = s ++ [MDevice]
  | _ => λ _ s', s' = s
  end.

Section order.
Context `{ClientJSON} `{WireGuardKeys} `{NodeKeys}.

Lemma boot_world_translate {E : Type -> Type} {A} (f : forall T, E T -> bootE T) (p : prog E A) s a s' :
  (forall T e r s1 s2, boot_world T (f T e) s1 r s2 -> s2 = s1) -> runs boot_world (translate f p) s a s' -> s' = s.
Proof.
  intros Hf. revert s. induction p as [x| |T e k IH]; intros s Hr; cbn in Hr.
  - by apply runs_ret_inv in Hr as [_ ->].
  - inversion Hr.
  - apply runs_vis_inv in Hr as (r & s1 & Hh & Hr). apply Hf in Hh as ->. by eapply IH.
Qed.

Lemma phase1_inv cfg s r s' : runs boot_world (phase1 cfg) s r s' ->
  match r with
  | inr name => name = getInterfaceName /\ s' = s ++ [MInterface; MSocket; MSocket; MBus]
  | inl _ => exists n, (n <= 3)%nat /\ s' = s ++ take n [MInterface; MSocket; MSocket; MBus]
  end.
Proof.
  unfold phase1, CreateTUN, ListenUDP. intros Hr.
  apply runs_bind_inv in Hr as (name & s1 & Hn & Hr). apply runs_bind_inv in Hn as (t & s2 & Ht & Hn).
  apply runs_call_inv in Ht. cbn in Ht. subst s2. destruct t as [err|u]; apply runs_ret_inv in Hn as [-> ->];
    [apply runs_ret_inv in Hr as [-> ->]; exists 0%nat; rewrite app_nil_r; split; [lia|done]|].
  apply runs_bind_inv in Hr as (v4 & s2 & Hv & Hr). apply runs_call_inv in Hv. cbn in Hv. subst s2.
  destruct v4 as [err|v4]; [apply runs_ret_inv in Hr as [-> ->]; by exists 1%nat; split; [lia|]|].
  apply runs_bind_inv in Hr as (v6 & s2 & Hv & Hr). apply runs_call_inv in Hv. cbn in Hv. subst s2.
  destruct v6 as [err|v6]; [apply runs_ret_inv in Hr as [-> ->]; exists 2%nat; split; [lia|]; by rewrite <- app_assoc|].
  apply runs_bind_inv in Hr as (b & s2 & Hb & Hr). apply runs_call_inv in Hb. cbn in Hb. subst s2.
  destruct b as [err|b]; apply runs_ret_inv in Hr as [-> ->]; cbn [reached]; rewrite <- !app_assoc; [|done].
  exists 3%nat. by split; [lia|].
Qed.

(** The request that enrolls. *)
Definition enrolled (cfg : NodeConfig) (name text : string) : milestone :=
  MAnswered "lattice.signals.peer.register" (encode_dto (dto_of (nc_AppId cfg) name (nc_Platform cfg) (nc_Token cfg))) text.

Lemma request_loop_milestones subject data n i last s r s' :
  runs boot_world (translate BBus (request_loop subject data n i last)) s r s' ->
  s' = s ++ match r with
            | inr msg => if bool_decide (nm_Error msg = "") then [MAnswered subject data (nm_Data msg)] else []
            | inl _ => []
            end.
Proof.
  revert i last s. induction n as [|n IH]; intros i last s Hr; cbn in Hr.
  { apply runs_ret_inv in Hr as [-> ->]. by rewrite app_nil_r. }
  apply runs_vis_inv in Hr as (a & s1 & Ha & Hr). cbn in Ha. subst s1. destruct a as [[|err]|msg]; cbn in Hr.
  - apply runs_vis_inv in Hr as (w & s1 & Hw & Hr). cbn in Hw. rewrite !app_nil_r in Hw. subst s1.
    destruct w as [err|]; [apply runs_ret_inv in Hr as [-> ->]; by rewrite app_nil_r|by apply IH in Hr].
  - by apply runs_ret_inv in Hr as [-> ->].
  - by apply runs_ret_inv in Hr as [-> ->].
Qed.

Lemma runs_translate_bind {E : Type -> Type} {A B} (f : forall T, E T -> bootE T) (p : prog E A) (k : A -> prog E B) s b s' :
  runs boot_world (translate f (p ≫= k)) s b s' ->
  exists a s1, runs boot_world (translate f p) s a s1 /\ runs boot_world (translate f (k a)) s1 b s'.
Proof.
  revert s. induction p as [a| |T e c IH]; intros s Hr; cbn in Hr.
  - exists a, s. split; [apply runs_ret|done].
  - inversion Hr.
  - apply runs_vis_inv in Hr as (r & s1 & Hh & Hr). apply IH in Hr as (a & s2 & Hp & Hk).
    exists a, s2. split; [by eapply runs_vis|done].
Qed.

Lemma register_milestones cfg host name s r s' :
  runs boot_world (translate BBus (agent_Register (nc_AppId cfg) (nc_Platform cfg) host (nc_Token cfg) name)) s r s' ->
  match r with
  | inr p => exists text, decode_answer text = inr p /\ s' = s ++ [enrolled cfg name text]
  | inl _ => s' = s \/ exists text, s' = s ++ [enrolled cfg name text]
  end.
Proof.
  unfold agent_Register. intros Hr. case_bool_decide; [apply runs_ret_inv in Hr as [-> ->]; by left|].
  destruct host as [err|h]; [apply runs_ret_inv in Hr as [-> ->]; by left|].
  apply runs_translate_bind in Hr as (data & s1 & Hd & Hr). unfold Request in Hd.
  apply runs_translate_bind in Hd as (b & s2 & Hb & Hd). apply runs_call_inv in Hb. cbn in Hb. rewrite app_nil_r in Hb. subst s2.
  assert (Hs1 : s1 = s ++ match data with inr text => [enrolled cfg name text] | inl _ => [] end).
  { destruct b; cbn [negb] in Hd; [|apply runs_ret_inv in Hd as [-> ->]; by rewrite app_nil_r].
    apply runs_translate_bind in Hd as (a & s2 & Ha & Hd). apply request_loop_milestones in Ha as ->.
    destruct a as [err|msg]; [by apply runs_ret_inv in Hd as [-> ->]|].
    case_bool_decide; by apply runs_ret_inv in Hd as [-> ->]. }
  subst s1. destruct data as [err|text]; apply runs_ret_inv in Hr as [-> ->].
  - left. by rewrite app_nil_r.
  - destruct (decode_answer text) as [err|p] eqn:E; [right; by exists text|]. by exists text.
Qed.

Lemma phase2_inv cfg name s r s' : runs boot_world (phase2 cfg name) s r s' ->
  match r with
  | inr pi => exists text, decode_answer text = inr pi.1 /\ s' = s ++ [enrolled cfg name text; MListens (own_subject pi.2)] /\
      exists private, ParseKey (ip_PrivateKey pi.1) = Some private /\ pi.2 = NewPeerIdentity (ip_AppID pi.1) (public_key private)
  | inl _ => s' = s \/ exists text, s' = s ++ [enrolled cfg name text]
  end.
Proof.
  unfold phase2. intros Hr.
  apply runs_bind_inv in Hr as (host & s1 & Hh & Hr). apply runs_call_inv in Hh. cbn in Hh. subst s1.
  apply runs_bind_inv in Hr as (p & s1 & Hp & Hr). apply register_milestones in Hp.
  destruct p as [err|p]; [by apply runs_ret_inv in Hr as [-> ->]|]. destruct Hp as (text & Ht & ->).
  destruct (ParseKey (ip_PrivateKey p)) as [private|] eqn:Ek; [|apply runs_ret_inv in Hr as [-> ->]; right; by exists text].
  apply runs_bind_inv in Hr as (sub & s1 & Hs & Hr). apply runs_call_inv in Hs. cbn in Hs. subst s1.
  destruct sub as [err|u]; apply runs_ret_inv in Hr as [-> ->]; [right; by exists text|].
  exists text. split; [done|]. cbn [reached]. rewrite <- app_assoc. split; [done|]. by exists private.
Qed.

(** C25. A node is made in order: it takes its interface, its two sockets and the bus; its
    request to enroll, with its own name, platform and token, is answered, and it is what the
    answer says; it listens for its own identity; and only then it has a device. What fails, at
    whatever step, leaves it without one. A node that was made listens on one subject, on which
    every configuration that is pushed for its public key arrives, provided that the two keys of
    the answer belong together. *)
Theorem NewNode_order `{ConfigJSON} cfg r s' :
  runs boot_world (NewNode cfg) [] r s' ->
  match r with
  | inl _ => exists n text subject, (n <= 6)%nat /\
      s' = take n [MInterface; MSocket; MSocket; MBus; enrolled cfg getInterfaceName text; MListens subject; MDevice]
  | inr m => exists text, decode_answer text = inr (md_current m) /\
      s' = [MInterface; MSocket; MSocket; MBus; enrolled cfg getInterfaceName text;
            MListens (peer_subject (PeerIdentity_ID (md_id m))); MDevice] /\
      ((forall private, ParseKey (ip_PrivateKey (md_current m)) = Some private ->
          ParseKey (ip_PublicKey (md_current m)) = Some (public_key private)) ->
       forall cm peer msg id, config_of cm = Some (peer, msg, id) -> ip_PublicKey peer = ip_PublicKey (md_current m) ->
         MListens (peer_subject id) ∈ s')
  end.
Proof.
  intros Hr. unfold NewNode in Hr.
  apply runs_bind_inv in Hr as (name & s1 & Hp1 & Hr). apply phase1_inv in Hp1. rewrite app_nil_l in Hp1.
  destruct name as [err|name].
  { destruct Hp1 as (n & Hn & ->). apply runs_ret_inv in Hr as [-> ->]. exists n, "", "". split; [lia|].
    rewrite (take_app_le [MInterface; MSocket; MSocket; MBus] [enrolled cfg getInterfaceName ""; MListens ""; MDevice])
      by (cbn; lia). done. }
  destruct Hp1 as [-> ->]. apply runs_bind_inv in Hr as (pi & s1 & Hp2 & Hr). apply phase2_inv in Hp2.
  destruct pi as [err|[p id]].
  { apply runs_ret_inv in Hr as [-> ->]. destruct Hp2 as [->|[text ->]].
    - by exists 4%nat, "", ""; split; [lia|].
    - by exists 5%nat, text, ""; split; [lia|]. }
  destruct Hp2 as (text & Ht & -> & private & Ek & Eid). cbn [fst snd] in *.
  apply runs_bind_inv in Hr as (relay & s1 & Hp3 & Hr). apply boot_world_translate in Hp3 as ->; [|done].
  destruct relay as [err|relay]; [apply runs_ret_inv in Hr as [-> ->]; by exists 6%nat, text, (own_subject id); split; [lia|]|].
  apply runs_bind_inv in Hr as (u & s1 & Hp4 & Hr). apply runs_call_inv in Hp4. cbn in Hp4. subst s1.
  apply runs_ret_inv in Hr as [-> ->]. cbn [md_id md_current]. exists text. split; [done|]. split; [done|].
  intros Hkey cm peer msg pid Hcm Epub. unfold config_of in Hcm.
  destruct (decode_message _) as [err|[msg'|]]; try done. destruct (m_Current msg') as [cur|]; [|done]. cbn in Hcm.
  destruct (ParseKey (ip_PublicKey cur)) as [key|] eqn:Ec; [|done]. cbn in Hcm. injection Hcm as -> _ <-.
  rewrite Epub, (Hkey _ Ek) in Ec. injection Ec as <-. subst id.
  do 5 right. left.
Qed.
End order.

(** *** The relay of an agent *)

Definition relay_of (c : Config.Config) : RelayFlags := {|
  rf_EnableWrrp := Config.cf_EnableWrrp c; rf_RelayQuicURL := Config.cf_RelayQuicURL c; rf_RelayURL := Config.cf_RelayURL c |}.

(** The address of the relay that enrolling gives is used by no agent, unless its flags, variables
    or files set the address to nothing: the default is not empty. *)
Lemma registered_relay_unused `{Config.ViperLaws} `{Config.WeakDecode} env home writable fs s r s' url :
  (forall t, Config.weak_string (Config.VString t) = inr t) ->
  runs (Config.file_world home writable) (Config.load env fs Config.viper_New Config.zero_config) s r s' -> r.1 = inr tt ->
  Config.source env fs (default ∅ (s !! Config.base_path env home fs)) (default ∅ (s !! Config.overlay_path env home fs))
    "relay-url" = Some (Config.VString url) -> url <> "" ->
  forall registered registered' id, node_relay (relay_of r.2.2) registered id = node_relay (relay_of r.2.2) registered' id.
Proof.
  intros Hw Hr Hok Hsrc Hurl registered registered' id.
  apply Config.load_inv in Hr as (v & s1 & Hl & _ & _ & _ & _ & _ & Hc); [|apply Config.of_New].
  destruct (Hc Hok) as [Hcfg _].
  assert (Hk : Config.cf_RelayURL r.2.2 = url).
  { rewrite Hcfg. assert (Hm : Config.AllSettings env v !! "relay-url" = Some (Config.VString url)).
    { rewrite Hl, Hsrc, !Config.lookup_union_or.
      assert (Hd : Config.default_layer !! "relay-url" = Some (Config.VString ":6266")) by (vm_compute; reflexivity).
      rewrite Hd. by destruct (Config.flags_that true fs !! "relay-url"),
        (default ∅ (s !! Config.overlay_path env home fs) !! "relay-url"),
        (default ∅ (s !! Config.base_path env home fs) !! "relay-url"). }
    unfold Config.finish. case_bool_decide; cbn; unfold Config.field; by rewrite Hm, Hw. }
  unfold node_relay, relay_of. cbn [rf_EnableWrrp rf_RelayQuicURL rf_RelayURL]. rewrite Hk, !(bool_decide_false (url = "")) by done.
  done.
Qed.

(** *** A laptop starts *)

Definition seven_node : NodeKeys := {| public_key := λ k, k |}.
Definition laptop_flags (iface : string) : StartFlags := {|
  sf_Level := "info"; sf_EnableDaemon := false; sf_InterfaceName := iface; sf_EnableDNS := false; sf_EnableMetric := false;
  sf_VMEndpoint := ""; sf_Node := {| nc_Port := 51820; nc_Token := "T"; nc_AppId := "laptop"; nc_Platform := "linux";
    nc_SignalingURL := "nats://h:4222"; nc_Relay := {| rf_EnableWrrp := false; rf_RelayQuicURL := ""; rf_RelayURL := "" |} |} |}.

Definition accepting_device T (e : deviceE T) : T :=
  match e in deviceE T return T with
  | DUp | DIpcSet _ | DIpcSetOperation _ | DWrrpClose | DNatsClose => inr tt
  | DIpcGet => inr ""
  | DRemoveAllPeers | DClose => tt
  | DGetNetworkMap => inr sample_message
  | DAgent _ e => match e in agentE T return T with
                  | GApplyIP _ _ _ | GRemovePeer _ | GProvision _ | GProbeStart _ => inr tt
                  | GRemoveAllPeers | GProbeClose _ => tt
                  end
  end.
Definition accepting_boot T (e : bootE T) : T :=
  match e in bootE T return T with
  | BGetenv _ => "" | BGetpid => 0 | BExit | BNewDevice _ | BGo _ | BRemove _ => tt
  | BMkdirAll _ | BWriteFile _ _ | BFindProcess _ | BTerminate _ | BOpenLog _ | BStartProcess _ _ _ | BCreateTUN _
  | BConnectNats _ _ | BSubscribe _ | BUAPIOpen _ | BUAPIListen _ | BWait => inr tt
  | BReadFile _ => inl (ErrText "no such file") | BDevices => inr ["wf0"] | BExecutable => inr "lattice"
  | BArgs | BEnviron => [] | BListenUDP _ _ => inr (Some 3) | BHostname => inr "host"
  | BBus _ e => match e in natsE T return T with
                | NConnected => true | NRequest _ _ => inr (service_reply (inr "peer")) | NWait _ => None
                end
  | BLink _ e => match e in linkE T return T with
                 | LDial _ | LReadResponse _ | LDialQUIC _ | LStream _ => inl (ErrText "refused")
                 | LSendRequest _ _ | LWrite _ _ => inr tt | LClose _ | LCloseQUIC _ _ => tt
                 end
  | BDevice _ e => accepting_device _ e
  end.

Definition host_handler T (e : bootE T) (s : host) : T * host :=
  match e in bootE T return T * host with
  | BWriteFile p t => (inr tt, with_files (<[p := t]> (ho_files s)) s)
  | BReadFile p => (match ho_files s !! p with Some t => inr t | None => inl (ErrText "no such file") end, s)
  | BRemove p => (tt, with_files (delete p (ho_files s)) s)
  | BGetpid => (ho_pid s, s)
  | BTerminate pid => (inr tt, {| ho_files := ho_files s; ho_pid := ho_pid s; ho_ended := ho_ended s ++ [pid] |})
  | e => (accepting_boot _ e, s)
  end.
Lemma host_handler_world T e s r s' : fun_world host_handler T e s r s' -> host_world T e s r s'.
Proof.
  unfold fun_world. destruct e; cbn; intros E; simplify_eq; try done. by destruct (ho_files s' !! path); [|split; [eexists|]].
Qed.

Definition new_host : host := {| ho_files := ∅; ho_pid := 4711; ho_ended := [] |}.
Abbreviation laptop_running iface := (@running laptop_json seven_keys seven_node (laptop_flags iface)).
Definition running_host : host := Eval vm_compute in (run host_handler (laptop_running "wf0") new_host).2.

(** Process 4711 is told to end. *)
Lemma stop_finds_agent_witness :
  exists s2, runs host_world (agent_Stop "wf0") running_host (inr tt) s2 /\ ho_ended s2 = [4711].
Proof.
  assert (Hr : exists m, runs host_world (laptop_running "wf0") new_host (inr tt, m) running_host).
  { eexists. eapply runs_weaken; [apply host_handler_world|].
    apply (run_runs host_handler (laptop_running "wf0") new_host). vm_compute. reflexivity. }
  destruct Hr as [m Hr].
  pose (s2 := (run host_handler (agent_Stop "wf0") running_host).2).
  assert (Hs : runs host_world (agent_Stop "wf0") running_host (inr tt) s2).
  { eapply runs_weaken; [apply host_handler_world|]. apply run_runs. vm_compute. reflexivity. }
  exists s2. split; [exact Hs|].
  destruct (@stop_finds_agent laptop_json seven_keys seven_node (laptop_flags "wf0") "wf0" new_host m running_host) as (Hn & _ & _);
    [cbn; lia|reflexivity|exact Hr|].
  apply (Hn (inr tt) s2); [discriminate|reflexivity|exact Hs].
Defined.

Definition boot_handler T (e : bootE T) (s : list milestone) : T * list milestone :=
  match e in bootE T return T * list milestone with
  | BCreateTUN _ => (inr tt, s ++ [MInterface])
  | BListenUDP _ _ => (inr (Some 3), s ++ [MSocket])
  | BConnectNats _ _ => (inr tt, s ++ [MBus])
  | BSubscribe subject => (inr tt, s ++ [MListens subject])
  | BNewDevice _ => (tt, s ++ [MDevice])
  | BBus _ e => (accepting_boot _ (BBus _ e), s ++ bus_milestone _ e (accepting_boot _ (BBus _ e)))
  | e => (accepting_boot _ e, s)
  end.
Lemma boot_handler_world T e s r s' : fun_world boot_handler T e s r s' -> boot_world T e s r s'.
Proof. unfold fun_world. destruct e; cbn; intros E; by simplify_eq. Qed.

Definition laptop_subject : string := Eval vm_compute in peer_subject (FromKey (replicate 32 7)).
Definition laptop_start : list milestone := [MInterface; MSocket; MSocket; MBus;
  MAnswered "lattice.signals.peer.register" "dto" "peer"; MListens laptop_subject; MDevice].
Lemma NewNode_order_witness :
  exists m, runs boot_world (@NewNode laptop_json seven_keys seven_node (sf_Node (laptop_flags "wf0"))) [] (inr m) laptop_start /\
  @config_of seven_keys one_config pushed_config = Some (pushed_peer, pushed_message, FromKey (replicate 32 7)) /\
  MListens (peer_subject (FromKey (replicate 32 7))) ∈ laptop_start.
Proof.
  pose (p := @NewNode laptop_json seven_keys seven_node (sf_Node (laptop_flags "wf0"))).
  assert (Hr : exists m, runs boot_world p [] (inr m) laptop_start /\ md_current m = laptop_peer).
  { eexists. split.
    - eapply runs_weaken; [apply boot_handler_world|].
      apply (run_runs boot_handler p []). vm_compute. reflexivity.
    - vm_compute. reflexivity. }
  destruct Hr as (m & Hr & Hcur). exists m. split; [exact Hr|].
  assert (Hc : @config_of seven_keys one_config pushed_config = Some (pushed_peer, pushed_message, FromKey (replicate 32 7)))
    by (vm_compute; reflexivity).
  split; [exact Hc|].
  destruct (@NewNode_order laptop_json seven_keys seven_node one_config _ _ _ Hr) as (text & _ & _ & Hp).
  rewrite Hcur in Hp. apply (Hp (λ private Ek, Ek) pushed_config pushed_peer pushed_message); [exact Hc|reflexivity].
Defined.
