(* ===== verification/Server.v ===== *)
(** * Server: how the management server starts, and what it offers to whom
    ([internal/server/server/server.go], [api.go] and the routers beside it,
    [middleware/cors.go], [internal/server/run.go], [internal/db/db.go],
    [internal/monitor/monitor.go], [internal/web])

    Only the database is needed to start: the message bus, Kubernetes, the assistant, the
    monitor and the identity provider are left out when they fail.  The table of routes says
    which middleware guards which handler; the table of subjects, which handlers the message
    bus reaches. *)

From S2P Require Import Prelude Prog Net Api Store Access Invitations AuditTrail Workspaces.
From S2P Require Llm Config.

(** ** Routes *)

(** A middleware of a route.  [GAuth revocable]: whether it was given the list of revoked
    tokens. *)
Inductive guard := GAuth (revocable : bool) | GWorkspace (role : string) | GPlatform.
(** The handler by its name in the source. *)
Record route := { rt_method : string; rt_path : string; rt_guards : list guard; rt_handler : string }.
#[export] Instance guard_eq_dec : EqDecision guard.
Proof. solve_decision. Defined.
#[export] Instance route_eq_dec : EqDecision route.
Proof. solve_decision. Defined.

Definition on (method path : string) (guards : list guard) (handler : string) : route :=
  {| rt_method := method; rt_path := path; rt_guards := guards; rt_handler := handler |}.
(** The path and the middleware of a group go before those of its routes. *)
Definition group (path : string) (guards : list guard) (l : list route) : list route :=
  (λ r, on (rt_method r) (path +:+ rt_path r) (guards ++ rt_guards r) (rt_handler r)) <$> l.

Definition userRouter : list route :=
  group "/api/v1/auth" [] [on "POST" "/logout" [GAuth true] "logout"] ++
  group "/api/v1/users" [] [
    on "POST" "/register" [] "RegisterUser"; on "POST" "/login" [] "login"; on "GET" "/getme" [GAuth true] "getMe";
    on "GET" "/list" [GAuth true] "listUser"; on "POST" "/add" [GAuth true] "handleAddUser";
    on "DELETE" "/:name" [GAuth true] "handleDeleteUser";
    on "PATCH" "/:id/system-role" [GAuth true] "handleUpdateSystemRole";
    on "GET" "/:id/workspaces" [GAuth true] "handleGetUserWorkspaces"].
Definition workspaceRouter : list route :=
  group "/api/v1/workspaces" [GAuth true] [
    on "POST" "/add" [] "handleAddWs"; on "GET" "/list" [] "handleListWs";
    on "PUT" "/:id" [GWorkspace RoleAdmin] "handleUpdateWs"; on "DELETE" "/:id" [GWorkspace RoleAdmin] "handleDeleteWs"].
Definition relayRouter : list route :=
  group "/api/v1/settings/relays" [GWorkspace RoleViewer] [
    on "GET" "" [] "listRelays"; on "POST" "" [] "createRelay"; on "PUT" "/:id" [] "updateRelay";
    on "DELETE" "/:id" [] "deleteRelay"; on "POST" "/:id/test" [] "testRelay"].
Definition memberRouter : list route :=
  group "/api/v1/workspaces/:id/members" [] [
    on "GET" "" [GWorkspace RoleAdmin] "handleListMembers"; on "POST" "/:userID" [GWorkspace RoleAdmin] "handleAddMember";
    on "PUT" "/:userID" [GWorkspace RoleAdmin] "handleUpdateMemberRole";
    on "DELETE" "/:userID" [GWorkspace RoleViewer] "handleRemoveMember"].
Definition invitationRouter : list route :=
  group "/api/v1/workspaces/:id/invitations" [] [
    on "POST" "" [GWorkspace RoleAdmin] "handleCreateInvitation"; on "GET" "" [GWorkspace RoleAdmin] "handleListInvitations";
    on "DELETE" "/:invID" [GWorkspace RoleAdmin] "handleRevokeInvitation"] ++
  group "/api/v1/invite" [] [
    on "GET" "/:token" [] "handlePreviewInvitation"; on "POST" "/:token/register" [] "handleRegisterAndAccept";
    on "POST" "/:token/accept" [GAuth true] "handleAcceptInvitation"].
(** The professional edition, and the free one, whose routes only say what they would cost. *)
Definition monitorRouter (pro : bool) : list route :=
  if pro then group "/api/v1/monitor" [GAuth true] [
    on "GET" "/topology" [] "topology"; on "GET" "/ws-snapshot" [GWorkspace RoleViewer] "workspaceSnapshot"]
  else group "/api/v1/monitor" [] [on "GET" "/topology" [] "proOnly"; on "GET" "/ws-snapshot" [] "proOnly"].
Definition alertRouter : list route :=
  group "/api/v1/alerts" [GWorkspace RoleViewer] [
    on "GET" "/rules" [] "listAlertRules"; on "GET" "/rules/:id" [] "getAlertRule"; on "POST" "/rules" [] "createAlertRule";
    on "PUT" "/rules/:id" [] "updateAlertRule"; on "DELETE" "/rules/:id" [] "deleteAlertRule";
    on "GET" "/history" [] "listAlertHistory"; on "GET" "/channels" [] "listAlertChannels";
    on "POST" "/channels" [] "createAlertChannel"; on "PUT" "/channels/:id" [] "updateAlertChannel";
    on "DELETE" "/channels/:id" [] "deleteAlertChannel"; on "GET" "/silences" [] "listAlertSilences";
    on "POST" "/silences" [] "createAlertSilence"; on "DELETE" "/silences/:id" [] "deleteAlertSilence"].
Definition customMetricRouter : list route :=
  group "/api/v1/metrics/custom" [GWorkspace RoleViewer] [
    on "GET" "" [] "listCustomMetrics"; on "POST" "" [] "createCustomMetric"; on "PUT" "/:id" [] "updateCustomMetric";
    on "DELETE" "/:id" [] "deleteCustomMetric"].
Definition profileRouter : list route :=
  group "/api/v1/profile" [] [
    on "POST" "/getProfile" [GAuth false] "getProfile"; on "PUT" "/updateProfile" [GAuth false] "updateProfile"].
Definition dashboardRouter (pro : bool) : list route :=
  if pro then
    group "/api/v1/dashboard" [GPlatform] [on "GET" "/overview" [] "dashboardOverview"] ++
    group "/api/v1/workspaces/:id/dashboard" [GWorkspace RoleViewer] [on "GET" "" [] "workspaceDashboard"]
  else [on "GET" "/api/v1/dashboard/overview" [] "proOnly"].
Definition auditRouter : list route :=
  group "/api/v1/workspaces/:id/audit-logs" [GWorkspace RoleViewer] [on "GET" "" [] "handleListAuditLogs"] ++
  group "/api/v1/audit-logs" [GPlatform] [on "GET" "" [] "handleListAuditLogs"].
Definition workflow_routes : list route := [
  on "GET" "/:reqId" [] "handleGetWorkflowRequest"; on "POST" "/:reqId/approve" [] "handleApproveWorkflowRequest";
  on "POST" "/:reqId/reject" [] "handleRejectWorkflowRequest"].
Definition workflowRouter : list route :=
  group "/api/v1/workspaces/:id/workflow-requests" [GWorkspace RoleViewer] ([
    on "GET" "" [] "handleListWorkflowRequests"; on "POST" "" [] "handleSubmitWorkflowRequest"] ++ workflow_routes) ++
  group "/api/v1/workflow-requests" [GPlatform] (on "GET" "" [] "handleListWorkflowRequests" :: workflow_routes).
Definition peeringRouter : list route :=
  group "/api/v1/peering" [GWorkspace RoleViewer] [
    on "GET" "/list" [] "listPeerings"; on "POST" "" [] "createPeering"; on "DELETE" "/:name" [] "deletePeering";
    on "GET" "/gateway-info" [] "gatewayInfo"].
(** Without an assistant the routes are there, with handlers that say so. *)
Definition aiRouter (ai : bool) : list route :=
  group "/api/v1/ai" [GAuth false] [
    on "POST" "/chat" [] (if ai then "handleAIChat" else "aiNotConfigured");
    on "GET" "/audit" [] (if ai then "handleAIAudit" else "aiNotConfigured")].

(** What became of the identity provider. *)
Inductive dexState := DexReady | DexFailed | DexDisabled.
#[export] Instance dexState_eq_dec : EqDecision dexState.
Proof. solve_decision. Defined.
Definition dex_handler (dex : dexState) : string :=
  match dex with DexReady => "Dex.Login" | DexFailed => "dexNotAvailable" | DexDisabled => "dexNotConfigured" end.

Definition apiRouter (pro : bool) (dex : dexState) (ai : bool) : list route :=
  [on "GET" "/auth/callback" [] (dex_handler dex); on "GET" "/metrics" [] "promhttp"] ++
  group "/api/v1" [] (group "" [GWorkspace RoleViewer] [
    on "POST" "/networks" [] "CreateNetwork"; on "GET" "/networks" [] "ListNetworks";
    on "GET" "/networks/peers" [] "GetPeers"]) ++
  group "/api/v1/token" [GWorkspace RoleViewer] [
    on "POST" "/generate" [] "generateToken"; on "DELETE" "/:token" [] "rmToken"; on "GET" "/list" [] "listTokens"] ++
  group "/api/v1/peers" [GWorkspace RoleViewer] [
    on "GET" "/list" [] "listPeers"; on "PUT" "/update" [] "updatePeer"; on "PUT" "/:name/disable" [] "disablePeer";
    on "PUT" "/:name/enable" [] "enablePeer"; on "DELETE" "/:name" [] "deletePeerHandler"] ++
  group "/api/v1/policies" [GWorkspace RoleViewer] [
    on "GET" "/list" [] "listPolicies"; on "PUT" "/update" [] "createOrUpdatePolicy";
    on "POST" "/create" [] "createOrUpdatePolicy"; on "DELETE" "/:name" [] "deletePolicy"] ++
  userRouter ++ workspaceRouter ++ relayRouter ++ memberRouter ++ invitationRouter ++ monitorRouter pro ++ alertRouter ++
  customMetricRouter ++ profileRouter ++ dashboardRouter pro ++ auditRouter ++ workflowRouter ++ peeringRouter ++ aiRouter ai.

(** ** The router of gin *)

Definition is_param (seg : string) : bool := has_prefix ":" seg.
(** The segments of a pattern against those of a path, and the values of the parameters.  A
    parameter at the end of the pattern is not empty. *)
Fixpoint segments_match (pattern path : list string) (param : string -> string) : bool :=
  match pattern, path with
  | [], [] => true
  | p :: pattern, s :: path =>
      (if is_param p then (negb (bool_decide (s = "")) || negb (bool_decide (pattern = []))) && bool_decide (param (str_drop 1 p) = s)
       else bool_decide (p = s)) &&
      segments_match pattern path param
  | _, _ => false
  end.

(** Two routes of a method cannot be added when their paths are the same, or when after a
    common beginning both have a parameter, under different names. *)
Fixpoint paths_conflict (p q : list string) : bool :=
  match p, q with
  | [], [] => true
  | x :: p, y :: q =>
      if bool_decide (x = y) then paths_conflict p q else is_param x && is_param y
  | _, _ => false
  end.
Definition conflict (r r' : route) : bool :=
  bool_decide (rt_method r = rt_method r') && paths_conflict (split_slash (rt_path r)) (split_slash (rt_path r')).
Fixpoint no_conflicts (l : list route) : bool :=
  match l with [] => true | r :: l => negb (existsb (conflict r) l) && no_conflicts l end.

(** [add_routes]: adding routes panics when they conflict.  [find_route]: of a method and a
    path, with the parameters of the path. *)
Class GinRouter := {
  engine : Type;
  add_routes : list route -> option engine;
  find_route : engine -> string -> string -> option (route * (string -> string));
  add_ok l : no_conflicts l = true -> is_Some (add_routes l);
  find_ok l e method path r param :
    add_routes l = Some e -> find_route e method path = Some (r, param) ->
    r ∈ l /\ rt_method r = method /\ segments_match (split_slash (rt_path r)) (split_slash path) param = true;
}.

(** ** Requests *)

(** A request: its method and path, and the two headers that the middleware read. *)
Record HttpCall := { ht_Method : string; ht_Path : string; ht_Authorization : string; ht_WorkspaceId : string }.
Definition request_of (c : HttpCall) (param : string -> string) : HttpRequest :=
  {| rq_Authorization := ht_Authorization c; rq_WorkspaceId := ht_WorkspaceId c; rq_Param := param |}.

(** What becomes of a request: the answer to a preflight, the web front end, the answer of a
    middleware, or the handler of a route that runs with a context. *)
Inductive served :=
| Preflight
| FrontEnd (path : string)
| Answered (r : Reply)
| Handled (r : route) (rq : HttpRequest) (c : Ctx).

Section serving.
Context `{GinRouter} `{JwtLibrary} (env : string) (revoked : RevocationList).

Definition guard_middleware (g : guard) : middleware :=
  match g with
  | GAuth revocable => AuthMiddleware env (if revocable then Some revoked else None)
  | GWorkspace role => WorkspaceAuthMiddleware env (Some revoked) role
  | GPlatform => PlatformAdminOnly
  end.
Fixpoint run_guards (gs : list guard) (rq : HttpRequest) (c : Ctx) : sprog (Reply + Ctx) :=
  match gs with
  | [] => Ret (inr c)
  | g :: gs => r ← guard_middleware g rq c; match r with inl reply => Ret (inl reply) | inr c => run_guards gs rq c end
  end.

(** [CORSMiddleware] answers every preflight. *)
Definition CORSMiddleware (method : string) : option Z := if bool_decide (method = "OPTIONS") then Some 204 else None.

(** A request until its handler; the audit middleware, which writes down what became of it, is
    in AuditTrail. *)
Definition ServeHTTP (e : engine) (call : HttpCall) : sprog served :=
  match CORSMiddleware (ht_Method call) with
  | Some _ => Ret Preflight
  | None =>
      match find_route e (ht_Method call) (ht_Path call) with
      | None => Ret (FrontEnd (ht_Path call))
      | Some (r, param) =>
          g ← run_guards (rt_guards r) (request_of call param) empty_ctx;
          Ret match g with inl reply => Answered reply | inr c => Handled r (request_of call param) c end
      end
  end.
End serving.

(** ** The web front end ([RegisterHandlers]) *)

(** The answer: a status and, when it is 200, the file that is sent. *)
Record Asset := { as_Code : Z; as_File : string; as_Type : string }.
(** Files by their paths; a directory can be opened, but not read. *)
Definition dir_exists (files : gmap string string) (path : string) : bool :=
  bool_decide (path = ".") || existsb (λ kv, has_prefix (path +:+ "/") kv.1) (map_to_list files).
Definition asset_path (files : gmap string string) (url : string) : string :=
  let file := trim_prefix url "/" in
  let file := if bool_decide (file = "") then "index.html" else file in
  if bool_decide (is_Some (files !! file)) || dir_exists files file then file else "index.html".
(** [mime]: the type by the extension, if there is one for it. *)
Definition front_end (mime : string -> string) (files : gmap string string) (url : string) : Asset :=
  if has_prefix "/api" url then {| as_Code := 404; as_File := ""; as_Type := "application/json" |}
  else
    let file := asset_path files url in
    match files !! file with
    | None => {| as_Code := 500; as_File := ""; as_Type := "" |}
    | Some _ => {| as_Code := 200; as_File := file; as_Type := Llm.default_to (mime file) "text/html; charset=utf-8" |}
    end.

(** ** Starting *)

(** What the start asks for.  [VInformer]: the informer of the config maps and its handlers.
    [VNewProvider]: the keys of the identity provider.  [VWaitReady]: until the cache of
    Kubernetes is filled, or the process is told to end.  [VStartManager] and [VWaitEnd] last
    until then; [VListen] serves HTTP. *)
Inductive setupE : Type -> Type :=
| VConnectNats (clientID role url : string) : setupE (gresult unit)
| VNewManager : setupE (gresult unit)
| VInformer : setupE (gresult unit)
| VAddRunnable : setupE unit
| VOpen (driver dsn : string) : setupE (gresult unit)
| VSleep (seconds : Z) : setupE unit
| VMigrate : setupE (gresult unit)
| VTemplates : setupE (gresult unit)
| VNewAdapter (address : string) : setupE (gresult unit)
| VNewProvider (url : string) : setupE (gresult unit)
| VGo (what : string) : setupE unit
| VSrv (T : Type) (e : srvE T) : setupE T
| VService (subject queue handler : string) : setupE (gresult unit)
| VFlush : setupE (gresult unit)
| VStartManager : setupE (gresult unit)
| VWaitEnd : setupE unit
| VWaitReady : setupE bool
| VListen (address : string) : setupE (gresult unit).
Abbreviation vprog := (prog setupE).

Fixpoint openWithRetry (n : nat) (driver dsn : string) (last : gerror) : vprog (gresult unit) :=
  match n with
  | O => Ret (inl last)
  | S n =>
      r ← call (VOpen driver dsn);
      match r with inr _ => Ret (inr tt) | inl err => _ ← call (VSleep 5); openWithRetry n driver dsn err end
  end.
Definition NewStore (db : Config.DatabaseConfig) : vprog (gresult unit) :=
  let dsn := Config.db_DSN db in
  opened ← (if bool_decide (Config.db_Driver db ∈ ["mysql"; "mariadb"]) then
              r ← openWithRetry 5 "mysql" dsn (ErrText "");
              Ret match r with inl err => inl (ErrWrap "db: connect mysql/mariadb failed" err) | inr _ => inr tt end
            else
              let dsn := Llm.default_to dsn "lattice.db" in
              r ← call (VOpen "sqlite" dsn);
              Ret match r with inl err => inl (ErrWrap ("db: open sqlite failed (path=" +:+ dsn +:+ ")") err) | inr _ => inr tt end);
  match opened with inl err => Ret (inl err) | inr _ => call VMigrate end.

(** The adapters that were registered. *)
Definition NewMonitor (address : string) : vprog (gresult (list string)) :=
  _ ←? call VTemplates;
  vm ← (if bool_decide (address = "") then Ret [] else
          r ← call (VNewAdapter address); Ret match r with inl _ => [] | inr _ => ["victoriametrics"] end);
  Ret (inr (vm ++ ["heartbeat"])).

(** [sv_nats]: the bus is connected, and not the service that does nothing. *)
Record Server := {
  sv_listen : string; sv_nats : bool; sv_manager : bool; sv_client : bool; sv_ai : option Llm.llm_client;
  sv_monitor : option (list string); sv_routes : list route }.

Section start.
Context `{GinRouter} (pro : bool).

Definition connect_bus (url : string) : vprog bool :=
  if bool_decide (url = "") then Ret false
  else r ← call (VConnectNats "lattice-manager" "server" url); Ret match r with inl _ => false | inr _ => true end.
(** The manager of Kubernetes, the client that is made of it, and the task that tells when its
    cache is filled. *)
Definition connect_kubernetes : vprog (bool * bool) :=
  mgr ← call VNewManager;
  match mgr with
  | inl _ => Ret (false, false)
  | inr _ => cl ← call VInformer; _ ← call VAddRunnable; Ret (true, match cl with inl _ => false | inr _ => true end)
  end.
Definition new_ai (enabled : bool) (cfg : Llm.AIConfig) : option Llm.llm_client :=
  if enabled && negb (bool_decide (Llm.ai_APIKey cfg = "")) then
    match Llm.NewClient cfg with inl _ => None | inr cl => Some cl end
  else None.
Definition new_dex (url : string) : vprog dexState :=
  if bool_decide (url = "") then Ret DexDisabled
  else r ← call (VNewProvider url); Ret match r with inl _ => DexFailed | inr _ => DexReady end.

Definition NewServer (cfg : Config.Config) : vprog (gresult Server) :=
  nats ← connect_bus (Config.cf_SignalingURL cfg);
  k8s ← connect_kubernetes;
  st ← NewStore (Config.cf_Database cfg);
  match st with
  | inl err => Ret (inl (ErrWrap "failed to init store" err))
  | inr _ =>
      _ ← call (VGo "audit");
      let ai := new_ai (Config.cf_AI_Enabled cfg) (Config.cf_AI cfg) in
      mon ← NewMonitor (Config.mon_Address (Config.cf_Monitor cfg));
      _ ← match mon with inl _ => Ret tt | inr _ => call (VGo "alert engine") end;
      _ ← call (VGo "revocation cleanup");
      _ ← translate VSrv (InitAdmin (Config.app_InitAdmins (Config.cf_App cfg)));
      dex ← new_dex (Config.dex_ProviderUrl (Config.cf_Dex cfg));
      let routes := apiRouter pro dex match ai with Some _ => true | None => false end in
      match add_routes routes with
      | None => Panic
      | Some _ =>
          Ret (inr {| sv_listen := Config.cf_Listen cfg; sv_nats := nats; sv_manager := k8s.1; sv_client := k8s.2; sv_ai := ai;
                      sv_monitor := match mon with inl _ => None | inr l => Some l end; sv_routes := routes |})
      end
  end.

(** The subjects of the bus and their handlers. *)
Definition bus_routes : gmap string string := list_to_map [
  ("lattice.signals.peer.register", "Register"); ("lattice.signals.peer.GetNetMap", "GetNetMap");
  ("lattice.signals.peer.heartbeat", "Heartbeat"); ("lattice.signals.service.info", "Info");
  ("lattice.signals.service.createToken", "CreateToken"); ("lattice.signals.service.workspace.add", "NatsAddWorkspace");
  ("lattice.signals.service.workspace.remove", "NatsRemoveWorkspace");
  ("lattice.signals.service.workspace.list", "NatsListWorkspaces"); ("lattice.signals.service.policy.add", "NatsAddPolicy");
  ("lattice.signals.service.policy.allow-all", "NatsAllowAll"); ("lattice.signals.service.policy.remove", "NatsRemovePolicy");
  ("lattice.signals.service.policy.list", "NatsListPolicies"); ("lattice.signals.service.token.list", "NatsListTokens");
  ("lattice.signals.service.token.remove", "NatsRemoveToken"); ("lattice.signals.service.peer.list", "NatsPeerList");
  ("lattice.signals.service.peer.label", "NatsPeerLabel")].

(** A subscription that fails is logged; so is the flush. *)
Fixpoint subscribe_all (l : list (string * string)) : vprog unit :=
  match l with
  | [] => Ret tt
  | (subject, handler) :: l => _ ← call (VService subject "lattice_queue" handler); subscribe_all l
  end.
Definition Server_Start `{MapRange} (sv : Server) : vprog (gresult unit) :=
  if sv_manager sv then
    _ ← (if sv_nats sv then _ ← subscribe_all (go_range bus_routes); _ ← call VFlush; Ret tt else Ret tt);
    call VStartManager
  else _ ← call VWaitEnd; Ret (inr tt).

(** The second task of [Start] of run.go: the HTTP server. *)
Definition api_server (sv : Server) : vprog (gresult unit) :=
  ready ← (if sv_manager sv then call VWaitReady else Ret true);
  if ready : bool then _ ← call (VGo "shutdown"); call (VListen ":8080") else Ret (inl (ErrText "context canceled")).

(** [Start] of run.go: the server, or why there is none, and the tasks that run together. *)
Definition management_Start `{MapRange} (cfg : Config.Config) : vprog (gresult (list (vprog (gresult unit)))) :=
  sv ←? NewServer cfg; Ret (inr [Server_Start sv; api_server sv]).
End start.

(** ** Correctness *)

(** *** Who reaches a handler *)

(** What a caller must be: anyone, someone with a token, someone who may act in the workspace
    of the request, or no one at all. *)
Inductive access := Public | ByToken (revocable : bool) | InWorkspace (role : string) | Closed.
#[export] Instance access_eq_dec : EqDecision access.
Proof. solve_decision. Defined.

Definition public_handlers : list string := [
  "Dex.Login"; "dexNotAvailable"; "dexNotConfigured"; "promhttp"; "proOnly"; "RegisterUser"; "login";
  "handlePreviewInvitation"; "handleRegisterAndAccept"].
Definition user_handlers : list string := [
  "logout"; "getMe"; "listUser"; "handleAddUser"; "handleDeleteUser"; "handleUpdateSystemRole"; "handleGetUserWorkspaces";
  "handleAddWs"; "handleListWs"; "handleAcceptInvitation"; "topology"].
Definition unrevoked_handlers : list string := ["getProfile"; "updateProfile"; "handleAIChat"; "handleAIAudit"; "aiNotConfigured"].
Definition admin_handlers : list string := [
  "handleUpdateWs"; "handleDeleteWs"; "handleListMembers"; "handleAddMember"; "handleUpdateMemberRole";
  "handleCreateInvitation"; "handleListInvitations"; "handleRevokeInvitation"].
Definition platform_paths : list string := ["/api/v1/dashboard/"; "/api/v1/audit-logs"; "/api/v1/workflow-requests"].

(** Everything that is not listed takes a member of the workspace. *)
Definition access_of (r : route) : access :=
  if bool_decide (rt_handler r ∈ public_handlers) then Public
  else if existsb (λ p, has_prefix p (rt_path r)) platform_paths then Closed
  else if bool_decide (rt_handler r ∈ user_handlers) then ByToken true
  else if bool_decide (rt_handler r ∈ unrevoked_handlers) then ByToken false
  else if bool_decide (rt_handler r ∈ admin_handlers) then InWorkspace RoleAdmin
  else InWorkspace RoleViewer.

Definition guards_give (gs : list guard) (a : access) : bool :=
  match a with
  | Public => bool_decide (gs = [])
  | ByToken revocable => bool_decide (gs = [GAuth revocable])
  | InWorkspace role => bool_decide (gs = [GWorkspace role]) || bool_decide (gs = [GAuth true; GWorkspace role])
  | Closed => bool_decide (gs = [GPlatform])
  end.

Lemma apiRouter_guarded pro dex ai : Forall (λ r, guards_give (rt_guards r) (access_of r) = true) (apiRouter pro dex ai).
Proof.
  apply Forall_forall. intros r Hr. apply list_elem_of_In in Hr. revert r Hr.
  apply forallb_forall. destruct pro, dex, ai; vm_compute; reflexivity.
Qed.

(** Adding the routes does not panic, in any configuration. *)
Lemma apiRouter_adds `{GinRouter} pro dex ai : is_Some (add_routes (apiRouter pro dex ai)).
Proof. apply add_ok. destruct pro, dex, ai; vm_compute; reflexivity. Qed.

Section serving_facts.
Context `{GinRouter} `{JwtLibrary} `{SqlLike} (h : forall T, srvE T -> World -> T -> World -> Prop) `{!GormDB h}.
Context (env : string) (revoked : RevocationList).

Lemma AuthMiddleware_inv rl rq c w c' w' :
  runs h (AuthMiddleware env rl rq c) w (inr c') w' ->
  w' = w /\ exists now claims, presents_token env rl rq now claims /\ cx_user_id c' = cl_Subject claims.
Proof using All.
  intros Hr. apply runs_bind_inv in Hr as (now & w1 & Hr1 & Hr). apply runs_call_inv, gorm_law in Hr1. cbn in Hr1. subst w1.
  destruct (authenticate env rl rq now) as [claims|] eqn:Ha; [apply authenticate_iff in Ha|by apply runs_ret_inv in Hr as [? _]].
  unfold with_claims in Hr. destruct (cl_ExpiresAt claims) as [exp|]; [|by inversion Hr].
  apply runs_ret_inv in Hr as [[= ->] ->]. split; [done|]. by exists now, claims.
Qed.

(** What the caller of a handler is known to be. *)
Definition entitled (s : Tables) (rq : HttpRequest) (c : Ctx) (a : access) : Prop :=
  match a with
  | Public => c = empty_ctx
  | ByToken revocable => exists now claims,
      presents_token env (if revocable then Some revoked else None) rq now claims /\ cx_user_id c = cl_Subject claims
  | InWorkspace role => exists now claims,
      presents_token env (Some revoked) rq now claims /\ cx_user_id c = cl_Subject claims /\
      cx_workspace_id c = (if bool_decide (rq_WorkspaceId rq = "") then rq_Param rq "id" else rq_WorkspaceId rq) /\
      cx_workspace_id c <> "" /\
      (cl_SystemRole claims = SystemRolePlatformAdmin \/ may_act s (cx_workspace_id c) (cx_user_id c) role)
  | Closed => False
  end.

Lemma workspace_entitled role rq c0 w c w' :
  (forall u, u ∈ t_users (w_tables w) -> row_id TUser u <> "") ->
  runs h (WorkspaceAuthMiddleware env (Some revoked) role rq c0) w (inr c) w' ->
  w' = w /\ entitled (w_tables w) rq c (InWorkspace role).
Proof using All.
  intros Hids Hr. destruct (WorkspaceAuth_inv h _ _ _ _ _ _ _ _ Hids Hr) as (-> & now & claims & ? & ? & _ & _ & ? & ? & ?).
  split; [done|]. exists now, claims. by split_and!.
Qed.

Lemma run_guards_inv gs a rq w c w' :
  guards_give gs a = true -> (forall u, u ∈ t_users (w_tables w) -> row_id TUser u <> "") ->
  runs h (run_guards env revoked gs rq empty_ctx) w (inr c) w' -> w' = w /\ entitled (w_tables w) rq c a.
Proof using All.
  intros Hg Hids Hr. destruct a as [|b|role|]; cbn [guards_give] in Hg.
  - apply bool_decide_eq_true in Hg as ->. by apply runs_ret_inv in Hr as [[= ->] ->].
  - apply bool_decide_eq_true in Hg as ->. apply runs_bind_inv in Hr as ([r|c1] & w1 & Hm1 & Hr);
      apply runs_ret_inv in Hr as [E ->]; [done|]. injection E as ->. apply AuthMiddleware_inv in Hm1 as [-> Hx]. by split.
  - apply orb_true_iff in Hg as [->%bool_decide_eq_true| ->%bool_decide_eq_true].
    + apply runs_bind_inv in Hr as ([r|c1] & w1 & Hm1 & Hr); apply runs_ret_inv in Hr as [E ->]; [done|].
      injection E as ->. by eapply workspace_entitled.
    + apply runs_bind_inv in Hr as ([r|c1] & w1 & Hm1 & Hr); [by apply runs_ret_inv in Hr as [? _]|].
      apply AuthMiddleware_inv in Hm1 as [-> _].
      apply runs_bind_inv in Hr as ([r|c2] & w1 & Hm1 & Hr); apply runs_ret_inv in Hr as [E ->]; [done|].
      injection E as ->. by eapply workspace_entitled.
  - apply bool_decide_eq_true in Hg as ->. by apply runs_ret_inv in Hr as [? _].
Qed.

End serving_facts.

(** A viewer reaches these handlers that write: only the handlers themselves could refuse. *)
Example viewers_write :
  rt_handler <$> filter (λ r, rt_method r <> "GET" /\ access_of r = InWorkspace RoleViewer) (apiRouter true DexReady true) =
  ["CreateNetwork"; "generateToken"; "rmToken"; "updatePeer"; "disablePeer"; "enablePeer"; "deletePeerHandler";
   "createOrUpdatePolicy"; "createOrUpdatePolicy"; "deletePolicy"; "createRelay"; "updateRelay"; "deleteRelay"; "testRelay";
   "handleRemoveMember"; "createAlertRule"; "updateAlertRule"; "deleteAlertRule"; "createAlertChannel"; "updateAlertChannel";
   "deleteAlertChannel"; "createAlertSilence"; "deleteAlertSilence"; "createCustomMetric"; "updateCustomMetric";
   "deleteCustomMetric"; "handleSubmitWorkflowRequest"; "handleApproveWorkflowRequest"; "handleRejectWorkflowRequest";
   "createPeering"; "deletePeering"].
Proof. vm_compute. reflexivity. Qed.

(** *** What is needed to start *)

(** The attempts that were made, and whether they succeeded. *)
Inductive dep := DBus | DManager | DInformer | DDatabase | DSchema | DTemplates | DProvider | DReady | DListen | DSubject (s : string).
#[export] Instance dep_eq_dec : EqDecision dep.
Proof. solve_decision. Defined.
Abbreviation attempts := (list (dep * bool)).
(** Whether an attempt succeeded, and how often opening the database failed. *)
Fixpoint reached (d : dep) (s : attempts) : bool :=
  match s with [] => false | (d', b) :: s => bool_decide (d' = d) && b || reached d s end.
Fixpoint failures (s : attempts) : nat :=
  match s with [] => 0 | (DDatabase, false) :: s => S (failures s) | _ :: s => failures s end.
Definition ok {A} (r : gresult A) : bool := match r with inr _ => true | inl _ => false end.
Definition setup_world T (e : setupE T) (s : attempts) : T -> attempts -> Prop :=
  match e in setupE T return T -> attempts -> Prop with
  | VConnectNats _ _ _ => λ r s', s' = s ++ [(DBus, ok r)]
  | VNewManager => λ r s', s' = s ++ [(DManager, ok r)]
  | VInformer => λ r s', s' = s ++ [(DInformer, ok r)]
  | VOpen _ _ => λ r s', s' = s ++ [(DDatabase, ok r)]
  | VMigrate => λ r s', s' = s ++ [(DSchema, ok r)]
  | VTemplates => λ r s', s' = s ++ [(DTemplates, ok r)]
  | VNewProvider _ => λ r s', s' = s ++ [(DProvider, ok r)]
  | VService subject _ _ => λ r s', s' = s ++ [(DSubject subject, ok r)]
  | VWaitReady => λ r s', s' = s ++ [(DReady, r)]
  | VListen _ => λ r s', s' = s ++ [(DListen, ok r)]
  | _ => λ _ s', s' = s
  end.

Lemma failures_app s s' : failures (s ++ s') = (failures s + failures s')%nat.
Proof. induction s as [|[[] []] s IH]; cbn; auto. Qed.
Lemma failures_replicate k : failures (replicate k (DDatabase, false)) = k.
Proof. induction k as [|k IH]; cbn; auto. Qed.
Lemma reached_app d s s' : reached d (s ++ s') = reached d s || reached d s'.
Proof. induction s as [|[d' b] s IH]; cbn; [done|]. by rewrite IH, orb_assoc. Qed.
Lemma reached_replicate d d' k : reached d (replicate k (d', false)) = false.
Proof. induction k as [|k IH]; cbn; [done|]. by rewrite andb_false_r. Qed.
(** Evaluates a list of attempts that is made of parts. *)
Ltac attempts_simpl := rewrite ?failures_app, ?failures_replicate, ?reached_app, ?reached_replicate; cbn.

Lemma openWithRetry_inv n driver dsn last s r s' :
  runs setup_world (openWithRetry n driver dsn last) s r s' ->
  exists k, s' = s ++ replicate k (DDatabase, false) ++ (if ok r then [(DDatabase, true)] else []) /\
    if ok r then (k < n)%nat else k = n.
Proof.
  revert last s. induction n as [|n IH]; intros last s Hr; cbn [openWithRetry] in Hr.
  { apply runs_ret_inv in Hr as [-> ->]. exists 0%nat. by rewrite app_nil_r. }
  apply runs_bind_inv in Hr as (a & s1 & Ha & Hr). apply runs_call_inv in Ha. cbn in Ha. subst s1. destruct a as [err|[]].
  - apply runs_bind_inv in Hr as (u & s1 & Hu & Hr). apply runs_call_inv in Hu. cbn in Hu. subst s1.
    apply IH in Hr as (k & -> & Hk). exists (S k). cbn [ok replicate app]. rewrite <- app_assoc. split; [done|].
    destruct (ok r); lia.
  - apply runs_ret_inv in Hr as [-> ->]. exists 0%nat. split; [done|]. cbn. lia.
Qed.

(** The attempts of opening the database: at most five failures. *)
Lemma NewStore_inv db s r s' : runs setup_world (NewStore db) s r s' ->
  exists k opened, (k <= 5)%nat /\ s' = s ++ replicate k (DDatabase, false) ++
    (if opened : bool then [(DDatabase, true); (DSchema, ok r)] else []) /\ (ok r = true -> opened = true).
Proof.
  intros Hr. apply runs_bind_inv in Hr as (o & s1 & Ho & Hr).
  assert (H1 : exists k, (k <= 5)%nat /\ s1 = s ++ replicate k (DDatabase, false) ++ (if ok o then [(DDatabase, true)] else [])).
  { destruct (bool_decide _).
    - apply runs_bind_inv in Ho as (a & s2 & Ha & Ho). apply openWithRetry_inv in Ha as (k & -> & Hk).
      exists k. destruct a as [err|u]; apply runs_ret_inv in Ho as [-> ->]; cbn [ok] in *; split; [lia|done|lia|done].
    - apply runs_bind_inv in Ho as (a & s2 & Ha & Ho). apply runs_call_inv in Ha. cbn in Ha. subst s2.
      destruct a as [err|u]; apply runs_ret_inv in Ho as [-> ->]; [exists 1%nat|exists 0%nat]; split; (lia || done). }
  destruct H1 as (k & Hk & ->). destruct o as [err|u].
  - apply runs_ret_inv in Hr as [-> ->]. exists k, false. by split_and!.
  - apply runs_call_inv in Hr. cbn in Hr. subst s'. exists k, true. split_and!; [done| |done].
    cbn [ok]. by rewrite <- !app_assoc.
Qed.

Section start_facts.
Context `{GinRouter} (pro : bool).

Lemma connect_bus_inv url s r s' : runs setup_world (connect_bus url) s r s' ->
  s' = s ++ (if r then [(DBus, true)] else []) \/ r = false /\ s' = s ++ [(DBus, false)].
Proof.
  unfold connect_bus. intros Hr. case_bool_decide.
  - apply runs_ret_inv in Hr as [-> ->]. left. by rewrite app_nil_r.
  - apply runs_bind_inv in Hr as (a & s1 & Ha & Hr). apply runs_call_inv in Ha. cbn in Ha. subst s1.
    destruct a; apply runs_ret_inv in Hr as [-> ->]; [by right|by left].
Qed.
Lemma connect_kubernetes_inv s r s' : runs setup_world connect_kubernetes s r s' ->
  s' = s ++ (DManager, r.1) :: (if r.1 then [(DInformer, r.2)] else []) /\ (r.1 = false -> r.2 = false).
Proof.
  intros Hr. apply runs_bind_inv in Hr as (a & s1 & Ha & Hr). apply runs_call_inv in Ha. cbn in Ha. subst s1.
  destruct a as [err|u]; [by apply runs_ret_inv in Hr as [-> ->]|].
  apply runs_bind_inv in Hr as (b & s1 & Hb & Hr). apply runs_call_inv in Hb. cbn in Hb. subst s1.
  apply runs_bind_inv in Hr as (v & s1 & Hv & Hr). apply runs_call_inv in Hv. cbn in Hv. subst s1.
  apply runs_ret_inv in Hr as [-> ->]. cbn [fst snd ok]. rewrite <- app_assoc. by destruct b.
Qed.
Lemma NewMonitor_inv address s r s' : runs setup_world (NewMonitor address) s r s' -> s' = s ++ [(DTemplates, ok r)].
Proof.
  intros Hr. apply runs_bind_inv in Hr as (a & s1 & Ha & Hr). apply runs_call_inv in Ha. cbn in Ha. subst s1.
  destruct a as [err|u]; [by apply runs_ret_inv in Hr as [-> ->]|].
  apply runs_bind_inv in Hr as (b & s1 & Hb & Hr). apply runs_ret_inv in Hr as [-> ->].
  assert (s1 = s ++ [(DTemplates, true)]) as ->; [|done].
  case_bool_decide; [by apply runs_ret_inv in Hb as [_ ->]|].
  apply runs_bind_inv in Hb as (v & s2 & Hv & Hb). apply runs_call_inv in Hv. cbn in Hv. subst s2. by apply runs_ret_inv in Hb as [_ ->].
Qed.
Lemma new_dex_inv url s r s' : runs setup_world (new_dex url) s r s' ->
  s' = s ++ (match r with DexDisabled => [] | DexFailed => [(DProvider, false)] | DexReady => [(DProvider, true)] end) /\
  (r = DexDisabled <-> url = "").
Proof.
  unfold new_dex. intros Hr. case_bool_decide as Hu.
  - apply runs_ret_inv in Hr as [-> ->]. by rewrite app_nil_r.
  - apply runs_bind_inv in Hr as (a & s1 & Ha & Hr). apply runs_call_inv in Ha. cbn in Ha. subst s1.
    by destruct a; apply runs_ret_inv in Hr as [-> ->].
Qed.
Lemma translate_srv_same {A} (p : sprog A) s a s' : runs setup_world (translate VSrv p) s a s' -> s' = s.
Proof.
  revert s. induction p as [x| |T e k IH]; intros s Hr; cbn in Hr.
  - by apply runs_ret_inv in Hr as [_ ->].
  - inversion Hr.
  - apply runs_vis_inv in Hr as (r & s1 & Hh & Hr). cbn in Hh. subst s1. by eapply IH.
Qed.

(** C18. Only the database is needed. A server that could not be made has no schema: at most
    five attempts of opening the database failed, or migrating it did. A server that was made
    has one; each of its other parts is there exactly when it could be reached, and the routes
    are the table of [apiRouter]. *)
Theorem NewServer_needs_database cfg r s' :
  runs setup_world (NewServer pro cfg) [] r s' ->
  (failures s' <= 5)%nat /\ reached DSchema s' = ok r /\
  forall sv, r = inr sv ->
    sv_nats sv = reached DBus s' /\ sv_manager sv = reached DManager s' /\ sv_client sv = reached DInformer s' /\
    bool_decide (is_Some (sv_monitor sv)) = reached DTemplates s' /\
    sv_ai sv = new_ai (Config.cf_AI_Enabled cfg) (Config.cf_AI cfg) /\
    exists dex, sv_routes sv = apiRouter pro dex (bool_decide (is_Some (sv_ai sv))) /\
      bool_decide (dex = DexReady) = reached DProvider s' /\
      (dex = DexDisabled <-> Config.dex_ProviderUrl (Config.cf_Dex cfg) = "").
Proof.
  intros Hr. apply runs_bind_inv in Hr as (nats & s1 & H1 & Hr). apply connect_bus_inv in H1 as E1. rewrite !app_nil_l in E1.
  apply runs_bind_inv in Hr as (k8s & s2 & H2 & Hr). apply connect_kubernetes_inv in H2 as [E2 Ek].
  apply runs_bind_inv in Hr as (st & s3 & H3 & Hr). apply NewStore_inv in H3 as (k & opened & Hk & E3 & Eo).
  destruct st as [err|u].
  { apply runs_ret_inv in Hr as [-> ->]. subst s3 s2.
    destruct E1 as [->|[-> ->]]; [destruct nats|]; destruct k8s as [[] c], opened; attempts_simpl;
      (split_and!; [lia|by destruct c|done]). }
  rewrite (Eo eq_refl) in E3. clear Eo.
  apply runs_bind_inv in Hr as (u1 & s4 & H4 & Hr). apply runs_call_inv in H4. cbn in H4. subst s4.
  apply runs_bind_inv in Hr as (mon & s4 & H4 & Hr). apply NewMonitor_inv in H4.
  apply runs_bind_inv in Hr as (u2 & s5 & H5 & Hr).
  assert (s5 = s4) as ->.
  { destruct mon; [by apply runs_ret_inv in H5 as [_ ->]|]. by apply runs_call_inv in H5. }
  apply runs_bind_inv in Hr as (u3 & s6 & H6 & Hr). apply runs_call_inv in H6. cbn in H6. subst s6.
  apply runs_bind_inv in Hr as (u4 & s6 & H6 & Hr). apply translate_srv_same in H6 as ->.
  apply runs_bind_inv in Hr as (dex & s6 & H6 & Hr). apply new_dex_inv in H6 as [E6 Hdex].
  cbv zeta in Hr. destruct (add_routes (apiRouter _ _ _)); [|by inversion Hr]. apply runs_ret_inv in Hr as [-> ->].
  set (ai := new_ai _ _) in *. clearbody ai.
  subst s6 s4 s3 s2. split_and!.
  - destruct E1 as [->|[-> ->]]; [destruct nats|]; destruct k8s as [[] c], mon as [err|l], dex; attempts_simpl; lia.
  - attempts_simpl. by rewrite ?orb_true_r.
  - intros sv [= <-]. cbn [sv_nats sv_manager sv_client sv_monitor sv_ai sv_routes].
    destruct E1 as [->|[-> ->]]; [destruct nats|]; destruct k8s as [[] c], mon as [err|l]; cbn [fst snd] in *; attempts_simpl;
      (split_and!; [by destruct dex|by destruct dex|first [by destruct c, dex|rewrite (Ek eq_refl); by destruct dex]|by destruct dex|done|
       exists dex; by destruct ai, dex]).
Qed.

Lemma subscribe_all_inv l s u s' : runs setup_world (subscribe_all l) s u s' ->
  s'.*1 = s.*1 ++ ((λ kh, DSubject kh.1) <$> l).
Proof.
  revert s. induction l as [|[subject handler] l IH]; intros s Hr; cbn in Hr.
  { apply runs_ret_inv in Hr as [_ ->]. by rewrite app_nil_r. }
  apply runs_vis_inv in Hr as (r & s1 & Hh & Hr). cbn in Hh. subst s1. apply IH in Hr as ->.
  by rewrite fmap_app, <- app_assoc.
Qed.

(** Agents are served only with Kubernetes and a bus: all the subjects are subscribed to, in
    some order, or none is. *)
Lemma bus_needs_kubernetes `{MapRange} sv r s' : runs setup_world (Server_Start sv) [] r s' ->
  s'.*1 ≡ₚ if sv_manager sv && sv_nats sv then (λ kh, DSubject kh.1) <$> map_to_list bus_routes else [].
Proof.
  unfold Server_Start. intros Hr. destruct (sv_manager sv); cbn [andb].
  - apply runs_bind_inv in Hr as (u & s1 & Hu & Hr). apply runs_call_inv in Hr. cbn in Hr. subst s1.
    destruct (sv_nats sv); [|by apply runs_ret_inv in Hu as [_ ->]].
    apply runs_bind_inv in Hu as (u1 & s2 & Hu1 & Hu). apply subscribe_all_inv in Hu1.
    apply runs_bind_inv in Hu as (u2 & s3 & Hu2 & Hu). apply runs_call_inv in Hu2. cbn in Hu2. subst s3.
    apply runs_ret_inv in Hu as [_ ->]. rewrite Hu1. cbn. by rewrite go_range_perm.
  - apply runs_bind_inv in Hr as (u & s1 & Hu & Hr). apply runs_call_inv in Hu. cbn in Hu. subst s1.
    by apply runs_ret_inv in Hr as [_ ->].
Qed.
(** The HTTP server waits for the cache of Kubernetes, if there is a manager. *)
Lemma api_after_sync sv r s' : runs setup_world (api_server sv) [] r s' ->
  DListen ∈ s'.*1 -> sv_manager sv = true -> reached DReady s' = true.
Proof.
  unfold api_server. intros Hr Hin Hm. rewrite Hm in Hr.
  apply runs_bind_inv in Hr as (b & s1 & Hb & Hr). apply runs_call_inv in Hb. cbn in Hb. subst s1. destruct b.
  - apply runs_bind_inv in Hr as (u & s1 & Hu & Hr). apply runs_call_inv in Hu. cbn in Hu. subst s1.
    apply runs_call_inv in Hr. cbn in Hr. by subst s'.
  - apply runs_ret_inv in Hr as [_ ->]. cbn in Hin. apply list_elem_of_singleton in Hin. discriminate.
Qed.
End start_facts.

(** *** The front end *)

(** A file that is sent exists; only paths that begin with [/api] are not found. *)
Lemma front_end_spec mime files url :
  (as_Code (front_end mime files url) = 404 <-> has_prefix "/api" url = true) /\
  (as_Code (front_end mime files url) = 200 -> is_Some (files !! as_File (front_end mime files url))).
Proof.
  unfold front_end. destruct (has_prefix "/api" url); [done|]. destruct (files !! asset_path files url) eqn:E; cbn.
  - rewrite E. by split.
  - split; [|done]. by split.
Qed.
(** A directory cannot be sent, and a page whose name begins like the API is not found. *)
Example front_end_gaps :
  let files : gmap string string := {["index.html" := "i"; "assets/app.js" := "j"]} in
  as_Code <$> (front_end (λ _, "") files <$> ["/"; "/login"; "/assets/app.js"; "/assets"; "/apidocs"]) = [200; 200; 200; 500; 404].
Proof. vm_compute. reflexivity. Qed.

(** *** A router, and a member who opens the peers of a workspace *)

Fixpoint bind_segments (pattern path : list string) : list (string * string) :=
  match pattern, path with
  | p :: pattern, s :: path => (if is_param p then [(str_drop 1 p, s)] else []) ++ bind_segments pattern path
  | _, _ => []
  end.
Definition bound (r : route) (path : string) (name : string) : string :=
  from_option snd "" (head (filter (λ kv, kv.1 = name) (bind_segments (split_slash (rt_path r)) (split_slash path)))).
Definition answers (method path : string) (r : route) : bool :=
  bool_decide (rt_method r = method) && segments_match (split_slash (rt_path r)) (split_slash path) (bound r path).
Definition first_match (l : list route) (method path : string) : option (route * (string -> string)) :=
  (λ r, (r, bound r path)) <$> head (filter (λ r, answers method path r = true) l).

Definition plain_gin : GinRouter.
Proof.
  refine {| engine := list route; add_routes := λ l, if no_conflicts l then Some l else None; find_route := first_match |}.
  - intros l ->. by eexists.
  - intros l e method path r param. destruct (no_conflicts l); [|done]. intros [= <-]. unfold first_match. intros Hf.
    destruct (filter _ _) as [|r' l'] eqn:E; [done|]. injection Hf as <- <-.
    assert (Hin : r' ∈ filter (λ r, answers method path r = true) l) by (rewrite E; left).
    apply list_elem_of_filter in Hin as [Ha Hin]. unfold answers in Ha. apply andb_true_iff in Ha as [Hm Hp].
    by apply bool_decide_eq_true in Hm.
Defined.

Definition peers_call : HttpCall := {|
  ht_Method := "DELETE"; ht_Path := "/api/v1/peers/p1"; ht_Authorization := "Bearer alice:jti"; ht_WorkspaceId := "ws-a" |}.
Definition all_routes : list route := apiRouter true DexReady true.
Definition peers_route : route := on "DELETE" "/api/v1/peers/:name" [GWorkspace RoleViewer] "deletePeerHandler".
Definition alice_ctx : Ctx := {|
  cx_user_id := "alice"; cx_username := ""; cx_email := ""; cx_system_role := "user"; cx_jti := "jti"; cx_exp := Some 100;
  cx_workspace_id := "ws-a"; cx_member := Some (Some (sample_member "m1" "ws-a" "alice" RoleAdmin MemberStatusActive)) |}.


(** *** A server without Kubernetes, whose bus answers *)

Definition plain_config : Config.Config := Config.put_urls "nats://h:4222" "" Config.zero_config.
Definition setup_handler T (e : setupE T) (s : attempts) : T * attempts :=
  match e in setupE T return T * attempts with
  | VConnectNats _ _ _ => (inr tt, s ++ [(DBus, true)])
  | VNewManager => (inl (ErrText "no kubeconfig"), s ++ [(DManager, false)])
  | VInformer => (inr tt, s ++ [(DInformer, true)])
  | VOpen _ _ => (inr tt, s ++ [(DDatabase, true)])
  | VMigrate => (inr tt, s ++ [(DSchema, true)])
  | VTemplates => (inr tt, s ++ [(DTemplates, true)])
  | VNewProvider _ => (inr tt, s ++ [(DProvider, true)])
  | VService subject _ _ => (inr tt, s ++ [(DSubject subject, true)])
  | VWaitReady => (true, s ++ [(DReady, true)])
  | VListen _ => (inr tt, s ++ [(DListen, true)])
  | VAddRunnable | VSleep _ | VGo _ | VWaitEnd => (tt, s)
  | VNewAdapter _ | VFlush | VStartManager => (inr tt, s)
  | VSrv _ e => ((sample_db _ e sample_world).1, s)
  end.
Lemma setup_handler_world T e s r s' : fun_world setup_handler T e s r s' -> setup_world T e s r s'.
Proof. unfold fun_world. destruct e; cbn; intros E; by simplify_eq. Qed.

Definition lone_server : Server := Eval vm_compute in
  match run setup_handler (@NewServer plain_gin true plain_config) [] with
  | (Some (inr sv), _) => sv
  | _ => {| sv_listen := ""; sv_nats := false; sv_manager := false; sv_client := false; sv_ai := None; sv_monitor := None; sv_routes := [] |}
  end.

(** The bus is there and nobody listens on it. *)
Lemma NewServer_needs_database_witness :
  exists s', runs setup_world (@NewServer plain_gin true plain_config) [] (inr lone_server) s' /\
    sv_nats lone_server = true /\ sv_manager lone_server = false /\ reached DSchema s' = true /\
    runs setup_world (Server_Start lone_server) [] (inr tt) [].
Proof.
  pose (p := @NewServer plain_gin true plain_config).
  pose (s' := (run setup_handler p []).2).
  assert (Hr : runs setup_world p [] (inr lone_server) s').
  { eapply runs_weaken; [apply setup_handler_world|]. apply (run_runs setup_handler p []). vm_compute. reflexivity. }
  exists s'. split; [exact Hr|].
  destruct (@NewServer_needs_database plain_gin true plain_config (inr lone_server) s' Hr) as (_ & Hs & Hsv).
  destruct (Hsv lone_server eq_refl) as (Hn & Hm & _).
  split; [rewrite Hn; vm_compute; reflexivity|]. split; [rewrite Hm; vm_compute; reflexivity|]. split; [exact Hs|].
  eapply runs_weaken; [apply setup_handler_world|]. apply (run_runs setup_handler (Server_Start lone_server) []).
  vm_compute. reflexivity.
Defined.
