(* ===== verification/Accounts.v ===== *)
(** * Accounts: users, their profiles, their own metrics, and signing in with Dex
    ([List] of [internal/server/service/user.go], [user_profile.go], [customMetric.go],
    [internal/server/server/user.go], [profile.go], [custom_metric.go],
    [internal/server/dex/login.go]) *)

From S2P Require Import Prelude Prog Net Api Store Access Invitations Workspaces Mgmt.

(** ** The list of users *)

(** A row of the list, without the time of registration. *)
Record UserVo := {
  uv_ID : string; uv_Username : string; uv_Email : string; uv_Avatar : string; uv_Role : string; uv_Source : string;
  uv_InviterName : string }.

(** The identities that are loaded with the users. *)
Definition preload_identities (users : list User) : sprog (gresult (list UserIdentity)) :=
  match users with
  | [] => Ret (inr [])
  | _ => base_Find TIdentity [CIn "user_id" (row_id TUser <$> users)] None
  end.
Definition ListRaw (req : Mgmt.PageRequest) : sprog (gresult (list User * list UserIdentity * Z)) :=
  ut ←? users_ListRaw (Mgmt.pg_Keyword req) (Mgmt.pg_Page req) (Mgmt.pg_PageSize req);
  ids ←? preload_identities ut.1;
  Ret (inr (ut.1, ids, ut.2)).

(** The first accepted invitation of each address. *)
Definition first_invitations (l : list WorkspaceInvitation) : gmap string WorkspaceInvitation :=
  foldl (λ m inv, match m !! inv_Email inv with Some _ => m | None => <[inv_Email inv := inv]> m end) ∅ l.
(** The inviters, each once. *)
Definition inviter_ids (l : list WorkspaceInvitation) : list string :=
  foldl (λ ids inv, if bool_decide (inv_InviterID inv = "") || bool_decide (inv_InviterID inv ∈ ids) then ids
                    else ids ++ [inv_InviterID inv]) [] l.
Fixpoint inviter_names (ids : list string) (names : gmap string string) : sprog (gmap string string) :=
  match ids with
  | [] => Ret names
  | id :: ids =>
      u ← users_GetByID id;
      inviter_names ids match u with inr u => <[id := u_Username u]> names | inl _ => names end
  end.

Definition user_vo (identities : list UserIdentity) (invs : gmap string WorkspaceInvitation) (names : gmap string string)
    (u : User) : UserVo :=
  let source := match filter (λ i, id_UserID i = row_id TUser u) identities with i :: _ => id_Provider i | [] => "local" end in
  let inv := invs !! u_Email u in
  {| uv_ID := row_id TUser u; uv_Username := u_Username u; uv_Email := u_Email u; uv_Avatar := u_Avatar u;
     uv_Role := u_SystemRole u; uv_Source := match inv with Some _ => "invitation" | None => source end;
     uv_InviterName := match inv with Some i => default "" (names !! inv_InviterID i) | None => "" end |}.

Definition user_List `{MapRange} (req : Mgmt.PageRequest) : sprog (gresult (Mgmt.PageResult UserVo)) :=
  uit ←? ListRaw req;
  let '(users, identities, total) := uit in
  let emails := filter (λ e, e <> "") (u_Email <$> users) in
  found ← invitations_FindAcceptedByEmails emails;
  let invs := first_invitations match found with inr l => l | inl _ => [] end in
  names ← inviter_names (inviter_ids (go_range invs).*2) ∅;
  Ret (inr {| Mgmt.res_Total := total; Mgmt.res_Page := Mgmt.pg_Page req; Mgmt.res_PageSize := Mgmt.pg_PageSize req;
              Mgmt.res_List := user_vo identities invs names <$> users |}).

Definition listUser `{MapRange} (req : option Mgmt.PageRequest) (rq : HttpRequest) (c : Ctx)
    : sprog (Reply + Mgmt.PageResult UserVo) :=
  match req with
  | None => Ret (inl BadRequest)
  | Some req => r ← user_List req; Ret match r with inl err => inl (RError (error_text err)) | inr page => inr page end
  end.

(** ** Profiles *)

Record UserSettingsResponse := {
  us_Name : string; us_Email : string; us_AvatarURL : string; us_Title : string; us_Company : string; us_Bio : string;
  us_Timezone : string; us_Language : string; us_EmailNotify : bool }.
Record UpdateSettingsRequest := {
  ur_Name : string; ur_Email : string; ur_AvatarURL : string; ur_Address : string; ur_Gender : Z; ur_Title : string;
  ur_Company : string; ur_Bio : string; ur_Timezone : string; ur_Language : string; ur_EmailNotify : bool }.

Definition no_profile : UserProfile := {|
  up_UserID := ""; up_Title := ""; up_Company := ""; up_Bio := ""; up_Timezone := ""; up_Language := ""; up_EmailNotify := false |}.
Definition settings_of (u : User) (p : UserProfile) : UserSettingsResponse := {|
  us_Name := u_Username u; us_Email := u_Email u; us_AvatarURL := u_Avatar u; us_Title := up_Title p;
  us_Company := up_Company p; us_Bio := up_Bio p; us_Timezone := up_Timezone p; us_Language := up_Language p;
  us_EmailNotify := up_EmailNotify p |}.
Definition GetProfile (userID : string) : sprog (gresult UserSettingsResponse) :=
  user ←? users_GetByID userID;
  profile ← profiles_Get userID;
  Ret (inr (settings_of user match profile with inr p => p | inl _ => no_profile end)).

(** The fields of the user and of the profile that a request gives; the name is not one. *)
Definition request_user (userID : string) (req : UpdateSettingsRequest) : User := {|
  u_Model := with_id userID; u_SystemRole := ""; u_Username := ""; u_Password := ""; u_Mobile := ""; u_Email := ur_Email req;
  u_Avatar := ur_AvatarURL req; u_Address := ur_Address req; u_Gender := ur_Gender req |}.
Definition request_profile (userID : string) (req : UpdateSettingsRequest) : UserProfile := {|
  up_UserID := userID; up_Title := ur_Title req; up_Company := ur_Company req; up_Bio := ur_Bio req;
  up_Timezone := ur_Timezone req; up_Language := ur_Language req; up_EmailNotify := ur_EmailNotify req |}.
Definition UpdateProfile (userID : string) (req : UpdateSettingsRequest) : sprog (gresult unit) :=
  Tx (_ ←? base_Update TUser (request_user userID req); profiles_Upsert (request_profile userID req)).

Definition getProfile (rq : HttpRequest) (c : Ctx) : sprog (Reply + UserSettingsResponse) :=
  r ← GetProfile (cx_user_id c); Ret match r with inl err => inl (RError (error_text err)) | inr s => inr s end.
(** The characters of a text of UTF-8: its bytes that do not continue one. *)
Definition rune_count (s : string) : nat :=
  length (filter (λ c, negb (128 <=? Z.of_N (N_of_ascii c)) || (192 <=? Z.of_N (N_of_ascii c)) = true) (String.list_ascii_of_string s)).
(** The name is required, with at least two characters. *)
Definition updateProfile (body : option UpdateSettingsRequest) (rq : HttpRequest) (c : Ctx) : sprog Reply :=
  match body with
  | None => Ret BadRequest
  | Some req =>
      if bool_decide (rune_count (ur_Name req) < 2)%nat then Ret BadRequest
      else r ← UpdateProfile (cx_user_id c) req; Ret (reply_to r)
  end.

(** ** Custom metrics *)

Record CreateCustomMetricRequest := {
  mr_Name : string; mr_Query : string; mr_Type : string; mr_ResultType : string; mr_Labels : string }.
Definition metric_Create (wsID createdBy : string) (req : CreateCustomMetricRequest) : sprog (gresult CustomMetric) :=
  id ← call SUUID;
  r ← metrics_Create {| cm_Model := with_id id; cm_Name := mr_Name req; cm_WorkspaceID := wsID; cm_Query := mr_Query req;
    cm_Type := mr_Type req; cm_ResultType := mr_ResultType req; cm_Labels := mr_Labels req; cm_CreatedBy := createdBy |};
  Ret match r with inl err => inl (ErrWrap "create custom metric" err) | inr m => inr m end.
Definition metric_List (wsID : string) : sprog (gresult (list CustomMetric)) := metrics_ListByWorkspace wsID.
Definition metric_Get (id : string) : sprog (gresult CustomMetric) := metrics_GetByID id.
Definition with_request (m : CustomMetric) (req : CreateCustomMetricRequest) : CustomMetric := {|
  cm_Model := cm_Model m; cm_Name := mr_Name req; cm_WorkspaceID := cm_WorkspaceID m; cm_Query := mr_Query req;
  cm_Type := mr_Type req; cm_ResultType := mr_ResultType req; cm_Labels := mr_Labels req; cm_CreatedBy := cm_CreatedBy m |}.
Definition metric_Update (id : string) (req : CreateCustomMetricRequest) : sprog (gresult CustomMetric) :=
  m ←? metrics_GetByID id;
  _ ←? metrics_Update (with_request m req);
  Ret (inr (with_request m req)).
Definition metric_Delete (id : string) : sprog (gresult unit) := metrics_Delete id.

Definition listCustomMetrics (rq : HttpRequest) (c : Ctx) : sprog (Reply + list CustomMetric) :=
  if bool_decide (cx_workspace_id c = "") then Ret (inl (RError "workspace_id required"))
  else r ← metric_List (cx_workspace_id c); Ret match r with inl err => inl (RError (error_text err)) | inr l => inr l end.
(** A body that cannot be read carries its error. *)
Definition createCustomMetric (body : gresult CreateCustomMetricRequest) (rq : HttpRequest) (c : Ctx) : sprog Reply :=
  if bool_decide (cx_workspace_id c = "") then Ret (RError "workspace_id required")
  else
    match body with
    | inl err => Ret (RError (error_text err))
    | inr req => r ← metric_Create (cx_workspace_id c) (cx_user_id c) req; Ret (reply_to r)
    end.
Definition updateCustomMetric (body : gresult CreateCustomMetricRequest) (rq : HttpRequest) (c : Ctx) : sprog Reply :=
  match body with
  | inl err => Ret (RError (error_text err))
  | inr req => r ← metric_Update (rq_Param rq "id") req; Ret (reply_to r)
  end.
Definition deleteCustomMetric (rq : HttpRequest) (c : Ctx) : sprog Reply :=
  r ← metric_Delete (rq_Param rq "id"); Ret (reply_to r).

(** ** Signing in with Dex *)

(** The claims of an identity token that are used. *)
Record DexClaims := { dx_Subject : string; dx_Email : string }.
(** [XExchange]: a code for a token, which may come without an identity token.  [XVerify]: the
    issuer, audience, expiry and signature of an identity token; [XClaims]: its claims. *)
Inductive dexE : Type -> Type :=
| XExchange (code : string) : dexE (gresult (option string))
| XVerify (raw : string) : dexE (gresult unit)
| XClaims (raw : string) : dexE (gresult DexClaims)
| XSrv (T : Type) (e : srvE T) : dexE T.
Abbreviation dprog := (prog dexE).

Inductive DexReply := DexError (r : Reply) | DexRedirect (url : string).
Definition login_page : string := "http://localhost:5173/login/success?token=".

Section dex.
Context `{CaseFolding}.

(** An error of making the token is dropped: the page is given an empty one. *)
Definition Dex_Login (adminEmails : list string) (code : string) : dprog DexReply :=
  if bool_decide (code = "") then Ret (DexError BadRequest)
  else
    tok ← call (XExchange code);
    match tok with
    | inl err => Ret (DexError (RError ("Failed to exchange token: " +:+ error_text err)))
    | inr None => Ret (DexError (RError "No id_token in response"))
    | inr (Some raw) =>
        valid ← call (XVerify raw);
        match valid with
        | inl err => Ret (DexError (RError ("Failed to verify ID Token: " +:+ error_text err +:+ " ")))
        | inr _ =>
            claims ← call (XClaims raw);
            match claims with
            | inl _ => Ret (DexError (RError "Failed to parse claims"))
            | inr cl =>
                user ← translate XSrv (OnboardExternalUser "dex" (dx_Subject cl) (dx_Email cl) adminEmails);
                match user with
                | inl err => Ret (DexError (RError ("Failed to get user: " +:+ error_text err)))
                | inr u =>
                    jwt ← call (XSrv _ (SGenerateJWT (row_id TUser u) (u_Email u) (u_Username u) (u_SystemRole u)));
                    Ret (DexRedirect (login_page +:+ match jwt with inr t => t | inl _ => "" end))
                end
            end
        end
    end.
End dex.

(** ** Correctness *)

Section account_facts.
Context `{SqlLike} (h : forall T, srvE T -> World -> T -> World -> Prop) `{!GormDB h}.

Lemma save_inv t x w r w' : runs h (base_Update t x) w r w' ->
  w' = match r with inr _ => with_tables w (update_rows (w_tables w) t [CEq "id" (row_id t x)] (save t x)) | inl _ => w end.
Proof using All. intros Hr. apply runs_call_inv, gorm_law in Hr. cbn in Hr. by destruct r. Qed.

Lemma create_inv t x w r w' : row_id t x <> "" -> runs h (base_Create t x) w r w' ->
  match r with
  | inr y => y = defaults t (sync_namespace t x) /\ row_id t (sync_namespace t x) ∉ (row_id t <$> rows (w_tables w) t) /\
             w' = with_tables w (insert_row (w_tables w) t y)
  | inl _ => w' = w
  end.
Proof using All.
  intros Hid Hr. unfold base_Create, BeforeCreate in Hr. rewrite bool_decide_false in Hr by done.
  apply runs_bind_inv in Hr as (y & w1 & Hy & Hr). apply runs_ret_inv in Hy as [-> ->].
  apply runs_call_inv, gorm_law in Hr. cbn in Hr. destruct r; [done|]. by destruct Hr as (? & ? & ? & _).
Qed.

Lemma create_failed t x w err w' : runs h (base_Create t x) w (inl err) w' -> w' = w.
Proof using All.
  intros Hr. unfold base_Create, BeforeCreate in Hr. apply runs_bind_inv in Hr as (y & w1 & Hy & Hr).
  assert (w1 = w) as ->.
  { case_bool_decide; [|by apply runs_ret_inv in Hy as [_ ->]]. apply runs_bind_inv in Hy as (id & w2 & Hid & Hy).
    apply runs_call_inv, gorm_law in Hid as [-> _]. by apply runs_ret_inv in Hy as [_ ->]. }
  by apply runs_call_inv, gorm_law in Hr.
Qed.

(** *** Profiles *)

(** What a request does to the profiles. *)
Definition profiles_after (uid : string) (req : UpdateSettingsRequest) (l : list UserProfile) : list UserProfile :=
  if bool_decide (filter (λ p, up_UserID p = uid) l = []) then l ++ [defaults TProfile (request_profile uid req)]
  else (λ p, if bool_decide (up_UserID p = uid) then save TProfile (request_profile uid req) p else p) <$> l.

Lemma selected_profile uid (p : UserProfile) : row_selected TProfile [CEq "user_id" uid] p = bool_decide (up_UserID p = uid).
Proof. unfold row_selected. cbn. by rewrite andb_true_r. Qed.

(** Changing a profile.  When it fails nothing is changed.  Otherwise the user has the fields of the request
    that are not empty, and its role, name and password as before; its profile likewise, one is made
    with the defaults when there was none; and nothing else is changed: no other user, no other
    profile and no other table. *)
Theorem UpdateProfile_spec uid req w r w' :
  uid <> "" -> runs h (UpdateProfile uid req) w r w' ->
  match r with
  | inl _ => w_tables w' = w_tables w
  | inr _ =>
      let users := (λ u, if live TUser u && bool_decide (row_id TUser u = uid) then
          {| u_Model := u_Model u; u_SystemRole := u_SystemRole u; u_Username := u_Username u; u_Password := u_Password u;
             u_Mobile := u_Mobile u; u_Email := nonzero (ur_Email req) (u_Email u);
             u_Avatar := nonzero (ur_AvatarURL req) (u_Avatar u); u_Address := nonzero (ur_Address req) (u_Address u);
             u_Gender := if ur_Gender req =? 0 then u_Gender u else ur_Gender req |} else u) <$> t_users (w_tables w) in
      w_tables w' = set_rows (set_rows (w_tables w) TUser users) TProfile (profiles_after uid req (t_profiles (w_tables w)))
  end.
Proof using All.
  intros Hu Hr. apply (Tx_inv h) in Hr; [|clear; solve_plain]. destruct r as [err|[]]; [done|]. intros users.
  destruct Hr as (w2 & Hr & ->). cbn [w_tables set_saved].
  apply runs_bind_inv in Hr as (r1 & w1 & H1 & Hr). apply save_inv in H1.
  destruct r1 as [err|[]]; [by apply runs_ret_inv in Hr as [? _]|]. subst w1.
  apply runs_call_inv, gorm_law in Hr. cbn [gorm_step] in Hr. destruct Hr as (s' & Hs & ->). cbn [w_tables with_tables set_saved] in *.
  unfold upserted in Hs. unfold scope in Hs. cbn [up_UserID request_profile] in Hs. rewrite bool_decide_false in Hs by done.
  set (s1 := update_rows (w_tables w) TUser _ _) in Hs.
  assert (E1 : s1 = set_rows (w_tables w) TUser users).
  { unfold s1, update_rows. f_equal. apply list_fmap_ext. intros i u _. rewrite row_selected_id. by destruct (live TUser u && _). }
  clearbody s1. subst s1.
  assert (Em : matching (set_rows (w_tables w) TUser users) TProfile [CEq "user_id" uid] =
               filter (λ p, up_UserID p = uid) (t_profiles (w_tables w))).
  { unfold matching. apply list_filter_iff. intros p. rewrite selected_profile. apply bool_decide_eq_true. }
  rewrite Em in Hs. unfold profiles_after. destruct (filter _ (t_profiles _)) as [|p l] eqn:Ef.
  - by subst s'.
  - rewrite bool_decide_false by done. destruct Hs as (old & Hold & ->). rewrite <- Ef in Hold.
    apply list_elem_of_filter in Hold as [Hid _]. unfold update_rows. f_equal. apply list_fmap_ext. intros i q _.
    rewrite row_selected_id. cbn [live row_model with_id m_deleted negb andb row_id m_ID]. change (up_UserID old) with (up_UserID old). by rewrite Hid.
Qed.

(** *** Custom metrics *)

(** A metric that was made is the row that is stored, with the fields of the request, the workspace
    and the user; it is found by its identifier and among those of its workspace. *)
Theorem created_metric_found wsID createdBy req w m w1 :
  runs h (metric_Create wsID createdBy req) w (inr m) w1 ->
  (cm_Name m = mr_Name req /\ cm_Query m = mr_Query req /\ cm_Type m = mr_Type req /\ cm_ResultType m = mr_ResultType req /\
   cm_Labels m = mr_Labels req /\ cm_WorkspaceID m = wsID /\ cm_CreatedBy m = createdBy) /\
  w_tables w1 = set_rows (w_tables w) TMetric (t_metrics (w_tables w) ++ [m]) /\
  (forall m' w2, runs h (metric_Get (row_id TMetric m)) w1 (inr m') w2 -> m' = m) /\
  (forall l w2, runs h (metric_List wsID) w1 (inr l) w2 -> m ∈ l).
Proof using All.
  intros Hr. apply runs_bind_inv in Hr as (id & w2 & Hid & Hr). apply runs_call_inv, gorm_law in Hid as [-> Hne].
  apply runs_bind_inv in Hr as (r & w2 & Hc & Hr). apply runs_ret_inv in Hr as [Er ->].
  destruct r as [err|m1]; [done|]. injection Er as <-. apply (create_inv TMetric) in Hc as (Em & Hnew & ->); [|done].
  cbn in Em, Hnew. split; [by subst m|]. split; [done|]. split.
  - intros m' w3 Hg. apply (first_inv h TMetric [CEq "id" (row_id TMetric m)]) in Hg as [_ Hm]. cbn [w_tables with_tables] in Hm.
    apply (found_id TMetric) in Hm as [Hin Eid]. unfold insert_row in Hin. cbn in Hin.
    apply elem_of_app in Hin as [Hin|Hin]; [|by apply list_elem_of_singleton in Hin].
    exfalso. apply Hnew. apply list_elem_of_fmap. exists m'. split; [|done]. rewrite Eid, Em. done.
  - intros l w3 Hl. apply runs_call_inv, gorm_law in Hl as (_ & _ & Hall). apply Hall; [done|].
    unfold matching. apply list_elem_of_filter. split; [|cbn; apply elem_of_app; right; left].
    rewrite Em. unfold row_selected. cbn. by rewrite bool_decide_true.
Qed.

(** *** Who becomes a platform administrator with Dex *)

Definition admin_ids (s : Tables) : list string :=
  row_id TUser <$> filter (λ u, u_SystemRole u = SystemRolePlatformAdmin) (t_users s).
(** Nobody became one. *)
Definition no_new_admin (w w' : World) : Prop := admin_ids (w_tables w') ⊆ admin_ids (w_tables w).

Lemma no_new_admin_refl w : no_new_admin w w.
Proof using Type. by unfold no_new_admin. Qed.
#[local] Hint Resolve no_new_admin_refl : core.

Context `{CaseFolding}.

Lemma promote_quiet role u w u' w' : role <> SystemRolePlatformAdmin -> runs h (promote role u) w u' w' -> w' = w.
Proof using All.
  intros Hrole Hr. unfold promote in Hr. rewrite bool_decide_false in Hr by done. by apply runs_ret_inv in Hr as [_ ->].
Qed.

(** An address that is not listed makes no administrator. *)
Lemma onboard_quiet provider subject email admins w r w' :
  existsb (λ a, EqualFold a email) admins = false ->
  runs h (OnboardExternalUser provider subject email admins) w r w' -> no_new_admin w w'.
Proof using All.
  intros Hno Hr. unfold OnboardExternalUser in Hr. rewrite Hno in Hr.
  apply runs_bind_inv in Hr as (ri & w1 & Hi & Hr). apply (first_inv h TIdentity) in Hi as [-> _]. destruct ri as [err|i].
  - destruct (negb _); [by apply runs_ret_inv in Hr as [_ ->]|].
    apply runs_bind_inv in Hr as (ru & w1 & Hu & Hr). apply (first_inv h TUser) in Hu as [-> _].
    apply runs_bind_inv in Hr as (ru' & w1 & Hu & Hr).
    assert (Hq : no_new_admin w w1).
    { destruct ru as [err'|u].
      - destruct (negb _); [by apply runs_ret_inv in Hu as [_ ->]|]. destruct ru' as [err2|u2].
        + by apply create_failed in Hu as ->.
        + apply (base_Create_inv h TUser) in Hu as (id & _ & Eu & _ & ->); [|done]. cbn in Eu. unfold no_new_admin, admin_ids.
          cbn [w_tables with_tables insert_row set_rows rows t_users]. rewrite filter_app, fmap_app.
          rewrite (filter_cons_False _ u2) by (by rewrite Eu). cbn. by rewrite app_nil_r.
      - apply runs_bind_inv in Hu as (u2 & w2 & Hp & Hu). apply promote_quiet in Hp as ->; [|done].
        by apply runs_ret_inv in Hu as [_ ->]. }
    destruct ru' as [err'|u]; [by apply runs_ret_inv in Hr as [_ ->]|].
    apply runs_bind_inv in Hr as (rc & w2 & Hc & Hr). assert (Hq2 : admin_ids (w_tables w2) = admin_ids (w_tables w1)).
    { destruct rc as [err'|y]; [by apply create_failed in Hc as ->|].
      by apply (base_Create_inv h TIdentity) in Hc as (id & _ & _ & _ & ->). }
    unfold no_new_admin in *. rewrite <- Hq2 in Hq. destruct rc; by apply runs_ret_inv in Hr as [_ ->].
  - apply runs_bind_inv in Hr as (ru & w1 & Hu & Hr). apply (first_inv h TUser [CEq "id" (id_UserID i)]) in Hu as [-> _].
    destruct ru as [err|u]; [by apply runs_ret_inv in Hr as [_ ->]|].
    apply runs_bind_inv in Hr as (u2 & w2 & Hp & Hr). apply promote_quiet in Hp as ->; [|done]. by apply runs_ret_inv in Hr as [_ ->].
Qed.

(** The provider: which codes it gave which tokens for, which tokens it signed, and their claims. *)
Context (exchange : string -> gresult (option string)) (verify : string -> gresult unit) (claims : string -> gresult DexClaims).
Definition dex_world T (e : dexE T) (w : World) : T -> World -> Prop :=
  match e in dexE T return T -> World -> Prop with
  | XExchange code => λ r w', r = exchange code /\ w' = w
  | XVerify raw => λ r w', r = verify raw /\ w' = w
  | XClaims raw => λ r w', r = claims raw /\ w' = w
  | XSrv _ e => λ r w', h _ e w r w'
  end.
Definition vouched (code : string) (cl : DexClaims) : Prop :=
  exists raw, exchange code = inr (Some raw) /\ verify raw = inr tt /\ claims raw = inr cl.

Lemma runs_srv {A} (p : sprog A) w a w' : runs dex_world (translate XSrv p) w a w' -> runs h p w a w'.
Proof using All.
  revert w. induction p as [x| |T e k IH]; intros w Hr; cbn in Hr.
  - apply runs_ret_inv in Hr as [-> ->]. constructor.
  - inversion Hr.
  - apply runs_vis_inv in Hr as (r & w1 & Hh & Hr). econstructor; [exact Hh|by apply IH].
Qed.

(** C9. Signing in with Dex.  A page with a token is opened only for a code that the provider exchanged for an
    identity token which is valid; and nobody becomes a platform administrator unless that token
    names an address that is listed. *)
Theorem Dex_Login_vouched admins code w reply w' :
  runs dex_world (Dex_Login admins code) w reply w' ->
  (no_new_admin w w' \/ exists cl, vouched code cl /\ existsb (λ a, EqualFold a (dx_Email cl)) admins = true) /\
  match reply with
  | DexRedirect _ => exists cl, vouched code cl
  | DexError _ => True
  end.
Proof using All.
  intros Hr. unfold Dex_Login in Hr. case_bool_decide; [apply runs_ret_inv in Hr as [-> ->]; split; [by left|done]|].
  apply runs_bind_inv in Hr as (tok & w1 & Ht & Hr). apply runs_call_inv in Ht as [Et ->].
  destruct tok as [err|[raw|]]; try (apply runs_ret_inv in Hr as [-> ->]; split; [by left|done]).
  apply runs_bind_inv in Hr as (v & w1 & Hv & Hr). apply runs_call_inv in Hv as [Ev ->].
  destruct v as [err|[]]; [apply runs_ret_inv in Hr as [-> ->]; split; [by left|done]|].
  apply runs_bind_inv in Hr as (rc & w1 & Hc & Hr). apply runs_call_inv in Hc as [Ec ->].
  destruct rc as [err|cl]; [apply runs_ret_inv in Hr as [-> ->]; split; [by left|done]|].
  assert (Hv : vouched code cl) by (by exists raw).
  apply runs_bind_inv in Hr as (ru & w1 & Hu & Hr). apply runs_srv in Hu.
  assert (Hq : no_new_admin w w1 \/ existsb (λ a, EqualFold a (dx_Email cl)) admins = true).
  { destruct (existsb _ _) eqn:E; [by right|left]. by eapply onboard_quiet. }
  assert (Hw : w_tables w' = w_tables w1 /\ match reply with DexRedirect _ => True | DexError _ => True end).
  { destruct ru as [err|u]; [by apply runs_ret_inv in Hr as [-> ->]|].
    apply runs_bind_inv in Hr as (j & w2 & Hj & Hr). apply runs_call_inv in Hj. cbn in Hj. apply gorm_law in Hj. cbn in Hj.
    subst w2. by apply runs_ret_inv in Hr as [-> ->]. }
  destruct Hw as [Ew _]. split.
  - unfold no_new_admin in *. rewrite Ew. destruct Hq; [by left|right]. by exists cl.
  - destruct reply; [done|]. by exists cl.
Qed.
End account_facts.

(** ** Examples *)

Definition sample_settings (name email title : string) : UpdateSettingsRequest := {|
  ur_Name := name; ur_Email := email; ur_AvatarURL := ""; ur_Address := ""; ur_Gender := 0; ur_Title := title;
  ur_Company := ""; ur_Bio := ""; ur_Timezone := ""; ur_Language := ""; ur_EmailNotify := false |}.
Definition sample_metric_request (query : string) : CreateCustomMetricRequest := {|
  mr_Name := "load"; mr_Query := query; mr_Type := "gauge"; mr_ResultType := "vector"; mr_Labels := "" |}.

Definition settled_world : World := Eval vm_compute in
  (run sample_db (UpdateProfile "bob" (sample_settings "Bob" "root@x" "dev")) sample_world).2.

Lemma UpdateProfile_spec_witness :
  runs (fun_world sample_db) (UpdateProfile "bob" (sample_settings "Bob" "root@x" "dev")) sample_world (inr tt) settled_world /\
  length (t_profiles (w_tables settled_world)) = 1%nat /\
  u_Email <$> t_users (w_tables settled_world) = ["a@x"; "root@x"].
Proof.
  assert (Hr : runs (fun_world sample_db) (UpdateProfile "bob" (sample_settings "Bob" "root@x" "dev")) sample_world (inr tt) settled_world).
  { apply (run_runs sample_db (UpdateProfile "bob" (sample_settings "Bob" "root@x" "dev")) sample_world (inr tt)). vm_compute. reflexivity. }
  split; [exact Hr|]. assert (Hne : "bob" <> "") by discriminate.
  pose proof (@UpdateProfile_spec plain_like _ sample_gorm "bob" _ _ _ _ Hne Hr) as Hs. cbv zeta in Hs.
  rewrite Hs. split; vm_compute; reflexivity.
Defined.

Definition measured_world : World := Eval vm_compute in
  (run sample_db (metric_Create "ws-b" "bob" (sample_metric_request "up")) sample_world).2.
Definition sample_metric : CustomMetric := {|
  cm_Model := with_id (sample_uuid sample_world); cm_Name := "load"; cm_WorkspaceID := "ws-b"; cm_Query := "up";
  cm_Type := "gauge"; cm_ResultType := "vector"; cm_Labels := ""; cm_CreatedBy := "bob" |}.

Lemma created_metric_found_witness :
  runs (fun_world sample_db) (metric_Create "ws-b" "bob" (sample_metric_request "up")) sample_world (inr sample_metric) measured_world /\
  forall m w, runs (fun_world sample_db) (metric_Get (row_id TMetric sample_metric)) measured_world (inr m) w -> m = sample_metric.
Proof.
  assert (Hr : runs (fun_world sample_db) (metric_Create "ws-b" "bob" (sample_metric_request "up")) sample_world
    (inr sample_metric) measured_world).
  { apply (run_runs sample_db (metric_Create "ws-b" "bob" (sample_metric_request "up")) sample_world (inr sample_metric)).
    vm_compute. reflexivity. }
  split; [exact Hr|]. apply (@created_metric_found plain_like _ sample_gorm _ _ _ _ _ _ Hr).
Defined.

(** Whoever knows the identifier of a metric may change and delete it, in whatever workspace the
    request is made: alice, of the workspace [ws-a], does so with bob's, of [ws-b].  What
    she is answered is not what is stored: an empty field keeps what it was. *)
Example metric_of_another_workspace :
  let rq := sample_request "alice" "ws-a" (row_id TMetric sample_metric) in
  let ctx := {| cx_user_id := "alice"; cx_username := ""; cx_email := ""; cx_system_role := SystemRoleUser; cx_jti := "";
                cx_exp := None; cx_workspace_id := "ws-a"; cx_member := None |} in
  let '(r, w) := run sample_db (updateCustomMetric (inr (sample_metric_request "down")) rq ctx) measured_world in
  r = Some OK /\ cm_Query <$> t_metrics (w_tables w) = ["down"] /\
  let '(r, w) := run sample_db (deleteCustomMetric rq ctx) measured_world in
  r = Some OK /\ m_deleted <$> (cm_Model <$> t_metrics (w_tables w)) = [true].
Proof. vm_compute. done. Qed.

Example metric_reply_differs :
  let '(r, w) := run sample_db (metric_Update (row_id TMetric sample_metric) (sample_metric_request "")) measured_world in
  match r with Some (inr m) => cm_Query m = "" | _ => False end /\ cm_Query <$> t_metrics (w_tables w) = ["up"].
Proof. vm_compute. done. Qed.

(** A name must be given and is not used; and the notifications, once on, stay on. *)
Example settings_dropped :
  let '(r, w) := run sample_db (updateProfile (Some (sample_settings "Robert" "" "dev")) (sample_request "bob" "" "")
      {| cx_user_id := "bob"; cx_username := ""; cx_email := ""; cx_system_role := SystemRoleUser; cx_jti := "";
         cx_exp := None; cx_workspace_id := ""; cx_member := None |}) sample_world in
  r = Some OK /\ u_Username <$> t_users (w_tables w) = ["alice"; "bob"] /\
  up_EmailNotify <$> t_profiles (w_tables w) = [true].
Proof. vm_compute. done. Qed.

(** A provider for two people: root, whose address is listed, and one who has none. *)
Definition sample_exchange (code : string) : gresult (option string) :=
  if bool_decide (code = "stale") then inl (ErrText "invalid_grant") else inr (Some code).
Definition sample_claims (raw : string) : gresult DexClaims :=
  inr {| dx_Subject := raw; dx_Email := if bool_decide (raw = "root") then "root@x" else "" |}.
Definition dex_fun T (e : dexE T) (w : World) : T * World :=
  match e in dexE T return T * World with
  | XExchange code => (sample_exchange code, w)
  | XVerify raw => (inr tt, w)
  | XClaims raw => (sample_claims raw, w)
  | XSrv _ e => sample_db _ e w
  end.

(** An address is neither verified nor unique.  Bob gives his profile the address of an
    administrator who has not signed in yet; her first sign-in is then into bob's account, and
    makes it an administrator's. *)
Example address_taken :
  let '(r, w) := run dex_fun (@Dex_Login ascii_folding ["root@x"] "root") settled_world in
  r = Some (DexRedirect (login_page +:+ "bob")) /\ admin_ids (w_tables w) = ["bob"] /\
  u_Username <$> t_users (w_tables w) = ["alice"; "bob"].
Proof. vm_compute. done. Qed.

(** An identity without an address is given the first account that has none. *)
Example no_address :
  let w0 := with_tables sample_world (insert_row sample_tables TUser (sample_user "carol" "" SystemRolePlatformAdmin)) in
  (run dex_fun (@Dex_Login ascii_folding ["root@x"] "anyone") w0).1 = Some (DexRedirect (login_page +:+ "carol")).
Proof. vm_compute. done. Qed.

Lemma sample_dex_runs {A} (p : dprog A) w r :
  (run dex_fun p w).1 = Some r -> runs (dex_world (fun_world sample_db) sample_exchange (λ _, inr tt) sample_claims) p w r (run dex_fun p w).2.
Proof.
  intros Hr%run_runs. remember (run dex_fun p w).2 as w' eqn:E. clear E.
  induction Hr as [b s|T e k s x s1 b s2 He Hr IH]; [constructor|]. econstructor; [|exact IH].
  destruct e; unfold fun_world in *; cbn in He; simplify_eq; done.
Qed.

Lemma Dex_Login_vouched_witness :
  exists w', runs (dex_world (fun_world sample_db) sample_exchange (λ _, inr tt) sample_claims)
    (@Dex_Login ascii_folding ["root@x"] "root") sample_world (DexRedirect (login_page +:+ sample_uuid sample_world)) w' /\
  exists cl, vouched sample_exchange (λ _, inr tt) sample_claims "root" cl.
Proof.
  eexists. assert (Hr := @sample_dex_runs _ (@Dex_Login ascii_folding ["root@x"] "root") sample_world
    (DexRedirect (login_page +:+ sample_uuid sample_world)) ltac:(vm_compute; reflexivity)).
  split; [exact Hr|].
  exact (proj2 (@Dex_Login_vouched plain_like _ sample_gorm ascii_folding sample_exchange (λ _, inr tt) sample_claims _ _ _ _ _ Hr)).
Defined.
