(* ===== verification/Cli.v ===== *)
(** * Cli: the command line program
    ([cmd/lattice/cmd] and its packages [policy], [token], [peer] and [workspace],
    [internal/agent/client/admin.go] and [client.go], [internal/server/server/nats_admin.go])

    A command connects to the bus, asks the management server and prints what it is
    answered; [init] asks for the settings and saves them. *)

From S2P Require Import Prelude Prog Net Api Message Store Mgmt Policies Peers Tokens Signal.
From S2P Require Workspaces Llm ClusterPeering Server Config.
Import ClusterPeering (json(..)).

(** ** What the commands do *)

(** [LDial]: the connection to the bus.  [LTable]: the rows of a table, the first with the names of
    the columns, and the error of writing it. *)
Inductive cliE : Type -> Type :=
| LDial : cliE (gresult unit)
| LNats (T : Type) (e : natsE T) : cliE T
| LPrint (line : string) : cliE unit
| LTable (rows : list (list string)) : cliE (gresult unit).
Abbreviation lprog := (prog cliE).

(** [version.Info]. *)
Record Info := { vi_Version : string; vi_GitCommit : string; vi_BuildTime : string; vi_GoVersion : string }.

(** The JSON of the requests, as values, and of the answers; [minute_text]: a time to the minute. *)
Class AdminJSON := {
  to_wire : json -> string;
  of_wire : string -> gresult json;
  encode_workspace : Workspaces.WorkspaceVo -> string;
  decode_workspace : string -> gresult Workspaces.WorkspaceVo;
  encode_workspaces : list Workspaces.WorkspaceVo -> string;
  decode_workspaces : string -> gresult (list Workspaces.WorkspaceVo);
  encode_policy_vo : PolicyVo -> string;
  decode_policy_vo : string -> gresult PolicyVo;
  encode_policy_vos : list PolicyVo -> string;
  decode_policy_vos : string -> gresult (list PolicyVo);
  encode_rows : list PeerRow -> string;
  decode_rows : string -> gresult (list PeerRow);
  encode_labelled : string * labels -> string;
  decode_labelled : string -> gresult (string * labels);
  encode_tokens : list TokenVo -> string;
  decode_tokens : string -> gresult (list TokenVo);
  encode_info : Info -> string;
  decode_info : string -> gresult Info;
  minute_text : Z -> string;
}.

Section client.
Context `{AdminJSON} `{MapRange}.

Definition say (line : string) : lprog unit := call (LPrint line).
Definition service : string := "lattice.signals.service".
Definition nats_call (method payload : string) : lprog (gresult string) := translate LNats (Request service method payload).
Definition admin_call (method : string) (payload : json) : lprog (gresult string) := nats_call method (to_wire payload).

(** A map is written with its keys in order. *)
Definition text_members (l : list (string * string)) : json := JObject ((λ kv, (kv.1, JString kv.2)) <$> l).
Definition label_members (l : labels) : json := text_members (sort_by fst (map_to_list l)).
(** The answer to a request, decoded. *)
Definition read {A} (decode : string -> gresult A) (data : string) (k : A -> lprog (gresult unit)) : lprog (gresult unit) :=
  match decode data with inl err => Ret (inl err) | inr x => k x end.

(** *** Workspaces *)

Definition client_AddWorkspace (slug namespace displayName : string) : lprog (gresult unit) :=
  data ←? admin_call "workspace.add" (text_members [("display_name", displayName); ("namespace", namespace); ("slug", slug)]);
  read decode_workspace data (λ ws,
    _ ← say "workspace created"; _ ← say ("  name:      " +:+ Workspaces.wv_Slug ws);
    _ ← say ("  namespace: " +:+ Workspaces.wv_Namespace ws); _ ← say ("  status:    " +:+ Workspaces.wv_Status ws);
    _ ← say ("Use -n " +:+ Workspaces.wv_Namespace ws +:+ " for token/policy commands targeting this workspace."); Ret (inr tt)).
Definition client_RemoveWorkspace (namespace : string) : lprog (gresult unit) :=
  _ ←? admin_call "workspace.remove" (text_members [("namespace", namespace)]);
  _ ← say ("workspace " +:+ go_quote namespace +:+ " removed"); Ret (inr tt).
Definition client_ListWorkspaces : lprog (gresult unit) :=
  data ←? admin_call "workspace.list" (text_members []);
  read decode_workspaces data (λ l,
    match l with
    | [] => _ ← say "no workspaces found"; Ret (inr tt)
    | l => call (LTable (["NAME"; "NAMESPACE"; "DISPLAY-NAME"; "NODES"; "STATUS"] ::
             ((λ ws, [Workspaces.wv_Slug ws; Workspaces.wv_Namespace ws; Workspaces.wv_DisplayName ws;
                      pretty (Workspaces.wv_NodeCount ws); Workspaces.wv_Status ws]) <$> l)))
    end).

(** *** Policies *)

Definition say_policy (title : string) (p : PolicyVo) : lprog (gresult unit) :=
  _ ← say title; _ ← say ("  action:  " +:+ pv_Action p); _ ← say ("  types:   " +:+ str_join ", " (pv_PolicyTypes p));
  Ret (inr tt).
Definition client_AddPolicy (namespace name action description : string) : lprog (gresult unit) :=
  data ←? admin_call "policy.add" (text_members [("action", action); ("description", description); ("name", name); ("namespace", namespace)]);
  read decode_policy_vo data (λ p, say_policy ("policy " +:+ go_quote (pv_Name p) +:+ " applied") p).
Definition client_AllowAll (namespace : string) : lprog (gresult unit) :=
  data ←? admin_call "policy.allow-all" (text_members [("namespace", namespace)]);
  read decode_policy_vo data (λ p, say_policy ("policy " +:+ go_quote (pv_Name p) +:+ " applied (full-mesh, network label selector)") p).
Definition client_RemovePolicy (namespace name : string) : lprog (gresult unit) :=
  _ ←? admin_call "policy.remove" (text_members [("name", name); ("namespace", namespace)]);
  _ ← say ("policy " +:+ go_quote name +:+ " removed from " +:+ namespace); Ret (inr tt).
Definition client_ListPolicies (namespace : string) : lprog (gresult unit) :=
  data ←? admin_call "policy.list" (text_members [("namespace", namespace)]);
  read decode_policy_vos data (λ l,
    match l with
    | [] => _ ← say ("no policies in namespace " +:+ go_quote namespace); Ret (inr tt)
    | l => call (LTable (["NAME"; "ACTION"; "TYPES"; "DESCRIPTION"] ::
             ((λ p, [pv_Name p; pv_Action p; str_join "," (pv_PolicyTypes p); pv_Description p]) <$> l)))
    end).

(** *** Peers *)

Definition client_ListPeers (namespace : string) : lprog (gresult unit) :=
  data ←? admin_call "peer.list" (text_members [("namespace", namespace)]);
  read decode_rows data (λ l,
    match l with
    | [] => _ ← say ("no peers in namespace " +:+ go_quote namespace); Ret (inr tt)
    | l => call (LTable (["NAME"; "APP-ID"; "IP"; "NETWORK"; "PHASE"] ::
             ((λ p, [prow_Name p; prow_AppID p; prow_IP p; prow_Network p; prow_Phase p]) <$> l)))
    end).
Definition label_request (namespace peerName : string) (ls : labels) : json :=
  JObject [("labels", label_members ls); ("namespace", JString namespace); ("peer_name", JString peerName)].
Definition client_PeerLabel (namespace peerName : string) (ls : labels) : lprog (gresult unit) :=
  data ←? admin_call "peer.label" (label_request namespace peerName ls);
  read decode_labelled data (λ result,
    _ ← say ("labels updated on peer " +:+ go_quote result.1);
    call (LTable (["KEY"; "VALUE"] :: ((λ kv, [kv.1; kv.2]) <$> go_range result.2)))).

(** *** Tokens *)

Definition client_ListTokens (namespace : string) : lprog (gresult unit) :=
  data ←? admin_call "token.list" (text_members [("namespace", namespace)]);
  read decode_tokens data (λ l,
    match l with
    | [] => _ ← say "no tokens found"; Ret (inr tt)
    | l => call (LTable (["TOKEN"; "NAMESPACE"; "LIMIT"; "EXPIRY"] ::
             ((λ t, [tv_Token t; tv_Namespace t; if tv_UsageLimit t =? 0 then "unlimited" else pretty (tv_UsageLimit t);
                     if tv_Expiry t =? 0 then "never" else minute_text (tv_Expiry t)]) <$> l)))
    end).
Definition client_RemoveToken (namespace token : string) : lprog (gresult unit) :=
  _ ←? admin_call "token.remove" (text_members [("namespace", namespace); ("token", token)]);
  _ ← say ("token " +:+ go_quote token +:+ " revoked"); Ret (inr tt).
(** The limit is not sent. *)
Definition token_request (namespace name expiry : string) : json :=
  JObject [("namespace", JString namespace); ("name", JString name); ("expiry", JString expiry); ("limit", JNumber 0)].
Definition client_CreateToken (namespace name expiry : string) : lprog (gresult unit) :=
  data ←? admin_call "createToken" (token_request namespace name expiry);
  _ ← say ("Token Created: " +:+ data); Ret (inr tt).

(** *** The version *)

Definition client_Info (own : Info) : lprog (gresult unit) :=
  _ ← say ("AgentInterface Version: " +:+ vi_Version own); _ ← say ("AgentInterface GitCommit: " +:+ vi_GitCommit own);
  data ← nats_call "info" "";
  match data with
  | inl _ => _ ← say "Server Version: [Offline/Unknown]"; Ret (inr tt)
  | inr data =>
      match decode_info data with
      | inl err => _ ← say "Server Version: [Offline/Unknown]"; Ret (inl err)
      | inr i => _ ← say ("Server Version: " +:+ vi_Version i); _ ← say ("Server GitCommit: " +:+ vi_GitCommit i); Ret (inr tt)
      end
  end.

(** *** Networks *)

Definition network_request (appIds : list string) (name cidr : string) : json :=
  JObject (((λ kv, (kv.1, JString kv.2)) <$> filter (λ kv, kv.2 <> "") [("name", name); ("cidr", cidr)]) ++
           match appIds with [] => [] | l => [("app_ids", JArray (JString <$> l))] end).
Definition network_call (method : string) (v : json) : lprog (gresult string) :=
  translate LNats (Request "lattice.signals.register" method (to_wire v)).
Definition manager_CreateNetwork (name cidr : string) : lprog (gresult unit) :=
  _ ←? network_call "create_network" (network_request [] name cidr); Ret (inr tt).
Definition manager_JoinNetwork (appId name cidr : string) : lprog (gresult unit) :=
  resp ←? network_call "join_network" (network_request [appId] name cidr); _ ← say resp; Ret (inr tt).
Definition manager_LeaveNetwork (appId name cidr : string) : lprog (gresult unit) :=
  resp ←? network_call "leave_network" (network_request [appId] name cidr); _ ← say resp; Ret (inr tt).

(** ** The commands *)

(** The arguments and flags of each. *)
Inductive Command :=
| WorkspaceAdd (slug namespace displayName : string)
| WorkspaceRemove (namespace : string)
| WorkspaceList
| PolicyAdd (name namespace action description : string)
| PolicyAllowAll (namespace : string)
| PolicyRemove (name namespace : string)
| PolicyList (namespace : string)
| PeerList (namespace : string)
| PeerLabel (name : string) (kvs : list string) (namespace : string)
| TokenCreate (name namespace expiry : string) (limit : Z)
| TokenList (namespace : string)
| TokenRemove (token namespace : string).

(** The key and the value of [key=value], cut at the first sign. *)
Fixpoint cut_equals (s : string) : option (string * string) :=
  match s with
  | EmptyString => None
  | String c s => if bool_decide (c = ascii_of_nat 61) then Some ("", s)
                  else match cut_equals s with Some (k, v) => Some (String c k, v) | None => None end
  end.
Fixpoint parse_labels (kvs : list string) (ls : labels) : gresult labels :=
  match kvs with
  | [] => inr ls
  | kv :: kvs =>
      match cut_equals kv with
      | Some (String c k, v) => parse_labels kvs (<[String c k := v]> ls)
      | _ => inl (ErrText ("invalid label format " +:+ go_quote kv +:+ " — expected key=value"))
      end
  end.

Definition connected (k : lprog (gresult unit)) : lprog (gresult unit) := _ ←? call LDial; k.
(** What a command asks of the flag for the namespace. *)
Definition with_namespace (namespace hint : string) (k : lprog (gresult unit)) : lprog (gresult unit) :=
  if bool_decide (namespace = "") then Ret (inl (ErrText ("namespace is required (-n <namespace>)" +:+ hint))) else k.
Definition available : string := String (ascii_of_nat 10) "  run 'lattice workspace list' to see available namespaces".

(** [RunE] of each command. *)
Definition workspaceAddCmd (slug namespace displayName : string) : lprog (gresult unit) :=
  connected (client_AddWorkspace slug namespace displayName).
Definition workspaceRemoveCmd (namespace : string) : lprog (gresult unit) := connected (client_RemoveWorkspace namespace).
Definition workspaceListCmd : lprog (gresult unit) := connected client_ListWorkspaces.
Definition policyAddCmd (name namespace action description : string) : lprog (gresult unit) :=
  with_namespace namespace available (connected (client_AddPolicy namespace name action description)).
Definition policyAllowAllCmd (namespace : string) : lprog (gresult unit) :=
  with_namespace namespace available (connected (client_AllowAll namespace)).
Definition policyRemoveCmd (name namespace : string) : lprog (gresult unit) :=
  with_namespace namespace "" (connected (client_RemovePolicy namespace name)).
Definition policyListCmd (namespace : string) : lprog (gresult unit) :=
  with_namespace namespace "" (connected (client_ListPolicies namespace)).
Definition peerListCmd (namespace : string) : lprog (gresult unit) :=
  with_namespace namespace available (connected (client_ListPeers namespace)).
Definition peerLabelCmd (peerName : string) (kvs : list string) (namespace : string) : lprog (gresult unit) :=
  with_namespace namespace "" match parse_labels kvs ∅ with
    | inl err => Ret (inl err)
    | inr ls => connected (client_PeerLabel namespace peerName ls)
    end.
(** The limit is not used. *)
Definition tokenCreateCmd (name namespace expiry : string) (limit : Z) : lprog (gresult unit) :=
  connected (client_CreateToken namespace name expiry).
Definition tokenListCmd (namespace : string) : lprog (gresult unit) := connected (client_ListTokens namespace).
Definition tokenRemoveCmd (token namespace : string) : lprog (gresult unit) := connected (client_RemoveToken namespace token).

Definition run_command (c : Command) : lprog (gresult unit) :=
  match c with
  | WorkspaceAdd slug ns displayName => workspaceAddCmd slug ns displayName
  | WorkspaceRemove ns => workspaceRemoveCmd ns
  | WorkspaceList => workspaceListCmd
  | PolicyAdd name ns action desc => policyAddCmd name ns action desc
  | PolicyAllowAll ns => policyAllowAllCmd ns
  | PolicyRemove name ns => policyRemoveCmd name ns
  | PolicyList ns => policyListCmd ns
  | PeerList ns => peerListCmd ns
  | PeerLabel name kvs ns => peerLabelCmd name kvs ns
  | TokenCreate name ns expiry limit => tokenCreateCmd name ns expiry limit
  | TokenList ns => tokenListCmd ns
  | TokenRemove token ns => tokenRemoveCmd token ns
  end.
End client.

(** ** The server's side *)

Section admin.
Context `{AdminJSON} `{MapRange} `{Durations} `{PolicyJSON} `{Workspaces.SlugText}.

Definition invalid_request {A} (r : gresult A) : gresult A :=
  match r with inl err => inl (ErrWrap "invalid request" err) | inr x => inr x end.
(** A request: the object, or what is wrong with it. *)
Definition request (struct data : string) : gresult (list (string * json)) :=
  match of_wire data with inl err => inl err | inr v => Llm.members v "value" struct end.
(** Fields of texts, in the order of the struct. *)
Fixpoint text_fields (struct : string) (keys : list string) (l : list (string * json)) : gresult (list string) :=
  match keys with
  | [] => inr []
  | key :: keys =>
      match Llm.text_field struct "" key l, text_fields struct keys l with
      | inl err, _ => inl err
      | inr _, inl err => inl err
      | inr s, inr r => inr (s :: r)
      end
  end.
(** The texts of a request, given to its handler. *)
Definition with_texts (struct : string) (keys : list string) (data : string) (k : list string -> mprog (gresult string))
    : mprog (gresult string) :=
  match invalid_request (match request struct data with inl err => inl err | inr l => text_fields struct keys l end) with
  | inl err => Ret (inl err)
  | inr texts => k texts
  end.
Definition nth_text (n : nat) (l : list string) : string := nth n l "".
Definition encoded {A} (encode : A -> string) (p : mprog (gresult A)) : mprog (gresult string) := x ←? p; Ret (inr (encode x)).
Definition no_data (_ : unit) : string := "".

Definition label_texts (v : json) : gresult labels :=
  match v with
  | JNull => inr ∅
  | JObject l =>
      match Llm.each (λ kv, match kv.2 with JString s => inr (kv.1, s) | JNull => inr (kv.1, "")
                            | v => inl (Llm.type_error v "struct field peerLabelReq.labels" "string") end) l with
      | inl err => inl err
      | inr l => inr (list_to_map (rev l))
      end
  | v => inl (Llm.type_error v "struct field peerLabelReq.labels" "map[string]string")
  end.
Definition label_handler (data : string) : mprog (gresult string) :=
  match invalid_request (match request "server.peerLabelReq" data with
    | inl err => inl err
    | inr l => match text_fields "peerLabelReq" ["namespace"; "peer_name"] l, label_texts (Llm.member "labels" l) with
               | inl err, _ => inl err | inr _, inl err => inl err | inr t, inr ls => inr (t, ls) end
    end) with
  | inl err => Ret (inl err)
  | inr (t, ls) =>
      stored ←? kapi (NatsPeerLabel (nth_text 0 t) (nth_text 1 t) ls);
      Ret (inr (encode_labelled (nth_text 1 t, stored)))
  end.

(** The handlers of the subjects of the commands, by name. *)
Definition admin_handlers (version : Info) : gmap string (string -> mprog (gresult string)) := list_to_map [
  ("Info", λ _, Ret (inr (encode_info version)));
  ("CreateToken", λ data, with_texts "struct" ["namespace"] data (λ t,
     encoded (λ token, to_wire (JObject [("token", JString token)])) (server_CreateToken (nth_text 0 t))));
  ("NatsAddWorkspace", λ data, with_texts "server.workspaceAddReq" ["slug"; "namespace"; "display_name"] data (λ t,
     encoded encode_workspace (db (Workspaces.NatsAddWorkspace (nth_text 0 t) (nth_text 1 t) (nth_text 2 t)))));
  ("NatsRemoveWorkspace", λ data, with_texts "server.workspaceRemoveReq" ["namespace"] data (λ t,
     encoded no_data (db (Workspaces.NatsRemoveWorkspace (nth_text 0 t)))));
  ("NatsListWorkspaces", λ _, encoded encode_workspaces (db Workspaces.NatsListWorkspaces));
  ("NatsAddPolicy", λ data, with_texts "server.policyAddReq" ["namespace"; "name"; "action"; "description"] data (λ t,
     encoded encode_policy_vo (NatsAddPolicy (nth_text 0 t) (nth_text 1 t) (nth_text 2 t) (nth_text 3 t))));
  ("NatsAllowAll", λ data, with_texts "server.allowAllReq" ["namespace"] data (λ t, encoded encode_policy_vo (NatsAllowAll (nth_text 0 t))));
  ("NatsRemovePolicy", λ data, with_texts "server.policyRemoveReq" ["namespace"; "name"] data (λ t,
     encoded no_data (NatsRemovePolicy (nth_text 0 t) (nth_text 1 t))));
  ("NatsListPolicies", λ data, with_texts "server.policyListReq" ["namespace"] data (λ t,
     encoded encode_policy_vos (NatsListPolicies (nth_text 0 t))));
  ("NatsListTokens", λ data, with_texts "server.tokenListReq" ["namespace"] data (λ t,
     encoded encode_tokens (NatsListTokens (nth_text 0 t))));
  ("NatsRemoveToken", λ data, with_texts "server.tokenRemoveReq" ["namespace"; "token"] data (λ t,
     encoded no_data (NatsRemoveToken (nth_text 0 t) (nth_text 1 t))));
  ("NatsPeerList", λ data, with_texts "server.peerListReq" ["namespace"] data (λ t,
     encoded encode_rows (kapi (NatsPeerList (nth_text 0 t)))));
  ("NatsPeerLabel", label_handler) ].

(** Who answers on a subject: the handler that the table of the server names. *)
Definition admin_routes {S} (version : Info) (w : forall T, mgmtE T -> S -> T -> S -> Prop)
    (subject data : string) (s : S) (answer : gresult string) (s' : S) : Prop :=
  exists name f, Server.bus_routes !! subject = Some name /\ admin_handlers version !! name = Some f /\ runs w (f data) s answer s'.
End admin.

(** ** Correctness *)

Section facts.
Context `{AdminJSON} `{MapRange} `{Durations} `{PolicyJSON} `{Workspaces.SlugText}.

(** What a command asks of the server, and under which name. *)
Definition operation (c : Command) : mprog (gresult string) :=
  match c with
  | WorkspaceAdd slug ns displayName => encoded encode_workspace (db (Workspaces.NatsAddWorkspace slug ns displayName))
  | WorkspaceRemove ns => encoded no_data (db (Workspaces.NatsRemoveWorkspace ns))
  | WorkspaceList => encoded encode_workspaces (db Workspaces.NatsListWorkspaces)
  | PolicyAdd name ns action desc => encoded encode_policy_vo (NatsAddPolicy ns name action desc)
  | PolicyAllowAll ns => encoded encode_policy_vo (NatsAllowAll ns)
  | PolicyRemove name ns => encoded no_data (NatsRemovePolicy ns name)
  | PolicyList ns => encoded encode_policy_vos (NatsListPolicies ns)
  | PeerList ns => encoded encode_rows (kapi (NatsPeerList ns))
  | PeerLabel name kvs ns =>
      match parse_labels kvs ∅ with
      | inl err => Ret (inl err)
      | inr ls => stored ←? kapi (NatsPeerLabel ns name ls); Ret (inr (encode_labelled (name, stored)))
      end
  | TokenCreate _ ns _ _ => encoded (λ token, to_wire (JObject [("token", JString token)])) (server_CreateToken ns)
  | TokenList ns => encoded encode_tokens (NatsListTokens ns)
  | TokenRemove token ns => encoded no_data (NatsRemoveToken ns token)
  end.
Definition command_request (c : Command) : json :=
  match c with
  | WorkspaceAdd slug ns displayName => text_members [("display_name", displayName); ("namespace", ns); ("slug", slug)]
  | WorkspaceList => text_members []
  | PolicyAdd name ns action desc => text_members [("action", action); ("description", desc); ("name", name); ("namespace", ns)]
  | PolicyRemove name ns => text_members [("name", name); ("namespace", ns)]
  | PeerLabel name kvs ns => label_request ns name match parse_labels kvs ∅ with inr ls => ls | inl _ => ∅ end
  | TokenCreate name ns expiry _ => token_request ns name expiry
  | TokenRemove token ns => text_members [("namespace", ns); ("token", token)]
  | WorkspaceRemove ns | PolicyAllowAll ns | PolicyList ns | PeerList ns | TokenList ns => text_members [("namespace", ns)]
  end.

(** A command in a world of the management server: the bus reaches it, and printing changes nothing. *)
Context {S : Type} (version : Info) (w : forall T, mgmtE T -> S -> T -> S -> Prop).
Definition cli_world T (e : cliE T) (s : S) (r : T) (s' : S) : Prop :=
  match e in cliE T return T -> Prop with
  | LNats _ e => λ r, bus_world (admin_routes version w) _ e s r s'
  | _ => λ _, s' = s
  end r.
(** Programs that only print. *)
Definition quiet {A} (p : lprog A) : Prop := forall s r s', runs cli_world p s r s' -> s' = s.

Lemma quiet_ret {A} (x : A) : quiet (Ret x).
Proof using Type. intros s r s' Hr. by apply runs_ret_inv in Hr as [_ ->]. Qed.
Lemma quiet_say line {A} (k : lprog A) : quiet k -> quiet (_ ← say line; k).
Proof using Type.
  intros Hk s r s' Hr. apply runs_bind_inv in Hr as (u & s1 & Hu & Hr). apply runs_call_inv in Hu. cbn in Hu. subst s1.
  by apply Hk in Hr.
Qed.
Lemma quiet_table rows : quiet (call (LTable rows)).
Proof using Type. intros s r s' Hr. by apply runs_call_inv in Hr. Qed.
Lemma quiet_read {A} (decode : string -> gresult A) data k : (forall x, quiet (k x)) -> quiet (read decode data k).
Proof using Type. intros Hk. unfold read. destruct (decode data); [apply quiet_ret|apply Hk]. Qed.
Hint Resolve quiet_ret quiet_say quiet_table quiet_read : quiet.

Lemma runs_nats {A} (p : prog natsE A) s a s' : runs cli_world (translate LNats p) s a s' ->
  runs (bus_world (admin_routes version w)) p s a s'.
Proof using Type.
  revert s. induction p as [x| |T e k IH]; intros s Hr; cbn in Hr.
  - apply runs_ret_inv in Hr as [-> ->]. constructor.
  - inversion Hr.
  - apply runs_vis_inv in Hr as (r & s1 & Hh & Hr). econstructor; [exact Hh|by apply IH].
Qed.

(** The server did what it was asked once, or nothing was done; a command that ends well
    was answered. *)
Definition done_once (op : mprog (gresult string)) (s : S) (r : gresult unit) (s' : S) : Prop :=
  match r with
  | inr _ => exists answer text, runs w op s answer s' /\ answered answer = inr text
  | inl _ => s' = s \/ exists answer, runs w op s answer s'
  end.

(** A command of the usual form: it connects, asks and prints. *)
Lemma asked_once method name payload f op (k : string -> lprog (gresult unit)) s r s' :
  Server.bus_routes !! (service +:+ "." +:+ method) = Some name -> admin_handlers version !! name = Some f ->
  f (to_wire payload) = op -> (forall data, quiet (k data)) ->
  runs cli_world (connected (data ←? admin_call method payload; k data)) s r s' -> done_once op s r s'.
Proof using Type.
  intros Hsub Hname Hop Hk Hr. unfold connected in Hr. apply runs_bind_inv in Hr as (d & s1 & Hd & Hr).
  apply runs_call_inv in Hd. cbn in Hd. subst s1. destruct d as [err|[]]; [apply runs_ret_inv in Hr as [-> ->]; by left|].
  apply runs_bind_inv in Hr as (a & s1 & Ha & Hr). apply runs_nats, Request_at_most_once in Ha.
  assert (Hserved : forall answer s2, admin_routes version w (service +:+ "." +:+ method) (to_wire payload) s answer s2 ->
    runs w op s answer s2).
  { intros answer s2 (n & g & Hn & Hg & Hrun). rewrite Hsub in Hn. injection Hn as <-. rewrite Hname in Hg. injection Hg as <-.
    by rewrite Hop in Hrun. }
  destruct a as [err|text].
  - apply runs_ret_inv in Hr as [-> ->]. destruct Ha as [->|[answer Ha]]; [by left|right]. exists answer. by apply Hserved.
  - destruct Ha as (answer & Ha & Et). apply Hserved in Ha. apply Hk in Hr as ->. unfold done_once. destruct r as [err|[]]; [right|]; eauto.
Qed.

Lemma each_texts struct (l : list (string * string)) :
  Llm.each (λ kv, match kv.2 with JString s => inr (kv.1, s) | JNull => inr (kv.1, "")
                  | v => inl (Llm.type_error v struct "string") end) ((λ kv, (kv.1, JString kv.2)) <$> l) = inr l.
Proof using Type. induction l as [|[k v] l IH]; [done|]. cbn. by rewrite IH. Qed.
Lemma label_texts_members ls : label_texts (label_members ls) = inr ls.
Proof using Type.
  unfold label_members, text_members, label_texts. rewrite each_texts. f_equal. apply map_eq. intros k.
  apply option_eq. intros v.
  assert (Hnd : NoDup ((rev (sort_by fst (map_to_list ls))).*1)).
  { rewrite <- Permutation_rev, sort_by_perm. apply NoDup_fst_map_to_list. }
  rewrite <- elem_of_list_to_map by done. rewrite <- Permutation_rev, sort_by_perm. apply elem_of_map_to_list.
Qed.

(** C19. The command line.  When the JSON of the request can be read back, a command does on the server what its
    arguments name, once or not at all; and once, with its answer, when the command ends well.  The
    name, the expiry and the limit that [token create] is given are not among what it does. *)
Theorem command_done_once c s r s' :
  of_wire (to_wire (command_request c)) = inr (command_request c) ->
  runs cli_world (run_command c) s r s' -> done_once (operation c) s r s'.
Proof using Type.
  intros Hw Hr.
  assert (Hns : forall ns hint k, runs cli_world (with_namespace ns hint k) s r s' ->
    runs cli_world k s r s' \/ done_once (operation c) s r s').
  { intros ns hint k Hk. unfold with_namespace in Hk. case_bool_decide; [right|by left].
    apply runs_ret_inv in Hk as [-> ->]. by left. }
  assert (Hreq : forall struct, request struct (to_wire (command_request c)) = Llm.members (command_request c) "value" struct).
  { intros struct. unfold request. by rewrite Hw. }
  destruct c; cbn [run_command command_request operation] in *;
    unfold workspaceAddCmd, workspaceRemoveCmd, workspaceListCmd, policyAddCmd, policyAllowAllCmd, policyRemoveCmd,
      policyListCmd, peerListCmd, peerLabelCmd, tokenCreateCmd, tokenListCmd, tokenRemoveCmd in Hr; try (apply Hns in Hr as [Hr|Hr]; [|exact Hr]).
  9: { revert Hr Hreq. destruct (parse_labels kvs ∅) as [err|ls]; intros Hr Hreq; [apply runs_ret_inv in Hr as [-> ->]; by left|].
       eapply asked_once in Hr; [exact Hr|reflexivity|reflexivity|..].
       - cbn [snd]. unfold label_handler. rewrite Hreq. cbn [Llm.members label_request].
         change (text_fields _ _ _) with (inr [namespace; name] : gresult (list string)).
         change (Llm.member _ _) with (label_members ls). by rewrite label_texts_members.
       - intros data. apply quiet_read. intros [name' ls']. apply quiet_say, quiet_table. }
  all: eapply asked_once in Hr; [exact Hr|reflexivity|reflexivity|..].
  all: try (cbn [snd]; unfold with_texts; rewrite Hreq; reflexivity).
  all: try done.
  all: intros data; try unfold say_policy; try (apply quiet_read; intros []); repeat apply quiet_say; auto with quiet.
Qed.

(** No subject of the network manager is served: none of its calls succeeds. *)
Lemma network_manager_unserved appId p s s' :
  p ∈ [manager_CreateNetwork; manager_JoinNetwork appId; manager_LeaveNetwork appId] ->
  ~ exists name cidr, runs cli_world (p name cidr) s (inr tt) s'.
Proof using Type.
  intros Hp (name & cidr & Hr).
  assert (Hno : forall method v, method ∈ ["create_network"; "join_network"; "leave_network"] ->
    forall text s1, ~ runs cli_world (network_call method v) s (inr text) s1).
  { intros method v Hm text s1 Hc. apply runs_nats, Request_at_most_once in Hc as (a & (n & f & Hn & _) & _).
    rewrite !elem_of_cons, elem_of_nil in Hm. destruct Hm as [->|[->|[->|[]]]]; vm_compute in Hn; discriminate. }
  rewrite !elem_of_cons, elem_of_nil in Hp. destruct Hp as [->|[->|[->|[]]]];
    apply runs_bind_inv in Hr as ([err|text] & s1 & Hc & Hr); try (by apply runs_ret_inv in Hr as [? _]);
    (eapply Hno; [|exact Hc]); set_solver.
Qed.
End facts.

(** ** What the commands do not do *)

Section examples.
Context `{AdminJSON} `{MapRange} `{Durations} `{PolicyJSON} `{Workspaces.SlugText}.

(** The name, the expiry and the limit of [token create] change nothing. *)
Example token_options_ignored name name' ns expiry expiry' limit limit' :
  operation (TokenCreate name ns expiry limit) = operation (TokenCreate name' ns expiry' limit').
Proof. reflexivity. Qed.
(** [token list] without a namespace is said to list all the tokens. *)
Example token_list_needs_namespace : operation (TokenList "") = Ret (inl (ErrText "namespace is required")).
Proof. reflexivity. Qed.
(** A label without a key is refused before the server is asked. *)
Example label_without_key name ns : ns <> "" -> exists err, run_command (PeerLabel name ["=v"] ns) = Ret (inl err).
Proof. intros Hns. eexists. cbn. unfold peerLabelCmd, with_namespace. by rewrite bool_decide_false. Qed.
End examples.

(** ** A token is revoked *)

Definition week_only : Durations.
Proof. refine {| ParseDuration := λ _, inr (168 * 3600 * 10 ^ 9) |}. reflexivity. Defined.
Definition sample_revoke : Command := TokenRemove "T" "wf-ws-a".
Definition sample_admin : AdminJSON := {|
  to_wire := λ _, "request"; of_wire := λ _, inr (text_members [("namespace", "wf-ws-a"); ("token", "T")]);
  encode_workspace := λ _, ""; decode_workspace := λ _, inl (ErrText ""); encode_workspaces := λ _, "";
  decode_workspaces := λ _, inl (ErrText ""); encode_policy_vo := λ _, ""; decode_policy_vo := λ _, inl (ErrText "");
  encode_policy_vos := λ _, ""; decode_policy_vos := λ _, inl (ErrText ""); encode_rows := λ _, "";
  decode_rows := λ _, inl (ErrText ""); encode_labelled := λ _, ""; decode_labelled := λ _, inl (ErrText "");
  encode_tokens := λ _, ""; decode_tokens := λ _, inl (ErrText ""); encode_info := λ _, ""; decode_info := λ _, inl (ErrText "");
  minute_text := λ _, "" |}.
Definition sample_info : Info := {| vi_Version := "v1"; vi_GitCommit := ""; vi_BuildTime := ""; vi_GoVersion := "" |}.
#[local] Existing Instances sample_admin week_only plain_policy_json Workspaces.plain_slug.
Abbreviation sample_operation := (operation sample_revoke).
Definition revoked_world : MWorld := Eval vm_compute in (run viewer_mgmt sample_operation viewer_world).2.
Abbreviation sample_cli :=
  (cli_world sample_info (fun_world viewer_mgmt)).

Lemma sample_revoked : runs (fun_world viewer_mgmt) sample_operation viewer_world (inr "") revoked_world.
Proof. apply (run_runs viewer_mgmt sample_operation viewer_world (inr "")). vm_compute. reflexivity. Qed.

Lemma command_done_once_witness :
  runs sample_cli (run_command sample_revoke) viewer_world (inr tt) revoked_world /\
  (λ c, match ac_call c with ADelete KToken k => Some k | _ => None end) <$> mw_api revoked_world =
    [Some {| key_Namespace := "wf-ws-a"; key_Name := "t" |}] /\
  exists answer, runs (fun_world viewer_mgmt) sample_operation viewer_world answer revoked_world.
Proof.
  assert (Hr : runs sample_cli (run_command sample_revoke) viewer_world (inr tt) revoked_world).
  { eapply (runs_vis _ _ LDial _ _ (inr tt)); [reflexivity|].
    eapply (runs_vis _ _ (LNats _ NConnected) _ _ true); [reflexivity|].
    eapply (runs_vis _ _ (LNats _ (NRequest "lattice.signals.service.token.remove" "request")) _ _ (inr (service_reply (inr ""))) revoked_world).
    - exists (inr ""). split; [|reflexivity]. do 2 eexists. split; [reflexivity|]. split; [reflexivity|]. exact sample_revoked.
    - eapply (runs_vis _ _ (LPrint _) _ _ tt); [reflexivity|]. apply runs_ret. }
  split; [exact Hr|]. split; [vm_compute; reflexivity|].
  assert (Hw : of_wire (to_wire (command_request sample_revoke)) = inr (command_request sample_revoke)).
  { cbn. reflexivity. }
  destruct (command_done_once sample_info (fun_world viewer_mgmt) sample_revoke _ _ _ Hw Hr) as (a & text & Ha & _).
  exists a. exact Ha.
Defined.

(** ** Setting up ([init.go]) *)

Module Init.
Import Config.

(** [IScan]: the next line of the input, empty at its end. *)
Inductive initE : Type -> Type :=
| IConf (T : Type) (e : confE T) : initE T
| IScan : initE string
| ISay (text : string) : initE unit.
Abbreviation iprog := (prog initE).

Definition prompt (label defaultVal : string) : iprog string :=
  _ ← call (ISay ("? " +:+ label +:+ (if bool_decide (defaultVal = "") then "" else " [" +:+ defaultVal +:+ "]") +:+ ": "));
  line ← call IScan;
  Ret (if bool_decide (TrimSpace line = "") then defaultVal else TrimSpace line).
Definition promptOptional (label : string) : iprog string :=
  _ ← call (ISay ("? " +:+ label +:+ " (press Enter to skip): ")); line ← call IScan; Ret (TrimSpace line).

Section init.
Context `{ViperLibrary} `{WeakDecode} (env : string -> string).

Definition GetString (v : viper) (k : string) : string := match viper_Get env v k with Some x => ToString x | None => "" end.
Definition GetConfigFilePath (cm : ConfigManager) : string := cm_dir cm +:+ "/lattice.yaml".
(** The letter y is folded with no other but its capital. *)
Definition is_yes (answer : string) : bool := bool_decide (answer = "y") || bool_decide (answer = "Y").
Definition set_text (k s : string) (v : viper) : viper := viper_Set k (VString s) v.
Definition set_optional (k s : string) (v : viper) : viper := if bool_decide (s = "") then v else set_text k s v.

(** The questions, and what is saved. *)
Definition ask_settings (v : viper) : iprog viper :=
  serverURL ← prompt "Management server URL (--server-url)" (GetString v "server-url");
  signalingURL ← prompt "Signaling server URL (--signaling-url)" (GetString v "signaling-url");
  token ← prompt "Enrollment token (--token)" (GetString v "token");
  relayURL ← promptOptional "Relay TCP URL (--relay-url, optional)";
  relayQuicURL ← promptOptional "Relay QUIC URL (--relay-quic-url, optional)";
  Ret (set_optional "relay-quic-url" relayQuicURL (set_optional "relay-url" relayURL
    (set_text "token" token (set_text "signaling-url" signalingURL (set_text "server-url" serverURL v))))).
Definition save_answers (cm : ConfigManager) : iprog (gresult unit * ConfigManager) :=
  v ← ask_settings (cm_v cm);
  let cm := {| cm_v := v; cm_once := cm_once cm; cm_dir := cm_dir cm |} in
  saved ← translate IConf (Save env cm);
  match saved with
  | inl err => Ret (inl (ErrWrap "failed to save config" err), cm)
  | inr _ =>
      _ ← call (ISay ("Config saved to " +:+ GetConfigFilePath cm)); _ ← call (ISay "Run 'lattice up' to connect."); Ret (inr tt, cm)
  end.
Definition runInit (cm : ConfigManager) : iprog (gresult unit * ConfigManager) :=
  st ← call (IConf _ (CStat (GetConfigFilePath cm)));
  match st with
  | Exists =>
      _ ← call (ISay ("Config file already exists at " +:+ GetConfigFilePath cm));
      _ ← call (ISay "Overwrite existing config? [y/N]: ");
      line ← call IScan;
      if is_yes (TrimSpace line) then save_answers cm
      else _ ← call (ISay "Aborted. Existing config unchanged."); Ret (inr tt, cm)
  | _ => save_answers cm
  end.
End init.

Section facts.
Context `{ViperLaws} `{WeakDecode} (env : string -> string) (home : string).

(** Files that can be written, and the lines of the input. *)
Definition init_world T (e : initE T) (s : gmap string settings * list string) (r : T) (s' : gmap string settings * list string) : Prop :=
  match e in initE T return T -> Prop with
  | IConf _ e => λ r, file_world home true _ e s.1 r s'.1 /\ s'.2 = s.2
  | IScan => λ r, r = hd "" s.2 /\ s' = (s.1, tl s.2)
  | ISay _ => λ _, s' = s
  end r.

Definition answer (line default : string) : string := if bool_decide (TrimSpace line = "") then default else TrimSpace line.
Definition optional_setting (k line : string) (m : settings) : settings :=
  if bool_decide (TrimSpace line = "") then m else <[k := VString (TrimSpace line)]> m.
(** What five lines answer, given the settings there were. *)
Definition answers (v : viper) (lines : list string) : settings :=
  optional_setting "relay-quic-url" (nth 4 lines "") (optional_setting "relay-url" (nth 3 lines "")
    (<["token" := VString (answer (nth 2 lines "") (GetString env v "token"))]>
    (<["signaling-url" := VString (answer (nth 1 lines "") (GetString env v "signaling-url"))]>
    (<["server-url" := VString (answer (nth 0 lines "") (GetString env v "server-url"))]> ∅)))).

Lemma set_setting k x v k' :
  AllSettings env (viper_Set k x v) !! k' = if decide (k' = str_lower k) then Some x else AllSettings env v !! k'.
Proof using All.
  rewrite !of_AllSettings, of_Set. unfold known, effective.
  cbn [ly_override ly_flag ly_env ly_config ly_default ly_flag_default layer_override].
  rewrite !lookup_union_or. destruct (decide (k' = str_lower k)) as [->|Hk]; [by rewrite !lookup_insert_eq|by rewrite !lookup_insert_ne].
Qed.

Lemma nth_tl {A} n (l : list A) d : nth n (tl l) d = nth (S n) l d.
Proof using Type. destruct l; [by destruct n|done]. Qed.
Lemma hd_nth {A} (l : list A) d : hd d l = nth 0 l d.
Proof using Type. by destruct l. Qed.
Lemma prompt_inv label d s r s' : runs init_world (prompt label d) s r s' -> r = answer (nth 0 s.2 "") d /\ s' = (s.1, tl s.2).
Proof using All.
  intros Hr. apply runs_bind_inv in Hr as (u & s1 & Hu & Hr). apply runs_call_inv in Hu. cbn in Hu. subst s1.
  apply runs_bind_inv in Hr as (l & s1 & Hl & Hr). apply runs_call_inv in Hl as [-> ->]. apply runs_ret_inv in Hr as [-> ->].
  by rewrite hd_nth.
Qed.
Lemma promptOptional_inv label s r s' : runs init_world (promptOptional label) s r s' -> r = TrimSpace (nth 0 s.2 "") /\ s' = (s.1, tl s.2).
Proof using All.
  intros Hr. apply runs_bind_inv in Hr as (u & s1 & Hu & Hr). apply runs_call_inv in Hu. cbn in Hu. subst s1.
  apply runs_bind_inv in Hr as (l & s1 & Hl & Hr). apply runs_call_inv in Hl as [-> ->]. apply runs_ret_inv in Hr as [-> ->].
  by rewrite hd_nth.
Qed.
Lemma runs_conf {A} (p : cprog A) s a s' : runs init_world (translate IConf p) s a s' -> runs (file_world home true) p s.1 a s'.1 /\ s'.2 = s.2.
Proof using All.
  revert s. induction p as [x| |T e k IH]; intros s Hr; cbn in Hr.
  - apply runs_ret_inv in Hr as [-> ->]. split; [constructor|done].
  - inversion Hr.
  - apply runs_vis_inv in Hr as (r & s1 & [Hh E] & Hr). apply IH in Hr as [Hr E']. split; [econstructor; done|congruence].
Qed.

Lemma ask_settings_inv v s v' s' : runs init_world (ask_settings env v) s v' s' ->
  s'.1 = s.1 /\ forall k, AllSettings env v' !! k = or_else (answers v s.2 !! k) (AllSettings env v !! k).
Proof using All.
  intros Hr. unfold ask_settings in Hr.
  apply runs_bind_inv in Hr as (a & s1 & Ha & Hr). apply prompt_inv in Ha as [-> ->].
  apply runs_bind_inv in Hr as (b & s1 & Hb & Hr). apply prompt_inv in Hb as [-> ->].
  apply runs_bind_inv in Hr as (c & s1 & Hc & Hr). apply prompt_inv in Hc as [-> ->].
  apply runs_bind_inv in Hr as (d & s1 & Hd & Hr). apply promptOptional_inv in Hd as [-> ->].
  apply runs_bind_inv in Hr as (e & s1 & He & Hr). apply promptOptional_inv in He as [-> ->].
  apply runs_ret_inv in Hr as [-> ->]. cbn [fst snd]. split; [done|]. intros k. rewrite !nth_tl.
  unfold answers, optional_setting, set_optional, set_text.
  repeat case_bool_decide; rewrite !set_setting; cbn [str_lower];
    repeat match goal with |- context [decide (k = ?x)] =>
      let y := eval vm_compute in x in change x with y; destruct (decide (k = y)) as [->|]; [by simplify_map_eq|] end;
    by simplify_map_eq.
Qed.

Lemma save_answers_inv cm s lines r s' : runs init_world (save_answers env cm) (s, lines) r s' -> r.1 = inr tt /\
  exists saved, s'.1 = <[GetConfigFilePath cm := saved]> s /\
    forall k, saved !! k = or_else (answers (cm_v cm) lines !! k) (AllSettings env (cm_v cm) !! k).
Proof using All.
  intros Hr. apply runs_bind_inv in Hr as (v & s1 & Hv & Hr). apply ask_settings_inv in Hv as [E1 Hv].
  cbn [fst snd] in E1, Hv. apply runs_bind_inv in Hr as (sv & s2 & Hsv & Hr). apply runs_conf in Hsv as [Hsv _].
  unfold Save, write_config in Hsv. apply runs_bind_inv in Hsv as (r1 & f & Hw & Hsv). apply runs_call_inv in Hw.
  destruct Hw as [[-> ->]|(? & _)]; [|done]. apply runs_ret_inv in Hsv as [-> E2].
  apply runs_bind_inv in Hr as (u & s3 & Hu & Hr). apply runs_call_inv in Hu. cbn in Hu. subst s3.
  apply runs_bind_inv in Hr as (u' & s3 & Hu & Hr). apply runs_call_inv in Hu. cbn in Hu. subst s3.
  apply runs_ret_inv in Hr as [-> ->]. split; [done|]. exists (AllSettings env v). by rewrite E2, E1.
Qed.

(** Setting up.  When the file is there and the first answer is not y, nothing is changed.  Otherwise the file
    has every setting there was with the answers in place of the old ones; an empty answer
    keeps what there was. *)
Theorem runInit_spec cm s lines r s' :
  runs init_world (runInit env cm) (s, lines) r s' ->
  let asked := match s !! GetConfigFilePath cm with Some _ => true | None => false end in
  r.1 = inr tt /\
  if asked && negb (is_yes (TrimSpace (nth 0 lines ""))) then s'.1 = s /\ r.2 = cm
  else exists saved, s'.1 = <[GetConfigFilePath cm := saved]> s /\
    forall k, saved !! k = or_else (answers (cm_v cm) (if asked then tl lines else lines) !! k) (AllSettings env (cm_v cm) !! k).
Proof using All.
  intros Hr asked. apply runs_bind_inv in Hr as (st & [f l] & Hst & Hr). apply runs_call_inv in Hst as [[-> Ef] El].
  cbn in Ef, El. subst f l asked. cbn [fst] in Hr. destruct (s !! GetConfigFilePath cm); cbn [andb]; [|by apply save_answers_inv in Hr].
  apply runs_bind_inv in Hr as (u & s3 & Hu & Hr). apply runs_call_inv in Hu. cbn in Hu. subst s3.
  apply runs_bind_inv in Hr as (u' & s3 & Hu & Hr). apply runs_call_inv in Hu. cbn in Hu. subst s3.
  apply runs_bind_inv in Hr as (line & s3 & Hl & Hr). apply runs_call_inv in Hl as [-> ->]. cbn [fst snd] in Hr. rewrite hd_nth in Hr.
  destruct (is_yes _); cbn [negb]; [by apply save_answers_inv in Hr|].
  apply runs_bind_inv in Hr as (u2 & s3 & Hu & Hr). apply runs_call_inv in Hu. cbn in Hu. subst s3.
  by apply runs_ret_inv in Hr as [-> ->].
Qed.
End facts.

(** A first run.  The configuration is loaded before the command runs, which writes the file when there is none; so
    [init] asks whether to overwrite it, and whoever presses Enter has set up nothing. *)
Definition init_fun T (e : initE T) (s : gmap string settings * list string) : T * (gmap string settings * list string) :=
  match e in initE T return T * (gmap string settings * list string) with
  | IConf _ e => let '(r, f) := file_handler _ e s.1 in (r, (f, s.2))
  | IScan => (hd "" s.2, (s.1, tl s.2))
  | ISay _ => (tt, s)
  end.
Definition init_after_load (lines : list string) : gmap string settings * gmap string settings :=
  let '(r, s) := files_run [] ∅ in
  match r with
  | Some (_, (v, dir, _)) =>
      (s, (run init_fun (@runInit layered plain_decode sample_env {| cm_v := v; cm_once := true; cm_dir := dir |}) (s, lines)).2.1)
  | None => (s, s)
  end.
Definition first_run (lines : list string) : bool * bool * option value :=
  let '(before, after) := init_after_load lines in
  (bool_decide (is_Some (before !! "/home/me/.lattice/lattice.yaml")), bool_decide (after = before),
   after !! "/home/me/.lattice/lattice.yaml" ≫= λ m, m !! "token").
Example init_first_run :
  first_run [""; "https://lattice.example"; "nats://n:4222"; "T"] = (true, true, None) /\
  first_run ["y"; "https://lattice.example"; "nats://n:4222"; "T"] = (true, false, Some (VString "T")).
Proof. split; vm_compute; reflexivity. Qed.
End Init.
