(* ===== verification/AuditQuery.v ===== *)
(** * AuditQuery: reading the log of changes
    ([internal/db/gormstore/audit.go], [List] of [internal/server/service/audit.go],
    [internal/server/controller/audit.go], [internal/server/server/audit.go])

    A request names a filter and a page; the log is filtered, sorted by time, and cut.  A batch
    of the writer of [AuditTrail] is stored in groups of a hundred. *)

From S2P Require Import Prelude Prog Net Api Store Access AuditTrail Mgmt Routes.

(** ** The store *)

Record AuditLogFilter := {
  fi_WorkspaceID : string; fi_Action : string; fi_Resource : string; fi_Status : string; fi_Keyword : string;
  fi_From : string; fi_To : string; fi_Page : Z; fi_PageSize : Z }.

(** The conditions of a query. *)
Inductive clause :=
| WorkspaceIs (v : string) | ActionIs (v : string) | ResourceIs (v : string) | StatusIs (v : string)
| NameLike (keyword : string) | Since (t : Z) | Until (t : Z).

(** [QFind]: the matches, newest first, from an offset on and up to a limit; an offset that is not
    positive is none.  [QInsert]: groups of rows, a statement for each, in one transaction. *)
Inductive auditE : Type -> Type :=
| QCount (cs : list clause) : auditE (gresult Z)
| QFind (cs : list clause) (offset limit : Z) : auditE (gresult (list AuditLog))
| QInsert (groups : list (list AuditLog)) : auditE (gresult unit).
Abbreviation qprog := (prog auditE).

(** [time.Parse] with the layout of RFC 3339, and how a time is shown. *)
Class TimeText := { parse_time : string -> option Z; shown_time : Z -> string }.

Section store.
Context `{TimeText}.

Definition if_given (v : string) (c : string -> clause) : list clause := if bool_decide (v = "") then [] else [c v].
(** A time that can not be read is no condition. *)
Definition if_time (v : string) (c : Z -> clause) : list clause :=
  if bool_decide (v = "") then [] else match parse_time v with Some t => [c t] | None => [] end.
Definition audit_clauses (f : AuditLogFilter) : list clause :=
  if_given (fi_WorkspaceID f) WorkspaceIs ++ if_given (fi_Action f) ActionIs ++ if_given (fi_Resource f) ResourceIs ++
  if_given (fi_Status f) StatusIs ++ if_given (fi_Keyword f) NameLike ++ if_time (fi_From f) Since ++ if_time (fi_To f) Until.
Definition audit_page (f : AuditLogFilter) : Z := if fi_Page f <? 1 then 1 else fi_Page f.
Definition audit_page_size (f : AuditLogFilter) : Z := if fi_PageSize f <? 1 then 20 else fi_PageSize f.
Definition audit_List (f : AuditLogFilter) : qprog (gresult (list AuditLog * Z)) :=
  total ←? call (QCount (audit_clauses f));
  logs ←? call (QFind (audit_clauses f) (i64 ((audit_page f - 1) * audit_page_size f)) (audit_page_size f));
  Ret (inr (logs, total)).

(** [CreateInBatches] with 100. *)
Fixpoint in_batches (n : nat) (logs : list AuditLog) : list (list AuditLog) :=
  match n, logs with
  | S n, _ :: _ => take 100 logs :: in_batches n (drop 100 logs)
  | _, _ => []
  end.
Definition BatchCreate (logs : list AuditLog) : qprog (gresult unit) :=
  match logs with [] => Ret (inr tt) | _ => call (QInsert (in_batches (length logs) logs)) end.

(** ** The answer of the server *)

Record AuditLogVo := {
  av_ID : string; av_CreatedAt : string; av_UserID : string; av_UserName : string; av_UserEmail : string; av_UserIP : string;
  av_WorkspaceID : string; av_Action : string; av_Resource : string; av_ResourceID : string; av_ResourceName : string;
  av_Scope : string; av_Status : string; av_StatusCode : Z; av_Detail : string }.
Definition toAuditVo (l : AuditLog) : AuditLogVo := {|
  av_ID := au_ID l; av_CreatedAt := shown_time (au_CreatedAt l); av_UserID := au_UserID l; av_UserName := au_UserName l;
  av_UserEmail := au_UserEmail l; av_UserIP := au_UserIP l; av_WorkspaceID := au_WorkspaceID l; av_Action := au_Action l;
  av_Resource := au_Resource l; av_ResourceID := au_ResourceID l; av_ResourceName := au_ResourceName l; av_Scope := au_Scope l;
  av_Status := au_Status l; av_StatusCode := au_StatusCode l; av_Detail := au_Detail l |}.
(** The page and its size are shown as they were asked for. *)
Definition auditController_List (f : AuditLogFilter) : qprog (gresult (PageResult AuditLogVo)) :=
  r ←? audit_List f;
  Ret (inr {| res_Total := r.2; res_Page := fi_Page f; res_PageSize := fi_PageSize f; res_List := toAuditVo <$> r.1 |}).

(** The workspace is that of the path, or else of the query. *)
Definition audit_filter (param query : string -> string) (page : Z * Z) : AuditLogFilter := {|
  fi_WorkspaceID := if bool_decide (param "id" = "") then query "workspaceId" else param "id";
  fi_Action := query "action"; fi_Resource := query "resource"; fi_Status := query "status"; fi_Keyword := query "keyword";
  fi_From := query "from"; fi_To := query "to"; fi_Page := page.1; fi_PageSize := page.2 |}.
Definition handleListAuditLogs (query : string -> string) (rq : HttpRequest) (c : Ctx)
    : qprog (Reply + PageResult AuditLogVo) :=
  match bindPage query with
  | inl err => Ret (inl BadRequest)
  | inr page =>
      r ← auditController_List (audit_filter (rq_Param rq) query page);
      Ret match r with inl err => inl (RError (error_text err)) | inr p => inr p end
  end.
End store.

(** ** Correctness *)

Definition newer (a b : AuditLog) : Prop := au_CreatedAt b <= au_CreatedAt a.

#[local] Instance newer_dec : RelDecision newer.
Proof. intros a b. unfold newer. apply _. Defined.
#[local] Instance newer_trans : Transitive newer.
Proof. intros a b c. unfold newer. lia. Qed.
#[local] Instance newer_total : Total newer.
Proof. intros a b. unfold newer. lia. Qed.

Section facts.
Context `{SqlLike} `{TimeText}.

Definition clause_holds (c : clause) (l : AuditLog) : bool :=
  match c with
  | WorkspaceIs v => bool_decide (au_WorkspaceID l = v)
  | ActionIs v => bool_decide (au_Action l = v)
  | ResourceIs v => bool_decide (au_Resource l = v)
  | StatusIs v => bool_decide (au_Status l = v)
  | NameLike k => like (au_UserName l) k || like (au_ResourceName l) k
  | Since t => t <=? au_CreatedAt l
  | Until t => au_CreatedAt l <=? t
  end.
Definition audit_matches (cs : list clause) (l : AuditLog) : bool := forallb (λ c, clause_holds c l) cs.
Definition matching_logs (cs : list clause) (log : list AuditLog) : list AuditLog := filter (λ l, audit_matches cs l = true) log.

(** A log, which queries do not change; rows of the same time come in any order. *)
Definition audit_world T (e : auditE T) (log : list AuditLog) (r : T) (log' : list AuditLog) : Prop :=
  match e in auditE T return T -> Prop with
  | QCount cs => λ r, log' = log /\ match r with inr n => n = Z.of_nat (length (matching_logs cs log)) | inl _ => True end
  | QFind cs offset limit => λ r, log' = log /\
      match r with
      | inr found => exists sorted, sorted ≡ₚ matching_logs cs log /\ StronglySorted newer sorted /\
          found = take (Z.to_nat limit) (drop (Z.to_nat offset) sorted)
      | inl _ => True
      end
  | QInsert groups => λ r, match r with inr _ => log' = log ++ concat groups | inl _ => log' = log end
  end r.

(** The newest first, when no two have the same time. *)
Definition newest_first (log sorted : list AuditLog) : Prop := sorted ≡ₚ log /\ StronglySorted newer sorted.
Lemma newest_first_unique log s1 s2 : NoDup (au_CreatedAt <$> log) -> newest_first log s1 -> newest_first log s2 -> s1 = s2.
Proof using Type.
  intros Hnd [P1 S1] [P2 S2]. apply (StronglySorted_unique_strong newer); [|done|done|by rewrite P1, P2].
  intros a b Ha Hb H1 H2. unfold newer in *. rewrite P1 in Ha. rewrite P2 in Hb.
  assert (E : au_CreatedAt a = au_CreatedAt b) by lia.
  apply list_elem_of_lookup in Ha as [i Hi], Hb as [j Hj].
  assert (i = j) as ->; [|by rewrite Hi in Hj; injection Hj].
  eapply NoDup_lookup; [exact Hnd|by rewrite list_lookup_fmap, Hi|by rewrite list_lookup_fmap, Hj, E].
Qed.

(** The writer's batch is stored whole, in groups of at most a hundred, or not at all. *)
Lemma in_batches_concat n logs : (length logs <= n)%nat ->
  concat (in_batches n logs) = logs /\ Forall (λ b, length b <= 100)%nat (in_batches n logs).
Proof using Type.
  revert logs. induction n as [|n IH]; intros logs Hn; [destruct logs; [done|cbn in Hn; lia]|]. destruct logs as [|e logs]; [done|].
  cbn [in_batches concat]. destruct (IH (drop 100 (e :: logs))) as [Hc Hf].
  { rewrite length_drop. cbn [length] in *. lia. }
  rewrite Hc, take_drop. split; [done|]. constructor; [rewrite length_take; lia|done].
Qed.
Lemma BatchCreate_spec logs log r log' : runs audit_world (BatchCreate logs) log r log' ->
  log' = match r with inr _ => log ++ logs | inl _ => log end.
Proof using Type.
  unfold BatchCreate. destruct logs as [|e logs]; intros Hr; [apply runs_ret_inv in Hr as [-> ->]; by rewrite app_nil_r|].
  apply runs_call_inv in Hr. cbn [audit_world] in Hr. destruct r; [done|].
  by rewrite (proj1 (in_batches_concat (length (e :: logs)) (e :: logs) (Nat.le_refl _))) in Hr.
Qed.

(** What a request means: the conditions it gives, those that can be read. *)
Definition wanted (f : AuditLogFilter) (l : AuditLog) : Prop :=
  let given v P := v <> "" -> P in
  given (fi_WorkspaceID f) (au_WorkspaceID l = fi_WorkspaceID f) /\ given (fi_Action f) (au_Action l = fi_Action f) /\
  given (fi_Resource f) (au_Resource l = fi_Resource f) /\ given (fi_Status f) (au_Status l = fi_Status f) /\
  given (fi_Keyword f) (like (au_UserName l) (fi_Keyword f) = true \/ like (au_ResourceName l) (fi_Keyword f) = true) /\
  given (fi_From f) (forall t, parse_time (fi_From f) = Some t -> t <= au_CreatedAt l) /\
  given (fi_To f) (forall t, parse_time (fi_To f) = Some t -> au_CreatedAt l <= t).

Lemma forallb_if_given v c l :
  forallb (λ c, clause_holds c l) (if_given v c) = true <-> (v <> "" -> clause_holds (c v) l = true).
Proof using Type. unfold if_given. case_bool_decide; cbn; rewrite ?andb_true_r; naive_solver. Qed.
Lemma forallb_if_time v c l :
  forallb (λ c, clause_holds c l) (if_time v c) = true <->
  (v <> "" -> forall t, parse_time v = Some t -> clause_holds (c t) l = true).
Proof using Type.
  unfold if_time. case_bool_decide; [by naive_solver|]. destruct (parse_time v) as [t|]; cbn; rewrite ?andb_true_r; naive_solver.
Qed.
Lemma audit_matches_wanted f l : audit_matches (audit_clauses f) l = true <-> wanted f l.
Proof using Type.
  unfold audit_matches, audit_clauses, wanted. rewrite !forallb_app, !andb_true_iff, !forallb_if_given, !forallb_if_time.
  cbn [clause_holds]. rewrite !bool_decide_eq_true, orb_true_iff. setoid_rewrite Z.leb_le. tauto.
Qed.

(** Reading the log, when no two entries have the same time.  It changes nothing.  The answers to all
    requests that want the same are cut from one list: of all the entries that are wanted, newest
    first.  Each is the page that was asked for, with the length of the list. *)
Theorem audit_List_spec log cs : NoDup (au_CreatedAt <$> log) ->
  exists sorted, newest_first (matching_logs cs log) sorted /\
  forall f logs total log', audit_clauses f = cs -> (audit_page f - 1) * audit_page_size f < 2 ^ 63 ->
    runs audit_world (audit_List f) log (inr (logs, total)) log' ->
    log' = log /\ (forall l, l ∈ sorted <-> l ∈ log /\ wanted f l) /\ total = Z.of_nat (length sorted) /\
    logs = take (Z.to_nat (audit_page_size f)) (drop (Z.to_nat ((audit_page f - 1) * audit_page_size f)) sorted).
Proof using Type.
  intros Hnd. set (m := matching_logs cs log).
  assert (Hs : newest_first m (merge_sort newer m)) by (split; [apply merge_sort_Permutation|apply (StronglySorted_merge_sort newer)]).
  exists (merge_sort newer m). split; [done|]. intros f logs total log' <- Hb Hr.
  apply runs_try_inv in Hr as (n & log1 & Ht & Hr). apply runs_call_inv in Ht as [-> ->].
  apply runs_try_inv in Hr as (found & log1 & Hf & Hr). apply runs_call_inv in Hf as [-> (sorted & Hp & Hsorted & ->)].
  apply runs_ret_inv in Hr as [[= -> ->] ->]. rewrite i64_small.
  2: { split; [|done]. unfold audit_page, audit_page_size. destruct (Z.ltb_spec (fi_Page f) 1), (Z.ltb_spec (fi_PageSize f) 1); nia. }
  assert (sorted = merge_sort newer m) as ->.
  { eapply (newest_first_unique m); [|by split|done]. unfold m, matching_logs.
    eapply sublist_NoDup; [exact Hnd|]. apply (fmap_sublist au_CreatedAt), sublist_filter. }
  split; [done|]. split; [|split; [by rewrite (proj1 Hs)|done]].
  intros l. rewrite (proj1 Hs). unfold m, matching_logs. rewrite list_elem_of_filter, audit_matches_wanted. tauto.
Qed.
End facts.

(** ** A log of two workspaces *)

Definition entry_at (t : Z) (ws action : string) : AuditLog := {|
  au_ID := pretty t; au_CreatedAt := t; au_UserID := "bob"; au_UserName := "Bob"; au_UserEmail := "b@x"; au_UserIP := "10.0.0.7";
  au_WorkspaceID := ws; au_Action := action; au_Resource := "policy"; au_ResourceID := ""; au_ResourceName := "";
  au_Scope := ""; au_Status := "success"; au_StatusCode := 200; au_Detail := "" |}.
Definition sample_log : list AuditLog :=
  [entry_at 10 "ws-b" "CREATE"; entry_at 30 "ws-b" "DELETE"; entry_at 20 "ws-a" "CREATE"; entry_at 40 "ws-b" "UPDATE"].
Definition digit_time : TimeText := {| parse_time := λ s, if bool_decide (s = "1970-01-01T00:00:25Z") then Some 25 else None; shown_time := pretty |}.
#[local] Existing Instances plain_like digit_time.

Definition audit_fun T (e : auditE T) (log : list AuditLog) : T * list AuditLog :=
  match e in auditE T return T * list AuditLog with
  | QCount cs => (inr (Z.of_nat (length (matching_logs cs log))), log)
  | QFind cs offset limit => (inr (take (Z.to_nat limit) (drop (Z.to_nat offset) (merge_sort newer (matching_logs cs log)))), log)
  | QInsert groups => (inr tt, log ++ concat groups)
  end.
Lemma audit_fun_world T (e : auditE T) log r log' : fun_world audit_fun T e log r log' -> audit_world T e log r log'.
Proof.
  unfold fun_world. destruct e; cbn; intros E; simplify_eq; try done. split; [done|].
  exists (merge_sort newer (matching_logs cs log')). split; [apply merge_sort_Permutation|].
  split; [|done]. apply (StronglySorted_merge_sort newer).
Qed.

Definition second_page (ws from : string) (page : Z) : AuditLogFilter := {|
  fi_WorkspaceID := ws; fi_Action := ""; fi_Resource := ""; fi_Status := ""; fi_Keyword := ""; fi_From := from; fi_To := "";
  fi_Page := page; fi_PageSize := 2 |}.

Lemma audit_List_spec_witness :
  exists sorted, length sorted = 3%nat /\ drop 2 sorted = [entry_at 10 "ws-b" "CREATE"] /\
  runs audit_world (audit_List (second_page "ws-b" "" 2)) sample_log (inr ([entry_at 10 "ws-b" "CREATE"], 3)) sample_log.
Proof.
  assert (Hr : runs audit_world (audit_List (second_page "ws-b" "" 2)) sample_log (inr ([entry_at 10 "ws-b" "CREATE"], 3)) sample_log).
  { eapply runs_weaken; [apply audit_fun_world|].
    apply (run_runs audit_fun (audit_List (second_page "ws-b" "" 2)) sample_log (inr ([entry_at 10 "ws-b" "CREATE"], 3))).
    vm_compute. reflexivity. }
  assert (Hnd : NoDup (au_CreatedAt <$> sample_log)).
  { apply (bool_decide_unpack _). vm_compute. exact I. }
  destruct (audit_List_spec sample_log (audit_clauses (second_page "ws-b" "" 2)) Hnd) as (sorted & Hs & Hall).
  destruct (Hall (second_page "ws-b" "" 2) _ _ _ eq_refl ltac:(vm_compute; reflexivity) Hr) as (_ & _ & Hl & Hp).
  assert (E3 : length sorted = 3%nat) by lia.
  exists sorted. split; [exact E3|]. split; [|exact Hr].
  rewrite take_ge in Hp; [|rewrite length_drop, E3; vm_compute; lia]. symmetry. exact Hp.
Defined.

(** A time that can not be read, for instance a date alone, is no bound: the answer has what is older. *)
Example date_ignored :
  (λ r, match r with inr (l, _) => au_CreatedAt <$> l | inl _ => [] end) <$>
    (run audit_fun (audit_List (second_page "ws-b" "1970-01-01T00:00:25Z" 1)) sample_log).1 = Some [40; 30] /\
  (λ r, match r with inr (_, n) => n | inl _ => 0 end) <$>
    (run audit_fun (audit_List (second_page "ws-b" "1970-01-01" 1)) sample_log).1 = Some 3.
Proof. vm_compute. done. Qed.

(** The role is checked in the workspace of the header and the log read is that of the path. *)
Example foreign_log :
  let rq := {| rq_Authorization := "Bearer alice:jti"; rq_WorkspaceId := "ws-a"; rq_Param := λ _, "ws-b" |} in
  match (run (@memory_db plain_like 5 sample_uuid (λ u, u)) (@WorkspaceAuthMiddleware plain_jwt "" (Some ∅) RoleViewer rq empty_ctx) sample_world).1 with
  | Some (inr c) =>
      (λ r, match r with inr p => av_UserIP <$> res_List p | inl _ => [] end) <$>
        (run audit_fun (handleListAuditLogs (λ _, "") rq c) sample_log).1 = Some ["10.0.0.7"; "10.0.0.7"; "10.0.0.7"]
  | _ => False
  end.
Proof. vm_compute. done. Qed.
