(* ===== verification/Turn.v ===== *)
(** * Turn: relaying by TURN
    ([internal/relay/turn_client.go] and [turn_server.go], [internal/turn.go],
    [cmd/manager/cmd/turn.go])

    The server hands keys of its users to the TURN library; the client asks a server for its
    own address and a relayed one, and keeps the answer. *)

From S2P Require Import Prelude Prog Net.
From S2P Require Config.

(** ** The server *)

Definition realm : string := "alattice.io".
Record TurnUser := { tu_Username : string; tu_Password : string }.

Section server.
(** [turn.GenerateAuthKey], of a name, a realm and a password. *)
Context (GenerateAuthKey : string -> string -> string -> string).

Definition buildAuthKeyMap (users : list TurnUser) : gmap string string :=
  foldl (λ m u, <[tu_Username u := GenerateAuthKey (tu_Username u) realm (tu_Password u)]> m) ∅ users.
(** The handler of the library: the key of a user, if there is one. *)
Definition AuthHandler (users : list TurnUser) (username : string) : option string := buildAuthKeyMap users !! username.
(** The users of the command are the administrators of the configuration. *)
Definition turn_users (admins : list (string * string)) : list TurnUser :=
  (λ a, {| tu_Username := a.1; tu_Password := a.2 |}) <$> admins.

Inductive turnServerE : Type -> Type :=
| TListen (addr : string) : turnServerE (gresult unit)
| TServe (publicIP : string) (auth : string -> option string) : turnServerE (gresult unit)
| TWait : turnServerE unit
| TClose : turnServerE (gresult unit).

(** The error of closing is logged. *)
Definition TurnServer_Start (publicIP : string) (port : Z) (users : list TurnUser) : prog turnServerE (gresult unit) :=
  _ ←? call (TListen ("0.0.0.0:" +:+ pretty port));
  _ ←? call (TServe publicIP (AuthHandler users));
  _ ← call TWait; _ ← call TClose; Ret (inr tt).
Definition runTurn (cfg : Config.Config) : prog turnServerE (gresult unit) :=
  TurnServer_Start (Config.cf_PublicIP cfg) (Config.cf_Port cfg) (turn_users (Config.app_InitAdmins (Config.cf_App cfg))).

(** Who the server knows: exactly the users that are listed; of one who is listed twice, with the
    last password. *)
Theorem AuthHandler_spec users username key :
  AuthHandler users username = Some key <->
  exists before u after, users = before ++ u :: after /\ tu_Username u = username /\
    key = GenerateAuthKey username realm (tu_Password u) /\ Forall (λ v, tu_Username v <> username) after.
Proof.
  unfold AuthHandler, buildAuthKeyMap. induction users as [|u users IH] using rev_ind.
  - split; [done|]. intros (before & v & after & E & _). by destruct before.
  - rewrite foldl_app. cbn [foldl]. destruct (decide (tu_Username u = username)) as [E|E].
    + rewrite E, lookup_insert_eq. split.
      * intros [= <-]. exists users, u, []. by rewrite E.
      * intros (before & v & after & El & Ev & -> & Hf). destruct after as [|x after _] using rev_ind.
        { apply app_inj_tail in El as [_ ->]. done. }
        rewrite app_comm_cons, app_assoc in El. apply app_inj_tail in El as [_ ->].
        apply Forall_app in Hf as [_ Hf]. by inversion Hf.
    + rewrite lookup_insert_ne by done. rewrite IH. split.
      * intros (before & v & after & -> & Ev & Hk & Hf). exists before, v, (after ++ [u]).
        rewrite <- app_assoc. split_and!; try done. apply Forall_app. by repeat constructor.
      * intros (before & v & after & El & Ev & Hk & Hf). destruct after as [|x after _] using rev_ind.
        { apply app_inj_tail in El as [_ ->]. done. }
        rewrite app_comm_cons, app_assoc in El. apply app_inj_tail in El as [-> _].
        exists before, v, after. apply Forall_app in Hf as [Hf _]. done.
Qed.
End server.

(** ** The client *)

(** A relay's connection, and the addresses. *)
Record RelayInfo := { ri_MappedAddr : string; ri_RelayConn : option Z }.
Record Client := { tc_relayConn : option Z; tc_relayInfo : option RelayInfo }.

(** [UResolve]: the UDP address of a text. *)
Inductive turnE : Type -> Type :=
| UDial (addr : string) : turnE (gresult unit)
| UNewClient : turnE (gresult unit)
| UListen : turnE (gresult unit)
| UClose : turnE unit
| UAllocate : turnE (gresult Z)
| UBinding : turnE (gresult string)
| UResolve (addr : string) : turnE (gresult string)
| UCloseConn (conn : Z) : turnE unit
| UPermission (addrs : list string) : turnE (gresult unit)
| URead (conn : Z) : turnE (gresult (string * string)).
Abbreviation tprog := (prog turnE).

Definition new_client : Client := {| tc_relayConn := None; tc_relayInfo := None |}.
(** The socket is not closed when the client can not be made. *)
Definition NewClient (serverUrl : string) : tprog (gresult Client) :=
  _ ←? call (UDial serverUrl); _ ←? call UNewClient;
  r ← call UListen;
  match r with
  | inl err => _ ← call UClose; Ret (inl err)
  | inr _ => Ret (inr new_client)
  end.

Definition AddrToUdpAddr (addr : string) : tprog (gresult string) := call (UResolve addr).
(** The address that is asked for; its error is dropped, and an address that is none is dereferenced. *)
Definition bind_address (c : Client) (info : RelayInfo) : tprog (gresult RelayInfo * Client) :=
  let keep i := {| tc_relayConn := tc_relayConn c; tc_relayInfo := Some i |} in
  mapped ← call UBinding;
  match mapped with
  | inl err => Ret (inl err, keep info)
  | inr mapped =>
      addr ← AddrToUdpAddr mapped;
      match addr with
      | inl _ => Panic
      | inr addr =>
          let info := {| ri_MappedAddr := addr; ri_RelayConn := ri_RelayConn info |} in
          Ret (inr info, keep info)
      end
  end.
Definition no_info : RelayInfo := {| ri_MappedAddr := ""; ri_RelayConn := None |}.
Definition GetRelayInfo (allocated : bool) (c : Client) : tprog (gresult RelayInfo * Client) :=
  match tc_relayInfo c with
  | Some info => Ret (inr info, c)
  | None =>
      if allocated then
        conn ← call UAllocate;
        match conn with
        | inl err => Ret (inl err, {| tc_relayConn := tc_relayConn c; tc_relayInfo := Some no_info |})
        | inr conn => bind_address {| tc_relayConn := Some conn; tc_relayInfo := None |} {| ri_MappedAddr := ""; ri_RelayConn := Some conn |}
        end
      else bind_address c no_info
  end.
Definition client_Close (c : Client) : tprog unit :=
  _ ← match tc_relayConn c with Some conn => call (UCloseConn conn) | None => Ret tt end; call UClose.
(** Without an allocated connection reading is a nil dereference. *)
Definition ReadFrom (c : Client) : tprog (gresult (string * string)) :=
  match tc_relayConn c with Some conn => call (URead conn) | None => Panic end.
Definition CreatePermission (addrs : list string) : tprog (gresult unit) := call (UPermission addrs).

(** Calls one after the other, and what they answered. *)
Fixpoint ask_all (l : list bool) (c : Client) : tprog (list (gresult RelayInfo) * Client) :=
  match l with
  | [] => Ret ([], c)
  | b :: l => r ← GetRelayInfo b c; rest ← ask_all l r.2; Ret (r.1 :: rest.1, rest.2)
  end.

(** A world that only counts the requests of each kind. *)
Record asked := { as_allocations : nat; as_bindings : nat }.
Definition counted_world T (e : turnE T) (s : asked) (r : T) (s' : asked) : Prop :=
  s' = match e with
       | UAllocate => {| as_allocations := S (as_allocations s); as_bindings := as_bindings s |}
       | UBinding => {| as_allocations := as_allocations s; as_bindings := S (as_bindings s) |}
       | _ => s
       end.

Lemma ask_all_kept l c info s r s' : tc_relayInfo c = Some info ->
  runs counted_world (ask_all l c) s r s' -> r.1 = (λ _, inr info) <$> l /\ s' = s.
Proof.
  revert s r s'. induction l as [|b l IH]; intros s r s' Hc Hr; [by apply runs_ret_inv in Hr as [-> ->]|].
  apply runs_bind_inv in Hr as (x & s1 & Hx & Hr). unfold GetRelayInfo in Hx. rewrite Hc in Hx.
  apply runs_ret_inv in Hx as [-> ->]. apply runs_bind_inv in Hr as (rest & s1 & Hrest & Hr).
  apply IH in Hrest as [E ->]; [|done]. apply runs_ret_inv in Hr as [-> ->]. cbn [fst]. by rewrite E.
Qed.
Lemma GetRelayInfo_first b s r s' : runs counted_world (GetRelayInfo b new_client) s r s' ->
  exists info, tc_relayInfo r.2 = Some info /\
    (as_allocations s' <= S (as_allocations s))%nat /\ (as_bindings s' <= S (as_bindings s))%nat /\
    match r.1 with
    | inr i => i = info /\ (b = false -> ri_RelayConn info = None)
    | inl _ => ri_MappedAddr info = ""
    end.
Proof.
  assert (Hbind : forall c info s r s', runs counted_world (bind_address c info) s r s' ->
    exists i, tc_relayInfo r.2 = Some i /\ as_allocations s' = as_allocations s /\ as_bindings s' = S (as_bindings s) /\
      ri_RelayConn i = ri_RelayConn info /\ match r.1 with inr j => j = i | inl _ => i = info end).
  { clear. intros c info s r s' Hr. apply runs_bind_inv in Hr as (m & s1 & Hm & Hr). apply runs_call_inv in Hm. unfold counted_world in Hm; subst s1.
    destruct m as [err|m]; [apply runs_ret_inv in Hr as [-> ->]; by exists info|].
    apply runs_bind_inv in Hr as (a & s1 & Ha & Hr). apply runs_call_inv in Ha. unfold counted_world in Ha; subst s1.
    destruct a as [err|a]; [by inversion Hr|]. apply runs_ret_inv in Hr as [-> ->]. by eexists. }
  intros Hr. unfold GetRelayInfo in Hr. cbn [tc_relayInfo new_client] in Hr. destruct b.
  - apply runs_bind_inv in Hr as (conn & s1 & Hc & Hr). apply runs_call_inv in Hc. unfold counted_world in Hc; subst s1. destruct conn as [err|conn].
    + apply runs_ret_inv in Hr as [-> ->]. exists no_info. cbn. split_and!; try done; lia.
    + apply Hbind in Hr as (i & Hi & Ea & Eb & _ & Er). cbn in Ea, Eb. exists i. rewrite Ea, Eb. split_and!; try done; try lia.
      destruct r.1; by subst.
  - apply Hbind in Hr as (i & Hi & Ea & Eb & Ec & Er). exists i. rewrite Ea, Eb. split_and!; try done; try lia.
    destruct r.1; by subst.
Qed.

(** Asking a client for its relay, any number of times.  At most one relay is allocated and one
    address asked for, by the first call; and every later call succeeds with what the first one
    left.  When it failed that is nothing: no address; and when it did not ask for a relay, none
    is ever allocated. *)
Theorem GetRelayInfo_once b l s r s' :
  runs counted_world (ask_all (b :: l) new_client) s r s' ->
  (as_allocations s' <= S (as_allocations s))%nat /\ (as_bindings s' <= S (as_bindings s))%nat /\
  exists first info, r.1 = first :: ((λ _, inr info) <$> l) /\
    match first with
    | inr i => i = info /\ (b = false -> ri_RelayConn info = None)
    | inl _ => ri_MappedAddr info = ""
    end.
Proof.
  intros Hr. cbn [ask_all] in Hr. apply runs_bind_inv in Hr as (x & s1 & Hx & Hr).
  apply GetRelayInfo_first in Hx as (info & Hi & Ha & Hb & Hx). apply runs_bind_inv in Hr as (rest & s2 & Hrest & Hr).
  eapply ask_all_kept in Hrest as [E ->]; [|exact Hi]. apply runs_ret_inv in Hr as [-> ->].
  split; [done|]. split; [done|]. exists x.1, info. split; [by rewrite E|done].
Qed.
