(* ===== verification/TaskLoop.v ===== *)
(** * TaskLoop: tasks one after the other ([pkg/utils/taskloop.go])

    A loop has a channel of tasks and a goroutine that runs them; it is stopped by closing a
    channel and restarted with new ones.  The goroutines, the callers of [Stop] and those that
    add tasks are interleaved step by step. *)

From S2P Require Import Prelude.

(** ** The loop *)

(** What a goroutine is at: its start, the head of its loop, its [select], running a task, emptying the
    channel at the end, running one of those tasks, done.  [d] numbers the channel it closes then, [c] the one
    that it is told to stop by; [close] of a closed channel is a panic. *)
Inductive stage :=
| Starting | Looping (d : nat) | Waiting (d c : nat) | Executing (d t : nat)
| Draining (d : nat) | DrainExecuting (d t : nat) | Ended | Panicked.
#[export] Instance stage_eq_dec : EqDecision stage.
Proof. solve_decision. Defined.
(** A goroutine, with the number of the context that its [Start] was given. *)
Record worker := { wk_ctx : nat; wk_stage : stage }.
Definition at_stage (w : worker) (s : stage) : worker := {| wk_ctx := wk_ctx w; wk_stage := s |}.
(** A caller of [Stop]: it closed the channel, and then waits for the goroutine. *)
Inductive stopper := Closing | AwaitDone (d : nat) | Stopped.

(** Tasks are numbers.  [tl_epoch] numbers the channels [stopCh] and [doneCh] that the loop has, which
    are replaced together; [tl_stopped] and [tl_done] are those that were closed, [tl_over] the contexts
    that ended.  [tl_accepted] and [tl_started] keep what was added and what began to run. *)
Record TaskLoop := {
  tl_size : nat; tl_tasks : list nat; tl_running : bool; tl_epoch : nat; tl_stopped : list nat; tl_done : list nat;
  tl_over : list nat; tl_workers : list worker; tl_stoppers : list stopper; tl_accepted : list nat; tl_started : list nat }.

Definition queue_size (n : Z) : nat := Z.to_nat (if n <=? 0 then 100 else n).
(** The loop that [NewTaskLoop] makes, before it starts it. *)
Definition made (n : Z) : TaskLoop := {|
  tl_size := queue_size n; tl_tasks := []; tl_running := false; tl_epoch := 0; tl_stopped := []; tl_done := []; tl_over := [];
  tl_workers := []; tl_stoppers := []; tl_accepted := []; tl_started := [] |}.

Definition with_tasks (ts acc started : list nat) (l : TaskLoop) : TaskLoop := {|
  tl_size := tl_size l; tl_tasks := ts; tl_running := tl_running l; tl_epoch := tl_epoch l; tl_stopped := tl_stopped l;
  tl_done := tl_done l; tl_over := tl_over l; tl_workers := tl_workers l; tl_stoppers := tl_stoppers l; tl_accepted := acc;
  tl_started := started |}.
Definition with_workers (ws : list worker) (done over : list nat) (l : TaskLoop) : TaskLoop := {|
  tl_size := tl_size l; tl_tasks := tl_tasks l; tl_running := tl_running l; tl_epoch := tl_epoch l; tl_stopped := tl_stopped l;
  tl_done := done; tl_over := over; tl_workers := ws; tl_stoppers := tl_stoppers l; tl_accepted := tl_accepted l;
  tl_started := tl_started l |}.
Definition with_stoppers (ss : list stopper) (l : TaskLoop) : TaskLoop := {|
  tl_size := tl_size l; tl_tasks := tl_tasks l; tl_running := tl_running l; tl_epoch := tl_epoch l; tl_stopped := tl_stopped l;
  tl_done := tl_done l; tl_over := tl_over l; tl_workers := tl_workers l; tl_stoppers := ss; tl_accepted := tl_accepted l;
  tl_started := tl_started l |}.

(** Each start has a context of its own, by the number of the start. *)
Definition Start (l : TaskLoop) : TaskLoop :=
  if tl_running l then l
  else {| tl_size := tl_size l; tl_tasks := tl_tasks l; tl_running := true; tl_epoch := S (tl_epoch l); tl_stopped := tl_stopped l;
          tl_done := tl_done l; tl_over := tl_over l;
          tl_workers := tl_workers l ++ [{| wk_ctx := S (tl_epoch l); wk_stage := Starting |}]; tl_stoppers := tl_stoppers l;
          tl_accepted := tl_accepted l; tl_started := tl_started l |}.
Definition NewTaskLoop (n : Z) : TaskLoop := Start (made n).
(** [Stop] up to the wait. *)
Definition Stop (l : TaskLoop) : TaskLoop :=
  if tl_running l
  then {| tl_size := tl_size l; tl_tasks := tl_tasks l; tl_running := false; tl_epoch := tl_epoch l;
          tl_stopped := tl_stopped l ++ [tl_epoch l]; tl_done := tl_done l; tl_over := tl_over l; tl_workers := tl_workers l;
          tl_stoppers := tl_stoppers l ++ [Closing]; tl_accepted := tl_accepted l; tl_started := tl_started l |}
  else with_stoppers (tl_stoppers l ++ [Stopped]) l.
Definition has_room (l : TaskLoop) : bool := bool_decide (length (tl_tasks l) < tl_size l)%nat.
Definition stop_closed (l : TaskLoop) : bool := bool_decide (tl_epoch l ∈ tl_stopped l).
(** What [AddTask], whose context ended or not, and [TryAddTask] may answer: of several cases that are ready a
    [select] takes any.  No answer is waiting for one. *)
Inductive add_result := Added | Canceled | ContextDone | QueueFull.
Definition AddTask (over : bool) (l : TaskLoop) : list add_result :=
  (if over then [ContextDone] else []) ++ (if stop_closed l then [Canceled] else []) ++ (if has_room l then [Added] else []).
Definition TryAddTask (l : TaskLoop) : list add_result :=
  match AddTask false l with [] => [QueueFull] | rs => rs end.
(** The loop with a task that was added. *)
Definition accept (t : nat) (l : TaskLoop) : TaskLoop := with_tasks (tl_tasks l ++ [t]) (tl_accepted l ++ [t]) (tl_started l) l.
Definition take_task (t : nat) (ts : list nat) (l : TaskLoop) : TaskLoop := with_tasks ts (tl_accepted l) (tl_started l ++ [t]) l.

(** What a goroutine may do next, with the loop then.  Emptying the channel ends when it is empty, or at
    any time, when its second is over. *)
Inductive worker_step (l : TaskLoop) (k : nat) : stage -> stage -> TaskLoop -> Prop :=
| worker_begins : worker_step l k Starting (Looping (tl_epoch l)) l
| worker_selects d : worker_step l k (Looping d) (Waiting d (tl_epoch l)) l
| worker_takes d c t ts : tl_tasks l = t :: ts -> worker_step l k (Waiting d c) (Executing d t) (take_task t ts l)
| worker_executes d t : worker_step l k (Executing d t) (Looping d) l
| worker_told d c : c ∈ tl_stopped l \/ k ∈ tl_over l -> worker_step l k (Waiting d c) (Draining d) l
| worker_drains d t ts : tl_tasks l = t :: ts -> worker_step l k (Draining d) (DrainExecuting d t) (take_task t ts l)
| worker_drained d t : worker_step l k (DrainExecuting d t) (Draining d) l
| worker_ends d : d ∉ tl_done l -> worker_step l k (Draining d) Ended (with_workers (tl_workers l) (tl_done l ++ [d]) (tl_over l) l)
| worker_panics d : d ∈ tl_done l -> worker_step l k (Draining d) Panicked l.
(** A caller of [Stop] reads which channel it waits for after it let the lock go. *)
Inductive stopper_step (l : TaskLoop) : stopper -> stopper -> Prop :=
| stopper_looks : stopper_step l Closing (AwaitDone (tl_epoch l))
| stopper_returns d : d ∈ tl_done l -> stopper_step l (AwaitDone d) Stopped.

(** The steps but starting. *)
Inductive other_step : TaskLoop -> TaskLoop -> Prop :=
| step_stop l : other_step l (Stop l)
| step_add l t : Added ∈ TryAddTask l -> other_step l (accept t l)
| step_cancel l k : other_step l (with_workers (tl_workers l) (tl_done l) (k :: tl_over l) l)
| step_worker l i w s' l' : tl_workers l !! i = Some w -> worker_step l (wk_ctx w) (wk_stage w) s' l' ->
    other_step l (with_workers (<[i := at_stage w s']> (tl_workers l)) (tl_done l') (tl_over l') l')
| step_stopper l i s s' : tl_stoppers l !! i = Some s -> stopper_step l s s' ->
    other_step l (with_stoppers (<[i := s']> (tl_stoppers l)) l).
Inductive loop_step : TaskLoop -> TaskLoop -> Prop :=
| step_start l : loop_step l (Start l)
| step_other l l' : other_step l l' -> loop_step l l'.

Definition IsRunning (l : TaskLoop) : bool := tl_running l.
Definition QueuedTasksCount (l : TaskLoop) : nat := length (tl_tasks l).

(** ** Order *)

(** What is started is, in order, what was added less what waits; no more waits than there is room for. *)
Definition in_order (size : nat) (l : TaskLoop) : Prop :=
  tl_accepted l = tl_started l ++ tl_tasks l /\ (length (tl_tasks l) <= tl_size l)%nat /\ tl_size l = size.

Lemma added_room l : Added ∈ TryAddTask l <-> has_room l = true.
Proof.
  unfold TryAddTask, AddTask. destruct (stop_closed l), (has_room l); cbn; rewrite ?elem_of_cons, ?elem_of_nil; naive_solver.
Qed.
Lemma take_in_order size t ts l : in_order size l -> tl_tasks l = t :: ts -> in_order size (take_task t ts l).
Proof.
  intros (Ha & Hl & Hs) E. rewrite E in Ha, Hl. split_and!; cbn in *; [by rewrite Ha, <- app_assoc|lia|done].
Qed.
Lemma in_order_step size l l' : in_order size l -> loop_step l l' -> in_order size l'.
Proof.
  intros Ho Hs. destruct Hs as [l|l l' Hs]; [unfold Start; by destruct (tl_running l)|].
  destruct Hs as [l|l t Hr|l k|l i w s' l' Hi Hw|l i s s' Hi Hw]; try done.
  - unfold Stop. by destruct (tl_running l).
  - destruct Ho as (Ha & Hl & Hz). apply added_room, bool_decide_eq_true in Hr.
    split_and!; cbn; [by rewrite Ha, app_assoc|rewrite length_app; cbn; lia|done].
  - destruct Hw; try done; by apply (take_in_order _ _ _ _ Ho).
Qed.

(** Tasks run in the order in which they were added, each at most once, whoever starts, stops
    and adds at the same time; those that did not run are still in the channel, in order. *)
Theorem tasks_in_order n l : rtc loop_step (NewTaskLoop n) l ->
  tl_accepted l = tl_started l ++ tl_tasks l /\ (QueuedTasksCount l <= queue_size n)%nat.
Proof.
  intros Hr. assert (H : in_order (queue_size n) l); [|destruct H as (? & ? & <-); by split].
  assert (H0 : in_order (queue_size n) (NewTaskLoop n)) by (split_and!; [done|cbn; lia|done]).
  clear -Hr H0. induction Hr as [l|l1 l2 l3 Hs _ IH]; [done|]. by apply IH, (in_order_step _ l1).
Qed.

(** ** One at a time *)

(** The loop is only started when no call of [Stop] is on its way. *)
Inductive disciplined_step : TaskLoop -> TaskLoop -> Prop :=
| disciplined_start l : Forall (eq Stopped) (tl_stoppers l) -> disciplined_step l (Start l)
| disciplined_other l l' : other_step l l' -> disciplined_step l l'.

(** The goroutine of a start is at work with the channels of that start. *)
Definition stage_of (d : nat) (s : stage) : Prop :=
  match s with
  | Starting | Ended => True
  | Looping d' | Executing d' _ | Draining d' | DrainExecuting d' _ => d' = d
  | Waiting d' c => d' = d
  | Panicked => False
  end.
Record orderly (l : TaskLoop) : Prop := {
  or_workers : length (tl_workers l) = tl_epoch l;
  or_earlier i w : tl_workers l !! i = Some w -> (S i < tl_epoch l)%nat -> wk_stage w = Ended;
  or_latest i w : tl_workers l !! i = Some w -> S i = tl_epoch l -> stage_of (tl_epoch l) (wk_stage w);
  or_done d : d ∈ tl_done l -> exists i w, d = S i /\ tl_workers l !! i = Some w /\ wk_stage w = Ended;
  or_await d : AwaitDone d ∈ tl_stoppers l -> d = tl_epoch l;
  or_pending s : s ∈ tl_stoppers l -> s <> Stopped -> tl_running l = false;
  or_idle : tl_running l = false -> Forall (eq Stopped) (tl_stoppers l) -> forall w, w ∈ tl_workers l -> wk_stage w = Ended }.

Lemma orderly_start l : orderly l -> Forall (eq Stopped) (tl_stoppers l) -> orderly (Start l).
Proof.
  intros Ho Hall. unfold Start. destruct (tl_running l) eqn:Er; [done|].
  assert (Hended := or_idle l Ho Er Hall).
  constructor; cbn [tl_workers tl_epoch tl_done tl_stoppers tl_running].
  - rewrite length_app, (or_workers l Ho). cbn. lia.
  - intros i w Hi Hlt. apply lookup_app_Some in Hi as [Hi|[Hge Hi]]; [by apply Hended, (list_elem_of_lookup_2 _ i)|].
    rewrite (or_workers l Ho) in Hge. lia.
  - intros i w Hi Heq. apply lookup_app_Some in Hi as [Hi|[_ Hi]].
    + apply lookup_lt_Some in Hi. rewrite (or_workers l Ho) in Hi. lia.
    + by apply list_lookup_singleton_Some in Hi as [_ <-].
  - intros d Hd. destruct (or_done l Ho d Hd) as (i & w & -> & Hi & Hw). exists i, w. split; [done|]. split; [|done].
    by apply lookup_app_l_Some.
  - intros d Hd. rewrite Forall_forall in Hall. by apply Hall in Hd.
  - intros s Hs Hne. rewrite Forall_forall in Hall. by destruct Hne; rewrite (Hall s Hs).
  - done.
Qed.

Lemma orderly_stop l : orderly l -> orderly (Stop l).
Proof.
  intros Ho. unfold Stop. destruct (tl_running l) eqn:Er; constructor; cbn.
  - apply (or_workers l Ho).
  - apply (or_earlier l Ho).
  - apply (or_latest l Ho).
  - apply (or_done l Ho).
  - intros d Hd. apply elem_of_app in Hd as [Hd|Hd]; [by apply (or_await l Ho)|by apply list_elem_of_singleton in Hd].
  - done.
  - intros _ Hall. apply Forall_app in Hall as [_ Hall]. by inversion Hall.
  - apply (or_workers l Ho).
  - apply (or_earlier l Ho).
  - apply (or_latest l Ho).
  - apply (or_done l Ho).
  - intros d Hd. apply elem_of_app in Hd as [Hd|Hd]; [by apply (or_await l Ho)|by apply list_elem_of_singleton in Hd].
  - done.
  - intros _ Hall. apply Forall_app in Hall as [Hall _]. by apply (or_idle l Ho).
Qed.

(** A goroutine that is still at work is that of the last start. *)
Lemma orderly_active l i w : orderly l -> tl_workers l !! i = Some w -> wk_stage w <> Ended -> S i = tl_epoch l.
Proof.
  intros Ho Hi Hw. destruct (decide (S i < tl_epoch l)%nat) as [Hlt|Hge]; [by destruct Hw; apply (or_earlier l Ho i)|].
  apply lookup_lt_Some in Hi. rewrite (or_workers l Ho) in Hi. lia.
Qed.

Lemma orderly_worker l i w s' l' : orderly l -> tl_workers l !! i = Some w -> worker_step l (wk_ctx w) (wk_stage w) s' l' ->
  orderly (with_workers (<[i := at_stage w s']> (tl_workers l)) (tl_done l') (tl_over l') l').
Proof.
  intros Ho Hi Hs.
  assert (Hact : S i = tl_epoch l).
  { apply (orderly_active l i w Ho Hi). intros E. rewrite E in Hs. inversion Hs. }
  pose proof (or_latest l Ho i w Hi Hact) as Hlast.
  assert (Hfields : tl_epoch l' = tl_epoch l /\ tl_stoppers l' = tl_stoppers l /\ tl_running l' = tl_running l) by (by destruct Hs).
  destruct Hfields as (Ee & Es & Er).
  assert (Hst : stage_of (tl_epoch l) s').
  { remember (wk_stage w) as s eqn:Ew. destruct Hs as [| | | | | | | |d Hd]; cbn in *; subst; try done.
    destruct (or_done l Ho _ Hd) as (j & v & E & Hj & Hv).
    assert (j = i) as -> by lia. rewrite Hi in Hj. injection Hj as <-. congruence. }
  assert (Hdone : forall d, d ∈ tl_done l' -> d ∈ tl_done l \/ d = tl_epoch l /\ s' = Ended).
  { intros d Hd. remember (wk_stage w) as s eqn:Ew. destruct Hs; cbn in *; try (by left).
    apply elem_of_app in Hd as [Hd|Hd]; [by left|right]. apply list_elem_of_singleton in Hd. by subst. }
  constructor; cbn; rewrite ?Ee, ?Es, ?Er.
  - rewrite length_insert. apply (or_workers l Ho).
  - intros j v Hj Hlt. rewrite list_lookup_insert_ne in Hj by lia. by apply (or_earlier l Ho j).
  - intros j v Hj Heq. assert (j = i) as -> by lia. rewrite list_lookup_insert_eq in Hj by (by eapply lookup_lt_Some).
    by injection Hj as <-.
  - intros d Hd. apply Hdone in Hd as [Hd|[-> ->]].
    + destruct (or_done l Ho d Hd) as (j & v & -> & Hj & Hv). exists j, v. split; [done|]. split; [|done].
      rewrite list_lookup_insert_ne; [done|]. intros ->. rewrite Hi in Hj. injection Hj as <-. rewrite Hv in Hs. inversion Hs.
    + exists i, (at_stage w Ended). split; [done|]. split; [|done]. apply list_lookup_insert_eq. by eapply lookup_lt_Some.
  - apply (or_await l Ho).
  - apply (or_pending l Ho).
  - intros Hr Hall. pose proof (or_idle l Ho Hr Hall w (list_elem_of_lookup_2 _ _ _ Hi)) as Hend.
    rewrite Hend in Hs. inversion Hs.
Qed.

Lemma orderly_stopper l i s s' : orderly l -> tl_stoppers l !! i = Some s -> stopper_step l s s' ->
  orderly (with_stoppers (<[i := s']> (tl_stoppers l)) l).
Proof.
  intros Ho Hi Hs. pose proof (list_elem_of_lookup_2 _ _ _ Hi) as Hin.
  assert (Hrun : tl_running l = false) by (apply (or_pending l Ho s Hin); by destruct Hs).
  constructor; cbn; try apply Ho.
  - intros d Hd. apply list_elem_of_lookup in Hd as [j Hj]. destruct (decide (j = i)) as [->|Hne].
    + rewrite list_lookup_insert_eq in Hj by (by eapply lookup_lt_Some). injection Hj as ->. by inversion Hs.
    + rewrite list_lookup_insert_ne in Hj by done. by apply (or_await l Ho), (list_elem_of_lookup_2 _ j).
  - done.
  - intros _ Hall w Hw. destruct Hs as [|d Hd].
    + apply (Forall_lookup_1 _ _ i) with (x := AwaitDone (tl_epoch l)) in Hall; [done|].
      apply list_lookup_insert_eq. by eapply lookup_lt_Some.
    + apply (or_await l Ho) in Hin as ->. apply list_elem_of_lookup in Hw as [j Hj].
      destruct (decide (wk_stage w = Ended)) as [|Hne]; [done|exfalso].
      pose proof (orderly_active l j w Ho Hj Hne) as E. destruct (or_done l Ho _ Hd) as (k & v & Ek & Hk & Hv).
      assert (k = j) as -> by lia. rewrite Hj in Hk. injection Hk as <-. done.
Qed.

Lemma orderly_step l l' : orderly l -> disciplined_step l l' -> orderly l'.
Proof.
  intros Ho Hs. destruct Hs as [l Hall|l l' Hs]; [by apply orderly_start|].
  destruct Hs as [l|l t Hr|l k|l i w s' l' Hi Hw|l i s s' Hi Hw].
  - by apply orderly_stop.
  - by destruct Ho; constructor.
  - by destruct Ho; constructor.
  - exact (orderly_worker l i w s' l' Ho Hi Hw).
  - by eapply orderly_stopper.
Qed.
Lemma orderly_new n : orderly (NewTaskLoop n).
Proof. apply orderly_start; [|constructor]. constructor; cbn; try done; intros; set_solver. Qed.

(** Is running a task. *)
Definition executes (w : worker) : Prop := match wk_stage w with Executing _ _ | DrainExecuting _ _ => True | _ => False end.

(** When the loop is only started while no [Stop] is on its way: tasks run one at a time, no
    channel is closed twice, and when every [Stop] has returned and the loop was not started again no
    goroutine is left. *)
Theorem one_at_a_time n l : rtc disciplined_step (NewTaskLoop n) l ->
  (forall i j v w, tl_workers l !! i = Some v -> tl_workers l !! j = Some w -> executes v -> executes w -> i = j) /\
  (forall w, w ∈ tl_workers l -> wk_stage w <> Panicked) /\
  (tl_running l = false -> Forall (eq Stopped) (tl_stoppers l) -> forall w, w ∈ tl_workers l -> wk_stage w = Ended).
Proof.
  intros Hr. assert (Ho : orderly l).
  { pose proof (orderly_new n) as H0. induction Hr as [l|l1 l2 l3 Hs _ IH]; [done|]. by apply IH, (orderly_step l1). }
  split; [|split; [|apply (or_idle l Ho)]].
  - intros i j v w Hi Hj Hv Hw.
    assert (S i = tl_epoch l) by (apply (orderly_active l i v Ho Hi); unfold executes in Hv; by destruct (wk_stage v)).
    assert (S j = tl_epoch l) by (apply (orderly_active l j w Ho Hj); unfold executes in Hw; by destruct (wk_stage w)). lia.
  - intros w Hin Hp. apply list_elem_of_lookup in Hin as [i Hi].
    assert (Heq : S i = tl_epoch l) by (apply (orderly_active l i w Ho Hi); by rewrite Hp).
    pose proof (or_latest l Ho i w Hi Heq) as Hst. by rewrite Hp in Hst.
Qed.

(** ** What may happen otherwise *)

(** The goroutine [i] goes on to a stage. *)
Definition moved (i : nat) (s : stage) (l : TaskLoop) : TaskLoop :=
  match tl_workers l !! i with
  | Some w => with_workers (<[i := at_stage w s]> (tl_workers l)) (tl_done l) (tl_over l) l
  | None => l
  end.
Definition took (i t : nat) (s : stage) (l : TaskLoop) : TaskLoop := moved i s (take_task t (tail (tl_tasks l)) l).
Lemma moved_step l i w s : tl_workers l !! i = Some w -> worker_step l (wk_ctx w) (wk_stage w) s l -> loop_step l (moved i s l).
Proof. intros Hi Hs. unfold moved. rewrite Hi. apply step_other. by eapply step_worker. Qed.
Lemma took_step l i w t s : tl_workers l !! i = Some w ->
  worker_step l (wk_ctx w) (wk_stage w) s (take_task t (tail (tl_tasks l)) l) -> loop_step l (took i t s l).
Proof.
  intros Hi Hs. unfold took, moved. change (tl_workers (take_task _ _ l)) with (tl_workers l). rewrite Hi. apply step_other.
  by eapply step_worker in Hs.
Qed.
Ltac in_normal_form := match goal with |- rtc _ ?l _ => let l' := eval vm_compute in l in change l with l' end.
Tactic Notation "by_step" tactic3(t) := eapply rtc_l; [t|in_normal_form].

(** A second caller starts the loop again while the first waits for its end: then two tasks run at once. *)
Example two_at_once :
  exists l, rtc loop_step (NewTaskLoop 2) l /\ wk_stage <$> tl_workers l = [Executing 1 7; Executing 2 8].
Proof.
  eexists. split.
  - in_normal_form. by_step (apply step_other, (step_add _ 7); by apply added_room).
    by_step (apply step_other, (step_add _ 8); by apply added_room).
    by_step (eapply (moved_step _ 0); [reflexivity|apply worker_begins]).
    by_step (eapply (moved_step _ 0); [reflexivity|apply worker_selects]).
    by_step (eapply (took_step _ 0); [reflexivity|by eapply worker_takes]).
    by_step (apply step_other, step_stop).
    by_step (apply step_start).
    by_step (eapply (moved_step _ 1); [reflexivity|apply worker_begins]).
    by_step (eapply (moved_step _ 1); [reflexivity|apply worker_selects]).
    by_step (eapply (took_step _ 1); [reflexivity|by eapply worker_takes]).
    apply rtc_refl.
  - reflexivity.
Qed.

(** And when the first goroutine had not begun yet, both close the same channel: a panic. *)
Example closed_twice :
  exists l, rtc loop_step (NewTaskLoop 2) l /\ wk_stage <$> tl_workers l = [Ended; Panicked].
Proof.
  eexists. split.
  - in_normal_form. by_step (apply step_other, step_stop).
    by_step (apply step_start).
    by_step (eapply (moved_step _ 0); [reflexivity|apply worker_begins]).
    by_step (eapply (moved_step _ 1); [reflexivity|apply worker_begins]).
    by_step (apply step_other, step_stop).
    by_step (eapply (moved_step _ 0); [reflexivity|apply worker_selects]).
    by_step (eapply (moved_step _ 1); [reflexivity|apply worker_selects]).
    by_step (eapply (moved_step _ 0); [reflexivity|apply worker_told; left; set_solver]).
    by_step (eapply (moved_step _ 1); [reflexivity|apply worker_told; left; set_solver]).
    by_step (apply step_other; eapply (step_worker _ 0); [reflexivity|apply worker_ends; set_solver]).
    by_step (eapply (moved_step _ 1); [reflexivity|apply worker_panics; set_solver]).
    apply rtc_refl.
  - reflexivity.
Qed.

(** A loop that was stopped still takes a task, which no one runs. *)
Example accepted_after_stop :
  let l := accept 7 (Stop (NewTaskLoop 2)) in
  rtc loop_step (NewTaskLoop 2) l /\ tl_running l = false /\ QueuedTasksCount l = 1%nat.
Proof.
  cbv zeta. split; [|done]. in_normal_form. by_step (apply step_other, step_stop).
  by_step (apply step_other, (step_add _ 7); by apply added_room). apply rtc_refl.
Qed.
