(* ===== verification/Setup.v ===== *)
(** * Setup: connections, devices and indexes
    ([NewNatsService] of [internal/server/nats/nats.go], [CreateTUN] of
    [internal/agent/infra/tun_darwin.go], [getAgent] of [internal/server/transport/ice_dialer.go],
    [NewManager] and [NewClient] of [internal/server/resource/client.go])

    What is made before the parts run: the connection to the bus with its stream, the device
    of an agent on macOS, the agent of the ICE library, and the manager of Kubernetes. *)

From S2P Require Import Prelude Prog Net Api Message Infra Store Mgmt Boot.

(** ** The bus *)

Inductive stream_error := StreamNotFound | StreamErr (e : gerror).
(** [BJetStream]: the interface to streams; [BStream]: whether there is a stream. *)
Inductive busE : Type -> Type :=
| BConnect (url : string) : busE (gresult unit)
| BFlush : busE (gresult unit)
| BClose : busE unit
| BJetStream : busE (gresult unit)
| BStream (name : string) : busE (stream_error + unit)
| BCreateStream (name : string) (subjects : list string) : busE (gresult unit).

Definition stream_name : string := "LATTICE".
Definition stream_subjects : list string := ["signals.>"].
Definition ensureStream : prog busE (gresult unit) :=
  r ← call (BStream stream_name);
  match r with
  | inr _ => Ret (inr tt)
  | inl StreamNotFound => call (BCreateStream stream_name stream_subjects)
  | inl (StreamErr err) => Ret (inl err)
  end.
Definition or_close (p : prog busE (gresult unit)) (wrap : gerror -> gerror) : prog busE (gresult unit) :=
  r ← p;
  match r with
  | inl err => _ ← call BClose; Ret (inl (wrap err))
  | inr _ => Ret (inr tt)
  end.
Definition NewNatsService (url : string) : prog busE (gresult unit) :=
  r ← call (BConnect url);
  match r with
  | inl err => Ret (inl (ErrWrap "nats connect" err))
  | inr _ =>
      _ ←? or_close (call BFlush) (ErrWrap "nats handshake failed (check if protocol is correct)");
      _ ←? or_close (call BJetStream) id;
      or_close ensureStream id
  end.
(** The service when the bus is not there: it answers no request and drops what is sent. *)
Definition noop_Request : gresult string := inl (ErrText "nats: not connected (noop service)").
Definition noop_Send : gresult unit := inr tt.

(** A bus: whether the connection is open, and whether there is the stream. *)
Definition bus_setup T (e : busE T) (s : bool * bool) (r : T) (s' : bool * bool) : Prop :=
  match e in busE T return T -> Prop with
  | BConnect _ => λ r, s' = (match r with inr _ => true | inl _ => s.1 end, s.2)
  | BClose => λ _, s' = (false, s.2)
  | BFlush | BJetStream => λ _, s' = s
  | BStream _ => λ r, s' = s /\ match r with inr _ => s.2 = true | inl StreamNotFound => s.2 = false | inl _ => True end
  | BCreateStream _ _ => λ r, s' = (s.1, match r with inr _ => true | inl _ => s.2 end)
  end r.

Lemma or_close_inv p wrap s r s' :
  (forall s r s', runs bus_setup p s r s' -> s'.1 = s.1) -> s.1 = true -> runs bus_setup (or_close p wrap) s r s' ->
  s'.1 = match r with inr _ => true | inl _ => false end /\
  forall u, r = inr u -> runs bus_setup p s (inr u) s'.
Proof.
  intros Hp Hs Hr. apply runs_bind_inv in Hr as (x & s1 & Hx & Hr). pose proof (Hp _ _ _ Hx) as E.
  destruct x as [err|[]].
  - apply runs_bind_inv in Hr as (u & s2 & Hu & Hr). apply runs_call_inv in Hu. unfold bus_setup in Hu. subst s2.
    by apply runs_ret_inv in Hr as [-> ->].
  - apply runs_ret_inv in Hr as [-> ->]. split; [congruence|]. by intros u [= <-].
Qed.
Lemma ensureStream_inv s r s' : runs bus_setup ensureStream s r s' -> s'.1 = s.1 /\ forall u, r = inr u -> s'.2 = true.
Proof.
  intros Hr. apply runs_bind_inv in Hr as (x & s1 & Hx & Hr). apply runs_call_inv in Hx as [-> Hx].
  destruct x as [[|err]|[]].
  - apply runs_call_inv in Hr. unfold bus_setup in Hr. subst s'. split; [done|]. by intros u ->.
  - by apply runs_ret_inv in Hr as [-> ->].
  - by apply runs_ret_inv in Hr as [-> ->].
Qed.

(** Connecting to the bus: a service has an open connection and there is its stream; whatever fails, no connection is left. *)
Theorem NewNatsService_spec url stream r s' : runs bus_setup (NewNatsService url) (false, stream) r s' ->
  match r with inr _ => s' = (true, true) | inl _ => s'.1 = false end.
Proof.
  intros Hr. apply runs_bind_inv in Hr as (x & s1 & Hx & Hr). apply runs_call_inv in Hx. unfold bus_setup in Hx. subst s1.
  destruct x as [err|[]]; [by apply runs_ret_inv in Hr as [-> ->]|].
  apply runs_bind_inv in Hr as (x & s1 & Hx & Hr). apply or_close_inv in Hx as [E1 _];
    [|intros s0 r0 s0' H0; apply runs_call_inv in H0; unfold bus_setup in H0; by subst|done].
  destruct x as [err|[]]; cbn in E1; [by apply runs_ret_inv in Hr as [-> ->]|].
  apply runs_bind_inv in Hr as (x & s2 & Hx & Hr). apply or_close_inv in Hx as [E2 _];
    [|intros s0 r0 s0' H0; apply runs_call_inv in H0; unfold bus_setup in H0; by subst|done].
  destruct x as [err|[]]; cbn in E2; [by apply runs_ret_inv in Hr as [-> ->]|].
  apply or_close_inv in Hr as [E3 H3]; [|intros s0 r0 s0' H0; by apply ensureStream_inv in H0 as [? _]|done].
  destruct r as [err|[]]; [done|]. destruct (ensureStream_inv _ _ _ (H3 tt eq_refl)) as [_ H4].
  specialize (H4 tt eq_refl). destruct s'; cbn in *; congruence.
Qed.

(** A subject is below a prefix that ends in [>]. *)
Definition below (prefix subject : string) : bool := String.prefix prefix subject.
(** The stream keeps none of the packets: their subjects are not below [signals]. *)
Lemma stream_keeps_nothing id : below "signals." (peer_subject id) = false.
Proof. reflexivity. Qed.

(** ** The device on macOS *)

(** Sockets are numbers; an index of the device is taken by connecting. *)
Inductive utunE : Type -> Type :=
| KSocket : utunE (gresult Z)
| KCtlInfo (fd : Z) : utunE (gresult unit)
| KConnect (fd index : Z) : utunE (gresult unit)
| KNonblock (fd : Z) : utunE (gresult unit)
| KClose (fd : Z) : utunE unit
| KFromFile (fd mtu : Z) : utunE (gresult unit).
Definition utun_name (index : Z) : string := "utun" +:+ pretty index.
(** [n] indexes are left. *)
Fixpoint utun_loop (n : nat) (index : Z) : prog utunE (gresult (Z * Z)) :=
  match n with
  | O => Ret (inl (ErrText "create utun wgDevice failed"))
  | S n =>
      fd ←? call KSocket;
      r ← call (KCtlInfo fd);
      match r with
      | inl err => _ ← call (KClose fd); Ret (inl (ErrWrap "IoctlGetCtlInfo" err))
      | inr _ =>
          r ← call (KConnect fd index);
          match r with
          | inl _ => _ ← call (KClose fd); utun_loop n (index + 1)
          | inr _ =>
              r ← call (KNonblock fd);
              match r with
              | inl _ => _ ← call (KClose fd); utun_loop n (index + 1)
              | inr _ => Ret (inr (index, fd))
              end
          end
      end
  end.
Definition CreateTUN_darwin (mtu : Z) : prog utunE (gresult string) :=
  found ←? utun_loop 16 0;
  _ ←? call (KNonblock found.2);
  _ ←? call (KFromFile found.2 mtu);
  Ret (inr (utun_name found.1)).

Lemma close_last (fd : Z) open : fd ∉ open -> filter (λ f, f <> fd) (fd :: open) = open.
Proof.
  intros Hn. rewrite filter_cons_False by (by intros []). induction open as [|f open IH]; [done|].
  rewrite filter_cons_True by set_solver. f_equal. apply IH. set_solver.
Qed.
(** A system: which sockets are open, and which indexes others have. *)
Section utun.
Context (taken : Z -> bool).
Definition utun_world T (e : utunE T) (open : list Z) (r : T) (open' : list Z) : Prop :=
  match e in utunE T return T -> Prop with
  | KSocket => λ r, match r with inr fd => fd ∉ open /\ open' = fd :: open | inl _ => open' = open end
  | KConnect _ i => λ r, open' = open /\ (taken i = true -> exists err, r = inl err)
  | KClose fd => λ _, open' = filter (λ f, f <> fd) open
  | KCtlInfo _ | KNonblock _ | KFromFile _ _ => λ _, open' = open
  end r.

Lemma utun_loop_inv n i open r open' : runs utun_world (utun_loop n i) open r open' ->
  match r with
  | inr (j, fd) => i <= j < i + Z.of_nat n /\ taken j = false /\ open' = fd :: open /\ fd ∉ open
  | inl _ => open' = open
  end.
Proof using All.
  revert i open'. induction n as [|n IH]; intros i open' Hr; [by apply runs_ret_inv in Hr as [-> ->]|].
  apply runs_bind_inv in Hr as (x & o1 & Hx & Hr). apply runs_call_inv in Hx. unfold utun_world in Hx.
  destruct x as [err|fd]; [apply runs_ret_inv in Hr as [-> ->]; by subst o1|]. destruct Hx as [Hfd ->].
  apply runs_bind_inv in Hr as (x & o1 & Hx & Hr). apply runs_call_inv in Hx. unfold utun_world in Hx. subst o1.
  destruct x as [err|[]].
  { apply runs_bind_inv in Hr as (u & o1 & Hu & Hr). apply runs_call_inv in Hu. unfold utun_world in Hu. subst o1.
    apply runs_ret_inv in Hr as [-> ->]. by apply close_last. }
  assert (Hnext : forall o1, runs utun_world (_ ← call (KClose fd); utun_loop n (i + 1)) (fd :: open) r o1 ->
    match r with
    | inr (j, fd) => i <= j < i + Z.of_nat (S n) /\ taken j = false /\ o1 = fd :: open /\ fd ∉ open
    | inl _ => o1 = open
    end).
  { intros o1 Hc. apply runs_bind_inv in Hc as (u & o2 & Hu & Hc). apply runs_call_inv in Hu. unfold utun_world in Hu.
    rewrite close_last in Hu by done. subst o2. apply IH in Hc. destruct r as [err|[j fd']]; [done|].
    destruct Hc as (Hj & Ht & -> & Hn). split_and!; try done; lia. }
  apply runs_bind_inv in Hr as (x & o1 & Hx & Hr). apply runs_call_inv in Hx. unfold utun_world in Hx. destruct Hx as [-> Ht].
  destruct x as [err|[]]; [by apply Hnext|].
  apply runs_bind_inv in Hr as (x & o1 & Hx & Hr). apply runs_call_inv in Hx. unfold utun_world in Hx. subst o1.
  destruct x as [err|[]]; [by apply Hnext|].
  apply runs_ret_inv in Hr as [-> ->]. split; [lia|]. split; [|done].
  destruct (taken i); [|done]. by destruct (Ht eq_refl).
Qed.

(** The device has one of sixteen names, of an index that was free, and one socket; when no index can be taken there is
    no socket either. *)
Theorem CreateTUN_darwin_spec mtu open r open' : runs utun_world (CreateTUN_darwin mtu) open r open' ->
  match r with
  | inr name => exists i fd, 0 <= i < 16 /\ taken i = false /\ name = utun_name i /\ open' = fd :: open
  | inl _ => open' = open \/ exists fd, open' = fd :: open
  end.
Proof using All.
  intros Hr. apply runs_bind_inv in Hr as (x & o1 & Hx & Hr). apply utun_loop_inv in Hx.
  destruct x as [err|[j fd]]; [apply runs_ret_inv in Hr as [-> ->]; by left|]. destruct Hx as (Hj & Ht & -> & Hn).
  apply runs_bind_inv in Hr as (x & o1 & Hx & Hr). apply runs_call_inv in Hx. unfold utun_world in Hx. subst o1.
  destruct x as [err|[]]; [apply runs_ret_inv in Hr as [-> ->]; right; by eexists|].
  apply runs_bind_inv in Hr as (x & o1 & Hx & Hr). apply runs_call_inv in Hx. unfold utun_world in Hx. subst o1.
  destruct x as [err|[]]; apply runs_ret_inv in Hr as [-> ->]; [right; by eexists|]. exists j, fd. split_and!; try done; lia.
Qed.
End utun.

(** ** The ICE agent *)

(** Which interfaces give addresses. *)
Definition interface_filter (name : string) : bool :=
  let name := str_lower name in
  negb (str_contains "docker" name || str_contains "veth" name || str_contains "br-" name || String.prefix "wf" name).
Definition networkTypes (six : bool) : list string := "udp4" :: (if six then ["udp6"] else []).
Record AgentOptions := {
  ao_Filter : string -> bool; ao_Networks : list string; ao_Stun : string * Z; ao_Candidates : list string;
  ao_DisconnectedTimeout : Z; ao_FailedTimeout : Z }.
(** Timeouts in seconds. *)
Definition agent_options (six : bool) : AgentOptions := {|
  ao_Filter := interface_filter; ao_Networks := networkTypes six; ao_Stun := ("stun.alattice.io", 3478);
  ao_Candidates := ["host"; "srflx"]; ao_DisconnectedTimeout := 10; ao_FailedTimeout := 15 |}.
Inductive agentE : Type -> Type :=
| GNew (o : AgentOptions) : agentE (gresult unit)
| GOnState : agentE (gresult unit)
| GOnCandidate : agentE (gresult unit).
Definition getAgent (six : bool) : prog agentE (gresult unit) :=
  _ ←? call (GNew (agent_options six)); _ ←? call GOnState; call GOnCandidate.
(** What the callbacks do: close the dialer when the agent failed, and send each candidate. *)
Definition on_state (state : string) : bool := bool_decide (state = "failed").
Definition on_candidate (candidate : option string) : option string := candidate.

(** The device of an agent gives no addresses on Linux; those of macOS do, so packets that are already encrypted may be
    sent into the device again. *)
Example device_is_filtered : interface_filter getInterfaceName = false.
Proof. reflexivity. Qed.
Example utun_is_not_filtered : forallb (λ i, interface_filter (utun_name i)) (seqZ 0 16) = true.
Proof. vm_compute. reflexivity. Qed.

(** ** The manager of Kubernetes *)

(** The values under which a token is found by each index. *)
Definition index_status_token (t : LatticeEnrollmentToken) : list string :=
  if bool_decide (tokst_Token (tok_Status t) = "") then [] else [tokst_Token (tok_Status t)].
Definition index_spec_token (t : LatticeEnrollmentToken) : list string :=
  if bool_decide (tok_Token (tok_Spec t) = "") then [] else [tok_Token (tok_Spec t)].
Definition token_index (field : string) (t : LatticeEnrollmentToken) : list string :=
  if bool_decide (field = "status.token") then index_status_token t
  else if bool_decide (field = "spec.token") then index_spec_token t else [].
