(* ===== verification/Status.v ===== *)
(** * Status: what the status command prints
    ([internal/agent/wireguard/status.go], [pkg/utils/strings.go], [internal/agent/infra/message.go])

    The devices of WireGuard, their peers, and how long ago each was heard of; the texts of
    changes and peers that are logged. *)

From S2P Require Import Device.
From S2P Require Import Prelude Prog Net Api Message Infra Transport Mgmt Bind Alerts Dashboard.

(** ** Texts *)

Definition second : Z := 10 ^ 9.
(** [time.Duration.Round] to the second; what does not fit is the greatest duration. *)
Definition round_second (d : Z) : Z :=
  let r := Z.rem d second in
  if d <? 0 then
    let r := - r in
    if r + r <? second then d + r else let d1 := i64 (d - second + r) in if d1 <? d then d1 else - 2 ^ 63
  else if r + r <? second then d - r
  else let d1 := i64 (d + second - r) in if d <? d1 then d1 else 2 ^ 63 - 1.
Definition status_formatDuration (d : Z) : string :=
  let d := round_second d in
  if d <? 60 * second then pretty (Z.quot d second) +:+ " seconds"
  else if d <? 3600 * second then pretty (Z.quot d (60 * second)) +:+ " minutes"
  else pretty (Z.quot d (3600 * second)) +:+ " hours".

(** The loop over the units; no number of bytes needs more than six. *)
Fixpoint units_loop (fuel : nat) (n div : Z) (exp : nat) : option (Z * nat) :=
  match fuel with
  | O => None
  | S fuel => if 1024 <=? n then units_loop fuel (Z.quot n 1024) (i64 (div * 1024)) (S exp) else Some (div, exp)
  end.
(** [None]: there is no such unit, a panic. *)
Definition status_formatBytes (b : Z) : option string :=
  if b <? 1024 then Some (pretty b +:+ " B")
  else
    match units_loop 6 (Z.quot b 1024) 1024 0 with
    | None => None
    | Some (div, exp) => (λ u, format_fixed 1 (fdiv (float_of b) (float_of div)) +:+ " " +:+ u +:+ "B") <$> unit_letters !! exp
    end.

(** ** The status *)

(** [st_Handshake]: none is the zero time. *)
Record StatusPeer := {
  st_PublicKey : string; st_AllowedIPs : list string; st_Endpoint : option string; st_Handshake : option Z; st_Transmit : Z; st_Receive : Z }.
Record StatusDevice := { sd_Name : string; sd_PublicKey : string; sd_ListenPort : Z; sd_Peers : list StatusPeer }.

(** [SSince]: the time since a time.  [SAddrs]: the addresses of an interface, if there is one. *)
Inductive statusE : Type -> Type :=
| SOpen : statusE (gresult unit)
| SDevice (name : string) : statusE (gresult StatusDevice)
| SDevices : statusE (gresult (list StatusDevice))
| SAddrs (name : string) : statusE (list string)
| SSince (t : Z) : statusE Z
| SLine (line : string) : statusE unit
| SCloseControl : statusE unit.
Abbreviation stprog := (prog statusE).

Definition handshakeActiveThreshold : Z := 3 * 60 * second.
Definition line (s : string) : stprog unit := call (SLine s).
Fixpoint count_connected (peers : list StatusPeer) (connected : nat) : stprog nat :=
  match peers with
  | [] => Ret connected
  | p :: peers =>
      match st_Handshake p with
      | None => count_connected peers connected
      | Some t =>
          elapsed ← call (SSince t);
          count_connected peers (if elapsed <? handshakeActiveThreshold then S connected else connected)
      end
  end.
Definition connected_line : string := "  Status    : connected".
Definition printPeer (p : StatusPeer) : stprog unit :=
  sh ← match st_Handshake p with
       | None => Ret ("  Status    : disconnected", "never")
       | Some t =>
           elapsed ← call (SSince t);
           Ret (if elapsed <? handshakeActiveThreshold then connected_line else "  Status    : disconnected",
                status_formatDuration elapsed +:+ " ago")
       end;
  let none s := if bool_decide (s = "") then "(none)" else s in
  match status_formatBytes (st_Transmit p), status_formatBytes (st_Receive p) with
  | Some sent, Some received =>
      _ ← line ("  Peer      : " +:+ st_PublicKey p);
      _ ← line ("  Address   : " +:+ none (str_join ", " (st_AllowedIPs p)));
      _ ← line ("  Endpoint  : " +:+ default "(none)" (st_Endpoint p));
      _ ← line ("  Handshake : " +:+ sh.2);
      _ ← line ("  Traffic   : ↑ " +:+ sent +:+ "  ↓ " +:+ received);
      line sh.1
  | _, _ => Panic
  end.
Fixpoint print_peers (peers : list StatusPeer) : stprog unit :=
  match peers with [] => Ret tt | p :: peers => _ ← printPeer p; print_peers peers end.
Definition print_device (d : StatusDevice) : stprog nat :=
  addrs ← call (SAddrs (sd_Name d));
  _ ← line ("Interface : " +:+ sd_Name d);
  _ ← match addrs with [] => Ret tt | _ => line ("Address   : " +:+ str_join ", " addrs) end;
  _ ← line ("Public Key: " +:+ sd_PublicKey d);
  _ ← line ("Port      : " +:+ pretty (sd_ListenPort d));
  connected ← count_connected (sd_Peers d) 0;
  _ ← line ("Peers: " +:+ pretty (Z.of_nat (length (sd_Peers d))) +:+ " total, " +:+ pretty (Z.of_nat connected) +:+ " connected");
  _ ← print_peers (sd_Peers d); Ret connected.
Fixpoint print_devices (ds : list StatusDevice) : stprog unit :=
  match ds with [] => Ret tt | d :: ds => _ ← print_device d; print_devices ds end.
Definition status_devices (interfaceName : string) : stprog (gresult (list StatusDevice)) :=
  if bool_decide (interfaceName = "") then
    devices ← call SDevices;
    Ret match devices with
        | inl err => inl (ErrWrap "failed to list WireGuard devices" err)
        | inr [] => inl (ErrText "lattice is not running (no WireGuard interfaces found)")
        | inr ds => inr ds
        end
  else
    device ← call (SDevice interfaceName);
    Ret match device with inl err => inl (ErrWrap ("interface " +:+ go_quote interfaceName +:+ " not found") err) | inr d => inr [d] end.
Definition PrintStatus (interfaceName : string) : stprog (gresult unit) :=
  opened ← call SOpen;
  match opened with
  | inl err => Ret (inl (ErrWrap "failed to open wgctrl" err))
  | inr _ =>
      ds ← status_devices interfaceName;
      r ← match ds with inl err => Ret (inl err) | inr ds => _ ← print_devices ds; Ret (inr tt) end;
      _ ← call SCloseControl; Ret r
  end.

(** ** Numbers in texts ([pkg/utils/strings.go]) *)

Definition StringToUint64 (s : string) : gresult Z := if bool_decide (s = "") then inr 0 else ParseUint64 s.
Fixpoint parse_ids (l : list string) : gresult (list Z) :=
  match l with
  | [] => inr []
  | s :: l =>
      match StringToUint64 s with
      | inl err => inl err
      | inr n => match parse_ids l with inl err => inl err | inr ns => inr (n :: ns) end
      end
  end.
(** The separator is a character. *)
Definition Splits (ids : string) (sep : ascii) : gresult (list Z) :=
  if bool_decide (ids = "") then inr [] else parse_ids (str_split sep ids).

(** ** Messages as they are made and logged ([infra/message.go]) *)

Definition with_parts (m : Message) (t : EventType) (current : option InfraPeer) (network : option InfraNetwork)
    (policies : list (option InfraPolicy)) : Message := {|
  m_EventType := t; m_ConfigVersion := m_ConfigVersion m; m_Timestamp := m_Timestamp m; m_Changes := m_Changes m;
  m_Current := current; m_Network := network; m_Policies := policies; m_ComputedPeers := m_ComputedPeers m;
  m_ComputedRules := m_ComputedRules m; m_Labels := m_Labels m |}.
Definition WithEventType (t : EventType) (m : Message) : Message := with_parts m t (m_Current m) (m_Network m) (m_Policies m).
Definition WithNode (node : option InfraPeer) (m : Message) : Message :=
  with_parts m (m_EventType m) node (m_Network m) (m_Policies m).
Definition WithNetwork (network : option InfraNetwork) (m : Message) : Message :=
  with_parts m (m_EventType m) (m_Current m) network (m_Policies m).
Definition WithPolicies (policies : list (option InfraPolicy)) (m : Message) : Message :=
  with_parts m (m_EventType m) (m_Current m) (m_Network m) policies.
Definition FullConfig (m : Message) : string := "".

(** The message of an entry is where its action is announced, and the action after it. *)
Definition Summary (c : DetailsInfo) : string :=
  str_join (String newline "") ((λ r, "type: " +:+ entry_Type r +:+ ", action: " +:+ entry_Message r +:+ ", message: " +:+ entry_Action r) <$> ch_Reason c).

Definition infra_peer_lines `{WireGuardKeys} (p : InfraPeer) : list (string * string) := [
  ("public_key", keyf (ip_PublicKey p)); ("preshared_key", keyf (ip_PresharedKey p)); ("replace_allowed_ips", "true");
  ("persistent_keepalive_interval", pretty (ip_PersistentKeepalive p)); ("allowed_ips", ip_AllowedIPs p);
  ("endpoint", ip_Endpoint p)].
Definition Peer_String `{WireGuardKeys} (p : InfraPeer) : string := print_lines (infra_peer_lines p).

(** ** Correctness *)

(** Two changes that differ in which text is the action are logged alike when these are swapped. *)
Example summary_swaps c t a m : ch_Reason c = [{| entry_Type := t; entry_Action := a; entry_Message := m |}] ->
  Summary c = "type: " +:+ t +:+ ", action: " +:+ m +:+ ", message: " +:+ a.
Proof. intros E. unfold Summary. by rewrite E. Qed.
(** The text of a peer has a key that WireGuard does not know: one that sets up a peer is
    called [allowed_ip]. *)
Example peer_text_key `{WireGuardKeys} (p : InfraPeer) (q : SetPeer) : (infra_peer_lines p).*1 !! 4%nat = Some "allowed_ips" /\
  Forall (λ kv, kv.1 = "allowed_ip") (allowed_lines (sp_AllowedIPs q)).
Proof. split; [reflexivity|]. unfold allowed_lines. apply Forall_fmap, Forall_true. done. Qed.

Lemma pow_next k : 1024 ^ Z.of_nat (S k) = 1024 ^ Z.of_nat k * 1024.
Proof. rewrite Nat2Z.inj_succ, Z.pow_succ_r by lia. apply Z.mul_comm. Qed.
Lemma pow_6 k : (k <= 6)%nat -> 0 < 1024 ^ Z.of_nat k <= 1024 ^ 6.
Proof. intros. split; [apply Z.pow_pos_nonneg; lia|apply Z.pow_le_mono_r; lia]. Qed.
Lemma units_loop_spec fuel n exp : 0 < n < 1024 ^ Z.of_nat fuel -> (exp + fuel <= 6)%nat ->
  exists e, units_loop fuel n (1024 ^ Z.of_nat (S exp)) exp = Some (1024 ^ Z.of_nat (S e), e) /\ (exp <= e < exp + fuel)%nat /\
    1024 ^ Z.of_nat (e - exp) <= n < 1024 ^ Z.of_nat (S (e - exp)).
Proof.
  revert n exp. induction fuel as [|fuel IH]; intros n exp Hn Hf; [cbn in Hn; lia|]. cbn [units_loop].
  destruct (Z.leb_spec 1024 n) as [Hle|Hlt].
  2: { exists exp. split; [done|]. split; [lia|]. rewrite Nat.sub_diag. cbn. lia. }
  rewrite pow_next in Hn. destruct fuel as [|f]; [cbn in Hn; lia|].
  rewrite i64_small, <- pow_next. 2: { rewrite <- pow_next. pose proof (pow_6 (S (S exp)) ltac:(lia)). lia. }
  rewrite Z.quot_div_nonneg by lia. pose proof (Z.div_mod n 1024 ltac:(lia)). pose proof (Z.mod_pos_bound n 1024 ltac:(lia)).
  destruct (IH (n / 1024) (S exp)) as (e & -> & He & Hb); [lia|lia|].
  exists e. split; [done|]. split; [lia|]. replace (e - exp)%nat with (S (e - S exp)) by lia.
  rewrite (pow_next (S _)), !(pow_next (e - S exp)) in *. lia.
Qed.

(** A number of bytes is printed in the unit that leaves it below 1024, and no number an
    [int64] holds is without one. *)
Theorem status_formatBytes_spec b : 1024 <= b < 2 ^ 63 ->
  exists e u, unit_letters !! e = Some u /\ 1024 ^ Z.of_nat (S e) <= b < 1024 ^ Z.of_nat (S (S e)) /\
    status_formatBytes b = Some (format_fixed 1 (fdiv (float_of b) (float_of (1024 ^ Z.of_nat (S e)))) +:+ " " +:+ u +:+ "B").
Proof.
  intros Hb. unfold status_formatBytes. destruct (Z.ltb_spec b 1024); [lia|].
  rewrite Z.quot_div_nonneg by lia. pose proof (Z.div_mod b 1024 ltac:(lia)). pose proof (Z.mod_pos_bound b 1024 ltac:(lia)).
  destruct (units_loop_spec 6 (b / 1024) 0) as (e & Hl & He & Hr).
  { split; [lia|]. apply Z.div_lt_upper_bound; lia. }
  { lia. }
  change (1024 ^ Z.of_nat 1) with 1024 in Hl. rewrite Hl.
  assert (exists u, unit_letters !! e = Some u) as [u Hu] by (apply lookup_lt_is_Some; cbn; lia).
  exists e, u. rewrite Hu. rewrite Nat.sub_0_r in Hr. repeat split; try done; rewrite !pow_next in *; lia.
Qed.
Lemma status_formatBytes_spec_witness :
  exists e u, unit_letters !! e = Some u /\ 1024 ^ Z.of_nat (S e) <= 2 ^ 63 - 1 < 1024 ^ Z.of_nat (S (S e)) /\
    status_formatBytes (2 ^ 63 - 1) = Some (format_fixed 1 (fdiv (float_of (2 ^ 63 - 1)) (float_of (1024 ^ Z.of_nat (S e)))) +:+ " " +:+ u +:+ "B").
Proof. apply (status_formatBytes_spec (2 ^ 63 - 1)). lia. Defined.

(** A run of the command over the devices [ds], a clock that moves by one nanosecond at
    each reading, and the lines printed, the last first. *)
Definition status_handler (ds : list StatusDevice) : forall T, statusE T -> Z * list string -> T * (Z * list string) :=
  λ T e s,
  match e in statusE T return T * (Z * list string) with
  | SOpen => (inr tt, s)
  | SDevice name => (match ds with d :: _ => inr d | [] => inl (ErrText "no such device") end, s)
  | SDevices => (inr ds, s)
  | SAddrs name => ([], s)
  | SSince t => (s.1 - t, (s.1 + 1, s.2))
  | SLine l => (tt, (s.1, l :: s.2))
  | SCloseControl => (tt, s)
  end.
Example not_running :
  run (status_handler []) (PrintStatus "") (0, []) =
    (Some (inl (ErrText "lattice is not running (no WireGuard interfaces found)")), (0, [])).
Proof. reflexivity. Qed.
(** The clock is read once to count a peer and once more to print it: a peer that was last
    heard of three minutes ago is counted as connected and printed as disconnected. *)
Definition edge_device : StatusDevice :=
  {| sd_Name := "lat0"; sd_PublicKey := "K"; sd_ListenPort := 51820;
     sd_Peers := [{| st_PublicKey := "P"; st_AllowedIPs := []; st_Endpoint := None; st_Handshake := Some 1; st_Transmit := 2048; st_Receive := 5 |}] |}.
Example counted_and_disconnected :
  run (status_handler [edge_device]) (PrintStatus "lat0") (handshakeActiveThreshold, []) =
    (Some (inr tt),
     (handshakeActiveThreshold + 2,
      ["  Status    : disconnected"; "  Traffic   : ↑ 2.0 KB  ↓ 5 B"; "  Handshake : 3 minutes ago"; "  Endpoint  : (none)";
       "  Address   : (none)"; "  Peer      : P"; "Peers: 1 total, 1 connected"; "Port      : 51820"; "Public Key: K"; "Interface : lat0"])).
Proof. vm_compute. reflexivity. Qed.

(** Ten and no text: the part with no text counts as zero. *)
Example ids_with_gap : Splits "10,,7" ","%char = inr [10; 0; 7]. Proof. vm_compute. reflexivity. Qed.
