(* ===== verification/Manager.v ===== *)
(** * Manager: the process of the controllers
    ([internal/agent/controller/run.go], [cmd/manager/cmd/controller.go])

    The settings decide which certificates are watched and how metrics and webhooks are
    served; then the manager is made, the reconcilers are set up and it runs. *)

From S2P Require Import Prelude Prog Config.

(** ** What the process asks of the libraries *)

Inductive certificate := WebhookCert | MetricsCert.
Inductive Reconciler :=
| TokenReconciler | PeerReconciler | NetworkReconciler | NetworkPolicyReconciler | RelayReconciler
| NetworkPeeringReconciler | ClusterPeeringReconciler.

(** The functions that change a configuration of TLS, and what they change of it. *)
Inductive tls_option := DisableHTTP2 | WatchedCertificate (c : certificate).
Record TLSConfig := { NextProtos : list string; GetCertificate : option certificate }.
Definition apply_option (t : TLSConfig) (o : tls_option) : TLSConfig :=
  match o with
  | DisableHTTP2 => {| NextProtos := ["http/1.1"]; GetCertificate := GetCertificate t |}
  | WatchedCertificate c => {| NextProtos := NextProtos t; GetCertificate := Some c |}
  end.
Definition served_tls (os : list tls_option) (t : TLSConfig) : TLSConfig := foldl apply_option t os.

(** [mo_Authenticated]: requests for metrics are authenticated and authorized. *)
Record ManagerOptions := {
  mo_MetricsAddr : string; mo_SecureServing : bool; mo_MetricsTLS : list tls_option; mo_Authenticated : bool;
  mo_WebhookTLS : list tls_option; mo_ProbeAddr : string; mo_LeaderElection : bool }.

(** [NewWatcher]: of a certificate and its key, below a directory.  [GetConfig]: of the cluster. *)
Inductive step :=
| NewWatcher (c : certificate) (dir cert key : string)
| GetConfig
| NewManager (o : ManagerOptions)
| SetupWithManager (r : Reconciler)
| AddWatcher (c : certificate)
| AddHealthzCheck (name : string)
| AddReadyzCheck (name : string)
| RunManager.
Inductive managerE : Type -> Type :=
| MStep (s : step) : managerE (gresult unit).
Abbreviation gprog := (prog managerE).
Definition do_step (s : step) : gprog (gresult unit) := call (MStep s).

(** ** The start *)

(** A certificate is watched when its directory is given. *)
Definition new_watcher (c : certificate) (dir cert key : string) : gprog (gresult bool) :=
  if bool_decide (dir = "") then Ret (inr false) else _ ←? do_step (NewWatcher c dir cert key); Ret (inr true).
Definition with_certificate (c : certificate) (watched : bool) (os : list tls_option) : list tls_option :=
  if watched then os ++ [WatchedCertificate c] else os.
Definition add_watcher (c : certificate) (watched : bool) : gprog (gresult unit) :=
  if watched then do_step (AddWatcher c) else Ret (inr tt).

Definition base_tls (flags : Config) : list tls_option := if cf_EnableHTTP2 flags then [] else [DisableHTTP2].
Definition manager_options (flags : Config) (webhook metrics : bool) : ManagerOptions := {|
  mo_MetricsAddr := cf_MetricsAddr flags; mo_SecureServing := cf_SecureMetrics flags;
  mo_MetricsTLS := with_certificate MetricsCert metrics (base_tls flags); mo_Authenticated := cf_SecureMetrics flags;
  mo_WebhookTLS := with_certificate WebhookCert webhook (base_tls flags);
  mo_ProbeAddr := cf_ProbeAddr flags; mo_LeaderElection := cf_EnableLeaderElection flags |}.

(** [GetConfigOrDie] ends the process. *)
Definition GetConfigOrDie : gprog unit :=
  r ← do_step GetConfig; match r with inl _ => Panic | inr _ => Ret tt end.

Definition reconcilers : list Reconciler := [
  TokenReconciler; PeerReconciler; NetworkReconciler; NetworkPolicyReconciler; RelayReconciler;
  NetworkPeeringReconciler; ClusterPeeringReconciler].

Definition controllers_Start (flags : Config) : gprog (gresult unit) :=
  webhook ←? new_watcher WebhookCert (cf_WebhookCertPath flags) (cf_WebhookCertName flags) (cf_WebhookCertKey flags);
  metrics ←? new_watcher MetricsCert (cf_MetricsCertPath flags) (cf_MetricsCertName flags) (cf_MetricsCertKey flags);
  _ ← GetConfigOrDie;
  _ ←? do_step (NewManager (manager_options flags webhook metrics));
  _ ←? for_each reconcilers (λ r, do_step (SetupWithManager r));
  _ ←? add_watcher MetricsCert metrics;
  _ ←? add_watcher WebhookCert webhook;
  _ ←? do_step (AddHealthzCheck "healthz");
  _ ←? do_step (AddReadyzCheck "readyz");
  do_step RunManager.

(** ** The command *)

Inductive controllerE : Type -> Type :=
| KConf {T} (e : confE T) : controllerE T
| KManager {T} (e : managerE T) : controllerE T
| KPrint (line : string) : controllerE unit.
(** A flag, with its default. *)
Definition controller_flags : list (string * value) := [
  ("metrics-bind-address", VString "0"); ("health-probe-bind-address", VString ":8081"); ("leader-elect", VBool false);
  ("metrics-secure", VBool true); ("webhook-cert-path", VString ""); ("webhook-cert-name", VString "tls.crt");
  ("webhook-cert-key", VString "tls.key"); ("metrics-cert-path", VString ""); ("metrics-cert-name", VString "tls.crt");
  ("metrics-cert-key", VString "tls.key"); ("enable-http2", VBool false)].

Section command.
Context `{ViperLibrary} (env : string -> string).
Definition controller_cmd (fs : list Flag) (cm : ConfigManager) (c : Config) : prog controllerE (gresult unit) :=
  saved ← (if flag_bool fs "save" then
             _ ← call (KPrint "Saving configuration...");
             r ← translate (@KConf) (Save env cm);
             match r with
             | inl err => Ret (inl (ErrWrap "failed to save config" err))
             | inr _ => _ ← call (KPrint ("Config saved to: " +:+ cm_dir cm +:+ "/lattice.yaml")); Ret (inr tt)
             end
           else Ret (inr tt));
  match saved with inl err => Ret (inl err) | inr _ => translate (@KManager) (controllers_Start c) end.
End command.

(** ** Correctness *)

(** What the settings ask for, in order. *)
Definition watch_steps (c : certificate) (dir cert key : string) : list step :=
  if bool_decide (dir = "") then [] else [NewWatcher c dir cert key].
Definition add_steps (c : certificate) (watched : bool) : list step := if watched then [AddWatcher c] else [].
Definition start_steps (flags : Config) : list step :=
  let webhook := negb (bool_decide (cf_WebhookCertPath flags = "")) in
  let metrics := negb (bool_decide (cf_MetricsCertPath flags = "")) in
  watch_steps WebhookCert (cf_WebhookCertPath flags) (cf_WebhookCertName flags) (cf_WebhookCertKey flags) ++
  watch_steps MetricsCert (cf_MetricsCertPath flags) (cf_MetricsCertName flags) (cf_MetricsCertKey flags) ++
  [GetConfig] ++ [NewManager (manager_options flags webhook metrics)] ++ (SetupWithManager <$> reconcilers) ++
  add_steps MetricsCert metrics ++ add_steps WebhookCert webhook ++
  [AddHealthzCheck "healthz"] ++ [AddReadyzCheck "readyz"] ++ [RunManager].

(** Any answer to a step; the world is what was done and how it ended, in order. *)
Definition log := list (step * gresult unit).
Definition log_world T (e : managerE T) (s : log) (r : T) (s' : log) : Prop :=
  match e in managerE T return T -> Prop with MStep st => λ r, s' = s ++ [(st, r)] end r.
Definition succeeded (l : list step) : log := (λ st, (st, inr tt)) <$> l.

(** The steps of [l] were done in order: all of them, or up to one whose error is the result. *)
Definition done_in_order {A} (l : list step) (s : log) (r : gresult A) (s' : log) : Prop :=
  match r with
  | inr _ => s' = s ++ succeeded l
  | inl err => exists l1 st l2, l = l1 ++ st :: l2 /\ s' = s ++ succeeded l1 ++ [(st, inl err)]
  end.
Definition does {A} (l : list step) (p : gprog (gresult A)) : Prop :=
  forall s r s', runs log_world p s r s' -> done_in_order l s r s'.

Lemma does_ret {A} (a : A) : does [] (Ret (inr a)).
Proof. intros s r s' [-> ->]%runs_ret_inv. cbn. by rewrite app_nil_r. Qed.
Lemma does_step st : does [st] (do_step st).
Proof. intros s r s' ->%runs_call_inv. destruct r as [err|[]]; [|done]. by exists [], st, []. Qed.
(** [P]: what is known of the value that [p] gives. *)
Lemma does_try {A B} (P : A -> Prop) l1 l2 (p : gprog (gresult A)) (f : A -> gprog (gresult B)) :
  does l1 p -> (forall s a s', runs log_world p s (inr a) s' -> P a) -> (forall a, P a -> does l2 (f a)) ->
  does (l1 ++ l2) (try_bind p f).
Proof.
  intros Hp HP Hf s r s' Hr. apply runs_bind_inv in Hr as ([err|a] & s1 & H1 & H2).
  - apply runs_ret_inv in H2 as [-> ->]. destruct (Hp _ _ _ H1) as (l & st & l' & -> & ->).
    exists l, st, (l' ++ l2). by rewrite <- app_assoc.
  - pose proof (Hp _ _ _ H1) as E. cbn in E. subst s1. pose proof (Hf a (HP _ _ _ H1) _ _ _ H2) as Hd. destruct r as [err|b].
    + destruct Hd as (l & st & l' & -> & ->). exists (l1 ++ l), st, l'. unfold succeeded. by rewrite fmap_app, <- !app_assoc.
    + cbn in Hd |- *. rewrite Hd. unfold succeeded. by rewrite fmap_app, <- app_assoc.
Qed.
Lemma does_then {A B} l1 l2 (p : gprog (gresult A)) (f : A -> gprog (gresult B)) :
  does l1 p -> (forall a, does l2 (f a)) -> does (l1 ++ l2) (try_bind p f).
Proof. intros Hp Hf. eapply (does_try (λ _, True)); auto. Qed.

Lemma does_new_watcher c dir cert key : does (watch_steps c dir cert key) (new_watcher c dir cert key).
Proof.
  unfold watch_steps, new_watcher. case_bool_decide; [apply does_ret|].
  apply (does_then [_] []); [apply does_step|intros; apply does_ret].
Qed.
Lemma new_watcher_watches c dir cert key s b s' : runs log_world (new_watcher c dir cert key) s (inr b) s' ->
  b = negb (bool_decide (dir = "")).
Proof.
  unfold new_watcher. case_bool_decide; intros Hr; [by apply runs_ret_inv in Hr as [[= ->] _]|].
  apply runs_try_inv in Hr as ([] & s1 & _ & Hr). by apply runs_ret_inv in Hr as [[= ->] _].
Qed.
Lemma does_config {A} l (p : gprog (gresult A)) : does l p -> does ([GetConfig] ++ l) (_ ← GetConfigOrDie; p).
Proof.
  intros Hp s r s' Hr. apply runs_bind_inv in Hr as ([] & s1 & H1 & H2).
  apply runs_bind_inv in H1 as ([err|[]] & s2 & E & H1); [by inversion H1|]. apply runs_call_inv in E. cbn in E. subst s2.
  apply runs_ret_inv in H1 as [_ ->]. pose proof (Hp _ _ _ H2) as Hd. destruct r as [err|a].
  - destruct Hd as (l1 & st & l2 & -> & ->). exists (GetConfig :: l1), st, l2. by rewrite <- app_assoc.
  - cbn in Hd |- *. by rewrite Hd, <- app_assoc.
Qed.
Lemma does_each {A} (g : A -> step) l : does (g <$> l) (for_each l (λ x, do_step (g x))).
Proof.
  induction l as [|x l IH]; [apply does_ret|]. rewrite fmap_cons. change (g x :: (g <$> l)) with ([g x] ++ (g <$> l)).
  cbn [for_each]. apply does_then; [apply does_step|intros; apply IH].
Qed.
Lemma does_add c w : does (add_steps c w) (add_watcher c w).
Proof. destruct w; [apply does_step|apply does_ret]. Qed.

(** The start does what the settings ask for, in this order, and ends at the first step
    that fails, with its error; the manager runs when all its reconcilers are set up. *)
Theorem controllers_Start_spec flags : does (start_steps flags) (controllers_Start flags).
Proof.
  eapply does_try; [apply does_new_watcher|intros; by eapply new_watcher_watches|intros webhook ->].
  eapply does_try; [apply does_new_watcher|intros; by eapply new_watcher_watches|intros metrics ->].
  apply does_config. apply does_then; [apply does_step|intros _]. apply does_then; [apply does_each|intros _].
  apply does_then; [apply does_add|intros _]. apply does_then; [apply does_add|intros _].
  do 2 (apply does_then; [apply does_step|intros _]). apply does_step.
Qed.

(** Metrics are not served over HTTP/2 unless it is enabled, certificate or not. *)
Lemma no_http2 flags w m t : cf_EnableHTTP2 flags = false ->
  NextProtos (served_tls (mo_MetricsTLS (manager_options flags w m)) t) = ["http/1.1"] /\
  NextProtos (served_tls (mo_WebhookTLS (manager_options flags w m)) t) = ["http/1.1"].
Proof. intros E. unfold manager_options, base_tls. cbn. rewrite E. by destruct w, m. Qed.

(** ** The settings of the command *)

(** Its flags on a command line where some are given. *)
Definition given_flags (given : list (string * value)) : list Flag :=
  (λ nv, match list_find (λ g, g.1 = nv.1) given with
         | Some (_, g) => {| fl_Name := nv.1; fl_Value := g.2; fl_Changed := true |}
         | None => {| fl_Name := nv.1; fl_Value := nv.2; fl_Changed := false |}
         end) <$> controller_flags.
Definition started_with (given : list (string * value)) : option (string * string * bool * bool) :=
  (λ r : gresult unit * _, let c : Config := r.2.2 in (cf_MetricsAddr c, cf_ProbeAddr c, cf_SecureMetrics c, cf_EnableLeaderElection c)) <$>
    (files_run (given_flags given) ∅).1.
(** The address of metrics is not that of its flag, whose default is to serve none. *)
Example metrics_flag_ignored :
  started_with [] = Some (":8443", ":8081", true, false) /\
  started_with [("metrics-bind-address", VString ":9090"); ("leader-elect", VBool true)] = Some (":8443", ":8081", true, true).
Proof. split; vm_compute; reflexivity. Qed.
(** No flag of the command saves: it is started as if it were not asked to. *)
Lemma never_saves `{ViperLibrary} env given cm c :
  controller_cmd env (given_flags given) cm c = translate (@KManager) (controllers_Start c).
Proof.
  unfold controller_cmd, flag_bool. replace (flag_lookup (given_flags given) "save") with (@None Flag); [done|].
  unfold flag_lookup, given_flags, controller_flags. cbn [fmap list_fmap].
  repeat (rewrite filter_cons_False by (repeat case_match; cbn; done)). done.
Qed.
