(* ===== verification/Windows.v ===== *)
(** * Windows: the process of an agent on Windows ([internal/agent/run_windows.go])

    The node is made as elsewhere (Boot); the process around it differs: no file with its
    number, no telemetry, and [Stop] speaks to a socket. *)

From S2P Require Import Device.
From S2P Require Import Prelude Prog Net Api Message Infra Transport Agent Dialers Ai Mgmt Peers Push Signal RelayLink Boot.
From S2P Require Config.

(** [WExit]: the process ends, and what is returned is of no account.  [WStartProcess]: of a
    program, with its output in the log or nowhere. *)
Inductive winE : Type -> Type :=
| WBoot {T} (e : bootE T) : winE T
| WStat (path : string) : winE Config.stat
| WStartProcess (path : string) (args env : list string) (logged : bool) : winE (gresult unit)
| WExit (code : Z) : winE unit
| WDone : winE unit
| WCloseUAPI : winE unit
| WNewClient : winE (gresult unit)
| WDial (path : string) : winE (gresult unit)
| WWrite (data : string) : winE (gresult unit)
| WRead : winE (gresult string)
| WClose : winE unit.
Abbreviation wprog := (prog winE).
Definition bcall {T} (e : bootE T) : wprog T := call (WBoot e).

(** ** In the background *)

Definition win_logDir : string := "C:\ProgramData\lattice\logs".
Definition win_args (args : list string) : list string :=
  filter (λ a, a <> "--daemon" /\ a <> "-d" /\ a <> "--foreground" /\ a <> "-f") args.
Definition win_logged (level : string) : bool := negb (bool_decide (level = "")) && negb (bool_decide (level = "slient")).

Definition win_log_dir : wprog (gresult unit) :=
  st ← call (WStat win_logDir);
  match st with Config.Exists => Ret (inr tt) | _ => bcall (BMkdirAll win_logDir) end.
(** The parent of the process in the background, which ends in every case. *)
Definition win_spawn (level : string) (environ : list string) : wprog (gresult unit) :=
  _ ←? win_log_dir;
  _ ←? bcall (BOpenLog (win_logDir +:+ "\lattice.log"));
  path ←? bcall BExecutable;
  args ← bcall BArgs;
  call (WStartProcess path (win_args args) (daemon_env environ) (win_logged level)).
Definition win_daemon (level : string) (environ : list string) : wprog unit :=
  r ← win_spawn level environ; call (WExit match r with inl _ => 1 | inr _ => 0 end).

(** ** In the foreground *)

Section start.
Context `{ClientJSON} `{WireGuardKeys} `{NodeKeys}.

(** One variable holds the error of starting the node and that of listening; the first is
    gone when it is returned. *)
Definition win_run (flags : StartFlags) : wprog (gresult unit) :=
  _ ← (if sf_EnableDNS flags then bcall (BGo "dns") else Ret tt);
  m ←? translate (@WBoot) (NewNode (sf_Node flags));
  started ← translate (@WBoot) (translate BDevice (node_Start (ip_PrivateKey (md_current m)) (md_Node m)));
  _ ← bcall (BGo "heartbeat");
  err ← bcall (BUAPIListen (nd_Name (md_Node m)));
  match err with
  | inl _ => _ ← call (WExit (-1)); Ret err
  | inr _ => _ ← bcall (BGo "uapi"); _ ← call WDone; _ ← call WCloseUAPI; Ret err
  end.
Definition win_Start (flags : StartFlags) : wprog (gresult unit) :=
  daemon ← (if sf_EnableDaemon flags then
              environ ← bcall BEnviron; d ← bcall (BGetenv "LATTICE_DAEMON");
              if bool_decide (d = "") then _ ← win_daemon (sf_Level flags) environ; Ret true else Ret false
            else Ret false);
  if daemon : bool then Ret (inr tt) else win_run flags.
End start.

(** ** Stopping *)

Definition win_socket (name : string) : string := "/var/run/wireguard/" +:+ name +:+ ".sock".
Definition talk : wprog (gresult unit) :=
  sent ← call (WWrite ("stop" +:+ String newline ""));
  match sent with
  | inl err => Ret (inl (ErrWrap "send stop failed" err))
  | inr _ =>
      got ← call WRead;
      Ret match got with inl err => inl (ErrWrap "receive error" err) | inr _ => inr tt end
  end.
Definition stopViaPIDFile (name : string) : wprog (gresult unit) :=
  st ← call (WStat (win_socket name));
  match st with
  | Config.Missing => Ret (inl (ErrText ("file " +:+ win_socket name +:+ " not exists")))
  | _ =>
      dialed ← call (WDial (win_socket name));
      match dialed with
      | inl err => Ret (inl (ErrWrap "lattice sock connect failed" err))
      | inr _ => r ← talk; _ ← call WClose; Ret r
      end
  end.
(** The first interface, when none is named.  Without a client nothing is stopped, and that is
    no error. *)
Definition win_Stop (interfaceName : string) : wprog (gresult unit) :=
  if negb (bool_decide (interfaceName = "")) then stopViaPIDFile interfaceName
  else
    client ← call WNewClient;
    match client with
    | inl _ => Ret (inr tt)
    | inr _ =>
        ifaces ←? bcall BDevices;
        match ifaces with
        | [] => Ret (inl (ErrText "Lattice daemon is not running, no ifaces found"))
        | name :: _ => stopViaPIDFile name
        end
    end.

(** ** Correctness *)

Section facts.
Context `{ClientJSON} `{WireGuardKeys} `{NodeKeys}.

(** Where a process that exits goes no further, one that was not sent to the background returns
    an error only when its node could not be made: that it did not start is forgotten. *)
Theorem win_Start_errors {S} (h : forall T, winE T -> S -> T -> S -> Prop) flags s err s' :
  (forall c s r s', ~ h unit (WExit c) s r s') -> sf_EnableDaemon flags = false ->
  runs h (win_Start flags) s (inl err) s' ->
  exists s1, runs h (translate (@WBoot) (NewNode (sf_Node flags))) s1 (inl err) s'.
Proof.
  intros Hexit Hd Hr. unfold win_Start in Hr. rewrite Hd in Hr. apply runs_bind_inv in Hr as (d & s1 & Hr1 & Hr).
  apply runs_ret_inv in Hr1 as [-> ->]. apply runs_bind_inv in Hr as ([] & s2 & _ & Hr).
  apply runs_bind_inv in Hr as ([e|m] & s3 & Hm & Hr).
  { apply runs_ret_inv in Hr as [[= ->] ->]. by exists s2. }
  apply runs_bind_inv in Hr as (r & s4 & _ & Hr). apply runs_bind_inv in Hr as ([] & s5 & _ & Hr).
  apply runs_bind_inv in Hr as ([e|[]] & s6 & _ & Hr).
  - apply runs_bind_inv in Hr as (u & s7 & Hx%runs_call_inv & _). by destruct (Hexit (-1) s6 u s7).
  - apply runs_bind_inv in Hr as (u1 & s7 & _ & Hr). apply runs_bind_inv in Hr as (u2 & s8 & _ & Hr).
    apply runs_bind_inv in Hr as (u3 & s9 & _ & Hr). by apply runs_ret_inv in Hr as [? _].
Qed.

(** The child of a process in the background is not sent there again. *)
Lemma daemon_flags_dropped args a : a ∈ win_args args -> a ∈ args /\ a <> "--daemon" /\ a <> "-d".
Proof. unfold win_args. rewrite list_elem_of_filter. tauto. Qed.
End facts.

(** ** A device that does not come up *)

Definition dead_boot T (e : bootE T) : T :=
  match e in bootE T return T with
  | BDevice _ e => match e in deviceE T return T with DUp => inl (ErrText "no adapter") | e => accepting_device _ e end
  | e => accepting_boot _ e
  end.
Definition win_handler T (e : winE T) (s : list string) : T * list string :=
  match e in winE T return T * list string with
  | WBoot e => (dead_boot _ e, s)
  | WStat _ => (Config.Missing, s)
  | WStartProcess _ _ _ _ | WDial _ | WNewClient => (inr tt, s)
  | WWrite data => (inr tt, s ++ [data])
  | WRead => (inr "", s)
  | WExit _ | WDone | WCloseUAPI | WClose => (tt, s)
  end.
(** The agent runs, sends heartbeats and ends without an error; the node was never started. *)
Example start_error_lost :
  (run win_handler (@win_Start laptop_json seven_keys seven_node (laptop_flags "wf0")) []).1 = Some (inr tt) /\
  (run (λ T e s, (dead_boot T e, s)) (@agent_Start laptop_json seven_keys seven_node (laptop_flags "wf0")) tt).1 =
    Some (inl (ErrText "no adapter")).
Proof. split; vm_compute; reflexivity. Qed.
(** No such socket: WireGuard listens on a pipe there. *)
Example stop_needs_a_socket :
  run win_handler (win_Stop "wf0") [] = (Some (inl (ErrText "file /var/run/wireguard/wf0.sock not exists")), []).
Proof. reflexivity. Qed.
